(* ===== verification/_CoqProject ===== *)
-Q . S2P
Prelude.v
Memory.v
DList.v
KList.v
AllocSpec.v
StringLib.v
Buffer.v
KString.v
Spinlock.v
SpinlockTheorems.v
Kmalloc.v
KmallocInv.v
KmallocSpec.v
Pipe.v
Pmm.v
PmmSpec.v
Vmm.v
PageTable.v
VmmSpec.v
VmmUser.v
VmmTheorems.v
Sched.v
SchedSpec.v
SchedTheorems.v
Signal.v
SignalTheorems.v
Ramfs.v
RamfsInv.v
RamfsOps.v
RamfsData.v
RamfsDir.v
RamfsTheorems.v
Vfs.v
VfsSpec.v
VfsTheorems.v
VfsFiles.v
Dns.v
DnsSpec.v
DnsTheorems.v
Packet.v
PacketSpec.v
Net.v
NetSpec.v
NetInv.v
NetStream.v
NetTheorems.v
Elf.v
ElfSpec.v
ElfTheorems.v
Syscall.v
SyscallSpec.v
SyscallTheorems.v
SyscallExec.v
Event.v
EventSpec.v
EventTheorems.v
Aslr.v
VfsCompat.v
Process.v
ProcessSpec.v
ProcessTheorems.v
Surface.v
Compositor.v
Windows.v
Socket.v
KModule.v
Ext4.v
Ext4Total.v
Ext4Spec.v
HeapPool.v
Ext4Alloc.v
Ext4Nodes.v
Ext4Map.v
Ext4File.v
Ext4Rw.v
Ext4Dir.v
Ext4Create.v
Ext4Mount.v
Ext4Demo.v
Ext4Theorems.v
