(* ===== verification/Prelude.v ===== *)
(** * A verification library for the GC-AOS kernel

    GC-AOS is a small operating system in C.  This development models its core -
    memory management, scheduling and signals, locks, pipes, file systems, the
    TCP/IP stack, the name resolver, the program loader, the system calls, the event
    system, processes, sockets, modules, drawing and the ext4 driver - and
    proves what makes each part correct, what it promises to the parts
    above it and, where the code falls short of that, what it does instead.
    Paths are relative to [src/kernel] unless they say otherwise.

    ** How the code is modelled

    - An operation is a function from a state to an [outcome]: [Ok] with the result
      and the new state, [Fault] where the C program has no defined behaviour
      (null and dangling pointers, accesses outside a buffer, overflow of signed
      arithmetic, division by zero), [NoFuel] where the fuel of a loop ran
      out.  An error code of the C function is part of the result.  A correctness
      theorem gives [Ok], so it also says that the code returns.
    - Integers are [Z]; unsigned wrap-around is [u8] to [u64] and conversion
      to a signed type [i32], [i64], written where the source has them.
    - Structures are records, objects on the heap are entries of finite
      maps from addresses, 0 is the null pointer.  Pointers into pools and static
      objects are small numbers, as the header of each file says.
    - Fuel: loops over memory take the number of mapped addresses plus one, loops
      over a linked structure the number of its nodes plus one, loops bounded by a
      constant of the code that constant; the theorems show that each is enough.
      Only the dynamic section of an image (loader) and endless name compression
      (resolver) take the fuel as an argument: the theorems ask for enough, or say that
      no amount is.
    - What allocated memory holds before it is written is an argument ([junk],
      [uninit]).  A client of the heap that only needs its contract is stated over the
      class [Allocator] and proved under [AllocatorLaws]; [room] and [roomy] say that the
      heap can serve so many more objects, whichever sizes they have.
    - A critical section under a spin lock is one step where a component is used from
      several CPUs ([Pipe]); the lock code itself is modelled instruction by
      instruction ([Spinlock]).  Elsewhere the lock is a flag or left out.
    - Console output is left out.

    ** The files

    - [Prelude] (this file): machine integers, the [outcome] monad, rounding, reachability
      ([star]) and shared lemmas.  [Memory]: byte memory.  [Buffer]: byte
      buffers, and structures as bytes.  [DList]: doubly linked segments.
    - [StringLib]: lib/string.c.  [KString]: lib/kstring.c.
    - [AllocSpec]: the contracts of include/mm/kmalloc.h and of include/mm/pmm.h.  [Kmalloc], [KmallocInv],
      [KmallocSpec]: mm/kmalloc.c, its invariant (blocks tile the heap, the free list is
      the free blocks) and its correctness, [kheap_laws] the contract.
      It ends with the heap of a machine with 1 GB, for the concrete instances.
    - [Pmm], [PmmSpec]: mm/pmm.c as a first-fit allocator over a set of used
      pages, which keeps the contract its clients see.
    - [Vmm], [PageTable], [VmmSpec], [VmmUser], [VmmTheorems]: mm/vmm.c as a map from
      virtual pages to entries.
    - [Spinlock], [SpinlockTheorems]: sync/spinlock.c on four architectures.
    - [Pipe]: ipc/pipe.c.
    - [Sched], [SchedSpec], [SchedTheorems]: sched/sched.c over [Pmm].  [Signal],
      [SignalTheorems]: sched/signal.c over [Sched].
    - [Ramfs], [RamfsInv], [RamfsOps], [RamfsData], [RamfsDir], [RamfsTheorems]: fs/ramfs.c over any
      allocator.  [Vfs], [VfsSpec], [VfsTheorems], [VfsFiles]: fs/vfs.c over it.
    - [Dns], [DnsSpec], [DnsTheorems]: net/dns.c.  [Packet], [PacketSpec], [Net], [NetSpec], [NetInv],
      [NetStream], [NetTheorems]: net/tcp_ip.c, with the byte order functions of net/socket.c.
    - [Elf], [ElfSpec], [ElfTheorems]: loader/elf.c.
    - [Syscall], [SyscallSpec], [SyscallTheorems], [SyscallExec]: syscall/syscall.c over
      [Vfs], [Sched], [Elf] and the heap.
    - [KList]: include/kernel/list.h, as links between addresses.  [Event], [EventSpec],
      [EventTheorems]: core/event_system.c over these lists and any allocator.
    - [Aslr]: mm/aslr.c.  [VfsCompat]: fs/vfs_compat.c.  [Process], [ProcessSpec] (the invariant,
      killing and creation) and [ProcessTheorems]: core/process.c over both, the loader
      and any allocator.
    - [Socket]: net/socket.c.  [KModule]: core/module.c, whose list of modules is printed by [KString].  Both over any
      allocator.
    - [Surface] (drawing), [Compositor] (dirty regions, cursor) and [Windows] (the table and stack of windows, the
      mouse on their frames): the core of gui/window.c.
    - [Ext4]: fs/ext4.c, its structures as bytes.  [Ext4Total] (every operation ends and frees its
      buffers, whatever is on the disk), [Ext4Spec] (what the driver relies on, the
      layout of a disk), [HeapPool] (the kernel heap provides it), [Ext4Alloc] (bitmaps and counters), [Ext4Nodes]
      (used blocks and inodes), [Ext4Map] (block maps), [Ext4File], [Ext4Rw] (reading,
      writing and truncation), [Ext4Dir] (directories), [Ext4Create] (new
      files), [Ext4Mount], [Ext4Demo] (a small disk), [Ext4Theorems].

    ** What the theorems show

    - Heap and pages: allocation returns fresh memory exactly when there is some, freeing
      gives back exactly one block, the invariants hold always, live blocks never overlap; the page
      tables implement a map that changes at one page at a time, and a range is mapped as
      a whole or not at all.
    - Concurrency: every interleaving of the lock code of ARM64 and x86 is a run of an abstract lock with one
      owner (the fallback for other architectures, which its comment calls unsafe, is left out) and no wake-up is lost; every interleaving of readers and writers of a pipe delivers
      the bytes in order.
    - Tasks: the run queue and the current task stay well formed from boot on, unless the idle task exits or
      a task that went to sleep is woken, and then they do not ([SignalTheorems.sched_reachable_inv]); what
      exit, signals and [schedule] do, among it that queued tasks never get their turn.
    - Files: the operations of the file system and of the switch do to the tree of
      directories and to the bytes of the files what their names say, errors included; what is
      written is read back; path lookup is a walk down the tree.
    - Network: what a connection delivers is a prefix of what was sent, and all of it once the
      frames arrive; no call and no well-formed frame makes the stack fault; names and frames
      survive encoding and decoding.
    - Programs: the loader writes exactly the segments of an image and its relocations, or rejects it.
    - System calls: from every state of the invariant that ties the descriptor table to the open
      files, every call returns and keeps it; files through descriptors, mappings that never
      overlap, and execve, which uses every component above and gives back all but what [vfs_open] keeps.

    - Events: what is posted is delivered in order, every event is in exactly one place, and handlers
      are called by priority until one consumes the event, as long as they leave the registered
      handlers alone; what a disabled system does to the pool.
    - Processes: in every reachable state at most the current slot runs and stacks are live and separate;
      the timer serves every ready slot, at every tick another one; killing frees exactly the descendants; a process that
      exits finds the context of the kernel that the switch to it saved ([irq_handler] is the part of boot.S that does this); and how the parent
      that is recorded and the slot of a failed start betray their purpose.

    - Sockets and modules: the calls implement a map from descriptors, and a list of names with
      reference counts; two memory blocks belong to each module; a failed load keeps its reference for ever.
      Formatted text never leaves its buffer, and what it says of numbers is stated apart from the code.

    - User interface: rectangles, lines and text colour exactly the points they should; no stale pixel
      stays on the screen when a frame ends, and the cursor leaves no trace; the stack of windows is a chain of the live
      ones through any session of calls and mouse events, each with a surface of its own unless its allocation failed; and how a resize by the right edge moves the window.

    - ext4: on a device that works, with room for three buffers, the driver's allocations, reads and
      writes do what they should to sets of blocks and bytes of files, as long as the pointers of live inodes are
      distinct used blocks, which they keep and truncation breaks; a new entry is an insertion into the list of
      the entries of a directory, and a new file changes no other file, or fails and changes nothing; mounting gives such a state for one kind
      of disk; and on any disk at all an operation ends and gives back its memory.

    Each component's last file ends with its theorems on a concrete system: a booted heap, file
    system, scheduler or kernel, on which the hypotheses hold.

    ** What is not modelled

    Assembly and system registers (context switches, TLB maintenance, exception entry), device
    drivers and the boot protocol, which are memory-mapped I/O; the rest of the graphical user
    interface and the applications, which lay out their contents with constants; media decoders and image data,
    which are vendored or generated; user programs.  Code that no path of the kernel reaches: the slab
    allocator, whose caches cannot be created because the first one would be allocated from them,
    fork and exec in sched/fork.c, the two other schedulers, memory validation, the APFS reader and the sandbox. *)
From stdpp Require Export base functions gmap fin_maps list.
From Stdlib Require Export ZArith Lia.

#[global] Set Default Proof Using "Type".
#[local] Open Scope Z_scope.

(** Euclidean-division goals. *)
Ltac lia_mod := Z.to_euclidean_division_equations; lia.

(** ** Machine integers

    A C integer of [w] bits is a [Z] in range; the wrap-around of an unsigned
    operation is written where the source performs it. *)

Definition u8 (z : Z) : Z := z mod 2 ^ 8.
Definition u16 (z : Z) : Z := z mod 2 ^ 16.
Definition u32 (z : Z) : Z := z mod 2 ^ 32.
Definition u64 (z : Z) : Z := z mod 2 ^ 64.

(** Conversion of an unsigned value to [int] / [int64_t] (two's complement). *)
Definition i32 (z : Z) : Z := (z + 2 ^ 31) mod 2 ^ 32 - 2 ^ 31.
Definition i64 (z : Z) : Z := (z + 2 ^ 63) mod 2 ^ 64 - 2 ^ 63.

Definition SIZE_MAX : Z := 2 ^ 64 - 1.

Lemma u64_range z : 0 <= u64 z < 2 ^ 64.
Proof. apply Z.mod_pos_bound. lia. Qed.

Lemma u64_small z : 0 <= z < 2 ^ 64 -> u64 z = z.
Proof. apply Z.mod_small. Qed.

Lemma u32_small z : 0 <= z < 2 ^ 32 -> u32 z = z.
Proof. apply Z.mod_small. Qed.

Lemma u8_small z : 0 <= z < 2 ^ 8 -> u8 z = z.
Proof. apply Z.mod_small. Qed.

Lemma u8_range z : 0 <= u8 z < 256.
Proof. apply Z.mod_pos_bound. lia. Qed.

Lemma i32_small z : - 2 ^ 31 <= z < 2 ^ 31 -> i32 z = z.
Proof. intros. unfold i32. rewrite Z.mod_small; lia. Qed.

Lemma i64_small z : - 2 ^ 63 <= z < 2 ^ 63 -> i64 z = z.
Proof. intros. unfold i64. rewrite Z.mod_small; lia. Qed.

(** ** Pages (include/mm/pmm.h) *)

Definition PAGE_SIZE : Z := 4096.
Definition PAGE_ALIGN_DOWN (a : Z) : Z := Z.land a (Z.lnot (PAGE_SIZE - 1)).
Definition PAGE_ALIGN (a : Z) : Z :=
  Z.land (u64 (a + PAGE_SIZE - 1)) (Z.lnot (PAGE_SIZE - 1)).
Definition PHYS_TO_PFN (a : Z) : Z := Z.shiftr a 12.

(** Masking with [~(2^k - 1)] rounds down to a multiple of [2^k]. *)
Lemma land_lnot_ones a k : 0 <= k -> Z.land a (Z.lnot (Z.ones k)) = a - a mod 2 ^ k.
Proof.
  intros Hk. rewrite <- Z.ldiff_land, Z.ldiff_ones_r by lia.
  rewrite Z.shiftl_mul_pow2, Z.shiftr_div_pow2 by lia.
  pose proof (Z.div_mod a (2 ^ k)). lia.
Qed.

Lemma PAGE_ALIGN_DOWN_spec a : PAGE_ALIGN_DOWN a = a - a mod PAGE_SIZE.
Proof. exact (land_lnot_ones a 12 ltac:(lia)). Qed.

Lemma PAGE_ALIGN_spec a : 0 <= a < 2 ^ 64 - PAGE_SIZE ->
  PAGE_ALIGN a = (a + 4095) / 4096 * 4096.
Proof.
  intros H. unfold PAGE_ALIGN, PAGE_SIZE in *.
  rewrite u64_small by lia. change (Z.lnot (4096 - 1)) with (Z.lnot (Z.ones 12)).
  rewrite land_lnot_ones by lia. change (2 ^ 12) with 4096. lia_mod.
Qed.

Lemma PHYS_TO_PFN_spec a : PHYS_TO_PFN a = a / PAGE_SIZE.
Proof. unfold PHYS_TO_PFN. rewrite Z.shiftr_div_pow2 by lia. done. Qed.

(** ** errno values (include/fs/vfs.h) *)

Definition EPERM : Z := 1.
Definition ENOENT : Z := 2.
Definition EIO : Z := 5.
Definition EBADF : Z := 9.
Definition ENOMEM : Z := 12.
Definition EFAULT : Z := 14.
Definition EBUSY : Z := 16.
Definition EEXIST : Z := 17.
Definition ENODEV : Z := 19.
Definition ENOTDIR : Z := 20.
Definition EISDIR : Z := 21.
Definition EINVAL : Z := 22.
Definition EPIPE : Z := 32.
Definition ENOSYS : Z := 38.
Definition ENOTEMPTY : Z := 39.

(** The null pointer. *)
Definition NULL : Z := 0.

(** ** Outcomes

    [Fault] is an access the C abstract machine gives no meaning to (a null or
    unmapped dereference, a division by zero); [NoFuel] is a loop that the
    given bound did not finish. *)

Inductive outcome (A : Type) : Type :=
| Ok (a : A)
| Fault
| NoFuel.
Arguments Ok {A} a.
Arguments Fault {A}.
Arguments NoFuel {A}.

#[export] Instance outcome_ret : MRet outcome := fun _ a => Ok a.
#[export] Instance outcome_bind : MBind outcome :=
  fun _ _ f o => match o with Ok a => f a | Fault => Fault | NoFuel => NoFuel end.

Definition of_option {A} (o : option A) : outcome A :=
  match o with Some a => Ok a | None => Fault end.

(** The result of an [int] operation whose exact value is [z]. *)
Definition int_arith (z : Z) : outcome Z := if (- 2 ^ 31 <=? z) && (z <? 2 ^ 31) then Ok z else Fault.

Lemma int_arith_ok z : - 2 ^ 31 <= z < 2 ^ 31 -> int_arith z = Ok z.
Proof. intros H. unfold int_arith. by rewrite (proj2 (Z.leb_le _ _)), (proj2 (Z.ltb_lt _ _)) by lia. Qed.

Lemma bind_ok {A B} (f : A -> outcome B) a : mbind f (Ok a) = f a.
Proof. done. Qed.

Lemma bind_ok_inv {A B} (f : A -> outcome B) (o : outcome A) b :
  mbind f o = Ok b -> exists a, o = Ok a /\ f a = Ok b.
Proof. destruct o; simpl; intros H; [eauto | discriminate | discriminate]. Qed.

Lemma of_option_ok {A} (o : option A) a : of_option o = Ok a <-> o = Some a.
Proof. destruct o; simpl; split; congruence. Qed.

Create HintDb kernel discriminated.

(** Peel one successful bind off a hypothesis. *)
Ltac inv_bind H :=
  let a := fresh "v" in let Ha := fresh "Hv" in
  apply bind_ok_inv in H as (a & Ha & H).

(** Case on every [if]/[match] scrutinee of the goal or of the hypotheses. *)
Ltac cases :=
  repeat (case_match; simplify_eq/=; try done).

(** Turn boolean comparisons on [Z] into propositions. *)
Ltac b2p :=
  repeat match goal with
  | H : (_ && _)%bool = true |- _ => apply andb_true_iff in H as [? ?]
  | H : (_ || _)%bool = false |- _ => apply orb_false_iff in H as [? ?]
  | H : negb _ = true |- _ => apply negb_true_iff in H
  | H : negb _ = false |- _ => apply negb_false_iff in H
  | H : (_ =? _) = true |- _ => apply Z.eqb_eq in H
  | H : (_ =? _) = false |- _ => apply Z.eqb_neq in H
  | H : (_ <? _) = true |- _ => apply Z.ltb_lt in H
  | H : (_ <? _) = false |- _ => apply Z.ltb_ge in H
  | H : (_ <=? _) = true |- _ => apply Z.leb_le in H
  | H : (_ <=? _) = false |- _ => apply Z.leb_gt in H
  end.

(** ** Single bits *)

Lemma testbit_set x j i : 0 <= j -> 0 <= i ->
  Z.testbit (Z.lor x (Z.shiftl 1 j)) i = (i =? j) || Z.testbit x i.
Proof.
  intros. rewrite Z.lor_spec, Z.shiftl_1_l, Z.pow2_bits_eqb, orb_comm by lia.
  by rewrite Z.eqb_sym.
Qed.

Lemma testbit_clear x j i : 0 <= j -> 0 <= i ->
  Z.testbit (Z.land x (Z.lnot (Z.shiftl 1 j))) i = negb (i =? j) && Z.testbit x i.
Proof.
  intros. rewrite Z.land_spec, Z.lnot_spec, Z.shiftl_1_l, Z.pow2_bits_eqb, andb_comm by lia.
  by rewrite Z.eqb_sym.
Qed.

(** [x & (1 << j)] is non-zero exactly when bit [j] is set. *)
Lemma land_bit x j : 0 <= j -> (Z.land x (Z.shiftl 1 j) =? 0) = negb (Z.testbit x j).
Proof.
  intros Hj. rewrite Z.shiftl_1_l.
  destruct (Z.testbit x j) eqn:E; simpl.
  - apply Z.eqb_neq. intros H0.
    assert (Z.testbit (Z.land x (2 ^ j)) j = false) as H by (rewrite H0; apply Z.testbit_0_l).
    rewrite Z.land_spec, E, Z.pow2_bits_true in H by lia. done.
  - apply Z.eqb_eq, Z.bits_inj'. intros n Hn.
    rewrite Z.land_spec, Z.pow2_bits_eqb, Z.testbit_0_l by lia.
    destruct (j =? n) eqn:En; b2p; subst; [by rewrite E | by rewrite andb_false_r].
Qed.

(** ** Finite sequences of steps *)

Section star.
Context {A : Type} (R : A -> A -> Prop).

Inductive star : A -> A -> Prop :=
| star_refl a : star a a
| star_step a b c : star a b -> R b c -> star a c.

(** An invariant of the initial state kept by every step holds in every reachable state. *)
Lemma star_inv (P : A -> Prop) :
  (forall a b, P a -> R a b -> P b) -> forall a b, star a b -> P a -> P b.
Proof. intros Hstep a b H. induction H; eauto. Qed.

Lemma star_trans a b c : star a b -> star b c -> star a c.
Proof. intros Hab Hbc. induction Hbc; eauto using star. Qed.
End star.

(** ** Lists *)

Lemma lookup_Z_to_nat_app_l {A} (l k : list A) i :
  0 <= i < Z.of_nat (length l) -> (l ++ k) !! Z.to_nat i = l !! Z.to_nat i.
Proof. intros. apply lookup_app_l. lia. Qed.

(** The first element satisfying a test, with its position. *)
Fixpoint find_index {A} (f : A -> bool) (l : list A) : option nat :=
  match l with
  | [] => None
  | x :: l' => if f x then Some 0%nat else S <$> find_index f l'
  end.

Lemma NoDup_mid_ne {A} (l1 l2 : list A) a x :
  NoDup (l1 ++ a :: l2) -> x ∈ l1 ++ l2 -> x <> a.
Proof.
  intros Hnd Hx ->. apply NoDup_app in Hnd as (_ & Hd & [Ha _]%NoDup_cons).
  apply elem_of_app in Hx as [Hx|Hx]; [|done]. apply (Hd a Hx), elem_of_cons. by left.
Qed.

Lemma elem_of_mid {A} (l1 l2 : list A) a x :
  x ∈ l1 ++ a :: l2 <-> x = a \/ x ∈ l1 ++ l2.
Proof. rewrite !elem_of_app, elem_of_cons. tauto. Qed.
