(* ===== verification/Memory.v ===== *)
(** * Byte memory: loads and stores that fault outside mapped memory *)
From S2P Require Import Prelude.
#[local] Open Scope Z_scope.

(** Memory maps the addresses that may be accessed to their bytes. *)
Abbreviation mem := (gmap Z Z).

Definition load8 (m : mem) (a : Z) : outcome Z := of_option (m !! a).

Definition store8 (m : mem) (a b : Z) : outcome mem :=
  match m !! a with Some _ => Ok (<[a := b]> m) | None => Fault end.

(** [bs] is stored at [a]. *)
Definition bytes_at (m : mem) (a : Z) (bs : list Z) : Prop :=
  forall i b, bs !! i = Some b -> m !! (a + Z.of_nat i) = Some b.

(** The [n] bytes from [a] may be accessed. *)
Definition mapped (m : mem) (a n : Z) : Prop :=
  forall x, a <= x < a + n -> is_Some (m !! x).

(** [m'] is [m] with [bs] written at [a] and nothing else changed. *)
Definition wrote (m m' : mem) (a : Z) (bs : list Z) : Prop :=
  forall x, m' !! x =
    if (a <=? x) && (x <? a + Z.of_nat (length bs))
    then bs !! Z.to_nat (x - a) else m !! x.

Lemma load8_ok m a b : m !! a = Some b -> load8 m a = Ok b.
Proof. intros H. unfold load8. by rewrite H. Qed.

Lemma store8_ok m a b : is_Some (m !! a) -> store8 m a b = Ok (<[a := b]> m).
Proof. intros [v H]. unfold store8. by rewrite H. Qed.

Lemma bytes_at_cons m a b bs :
  bytes_at m a (b :: bs) <-> m !! a = Some b /\ bytes_at m (a + 1) bs.
Proof.
  split.
  - intros H. split.
    + rewrite <- (Z.add_0_r a). by apply (H 0%nat).
    + intros i b' Hi. replace (a + 1 + Z.of_nat i) with (a + Z.of_nat (S i)) by lia.
      by apply H.
  - intros [H0 H] [|i] b' Hi; simplify_eq/=.
    + by rewrite Z.add_0_r.
    + replace (a + Z.of_nat (S i)) with (a + 1 + Z.of_nat i) by lia. by apply H.
Qed.

Lemma bytes_at_app m a xs ys :
  bytes_at m a (xs ++ ys) <-> bytes_at m a xs /\ bytes_at m (a + Z.of_nat (length xs)) ys.
Proof.
  revert a. induction xs as [|x xs IH]; intros a; simpl.
  - rewrite Z.add_0_r. split; [intros H; split; [intros i b Hi; done | done] | by intros [_ H]].
  - rewrite !bytes_at_cons, IH.
    replace (a + 1 + Z.of_nat (length xs)) with (a + Z.pos (Pos.of_succ_nat (length xs))) by lia.
    tauto.
Qed.

Lemma mapped_insert m a n x b : mapped m a n -> mapped (<[x := b]> m) a n.
Proof.
  intros H y Hy. destruct (decide (x = y)) as [->|].
  - rewrite lookup_insert_eq. eauto.
  - rewrite lookup_insert_ne by done. auto.
Qed.

Lemma mapped_sub m a n a' n' : mapped m a n -> a <= a' -> a' + n' <= a + n -> mapped m a' n'.
Proof. intros H ?? x ?. apply H. lia. Qed.

Lemma bytes_at_insert_out m a bs x b :
  ~ (a <= x < a + Z.of_nat (length bs)) -> bytes_at m a bs -> bytes_at (<[x := b]> m) a bs.
Proof.
  intros Hx H i b' Hi. rewrite lookup_insert_ne; [by apply H|].
  apply lookup_lt_Some in Hi. lia.
Qed.

Lemma wrote_nil m a : wrote m m a [].
Proof.
  intros x. simpl. rewrite Z.add_0_r.
  destruct (Z.leb_spec a x), (Z.ltb_spec x a); simpl; done || lia.
Qed.

(** A write of [b :: bs] is the write of [b] followed by that of [bs]. *)
Lemma wrote_cons m m' a b bs :
  wrote (<[a := b]> m) m' (a + 1) bs -> wrote m m' a (b :: bs).
Proof.
  intros H x. rewrite H. simpl.
  destruct (decide (x = a)) as [->|Hne].
  - rewrite (proj2 (Z.leb_gt _ _)) by lia. simpl. rewrite lookup_insert_eq.
    rewrite Z.leb_refl, (proj2 (Z.ltb_lt _ _)) by lia. simpl. by rewrite Z.sub_diag.
  - rewrite lookup_insert_ne by done.
    destruct (Z.leb_spec (a + 1) x), (Z.ltb_spec x (a + 1 + Z.of_nat (length bs))),
      (Z.leb_spec a x), (Z.ltb_spec x (a + Z.of_nat (S (length bs))));
      simpl; try done; try lia.
    replace (Z.to_nat (x - a)) with (S (Z.to_nat (x - (a + 1)))) by lia. done.
Qed.

(** A write of [bs ++ [b]] is the write of [b] at the end followed by that of [bs]. *)
Lemma wrote_snoc m m' a b bs :
  wrote (<[a + Z.of_nat (length bs) := b]> m) m' a bs -> wrote m m' a (bs ++ [b]).
Proof.
  intros H x. rewrite H, length_app. simpl.
  destruct (decide (x = a + Z.of_nat (length bs))) as [->|Hne].
  - rewrite (proj2 (Z.leb_le _ _)) by lia. rewrite Z.ltb_irrefl. simpl.
    rewrite lookup_insert_eq, (proj2 (Z.ltb_lt _ _)) by lia.
    replace (Z.to_nat _) with (length bs) by lia.
    by rewrite lookup_app_r, Nat.sub_diag by lia.
  - rewrite lookup_insert_ne by done.
    destruct (Z.leb_spec a x), (Z.ltb_spec x (a + Z.of_nat (length bs))),
      (Z.ltb_spec x (a + Z.of_nat (length bs + 1))); simpl; try done; try lia.
    by rewrite lookup_app_l by lia.
Qed.

Lemma wrote_bytes_at m m' a bs : wrote m m' a bs -> bytes_at m' a bs.
Proof.
  intros H i b Hi. rewrite H. pose proof (lookup_lt_Some _ _ _ Hi).
  rewrite (proj2 (Z.leb_le _ _)), (proj2 (Z.ltb_lt _ _)) by lia. simpl.
  by replace (Z.to_nat (a + Z.of_nat i - a)) with i by lia.
Qed.

Lemma wrote_frame m m' a bs x :
  wrote m m' a bs -> ~ (a <= x < a + Z.of_nat (length bs)) -> m' !! x = m !! x.
Proof.
  intros H Hx. rewrite H.
  destruct (Z.leb_spec a x), (Z.ltb_spec x (a + Z.of_nat (length bs))); simpl; done || lia.
Qed.

(** Little-endian loads of 2, 4 and 8 bytes. *)
Definition load16 (m : mem) (a : Z) : outcome Z :=
  b0 ← load8 m a; b1 ← load8 m (a + 1); Ok (b0 + 2 ^ 8 * b1).
Definition load32 (m : mem) (a : Z) : outcome Z :=
  l ← load16 m a; h ← load16 m (a + 2); Ok (l + 2 ^ 16 * h).
Definition load64 (m : mem) (a : Z) : outcome Z :=
  l ← load32 m a; h ← load32 m (a + 4); Ok (l + 2 ^ 32 * h).

(** Little-endian store of 8 bytes. *)
Definition store64 (m : mem) (a v : Z) : outcome mem :=
  m ← store8 m a (u8 v);
  m ← store8 m (a + 1) (u8 (Z.shiftr v 8));
  m ← store8 m (a + 2) (u8 (Z.shiftr v 16));
  m ← store8 m (a + 3) (u8 (Z.shiftr v 24));
  m ← store8 m (a + 4) (u8 (Z.shiftr v 32));
  m ← store8 m (a + 5) (u8 (Z.shiftr v 40));
  m ← store8 m (a + 6) (u8 (Z.shiftr v 48));
  store8 m (a + 7) (u8 (Z.shiftr v 56)).

(** ** Regions of the heap

    [kmalloc]ed bytes at [p] are part of the memory until they are freed. *)
Definition map_region (m : mem) (p : Z) (bs : list Z) : mem :=
  list_to_map (zip (seqZ p (Z.of_nat (length bs))) bs) ∪ m.
Definition unmap_region (m m0 : mem) (p n : Z) : mem :=
  filter (fun x => ~ (p <= fst x < p + n)) m ∪ filter (fun x => p <= fst x < p + n) m0.

Lemma map_region_out m p bs x : ~ (p <= x < p + Z.of_nat (length bs)) -> map_region m p bs !! x = m !! x.
Proof.
  intros Hx. unfold map_region. apply lookup_union_r. apply not_elem_of_list_to_map_1.
  rewrite fst_zip by (rewrite length_seqZ; lia). rewrite elem_of_seqZ. lia.
Qed.

Lemma unmap_region_out m m0 p n x : ~ (p <= x < p + n) -> unmap_region m m0 p n !! x = m !! x.
Proof.
  intros Hx. unfold unmap_region. rewrite lookup_union, !map_lookup_filter. destruct (m !! x) as [b|] eqn:E; cbn.
  - rewrite option_guard_True by done. cbn. rewrite union_Some_l. done.
  - destruct (m0 !! x); [|done]. cbn. by rewrite option_guard_False.
Qed.

Lemma unmap_region_in m m0 p n x : p <= x < p + n -> unmap_region m m0 p n !! x = m0 !! x.
Proof.
  intros Hx. unfold unmap_region. rewrite lookup_union, !map_lookup_filter.
  assert ((m !! x ≫= (fun v => guard (~ (p <= fst (x, v) < p + n));; Some v)) = None) as ->.
  { destruct (m !! x); [|done]. cbn. by rewrite option_guard_False by tauto. }
  rewrite (left_id None _). destruct (m0 !! x); [|done]. cbn. by rewrite option_guard_True.
Qed.

#[export] Hint Resolve mapped_insert mapped_sub wrote_nil : kernel.
