(* ===== verification/DList.v ===== *)
(** * Doubly and singly linked chains of nodes in a store

    Nodes live in a map from addresses; [nx] and [pv] read their link fields.
    [dseg h pp p xs q qn] says that the nodes [xs] form a segment that starts at
    [p], ends at [q], whose first node points back to [pp] and whose last node
    points on to [qn].  The heap's free list and the scheduler's run queue are
    such segments with [pp = qn = NULL]. *)
From S2P Require Import Prelude.
#[local] Open Scope Z_scope.

Section dlist.
Context {N : Type} (nx pv : N -> Z).
Implicit Types (h : gmap Z N) (xs ys : list Z) (p pp q qn : Z).

Fixpoint dseg h (pp p : Z) xs (q qn : Z) : Prop :=
  match xs with
  | [] => p = qn /\ q = pp
  | x :: xs' => x = p /\ p <> 0 /\
      exists n, h !! p = Some n /\ pv n = pp /\ dseg h p (nx n) xs' q qn
  end.

Lemma dseg_app h pp p xs ys q qn :
  dseg h pp p (xs ++ ys) q qn <->
  exists m mn, dseg h pp p xs m mn /\ dseg h m mn ys q qn.
Proof.
  revert pp p. induction xs as [|x xs IH]; intros pp p; simpl.
  - split; [by exists pp, p | by intros (m & mn & [-> ->] & ?)].
  - setoid_rewrite IH. split.
    + intros (-> & ? & n & ? & ? & m & mn & ? & ?). exists m, mn. eauto 10.
    + intros (m & mn & (-> & ? & n & ? & ? & ?) & ?). eauto 15.
Qed.

(** Only the links of the segment's own nodes matter. *)
Lemma dseg_frame h h' pp p xs q qn :
  (forall x, x ∈ xs -> forall n, h !! x = Some n ->
     exists n', h' !! x = Some n' /\ nx n' = nx n /\ pv n' = pv n) ->
  dseg h pp p xs q qn -> dseg h' pp p xs q qn.
Proof.
  revert pp p. induction xs as [|x xs IH]; intros pp p Hag; simpl; [done|].
  intros (-> & ? & n & Hn & Hp & Hs).
  destruct (Hag p ltac:(set_solver) n Hn) as (n' & Hn' & Hnx & Hpv).
  split; [done|]. split; [done|]. exists n'. rewrite Hnx, Hpv. split; [done|].
  split; [done|]. apply IH; [|done]. intros y Hy. apply Hag. set_solver.
Qed.

Lemma dseg_insert_out h pp p xs q qn a n :
  a ∉ xs -> dseg h pp p xs q qn -> dseg (<[a := n]> h) pp p xs q qn.
Proof.
  intros Ha. apply dseg_frame. intros x Hx m Hm. exists m.
  rewrite lookup_insert_ne by set_solver. done.
Qed.

Lemma dseg_lookup h pp p xs q qn x :
  dseg h pp p xs q qn -> x ∈ xs -> x <> 0 /\ is_Some (h !! x).
Proof.
  revert pp p. induction xs as [|y xs IH]; intros pp p; simpl; [set_solver|].
  intros (-> & ? & n & Hn & _ & Hs) Hx. apply elem_of_cons in Hx as [Hx|Hx]; [subst|]; eauto.
Qed.

(** The first node of a segment, or the node after an empty one. *)
Lemma dseg_head h pp p xs q qn : dseg h pp p xs q qn -> p = default qn (head xs).
Proof. destruct xs; simpl; naive_solver. Qed.

Lemma dseg_last h pp p xs q qn : dseg h pp p xs q qn -> q = default pp (last xs).
Proof.
  revert pp p. induction xs as [|x xs IH]; intros pp p; simpl; [naive_solver|].
  intros (-> & _ & n & _ & _ & Hs). rewrite (IH _ _ Hs).
  rewrite last_cons. by destruct (last xs).
Qed.

Lemma dseg_cons h pp p x xs q qn :
  dseg h pp p (x :: xs) q qn <->
  x = p /\ p <> 0 /\ exists n, h !! p = Some n /\ pv n = pp /\ dseg h p (nx n) xs q qn.
Proof. done. Qed.

Lemma dseg_null h pp p q qn xs : dseg h pp 0 xs q qn -> xs = [].
Proof. destruct xs; simpl; naive_solver. Qed.

(** Redirecting the back pointer of the first node. *)
Lemma dseg_set_pp h pp pp' p x xs q qn n n' :
  dseg h pp p (x :: xs) q qn -> h !! x = Some n -> x ∉ xs ->
  nx n' = nx n -> pv n' = pp' -> dseg (<[x := n']> h) pp' p (x :: xs) q qn.
Proof.
  rewrite !dseg_cons. intros (-> & ? & m & Hm & ? & Hs) Hn Hx Hnx Hpv.
  simplify_eq. split; [done|]. split; [done|]. exists n'.
  rewrite lookup_insert_eq. split; [done|]. split; [done|].
  rewrite Hnx. by apply dseg_insert_out.
Qed.

(** Redirecting the forward pointer of the last node. *)
Lemma dseg_set_qn h pp p xs x q qn qn' n n' :
  dseg h pp p (xs ++ [x]) q qn -> h !! x = Some n -> x ∉ xs ->
  nx n' = qn' -> pv n' = pv n -> dseg (<[x := n']> h) pp p (xs ++ [x]) q qn'.
Proof.
  rewrite !dseg_app. intros (m & mn & Hs & Hx) Hn Hnx Hq Hpv. exists m, mn.
  split; [by apply dseg_insert_out|]. simpl in *.
  destruct Hx as (-> & ? & k & Hk & Hp & <- & ->). simplify_eq.
  split; [done|]. split; [done|]. exists n'.
  rewrite lookup_insert_eq, Hpv. done.
Qed.

(** Unlinking one node: its neighbours are redirected, every other node of the
    segment keeps its links. *)
Lemma dseg_remove h h' pp p l1 a l2 q qn n :
  dseg h pp p (l1 ++ a :: l2) q qn -> NoDup (l1 ++ a :: l2) -> h !! a = Some n ->
  (forall x m, x ∈ l1 ++ l2 -> h !! x = Some m -> exists m', h' !! x = Some m' /\
     nx m' = (if decide (last l1 = Some x) then nx n else nx m) /\
     pv m' = (if decide (head l2 = Some x) then pv n else pv m)) ->
  exists q', dseg h' pp (if l1 is [] then nx n else p) (l1 ++ l2) q' qn.
Proof.
  intros Hs Hnd Hn. revert pp p Hs Hnd. induction l1 as [|x l1 IH]; intros pp p Hs Hnd Hag.
  - simpl in *. destruct Hs as (-> & _ & n0 & Hn0 & Hpv & Hs). simplify_eq.
    destruct l2 as [|y l2]; [exists (pv n); naive_solver|].
    destruct Hs as (-> & ? & m & Hm & Hpm & Hs).
    destruct (Hag (nx n) m ltac:(set_solver) Hm) as (m' & Hm' & Hnx & Hpv').
    rewrite decide_True in Hpv' by done.
    exists q. split; [done|]. split; [done|]. exists m'. split; [done|]. split; [done|].
    rewrite Hnx. revert Hs. apply dseg_frame. intros z Hz k Hk.
    destruct (Hag z k ltac:(set_solver) Hk) as (k' & Hk' & Hkx & Hkp).
    exists k'. rewrite decide_False in Hkp; [done|]. intros [= <-].
    apply NoDup_cons in Hnd as [_ Hnd]. apply NoDup_cons in Hnd as [Hnd _]. done.
  - simpl in *. destruct Hs as (-> & ? & m & Hm & Hpv & Hs).
    apply NoDup_cons in Hnd as [Hx Hnd].
    destruct (Hag p m ltac:(set_solver) Hm) as (m' & Hm' & Hnx & Hpv').
    rewrite decide_False in Hpv'; [|destruct l2; [done|]; set_solver].
    destruct (IH p (nx m)) as (q' & Hq'); [done | done | |].
    + intros z k Hz Hk. destruct (Hag z k ltac:(set_solver) Hk) as (k' & Hk' & Hkx & Hkp).
      exists k'. split; [done|]. split; [|done]. rewrite Hkx, last_cons.
      destruct (last l1) eqn:El; [done|]. rewrite !decide_False; [done | done |].
      intros [= ->]. set_solver.
    + exists q'. split; [done|]. split; [done|]. exists m'. split; [done|].
      split; [congruence|]. destruct l1 as [|y l1].
      * simpl in *. rewrite decide_True in Hnx by done. by rewrite Hnx.
      * rewrite last_cons in Hnx. rewrite decide_False in Hnx; [by rewrite Hnx|].
        destruct (last (y :: l1)) as [z|] eqn:El; [|by apply last_None in El].
        intros [= ->]. apply last_Some_elem_of in El. set_solver.
Qed.

(** The links of a node in the middle of a segment. *)
Lemma dseg_mid h pp p l1 a l2 q qn n :
  dseg h pp p (l1 ++ a :: l2) q qn -> h !! a = Some n ->
  pv n = default pp (last l1) /\ nx n = default qn (head l2).
Proof.
  intros Hs Hn. apply dseg_app in Hs as (m & mn & H1 & H2). simpl in H2.
  destruct H2 as (-> & _ & n' & Hn' & Hp & H2). simplify_eq.
  split; [by rewrite (dseg_last _ _ _ _ _ _ H1) | by apply dseg_head in H2].
Qed.

(** Linking a new node [c] in after [a]. *)
Lemma dseg_insert_after h h' pp p l1 a l2 q qn n n' c k :
  dseg h pp p (l1 ++ a :: l2) q qn -> NoDup (l1 ++ a :: l2) -> c <> 0 ->
  h !! a = Some n -> h' !! a = Some n' -> nx n' = c -> pv n' = pv n ->
  h' !! c = Some k -> nx k = nx n -> pv k = a ->
  (forall x m, x ∈ l1 ++ l2 -> h !! x = Some m -> exists m', h' !! x = Some m' /\
     nx m' = nx m /\ pv m' = (if decide (head l2 = Some x) then c else pv m)) ->
  exists q', dseg h' pp p (l1 ++ a :: c :: l2) q' qn.
Proof.
  intros Hs Hnd Hc Hn Hn' Hnx' Hpv' Hk Hnxk Hpvk Hag.
  apply dseg_app in Hs as (m & mn & H1 & H2). simpl in H2.
  destruct H2 as (<- & ? & n0 & Hn0 & Hp & H2). assert (n0 = n) as -> by congruence.
  apply NoDup_app in Hnd as (_ & Hd & [Ha Hnd]%NoDup_cons).
  assert (dseg h' pp p l1 m a) as H1'.
  { revert H1. apply dseg_frame. intros x Hx y Hy.
    destruct (Hag x y ltac:(set_solver) Hy) as (y' & ? & ? & Hpy). exists y'.
    rewrite decide_False in Hpy; [done|]. intros Hh. apply (Hd x Hx).
    apply head_Some_elem_of in Hh. set_solver. }
  assert (exists q', dseg h' c (nx n) l2 q' qn) as [q' H2'].
  { destruct l2 as [|y l2]; [exists c; destruct H2; done|].
    destruct H2 as (-> & ? & m1 & Hm1 & Hpm & H2).
    destruct (Hag (nx n) m1 ltac:(set_solver) Hm1) as (m1' & Hm1' & Hx1 & Hp1).
    rewrite decide_True in Hp1 by done. exists q. split; [done|]. split; [done|].
    exists m1'. split; [done|]. split; [done|]. rewrite Hx1. revert H2. apply dseg_frame.
    intros x Hx z Hz. destruct (Hag x z ltac:(set_solver) Hz) as (z' & ? & ? & Hpz).
    exists z'. rewrite decide_False in Hpz; [done|]. intros [= <-].
    by apply NoDup_cons in Hnd as [? _]. }
  exists q'. apply dseg_app. exists m, a. split; [done|].
  split; [done|]. split; [done|]. exists n'. split; [done|]. split; [congruence|].
  rewrite Hnx'. split; [done|]. split; [done|]. exists k. by rewrite Hnxk.
Qed.
End dlist.

(** ** Singly linked chains *)

Section chain.
Context {N : Type} (nx : N -> Z).
Implicit Types (h : gmap Z N) (xs ys : list Z) (p : Z).

(** [xs] are the nodes met from [p] along [nx] up to NULL. *)
Fixpoint chain h (p : Z) xs : Prop :=
  match xs with
  | [] => p = 0
  | x :: xs' => x = p /\ p <> 0 /\ exists n, h !! p = Some n /\ chain h (nx n) xs'
  end.

Lemma chain_frame h h' p xs :
  (forall x, x ∈ xs -> forall n, h !! x = Some n ->
     exists n', h' !! x = Some n' /\ nx n' = nx n) ->
  chain h p xs -> chain h' p xs.
Proof.
  revert p. induction xs as [|x xs IH]; intros p Hag; simpl; [done|].
  intros (-> & ? & n & Hn & Hs).
  destruct (Hag p ltac:(set_solver) n Hn) as (n' & Hn' & Hnx).
  split; [done|]. split; [done|]. exists n'. rewrite Hnx. split; [done|].
  apply IH; [|done]. intros y Hy. apply Hag. set_solver.
Qed.

Lemma chain_insert_out h p xs a n : a ∉ xs -> chain h p xs -> chain (<[a := n]> h) p xs.
Proof.
  intros Ha. apply chain_frame. intros x Hx m Hm. exists m.
  rewrite lookup_insert_ne by set_solver. done.
Qed.

Lemma chain_lookup h p xs x : chain h p xs -> x ∈ xs -> x <> 0 /\ is_Some (h !! x).
Proof.
  revert p. induction xs as [|y xs IH]; intros p; simpl; [set_solver|].
  intros (-> & ? & n & Hn & Hs) Hx. apply elem_of_cons in Hx as [Hx|Hx]; [subst|]; eauto.
Qed.

Lemma chain_unique h p xs ys : chain h p xs -> chain h p ys -> xs = ys.
Proof.
  revert p ys. induction xs as [|x xs IH]; intros p [|y ys]; simpl;
    [done | naive_solver | naive_solver |].
  intros (-> & ? & n & Hn & Hs) (-> & _ & n' & Hn' & Hs'). simplify_eq.
  f_equal. eauto.
Qed.

(** A NULL-terminated chain does not repeat a node. *)
Lemma chain_suffix h p xs ys : chain h p (xs ++ ys) -> exists p', chain h p' ys /\ (ys <> [] -> Some p' = head ys).
Proof.
  revert p. induction xs as [|x xs IH]; intros p; simpl.
  - intros Hc. exists p. split; [done|]. destruct ys; simpl in *; naive_solver.
  - intros (-> & _ & n & _ & Hs). eauto.
Qed.

Lemma chain_NoDup h p xs : chain h p xs -> NoDup xs.
Proof.
  revert p. induction xs as [|x xs IH]; intros p Hc; [constructor|].
  constructor; [|simpl in Hc; naive_solver].
  intros (l1 & l2 & ->)%list_elem_of_split.
  pose proof Hc as Hc'. destruct Hc as (-> & _ & n & Hn & Hs).
  apply chain_suffix in Hs as (p' & Hs & Hp'). specialize (Hp' ltac:(done)). injection Hp' as ->.
  pose proof (chain_unique _ _ _ _ Hc' Hs) as Heq.
  apply (f_equal length) in Heq. simpl in Heq. rewrite length_app in Heq. simpl in Heq. lia.
Qed.
End chain.

(** A NULL-terminated doubly linked segment is a chain along [nx]. *)
Lemma dseg_chain {N : Type} (nx pv : N -> Z) (h : gmap Z N) pp p xs q :
  dseg nx pv h pp p xs q 0 -> chain nx h p xs.
Proof.
  revert pp p. induction xs as [|x xs IH]; intros pp p; simpl; [by intros [-> _]|].
  intros (-> & ? & n & ? & _ & ?). split; [done|]. split; [done|]. exists n. eauto.
Qed.

(** A duplicate-free list of keys of a map is no longer than the map. *)
Lemma keys_length {N : Type} (h : gmap Z N) (xs : list Z) :
  NoDup xs -> (forall x, x ∈ xs -> is_Some (h !! x)) -> (length xs <= size h)%nat.
Proof.
  intros Hnd Hin. rewrite <- size_dom, <- (size_list_to_set (C := gset Z) xs) by done.
  apply subseteq_size. intros x Hx. apply elem_of_dom, Hin. set_solver.
Qed.
