(* ===== verification/KList.v ===== *)
(** * Kernel lists (src/kernel/include/kernel/list.h)

    Circular doubly linked lists whose nodes are embedded in the objects they
    link.  An object is named by the address of its link field, so [list_entry]
    is the identity.  [ring l h xs] says that the list with head [h] has the
    elements [xs]; every operation is shown to do on rings what its name says, and
    to leave everything else alone. *)
From S2P Require Import Prelude.
#[local] Open Scope Z_scope.

Record list_head := ListHead { l_next : Z; l_prev : Z }.
Abbreviation links := (gmap Z list_head).
Implicit Types (l : links) (h x p q : Z) (xs ys : list Z).

Definition next_of l p : outcome Z := n ← of_option (l !! p); Ok (l_next n).
Definition prev_of l p : outcome Z := n ← of_option (l !! p); Ok (l_prev n).
Definition set_next l p v : outcome links := n ← of_option (l !! p); Ok (<[p := ListHead v (l_prev n)]> l).
Definition set_prev l p v : outcome links := n ← of_option (l !! p); Ok (<[p := ListHead (l_next n) v]> l).

Definition INIT_LIST_HEAD l p : links := <[p := ListHead p p]> l.

Definition __list_add l (new prev next : Z) : outcome links :=
  l ← set_prev l next new;
  l ← set_next l new next;
  l ← set_prev l new prev;
  set_next l prev new.

Definition list_add l (new head : Z) : outcome links := n ← next_of l head; __list_add l new head n.
Definition list_add_tail l (new head : Z) : outcome links := p ← prev_of l head; __list_add l new p head.

Definition __list_del l (prev next : Z) : outcome links :=
  l ← set_prev l next prev; set_next l prev next.

Definition list_del l (entry : Z) : outcome links :=
  p ← prev_of l entry;
  n ← next_of l entry;
  l ← __list_del l p n;
  l ← set_next l entry 0;
  set_prev l entry 0.

Definition list_empty l (head : Z) : outcome bool := n ← next_of l head; Ok (n =? head).

Definition list_move l (list head : Z) : outcome links :=
  p ← prev_of l list;
  n ← next_of l list;
  l ← __list_del l p n;
  list_add_tail l list head.

(** ** Representation *)

Definition nxt l p q : Prop := exists n, l !! p = Some n /\ l_next n = q.
Definition prv l p q : Prop := exists n, l !! p = Some n /\ l_prev n = q.
Definition linked2 l p q : Prop := nxt l p q /\ prv l q p.

(** Consecutive elements point to each other. *)
Fixpoint seg l p xs q : Prop :=
  match xs with
  | [] => linked2 l p q
  | x :: xs => linked2 l p x /\ seg l x xs q
  end.

Definition ring l h xs : Prop := NoDup (h :: xs) /\ seg l h xs h.

Lemma next_of_ok l p q : nxt l p q -> next_of l p = Ok q.
Proof. intros (n & E & <-). unfold next_of. by rewrite E. Qed.
Lemma prev_of_ok l p q : prv l p q -> prev_of l p = Ok q.
Proof. intros (n & E & <-). unfold prev_of. by rewrite E. Qed.

(** Setting a field changes that field of that node. *)
Lemma set_next_spec l p v : is_Some (l !! p) -> exists l', set_next l p v = Ok l' /\ dom l' = dom l /\
  nxt l' p v /\ (forall y q, prv l y q -> prv l' y q) /\ (forall y, y <> p -> l' !! y = l !! y).
Proof.
  intros [n E]. unfold set_next. rewrite E. cbn [of_option]. rewrite bind_ok. eexists. split; [done|].
  split; [apply dom_insert_lookup_L; by exists n|]. split; [eexists; split; [apply lookup_insert_eq|done]|]. split.
  - intros y q (m & Em & <-). destruct (decide (y = p)) as [->|Hne]; [|exists m; split; [by rewrite lookup_insert_ne|done]].
    assert (m = n) as -> by congruence. eexists. split; [apply lookup_insert_eq|done].
  - intros y Hy. by apply lookup_insert_ne.
Qed.

Lemma set_prev_spec l p v : is_Some (l !! p) -> exists l', set_prev l p v = Ok l' /\ dom l' = dom l /\
  prv l' p v /\ (forall y q, nxt l y q -> nxt l' y q) /\ (forall y, y <> p -> l' !! y = l !! y).
Proof.
  intros [n E]. unfold set_prev. rewrite E. cbn [of_option]. rewrite bind_ok. eexists. split; [done|].
  split; [apply dom_insert_lookup_L; by exists n|]. split; [eexists; split; [apply lookup_insert_eq|done]|]. split.
  - intros y q (m & Em & <-). destruct (decide (y = p)) as [->|Hne]; [|exists m; split; [by rewrite lookup_insert_ne|done]].
    assert (m = n) as -> by congruence. eexists. split; [apply lookup_insert_eq|done].
  - intros y Hy. by apply lookup_insert_ne.
Qed.

Lemma nxt_frame l l' p q : l' !! p = l !! p -> nxt l p q -> nxt l' p q.
Proof. intros E (n & En & <-). exists n. by rewrite E. Qed.
Lemma prv_frame l l' p q : l' !! p = l !! p -> prv l p q -> prv l' p q.
Proof. intros E (n & En & <-). exists n. by rewrite E. Qed.

(** ** Segments *)

Fixpoint path l p xs : Prop :=
  match xs with [] => True | x :: xs => linked2 l p x /\ path l x xs end.
Fixpoint lastz p xs : Z := match xs with [] => p | x :: xs => lastz x xs end.
Definition firstz ys q : Z := match ys with [] => q | y :: _ => y end.

Lemma lastz_in p xs : lastz p xs ∈ p :: xs.
Proof. revert p. induction xs as [|x xs IH]; intros p; simpl; [by left|right; apply IH]. Qed.

Lemma lastz_app p xs x : lastz p (xs ++ [x]) = x.
Proof. revert p. induction xs as [|y xs IH]; intros p; simpl; [done|apply IH]. Qed.

Lemma lastz_not_head p x xs : NoDup (p :: x :: xs) -> lastz x xs <> p.
Proof. intros Hn E. apply NoDup_cons in Hn as [Hn _]. apply Hn. rewrite <- E. apply lastz_in. Qed.

Lemma seg_app l p xs ys q : seg l p (xs ++ ys) q <-> path l p xs /\ seg l (lastz p xs) ys q.
Proof. revert p. induction xs as [|x xs IH]; intros p; simpl; [tauto|]. rewrite IH. tauto. Qed.

Lemma seg_first l p ys q : seg l p ys q -> linked2 l p (firstz ys q).
Proof. destruct ys; simpl; [done|by intros [? _]]. Qed.

Lemma path_frame l l' p xs : NoDup (p :: xs) ->
  (forall y r, y ∈ p :: xs -> y <> lastz p xs -> nxt l y r -> nxt l' y r) ->
  (forall y r, y ∈ xs -> prv l y r -> prv l' y r) -> path l p xs -> path l' p xs.
Proof.
  revert p. induction xs as [|x xs IH]; intros p Hnd Hn Hp; simpl; [done|]. intros [[H1 H2] Hs]. split; [split|].
  - apply Hn; [by left| |done]. simpl. intros E. by apply (lastz_not_head p x xs Hnd).
  - apply Hp; [by left|done].
  - apply NoDup_cons in Hnd as [_ Hnd]. apply IH; [done| | |done].
    + intros y r Hy Hl. apply Hn; [by right|done].
    + intros y r Hy. apply Hp. by right.
Qed.

Lemma seg_frame l l' p xs q : (forall y r, y ∈ p :: xs -> nxt l y r -> nxt l' y r) ->
  (forall y r, y ∈ xs ++ [q] -> prv l y r -> prv l' y r) -> seg l p xs q -> seg l' p xs q.
Proof.
  revert p. induction xs as [|x xs IH]; intros p Hn Hp; simpl.
  - intros [H1 H2]. split; [apply Hn; [by left|done]|apply Hp; [by left|done]].
  - intros [[H1 H2] Hs]. split; [split; [apply Hn; [by left|done]|apply Hp; [by left|done]]|].
    apply IH; [| |done]; [intros y r Hy; apply Hn; by right|intros y r Hy; apply Hp; by right].
Qed.

(** A ring whose nodes did not change. *)
Lemma ring_frame l l' h xs : (forall y, y ∈ h :: xs -> l' !! y = l !! y) -> ring l h xs -> ring l' h xs.
Proof.
  intros Hl [Hnd Hs]. split; [done|]. apply (seg_frame l); [| |done]; intros y r Hy.
  - apply nxt_frame, Hl, Hy.
  - apply prv_frame, Hl. apply elem_of_app in Hy as [?|Hy]; [by right|]. apply list_elem_of_singleton in Hy as ->. by left.
Qed.

Lemma seg_mapped l p xs q : seg l p xs q -> forall y, y ∈ p :: xs -> is_Some (l !! y).
Proof.
  revert p. induction xs as [|x xs IH]; intros p; simpl.
  - intros [(n & E & _) _] y ->%list_elem_of_singleton. by exists n.
  - intros [[(n & E & _) _] Hs] y [->|Hy]%elem_of_cons; [by exists n|]. by apply (IH x).
Qed.

Lemma ring_mapped l h xs y : ring l h xs -> y ∈ h :: xs -> is_Some (l !! y).
Proof. intros [_ Hs]. by apply (seg_mapped l h xs h). Qed.

(** ** Linking in and out *)

Lemma list_add_link l x p n : linked2 l p n -> x <> p -> x <> n -> is_Some (l !! x) ->
  exists l', __list_add l x p n = Ok l' /\ dom l' = dom l /\ linked2 l' p x /\ linked2 l' x n /\
    (forall y r, y <> p -> y <> x -> nxt l y r -> nxt l' y r) /\
    (forall y r, y <> n -> y <> x -> prv l y r -> prv l' y r) /\
    (forall y, y <> p -> y <> n -> y <> x -> l' !! y = l !! y).
Proof.
  intros [Hpn Hnp] Hxp Hxn Hx. unfold __list_add.
  destruct (set_prev_spec l n x) as (l1 & -> & D1 & P1 & N1 & F1); [by destruct Hnp as (? & ? & _); eexists|]. rewrite bind_ok.
  destruct (set_next_spec l1 x n) as (l2 & -> & D2 & N2 & P2 & F2); [by rewrite F1|]. rewrite bind_ok.
  destruct (set_prev_spec l2 x p) as (l3 & -> & D3 & P3 & N3 & F3); [by destruct N2 as (? & ? & _); eexists|]. rewrite bind_ok.
  destruct (set_next_spec l3 p x) as (l4 & -> & D4 & N4 & P4 & F4).
  { apply N1 in Hpn as (m & Em & _). exists m. by rewrite F3, F2. }
  exists l4. split; [done|]. split; [congruence|].
  assert (forall y, y <> p -> y <> n -> y <> x -> l4 !! y = l !! y) as Hf by (intros; rewrite F4, F3, F2, F1 by done; done).
  split; [split; [done|by apply P4]|]. split; [split|split; [|split; [|done]]].
  - apply (nxt_frame l3); [by apply F4|]. by apply N3.
  - apply P4. apply (prv_frame l2); [by apply F3|]. by apply P2.
  - intros y r Hyp Hyx Hr. apply (nxt_frame l3); [by apply F4|]. apply N3. apply (nxt_frame l1); [by apply F2|]. by apply N1.
  - intros y r Hyn Hyx Hr. apply P4. apply (prv_frame l2); [by apply F3|]. apply P2. apply (prv_frame l); [by apply F1|done].
Qed.

Lemma list_del_link l p n : is_Some (l !! p) -> is_Some (l !! n) ->
  exists l', __list_del l p n = Ok l' /\ dom l' = dom l /\ linked2 l' p n /\
    (forall y r, y <> p -> nxt l y r -> nxt l' y r) /\ (forall y r, y <> n -> prv l y r -> prv l' y r) /\
    (forall y, y <> p -> y <> n -> l' !! y = l !! y).
Proof.
  intros Hp Hn. unfold __list_del.
  destruct (set_prev_spec l n p Hn) as (l1 & -> & D1 & P1 & N1 & F1). rewrite bind_ok.
  destruct (set_next_spec l1 p n) as (l2 & -> & D2 & N2 & P2 & F2).
  { apply elem_of_dom. rewrite D1. by apply elem_of_dom. }
  exists l2. split; [done|]. split; [congruence|]. split; [split; [done|by apply P2]|]. split; [|split].
  - intros y r Hy Hr. apply (nxt_frame l1); [by apply F2|]. by apply N1.
  - intros y r Hy Hr. apply P2. apply (prv_frame l); [by apply F1|done].
  - intros y ? ?. by rewrite F2, F1.
Qed.

(** ** The operations on rings *)

Lemma ring_split l h xs ys : ring l h (xs ++ ys) -> path l h xs /\ seg l (lastz h xs) ys h /\ linked2 l (lastz h xs) (firstz ys h).
Proof. intros [_ Hs]. apply seg_app in Hs as [Hp Hs]. split; [done|]. split; [done|by apply seg_first]. Qed.

(** The only neighbours two elements of a ring share. *)
Lemma ring_apart h xs ys : NoDup (h :: xs ++ ys) ->
  (forall y, y ∈ xs -> y <> firstz ys h) /\ (forall y, y ∈ ys -> y <> lastz h xs) /\ NoDup (h :: xs).
Proof.
  intros Hnd. change (h :: xs ++ ys) with ((h :: xs) ++ ys) in Hnd. apply NoDup_app in Hnd as (Hx & Hxy & Hy). split; [|split; [|done]].
  - intros y Hyx E. destruct ys as [|z ys]; simpl in E; subst; [by apply NoDup_cons in Hx as [? _]|].
    apply (Hxy z); [by right|by left].
  - intros y Hyy ->. apply (Hxy (lastz h xs)); [apply lastz_in|done].
Qed.

(** A fresh node between two neighbours. *)
Lemma ring_insert l h xs ys x : ring l h (xs ++ ys) -> (x ∉ h :: xs ++ ys) -> is_Some (l !! x) ->
  exists l', __list_add l x (lastz h xs) (firstz ys h) = Ok l' /\ ring l' h (xs ++ x :: ys) /\ dom l' = dom l /\
    (forall y, y ∉ x :: h :: xs ++ ys -> l' !! y = l !! y).
Proof.
  intros R Hx Hm. destruct (ring_split _ _ _ _ R) as (Hp & Hs & Hl). destruct R as [Hnd _].
  destruct (ring_apart _ _ _ Hnd) as (Ha & Hb & Hndx).
  assert (lastz h xs ∈ h :: xs ++ ys) as Hlast.
  { pose proof (lastz_in h xs) as Hin. change (h :: xs ++ ys) with ((h :: xs) ++ ys). apply elem_of_app. by left. }
  assert (firstz ys h ∈ h :: xs ++ ys) as Hfirst.
  { destruct ys; simpl; [by left|]. right. apply elem_of_app. right. by left. }
  destruct (list_add_link l x _ _ Hl) as (l' & E & D & L1 & L2 & Fn & Fp & F); [by intros ->|by intros ->|done|].
  exists l'. split; [exact E|]. split; [|split; [done|]].
  - assert (Permutation (h :: xs ++ x :: ys) (x :: h :: xs ++ ys)) as Hperm by (rewrite <- Permutation_middle; apply perm_swap).
    split; [rewrite Hperm; apply NoDup_cons; split; [exact Hx|exact Hnd]|].
    apply seg_app. split.
    + apply (path_frame l); [done| | |done].
      * intros y r Hy Hne. apply Fn; [done|]. intros ->. apply Hx. change (h :: xs ++ ys) with ((h :: xs) ++ ys). apply elem_of_app. by left.
      * intros y r Hy. apply Fp; [by apply Ha|]. intros ->. apply Hx. right. apply elem_of_app. by left.
    + split; [exact L1|]. destruct ys as [|n ys]; [exact L2|]. split; [exact L2|]. destruct Hs as [_ Hs].
      apply NoDup_cons in Hnd as [Hh Hnd]. apply NoDup_app in Hnd as (_ & _ & Hny). apply NoDup_cons in Hny as [Hny _].
      apply (seg_frame l); [| |done].
      * intros y r Hy. apply Fn; [by apply Hb|]. intros ->. apply Hx. right. apply elem_of_app. by right.
      * intros y r Hy. apply Fp; simpl; [intros ->|intros ->].
        -- apply elem_of_app in Hy as [?|Hy]; [done|]. apply list_elem_of_singleton in Hy as ->.
           apply Hh. apply elem_of_app. right. by left.
        -- apply Hx. apply elem_of_app in Hy as [Hy|Hy]; [right; apply elem_of_app; right; by right|].
           apply list_elem_of_singleton in Hy as ->. by left.
  - intros y Hy. apply F; intros ->; apply Hy; [by right|by right|by left].
Qed.

Lemma list_add_ok l h xs x : ring l h xs -> (x ∉ h :: xs) -> is_Some (l !! x) ->
  exists l', list_add l x h = Ok l' /\ ring l' h (x :: xs) /\ dom l' = dom l /\ (forall y, y ∉ x :: h :: xs -> l' !! y = l !! y).
Proof.
  intros R Hx Hm. destruct (ring_split l h [] xs R) as (_ & _ & [Hn _]).
  destruct (ring_insert l h [] xs x R Hx Hm) as (l' & E & ?). exists l'. split; [|done].
  unfold list_add. by rewrite (next_of_ok l h _ Hn), bind_ok.
Qed.

(** Before an element, or, before the head, at the end. *)
Lemma list_add_before_ok l h xs ys x : ring l h (xs ++ ys) -> (x ∉ h :: xs ++ ys) -> is_Some (l !! x) ->
  exists l', list_add_tail l x (firstz ys h) = Ok l' /\ ring l' h (xs ++ x :: ys) /\ dom l' = dom l /\
    (forall y, y ∉ x :: h :: xs ++ ys -> l' !! y = l !! y).
Proof.
  intros R Hx Hm. destruct (ring_split l h xs ys R) as (_ & _ & [_ Hp]).
  destruct (ring_insert l h xs ys x R Hx Hm) as (l' & E & ?). exists l'. split; [|done].
  unfold list_add_tail. by rewrite (prev_of_ok _ _ _ Hp), bind_ok.
Qed.

Lemma list_add_tail_ok l h xs x : ring l h xs -> (x ∉ h :: xs) -> is_Some (l !! x) ->
  exists l', list_add_tail l x h = Ok l' /\ ring l' h (xs ++ [x]) /\ dom l' = dom l /\ (forall y, y ∉ x :: h :: xs -> l' !! y = l !! y).
Proof.
  intros R Hx Hm. destruct (list_add_before_ok l h xs [] x) as (l' & ?); rewrite ?app_nil_r in *; [done|done|done|]. by exists l'.
Qed.

(** A node leaves its ring; its own links are not used again. *)
Lemma ring_remove l h xs ys x : ring l h (xs ++ x :: ys) ->
  exists p n l', prev_of l x = Ok p /\ next_of l x = Ok n /\ __list_del l p n = Ok l' /\ ring l' h (xs ++ ys) /\ dom l' = dom l /\
    (forall y, y ∉ h :: xs ++ ys -> l' !! y = l !! y).
Proof.
  intros R. pose proof (fun y => ring_mapped l h _ y R) as Hmap. destruct (ring_split _ _ _ _ R) as (Hp & [[H1 H2] Hs] & _). destruct R as [Hnd Hseg].
  assert (Permutation (h :: xs ++ x :: ys) (x :: h :: xs ++ ys)) as Hperm by (rewrite <- Permutation_middle; apply perm_swap).
  pose proof Hnd as Hnd0. rewrite Hperm in Hnd0. apply NoDup_cons in Hnd0 as [Hx Hnd0].
  destruct (ring_apart _ _ _ Hnd0) as (Ha & Hb & Hndx). pose proof (seg_first _ _ _ _ Hs) as [Hn _].
  assert (lastz h xs ∈ h :: xs ++ ys) as Hlast.
  { pose proof (lastz_in h xs) as Hin. change (h :: xs ++ ys) with ((h :: xs) ++ ys). apply elem_of_app. by left. }
  assert (firstz ys h ∈ h :: xs ++ ys) as Hfirst.
  { destruct ys; simpl; [by left|]. right. apply elem_of_app. right. by left. }
  assert (forall y, y ∈ h :: xs ++ ys -> is_Some (l !! y)) as Hm.
  { intros y Hy. apply (Hmap y). rewrite Hperm. by right. }
  destruct (list_del_link l _ _ (Hm _ Hlast) (Hm _ Hfirst)) as (l' & E & D & L & Fn & Fp & F).
  exists (lastz h xs), (firstz ys h), l'. split; [by apply prev_of_ok|]. split; [by apply next_of_ok|]. split; [exact E|].
  split; [|split; [done|]].
  - split; [done|]. apply seg_app. split.
    + apply (path_frame l); [done| | |done].
      * intros y r Hy Hne. by apply Fn.
      * intros y r Hy. apply Fp. by apply Ha.
    + destruct ys as [|n ys]; [exact L|]. split; [exact L|]. destruct Hs as [_ Hs].
      apply NoDup_cons in Hnd0 as [Hh Hnd0]. apply NoDup_app in Hnd0 as (_ & _ & Hny). apply NoDup_cons in Hny as [Hny _].
      apply (seg_frame l); [| |done].
      * intros y r Hy. apply Fn. by apply Hb.
      * intros y r Hy. apply Fp. simpl. intros ->. apply elem_of_app in Hy as [?|Hy]; [done|]. apply list_elem_of_singleton in Hy as ->.
        apply Hh. apply elem_of_app. right. by left.
  - intros y Hy. apply F; intros ->; by apply Hy.
Qed.

Lemma list_del_ok l h xs ys x : ring l h (xs ++ x :: ys) ->
  exists l', list_del l x = Ok l' /\ ring l' h (xs ++ ys) /\ dom l' = dom l /\ (forall y, y ∉ x :: h :: xs ++ ys -> l' !! y = l !! y).
Proof.
  intros R. destruct (ring_remove l h xs ys x R) as (p & n & l1 & Ep & En & E & R1 & D & F). unfold list_del.
  rewrite Ep, bind_ok, En, bind_ok, E, bind_ok.
  assert (is_Some (l1 !! x)) as Hm.
  { apply elem_of_dom. rewrite D. apply elem_of_dom. apply (ring_mapped l h _ x R). right. apply elem_of_app. right. by left. }
  assert (x ∉ h :: xs ++ ys) as Hx.
  { destruct R as [Hnd _]. assert (Permutation (h :: xs ++ x :: ys) (x :: h :: xs ++ ys)) as Hp by (rewrite <- Permutation_middle; apply perm_swap).
    rewrite Hp in Hnd. by apply NoDup_cons in Hnd as [? _]. }
  destruct (set_next_spec l1 x 0 Hm) as (l2 & -> & D2 & _ & _ & F2). rewrite bind_ok.
  destruct (set_prev_spec l2 x 0) as (l3 & -> & D3 & _ & _ & F3). { apply elem_of_dom. rewrite D2. by apply elem_of_dom. }
  exists l3. split; [done|]. split; [|split; [congruence|]].
  - apply (ring_frame l1); [|done]. intros y Hy. assert (y <> x) by (by intros ->). by rewrite F3, F2.
  - intros y Hy. apply not_elem_of_cons in Hy as [Hyx Hy]. by rewrite F3, F2, F.
Qed.

(** From one ring to the end of another. *)
Lemma list_move_ok l h xs ys x g zs : ring l h (xs ++ x :: ys) -> ring l g zs ->
  (forall y, y ∈ h :: xs ++ x :: ys -> y ∉ g :: zs) ->
  exists l', list_move l x g = Ok l' /\ ring l' h (xs ++ ys) /\ ring l' g (zs ++ [x]) /\ dom l' = dom l /\
    (forall y, y ∉ h :: xs ++ x :: ys -> y ∉ g :: zs -> l' !! y = l !! y).
Proof.
  intros R G Hd. destruct (ring_remove l h xs ys x R) as (p & n & l1 & Ep & En & E & R1 & D & F). unfold list_move.
  rewrite Ep, bind_ok, En, bind_ok, E, bind_ok.
  assert (Permutation (h :: xs ++ x :: ys) (x :: h :: xs ++ ys)) as Hperm by (rewrite <- Permutation_middle; apply perm_swap).
  assert (forall y, y ∈ h :: xs ++ ys -> y ∉ g :: zs) as Hd1 by (intros y Hy; apply Hd; rewrite Hperm; by right).
  assert (x ∉ g :: zs) as Hxg by (apply Hd; rewrite Hperm; by left).
  assert (x ∉ h :: xs ++ ys) as Hxh by (destruct R as [Hnd _]; rewrite Hperm in Hnd; by apply NoDup_cons in Hnd as [? _]).
  assert (ring l1 g zs) as G1.
  { apply (ring_frame l); [|done]. intros y Hy. apply F. intros Hy'. by apply (Hd1 y). }
  destruct (list_add_tail_ok l1 g zs x G1 Hxg) as (l2 & -> & G2 & D2 & F2).
  { apply elem_of_dom. rewrite D. apply elem_of_dom. apply (ring_mapped l h _ x R). rewrite Hperm. by left. }
  exists l2. split; [done|]. split; [|split; [done|split; [congruence|]]].
  - apply (ring_frame l1); [|done]. intros y Hy. apply F2. intros [->|Hyg]%elem_of_cons; [done|]. by apply (Hd1 y).
  - intros y Hy Hyg. rewrite Hperm in Hy. apply not_elem_of_cons in Hy as [Hyx Hy].
    rewrite F2, F; [done|done|]. by intros [->|?]%elem_of_cons.
Qed.

Lemma list_empty_ok l h xs : ring l h xs -> list_empty l h = Ok (bool_decide (xs = [])).
Proof.
  intros [Hnd Hs]. unfold list_empty. destruct xs as [|x xs].
  - destruct Hs as [Hn _]. rewrite (next_of_ok _ _ _ Hn), bind_ok. by rewrite Z.eqb_refl.
  - destruct Hs as [[Hn _] _]. rewrite (next_of_ok _ _ _ Hn), bind_ok. rewrite (proj2 (Z.eqb_neq x h)); [done|].
    intros ->. apply NoDup_cons in Hnd as [Hx _]. apply Hx. by left.
Qed.

Lemma list_first_ok l h x xs : ring l h (x :: xs) -> next_of l h = Ok x.
Proof. intros [_ [[Hn _] _]]. by apply next_of_ok. Qed.

Lemma init_ring l h : ring (INIT_LIST_HEAD l h) h [].
Proof.
  split; [by repeat constructor; apply not_elem_of_nil|]. split; eexists; (split; [apply lookup_insert_eq|done]).
Qed.

(** The node after an element, the head at the end. *)
Lemma ring_next l h xs ys x : ring l h (xs ++ x :: ys) -> next_of l x = Ok (firstz ys h).
Proof. intros R. destruct (ring_split l h xs (x :: ys) R) as (_ & [_ Hs] & _). apply seg_first in Hs as [Hn _]. by apply next_of_ok. Qed.

#[export] Hint Resolve init_ring list_first_ok list_empty_ok : kernel.
