(* ===== verification/AllocSpec.v ===== *)
(** * The contracts of the heap and of the page allocator

    [Allocator] lists the operations of include/mm/kmalloc.h on an allocator
    state; [AllocatorLaws] states what a client may rely on.  The capacity
    function [a_cap] gives, for each live pointer, the number of bytes it may
    use.  [Kmalloc] proves the laws of the kernel heap; the pipe and the file
    system are verified against the class alone. *)
From S2P Require Import Prelude.
#[local] Open Scope Z_scope.

(** Allocation flags (include/mm/kmalloc.h). *)
Definition GFP_KERNEL : Z := 0.
Definition GFP_ZERO : Z := 2.

Class Allocator (A : Type) := {
  a_kmalloc : A -> Z -> Z -> outcome (Z * A);
  a_kfree : A -> Z -> outcome A;
  a_cap : A -> Z -> option Z;
  a_inv : A -> Prop
}.

(** [kzalloc] is [kmalloc] with the zero flag added. *)
Definition a_kzalloc {A} `{Allocator A} (a : A) (size flags : Z) : outcome (Z * A) :=
  a_kmalloc a size (Z.lor flags GFP_ZERO).

(** [cap'] is [cap] changed at [p] only. *)
Definition cap_update (cap cap' : Z -> option Z) (p : Z) (c : option Z) : Prop :=
  forall q, cap' q = if decide (q = p) then c else cap q.

Definition cap_same (cap cap' : Z -> option Z) : Prop := forall q, cap' q = cap q.

(** What an allocation call may do: fail and change nothing, or return a fresh
    block of sufficient capacity. *)
Definition alloc_result (cap cap' : Z -> option Z) (p size : Z) : Prop :=
  (p = 0 /\ cap_same cap cap') \/
  (p <> 0 /\ cap p = None /\ exists c, size <= c /\ cap_update cap cap' p (Some c)).

Class AllocatorLaws (A : Type) `{Allocator A} := {
  law_null (a : A) : a_inv a -> a_cap a 0 = None;
  law_alloc (a : A) size flags : a_inv a -> 0 <= size ->
    exists p a', a_kmalloc a size flags = Ok (p, a') /\ a_inv a' /\
      alloc_result (a_cap a) (a_cap a') p size;
  law_free_null (a : A) : a_kfree a 0 = Ok a;
  law_free (a : A) p c : a_inv a -> a_cap a p = Some c ->
    exists a', a_kfree a p = Ok a' /\ a_inv a' /\ cap_update (a_cap a) (a_cap a') p None;
  law_disjoint (a : A) p q c d : a_inv a -> a_cap a p = Some c -> a_cap a q = Some d ->
    p <> q -> p + c <= q \/ q + d <= p
}.

Lemma cap_same_refl cap : cap_same cap cap.
Proof. by intros q. Qed.

(** Freeing what was just allocated gives the former capacities back. *)
Lemma cap_update_undo cap cap' cap'' p c :
  cap p = None -> cap_update cap cap' p (Some c) -> cap_update cap' cap'' p None ->
  cap_same cap cap''.
Proof.
  intros Hp H1 H2 q. rewrite H2, H1. case_decide; [by subst | done].
Qed.

Lemma cap_update_same cap cap' cap'' p c :
  cap_same cap cap' -> cap_update cap' cap'' p c -> cap_update cap cap'' p c.
Proof. intros H1 H2 q. rewrite H2. by case_decide. Qed.

#[export] Hint Resolve cap_same_refl : kernel.

(** ** Room for objects

    Most objects of the kernel have one of a few sizes.  [roomy k a] says that
    the heap can serve [k] zeroed allocations of these sizes, one after the
    other, whichever they are. *)
Section room.
Context {A : Type} `{Allocator A} (sizes : list Z).

Fixpoint roomy (k : nat) (a : A) : bool :=
  match k with
  | O => true
  | S k => roomy k a && forallb (fun n =>
      match a_kzalloc a n GFP_KERNEL with Ok (p, a') => negb (p =? 0) && roomy k a' | _ => false end) sizes
  end.

(** The allocator went from [a] to [a'] with at most [k] such allocations. *)
Definition spends (k : nat) (a a' : A) : Prop := forall m, roomy (k + m) a = true -> roomy m a' = true.

Lemma roomy_mono j k a : (j <= k)%nat -> roomy k a = true -> roomy j a = true.
Proof using Type.
  induction 1 as [|k _ IH]; [done|]. cbn [roomy]. intros [Hk _]%andb_prop. by apply IH.
Qed.

Lemma roomy_alloc k a n p a' : n ∈ sizes -> a_kzalloc a n GFP_KERNEL = Ok (p, a') -> roomy (S k) a = true ->
  p <> 0 /\ roomy k a' = true.
Proof using Type.
  intros Hn E. cbn [roomy]. intros [_ Hf]%andb_prop. rewrite forallb_forall in Hf.
  apply list_elem_of_In in Hn. specialize (Hf n Hn). rewrite E in Hf. apply andb_prop in Hf as [Hp Hk].
  split; [|done]. by destruct (Z.eqb_spec p 0).
Qed.

Lemma spends_refl k a : spends k a a.
Proof using Type. intros m. apply roomy_mono. lia. Qed.

Lemma spends_trans j k a1 a2 a3 : spends j a1 a2 -> spends k a2 a3 -> spends (j + k) a1 a3.
Proof using Type. intros H1 H2 m Hm. apply H2, H1. by rewrite Nat.add_assoc. Qed.

Lemma spends_mono j k a a' : (j <= k)%nat -> spends j a a' -> spends k a a'.
Proof using Type. intros Hjk Hj m Hm. apply Hj. eapply roomy_mono; [|exact Hm]. lia. Qed.

Lemma spends_alloc a n p a' : n ∈ sizes -> a_kzalloc a n GFP_KERNEL = Ok (p, a') -> spends 1 a a'.
Proof using Type. intros Hn E m Hm. by destruct (roomy_alloc m a n p a' Hn E Hm). Qed.

Lemma refused_poor a n a' : n ∈ sizes -> a_kzalloc a n GFP_KERNEL = Ok (0, a') -> roomy 1 a = false.
Proof using Type.
  intros Hn E. apply not_true_iff_false. intros Hr. by destruct (roomy_alloc 0 a n 0 a' Hn E Hr).
Qed.

Lemma poor_spends j k a a' : spends j a a' -> roomy k a' = false -> roomy (j + k) a = false.
Proof using Type.
  intros Hs Hf. apply not_true_iff_false. intros Hr. apply Hs in Hr. congruence.
Qed.

Lemma poor_mono j k a : (j <= k)%nat -> roomy j a = false -> roomy k a = false.
Proof using Type.
  intros Hjk Hf. apply not_true_iff_false. intros Hr. apply (roomy_mono j) in Hr; [congruence|done].
Qed.
End room.

(** * The contract between the physical page allocator and its clients

    [PageAllocator] lists the operations of include/mm/pmm.h that the virtual
    memory manager calls; [PageAllocatorLaws] states what it relies on: a page
    it is given is page aligned, addressable and was not in use before.
    [PmmSpec] proves the laws of the bitmap allocator. *)

Class PageAllocator (P : Type) := {
  pa_alloc_page : P -> outcome (Z * P);
  pa_free_page : P -> Z -> outcome P;
  pa_total_memory : P -> Z;
  pa_live : P -> Z -> Prop;
  pa_inv : P -> Prop
}.

(** A page address: non-null, page aligned and below 2^48. *)
Definition page_frame (a : Z) : Prop := 0 < a < 2 ^ 48 /\ a mod PAGE_SIZE = 0.

Class PageAllocatorLaws (P : Type) `{PageAllocator P} := {
  law_page_frame (s : P) a : pa_inv s -> pa_live s a -> page_frame a;
  law_alloc_page (s : P) : pa_inv s ->
    pa_alloc_page s = Ok (0, s) \/
    exists a s', pa_alloc_page s = Ok (a, s') /\ pa_inv s' /\ page_frame a /\ ~ pa_live s a /\
      forall b, pa_live s' b <-> b = a \/ pa_live s b;
  law_free_page (s : P) a : pa_inv s -> pa_live s a ->
    exists s', pa_free_page s a = Ok s' /\ pa_inv s' /\
      forall b, pa_live s' b <-> b <> a /\ pa_live s b
}.
