(* ===== verification/StringLib.v ===== *)
(** * kernel/lib/string.c: the kernel's memory and string functions

    Pointers are addresses of the byte memory of [Memory]; the [while (n--)]
    loops are structural on the count, the loops that look for a terminator
    carry fuel. *)
From S2P Require Import Prelude Memory.
#[local] Open Scope Z_scope.

(** [while (n--) *d++ = *s++;] *)
Fixpoint copy_up (n : nat) (m : mem) (d s : Z) : outcome mem :=
  match n with
  | O => Ok m
  | S n' => b ← load8 m s; m' ← store8 m d b; copy_up n' m' (d + 1) (s + 1)
  end.

(** [while (n--) *--d = *--s;] *)
Fixpoint copy_down (n : nat) (m : mem) (d s : Z) : outcome mem :=
  match n with
  | O => Ok m
  | S n' => b ← load8 m (s - 1); m' ← store8 m (d - 1) b; copy_down n' m' (d - 1) (s - 1)
  end.

Definition memcpy (m : mem) (dest src n : Z) : outcome (mem * Z) :=
  m' ← copy_up (Z.to_nat n) m dest src; Ok (m', dest).

(** [while (n--) *p++ = (uint8_t)c;] *)
Fixpoint fill (n : nat) (m : mem) (p c : Z) : outcome mem :=
  match n with
  | O => Ok m
  | S n' => m' ← store8 m p (u8 c); fill n' m' (p + 1) c
  end.

Definition memset (m : mem) (s c n : Z) : outcome (mem * Z) :=
  m' ← fill (Z.to_nat n) m s c; Ok (m', s).

Definition memmove (m : mem) (dest src n : Z) : outcome (mem * Z) :=
  m' ← (if dest <? src then copy_up (Z.to_nat n) m dest src
        else copy_down (Z.to_nat n) m (dest + n) (src + n));
  Ok (m', dest).

Fixpoint memcmp_loop (n : nat) (m : mem) (p1 p2 : Z) : outcome Z :=
  match n with
  | O => Ok 0
  | S n' =>
      a ← load8 m p1; b ← load8 m p2;
      if a =? b then memcmp_loop n' m (p1 + 1) (p2 + 1) else Ok (a - b)
  end.

Definition memcmp (m : mem) (s1 s2 n : Z) : outcome Z := memcmp_loop (Z.to_nat n) m s1 s2.

Fixpoint strlen_from (fuel : nat) (m : mem) (s len : Z) : outcome Z :=
  match fuel with
  | O => NoFuel
  | S f => c ← load8 m (s + len); if c =? 0 then Ok len else strlen_from f m s (len + 1)
  end.

Definition strlen (fuel : nat) (m : mem) (s : Z) : outcome Z := strlen_from fuel m s 0.

(** The second loop of strncpy: zero from index [i] on. *)
Fixpoint strncpy_pad (left : nat) (m : mem) (dest i : Z) : outcome mem :=
  match left with
  | O => Ok m
  | S l => m' ← store8 m (dest + i) 0; strncpy_pad l m' dest (i + 1)
  end.

(** The first loop; [left] is [n - i]. *)
Fixpoint strncpy_copy (left : nat) (m : mem) (dest src i : Z) : outcome mem :=
  match left with
  | O => Ok m
  | S l =>
      c ← load8 m (src + i);
      if c =? 0 then strncpy_pad left m dest i
      else m' ← store8 m (dest + i) c; strncpy_copy l m' dest src (i + 1)
  end.

Definition strncpy (m : mem) (dest src n : Z) : outcome (mem * Z) :=
  m' ← strncpy_copy (Z.to_nat n) m dest src 0; Ok (m', dest).

Definition strcpy (fuel : nat) (m : mem) (dest src : Z) : outcome (mem * Z) :=
  src_len ← strlen fuel m src;
  let src_len := if 4095 <? src_len then 4095 else src_len in
  r ← strncpy m dest src (src_len + 1);
  Ok (r.1, dest).

Fixpoint strcmp (fuel : nat) (m : mem) (s1 s2 : Z) : outcome Z :=
  match fuel with
  | O => NoFuel
  | S f =>
      a ← load8 m s1; b ← load8 m s2;
      if negb (a =? 0) && (a =? b) then strcmp f m (s1 + 1) (s2 + 1) else Ok (a - b)
  end.

(** [n] is the counter before the test [n--]; once it is exhausted it wraps to
    [(size_t)-1] and the function returns 0. *)
Fixpoint strncmp_loop (n : nat) (m : mem) (s1 s2 : Z) : outcome Z :=
  match n with
  | O => Ok 0
  | S n' =>
      a ← load8 m s1; b ← load8 m s2;
      if negb (a =? 0) && (a =? b) then strncmp_loop n' m (s1 + 1) (s2 + 1)
      else if Z.of_nat n' =? SIZE_MAX then Ok 0 else Ok (a - b)
  end.

Definition strncmp (m : mem) (s1 s2 n : Z) : outcome Z :=
  if n =? 0 then Ok 0 else strncmp_loop (Z.to_nat n) m s1 s2.

(** ** C strings *)

(** A string of non-zero bytes followed by its terminator is stored at [a]. *)
Definition char_ok (c : Z) : Prop := 0 < c < 256.
Definition cstr (m : mem) (a : Z) (s : list Z) : Prop :=
  bytes_at m a (s ++ [0]) /\ Forall char_ok s.

(** Reference comparison of two terminated strings: the difference of the first
    bytes that differ, the terminators included. *)
Fixpoint str_diff (s t : list Z) : Z :=
  match s, t with
  | [], [] => 0
  | [], c :: _ => 0 - c
  | c :: _, [] => c - 0
  | c :: s', d :: t' => if c =? d then str_diff s' t' else c - d
  end.

Lemma cstr_cons m a c s : cstr m a (c :: s) <-> m !! a = Some c /\ char_ok c /\ cstr m (a + 1) s.
Proof. unfold cstr. simpl. rewrite bytes_at_cons, Forall_cons. tauto. Qed.

Lemma cstr_nil m a : cstr m a [] <-> m !! a = Some 0.
Proof. unfold cstr. simpl. rewrite bytes_at_cons. split; [tauto|]. intros. split; [|done]. split; [done|]. intros i b Hi. done. Qed.

Lemma str_diff_zero s t : Forall char_ok s -> Forall char_ok t -> (str_diff s t = 0 <-> s = t).
Proof.
  intros Hs. revert t. induction Hs as [|c s Hc Hs IH]; intros [|d t] Ht; simpl;
    try (rewrite Forall_cons in Ht; destruct Ht as [? Ht]); unfold char_ok in *.
  - done.
  - split; [lia | done].
  - split; [lia | done].
  - destruct (Z.eqb_spec c d) as [->|Hne]; [rewrite IH by done; naive_solver|].
    split; [lia | congruence].
Qed.

(** ** Loop lemmas *)

Lemma copy_up_spec n m d s bs :
  length bs = n -> bytes_at m s bs -> mapped m d (Z.of_nat n) ->
  (d <= s \/ s + Z.of_nat n <= d) ->
  exists m', copy_up n m d s = Ok m' /\ wrote m m' d bs.
Proof.
  revert m d s bs. induction n as [|n IH]; intros m d s bs Hlen Hbs Hmap Hov;
    destruct bs as [|b bs]; simplify_eq/=; [eauto with kernel|].
  rewrite bytes_at_cons in Hbs. destruct Hbs as [Hb Hbs].
  rewrite (load8_ok _ _ _ Hb). simpl.
  rewrite store8_ok by (apply Hmap; lia). simpl.
  destruct (IH (<[d := b]> m) (d + 1) (s + 1) bs) as (m' & -> & Hw); [done| | |lia|].
  - apply bytes_at_insert_out; [lia | done].
  - eapply mapped_sub; [by apply mapped_insert | lia..].
  - exists m'. split; [done|]. by apply wrote_cons.
Qed.

Lemma copy_down_spec n m d s bs :
  length bs = n -> bytes_at m s bs -> mapped m d (Z.of_nat n) -> s <= d ->
  exists m', copy_down n m (d + Z.of_nat n) (s + Z.of_nat n) = Ok m' /\ wrote m m' d bs.
Proof.
  revert m bs. induction n as [|n IH]; intros m bs Hlen Hbs Hmap Hov.
  { destruct bs; [|done]. eauto with kernel. }
  destruct bs as [|b bs _] using rev_ind; [done|].
  rewrite length_app, Nat.add_1_r in Hlen. injection Hlen as Hlen.
  rewrite bytes_at_app in Hbs. destruct Hbs as [Hbs Hb].
  rewrite bytes_at_cons in Hb. destruct Hb as [Hb _]. rewrite Hlen in Hb.
  cbn [copy_down].
  replace (s + Z.of_nat (S n) - 1) with (s + Z.of_nat n) by lia.
  replace (d + Z.of_nat (S n) - 1) with (d + Z.of_nat n) by lia.
  rewrite (load8_ok _ _ _ Hb). simpl.
  rewrite store8_ok by (apply Hmap; lia). simpl.
  destruct (IH (<[d + Z.of_nat n := b]> m) bs) as (m' & -> & Hw); [done| | |lia|].
  - apply bytes_at_insert_out; [lia | done].
  - eapply mapped_sub; [by apply mapped_insert | lia..].
  - exists m'. split; [done|]. apply wrote_snoc. by rewrite Hlen.
Qed.

Lemma fill_spec n m p c :
  mapped m p (Z.of_nat n) ->
  exists m', fill n m p c = Ok m' /\ wrote m m' p (replicate n (u8 c)).
Proof.
  revert m p. induction n as [|n IH]; intros m p Hmap; simpl; [eauto with kernel|].
  rewrite store8_ok by (apply Hmap; lia). simpl.
  destruct (IH (<[p := u8 c]> m) (p + 1)) as (m' & -> & Hw).
  - eapply mapped_sub; [by apply mapped_insert | lia..].
  - exists m'. split; [done|]. by apply wrote_cons.
Qed.

Lemma strlen_from_spec f m s pre len :
  cstr m (s + len) pre -> (length pre < f)%nat ->
  strlen_from f m s len = Ok (len + Z.of_nat (length pre)).
Proof.
  revert f len. induction pre as [|c pre IH]; intros [|f] len Hs Hf; simpl in Hf; try lia; simpl.
  - rewrite cstr_nil in Hs. rewrite (load8_ok _ _ _ Hs). simpl. by rewrite Z.add_0_r.
  - rewrite cstr_cons in Hs. destruct Hs as (Hc & Hok & Hs). unfold char_ok in Hok.
    rewrite (load8_ok _ _ _ Hc). simpl. rewrite (proj2 (Z.eqb_neq c 0)) by lia.
    rewrite IH; [f_equal; lia | by rewrite Z.add_assoc | lia].
Qed.

Lemma strncpy_pad_spec l m dest i :
  mapped m (dest + i) (Z.of_nat l) ->
  exists m', strncpy_pad l m dest i = Ok m' /\ wrote m m' (dest + i) (replicate l 0).
Proof.
  revert m i. induction l as [|l IH]; intros m i Hmap; simpl; [eauto with kernel|].
  rewrite store8_ok by (apply Hmap; lia). simpl.
  destruct (IH (<[dest + i := 0]> m) (i + 1)) as (m' & -> & Hw).
  - eapply mapped_sub; [by apply mapped_insert | lia..].
  - exists m'. split; [done|]. apply wrote_cons. by rewrite <- Z.add_assoc.
Qed.

(** What strncpy leaves in the destination: the string cut at [n], zero padded. *)
Definition strncpy_result (s : list Z) (n : nat) : list Z :=
  take n s ++ replicate (n - length s) 0.

Lemma strncpy_copy_spec l m dest src i s :
  cstr m (src + i) s -> mapped m (dest + i) (Z.of_nat l) ->
  (dest + i + Z.of_nat l <= src + i \/ src + i + Z.of_nat (length s) + 1 <= dest + i) ->
  exists m', strncpy_copy l m dest src i = Ok m' /\
             wrote m m' (dest + i) (strncpy_result s l).
Proof.
  unfold strncpy_result. revert m i s.
  induction l as [|l IH]; intros m i s Hs Hmap Hdis.
  { rewrite take_0. simpl. eauto with kernel. }
  cbn [strncpy_copy]. destruct s as [|c s].
  - rewrite cstr_nil in Hs. rewrite (load8_ok _ _ _ Hs). simpl.
    destruct (strncpy_pad_spec (S l) m dest i) as (m' & Hm' & Hw); [done|].
    simpl in Hm'. rewrite Hm'. eauto.
  - rewrite cstr_cons in Hs. destruct Hs as (Hc & Hok & Hs). unfold char_ok in Hok.
    rewrite (load8_ok _ _ _ Hc). simpl. rewrite (proj2 (Z.eqb_neq c 0)) by lia.
    rewrite store8_ok by (apply Hmap; lia). simpl.
    destruct (IH (<[dest + i := c]> m) (i + 1) s) as (m' & -> & Hw).
    + destruct Hs as [Hb ?]. split; [|done]. rewrite Z.add_assoc.
      apply bytes_at_insert_out; [|done]. rewrite length_app. simpl in *. lia.
    + eapply mapped_sub; [by apply mapped_insert | lia..].
    + simpl in *. lia.
    + exists m'. split; [done|]. apply wrote_cons. by rewrite <- Z.add_assoc.
Qed.

(** ** Properties *)

(** memmove copies the [n] bytes at [src] to [dest], whatever the overlap of
    the two regions, changes no other byte, and returns [dest]. *)
Theorem memmove_correct (m : mem) (dest src : Z) (bs : list Z)
    (Hsrc : bytes_at m src bs) (Hdst : mapped m dest (Z.of_nat (length bs))) :
  exists m', memmove m dest src (Z.of_nat (length bs)) = Ok (m', dest) /\
    bytes_at m' dest bs /\
    (forall x, ~ (dest <= x < dest + Z.of_nat (length bs)) -> m' !! x = m !! x).
Proof.
  unfold memmove. rewrite Nat2Z.id.
  assert (exists m', (if dest <? src then copy_up (length bs) m dest src
    else copy_down (length bs) m (dest + Z.of_nat (length bs)) (src + Z.of_nat (length bs)))
    = Ok m' /\ wrote m m' dest bs) as (m' & -> & Hw).
  { destruct (Z.ltb_spec dest src).
    - apply copy_up_spec; auto. lia.
    - by apply copy_down_spec. }
  exists m'. split; [done|]. split; [by eapply wrote_bytes_at|].
  intros x Hx. by eapply wrote_frame.
Qed.

(** A memory of the bytes [bs] at [a]. *)
Definition mem_of (a : Z) (bs : list Z) : mem :=
  list_to_map (zip (seqZ a (Z.of_nat (length bs))) bs).

Lemma memmove_correct_witness :
  let m := mem_of 100 [1; 2; 3; 4; 5; 0; 0] in
  exists m', memmove m 102 100 5 = Ok (m', 102) /\ bytes_at m' 102 [1; 2; 3; 4; 5].
Proof.
  intros m. edestruct (memmove_correct m 102 100 [1; 2; 3; 4; 5]) as (m' & H1 & H2 & _).
  - repeat (apply bytes_at_cons; split; [reflexivity|]). intros i b Hi. discriminate Hi.
  - intros x Hx. simpl in Hx.
    assert (x = 102 \/ x = 103 \/ x = 104 \/ x = 105 \/ x = 106) as Hc by lia.
    destruct Hc as [->|[->|[->|[->| ->]]]]; vm_compute; eauto.
  - exists m'. split; assumption.
Defined.

(** On two C strings strcmp terminates with the difference of the first
    bytes that differ, and that is 0 exactly when the strings are equal. *)
Theorem strcmp_correct (m : mem) (p q : Z) (s t : list Z) (fuel : nat)
    (Hs : cstr m p s) (Ht : cstr m q t) (Hf : (length s < fuel)%nat) :
  strcmp fuel m p q = Ok (str_diff s t) /\ (strcmp fuel m p q = Ok 0 <-> s = t).
Proof.
  assert (strcmp fuel m p q = Ok (str_diff s t)) as ->.
  { clear - Hs Ht Hf. revert p q t fuel Hs Ht Hf.
    induction s as [|c s IH]; intros p q t [|f] Hs Ht Hf; simpl in Hf; try lia; simpl;
      [rewrite cstr_nil in Hs | rewrite cstr_cons in Hs; destruct Hs as (Hc & Hok & Hs)];
      (destruct t as [|d t];
       [rewrite cstr_nil in Ht | rewrite cstr_cons in Ht; destruct Ht as (Hd & Hok' & Ht)]);
      unfold char_ok in *.
    - rewrite (load8_ok _ _ _ Hs), (load8_ok _ _ _ Ht). done.
    - rewrite (load8_ok _ _ _ Hs), (load8_ok _ _ _ Hd). done.
    - rewrite (load8_ok _ _ _ Hc), (load8_ok _ _ _ Ht). simpl.
      rewrite (proj2 (Z.eqb_neq c 0)) by lia. done.
    - rewrite (load8_ok _ _ _ Hc), (load8_ok _ _ _ Hd). simpl.
      rewrite (proj2 (Z.eqb_neq c 0)) by lia. simpl.
      destruct (Z.eqb_spec c d); [|done]. apply IH; [done | done | lia]. }
  split; [done|]. rewrite <- (str_diff_zero s t) by (apply Hs || apply Ht).
  split; congruence.
Qed.

Lemma strcmp_correct_witness :
  let m := mem_of 10 [97; 98; 0; 97; 99; 0] in
  strcmp 5 m 10 13 = Ok (-1) /\ (strcmp 5 m 10 13 = Ok 0 <-> [97; 98] = [97; 99]).
Proof.
  intros m. apply (strcmp_correct m 10 13 [97; 98] [97; 99] 5); [| |simpl; lia];
    repeat (apply cstr_cons; split; [reflexivity|]; split; [unfold char_ok; lia|]);
    apply cstr_nil; reflexivity.
Defined.

(** strcpy of a string of at most 4095 bytes copies it with its terminator
    and changes nothing else; of a longer one it writes exactly the first 4096
    bytes, so the destination holds no terminator. *)
Theorem strcpy_correct (m : mem) (dest src : Z) (s : list Z) (fuel : nat)
    (Hs : cstr m src s) (Hf : (length s < fuel)%nat)
    (Hd : mapped m dest (Z.min 4095 (Z.of_nat (length s)) + 1))
    (Hdis : dest + 4096 <= src \/ src + Z.of_nat (length s) + 1 <= dest) :
  exists m', strcpy fuel m dest src = Ok (m', dest) /\
    wrote m m' dest (if Z.of_nat (length s) <=? 4095 then s ++ [0] else take 4096 s).
Proof.
  unfold strcpy, strlen.
  rewrite (strlen_from_spec fuel m src s 0) by (rewrite ?Z.add_0_r; done).
  rewrite bind_ok, Z.add_0_l. cbv zeta.
  set (k := if 4095 <? Z.of_nat (length s) then 4095 else Z.of_nat (length s)).
  assert (k = Z.min 4095 (Z.of_nat (length s))) as Hk.
  { unfold k. destruct (Z.ltb_spec 4095 (Z.of_nat (length s))); lia. }
  unfold strncpy.
  destruct (strncpy_copy_spec (Z.to_nat (k + 1)) m dest src 0 s) as (m' & Hm' & Hw);
    rewrite ?Z.add_0_r in *; [done| |lia|].
  { rewrite Z2Nat.id by lia. by rewrite Hk. }
  rewrite Hm'. exists m'. split; [done|].
  enough (strncpy_result s (Z.to_nat (k + 1)) =
    if Z.of_nat (length s) <=? 4095 then s ++ [0] else take 4096 s) as <- by done.
  unfold strncpy_result. destruct (Z.leb_spec (Z.of_nat (length s)) 4095).
  - rewrite take_ge by lia. replace (Z.to_nat (k + 1) - length s)%nat with 1%nat by lia. done.
  - replace (Z.to_nat (k + 1)) with 4096%nat by lia.
    replace (4096 - length s)%nat with 0%nat by lia. by rewrite app_nil_r.
Qed.

Lemma strcpy_correct_witness :
  let m := mem_of 10 [97; 98; 0] ∪ mem_of 5000 [1; 1; 1; 1] in
  exists m', strcpy 5 m 5000 10 = Ok (m', 5000) /\ wrote m m' 5000 [97; 98; 0].
Proof.
  intros m. apply (strcpy_correct m 5000 10 [97; 98] 5).
  - repeat (apply cstr_cons; split; [reflexivity|]; split; [unfold char_ok; lia|]).
    apply cstr_nil; reflexivity.
  - simpl; lia.
  - intros x Hx. simpl in Hx. assert (x = 5000 \/ x = 5001 \/ x = 5002) as Hc by lia.
    destruct Hc as [->|[->| ->]]; vm_compute; eauto.
  - simpl. lia.
Defined.
