(* ===== verification/Buffer.v ===== *)
(** * Byte buffers and packed structures

    A buffer is the list of its bytes; an access outside it is a
    [Fault].  Multi-byte fields are stored in little-endian order, that of the
    machine.  The second part reads and writes the fields of structures kept as bytes. *)
From S2P Require Import Prelude.
#[local] Open Scope Z_scope.

(** ** Access *)

Definition get (buf : list Z) (pos : Z) : outcome Z :=
  if pos <? 0 then Fault else of_option (buf !! Z.to_nat pos).

Definition put (buf : list Z) (pos c : Z) : outcome (list Z) :=
  if (0 <=? pos) && (pos <? Z.of_nat (length buf)) then Ok (<[Z.to_nat pos := u8 c]> buf) else Fault.

Fixpoint put_all (buf : list Z) (pos : Z) (cs : list Z) : outcome (list Z) :=
  match cs with
  | [] => Ok buf
  | c :: cs => buf ← put buf pos c; put_all buf (pos + 1) cs
  end.

(** Fields of a packed structure, stored in little-endian order. *)
Definition put16 (buf : list Z) (pos v : Z) : outcome (list Z) := put_all buf pos [v; Z.shiftr v 8].
Definition get16 (buf : list Z) (pos : Z) : outcome Z :=
  lo ← get buf pos; hi ← get buf (pos + 1); Ok (Z.lor lo (Z.shiftl hi 8)).

(** ** What a buffer holds *)

(** [bs] is stored in [buf] at [pos]. *)
Definition stored (buf : list Z) (pos : nat) (bs : list Z) : Prop := take (length bs) (drop pos buf) = bs.

(** [buf] with [bs] stored at [pos]. *)
Definition splice (buf : list Z) (pos : nat) (bs : list Z) : list Z :=
  take pos buf ++ bs ++ drop (pos + length bs) buf.

Definition byte (c : Z) : Prop := 0 <= c < 256.

Lemma splice_nil buf pos : splice buf pos [] = buf.
Proof. unfold splice. by rewrite Nat.add_0_r, app_nil_l, take_drop. Qed.

Lemma splice_length buf pos bs : (pos + length bs <= length buf)%nat -> length (splice buf pos bs) = length buf.
Proof. intros Hl. unfold splice. rewrite !length_app, length_take, length_drop. lia. Qed.

Lemma splice_app buf pos a b : (pos + length a + length b <= length buf)%nat ->
  splice (splice buf pos a) (pos + length a) b = splice buf pos (a ++ b).
Proof.
  intros Hl. unfold splice at 1 3.
  assert (splice buf pos a = (take pos buf ++ a) ++ drop (pos + length a) buf) as E by (unfold splice; by rewrite app_assoc).
  assert (length (take pos buf ++ a) = (pos + length a)%nat) as Hp by (rewrite length_app, length_take; lia).
  rewrite E, take_app_length', drop_app_ge, Hp by lia. rewrite drop_drop, length_app, <- !app_assoc.
  do 4 f_equal. lia.
Qed.

Lemma splice_stored buf pos bs : (pos + length bs <= length buf)%nat -> stored (splice buf pos bs) pos bs.
Proof.
  intros Hl. unfold stored, splice. rewrite drop_app_length' by (rewrite length_take; lia). by rewrite take_app_length.
Qed.

Lemma put_ok buf pos c : (pos < length buf)%nat -> byte c -> put buf (Z.of_nat pos) c = Ok (splice buf pos [c]).
Proof.
  intros Hl Hc. unfold put. rewrite (proj2 (Z.leb_le _ _)), (proj2 (Z.ltb_lt _ _)) by lia. cbn [andb].
  rewrite Nat2Z.id, u8_small by exact Hc. f_equal. unfold splice. cbn [length app].
  rewrite insert_take_drop by done. by rewrite Nat.add_1_r.
Qed.

Lemma put_all_ok buf pos cs : (pos + length cs <= length buf)%nat -> Forall byte cs ->
  put_all buf (Z.of_nat pos) cs = Ok (splice buf pos cs).
Proof.
  intros Hl Hcs. revert buf pos Hl. induction Hcs as [|c cs Hc _ IH]; intros buf pos Hl; cbn [put_all].
  - by rewrite splice_nil.
  - cbn [length] in Hl. rewrite put_ok by (done || lia). rewrite bind_ok.
    replace (Z.of_nat pos + 1) with (Z.of_nat (pos + 1)) by lia.
    rewrite IH by (rewrite splice_length; simpl; lia). f_equal.
    apply (splice_app buf pos [c] cs). simpl. lia.
Qed.

Definition all_bytes : list Z := map Z.of_nat (seq 0 256).

Lemma byte_cases (f g : Z -> bool) b : forallb (fun b => Bool.eqb (f b) (g b)) all_bytes = true -> byte b -> f b = g b.
Proof.
  rewrite forallb_forall. intros Hf Hb. apply Bool.eqb_prop, Hf. unfold all_bytes, byte in *.
  apply in_map_iff. exists (Z.to_nat b). rewrite in_seq. lia.
Qed.

(** A number in front of [k] low bits. *)
Lemma lor_low k hi lo : 0 <= k -> 0 <= lo < 2 ^ k -> Z.lor (Z.shiftl hi k) lo = hi * 2 ^ k + lo.
Proof.
  intros Hk Hlo. rewrite Z.shiftl_mul_pow2 by lia.
  assert (Z.land (hi * 2 ^ k) lo = 0) as E.
  { destruct (decide (lo = 0)) as [->|Hnz]; [apply Z.land_0_r|]. apply Z.bits_inj'. intros n Hn. rewrite Z.land_spec, Z.testbit_0_l.
    destruct (Z.ltb_spec n k); [by rewrite Z.mul_pow2_bits_low by lia|].
    rewrite (Z.bits_above_log2 lo), andb_false_r; [done|lia|].
    apply Z.log2_lt_pow2; [lia|].
    apply Z.lt_le_trans with (2 ^ k); [lia|]. apply Z.pow_le_mono_r; lia. }
  by rewrite <- Z.lxor_lor, <- Z.add_nocarry_lxor.
Qed.

(** Two bytes put together, big end first. *)
Lemma lor_bytes hi lo : byte lo -> Z.lor (Z.shiftl hi 8) lo = hi * 256 + lo.
Proof. intros Hlo. apply (lor_low 8); [lia|exact Hlo]. Qed.

Lemma get_nat r (off : nat) c : r !! off = Some c -> get r (Z.of_nat off) = Ok c.
Proof. intros E. unfold get. rewrite (proj2 (Z.ltb_ge _ _)) by lia. by rewrite Nat2Z.id, E. Qed.

Lemma get_past r pos : Z.of_nat (length r) <= pos -> get r pos = Fault.
Proof. intros Hp. unfold get. case_match; [done|]. by rewrite lookup_ge_None_2 by lia. Qed.

Lemma stored_cons r off c l : stored r off (c :: l) -> r !! off = Some c /\ stored r (S off) l.
Proof.
  unfold stored. intros E. destruct (drop off r) as [|x t] eqn:Ed; [done|]. simpl in E. injection E as -> E. split.
  - rewrite <- (Nat.add_0_r off), <- lookup_drop, Ed. done.
  - rewrite <- E at 2. f_equal. by rewrite <- Nat.add_1_r, <- drop_drop, Ed.
Qed.

Lemma stored_app r off a b : stored r off (a ++ b) -> stored r off a /\ stored r (off + length a) b.
Proof.
  unfold stored. rewrite length_app. intros E.
  pose proof (f_equal length E) as Hl. rewrite length_app in Hl.
  rewrite <- (take_drop (length a) (take _ _)) in E.
  apply app_inj_1 in E as [Ea Eb].
  - rewrite take_take, Nat.min_l in Ea by lia. split; [done|].
    etransitivity; [|exact Eb]. rewrite skipn_firstn_comm, drop_drop. f_equal; lia.
  - rewrite length_take. lia.
Qed.

Lemma get_stored r off bs i c : stored r off bs -> bs !! i = Some c -> get r (Z.of_nat (off + i)) = Ok c.
Proof.
  intros Hs Hi. apply get_nat. rewrite <- lookup_drop. rewrite <- Hs in Hi.
  apply lookup_take_Some in Hi as [Hi _]. exact Hi.
Qed.

(** * Packed structures

    A packed structure is the list of its bytes; a [field] is a run of bytes in it that holds
    a little-endian number.  [slice] reads a run of a buffer, [splice] stores one. *)

(** ** Numbers as bytes *)

Fixpoint le_value (bs : list Z) : Z := match bs with [] => 0 | b :: bs => b + 256 * le_value bs end.
Fixpoint le_bytes (n : nat) (v : Z) : list Z := match n with O => [] | S n => v mod 256 :: le_bytes n (v / 256) end.

Lemma le_bytes_length n v : length (le_bytes n v) = n.
Proof. revert v. induction n; intros v; simpl; [done|by rewrite IHn]. Qed.

Lemma le_bytes_byte n v : Forall byte (le_bytes n v).
Proof. revert v. induction n; intros v; simpl; constructor; [apply Z.mod_pos_bound; lia|apply IHn]. Qed.

Lemma le_value_bytes n v : le_value (le_bytes n v) = v mod 256 ^ Z.of_nat n.
Proof.
  revert v. induction n as [|n IH]; intros v; [symmetry; apply Z.mod_1_r|]. cbn [le_bytes le_value]. rewrite IH, Nat2Z.inj_succ, Z.pow_succ_r by lia.
  rewrite Z.rem_mul_r by lia. done.
Qed.

Lemma le_value_range bs : Forall byte bs -> 0 <= le_value bs < 256 ^ Z.of_nat (length bs).
Proof.
  induction 1 as [|b bs Hb _ IH]; cbn [le_value length]; [done|]. rewrite Nat2Z.inj_succ, Z.pow_succ_r by lia. unfold byte in Hb. lia.
Qed.

Lemma le_bytes_value bs : Forall byte bs -> le_bytes (length bs) (le_value bs) = bs.
Proof.
  induction 1 as [|b bs Hb _ IH]; cbn [le_value le_bytes length]; [done|]. unfold byte in Hb.
  assert ((b + 256 * le_value bs) mod 256 = b /\ (b + 256 * le_value bs) / 256 = le_value bs) as [-> ->] by lia_mod. by rewrite IH.
Qed.

(** ** Runs *)

Definition slice (buf : list Z) (pos n : nat) : list Z := take n (drop pos buf).

Lemma slice_length buf pos n : (pos + n <= length buf)%nat -> length (slice buf pos n) = n.
Proof. intros. unfold slice. rewrite length_take, length_drop. lia. Qed.

Lemma slice_byte buf pos n : Forall byte buf -> Forall byte (slice buf pos n).
Proof. intros H. by apply Forall_take, Forall_drop. Qed.

Lemma slice_lookup buf pos n i : (i < n)%nat -> slice buf pos n !! i = buf !! (pos + i)%nat.
Proof. intros. unfold slice. by rewrite lookup_take_lt, lookup_drop. Qed.

Lemma splice_lookup buf pos l i : (pos + length l <= length buf)%nat ->
  splice buf pos l !! i = if decide (pos <= i < pos + length l)%nat then l !! (i - pos)%nat else buf !! i.
Proof.
  intros Hl. unfold splice. destruct (decide (i < pos)%nat).
  { rewrite decide_False by lia. rewrite lookup_app_l by (rewrite length_take; lia). by apply lookup_take_lt. }
  rewrite lookup_app_r by (rewrite length_take; lia). rewrite length_take, Nat.min_l by lia. destruct (decide (i < pos + length l)%nat).
  - rewrite decide_True by lia. apply lookup_app_l. lia.
  - rewrite decide_False by lia. rewrite lookup_app_r, lookup_drop by lia. f_equal. lia.
Qed.

Lemma slice_splice buf pos l : (pos + length l <= length buf)%nat -> slice (splice buf pos l) pos (length l) = l.
Proof. apply splice_stored. Qed.

Lemma slice_splice_ne buf pos l p n : (pos + length l <= length buf)%nat -> (p + n <= pos \/ pos + length l <= p)%nat ->
  slice (splice buf pos l) p n = slice buf p n.
Proof.
  intros Hl Hd. apply list_eq. intros i. destruct (decide (i < n)%nat).
  - rewrite !slice_lookup, splice_lookup, decide_False by lia. done.
  - rewrite !lookup_ge_None_2; [done|unfold slice; rewrite length_take; lia..].
Qed.

Lemma splice_byte buf pos l : Forall byte buf -> Forall byte l -> Forall byte (splice buf pos l).
Proof. intros Hb Hl. unfold splice. apply Forall_app; split; [by apply Forall_take|]. apply Forall_app; split; [done|by apply Forall_drop]. Qed.

(** ** Fields *)

Record field := Field { f_off : nat; f_len : nat }.

Definition rd (f : field) (s : list Z) : Z := le_value (slice s (f_off f) (f_len f)).
Definition wr (f : field) (v : Z) (s : list Z) : list Z := splice s (f_off f) (le_bytes (f_len f) v).

(** The field lies inside a structure of [n] bytes. *)
Definition inside (f : field) (n : nat) : Prop := (f_off f + f_len f <= n)%nat.
Definition apart (f g : field) : Prop := (f_off f + f_len f <= f_off g \/ f_off g + f_len g <= f_off f)%nat.

Lemma wr_length f v s : inside f (length s) -> length (wr f v s) = length s.
Proof. intros. unfold wr. apply splice_length. by rewrite le_bytes_length. Qed.

Lemma wr_byte f v s : Forall byte s -> Forall byte (wr f v s).
Proof. intros. apply splice_byte; [done|apply le_bytes_byte]. Qed.

Lemma rd_wr f v s : inside f (length s) -> rd f (wr f v s) = v mod 256 ^ Z.of_nat (f_len f).
Proof.
  intros. unfold rd, wr. pose proof (slice_splice s (f_off f) (le_bytes (f_len f) v)) as E. rewrite le_bytes_length in E.
  rewrite E by done. apply le_value_bytes.
Qed.

Lemma rd_wr_small f v s : inside f (length s) -> 0 <= v < 256 ^ Z.of_nat (f_len f) -> rd f (wr f v s) = v.
Proof. intros. rewrite rd_wr by done. by apply Z.mod_small. Qed.

Lemma rd_wr_ne f g v s : inside g (length s) -> apart f g -> rd f (wr g v s) = rd f s.
Proof. intros Hi Ha. unfold rd, wr. f_equal. unfold apart in Ha. apply slice_splice_ne; rewrite le_bytes_length; [done|]. lia. Qed.

Lemma rd_range f s : inside f (length s) -> Forall byte s -> 0 <= rd f s < 256 ^ Z.of_nat (f_len f).
Proof. intros Hi Hs. unfold rd. rewrite <- (slice_length s _ _ Hi) at 3. apply le_value_range, slice_byte, Hs. Qed.

(** Access to a structure at [pos] of a buffer. *)
Definition sub (buf : list Z) (pos n : Z) : outcome (list Z) :=
  if (0 <=? pos) && (0 <=? n) && (pos + n <=? Z.of_nat (length buf)) then Ok (slice buf (Z.to_nat pos) (Z.to_nat n)) else Fault.
Definition store (buf : list Z) (pos : Z) (l : list Z) : outcome (list Z) :=
  if (0 <=? pos) && (pos + Z.of_nat (length l) <=? Z.of_nat (length buf)) then Ok (splice buf (Z.to_nat pos) l) else Fault.

Definition shift (pos : Z) (f : field) : field := Field (Z.to_nat pos + f_off f) (f_len f).
Definition rd_at (buf : list Z) (pos : Z) (f : field) : outcome Z :=
  if (0 <=? pos) && (pos + Z.of_nat (f_off f + f_len f) <=? Z.of_nat (length buf)) then Ok (rd (shift pos f) buf) else Fault.
Definition wr_at (buf : list Z) (pos : Z) (f : field) (v : Z) : outcome (list Z) :=
  if (0 <=? pos) && (pos + Z.of_nat (f_off f + f_len f) <=? Z.of_nat (length buf)) then Ok (wr (shift pos f) v buf) else Fault.

Lemma sub_ok buf pos n : 0 <= pos -> 0 <= n -> pos + n <= Z.of_nat (length buf) -> sub buf pos n = Ok (slice buf (Z.to_nat pos) (Z.to_nat n)).
Proof. intros. unfold sub. by rewrite !(proj2 (Z.leb_le _ _)) by lia. Qed.

Lemma store_ok buf pos l : 0 <= pos -> pos + Z.of_nat (length l) <= Z.of_nat (length buf) -> store buf pos l = Ok (splice buf (Z.to_nat pos) l).
Proof. intros. unfold store. by rewrite !(proj2 (Z.leb_le _ _)) by lia. Qed.

Lemma rd_at_ok buf pos f : 0 <= pos -> pos + Z.of_nat (f_off f + f_len f) <= Z.of_nat (length buf) -> rd_at buf pos f = Ok (rd (shift pos f) buf).
Proof. intros. unfold rd_at. by rewrite !(proj2 (Z.leb_le _ _)) by lia. Qed.

Lemma wr_at_ok buf pos f v : 0 <= pos -> pos + Z.of_nat (f_off f + f_len f) <= Z.of_nat (length buf) -> wr_at buf pos f v = Ok (wr (shift pos f) v buf).
Proof. intros. unfold wr_at. by rewrite !(proj2 (Z.leb_le _ _)) by lia. Qed.
