(* ===== verification/KString.v ===== *)
(** * String formatting (src/kernel/lib/kstring.c)

    [snprintf] on a buffer of bytes.  A format and a string argument are lists of bytes without
    their zero; the arguments are a list of strings and numbers, and taking one of the wrong kind is a [Fault]. *)
From S2P Require Import Prelude Buffer.
#[local] Open Scope Z_scope.

Inductive arg := AStr (s : list Z) | AInt (n : Z).

(** The digits that fit into [num_buf], the last one of the number first. *)
Fixpoint dec_digits (n : nat) (num : Z) : list Z :=
  match n with
  | O => []
  | S n => if 0 <? num then 48 + num mod 10 :: dec_digits n (num / 10) else []
  end.

Definition hex_char (d : Z) : Z := if d <? 10 then 48 + d else 55 + d.
Fixpoint hex_digits (n : nat) (num : Z) : list Z :=
  match n with
  | O => []
  | S n => if 0 <? num then hex_char (Z.land (Z.shiftr num 12) 0xF) :: hex_digits n (Z.shiftr num 4) else []
  end.

Definition print_dec (num : Z) : list Z := if num =? 0 then [48] else dec_digits 15 num.
Definition print_hex (num : Z) : list Z := if num =? 0 then [48] else hex_digits 15 num.

(** What a conversion takes and prints; [None] for a character that is copied. *)
Definition convert (c : Z) (args : list arg) : option (outcome (list Z * list arg)) :=
  if c =? 115 then Some match args with AStr s :: args => Ok (s, args) | _ => Fault end
  else if c =? 100 then Some match args with AInt n :: args => Ok (print_dec n, args) | _ => Fault end
  else if (c =? 120) || (c =? 117) then Some match args with AInt n :: args => Ok (print_hex (u32 n), args) | _ => Fault end
  else None.

(** The characters stored, [room] at most. *)
Fixpoint kernel_vsnprintf (room : nat) (fmt : list Z) (args : list arg) : outcome (list Z) :=
  match fmt with
  | [] => Ok []
  | c :: fmt =>
      match room with
      | O => Ok []
      | S n =>
          if c =? 37 then
            match fmt with
            | [] => Fault
            | c :: fmt =>
                match convert c args with
                | Some o => r ← o; let '(text, args) := r in
                    out ← kernel_vsnprintf (room - length text) fmt args; Ok (take room text ++ out)
                | None => out ← kernel_vsnprintf n fmt args; Ok (c :: out)
                end
            end
          else out ← kernel_vsnprintf n fmt args; Ok (c :: out)
      end
  end.

(** [buf] is what is behind the pointer, [None] for null. *)
Definition snprintf (buf : option (list Z)) (size : Z) (fmt : list Z) (args : list arg) : outcome (Z * option (list Z)) :=
  match buf with
  | None => Ok (0, None)
  | Some b =>
      if size =? 0 then Ok (0, Some b)
      else
        out ← kernel_vsnprintf (Z.to_nat (size - 1)) fmt args;
        written ← int_arith (Z.of_nat (length out));
        b ← store b 0 out;
        b ← (if written <? size then put b written 0 else Ok b);
        Ok (written, Some b)
  end.

(** ** Numerals

    What a number looks like, without a procedure: [numeral b n ds] says that the digits [ds], the last one of the
    numeral first, are those of [n] in base [b]. *)

Definition digits_value (b : Z) (ds : list Z) : Z := foldr (fun d v => d + b * v) 0 ds.
Record numeral (b n : Z) (ds : list Z) : Prop := {
  nu_digits : Forall (fun d => 0 <= d < b) ds;
  nu_value : digits_value b ds = n;
  nu_lead : last ds <> Some 0
}.
(** "0123456789ABCDEF". *)
Definition digit_chars : list Z := [48; 49; 50; 51; 52; 53; 54; 55; 56; 57; 65; 66; 67; 68; 69; 70].
Definition digit_char (d : Z) : Z := nth (Z.to_nat d) digit_chars 0.

(** What [%d] prints: the digits of a positive number backwards, of a negative one nothing. *)
Inductive prints_dec : Z -> list Z -> Prop :=
  | dec_zero : prints_dec 0 [48]
  | dec_negative n : n < 0 -> prints_dec n []
  | dec_positive n ds : 0 < n -> numeral 10 n ds -> prints_dec n (map digit_char ds).

(** What [%x] and [%u] print: the hexadecimal digits backwards without the last three, and as many zeros behind as are needed to have
    one character per digit. *)
Inductive prints_hex : Z -> list Z -> Prop :=
  | hex_zero : prints_hex 0 [48]
  | hex_positive n ds : 0 < n -> numeral 16 n ds -> prints_hex n (map digit_char (drop 3 ds ++ replicate (length (take 3 ds)) 0)).

(** The text that a format and its arguments describe. *)
Inductive describes : list Z -> list arg -> list Z -> Prop :=
  | describes_end args : describes [] args []
  | describes_char c fmt args out : c <> 37 -> describes fmt args out -> describes (c :: fmt) args (c :: out)
  | describes_string fmt t args out : describes fmt args out -> describes (37 :: 115 :: fmt) (AStr t :: args) (t ++ out)
  | describes_dec fmt n t args out : - 2 ^ 31 <= n < 2 ^ 31 -> prints_dec n t -> describes fmt args out -> describes (37 :: 100 :: fmt) (AInt n :: args) (t ++ out)
  | describes_hex fmt c n t args out : c = 120 \/ c = 117 -> prints_hex (u32 n) t -> describes fmt args out -> describes (37 :: c :: fmt) (AInt n :: args) (t ++ out)
  | describes_other fmt c args out : c <> 115 -> c <> 100 -> c <> 120 -> c <> 117 -> describes fmt args out -> describes (37 :: c :: fmt) args (c :: out).

Lemma digits_nonneg b ds : 1 < b -> Forall (fun d => 0 <= d < b) ds -> 0 <= digits_value b ds.
Proof. intros Hb. induction 1 as [|d ds Hd _ IH]; [done|]. cbn [digits_value foldr]. fold (digits_value b ds). nia. Qed.

Lemma numeral_cons b n d ds : 1 < b -> numeral b n (d :: ds) -> 0 < n /\ d = n mod b /\ (ds = [] /\ n / b = 0 \/ numeral b (n / b) ds).
Proof.
  intros Hb [[Hd Hds]%Forall_cons <- Hl]. cbn [digits_value foldr]. fold (digits_value b ds). pose proof (digits_nonneg b ds Hb Hds).
  assert ((d + b * digits_value b ds) / b = digits_value b ds) as Eq by (symmetry; apply (Z.div_unique_pos _ _ _ d); lia). assert (d = (d + b * digits_value b ds) mod b) as Em by (apply (Z.mod_unique_pos _ _ (digits_value b ds)); lia).
  rewrite Eq, <- Em. destruct ds as [|e ds].
  - cbn in *. split; [|split; [done|by left]]. assert (d <> 0) by congruence. lia.
  - assert (numeral b (digits_value b (e :: ds)) (e :: ds)) as Hnu by (split; [done|done|]; by rewrite last_cons_cons in Hl).
    split; [|split; [done|by right]]. enough (0 < digits_value b (e :: ds)) by nia. clear - Hb Hnu. destruct Hnu as [Hf _ Hl]. revert e Hf Hl. induction ds as [|x ds IH]; intros e Hf Hl.
    + cbn in *. apply Forall_cons in Hf as [? _]. assert (e <> 0) by congruence. lia.
    + rewrite last_cons_cons in Hl. apply Forall_cons in Hf as [He Hf]. specialize (IH x Hf Hl). cbn [digits_value foldr] in *. fold (digits_value b ds) in *. nia.
Qed.

Lemma numeral_nil b n : numeral b n [] -> n = 0.
Proof. by intros [_ <- _]. Qed.

(** Every positive number has a numeral, so every number prints as something. *)
Lemma numeral_exists b n : 1 < b -> 0 < n -> exists ds, numeral b n ds /\ ds <> [].
Proof.
  intros Hb. revert n. apply (well_founded_induction (Z.lt_wf 0) (fun n => 0 < n -> exists ds, numeral b n ds /\ ds <> [])). intros n IH Hn. pose proof (Z.mod_pos_bound n b ltac:(lia)). destruct (Z.ltb_spec n b).
  - exists [n]. split; [|done]. split; [repeat constructor; lia|cbn; lia|intros [= ->]; lia].
  - destruct (IH (n / b)) as (ds & [Hd Hv Hl] & Hne); [split; [apply Z.div_pos; lia|apply Z.div_lt; lia]|apply Z.div_str_pos; lia|]. exists (n mod b :: ds). split; [|done]. split; [by constructor| |].
    + cbn [digits_value foldr]. fold (digits_value b ds). rewrite Hv. pose proof (Z.div_mod n b). lia.
    + destruct ds; [done|]. by rewrite last_cons_cons.
Qed.

Lemma prints_total n : (exists t, prints_dec n t) /\ (0 <= n -> exists t, prints_hex n t).
Proof.
  split; [|intros Hn]; (destruct (Z.eq_dec n 0) as [->|Hne]; [eexists; constructor|]).
  - destruct (Z.ltb_spec n 0); [eexists; by apply dec_negative|]. destruct (numeral_exists 10 n) as (ds & Hds & _); [lia|lia|]. eexists. apply (dec_positive n ds); [lia|done].
  - destruct (numeral_exists 16 n) as (ds & Hds & _); [lia|lia|]. eexists. apply (hex_positive n ds); [lia|done].
Qed.

Lemma digit_char_dec d : 0 <= d < 10 -> digit_char d = 48 + d.
Proof. intros Hd. assert (d = 0 \/ d = 1 \/ d = 2 \/ d = 3 \/ d = 4 \/ d = 5 \/ d = 6 \/ d = 7 \/ d = 8 \/ d = 9) by lia. by repeat destruct H as [->|H] || subst. Qed.

Lemma digit_char_hex d : 0 <= d < 16 -> digit_char d = hex_char d.
Proof.
  intros Hd. destruct (Z.ltb_spec d 10); [rewrite digit_char_dec by lia; unfold hex_char; by rewrite (proj2 (Z.ltb_lt d 10))|].
  assert (d = 10 \/ d = 11 \/ d = 12 \/ d = 13 \/ d = 14 \/ d = 15) by lia. by repeat destruct H0 as [->|H0] || subst.
Qed.

(** The code prints what the numeral says. *)
Lemma dec_digits_ok k : forall n ds, n < 10 ^ Z.of_nat k -> numeral 10 n ds -> dec_digits k n = map digit_char ds.
Proof.
  induction k as [|k IH]; intros n ds Hn Hds.
  - destruct ds as [|d ds]; [done|]. apply numeral_cons in Hds as [Hp _]; [|lia]. cbn in Hn. lia.
  - destruct ds as [|d ds]; [by rewrite (numeral_nil _ _ Hds)|]. pose proof Hds as [[Hd _]%Forall_cons _ _]. apply numeral_cons in Hds as (Hp & -> & Hds); [|lia]. cbn [dec_digits map]. rewrite (proj2 (Z.ltb_lt 0 n)) by done. rewrite digit_char_dec by done. f_equal.
    rewrite Nat2Z.inj_succ, Z.pow_succ_r in Hn by lia. destruct Hds as [[-> ->]|Hds]; [by destruct k|]. apply IH; [|done]. apply Z.div_lt_upper_bound; lia.
Qed.

(** The digit three places ahead, zero when there is none. *)
Lemma numeral_shift n ds j : 0 <= n -> numeral 16 n ds \/ ds = [] /\ n = 0 -> Z.land (Z.shiftr n (4 * Z.of_nat j)) 0xF = nth j ds 0.
Proof.
  change 0xF with (Z.ones 4). rewrite Z.land_ones, Z.shiftr_div_pow2 by lia. revert n ds. induction j as [|j IH]; intros n ds Hn Hds.
  - change (2 ^ (4 * Z.of_nat 0)) with 1. rewrite Z.div_1_r. destruct Hds as [Hds|[-> ->]]; [|done]. destruct ds as [|d ds]; [by rewrite (numeral_nil _ _ Hds)|]. by apply numeral_cons in Hds as (_ & -> & _).
  - replace (2 ^ (4 * Z.of_nat (S j))) with (16 * 2 ^ (4 * Z.of_nat j)) by (rewrite Nat2Z.inj_succ, Z.mul_succ_r, Z.pow_add_r by lia; lia). rewrite <- Z.div_div by lia.
    assert (0 <= n / 16) by (apply Z.div_pos; lia). destruct Hds as [Hds|[-> ->]]; [|by rewrite (IH (0 / 16) [] ltac:(done)) by (by right); destruct j].
    destruct ds as [|d ds]; [rewrite (numeral_nil _ _ Hds); rewrite (IH (0 / 16) [] ltac:(done)) by (by right); by destruct j|]. apply numeral_cons in Hds as (_ & _ & Hds); [|lia]. cbn [nth]. rewrite (IH (n / 16) ds) by (done || tauto). done.
Qed.

Lemma shifted_cons d ds : drop 3 (d :: ds) ++ replicate (length (take 3 (d :: ds))) 0 = nth 3 (d :: ds) 0 :: drop 3 ds ++ replicate (length (take 3 ds)) 0.
Proof. by destruct ds as [|? [|? [|? ?]]]. Qed.

Lemma hex_digits_ok k : forall n ds, n < 16 ^ Z.of_nat k -> numeral 16 n ds -> hex_digits k n = map digit_char (drop 3 ds ++ replicate (length (take 3 ds)) 0).
Proof.
  induction k as [|k IH]; intros n ds Hn Hds.
  - destruct ds as [|d ds]; [done|]. apply numeral_cons in Hds as [Hp _]; [|lia]. cbn in Hn. lia.
  - destruct ds as [|d ds]; [by rewrite (numeral_nil _ _ Hds)|]. rewrite shifted_cons. cbn [map hex_digits]. pose proof (numeral_cons 16 n d ds ltac:(lia) Hds) as (Hp & _ & Htl). rewrite (proj2 (Z.ltb_lt 0 n)) by done.
    change 12 with (4 * Z.of_nat 3). rewrite (numeral_shift n (d :: ds) 3) by (lia || by left). f_equal.
    + symmetry. apply digit_char_hex. destruct Hds as [Hf _ _]. destruct (nth_in_or_default 3 (d :: ds) 0) as [Hin| ->]; [|lia]. rewrite List.Forall_forall in Hf. by apply Hf.
    + rewrite Z.shiftr_div_pow2 by lia. change (2 ^ 4) with 16. rewrite Nat2Z.inj_succ, Z.pow_succ_r in Hn by lia. destruct Htl as [[-> ->]|Htl]; [by destruct k|]. apply IH; [|done]. apply Z.div_lt_upper_bound; lia.
Qed.

Lemma print_dec_ok n t : n < 2 ^ 31 -> prints_dec n t -> print_dec n = t.
Proof.
  intros Hn Hp. destruct Hp as [|n Hneg|n ds Hpos Hds]; unfold print_dec; [done|..]; rewrite (proj2 (Z.eqb_neq n 0)) by lia.
  - cbn [dec_digits]. by rewrite (proj2 (Z.ltb_ge 0 n)) by lia.
  - apply dec_digits_ok; [|done]. transitivity (2 ^ 31); [done|by vm_compute].
Qed.

Lemma print_hex_ok n t : n < 2 ^ 32 -> prints_hex n t -> print_hex n = t.
Proof.
  intros Hn Hp. destruct Hp as [|n ds Hpos Hds]; unfold print_hex; [done|]. rewrite (proj2 (Z.eqb_neq n 0)) by lia. apply hex_digits_ok; [|done]. transitivity (2 ^ 32); [done|by vm_compute].
Qed.

Lemma kernel_vsnprintf_ok fmt args text : describes fmt args text -> forall room, kernel_vsnprintf room fmt args = Ok (take room text).
Proof.
  induction 1 as [args|c fmt args out Hc _ IH|fmt t args out _ IH|fmt n t args out Hn Hp _ IH|fmt c n t args out Hc Hp _ IH|fmt c args out H1 H2 H3 H4 _ IH]; intros room; [by destruct room|..]; (destruct room as [|room]; [done|]); cbn [kernel_vsnprintf].
  - rewrite (proj2 (Z.eqb_neq c 37)) by done. by rewrite IH.
  - cbn [Z.eqb Pos.eqb convert]. rewrite bind_ok, IH, bind_ok. by rewrite take_app.
  - cbn [Z.eqb Pos.eqb convert]. rewrite (print_dec_ok n t) by (done || lia). rewrite bind_ok, IH, bind_ok. by rewrite take_app.
  - assert (convert c (AInt n :: args) = Some (Ok (print_hex (u32 n), args))) as -> by (by destruct Hc as [-> | ->]). rewrite (print_hex_ok (u32 n) t) by (done || (unfold u32; by apply Z.mod_pos_bound)). cbn [Z.eqb Pos.eqb]. rewrite bind_ok, IH, bind_ok. by rewrite take_app.
  - unfold convert. rewrite !(proj2 (Z.eqb_neq c _)) by done. cbn [Z.eqb Pos.eqb orb]. by rewrite IH.
Qed.

(** C40. When the arguments fit the format, the buffer gets the text that they describe, cut to one byte less than its size, and a zero; the result is the number of bytes
    stored, and no byte behind is touched.  The text is described apart from the code: [%d] gives the digits of a number backwards
    and nothing for a negative one, [%x] and [%u] both the hexadecimal digits backwards, the last three of them replaced by zeros at the end. *)
Theorem snprintf_correct b size fmt args text (Hr : describes fmt args text) (Hs : 0 < size <= Z.of_nat (length b)) (Hn : Z.of_nat (length text) < 2 ^ 31) :
  let out := take (Z.to_nat (size - 1)) text in
  snprintf (Some b) size fmt args = Ok (Z.of_nat (length out), Some (out ++ 0 :: drop (S (length out)) b)) /\ Z.of_nat (length out) < size.
Proof.
  intros out. assert (length out <= Z.to_nat (size - 1))%nat as Hlen by (unfold out; rewrite length_take; lia). assert (length out <= length text)%nat by (unfold out; rewrite length_take; lia).
  unfold snprintf. rewrite (proj2 (Z.eqb_neq _ _)) by lia. rewrite (kernel_vsnprintf_ok fmt args text Hr (Z.to_nat (size - 1))) by done. rewrite bind_ok. fold out. rewrite int_arith_ok by lia.
  rewrite bind_ok, store_ok by lia. rewrite bind_ok, (proj2 (Z.ltb_lt _ _)) by lia. unfold splice. change (take (Z.to_nat 0) b) with (@nil Z). rewrite app_nil_l. change (Z.to_nat 0 + length out)%nat with (length out).
  unfold put. rewrite length_app, length_drop. rewrite (proj2 (Z.leb_le _ _)), (proj2 (Z.ltb_lt _ _)) by lia. cbn [andb]. rewrite bind_ok, Nat2Z.id. split; [|lia].
  do 3 f_equal. destruct (drop (length out) b) as [|x l] eqn:E; [apply (f_equal length) in E; rewrite length_drop in E; cbn in E; lia|].
  rewrite insert_app_r_alt, Nat.sub_diag by lia. cbn. f_equal. assert (drop (S (length out)) b = l) as -> by (rewrite <- Nat.add_1_r, <- drop_drop, E; done). done.
Qed.

(** "n=%d;%x" with 120 and 0x12345. *)
Lemma snprintf_correct_witness : snprintf (Some (replicate 14 7)) 14 [110; 61; 37; 100; 59; 37; 120] [AInt 120; AInt 0x12345] = Ok (11, Some [110; 61; 48; 50; 49; 59; 50; 49; 48; 48; 48; 0; 7; 7]).
Proof.
  assert (describes [110; 61; 37; 100; 59; 37; 120] [AInt 120; AInt 0x12345] [110; 61; 48; 50; 49; 59; 50; 49; 48; 48; 48]) as Hd.
  { do 2 (apply describes_char; [done|]). apply (describes_dec _ 120 [48; 50; 49]); [lia| |apply describes_char; [done|apply (describes_hex [] 120 0x12345 [50; 49; 48; 48; 48] [] []); [by left| |apply describes_end]]].
    - apply (dec_positive 120 [0; 2; 1]); [done|]. split; [repeat constructor; lia|reflexivity|discriminate].
    - apply (hex_positive 0x12345 [5; 4; 3; 2; 1]); [done|]. split; [repeat constructor; lia|reflexivity|discriminate]. }
  exact (proj1 (snprintf_correct (replicate 14 7) 14 _ _ _ Hd ltac:(vm_compute; split; [reflexivity|discriminate]) ltac:(vm_compute; reflexivity))).
Defined.
