(* ===== verification/Spinlock.v ===== *)
(** * Spin locks: sync/spinlock.c, include/sync/spinlock.h

    The code of each architecture instruction by instruction, on any number of
    CPUs that share one lock word.  [instr] executes one instruction of one CPU:
    it gives the word the instruction stores, if any, and the new registers.  A
    store takes the exclusive monitor of every other CPU away and sends that CPU
    an event, as the architecture says; [DISTURB] is an interrupt, which does
    the same to one CPU. *)
From S2P Require Import Prelude.
#[local] Open Scope Z_scope.

Inductive arch := ARM64 | X86_64 | X86 | Other.

(** Where a CPU is inside the code: the names are those of the ARM64
    instructions; the x86 code has a load, a test, an exchange and a check. *)
Inductive label := sevl | wfe | load | test | store | check.

Inductive pc_t :=
| Outside
| SaveRead | SaveMask                (* [arch_irq_save_local] *)
| LockAt (irq : bool) (l : label)    (* [spin_lock], called by [spin_lock_irqsave] or not *)
| TryAt (l : label)                  (* [spin_trylock] *)
| Critical (irq : bool)              (* the call has returned with the lock *)
| UnlockAt (irq : bool)              (* [spin_unlock] *)
| RestoreAt.                         (* [arch_irq_restore_local] *)

(** [tmp] is the register of the code, [event] and [monitor] the event register
    and the exclusive monitor, [flags] the interrupt flags and [saved] their
    saved copy. *)
Record cpu := Cpu { pc : pc_t; tmp : Z; event : bool; monitor : bool; flags : Z; saved : Z }.

Definition goto (p : pc_t) (c : cpu) : cpu := Cpu p (tmp c) (event c) (monitor c) (flags c) (saved c).
Definition with_tmp (v : Z) (c : cpu) : cpu := Cpu (pc c) v (event c) (monitor c) (flags c) (saved c).
Definition with_event (b : bool) (c : cpu) : cpu := Cpu (pc c) (tmp c) b (monitor c) (flags c) (saved c).
Definition with_monitor (b : bool) (c : cpu) : cpu := Cpu (pc c) (tmp c) (event c) b (flags c) (saved c).
Definition with_flags (f : Z) (c : cpu) : cpu := Cpu (pc c) (tmp c) (event c) (monitor c) f (saved c).
Definition with_saved (f : Z) (c : cpu) : cpu := Cpu (pc c) (tmp c) (event c) (monitor c) (flags c) f.

Section machine.
Context (ar : arch).

(** The word stored, if any, and the CPU after the instruction; [None] while the
    instruction waits. *)
Definition effect : Type := option (option Z * cpu).

(** [ldaxr] / [stxr]: the store happens when the monitor is still set. *)
Definition ldaxr (lock : Z) (next : pc_t) (c : cpu) : effect :=
  Some (None, goto next (with_tmp lock (with_monitor true c))).
Definition stxr (next : pc_t) (c : cpu) : effect :=
  if monitor c then Some (Some 1, goto next (with_tmp 0 (with_monitor false c)))
  else Some (None, goto next (with_tmp 1 c)).

(** [lock cmpxchgl] from 0 to 1 and [lock xchgl] with 1: the old value. *)
Definition cmpxchg (lock : Z) (next : pc_t) (c : cpu) : effect :=
  Some (if lock =? 0 then Some 1 else None, goto next (with_tmp lock c)).
Definition xchg (lock : Z) (next : pc_t) (c : cpu) : effect :=
  Some (Some 1, goto next (with_tmp lock c)).

Definition arm64_spin_lock (irq : bool) (lock : Z) (l : label) (c : cpu) : effect :=
  match l with
  | sevl => Some (None, goto (LockAt irq wfe) (with_event true c))
  | wfe => if event c then Some (None, goto (LockAt irq load) (with_event false c)) else None
  | load => ldaxr lock (LockAt irq test) c
  | test => Some (None, goto (LockAt irq (if tmp c =? 0 then store else wfe)) c)
  | store => stxr (LockAt irq check) c
  | check => Some (None, goto (if tmp c =? 0 then Critical irq else LockAt irq load) c)
  end.

Definition arm64_spin_trylock (lock : Z) (l : label) (c : cpu) : effect :=
  match l with
  | load => ldaxr lock (TryAt test) c
  | test => Some (None, goto (if tmp c =? 0 then TryAt store else Outside) c)
  | store => stxr (TryAt check) c
  | check => Some (None, goto (if tmp c =? 0 then Critical false else Outside) c)
  | _ => None
  end.

(** [x86_64] exchanges with [cmpxchg], [x86] with [xchg]. *)
Definition x86_spin_lock (swap : Z -> pc_t -> cpu -> effect) (irq : bool) (lock : Z) (l : label) (c : cpu) : effect :=
  match l with
  | load => Some (None, goto (LockAt irq test) (with_tmp lock c))
  | test => Some (None, goto (LockAt irq (if tmp c =? 0 then store else load)) c)
  | store => swap lock (LockAt irq check) c
  | check => Some (None, goto (if tmp c =? 0 then Critical irq else LockAt irq load) c)
  | _ => None
  end.

(** [__sync_lock_test_and_set] in a loop, which the compiler documents as an atomic exchange; the
    comment at it says that it is not safe on several CPUs. *)
Definition other_spin_lock (irq : bool) (lock : Z) (l : label) (c : cpu) : effect :=
  match l with
  | store => xchg lock (LockAt irq check) c
  | check => Some (None, goto (if tmp c =? 0 then Critical irq else LockAt irq store) c)
  | _ => None
  end.

(** The other three architectures try with one exchange. *)
Definition xchg_spin_trylock (lock : Z) (l : label) (c : cpu) : effect :=
  match l with
  | store => xchg lock (TryAt check) c
  | check => Some (None, goto (if tmp c =? 0 then Critical false else Outside) c)
  | _ => None
  end.

Definition spin_lock (irq : bool) (lock : Z) (l : label) (c : cpu) : effect :=
  match ar with
  | ARM64 => arm64_spin_lock irq lock l c
  | X86_64 => x86_spin_lock cmpxchg irq lock l c
  | X86 => x86_spin_lock xchg irq lock l c
  | Other => other_spin_lock irq lock l c
  end.
Definition spin_trylock (lock : Z) (l : label) (c : cpu) : effect :=
  match ar with ARM64 => arm64_spin_trylock lock l c | _ => xchg_spin_trylock lock l c end.

(** Where the two functions start. *)
Definition lock_entry : label := match ar with ARM64 => sevl | X86_64 | X86 => load | Other => store end.
Definition try_entry : label := match ar with ARM64 => load | _ => store end.

Definition spin_unlock (irq : bool) (c : cpu) : effect :=
  Some (Some 0, goto (if irq then RestoreAt else Outside) c).

(** [msr daifset, #0xf] sets the bits 9 to 6, [cli] clears bit 9. *)
Definition irq_mask (f : Z) : Z :=
  match ar with ARM64 => Z.lor f 0x3C0 | X86_64 | X86 => Z.land f (Z.lnot 0x200) | Other => f end.
Definition irq_masked (f : Z) : bool :=
  match ar with ARM64 => Z.testbit f 7 | X86_64 | X86 => negb (Z.testbit f 9) | Other => false end.
Definition arch_irq_save_local (c : cpu) : cpu :=
  with_saved (match ar with Other => 0 | _ => flags c end) c.
Definition arch_irq_restore_local (c : cpu) : cpu :=
  match ar with Other => c | _ => with_flags (saved c) c end.

Definition instr (lock : Z) (c : cpu) : effect :=
  match pc c with
  | Outside | Critical _ => None
  | SaveRead => Some (None, goto SaveMask (arch_irq_save_local c))
  | SaveMask => Some (None, goto (LockAt true lock_entry) (with_flags (irq_mask (flags c)) c))
  | LockAt irq l => spin_lock irq lock l c
  | TryAt l => spin_trylock lock l c
  | UnlockAt irq => spin_unlock irq c
  | RestoreAt => Some (None, goto Outside (arch_irq_restore_local c))
  end.

(** ** The machine *)

Record system := System { lock_word : Z; cpus : nat -> cpu }.

(** What a store by another CPU does to a CPU. *)
Definition kick (c : cpu) : cpu := if monitor c then with_monitor false (with_event true c) else c.

Definition put (s : system) (i : nat) (c : cpu) : system :=
  System (lock_word s) (fun j => if decide (j = i) then c else cpus s j).
Definition commit (s : system) (i : nat) (st : option Z) (c : cpu) : system :=
  match st with
  | None => put s i c
  | Some v => put (System v (fun j => kick (cpus s j))) i c
  end.

Definition spin_lock_init (s : system) : system := System 0 (cpus s).

Inductive step (s : system) : system -> Prop :=
| EXEC i st c : instr (lock_word s) (cpus s i) = Some (st, c) -> step s (commit s i st c)
| LOCK i : pc (cpus s i) = Outside -> step s (put s i (goto (LockAt false lock_entry) (cpus s i)))
| LOCK_IRQSAVE i : pc (cpus s i) = Outside -> step s (put s i (goto SaveRead (cpus s i)))
| TRYLOCK i : pc (cpus s i) = Outside -> step s (put s i (goto (TryAt try_entry) (cpus s i)))
| UNLOCK i irq : pc (cpus s i) = Critical irq -> step s (put s i (goto (UnlockAt irq) (cpus s i)))
| DISTURB i : step s (put s i (with_monitor false (with_event true (cpus s i))))
| EVENT i : step s (put s i (with_event true (cpus s i)))
| FLAGS i f : pc (cpus s i) = Outside -> step s (put s i (with_flags f (cpus s i))).

(** [n] instructions of CPU [i] alone. *)
Fixpoint solo (n : nat) (i : nat) (s : system) : option system :=
  match n with
  | O => Some s
  | S n => e ← instr (lock_word s) (cpus s i); solo n i (commit s i e.1 e.2)
  end%stdpp.
End machine.
