(* ===== verification/SpinlockTheorems.v ===== *)
(** * Spin locks: mutual exclusion, no lost wake-up *)
From S2P Require Import Prelude Spinlock.
#[local] Open Scope Z_scope.

(** ** The abstract lock: free, or held by one CPU *)

Inductive lock_step : option nat -> option nat -> Prop :=
| Take i : lock_step None (Some i)
| Drop i : lock_step (Some i) None.

(** A CPU owns the lock from the exchange that took it to the store that frees it. *)
Definition owns (c : cpu) : bool :=
  match pc c with
  | Critical _ | UnlockAt _ => true
  | LockAt _ check | TryAt check => tmp c =? 0
  | _ => false
  end.

Definition spinning (c : cpu) : bool :=
  match pc c with SaveRead | SaveMask | LockAt _ _ => true | _ => false end.

(** CPUs whose call came through [spin_lock_irqsave], after its [arch_irq_save_local]. *)
Definition irq_saved (c : cpu) : bool :=
  match pc c with
  | LockAt irq _ | Critical irq | UnlockAt irq => irq
  | RestoreAt => true
  | _ => false
  end.

(** The lock word and the CPUs show the abstract lock. *)
Record shows (s : system) (a : option nat) : Prop := {
  sh_word : lock_word s = match a with None => 0 | Some _ => 1 end;
  sh_owner : forall i, owns (cpus s i) = true <-> a = Some i
}.

Section proofs.
Context (ar : arch).

(** What the code knows at each point: a monitor that is still set means that the
    word still holds the value loaded, and a CPU goes to sleep only if it has
    been sent an event or the lock is held and its monitor will report the
    store that frees it. *)
Definition knows (lock : Z) (c : cpu) : Prop :=
  match ar, pc c with
  | ARM64, LockAt _ wfe => event c = true \/ (monitor c = true /\ lock <> 0)
  | ARM64, LockAt _ test =>
      (monitor c = true -> tmp c = lock) /\ (event c = true \/ monitor c = true)
  | ARM64, TryAt test => monitor c = true -> tmp c = lock
  | ARM64, (LockAt _ store | TryAt store) => monitor c = true -> lock = 0
  | (X86_64 | X86), LockAt _ (sevl | wfe) => False
  | Other, LockAt _ (sevl | wfe | load | test) => False
  | ARM64, TryAt (sevl | wfe) => False
  | (X86_64 | X86 | Other), TryAt (sevl | wfe | load | test) => False
  | _, _ => True
  end.

(** Interrupts stay masked from [spin_lock_irqsave] to [spin_unlock_irqrestore]. *)
Definition mask_kept (c : cpu) : Prop :=
  ar <> Other -> (pc c = SaveMask -> flags c = saved c) /\ (irq_saved c = true -> flags c = irq_mask ar (saved c)).

Record inv (s : system) : Prop := {
  inv_shows : exists a, shows s a;
  inv_knows : forall i, knows (lock_word s) (cpus s i);
  inv_kept : forall i, mask_kept (cpus s i)
}.

(** One instruction: what it stores and what becomes of ownership. *)
Definition ownership (lock : Z) (st : option Z) (c c' : cpu) : Prop :=
  match st with
  | None => owns c' = owns c
  | Some v => (v = 1 /\ lock = 0 /\ owns c' = true) \/ (v = 1 /\ lock = 1 /\ owns c = false /\ owns c' = false) \/
              (v = 0 /\ owns c = true /\ owns c' = false)
  end.

Lemma instr_spec lock c st c' : knows lock c -> mask_kept c -> lock = 0 \/ lock = 1 ->
  instr ar lock c = Some (st, c') ->
  knows (default lock st) c' /\ mask_kept c' /\ ownership lock st c c'.
Proof.
  intros Hk Hm Hl Hi.
  unfold knows, mask_kept, ownership, owns, irq_saved, instr, spin_lock, spin_trylock, spin_unlock, lock_entry in *.
  destruct c as [p t ev mo fl sv]. cbn in *.
  destruct p as [| | |irq l|l|irq|irq|]; cbn in *; try done; destruct ar; cbn in *;
    try (destruct l; cbn in *; try done).
  all: unfold ldaxr, stxr, cmpxchg, xchg, goto, with_tmp, with_monitor, with_event in *; cbn in *.
  all: repeat match goal with
       | H : context [if ?b then _ else _] |- _ => destruct b eqn:?; cbn in *
       | H : Some _ = Some _ |- _ => injection H as <- <-; cbn in *
       end; try done.
  all: try (split; [|split]); try (intros ?; split); naive_solver lia.
Qed.

(** Another CPU stores [v]: what this CPU knows still holds. *)
Lemma kick_knows lock v c : knows lock c -> knows v (kick c).
Proof.
  unfold knows, kick. destruct c as [p t ev [] fl sv]; cbn; destruct ar, p as [| | |? []|[]| | |]; naive_solver.
Qed.
Lemma kick_kept c : mask_kept c -> mask_kept (kick c).
Proof. unfold kick. by destruct (monitor c). Qed.
Lemma kick_owns c : owns (kick c) = owns c.
Proof. unfold kick. by destruct (monitor c). Qed.

(** A change of one CPU that keeps the word, what it knows and its ownership. *)
Lemma inv_put s i c : inv s -> knows (lock_word s) c -> mask_kept c -> owns c = owns (cpus s i) ->
  inv (put s i c).
Proof.
  intros [(a & Hw & Ho) Hk Hm] Hkc Hmc Hoc. split.
  - exists a. split; [done|]. intros j. cbn. case_decide; [subst; by rewrite Hoc|]; apply Ho.
  - intros j. cbn. by case_decide.
  - intros j. cbn. by case_decide.
Qed.

Lemma shows_01 s a : shows s a -> lock_word s = 0 \/ lock_word s = 1.
Proof. intros [-> _]. destruct a; auto. Qed.

Lemma shows_put s v i c a a' : shows s a -> v = match a' with None => 0 | Some _ => 1 end ->
  (owns c = true <-> a' = Some i) -> (forall j, j <> i -> a = Some j <-> a' = Some j) ->
  shows (commit s i (Some v) c) a'.
Proof.
  intros [Hw Ho] -> Hc Hne. split; [done|]. intros j. cbn.
  case_decide; [by subst|]. rewrite kick_owns, Ho. by apply Hne.
Qed.

(** One instruction against the abstract lock. *)
Lemma exec_step s a i st c : inv s -> shows s a -> instr ar (lock_word s) (cpus s i) = Some (st, c) ->
  exists a', (a' = a \/ lock_step a a') /\ shows (commit s i st c) a' /\ inv (commit s i st c).
Proof.
  intros Hinv Hs He. pose proof Hinv as [_ Hk Hm]. pose proof Hs as [Hw Ho].
  destruct (instr_spec _ _ _ _ (Hk i) (Hm i) (shows_01 _ _ Hs) He) as (Hkc & Hmc & Hcase).
  destruct st as [v|]; cbn [default ownership] in *.
  - assert (exists a', (a' = a \/ lock_step a a') /\ shows (commit s i (Some v) c) a') as (a' & Hor & Hs').
    { destruct Hcase as [(-> & Hl & Hc)|[(-> & Hl & Hc & Hc')|(-> & Hc & Hc')]].
      - destruct a as [k|]; [congruence|]. exists (Some i). split; [right; constructor|].
        apply (shows_put _ _ _ _ None); [done|done|by rewrite Hc|intros; split; congruence].
      - destruct a as [k|]; [|congruence]. exists (Some k). split; [by left|].
        apply (shows_put _ _ _ _ (Some k)); [done..| |done].
        rewrite Hc'. split; [done|]. intros E. apply Ho in E. congruence.
      - apply Ho in Hc. subst a. exists None. split; [right; constructor|].
        apply (shows_put _ _ _ _ (Some i)); [done|done|by rewrite Hc'|intros; split; congruence]. }
    exists a'. split; [done|]. split; [done|]. split; [by exists a'|..]; intros j; cbn; case_decide; try done.
    + by apply (kick_knows (lock_word s)).
    + by apply kick_kept.
  - exists a. split; [by left|]. cbn. pose proof (inv_put s i c Hinv Hkc Hmc Hcase) as Hi. split; [|done].
    split; [done|]. intros j. cbn. case_decide; [subst; by rewrite Hcase|]; apply Ho.
Qed.

Lemma entry_knows irq lock c : knows lock (goto (LockAt irq (lock_entry ar)) c) /\ knows lock (goto (TryAt (try_entry ar)) c).
Proof. unfold knows, lock_entry, try_entry. by destruct ar. Qed.
(** An event, or an interrupt, at the CPU itself. *)
Lemma event_knows lock c :
  knows lock c -> knows lock (with_event true c) /\ knows lock (with_monitor false (with_event true c)).
Proof.
  unfold knows. destruct c as [p t ev mo fl sv]; cbn; destruct ar, p as [| | |? []|[]| | |]; cbn; intuition congruence.
Qed.

(** Entering a call. *)
Lemma enter_ok c lock p : pc c = Outside ->
  p = LockAt false (lock_entry ar) \/ p = SaveRead \/ p = TryAt (try_entry ar) ->
  knows lock (goto p c) /\ mask_kept (goto p c) /\ owns (goto p c) = owns c.
Proof.
  unfold knows, mask_kept, owns, irq_saved, lock_entry, try_entry. intros -> Hp.
  destruct Hp as [->|[->| ->]]; destruct ar; done.
Qed.

(** Every step of the machine is at most one step of the abstract lock. *)
Lemma step_shows s s' a : inv s -> shows s a -> step ar s s' ->
  exists a', (a' = a \/ lock_step a a') /\ shows s' a' /\ inv s'.
Proof.
  intros Hinv Hs Hstep. pose proof Hinv as [_ Hk Hm].
  assert (forall i c, knows (lock_word s) c -> mask_kept c -> owns c = owns (cpus s i) ->
    exists a', (a' = a \/ lock_step a a') /\ shows (put s i c) a' /\ inv (put s i c)) as Hput.
  { intros i c Hkc Hmc Hoc. exists a. split; [by left|]. split; [|by apply inv_put].
    split; [apply Hs|]. intros j. cbn. case_decide; [subst; rewrite Hoc|]; apply Hs. }
  destruct Hstep as [i st c He|i Hp|i Hp|i Hp|i irq Hp|i|i|i f Hp]; [by apply exec_step|..];
    specialize (Hk i); specialize (Hm i);
    try (edestruct (enter_ok (cpus s i)) as (? & ? & ?); [done| |by apply Hput]; auto);
    try (destruct (event_knows _ _ Hk); by apply Hput);
    apply Hput; unfold knows, mask_kept, owns, irq_saved in *; cbn; try rewrite Hp in *; try done;
    (by destruct ar) || (intros Ho; destruct (Hm Ho); by split).
Qed.

Definition at_rest (s : system) : Prop := forall i, pc (cpus s i) = Outside.

Lemma init_inv s : at_rest s -> inv (spin_lock_init s) /\ shows (spin_lock_init s) None.
Proof.
  intros Hr. assert (shows (spin_lock_init s) None) as Hs.
  { split; [done|]. intros i. cbn. unfold owns. by rewrite Hr. }
  split; [|done]. split; [by exists None|..]; intros i; cbn; unfold knows, mask_kept, irq_saved; rewrite Hr.
  - by destruct ar.
  - done.
Qed.

Lemma run_shows s0 s : at_rest s0 -> star (step ar) (spin_lock_init s0) s ->
  inv s /\ exists a, star lock_step None a /\ shows s a.
Proof.
  intros Hr Hst. destruct (init_inv _ Hr) as [Hi Hs]. remember (spin_lock_init s0) as s1.
  induction Hst as [s|s1 s2 s3 Hst IH Hstep].
  - split; [done|]. exists None. split; [constructor | done].
  - destruct (IH Heqs1 Hi Hs) as (Hi2 & a & Ha & Hs2).
    destruct (step_shows _ _ _ Hi2 Hs2 Hstep) as (a' & Hor & Hs3 & Hi3). split; [done|].
    exists a'. split; [|done]. destruct Hor as [->|Hl]; [done|]. by apply star_step with a.
Qed.

Lemma irq_mask_masked f : ar <> Other -> irq_masked ar (irq_mask ar f) = true.
Proof.
  unfold irq_masked, irq_mask. destruct ar; intros; try done.
  - rewrite Z.lor_spec. by rewrite orb_true_r.
  - rewrite Z.land_spec, Z.lnot_spec by lia. by rewrite andb_false_r.
  - rewrite Z.land_spec, Z.lnot_spec by lia. by rewrite andb_false_r.
Qed.

(** ** One CPU alone *)

(** The instructions of a CPU seen from the CPU. *)
Fixpoint alone (n : nat) (lock : Z) (c : cpu) : option (Z * cpu) :=
  match n with
  | O => Some (lock, c)
  | S n => match instr ar lock c with Some (st, c) => alone n (default lock st) c | None => None end
  end.

Lemma solo_alone i n : forall s v c, alone n (lock_word s) (cpus s i) = Some (v, c) ->
  exists s', solo ar n i s = Some s' /\ cpus s' i = c.
Proof.
  induction n as [|n IH]; intros s v c; cbn.
  - intros [= _ <-]. by exists s.
  - destruct (instr ar (lock_word s) (cpus s i)) as [[st c']|] eqn:E; [|done]. intros Ha. cbn.
    apply (IH (commit s i st c') v). destruct st; cbn in *; by rewrite decide_True.
Qed.

End proofs.

(** A CPU that spins on a free lock takes it. *)
Definition took (r : option (Z * cpu)) : bool :=
  match r with Some (_, c) => match pc c with Critical _ => true | _ => false end | None => false end.

Lemma alone_takes ar c : knows ar 0 c -> owns c = false -> spinning c = true ->
  exists n v c' irq, (n <= 8)%nat /\ alone ar n 0 c = Some (v, c') /\ pc c' = Critical irq.
Proof.
  intros Hk Ho Hsp.
  assert (existsb (fun n => took (alone ar n 0 c)) (seq 0 9) = true) as (n & Hn & Ht)%existsb_exists.
  { destruct c as [p t ev mo fl sv]. unfold knows, owns, spinning in *. cbn in Hk, Ho, Hsp.
    destruct ar, p as [| | |irq []|[]| | |]; try done; destruct t, ev, mo; try done;
      try (exfalso; destruct Hk as [? [?|?]]; congruence || lia); try (exfalso; destruct Hk as [?|[? ?]]; congruence || lia);
      vm_compute; reflexivity. }
  destruct (alone ar n 0 c) as [[v c']|] eqn:E; [|done]. cbn in Ht.
  destruct (pc c') eqn:Ep; try done. exists n, v, c', irq.
  apply in_seq in Hn. split; [lia | done].
Qed.

(** ** Theorems *)

(** C24. The spin lock of ARM64, x86-64 and x86 implements a lock, free or held by one CPU:
    from a state where no CPU is in the code and the word has been initialised, every run,
    on any number of CPUs and with any interleaving of the instructions of [spin_lock],
    [spin_trylock] and [spin_unlock], is matched by a run of the abstract lock.  The word is 0 exactly
    when the abstract lock is free.  A CPU whose call has returned with the lock is its one holder, until
    the store of its [spin_unlock], and if it came through [spin_lock_irqsave] its interrupts
    are masked; that store frees the lock and the word; a CPU outside the code never
    holds the lock, so that the word is 0 again when all CPUs are outside.  The instructions
    are taken to be atomic and in order.  The fallback for other architectures is left out: its comment says that it
    is not safe on several CPUs. *)
Theorem spin_lock_refines ar s0 s : ar <> Other -> at_rest s0 -> star (step ar) (spin_lock_init s0) s ->
  exists a, star lock_step None a /\ shows s a /\
    (forall i irq, pc (cpus s i) = Critical irq ->
      a = Some i /\ lock_word s = 1 /\ (irq = true -> irq_masked ar (flags (cpus s i)) = true)) /\
    (forall i irq st c, pc (cpus s i) = UnlockAt irq -> instr ar (lock_word s) (cpus s i) = Some (st, c) ->
      a = Some i /\ shows (commit s i st c) None) /\
    (forall i, pc (cpus s i) = Outside -> a <> Some i) /\
    (at_rest s -> lock_word s = 0) /\
    (forall s', step ar s s' -> exists a', (a' = a \/ lock_step a a') /\ shows s' a').
Proof.
  intros Har Hr Hst. destruct (run_shows _ _ _ Hr Hst) as [Hi (a & Ha & Hs)]. pose proof Hs as [Hw Ho].
  assert (forall i, pc (cpus s i) = Outside -> a <> Some i) as Hout by (intros i Hp E; apply Ho in E; unfold owns in E; by rewrite Hp in E).
  exists a. do 2 (split; [done|]). split; [|split; [|split; [done|split]]].
  - intros i irq Hp. assert (a = Some i) as -> by (apply Ho; unfold owns; by rewrite Hp).
    split; [done|]. split; [done|]. intros ->.
    destruct (inv_kept _ _ Hi i Har) as [_ ->]; [by apply irq_mask_masked|]. unfold irq_saved. by rewrite Hp.
  - intros i irq st c Hp He. assert (a = Some i) as -> by (apply Ho; unfold owns; by rewrite Hp). split; [done|].
    destruct (exec_step ar s _ i st c Hi Hs He) as (a' & [->|Hl] & Hs' & _); [exfalso|by inversion Hl; subst].
    pose proof (proj2 (sh_owner _ _ Hs' i) eq_refl) as Hn. revert Hn He. unfold instr. rewrite Hp. intros Hn [= <- <-].
    revert Hn. cbn. rewrite decide_True by done. by destruct irq.
  - intros Hrest. destruct a as [i|]; [|done]. by destruct (Hout i (Hrest i)).
  - intros s' Hstep. destruct (step_shows _ _ _ _ Hi Hs Hstep) as (a' & Hl & Hs' & _). by exists a'.
Qed.

(** C25. No wake-up is lost and a free lock can be taken: in every reachable state
    in which the lock is free, any CPU inside [spin_lock] or [spin_lock_irqsave],
    one that sleeps at [wfe] included, has the lock after at most eight
    instructions of its own, if it runs alone. *)
Theorem spin_lock_progress ar s0 s i : at_rest s0 -> star (step ar) (spin_lock_init s0) s ->
  lock_word s = 0 -> spinning (cpus s i) = true ->
  exists n s' irq, (n <= 8)%nat /\ solo ar n i s = Some s' /\ pc (cpus s' i) = Critical irq.
Proof.
  intros Hr Hst Hl Hsp. destruct (run_shows _ _ _ Hr Hst) as [Hi (a & _ & [Hw Ho])].
  destruct (alone_takes ar (cpus s i)) as (n & v & c & irq & Hn & Ha & Hp); [|  |done|].
  - rewrite <- Hl. apply Hi.
  - destruct (owns (cpus s i)) eqn:E; [|done]. apply Ho in E. subst a. lia.
  - rewrite <- Hl in Ha. destruct (solo_alone _ _ _ _ _ _ Ha) as (s' & Hs & Hc).
    exists n, s', irq. split; [done|]. split; [done|]. by rewrite Hc.
Qed.

(** Witnesses: two CPUs; the first takes the lock, the second goes to sleep, and
    is woken by the store that frees the lock. *)
Definition idle_cpu : cpu := Cpu Outside 0 false false 0 0.
Definition resting : system := System 7 (fun _ => idle_cpu).

Lemma resting_at_rest : at_rest resting.
Proof. done. Qed.

(** A run given by its steps. *)
Inductive act := Exec (i : nat) | Lock_irqsave (i : nat) | Unlock (i : nat).
Definition act_step (ar : arch) (s : system) (a : act) : option system :=
  match a with
  | Exec i => match instr ar (lock_word s) (cpus s i) with Some (st, c) => Some (commit s i st c) | None => None end
  | Lock_irqsave i => match pc (cpus s i) with Outside => Some (put s i (goto SaveRead (cpus s i))) | _ => None end
  | Unlock i => match pc (cpus s i) with Critical irq => Some (put s i (goto (UnlockAt irq) (cpus s i))) | _ => None end
  end.
Fixpoint play (ar : arch) (s : system) (l : list act) : option system :=
  match l with [] => Some s | a :: l => match act_step ar s a with Some s => play ar s l | None => None end end.

Lemma act_step_ok ar s a s' : act_step ar s a = Some s' -> step ar s s'.
Proof.
  destruct a as [i|i|i]; cbn.
  - destruct (instr ar (lock_word s) (cpus s i)) as [[st c]|] eqn:E; intros [= <-]. by constructor.
  - destruct (pc (cpus s i)) eqn:E; intros [= <-]. by constructor.
  - destruct (pc (cpus s i)) eqn:E; intros [= <-]. by constructor.
Qed.
Lemma play_star ar l : forall s s', play ar s l = Some s' -> star (step ar) s s'.
Proof.
  induction l as [|a l IH]; cbn; intros s s'; [intros [= <-]; constructor|].
  destruct (act_step ar s a) as [s1|] eqn:E; [|done]. intros Hp. apply star_trans with s1; [|by apply IH].
  apply star_step with s; [constructor | by apply act_step_ok in E].
Qed.

Definition taken_script : list act := Lock_irqsave 0 :: replicate 8 (Exec 0).
Definition asleep_script : list act :=
  taken_script ++ Lock_irqsave 1 :: replicate 6 (Exec 1) ++ [Unlock 0; Exec 0].

(** The first CPU has the lock; its next instruction in [spin_unlock] frees it. *)
Lemma spin_lock_refines_witness :
  match play ARM64 (spin_lock_init resting) taken_script with
  | Some s => pc (cpus s 0%nat) = Critical true /\ exists a, star lock_step None a /\ a = Some 0%nat /\
      irq_masked ARM64 (flags (cpus s 0%nat)) = true
  | None => False
  end /\
  match play ARM64 (spin_lock_init resting) (taken_script ++ [Unlock 0]) with
  | Some s => exists st c, instr ARM64 (lock_word s) (cpus s 0%nat) = Some (st, c) /\ shows (commit s 0 st c) None
  | None => False
  end.
Proof.
  split.
  - destruct (play ARM64 (spin_lock_init resting) taken_script) as [s|] eqn:E; [|by vm_compute in E].
    assert (pc (cpus s 0%nat) = Critical true) as Hp.
    { assert (pc ∘ (fun s => cpus s 0%nat) <$> play ARM64 (spin_lock_init resting) taken_script = Some (Critical true)) as H
        by (vm_compute; reflexivity). rewrite E in H. by injection H. }
    split; [done|].
    destruct (spin_lock_refines ARM64 resting s ltac:(discriminate) resting_at_rest (play_star _ _ _ _ E)) as (a & Ha & _ & Hc & _).
    exists a. destruct (Hc _ _ Hp) as (? & _ & Hm). split; [done|]. split; [done|]. by apply Hm.
  - destruct (play ARM64 (spin_lock_init resting) (taken_script ++ [Unlock 0])) as [s|] eqn:E; [|by vm_compute in E].
    assert (pc (cpus s 0%nat) = UnlockAt true) as Hp.
    { assert (pc ∘ (fun s => cpus s 0%nat) <$> play ARM64 (spin_lock_init resting) (taken_script ++ [Unlock 0]) = Some (UnlockAt true)) as H
        by (vm_compute; reflexivity). rewrite E in H. by injection H. }
    destruct (spin_lock_refines ARM64 resting s ltac:(discriminate) resting_at_rest (play_star _ _ _ _ E)) as (a & _ & _ & _ & Hu & _).
    assert (instr ARM64 (lock_word s) (cpus s 0%nat) = Some (Some 0, goto RestoreAt (cpus s 0%nat))) as Hx by (unfold instr; by rewrite Hp).
    do 2 eexists. split; [exact Hx|]. by destruct (Hu _ _ _ _ Hp Hx).
Defined.

Lemma spin_lock_progress_witness :
  match play ARM64 (spin_lock_init resting) asleep_script with
  | Some s => pc (cpus s 1%nat) = LockAt true wfe /\
      exists n s' irq, (n <= 8)%nat /\ solo ARM64 n 1 s = Some s' /\ pc (cpus s' 1%nat) = Critical irq
  | None => False
  end.
Proof.
  destruct (play ARM64 (spin_lock_init resting) asleep_script) as [s|] eqn:E; [|by vm_compute in E].
  assert ((fun s => (pc (cpus s 1%nat), lock_word s)) <$> play ARM64 (spin_lock_init resting) asleep_script
    = Some (LockAt true wfe, 0)) as H by (vm_compute; reflexivity).
  rewrite E in H. injection H as Hp Hl. split; [done|].
  apply (spin_lock_progress ARM64 resting s 1 resting_at_rest (play_star _ _ _ _ E) Hl). unfold spinning. by rewrite Hp.
Defined.
