(* ===== verification/Kmalloc.v ===== *)
(** * kernel/mm/kmalloc.c: the kernel heap

    Block headers are kept in a map from their address, and the payload bytes in
    a separate total function: a client that stays inside its block cannot
    change a header.  Reading a header where none was ever written is a
    [Fault]. *)
From S2P Require Import Prelude DList AllocSpec.
#[local] Open Scope Z_scope.

(** ** Data *)

Definition DEFAULT_HEAP_SIZE : Z := 512 * 1024 * 1024.
Definition MIN_HEAP_SIZE : Z := 64 * 1024 * 1024.
Definition MIN_ALLOC : Z := 32.
Definition MAX_ALLOC : Z := 64 * 1024 * 1024.
Definition HEAP_BASE : Z := 0x42000000.
Definition PMM_MEMORY_BASE : Z := 0x40000000.

Record block_header := BlockHeader {
  bh_size : Z; bh_magic : Z; bh_flags : Z; bh_next : Z; bh_prev : Z
}.

(** sizeof(struct block_header) on a 64-bit target. *)
Definition HDR : Z := 32.

Definition BLOCK_MAGIC_FREE : Z := 0xDEADBEEF.
Definition BLOCK_MAGIC_USED : Z := 0xCAFEBABE.
Definition BLOCK_FLAG_FREE : Z := 1.

Definition set_size v b := BlockHeader v (bh_magic b) (bh_flags b) (bh_next b) (bh_prev b).
Definition set_magic v b := BlockHeader (bh_size b) v (bh_flags b) (bh_next b) (bh_prev b).
Definition set_flags v b := BlockHeader (bh_size b) (bh_magic b) v (bh_next b) (bh_prev b).
Definition set_next v b := BlockHeader (bh_size b) (bh_magic b) (bh_flags b) v (bh_prev b).
Definition set_prev v b := BlockHeader (bh_size b) (bh_magic b) (bh_flags b) (bh_next b) v.

(** The static data of the file; the headers and payload are the memory of the
    heap region. *)
Record heap := Heap {
  heap_start : Z; heap_end : Z; free_list : Z; heap_total : Z; heap_used : Z;
  heap_initialized : bool; heap_lock : bool;
  hdrs : gmap Z block_header; payload : Z -> Z
}.

Definition with_free_list v H := Heap (heap_start H) (heap_end H) v (heap_total H) (heap_used H) (heap_initialized H) (heap_lock H) (hdrs H) (payload H).
Definition with_used v H := Heap (heap_start H) (heap_end H) (free_list H) (heap_total H) v (heap_initialized H) (heap_lock H) (hdrs H) (payload H).
Definition with_lock v H := Heap (heap_start H) (heap_end H) (free_list H) (heap_total H) (heap_used H) (heap_initialized H) v (hdrs H) (payload H).
Definition with_hdrs v H := Heap (heap_start H) (heap_end H) (free_list H) (heap_total H) (heap_used H) (heap_initialized H) (heap_lock H) v (payload H).
Definition with_payload v H := Heap (heap_start H) (heap_end H) (free_list H) (heap_total H) (heap_used H) (heap_initialized H) (heap_lock H) (hdrs H) v.

(** Access to a header through a pointer. *)
Definition get (hs : gmap Z block_header) (a : Z) : outcome block_header := of_option (hs !! a).
Definition upd (hs : gmap Z block_header) (a : Z) (f : block_header -> block_header) :
    outcome (gmap Z block_header) :=
  b ← get hs a; Ok (<[a := f b]> hs).

(** [if (p) p->... = ...] *)
Definition upd_if (hs : gmap Z block_header) (a : Z) (f : block_header -> block_header) :
    outcome (gmap Z block_header) :=
  if a =? NULL then Ok hs else upd hs a f.

(** ** Helper functions *)

(** A lock that is already held is never released by the spinning call itself. *)
Definition lock_heap (H : heap) : outcome heap :=
  if heap_lock H then NoFuel else Ok (with_lock true H).
Definition unlock_heap (H : heap) : heap := with_lock false H.

Definition align_up (val align : Z) : Z :=
  Z.land (u64 (val + align - 1)) (Z.lnot (align - 1)).
Definition block_data (block : Z) : Z := block + HDR.
Definition data_to_block (ptr : Z) : Z := ptr - HDR.

(** ** Operations; [total_memory] is the result of pmm_get_total_memory *)

Definition kmalloc_init (total_memory : Z) (H : heap) : heap :=
  let heap_ceiling :=
    if HEAP_BASE - PMM_MEMORY_BASE <? total_memory
    then total_memory - (HEAP_BASE - PMM_MEMORY_BASE) else 0 in
  let total := DEFAULT_HEAP_SIZE in
  let total := if negb (heap_ceiling =? 0) && (heap_ceiling <? total)
               then heap_ceiling else total in
  let total := if total <? MIN_HEAP_SIZE then MIN_HEAP_SIZE else total in
  Heap HEAP_BASE (HEAP_BASE + total) HEAP_BASE total 0 true (heap_lock H)
    (<[HEAP_BASE := BlockHeader total BLOCK_MAGIC_FREE BLOCK_FLAG_FREE NULL NULL]> (hdrs H))
    (payload H).

(** Result of the first-fit search. *)
Inductive fit := Fit (block prev_free : Z) | NoBlock | Corrupted.

Fixpoint find_fit (fuel : nat) (hs : gmap Z block_header) (total_size block prev_free : Z) :
    outcome fit :=
  match fuel with
  | O => NoFuel
  | S f =>
      if block =? NULL then Ok NoBlock
      else
        b ← get hs block;
        if negb (bh_magic b =? BLOCK_MAGIC_FREE) then Ok Corrupted
        else if total_size <=? bh_size b then Ok (Fit block prev_free)
        else find_fit f hs total_size (bh_next b) block
  end.

(** Split [block], keeping [total_size] bytes of it. *)
Definition split_block (hs : gmap Z block_header) (block total_size : Z) :
    outcome (gmap Z block_header) :=
  b ← get hs block;
  if total_size + HDR + MIN_ALLOC <=? bh_size b then
    let new_block := block + total_size in
    let hs := <[new_block := BlockHeader (bh_size b - total_size) BLOCK_MAGIC_FREE
                               BLOCK_FLAG_FREE (bh_next b) block]> hs in
    hs ← upd_if hs (bh_next b) (set_prev new_block);
    upd hs block (fun b => set_next new_block (set_size total_size b))
  else Ok hs.

(** Unlink [block] from the free list and mark it used; the result carries the
    new list head. *)
Definition take_block (hs : gmap Z block_header) (head block prev_free : Z) :
    outcome (gmap Z block_header * Z) :=
  b ← get hs block;
  hs ← upd_if hs prev_free (set_next (bh_next b));
  let head := if prev_free =? NULL then bh_next b else head in
  hs ← upd_if hs (bh_next b) (set_prev prev_free);
  hs ← upd hs block (fun b => set_next NULL (set_flags 0 (set_magic BLOCK_MAGIC_USED b)));
  Ok (hs, head).

(** [for (i = 0; i < size; i++) p[i] = 0;] *)
Fixpoint zero_fill (n : nat) (p : Z) (mem : Z -> Z) : Z -> Z :=
  match n with O => mem | S n' => zero_fill n' (p + 1) (<[p := 0]> mem) end.

(** [for (i = 0; i < n; i++) dst[i] = src[i];] *)
Fixpoint copy_data (n : nat) (dst src : Z) (mem : Z -> Z) : Z -> Z :=
  match n with
  | O => mem
  | S n' => copy_data n' (dst + 1) (src + 1) (<[dst := mem src]> mem)
  end.

Definition _kmalloc (total_memory : Z) (H : heap) (size flags : Z) : outcome (Z * heap) :=
  let H := if heap_initialized H then H else kmalloc_init total_memory H in
  if (size =? 0) || (MAX_ALLOC <? size) then Ok (NULL, H)
  else
    let total_size := align_up (u64 (size + HDR)) MIN_ALLOC in
    H ← lock_heap H;
    r ← find_fit (S (base.size (hdrs H))) (hdrs H) total_size (free_list H) NULL;
    match r with
    | Corrupted => Ok (NULL, unlock_heap H)
    | NoBlock => Ok (NULL, unlock_heap H)
    | Fit block prev_free =>
        hs ← split_block (hdrs H) block total_size;
        t ← take_block hs (free_list H) block prev_free;
        b ← get t.1 block;
        let H := with_free_list t.2 (with_hdrs t.1 H) in
        let H := with_used (u64 (heap_used H + bh_size b)) H in
        let H := unlock_heap H in
        let ptr := block_data block in
        if negb (Z.land flags GFP_ZERO =? 0)
        then Ok (ptr, with_payload (zero_fill (Z.to_nat size) ptr (payload H)) H)
        else Ok (ptr, H)
    end.

Definition kzalloc (total_memory : Z) (H : heap) (size flags : Z) : outcome (Z * heap) :=
  _kmalloc total_memory H size (Z.lor flags GFP_ZERO).

(** Merge [block] with the physically next block when that one is free. *)
Definition coalesce (hs : gmap Z block_header) (heap_end block : Z) :
    outcome (gmap Z block_header) :=
  b ← get hs block;
  let next_physical := block + bh_size b in
  if next_physical <? heap_end then
    n ← get hs next_physical;
    if bh_magic n =? BLOCK_MAGIC_FREE then
      hs ← upd_if hs (bh_prev n) (set_next (bh_next n));
      hs ← upd_if hs (bh_next n) (set_prev (bh_prev n));
      hs ← upd hs block (fun b => set_size (u64 (bh_size b + bh_size n)) b);
      upd hs next_physical (set_magic 0)
    else Ok hs
  else Ok hs.

Definition kfree (H : heap) (ptr : Z) : outcome heap :=
  if ptr =? NULL then Ok H
  else
    let block := data_to_block ptr in
    b ← get (hdrs H) block;
    if negb (bh_magic b =? BLOCK_MAGIC_USED) then Ok H
    else
      H ← lock_heap H;
      let H := with_used (u64 (heap_used H - bh_size b)) H in
      hs ← upd (hdrs H) block (fun b =>
             set_prev NULL (set_next (free_list H)
               (set_flags BLOCK_FLAG_FREE (set_magic BLOCK_MAGIC_FREE b))));
      hs ← upd_if hs (free_list H) (set_prev block);
      let H := with_free_list block H in
      hs ← coalesce hs (heap_end H) block;
      Ok (unlock_heap (with_hdrs hs H)).

Definition krealloc (total_memory : Z) (H : heap) (ptr new_size flags : Z) : outcome (Z * heap) :=
  if ptr =? NULL then _kmalloc total_memory H new_size flags
  else if new_size =? 0 then H ← kfree H ptr; Ok (NULL, H)
  else
    let block := data_to_block ptr in
    b ← get (hdrs H) block;
    let old_size := u64 (bh_size b - HDR) in
    if new_size <=? old_size then Ok (ptr, H)
    else
      r ← _kmalloc total_memory H new_size flags;
      let new_ptr := r.1 in
      let H := r.2 in
      if new_ptr =? NULL then Ok (NULL, H)
      else
        let H := with_payload (copy_data (Z.to_nat old_size) new_ptr ptr (payload H)) H in
        H ← kfree H ptr;
        Ok (new_ptr, H).

(** The three out-parameters of kmalloc_get_stats. *)
Definition kmalloc_get_stats (H : heap) : Z * Z * Z :=
  (heap_total H, heap_used H, u64 (heap_total H - heap_used H)).
