(* ===== verification/KmallocInv.v ===== *)
(** * The heap invariant and what every heap operation does to it

    The blocks tile the heap region, the free list is a doubly linked segment
    of exactly the free ones, and the bytes in use and the free bytes add up to
    the heap.  The correctness of each operation is stated on the capacity
    function [cap]: the live pointers and the bytes they may use. *)
From S2P Require Import Prelude DList AllocSpec Kmalloc.
#[local] Open Scope Z_scope.

Abbreviation headers := (gmap Z block_header).

(** ** Tiling *)

Section tiling.
Implicit Types (hs : headers) (a e : Z) (bl : list Z).

(** The headers [bl] describe adjacent blocks that cover [a, e). *)
Fixpoint tiled hs a e bl : Prop :=
  match bl with
  | [] => a = e
  | x :: bl' => x = a /\ exists b, hs !! a = Some b /\ HDR + MIN_ALLOC <= bh_size b /\
                                tiled hs (a + bh_size b) e bl'
  end.

Lemma tiled_app hs a e l1 l2 :
  tiled hs a e (l1 ++ l2) <-> exists m, tiled hs a m l1 /\ tiled hs m e l2.
Proof.
  revert a. induction l1 as [|x l1 IH]; intros a; simpl.
  - split; [eauto | by intros (m & -> & ?)].
  - setoid_rewrite IH. split.
    + intros (-> & b & ? & ? & m & ? & ?). eauto 10.
    + intros (m & (-> & b & ? & ? & ?) & ?). eauto 10.
Qed.

Lemma tiled_frame hs hs' a e bl :
  (forall x b, x ∈ bl -> hs !! x = Some b ->
     exists b', hs' !! x = Some b' /\ bh_size b' = bh_size b) ->
  tiled hs a e bl -> tiled hs' a e bl.
Proof.
  revert a. induction bl as [|x bl IH]; intros a Hag; simpl; [done|].
  intros (-> & b & Hb & ? & Ht). split; [done|].
  destruct (Hag a b ltac:(set_solver) Hb) as (b' & Hb' & Hsz).
  exists b'. rewrite Hsz. split; [done|]. split; [done|].
  apply IH; [|done]. intros y ? Hy. apply Hag. set_solver.
Qed.

Lemma tiled_le hs a e bl : tiled hs a e bl -> a <= e.
Proof.
  revert a. induction bl as [|x bl IH]; intros a; simpl; [lia|].
  intros (_ & b & _ & ? & Ht). apply IH in Ht. unfold HDR, MIN_ALLOC in *. lia.
Qed.

Lemma tiled_elem hs a e bl x : tiled hs a e bl -> x ∈ bl ->
  exists b, hs !! x = Some b /\ HDR + MIN_ALLOC <= bh_size b /\ a <= x /\ x + bh_size b <= e.
Proof.
  intros Ht (l1 & l2 & ->)%list_elem_of_split.
  apply tiled_app in Ht as (m & H1%tiled_le & H2). simpl in H2.
  destruct H2 as (-> & b & ? & ? & H2%tiled_le). eauto 10.
Qed.

(** Two blocks do not overlap. *)
Lemma tiled_disjoint hs a e bl x y b c :
  tiled hs a e bl -> x ∈ bl -> y ∈ bl -> hs !! x = Some b -> hs !! y = Some c ->
  x <> y -> x + bh_size b <= y \/ y + bh_size c <= x.
Proof.
  intros Ht (l1 & l2 & ->)%list_elem_of_split Hy Hb Hc Hne.
  apply tiled_app in Ht as (m & H1 & H2). simpl in H2.
  destruct H2 as (-> & b' & ? & _ & H2). simplify_eq.
  rewrite elem_of_app, elem_of_cons in Hy. destruct Hy as [Hy|[Hy|Hy]]; [|done|].
  - destruct (tiled_elem _ _ _ _ _ H1 Hy) as (c' & ? & _ & _ & ?). simplify_eq. lia.
  - destruct (tiled_elem _ _ _ _ _ H2 Hy) as (c' & ? & _ & ? & _). simplify_eq. lia.
Qed.

Lemma tiled_inside hs a e bl x b y :
  tiled hs a e bl -> x ∈ bl -> hs !! x = Some b -> x < y < x + bh_size b -> y ∉ bl.
Proof.
  intros Ht Hx Hb Hy Hin. destruct (tiled_elem _ _ _ _ _ Ht Hin) as (c & Hc & Hsz & _).
  destruct (tiled_disjoint _ _ _ _ x y b c Ht Hx Hin Hb Hc); unfold HDR, MIN_ALLOC in *; lia.
Qed.

Lemma tiled_NoDup hs a e bl : tiled hs a e bl -> NoDup bl.
Proof.
  revert a. induction bl as [|x bl IH]; intros a Ht; [constructor|].
  destruct Ht as (-> & b & ? & Hsz & Ht). constructor; [|eauto].
  intros Hin. destruct (tiled_elem _ _ _ _ _ Ht Hin) as (? & _ & _ & ? & _).
  unfold HDR, MIN_ALLOC in *. lia.
Qed.

(** The block after [x], when [x] is not the last. *)
Lemma tiled_next hs a e l1 l2 x b :
  tiled hs a e (l1 ++ x :: l2) -> hs !! x = Some b -> x + bh_size b < e ->
  exists l2', l2 = (x + bh_size b) :: l2'.
Proof.
  intros Ht Hb Hlt. apply tiled_app in Ht as (m & _ & H2). simpl in H2.
  destruct H2 as (-> & b' & ? & _ & H2). simplify_eq.
  destruct l2 as [|y l2]; simpl in H2; [lia|]. destruct H2 as [-> _]. eauto.
Qed.
End tiling.

(** Sum of a measure of the sizes of the listed blocks. *)
Fixpoint weigh (w : Z -> Z) (hs : headers) (l : list Z) : Z :=
  match l with
  | [] => 0
  | x :: l' => w (from_option bh_size 0 (hs !! x)) + weigh w hs l'
  end.
Abbreviation total_size := (weigh (fun x => x)).

Lemma weigh_app w hs l1 l2 : weigh w hs (l1 ++ l2) = weigh w hs l1 + weigh w hs l2.
Proof. induction l1; simpl; lia. Qed.

Lemma total_size_app hs l1 l2 : total_size hs (l1 ++ l2) = total_size hs l1 + total_size hs l2.
Proof. apply weigh_app. Qed.

Lemma weigh_frame w hs hs' l :
  (forall x, x ∈ l -> bh_size <$> hs' !! x = bh_size <$> hs !! x) ->
  weigh w hs' l = weigh w hs l.
Proof.
  induction l as [|x l IH]; intros Hag; simpl; [done|].
  rewrite IH by (intros; apply Hag; set_solver).
  specialize (Hag x ltac:(set_solver)).
  by destruct (hs' !! x), (hs !! x); simplify_eq/=; rewrite ?Hag.
Qed.

Lemma total_size_frame hs hs' l :
  (forall x, x ∈ l -> bh_size <$> hs' !! x = bh_size <$> hs !! x) ->
  total_size hs' l = total_size hs l.
Proof. apply weigh_frame. Qed.

(** ** Accesses *)

Lemma upd_ok hs a f b : hs !! a = Some b -> upd hs a f = Ok (<[a := f b]> hs).
Proof. intros H. unfold upd, get. by rewrite H. Qed.

Lemma upd_if_ok hs a f : (a <> 0 -> is_Some (hs !! a)) ->
  exists hs', upd_if hs a f = Ok hs' /\
    forall x, hs' !! x = if decide (x = a /\ a <> 0) then f <$> hs !! x else hs !! x.
Proof.
  intros Ha. unfold upd_if, NULL. destruct (Z.eqb_spec a 0) as [->|Hne].
  - exists hs. split; [done|]. intros x. rewrite decide_False; naive_solver.
  - destruct (Ha Hne) as [b Hb]. rewrite (upd_ok _ _ _ _ Hb). eexists. split; [done|].
    intros x. rewrite lookup_insert. destruct (decide (a = x)) as [<-|].
    + rewrite decide_True by done. by rewrite Hb.
    + rewrite decide_False; [done|]. naive_solver.
Qed.

(** ** The free list over the tiling *)

(** The part of the invariant that concerns headers: [bl] are all the blocks,
    [fl] the free ones in list order from [hd].  A header that is no block's any
    more has magic 0. *)
Record core (hs : headers) (st en hd : Z) (bl fl : list Z) : Prop := Core {
  core_start : 0 < st;
  core_bound : en < 2 ^ 63;
  core_tiled : tiled hs st en bl;
  core_list : exists q, dseg bh_next bh_prev hs 0 hd fl q 0;
  core_sub : forall a, a ∈ fl -> a ∈ bl;
  core_magic : forall a b, hs !! a = Some b ->
    bh_magic b = if decide (a ∈ fl) then BLOCK_MAGIC_FREE
                 else if decide (a ∈ bl) then BLOCK_MAGIC_USED else 0;
  core_align : forall a, a ∈ bl -> (MIN_ALLOC | a)
}.

Lemma core_NoDup hs st en hd bl fl : core hs st en hd bl fl -> NoDup fl.
Proof. intros [_ _ _ [q Hq] _ _]. eapply chain_NoDup, dseg_chain, Hq. Qed.

Lemma core_block hs st en hd bl fl a : core hs st en hd bl fl -> a ∈ bl ->
  exists b, hs !! a = Some b /\ HDR + MIN_ALLOC <= bh_size b /\ st <= a /\ a + bh_size b <= en.
Proof. intros Hc Ha. by eapply tiled_elem; [apply Hc|]. Qed.

(** The size of the used block with its header at [a], if there is one. *)
Definition used_size (hs : headers) (a : Z) : option Z :=
  b ← hs !! a; if bh_magic b =? BLOCK_MAGIC_USED then Some (bh_size b) else None.

Lemma used_size_core hs st en hd bl fl a : core hs st en hd bl fl ->
  used_size hs a = if decide (a ∈ bl /\ a ∉ fl) then bh_size <$> hs !! a else None.
Proof.
  intros Hc. unfold used_size. destruct (hs !! a) as [b|] eqn:Hb; simpl.
  - rewrite (core_magic _ _ _ _ _ _ Hc _ _ Hb).
    destruct (decide (a ∈ fl)), (decide (a ∈ bl)), (decide (a ∈ bl /\ a ∉ fl));
      try tauto; reflexivity.
  - case_decide as H; [|done]. destruct H as [H _].
    by destruct (core_block _ _ _ _ _ _ _ Hc H) as (? & ? & _).
Qed.

(** *** First fit *)

Lemma find_fit_spec f hs size p prev fl :
  chain bh_next hs p fl ->
  (forall a b, a ∈ fl -> hs !! a = Some b -> bh_magic b = BLOCK_MAGIC_FREE) ->
  (length fl < f)%nat ->
  (find_fit f hs size p prev = Ok NoBlock /\
     forall a b, a ∈ fl -> hs !! a = Some b -> bh_size b < size) \/
  (exists l1 a l2 b, fl = l1 ++ a :: l2 /\ hs !! a = Some b /\ size <= bh_size b /\
     (forall x c, x ∈ l1 -> hs !! x = Some c -> bh_size c < size) /\
     find_fit f hs size p prev = Ok (Fit a (default prev (last l1)))).
Proof.
  revert p prev fl. induction f as [|f IH]; intros p prev fl Hch Hmag Hlen; [lia|].
  destruct fl as [|x fl]; simpl in Hch.
  { left. subst p. split; [done | set_solver]. }
  destruct Hch as (-> & Hne & b & Hb & Hch). simpl.
  rewrite (proj2 (Z.eqb_neq p NULL)) by done. unfold get. rewrite Hb. simpl.
  rewrite (Hmag p b) by (set_solver || done). rewrite Z.eqb_refl. simpl.
  destruct (Z.leb_spec size (bh_size b)) as [Hle|Hgt].
  { right. exists [], p, fl, b. split; [done|]. split; [done|]. split; [done|].
    split; [set_solver | done]. }
  destruct (IH (bh_next b) p fl) as [[Hf Hall]|(l1 & a & l2 & c & -> & Hc & Hsz & Hl1 & Hf)];
    [done | intros; eapply Hmag; [by apply elem_of_cons; right | done] | simpl in Hlen; lia | |].
  - left. split; [done|]. intros y c Hy Hc. apply elem_of_cons in Hy as [->|Hy]; [|eauto].
    by simplify_eq.
  - right. exists (p :: l1), a, l2, c. split; [done|]. split; [done|]. split; [done|]. split.
    + intros y d Hy Hd. apply elem_of_cons in Hy as [->|Hy]; [|eauto]. by simplify_eq.
    + rewrite Hf, last_cons. by destruct (last l1).
Qed.

(** *** Splitting *)

(** The header updates of a split that takes place. *)
Lemma split_effect hs hd l1 a l2 q b total :
  dseg bh_next bh_prev hs 0 hd (l1 ++ a :: l2) q 0 -> NoDup (l1 ++ a :: l2) ->
  hs !! a = Some b -> a + total ∉ l1 ++ a :: l2 -> 0 < total ->
  total + HDR + MIN_ALLOC <= bh_size b ->
  let na := a + total in
  exists hs', split_block hs a total = Ok hs' /\
    hs' !! a = Some (set_next na (set_size total b)) /\
    hs' !! na = Some (BlockHeader (bh_size b - total) BLOCK_MAGIC_FREE BLOCK_FLAG_FREE
                        (bh_next b) a) /\
    (forall x, x <> a -> x <> na ->
       hs' !! x = if decide (head l2 = Some x) then set_prev na <$> hs !! x else hs !! x).
Proof.
  intros Hq Hnd Hb Hna Htot Hle na.
  destruct (dseg_mid _ _ _ _ _ _ _ _ _ _ _ Hq Hb) as [_ Hnx].
  unfold split_block, get. rewrite Hb. simpl. rewrite (proj2 (Z.leb_le _ _)) by lia.
  fold na. set (nb := BlockHeader _ _ _ _ _).
  assert (forall y, head l2 = Some y -> y <> a /\ y <> na /\ y <> 0 /\ is_Some (hs !! y)) as Hhead.
  { intros y Hy. apply head_Some in Hy as [l2' ->].
    destruct (dseg_lookup _ _ _ _ _ _ _ _ y Hq ltac:(set_solver)) as [??].
    apply NoDup_app in Hnd as (_ & _ & [Hnd _]%NoDup_cons).
    split; [set_solver|]. split; [|done]. unfold na. set_solver. }
  destruct (upd_if_ok (<[na := nb]> hs) (bh_next b) (set_prev na)) as (hs1 & Hhs1 & Hl1).
  { rewrite Hnx. destruct (head l2) as [y|]; [|done]. simpl. intros _.
    destruct (Hhead y eq_refl) as (? & ? & ? & ?). by rewrite lookup_insert_ne by done. }
  rewrite Hhs1. simpl.
  assert (hs1 !! a = Some b) as Ha1.
  { rewrite Hl1, lookup_insert_ne by lia. rewrite decide_False; [done|]. rewrite Hnx.
    destruct (head l2) as [y|]; simpl; [|naive_solver].
    destruct (Hhead y eq_refl) as (? & _). naive_solver. }
  rewrite (upd_ok _ _ _ _ Ha1). eexists. split; [done|].
  split; [by rewrite lookup_insert_eq|]. split.
  - rewrite lookup_insert_ne, Hl1, lookup_insert_eq by lia. rewrite decide_False; [done|].
    rewrite Hnx. destruct (head l2) as [y|]; simpl; [|naive_solver].
    destruct (Hhead y eq_refl) as (_ & ? & _). naive_solver.
  - intros x Hxa Hxn. rewrite lookup_insert_ne, Hl1, lookup_insert_ne by done.
    rewrite Hnx. destruct (head l2) as [y|]; simpl.
    + destruct (Hhead y eq_refl) as (_ & _ & ? & _).
      destruct (decide (x = y)) as [->|]; [by rewrite !decide_True by done|].
      rewrite !decide_False; naive_solver.
    + rewrite !decide_False; naive_solver.
Qed.

Lemma split_core hs st en hd bl l1 a l2 b total :
  core hs st en hd bl (l1 ++ a :: l2) -> hs !! a = Some b ->
  HDR + MIN_ALLOC <= total <= bh_size b -> (MIN_ALLOC | total) ->
  exists hs' bl' l2' b', split_block hs a total = Ok hs' /\
    core hs' st en hd bl' (l1 ++ a :: l2') /\
    hs' !! a = Some b' /\ total <= bh_size b' < total + HDR + MIN_ALLOC /\
    (bh_size b' = bh_size b /\ (forall w, weigh w hs' (l1 ++ a :: l2') = weigh w hs (l1 ++ a :: l2)) \/
     bh_size b' = total /\ (forall w, weigh w hs' (l1 ++ a :: l2') + w (bh_size b) = weigh w hs (l1 ++ a :: l2) + w total + w (bh_size b - total))) /\
    (forall x, used_size hs' x = used_size hs x).
Proof.
  intros Hc Hb Htot Hdiv. destruct (decide (total + HDR + MIN_ALLOC <= bh_size b)) as [Hle|Hgt].
  2:{ exists hs, bl, l2, b. unfold split_block, get. rewrite Hb. simpl.
      rewrite (proj2 (Z.leb_gt _ _)) by lia.
      split; [done|]. split; [done|]. split; [done|]. split; [lia|]. split; [by left|done]. }
  pose proof (core_NoDup _ _ _ _ _ _ Hc) as Hnd.
  assert (a ∈ bl) as Habl by (apply (core_sub _ _ _ _ _ _ Hc); set_solver).
  set (na := a + total).
  assert (na ∉ bl) as Hna by (eapply tiled_inside; [apply Hc | done | done | unfold HDR, MIN_ALLOC in *; lia]).
  assert (na ∉ l1 ++ a :: l2) as Hnafl by (intros Hin; by apply Hna, (core_sub _ _ _ _ _ _ Hc)).
  assert (a <> na) as Hane by (unfold na, HDR, MIN_ALLOC in *; lia).
  destruct (core_block _ _ _ _ _ _ _ Hc Habl) as (b0 & Hb0 & _ & Hsta & _). 
  destruct Hc as [Hst Hen Ht [q Hq] Hsub Hmag Haln].
  destruct (split_effect hs hd l1 a l2 q b total) as (hs' & Hsplit & Ha' & Hna' & Hoth);
    try done; [unfold HDR, MIN_ALLOC in *; lia|]. fold na in Ha', Hna', Hoth.
  assert (forall x c, x <> a -> x <> na -> hs !! x = Some c -> exists c', hs' !! x = Some c' /\
    bh_size c' = bh_size c /\ bh_magic c' = bh_magic c /\ bh_next c' = bh_next c /\
    bh_prev c' = if decide (head l2 = Some x) then na else bh_prev c) as Hkeep.
  { intros x c Hxa Hxn Hx. rewrite Hoth, Hx by done. case_decide; eauto 10. }
  apply list_elem_of_split in Habl as (b1 & b2 & ->).
  pose proof (tiled_NoDup _ _ _ _ Ht) as Hndb.
  assert (forall x, x ∈ b1 ++ b2 -> x <> a /\ x <> na) as Hbl.
  { intros x Hx. split; [by apply (NoDup_mid_ne b1 b2)|]. intros ->. apply Hna, elem_of_mid. by right. }
  assert (forall x, x ∈ l1 ++ l2 -> x <> a /\ x <> na) as Hfl.
  { intros x Hx. split; [by apply (NoDup_mid_ne l1 l2)|]. intros ->. apply Hnafl, elem_of_mid. by right. }
  assert (used_size hs' na = None /\ used_size hs na = None) as [Hu1 Hu2].
  { unfold used_size. rewrite Hna'. split; [done|].
    destruct (hs !! na) as [c|] eqn:Hcn; [|done]. simpl. rewrite (Hmag _ _ Hcn).
    rewrite !decide_False by done. done. }
  exists hs', (b1 ++ a :: na :: b2), (na :: l2), (set_next na (set_size total b)).
  split; [done|]. split; [|split; [done|]; split; [simpl; unfold HDR, MIN_ALLOC in *; lia|]; split].
  - split; try done.
    + apply tiled_app in Ht as (m & Ht1 & Ht2). simpl in Ht2.
      destruct Ht2 as (<- & b1' & Hb1' & _ & Ht2). simplify_eq.
      apply tiled_app. exists a. split.
      * revert Ht1. apply tiled_frame. intros x c Hx Hxc.
        destruct (Hbl x) as [??]; [apply elem_of_app; by left|].
        destruct (Hkeep x c) as (c' & ? & ? & _); eauto.
      * split; [done|]. eexists. split; [done|]. simpl. split; [lia|]. split; [done|].
        eexists. split; [done|]. simpl. split; [lia|].
        replace (a + total + (bh_size b1' - total)) with (a + bh_size b1') by lia.
        revert Ht2. apply tiled_frame. intros x c Hx Hxc.
        destruct (Hbl x) as [??]; [apply elem_of_app; by right|].
        destruct (Hkeep x c) as (c' & ? & ? & _); eauto.
    + assert (na <> 0) by (unfold na, HDR, MIN_ALLOC in *; lia).
      eapply (dseg_insert_after _ _ hs hs' 0 hd l1 a l2 q 0 b _ na); try done. intros x c Hx Hxc.
      destruct (Hfl x Hx) as [??].
      destruct (Hkeep x c) as (c' & ? & _ & _ & ? & ?); eauto.
    + intros x. rewrite !elem_of_mid. specialize (Hsub x). rewrite !elem_of_mid in Hsub. tauto.
    + intros x c Hx. destruct (decide (x = a)) as [->|Hxa].
      { simplify_eq. simpl. rewrite (Hmag _ _ Hb), !decide_True by (apply elem_of_mid; by left). done. }
      destruct (decide (x = na)) as [->|Hxn].
      { simplify_eq. simpl. rewrite decide_True; [done|]. rewrite !elem_of_mid. tauto. }
      rewrite Hoth in Hx by done.
      assert (exists c0, hs !! x = Some c0 /\ bh_magic c = bh_magic c0) as (c0 & Hc0 & ->).
      { case_decide; [|eauto]. destruct (hs !! x); simplify_eq/=; eauto. }
      rewrite (Hmag _ _ Hc0).
      rewrite (decide_ext (x ∈ l1 ++ a :: l2) (x ∈ l1 ++ a :: na :: l2))
        by (rewrite !elem_of_mid; tauto).
      rewrite (decide_ext (x ∈ b1 ++ a :: b2) (x ∈ b1 ++ a :: na :: b2))
        by (rewrite !elem_of_mid; tauto). done.
    + intros x Hx. rewrite !elem_of_mid in Hx. destruct Hx as [->|[->|Hx]].
      * apply Haln, elem_of_mid. by left.
      * unfold na. apply Z.divide_add_r; [|done]. apply Haln, elem_of_mid. by left.
      * apply Haln, elem_of_mid. by right.
  - right. split; [done|]. intros w. rewrite !weigh_app. simpl. rewrite Ha', Hna', Hb. simpl.
    rewrite !(weigh_frame w hs hs'); [lia| |];
      (intros x Hx; destruct (Hfl x) as [??]; [apply elem_of_app; tauto|]; rewrite Hoth by done;
       case_decide; [by destruct (hs !! x) | done]).
  - intros x. destruct (decide (x = na)) as [->|Hxn]; [congruence|].
    unfold used_size. destruct (decide (x = a)) as [->|Hxa].
    + rewrite Ha', Hb. simpl. rewrite (Hmag _ _ Hb), decide_True by (apply elem_of_mid; by left). done.
    + rewrite Hoth by done. case_decide; [|done]. by destruct (hs !! x).
Qed.

(** *** Unlinking *)

(** [hs'] is [hs] but for the links of the headers other than [a]; the
    neighbours of [a] in [l1 ++ a :: l2] are redirected to its links. *)
Definition unlinked (hs hs' : headers) (l1 : list Z) (a : Z) (l2 : list Z) (n : block_header) : Prop :=
  forall x, x <> a ->
    (hs !! x = None -> hs' !! x = None) /\
    (forall c, hs !! x = Some c -> exists c', hs' !! x = Some c' /\
       bh_size c' = bh_size c /\ bh_magic c' = bh_magic c /\
       bh_next c' = (if decide (last l1 = Some x) then bh_next n else bh_next c) /\
       bh_prev c' = (if decide (head l2 = Some x) then bh_prev n else bh_prev c)).

Lemma unlink_effect hs hd l1 a l2 q n :
  dseg bh_next bh_prev hs 0 hd (l1 ++ a :: l2) q 0 -> NoDup (l1 ++ a :: l2) -> hs !! a = Some n ->
  exists hs1 hs2, upd_if hs (bh_prev n) (set_next (bh_next n)) = Ok hs1 /\
    upd_if hs1 (bh_next n) (set_prev (bh_prev n)) = Ok hs2 /\
    hs2 !! a = Some n /\ unlinked hs hs2 l1 a l2 n.
Proof.
  intros Hq Hnd Hn. destruct (dseg_mid _ _ _ _ _ _ _ _ _ _ _ Hq Hn) as [Hpv Hnx].
  assert (forall y, y ∈ l1 ++ l2 -> y <> a /\ y <> 0 /\ is_Some (hs !! y)) as Hin.
  { intros y Hy. split; [by apply (NoDup_mid_ne l1 l2)|].
    eapply dseg_lookup; [exact Hq|]. apply elem_of_mid. by right. }
  assert (forall y, last l1 = Some y -> y <> a /\ y <> 0 /\ is_Some (hs !! y)) as Hl.
  { intros y Hy%last_Some_elem_of. apply Hin, elem_of_app. by left. }
  assert (forall y, head l2 = Some y -> y <> a /\ y <> 0 /\ is_Some (hs !! y)) as Hr.
  { intros y Hy%head_Some_elem_of. apply Hin, elem_of_app. by right. }
  destruct (upd_if_ok hs (bh_prev n) (set_next (bh_next n))) as (hs1 & H1 & Hl1).
  { rewrite Hpv. destruct (last l1) as [y|]; [|done]. intros _. by apply Hl. }
  destruct (upd_if_ok hs1 (bh_next n) (set_prev (bh_prev n))) as (hs2 & H2 & Hl2).
  { rewrite Hnx. destruct (head l2) as [y|]; [|done]. intros _. simpl.
    rewrite Hl1. destruct (Hr y eq_refl) as (_ & _ & [c Hc]). rewrite Hc.
    destruct (decide (y = bh_prev n /\ bh_prev n <> 0)); by eexists. }
  exists hs1, hs2. split; [done|]. split; [done|].
  assert (forall x (o : option Z), (forall y, o = Some y -> y <> 0) ->
    (x = default 0 o /\ default 0 o <> 0 <-> o = Some x)) as Hdef.
  { intros x [y|] Hy; simpl; [specialize (Hy y eq_refl); naive_solver | naive_solver]. }
  assert (forall x, hs2 !! x =
    (if decide (head l2 = Some x) then fmap (set_prev (bh_prev n)) else id)
    ((if decide (last l1 = Some x) then fmap (set_next (bh_next n)) else id) (hs !! x))) as Hx.
  { intros x. rewrite Hl2, Hl1.
    rewrite (decide_ext (x = bh_next n /\ bh_next n <> 0) (head l2 = Some x)).
    2:{ rewrite Hnx. apply Hdef. intros y Hy. by apply Hr. }
    rewrite (decide_ext (x = bh_prev n /\ bh_prev n <> 0) (last l1 = Some x)).
    2:{ rewrite Hpv. apply Hdef. intros y Hy. by apply Hl. }
    by repeat case_decide. }
  split.
  - rewrite Hx, !decide_False; [done | |].
    + intros Hy. by destruct (Hl a Hy).
    + intros Hy. by destruct (Hr a Hy).
  - intros x Hxa. rewrite Hx. split.
    + intros ->. by repeat case_decide.
    + intros c ->. repeat case_decide; eexists; done.
Qed.

(** Size and magic survive an unlinking. *)
Lemma unlinked_frame hs hs' l1 a l2 n x : unlinked hs hs' l1 a l2 n -> x <> a ->
  bh_size <$> hs' !! x = bh_size <$> hs !! x /\ bh_magic <$> hs' !! x = bh_magic <$> hs !! x.
Proof.
  intros Hu Hx. destruct (Hu x Hx) as [H0 H1]. destruct (hs !! x) as [c|].
  - destruct (H1 c eq_refl) as (c' & -> & ? & ? & _). simpl. split; congruence.
  - by rewrite H0.
Qed.

Lemma used_size_eq (hs hs' : headers) (x : Z) :
  bh_size <$> hs' !! x = bh_size <$> hs !! x -> bh_magic <$> hs' !! x = bh_magic <$> hs !! x ->
  used_size hs' x = used_size hs x.
Proof.
  intros H1 H2. unfold used_size.
  destruct (hs' !! x), (hs !! x); simplify_eq/=; by rewrite ?H1, ?H2.
Qed.

Lemma magic_lookup (hs hs' : headers) (x : Z) c : bh_magic <$> hs' !! x = bh_magic <$> hs !! x ->
  hs' !! x = Some c -> exists c0, hs !! x = Some c0 /\ bh_magic c = bh_magic c0.
Proof. intros H Hc. rewrite Hc in H. destruct (hs !! x) as [c0|]; simplify_eq/=; eauto. Qed.

(** Taking a free block off the list. *)
Lemma take_core hs st en hd bl l1 a l2 b :
  core hs st en hd bl (l1 ++ a :: l2) -> hs !! a = Some b ->
  exists hs' hd' b', take_block hs hd a (default 0 (last l1)) = Ok (hs', hd') /\
    core hs' st en hd' bl (l1 ++ l2) /\ hs' !! a = Some b' /\ bh_size b' = bh_size b /\
    (forall w, weigh w hs' (l1 ++ l2) + w (bh_size b) = weigh w hs (l1 ++ a :: l2)) /\
    (forall x, used_size hs' x = if decide (x = a) then Some (bh_size b) else used_size hs x).
Proof.
  intros Hc Hb. pose proof (core_NoDup _ _ _ _ _ _ Hc) as Hnd.
  destruct Hc as [Hst Hen Ht [q Hq] Hsub Hmag Haln].
  destruct (unlink_effect _ _ _ _ _ _ _ Hq Hnd Hb) as (hs1 & hs2 & H1 & H2 & Ha2 & Hu).
  destruct (dseg_mid _ _ _ _ _ _ _ _ _ _ _ Hq Hb) as [Hpv Hnx].
  set (f := fun b => set_next NULL (set_flags 0 (set_magic BLOCK_MAGIC_USED b))).
  exists (<[a := f b]> hs2), (if default 0 (last l1) =? NULL then bh_next b else hd), (f b).
  assert (a ∉ l1 ++ l2) as Hafl.
  { intros Hin. by apply (NoDup_mid_ne _ _ _ _ Hnd Hin). }
  split.
  { unfold take_block, get. rewrite Hb. simpl. rewrite <- Hpv, H1. simpl. rewrite H2. simpl.
    by rewrite (upd_ok _ _ _ _ Ha2). }
  assert (forall x, x <> a -> (<[a := f b]> hs2) !! x = hs2 !! x) as Hne.
  { intros. by rewrite lookup_insert_ne by done. }
  split; [|split; [by rewrite lookup_insert_eq|]; split; [done|]; split].
  - split; try done.
    + revert Ht. apply tiled_frame. intros x c _ Hx. destruct (decide (x = a)) as [->|Hxa].
      { rewrite lookup_insert_eq. simplify_eq. eauto. }
      rewrite Hne by done. destruct (Hu x Hxa) as [_ Hk]. destruct (Hk c Hx) as (c' & ? & ? & _). eauto.
    + destruct (dseg_remove _ _ hs (<[a := f b]> hs2) 0 hd l1 a l2 q 0 b Hq Hnd Hb) as [q' Hq'].
      { intros x c Hx Hxc. assert (x <> a) as Hxa by (by intros ->).
        rewrite Hne by done. destruct (Hu x Hxa) as [_ Hk].
        destruct (Hk c Hxc) as (c' & ? & _ & _ & ? & ?). eauto. }
      exists q'. enough ((if default 0 (last l1) =? NULL then bh_next b else hd) =
        match l1 with [] => bh_next b | _ => hd end) as -> by done.
      destruct l1 as [|y l1]; [done|]. destruct (last (y :: l1)) as [z|] eqn:El.
      2:{ by apply last_None in El. }
      simpl. rewrite (proj2 (Z.eqb_neq _ _)); [done|].
      eapply dseg_lookup; [exact Hq|]. apply elem_of_mid. right. apply elem_of_app. left.
      by apply last_Some_elem_of.
    + intros x Hx. apply Hsub, elem_of_mid. by right.
    + intros x c Hx. destruct (decide (x = a)) as [->|Hxa].
      * rewrite lookup_insert_eq in Hx. simplify_eq. simpl. rewrite decide_False by done.
        rewrite decide_True; [done|]. apply Hsub, elem_of_mid. by left.
      * rewrite Hne in Hx by done. destruct (unlinked_frame _ _ _ _ _ _ x Hu Hxa) as [_ Hm].
        destruct (magic_lookup _ _ _ _ Hm Hx) as (c0 & Hc0 & ->). rewrite (Hmag _ _ Hc0).
        apply decide_ext. rewrite elem_of_mid. tauto.
  - intros w. rewrite (weigh_frame w hs).
    + rewrite !weigh_app. simpl. rewrite Hb. simpl. lia.
    + intros x Hx. assert (x <> a) as Hxa by (by intros ->). rewrite Hne by done.
      by apply (unlinked_frame _ _ _ _ _ _ x Hu Hxa).
  - intros x. case_decide as Hxa.
    + subst x. unfold used_size. rewrite lookup_insert_eq. done.
    + destruct (unlinked_frame _ _ _ _ _ _ x Hu Hxa) as [Hs Hm].
      apply used_size_eq; by rewrite Hne by done.
Qed.

(** *** Giving a block back *)

Lemma push_core hs st en hd bl fl a b :
  core hs st en hd bl fl -> a ∈ bl -> a ∉ fl -> hs !! a = Some b ->
  let g b := set_prev NULL (set_next hd (set_flags BLOCK_FLAG_FREE (set_magic BLOCK_MAGIC_FREE b))) in
  exists hs1 hs2, upd hs a g = Ok hs1 /\ upd_if hs1 hd (set_prev a) = Ok hs2 /\
    core hs2 st en a bl (a :: fl) /\ hs2 !! a = Some (g b) /\
    (forall w, weigh w hs2 (a :: fl) = w (bh_size b) + weigh w hs fl) /\
    (forall x, used_size hs2 x = if decide (x = a) then None else used_size hs x).
Proof.
  intros Hc Ha Hafl Hb g. pose proof (core_NoDup _ _ _ _ _ _ Hc) as Hnd.
  destruct (core_block _ _ _ _ _ _ _ Hc Ha) as (b0 & Hb0 & _ & Hsta & _).
  destruct Hc as [Hst Hen Ht [q Hq] Hsub Hmag Haln].
  pose proof (dseg_head _ _ _ _ _ _ _ _ Hq) as Hhd.
  assert (forall x, x ∈ fl -> x <> a /\ x <> 0 /\ is_Some (hs !! x)) as Hfl.
  { intros x Hx. split; [by intros -> | by eapply dseg_lookup]. }
  destruct (upd_if_ok (<[a := g b]> hs) hd (set_prev a)) as (hs2 & H2 & Hl2).
  { rewrite Hhd. intros Hne. destruct fl as [|y fl]; [done|]. simpl.
    destruct (Hfl y) as (? & _ & ?); [set_solver|]. by rewrite lookup_insert_ne by done. }
  exists (<[a := g b]> hs), hs2. split; [by apply upd_ok|]. split; [done|].
  assert (hs2 !! a = Some (g b)) as Ha2.
  { rewrite Hl2, lookup_insert_eq, decide_False; [done|]. intros [-> Hne]. rewrite Hhd in Hne.
    destruct fl as [|y fl]; simpl in *; [done|]. destruct (Hfl y) as (? & _); [set_solver | done]. }
  assert (forall x c, x <> a -> hs !! x = Some c -> exists c', hs2 !! x = Some c' /\
    bh_size c' = bh_size c /\ bh_magic c' = bh_magic c /\ bh_next c' = bh_next c /\
    (x <> hd -> bh_prev c' = bh_prev c) /\ (x = hd -> x <> 0 -> bh_prev c' = a)) as Hkeep.
  { intros x c Hx Hxc. rewrite Hl2, lookup_insert_ne, Hxc by done.
    destruct (decide (x = hd /\ hd <> 0)); simpl; eexists; (split; [done|]); naive_solver. }
  assert (forall x, x <> a -> hs !! x = None -> hs2 !! x = None) as Hnone.
  { intros x Hx Hxc. rewrite Hl2, lookup_insert_ne, Hxc by done.
    by destruct (decide (x = hd /\ hd <> 0)). }
  assert (forall x, x <> a -> bh_size <$> hs2 !! x = bh_size <$> hs !! x /\
    bh_magic <$> hs2 !! x = bh_magic <$> hs !! x) as Hfr.
  { intros x Hx. destruct (hs !! x) as [c|] eqn:Hxc.
    - destruct (Hkeep x c Hx Hxc) as (c' & -> & ? & ? & _). simpl. split; congruence.
    - by rewrite (Hnone x Hx Hxc). }
  split; [|split; [done|]; split].
  - split; try done.
    + revert Ht. apply tiled_frame. intros x c _ Hx. destruct (decide (x = a)) as [->|Hxa].
      { simplify_eq. eauto. }
      destruct (Hkeep x c Hxa Hx) as (c' & ? & ? & _). eauto.
    + exists (if fl is [] then a else q). split; [done|]. split; [lia|]. exists (g b).
      split; [done|]. split; [done|]. simpl. destruct fl as [|y fl].
      { destruct Hq as [-> _]. done. }
      pose proof Hq as Hq0. destruct Hq as (-> & ? & c & Hc & Hp & Hq).
      destruct (Hfl hd) as (? & _); [set_solver|].
      destruct (Hkeep hd c) as (c' & Hc' & _ & _ & Hnx & _ & Hpv); [done..|].
      split; [done|]. split; [done|]. exists c'. split; [done|]. split; [auto|].
      rewrite Hnx. revert Hq. apply dseg_frame. intros x Hx d Hd.
      apply NoDup_cons in Hnd as [Hnd _].
      destruct (Hkeep x d) as (d' & ? & _ & _ & ? & Hpd & _); [set_solver | done |].
      exists d'. split; [done|]. split; [done|]. apply Hpd. by intros ->.
    + intros x Hx. apply elem_of_cons in Hx as [->|Hx]; auto.
    + intros x c Hx. destruct (decide (x = a)) as [->|Hxa].
      * rewrite Ha2 in Hx. simplify_eq. rewrite decide_True; [done|]. apply elem_of_cons. by left.
      * destruct (Hfr x Hxa) as [_ Hm]. destruct (magic_lookup _ _ _ _ Hm Hx) as (c0 & Hc0 & ->).
        rewrite (Hmag _ _ Hc0). apply decide_ext. rewrite elem_of_cons. tauto.
  - intros w. simpl. rewrite Ha2. simpl. f_equal. apply weigh_frame.
    intros x Hx. by apply Hfr, Hfl.
  - intros x. destruct (decide (x = a)) as [->|Hxa].
    + unfold used_size. by rewrite Ha2.
    + destruct (Hfr x Hxa). by apply used_size_eq.
Qed.

(** *** Coalescing with the physically next block *)

Lemma coalesce_core hs st en bl fl a :
  core hs st en a bl (a :: fl) ->
  exists hs' bl' fl', coalesce hs en a = Ok hs' /\ core hs' st en a bl' (a :: fl') /\
    total_size hs' (a :: fl') = total_size hs (a :: fl) /\
    (forall w, (forall x y, 0 < x -> 0 < y -> w x + w y <= w (x + y)) -> weigh w hs (a :: fl) <= weigh w hs' (a :: fl')) /\
    (forall x, used_size hs' x = used_size hs x).
Proof.
  intros Hc. pose proof (core_NoDup _ _ _ _ _ _ Hc) as Hnd.
  assert (a ∈ bl) as Ha by (apply Hc; set_solver).
  destruct (core_block _ _ _ _ _ _ _ Hc Ha) as (b & Hb & Hsz & Hsta & Hae).
  unfold coalesce, get. rewrite Hb. simpl. set (np := a + bh_size b).
  destruct (Z.ltb_spec np en) as [Hlt|]; [|exists hs, bl, fl; done].
  apply list_elem_of_split in Ha as (b1 & b2 & ->).
  destruct (tiled_next _ _ _ _ _ _ _ (core_tiled _ _ _ _ _ _ Hc) Hb Hlt) as [b2' ->]. fold np in Hc.
  assert (np ∈ b1 ++ a :: np :: b2') as Hnp by (rewrite !elem_of_mid; tauto).
  destruct (core_block _ _ _ _ _ _ _ Hc Hnp) as (n & Hn & Hszn & _ & Hne). rewrite Hn. simpl.
  destruct (Z.eqb_spec (bh_magic n) BLOCK_MAGIC_FREE) as [Hfree|]; [|exists hs, (b1 ++ a :: np :: b2'), fl; done].
  assert (np <> a) as Hnpa by (unfold np, HDR, MIN_ALLOC in *; lia).
  assert (np ∈ fl) as Hnpfl.
  { rewrite (core_magic _ _ _ _ _ _ Hc _ _ Hn) in Hfree. case_decide as Hin.
    - apply elem_of_cons in Hin as [|]; done.
    - case_decide; discriminate. }
  apply list_elem_of_split in Hnpfl as (l1 & l2 & ->).
  pose proof (tiled_NoDup _ _ _ _ (core_tiled _ _ _ _ _ _ Hc)) as Hndb.
  destruct Hc as [Hst Hen Ht [q Hq] Hsub Hmag Haln].
  destruct (unlink_effect hs a (a :: l1) np l2 q n Hq Hnd Hn) as (hs1 & hs2 & H1 & H2 & Hnp2 & Hu).
  rewrite H1. simpl. rewrite H2. simpl.
  destruct (Hu a) as [_ Hua]; [done|]. destruct (Hua b Hb) as (b' & Hb' & Hszb & Hmagb & _ & _).
  rewrite (upd_ok _ _ _ _ Hb'). simpl. set (b3 := set_size _ b').
  rewrite (upd_ok _ _ _ n) by (by rewrite lookup_insert_ne by done).
  set (hs' := <[np := _]> _).
  assert (bh_size b3 = bh_size b + bh_size n) as Hsz3.
  { unfold b3. simpl. rewrite Hszb. apply u64_small. unfold HDR, MIN_ALLOC in *. lia. }
  assert (hs' !! a = Some b3) as Ha' by (unfold hs'; by rewrite lookup_insert_ne, lookup_insert_eq by done).
  assert (hs' !! np = Some (set_magic 0 n)) as Hn' by (unfold hs'; by rewrite lookup_insert_eq).
  assert (forall x, x <> a -> x <> np -> hs' !! x = hs2 !! x) as Hoth.
  { intros. unfold hs'. by rewrite !lookup_insert_ne by done. }
  assert (forall x, x <> a -> x <> np -> bh_size <$> hs' !! x = bh_size <$> hs !! x /\
    bh_magic <$> hs' !! x = bh_magic <$> hs !! x) as Hfr.
  { intros x Hxa Hxn. rewrite Hoth by done. by eapply unlinked_frame. }
  assert ((np ∉ l1 ++ l2) /\ (a ∉ l1 ++ l2)) as [Hnpl Hal].
  { apply NoDup_cons in Hnd as [Hx Hnd]. rewrite elem_of_mid in Hx. split; [|tauto].
    intros Hin. by apply (NoDup_mid_ne _ _ _ _ Hnd Hin). }
  assert ((np ∉ b1 ++ b2') /\ (a ∉ b1 ++ b2')) as [Hnpb Hab].
  { assert (a ∉ b1 ++ np :: b2') as Hx by (intros Hin; by apply (NoDup_mid_ne _ _ _ _ Hndb Hin)).
    rewrite elem_of_mid in Hx. split; [|tauto]. intros Hin.
    replace (b1 ++ a :: np :: b2') with ((b1 ++ [a]) ++ np :: b2') in Hndb by (by rewrite <- app_assoc).
    eapply (NoDup_mid_ne _ _ _ np Hndb); [|done]. rewrite <- app_assoc. simpl. rewrite elem_of_mid. tauto. }
  assert (forall w, weigh w hs' (a :: l1 ++ l2) = weigh w hs (a :: l1 ++ np :: l2) - w (bh_size b) - w (bh_size n) + w (bh_size b3)) as Hweigh.
  { intros w. cbn [weigh]. rewrite !weigh_app. cbn [weigh]. rewrite Ha', Hb, Hn. cbn [from_option].
    rewrite !(weigh_frame w hs hs'); [lia| |]; (intros x Hx; apply Hfr; intros ->; rewrite elem_of_app in *; tauto). }
  exists hs', (b1 ++ a :: b2'), (l1 ++ l2). split; [done|]. split; [|split; [|split]].
  - split; try done.
    + apply tiled_app in Ht as (m & Ht1 & Ht2). simpl in Ht2.
      destruct Ht2 as (<- & b0 & Hb0 & _ & _ & n0 & Hn0 & _ & Ht2).
      fold np in Hn0, Ht2. assert (b0 = b) as -> by congruence. fold np in Hn0, Ht2.
      assert (n0 = n) as -> by congruence.
      apply tiled_app. exists a. split.
      * revert Ht1. apply tiled_frame. intros x c Hx Hxc.
        destruct (Hfr x) as [Hs _]; [intros ->; rewrite elem_of_app in *; tauto.. |].
        rewrite Hxc in Hs. destruct (hs' !! x); simplify_eq/=; eauto.
      * split; [done|]. exists b3. split; [done|]. rewrite Hsz3.
        split; [unfold HDR, MIN_ALLOC in *; lia|]. 
        replace (a + (bh_size b + bh_size n)) with (np + bh_size n) by (unfold np; lia).
        revert Ht2. apply tiled_frame. intros x c Hx Hxc.
        destruct (Hfr x) as [Hs _]; [intros ->; rewrite elem_of_app in *; tauto.. |].
        rewrite Hxc in Hs. destruct (hs' !! x); simplify_eq/=; eauto.
    + destruct (dseg_remove _ _ hs hs' 0 a (a :: l1) np l2 q 0 n Hq Hnd Hn) as [q' Hq'].
      { intros x c Hx Hxc. assert (x <> np) as Hxn.
        { intros ->. simpl in Hx. apply elem_of_cons in Hx as [|]; done. }
        destruct (Hu x Hxn) as [_ Hk]. destruct (Hk c Hxc) as (c' & Hc' & _ & _ & Hnx & Hpv).
        destruct (decide (x = a)) as [->|Hxa].
        - simplify_eq. exists b3. split; [done|]. split; [exact Hnx | exact Hpv].
        - exists c'. rewrite Hoth by done. done. }
      exists q'. exact Hq'.
    + intros x. specialize (Hsub x). rewrite !elem_of_cons, !elem_of_mid in *.
      destruct (decide (x = np)) as [->|]; tauto.
    + intros x c Hx. destruct (decide (x = a)) as [->|Hxa].
      { simplify_eq. unfold b3. simpl. rewrite Hmagb, (Hmag _ _ Hb).
        rewrite !decide_True by (apply elem_of_cons; by left). done. }
      destruct (decide (x = np)) as [->|Hxn].
      { rewrite Hn' in Hx. simplify_eq. simpl. rewrite !decide_False; [done | |].
        - rewrite elem_of_mid. tauto.
        - rewrite elem_of_cons. tauto. }
      destruct (Hfr x Hxa Hxn) as [_ Hm]. destruct (magic_lookup _ _ _ _ Hm Hx) as (c0 & Hc0 & ->).
      rewrite (Hmag _ _ Hc0).
      rewrite (decide_ext (x ∈ a :: l1 ++ np :: l2) (x ∈ a :: l1 ++ l2))
        by (rewrite !elem_of_cons, !elem_of_mid; tauto).
      rewrite (decide_ext (x ∈ b1 ++ a :: np :: b2') (x ∈ b1 ++ a :: b2'))
        by (rewrite !elem_of_mid; tauto). done.
    + intros x Hx. apply Haln. rewrite !elem_of_mid in *. tauto.
  - specialize (Hweigh (fun x => x)). cbn [weigh] in Hweigh |- *. rewrite Hsz3 in Hweigh. lia.
  - intros w Hw. specialize (Hweigh w). cbn [weigh] in Hweigh |- *. rewrite Hsz3 in Hweigh. specialize (Hw (bh_size b) (bh_size n)). unfold HDR, MIN_ALLOC in *. lia.
  - intros x. unfold used_size. destruct (decide (x = a)) as [->|Hxa].
    { rewrite Ha', Hb. unfold b3. simpl. rewrite Hmagb, (Hmag _ _ Hb).
      rewrite decide_True by (apply elem_of_cons; by left). done. }
    destruct (decide (x = np)) as [->|Hxn].
    { rewrite Hn', Hn. simpl. by rewrite Hfree. }
    destruct (Hfr x Hxa Hxn). by apply used_size_eq.
Qed.
