(* ===== verification/KmallocSpec.v ===== *)
(** * Correctness of the kernel heap

    The invariant [heap_inv], what kmalloc, kfree and krealloc do to the
    capacity function [cap], and the instance of the allocator interface. *)
From S2P Require Import Prelude DList AllocSpec Kmalloc KmallocInv.
#[local] Open Scope Z_scope.

(** ** The invariant *)

Record heap_rep (H : heap) (bl fl : list Z) : Prop := HeapRep {
  hr_init : heap_initialized H = true;
  hr_lock : heap_lock H = false;
  hr_end : heap_end H = heap_start H + heap_total H;
  hr_core : core (hdrs H) (heap_start H) (heap_end H) (free_list H) bl fl;
  hr_used : heap_used H + total_size (hdrs H) fl = heap_total H
}.

Definition heap_inv (H : heap) : Prop := exists bl fl, heap_rep H bl fl.

(** The bytes a live pointer may use. *)
Definition cap (H : heap) (p : Z) : option Z :=
  match used_size (hdrs H) (data_to_block p) with Some s => Some (s - HDR) | None => None end.

Lemma total_size_perm hs l k : l ≡ₚ k -> total_size hs l = total_size hs k.
Proof. induction 1; simpl; lia. Qed.

Lemma total_size_tiled hs a e bl : tiled hs a e bl -> total_size hs bl = e - a.
Proof.
  revert a. induction bl as [|x bl IH]; intros a; simpl; [lia|].
  intros (-> & b & Hb & _ & Ht). rewrite Hb, (IH _ Ht). simpl. lia.
Qed.

Lemma total_size_nonneg hs a e bl l : tiled hs a e bl -> (forall x, x ∈ l -> x ∈ bl) ->
  0 <= total_size hs l.
Proof.
  intros Ht. induction l as [|x l IH]; intros Hl; simpl; [lia|].
  destruct (tiled_elem _ _ _ _ x Ht ltac:(apply Hl; set_solver)) as (b & -> & Hs & _).
  simpl. unfold HDR, MIN_ALLOC in Hs. enough (0 <= total_size hs l) by lia.
  apply IH. intros y Hy. apply Hl. set_solver.
Qed.

Lemma total_size_sub hs a e bl l : tiled hs a e bl -> NoDup l ->
  (forall x, x ∈ l -> x ∈ bl) -> total_size hs l <= e - a.
Proof.
  intros Ht Hnd Hl. rewrite <- (total_size_tiled _ _ _ _ Ht).
  assert (l ⊆+ bl) as Hsub by (by apply NoDup_submseteq).
  apply submseteq_Permutation in Hsub as [k Hk].
  rewrite (total_size_perm _ _ _ Hk), total_size_app.
  enough (0 <= total_size hs k) by lia. eapply total_size_nonneg; [exact Ht|].
  intros x Hx. rewrite Hk. set_solver.
Qed.

Lemma heap_used_bounds H bl fl : heap_rep H bl fl -> 0 <= heap_used H <= heap_total H.
Proof.
  intros [_ _ He Hc Hu]. pose proof (core_NoDup _ _ _ _ _ _ Hc) as Hnd.
  pose proof (total_size_sub _ _ _ _ _ (core_tiled _ _ _ _ _ _ Hc) Hnd (core_sub _ _ _ _ _ _ Hc)).
  pose proof (total_size_nonneg _ _ _ _ _ (core_tiled _ _ _ _ _ _ Hc) (core_sub _ _ _ _ _ _ Hc)).
  lia.
Qed.

Lemma cap_used H p c : cap H p = Some c <-> used_size (hdrs H) (data_to_block p) = Some (c + HDR).
Proof.
  unfold cap. destruct (used_size _ _) as [s|]; [|done].
  split; intros [= ?]; f_equal; lia.
Qed.

(** A live pointer points behind the header of a block that is not free. *)
Lemma cap_block H bl fl p c : heap_rep H bl fl -> cap H p = Some c ->
  exists b, hdrs H !! data_to_block p = Some b /\ bh_size b = c + HDR /\
    bh_magic b = BLOCK_MAGIC_USED /\ data_to_block p ∈ bl /\ data_to_block p ∉ fl.
Proof.
  intros Hr Hc. apply cap_used in Hc. rewrite (used_size_core _ _ _ _ _ _ _ (hr_core _ _ _ Hr)) in Hc.
  case_decide as Hin; [|done]. destruct Hin as [Hbl Hfl].
  destruct (hdrs H !! data_to_block p) as [b|] eqn:Hb; simplify_eq/=.
  exists b. split; [done|]. split; [done|]. split; [|done].
  by rewrite (core_magic _ _ _ _ _ _ (hr_core _ _ _ Hr) _ _ Hb), decide_False, decide_True by done.
Qed.

(** A live block is part of the bytes in use. *)
Lemma cap_le_used H bl fl p c : heap_rep H bl fl -> cap H p = Some c ->
  c + HDR <= heap_used H.
Proof.
  intros Hr Hp. destruct (cap_block _ _ _ _ _ Hr Hp) as (b & Hb & Hsz & _ & Hbl & Hfl).
  destruct Hr as [_ _ He Hc Hu]. pose proof (core_NoDup _ _ _ _ _ _ Hc) as Hnd.
  enough (total_size (hdrs H) (data_to_block p :: fl) <= heap_end H - heap_start H)
    by (simpl in *; rewrite Hb in *; simpl in *; lia).
  eapply total_size_sub; [apply Hc | by constructor |].
  intros x Hx. apply elem_of_cons in Hx as [->|Hx]; [done | by apply Hc].
Qed.

(** ** Rounding *)

Lemma align_up_spec sz : 0 < sz <= MAX_ALLOC ->
  let total := align_up (u64 (sz + HDR)) MIN_ALLOC in
  sz + HDR <= total < sz + HDR + MIN_ALLOC /\ HDR + MIN_ALLOC <= total /\ (MIN_ALLOC | total).
Proof.
  intros Hsz. unfold align_up, HDR, MIN_ALLOC, MAX_ALLOC in *.
  rewrite (u64_small (sz + 32)), u64_small by lia.
  change (Z.lnot (32 - 1)) with (Z.lnot (Z.ones 5)). rewrite land_lnot_ones by lia.
  change (2 ^ 5) with 32.
  split; [lia_mod|]. split; [lia_mod|]. exists ((sz + 32 + 32 - 1) / 32). lia_mod.
Qed.

(** ** Payload loops *)

Lemma zero_fill_spec n p mem x :
  zero_fill n p mem x = if decide (p <= x < p + Z.of_nat n) then 0 else mem x.
Proof.
  revert p mem. induction n as [|n IH]; intros p mem; simpl zero_fill.
  - rewrite decide_False by lia. done.
  - rewrite IH. destruct (decide (x = p)) as [->|Hne].
    + rewrite (decide_False (P := p + 1 <= p < p + 1 + Z.of_nat n)) by lia.
      rewrite decide_True by lia. by rewrite fn_lookup_insert.
    + rewrite fn_lookup_insert_ne by done.
      destruct (decide (p + 1 <= x < p + 1 + Z.of_nat n)),
        (decide (p <= x < p + Z.of_nat (S n))); done || lia.
Qed.

Lemma copy_data_spec n d s mem x :
  d + Z.of_nat n <= s \/ s + Z.of_nat n <= d ->
  copy_data n d s mem x =
    if decide (d <= x < d + Z.of_nat n) then mem (s + (x - d)) else mem x.
Proof.
  revert d s mem. induction n as [|n IH]; intros d s mem Hdis; simpl copy_data.
  - rewrite decide_False by lia. done.
  - rewrite IH by lia. destruct (decide (x = d)) as [->|Hne].
    + rewrite (decide_False (P := d + 1 <= d < d + 1 + Z.of_nat n)) by lia.
      rewrite decide_True by lia. rewrite fn_lookup_insert. f_equal. lia.
    + destruct (decide (d + 1 <= x < d + 1 + Z.of_nat n)),
        (decide (d <= x < d + Z.of_nat (S n))); try lia.
      * rewrite fn_lookup_insert_ne by lia. f_equal. lia.
      * by rewrite fn_lookup_insert_ne by lia.
Qed.

(** ** Initialization *)

Lemma kmalloc_init_rep tm H : heap_lock H = false -> hdrs H = ∅ ->
  heap_rep (kmalloc_init tm H) [HEAP_BASE] [HEAP_BASE].
Proof.
  intros Hl Hh. unfold kmalloc_init. set (total := if _ <? MIN_HEAP_SIZE then _ else _).
  assert (64 <= total <= DEFAULT_HEAP_SIZE) as Htot.
  { unfold total, HEAP_BASE, PMM_MEMORY_BASE, DEFAULT_HEAP_SIZE, MIN_HEAP_SIZE in *.
    repeat case_match; b2p; lia. }
  unfold DEFAULT_HEAP_SIZE in Htot.
  split; simpl; try done; rewrite Hh.
  - split.
    + done.
    + unfold HEAP_BASE. lia.
    + split; [done|]. eexists. rewrite lookup_insert_eq. split; [done|].
      simpl. unfold HDR, MIN_ALLOC. split; [lia | done].
    + exists HEAP_BASE. split; [done|]. split; [done|]. eexists.
      rewrite lookup_insert_eq. done.
    + done.
    + intros a b Hab. apply lookup_insert_Some in Hab as [[<- <-]|[_ Hab]]; [|done].
      rewrite decide_True by set_solver. done.
    + intros a Ha. apply list_elem_of_singleton in Ha as ->. exists 0x2100000. done.
  - rewrite lookup_insert_eq. simpl. lia.
Qed.

(** ** Allocation *)

(** What a successful allocation leaves, whatever the free list looked like. *)
Lemma kmalloc_cases tm H sz flags bl fl : heap_rep H bl fl -> 0 < sz <= MAX_ALLOC ->
  let total := align_up (u64 (sz + HDR)) MIN_ALLOC in
  ((forall a b, a ∈ fl -> hdrs H !! a = Some b -> bh_size b < total) /\
     _kmalloc tm H sz flags = Ok (NULL, H)) \/
  (exists a b bl' fl' hs', used_size (hdrs H) a = None /\ hs' !! a = Some b /\
     total <= bh_size b < total + HDR + MIN_ALLOC /\
     (exists a0 b0, a0 ∈ fl /\ hdrs H !! a0 = Some b0 /\ total <= bh_size b0 /\
        (bh_size b = bh_size b0 /\ (forall w, weigh w hs' fl' + w (bh_size b0) = weigh w (hdrs H) fl) \/
         bh_size b = total /\ (forall w, weigh w hs' fl' + w (bh_size b0) = weigh w (hdrs H) fl + w (bh_size b0 - total)))) /\
     (forall x, used_size hs' x = if decide (x = a) then Some (bh_size b) else used_size (hdrs H) x) /\
     exists hd', let H' := Heap (heap_start H) (heap_end H) hd' (heap_total H)
       (heap_used H + bh_size b) true false hs'
       (if negb (Z.land flags GFP_ZERO =? 0)
        then zero_fill (Z.to_nat sz) (a + HDR) (payload H) else payload H) in
       _kmalloc tm H sz flags = Ok (a + HDR, H') /\ heap_rep H' bl' fl').
Proof.
  intros Hr Hsz total. pose proof (heap_used_bounds _ _ _ Hr) as Hub.
  destruct Hr as [Hi Hl He Hc Hu]. destruct H as [st en hd tot used init lck hs pay]; simpl in *. subst init lck.
  destruct (align_up_spec sz Hsz) as (Hb1 & Hb2 & Hdiv). fold total in Hb1, Hb2, Hdiv.
  unfold _kmalloc. cbn [heap_initialized]. cbv zeta. fold total.
  rewrite (proj2 (Z.eqb_neq sz 0)), (proj2 (Z.ltb_ge MAX_ALLOC sz)) by lia. cbn [orb].
  unfold lock_heap. cbn [heap_lock]. rewrite bind_ok. unfold with_lock.
  cbn [hdrs free_list heap_start heap_end heap_total heap_used heap_initialized payload].
  pose proof (core_NoDup _ _ _ _ _ _ Hc) as Hnd.
  destruct (core_list _ _ _ _ _ _ Hc) as [q Hq].
  destruct (find_fit_spec (S (base.size hs)) hs total hd NULL fl) as [[Hf Hall]|(l1 & a & l2 & b & -> & Hb & Hle & _ & Hf)].
  - eapply dseg_chain, Hq.
  - intros x c Hx Hxc. by rewrite (core_magic _ _ _ _ _ _ Hc _ _ Hxc), decide_True by done.
  - apply Nat.lt_succ_r, keys_length; [done|]. intros x Hx. by eapply dseg_lookup.
  - left. split; [done|]. by rewrite Hf.
  - right. rewrite Hf, bind_ok.
    destruct (split_core _ _ _ _ _ _ _ _ _ total Hc Hb) as
      (hs1 & bl1 & l2' & b1 & Hsp & Hc1 & Hb1' & Hsz1 & Htot1 & Hus1); [lia | done|].
    destruct (take_core _ _ _ _ _ _ _ _ _ Hc1 Hb1') as
      (hs2 & hd2 & b2 & Htk & Hc2 & Hb2' & Hsz2 & Htot2 & Hus2).
    exists a, b2, bl1, (l1 ++ l2'), hs2.
    assert (used_size hs a = None) as Hua.
    { rewrite (used_size_core _ _ _ _ _ _ _ Hc), decide_False; [done|]. intros [_ Hn].
      apply Hn, elem_of_mid. by left. }
    split; [done|]. split; [done|]. rewrite Hsz2. split; [done|].
    split.
    { exists a, b. split; [apply elem_of_mid; by left|]. split; [done|]. split; [done|].
      destruct Htot1 as [[E Hw]|[E Hw]]; [left|right]; (split; [done|]); intros w; specialize (Hw w); specialize (Htot2 w); rewrite E in *; lia. }
    split; [intros x; rewrite Hus2; case_decide; [done | apply Hus1]|].
    exists hd2. rewrite Hsp, bind_ok. change (default NULL (last l1)) with (default 0 (last l1)).
    rewrite Htk, bind_ok. cbn [fst]. unfold get. rewrite Hb2'. cbn [of_option].
    rewrite bind_ok. rewrite Hsz2.
    unfold with_free_list, with_hdrs, with_used, unlock_heap, with_lock, with_payload. simpl.
    pose proof (total_size_nonneg _ _ _ _ _ (core_tiled _ _ _ _ _ _ Hc2) (core_sub _ _ _ _ _ _ Hc2)).
    assert (total_size hs2 (l1 ++ l2') + bh_size b1 = total_size hs (l1 ++ a :: l2)) as Htot.
    { specialize (Htot2 (fun x => x)); cbn beta in Htot2. destruct Htot1 as [[E Hw]|[E Hw]]; specialize (Hw (fun x => x)); cbn beta in Hw; rewrite E in *; lia. }
    pose proof (core_bound _ _ _ _ _ _ Hc). pose proof (core_start _ _ _ _ _ _ Hc).
    rewrite u64_small by (unfold HDR, MIN_ALLOC in *; lia).
    split; [by destruct (Z.land flags GFP_ZERO =? 0)|].
    split; try done. simpl. lia.
Qed.

(** The complete effect of a call of kmalloc on an initialized heap. *)
Lemma kmalloc_effect (tm : Z) (H : heap) (sz flags : Z) (Hinv : heap_inv H) (Hsz : 0 <= sz) :
  exists p H', _kmalloc tm H sz flags = Ok (p, H') /\ heap_inv H' /\
    alloc_result (cap H) (cap H') p sz /\
    (p = 0 -> H' = H) /\
    (p = 0 <-> sz = 0 \/ MAX_ALLOC < sz \/
       forall bl fl a b, heap_rep H bl fl -> a ∈ fl -> hdrs H !! a = Some b ->
         bh_size b < align_up (u64 (sz + HDR)) MIN_ALLOC) /\
    (forall x, payload H' x =
       if decide (p <> 0 /\ Z.land flags GFP_ZERO <> 0 /\ p <= x < p + sz) then 0 else payload H x).
Proof.
  destruct Hinv as (bl & fl & Hr).
  destruct (decide (sz = 0 \/ MAX_ALLOC < sz)) as [Hbad|Hgood].
  { exists NULL, H. split.
    { unfold _kmalloc. rewrite (hr_init _ _ _ Hr).
      destruct (Z.eqb_spec sz 0), (Z.ltb_spec MAX_ALLOC sz); simpl; done || lia. }
    split; [by exists bl, fl|]. split; [left; split; [done|]; auto with kernel|].
    split; [done|]. split; [tauto|]. intros x. rewrite decide_False; [done|]. by intros [? _]. }
  destruct (kmalloc_cases tm H sz flags bl fl Hr) as [[Hall Hk]|
    (a & b & bl' & fl' & hs' & Hua & Hb & Hsize & Hwit & Hus & hd' & Hk & Hr')]; [lia | |].
  { exists NULL, H. rewrite Hk. split; [done|]. split; [by exists bl, fl|].
    split; [left; split; [done|]; auto with kernel|]. split; [done|]. split.
    - split; [|done]. intros _. right. right. intros bl2 fl2 x c Hr2 Hx Hxc.
      enough (fl2 = fl) as -> by eauto.
      destruct (core_list _ _ _ _ _ _ (hr_core _ _ _ Hr)) as [q Hq].
      destruct (core_list _ _ _ _ _ _ (hr_core _ _ _ Hr2)) as [q2 Hq2].
      eapply chain_unique; eapply dseg_chain; done.
    - intros x. rewrite decide_False; [done|]. by intros [? _]. }
  assert (a + HDR <> 0) as Hne.
  { assert (used_size hs' a = Some (bh_size b)) as Hu' by (by rewrite Hus, decide_True).
    rewrite (used_size_core _ _ _ _ _ _ _ (hr_core _ _ _ Hr')) in Hu'.
    destruct (decide (a ∈ bl' /\ a ∉ fl')) as [[Hin _]|]; [|done].
    destruct (core_block _ _ _ _ _ _ _ (hr_core _ _ _ Hr') Hin) as (_ & _ & _ & ? & _).
    pose proof (core_start _ _ _ _ _ _ (hr_core _ _ _ Hr')). unfold HDR. simpl in *. lia. }
  destruct (align_up_spec sz ltac:(lia)) as (? & ? & _).
  eexists _, _. split; [exact Hk|]. split; [by exists bl', fl'|]. split.
  { right. split; [done|]. split.
    - unfold cap, data_to_block. rewrite Z.add_simpl_r, Hua. done.
    - exists (bh_size b - HDR). split; [lia|]. intros p. unfold cap, data_to_block. simpl.
      rewrite Hus. destruct (decide (p = a + HDR)) as [->|].
      + by rewrite decide_True by lia.
      + by rewrite decide_False by lia. }
  split; [done|]. split.
  - split; [done|]. intros [?|[?|Hno]]; [tauto..|]. exfalso.
    destruct Hwit as (a0 & b0 & Ha0 & Hb0 & ? & _). specialize (Hno bl fl a0 b0 Hr Ha0 Hb0). lia.
  - intros x. simpl. destruct (Z.eqb_spec (Z.land flags GFP_ZERO) 0); simpl.
    + rewrite decide_False; [done|]. tauto.
    + rewrite zero_fill_spec. apply decide_ext. rewrite Z2Nat.id by lia. tauto.
Qed.

(** ** Deallocation *)

(** Freeing a live pointer; a measure of free blocks that is not lost by merging grows. *)
Lemma kfree_cases (H : heap) (p c : Z) bl fl : heap_rep H bl fl -> cap H p = Some c ->
  exists H' bl' fl', kfree H p = Ok H' /\ heap_rep H' bl' fl' /\
    (forall w, (forall x y, 0 < x -> 0 < y -> w x + w y <= w (x + y)) -> w (c + HDR) + weigh w (hdrs H) fl <= weigh w (hdrs H') fl') /\
    cap_update (cap H) (cap H') p None /\
    heap_used H' = heap_used H - (c + HDR) /\ payload H' = payload H.
Proof.
  intros Hr Hcap. pose proof (heap_used_bounds _ _ _ Hr) as Hub.
  destruct (cap_block _ _ _ _ _ Hr Hcap) as (b & Hb & Hsz & Hm & Hbl & Hfl).
  pose proof (cap_le_used _ _ _ _ _ Hr Hcap) as Hle.
  destruct Hr as [Hi Hl He Hc Hu]. unfold kfree, get. set (a := data_to_block p) in *.
  destruct (core_block _ _ _ _ _ _ _ Hc Hbl) as (b' & Hb' & Hmin & Hsta & Hae).
  pose proof (core_start _ _ _ _ _ _ Hc) as Hst. pose proof (core_bound _ _ _ _ _ _ Hc).
  rewrite (proj2 (Z.eqb_neq p NULL)) by (unfold a, data_to_block, HDR, NULL in *; lia).
  rewrite Hb. simpl. rewrite Hm. simpl. unfold lock_heap. rewrite Hl. simpl.
  destruct (push_core _ _ _ _ _ _ _ _ Hc Hbl Hfl Hb) as (hs1 & hs2 & H1 & H2 & Hc2 & Hb2 & Ht2 & Hus2).
  rewrite H1. simpl. rewrite H2. simpl.
  destruct (coalesce_core _ _ _ _ _ _ Hc2) as (hs3 & bl3 & fl3 & H3 & Hc3 & Ht3 & Hw3 & Hus3).
  rewrite H3. simpl. eexists _, bl3, (a :: fl3). split; [done|].
  assert (u64 (heap_used H - bh_size b) = heap_used H - bh_size b) as Hu64.
  { apply u64_small. unfold HDR, MIN_ALLOC in *. simplify_eq. lia. }
  split.
  { split; try done. specialize (Ht2 (fun x => x)). simpl in *. lia. }
  split; [intros w Hw; specialize (Ht2 w); specialize (Hw3 w Hw); rewrite Hsz in Ht2; cbn [hdrs with_hdrs unlock_heap with_lock with_free_list]; rewrite <- Ht2; exact Hw3|].
  split; [|split; [simpl; lia | done]].
  intros q. unfold cap. simpl. rewrite Hus3, Hus2.
  destruct (decide (q = p)) as [->|]; [by rewrite decide_True|].
  rewrite decide_False; [done|]. unfold a, data_to_block in *. lia.
Qed.

Lemma kfree_effect (H : heap) (p c : Z) (Hinv : heap_inv H) (Hcap : cap H p = Some c) :
  exists H', kfree H p = Ok H' /\ heap_inv H' /\
    cap_update (cap H) (cap H') p None /\
    heap_used H' = heap_used H - (c + HDR) /\ payload H' = payload H.
Proof.
  destruct Hinv as (bl & fl & Hr). destruct (kfree_cases H p c bl fl Hr Hcap) as (H' & bl' & fl' & E & Hr' & _ & Heff).
  exists H'. split; [done|]. split; [by exists bl', fl'|done].
Qed.

(** Freeing anything else that has a header. *)
Lemma kfree_rejects (H : heap) (p : Z)
    (Hp : p = NULL \/ is_Some (hdrs H !! data_to_block p) /\ cap H p = None) :
  kfree H p = Ok H.
Proof.
  unfold kfree, get. destruct (Z.eqb_spec p NULL) as [->|Hne]; [done|].
  destruct Hp as [|[[b Hb] Hc]]; [done|]. rewrite Hb. simpl.
  unfold cap, used_size in Hc. rewrite Hb in Hc. simpl in Hc.
  destruct (bh_magic b =? BLOCK_MAGIC_USED); done.
Qed.

(** ** Layout of the live blocks *)

(** In every heap the live blocks lie inside the heap region behind their
    headers, are 32-byte aligned, do not overlap, and the statistics add up. *)
Lemma cap_layout (H : heap) (p c : Z) (Hinv : heap_inv H) (Hp : cap H p = Some c) :
  heap_start H + HDR <= p /\ p + c <= heap_end H /\ MIN_ALLOC <= c /\ (MIN_ALLOC | p) /\
  (forall q d, cap H q = Some d -> p <> q -> p + c + HDR <= q \/ q + d + HDR <= p) /\
  (let '(total, used, free) := kmalloc_get_stats H in
   used + free = total /\ c + HDR <= used).
Proof.
  destruct Hinv as (bl & fl & Hr).
  destruct (cap_block _ _ _ _ _ Hr Hp) as (b & Hb & Hsz & _ & Hbl & _).
  pose proof (heap_used_bounds _ _ _ Hr). pose proof (cap_le_used _ _ _ _ _ Hr Hp).
  destruct Hr as [Hi Hl He Hc Hu].
  destruct (core_block _ _ _ _ _ _ _ Hc Hbl) as (b' & Hb' & Hmin & Hsta & Hae). simplify_eq.
  unfold data_to_block, HDR, MIN_ALLOC in *.
  split; [lia|]. split; [lia|]. split; [lia|]. split.
  { replace p with ((p - 32) + 32) by lia. apply Z.divide_add_r; [|by exists 1].
    by apply (core_align _ _ _ _ _ _ Hc). }
  split.
  - intros q d Hq Hne.
    assert (heap_rep H bl fl) as Hr2 by (by split).
    destruct (cap_block _ _ _ _ _ Hr2 Hq) as (b2 & Hb2 & Hsz2 & _ & Hbl2 & _).
    unfold data_to_block, HDR in *.
    destruct (tiled_disjoint _ _ _ _ _ _ _ _ (core_tiled _ _ _ _ _ _ Hc) Hbl Hbl2 Hb Hb2); lia.
  - unfold kmalloc_get_stats. pose proof (core_bound _ _ _ _ _ _ Hc). pose proof (core_start _ _ _ _ _ _ Hc).
    rewrite u64_small by lia. lia.
Qed.

Lemma cap_null H : heap_inv H -> cap H NULL = None.
Proof.
  intros Hinv. destruct (cap H NULL) as [c|] eqn:Hc; [|done].
  destruct (cap_layout H NULL c Hinv Hc) as (Hlo & _). destruct Hinv as (bl & fl & Hr).
  pose proof (core_start _ _ _ _ _ _ (hr_core _ _ _ Hr)). unfold HDR, NULL in *. lia.
Qed.

(** ** The allocator interface *)

Definition heap_allocator (tm : Z) : Allocator heap :=
  {| a_kmalloc := _kmalloc tm; a_kfree := kfree; a_cap := cap; a_inv := heap_inv |}.

(** The heap right after boot on a machine with [tm] bytes of memory. *)
Definition boot_heap (tm : Z) : heap :=
  kmalloc_init tm (Heap 0 0 0 0 0 false false ∅ (fun _ => 0)).

Lemma boot_heap_inv tm : heap_inv (boot_heap tm).
Proof. eexists _, _. by apply kmalloc_init_rep. Qed.

Lemma kmalloc_inv tm H sz flags p H' : heap_inv H -> 0 <= sz ->
  _kmalloc tm H sz flags = Ok (p, H') -> heap_inv H'.
Proof.
  intros Hinv Hsz Hk. destruct (kmalloc_effect tm H sz flags Hinv Hsz) as (? & ? & Hk' & ? & _).
  rewrite Hk in Hk'. by injection Hk' as <- <-.
Qed.

(** A heap with one 100-byte request served. *)
Definition one_block_heap : heap :=
  match _kmalloc 0 (boot_heap (2 ^ 30)) 100 0 with Ok r => r.2 | _ => boot_heap 0 end.

Lemma one_block_heap_eq : _kmalloc 0 (boot_heap (2 ^ 30)) 100 0 = Ok (0x42000020, one_block_heap).
Proof. vm_compute. reflexivity. Qed.

Lemma one_block_heap_inv : heap_inv one_block_heap.
Proof. eapply (kmalloc_inv 0 _ 100 0); [apply (boot_heap_inv (2 ^ 30)) | lia | apply one_block_heap_eq]. Qed.

Lemma one_block_heap_cap : cap one_block_heap 0x42000020 = Some 128.
Proof. vm_compute. reflexivity. Qed.

(** Whether an allocation returned NULL. *)
Definition fst_is_null (o : outcome (Z * heap)) : bool :=
  match o with Ok r => r.1 =? NULL | _ => true end.

Lemma heap_allocator_laws (tm : Z) : @AllocatorLaws heap (heap_allocator tm).
Proof.
  split; simpl.
  - apply cap_null.
  - intros H size flags Hinv Hsz.
    destruct (kmalloc_effect tm H size flags Hinv Hsz) as (p & H' & ? & ? & ? & _). eauto.
  - done.
  - intros H p c Hinv Hc. destruct (kfree_effect H p c Hinv Hc) as (H' & ? & ? & ? & _). eauto.
  - intros H p q c d Hinv Hp Hq Hne.
    destruct (cap_layout H p c Hinv Hp) as (_ & _ & _ & _ & Hd & _).
    specialize (Hd q d Hq Hne). unfold HDR in Hd. lia.
Qed.

(** ** Properties *)

(** C1. The kernel heap implements the allocator interface its clients are
    verified against: allocation never fails to return, hands out only fresh
    disjoint blocks of sufficient capacity, freeing takes exactly one block
    away, and NULL is never live. *)
Theorem kheap_laws (tm : Z) : @AllocatorLaws heap (heap_allocator tm).
Proof. exact (heap_allocator_laws tm). Qed.

(** kmalloc keeps the heap invariant and always returns; it either returns
    NULL and changes nothing, which happens exactly for a size of 0, a size over
    64 MB or when no free block can hold the rounded size, or it returns a fresh
    pointer whose block has at least the requested capacity, leaves every other
    live block as it was, and zeroes the requested bytes under GFP_ZERO without
    touching any other byte. *)
Theorem kmalloc_correct (tm : Z) (H : heap) (sz flags : Z) (Hinv : heap_inv H) (Hsz : 0 <= sz) :
  exists p H', _kmalloc tm H sz flags = Ok (p, H') /\ heap_inv H' /\
    alloc_result (cap H) (cap H') p sz /\
    (p = 0 -> H' = H) /\
    (p = 0 <-> sz = 0 \/ MAX_ALLOC < sz \/
       forall bl fl a b, heap_rep H bl fl -> a ∈ fl -> hdrs H !! a = Some b ->
         bh_size b < align_up (u64 (sz + HDR)) MIN_ALLOC) /\
    (forall x, payload H' x =
       if decide (p <> 0 /\ Z.land flags GFP_ZERO <> 0 /\ p <= x < p + sz) then 0 else payload H x).
Proof. by apply kmalloc_effect. Qed.

Lemma kmalloc_correct_witness :
  exists p H', _kmalloc 0 (boot_heap (2 ^ 30)) 100 GFP_ZERO = Ok (p, H') /\ heap_inv H' /\
    alloc_result (cap (boot_heap (2 ^ 30))) (cap H') p 100 /\ p <> 0.
Proof.
  destruct (kmalloc_correct 0 (boot_heap (2 ^ 30)) 100 GFP_ZERO (boot_heap_inv _) ltac:(lia))
    as (p & H' & Hk & Hi & Ha & _).
  exists p, H'. split; [exact Hk|]. split; [exact Hi|]. split; [exact Ha|].
  assert (fst_is_null (_kmalloc 0 (boot_heap (2 ^ 30)) 100 GFP_ZERO) = false) as Hn
    by (vm_compute; reflexivity).
  intros ->. rewrite Hk in Hn. discriminate Hn.
Defined.

(** kfree of a live pointer keeps the invariant, removes exactly that block
    from the live ones and gives its bytes back; kfree of NULL, and of any
    pointer whose header slot was once a header but whose block is not in use (a
    second free, a pointer into a merged block), changes nothing. *)
Theorem kfree_correct (H : heap) (p : Z) (Hinv : heap_inv H)
    (Hp : p = NULL \/ is_Some (hdrs H !! data_to_block p)) :
  exists H', kfree H p = Ok H' /\ heap_inv H' /\ payload H' = payload H /\
    match cap H p with
    | Some c => cap_update (cap H) (cap H') p None /\ heap_used H' = heap_used H - (c + HDR)
    | None => H' = H
    end.
Proof.
  destruct (cap H p) as [c|] eqn:Hc.
  - destruct (kfree_effect H p c Hinv Hc) as (H' & ? & ? & ? & ? & ?). eauto 10.
  - exists H. split; [apply kfree_rejects; tauto | done].
Qed.

Lemma kfree_correct_witness :
  exists H', kfree one_block_heap 0x42000020 = Ok H' /\ heap_inv H' /\ heap_used H' = 0.
Proof.
  destruct (kfree_correct one_block_heap 0x42000020 one_block_heap_inv) as (H' & Hk & Hi & _ & Hc).
  - right. vm_compute. eexists. reflexivity.
  - exists H'. split; [exact Hk|]. split; [exact Hi|].
    rewrite one_block_heap_cap in Hc. destruct Hc as [_ ->]. reflexivity.
Defined.

(** In every heap the live blocks lie inside the heap region behind their
    headers, are 32-byte aligned, do not overlap each other or another block's
    header, and the statistics add up. *)
Theorem heap_layout (H : heap) (p c : Z) (Hinv : heap_inv H) (Hp : cap H p = Some c) :
  heap_start H + HDR <= p /\ p + c <= heap_end H /\ MIN_ALLOC <= c /\ (MIN_ALLOC | p) /\
  (forall q d, cap H q = Some d -> p <> q -> p + c + HDR <= q \/ q + d + HDR <= p) /\
  (let '(total, used, free) := kmalloc_get_stats H in
   used + free = total /\ c + HDR <= used).
Proof. by apply cap_layout. Qed.

Lemma heap_layout_witness :
  0x42000020 + 128 <= heap_end one_block_heap /\ (MIN_ALLOC | 0x42000020).
Proof.
  destruct (heap_layout one_block_heap 0x42000020 128 one_block_heap_inv one_block_heap_cap)
    as (_ & H1 & _ & H2 & _). split; [exact H1 | exact H2].
Defined.

(** krealloc of a live block returns: for size 0 it frees the block; for a
    size that fits it returns the same pointer and changes nothing; otherwise it
    either returns NULL and leaves the block alive, or moves the block to a
    fresh pointer of sufficient capacity whose first bytes are the old contents,
    and the old pointer is no longer live. *)
Theorem krealloc_correct (tm : Z) (H : heap) (p c new flags : Z)
    (Hinv : heap_inv H) (Hp : cap H p = Some c) (Hnew : 0 <= new) :
  exists r H', krealloc tm H p new flags = Ok (r, H') /\ heap_inv H' /\
    if decide (new = 0) then r = NULL /\ cap_update (cap H) (cap H') p None
    else if decide (new <= c) then r = p /\ H' = H
    else (r = NULL /\ H' = H) \/
      (r <> NULL /\ cap H r = None /\
       (exists d, new <= d /\ forall q, cap H' q =
          if decide (q = p) then None else if decide (q = r) then Some d else cap H q) /\
       forall i, 0 <= i < c -> payload H' (r + i) = payload H (p + i)).
Proof.
  destruct (cap_layout H p c Hinv Hp) as (_ & Hpc & Hc32 & _).
  assert (p <> NULL) as Hpn by (intros ->; by rewrite cap_null in Hp).
  unfold krealloc. rewrite (proj2 (Z.eqb_neq p NULL)) by done.
  destruct (Z.eqb_spec new 0) as [->|Hn0].
  { destruct (kfree_effect H p c Hinv Hp) as (H' & -> & ? & ? & _).
    exists NULL, H'. rewrite decide_True by done. done. }
  assert (exists b, hdrs H !! data_to_block p = Some b /\ u64 (bh_size b - HDR) = c) as (b & Hb & Hu).
  { destruct Hinv as (bl & fl & Hr). destruct (cap_block _ _ _ _ _ Hr Hp) as (b & ? & Hsz & _).
    exists b. split; [done|]. rewrite Hsz, Z.add_simpl_r. apply u64_small.
    pose proof (heap_used_bounds _ _ _ Hr). pose proof (cap_le_used _ _ _ _ _ Hr Hp).
    pose proof (core_bound _ _ _ _ _ _ (hr_core _ _ _ Hr)). pose proof (hr_end _ _ _ Hr).
    pose proof (core_start _ _ _ _ _ _ (hr_core _ _ _ Hr)). unfold HDR, MIN_ALLOC in *. lia. }
  unfold get. rewrite Hb. cbn [of_option]. rewrite bind_ok, Hu.
  destruct (decide (new = 0)) as [|_]; [done|].
  destruct (Z.leb_spec new c) as [Hle|Hgt].
  { exists p, H. rewrite decide_True by done. done. }
  destruct (decide (new <= c)) as [|_]; [lia|].
  destruct (kmalloc_effect tm H new flags Hinv ltac:(lia)) as (r & H1 & Hk & Hinv1 & Hres & Hnull & _ & Hpay).
  rewrite Hk, bind_ok. cbn [fst snd]. destruct Hres as [[-> _]|(Hr & Hfresh & d & Hd & Hup)].
  { exists NULL, H1. rewrite (Hnull eq_refl). split; [done|]. split; [done|]. by left. }
  rewrite (proj2 (Z.eqb_neq r NULL)) by done.
  assert (r <> p) as Hrp by (intros ->; congruence).
  set (H2 := with_payload _ H1).
  assert (cap H2 p = Some c) as Hp2.
  { change (cap H2 p) with (cap H1 p). rewrite Hup, decide_False; [done|]. by intros ->. }
  assert (heap_inv H2) as Hinv2.
  { destruct Hinv1 as (bl & fl & Hr1). exists bl, fl. by destruct Hr1; split. }
  destruct (kfree_effect H2 p c Hinv2 Hp2) as (H3 & -> & Hinv3 & Hup3 & _ & Hpay3).
  exists r, H3. split; [done|]. split; [done|]. right. split; [done|]. split; [done|]. split.
  - exists d. split; [done|]. intros q. rewrite Hup3. destruct (decide (q = p)); [done|].
    change (cap H2 q) with (cap H1 q). apply Hup.
  - intros i Hi. rewrite Hpay3. unfold H2. cbn [payload with_payload].
    assert (cap H1 p = Some c) as Hp1 by exact Hp2.
    assert (cap H1 r = Some d) as Hr1 by (by rewrite Hup, decide_True).
    destruct (cap_layout H1 p c Hinv1 Hp1) as (_ & _ & _ & _ & Hdis & _).
    specialize (Hdis r d Hr1 ltac:(done)). unfold HDR in Hdis.
    rewrite copy_data_spec by (rewrite Z2Nat.id by lia; lia).
    rewrite decide_True by lia. rewrite Hpay, decide_False by lia.
    f_equal. lia.
Qed.

Lemma krealloc_correct_witness :
  exists r H', krealloc 0 one_block_heap 0x42000020 4096 0 = Ok (r, H') /\ heap_inv H' /\
    forall i, 0 <= i < 128 -> payload H' (r + i) = payload one_block_heap (0x42000020 + i).
Proof.
  destruct (krealloc_correct 0 one_block_heap 0x42000020 128 4096 0 one_block_heap_inv
    one_block_heap_cap ltac:(lia)) as (r & H' & Hk & Hi & Hc).
  exists r, H'. split; [exact Hk|]. split; [exact Hi|].
  destruct (decide (4096 = 0)); [lia|]. destruct (decide (4096 <= 128)); [lia|].
  destruct Hc as [[-> _]|(_ & _ & _ & Hc)]; [|exact Hc].
  assert (fst_is_null (krealloc 0 one_block_heap 0x42000020 4096 0) = false) as Hn
    by (vm_compute; reflexivity).
  rewrite Hk in Hn. discriminate Hn.
Defined.

(** * The heap of a machine with 1 GB *)

#[export] Instance kernel_heap : Allocator Kmalloc.heap := heap_allocator (2 ^ 30).
#[export] Instance kernel_heap_laws : AllocatorLaws Kmalloc.heap := heap_allocator_laws (2 ^ 30).

(** The heap stays where it is. *)
Lemma kmalloc_ends tm (H : heap) sz flags p H' : heap_inv H -> _kmalloc tm H sz flags = Ok (p, H') ->
  heap_start H' = heap_start H /\ heap_end H' = heap_end H.
Proof.
  intros (bl & fl & Hr). unfold _kmalloc. rewrite (hr_init _ _ _ Hr). case_match; [by intros [= <- <-]|]. intros E.
  inv_bind E. unfold lock_heap in Hv. destruct (heap_lock H); [done|]. injection Hv as <-. inv_bind E.
  destruct v; simplify_eq; [|done..]. repeat inv_bind E. cases.
Qed.

Lemma kfree_ends (H : heap) p H' : kfree H p = Ok H' -> heap_start H' = heap_start H /\ heap_end H' = heap_end H.
Proof.
  unfold kfree. case_match; [by intros [= <-]|]. intros E. inv_bind E. case_match; [by injection E as <-|].
  inv_bind E. unfold lock_heap in *. cases; repeat inv_bind E; by simplify_eq/=.
Qed.

(** The kernel heap between the static objects and an address of the machine's memory. *)
Definition low_heap (lo hi : Z) : Allocator Kmalloc.heap :=
  {| a_kmalloc := a_kmalloc; a_kfree := a_kfree; a_cap := a_cap; a_inv := fun H => heap_inv H /\ lo <= heap_start H /\ heap_end H <= hi |}.

Lemma low_heap_laws lo hi : @AllocatorLaws Kmalloc.heap (low_heap lo hi).
Proof.
  split; simpl.
  - intros H [Hi _]. by apply (@law_null _ kernel_heap _).
  - intros H size flags [Hi Hlo] Hs. destruct (@law_alloc _ kernel_heap _ H size flags Hi Hs) as (p & H' & E & Hi' & Hres).
    destruct (kmalloc_ends _ _ _ _ _ _ Hi E) as [E1 E2]. exists p, H'. rewrite E1, E2. done.
  - apply (@law_free_null _ kernel_heap _).
  - intros H p c [Hi Hlo] Hc. destruct (@law_free _ kernel_heap _ H p c Hi Hc) as (H' & E & Hi' & Hres).
    destruct (kfree_ends _ _ _ E) as [E1 E2]. exists H'. rewrite E1, E2. done.
  - intros H p q c d [Hi _]. by apply (@law_disjoint _ kernel_heap _).
Qed.

Lemma low_heap_range lo hi (H : heap) p c : @a_inv _ (low_heap lo hi) H -> @a_cap _ (low_heap lo hi) H p = Some c -> lo <= p < hi.
Proof.
  intros (Hi & Hlo & Hhi) Hc. destruct (cap_layout H p c Hi Hc) as (Hs & He & Hm & _). unfold HDR, MIN_ALLOC in *. lia.
Qed.
