(* ===== verification/Pipe.v ===== *)
(** * kernel/ipc/pipe.c: pipes

    The ring buffer with its positions, the critical sections of pipe_read and
    pipe_write, the release handlers and do_pipe.  A busy wait releases the lock
    and takes it again, so each function is a sequence of critical sections; the
    step relation [pstep] interleaves those of any number of readers, writers
    and closers. *)
From S2P Require Import Prelude AllocSpec.
#[local] Open Scope Z_scope.

Definition PIPE_SIZE : Z := 4096.

Record pipe := Pipe {
  p_buffer : list Z;   (* Ring buffer *)
  read_pos : Z; write_pos : Z; p_count : Z;
  readers : Z; writers : Z
}.

Definition with_buffer b p := Pipe b (read_pos p) (write_pos p) (p_count p) (readers p) (writers p).
Definition with_read_pos v p := Pipe (p_buffer p) v (write_pos p) (p_count p) (readers p) (writers p).
Definition with_write_pos v p := Pipe (p_buffer p) (read_pos p) v (p_count p) (readers p) (writers p).
Definition with_count v p := Pipe (p_buffer p) (read_pos p) (write_pos p) v (readers p) (writers p).
Definition with_readers v p := Pipe (p_buffer p) (read_pos p) (write_pos p) (p_count p) v (writers p).
Definition with_writers v p := Pipe (p_buffer p) (read_pos p) (write_pos p) (p_count p) (readers p) v.

(** [buf[i] = p->buffer[p->read_pos]; p->read_pos = (p->read_pos + 1) % PIPE_SIZE] *)
Fixpoint read_bytes (n : nat) (p : pipe) : outcome (list Z * pipe) :=
  match n with
  | O => Ok ([], p)
  | S n' =>
      b ← of_option (p_buffer p !! Z.to_nat (read_pos p));
      r ← read_bytes n' (with_read_pos ((read_pos p + 1) mod PIPE_SIZE) p);
      Ok (b :: r.1, r.2)
  end.

(** [p->buffer[p->write_pos] = buf[i]; p->write_pos = (p->write_pos + 1) % PIPE_SIZE] *)
Fixpoint write_bytes (bs : list Z) (p : pipe) : outcome pipe :=
  match bs with
  | [] => Ok p
  | b :: bs' =>
      _ ← of_option (p_buffer p !! Z.to_nat (write_pos p));
      write_bytes bs'
        (with_write_pos ((write_pos p + 1) mod PIPE_SIZE)
          (with_buffer (<[Z.to_nat (write_pos p) := b]> (p_buffer p)) p))
  end.

(** How a critical section ends: the call returns, or it releases the lock to
    wait for the other side. *)
Inductive verdict (A : Type) := Return (a : A) | Wait.
Arguments Return {A} a.
Arguments Wait {A}.

(** pipe_read: one critical section; the bytes are those stored through [buf]. *)
Definition pipe_read_section (p : pipe) (count : Z) : outcome (verdict (list Z) * pipe) :=
  if (writers p =? 0) && (p_count p =? 0) then Ok (Return [], p)
  else if (p_count p =? 0) && (0 <? writers p) then Ok (Wait, p)
  else
    let to_read := if count <? p_count p then count else p_count p in
    r ← read_bytes (Z.to_nat to_read) p;
    Ok (Return r.1, with_count (p_count p - to_read) r.2).

(** After the wait the first test is not repeated, so a pipe whose writers all
    went away during the wait is read with nothing in it. *)
Definition pipe_read_resume (p : pipe) (count : Z) : outcome (verdict (list Z) * pipe) :=
  if (p_count p =? 0) && (0 <? writers p) then Ok (Wait, p)
  else
    let to_read := if count <? p_count p then count else p_count p in
    r ← read_bytes (Z.to_nat to_read) p;
    Ok (Return r.1, with_count (p_count p - to_read) r.2).

(** pipe_write from [written] bytes on, until it returns or must wait: each
    round of the loop copies what fits.  The result carries the bytes written so
    far. *)
Fixpoint pipe_write_loop (fuel : nat) (p : pipe) (buf : list Z) (written : Z) :
    outcome (verdict Z * Z * pipe) :=
  match fuel with
  | O => NoFuel
  | S f =>
      let count := Z.of_nat (length buf) in
      if negb (written <? count) then Ok (Return written, written, p)
      else if (PIPE_SIZE <=? p_count p) && (0 <? readers p) then Ok (Wait, written, p)
      else if readers p =? 0 then
        Ok (Return (if 0 <? written then written else - EPIPE), written, p)
      else
        let space := PIPE_SIZE - p_count p in
        let to_write := if count - written <? space then count - written else space in
        p' ← write_bytes (take (Z.to_nat to_write) (drop (Z.to_nat written) buf)) p;
        pipe_write_loop f (with_count (p_count p' + to_write) p') buf (written + to_write)
  end.

(** Rounds of the write loop in one section: after one copy either everything is
    written or the ring is full, so three always suffice (pipe_write_loop_spec). *)
Definition write_rounds : nat := 3.

(** pipe_write: the critical section of its first entry. *)
Definition pipe_write_section (p : pipe) (buf : list Z) : outcome (verdict Z * Z * pipe) :=
  if readers p =? 0 then Ok (Return (- EPIPE), 0, p) else pipe_write_loop write_rounds p buf 0.

(** The section entered again after a wait with [written] bytes done. *)
Definition pipe_write_resume (p : pipe) (buf : list Z) (written : Z) :
    outcome (verdict Z * Z * pipe) := pipe_write_loop write_rounds p buf written.

(** ** File objects

    [struct file] as far as pipes use it; [alloc] is the state of the kernel
    heap, objects are found by their address. *)

Inductive file_ops := pipe_read_ops | pipe_write_ops.

Record file := File { f_op : file_ops; f_flags : Z; private_data : Z; f_count : Z }.

Definition O_RDONLY : Z := 0.
Definition O_WRONLY : Z := 1.

(** sizeof(struct pipe), sizeof(struct file) on a 64-bit target. *)
Definition SIZEOF_PIPE : Z := 48.
Definition SIZEOF_FILE : Z := 48.

Section objects.
Context {A : Type} `{Allocator A}.

Record pstate := PState {
  alloc : A;
  pipes : gmap Z (Z * pipe);   (* address -> buffer pointer and fields *)
  files : gmap Z file
}.

(** The start of pipe_read and pipe_write: the pipe of the file, if it has one. *)
Definition pipe_of (st : pstate) (f : Z) : outcome (option (Z * pipe)) :=
  fl ← of_option (files st !! f);
  if private_data fl =? NULL then Ok None
  else p ← of_option (pipes st !! private_data fl); Ok (Some p).

(** The tail of both release handlers. *)
Definition drop_pipe (st : pstate) (a buffer : Z) (p : pipe) : outcome pstate :=
  if (readers p =? 0) && (writers p =? 0) then
    al ← a_kfree (alloc st) buffer;
    al ← a_kfree al a;
    Ok (PState al (delete a (pipes st)) (files st))
  else Ok (PState (alloc st) (<[a := (buffer, p)]> (pipes st)) (files st)).

Definition pipe_release_read (st : pstate) (f : Z) : outcome pstate :=
  fl ← of_option (files st !! f);
  if private_data fl =? NULL then Ok st
  else
    bp ← of_option (pipes st !! private_data fl);
    drop_pipe st (private_data fl) bp.1 (with_readers (readers bp.2 - 1) bp.2).

Definition pipe_release_write (st : pstate) (f : Z) : outcome pstate :=
  fl ← of_option (files st !! f);
  if private_data fl =? NULL then Ok st
  else
    bp ← of_option (pipes st !! private_data fl);
    drop_pipe st (private_data fl) bp.1 (with_writers (writers bp.2 - 1) bp.2).

(** do_pipe; [junk] is what the uninitialized buffer holds.  The result is the
    return value with the two file pointers. *)
Definition do_pipe (st : pstate) (junk : list Z) : outcome (Z * Z * Z * pstate) :=
  r1 ← a_kzalloc (alloc st) SIZEOF_PIPE GFP_KERNEL;
  let p := r1.1 in
  if p =? NULL then Ok (- ENOMEM, NULL, NULL, PState r1.2 (pipes st) (files st))
  else
    r2 ← a_kmalloc r1.2 PIPE_SIZE GFP_KERNEL;
    let buffer := r2.1 in
    if buffer =? NULL then
      al ← a_kfree r2.2 p;
      Ok (- ENOMEM, NULL, NULL, PState al (pipes st) (files st))
    else
      r3 ← a_kzalloc r2.2 SIZEOF_FILE GFP_KERNEL;
      r4 ← a_kzalloc r3.2 SIZEOF_FILE GFP_KERNEL;
      let rf := r3.1 in
      let wf := r4.1 in
      if (rf =? NULL) || (wf =? NULL) then
        al ← a_kfree r4.2 rf;
        al ← a_kfree al wf;
        al ← a_kfree al buffer;
        al ← a_kfree al p;
        Ok (- ENOMEM, NULL, NULL, PState al (pipes st) (files st))
      else
        Ok (0, rf, wf, PState r4.2
          (<[p := (buffer, Pipe junk 0 0 0 1 1)]> (pipes st))
          (<[wf := File pipe_write_ops O_WRONLY p 1]>
            (<[rf := File pipe_read_ops O_RDONLY p 1]> (files st)))).
End objects.
Arguments pstate A : clear implicits.

(** ** The logical content *)

(** The byte at ring position [i]. *)
Definition ring (p : pipe) (i : Z) : Z := nth (Z.to_nat (i mod PIPE_SIZE)) (p_buffer p) 0.

(** The bytes waiting to be read, oldest first. *)
Definition content (p : pipe) : list Z :=
  map (fun i => ring p (read_pos p + i)) (seqZ 0 (p_count p)).

Record pipe_inv (p : pipe) : Prop := PipeInv {
  pi_len : Z.of_nat (length (p_buffer p)) = PIPE_SIZE;
  pi_read : 0 <= read_pos p < PIPE_SIZE;
  pi_count : 0 <= p_count p <= PIPE_SIZE;
  pi_write : write_pos p = (read_pos p + p_count p) mod PIPE_SIZE
}.

Lemma content_length p : pipe_inv p -> Z.of_nat (length (content p)) = p_count p.
Proof. intros Hi. unfold content. rewrite length_map, length_seqZ. pose proof (pi_count _ Hi). lia. Qed.

Lemma content_lookup p i : (i < Z.to_nat (p_count p))%nat ->
  content p !! i = Some (ring p (read_pos p + Z.of_nat i)).
Proof.
  intros Hi. unfold content. rewrite list_lookup_fmap.
  rewrite lookup_seqZ_lt by lia. done.
Qed.

Lemma ring_mod p i : ring p (i mod PIPE_SIZE) = ring p i.
Proof. unfold ring. by rewrite Z.mod_mod by done. Qed.

Lemma ring_lookup p i : pipe_inv p ->
  p_buffer p !! Z.to_nat (i mod PIPE_SIZE) = Some (ring p i).
Proof.
  intros Hi. unfold ring.
  destruct (nth_lookup_or_length (p_buffer p) (Z.to_nat (i mod PIPE_SIZE)) 0); [done|].
  pose proof (pi_len _ Hi). pose proof (Z.mod_pos_bound i PIPE_SIZE ltac:(done)). lia.
Qed.

(** ** Reading *)

Lemma read_bytes_from n k p : pipe_inv p -> (k + n <= Z.to_nat (p_count p))%nat ->
  read_bytes n (with_read_pos ((read_pos p + Z.of_nat k) mod PIPE_SIZE) p) =
  Ok (take n (drop k (content p)), with_read_pos ((read_pos p + Z.of_nat (k + n)) mod PIPE_SIZE) p).
Proof.
  intros Hi. revert k. induction n as [|n IH]; intros k Hk; simpl.
  { by rewrite take_0, Nat.add_0_r. }
  rewrite (ring_lookup p _ Hi). simpl.
  replace (((read_pos p + Z.of_nat k) mod PIPE_SIZE + 1) mod PIPE_SIZE)
    with ((read_pos p + Z.of_nat (S k)) mod PIPE_SIZE).
  2:{ rewrite Zplus_mod_idemp_l. f_equal. lia. }
  specialize (IH (S k) ltac:(lia)).
  unfold with_read_pos in *. simpl in *. rewrite IH. simpl.
  rewrite (drop_S (content p) (ring p (read_pos p + Z.of_nat k)) k)
    by (apply content_lookup; lia). simpl.
  repeat f_equal. lia.
Qed.

Lemma read_bytes_spec n p : pipe_inv p -> (n <= Z.to_nat (p_count p))%nat ->
  read_bytes n p = Ok (take n (content p), with_read_pos ((read_pos p + Z.of_nat n) mod PIPE_SIZE) p).
Proof.
  intros Hi Hn. pose proof (read_bytes_from n 0 p Hi ltac:(lia)) as H.
  rewrite Z.add_0_r, (Z.mod_small (read_pos p)), drop_0 in H by apply Hi.
  destruct p; exact H.
Qed.

(** The pipe after [n] of its bytes were consumed. *)
Lemma consume_inv n p : pipe_inv p -> 0 <= n <= p_count p ->
  let p' := with_count (p_count p - n) (with_read_pos ((read_pos p + n) mod PIPE_SIZE) p) in
  pipe_inv p' /\ content p' = drop (Z.to_nat n) (content p).
Proof.
  intros [Hl Hr Hc Hw] Hn p'. split.
  - split; simpl; [done | by apply Z.mod_pos_bound | lia |].
    rewrite Zplus_mod_idemp_l, Hw. f_equal. lia.
  - apply list_eq. intros i. rewrite lookup_drop.
    destruct (decide (i < Z.to_nat (p_count p - n))%nat) as [Hi|Hi].
    + rewrite !content_lookup by (simpl; lia). f_equal. unfold ring, p'. simpl.
      rewrite Zplus_mod_idemp_l. f_equal. f_equal. f_equal. lia.
    + assert (pipe_inv p) as Hp by done. pose proof (content_length p Hp).
      rewrite !lookup_ge_None_2; [done | lia |].
      unfold content, p'. rewrite length_map, length_seqZ. simpl. lia.
Qed.

(** ** Writing *)

Definition put_byte (b : Z) (p : pipe) : pipe :=
  with_write_pos ((write_pos p + 1) mod PIPE_SIZE)
    (with_buffer (<[Z.to_nat (write_pos p) := b]> (p_buffer p)) p).

Lemma put_byte_inv b p : pipe_inv p -> p_count p < PIPE_SIZE ->
  let p' := with_count (p_count p + 1) (put_byte b p) in
  pipe_inv p' /\ content p' = content p ++ [b].
Proof.
  intros Hi Hlt p'. pose proof Hi as [Hl Hr Hc Hw]. unfold PIPE_SIZE in *. split.
  - split; simpl; [by rewrite length_insert | done | unfold PIPE_SIZE; lia |].
    rewrite Hw. unfold PIPE_SIZE. rewrite Zplus_mod_idemp_l. f_equal. lia.
  - unfold content at 1. simpl.
    rewrite (seqZ_app 0 (p_count p) 1) by lia. rewrite map_app. f_equal.
    + apply list_eq. intros i. rewrite list_lookup_fmap.
      destruct (decide (i < Z.to_nat (p_count p))%nat) as [Hlti|Hge].
      * rewrite content_lookup, lookup_seqZ_lt by lia. simpl. f_equal. unfold ring. simpl.
        rewrite !nth_lookup. rewrite list_lookup_insert_ne; [done|].
        rewrite Hw. unfold PIPE_SIZE. pose proof (Z.mod_pos_bound (read_pos p + p_count p) 4096 ltac:(lia)).
        intros Heq. apply Z2Nat.inj in Heq; [| lia | apply Z.mod_pos_bound; lia]. lia_mod.
      * rewrite !lookup_ge_None_2; [done | |].
        { pose proof (content_length p Hi). lia. }
        rewrite length_seqZ. lia.
    + simpl. f_equal. unfold ring. simpl. unfold PIPE_SIZE. rewrite Z.add_0_l, nth_lookup, Hw.
      unfold PIPE_SIZE. rewrite list_lookup_insert_eq; [done|].
      pose proof (Z.mod_pos_bound (read_pos p + p_count p) 4096 ltac:(lia)). lia.
Qed.

Lemma write_bytes_count bs p c :
  write_bytes bs (with_count c p) = (r ← write_bytes bs p; Ok (with_count c r)).
Proof.
  revert p. induction bs as [|b bs IH]; intros p; simpl; [done|].
  destruct (p_buffer p !! Z.to_nat (write_pos p)); simpl; [|done].
  rewrite <- IH. done.
Qed.

Lemma write_bytes_spec bs p : pipe_inv p -> p_count p + Z.of_nat (length bs) <= PIPE_SIZE ->
  exists p', write_bytes bs p = Ok p' /\ p_count p' = p_count p /\
    readers p' = readers p /\ writers p' = writers p /\
    pipe_inv (with_count (p_count p + Z.of_nat (length bs)) p') /\
    content (with_count (p_count p + Z.of_nat (length bs)) p') = content p ++ bs.
Proof.
  revert p. induction bs as [|b bs IH]; intros p Hi Hle.
  { exists p. simpl. rewrite app_nil_r, Z.add_0_r. destruct p; done. }
  simpl in Hle. destruct (put_byte_inv b p Hi) as [Hi1 Hc1]; [lia|].
  destruct (IH _ Hi1) as (p1 & Hw1 & Hcnt & Hrd & Hwr & Hi2 & Hc2); [simpl; lia|].
  rewrite write_bytes_count in Hw1. apply bind_ok_inv in Hw1 as (p' & Hw' & [= Hp1]).
  exists (with_count (p_count p) p'). simpl.
  assert (p_buffer p !! Z.to_nat (write_pos p) <> None) as Hsome.
  { rewrite (pi_write _ Hi), ring_lookup by done. done. }
  destruct (p_buffer p !! Z.to_nat (write_pos p)); [|done]. simpl.
  fold (put_byte b p). rewrite Hw'.
  assert (p_count p' = p_count p) as Hpc.
  { pose proof (write_bytes_count bs (put_byte b p) (p_count p)) as He.
    rewrite Hw' in He. replace (with_count (p_count p) (put_byte b p)) with (put_byte b p) in He
      by (destruct p; done). rewrite Hw' in He. simpl in He. injection He as ->. done. }
  simpl in *. replace (p_count p + 1 + Z.of_nat (length bs)) with (p_count p + Z.of_nat (S (length bs))) in * by lia.
  rewrite <- Hp1 in *. simpl in *.
  split; [destruct p'; simpl in *; by subst|]. split; [done|]. split; [done|]. split; [done|].
  split; [exact Hi2|]. etransitivity; [exact Hc2|]. rewrite Hc1, <- app_assoc. done.
Qed.

(** ** One critical section *)

Lemma pipe_read_resume_spec p count : pipe_inv p -> 0 <= count ->
  (p_count p = 0 /\ 0 < writers p /\ pipe_read_resume p count = Ok (Wait, p)) \/
  (exists p', pipe_read_resume p count = Ok (Return (take (Z.to_nat count) (content p)), p') /\
     pipe_inv p' /\ content p' = drop (Z.to_nat count) (content p) /\
     readers p' = readers p /\ writers p' = writers p).
Proof.
  intros Hi Hc. unfold pipe_read_resume. pose proof (pi_count _ Hi) as Hpc.
  pose proof (content_length p Hi) as Hlen.
  destruct (Z.eqb_spec (p_count p) 0) as [H1|H1], (Z.ltb_spec 0 (writers p)) as [H2|H2];
    simpl; [by left|right..].
  all: set (n := if count <? p_count p then count else p_count p).
  all: assert (n = Z.min count (p_count p)) as Hn
    by (unfold n; destruct (Z.ltb_spec count (p_count p)); lia).
  all: assert (take (Z.to_nat n) (content p) = take (Z.to_nat count) (content p) /\
      drop (Z.to_nat n) (content p) = drop (Z.to_nat count) (content p)) as [Ht Hd]
    by (destruct (Z.le_ge_cases count (p_count p));
        [by replace n with count by lia | rewrite !take_ge, !drop_ge by lia; done]).
  all: destruct (consume_inv n p Hi ltac:(lia)) as [Hi' Hc'].
  all: rewrite read_bytes_spec by (done || lia); simpl; rewrite Z2Nat.id, Ht by lia.
  all: eexists; split; [done|]; split; [exact Hi'|]; split; [|done].
  all: etransitivity; [exact Hc' | exact Hd].
Qed.

(** What a section of pipe_write does from [written] bytes on: as much as fits. *)
Lemma pipe_write_loop_spec f p buf w : pipe_inv p -> 0 < readers p ->
  0 <= w <= Z.of_nat (length buf) -> (3 <= f)%nat ->
  let rest := drop (Z.to_nat w) buf in
  let n := Z.min (Z.of_nat (length rest)) (PIPE_SIZE - p_count p) in
  exists p', pipe_write_loop f p buf w =
      Ok ((if w + n =? Z.of_nat (length buf) then Return (Z.of_nat (length buf)) else Wait), w + n, p') /\
    pipe_inv p' /\ content p' = content p ++ take (Z.to_nat n) rest /\
    readers p' = readers p /\ writers p' = writers p.
Proof.
  intros Hi Hr Hw Hf rest n. destruct f as [|[|[|f]]]; try lia.
  assert (Z.of_nat (length rest) = Z.of_nat (length buf) - w) as Hrest
    by (unfold rest; rewrite length_drop; lia).
  pose proof (pi_count _ Hi) as Hpc.
  assert (forall g q v, 0 < readers q -> v = Z.of_nat (length buf) \/ PIPE_SIZE <= p_count q ->
    v <= Z.of_nat (length buf) ->
    pipe_write_loop (S g) q buf v =
    Ok (if v =? Z.of_nat (length buf) then Return (Z.of_nat (length buf)) else Wait, v, q)) as Hstop.
  { intros g q v Hrq Hv Hle. simpl. destruct (Z.ltb_spec v (Z.of_nat (length buf))); simpl.
    - rewrite (proj2 (Z.leb_le PIPE_SIZE (p_count q))), (proj2 (Z.ltb_lt 0 (readers q))) by lia.
      rewrite (proj2 (Z.eqb_neq v (Z.of_nat (length buf)))) by lia. done.
    - rewrite (proj2 (Z.eqb_eq v (Z.of_nat (length buf)))) by lia. by replace v with (Z.of_nat (length buf)) by lia. }
  destruct (decide (w = Z.of_nat (length buf) \/ PIPE_SIZE <= p_count p)) as [Hs|Hs].
  { rewrite (Hstop _ p w Hr Hs) by lia. replace n with 0 by lia. rewrite Z.add_0_r.
    exists p. simpl. rewrite app_nil_r. done. }
  cbn [pipe_write_loop].
  rewrite (proj2 (Z.ltb_lt w (Z.of_nat (length buf)))), (proj2 (Z.leb_gt PIPE_SIZE (p_count p))), (proj2 (Z.eqb_neq (readers p) 0)) by lia.
  cbn [negb andb]. set (tw := if _ <? _ then _ else _).
  assert (tw = n) as -> by (unfold tw, n; destruct (Z.ltb_spec (Z.of_nat (length buf) - w) (PIPE_SIZE - p_count p)); lia).
  assert (Z.of_nat (length (take (Z.to_nat n) rest)) = n) as Hlt by (rewrite length_take; lia).
  destruct (write_bytes_spec (take (Z.to_nat n) rest) p Hi) as (p' & Hw' & Hcnt & Hrd & Hwr & Hi' & Hc'); [lia|].
  fold rest. rewrite Hw', bind_ok, Hcnt. rewrite Hlt in Hi', Hc'.
  exists (with_count (p_count p + n) p').
  split; [|split; [done|]; split; [done|]; split; done].
  apply (Hstop (S f)); simpl; lia.
Qed.

(** ** Interleavings of readers, writers and closers *)

(** The pipe with the bytes that reads have returned and those that writes have
    taken, each in order of occurrence. *)
Record psys := PSys { ps_pipe : pipe; ps_out : list Z; ps_in : list Z }.

Definition delivered (v : verdict (list Z)) : list Z :=
  match v with Return bs => bs | Wait => [] end.

Inductive pstep : psys -> psys -> Prop :=
| step_read p out inp count v p' :
    0 <= count -> pipe_read_section p count = Ok (v, p') ->
    pstep (PSys p out inp) (PSys p' (out ++ delivered v) inp)
| step_read_resume p out inp count v p' :
    0 <= count -> pipe_read_resume p count = Ok (v, p') ->
    pstep (PSys p out inp) (PSys p' (out ++ delivered v) inp)
| step_write p out inp buf v w p' :
    pipe_write_section p buf = Ok (v, w, p') ->
    pstep (PSys p out inp) (PSys p' out (inp ++ take (Z.to_nat w) buf))
| step_write_resume p out inp buf w v w' p' :
    0 <= w <= Z.of_nat (length buf) -> pipe_write_resume p buf w = Ok (v, w', p') ->
    pstep (PSys p out inp)
      (PSys p' out (inp ++ take (Z.to_nat (w' - w)) (drop (Z.to_nat w) buf)))
| step_close_read p out inp :
    0 < readers p -> pstep (PSys p out inp) (PSys (with_readers (readers p - 1) p) out inp)
| step_close_write p out inp :
    0 < writers p -> pstep (PSys p out inp) (PSys (with_writers (writers p - 1) p) out inp).

Definition fifo (s : psys) : Prop :=
  pipe_inv (ps_pipe s) /\ 0 <= readers (ps_pipe s) /\ ps_out s ++ content (ps_pipe s) = ps_in s.

Lemma pipe_read_section_spec p count v p' : pipe_inv p -> 0 <= count ->
  pipe_read_section p count = Ok (v, p') ->
  pipe_inv p' /\ readers p' = readers p /\ delivered v ++ content p' = content p.
Proof.
  intros Hi Hc Hs. unfold pipe_read_section in Hs.
  destruct ((writers p =? 0) && (p_count p =? 0)); [by injection Hs as <- <-|].
  change (pipe_read_resume p count = Ok (v, p')) in Hs.
  destruct (pipe_read_resume_spec p count Hi Hc) as [(_ & _ & He)|(p1 & He & Hi' & Hc' & Hr & _)];
    rewrite Hs in He; injection He as -> ->; [done|].
  split; [done|]. split; [done|]. simpl. by rewrite Hc', take_drop.
Qed.

(** The same for a section re-entered after a wait. *)
Lemma pipe_read_resume_step p count v p' : pipe_inv p -> 0 <= count ->
  pipe_read_resume p count = Ok (v, p') ->
  pipe_inv p' /\ readers p' = readers p /\ delivered v ++ content p' = content p.
Proof.
  intros Hi Hc Hs.
  destruct (pipe_read_resume_spec p count Hi Hc) as [(_ & _ & He)|(p1 & He & Hi' & Hc' & Hr & _)];
    rewrite Hs in He; injection He as -> ->; [done|].
  split; [done|]. split; [done|]. simpl. by rewrite Hc', take_drop.
Qed.

Lemma pipe_write_resume_step p buf w v w' p' : pipe_inv p -> 0 <= readers p ->
  0 <= w <= Z.of_nat (length buf) -> pipe_write_resume p buf w = Ok (v, w', p') ->
  pipe_inv p' /\ readers p' = readers p /\ w <= w' /\
  content p' = content p ++ take (Z.to_nat (w' - w)) (drop (Z.to_nat w) buf).
Proof.
  intros Hi Hr Hw Hs. unfold pipe_write_resume, write_rounds in Hs.
  destruct (decide (readers p = 0)) as [Hr0|Hr0].
  - assert (w' = w /\ p' = p) as [-> ->].
    { cbn [pipe_write_loop] in Hs. rewrite Hr0 in Hs. rewrite andb_false_r in Hs. simpl in Hs.
      destruct (negb (w <? Z.of_nat (length buf))); by injection Hs as _ <- <-. }
    rewrite Z.sub_diag, take_0, app_nil_r. split; [done|]. split; [done|]. split; [lia | done].
  - destruct (pipe_write_loop_spec 3 p buf w Hi ltac:(lia) Hw ltac:(lia)) as (p1 & He & Hi' & Hc' & Hr' & _).
    rewrite Hs in He. injection He as -> -> ->. pose proof (pi_count _ Hi).
    split; [done|]. split; [done|]. split; [lia|]. by rewrite Z.add_simpl_l.
Qed.

Lemma fifo_step s s' : fifo s -> pstep s s' -> fifo s'.
Proof.
  intros (Hi & Hr & Heq) Hstep. unfold fifo.
  destruct Hstep as [p out inp n v p' Hn Hs|p out inp n v p' Hn Hs|p out inp buf v w p' Hs|
    p out inp buf w v w' p' Hw Hs|p out inp Hc|p out inp Hc]; simpl in *.
  - destruct (pipe_read_section_spec _ _ _ _ Hi Hn Hs) as (? & -> & Hd).
    split; [done|]. split; [done|]. by rewrite <- app_assoc, Hd.
  - destruct (pipe_read_resume_step _ _ _ _ Hi Hn Hs) as (? & -> & Hd).
    split; [done|]. split; [done|]. by rewrite <- app_assoc, Hd.
  - unfold pipe_write_section in Hs. destruct (readers p =? 0).
    { injection Hs as _ <- <-. rewrite take_0, app_nil_r. done. }
    destruct (pipe_write_resume_step p buf 0 v w p' Hi Hr) as (? & -> & _ & Hd); [lia | done |].
    split; [done|]. split; [done|]. rewrite Hd, Z.sub_0_r, drop_0, app_assoc, Heq. done.
  - destruct (pipe_write_resume_step p buf w v w' p' Hi Hr Hw Hs) as (? & -> & _ & Hd).
    split; [done|]. split; [done|]. by rewrite Hd, app_assoc, Heq.
  - split; [by destruct Hi; split|]. split; [lia | done].
  - split; [by destruct Hi; split|]. done.
Qed.

(** ** Properties *)

(** C32. In every interleaving of critical sections of readers, writers and
    closers on a fresh pipe, the ring stays well formed and the bytes returned by
    reads followed by those still in the ring are exactly the bytes taken by
    writes: the pipe is a FIFO of capacity 4096 that loses, duplicates and
    reorders nothing. *)
Theorem pipe_fifo (junk : list Z) (s : psys)
    (Hjunk : Z.of_nat (length junk) = PIPE_SIZE)
    (Hrun : star pstep (PSys (Pipe junk 0 0 0 1 1) [] []) s) :
  pipe_inv (ps_pipe s) /\ ps_out s ++ content (ps_pipe s) = ps_in s /\
  Z.of_nat (length (ps_in s)) - Z.of_nat (length (ps_out s)) <= PIPE_SIZE.
Proof.
  assert (fifo s) as (Hi & _ & Heq).
  { eapply (star_inv pstep fifo); [apply fifo_step | exact Hrun |].
    split; [by split | done]. }
  split; [done|]. split; [done|]. rewrite <- Heq, length_app.
  pose proof (content_length _ Hi). pose proof (pi_count _ Hi). lia.
Qed.

Lemma pipe_fifo_witness :
  let junk := replicate 4096 7 in
  exists s, star pstep (PSys (Pipe junk 0 0 0 1 1) [] []) s /\
    ps_in s = [1; 2; 3] /\ ps_out s = [1; 2] /\
    ps_out s ++ content (ps_pipe s) = ps_in s.
Proof.
  intros junk.
  destruct (pipe_write_section (Pipe junk 0 0 0 1 1) [1; 2; 3]) as [[[v w] p1]| |] eqn:E1;
    [|vm_compute in E1; discriminate E1..].
  destruct (pipe_read_section p1 2) as [[v2 p2]| |] eqn:E2;
    [|exfalso; vm_compute in E1; injection E1 as <- <- <-; vm_compute in E2; discriminate E2..].
  set (s := PSys p2 ([] ++ delivered v2) ([] ++ take (Z.to_nat w) [1; 2; 3])).
  assert (star pstep (PSys (Pipe junk 0 0 0 1 1) [] []) s) as Hrun.
  { eapply star_step; [eapply star_step; [apply star_refl|eapply step_write; exact E1]|].
    eapply step_read; [|exact E2]. lia. }
  exists s. split; [exact Hrun|].
  destruct (pipe_fifo junk s eq_refl Hrun) as (_ & Heq & _).
  split; [|split; [|exact Heq]].
  - vm_compute in E1. injection E1 as <- <- <-. reflexivity.
  - vm_compute in E1. injection E1 as <- <- <-. vm_compute in E2. injection E2 as <- <-. reflexivity.
Defined.

(** A write section on a pipe with a reader always finishes: it appends as
    many bytes as fit, returns the full count when everything fitted and waits
    otherwise; with no reader it fails with EPIPE.  A read section returns the
    oldest bytes, at most the requested number, waits only when the pipe is
    empty and has a writer, and reports end of file when it has none. *)
Theorem pipe_sections (p : pipe) (buf : list Z) (count : Z)
    (Hi : pipe_inv p) (Hr : 0 <= readers p) (Hc : 0 <= count) :
  (readers p = 0 -> pipe_write_section p buf = Ok (Return (- EPIPE), 0, p)) /\
  (0 < readers p -> let n := Z.min (Z.of_nat (length buf)) (PIPE_SIZE - p_count p) in
     exists p', pipe_write_section p buf =
        Ok ((if n =? Z.of_nat (length buf) then Return n else Wait), n, p') /\
       pipe_inv p' /\ content p' = content p ++ take (Z.to_nat n) buf) /\
  (content p = [] -> writers p = 0 -> pipe_read_section p count = Ok (Return [], p)) /\
  (content p = [] -> 0 < writers p -> pipe_read_section p count = Ok (Wait, p)) /\
  (content p <> [] -> exists p',
     pipe_read_section p count = Ok (Return (take (Z.to_nat count) (content p)), p') /\
     pipe_inv p' /\ content p' = drop (Z.to_nat count) (content p)).
Proof.
  pose proof (content_length p Hi) as Hlen.
  assert (content p = [] <-> p_count p = 0) as Hempty.
  { rewrite <- length_zero_iff_nil. lia. }
  split; [intros H0; unfold pipe_write_section; by rewrite H0|]. split.
  { intros Hpos n. unfold pipe_write_section. rewrite (proj2 (Z.eqb_neq _ _)) by lia.
    destruct (pipe_write_loop_spec 3 p buf 0 Hi Hpos ltac:(lia) ltac:(lia)) as (p' & He & Hi' & Hc' & _).
    rewrite drop_0, Z.add_0_l in *. fold n in He, Hc'. exists p'. split; [|done].
    unfold write_rounds. rewrite He. destruct (Z.eqb_spec n (Z.of_nat (length buf))) as [->|]; done. }
  split; [|split].
  - intros He%Hempty Hw. unfold pipe_read_section. by rewrite He, Hw.
  - intros He%Hempty Hw. unfold pipe_read_section. rewrite He. simpl.
    rewrite (proj2 (Z.eqb_neq (writers p) 0)), (proj2 (Z.ltb_lt 0 (writers p))) by lia. done.
  - intros Hne. unfold pipe_read_section. rewrite Hempty in Hne.
    rewrite (proj2 (Z.eqb_neq (p_count p) 0)), andb_false_r by lia.
    destruct (pipe_read_resume_spec p count Hi Hc) as [(? & _)|(p' & He & ? & ? & _)]; [done|].
    exists p'. split; [|done]. unfold pipe_read_resume in He.
    rewrite (proj2 (Z.eqb_neq (p_count p) 0)) in He by lia. exact He.
Qed.

Lemma pipe_sections_witness :
  let p := Pipe (replicate 4096 7) 4095 1 2 1 1 in
  exists p', pipe_write_section p [5] = Ok (Return 1, 1, p') /\ content p' = [7; 7; 5].
Proof.
  intros p. destruct (pipe_sections p [5] 1) as (_ & H & _);
    [split; simpl; unfold PIPE_SIZE; (reflexivity || lia) | simpl; lia | lia |].
  destruct H as (p' & H1 & _ & H2); [simpl; lia|]. exists p'.
  split; [exact H1 | exact H2].
Defined.
