(* ===== verification/Pmm.v ===== *)
(** * The physical page allocator (src/kernel/mm/pmm.c): state and operations

    The allocator has two modes: [early_mode] scans a bitmap of used pages, the
    other one keeps a free list of [struct page] per order.  A [struct page *]
    is an index into [page_array] ([None] is the null pointer); [page_array]
    itself is [None] while the code's pointer is null.  The linker's
    [__kernel_start] and [__kernel_end] are arguments of [pmm_init]. *)
From S2P Require Import Prelude.
#[local] Open Scope Z_scope.

Definition MAX_ORDER : Z := 11.
Definition MEMORY_BASE : Z := 0x40000000.
Definition MEMORY_SIZE : Z := 1024 * 1024 * 1024.
Definition PMM_MAX_MEMORY_SIZE : Z := 4 * 1024 * 1024 * 1024.
Definition EARLY_BITMAP_SIZE : Z := PMM_MAX_MEMORY_SIZE / PAGE_SIZE / 8.
Definition PAGE_FLAG_FREE : Z := 0.
Definition PAGE_FLAG_USED : Z := 1.

Record page := Page { pg_flags : Z; pg_order : Z; pg_next : option Z }.

Record pmm := Pmm {
  free_lists : gmap Z Z;
  page_array : option (gmap Z page);
  total_pages : Z;
  free_pages_count : Z;
  total_memory : Z;
  memory_start : Z;
  memory_end : Z;
  early_bitmap : gmap Z Z;
  early_mode : bool;
  configured_memory_base : Z;
  configured_memory_size : Z
}.

(** The static initialisers. *)
Definition pmm_static : pmm := Pmm ∅ None 0 0 0 0 0 ∅ true MEMORY_BASE MEMORY_SIZE.

Definition with_bitmap (s : pmm) (b : gmap Z Z) : pmm :=
  Pmm (free_lists s) (page_array s) (total_pages s) (free_pages_count s) (total_memory s)
    (memory_start s) (memory_end s) b (early_mode s)
    (configured_memory_base s) (configured_memory_size s).
Definition with_free_count (s : pmm) (n : Z) : pmm :=
  Pmm (free_lists s) (page_array s) (total_pages s) n (total_memory s)
    (memory_start s) (memory_end s) (early_bitmap s) (early_mode s)
    (configured_memory_base s) (configured_memory_size s).
Definition with_free_lists (s : pmm) (fl : gmap Z Z) : pmm :=
  Pmm fl (page_array s) (total_pages s) (free_pages_count s) (total_memory s)
    (memory_start s) (memory_end s) (early_bitmap s) (early_mode s)
    (configured_memory_base s) (configured_memory_size s).
Definition with_page_array (s : pmm) (pa : gmap Z page) : pmm :=
  Pmm (free_lists s) (Some pa) (total_pages s) (free_pages_count s) (total_memory s)
    (memory_start s) (memory_end s) (early_bitmap s) (early_mode s)
    (configured_memory_base s) (configured_memory_size s).

Definition order_to_pages (order : Z) : Z := u64 (Z.shiftl 1 order).
Definition order_to_size (order : Z) : Z := u64 (order_to_pages order * PAGE_SIZE).

(** [order < MAX_ORDER] bounds the loop; the fuel is [MAX_ORDER - order]. *)
Fixpoint size_to_order_loop (fuel : nat) (pages order : Z) : Z :=
  match fuel with
  | O => order
  | S fuel =>
      if (order_to_pages order <? pages) && (order <? MAX_ORDER)
      then size_to_order_loop fuel pages (order + 1) else order
  end.
Definition size_to_order (size : Z) : Z :=
  size_to_order_loop (Z.to_nat MAX_ORDER) (u64 (size + PAGE_SIZE - 1) / PAGE_SIZE) 0.

(** ** The bitmap *)

(** An entry of the zero-initialised [early_bitmap]. *)
Definition bitmap_byte (s : pmm) (i : Z) : Z := default 0 (early_bitmap s !! i).
Definition set_bitmap_byte (s : pmm) (i b : Z) : pmm :=
  with_bitmap s (<[i := u8 b]> (early_bitmap s)).

Definition early_mark_used (s : pmm) (addr : Z) : pmm :=
  let pfn := PHYS_TO_PFN (u64 (addr - memory_start s)) in
  if pfn <? EARLY_BITMAP_SIZE * 8
  then set_bitmap_byte s (pfn / 8) (Z.lor (bitmap_byte s (pfn / 8)) (Z.shiftl 1 (pfn mod 8)))
  else s.

Definition early_mark_free (s : pmm) (addr : Z) : pmm :=
  let pfn := PHYS_TO_PFN (u64 (addr - memory_start s)) in
  if pfn <? EARLY_BITMAP_SIZE * 8
  then set_bitmap_byte s (pfn / 8)
         (Z.land (bitmap_byte s (pfn / 8)) (Z.lnot (Z.shiftl 1 (pfn mod 8))))
  else s.

Definition early_is_free (s : pmm) (addr : Z) : bool :=
  let pfn := PHYS_TO_PFN (u64 (addr - memory_start s)) in
  if EARLY_BITMAP_SIZE * 8 <=? pfn then false
  else Z.land (bitmap_byte s (pfn / 8)) (Z.shiftl 1 (pfn mod 8)) =? 0.

(** The bit loop and the byte loop of [early_alloc_page]. *)
Fixpoint early_alloc_bit (fuel : nat) (s : pmm) (i j : Z) : option (Z * pmm) :=
  match fuel with
  | O => None
  | S fuel =>
      if Z.land (bitmap_byte s i) (Z.shiftl 1 j) =? 0
      then Some (u64 (memory_start s + (i * 8 + j) * PAGE_SIZE),
                 set_bitmap_byte s i (Z.lor (bitmap_byte s i) (Z.shiftl 1 j)))
      else early_alloc_bit fuel s i (j + 1)
  end.
Fixpoint early_alloc_byte (fuel : nat) (s : pmm) (i : Z) : Z * pmm :=
  match fuel with
  | O => (0, s)
  | S fuel =>
      match (if bitmap_byte s i =? 0xFF then None else early_alloc_bit 8 s i 0) with
      | Some r => r
      | None => early_alloc_byte fuel s (i + 1)
      end
  end.
Definition early_alloc_page (s : pmm) : Z * pmm :=
  early_alloc_byte (Z.to_nat EARLY_BITMAP_SIZE) s 0.

(** ** The free lists *)

Definition pmm_page_to_phys (s : pmm) (page : option Z) : Z :=
  match page_array s, page with
  | Some _, Some index => u64 (memory_start s + index * PAGE_SIZE)
  | _, _ => 0
  end.

Definition pmm_phys_to_page (s : pmm) (addr : Z) : option Z :=
  match page_array s with
  | None => None
  | Some _ =>
      if (addr <? memory_start s) || (memory_end s <=? addr) then None
      else Some (PHYS_TO_PFN (addr - memory_start s))
  end.

(** [*page], which must exist. *)
Definition page_at (s : pmm) (p : option Z) : outcome page :=
  of_option (pa ← page_array s; i ← p; pa !! i).
Definition set_page (s : pmm) (p : option Z) (pg : page) : outcome pmm :=
  match page_array s, p with
  | Some pa, Some i => Ok (with_page_array s (<[i := pg]> pa))
  | _, _ => Fault
  end.

Definition buddy_address (addr order : Z) : Z :=
  Z.lxor addr (u64 (Z.shiftl PAGE_SIZE order)).

Definition buddy_add_to_list (s : pmm) (addr order : Z) : outcome pmm :=
  let page := pmm_phys_to_page s addr in
  _ ← page_at s page;
  s ← set_page s page (Page PAGE_FLAG_FREE order (free_lists s !! order));
  i ← of_option page;
  Ok (with_free_lists s (<[order := i]> (free_lists s))).

Definition buddy_remove_from_list (s : pmm) (order : Z) : outcome (Z * pmm) :=
  match free_lists s !! order with
  | None => Ok (0, s)
  | Some i =>
      pg ← page_at s (Some i);
      let s := with_free_lists s (partial_alter (fun _ => pg_next pg) order (free_lists s)) in
      s ← set_page s (Some i) (Page PAGE_FLAG_USED (pg_order pg) None);
      Ok (pmm_page_to_phys s (Some i), s)
  end.

(** ** Public operations *)

Definition pmm_set_memory_range (s : pmm) (base size : Z) : pmm :=
  if (base =? 0) || (size =? 0) then s
  else
    let size := if PMM_MAX_MEMORY_SIZE <? size then PMM_MAX_MEMORY_SIZE else size in
    Pmm (free_lists s) (page_array s) (total_pages s) (free_pages_count s) (total_memory s)
      (memory_start s) (memory_end s) (early_bitmap s) (early_mode s) base size.

(** The loop that reserves the kernel image. *)
Fixpoint reserve_range (fuel : nat) (s : pmm) (addr stop : Z) : outcome pmm :=
  match fuel with
  | O => NoFuel
  | S fuel =>
      if addr <? stop
      then reserve_range fuel (early_mark_used s addr) (u64 (addr + PAGE_SIZE)) stop
      else Ok s
  end.

(** The loop that counts free pages. *)
Fixpoint count_free (fuel : nat) (s : pmm) (i n : Z) : Z :=
  match fuel with
  | O => n
  | S fuel =>
      if (i <? total_pages s) && (i <? EARLY_BITMAP_SIZE * 8)
      then count_free fuel s (i + 1)
             (if Z.land (bitmap_byte s (i / 8)) (Z.shiftl 1 (i mod 8)) =? 0 then n + 1 else n)
      else n
  end.

Definition pmm_init (s : pmm) (kernel_start kernel_end : Z) : outcome pmm :=
  let base := configured_memory_base s in
  let size := configured_memory_size s in
  let s := Pmm ∅ (page_array s) (size / PAGE_SIZE) (free_pages_count s) size base
             (u64 (base + size)) (early_bitmap s) (early_mode s) base size in
  let first := PAGE_ALIGN_DOWN kernel_start in
  let stop := PAGE_ALIGN kernel_end in
  s ← reserve_range (S (Z.to_nat ((stop - first) / PAGE_SIZE))) s first stop;
  Ok (with_free_count s (count_free (Z.to_nat (EARLY_BITMAP_SIZE * 8)) s 0 0)).

(** [early_mark_used] / [early_mark_free] of [count] pages from [addr]. *)
Fixpoint mark_used_run (count : nat) (s : pmm) (addr : Z) : pmm :=
  match count with
  | O => s
  | S count => mark_used_run count (early_mark_used s addr) (u64 (addr + PAGE_SIZE))
  end.
Fixpoint mark_free_run (count : nat) (s : pmm) (addr : Z) : pmm :=
  match count with
  | O => s
  | S count => mark_free_run count (early_mark_free s addr) (u64 (addr + PAGE_SIZE))
  end.

(** The first-fit scan of [pmm_alloc_pages]. *)
Fixpoint early_scan (fuel : nat) (s : pmm) (count addr start found : Z) : outcome (Z * pmm) :=
  match fuel with
  | O => NoFuel
  | S fuel =>
      if addr <? memory_end s then
        if early_is_free s addr then
          let start := if found =? 0 then addr else start in
          let found := found + 1 in
          if found =? count
          then Ok (start, with_free_count (mark_used_run (Z.to_nat count) s start)
                            (u64 (free_pages_count s - count)))
          else early_scan fuel s count (u64 (addr + PAGE_SIZE)) start found
        else early_scan fuel s count (u64 (addr + PAGE_SIZE)) start 0
      else Ok (0, s)
  end.

(** [while (o > order)]: give the upper halves back; the fuel is [o - order]. *)
Fixpoint buddy_split (fuel : nat) (s : pmm) (addr o order : Z) : outcome pmm :=
  match fuel with
  | O => Ok s
  | S fuel =>
      if order <? o then
        s ← buddy_add_to_list s (buddy_address addr (o - 1)) (o - 1);
        buddy_split fuel s addr (o - 1) order
      else Ok s
  end.

(** [for (o = order; o <= MAX_ORDER; o++)]; the fuel is [MAX_ORDER + 1 - o]. *)
Fixpoint buddy_alloc (fuel : nat) (s : pmm) (o order : Z) : outcome (Z * pmm) :=
  match fuel with
  | O => Ok (0, s)
  | S fuel =>
      r ← buddy_remove_from_list s o;
      let '(addr, s) := r in
      if negb (addr =? 0) then
        s ← buddy_split (Z.to_nat (o - order)) s addr o order;
        Ok (addr, with_free_count s (u64 (free_pages_count s - order_to_pages order)))
      else buddy_alloc fuel s (o + 1) order
  end.

Definition pmm_alloc_pages (s : pmm) (order : Z) : outcome (Z * pmm) :=
  if MAX_ORDER <? order then Ok (0, s)
  else if early_mode s then
    early_scan (Z.to_nat ((memory_end s - memory_start s) / PAGE_SIZE) + 2)
      s (order_to_pages order) (memory_start s) 0 0
  else buddy_alloc (Z.to_nat (MAX_ORDER + 1 - order)) s order order.

Definition pmm_alloc_page (s : pmm) : outcome (Z * pmm) := pmm_alloc_pages s 0.

(** The coalescing loop; the fuel is [MAX_ORDER - order]. *)
Fixpoint buddy_merge (fuel : nat) (s : pmm) (addr order : Z) : outcome (Z * Z) :=
  match fuel with
  | O => Ok (addr, order)
  | S fuel =>
      let buddy := buddy_address addr order in
      match pmm_phys_to_page s buddy with
      | None => Ok (addr, order)
      | Some i =>
          pg ← page_at s (Some i);
          if (pg_flags pg =? PAGE_FLAG_FREE) && (pg_order pg =? order)
          then buddy_merge fuel s (if buddy <? addr then buddy else addr) (order + 1)
          else Ok (addr, order)
      end
  end.

Definition pmm_free_pages (s : pmm) (addr order : Z) : outcome pmm :=
  if (addr =? 0) || (MAX_ORDER <? order) then Ok s
  else if early_mode s then
    let count := order_to_pages order in
    let s := mark_free_run (Z.to_nat count) s addr in
    Ok (with_free_count s (u64 (free_pages_count s + count)))
  else
    r ← buddy_merge (Z.to_nat (MAX_ORDER - order)) s addr order;
    let '(addr, order) := r in
    s ← buddy_add_to_list s addr order;
    Ok (with_free_count s (u64 (free_pages_count s + order_to_pages order))).

Definition pmm_free_page (s : pmm) (addr : Z) : outcome pmm := pmm_free_pages s addr 0.

Definition pmm_get_free_memory (s : pmm) : Z := u64 (free_pages_count s * PAGE_SIZE).
Definition pmm_get_total_memory (s : pmm) : Z := total_memory s.
