(* ===== verification/PmmSpec.v ===== *)
(** * The physical page allocator: the bitmap as a set of used pages

    In early mode the allocator implements a first-fit allocator of page runs
    over an abstract set of used pages, and [free_pages_count] is the number of
    pages that are not in it. *)
From S2P Require Import Prelude AllocSpec Pmm.
#[local] Open Scope Z_scope.

(** Page [p] (counted from [memory_start]) is marked used. *)
Definition used (s : pmm) (p : Z) : bool := Z.testbit (bitmap_byte s (p / 8)) (p mod 8).

(** How many of the pages [0 .. n-1] are not in [f]. *)
Fixpoint nfree (f : Z -> bool) (n : nat) : Z :=
  match n with
  | O => 0
  | S n => nfree f n + (if f (Z.of_nat n) then 0 else 1)
  end.

(** The memory is [N] whole pages, the bitmap covers them and the count is right. *)
Record pmm_inv (s : pmm) (N : Z) : Prop := {
  inv_mode : early_mode s = true;
  inv_start : 0 < memory_start s;
  inv_pages : 0 <= N <= EARLY_BITMAP_SIZE * 8;
  inv_end : memory_end s = memory_start s + N * PAGE_SIZE;
  inv_top : memory_end s + PAGE_SIZE <= 2 ^ 64;
  inv_total : total_pages s = N;
  inv_count : free_pages_count s = nfree (used s) (Z.to_nat N)
}.

(** The pages [p .. p+n-1] exist and are free. *)
Definition free_run (s : pmm) (N p n : Z) : Prop :=
  0 <= p /\ p + n <= N /\ forall q, p <= q < p + n -> used s q = false.

(** ** Counting *)

Lemma nfree_ext f g n : (forall q, 0 <= q < Z.of_nat n -> f q = g q) -> nfree f n = nfree g n.
Proof.
  induction n as [|n IH]; intros H; [done|]. simpl. rewrite IH by (intros; apply H; lia).
  by rewrite H by lia.
Qed.

Lemma nfree_bounds f n : 0 <= nfree f n <= Z.of_nat n.
Proof. induction n as [|n IH]; [done|]. cbn [nfree]. destruct (f _); lia. Qed.

Lemma nfree_clip f g p k n :
  0 <= p -> 0 <= k -> (forall q, p <= q < p + k -> f q = false) ->
  (forall q, 0 <= q -> g q = ((p <=? q) && (q <? p + k)) || f q) ->
  nfree g n = nfree f n - Z.max 0 (Z.min (Z.of_nat n) (p + k) - p).
Proof.
  intros Hp Hk Hf Hg. induction n as [|n IH]; [simpl; lia|]. cbn [nfree]. rewrite IH, Hg by lia.
  destruct (Z.leb_spec p (Z.of_nat n)), (Z.ltb_spec (Z.of_nat n) (p + k)); simpl;
    [rewrite (Hf (Z.of_nat n)) by lia | ..]; destruct (f (Z.of_nat n)); lia.
Qed.

(** Marking a free run of [k] pages leaves [k] fewer free pages. *)
Lemma nfree_run f g p k n :
  0 <= p -> 0 <= k -> p + k <= Z.of_nat n -> (forall q, p <= q < p + k -> f q = false) ->
  (forall q, 0 <= q -> g q = ((p <=? q) && (q <? p + k)) || f q) ->
  nfree g n = nfree f n - k.
Proof. intros. rewrite (nfree_clip f g p k); [lia | done..]. Qed.

(** ** Bits and pages *)

Lemma testbit_u8 b i : 0 <= i < 8 -> Z.testbit (u8 b) i = Z.testbit b i.
Proof. intros. unfold u8. apply Z.mod_pow2_bits_low. lia. Qed.

Lemma used_set_byte s i b p : 0 <= p ->
  used (set_bitmap_byte s i b) p =
  if decide (p / 8 = i) then Z.testbit b (p mod 8) else used s p.
Proof.
  intros Hp. unfold used, set_bitmap_byte, bitmap_byte. simpl. case_decide as E.
  - rewrite E, lookup_insert_eq. simpl. apply testbit_u8. lia_mod.
  - by rewrite lookup_insert_ne by done.
Qed.

(** The address of page [p]. *)
Definition page_addr (s : pmm) (p : Z) : Z := memory_start s + p * PAGE_SIZE.

Definition in_range (s : pmm) (p : Z) : Prop :=
  0 <= memory_start s /\ 0 <= p < EARLY_BITMAP_SIZE * 8 /\ page_addr s p < 2 ^ 64.

Lemma page_pfn s p : in_range s p -> PHYS_TO_PFN (u64 (page_addr s p - memory_start s)) = p.
Proof.
  unfold in_range, page_addr. intros (? & ? & ?). rewrite PHYS_TO_PFN_spec.
  change (EARLY_BITMAP_SIZE * 8) with 1048576 in *. unfold PAGE_SIZE in *.
  rewrite u64_small by lia. lia_mod.
Qed.

Lemma early_is_free_spec s p : in_range s p -> early_is_free s (page_addr s p) = negb (used s p).
Proof.
  intros H. unfold early_is_free. rewrite page_pfn by done. destruct H as (_ & H & _).
  rewrite (proj2 (Z.leb_gt _ _)) by lia. rewrite land_bit by lia_mod. done.
Qed.

(** Two states that differ in the bitmap alone. *)
Definition bitmap_only (s s' : pmm) : Prop := exists b, s' = with_bitmap s b.

Lemma bitmap_only_refl s : bitmap_only s s.
Proof. exists (early_bitmap s). by destruct s. Qed.

Lemma bitmap_only_trans s1 s2 s3 : bitmap_only s1 s2 -> bitmap_only s2 s3 -> bitmap_only s1 s3.
Proof. intros [b ->] [c ->]. by exists c. Qed.

Lemma div_mod_8_eqb p q : (p =? q) = bool_decide (p / 8 = q / 8) && (p mod 8 =? q mod 8).
Proof.
  destruct (Z.eqb_spec p q) as [->|Hne]; [by rewrite bool_decide_true, Z.eqb_refl|].
  case_bool_decide as E; [|done]. symmetry. apply Z.eqb_neq. simpl.
  intros Em. apply Hne. rewrite (Z.div_mod p 8), (Z.div_mod q 8) by lia. lia.
Qed.

Lemma early_mark_used_spec s p : in_range s p ->
  bitmap_only s (early_mark_used s (page_addr s p)) /\
  forall q, 0 <= q -> used (early_mark_used s (page_addr s p)) q = (q =? p) || used s q.
Proof.
  intros H. unfold early_mark_used. rewrite page_pfn by done. destruct H as (_ & H & _).
  rewrite (proj2 (Z.ltb_lt _ _)) by lia. split; [eexists; done|]. intros q Hq.
  rewrite used_set_byte, div_mod_8_eqb by done. case_decide as E.
  - rewrite bool_decide_true, testbit_set by lia_mod. simpl. unfold used. by rewrite E.
  - by rewrite bool_decide_false.
Qed.

Lemma early_mark_free_spec s p : in_range s p ->
  bitmap_only s (early_mark_free s (page_addr s p)) /\
  forall q, 0 <= q -> used (early_mark_free s (page_addr s p)) q = negb (q =? p) && used s q.
Proof.
  intros H. unfold early_mark_free. rewrite page_pfn by done. destruct H as (_ & H & _).
  rewrite (proj2 (Z.ltb_lt _ _)) by lia. split; [eexists; done|]. intros q Hq.
  rewrite used_set_byte, div_mod_8_eqb by done. case_decide as E.
  - rewrite bool_decide_true, testbit_clear by lia_mod. simpl. unfold used. by rewrite E.
  - by rewrite bool_decide_false.
Qed.

(** The hypothesis of a run of [n] pages from [p] that the bitmap covers. *)
Definition run_in_range (s : pmm) (p : Z) (n : nat) : Prop :=
  0 <= memory_start s /\ 0 <= p /\ p + Z.of_nat n <= EARLY_BITMAP_SIZE * 8 /\
  page_addr s (p + Z.of_nat n) < 2 ^ 64.

Lemma page_addr_bitmap s s' p : bitmap_only s s' -> page_addr s' p = page_addr s p.
Proof. by intros [b ->]. Qed.

Lemma run_in_range_next s s' p n : bitmap_only s s' -> run_in_range s p (S n) ->
  in_range s p /\ run_in_range s' (p + 1) n /\ u64 (page_addr s p + PAGE_SIZE) = page_addr s' (p + 1).
Proof.
  intros [b ->] (? & ? & ? & Ht). unfold run_in_range, in_range, page_addr in *. simpl in *.
  unfold PAGE_SIZE in *. rewrite u64_small by lia. repeat split; lia.
Qed.

Lemma mark_used_run_spec n : forall s p, run_in_range s p n ->
  bitmap_only s (mark_used_run n s (page_addr s p)) /\
  forall q, 0 <= q -> used (mark_used_run n s (page_addr s p)) q =
    ((p <=? q) && (q <? p + Z.of_nat n)) || used s q.
Proof.
  induction n as [|n IH]; intros s p H.
  - split; [apply bitmap_only_refl|]. intros q Hq. simpl.
    destruct (Z.leb_spec p q), (Z.ltb_spec q (p + Z.of_nat 0)); simpl; done || lia.
  - simpl. destruct (run_in_range_next s _ p n (bitmap_only_refl s) H) as (Hr & _ & _).
    destruct (early_mark_used_spec s p Hr) as [Hb Hu].
    destruct (run_in_range_next s _ p n Hb H) as (_ & Hn & ->).
    destruct (IH _ _ Hn) as [Hb' Hu']. split; [by eapply bitmap_only_trans|].
    intros q Hq. rewrite Hu', Hu by done.
    destruct (Z.leb_spec (p + 1) q), (Z.leb_spec p q), (Z.eqb_spec q p),
      (Z.ltb_spec q (p + 1 + Z.of_nat n)), (Z.ltb_spec q (p + Z.of_nat (S n)));
      simpl; done || lia.
Qed.

Lemma mark_free_run_spec n : forall s p, run_in_range s p n ->
  bitmap_only s (mark_free_run n s (page_addr s p)) /\
  forall q, 0 <= q -> used (mark_free_run n s (page_addr s p)) q =
    negb ((p <=? q) && (q <? p + Z.of_nat n)) && used s q.
Proof.
  induction n as [|n IH]; intros s p H.
  - split; [apply bitmap_only_refl|]. intros q Hq. simpl.
    destruct (Z.leb_spec p q), (Z.ltb_spec q (p + Z.of_nat 0)); simpl; done || lia.
  - simpl. destruct (run_in_range_next s _ p n (bitmap_only_refl s) H) as (Hr & _ & _).
    destruct (early_mark_free_spec s p Hr) as [Hb Hu].
    destruct (run_in_range_next s _ p n Hb H) as (_ & Hn & ->).
    destruct (IH _ _ Hn) as [Hb' Hu']. split; [by eapply bitmap_only_trans|].
    intros q Hq. rewrite Hu', Hu by done.
    destruct (Z.leb_spec (p + 1) q), (Z.leb_spec p q), (Z.eqb_spec q p),
      (Z.ltb_spec q (p + 1 + Z.of_nat n)), (Z.ltb_spec q (p + Z.of_nat (S n)));
      simpl; done || lia.
Qed.

(** ** The first-fit scan *)

Lemma used_count s n p : used (with_free_count s n) p = used s p.
Proof. done. Qed.

Lemma inv_in_range s N p : pmm_inv s N -> 0 <= p < N -> in_range s p.
Proof.
  intros [_ ? ? He ? _ _] Hp. unfold in_range, page_addr. unfold PAGE_SIZE in *. lia.
Qed.

Lemma inv_run_in_range s N p n : pmm_inv s N -> 0 <= p -> p + Z.of_nat n <= N -> run_in_range s p n.
Proof.
  intros [_ ? ? He ? _ _] Hp Hn. unfold run_in_range, page_addr. unfold PAGE_SIZE in *. lia.
Qed.

(** A change of the bitmap and of the counter that agree keeps the invariant. *)
Lemma inv_of_bitmap s s1 N n : pmm_inv s N -> bitmap_only s s1 ->
  n = nfree (used s1) (Z.to_nat N) -> pmm_inv (with_free_count s1 n) N.
Proof. intros [] [b ->] ->. by split. Qed.

(** The state after the pages [p .. p+n-1] have been taken. *)
Lemma take_run s N p n :
  pmm_inv s N -> free_run s N p n -> 0 < n ->
  let s' := with_free_count (mark_used_run (Z.to_nat n) s (page_addr s p))
              (u64 (free_pages_count s - n)) in
  pmm_inv s' N /\ page_addr s' = page_addr s /\
  free_pages_count s' = free_pages_count s - n /\
  forall q, 0 <= q -> used s' q = ((p <=? q) && (q <? p + n)) || used s q.
Proof.
  intros I (Hp & Hn & Hf) Hpos.
  destruct (mark_used_run_spec (Z.to_nat n) s p) as [[b Hb] Hu];
    [by eapply inv_run_in_range; [done | | lia]|].
  rewrite Z2Nat.id in Hu by lia. cbv zeta.
  pose proof (nfree_run (used s) _ p n (Z.to_nat N) Hp ltac:(lia) ltac:(lia) Hf Hu) as Hc.
  destruct I as [? ? Hr ? ? ? Hcount]. change (EARLY_BITMAP_SIZE * 8) with 1048576 in *.
  pose proof (nfree_bounds (used (mark_used_run (Z.to_nat n) s (page_addr s p))) (Z.to_nat N)).
  pose proof (nfree_bounds (used s) (Z.to_nat N)).
  assert (u64 (free_pages_count s - n) = free_pages_count s - n) as Hw by (apply u64_small; lia).
  rewrite Hw. set (s1 := mark_used_run _ _ _) in *. split; [|by rewrite Hb in *].
  apply inv_of_bitmap with s; [done | by exists b | lia].
Qed.

Lemma early_scan_spec s N count start fuel : forall i f,
  pmm_inv s N -> 0 < count -> 0 <= i <= N -> 0 <= f < count -> f <= i ->
  (f <> 0 -> start = page_addr s (i - f)) ->
  (forall q, i - f <= q < i -> used s q = false) ->
  (forall p, 0 <= p < i - f -> ~ free_run s N p count) ->
  N - i < Z.of_nat fuel ->
  (early_scan fuel s count (page_addr s i) start f = Ok (0, s) /\
   forall p, ~ free_run s N p count) \/
  (exists p, free_run s N p count /\ (forall p', p' < p -> ~ free_run s N p' count) /\
   early_scan fuel s count (page_addr s i) start f =
     Ok (page_addr s p, with_free_count (mark_used_run (Z.to_nat count) s (page_addr s p))
                          (u64 (free_pages_count s - count)))).
Proof.
  revert start. induction fuel as [|fuel IH]; intros start i f I Hc Hi Hf Hfi Hst Hrun Hno Hfuel;
    [lia|].
  pose proof I as [_ Hms HN He Ht _ _]. simpl.
  assert (forall p, p < 0 -> ~ free_run s N p count) as Hneg by (intros p Hp (? & _ & _); lia).
  destruct (Z.ltb_spec (page_addr s i) (memory_end s)) as [Hlt|Hge].
  - assert (i < N) as HiN by (unfold page_addr in *; unfold PAGE_SIZE in *; lia).
    pose proof (inv_in_range s N i I ltac:(lia)) as Hir. rewrite early_is_free_spec by done.
    assert (u64 (page_addr s i + PAGE_SIZE) = page_addr s (i + 1)) as ->.
    { unfold page_addr in *. unfold PAGE_SIZE in *. rewrite u64_small; lia. }
    destruct (used s i) eqn:Ei; simpl.
    + apply IH; try done; try lia.
      intros p Hp Hfr. destruct (decide (p < i - f)); [apply (Hno p); [lia|done]|].
      destruct Hfr as (_ & _ & Hq). rewrite Hq in Ei; [done|lia].
    + set (st := if f =? 0 then page_addr s i else start).
      assert (st = page_addr s (i - f)) as Est.
      { unfold st. destruct (Z.eqb_spec f 0) as [->|]; [by rewrite Z.sub_0_r | auto]. }
      destruct (Z.eqb_spec (f + 1) count) as [Heq|Hne].
      * right. exists (i - f). rewrite Est. split; [|split; [|done]].
        -- split; [lia|]. split; [lia|]. intros q Hq.
           destruct (decide (q = i)) as [->|]; [done | apply Hrun; lia].
        -- intros p' Hp'. destruct (decide (p' < 0)); [auto | apply Hno; lia].
      * apply IH; try done; try lia.
        -- intros _. by replace (i + 1 - (f + 1)) with (i - f) by lia.
        -- intros q Hq. destruct (decide (q = i)) as [->|]; [done | apply Hrun; lia].
        -- intros p Hp. apply Hno. lia.
  - left. split; [done|]. intros p Hfr. pose proof Hfr as (H0 & H1 & _).
    assert (N <= i) by (unfold page_addr in *; unfold PAGE_SIZE in *; lia).
    destruct (decide (p < i - f)); [by apply (Hno p); [lia|]|lia].
Qed.

Lemma order_to_pages_pow order : 0 <= order <= MAX_ORDER ->
  order_to_pages order = 2 ^ order /\ 0 < 2 ^ order <= 2048.
Proof.
  unfold MAX_ORDER. intros H. unfold order_to_pages. rewrite Z.shiftl_1_l.
  pose proof (Z.pow_pos_nonneg 2 order ltac:(lia) ltac:(lia)).
  pose proof (Z.pow_le_mono_r 2 order 11 ltac:(lia) ltac:(lia)).
  rewrite u64_small; lia.
Qed.

(** Both outcomes of an allocation in early mode. *)
Lemma pmm_alloc_cases s N order : pmm_inv s N -> 0 <= order <= MAX_ORDER ->
  (pmm_alloc_pages s order = Ok (0, s) /\ forall p, ~ free_run s N p (2 ^ order)) \/
  (exists p, free_run s N p (2 ^ order) /\ (forall p', p' < p -> ~ free_run s N p' (2 ^ order)) /\
   pmm_alloc_pages s order =
     Ok (page_addr s p, with_free_count (mark_used_run (Z.to_nat (2 ^ order)) s (page_addr s p))
                          (u64 (free_pages_count s - 2 ^ order)))).
Proof.
  intros I Ho. destruct (order_to_pages_pow order Ho) as [E Hpos].
  unfold pmm_alloc_pages. rewrite (proj2 (Z.ltb_ge _ _)) by lia. rewrite (inv_mode _ _ I), E.
  pose proof I as [_ Hms HN He Ht _ _].
  assert (memory_start s = page_addr s 0) as Ea by (unfold page_addr; lia).
  set (fuel := (Z.to_nat _ + 2)%nat). rewrite Ea. apply early_scan_spec; try done; try lia.
  unfold fuel. rewrite He. replace (memory_start s + N * PAGE_SIZE - memory_start s) with (N * PAGE_SIZE) by lia.
  rewrite Z.div_mul by done. lia.
Qed.

(** ** Initialisation *)

Lemma reserve_range_spec n : forall s p, run_in_range s p n ->
  reserve_range (S n) s (page_addr s p) (page_addr s (p + Z.of_nat n)) =
  Ok (mark_used_run n s (page_addr s p)).
Proof.
  induction n as [|n IH]; intros s p H.
  - simpl. rewrite Z.add_0_r, Z.ltb_irrefl. done.
  - cbn [reserve_range mark_used_run]. rewrite (proj2 (Z.ltb_lt _ _));
      [|unfold page_addr, PAGE_SIZE; lia].
    destruct (run_in_range_next s _ p n (bitmap_only_refl s) H) as (Hr & _ & _).
    destruct (early_mark_used_spec s p Hr) as [Hb _].
    destruct (run_in_range_next s _ p n Hb H) as (_ & Hn & ->).
    rewrite <- (IH _ _ Hn). rewrite !(page_addr_bitmap s _ _ Hb).
    cbn [reserve_range]. by replace (p + 1 + Z.of_nat n) with (p + Z.of_nat (S n)) by lia.
Qed.

Lemma count_free_spec fuel : forall s i n,
  0 <= i <= total_pages s -> total_pages s <= EARLY_BITMAP_SIZE * 8 ->
  total_pages s - i <= Z.of_nat fuel ->
  count_free fuel s i n =
  n + (nfree (used s) (Z.to_nat (total_pages s)) - nfree (used s) (Z.to_nat i)).
Proof.
  induction fuel as [|fuel IH]; intros s i n Hi Ht Hf; cbn [count_free].
  - replace i with (total_pages s) by lia. lia.
  - destruct (Z.ltb_spec i (total_pages s)).
    + rewrite (proj2 (Z.ltb_lt _ _)) by lia. simpl. rewrite IH by lia.
      replace (Z.to_nat (i + 1)) with (S (Z.to_nat i)) by lia. cbn [nfree].
      rewrite Z2Nat.id by lia. rewrite land_bit by lia_mod. fold (used s i).
      destruct (used s i); simpl; lia.
    + replace i with (total_pages s) by lia. simpl. lia.
Qed.

(** What the kernel image must satisfy: it lies in the configured memory. *)
Definition boot_config (s : pmm) (kernel_start kernel_end N : Z) : Prop :=
  let base := configured_memory_base s in
  early_mode s = true /\ early_bitmap s = ∅ /\ 0 < base /\ base mod PAGE_SIZE = 0 /\
  configured_memory_size s = N * PAGE_SIZE /\ 0 <= N <= EARLY_BITMAP_SIZE * 8 /\
  base + (N + 1) * PAGE_SIZE < 2 ^ 64 /\
  base <= kernel_start <= kernel_end /\ kernel_end <= base + N * PAGE_SIZE.

Lemma used_empty s q : early_bitmap s = ∅ -> used s q = false.
Proof. intros E. unfold used, bitmap_byte. rewrite E, lookup_empty. apply Z.testbit_0_l. Qed.

(** A free call always clears the run and adds to the counter. *)
Lemma pmm_free_effect s N p order :
  pmm_inv s N -> 0 <= order <= MAX_ORDER -> 0 <= p -> p + 2 ^ order <= N ->
  exists s', bitmap_only s s' /\
    pmm_free_pages s (page_addr s p) order =
      Ok (with_free_count s' (free_pages_count s + 2 ^ order)) /\
    forall q, 0 <= q -> used s' q = negb ((p <=? q) && (q <? p + 2 ^ order)) && used s q.
Proof.
  intros I Ho Hp Hn. destruct (order_to_pages_pow order Ho) as [E Hpos].
  unfold pmm_free_pages. pose proof I as [Hmode Hms HN He Ht Htot Hcount].
  rewrite (proj2 (Z.eqb_neq _ _)) by (unfold page_addr; unfold PAGE_SIZE; lia).
  rewrite (proj2 (Z.ltb_ge _ _)) by lia. rewrite Hmode, E. cbv zeta. simpl.
  destruct (mark_free_run_spec (Z.to_nat (2 ^ order)) s p) as [[b Hb] Hu];
    [by eapply inv_run_in_range; [done | | lia]|].
  rewrite Z2Nat.id in Hu by lia. eexists. split; [by exists b|]. split; [|exact Hu].
  f_equal. f_equal. rewrite Hb. simpl.
  change (EARLY_BITMAP_SIZE * 8) with 1048576 in *.
  pose proof (nfree_bounds (used s) (Z.to_nat N)). apply u64_small. lia.
Qed.

(** [pmm_alloc_pages] returns the lowest run of [2^order] free pages, marks
    exactly those pages used and lowers the free count by as much; it returns 0,
    changing nothing, exactly when there is no such run.  Either way the bitmap
    and the counter stay consistent. *)
Theorem pmm_alloc_first_fit (s : pmm) (N order : Z) :
  pmm_inv s N -> 0 <= order <= MAX_ORDER ->
  exists r s', pmm_alloc_pages s order = Ok (r, s') /\ pmm_inv s' N /\
    ((r = 0 /\ s' = s /\ forall p, ~ free_run s N p (2 ^ order)) \/
     (exists p, r = page_addr s p /\ r <> 0 /\ free_run s N p (2 ^ order) /\
        (forall p', p' < p -> ~ free_run s N p' (2 ^ order)) /\
        free_pages_count s' = free_pages_count s - 2 ^ order /\
        forall q, 0 <= q -> used s' q = ((p <=? q) && (q <? p + 2 ^ order)) || used s q)).
Proof.
  intros I Ho. destruct (order_to_pages_pow order Ho) as [_ Hpos].
  destruct (pmm_alloc_cases s N order I Ho) as [[-> Hno] | (p & Hf & Hmin & ->)].
  - exists 0, s. eauto 10.
  - destruct (take_run s N p _ I Hf ltac:(lia)) as (I' & _ & Hc & Hu).
    eexists _, _. split; [done|]. split; [done|]. right. exists p. split; [done|].
    split; [|done]. destruct I, Hf. unfold page_addr. unfold PAGE_SIZE. lia.
Qed.

(** Freeing a run of used pages clears exactly its bits, raises the counter
    by its length and keeps the invariant. *)
Theorem pmm_free_correct (s : pmm) (N p order : Z) :
  pmm_inv s N -> 0 <= order <= MAX_ORDER -> 0 <= p -> p + 2 ^ order <= N ->
  (forall q, p <= q < p + 2 ^ order -> used s q = true) ->
  exists s', pmm_free_pages s (page_addr s p) order = Ok s' /\ pmm_inv s' N /\
    free_pages_count s' = free_pages_count s + 2 ^ order /\
    free_run s' N p (2 ^ order) /\
    forall q, 0 <= q -> used s' q = negb ((p <=? q) && (q <? p + 2 ^ order)) && used s q.
Proof.
  intros I Ho Hp Hn Hused. destruct (order_to_pages_pow order Ho) as [_ Hpos].
  destruct (pmm_free_effect s N p order I Ho Hp Hn) as (s1 & Hb & -> & Hu).
  assert (nfree (used s) (Z.to_nat N) = nfree (used s1) (Z.to_nat N) - 2 ^ order) as Hc.
  { pose proof (inv_pages _ _ I). apply nfree_run with p; try lia; intros q Hq; rewrite Hu by lia.
    - by rewrite (proj2 (Z.leb_le _ _)), (proj2 (Z.ltb_lt _ _)) by lia.
    - destruct (Z.leb_spec p q), (Z.ltb_spec q (p + 2 ^ order)); simpl; try done. apply Hused. lia. }
  eexists. split; [done|]. split; [|split; [done|split; [|done]]].
  - apply inv_of_bitmap with s; [done..|]. rewrite (inv_count _ _ I). lia.
  - split; [done|]. split; [done|]. intros q Hq. rewrite used_count, Hu by lia.
    by rewrite (proj2 (Z.leb_le _ _)), (proj2 (Z.ltb_lt _ _)) by lia.
Qed.

(** [pmm_init] establishes the invariant, with exactly the pages that the
    kernel image touches marked used. *)
Theorem pmm_init_correct (s : pmm) (kernel_start kernel_end N : Z) :
  boot_config s kernel_start kernel_end N ->
  exists s', pmm_init s kernel_start kernel_end = Ok s' /\ pmm_inv s' N /\
    memory_start s' = configured_memory_base s /\
    forall q, 0 <= q -> used s' q =
      (PAGE_ALIGN_DOWN kernel_start <=? page_addr s' q) && (page_addr s' q <? PAGE_ALIGN kernel_end).
Proof.
  unfold boot_config. intros (Hm & Hb & Hpos & Hal & Hsz & HN & Htop & Hks & Hke).
  unfold pmm_init. cbv zeta. rewrite Hm, Hb, Hsz.
  set (base := configured_memory_base s) in *.
  unfold PAGE_SIZE in *.
  rewrite PAGE_ALIGN_DOWN_spec, PAGE_ALIGN_spec by (unfold PAGE_SIZE; lia). unfold PAGE_SIZE.
  set (first := kernel_start - kernel_start mod 4096).
  set (stop := (kernel_end + 4095) / 4096 * 4096).
  set (s1 := Pmm _ _ _ _ _ _ _ _ _ _ _).
  set (p := (first - base) / 4096). set (k := Z.to_nat ((stop - first) / 4096)).
  assert (base <= first /\ first <= stop /\ stop <= base + N * 4096 /\
          first mod 4096 = 0 /\ stop mod 4096 = 0) as (? & ? & ? & ? & ?).
  { unfold first, stop. lia_mod. }
  assert (first = page_addr s1 p) as Ef.
  { unfold page_addr, p, PAGE_SIZE. subst s1. simpl. clear -Hal H2. lia_mod. }
  assert (stop = page_addr s1 (p + Z.of_nat k)) as Es.
  { unfold page_addr, p, k, PAGE_SIZE. subst s1. simpl.
    rewrite Z2Nat.id by (apply Z.div_pos; lia). clear -Hal H2 H3. lia_mod. }
  rewrite Ef, Es. assert (0 <= p) as Hp by (apply Z.div_pos; lia).
  assert (run_in_range s1 p k) as Hr.
  { unfold run_in_range. rewrite <- Es. change (memory_start s1) with base.
    change (EARLY_BITMAP_SIZE * 8) with 1048576 in *.
    unfold page_addr, PAGE_SIZE in Es. change (memory_start s1) with base in Es. lia. }
  rewrite reserve_range_spec by done. rewrite bind_ok.
  destruct (mark_used_run_spec k s1 p Hr) as [[b Hb'] Hu].
  set (s2 := mark_used_run k s1 (page_addr s1 p)) in *.
  assert (total_pages s2 = N) as Ht by (rewrite Hb'; simpl; by rewrite Z.div_mul).
  eexists. split; [done|]. rewrite count_free_spec by (rewrite ?Ht; cbn; lia).
  rewrite Ht. split; [|split; [by rewrite Hb'|]].
  - split; rewrite ?used_count; cbn; rewrite ?Hb'; cbn; try done; try lia.
    + rewrite u64_small by lia. done.
    + rewrite u64_small by lia. unfold PAGE_SIZE. lia.
    + by rewrite Z.div_mul.
    + unfold s2 in Hb'. rewrite <- Hb'. rewrite Z.sub_0_r. done.
  - intros q Hq. rewrite used_count, Hu, (used_empty s1), orb_false_r by done.
    change (page_addr (with_free_count s2 ?n) q) with (page_addr s2 q).
    rewrite !(page_addr_bitmap s1 s2) by by exists b.
    f_equal; apply eq_true_iff_eq; rewrite ?Z.leb_le, ?Z.ltb_lt;
      unfold page_addr, PAGE_SIZE; lia.
Qed.

(** Nothing checks that freed pages were in use: freeing a free run leaves
    the set of used pages as it is and still raises the counter, which from then
    on counts more pages than are free. *)
Theorem pmm_double_free (s : pmm) (N p order : Z) :
  pmm_inv s N -> 0 <= order <= MAX_ORDER -> free_run s N p (2 ^ order) ->
  exists s', pmm_free_pages s (page_addr s p) order = Ok s' /\
    (forall q, 0 <= q -> used s' q = used s q) /\
    free_pages_count s' = nfree (used s') (Z.to_nat N) + 2 ^ order.
Proof.
  intros I Ho (Hp & Hn & Hf).
  destruct (pmm_free_effect s N p order I Ho Hp Hn) as (s1 & Hb & -> & Hu).
  assert (forall q, 0 <= q -> used s1 q = used s q) as Hsame.
  { intros q Hq. rewrite Hu by done.
    destruct (Z.leb_spec p q), (Z.ltb_spec q (p + 2 ^ order)); simpl; try done.
    symmetry. apply Hf. lia. }
  eexists. split; [done|]. split; [done|]. cbn. rewrite (inv_count _ _ I).
  f_equal. apply nfree_ext. intros q Hq. symmetry. apply Hsame. lia.
Qed.

(** ** Witnesses *)

(** Sixteen pages at [MEMORY_BASE], the first three of them the kernel image. *)
Definition mini_boot : pmm := pmm_set_memory_range pmm_static MEMORY_BASE 0x10000.
Definition mini_pmm : pmm :=
  Pmm ∅ None 16 13 0x10000 MEMORY_BASE (MEMORY_BASE + 0x10000) {[ 0 := 7 ]} true MEMORY_BASE 0x10000.

Lemma mini_pmm_inv : pmm_inv mini_pmm 16.
Proof. split; vm_compute; try done; by split. Qed.

Lemma pmm_init_correct_witness :
  exists s', pmm_init mini_boot MEMORY_BASE (MEMORY_BASE + 0x2001) = Ok s' /\ pmm_inv s' 16.
Proof.
  destruct (pmm_init_correct mini_boot MEMORY_BASE (MEMORY_BASE + 0x2001) 16) as (s' & H & I & _).
  { vm_compute. repeat split; done. }
  by exists s'.
Defined.

Lemma pmm_alloc_first_fit_witness :
  exists s', pmm_alloc_pages mini_pmm 1 = Ok (MEMORY_BASE + 0x3000, s') /\ pmm_inv s' 16.
Proof.
  destruct (pmm_alloc_first_fit mini_pmm 16 1 mini_pmm_inv ltac:(by vm_compute))
    as (r & s' & H & I & _).
  exists s'. split; [|done]. rewrite H. f_equal. f_equal.
  apply (f_equal (fun o => match o with Ok (r, _) => r | _ => 0 end)) in H. by vm_compute in H.
Defined.

Lemma pmm_free_correct_witness :
  exists s', pmm_free_pages mini_pmm (page_addr mini_pmm 1) 1 = Ok s' /\
    free_pages_count s' = 15.
Proof.
  destruct (pmm_free_correct mini_pmm 16 1 1 mini_pmm_inv) as (s' & H & _ & Hc & _);
    [by vm_compute..| |].
  - intros q Hq. assert (q = 1 \/ q = 2) as [-> | ->] by (change (2 ^ 1) with 2 in Hq; lia); by vm_compute.
  - by exists s'.
Defined.

Lemma pmm_double_free_witness :
  exists s', pmm_free_pages mini_pmm (page_addr mini_pmm 4) 0 = Ok s' /\
    free_pages_count s' = nfree (used s') 16 + 1.
Proof.
  destruct (pmm_double_free mini_pmm 16 4 0 mini_pmm_inv) as (s' & H & _ & Hc); [by vm_compute| |].
  - split; [done|]. split; [done|]. intros q Hq. change (2 ^ 0) with 1 in Hq. assert (q = 4) as -> by lia. by vm_compute.
  - by exists s'.
Defined.

(** * The bitmap allocator keeps the page allocator's contract *)

(** A page of the managed range whose bit is set. *)
Definition pmm_live (s : pmm) (a : Z) : Prop :=
  exists p, 0 <= p < total_pages s /\ a = page_addr s p /\ used s p = true.

(** The invariant, for a page-aligned range below 2^48. *)
Definition pmm_pages_inv (s : pmm) : Prop :=
  pmm_inv s (total_pages s) /\ memory_start s mod PAGE_SIZE = 0 /\ memory_end s <= 2 ^ 48.

#[export] Instance pmm_allocator : PageAllocator pmm := {
  pa_alloc_page := pmm_alloc_page;
  pa_free_page := pmm_free_page;
  pa_total_memory := pmm_get_total_memory;
  pa_live := pmm_live;
  pa_inv := pmm_pages_inv
}.

Lemma page_addr_inj s p q : page_addr s p = page_addr s q -> p = q.
Proof. unfold page_addr, PAGE_SIZE. lia. Qed.

(** Operations that only change the bitmap and the counter. *)
Lemma pages_inv_keep s s1 n : pmm_pages_inv s -> bitmap_only s s1 ->
  pmm_inv (with_free_count s1 n) (total_pages s) -> pmm_pages_inv (with_free_count s1 n).
Proof. intros (_ & ? & ?) [b ->] I. by split. Qed.

Lemma live_page_frame s p : pmm_pages_inv s -> 0 <= p < total_pages s -> page_frame (page_addr s p).
Proof.
  intros ([_ ? ? He _ _ _] & Hal & Htop) Hp. unfold page_frame, page_addr in *.
  unfold PAGE_SIZE in *. split; [lia | lia_mod].
Qed.

#[export] Instance pmm_allocator_laws : PageAllocatorLaws pmm.
Proof.
  split.
  - intros s a I (p & Hp & -> & _). by apply live_page_frame.
  - intros s I. pose proof I as (Ip & _).
    destruct (pmm_alloc_cases s _ 0 Ip ltac:(unfold MAX_ORDER; lia)) as [[E _] | (p & Hf & _ & E)];
      [by left | right].
    cbn [pa_alloc_page pmm_allocator]. unfold pmm_alloc_page. rewrite E.
    change (2 ^ 0) with 1 in *. pose proof Hf as (Hp & Hn & Hfree).
    destruct (mark_used_run_spec (Z.to_nat 1) s p) as [Hb _];
      [by eapply inv_run_in_range; [done | | lia]|].
    destruct (take_run s _ p 1 Ip Hf ltac:(lia)) as (I' & Ha & _ & Hu).
    eexists _, _. split; [done|]. split; [by eapply pages_inv_keep|].
    split; [apply live_page_frame; [done|lia]|]. split.
    { intros (q & Hq & Eq%page_addr_inj & Hq'). subst q. rewrite Hfree in Hq'; [done|lia]. }
    intros b. cbn. unfold pmm_live. rewrite Ha. change (total_pages (with_free_count ?x _)) with (total_pages x).
    assert (total_pages (mark_used_run (Z.to_nat 1) s (page_addr s p)) = total_pages s) as ->
      by (by destruct Hb as [? ->]).
    split.
    + intros (q & Hq & -> & Hq'). rewrite Hu in Hq' by lia. destruct (decide (q = p)) as [->|Hne]; [by left|].
      right. exists q. split; [done|]. split; [done|].
      destruct (Z.leb_spec p q), (Z.ltb_spec q (p + 1)); simpl in Hq'; try done; lia.
    + intros [-> | (q & Hq & -> & Hq')].
      * exists p. split; [lia|]. split; [done|]. rewrite Hu by lia.
        by rewrite (proj2 (Z.leb_le _ _)), (proj2 (Z.ltb_lt _ _)) by lia.
      * exists q. split; [done|]. split; [done|]. rewrite Hu, Hq' by lia. apply orb_true_r.
  - intros s a I (p & Hp & -> & Hused). pose proof I as (Ip & _).
    cbn [pa_free_page pmm_allocator]. unfold pmm_free_page.
    destruct (pmm_free_effect s _ p 0 Ip ltac:(unfold MAX_ORDER; lia) ltac:(lia) ltac:(lia))
      as (s1 & Hb & -> & Hu).
    change (2 ^ 0) with 1 in *. pose proof Hb as [b0 Eb].
    assert (nfree (used s1) (Z.to_nat (total_pages s)) =
            nfree (used s) (Z.to_nat (total_pages s)) + 1) as Hc.
    { enough (nfree (used s) (Z.to_nat (total_pages s)) =
              nfree (used s1) (Z.to_nat (total_pages s)) - 1) by lia.
      apply nfree_run with p; try lia; intros q Hq; rewrite Hu by lia.
      - by rewrite (proj2 (Z.leb_le _ _)), (proj2 (Z.ltb_lt _ _)) by lia.
      - destruct (Z.leb_spec p q), (Z.ltb_spec q (p + 1)); simpl; try done.
        by replace q with p by lia. }
    eexists. split; [done|]. split.
    { eapply pages_inv_keep; [done..|]. apply inv_of_bitmap with s; [done..|].
      rewrite (inv_count _ _ Ip). lia. }
    intros b. cbn. unfold pmm_live.
    change (total_pages (with_free_count ?x _)) with (total_pages x).
    change (page_addr (with_free_count ?x _)) with (page_addr x).
    assert (total_pages s1 = total_pages s) as -> by by rewrite Eb.
    split.
    + intros (q & Hq & -> & Hq'). rewrite used_count, Hu in Hq' by lia. rewrite (page_addr_bitmap s s1) by done.
      split; [|exists q; split; [done|]; split; [done|]; by apply andb_true_iff in Hq' as [_ ?]].
      intros ->%page_addr_inj. by rewrite Z.leb_refl, (proj2 (Z.ltb_lt _ _)) in Hq' by lia.
    + intros [Hne (q & Hq & -> & Hq')]. exists q. split; [done|].
      rewrite (page_addr_bitmap s s1) by done. split; [done|]. rewrite used_count, Hu, Hq' by lia.
      assert (q <> p) by (by intros ->).
      destruct (Z.leb_spec p q), (Z.ltb_spec q (p + 1)); simpl; try done; lia.
Qed.
