(* ===== verification/Vmm.v ===== *)
(** * The virtual memory manager (src/kernel/mm/vmm.c): state and operations

    Page tables are pages of 512 entries held in [phys], a map from page
    addresses to entries (an absent entry reads as zero, as a fresh table does);
    touching a page that is not a table is a [Fault].  The addresses of the
    statically allocated [kernel_pgd] and [early_tables], chosen by the linker,
    are parameters.  An [mm_struct *] or [vm_area *] is a pool index plus one,
    and 0 is the null pointer.  Register writes and TLB maintenance have no
    state here. *)
From S2P Require Import Prelude AllocSpec.
#[local] Open Scope Z_scope.

Definition VMM_ENTRIES : Z := 512.
Definition EARLY_TABLES_COUNT : Z := 4.
Definition PTE_VALID : Z := 1.
Definition PTE_TABLE : Z := 2.
Definition PTE_BLOCK : Z := 0.
Definition PTE_PAGE : Z := 2.
Definition PTE_USER : Z := Z.shiftl 1 6.
Definition PTE_RDONLY : Z := Z.shiftl 1 7.
Definition PTE_ACCESSED : Z := Z.shiftl 1 10.
Definition PTE_ATTR_NORMAL : Z := Z.shiftl 0 2.
Definition PTE_ATTR_DEVICE : Z := Z.shiftl 1 2.
Definition PTE_SH_NONE : Z := Z.shiftl 0 8.
Definition PTE_SH_INNER : Z := Z.shiftl 3 8.
Definition PTE_UXN : Z := Z.shiftl 1 54.
Definition PTE_PXN : Z := Z.shiftl 1 53.
Definition PTE_ADDR_MASK : Z := 0x0000FFFFFFFFF000.
Definition VM_WRITE : Z := 2.
Definition VM_EXEC : Z := 4.
Definition VM_USER : Z := 8.
Definition VM_DEVICE : Z := 32.
Definition USER_VMA_END : Z := 0x0000800000000000.

(** [x | y | z] associates to the left, as in C. *)
#[local] Infix "||'" := Z.lor (at level 50, left associativity).

(** [flags & f] used as a condition. *)
Definition has (flags f : Z) : bool := negb (Z.land flags f =? 0).

Definition level_shift (level : Z) : option Z :=
  if level =? 0 then Some 39 else if level =? 1 then Some 30
  else if level =? 2 then Some 21 else if level =? 3 then Some 12 else None.
Definition pte_index (vaddr level : Z) : Z :=
  match level_shift level with
  | Some shift => Z.land (Z.shiftr vaddr shift) (VMM_ENTRIES - 1)
  | None => -1
  end.

Definition pte_is_valid (pte : Z) : bool := negb (Z.land pte PTE_VALID =? 0).
Definition pte_is_table (pte : Z) : bool :=
  Z.land pte (PTE_VALID ||' PTE_TABLE) =? (PTE_VALID ||' PTE_TABLE).
Definition pte_to_phys (pte : Z) : Z := Z.land pte PTE_ADDR_MASK.
Definition phys_to_pte (paddr flags : Z) : Z := Z.land paddr PTE_ADDR_MASK ||' flags.

Definition vm_flags_to_pte (flags : Z) : Z :=
  let pte_flags := PTE_VALID ||' PTE_TABLE ||' PTE_ACCESSED in
  let pte_flags := if has flags VM_DEVICE then pte_flags ||' (PTE_ATTR_DEVICE ||' PTE_SH_NONE)
                   else pte_flags ||' (PTE_ATTR_NORMAL ||' PTE_SH_INNER) in
  let pte_flags := if has flags VM_USER then pte_flags ||' PTE_USER else pte_flags in
  let pte_flags := if negb (has flags VM_WRITE) then pte_flags ||' PTE_RDONLY else pte_flags in
  if negb (has flags VM_EXEC)
  then if has flags VM_USER then pte_flags ||' PTE_UXN else pte_flags ||' PTE_PXN
  else pte_flags.

Record vm_area := VmArea { vma_start : Z; vma_end : Z; vma_flags : Z; vma_next : Z }.
Record mm_struct := Mm { pgd : Z; vma_list : Z; total_vm : Z; users : Z }.

Section vmm.
  Context {P : Type} `{PageAllocator P}.
  Context (kernel_pgd early_tables : Z).

Record vmm := Vmm {
  pm : P;
  early_table_index : Z;
  phys : gmap Z (gmap Z Z);
  mm_pool : gmap Z mm_struct;
  mm_index : Z;
  vma_pool : gmap Z vm_area;
  vma_index : Z
}.

Definition with_pm (s : vmm) (p : P) : vmm :=
  Vmm p (early_table_index s) (phys s) (mm_pool s) (mm_index s) (vma_pool s) (vma_index s).
Definition with_early (s : vmm) (i : Z) : vmm :=
  Vmm (pm s) i (phys s) (mm_pool s) (mm_index s) (vma_pool s) (vma_index s).
Definition with_phys (s : vmm) (ph : gmap Z (gmap Z Z)) : vmm :=
  Vmm (pm s) (early_table_index s) ph (mm_pool s) (mm_index s) (vma_pool s) (vma_index s).
Definition with_mm (s : vmm) (pool : gmap Z mm_struct) (i : Z) : vmm :=
  Vmm (pm s) (early_table_index s) (phys s) pool i (vma_pool s) (vma_index s).
Definition with_vma (s : vmm) (pool : gmap Z vm_area) (i : Z) : vmm :=
  Vmm (pm s) (early_table_index s) (phys s) (mm_pool s) (mm_index s) pool i.

(** [table[idx]] and [table[idx] = pte]. *)
Definition get_entry (s : vmm) (table idx : Z) : outcome Z :=
  tb ← of_option (phys s !! table); Ok (default 0 (tb !! idx)).
Definition set_entry (s : vmm) (table idx pte : Z) : outcome vmm :=
  tb ← of_option (phys s !! table);
  Ok (with_phys s (<[table := <[idx := pte]> tb]> (phys s))).

(** All 512 entries of a table set to zero. *)
Definition zero_table (s : vmm) (table : Z) : vmm := with_phys s (<[table := ∅]> (phys s)).

Definition early_table (i : Z) : Z := early_tables + i * PAGE_SIZE.

Definition alloc_page_table (s : vmm) : outcome (Z * vmm) :=
  if early_table_index s <? EARLY_TABLES_COUNT then
    let table := early_table (early_table_index s) in
    Ok (table, zero_table (with_early s (early_table_index s + 1)) table)
  else
    r ← pa_alloc_page (pm s);
    let '(paddr, p) := r in
    if paddr =? 0 then Ok (NULL, with_pm s p)
    else Ok (paddr, zero_table (with_pm s p) paddr).

(** [for (level = 0; level < 3; level++)]; the fuel is [3 - level]. *)
Fixpoint walk_levels (fuel : nat) (s : vmm) (table vaddr level : Z) (allocate : bool)
    : outcome (Z * vmm) :=
  match fuel with
  | O => Ok (table, s)
  | S fuel =>
      let idx := pte_index vaddr level in
      pte ← get_entry s table idx;
      if negb (pte_is_valid pte) then
        if negb allocate then Ok (NULL, s)
        else
          r ← alloc_page_table s;
          let '(new_table, s) := r in
          if new_table =? 0 then Ok (NULL, s)
          else
            s ← set_entry s table idx (phys_to_pte new_table (PTE_VALID ||' PTE_TABLE));
            walk_levels fuel s new_table vaddr (level + 1) allocate
      else if pte_is_table pte then
        walk_levels fuel s (pte_to_phys pte) vaddr (level + 1) allocate
      else Ok (NULL, s)
  end.

Definition walk_page_table (s : vmm) (root vaddr : Z) (allocate : bool) : outcome (Z * vmm) :=
  walk_levels 3 s root vaddr 0 allocate.

Definition vmm_map_page (s : vmm) (vaddr paddr flags : Z) : outcome (Z * vmm) :=
  r ← walk_page_table s kernel_pgd vaddr true;
  let '(pte_table, s) := r in
  if pte_table =? 0 then Ok (-1, s)
  else
    let idx := pte_index vaddr 3 in
    pte ← get_entry s pte_table idx;
    if pte_is_valid pte then Ok (-1, s)
    else
      s ← set_entry s pte_table idx (phys_to_pte paddr (vm_flags_to_pte flags));
      Ok (0, s).

Definition vmm_unmap_page (s : vmm) (vaddr : Z) : outcome (Z * vmm) :=
  r ← walk_page_table s kernel_pgd vaddr false;
  let '(pte_table, s) := r in
  if pte_table =? 0 then Ok (-1, s)
  else
    let idx := pte_index vaddr 3 in
    pte ← get_entry s pte_table idx;
    if negb (pte_is_valid pte) then Ok (-1, s)
    else
      s ← set_entry s pte_table idx 0;
      Ok (0, s).

(** The loops over a range; the fuel is the number of pages. *)
Fixpoint unmap_loop (fuel : nat) (s : vmm) (vaddr size offset : Z) : outcome vmm :=
  match fuel with
  | O => NoFuel
  | S fuel =>
      if offset <? size then
        r ← vmm_unmap_page s (u64 (vaddr + offset));
        unmap_loop fuel (snd r) vaddr size (u64 (offset + PAGE_SIZE))
      else Ok s
  end.

Definition vmm_unmap_range (s : vmm) (vaddr size : Z) : outcome (Z * vmm) :=
  let vaddr := PAGE_ALIGN_DOWN vaddr in
  let size := PAGE_ALIGN size in
  s ← unmap_loop (S (Z.to_nat (size / PAGE_SIZE))) s vaddr size 0;
  Ok (0, s).

Fixpoint map_loop (fuel : nat) (s : vmm) (vaddr paddr size flags offset : Z)
    : outcome (Z * vmm) :=
  match fuel with
  | O => NoFuel
  | S fuel =>
      if offset <? size then
        r ← vmm_map_page s (u64 (vaddr + offset)) (u64 (paddr + offset)) flags;
        let '(ret, s) := r in
        if ret <? 0 then
          r ← vmm_unmap_range s vaddr offset;
          Ok (ret, snd r)
        else map_loop fuel s vaddr paddr size flags (u64 (offset + PAGE_SIZE))
      else Ok (0, s)
  end.

Definition vmm_map_range (s : vmm) (vaddr paddr size flags : Z) : outcome (Z * vmm) :=
  let vaddr := PAGE_ALIGN_DOWN vaddr in
  let paddr := PAGE_ALIGN_DOWN paddr in
  let size := PAGE_ALIGN size in
  map_loop (S (Z.to_nat (size / PAGE_SIZE))) s vaddr paddr size flags 0.

Definition vmm_virt_to_phys (s : vmm) (vaddr : Z) : outcome Z :=
  r ← walk_page_table s kernel_pgd vaddr false;
  let '(pte_table, s) := r in
  if pte_table =? 0 then Ok 0
  else
    pte ← get_entry s pte_table (pte_index vaddr 3);
    if negb (pte_is_valid pte) then Ok 0
    else Ok (pte_to_phys pte ||' Z.land vaddr (PAGE_SIZE - 1)).

(** ** Initialisation: identity mappings in 1GB blocks *)

Definition ram_blocks (detected_memory : Z) : Z :=
  let ram_block_size := Z.shiftl 1 30 in
  let n := detected_memory / ram_block_size in
  let n := if negb (detected_memory mod ram_block_size =? 0) then n + 1 else n in
  let n := if n =? 0 then 1 else n in
  if 4 <? n then 4 else n.

Definition ram_block_pte (i : Z) : Z :=
  Z.land (u64 (0x40000000 + i * Z.shiftl 1 30)) PTE_ADDR_MASK
  ||' PTE_VALID ||' PTE_BLOCK ||' PTE_ATTR_NORMAL ||' PTE_SH_INNER ||' PTE_ACCESSED.
Definition device_block_pte (base : Z) : Z :=
  Z.land base PTE_ADDR_MASK
  ||' PTE_VALID ||' PTE_BLOCK ||' PTE_ATTR_DEVICE ||' PTE_SH_NONE ||' PTE_ACCESSED.

(** [for (i = 0; i < ram_blocks; i++)]; the fuel is [ram_blocks - i]. *)
Fixpoint map_ram_blocks (fuel : nat) (s : vmm) (l1_table i : Z) : outcome vmm :=
  match fuel with
  | O => Ok s
  | S fuel =>
      s ← set_entry s l1_table (1 + i) (ram_block_pte i);
      map_ram_blocks fuel s l1_table (i + 1)
  end.

Definition vmm_init (s : vmm) : outcome (Z * vmm) :=
  let blocks := ram_blocks (pa_total_memory (pm s)) in
  let idx0 := pte_index 0 0 in
  r ← alloc_page_table s;
  let '(l1_table, s) := r in
  if l1_table =? 0 then Ok (-1, s)
  else
    s ← set_entry s kernel_pgd idx0 (phys_to_pte l1_table (PTE_VALID ||' PTE_TABLE));
    s ← set_entry s l1_table 0 (device_block_pte 0);
    s ← map_ram_blocks (Z.to_nat blocks) s l1_table 0;
    s ← set_entry s l1_table 256 (device_block_pte 0x4000000000);
    Ok (0, s).

(** ** Address spaces *)

Definition get_mm (s : vmm) (mm : Z) : outcome mm_struct := of_option (mm_pool s !! mm).
Definition put_mm (s : vmm) (mm : Z) (m : mm_struct) : vmm :=
  with_mm s (<[mm := m]> (mm_pool s)) (mm_index s).

(** [mm->pgd[i] = kernel_pgd[i]] for the upper half; the fuel is [512 - i]. *)
Fixpoint copy_kernel_half (fuel : nat) (s : vmm) (table i : Z) : outcome vmm :=
  match fuel with
  | O => Ok s
  | S fuel =>
      pte ← get_entry s kernel_pgd i;
      s ← set_entry s table i pte;
      copy_kernel_half fuel s table (i + 1)
  end.

Definition vmm_create_address_space (s : vmm) : outcome (Z * vmm) :=
  if 64 <=? mm_index s then Ok (NULL, s)
  else
    let mm := mm_index s + 1 in
    let old := default (Mm 0 0 0 0) (mm_pool s !! mm) in
    let s := with_mm s (mm_pool s) (mm_index s + 1) in
    r ← alloc_page_table s;
    let '(table, s) := r in
    if table =? 0 then Ok (NULL, put_mm s mm (Mm 0 (vma_list old) (total_vm old) (users old)))
    else
      let s := put_mm s mm (Mm table 0 0 1) in
      s ← copy_kernel_half 256 s table 256;
      Ok (mm, s).

(** [mm->pgd[i] = 0] for the lower half; the fuel is [256 - i]. *)
Fixpoint clear_user_half (fuel : nat) (s : vmm) (table i : Z) : outcome vmm :=
  match fuel with
  | O => Ok s
  | S fuel => s ← set_entry s table i 0; clear_user_half fuel s table (i + 1)
  end.

Definition vmm_destroy_address_space (s : vmm) (mm : Z) : outcome vmm :=
  if mm =? 0 then Ok s
  else
    m ← get_mm s mm;
    s ← (if pgd m =? 0 then Ok s else clear_user_half 256 s (pgd m) 0);
    Ok (put_mm s mm (Mm 0 0 (total_vm m) (users m))).

(** One "walk/create" step of [vmm_map_user_page]; [None] is its [return -1]. *)
Definition walk_create (s : vmm) (table idx : Z) : outcome (option Z * vmm) :=
  pte ← get_entry s table idx;
  if Z.land pte PTE_VALID =? 0 then
    r ← alloc_page_table s;
    let '(t, s) := r in
    if t =? 0 then Ok (None, s)
    else
      s ← set_entry s table idx (Z.land t PTE_ADDR_MASK ||' PTE_VALID ||' PTE_TABLE);
      pte ← get_entry s table idx;
      Ok (Some (Z.land pte PTE_ADDR_MASK), s)
  else Ok (Some (Z.land pte PTE_ADDR_MASK), s).

(** The three walk/create steps in sequence; the fuel is [3 - level]. *)
Fixpoint user_walk (fuel : nat) (s : vmm) (table vaddr level : Z) : outcome (option Z * vmm) :=
  match fuel with
  | O => Ok (Some table, s)
  | S fuel =>
      r ← walk_create s table (pte_index vaddr level);
      match r with
      | (Some t, s) => user_walk fuel s t vaddr (level + 1)
      | (None, s) => Ok (None, s)
      end
  end.

Definition user_pte (paddr flags : Z) : Z :=
  let pte_flags := PTE_VALID ||' PTE_PAGE ||' PTE_USER ||' PTE_ATTR_NORMAL
                   ||' PTE_SH_INNER ||' PTE_ACCESSED in
  let pte_flags := if negb (has flags VM_WRITE) then pte_flags ||' PTE_RDONLY else pte_flags in
  let pte_flags := if negb (has flags VM_EXEC) then pte_flags ||' PTE_UXN else pte_flags in
  let pte_flags := pte_flags ||' PTE_PXN in
  Z.land paddr PTE_ADDR_MASK ||' pte_flags.

Definition vmm_map_user_page (s : vmm) (mm vaddr paddr flags : Z) : outcome (Z * vmm) :=
  if mm =? 0 then Ok (-1, s)
  else
    m ← get_mm s mm;
    if pgd m =? 0 then Ok (-1, s)
    else if USER_VMA_END <=? vaddr then Ok (-1, s)
    else
      r ← user_walk 3 s (pgd m) vaddr 0;
      match r with
      | (None, s) => Ok (-1, s)
      | (Some l3, s) =>
          s ← set_entry s l3 (pte_index vaddr 3) (user_pte paddr flags);
          Ok (0, s)
      end.

Definition vmm_add_vma (s : vmm) (mm start stop flags : Z) : outcome (Z * vmm) :=
  if mm =? 0 then Ok (-1, s)
  else if 256 <=? vma_index s then Ok (-1, s)
  else
    m ← get_mm s mm;
    let vma := vma_index s + 1 in
    let s := with_vma s (<[vma := VmArea start stop flags (vma_list m)]> (vma_pool s))
               (vma_index s + 1) in
    Ok (0, put_mm s mm (Mm (pgd m) vma (u64 (total_vm m + u64 (stop - start))) (users m))).

(** The list walk of [vmm_find_vma]; a pool of 256 areas bounds it. *)
Fixpoint find_vma_loop (fuel : nat) (s : vmm) (vma addr : Z) : outcome Z :=
  match fuel with
  | O => NoFuel
  | S fuel =>
      if vma =? 0 then Ok NULL
      else
        v ← of_option (vma_pool s !! vma);
        if (vma_start v <=? addr) && (addr <? vma_end v) then Ok vma
        else find_vma_loop fuel s (vma_next v) addr
  end.

Definition vmm_find_vma (s : vmm) (mm addr : Z) : outcome Z :=
  if mm =? 0 then Ok NULL
  else m ← get_mm s mm; find_vma_loop 257 s (vma_list m) addr.

(** [for (addr = vaddr; addr < end; addr += PAGE_SIZE)]; the fuel is the number of pages. *)
Fixpoint map_user_loop (fuel : nat) (s : vmm) (mm addr stop flags : Z) : outcome (Z * vmm) :=
  match fuel with
  | O => NoFuel
  | S fuel =>
      if addr <? stop then
        r ← pa_alloc_page (pm s);
        let '(paddr, p) := r in
        let s := with_pm s p in
        if paddr =? 0 then Ok (-1, s)
        else
          r ← vmm_map_user_page s mm addr paddr flags;
          let '(ret, s) := r in
          if negb (ret =? 0) then
            p ← pa_free_page (pm s) paddr;
            Ok (ret, with_pm s p)
          else map_user_loop fuel s mm (u64 (addr + PAGE_SIZE)) stop flags
      else Ok (0, s)
  end.

Definition vmm_map_user_range (s : vmm) (mm vaddr size flags : Z) : outcome (Z * vmm) :=
  if mm =? 0 then Ok (-1, s)
  else
    let stop := Z.land (u64 (vaddr + size + PAGE_SIZE - 1)) (Z.lnot (PAGE_SIZE - 1)) in
    let vaddr := Z.land vaddr (Z.lnot (PAGE_SIZE - 1)) in
    r ← vmm_add_vma s mm vaddr stop flags;
    map_user_loop (S (Z.to_nat ((stop - vaddr) / PAGE_SIZE))) (snd r) mm vaddr stop flags.

End vmm.
Arguments vmm P : clear implicits.
