(* ===== verification/PageTable.v ===== *)
(** * Page tables as trees: entries, indices and walks

    Facts about the entry encoding of [Vmm], the decomposition of an address into
    four table indices, and the two ways a tree of tables changes: a fresh table
    is linked in, or a leaf entry is written. *)
From S2P Require Import Prelude AllocSpec Vmm.
#[local] Open Scope Z_scope.

(** ** Entries *)

Lemma land_mask p : Z.land p PTE_ADDR_MASK = p mod 2 ^ 48 - p mod 2 ^ 12.
Proof.
  change PTE_ADDR_MASK with (Z.land (Z.ones 48) (Z.lnot (Z.ones 12))).
  rewrite Z.land_assoc, Z.land_ones, land_lnot_ones by lia.
  f_equal. change (2 ^ 48) with (2 ^ 12 * 2 ^ 36). lia_mod.
Qed.

Lemma pte_to_phys_frame a : page_frame a -> pte_to_phys a = a.
Proof.
  unfold page_frame, PAGE_SIZE, pte_to_phys. intros [H Ha]. rewrite land_mask.
  change (2 ^ 12) with 4096. rewrite Z.mod_small by lia. lia.
Qed.

(** Flags outside the address field do not disturb the address. *)
Lemma pte_to_phys_phys_to_pte p f :
  Z.land f PTE_ADDR_MASK = 0 -> pte_to_phys (phys_to_pte p f) = pte_to_phys p.
Proof.
  intros H. unfold pte_to_phys, phys_to_pte.
  by rewrite Z.land_lor_distr_l, H, Z.lor_0_r, <- Z.land_assoc, Z.land_diag.
Qed.

Lemma land_phys_to_pte p f k : Z.land PTE_ADDR_MASK k = 0 ->
  Z.land (phys_to_pte p f) k = Z.land f k.
Proof.
  intros H. unfold phys_to_pte.
  by rewrite Z.land_lor_distr_l, <- Z.land_assoc, H, Z.land_0_r, Z.lor_0_l.
Qed.

Lemma valid_phys_to_pte p f : pte_is_valid (phys_to_pte p f) = pte_is_valid f.
Proof. unfold pte_is_valid. by rewrite land_phys_to_pte. Qed.

Lemma table_phys_to_pte p f : pte_is_table (phys_to_pte p f) = pte_is_table f.
Proof. unfold pte_is_table. by rewrite land_phys_to_pte. Qed.

Lemma vm_flags_valid f : pte_is_valid (vm_flags_to_pte f) = true.
Proof. unfold vm_flags_to_pte. by destruct (has f VM_DEVICE), (has f VM_USER), (has f VM_WRITE), (has f VM_EXEC). Qed.

Lemma vm_flags_mask f : Z.land (vm_flags_to_pte f) PTE_ADDR_MASK = 0.
Proof. unfold vm_flags_to_pte. by destruct (has f VM_DEVICE), (has f VM_USER), (has f VM_WRITE), (has f VM_EXEC). Qed.

Lemma table_is_valid pte : pte_is_table pte = true -> pte_is_valid pte = true.
Proof.
  unfold pte_is_table, pte_is_valid. intros H%Z.eqb_eq. apply negb_true_iff, Z.eqb_neq.
  change (Z.land pte 3 = 3) in H. intros H0.
  assert (Z.land (Z.land pte 3) 1 = 1) as H1 by by rewrite H.
  rewrite <- Z.land_assoc in H1. change (Z.land 3 1) with 1 in H1.
  change (Z.land pte 1 = 0) in H0. lia.
Qed.

(** ** Indices *)

(** The page number that the hardware translates: bits 12 to 47. *)
Definition vpn (va : Z) : Z := va / 4096 mod 2 ^ 36.

Lemma pte_index_spec va l sh : level_shift l = Some sh -> 0 <= sh ->
  pte_index va l = va / 2 ^ sh mod 512.
Proof.
  intros H Hsh. unfold pte_index. rewrite H, Z.shiftr_div_pow2 by done.
  change (VMM_ENTRIES - 1) with (Z.ones 9). by rewrite Z.land_ones.
Qed.

(** The indices of the upper three levels. *)
Definition path (va : Z) : list Z := [pte_index va 0; pte_index va 1; pte_index va 2].

Lemma path_length va : length (path va) = 3%nat.
Proof. done. Qed.

Lemma vpn_digits va :
  pte_index va 0 = vpn va / 2 ^ 27 /\ pte_index va 1 = vpn va / 2 ^ 18 mod 512 /\
  pte_index va 2 = vpn va / 2 ^ 9 mod 512 /\ pte_index va 3 = vpn va mod 512.
Proof.
  rewrite (pte_index_spec va 0 39), (pte_index_spec va 1 30), (pte_index_spec va 2 21),
    (pte_index_spec va 3 12) by (done || lia).
  unfold vpn. repeat split; lia_mod.
Qed.

(** Two addresses take the same walk exactly when their page numbers agree. *)
Lemma same_walk_vpn va vb :
  path va = path vb /\ pte_index va 3 = pte_index vb 3 <-> vpn va = vpn vb.
Proof.
  unfold path. destruct (vpn_digits va) as (-> & -> & -> & ->).
  destruct (vpn_digits vb) as (-> & -> & -> & ->). split; [|by intros ->].
  intros [[=] ?]. lia_mod.
Qed.

(** ** Walks *)

Implicit Types (ph : gmap Z (gmap Z Z)) (t : Z) (p q : list Z).

Definition entry ph t i : Z := default 0 (tb ← ph !! t; tb !! i).

(** One level down, through a table descriptor. *)
Definition step ph t i : option Z :=
  if pte_is_table (entry ph t i) then Some (pte_to_phys (entry ph t i)) else None.

Fixpoint walk ph t p : option Z :=
  match p with
  | [] => Some t
  | i :: p => t' ← step ph t i; walk ph t' p
  end.

Lemma walk_snoc ph t p i : walk ph t (p ++ [i]) = (u ← walk ph t p; step ph u i).
Proof.
  revert t. induction p as [|j p IH]; intros t; simpl.
  - by destruct (step ph t i).
  - destruct (step ph t j); simpl; [apply IH | done].
Qed.

(** The tree below [root]: every table reached is a page of [ph] satisfying [ok],
    and is reached along one path only. *)
Record tree ph (root : Z) (ok : Z -> Prop) : Prop := {
  tree_ok p t : (length p <= 3)%nat -> walk ph root p = Some t -> ok t /\ is_Some (ph !! t);
  tree_inj p q t : (length p <= 3)%nat -> (length q <= 3)%nat ->
    walk ph root p = Some t -> walk ph root q = Some t -> p = q
}.

(** The leaf entry that translates [va]. *)
Definition leaf ph root va : option Z :=
  t ← walk ph root (path va);
  let pte := entry ph t (pte_index va 3) in
  if pte_is_valid pte then Some pte else None.

Lemma entry_insert ph t t' i j e tb : ph !! t = Some tb ->
  entry (<[t := <[i := e]> tb]> ph) t' j =
  if decide (t' = t /\ j = i) then e else entry ph t' j.
Proof.
  intros Ht. unfold entry. destruct (decide (t' = t /\ j = i)) as [[-> ->]|Hne].
  - rewrite lookup_insert_eq. simpl. by rewrite lookup_insert_eq.
  - destruct (decide (t' = t)) as [->|]; [|by rewrite lookup_insert_ne].
    rewrite lookup_insert_eq, Ht. simpl. rewrite lookup_insert_ne by naive_solver. done.
Qed.

Lemma entry_zero ph t t' j :
  entry (<[t := ∅]> ph) t' j = if decide (t' = t) then 0 else entry ph t' j.
Proof.
  unfold entry. case_decide as H; [subst; by rewrite lookup_insert_eq | by rewrite lookup_insert_ne].
Qed.

(** Linking a fresh table [t'] in at entry [i] of the table that [p] reaches. *)
Section link.
#[local] Set Default Proof Using "All".
Context (ph : gmap Z (gmap Z Z)) (root t t' i e : Z) (tb : gmap Z Z) (p : list Z) (ok ok' : Z -> Prop).
Context (Htree : tree ph root ok) (Hp : walk ph root p = Some t) (Hlen : (length p < 3)%nat).
Context (Htb : ph !! t = Some tb) (Hstep : step ph t i = None).
Context (Hfresh : forall q u, (length q <= 3)%nat -> walk ph root q = Some u -> u <> t').
Context (He : pte_is_table e = true) (Het : pte_to_phys e = t').
Let ph' : gmap Z (gmap Z Z) := <[t := <[i := e]> tb]> (<[t' := ∅]> ph).

#[local] Lemma link_ne : t <> t'.
Proof. apply (Hfresh p); [lia|done]. Qed.

#[local] Lemma link_entry u j :
  entry ph' u j = if decide (u = t /\ j = i) then e
                  else if decide (u = t') then 0 else entry ph u j.
Proof.
  unfold ph'. rewrite entry_insert by (rewrite lookup_insert_ne; [done | exact (not_eq_sym link_ne)]).
  destruct (decide _); [done|]. apply entry_zero.
Qed.

Lemma link_walk q : (length q <= 3)%nat ->
  walk ph' root q =
    if decide (q = p ++ [i]) then Some t'
    else walk ph root q.
Proof.
  induction q as [|j q IH] using rev_ind; intros Hq.
  - rewrite decide_False by (by destruct p). done.
  - rewrite length_app in Hq. simpl in Hq. rewrite !walk_snoc, IH by lia.
    destruct (decide (q = p ++ [i])) as [->|Hne].
    + simpl. unfold step at 1. rewrite link_entry, decide_False, decide_True by (done || intros [Hx _]; by apply link_ne).
      rewrite decide_False.
      2:{ intros Hx%(f_equal length). rewrite !length_app in Hx. simpl in Hx. lia. }
      rewrite walk_snoc, Hp. simpl. by rewrite Hstep.
    + destruct (walk ph root q) as [u|] eqn:Eu; simpl.
      * unfold step. rewrite link_entry. assert (u <> t') as Hut by (eapply Hfresh; [|done]; lia).
        destruct (decide (u = t /\ j = i)) as [[-> ->]|Hx].
        -- assert (q = p) as -> by (eapply tree_inj; [done|lia|lia|done|done]).
           rewrite decide_True, He, Het by done. done.
        -- rewrite (decide_False (P := u = t')) by done. rewrite decide_False; [done|].
           intros [-> [= ->]]%app_inj_tail. naive_solver.
      * rewrite decide_False; [done|]. intros [-> _]%app_inj_tail. congruence.
Qed.

Lemma link_tree : (forall u, ok u -> ok' u) -> ok' t' -> tree ph' root ok'.
Proof.
  intros Hok Ht'. split.
  - intros q u Hq. rewrite link_walk by done. case_decide as E.
    + intros [= <-]. split; [done|]. unfold ph'. rewrite lookup_insert_ne by exact link_ne.
      rewrite lookup_insert_eq. eauto.
    + intros Hu. destruct (tree_ok _ _ _ Htree q u Hq Hu) as [Ho Hs]. split; [auto|].
      unfold ph'. destruct (decide (u = t)) as [->|]; [rewrite lookup_insert_eq; eauto|].
      destruct (decide (u = t')) as [->|]; [by rewrite lookup_insert_ne, lookup_insert_eq; eauto|].
      by rewrite !lookup_insert_ne.
  - intros q1 q2 u H1 H2. rewrite !link_walk by done. do 2 case_decide; subst.
    + done.
    + intros [= <-] Hu. by apply Hfresh in Hu.
    + intros Hu [= <-]. by apply Hfresh in Hu.
    + by apply (tree_inj _ _ _ Htree).
Qed.

Lemma link_leaf va : leaf ph' root va = leaf ph root va.
Proof.
  unfold leaf. rewrite link_walk by (rewrite path_length; lia). case_decide as E.
  - assert (walk ph root (path va) = None) as -> by by rewrite E, walk_snoc, Hp.
    simpl. rewrite link_entry, decide_False, decide_True by (done || intros [Hx _]; by apply link_ne).
    done.
  - destruct (walk ph root (path va)) as [u|] eqn:Eu; [|done]. simpl.
    rewrite link_entry. assert (u <> t') as Hut by (eapply Hfresh; [|done]; rewrite ?path_length; lia).
    rewrite (decide_False (P := u = t')) by done. rewrite decide_False; [done|].
    intros [-> _]. assert (path va = p) as <- by (eapply tree_inj; [done|rewrite ?path_length; lia|lia|done|done]).
    rewrite path_length in Hlen. lia.
Qed.
End link.

(** Writing an entry of a level-3 table. *)
Section write.
#[local] Set Default Proof Using "All".
Context (ph : gmap Z (gmap Z Z)) (root t e va : Z) (tb : gmap Z Z) (ok : Z -> Prop).
Context (Htree : tree ph root ok) (Hp : walk ph root (path va) = Some t) (Htb : ph !! t = Some tb).
Let ph' : gmap Z (gmap Z Z) := <[t := <[pte_index va 3 := e]> tb]> ph.

Lemma write_walk q : (length q <= 3)%nat -> walk ph' root q = walk ph root q.
Proof.
  induction q as [|j q IH] using rev_ind; intros Hq; [done|].
  rewrite length_app in Hq. simpl in Hq. rewrite !walk_snoc, IH by lia.
  destruct (walk ph root q) as [u|] eqn:Eu; [|done]. simpl. unfold step, ph'.
  rewrite (entry_insert _ _ _ _ _ _ _ Htb), decide_False; [done|]. intros [-> _].
  assert (q = path va) as -> by (eapply tree_inj; [done|lia|rewrite ?path_length; lia|done|done]).
  rewrite path_length in Hq. lia.
Qed.

Lemma write_tree : tree ph' root ok.
Proof.
  split.
  - intros q u Hq. rewrite write_walk by done. intros Hu.
    destruct (tree_ok _ _ _ Htree q u Hq Hu) as [Ho Hs]. split; [done|]. unfold ph'.
    destruct (decide (u = t)) as [->|]; [rewrite lookup_insert_eq; eauto | by rewrite lookup_insert_ne].
  - intros q1 q2 u H1 H2. rewrite !write_walk by done. by apply (tree_inj _ _ _ Htree).
Qed.

Lemma write_leaf vb :
  leaf ph' root vb =
    if decide (vpn vb = vpn va) then (if pte_is_valid e then Some e else None)
    else leaf ph root vb.
Proof.
  unfold leaf. rewrite write_walk by (rewrite path_length; lia). case_decide as E.
  - apply same_walk_vpn in E as [-> ->]. rewrite Hp. simpl.
    unfold ph'. by rewrite (entry_insert _ _ _ _ _ _ _ Htb), decide_True.
  - destruct (walk ph root (path vb)) as [u|] eqn:Eu; [|done]. simpl. unfold ph'.
    rewrite (entry_insert _ _ _ _ _ _ _ Htb), decide_False; [done|]. intros [-> Hi].
    apply E, same_walk_vpn. split; [|done].
    eapply tree_inj; [done|rewrite ?path_length; lia|rewrite ?path_length; lia|done|done].
Qed.
End write.

(** Every table reached in one tree may be weakened to a larger set. *)
Lemma tree_weaken ph root ok ok' : (forall u, ok u -> ok' u) -> tree ph root ok -> tree ph root ok'.
Proof. intros H [H1 H2]. split; [|done]. intros p t Hp Ht. destruct (H1 p t Hp Ht). auto. Qed.
