(* ===== verification/VmmSpec.v ===== *)
(** * The virtual memory manager implements a map from page numbers to entries

    The abstract state is [translation s root]: which leaf entry translates each
    virtual address.  The operations are shown to update it at one page, or not
    at all, whatever table pages they have to allocate on the way. *)
From S2P Require Import Prelude AllocSpec Vmm PageTable.
#[local] Open Scope Z_scope.

Section vmm_spec.
Context {P : Type} `{PageAllocatorLaws P}.
Context (kernel_pgd early_tables : Z).
Implicit Types (s : vmm P) (root va : Z).

#[local] Abbreviation early_table := (early_table early_tables).

(** A page in use that is not one of the early tables still to be handed out. *)
Definition owned s (a : Z) : Prop :=
  pa_live (pm s) a /\
  forall k, early_table_index s <= k < EARLY_TABLES_COUNT -> a <> early_table k.

Record vm_base s : Prop := {
  vb_pm : pa_inv (pm s);
  vb_early : 0 <= early_table_index s <= EARLY_TABLES_COUNT;
  vb_static k : 0 <= k < EARLY_TABLES_COUNT -> pa_live (pm s) (early_table k)
}.

Definition vm_inv s root : Prop := vm_base s /\ tree (phys s) root (owned s).

Definition translation s root va : option Z := leaf (phys s) root va.

(** The parts of the state that page-table operations do not touch. *)
Definition same_rest s s' : Prop :=
  mm_pool s' = mm_pool s /\ mm_index s' = mm_index s /\
  vma_pool s' = vma_pool s /\ vma_index s' = vma_index s.

Lemma get_entry_ok s t i : is_Some (phys s !! t) -> get_entry s t i = Ok (entry (phys s) t i).
Proof using Type. intros [tb Htb]. unfold get_entry, entry. by rewrite Htb. Qed.

Lemma set_entry_ok s t i e tb : phys s !! t = Some tb ->
  set_entry s t i e = Ok (with_phys s (<[t := <[i := e]> tb]> (phys s))).
Proof using Type. intros Htb. unfold set_entry. by rewrite Htb. Qed.

Lemma owned_frame s a : vm_base s -> owned s a -> page_frame a.
Proof using Type*. intros Hb [Hl _]. eapply law_page_frame; [apply Hb | done]. Qed.

Lemma alloc_page_table_spec s : vm_base s ->
  alloc_page_table early_tables s = Ok (0, s) \/
  exists t s', alloc_page_table early_tables s = Ok (t, s') /\
    phys s' = <[t := ∅]> (phys s) /\ vm_base s' /\ same_rest s s' /\
    page_frame t /\ ~ owned s t /\ owned s' t /\ (forall u, owned s u -> owned s' u).
Proof using Type*.
  intros [Hpm He Hst]. unfold alloc_page_table. destruct (Z.ltb_spec (early_table_index s) EARLY_TABLES_COUNT).
  - right. eexists _, _. split; [done|]. cbn. split; [done|].
    assert (pa_live (pm s) (early_table (early_table_index s))) as Hl by (apply Hst; lia).
    split; [split; cbn; [done | lia | done]|]. split; [done|].
    split; [eapply law_page_frame; done|]. unfold owned. cbn.
    split; [intros [_ Hx]; apply (Hx (early_table_index s)); [lia|done]|].
    split; [split; [done|]; intros k Hk Heq; unfold Vmm.early_table, PAGE_SIZE in Heq; lia|].
    intros u [Hu Hx]. split; [done|]. intros k Hk. apply Hx. lia.
  - destruct (law_alloc_page (pm s) Hpm) as [-> | (a & p' & -> & Hi & Hf & Hn & Hl)].
    + left. cbn. f_equal. f_equal. by destruct s.
    + right. rewrite bind_ok. cbv beta iota. rewrite (proj2 (Z.eqb_neq _ _)) by (destruct Hf; lia).
      eexists _, _. split; [done|]. cbn. split; [done|].
      split; [split; cbn; [done | lia | intros k Hk; apply Hl; auto]|]. split; [done|].
      split; [done|]. unfold owned. cbn. split; [by intros [? _]|].
      split; [split; [apply Hl; auto | intros k Hk; lia]|].
      intros u [Hu Hx]. split; [apply Hl; auto | done].
Qed.

(** The first [n] indices of a walk. *)
Definition walk_prefix va (n : nat) : list Z := (fun l => pte_index va (Z.of_nat l)) <$> seq 0 n.

Lemma walk_prefix_S va n : walk_prefix va (S n) = walk_prefix va n ++ [pte_index va (Z.of_nat n)].
Proof using Type. unfold walk_prefix. rewrite seq_S, fmap_app. done. Qed.

Lemma walk_prefix_length va n : length (walk_prefix va n) = n.
Proof using Type. unfold walk_prefix. by rewrite length_fmap, length_seq. Qed.

Lemma step_invalid ph t i : pte_is_valid (entry ph t i) = false -> step ph t i = None.
Proof using Type.
  intros Hv. unfold step. destruct (pte_is_table _) eqn:E; [|done].
  apply table_is_valid in E. congruence.
Qed.

Lemma walk_none_extend ph root va n m : walk ph root (walk_prefix va n) = None ->
  walk ph root (walk_prefix va (n + m)) = None.
Proof using Type.
  intros Hn. induction m as [|m IH]; [by rewrite Nat.add_0_r|].
  rewrite Nat.add_succ_r, walk_prefix_S, walk_snoc, IH. done.
Qed.

(** The walk without allocation reads the tree. *)
Lemma walk_lookup fuel : forall s root va t n,
  vm_inv s root -> (n + fuel = 3)%nat -> walk (phys s) root (walk_prefix va n) = Some t ->
  walk_levels early_tables fuel s t va (Z.of_nat n) false =
    Ok (default 0 (walk (phys s) root (path va)), s).
Proof using Type*.
  induction fuel as [|fuel IH]; intros s root va t n I Hn Ht; cbn [walk_levels].
  - assert (n = 3%nat) as -> by lia. change (path va) with (walk_prefix va 3). by rewrite Ht.
  - pose proof I as [_ Htree].
    rewrite get_entry_ok
      by (eapply (tree_ok _ _ _ Htree (walk_prefix va n)); [rewrite walk_prefix_length; lia | done]).
    rewrite bind_ok.
    assert (walk (phys s) root (walk_prefix va (S n)) = step (phys s) t (pte_index va (Z.of_nat n))) as Hw.
    { rewrite walk_prefix_S, walk_snoc, Ht. done. }
    destruct (pte_is_valid _) eqn:Ev; cbn [negb]; [destruct (pte_is_table _) eqn:Et|].
    + replace (Z.of_nat n + 1) with (Z.of_nat (S n)) by lia. apply IH; [done | lia |].
      rewrite Hw. unfold step. by rewrite Et.
    + assert (path va = walk_prefix va (S n + fuel)) as ->
        by by replace (S n + fuel)%nat with 3%nat by lia.
      rewrite walk_none_extend; [done|]. rewrite Hw. unfold step. by rewrite Et.
    + assert (path va = walk_prefix va (S n + fuel)) as ->
        by by replace (S n + fuel)%nat with 3%nat by lia.
      rewrite walk_none_extend; [done|]. rewrite Hw. by apply step_invalid.
Qed.

(** The walk with allocation changes no translation. *)
Lemma walk_allocate fuel : forall s root va t n,
  vm_inv s root -> (n + fuel = 3)%nat -> walk (phys s) root (walk_prefix va n) = Some t ->
  exists r s', walk_levels early_tables fuel s t va (Z.of_nat n) true = Ok (r, s') /\
    vm_inv s' root /\ same_rest s s' /\
    (forall vb, translation s' root vb = translation s root vb) /\
    (r <> 0 -> walk (phys s') root (path va) = Some r).
Proof using Type*.
  induction fuel as [|fuel IH]; intros s root va t n I Hn Ht; cbn [walk_levels].
  - assert (n = 3%nat) as -> by lia. exists t, s. done.
  - pose proof I as [Hb Htree].
    assert (length (walk_prefix va n) < 3)%nat as Hlen by (rewrite walk_prefix_length; lia).
    destruct (tree_ok _ _ _ Htree (walk_prefix va n) t ltac:(lia) Ht) as [Hot [tb Htb]].
    rewrite get_entry_ok by eauto. rewrite bind_ok.
    destruct (pte_is_valid _) eqn:Ev; cbn [negb]; [destruct (pte_is_table _) eqn:Et|].
    + replace (Z.of_nat n + 1) with (Z.of_nat (S n)) by lia. apply IH; [done | lia |].
      rewrite walk_prefix_S, walk_snoc, Ht. simpl. unfold step. by rewrite Et.
    + exists 0, s. done.
    + destruct (alloc_page_table_spec s Hb) as [-> | (t' & s1 & -> & Hph & Hb1 & Hrest & Hf & Hno & Ho & Hmono)].
      { exists 0, s. done. }
      rewrite bind_ok. cbv beta iota. rewrite (proj2 (Z.eqb_neq t' 0)) by (destruct Hf; lia).
      assert (t <> t') as Hne by by intros ->.
      set (i := pte_index va (Z.of_nat n)) in *.
      rewrite (set_entry_ok _ _ _ _ tb) by (by rewrite Hph, lookup_insert_ne).
      rewrite bind_ok, Hph. set (e := phys_to_pte t' 3).
      change (phys_to_pte t' (Z.lor PTE_VALID PTE_TABLE)) with e.
      assert (forall q u, (length q <= 3)%nat -> walk (phys s) root q = Some u -> u <> t') as Hfresh.
      { intros q u Hq Hu ->. apply Hno. by eapply tree_ok. }
      assert (pte_is_table e = true) as Het by (unfold e; by rewrite table_phys_to_pte).
      assert (pte_to_phys e = t') as Hep.
      { unfold e. rewrite pte_to_phys_phys_to_pte by done. by apply pte_to_phys_frame. }
      pose proof (step_invalid _ _ _ Ev) as Hstep.
      set (s2 := with_phys s1 _).
      assert (vm_inv s2 root) as I2.
      { split; [by destruct Hb1|].
        by eapply (link_tree (phys s) root t t' i e tb (walk_prefix va n) (owned s) (owned s2)). }
      destruct (IH s2 root va t' (S n) I2) as (r & s' & Hw & I' & Hr' & Htr & Hres).
      * lia.
      * rewrite walk_prefix_S. cbn.
        rewrite (link_walk (phys s) root t t' i e tb (walk_prefix va n) (owned s) (owned s2)) by
          (rewrite ?length_app, ?walk_prefix_length; simpl; done || lia).
        by rewrite decide_True.
      * exists r, s'. replace (Z.of_nat n + 1) with (Z.of_nat (S n)) by lia.
        split; [done|]. split; [done|]. split.
        { unfold same_rest in *. cbn in *. intuition congruence. }
        split; [|done]. intros vb. rewrite Htr. unfold translation. cbn.
        by apply (link_leaf (phys s) root t t' i e tb (walk_prefix va n) (owned s) (owned s2)).
Qed.

Lemma translation_vpn s root va vb : vpn va = vpn vb -> translation s root va = translation s root vb.
Proof using Type.
  intros Hv%same_walk_vpn. destruct Hv as [Hp Hi]. unfold translation, leaf. by rewrite Hp, Hi.
Qed.

(** ** One page *)

#[local] Lemma write_inv s root va t tb e :
  vm_inv s root -> walk (phys s) root (path va) = Some t -> phys s !! t = Some tb ->
  vm_inv (with_phys s (<[t := <[pte_index va 3 := e]> tb]> (phys s))) root.
Proof using Type*.
  intros [Hb Ht] Hw Htb. split; [by destruct Hb|].
  exact (write_tree (phys s) root t e va tb (owned s) Ht Hw Htb).
Qed.

Lemma leaf_walk s root va t : walk (phys s) root (path va) = Some t ->
  translation s root va =
    let pte := entry (phys s) t (pte_index va 3) in if pte_is_valid pte then Some pte else None.
Proof using Type. intros Hw. unfold translation, leaf. by rewrite Hw. Qed.

Lemma map_page_spec s va pa flags : vm_inv s kernel_pgd ->
  exists ret s', vmm_map_page kernel_pgd early_tables s va pa flags = Ok (ret, s') /\
    vm_inv s' kernel_pgd /\ same_rest s s' /\
    ((ret = -1 /\ forall vb, translation s' kernel_pgd vb = translation s kernel_pgd vb) \/
     (ret = 0 /\ translation s kernel_pgd va = None /\
      forall vb, translation s' kernel_pgd vb =
        if decide (vpn vb = vpn va) then Some (phys_to_pte pa (vm_flags_to_pte flags))
        else translation s kernel_pgd vb)).
Proof using Type*.
  intros I. unfold vmm_map_page, walk_page_table.
  destruct (walk_allocate 3 s kernel_pgd va kernel_pgd 0 I) as (r & s1 & Hw & I1 & Hr & Ht & Hres);
    [done..|].
  change (Z.of_nat 0) with 0 in Hw. rewrite Hw, bind_ok. cbv beta iota.
  destruct (Z.eqb_spec r 0) as [->|Hr0]; [exists (-1), s1; auto 10|].
  specialize (Hres Hr0). pose proof I1 as [Hb1 Htree1].
  destruct (tree_ok _ _ _ Htree1 (path va) r ltac:(by rewrite path_length) Hres) as [_ [tb Htb]].
  rewrite get_entry_ok by eauto. rewrite bind_ok.
  pose proof (leaf_walk s1 kernel_pgd va r Hres) as Hl. cbv zeta in Hl.
  destruct (pte_is_valid _) eqn:Ev; [exists (-1), s1; auto 10|].
  rewrite (set_entry_ok _ _ _ _ tb) by done. rewrite bind_ok.
  eexists 0, _. split; [done|]. split; [by apply write_inv|]. split; [done|].
  right. split; [done|]. split; [by rewrite <- Ht|]. intros vb.
  unfold translation at 1. cbn [phys with_phys].
  rewrite (write_leaf (phys s1) kernel_pgd r _ va tb (owned s1) Htree1 Hres Htb).
  rewrite valid_phys_to_pte, vm_flags_valid. case_decide; [done | apply Ht].
Qed.

Lemma unmap_page_spec s va : vm_inv s kernel_pgd ->
  exists ret s', vmm_unmap_page kernel_pgd early_tables s va = Ok (ret, s') /\
    vm_inv s' kernel_pgd /\ same_rest s s' /\
    ret = (if translation s kernel_pgd va is Some _ then 0 else -1) /\
    forall vb, translation s' kernel_pgd vb =
      if decide (vpn vb = vpn va) then None else translation s kernel_pgd vb.
Proof using Type*.
  intros I. unfold vmm_unmap_page, walk_page_table. pose proof I as [Hb Htree].
  pose proof (walk_lookup 3 s kernel_pgd va kernel_pgd 0 I) as Hw.
  change (Z.of_nat 0) with 0 in Hw. rewrite Hw, bind_ok by done. cbv beta iota.
  assert (forall vb, translation s kernel_pgd va = None -> translation s kernel_pgd vb =
    if decide (vpn vb = vpn va) then None else translation s kernel_pgd vb) as Hnone.
  { intros vb Hn. case_decide as E; [|done]. by rewrite (translation_vpn _ _ _ _ E). }
  destruct (walk (phys s) kernel_pgd (path va)) as [r|] eqn:Hres; cbn [default from_option].
  2:{ assert (translation s kernel_pgd va = None) as Hn by (unfold translation, leaf; by rewrite Hres).
      rewrite Hn. exists (-1), s. do 4 (split; [done|]). intros vb. by apply Hnone. }
  destruct (tree_ok _ _ _ Htree (path va) r ltac:(by rewrite path_length) Hres) as [Ho [tb Htb]].
  rewrite (proj2 (Z.eqb_neq _ _)) by (destruct (owned_frame s r Hb Ho); unfold id; lia).
  unfold id. rewrite get_entry_ok by eauto. rewrite bind_ok.
  pose proof (leaf_walk s kernel_pgd va r Hres) as Hl. cbv zeta in Hl.
  destruct (pte_is_valid _) eqn:Ev; cbn [negb]; rewrite Hl;
    [|exists (-1), s; do 4 (split; [done|]); intros vb; by apply Hnone].
  rewrite (set_entry_ok _ _ _ _ tb) by done. rewrite bind_ok.
  eexists 0, _. split; [done|]. split; [by apply write_inv|]. split; [done|]. split; [done|].
  intros vb. unfold translation at 1. cbn [phys with_phys].
  by rewrite (write_leaf (phys s) kernel_pgd r _ va tb (owned s) Htree Hres Htb).
Qed.

(** What [vmm_virt_to_phys] answers for a translation. *)
Definition phys_of (va : Z) (o : option Z) : Z :=
  match o with Some pte => Z.lor (pte_to_phys pte) (Z.land va 4095) | None => 0 end.

Lemma virt_to_phys_spec s va : vm_inv s kernel_pgd ->
  vmm_virt_to_phys kernel_pgd early_tables s va = Ok (phys_of va (translation s kernel_pgd va)).
Proof using Type*.
  intros I. unfold vmm_virt_to_phys, walk_page_table. pose proof I as [Hb Htree].
  pose proof (walk_lookup 3 s kernel_pgd va kernel_pgd 0 I) as Hw.
  change (Z.of_nat 0) with 0 in Hw. rewrite Hw, bind_ok by done. cbv beta iota.
  unfold translation, leaf.
  destruct (walk (phys s) kernel_pgd (path va)) as [r|] eqn:Hres; cbn [default from_option]; [|done].
  destruct (tree_ok _ _ _ Htree (path va) r ltac:(by rewrite path_length) Hres) as [Ho [tb Htb]].
  rewrite (proj2 (Z.eqb_neq _ _)) by (destruct (owned_frame s r Hb Ho); unfold id; lia).
  unfold id. rewrite get_entry_ok by eauto. rewrite bind_ok. cbn.
  by destruct (pte_is_valid _).
Qed.

(** ** Ranges *)

(** The page [j] pages after [va]. *)
Definition page_after (va j : Z) : Z := va + j * PAGE_SIZE.

Definition in_pages (va n vb : Z) : Prop :=
  exists j, 0 <= j < n /\ vpn vb = vpn (page_after va j).

#[export] Instance in_pages_dec va n vb : Decision (in_pages va n vb).
Proof using Type.
  refine (cast_if (decide (Exists (fun j => vpn vb = vpn (page_after va j)) (seqZ 0 n)))).
  - abstract (apply Exists_exists in e as (j & Hj%elem_of_seqZ & E); exists j; split; [lia | done]).
  - abstract (intros (j & Hj & E); apply n0, Exists_exists; exists j;
      split; [apply elem_of_seqZ; lia | done]).
Defined.

Lemma vpn_u64 va : vpn (u64 va) = vpn va.
Proof using Type. unfold vpn, u64. lia_mod. Qed.

Lemma phys_to_pte_u64 pa f : phys_to_pte (u64 pa) f = phys_to_pte pa f.
Proof using Type.
  unfold phys_to_pte. rewrite !land_mask. unfold u64. f_equal.
  change (2 ^ 64) with (2 ^ 48 * 2 ^ 16). change (2 ^ 48) with (2 ^ 12 * 2 ^ 36). lia_mod.
Qed.

Lemma PAGE_ALIGN_mod x : PAGE_ALIGN x = u64 (x + 4095) / 4096 * PAGE_SIZE.
Proof using Type.
  unfold PAGE_ALIGN. change (Z.lnot (PAGE_SIZE - 1)) with (Z.lnot (Z.ones 12)).
  rewrite land_lnot_ones by lia. unfold PAGE_SIZE. change (2 ^ 12) with 4096.
  replace (x + 4096 - 1) with (x + 4095) by lia. lia_mod.
Qed.

Lemma in_pages_succ va n vb : 0 <= n ->
  in_pages va (n + 1) vb <-> in_pages va n vb \/ vpn vb = vpn (page_after va n).
Proof using Type.
  intros Hn. split.
  - intros (j & Hj & E). destruct (decide (j = n)) as [->|]; [auto|]. left. exists j. split; [lia|done].
  - intros [(j & Hj & E)|E]; [exists j | exists n]; split; done || lia.
Qed.

Lemma unmap_loop_spec fuel : forall s va n k,
  vm_inv s kernel_pgd -> 0 <= k <= n -> n * PAGE_SIZE < 2 ^ 64 -> n - k < Z.of_nat fuel ->
  exists s', unmap_loop kernel_pgd early_tables fuel s va (n * PAGE_SIZE) (k * PAGE_SIZE) = Ok s' /\
    vm_inv s' kernel_pgd /\ same_rest s s' /\
    forall vb, translation s' kernel_pgd vb =
      if decide (in_pages (page_after va k) (n - k) vb) then None else translation s kernel_pgd vb.
Proof using Type*.
  induction fuel as [|fuel IH]; intros s va n k I Hk Hn Hf; [lia|]. cbn [unmap_loop].
  unfold PAGE_SIZE in *. destruct (Z.ltb_spec (k * 4096) (n * 4096)) as [Hlt|Hge].
  - destruct (unmap_page_spec s (u64 (va + k * 4096)) I) as (ret & s1 & -> & I1 & Hr1 & _ & Ht1).
    rewrite bind_ok. cbn [snd]. rewrite u64_small by lia.
    replace (k * 4096 + 4096) with ((k + 1) * 4096) by lia.
    destruct (IH s1 va n (k + 1)) as (s' & -> & I' & Hr' & Ht'); [done | lia | lia | lia |].
    exists s'. split; [done|]. split; [done|].
    split; [unfold same_rest in *; intuition congruence|]. intros vb. rewrite Ht', Ht1, vpn_u64.
    change (va + k * 4096) with (page_after va k).
    destruct (decide (in_pages (page_after va (k + 1)) (n - (k + 1)) vb)) as [Hin|Hout];
      destruct (decide (vpn vb = vpn (page_after va k))) as [E|E];
      destruct (decide (in_pages (page_after va k) (n - k) vb)) as [Hin'|Hout']; try done;
      exfalso.
    + apply Hout'. exists 0. unfold page_after, PAGE_SIZE in *. split; [lia|].
      by rewrite Z.add_0_r.
    + apply Hout'. destruct Hin as (j & Hj & Ej). exists (j + 1). split; [lia|].
      rewrite Ej. f_equal. unfold page_after, PAGE_SIZE. lia.
    + apply Hout'. exists 0. unfold page_after, PAGE_SIZE in *. split; [lia|].
      by rewrite Z.add_0_r.
    + destruct Hin' as (j & Hj & Ej). destruct (decide (j = 0)) as [->|].
      * apply E. rewrite Ej. f_equal. unfold page_after. lia.
      * apply Hout. exists (j - 1). split; [lia|]. rewrite Ej. f_equal.
        unfold page_after, PAGE_SIZE. lia.
  - exists s. split; [done|]. split; [done|]. split; [done|]. intros vb. rewrite decide_False; [done|].
    intros (j & Hj & _). lia.
Qed.

(** How many pages [PAGE_ALIGN size] covers. *)
Definition npages (size : Z) : Z := u64 (size + 4095) / 4096.

Lemma npages_range size : 0 <= npages size < 2 ^ 52 /\ PAGE_ALIGN size = npages size * PAGE_SIZE.
Proof using Type.
  rewrite PAGE_ALIGN_mod. unfold npages. pose proof (u64_range (size + 4095)). lia_mod.
Qed.

Lemma unmap_range_spec s va size : vm_inv s kernel_pgd ->
  exists s', vmm_unmap_range kernel_pgd early_tables s va size = Ok (0, s') /\
    vm_inv s' kernel_pgd /\ same_rest s s' /\
    forall vb, translation s' kernel_pgd vb =
      if decide (in_pages (PAGE_ALIGN_DOWN va) (npages size) vb) then None
      else translation s kernel_pgd vb.
Proof using Type*.
  intros I. unfold vmm_unmap_range. cbv zeta. destruct (npages_range size) as [Hn ->].
  rewrite Z.div_mul by done.
  destruct (unmap_loop_spec (S (Z.to_nat (npages size))) s (PAGE_ALIGN_DOWN va) (npages size) 0)
    as (s' & Hl & I' & Hr & Ht); [done | lia | unfold PAGE_SIZE; lia | lia |].
  rewrite Z.mul_0_l in Hl. rewrite Hl, bind_ok. exists s'. split; [done|]. split; [done|].
  split; [done|]. intros vb. rewrite Ht. rewrite Z.sub_0_r.
  by replace (page_after (PAGE_ALIGN_DOWN va) 0) with (PAGE_ALIGN_DOWN va) by (unfold page_after; lia).
Qed.

(** [s1] is [s0] with [k] pages from [va], none of them mapped before, mapped to
    the [k] frames from [pa]. *)
Definition mapped_run s0 s1 (va pa flags k : Z) : Prop :=
  (forall j, 0 <= j < k ->
     translation s0 kernel_pgd (page_after va j) = None /\
     translation s1 kernel_pgd (page_after va j) =
       Some (phys_to_pte (page_after pa j) (vm_flags_to_pte flags))) /\
  (forall vb, ~ in_pages va k vb -> translation s1 kernel_pgd vb = translation s0 kernel_pgd vb).

#[local] Lemma mapped_run_succ s0 s s1 va pa flags k : 0 <= k ->
  mapped_run s0 s va pa flags k -> translation s kernel_pgd (page_after va k) = None ->
  (forall vb, translation s1 kernel_pgd vb =
     if decide (vpn vb = vpn (page_after va k))
     then Some (phys_to_pte (page_after pa k) (vm_flags_to_pte flags))
     else translation s kernel_pgd vb) ->
  mapped_run s0 s1 va pa flags (k + 1).
Proof using Type.
  intros Hk [Hin Hout] Hnone Ht1. split.
  - intros j Hj. rewrite Ht1. destruct (decide (j = k)) as [->|Hne].
    + rewrite decide_True by done. split; [|done]. rewrite <- Hout; [done|].
      intros (i & Hi & Ei). apply translation_vpn with (s := s) (root := kernel_pgd) in Ei.
      destruct (Hin i Hi) as [_ Hs]. congruence.
    + destruct (Hin j ltac:(lia)) as [Hn Hs]. split; [done|]. rewrite decide_False; [done|].
      intros Ei. apply translation_vpn with (s := s) (root := kernel_pgd) in Ei. congruence.
  - intros vb Hv. rewrite in_pages_succ in Hv by done. rewrite Ht1, decide_False by tauto.
    apply Hout. tauto.
Qed.

#[local] Lemma rollback s0 s va pa flags k : mapped_run s0 s va pa flags k ->
  forall vb, (if decide (in_pages va k vb) then None else translation s kernel_pgd vb) =
    translation s0 kernel_pgd vb.
Proof using Type.
  intros [Hin Hout] vb. case_decide as E; [|by apply Hout]. destruct E as (j & Hj & E).
  rewrite (translation_vpn _ _ _ _ E). symmetry. by apply Hin.
Qed.

Lemma map_loop_spec fuel : forall s0 s va pa n flags k,
  vm_inv s kernel_pgd -> va mod PAGE_SIZE = 0 -> 0 <= k <= n -> n < 2 ^ 52 ->
  n - k < Z.of_nat fuel -> mapped_run s0 s va pa flags k ->
  exists ret s', map_loop kernel_pgd early_tables fuel s va pa (n * PAGE_SIZE) flags (k * PAGE_SIZE)
      = Ok (ret, s') /\ vm_inv s' kernel_pgd /\ same_rest s s' /\
    ((ret = 0 /\ mapped_run s0 s' va pa flags n) \/
     (ret = -1 /\ forall vb, translation s' kernel_pgd vb = translation s0 kernel_pgd vb)).
Proof using Type*.
  induction fuel as [|fuel IH]; intros s0 s va pa n flags k I Hva Hk Hn Hf Hrun; [lia|].
  cbn [map_loop]. destruct (Z.ltb_spec (k * PAGE_SIZE) (n * PAGE_SIZE)) as [Hlt|Hge].
  - destruct (map_page_spec s (u64 (va + k * PAGE_SIZE)) (u64 (pa + k * PAGE_SIZE)) flags I)
      as (ret & s1 & -> & I1 & Hr1 & [[-> Ht1] | (-> & Hnone & Ht1)]);
      rewrite bind_ok; cbv beta iota.
    + change (-1 <? 0) with true. cbv iota.
      destruct (unmap_range_spec s1 va (k * PAGE_SIZE) I1) as (s2 & -> & I2 & Hr2 & Ht2).
      rewrite bind_ok. exists (-1), s2. split; [done|]. split; [done|].
      split; [unfold same_rest in *; intuition congruence|]. right. split; [done|].
      intros vb. rewrite Ht2, Ht1, PAGE_ALIGN_DOWN_spec, Hva, Z.sub_0_r.
      assert (npages (k * PAGE_SIZE) = k) as ->.
      { unfold npages, PAGE_SIZE in *. rewrite u64_small by lia. lia_mod. }
      by eapply rollback.
    + change (0 <? 0) with false. cbv iota. unfold PAGE_SIZE in *. rewrite u64_small by lia.
      replace (k * 4096 + 4096) with ((k + 1) * 4096) by lia.
      destruct (IH s0 s1 va pa n flags (k + 1) I1) as (ret & s' & -> & I' & Hr' & Hres);
        [done | lia | done | lia | |].
      * apply mapped_run_succ with s; [lia | done | |].
        -- rewrite <- Hnone. apply translation_vpn. by rewrite vpn_u64.
        -- intros vb. by rewrite Ht1, vpn_u64, phys_to_pte_u64.
      * exists ret, s'. split; [done|]. split; [done|].
        split; [unfold same_rest in *; intuition congruence | done].
  - assert (k = n) as -> by (unfold PAGE_SIZE in *; lia). exists 0, s.
    do 3 (split; [done|]). by left.
Qed.

Lemma map_range_spec s va pa size flags : vm_inv s kernel_pgd ->
  exists ret s', vmm_map_range kernel_pgd early_tables s va pa size flags = Ok (ret, s') /\
    vm_inv s' kernel_pgd /\ same_rest s s' /\
    ((ret = 0 /\ mapped_run s s' (PAGE_ALIGN_DOWN va) (PAGE_ALIGN_DOWN pa) flags (npages size)) \/
     (ret = -1 /\ forall vb, translation s' kernel_pgd vb = translation s kernel_pgd vb)).
Proof using Type*.
  intros I. unfold vmm_map_range. cbv zeta. destruct (npages_range size) as [Hn ->].
  rewrite Z.div_mul by done.
  pose proof (map_loop_spec (S (Z.to_nat (npages size))) s s (PAGE_ALIGN_DOWN va)
    (PAGE_ALIGN_DOWN pa) (npages size) flags 0) as Hl.
  rewrite Z.mul_0_l in Hl. apply Hl; try done; try lia.
  - rewrite PAGE_ALIGN_DOWN_spec. unfold PAGE_SIZE. lia_mod.
  - split; [intros; lia|]. intros vb _. done.
Qed.
End vmm_spec.
