(* ===== verification/VmmUser.v ===== *)
(** * The virtual memory manager: boot mappings, user pages and areas *)
From S2P Require Import Prelude DList AllocSpec Vmm PageTable VmmSpec.
#[local] Open Scope Z_scope.

(** Writing entries that are not table descriptors where none was does not change
    any walk. *)
Lemma walk_same_steps (ph ph' : gmap Z (gmap Z Z)) root q :
  (forall u j, step ph' u j = step ph u j) -> walk ph' root q = walk ph root q.
Proof.
  intros Hs. induction q as [|j q IH] using rev_ind; [done|]. rewrite !walk_snoc, IH.
  destruct (walk ph root q); [apply Hs | done].
Qed.

Lemma step_insert_nontable (ph : gmap Z (gmap Z Z)) t tb i e :
  ph !! t = Some tb -> step ph t i = None -> pte_is_table e = false ->
  forall u j, step (<[t := <[i := e]> tb]> ph) u j = step ph u j.
Proof.
  intros Htb Hs He u j. unfold step. rewrite (entry_insert _ _ _ _ _ _ _ Htb).
  case_decide as E; [|done]. destruct E as [-> ->]. rewrite He. unfold step in Hs.
  by destruct (pte_is_table (entry ph t i)).
Qed.

Section vmm_user.
Context {P : Type} `{PageAllocatorLaws P}.
Context (kernel_pgd early_tables : Z).
Implicit Types (s : vmm P) (root va : Z).

#[local] Abbreviation vm_inv := (vm_inv early_tables).
#[local] Abbreviation vm_base := (vm_base early_tables).
#[local] Abbreviation owned := (owned early_tables).

(** ** User pages *)

(** Every valid entry on the way to the leaf table of [va], from level [n] on, is a table. *)
Definition no_block s root va (n : nat) : Prop :=
  forall m u, (n <= m < 3)%nat -> walk (phys s) root (walk_prefix va m) = Some u ->
    pte_is_valid (entry (phys s) u (pte_index va (Z.of_nat m))) = true ->
    pte_is_table (entry (phys s) u (pte_index va (Z.of_nat m))) = true.

(** The two walkers of the file agree: [vmm_map_user_page]'s own walk is
    [walk_page_table] with allocation, when no block mapping is in the way. *)
Lemma user_walk_eq fuel : forall s root va t n,
  vm_inv s root -> (n + fuel = 3)%nat -> walk (phys s) root (walk_prefix va n) = Some t ->
  no_block s root va n ->
  user_walk early_tables fuel s t va (Z.of_nat n) =
    (r ← walk_levels early_tables fuel s t va (Z.of_nat n) true;
     Ok (if fst r =? 0 then None else Some (fst r), snd r)).
Proof using Type*.
  induction fuel as [|fuel IH]; intros s root va t n I Hn Ht Hnb; cbn [user_walk walk_levels].
  - cbn. pose proof I as [Hb Htree].
    destruct (tree_ok _ _ _ Htree (walk_prefix va n) t) as [Ho _]; [rewrite walk_prefix_length; lia | done |].
    rewrite (proj2 (Z.eqb_neq t 0)); [done|]. destruct (owned_frame early_tables s t Hb Ho). lia.
  - pose proof I as [Hb Htree].
    assert (length (walk_prefix va n) < 3)%nat as Hlen by (rewrite walk_prefix_length; lia).
    destruct (tree_ok _ _ _ Htree (walk_prefix va n) t ltac:(lia) Ht) as [Hot [tb Htb]].
    unfold walk_create. rewrite get_entry_ok by eauto. rewrite !bind_ok.
    set (i := pte_index va (Z.of_nat n)) in *. set (pte := entry (phys s) t i) in *.
    assert ((Z.land pte PTE_VALID =? 0) = negb (pte_is_valid pte)) as ->
      by (unfold pte_is_valid; by rewrite negb_involutive).
    replace (Z.of_nat n + 1) with (Z.of_nat (S n)) by lia.
    destruct (pte_is_valid pte) eqn:Ev; cbn [negb].
    + assert (pte_is_table pte = true) as Htab by (apply (Hnb n t); done || lia).
      rewrite Htab, bind_ok. cbv beta iota.
      apply IH with root; [done | lia | |].
      * rewrite walk_prefix_S, walk_snoc, Ht. simpl. unfold step. fold i. fold pte.
        by rewrite Htab.
      * intros m u Hm. apply Hnb. lia.
    + destruct (alloc_page_table_spec early_tables s Hb)
        as [-> | (t' & s1 & -> & Hph & Hb1 & Hrest & Hf & Hno & Ho & Hmono)]; [done|].
      rewrite !bind_ok. cbv beta iota. rewrite (proj2 (Z.eqb_neq t' 0)) by (destruct Hf; lia).
      assert (t <> t') as Hne by by intros ->.
      rewrite <- Z.lor_assoc. change (Z.lor (Z.land t' PTE_ADDR_MASK) (Z.lor PTE_VALID PTE_PAGE))
        with (phys_to_pte t' (Z.lor PTE_VALID PTE_TABLE)).
      rewrite (set_entry_ok _ _ _ _ tb) by (by rewrite Hph, lookup_insert_ne).
      rewrite !bind_ok, Hph. set (e := phys_to_pte t' (Z.lor PTE_VALID PTE_TABLE)).
      assert (forall q u, (length q <= 3)%nat -> walk (phys s) root q = Some u -> u <> t') as Hfresh.
      { intros q u Hq Hu ->. apply Hno. by eapply tree_ok. }
      assert (pte_is_table e = true) as Het by (unfold e; by rewrite table_phys_to_pte).
      assert (pte_to_phys e = t') as Hep.
      { unfold e. rewrite pte_to_phys_phys_to_pte by done. by apply pte_to_phys_frame. }
      assert (step (phys s) t i = None) as Hstep by (by apply step_invalid).
      set (s2 := with_phys s1 _).
      assert (phys s2 = <[t := <[i := e]> tb]> (<[t' := ∅]> (phys s))) as Hph2 by done.
      rewrite get_entry_ok by (rewrite Hph2, lookup_insert_eq; eauto). rewrite !bind_ok.
      rewrite Hph2, (entry_insert _ _ _ _ _ _ tb), decide_True
        by (done || by rewrite lookup_insert_ne). cbv beta iota.
      change (Z.land e PTE_ADDR_MASK) with (pte_to_phys e). rewrite Hep.
      rewrite (set_entry_ok s1 t i e tb) by (by rewrite Hph, lookup_insert_ne).
      rewrite bind_ok, Hph.
      change (with_phys s1 (<[t := <[i := e]> tb]> (<[t' := ∅]> (phys s)))) with s2.
      assert (forall q, (length q <= 3)%nat -> walk (phys s2) root q =
        if decide (q = walk_prefix va n ++ [i]) then Some t' else walk (phys s) root q) as Hlw.
      { intros q Hq. rewrite Hph2.
        by apply (link_walk (phys s) root t t' i e tb (walk_prefix va n) (owned s) (owned s2)). }
      apply IH with root; [|lia| |].
      * split; [by destruct Hb1|].
        by eapply (link_tree (phys s) root t t' i e tb (walk_prefix va n) (owned s) (owned s2)).
      * rewrite walk_prefix_S. rewrite Hlw, decide_True; [done | done |].
        rewrite length_app, walk_prefix_length. simpl. lia.
      * intros m u Hm. rewrite Hlw by (rewrite walk_prefix_length; lia). case_decide as E.
        -- intros [= <-]. rewrite Hph2, (entry_insert _ _ _ _ _ _ tb), decide_False
             by first [intros [Heq _]; by apply Hne | by rewrite lookup_insert_ne].
           by rewrite entry_zero, decide_True.
        -- intros Hu. exfalso. destruct (decide (m = S n)) as [->|].
           { apply E. by rewrite walk_prefix_S. }
           assert (walk (phys s) root (walk_prefix va (S n + (m - S n))) = None) as Hnone.
           { apply walk_none_extend. rewrite walk_prefix_S, walk_snoc, Ht. exact Hstep. }
           replace (S n + (m - S n))%nat with m in Hnone by lia. congruence.
Qed.

Lemma user_pte_valid pa flags : pte_is_valid (user_pte pa flags) = true.
Proof using Type.
  unfold user_pte. set (f := Z.lor _ PTE_PXN).
  change (Z.lor (Z.land pa PTE_ADDR_MASK) f) with (phys_to_pte pa f).
  rewrite valid_phys_to_pte. unfold f. by destruct (has flags VM_WRITE), (has flags VM_EXEC).
Qed.

Lemma map_user_page_spec s mm m va pa flags :
  mm <> 0 -> mm_pool s !! mm = Some m -> pgd m <> 0 -> va < USER_VMA_END ->
  vm_inv s (pgd m) -> no_block s (pgd m) va 0 ->
  exists ret s', vmm_map_user_page early_tables s mm va pa flags = Ok (ret, s') /\
    vm_inv s' (pgd m) /\ same_rest s s' /\
    ((ret = -1 /\ forall vb, translation s' (pgd m) vb = translation s (pgd m) vb) \/
     (ret = 0 /\ forall vb, translation s' (pgd m) vb =
        if decide (vpn vb = vpn va) then Some (user_pte pa flags)
        else translation s (pgd m) vb)).
Proof using Type*.
  intros Hmm Hm Hpgd Hva I Hnb. unfold vmm_map_user_page, get_mm.
  rewrite (proj2 (Z.eqb_neq _ _) Hmm), Hm. cbn [of_option]. rewrite bind_ok.
  rewrite (proj2 (Z.eqb_neq _ _) Hpgd), (proj2 (Z.leb_gt _ _) Hva).
  pose proof (user_walk_eq 3 s (pgd m) va (pgd m) 0 I) as Hw. change (Z.of_nat 0) with 0 in Hw.
  rewrite Hw by done. clear Hw.
  destruct (walk_allocate early_tables 3 s (pgd m) va (pgd m) 0 I)
    as (r & s1 & Hw & I1 & Hr & Ht & Hres); [done..|].
  change (Z.of_nat 0) with 0 in Hw. rewrite Hw, !bind_ok. cbn [fst snd].
  destruct (Z.eqb_spec r 0) as [->|Hr0]; [exists (-1), s1; auto 10|].
  specialize (Hres Hr0). pose proof I1 as [Hb1 Htree1].
  destruct (tree_ok _ _ _ Htree1 (path va) r ltac:(by rewrite path_length) Hres) as [_ [tb Htb]].
  rewrite (set_entry_ok _ _ _ _ tb) by done. rewrite bind_ok.
  eexists 0, _. split; [done|]. split.
  { split; [by destruct Hb1|].
    exact (write_tree (phys s1) (pgd m) r _ va tb (owned s1) Htree1 Hres Htb). }
  split; [done|]. right. split; [done|]. intros vb.
  unfold translation at 1. cbn [phys with_phys].
  rewrite (write_leaf (phys s1) (pgd m) r _ va tb (owned s1) Htree1 Hres Htb).
  rewrite user_pte_valid. case_decide; [done | apply Ht].
Qed.

(** ** Areas *)

(** The areas of a list of nodes, in list order. *)
Definition area_has s (addr vma : Z) : bool :=
  match vma_pool s !! vma with
  | Some v => (vma_start v <=? addr) && (addr <? vma_end v)
  | None => false
  end.

Lemma find_vma_loop_spec s addr xs : forall fuel vma,
  chain vma_next (vma_pool s) vma xs -> (length xs < fuel)%nat ->
  find_vma_loop fuel s vma addr = Ok (default 0 (List.find (area_has s addr) xs)).
Proof using Type.
  induction xs as [|x xs IH]; intros [|fuel] vma Hc Hf; simpl in *; try lia.
  - by rewrite Hc.
  - destruct Hc as (-> & Hx & v & Hv & Hc). rewrite (proj2 (Z.eqb_neq _ _) Hx), Hv.
    unfold area_has at 1. rewrite Hv. simpl. destruct (_ && _); [done|].
    apply IH; [done|lia].
Qed.

(** The pool is filled from the front, so the next free area is in no list. *)
Definition vma_inv s : Prop :=
  0 <= vma_index s <= 256 /\ forall x, is_Some (vma_pool s !! x) -> 1 <= x <= vma_index s.

Definition mm_areas s mm xs : Prop :=
  exists m, mm_pool s !! mm = Some m /\ chain vma_next (vma_pool s) (vma_list m) xs.

Lemma mm_areas_length s mm xs : vma_inv s -> mm_areas s mm xs -> (length xs <= 256)%nat.
Proof using Type.
  intros [Hi Hk] (m & _ & Hc).
  enough ((length xs <= length (seqZ 1 256))%nat) by (rewrite length_seqZ in *; lia).
  apply submseteq_length, NoDup_submseteq; [by eapply chain_NoDup|].
  intros x Hx. destruct (chain_lookup _ _ _ _ _ Hc Hx) as [_ Hs]. apply Hk in Hs.
  apply elem_of_seqZ. lia.
Qed.

Lemma find_vma_spec s mm xs addr : mm <> 0 -> vma_inv s -> mm_areas s mm xs ->
  vmm_find_vma s mm addr = Ok (default 0 (List.find (area_has s addr) xs)).
Proof using Type.
  intros Hmm Hi Ha. pose proof (mm_areas_length _ _ _ Hi Ha). destruct Ha as (m & Hm & Hc).
  unfold vmm_find_vma, get_mm. rewrite (proj2 (Z.eqb_neq _ _) Hmm), Hm. cbn [of_option].
  rewrite bind_ok. apply find_vma_loop_spec; [done|lia].
Qed.

Lemma add_vma_spec s mm m xs start stop flags : mm <> 0 -> vma_inv s ->
  mm_pool s !! mm = Some m -> chain vma_next (vma_pool s) (vma_list m) xs -> vma_index s < 256 ->
  exists s' x, vmm_add_vma s mm start stop flags = Ok (0, s') /\ vma_inv s' /\
    (x ∉ xs) /\ mm_areas s' mm (x :: xs) /\ phys s' = phys s /\
    (forall addr, area_has s' addr x = (start <=? addr) && (addr <? stop)) /\
    (forall addr y, y ∈ xs -> area_has s' addr y = area_has s addr y).
Proof using Type.
  intros Hmm [Hi Hk] Hm Hc Hlt. unfold vmm_add_vma, get_mm.
  rewrite (proj2 (Z.eqb_neq _ _) Hmm), (proj2 (Z.leb_gt _ _)), Hm by lia. cbn [of_option].
  rewrite bind_ok. eexists _, (vma_index s + 1). split; [done|].
  assert (forall y, y ∈ xs -> y <> vma_index s + 1) as Hne.
  { intros y Hy. destruct (chain_lookup _ _ _ _ _ Hc Hy) as [_ Hs]. apply Hk in Hs. lia. }
  split; [|split; [intros Hx; by apply (Hne _ Hx)|split; [|split; [done|split]]]].
  - split; cbn; [lia|]. intros x. destruct (decide (x = vma_index s + 1)) as [->|]; [lia|].
    rewrite lookup_insert_ne by done. intros Hx. apply Hk in Hx. lia.
  - eexists. cbn. rewrite lookup_insert_eq. split; [done|]. split; [done|]. split; [cbn; lia|].
    eexists. rewrite lookup_insert_eq. split; [done|]. cbn. apply chain_insert_out; [|done].
    intros Hx. by apply (Hne _ Hx).
  - intros addr. unfold area_has. cbn. by rewrite lookup_insert_eq.
  - intros addr y Hy. unfold area_has. cbn. rewrite lookup_insert_ne; [done|].
    apply not_eq_sym. auto.
Qed.

(** ** Boot mappings *)

Lemma block_pte_not_table b (i : Z) : 0 <= i < 4 ->
  pte_is_table (device_block_pte b) = false /\ pte_is_table (ram_block_pte i) = false /\
  pte_is_valid (device_block_pte b) = true /\ pte_is_valid (ram_block_pte i) = true /\
  pte_to_phys (ram_block_pte i) = (i + 1) * 2 ^ 30.
Proof using Type.
  intros Hi. split; [|split; [|split]].
  2: by assert (i = 0 \/ i = 1 \/ i = 2 \/ i = 3) as [->|[->|[->| ->]]] by lia.
  3: by assert (i = 0 \/ i = 1 \/ i = 2 \/ i = 3) as [->|[->|[->| ->]]] by lia.
  all: unfold device_block_pte; rewrite <- !Z.lor_assoc.
  - change (Z.lor (Z.land b PTE_ADDR_MASK) ?f) with (phys_to_pte b f). by rewrite table_phys_to_pte.
  - change (Z.lor (Z.land b PTE_ADDR_MASK) ?f) with (phys_to_pte b f). by rewrite valid_phys_to_pte.
Qed.

(** One block descriptor written where no table was. *)
Lemma set_block s root t i e :
  vm_inv s root -> is_Some (phys s !! t) -> step (phys s) t i = None -> pte_is_table e = false ->
  exists s', set_entry s t i e = Ok s' /\ vm_inv s' root /\ is_Some (phys s' !! t) /\
    (forall u j, step (phys s') u j = step (phys s) u j) /\
    (forall u j, entry (phys s') u j = if decide (u = t /\ j = i) then e else entry (phys s) u j).
Proof using Type*.
  intros [Hb Htree] [tb Htb] Hs He. rewrite (set_entry_ok _ _ _ _ tb) by done.
  eexists. split; [done|]. cbn [phys with_phys].
  pose proof (step_insert_nontable (phys s) t tb i e Htb Hs He) as Hsame.
  split; [|split; [rewrite lookup_insert_eq; eauto|split; [done|]]].
  - split; [by destruct Hb|]. split.
    + intros p u Hp. cbn [phys with_phys]. rewrite (walk_same_steps _ _ _ _ Hsame). intros Hu.
      destruct (tree_ok _ _ _ Htree p u Hp Hu) as [Ho Hu']. split; [done|].
      destruct (decide (u = t)) as [->|]; [rewrite lookup_insert_eq; eauto | by rewrite lookup_insert_ne].
    + intros p q u Hp Hq. cbn [phys with_phys]. rewrite !(walk_same_steps _ _ _ _ Hsame).
      by apply (tree_inj _ _ _ Htree).
  - intros u j. by apply entry_insert.
Qed.

Lemma map_ram_blocks_spec n : forall s root t i,
  vm_inv s root -> is_Some (phys s !! t) -> (forall j, step (phys s) t j = None) ->
  0 <= i -> i + Z.of_nat n <= 4 ->
  exists s', map_ram_blocks n s t i = Ok s' /\ vm_inv s' root /\ is_Some (phys s' !! t) /\
    (forall u j, step (phys s') u j = step (phys s) u j) /\
    (forall u j, entry (phys s') u j =
       if decide (u = t /\ 1 + i <= j < 1 + i + Z.of_nat n) then ram_block_pte (j - 1)
       else entry (phys s) u j).
Proof using Type*.
  induction n as [|n IH]; intros s root t i I Ht Hs Hi Hn; cbn [map_ram_blocks].
  - exists s. split; [done|]. do 3 (split; [done|]). intros u j. rewrite decide_False; [done|lia].
  - destruct (set_block s root t (1 + i) (ram_block_pte i) I Ht (Hs _)) as (s1 & -> & I1 & Ht1 & Hs1 & He1).
    { by destruct (block_pte_not_table 0 i) as (_ & ? & _); [lia|]. }
    rewrite bind_ok. destruct (IH s1 root t (i + 1) I1 Ht1) as (s' & -> & I' & Ht' & Hs' & He').
    + intros j. by rewrite Hs1.
    + lia.
    + lia.
    + exists s'. do 3 (split; [done|]). split; [intros u j; by rewrite Hs', Hs1|].
      intros u j. rewrite He', He1.
      destruct (decide (u = t /\ 1 + (i + 1) <= j < 1 + (i + 1) + Z.of_nat n)) as [[-> Hj]|Hout].
      * rewrite decide_True by lia. done.
      * destruct (decide (u = t /\ j = 1 + i)) as [[-> ->]|Hne].
        -- rewrite decide_True by lia. f_equal. lia.
        -- rewrite decide_False; [done|]. intros [-> Hj]. apply Hne. split; [done|]. 
           destruct (decide (j = 1 + i)); [done|]. exfalso. apply Hout. split; [done|lia].
Qed.

Lemma ram_blocks_range m : 0 <= m -> 1 <= ram_blocks m <= 4.
Proof using Type.
  intros Hm. unfold ram_blocks. rewrite Z.shiftl_1_l.
  pose proof (Z.div_pos m (2 ^ 30) Hm ltac:(lia)).
  destruct (negb (m mod 2 ^ 30 =? 0)).
  - destruct (Z.eqb_spec (m / 2 ^ 30 + 1) 0); [lia|].
    destruct (Z.ltb_spec 4 (m / 2 ^ 30 + 1)); lia.
  - destruct (Z.eqb_spec (m / 2 ^ 30) 0); [done|].
    destruct (Z.ltb_spec 4 (m / 2 ^ 30)); lia.
Qed.

(** A walk stops at a block. *)
Lemma walk_blocked s va t b : is_Some (phys s !! kernel_pgd) -> is_Some (phys s !! t) ->
  step (phys s) kernel_pgd (pte_index va 0) = Some t ->
  pte_is_valid (entry (phys s) t (pte_index va 1)) = true ->
  pte_is_table (entry (phys s) t (pte_index va 1)) = false ->
  walk_levels early_tables 3 s kernel_pgd va 0 b = Ok (0, s).
Proof using Type.
  intros Hr Ht Hs Hv Hnt. cbn [walk_levels]. rewrite get_entry_ok, bind_ok by done.
  unfold step in Hs. destruct (pte_is_table (entry _ kernel_pgd _)) eqn:E; [|done].
  rewrite table_is_valid by done. cbn [negb]. injection Hs as ->.
  rewrite get_entry_ok, bind_ok by done. change (0 + 1) with 1. by rewrite Hv, Hnt.
Qed.

(** [va] lies in a 1GB block of the kernel's first L1 table. *)
Definition in_block s va : Prop :=
  exists t, step (phys s) kernel_pgd (pte_index va 0) = Some t /\
    let pte := entry (phys s) t (pte_index va 1) in
    pte_is_valid pte = true /\ pte_is_table pte = false /\ pte_to_phys pte = va - va mod 2 ^ 30.

Lemma vmm_init_spec s :
  vm_inv s kernel_pgd -> (forall i, entry (phys s) kernel_pgd i = 0) ->
  early_table_index s < EARLY_TABLES_COUNT -> 0 <= pa_total_memory (pm s) ->
  exists s', vmm_init kernel_pgd early_tables s = Ok (0, s') /\ vm_inv s' kernel_pgd /\
    forall va, 0 <= va < (1 + ram_blocks (pa_total_memory (pm s))) * 2 ^ 30 -> in_block s' va.
Proof using Type*.
  intros I Hz Hearly Hmem. pose proof I as [Hb Htree]. unfold vmm_init. cbv zeta.
  pose proof (ram_blocks_range _ Hmem) as Hblk. set (blocks := ram_blocks _) in *.
  change (pte_index 0 0) with 0.
  destruct (tree_ok _ _ _ Htree [] kernel_pgd ltac:(simpl; lia) eq_refl) as [Hok [tb Htb]].
  destruct (alloc_page_table_spec early_tables s Hb)
    as [Ha | (l1 & s1 & -> & Hph & Hb1 & Hrest & Hf & Hno & Ho & Hmono)].
  { exfalso. unfold alloc_page_table in Ha. rewrite (proj2 (Z.ltb_lt _ _) Hearly) in Ha.
    injection Ha as Ha _. pose proof Hb as [Hpm He Hst].
    destruct (law_page_frame (pm s) (Vmm.early_table early_tables (early_table_index s)) Hpm) as [Hpos _];
      [apply Hst; lia|]. lia. }
  rewrite bind_ok. cbv beta iota. rewrite (proj2 (Z.eqb_neq l1 0)) by (destruct Hf; lia).
  assert (kernel_pgd <> l1) as Hne by by intros <-.
  rewrite (set_entry_ok _ _ _ _ tb) by (by rewrite Hph, lookup_insert_ne).
  rewrite bind_ok, Hph. set (e := phys_to_pte l1 _). set (s2 := with_phys s1 _).
  assert (forall q u, (length q <= 3)%nat -> walk (phys s) kernel_pgd q = Some u -> u <> l1) as Hfresh.
  { intros q u Hq Hu ->. apply Hno. by eapply tree_ok. }
  assert (pte_is_table e = true) as Het by (unfold e; by rewrite table_phys_to_pte).
  assert (pte_to_phys e = l1) as Hep.
  { unfold e. rewrite pte_to_phys_phys_to_pte by done. by apply pte_to_phys_frame. }
  assert (step (phys s) kernel_pgd 0 = None) as Hstep by (unfold step; by rewrite Hz).
  assert (vm_inv s2 kernel_pgd) as I2.
  { split; [by destruct Hb1|].
    by eapply (link_tree (phys s) kernel_pgd kernel_pgd l1 0 e tb [] (owned s) (owned s2)); simpl; eauto; lia. }
  assert (forall u j, entry (phys s2) u j =
    if decide (u = kernel_pgd /\ j = 0) then e else if decide (u = l1) then 0 else entry (phys s) u j) as He2.
  { intros u j. cbn [phys with_phys s2]. rewrite (entry_insert _ _ _ _ _ _ tb) by (by rewrite lookup_insert_ne).
    case_decide; [done|]. apply entry_zero. }
  assert (forall j, step (phys s2) l1 j = None) as Hs2.
  { intros j. unfold step. rewrite He2, decide_False, decide_True by first [done | by intros [<- _]]. done. }
  assert (is_Some (phys s2 !! l1)) as Hl2.
  { cbn [phys with_phys s2]. rewrite lookup_insert_ne, lookup_insert_eq by done. eauto. }
  destruct (block_pte_not_table 0 0 ltac:(lia)) as (Hd0 & _ & Hv0 & _).
  destruct (set_block s2 kernel_pgd l1 0 (device_block_pte 0) I2 Hl2 (Hs2 0) Hd0)
    as (s3 & -> & I3 & Hl3 & Hs3 & He3).
  rewrite bind_ok.
  destruct (map_ram_blocks_spec (Z.to_nat blocks) s3 kernel_pgd l1 0 I3 Hl3) as (s4 & -> & I4 & Hl4 & Hs4 & He4);
    [intros j; by rewrite Hs3 | lia | lia |].
  rewrite bind_ok.
  destruct (block_pte_not_table 0x4000000000 0 ltac:(lia)) as (Hd6 & _).
  destruct (set_block s4 kernel_pgd l1 256 (device_block_pte 0x4000000000) I4 Hl4)
    as (s5 & -> & I5 & Hl5 & Hs5 & He5); [by rewrite Hs4, Hs3 | done|].
  rewrite bind_ok. exists s5. split; [done|]. split; [done|]. intros va Hva. exists l1.
  assert (pte_index va 0 = 0 /\ pte_index va 1 = va / 2 ^ 30) as [-> ->].
  { rewrite (pte_index_spec va 0 39), (pte_index_spec va 1 30) by (done || lia). split; lia_mod. }
  split.
  - rewrite Hs5, Hs4, Hs3. unfold step. rewrite He2, decide_True, Het, Hep by done. done.
  - cbv zeta. rewrite He5, He4, He3.
    assert (0 <= va / 2 ^ 30 <= blocks) as Hq by lia_mod.
    rewrite decide_False by lia. destruct (decide (va / 2 ^ 30 = 0)) as [Hz0|Hz0].
    + rewrite decide_False, decide_True by lia. split; [done|]. split; [done|].
      change (pte_to_phys (device_block_pte 0)) with 0. lia_mod.
    + rewrite decide_True by lia.
      destruct (block_pte_not_table 0 (va / 2 ^ 30 - 1) ltac:(lia)) as (_ & -> & _ & -> & ->).
      split; [done|]. split; [done|]. lia_mod.
Qed.

Lemma in_block_blocked s va : vm_inv s kernel_pgd -> in_block s va ->
  vmm_virt_to_phys kernel_pgd early_tables s va = Ok 0 /\
  forall pa flags, vmm_map_page kernel_pgd early_tables s va pa flags = Ok (-1, s).
Proof using Type*.
  intros [Hb Htree] (t & Hs & Hv & Hnt & _).
  assert (forall b, walk_levels early_tables 3 s kernel_pgd va 0 b = Ok (0, s)) as Hw.
  { intros b. apply walk_blocked with t; try done.
    - by apply (tree_ok _ _ _ Htree [] kernel_pgd ltac:(simpl; lia)).
    - apply (tree_ok _ _ _ Htree [pte_index va 0] t ltac:(simpl; lia)). simpl. by rewrite Hs. }
  split; [|intros pa flags]; unfold vmm_virt_to_phys, vmm_map_page, walk_page_table; by rewrite Hw, bind_ok.
Qed.
End vmm_user.
