(* ===== verification/VmmTheorems.v ===== *)
(** * The virtual memory manager: its theorems

    Stated over any page allocator that keeps [PageAllocatorLaws], and applied
    to the bitmap allocator of [Pmm] in the witnesses. *)
From S2P Require Import Prelude DList AllocSpec Vmm PageTable VmmSpec VmmUser Pmm PmmSpec.
#[local] Open Scope Z_scope.

Section theorems.
Context {P : Type} `{PageAllocatorLaws P}.
Context (kernel_pgd early_tables : Z).
Implicit Types (s : vmm P) (va vb pa : Z).

(** C29. [vmm_map_page] maps one page of the abstract translation: it succeeds
    only where nothing was mapped, then exactly that page translates, to the
    given frame; on failure no translation changes.  The tables it allocates
    on the way stay a tree of pages owned by the manager. *)
Theorem vmm_map_page_refines s va pa flags :
  vm_inv early_tables s kernel_pgd ->
  exists ret s', vmm_map_page kernel_pgd early_tables s va pa flags = Ok (ret, s') /\
    vm_inv early_tables s' kernel_pgd /\
    ((ret = -1 /\ forall vb, translation s' kernel_pgd vb = translation s kernel_pgd vb) \/
     (ret = 0 /\ translation s kernel_pgd va = None /\
      (forall vb, vpn vb <> vpn va -> translation s' kernel_pgd vb = translation s kernel_pgd vb) /\
      forall vb, vpn vb = vpn va ->
        translation s' kernel_pgd vb = Some (phys_to_pte pa (vm_flags_to_pte flags)) /\
        vmm_virt_to_phys kernel_pgd early_tables s' vb =
          Ok (Z.lor (Z.land pa PTE_ADDR_MASK) (Z.land vb (PAGE_SIZE - 1))))).
Proof using Type*.
  intros I. destruct (map_page_spec _ _ s va pa flags I)
    as (ret & s' & E & I' & _ & [[-> Ht] | (-> & Hn & Ht)]); eexists _, s'; eauto 10.
  split; [done|]. split; [done|]. right. split; [done|]. split; [done|]. split.
  - intros vb Hv. by rewrite Ht, decide_False.
  - intros vb Hv. assert (translation s' kernel_pgd vb = Some (phys_to_pte pa (vm_flags_to_pte flags))) as Hvb
      by (by rewrite Ht, decide_True).
    split; [done|]. rewrite virt_to_phys_spec, Hvb by done. simpl.
    by rewrite pte_to_phys_phys_to_pte by apply vm_flags_mask.
Qed.

(** [vmm_unmap_page] removes the translation of one page and no other; it
    returns -1 exactly when there was none, and the page then reads as unmapped. *)
Theorem vmm_unmap_page_refines s va :
  vm_inv early_tables s kernel_pgd ->
  exists ret s', vmm_unmap_page kernel_pgd early_tables s va = Ok (ret, s') /\
    vm_inv early_tables s' kernel_pgd /\
    ret = (if translation s kernel_pgd va is Some _ then 0 else -1) /\
    vmm_virt_to_phys kernel_pgd early_tables s' va = Ok 0 /\
    forall vb, translation s' kernel_pgd vb =
      if decide (vpn vb = vpn va) then None else translation s kernel_pgd vb.
Proof using Type*.
  intros I. destruct (unmap_page_spec _ _ s va I) as (ret & s' & E & I' & _ & Hret & Ht).
  exists ret, s'. do 3 (split; [done|]). split; [|done].
  by rewrite virt_to_phys_spec, Ht, decide_True.
Qed.

(** C30. [vmm_map_range] is all or nothing: it maps every page of the range to
    consecutive frames, or its rollback leaves every translation as it was. *)
Theorem vmm_map_range_atomic s va pa size flags :
  vm_inv early_tables s kernel_pgd ->
  exists ret s', vmm_map_range kernel_pgd early_tables s va pa size flags = Ok (ret, s') /\
    vm_inv early_tables s' kernel_pgd /\
    ((ret = 0 /\
      (forall j, 0 <= j < npages size ->
         translation s kernel_pgd (page_after (PAGE_ALIGN_DOWN va) j) = None /\
         translation s' kernel_pgd (page_after (PAGE_ALIGN_DOWN va) j) =
           Some (phys_to_pte (page_after (PAGE_ALIGN_DOWN pa) j) (vm_flags_to_pte flags))) /\
      forall vb, ~ in_pages (PAGE_ALIGN_DOWN va) (npages size) vb ->
        translation s' kernel_pgd vb = translation s kernel_pgd vb) \/
     (ret = -1 /\ forall vb, translation s' kernel_pgd vb = translation s kernel_pgd vb)).
Proof using Type*.
  intros I. destruct (map_range_spec _ _ s va pa size flags I) as (ret & s' & E & I' & _ & Hres).
  exists ret, s'. done.
Qed.

(** [vmm_init] covers the MMIO gigabyte and the detected RAM with identity
    blocks of 1GB and leaves a well-formed table tree.  In those blocks
    [vmm_virt_to_phys] answers 0, as for an unmapped address, and
    [vmm_map_page] refuses every page. *)
Theorem vmm_init_identity s :
  vm_inv early_tables s kernel_pgd -> (forall i, entry (phys s) kernel_pgd i = 0) ->
  early_table_index s < EARLY_TABLES_COUNT -> 0 <= pa_total_memory (pm s) ->
  exists s', vmm_init kernel_pgd early_tables s = Ok (0, s') /\ vm_inv early_tables s' kernel_pgd /\
    forall va, 0 <= va < (1 + ram_blocks (pa_total_memory (pm s))) * 2 ^ 30 ->
      in_block kernel_pgd s' va /\
      vmm_virt_to_phys kernel_pgd early_tables s' va = Ok 0 /\
      forall pa flags, vmm_map_page kernel_pgd early_tables s' va pa flags = Ok (-1, s').
Proof using Type*.
  intros I Hz He Hm. destruct (vmm_init_spec _ _ s I Hz He Hm) as (s' & E & I' & Hblk).
  exists s'. split; [done|]. split; [done|]. intros va Hva. specialize (Hblk va Hva).
  split; [done|]. by apply in_block_blocked.
Qed.

(** [vmm_map_user_page], which walks the tables by itself, sets the
    translation of one page of the address space and no other; unlike
    [vmm_map_page] it replaces a mapping that exists. *)
Theorem vmm_map_user_page_refines s mm m va pa flags :
  mm <> 0 -> mm_pool s !! mm = Some m -> pgd m <> 0 -> va < USER_VMA_END ->
  vm_inv early_tables s (pgd m) -> no_block s (pgd m) va 0 ->
  exists ret s', vmm_map_user_page early_tables s mm va pa flags = Ok (ret, s') /\
    vm_inv early_tables s' (pgd m) /\
    ((ret = -1 /\ forall vb, translation s' (pgd m) vb = translation s (pgd m) vb) \/
     (ret = 0 /\ forall vb, translation s' (pgd m) vb =
        if decide (vpn vb = vpn va) then Some (user_pte pa flags)
        else translation s (pgd m) vb)).
Proof using Type*.
  intros Hmm Hm Hp Hva I Hnb.
  destruct (map_user_page_spec _ s mm m va pa flags Hmm Hm Hp Hva I Hnb)
    as (ret & s' & E & I' & _ & Hres).
  exists ret, s'. done.
Qed.

(** After [vmm_add_vma] an address of the new area is found there, and any
    other address is found where it was before. *)
Theorem vmm_add_find_vma s mm m xs start stop flags :
  mm <> 0 -> vma_inv s -> mm_pool s !! mm = Some m ->
  chain vma_next (vma_pool s) (vma_list m) xs -> vma_index s < 256 ->
  exists s' x, vmm_add_vma s mm start stop flags = Ok (0, s') /\ vma_inv s' /\ x <> 0 /\
    mm_areas s' mm (x :: xs) /\
    forall addr, vmm_find_vma s' mm addr =
      if (start <=? addr) && (addr <? stop) then Ok x else vmm_find_vma s mm addr.
Proof using Type.
  intros Hmm Hi Hm Hc Hlt.
  destruct (add_vma_spec s mm m xs start stop flags Hmm Hi Hm Hc Hlt)
    as (s' & x & E & Hi' & _ & Ha & _ & Hx & Hxs).
  exists s', x. split; [done|]. split; [done|].
  assert (x <> 0) as Hx0 by (destruct Ha as (m' & _ & Hc'); by destruct (chain_lookup _ _ _ _ x Hc'); [left|]).
  split; [done|]. split; [done|]. intros addr.
  rewrite (find_vma_spec s' mm (x :: xs)) by done. cbn [List.find]. rewrite Hx.
  destruct (_ && _); [done|]. rewrite (find_vma_spec s mm xs) by (done || by exists m).
  f_equal. f_equal. clear -Hxs. induction xs as [|y xs IH]; [done|]. cbn [List.find].
  rewrite Hxs by (by left). destruct (area_has s addr y); [done|]. apply IH.
  intros a z Hz. apply Hxs. by right.
Qed.
End theorems.

(** ** Witnesses: sixteen pages of memory, six in use *)

Definition vm_pmm : pmm :=
  Pmm ∅ None 16 10 0x10000 MEMORY_BASE (MEMORY_BASE + 0x10000) {[ 0 := 63 ]} true MEMORY_BASE 0x10000.
Definition vm_pgd : Z := MEMORY_BASE.
Definition vm_tables : Z := MEMORY_BASE + 0x1000.
Definition vm_user : Z := MEMORY_BASE + 0x5000.

(** One empty table, for the kernel or for the address space of slot 1. *)
Definition boot_vmm (root : Z) : vmm pmm :=
  Vmm vm_pmm 0 {[ root := ∅ ]} {[ 1 := Mm vm_user 0 0 1 ]} 1 ∅ 0.

Lemma vm_pmm_live p : 0 <= p < 6 -> pmm_live vm_pmm (MEMORY_BASE + p * PAGE_SIZE).
Proof.
  intros Hp. exists p. split; [simpl; lia|]. split; [done|].
  assert (p = 0 \/ p = 1 \/ p = 2 \/ p = 3 \/ p = 4 \/ p = 5) as Hc by lia.
  by repeat destruct Hc as [->|Hc]; [..|subst].
Qed.

Lemma tree_single root (ok : Z -> Prop) : ok root -> tree {[ root := ∅ ]} root ok.
Proof.
  intros Hok. assert (forall p t, walk {[ root := ∅ ]} root p = Some t -> p = [] /\ t = root) as Hw.
  { intros [|i p] t; [by intros [= <-]|]. simpl. unfold step, entry. by rewrite lookup_singleton_eq. }
  split.
  - intros p t _ [-> ->]%Hw. rewrite lookup_singleton_eq. eauto.
  - by intros p q t _ _ [-> _]%Hw [-> _]%Hw.
Qed.

Lemma boot_vmm_inv root k : root = MEMORY_BASE + k * PAGE_SIZE -> k = 0 \/ k = 5 ->
  vm_inv vm_tables (boot_vmm root) root.
Proof.
  intros -> Hk. split; [split|].
  - split; [split; by vm_compute|]. split; by vm_compute.
  - by vm_compute.
  - intros i Hi. unfold Vmm.early_table, vm_tables. cbn in Hi.
    replace (MEMORY_BASE + 0x1000 + i * PAGE_SIZE) with (MEMORY_BASE + (i + 1) * PAGE_SIZE)
      by (unfold PAGE_SIZE; lia).
    apply vm_pmm_live. unfold EARLY_TABLES_COUNT in Hi. lia.
  - apply tree_single. split; [apply vm_pmm_live; lia|]. intros i Hi Heq.
    unfold Vmm.early_table, vm_tables, PAGE_SIZE, MEMORY_BASE in Heq. cbn in Hi. unfold EARLY_TABLES_COUNT in Hi. lia.
Qed.

Lemma vmm_map_page_refines_witness :
  exists ret s', vmm_map_page vm_pgd vm_tables (boot_vmm vm_pgd) 0x8000000000 0x1234000 3 = Ok (ret, s') /\
    vm_inv vm_tables s' vm_pgd.
Proof.
  destruct (vmm_map_page_refines vm_pgd vm_tables (boot_vmm vm_pgd) 0x8000000000 0x1234000 3
    (boot_vmm_inv vm_pgd 0 eq_refl (or_introl eq_refl))) as (ret & s' & E & I & _).
  by exists ret, s'.
Defined.

Lemma vmm_unmap_page_refines_witness :
  exists ret s', vmm_unmap_page vm_pgd vm_tables (boot_vmm vm_pgd) 0x8000000000 = Ok (ret, s') /\ ret = -1.
Proof.
  destruct (vmm_unmap_page_refines vm_pgd vm_tables (boot_vmm vm_pgd) 0x8000000000
    (boot_vmm_inv vm_pgd 0 eq_refl (or_introl eq_refl))) as (ret & s' & E & I & Hr & _).
  exists ret, s'. split; [done|]. rewrite Hr. by vm_compute.
Defined.

Lemma vmm_map_range_atomic_witness :
  exists ret s', vmm_map_range vm_pgd vm_tables (boot_vmm vm_pgd) 0x8000000123 0x40000000 8192 3 = Ok (ret, s') /\
    vm_inv vm_tables s' vm_pgd.
Proof.
  destruct (vmm_map_range_atomic vm_pgd vm_tables (boot_vmm vm_pgd) 0x8000000123 0x40000000 8192 3
    (boot_vmm_inv vm_pgd 0 eq_refl (or_introl eq_refl))) as (ret & s' & E & I & _).
  by exists ret, s'.
Defined.

Lemma vmm_init_identity_witness :
  exists s', vmm_init vm_pgd vm_tables (boot_vmm vm_pgd) = Ok (0, s') /\
    vmm_virt_to_phys vm_pgd vm_tables s' 0x40080000 = Ok 0.
Proof.
  destruct (vmm_init_identity vm_pgd vm_tables (boot_vmm vm_pgd)
    (boot_vmm_inv vm_pgd 0 eq_refl (or_introl eq_refl))) as (s' & E & I & Hb); [|done|by vm_compute|].
  - intros i. unfold entry. simpl. by rewrite lookup_singleton_eq.
  - exists s'. split; [done|]. by apply Hb.
Defined.

Lemma vmm_map_user_page_refines_witness :
  exists ret s', vmm_map_user_page vm_tables (boot_vmm vm_user) 1 0x400000 0x1234000 2 = Ok (ret, s') /\
    vm_inv vm_tables s' vm_user.
Proof.
  destruct (vmm_map_user_page_refines vm_tables (boot_vmm vm_user) 1 (Mm vm_user 0 0 1)
    0x400000 0x1234000 2) as (ret & s' & E & I & _); try done.
  - exact (boot_vmm_inv vm_user 5 eq_refl (or_intror eq_refl)).
  - intros m u Hm. destruct m as [|m].
    + intros [= <-]. unfold entry. simpl. by rewrite lookup_singleton_eq.
    + unfold walk_prefix. simpl. unfold step, entry. by rewrite lookup_singleton_eq.
  - by exists ret, s'.
Defined.

Lemma vmm_add_find_vma_witness :
  exists s' x, vmm_add_vma (boot_vmm vm_user) 1 0x1000 0x3000 3 = Ok (0, s') /\
    vmm_find_vma s' 1 0x2000 = Ok x /\ x <> 0.
Proof.
  destruct (vmm_add_find_vma (boot_vmm vm_user) 1 (Mm vm_user 0 0 1) [] 0x1000 0x3000 3)
    as (s' & x & E & _ & Hx & _ & Hf); try done.
  - split; [by vm_compute|]. intros x Hx. simpl in Hx. rewrite lookup_empty in Hx. by destruct Hx.
  - exists s', x. split; [done|]. by rewrite Hf.
Defined.
