(* ===== verification/Sched.v ===== *)
(** * The scheduler (src/kernel/sched/sched.c): state and operations

    Tasks live in a map from [task_struct *] values: [&init_task] is 1,
    [&task_pool[i]] is [i + 2] and 0 is the null pointer.  [cpu_switch_to] is
    assembly and saves registers only; control leaves the calling task there, so
    an operation that ends in [schedule] gives the state in which the next task
    runs.  Stacks come from the page allocator of [Pmm]. *)
From S2P Require Import Prelude Pmm.
#[local] Open Scope Z_scope.

Definition MAX_TASKS : Z := 256.
Definition TASK_COMM_LEN : Z := 16.
Definition KERNEL_STACK_SIZE : Z := 16 * 1024.
Definition PRIO_DEFAULT : Z := 0.
Definition PF_KTHREAD : Z := 1.
Definition PF_EXITING : Z := 2.
Definition PF_IDLE : Z := 4.
Definition PF_THREAD : Z := 32.
Definition CLONE_VM : Z := Z.shiftl 1 8.
Definition CLONE_THREAD : Z := Z.shiftl 1 16.

Inductive task_state :=
| TASK_RUNNING | TASK_INTERRUPTIBLE | TASK_UNINTERRUPTIBLE
| TASK_STOPPED | TASK_ZOMBIE | TASK_DEAD.

#[export] Instance task_state_eq_dec : EqDecision task_state.
Proof. solve_decision. Defined.

Record task := Task {
  t_state : task_state; t_prio : Z; t_static_prio : Z; t_nice : Z;
  t_pid : Z; t_tgid : Z; t_uid : Z; t_gid : Z; t_comm : list Z;
  t_sp : Z; t_pc : Z; t_x19 : Z; t_mm : Z; t_active_mm : Z;
  t_stack : Z; t_stack_size : Z; t_parent : Z; t_next : Z; t_prev : Z;
  t_exit_code : Z; t_signals : Z; t_pending_signals : Z; t_flags : Z
}.

Definition with_state (t : task) (st : task_state) : task :=
  Task st (t_prio t) (t_static_prio t) (t_nice t) (t_pid t) (t_tgid t) (t_uid t) (t_gid t)
    (t_comm t) (t_sp t) (t_pc t) (t_x19 t) (t_mm t) (t_active_mm t) (t_stack t) (t_stack_size t)
    (t_parent t) (t_next t) (t_prev t) (t_exit_code t) (t_signals t) (t_pending_signals t) (t_flags t).
Definition with_links (t : task) (nx pv : Z) : task :=
  Task (t_state t) (t_prio t) (t_static_prio t) (t_nice t) (t_pid t) (t_tgid t) (t_uid t) (t_gid t)
    (t_comm t) (t_sp t) (t_pc t) (t_x19 t) (t_mm t) (t_active_mm t) (t_stack t) (t_stack_size t)
    (t_parent t) nx pv (t_exit_code t) (t_signals t) (t_pending_signals t) (t_flags t).
Definition with_exit (t : task) (code flags : Z) : task :=
  Task (t_state t) (t_prio t) (t_static_prio t) (t_nice t) (t_pid t) (t_tgid t) (t_uid t) (t_gid t)
    (t_comm t) (t_sp t) (t_pc t) (t_x19 t) (t_mm t) (t_active_mm t) (t_stack t) (t_stack_size t)
    (t_parent t) (t_next t) (t_prev t) code (t_signals t) (t_pending_signals t) flags.
Definition with_pending (t : task) (pending flags : Z) : task :=
  Task (t_state t) (t_prio t) (t_static_prio t) (t_nice t) (t_pid t) (t_tgid t) (t_uid t) (t_gid t)
    (t_comm t) (t_sp t) (t_pc t) (t_x19 t) (t_mm t) (t_active_mm t) (t_stack t) (t_stack_size t)
    (t_parent t) (t_next t) (t_prev t) (t_exit_code t) (t_signals t) pending flags.
Definition with_active_mm (t : task) (mm : Z) : task :=
  Task (t_state t) (t_prio t) (t_static_prio t) (t_nice t) (t_pid t) (t_tgid t) (t_uid t) (t_gid t)
    (t_comm t) (t_sp t) (t_pc t) (t_x19 t) (t_mm t) mm (t_stack t) (t_stack_size t)
    (t_parent t) (t_next t) (t_prev t) (t_exit_code t) (t_signals t) (t_pending_signals t) (t_flags t).
Definition with_signals (t : task) (sg : Z) : task :=
  Task (t_state t) (t_prio t) (t_static_prio t) (t_nice t) (t_pid t) (t_tgid t) (t_uid t) (t_gid t)
    (t_comm t) (t_sp t) (t_pc t) (t_x19 t) (t_mm t) (t_active_mm t) (t_stack t) (t_stack_size t)
    (t_parent t) (t_next t) (t_prev t) (t_exit_code t) sg (t_pending_signals t) (t_flags t).

Definition zero_comm : list Z := replicate 16 0.
Definition zero_task : task :=
  Task TASK_RUNNING 0 0 0 0 0 0 0 zero_comm 0 0 0 0 0 0 0 0 0 0 0 0 0 0.

(** [.comm = "swapper"] *)
Definition init_task_value : task :=
  Task TASK_RUNNING PRIO_DEFAULT PRIO_DEFAULT 0 0 0 0 0
    ([115; 119; 97; 112; 112; 101; 114] ++ replicate 9 0)
    0 0 0 0 0 0 0 0 0 0 0 0 0 (Z.lor PF_KTHREAD PF_IDLE).

Definition init_task : Z := 1.
Definition pool_task (i : Z) : Z := i + 2.

Record rq := Rq { rq_current : Z; rq_idle : Z; rq_head : Z; rq_tail : Z; nr_running : Z; rq_clock : Z }.

(** The module's variables, with the reference counts of the address spaces and
    the register that holds the current one. *)
Record sched := Sched {
  runqueue : rq;
  tasks : gmap Z task;
  task_pool_index : Z;
  next_pid : Z;
  mm_users : gmap Z Z;
  loaded_mm : Z;
  pages : pmm
}.

Definition with_rq (s : sched) (r : rq) : sched :=
  Sched r (tasks s) (task_pool_index s) (next_pid s) (mm_users s) (loaded_mm s) (pages s).
Definition with_tasks (s : sched) (ts : gmap Z task) : sched :=
  Sched (runqueue s) ts (task_pool_index s) (next_pid s) (mm_users s) (loaded_mm s) (pages s).
Definition with_pool_index (s : sched) (i : Z) : sched :=
  Sched (runqueue s) (tasks s) i (next_pid s) (mm_users s) (loaded_mm s) (pages s).
Definition with_next_pid (s : sched) (p : Z) : sched :=
  Sched (runqueue s) (tasks s) (task_pool_index s) p (mm_users s) (loaded_mm s) (pages s).
Definition with_mm_users (s : sched) (u : gmap Z Z) : sched :=
  Sched (runqueue s) (tasks s) (task_pool_index s) (next_pid s) u (loaded_mm s) (pages s).
Definition with_loaded (s : sched) (mm : Z) : sched :=
  Sched (runqueue s) (tasks s) (task_pool_index s) (next_pid s) (mm_users s) mm (pages s).
Definition with_pages (s : sched) (p : pmm) : sched :=
  Sched (runqueue s) (tasks s) (task_pool_index s) (next_pid s) (mm_users s) (loaded_mm s) p.

(** The static initialisers. *)
Definition sched_static (p : pmm) : sched :=
  Sched (Rq 0 0 0 0 0 0) {[ init_task := init_task_value ]} 0 1 ∅ 0 p.

Definition get_task (s : sched) (p : Z) : outcome task := of_option (tasks s !! p).
Definition upd_task (s : sched) (p : Z) (f : task -> task) : outcome sched :=
  t ← get_task s p; Ok (with_tasks s (<[p := f t]> (tasks s))).

(** Links of one task. *)
Definition set_next (n : Z) (t : task) : task := with_links t n (t_prev t).
Definition set_prev (n : Z) (t : task) : task := with_links t (t_next t) n.

Definition set_head (s : sched) (p : Z) : sched :=
  let r := runqueue s in
  with_rq s (Rq (rq_current r) (rq_idle r) p (rq_tail r) (nr_running r) (rq_clock r)).
Definition set_tail (s : sched) (p : Z) : sched :=
  let r := runqueue s in
  with_rq s (Rq (rq_current r) (rq_idle r) (rq_head r) p (nr_running r) (rq_clock r)).
Definition set_nr (s : sched) (n : Z) : sched :=
  let r := runqueue s in
  with_rq s (Rq (rq_current r) (rq_idle r) (rq_head r) (rq_tail r) n (rq_clock r)).
Definition set_current (s : sched) (p : Z) : sched :=
  let r := runqueue s in
  with_rq s (Rq p (rq_idle r) (rq_head r) (rq_tail r) (nr_running r) (rq_clock r)).

Definition alloc_task (s : sched) : Z * sched :=
  if MAX_TASKS <=? task_pool_index s then (NULL, s)
  else
    let p := pool_task (task_pool_index s) in
    (p, with_tasks (with_pool_index s (task_pool_index s + 1)) (<[p := zero_task]> (tasks s))).

(** [while ((PAGE_SIZE << order) < size && order < 10)]; the fuel is [10 - order]. *)
Fixpoint stack_order (fuel : nat) (size order : Z) : Z :=
  match fuel with
  | O => order
  | S fuel =>
      if (Z.shiftl PAGE_SIZE order <? size) && (order <? 10)
      then stack_order fuel size (order + 1) else order
  end.

Definition alloc_stack (s : sched) (size : Z) : outcome (Z * sched) :=
  r ← pmm_alloc_pages (pages s) (stack_order 10 size 0);
  let '(paddr, p) := r in
  Ok (if paddr =? 0 then NULL else paddr, with_pages s p).

Definition enqueue_task (s : sched) (p : Z) : outcome sched :=
  s ← upd_task s p (fun t => with_state t TASK_RUNNING);
  let r := runqueue s in
  s ← (if rq_head r =? 0 then
         let s := set_head (set_tail s p) p in
         upd_task s p (fun t => with_links t 0 0)
       else
         s ← upd_task s p (fun t => with_links t 0 (rq_tail r));
         s ← upd_task s (rq_tail r) (set_next p);
         Ok (set_tail s p));
  Ok (set_nr s (u32 (nr_running (runqueue s) + 1))).

Definition dequeue_task (s : sched) (p : Z) : outcome sched :=
  t ← get_task s p;
  s ← (if negb (t_prev t =? 0) then upd_task s (t_prev t) (set_next (t_next t))
       else Ok (set_head s (t_next t)));
  t ← get_task s p;
  s ← (if negb (t_next t =? 0) then upd_task s (t_next t) (set_prev (t_prev t))
       else Ok (set_tail s (t_prev t)));
  s ← upd_task s p (fun t => with_links t 0 0);
  Ok (if 0 <? nr_running (runqueue s) then set_nr s (nr_running (runqueue s) - 1) else s).

Definition pick_next_task (s : sched) : Z :=
  let next := rq_head (runqueue s) in
  if next =? 0 then rq_idle (runqueue s) else next.

Definition sched_init (s : sched) : sched := with_rq s (Rq init_task init_task 0 0 0 0).

Definition context_switch (s : sched) (prev next : Z) : outcome sched :=
  tp ← get_task s prev;
  tn ← get_task s next;
  let s := if negb (t_mm tn =? 0) && negb (t_mm tn =? t_mm tp)
           then with_loaded s (t_mm tn) else s in
  upd_task s next (fun t => with_active_mm t (if t_mm tn =? 0 then t_active_mm tp else t_mm tn)).

Definition schedule (s : sched) : outcome sched :=
  let prev := rq_current (runqueue s) in
  let next := pick_next_task s in
  if next =? prev then Ok s
  else
    t ← get_task s prev;
    s ← (if bool_decide (t_state t = TASK_RUNNING) && negb (prev =? rq_idle (runqueue s))
         then s ← dequeue_task s prev; enqueue_task s prev
         else Ok s);
    context_switch (set_current s next) prev next.

Definition wake_up_process (s : sched) (p : Z) : outcome (Z * sched) :=
  if p =? 0 then Ok (0, s)
  else
    t ← get_task s p;
    if bool_decide (t_state t = TASK_RUNNING) then Ok (0, s)
    else
      s ← upd_task s p (fun t => with_state t TASK_RUNNING);
      s ← enqueue_task s p;
      Ok (1, s).

(** ["task"[i < 4 ? i : 0]] for the first 15 characters. *)
Definition task_comm : list Z :=
  (fun i => default 0 ([116; 97; 115; 107] !! Z.to_nat (if i <? 4 then i else 0)))
    <$> seqZ 0 (TASK_COMM_LEN - 1).

Definition create_task (s : sched) (entry arg flags : Z) : outcome (Z * sched) :=
  let '(p, s) := alloc_task s in
  if p =? 0 then Ok (NULL, s)
  else
    r ← alloc_stack s KERNEL_STACK_SIZE;
    let '(stack, s) := r in
    if stack =? 0 then Ok (NULL, s)
    else
      let pid := next_pid s in
      let s := with_next_pid s (pid + 1) in
      s ← upd_task s p (fun t =>
            Task TASK_RUNNING PRIO_DEFAULT PRIO_DEFAULT 0 pid pid (t_uid t) (t_gid t)
              (task_comm ++ [0]) (u64 (stack + KERNEL_STACK_SIZE)) entry arg
              (t_mm t) (t_active_mm t) stack KERNEL_STACK_SIZE (rq_current (runqueue s))
              (t_next t) (t_prev t) (t_exit_code t) (t_signals t) (t_pending_signals t) flags);
      s ← enqueue_task s p;
      Ok (p, s).

(** The state in which [exit_task] has given the CPU away, or spins. *)
Definition exit_task (s : sched) (code : Z) : outcome sched :=
  let current := rq_current (runqueue s) in
  s ← upd_task s current (fun t =>
        with_state (with_exit t code (Z.lor (t_flags t) PF_EXITING)) TASK_ZOMBIE);
  s ← dequeue_task s current;
  schedule s.

(** The first [TASK_COMM_LEN - 10] characters of the parent's name. *)
Fixpoint copy_comm (fuel : nat) (l : list Z) : list Z :=
  match fuel, l with
  | S fuel, c :: l => if c =? 0 then [] else c :: copy_comm fuel l
  | _, _ => []
  end.
Definition thread_comm (parent_comm : list Z) : list Z :=
  let copied := copy_comm (Z.to_nat (TASK_COMM_LEN - 10)) parent_comm in
  copied ++ replicate (16 - length copied) 0.

Definition create_thread (s : sched) (entry arg stack clone_flags : Z) : outcome (Z * sched) :=
  let parent := rq_current (runqueue s) in
  let '(p, s) := alloc_task s in
  if p =? 0 then Ok (-1, s)
  else
    tp ← get_task s parent;
    let pid := next_pid s in
    let s := with_next_pid s (pid + 1) in
    let tgid := if negb (Z.land clone_flags CLONE_THREAD =? 0) then t_tgid tp else pid in
    let init sp stack stack_size pc x19 (t : task) :=
      Task TASK_RUNNING (t_prio tp) (t_static_prio tp) (t_nice tp) pid tgid (t_uid tp) (t_gid tp)
        (thread_comm (t_comm tp)) sp pc x19 (t_mm tp) (t_active_mm tp) stack stack_size parent
        (t_next t) (t_prev t) (t_exit_code t) (t_signals t) (t_pending_signals t) PF_THREAD in
    s ← upd_task s p (init 0 0 0 0 0);
    s ← (if negb (Z.land clone_flags CLONE_VM =? 0) && negb (t_mm tp =? 0)
         then n ← of_option (mm_users s !! t_mm tp);
              Ok (with_mm_users s (<[t_mm tp := n + 1]> (mm_users s)))
         else Ok s);
    r ← (if negb (stack =? 0)
         then s ← upd_task s p (init stack stack 0 entry arg); Ok (true, s)
         else
           r ← alloc_stack s KERNEL_STACK_SIZE;
           let '(st, s) := r in
           if st =? 0 then Ok (false, s)
           else
             s ← upd_task s p (init (u64 (st + KERNEL_STACK_SIZE)) st KERNEL_STACK_SIZE entry arg);
             Ok (true, s));
    let '(ok, s) := r in
    if negb ok then Ok (-1, s)
    else
      s ← enqueue_task s p;
      Ok (pid, s).

(** The search of the pool; the fuel is [task_pool_index - i]. *)
Fixpoint find_pid (fuel : nat) (s : sched) (pid i : Z) : outcome Z :=
  match fuel with
  | O => Ok NULL
  | S fuel =>
      t ← get_task s (pool_task i);
      if (t_pid t =? pid) && bool_decide (t_state t <> TASK_DEAD) then Ok (pool_task i)
      else find_pid fuel s pid (i + 1)
  end.
Definition get_task_by_pid (s : sched) (pid : Z) : outcome Z :=
  t ← get_task s init_task;
  if t_pid t =? pid then Ok init_task
  else find_pid (Z.to_nat (task_pool_index s)) s pid 0.

Definition sched_kill_task (s : sched) (pid : Z) : outcome (Z * sched) :=
  p ← get_task_by_pid s pid;
  if p =? 0 then Ok (-3, s)
  else
    t ← get_task s p;
    if (t_pid t =? 0) || negb (Z.land (t_flags t) PF_IDLE =? 0) then Ok (-1, s)
    else
      s ← upd_task s p (fun t => with_pending t (Z.lor (t_pending_signals t) (Z.shiftl 1 9))
                                  (Z.lor (t_flags t) PF_EXITING));
      if bool_decide (t_state t = TASK_INTERRUPTIBLE)
         || bool_decide (t_state t = TASK_UNINTERRUPTIBLE)
      then
        s ← upd_task s p (fun t => with_state t TASK_RUNNING);
        s ← enqueue_task s p;
        Ok (0, s)
      else Ok (0, s).

Definition get_current (s : sched) : Z := rq_current (runqueue s).
