(* ===== verification/SchedSpec.v ===== *)
(** * The scheduler: the run queue as a list of tasks

    [sched_inv s q] says that the linked run queue of [s] holds the tasks [q] in
    order.  Each operation is a list operation on [q], with few exceptions
    that [SignalTheorems] names. *)
From S2P Require Import Prelude DList Pmm Sched.
#[local] Open Scope Z_scope.

#[local] Abbreviation queue := (dseg t_next t_prev).

Record sched_inv (s : sched) (q : list Z) : Prop := {
  si_queue : queue (tasks s) 0 (rq_head (runqueue s)) q (rq_tail (runqueue s)) 0;
  si_nodup : NoDup q;
  si_nr : nr_running (runqueue s) = Z.of_nat (length q);
  si_pool x : x ∈ q -> 2 <= x;
  si_index : 0 <= task_pool_index s <= MAX_TASKS;
  si_tasks x : is_Some (tasks s !! x) <-> 1 <= x < 2 + task_pool_index s;
  si_current : is_Some (tasks s !! rq_current (runqueue s));
  si_idle : rq_idle (runqueue s) = init_task;
  si_unlinked x t : x ∉ q -> tasks s !! x = Some t -> t_next t = 0 /\ t_prev t = 0
}.

(** Every queued task is runnable. *)
Definition all_running (s : sched) (q : list Z) : Prop :=
  forall x t, x ∈ q -> tasks s !! x = Some t -> t_state t = TASK_RUNNING.

(** Every queued task other than [e] is runnable. *)
Definition running_but (e : Z) (s : sched) (q : list Z) : Prop :=
  forall x t, x ∈ q -> x <> e -> tasks s !! x = Some t -> t_state t = TASK_RUNNING.

(** The running task is the idle task or the head of the queue. *)
Definition current_ok (s : sched) (q : list Z) : Prop :=
  rq_current (runqueue s) = init_task \/ head q = Some (rq_current (runqueue s)).

(** Two tasks that differ in their links at most. *)
Definition same_but_links (t t' : task) : Prop := with_links t 0 0 = with_links t' 0 0.

(** Every task of [s] other than [x] is in [s'] with the same contents, links
    aside; [x] is [f] of what it was. *)
Definition tasks_change (s s' : sched) (x : Z) (f : task -> task) : Prop :=
  forall y t, tasks s !! y = Some t -> exists t', tasks s' !! y = Some t' /\
    same_but_links (if decide (y = x) then f t else t) t'.

(** The scalar fields that queue operations do not touch. *)
Definition same_globals (s s' : sched) : Prop :=
  task_pool_index s' = task_pool_index s /\ next_pid s' = next_pid s /\
  mm_users s' = mm_users s /\ loaded_mm s' = loaded_mm s /\ pages s' = pages s /\
  rq_current (runqueue s') = rq_current (runqueue s) /\
  rq_idle (runqueue s') = rq_idle (runqueue s) /\ rq_clock (runqueue s') = rq_clock (runqueue s).

Lemma same_state t t' : same_but_links t t' -> t_state t' = t_state t.
Proof. by intros [=]. Qed.

Lemma upd_task_ok s p f t : tasks s !! p = Some t ->
  upd_task s p f = Ok (with_tasks s (<[p := f t]> (tasks s))).
Proof. intros E. unfold upd_task, get_task. by rewrite E. Qed.

Lemma get_task_ok s p t : tasks s !! p = Some t -> get_task s p = Ok t.
Proof. intros E. unfold get_task. by rewrite E. Qed.

Lemma queue_length s q : sched_inv s q -> (length q <= 256)%nat.
Proof.
  intros I. assert (Hl : (length q <= length (seqZ 2 256))%nat); [|rewrite length_seqZ in Hl; lia].
  apply submseteq_length, NoDup_submseteq; [apply I|]. intros x Hx.
  destruct (dseg_lookup _ _ _ _ _ _ _ _ _ (si_queue _ _ I) Hx) as [_ Hs].
  apply (si_tasks _ _ I) in Hs. pose proof (si_pool _ _ I x Hx).
  pose proof (si_index _ _ I). unfold MAX_TASKS in *. apply elem_of_seqZ. lia.
Qed.

(** The keys of the task map do not change. *)
Lemma dom_insert_same (m : gmap Z task) p t x :
  is_Some (m !! p) -> is_Some (<[p := t]> m !! x) <-> is_Some (m !! x).
Proof.
  intros Hp. destruct (decide (x = p)) as [->|]; [rewrite lookup_insert_eq; naive_solver|].
  by rewrite lookup_insert_ne.
Qed.

(** ** Enqueue *)

(** Linking [x] in at the end of a queue. *)
Lemma queue_push (m : gmap Z task) h q tl x t :
  queue m 0 h q tl 0 -> NoDup q -> x ∉ q -> x <> 0 -> m !! x = Some t ->
  (q = [] /\ h = 0 /\ queue (<[x := with_links t 0 0]> m) 0 x [x] x 0) \/
  (exists tt, h <> 0 /\ m !! tl = Some tt /\ tl <> x /\ tl ∈ q /\
     queue (<[tl := set_next x tt]> (<[x := with_links t 0 tl]> m)) 0 h (q ++ [x]) x 0).
Proof.
  intros Hq Hnd Hx Hx0 Ht. destruct q as [|y q] using rev_ind.
  - left. destruct Hq as [-> ->]. split; [done|]. split; [done|]. split; [done|]. split; [done|].
    eexists. by rewrite lookup_insert_eq.
  - right. clear IHq. pose proof (dseg_last _ _ _ _ _ _ _ _ Hq) as Hl. rewrite last_snoc in Hl.
    cbn in Hl. subst tl.
    destruct (dseg_lookup _ _ _ _ _ _ _ _ y Hq) as [Hy0 [ty Hty]]; [apply elem_of_app; right; by apply elem_of_cons; left|].
    assert (y <> x) as Hyx by (intros ->; apply Hx; apply elem_of_app; right; by apply elem_of_cons; left).
    assert (y ∉ q) as Hyq by (apply NoDup_app in Hnd as (_ & Hd & _); intros Hy; apply (Hd y Hy); by apply elem_of_cons; left).
    exists ty. split; [|split; [done|split; [done|split; [apply elem_of_app; right; by apply elem_of_cons; left|]]]].
    { pose proof (dseg_head _ _ _ _ _ _ _ _ Hq) as ->.
      destruct (head (q ++ [y])) as [z|] eqn:E; [|by destruct q].
      apply head_Some_elem_of in E. by apply (dseg_lookup _ _ _ _ _ _ _ _ _ Hq E). }
    apply (dseg_insert_out t_next t_prev _ _ _ _ _ _ x (with_links t 0 y)) in Hq; [|done].
    apply dseg_app. exists y, x. split.
    + apply (dseg_set_qn t_next t_prev _ 0 h q y y 0 x ty (set_next x ty)); [done | by rewrite lookup_insert_ne | done | done | done].
    + split; [done|]. split; [done|]. exists (with_links t 0 y).
      by rewrite lookup_insert_ne, lookup_insert_eq.
Qed.

(** What an operation that relinks the queue has to show. *)
Lemma inv_requeue s s' q q' :
  sched_inv s q -> same_globals s s' ->
  (forall y, is_Some (tasks s' !! y) <-> is_Some (tasks s !! y)) ->
  queue (tasks s') 0 (rq_head (runqueue s')) q' (rq_tail (runqueue s')) 0 ->
  NoDup q' -> nr_running (runqueue s') = Z.of_nat (length q') -> (forall y, y ∈ q' -> 2 <= y) ->
  (forall y t, y ∉ q' -> tasks s' !! y = Some t -> t_next t = 0 /\ t_prev t = 0) ->
  sched_inv s' q'.
Proof.
  intros I (Hix & _ & _ & _ & _ & Hcur & Hidle & _) Hdom Hq Hnd Hnr H2 Hout.
  split; try done.
  - rewrite Hix. apply I.
  - intros y. rewrite Hdom, Hix. apply I.
  - rewrite Hcur. apply Hdom, (si_current _ _ I).
  - rewrite Hidle. apply I.
Qed.

Lemma running_requeue s s' q q' x f e :
  running_but e s q -> (forall y, is_Some (tasks s' !! y) <-> is_Some (tasks s !! y)) ->
  tasks_change s s' x f ->
  (forall y, y ∈ q' -> y <> x /\ y ∈ q \/ y = x /\ forall t, t_state (f t) = TASK_RUNNING) ->
  running_but e s' q'.
Proof.
  intros Hr Hdom Hch Hin y t' Hy Hye Ht'. destruct (proj1 (Hdom y) (mk_is_Some _ _ Ht')) as [t Ht].
  destruct (Hch y t Ht) as (t2 & Ht2 & Hs). assert (t2 = t') as -> by congruence.
  apply same_state in Hs. rewrite Hs. destruct (Hin y Hy) as [[Hne Hyq] | [-> Hf]].
  - rewrite decide_False by done. by apply (Hr y).
  - by rewrite decide_True.
Qed.

Lemma inv_same_dom s s' q q' : sched_inv s q -> sched_inv s' q' -> same_globals s s' ->
  forall y, is_Some (tasks s' !! y) <-> is_Some (tasks s !! y).
Proof.
  intros I I' (Hix & _) y. by rewrite (si_tasks _ _ I), (si_tasks _ _ I'), Hix.
Qed.

Lemma enqueue_spec s q x t :
  sched_inv s q -> x ∉ q -> 2 <= x -> tasks s !! x = Some t ->
  exists s', enqueue_task s x = Ok s' /\ sched_inv s' (q ++ [x]) /\ same_globals s s' /\
    tasks_change s s' x (fun t => with_state t TASK_RUNNING).
Proof.
  intros I Hx Hx2 Ht. pose proof (queue_length _ _ I) as Hlen. unfold enqueue_task.
  rewrite (upd_task_ok _ _ _ _ Ht), bind_ok. cbv zeta. cbn [runqueue with_tasks].
  set (t1 := with_state t TASK_RUNNING). set (m1 := <[x := t1]> (tasks s)).
  assert (queue m1 0 (rq_head (runqueue s)) q (rq_tail (runqueue s)) 0) as Hq1
    by (apply dseg_insert_out; [done | apply I]).
  assert (NoDup (q ++ [x])) as Hnd'.
  { apply NoDup_app. split; [apply I|]. split; [|apply NoDup_singleton].
    intros y Hy ->%list_elem_of_singleton. done. }
  assert (forall y, y ∈ q ++ [x] -> 2 <= y) as H2.
  { intros y [Hy| ->%list_elem_of_singleton]%elem_of_app; [by apply (si_pool _ _ I) | done]. }
  destruct (queue_push m1 _ q _ x t1 Hq1 (si_nodup _ _ I) Hx ltac:(lia)) as
    [(-> & Hh & Hq') | (tt & Hh & Htt & Hne & Htl & Hq')]; [apply lookup_insert_eq| |].
  - rewrite Hh, Z.eqb_refl. rewrite (upd_task_ok _ _ _ t1) by apply lookup_insert_eq.
    rewrite !bind_ok. cbn [tasks with_tasks with_rq set_head set_tail set_nr runqueue nr_running].
    pose proof (si_nr _ _ I) as Hnr. cbn in Hnr. rewrite Hnr. change (u32 (0 + 1)) with 1.
    eexists. split; [done|]. fold m1.
    assert (<[x := with_links t1 0 0]> m1 = <[x := with_links t1 0 0]> (tasks s)) as Em
      by apply insert_insert_eq.
    assert (tasks_change s (with_tasks s (<[x := with_links t1 0 0]> m1)) x
              (fun t => with_state t TASK_RUNNING)) as Hch.
    { intros y ty Hy. cbn. rewrite Em. case_decide as E.
      - subst y. rewrite lookup_insert_eq. eexists. split; [done|]. by simplify_eq.
      - rewrite lookup_insert_ne by done. by exists ty. }
    split; [|done]. eapply inv_requeue; [exact I | done | | exact Hq' | done..|].
    + intros y. cbn. rewrite Em. apply dom_insert_same. eauto.
    + intros y ty Hy. cbn. rewrite Em. assert (y <> x) by (intros ->; by apply Hy, elem_of_cons; left).
      rewrite lookup_insert_ne by done. apply (si_unlinked _ _ I), not_elem_of_nil.
  - rewrite (proj2 (Z.eqb_neq _ _) Hh). rewrite (upd_task_ok _ _ _ t1) by apply lookup_insert_eq.
    rewrite bind_ok. cbn [tasks with_tasks runqueue].
    assert (rq_tail (runqueue s) <> x) as Hne' by done.
    rewrite (upd_task_ok _ _ _ tt) by (cbn; by rewrite lookup_insert_ne).
    rewrite !bind_ok. cbn [tasks with_tasks with_rq set_head set_tail set_nr runqueue nr_running].
    set (tl := rq_tail (runqueue s)) in *.
    assert (<[x := with_links t1 0 tl]> m1 = <[x := with_links t1 0 tl]> (tasks s)) as Em
      by apply insert_insert_eq.
    assert (tasks s !! tl = Some tt) as Htl' by (unfold m1 in Htt; by rewrite lookup_insert_ne in Htt).
    eexists. split; [done|].
    assert (tasks_change s (with_tasks s (<[tl := set_next x tt]> (<[x := with_links t1 0 tl]> m1))) x
              (fun t => with_state t TASK_RUNNING)) as Hch.
    { intros y ty Hy. cbn. rewrite Em. case_decide as E.
      - subst y. rewrite lookup_insert_ne, lookup_insert_eq by done.
        eexists. split; [done|]. by simplify_eq.
      - destruct (decide (y = tl)) as [->|Hyt].
        + rewrite lookup_insert_eq. eexists. split; [done|]. by simplify_eq.
        + rewrite !lookup_insert_ne by done. by exists ty. }
    split; [|done]. eapply inv_requeue; [exact I | done | | exact Hq' | done | | done |].
    + intros y. cbn. rewrite Em, dom_insert_same by (rewrite lookup_insert_ne by done; eauto).
      apply dom_insert_same. eauto.
    + cbn. rewrite (si_nr _ _ I), length_app. cbn. rewrite u32_small by lia. lia.
    + intros y ty Hy. cbn. rewrite Em.
      assert (y <> x) by (intros ->; apply Hy, elem_of_app; right; by apply elem_of_cons; left).
      assert (y <> tl) by (intros ->; apply Hy, elem_of_app; by left).
      rewrite !lookup_insert_ne by done. apply (si_unlinked _ _ I).
      intros Hyq. apply Hy, elem_of_app. by left.
Qed.

(** ** Dequeue *)

(** Rewriting one task that may or may not be [p]. *)
Definition alter_task (p : Z) (f : task -> task) (m : gmap Z task) : gmap Z task :=
  if p =? 0 then m else alter f p m.

Lemma alter_task_lookup p f m y :
  alter_task p f m !! y = if decide (y = p /\ p <> 0) then f <$> m !! y else m !! y.
Proof.
  unfold alter_task. destruct (Z.eqb_spec p 0) as [->|Hp].
  - by rewrite decide_False by tauto.
  - destruct (decide (y = p /\ p <> 0)) as [[-> _]|Hne].
    + by rewrite lookup_alter_eq.
    + rewrite lookup_alter_ne; [done|]. intros ->. tauto.
Qed.

Lemma upd_task_alter s p f : is_Some (tasks s !! p) ->
  upd_task s p f = Ok (with_tasks s (alter f p (tasks s))).
Proof.
  intros [t Ht]. rewrite (upd_task_ok _ _ _ _ Ht). f_equal. f_equal.
  apply map_eq. intros y. destruct (decide (y = p)) as [->|].
  - by rewrite lookup_insert_eq, lookup_alter_eq, Ht.
  - by rewrite lookup_insert_ne, lookup_alter_ne.
Qed.

(** The effect of [dequeue_task] on the tasks and the queue ends. *)
Lemma dequeue_effect s x t :
  tasks s !! x = Some t -> t_prev t <> x -> t_next t <> x ->
  (t_prev t <> 0 -> is_Some (tasks s !! t_prev t)) ->
  (t_next t <> 0 -> is_Some (tasks s !! t_next t)) ->
  exists s', dequeue_task s x = Ok s' /\ same_globals s s' /\
    tasks s' = alter (fun t => with_links t 0 0) x
                 (alter_task (t_next t) (set_prev (t_prev t))
                    (alter_task (t_prev t) (set_next (t_next t)) (tasks s))) /\
    rq_head (runqueue s') = (if t_prev t =? 0 then t_next t else rq_head (runqueue s)) /\
    rq_tail (runqueue s') = (if t_next t =? 0 then t_prev t else rq_tail (runqueue s)) /\
    nr_running (runqueue s') = (if 0 <? nr_running (runqueue s) then nr_running (runqueue s) - 1
                                else nr_running (runqueue s)).
Proof.
  intros Ht Hp Hn HP HN. unfold dequeue_task. rewrite (get_task_ok _ _ _ Ht), bind_ok.
  set (m1 := alter_task (t_prev t) (set_next (t_next t)) (tasks s)).
  assert (exists s1, (if negb (t_prev t =? 0) then upd_task s (t_prev t) (set_next (t_next t))
                      else Ok (set_head s (t_next t))) = Ok s1 /\ tasks s1 = m1 /\ same_globals s s1 /\
    rq_head (runqueue s1) = (if t_prev t =? 0 then t_next t else rq_head (runqueue s)) /\
    rq_tail (runqueue s1) = rq_tail (runqueue s) /\ nr_running (runqueue s1) = nr_running (runqueue s))
    as (s1 & -> & Hm1 & Hg1 & Hh1 & Ht1 & Hn1).
  { unfold m1, alter_task. destruct (Z.eqb_spec (t_prev t) 0) as [E|E]; cbn [negb].
    - by eexists.
    - rewrite upd_task_alter by auto. by eexists. }
  rewrite bind_ok. assert (tasks s1 !! x = Some t) as Ht'.
  { rewrite Hm1. unfold m1. rewrite alter_task_lookup, decide_False; [done|]. by intros [-> _]. }
  rewrite (get_task_ok _ _ _ Ht'), bind_ok.
  set (m2 := alter_task (t_next t) (set_prev (t_prev t)) m1).
  assert (exists s2, (if negb (t_next t =? 0) then upd_task s1 (t_next t) (set_prev (t_prev t))
                      else Ok (set_tail s1 (t_prev t))) = Ok s2 /\ tasks s2 = m2 /\ same_globals s1 s2 /\
    rq_tail (runqueue s2) = (if t_next t =? 0 then t_prev t else rq_tail (runqueue s1)) /\
    rq_head (runqueue s2) = rq_head (runqueue s1) /\ nr_running (runqueue s2) = nr_running (runqueue s1))
    as (s2 & -> & Hm2 & Hg2 & Ht2 & Hh2 & Hn2).
  { unfold m2, alter_task. rewrite <- Hm1. destruct (Z.eqb_spec (t_next t) 0) as [E|E]; cbn [negb].
    - by eexists.
    - rewrite upd_task_alter; [by eexists|]. rewrite Hm1. unfold m1. rewrite alter_task_lookup.
      destruct (HN E) as [tn Htn]. case_decide; rewrite Htn; eauto. }
  rewrite bind_ok. rewrite upd_task_alter.
  2:{ rewrite Hm2. unfold m2. rewrite alter_task_lookup, decide_False by (by intros [-> _]).
      rewrite <- Hm1, Ht'. eauto. }
  rewrite bind_ok. cbn [runqueue with_tasks]. rewrite Hn2, Hn1, Hm2.
  eexists. split; [done|]. destruct (0 <? nr_running (runqueue s)); cbn;
    rewrite ?Hh2, ?Hh1, ?Ht2, ?Ht1, ?Hn2, ?Hn1;
    (split; [unfold same_globals in *; cbn in *; intuition congruence|done]).
Qed.

Lemma dequeue_spec s l1 x l2 :
  sched_inv s (l1 ++ x :: l2) ->
  exists s', dequeue_task s x = Ok s' /\ sched_inv s' (l1 ++ l2) /\ same_globals s s' /\
    tasks_change s s' x (fun t => t).
Proof.
  intros I. pose proof (si_queue _ _ I) as Hq. pose proof (si_nodup _ _ I) as Hnd.
  assert (x ∈ l1 ++ x :: l2) as Hx by (apply elem_of_mid; by left).
  destruct (dseg_lookup _ _ _ _ _ _ _ _ x Hq Hx) as [Hx0 [t Ht]].
  destruct (dseg_mid _ _ _ _ _ _ _ _ _ _ _ Hq Ht) as [Hp Hn].
  assert (forall y, y ∈ l1 ++ l2 -> y <> x /\ y <> 0 /\ is_Some (tasks s !! y)) as Hother.
  { intros y Hy. split; [by apply (NoDup_mid_ne l1 l2)|].
    apply (dseg_lookup _ _ _ _ _ _ _ _ _ Hq), elem_of_mid. by right. }
  assert (forall y, last l1 = Some y -> y ∈ l1 ++ l2) as Hlast
    by (intros y Hy; apply elem_of_app; left; by apply last_Some_elem_of).
  assert (forall y, head l2 = Some y -> y ∈ l1 ++ l2) as Hhead
    by (intros y Hy; apply elem_of_app; right; by apply head_Some_elem_of).
  assert (forall y, y ∈ l1 ++ l2 -> (last l1 = Some y <-> y = t_prev t) /\ (head l2 = Some y <-> y = t_next t)) as Hends.
  { intros y Hy. destruct (Hother y Hy) as (_ & Hy0 & _). rewrite Hp, Hn. split.
    - destruct (last l1); simpl; split; congruence.
    - destruct (head l2); simpl; split; congruence. }
  destruct (dequeue_effect s x t Ht) as (s' & -> & Hg & Hm & Hh & Htl & Hnr).
  { rewrite Hp. destruct (last l1) as [y|] eqn:E; simpl; [by apply Hother, Hlast | done]. }
  { rewrite Hn. destruct (head l2) as [y|] eqn:E; simpl; [by apply Hother, Hhead | done]. }
  { rewrite Hp. destruct (last l1) as [y|] eqn:E; simpl; [intros _; by apply Hother, Hlast | done]. }
  { rewrite Hn. destruct (head l2) as [y|] eqn:E; simpl; [intros _; by apply Hother, Hhead | done]. }
  exists s'. split; [done|].
  (* the contents of the task map *)
  assert (forall y, tasks s' !! y = (fun ty =>
     if decide (y = x) then with_links ty 0 0
     else with_links ty (if decide (y = t_prev t /\ t_prev t <> 0) then t_next t else t_next ty)
                        (if decide (y = t_next t /\ t_next t <> 0) then t_prev t else t_prev ty))
     <$> tasks s !! y) as Hlook.
  { intros y. rewrite Hm. destruct (decide (y = x)) as [->|Hne].
    - rewrite lookup_alter_eq, !alter_task_lookup. rewrite !decide_False.
      + rewrite Ht. done.
      + intros [E _]. symmetry in E. revert E. rewrite Hp.
        destruct (last l1) as [y|] eqn:El; simpl; [by apply Hother, Hlast | done].
      + intros [E _]. symmetry in E. revert E. rewrite Hn.
        destruct (head l2) as [y|] eqn:El; simpl; [by apply Hother, Hhead | done].
    - rewrite lookup_alter_ne, !alter_task_lookup by done.
      destruct (decide (y = t_next t /\ t_next t <> 0)), (decide (y = t_prev t /\ t_prev t <> 0));
        destruct (tasks s !! y) as [ty|]; simpl; try done; by destruct ty. }
  assert (tasks_change s s' x (fun t => t)) as Hch.
  { intros y ty Hy. rewrite Hlook, Hy. cbn. eexists. split; [done|]. by destruct (decide (y = x)). }
  split; [|done]. apply inv_requeue with s (l1 ++ x :: l2); try done.
  - intros y. rewrite Hlook, fmap_is_Some. done.
  - destruct (dseg_remove t_next t_prev (tasks s) (tasks s') 0 (rq_head (runqueue s)) l1 x l2
      (rq_tail (runqueue s)) 0 t Hq Hnd Ht) as [q' Hq'].
    + intros y ty Hy Hty. destruct (Hother y Hy) as (Hyx & Hy0 & _).
      rewrite Hlook, Hty. cbn. rewrite decide_False by done. eexists. split; [done|]. cbn.
      destruct (Hends y Hy) as [H1 H2].
      split; apply decide_ext; [rewrite H1 | rewrite H2]; split; try tauto; intros ->; (split; [done|]); congruence.
    + pose proof (dseg_last _ _ _ _ _ _ _ _ Hq') as Eq'.
      pose proof (dseg_last _ _ _ _ _ _ _ _ Hq) as Etl.
      assert (rq_head (runqueue s') = match l1 with [] => t_next t | _ :: _ => rq_head (runqueue s) end) as ->.
      { rewrite Hh, Hp. destruct l1 as [|y l1]; [done|].
        destruct (last (y :: l1)) as [z|] eqn:E; [|by apply last_None in E]. simpl.
        rewrite (proj2 (Z.eqb_neq _ _)); [done|]. by apply Hother, Hlast. }
      assert (rq_tail (runqueue s') = q') as ->; [|done].
      rewrite Htl, Eq', Hn. destruct l2 as [|y l2]; simpl.
      * by rewrite app_nil_r, Hp.
      * rewrite (proj2 (Z.eqb_neq _ _)) by (apply Hother, Hhead; done).
        rewrite Etl, !last_app, !last_cons. by destruct (last l2).
  - apply NoDup_app in Hnd as (H1 & H2 & [H3 H4]%NoDup_cons). apply NoDup_app.
    split; [done|]. split; [|done]. intros y Hy Hy'. apply (H2 y Hy), elem_of_cons. by right.
  - rewrite Hnr, (si_nr _ _ I), !length_app. cbn [length].
    rewrite (proj2 (Z.ltb_lt _ _)) by lia. lia.
  - intros y Hy. apply (si_pool _ _ I), elem_of_mid. by right.
  - intros y ty Hy. rewrite Hlook. destruct (decide (y = x)) as [->|Hyx].
    + rewrite Ht. by intros [= <-].
    + destruct (tasks s !! y) as [t0|] eqn:E; [|done]. cbn. intros [= <-].
      destruct (si_unlinked _ _ I y t0) as [E1 E2]; [|done|].
      { intros [->|?]%elem_of_mid; done. }
      rewrite (decide_False (P := y = t_prev t /\ _)), (decide_False (P := y = t_next t /\ _)).
      * done.
      * intros [-> Hnz]. apply Hy. rewrite Hn in *. destruct (head l2) eqn:El; [|done]. simpl in *. by apply Hhead.
      * intros [-> Hnz]. apply Hy. rewrite Hp in *. destruct (last l1) eqn:El; [|done]. simpl in *. by apply Hlast.
Qed.

(** Enqueued and dequeued tasks keep the queue runnable. *)
Lemma enqueue_running s s' q x e :
  sched_inv s q -> sched_inv s' (q ++ [x]) -> same_globals s s' -> x ∉ q ->
  tasks_change s s' x (fun t => with_state t TASK_RUNNING) ->
  running_but e s q -> running_but e s' (q ++ [x]).
Proof.
  intros I I' Hg Hx Hch Hr. apply running_requeue with s q x (fun t => with_state t TASK_RUNNING);
    [done | by eapply inv_same_dom | done |].
  intros y [Hy| ->%list_elem_of_singleton]%elem_of_app; [left|by right]. split; [by intros ->|done].
Qed.

Lemma dequeue_running s s' l1 x l2 e :
  sched_inv s (l1 ++ x :: l2) -> sched_inv s' (l1 ++ l2) -> same_globals s s' ->
  tasks_change s s' x (fun t => t) ->
  running_but e s (l1 ++ l2) -> running_but e s' (l1 ++ l2).
Proof.
  intros I I' Hg Hch Hr. apply running_requeue with s (l1 ++ l2) x (fun t => t);
    [done | by eapply inv_same_dom | done |].
  intros y Hy. left. split; [|done]. apply (NoDup_mid_ne l1 l2); [apply I | done].
Qed.

(** ** Updates that leave the links alone *)

Lemma inv_upd s q x t t' :
  sched_inv s q -> tasks s !! x = Some t -> t_next t' = t_next t -> t_prev t' = t_prev t ->
  sched_inv (with_tasks s (<[x := t']> (tasks s))) q.
Proof.
  intros I Ht Hn Hp. eapply inv_requeue; [exact I | done | | | apply I..|].
  - intros y. cbn. apply dom_insert_same. eauto.
  - cbn. eapply dseg_frame; [|apply I]. intros y Hy ty Hty.
    destruct (decide (y = x)) as [->|]; [|rewrite lookup_insert_ne by done; eauto].
    rewrite lookup_insert_eq. exists t'. simplify_eq. done.
  - cbn. intros y ty Hy. destruct (decide (y = x)) as [->|].
    + rewrite lookup_insert_eq. intros [= <-]. rewrite Hn, Hp. by apply (si_unlinked _ _ I x).
    + rewrite lookup_insert_ne by done. by apply (si_unlinked _ _ I).
Qed.

Lemma running_but_upd s q x t' e :
  running_but e s q -> (x ∈ q -> x <> e -> t_state t' = TASK_RUNNING) ->
  running_but e (with_tasks s (<[x := t']> (tasks s))) q.
Proof.
  intros Hr Hx y ty Hy Hye. cbn. destruct (decide (y = x)) as [->|].
  - rewrite lookup_insert_eq. intros [= <-]. auto.
  - rewrite lookup_insert_ne by done. by apply Hr.
Qed.

Lemma all_running_but s q : sched_inv s q -> all_running s q <-> running_but 0 s q.
Proof.
  intros I. split; intros Hr x t Hx; [intros _; by apply Hr|]. apply Hr; [done|].
  pose proof (si_pool _ _ I x Hx). lia.
Qed.

Lemma running_upd s q x t' :
  all_running s q -> (x ∈ q -> t_state t' = TASK_RUNNING) ->
  all_running (with_tasks s (<[x := t']> (tasks s))) q.
Proof.
  intros Hr Hx y ty Hy. cbn. destruct (decide (y = x)) as [->|].
  - rewrite lookup_insert_eq. intros [= <-]. auto.
  - rewrite lookup_insert_ne by done. by apply Hr.
Qed.

Lemma inv_current s q p : sched_inv s q -> is_Some (tasks s !! p) -> sched_inv (set_current s p) q.
Proof. intros [] Hp. by split. Qed.

(** ** Schedule *)

Lemma pick_next_spec s q : sched_inv s q -> pick_next_task s = default init_task (head q).
Proof.
  intros I. unfold pick_next_task. pose proof (si_queue _ _ I) as Hq.
  pose proof (dseg_head _ _ _ _ _ _ _ _ Hq) as Hh. rewrite Hh. destruct q as [|x q]; simpl.
  - apply I.
  - rewrite (proj2 (Z.eqb_neq x 0)); [done|]. eapply dseg_lookup; [exact Hq|]. by apply elem_of_cons; left.
Qed.

Lemma next_is_task s q : sched_inv s q -> is_Some (tasks s !! default init_task (head q)).
Proof.
  intros I. destruct q as [|x q]; simpl.
  - apply (si_tasks _ _ I). unfold init_task. pose proof (si_index _ _ I). lia.
  - eapply dseg_lookup; [apply (si_queue _ _ I) | by apply elem_of_cons; left].
Qed.

Lemma context_switch_spec s q prev next :
  sched_inv s q -> is_Some (tasks s !! prev) -> is_Some (tasks s !! next) ->
  exists s', context_switch s prev next = Ok s' /\ sched_inv s' q /\
    runqueue s' = runqueue s /\ task_pool_index s' = task_pool_index s /\ next_pid s' = next_pid s /\
    pages s' = pages s /\
    forall y t, tasks s !! y = Some t -> exists mm, tasks s' !! y =
      Some (if decide (y = next) then with_active_mm t mm else t).
Proof.
  intros I [tp Hp] [tn Hn]. unfold context_switch.
  rewrite (get_task_ok _ _ _ Hp), bind_ok, (get_task_ok _ _ _ Hn), bind_ok.
  set (s1 := if _ && _ then _ else s).
  assert (exists m, s1 = with_loaded s m) as [m ->].
  { unfold s1. destruct (_ && _); [by eexists|]. exists (loaded_mm s). by destruct s. }
  assert (sched_inv (with_loaded s m) q) as I1 by (destruct I; by split).
  rewrite (upd_task_ok _ _ _ tn) by done. eexists. split; [done|].
  split; [by apply inv_upd with tn|]. do 4 (split; [done|]). intros y t Hy. cbn.
  eexists. destruct (decide (y = next)) as [->|].
  - rewrite lookup_insert_eq. simplify_eq. done.
  - by rewrite lookup_insert_ne.
Qed.

(** [schedule] when the head of the queue, or the idle task, already runs. *)
Lemma schedule_same s q : sched_inv s q ->
  rq_current (runqueue s) = default init_task (head q) -> schedule s = Ok s.
Proof.
  intros I E. unfold schedule. by rewrite (pick_next_spec _ _ I), E, Z.eqb_refl.
Qed.

(** [schedule] when it switches away from a task that is not to be requeued. *)
Lemma schedule_switch s q tc :
  sched_inv s q -> rq_current (runqueue s) <> default init_task (head q) ->
  tasks s !! rq_current (runqueue s) = Some tc ->
  t_state tc <> TASK_RUNNING \/ rq_current (runqueue s) = init_task ->
  exists s', schedule s = Ok s' /\ sched_inv s' q /\
    rq_current (runqueue s') = default init_task (head q) /\
    task_pool_index s' = task_pool_index s /\ next_pid s' = next_pid s /\ pages s' = pages s /\
    forall y t, tasks s !! y = Some t -> exists mm, tasks s' !! y =
      Some (if decide (y = default init_task (head q)) then with_active_mm t mm else t).
Proof.
  intros I Hne Htc Hst. unfold schedule. rewrite (pick_next_spec _ _ I).
  rewrite (proj2 (Z.eqb_neq _ _)) by done. rewrite (get_task_ok _ _ _ Htc), bind_ok.
  assert (bool_decide (t_state tc = TASK_RUNNING) &&
    negb (rq_current (runqueue s) =? rq_idle (runqueue s)) = false) as ->.
  { rewrite (si_idle _ _ I). destruct Hst as [Hst | ->]; [by rewrite bool_decide_false|].
    by rewrite Z.eqb_refl, andb_false_r. }
  rewrite bind_ok. pose proof (next_is_task _ _ I) as Hn.
  destruct (context_switch_spec (set_current s (default init_task (head q))) q
    (rq_current (runqueue s)) (default init_task (head q))) as (s' & -> & I' & Hrq & Hix & Hpid & Htk);
    [by apply inv_current | by exists tc | done |].
  exists s'. split; [done|]. split; [done|]. rewrite Hrq. done.
Qed.

(** [schedule] when it switches away from a runnable task, which goes to the end. *)
Lemma schedule_rotate s l1 cur l2 tc :
  sched_inv s (l1 ++ cur :: l2) -> l1 <> [] -> rq_current (runqueue s) = cur ->
  tasks s !! cur = Some tc -> t_state tc = TASK_RUNNING ->
  exists s', schedule s = Ok s' /\ sched_inv s' ((l1 ++ l2) ++ [cur]) /\
    Some (rq_current (runqueue s')) = head l1.
Proof.
  intros I Hl1 Hcur Htc Hst. destruct l1 as [|z l1]; [done|]. clear Hl1.
  pose proof (si_nodup _ _ I) as Hnd.
  assert (cur ∉ (z :: l1) ++ l2) as Hnin.
  { intros Hin. by apply (NoDup_mid_ne (z :: l1) l2 cur cur). }
  assert (2 <= cur) as H2 by (apply (si_pool _ _ I), elem_of_mid; by left).
  unfold schedule. rewrite (pick_next_spec _ _ I), Hcur. simpl.
  rewrite (proj2 (Z.eqb_neq z cur)) by (intros ->; apply Hnin; by apply elem_of_cons; left).
  rewrite (get_task_ok _ _ _ Htc), bind_ok, (bool_decide_true _ Hst), (si_idle _ _ I). simpl.
  rewrite (proj2 (Z.eqb_neq cur init_task)) by (unfold init_task; lia). simpl.
  destruct (dequeue_spec s (z :: l1) cur l2 I) as (s1 & -> & I1 & Hg1 & Hch1).
  rewrite bind_ok. destruct (Hch1 cur tc Htc) as (t1 & Ht1 & _).
  destruct (enqueue_spec s1 _ cur t1 I1 Hnin H2 Ht1) as (s2 & -> & I2 & Hg2 & Hch2).
  rewrite bind_ok. pose proof (next_is_task _ _ I2) as Hn. simpl in Hn.
  destruct (Hch2 cur t1 Ht1) as (t2 & Ht2 & _).
  destruct (context_switch_spec (set_current s2 z) _ cur z (inv_current _ _ z I2 Hn)) as (s' & -> & I' & Hrq & _);
    [by exists t2 | done|].
  exists s'. split; [done|]. split; [done|]. by rewrite Hrq.
Qed.
