(* ===== verification/SchedTheorems.v ===== *)
(** * The scheduler: its theorems *)
From S2P Require Import Prelude DList Pmm PmmSpec Sched SchedSpec.
#[local] Open Scope Z_scope.

(** What holds between operations. *)
Definition good (s : sched) (q : list Z) : Prop :=
  sched_inv s q /\ all_running s q /\ current_ok s q.

(** The same when [e] may be queued without being runnable. *)
Definition good_but (e : Z) (s : sched) (q : list Z) : Prop :=
  sched_inv s q /\ running_but e s q /\ current_ok s q.

Lemma good_but_0 s q : good s q <-> good_but 0 s q.
Proof. split; intros (I & Hr & Hc); (split; [done|split; [by apply (all_running_but s q I)|done]]). Qed.

(** A task that waits to be woken or continued. *)
Definition asleep (t : task) : Prop :=
  t_state t = TASK_INTERRUPTIBLE \/ t_state t = TASK_UNINTERRUPTIBLE \/ t_state t = TASK_STOPPED.

(** From [s] to [s'] no task falls asleep, no other task runs, and the idle task keeps its pid. *)
Definition no_sleep (m m' : gmap Z task) : Prop := forall y t', m' !! y = Some t' ->
  (asleep t' -> exists t, m !! y = Some t /\ asleep t) /\
  (y = init_task -> exists t, m !! y = Some t /\ t_pid t' = t_pid t).
Definition calm (s s' : sched) : Prop :=
  rq_current (runqueue s') = rq_current (runqueue s) /\ no_sleep (tasks s) (tasks s').

Lemma no_sleep_refl m : no_sleep m m.
Proof. intros y t Hy. split; eauto. Qed.
Lemma no_sleep_trans m1 m2 m3 : no_sleep m1 m2 -> no_sleep m2 m3 -> no_sleep m1 m3.
Proof.
  intros H1 H2 y t3 H3. destruct (H2 y t3 H3) as [Ha Hp]. split.
  - intros (t2 & E & S2)%Ha. by apply (H1 y t2 E).
  - intros Hi. destruct (Hp Hi) as (t2 & E & ->). by apply (H1 y t2 E).
Qed.
Lemma calm_trans s1 s2 s3 : calm s1 s2 -> calm s2 s3 -> calm s1 s3.
Proof. intros [E1 N1] [E2 N2]. split; [congruence|by eapply no_sleep_trans]. Qed.

Lemma no_sleep_new m p t : 2 <= p -> ~ asleep t -> no_sleep m (<[p := t]> m).
Proof.
  intros Hp Ht y t' [[<- <-]|[_ Hy]]%lookup_insert_Some; [|by apply (no_sleep_refl m)].
  split; [done|unfold init_task; lia].
Qed.
Lemma no_sleep_upd m p t t' : m !! p = Some t -> (asleep t' -> asleep t) -> t_pid t' = t_pid t -> no_sleep m (<[p := t']> m).
Proof.
  intros Ht Ha Hp y ty [[<- <-]|[_ Hy]]%lookup_insert_Some; [|by apply (no_sleep_refl m)].
  split; [|intros _]; eauto.
Qed.
Lemma no_sleep_change s s' x f : tasks_change s s' x f -> (forall y, is_Some (tasks s' !! y) -> is_Some (tasks s !! y)) ->
  (forall t, asleep (f t) -> asleep t) -> (forall t, t_pid (f t) = t_pid t) -> no_sleep (tasks s) (tasks s').
Proof.
  intros Hch Hd Ha Hp y t' Hy. destruct (Hd y (mk_is_Some _ _ Hy)) as [t Ht]. destruct (Hch y t Ht) as (t2 & E & Hs).
  assert (t2 = t') as -> by congruence. assert (t_pid t' = t_pid (if decide (y = x) then f t else t)) as Ep by (by injection Hs).
  apply same_state in Hs. unfold asleep in *. rewrite Hs, Ep. split.
  - intros Hsl. exists t. split; [done|]. case_decide; auto.
  - intros _. exists t. split; [done|]. case_decide; auto.
Qed.

(** ** Allocation *)

Lemma alloc_task_spec s q : sched_inv s q -> task_pool_index s < MAX_TASKS ->
  let p := pool_task (task_pool_index s) in
  exists s', alloc_task s = (p, s') /\ p <> 0 /\ 2 <= p /\ tasks s !! p = None /\ (p ∉ q) /\
    s' = with_tasks (with_pool_index s (task_pool_index s + 1)) (<[p := zero_task]> (tasks s)) /\
    sched_inv s' q.
Proof.
  intros I Hlt p. unfold alloc_task. rewrite (proj2 (Z.leb_gt _ _)) by done. fold p.
  pose proof (si_index _ _ I) as Hix.
  assert (tasks s !! p = None) as Hp.
  { apply eq_None_not_Some. rewrite (si_tasks _ _ I). unfold p, pool_task. lia. }
  assert (p ∉ q) as Hpq.
  { intros Hx. destruct (dseg_lookup _ _ _ _ _ _ _ _ _ (si_queue _ _ I) Hx) as [_ Hs].
    rewrite Hp in Hs. by destruct Hs. }
  eexists. split; [done|]. assert (2 <= p) by (unfold p, pool_task; lia).
  do 4 (split; [done || lia|]). split; [done|]. split; cbn; try apply I.
  - apply dseg_insert_out; [done | apply I].
  - lia.
  - intros x. destruct (decide (x = p)) as [->|Hne].
    + rewrite lookup_insert_eq. unfold p, pool_task. split; intros _; [lia | by eexists].
    + rewrite lookup_insert_ne by done. rewrite (si_tasks _ _ I). unfold p, pool_task in *. lia.
  - destruct (decide (rq_current (runqueue s) = p)) as [->|Hne].
    + rewrite lookup_insert_eq. eauto.
    + rewrite lookup_insert_ne by done. apply (si_current _ _ I).
  - intros x t Hx. destruct (decide (x = p)) as [->|Hne].
    + rewrite lookup_insert_eq. by intros [= <-].
    + rewrite lookup_insert_ne by done. by apply (si_unlinked _ _ I).
Qed.

Lemma running_fresh s q p t i e : running_but e s q -> p ∉ q ->
  running_but e (with_tasks (with_pool_index s i) (<[p := t]> (tasks s))) q.
Proof.
  intros Hr Hp x tx Hx Hxe. cbn. rewrite lookup_insert_ne by (intros ->; done). by apply Hr.
Qed.

(** Fields that the queue does not depend on. *)
Lemma inv_pages s q p : sched_inv s q -> sched_inv (with_pages s p) q.
Proof. intros []. by split. Qed.
Lemma inv_next_pid s q n : sched_inv s q -> sched_inv (with_next_pid s n) q.
Proof. intros []. by split. Qed.
Lemma inv_users s q u : sched_inv s q -> sched_inv (with_mm_users s u) q.
Proof. intros []. by split. Qed.

(** A new task is enqueued: what both creators end with. *)
Lemma publish_task s q p t e :
  sched_inv s q -> running_but e s q -> p ∉ q -> 2 <= p -> tasks s !! p = Some t ->
  exists s', enqueue_task s p = Ok s' /\ sched_inv s' (q ++ [p]) /\ running_but e s' (q ++ [p]) /\
    same_globals s s' /\ calm s s' /\ exists t', tasks s' !! p = Some t' /\
      same_but_links (with_state t TASK_RUNNING) t'.
Proof.
  intros I Hr Hp H2 Ht. destruct (enqueue_spec s q p t I Hp H2 Ht) as (s' & -> & I' & Hg & Hch).
  exists s'. split; [done|]. split; [done|]. split; [by eapply enqueue_running|]. split; [done|].
  split.
  { split; [by destruct Hg as (_ & _ & _ & _ & _ & ? & _)|]. eapply no_sleep_change; [exact Hch| |by intros ? [?|[?|?]]|done].
    intros y. by rewrite (inv_same_dom _ _ _ _ I I' Hg). }
  destruct (Hch p t Ht) as (t' & Ht' & Hs). rewrite decide_True in Hs by done. eauto.
Qed.

Lemma current_ok_push s s' q p : same_globals s s' -> current_ok s q -> current_ok s' (q ++ [p]).
Proof.
  intros (_ & _ & _ & _ & _ & Hc & _). unfold current_ok. rewrite Hc. intros [?|Hh]; [by left|right].
  destruct q; [done|exact Hh].
Qed.

(** A field other than the links. *)
Lemma same_field {B} (f : task -> B) {t t'} : same_but_links t t' ->
  (forall u, f (with_links u 0 0) = f u) -> f t' = f t.
Proof. intros Hs Hf. by rewrite <- (Hf t), Hs, Hf. Qed.

Lemma stack_order_value : stack_order 10 KERNEL_STACK_SIZE 0 = 2.
Proof. done. Qed.

Lemma create_but (s : sched) (q : list Z) (N entry arg flags e : Z) :
  good_but e s q -> pmm_inv (pages s) N ->
  exists p s', create_task s entry arg flags = Ok (p, s') /\ pmm_inv (pages s') N /\ calm s s' /\
    ((p = 0 /\ s' = s /\ task_pool_index s = MAX_TASKS) \/
     (p = 0 /\ good_but e s' q /\ task_pool_index s' = task_pool_index s + 1 /\
      next_pid s' = next_pid s /\ forall a, ~ free_run (pages s) N a 4) \/
     (p = pool_task (task_pool_index s) /\ good_but e s' (q ++ [p]) /\ next_pid s' = next_pid s + 1 /\
      exists t stack, tasks s' !! p = Some t /\ t_state t = TASK_RUNNING /\
        t_pid t = next_pid s /\ t_tgid t = next_pid s /\ t_flags t = flags /\
        t_parent t = rq_current (runqueue s) /\ t_stack t = stack /\ stack <> 0 /\
        t_sp t = u64 (stack + KERNEL_STACK_SIZE) /\ t_pc t = entry /\ t_x19 t = arg)).
Proof.
  intros (I & Hr & Hc) Ip. unfold create_task. pose proof (si_index _ _ I) as Hix.
  destruct (decide (task_pool_index s < MAX_TASKS)) as [Hlt|Hge].
  2:{ unfold alloc_task. rewrite (proj2 (Z.leb_le _ _)) by lia. exists 0, s.
      split; [done|]. split; [done|]. split; [by split; [|apply no_sleep_refl]|]. left. split; [done|]. split; [done|lia]. }
  destruct (alloc_task_spec s q I Hlt) as (s1 & -> & Hp0 & Hp2 & Hnone & Hpq & Es1 & I1).
  set (p := pool_task (task_pool_index s)) in *. cbv beta iota.
  rewrite (proj2 (Z.eqb_neq _ _) Hp0). unfold alloc_stack. rewrite stack_order_value.
  assert (pages s1 = pages s) as Epg by by rewrite Es1.
  assert (calm s s1) as C1 by (rewrite Es1; split; [done|apply no_sleep_new; [done|by intros [?|[?|?]]]]).
  assert (running_but e s1 q) as Hr1 by (rewrite Es1; by apply running_fresh).
  destruct (pmm_alloc_cases (pages s1) N 2) as [[E Hno] | (a & Hf & _ & E)];
    [by rewrite Epg | unfold MAX_ORDER; lia | |]; rewrite E, !bind_ok; cbv beta iota; change (2 ^ 2) with 4 in *.
  - exists 0, (with_pages s1 (pages s1)). split; [done|]. cbn [pages with_pages]. rewrite Epg.
    split; [done|]. split; [exact C1|]. right. left. split; [done|]. split.
    + split; [by apply inv_pages|]. split; [exact Hr1|]. rewrite Es1. exact Hc.
    + rewrite Epg in Hno. split; [by rewrite Es1|]. split; [by rewrite Es1 | done].
  - destruct (take_run (pages s1) N a 4) as (Ip' & _); [by rewrite Epg | done | lia |].
    set (pg := with_free_count _ _) in *. set (stack := page_addr (pages s1) a) in *.
    assert (stack <> 0) as Hst.
    { destruct Ip. destruct Hf as (? & ? & _). unfold stack, page_addr. rewrite Epg.
      unfold PAGE_SIZE. lia. }
    rewrite !(proj2 (Z.eqb_neq stack 0)) by done.
    set (s2 := with_next_pid (with_pages s1 pg) (next_pid (with_pages s1 pg) + 1)).
    assert (tasks s2 !! p = Some zero_task) as Ht2 by (unfold s2; cbn; rewrite Es1; apply lookup_insert_eq).
    rewrite (upd_task_ok _ _ _ _ Ht2), bind_ok. set (t3 := Task _ _ _ _ _ _ _ _ _ _ _ _ _ _ _ _ _ _ _ _ _ _ _).
    set (s3 := with_tasks s2 _).
    assert (sched_inv s3 q) as I3.
    { apply inv_upd with zero_task; [|done|done|done]. by apply inv_next_pid, inv_pages. }
    assert (running_but e s3 q) as Hr3 by (by apply running_but_upd).
    destruct (publish_task s3 q p t3 e I3 Hr3 Hpq Hp2) as (s4 & -> & I4 & Hr4 & Hg & C4 & t & Ht & Hs);
      [apply lookup_insert_eq|].
    rewrite bind_ok. exists p, s4. split; [done|].
    destruct Hg as (Hgi & Hgn & Hgu & Hgl & Hgp & Hgc & Hgr).
    split; [by rewrite Hgp|]. split.
    { eapply calm_trans; [exact C1|]. eapply calm_trans; [|exact C4]. split; [done|]. by apply (no_sleep_new (tasks s2)); [|intros [?|[?|?]]]. }
    right. right. split; [done|]. split; [split; [done|split; [done|]]|].
    + apply (current_ok_push s3); [done|]. unfold s3, s2, current_ok. cbn. rewrite Es1. exact Hc.
    + split; [rewrite Hgn; unfold s3, s2; cbn; by rewrite Es1|].
      exists t, stack. split; [done|]. unfold same_but_links in Hs.
      repeat split; try done; rewrite ?(same_field t_state Hs), ?(same_field t_pid Hs),
        ?(same_field t_tgid Hs), ?(same_field t_flags Hs), ?(same_field t_parent Hs),
        ?(same_field t_stack Hs), ?(same_field t_sp Hs), ?(same_field t_pc Hs),
        ?(same_field t_x19 Hs) by done; cbn; by rewrite ?Es1.
Qed.

Lemma create_spec (s : sched) (q : list Z) (N entry arg flags : Z) :
  good s q -> pmm_inv (pages s) N ->
  exists p s', create_task s entry arg flags = Ok (p, s') /\ pmm_inv (pages s') N /\
    ((p = 0 /\ s' = s /\ task_pool_index s = MAX_TASKS) \/
     (p = 0 /\ good s' q /\ task_pool_index s' = task_pool_index s + 1 /\
      next_pid s' = next_pid s /\ forall a, ~ free_run (pages s) N a 4) \/
     (p = pool_task (task_pool_index s) /\ good s' (q ++ [p]) /\ next_pid s' = next_pid s + 1 /\
      exists t stack, tasks s' !! p = Some t /\ t_state t = TASK_RUNNING /\
        t_pid t = next_pid s /\ t_tgid t = next_pid s /\ t_flags t = flags /\
        t_parent t = rq_current (runqueue s) /\ t_stack t = stack /\ stack <> 0 /\
        t_sp t = u64 (stack + KERNEL_STACK_SIZE) /\ t_pc t = entry /\ t_x19 t = arg)).
Proof.
  intros G%good_but_0 Ip. destruct (create_but s q N entry arg flags 0 G Ip) as (p & s' & E & Ip' & _ & Hres). exists p, s'.
  setoid_rewrite (good_but_0 s'). done.
Qed.

(** ** Exit, wake-up, kill *)

Lemma switch_no_sleep s s' q q' z : sched_inv s q -> sched_inv s' q' -> task_pool_index s' = task_pool_index s ->
  (forall y t, tasks s !! y = Some t -> exists mm, tasks s' !! y = Some (if decide (y = z) then with_active_mm t mm else t)) ->
  no_sleep (tasks s) (tasks s').
Proof.
  intros I I' Hix Htk y t' Hy. assert (is_Some (tasks s !! y)) as [t Ht].
  { apply (si_tasks _ _ I). rewrite <- Hix. by apply (si_tasks _ _ I'). }
  destruct (Htk y t Ht) as [mm E]. rewrite Hy in E. injection E as ->. by split; intros Hs; exists t; case_decide.
Qed.

Lemma exit_but s cur l2 code :
  sched_inv s (cur :: l2) -> rq_current (runqueue s) = cur -> running_but cur s (cur :: l2) ->
  exists s', exit_task s code = Ok s' /\ pages s' = pages s /\ good s' l2 /\
    rq_current (runqueue s') = default init_task (head l2) /\ no_sleep (tasks s) (tasks s') /\
    exists t, tasks s' !! cur = Some t /\ t_state t = TASK_ZOMBIE /\ t_exit_code t = code.
Proof.
  intros I Hcur Hr. unfold exit_task. rewrite Hcur.
  destruct (si_current _ _ I) as [t Ht]. rewrite Hcur in Ht.
  rewrite (upd_task_ok _ _ _ _ Ht), bind_ok. set (t1 := with_state _ TASK_ZOMBIE).
  set (s1 := with_tasks s _).
  assert (sched_inv s1 (cur :: l2)) as I1 by by apply inv_upd with t.
  assert (tasks s1 !! cur = Some t1) as Ht1 by apply lookup_insert_eq.
  pose proof (si_nodup _ _ I) as [Hcl _]%NoDup_cons.
  destruct (dequeue_spec s1 [] cur l2 I1) as (s2 & -> & I2 & Hg2 & Hch). rewrite bind_ok. simpl in I2.
  assert (all_running s2 l2) as Hr2.
  { apply (all_running_but s2 l2 I2), (dequeue_running s1 s2 [] cur l2); [done..|]. simpl. intros y ty Hy _.
    assert (y <> cur) by (by intros ->). unfold s1. cbn. rewrite lookup_insert_ne by done.
    apply Hr; [apply elem_of_cons; by right|done]. }
  destruct (Hch cur t1 Ht1) as (t2 & Ht2 & Hs). rewrite decide_True in Hs by done.
  assert (rq_current (runqueue s2) = cur) as Hc2 by (destruct Hg2 as (_ & _ & _ & _ & _ & -> & _); done).
  assert (2 <= cur) as H2 by (apply (si_pool _ _ I), elem_of_cons; by left).
  assert (no_sleep (tasks s) (tasks s2)) as N2.
  { apply (no_sleep_trans _ (tasks s1)); [by apply (no_sleep_upd (tasks s) cur t t1); [|intros [?|[?|?]]|]|].
    apply (no_sleep_change s1 s2 _ _ Hch); [|done|done]. intros y. by rewrite (inv_same_dom _ _ _ _ I1 I2 Hg2). }
  assert (cur <> default init_task (head l2)) as Hne.
  { destruct l2 as [|y l2]; simpl; [unfold init_task; lia|].
    intros ->. apply Hcl, elem_of_cons. by left. }
  destruct (schedule_switch s2 l2 t2) as (s' & -> & I' & Hc' & Hix & _ & Hpg & Htk); try done.
  - by rewrite Hc2.
  - by rewrite Hc2.
  - left. rewrite (same_field t_state Hs) by done. done.
  - exists s'. split; [done|]. split; [rewrite Hpg; by destruct Hg2 as (_ & _ & _ & _ & -> & _)|].
    split; [split; [done|split]|split; [done|split]].
    + intros y ty Hy Hty. destruct (dseg_lookup _ _ _ _ _ _ _ _ y (si_queue _ _ I2) Hy) as [_ [ty2 Hty2]].
      destruct (Htk y ty2 Hty2) as [mm E]. rewrite Hty in E. injection E as ->.
      pose proof (Hr2 y ty2 Hy Hty2). by case_decide.
    + unfold current_ok. rewrite Hc'. destruct l2; simpl; [by left|by right].
    + apply (no_sleep_trans _ (tasks s2)); [exact N2|]. by apply (switch_no_sleep s2 s' l2 l2 (default init_task (head l2))).
    + destruct (Htk cur t2 Ht2) as [mm E]. rewrite decide_False in E by done.
      exists t2. split; [done|]. rewrite (same_field t_state Hs), (same_field t_exit_code Hs) by done. done.
Qed.

Lemma exit_spec s cur l2 code :
  sched_inv s (cur :: l2) -> rq_current (runqueue s) = cur -> all_running s (cur :: l2) ->
  exists s', exit_task s code = Ok s' /\ pages s' = pages s /\ good s' l2 /\
    rq_current (runqueue s') = default init_task (head l2) /\
    exists t, tasks s' !! cur = Some t /\ t_state t = TASK_ZOMBIE /\ t_exit_code t = code.
Proof.
  intros I Hcur Hr. destruct (exit_but s cur l2 code I Hcur) as (s' & ? & ? & ? & ? & _ & ?); [|by exists s'].
  intros x t Hx _. by apply Hr.
Qed.

Lemma wake_but s q p t e :
  good_but e s q -> tasks s !! p = Some t -> t_state t <> TASK_RUNNING -> 2 <= p -> p <> e ->
  exists s', wake_up_process s p = Ok (1, s') /\ good_but e s' (q ++ [p]) /\ pages s' = pages s /\ calm s s'.
Proof.
  intros (I & Hr & Hc) Ht Hst H2 Hpe. unfold wake_up_process.
  rewrite (proj2 (Z.eqb_neq p 0)) by lia. rewrite (get_task_ok _ _ _ Ht), bind_ok.
  rewrite bool_decide_false by done. rewrite (upd_task_ok _ _ _ _ Ht), bind_ok.
  assert (p ∉ q) as Hpq by (intros Hx; by apply Hst, (Hr p)).
  set (s1 := with_tasks s _).
  assert (calm s s1) as C1 by (split; [done|]; apply no_sleep_upd with t; [done|by intros [?|[?|?]]|done]).
  destruct (publish_task s1 q p (with_state t TASK_RUNNING) e) as (s' & -> & I' & Hr' & Hg & C2 & _).
  - by apply inv_upd with t.
  - by apply running_but_upd.
  - done.
  - done.
  - apply lookup_insert_eq.
  - rewrite bind_ok. exists s'. split; [done|]. split; [split; [done|split; [done|]]|split].
    + by apply (current_ok_push s1).
    + by destruct Hg as (_ & _ & _ & _ & -> & _).
    + by eapply calm_trans.
Qed.

Lemma wake_spec s q p t :
  good s q -> tasks s !! p = Some t -> t_state t <> TASK_RUNNING -> 2 <= p ->
  exists s', wake_up_process s p = Ok (1, s') /\ good s' (q ++ [p]) /\ pages s' = pages s.
Proof.
  intros G%good_but_0 Ht Hst H2. destruct (wake_but s q p t 0 G Ht Hst H2) as (s' & E & G' & Hp & _); [lia|].
  exists s'. by rewrite good_but_0.
Qed.

Lemma find_pid_spec fuel : forall s pid i,
  (forall j, i <= j < i + Z.of_nat fuel -> is_Some (tasks s !! pool_task j)) ->
  exists p, find_pid fuel s pid i = Ok p /\
    ((p = 0 /\ forall j t, i <= j < i + Z.of_nat fuel -> tasks s !! pool_task j = Some t ->
        t_pid t = pid -> t_state t = TASK_DEAD) \/
     (exists j t, p = pool_task j /\ i <= j < i + Z.of_nat fuel /\ tasks s !! p = Some t /\
        t_pid t = pid /\ t_state t <> TASK_DEAD)).
Proof.
  induction fuel as [|fuel IH]; intros s pid i Hd; cbn [find_pid].
  - exists 0. split; [done|]. left. split; [done|]. intros; lia.
  - destruct (Hd i ltac:(lia)) as [t Ht]. rewrite (get_task_ok _ _ _ Ht), bind_ok.
    destruct (Z.eqb_spec (t_pid t) pid) as [Hp|Hp]; cbn [andb]; [case_bool_decide as Hst|].
    + exists (pool_task i). split; [done|]. right. exists i, t. split; [done|]. split; [lia|done].
    + destruct (IH s pid (i + 1)) as (p & -> & Hres); [intros; apply Hd; lia|]. exists p. split; [done|].
      destruct Hres as [[-> Hno] | (j & tj & -> & Hj & Htj & Hres)]; [left|right].
      * split; [done|]. intros j tj Hj Htj Hpj. destruct (decide (j = i)) as [->|].
        -- assert (tj = t) as -> by congruence.
           destruct (decide (t_state t = TASK_DEAD)); [done|tauto].
        -- apply (Hno j); [lia|done|done].
      * exists j, tj. split; [done|]. split; [lia|done].
    + destruct (IH s pid (i + 1)) as (p & -> & Hres); [intros; apply Hd; lia|]. exists p. split; [done|].
      destruct Hres as [[-> Hno] | (j & tj & -> & Hj & Htj & Hres)]; [left|right].
      * split; [done|]. intros j tj Hj Htj Hpj. destruct (decide (j = i)) as [->|].
        -- exfalso. congruence.
        -- apply (Hno j); [lia|done|done].
      * exists j, tj. split; [done|]. split; [lia|done].
Qed.

Lemma by_pid_spec s q pid : sched_inv s q ->
  exists p, get_task_by_pid s pid = Ok p /\
    ((p = 0 /\ forall x t, tasks s !! x = Some t -> t_pid t = pid -> t_state t = TASK_DEAD /\ x <> init_task) \/
     (exists t, p <> 0 /\ tasks s !! p = Some t /\ t_pid t = pid /\ (t_state t <> TASK_DEAD \/ p = init_task))).
Proof.
  intros I. unfold get_task_by_pid. pose proof (si_index _ _ I) as Hix.
  destruct (proj2 (si_tasks _ _ I init_task)) as [ti Hti]; [unfold init_task; lia|].
  rewrite (get_task_ok _ _ _ Hti), bind_ok. destruct (Z.eqb_spec (t_pid ti) pid) as [Hp|Hp].
  { exists init_task. split; [done|]. right. exists ti. split; [done|]. split; [done|]. split; [done|]. by right. }
  destruct (find_pid_spec (Z.to_nat (task_pool_index s)) s pid 0) as (p & -> & Hres).
  { intros j Hj. apply (si_tasks _ _ I). unfold pool_task. lia. }
  exists p. split; [done|]. destruct Hres as [[-> Hno] | (j & t & -> & Hj & Ht & Hpid & Hst)]; [left|right].
  - split; [done|]. intros x t Hx Hpid. pose proof (proj1 (si_tasks _ _ I x) (mk_is_Some _ _ Hx)) as Hr.
    destruct (decide (x = init_task)) as [->|Hne]; [simplify_eq|]. split; [|done].
    apply (Hno (x - 2) t); unfold pool_task, init_task in *; [lia | by replace (x - 2 + 2) with x by lia | done].
  - exists t. split; [unfold pool_task; lia|]. split; [done|]. split; [done|]. by left.
Qed.

Lemma running_switch s s' q z e :
  sched_inv s q -> running_but e s q ->
  (forall y t, tasks s !! y = Some t -> exists mm, tasks s' !! y =
      Some (if decide (y = z) then with_active_mm t mm else t)) ->
  running_but e s' q.
Proof.
  intros I Hr Htk y ty Hy Hye Hty. destruct (dseg_lookup _ _ _ _ _ _ _ _ y (si_queue _ _ I) Hy) as [_ [ty2 Hty2]].
  destruct (Htk y ty2 Hty2) as [mm E]. rewrite Hty in E. injection E as ->.
  pose proof (Hr y ty2 Hy Hye Hty2). by case_decide.
Qed.

(** [schedule] between operations. *)
Lemma schedule_but s q e : good_but e s q -> exists s', schedule s = Ok s' /\ good_but e s' q /\ pages s' = pages s /\
  rq_current (runqueue s') = default init_task (head q) /\ no_sleep (tasks s) (tasks s').
Proof.
  intros (I & Hr & Hc).
  destruct (decide (rq_current (runqueue s) = default init_task (head q))) as [E|Hne].
  - exists s. split; [by apply schedule_same with q|]. split; [done|]. split; [done|]. split; [done|apply no_sleep_refl].
  - destruct Hc as [Hc|Hc]; [|by rewrite Hc in Hne].
    destruct (si_current _ _ I) as [t Ht].
    destruct (schedule_switch s q t I Hne Ht) as (s' & -> & I' & Hc' & Hix & _ & Hpg & Htk); [by right|].
    exists s'. split; [done|]. split; [split; [done|split]|split; [done|split; [done|]]].
    + by apply (running_switch s s' q (default init_task (head q))).
    + unfold current_ok. rewrite Hc'. destruct q; simpl; [by left|by right].
    + by apply (switch_no_sleep s s' q q (default init_task (head q))).
Qed.

Lemma schedule_good s q : good s q -> exists s', schedule s = Ok s' /\ good s' q /\ pages s' = pages s /\
  rq_current (runqueue s') = default init_task (head q).
Proof. intros (s' & E & G & Hp & Hc & _)%good_but_0%schedule_but. exists s'. by rewrite good_but_0. Qed.

(** The links of a task that was only just taken from the pool. *)
Lemma upd_fresh s q p t t' e :
  sched_inv s q -> running_but e s q -> p ∉ q -> tasks s !! p = Some t ->
  t_next t' = t_next t -> t_prev t' = t_prev t ->
  let s' := with_tasks s (<[p := t']> (tasks s)) in
  sched_inv s' q /\ running_but e s' q /\ tasks s' !! p = Some t'.
Proof.
  intros I Hr Hp Ht Hn Hv. split; [by apply inv_upd with t|]. split; [by apply running_but_upd|].
  apply lookup_insert_eq.
Qed.

Lemma thread_but s q N entry arg stack cf r s' e :
  good_but e s q -> pmm_inv (pages s) N -> create_thread s entry arg stack cf = Ok (r, s') ->
  exists q', good_but e s' q' /\ pmm_inv (pages s') N /\ calm s s'.
Proof.
  intros (I & Hr & Hc) Ip. unfold create_thread. pose proof (si_index _ _ I) as Hix.
  destruct (decide (task_pool_index s < MAX_TASKS)) as [Hlt|Hge].
  2:{ unfold alloc_task. rewrite (proj2 (Z.leb_le _ _)) by lia. intros [= <- <-]. exists q. do 2 (split; [done|]). by split; [|apply no_sleep_refl]. }
  destruct (alloc_task_spec s q I Hlt) as (s1 & -> & Hp0 & Hp2 & Hnone & Hpq & Es1 & I1).
  set (p := pool_task (task_pool_index s)) in *. cbv beta iota zeta.
  rewrite (proj2 (Z.eqb_neq _ _) Hp0).
  assert (running_but e s1 q) as Hr1 by (rewrite Es1; by apply running_fresh).
  assert (current_ok s1 q) as Hc1 by (rewrite Es1; exact Hc).
  assert (pmm_inv (pages s1) N) as Ip1 by by rewrite Es1.
  assert (tasks s1 !! p = Some zero_task) as Hz by (rewrite Es1; apply lookup_insert_eq).
  assert (calm s s1) as C1 by (rewrite Es1; split; [done|apply no_sleep_new; [done|by intros [?|[?|?]]]]).
  clear Es1. intros Hx. inv_bind Hx. rename v into tp. clear Hv.
  set (s2 := with_next_pid s1 _) in Hx.
  assert (sched_inv s2 q) as I2 by by apply inv_next_pid.
  rewrite (upd_task_ok s2 p _ zero_task Hz) in Hx. rewrite bind_ok in Hx.
  set (t3 := Task _ _ _ _ _ _ _ _ _ _ _ _ _ _ _ _ _ _ _ _ _ _ _) in Hx.
  destruct (upd_fresh s2 q p zero_task t3 e I2 Hr1 Hpq Hz eq_refl eq_refl) as (I3 & Hr3 & Ht3).
  set (s3 := with_tasks s2 _) in *.
  assert (calm s s3) as C3 by (eapply calm_trans; [exact C1|split; [done|by apply (no_sleep_new (tasks s2)); [|intros [?|[?|?]]]]]).
  assert (~ asleep t3) as Hwake by (by intros [?|[?|?]]).
  inv_bind Hx. rename v into s4.
  assert (sched_inv s4 q /\ running_but e s4 q /\ tasks s4 !! p = Some t3 /\ current_ok s4 q /\
          pages s4 = pages s1 /\ calm s3 s4) as (I4 & Hr4 & Ht4 & Hc4 & Ep4 & C4).
  { destruct (_ && _) in Hv.
    - inv_bind Hv. injection Hv as <-. split; [by apply inv_users|]. do 4 (split; [done|]). split; [done|apply no_sleep_refl].
    - injection Hv as <-. do 5 (split; [done|]). split; [done|apply no_sleep_refl]. }
  clear Hv. inv_bind Hx. destruct v as [ok s5].
  assert (sched_inv s5 q /\ running_but e s5 q /\ (exists t5, tasks s5 !! p = Some t5) /\
          current_ok s5 q /\ pmm_inv (pages s5) N /\ calm s4 s5) as (I5 & Hr5 & [t5 Ht5] & Hc5 & Ip5 & C5).
  { destruct (negb (stack =? 0)) in Hv.
    - rewrite (upd_task_ok _ _ _ _ Ht4), bind_ok in Hv. injection Hv as <- <-.
      split; [by apply inv_upd with t3|]. split; [by apply running_but_upd|].
      split; [eexists; apply lookup_insert_eq|]. split; [done|]. cbn. rewrite Ep4. split; [done|].
      split; [done|]. by apply (no_sleep_new (tasks s4)); [|intros [?|[?|?]]].
    - unfold alloc_stack in Hv. rewrite stack_order_value in Hv.
      destruct (pmm_alloc_cases (pages s4) N 2) as [[E Hno] | (a & Hf & _ & E)];
        [by rewrite Ep4 | unfold MAX_ORDER; lia | |]; rewrite E, !bind_ok in Hv; cbv beta iota in Hv.
      + injection Hv as <- <-. split; [by apply inv_pages|]. do 2 (split; [by eauto|]). split; [done|]. cbn. rewrite Ep4. split; [done|].
        split; [done|apply no_sleep_refl].
      + destruct (take_run (pages s4) N a 4) as (Ip' & _); [by rewrite Ep4 | done | lia |].
        change (2 ^ 2) with 4 in *. set (pg := with_free_count _ _) in *.
        assert (sched_inv (with_pages s4 pg) q) as I5 by by apply inv_pages.
        destruct (_ =? 0) in Hv.
        * injection Hv as <- <-. do 3 (split; [by eauto|]). do 2 (split; [done|]). split; [done|apply no_sleep_refl].
        * rewrite (upd_task_ok (with_pages s4 pg) p _ t3 Ht4), bind_ok in Hv. injection Hv as <- <-.
          split; [by apply (inv_upd (with_pages s4 pg) q p t3)|]. split; [by apply (running_but_upd (with_pages s4 pg))|].
          split; [eexists; apply lookup_insert_eq|]. do 2 (split; [done|]).
          split; [done|]. by apply (no_sleep_new (tasks s4)); [|intros [?|[?|?]]]. }
  assert (calm s s5) as C by (eapply calm_trans; [exact C3|]; by eapply calm_trans).
  destruct ok; cbn [negb] in Hx; [|injection Hx as <- <-; by exists q].
  destruct (publish_task s5 q p t5 e I5 Hr5 Hpq Hp2 Ht5) as (s6 & E & I6 & Hr6 & Hg & C6 & _).
  rewrite E, bind_ok in Hx. injection Hx as <- <-. exists (q ++ [p]).
  split; [split; [done|split; [done|by apply (current_ok_push s5)]]|].
  split; [by destruct Hg as (_ & _ & _ & _ & -> & _)|by eapply calm_trans].
Qed.

(** Killing wakes a sleeping task, which must not be the one that runs. *)
Lemma kill_but s q N pid r s' e :
  good_but e s q -> pmm_inv (pages s) N -> (forall t, tasks s !! init_task = Some t -> t_pid t = 0) ->
  (forall p t, get_task_by_pid s pid = Ok p -> p <> init_task -> tasks s !! p = Some t ->
    t_state t = TASK_INTERRUPTIBLE \/ t_state t = TASK_UNINTERRUPTIBLE -> p <> e) ->
  sched_kill_task s pid = Ok (r, s') -> exists q', good_but e s' q' /\ pmm_inv (pages s') N /\ calm s s'.
Proof.
  intros (I & Hr & Hc) Ip Hi Hne. assert (calm s s) as C0 by (split; [done|apply no_sleep_refl]). unfold sched_kill_task.
  destruct (by_pid_spec s q pid I) as (p & E & Hp). rewrite E, bind_ok.
  destruct (Z.eqb_spec p 0) as [->|Hp0]; [intros [= <- <-]; by exists q|].
  destruct Hp as [[-> _]|(t & _ & Ht & _)]; [done|]. rewrite (get_task_ok _ _ _ Ht), bind_ok.
  destruct (Z.eqb_spec (t_pid t) 0) as [|Hpid]; [intros [= <- <-]; by exists q|]. cbn [orb].
  assert (2 <= p) as Hp2.
  { pose proof (proj1 (si_tasks _ _ I p) (mk_is_Some _ _ Ht)). unfold init_task in Hi.
    destruct (decide (p = 1)) as [->|]; [by destruct (Hpid (Hi t Ht))|lia]. }
  destruct (negb _); [intros [= <- <-]; by exists q|].
  rewrite (upd_task_ok _ _ _ _ Ht), bind_ok. set (t1 := with_pending t _ _). set (s1 := with_tasks s _).
  assert (sched_inv s1 q) as I1 by by apply inv_upd with t.
  assert (running_but e s1 q) as Hr1 by (apply running_but_upd; [done|]; intros Hx Hxe; exact (Hr p t Hx Hxe Ht)).
  assert (calm s s1) as C1 by (split; [done|]; by apply no_sleep_upd with t).
  destruct (_ || _) eqn:Est; [|intros [= <- <-]; by exists q].
  assert (p <> e) as Hpe.
  { apply (Hne p t E ltac:(unfold init_task; lia) Ht). apply orb_true_iff in Est as [Est|Est]; apply bool_decide_eq_true in Est; [by left|by right]. }
  assert (p ∉ q) as Hpq.
  { intros Hx. pose proof (Hr p t Hx Hpe Ht) as Hrun. rewrite Hrun in Est. done. }
  rewrite (upd_task_ok s1 p _ t1) by apply lookup_insert_eq. rewrite bind_ok.
  destruct (upd_fresh s1 q p t1 (with_state t1 TASK_RUNNING) e I1 Hr1 Hpq (lookup_insert_eq _ _ _) eq_refl eq_refl)
    as (I2 & Hr2 & Ht2).
  destruct (publish_task _ q p _ e I2 Hr2 Hpq Hp2 Ht2) as (s3 & -> & I3 & Hr3 & Hg & C3 & _).
  rewrite bind_ok. intros [= <- <-]. exists (q ++ [p]).
  split; [split; [done|split; [done|]]|split].
  - eapply current_ok_push; [exact Hg|]. exact Hc.
  - by destruct Hg as (_ & _ & _ & _ & -> & _).
  - eapply calm_trans; [exact C1|]. eapply calm_trans; [|exact C3]. split; [done|].
    apply (no_sleep_upd (tasks s1)) with t1; [apply lookup_insert_eq|by intros [?|[?|?]]|done].
Qed.

(** ** What each operation does *)

(** [create_task] takes the next slot of the pool and the next pid, and puts
    the new runnable task, with its stack pointer at the top of a fresh 16KB
    stack, at the end of the run queue.  Without a free slot nothing changes; without
    a stack the queue is as before but the slot is lost. *)
Theorem create_task_correct (s : sched) (q : list Z) (N entry arg flags : Z) :
  good s q -> pmm_inv (pages s) N ->
  exists p s', create_task s entry arg flags = Ok (p, s') /\ pmm_inv (pages s') N /\
    ((p = 0 /\ s' = s /\ task_pool_index s = MAX_TASKS) \/
     (p = 0 /\ good s' q /\ task_pool_index s' = task_pool_index s + 1 /\
      next_pid s' = next_pid s /\ forall a, ~ free_run (pages s) N a 4) \/
     (p = pool_task (task_pool_index s) /\ good s' (q ++ [p]) /\ next_pid s' = next_pid s + 1 /\
      exists t stack, tasks s' !! p = Some t /\ t_state t = TASK_RUNNING /\
        t_pid t = next_pid s /\ t_tgid t = next_pid s /\ t_flags t = flags /\
        t_parent t = rq_current (runqueue s) /\ t_stack t = stack /\ stack <> 0 /\
        t_sp t = u64 (stack + KERNEL_STACK_SIZE) /\ t_pc t = entry /\ t_x19 t = arg)).
Proof. apply create_spec. Qed.

(** [exit_task] of the running task, which is the head of the queue: the task
    becomes a zombie with its exit code and leaves the queue, and the next task
    in it, or the idle task, runs. *)
Theorem exit_task_correct (s : sched) (cur : Z) (l2 : list Z) (code : Z) :
  good s (cur :: l2) -> rq_current (runqueue s) = cur ->
  exists s', exit_task s code = Ok s' /\ good s' l2 /\
    rq_current (runqueue s') = default init_task (head l2) /\
    exists t, tasks s' !! cur = Some t /\ t_state t = TASK_ZOMBIE /\ t_exit_code t = code.
Proof.
  intros (I & Hr & _) Hc. destruct (exit_spec s cur l2 code I Hc Hr) as (s' & E & _ & H). by exists s'.
Qed.

(** [exit_task] of the idle task, which is in no queue, empties the run
    queue: the queued tasks stay runnable but are never picked again. *)
Theorem exit_idle_drops_queue (s : sched) (q : list Z) (code : Z) :
  sched_inv s q -> rq_current (runqueue s) = init_task ->
  exists s', exit_task s code = Ok s' /\ rq_head (runqueue s') = 0 /\
    rq_current (runqueue s') = init_task /\ pick_next_task s' = init_task /\
    forall x, x ∈ q -> tasks s' !! x = tasks s !! x.
Proof.
  intros I Hcur. unfold exit_task. rewrite Hcur.
  destruct (si_current _ _ I) as [t Ht]. rewrite Hcur in Ht.
  assert (init_task ∉ q) as Hnin by (intros Hx; pose proof (si_pool _ _ I _ Hx); unfold init_task in *; lia).
  destruct (si_unlinked _ _ I _ _ Hnin Ht) as [Hn Hp].
  rewrite (upd_task_ok _ _ _ _ Ht), bind_ok. set (t1 := with_state _ TASK_ZOMBIE).
  set (s1 := with_tasks s _).
  destruct (dequeue_effect s1 init_task t1) as (s2 & -> & Hg & Hm & Hh & Htl & Hnr);
    try (unfold t1; cbn; rewrite ?Hn, ?Hp; done).
  { unfold s1. cbn. apply lookup_insert_eq. }
  rewrite bind_ok. destruct Hg as (_ & _ & _ & _ & _ & Hc2 & Hi2 & _).
  assert (rq_head (runqueue s2) = 0) as Hh2 by (rewrite Hh; unfold t1; cbn; by rewrite Hp, Hn).
  assert (pick_next_task s2 = init_task) as Hpick.
  { unfold pick_next_task. rewrite Hh2, Z.eqb_refl, Hi2. apply I. }
  unfold schedule. rewrite Hpick, Hc2. unfold s1 at 1. cbn [runqueue with_tasks].
  rewrite Hcur, Z.eqb_refl. exists s2. split; [done|]. split; [done|].
  split; [by rewrite Hc2|]. split; [done|]. intros x Hx.
  assert (x <> init_task) by (by intros ->). rewrite Hm.
  change (t_next t1) with (t_next t). change (t_prev t1) with (t_prev t). rewrite Hn, Hp.
  cbn [alter_task Z.eqb]. rewrite lookup_alter_ne by done. unfold s1. cbn.
  by rewrite lookup_insert_ne.
Qed.

(** [schedule] does not preempt: while the running task is the head of the
    queue it is picked again, whatever waits behind it. *)
Theorem schedule_no_rotation (s : sched) (q : list Z) :
  sched_inv s q -> head q = Some (rq_current (runqueue s)) -> schedule s = Ok s.
Proof. intros I Hh. apply (schedule_same s q I). by rewrite Hh. Qed.

(** [get_task_by_pid] finds a live task with that pid if there is one. *)
Theorem get_task_by_pid_correct (s : sched) (q : list Z) (pid : Z) :
  sched_inv s q ->
  exists p, get_task_by_pid s pid = Ok p /\
    ((p = 0 /\ forall x t, tasks s !! x = Some t -> t_pid t = pid -> t_state t = TASK_DEAD /\ x <> init_task) \/
     (exists t, p <> 0 /\ tasks s !! p = Some t /\ t_pid t = pid /\ (t_state t <> TASK_DEAD \/ p = init_task))).
Proof. apply by_pid_spec. Qed.

Lemma boot_tasks p x : tasks (sched_init (sched_static p)) !! x =
  if decide (x = init_task) then Some init_task_value else None.
Proof.
  unfold sched_init, sched_static, tasks, with_rq. case_decide as E.
  - subst. apply lookup_singleton_eq.
  - by apply lookup_singleton_ne.
Qed.

Lemma init_good p : good (sched_init (sched_static p)) [].
Proof.
  split; [|split; [|by left]].
  - split; try done.
    + constructor.
    + by intros x Hx%not_elem_of_nil.
    + intros x. rewrite boot_tasks. change (task_pool_index (sched_init (sched_static p))) with 0.
      unfold init_task. case_decide.
      * split; intros _; [lia | by eexists].
      * split; [by intros [? ?] | lia].
    + intros x t _. rewrite boot_tasks. case_decide; [|done]. by intros [= <-].
  - intros x t Hx. by apply not_elem_of_nil in Hx.
Qed.

(** ** Witnesses *)

(** Boot on the sixteen pages of [mini_pmm], and one task created there. *)
Definition boot_sched : sched := sched_init (sched_static mini_pmm).
Definition one_task : sched :=
  match create_task boot_sched 0x400000 7 1 with Ok (_, s) => s | _ => boot_sched end.
Definition running_one : sched := match schedule one_task with Ok s => s | _ => one_task end.

Lemma boot_sched_good : good boot_sched [].
Proof. apply init_good. Qed.

Lemma one_task_good : good one_task [2] /\ rq_current (runqueue one_task) = init_task.
Proof.
  split; [|by vm_compute].
  destruct (create_spec boot_sched [] 16 0x400000 7 1 boot_sched_good mini_pmm_inv) as (p & s & E & _ & Hres).
  unfold one_task. rewrite E. assert (p = 2) as Hp2.
  { apply (f_equal (fun o => match o with Ok (p, _) => p | _ => 0 end)) in E. by vm_compute in E. }
  destruct Hres as [(-> & _) | [(-> & _) | (_ & G & _)]]; [done..|]. by rewrite Hp2 in G.
Qed.

Lemma running_one_good : good running_one [2] /\ rq_current (runqueue running_one) = 2.
Proof.
  destruct one_task_good as [G _]. destruct (schedule_good _ _ G) as (s & E & G' & _ & Hc).
  unfold running_one. rewrite E. exact (conj G' Hc).
Qed.

Lemma create_task_correct_witness :
  exists s, create_task boot_sched 0x400000 7 1 = Ok (2, s) /\ pmm_inv (pages s) 16.
Proof.
  destruct (create_task_correct boot_sched [] 16 0x400000 7 1 boot_sched_good mini_pmm_inv)
    as (p & s & E & Ip & _).
  assert (p = 2) as ->.
  { apply (f_equal (fun o => match o with Ok (p, _) => p | _ => 0 end)) in E. by vm_compute in E. }
  by exists s.
Defined.

Lemma exit_task_correct_witness :
  exists s, exit_task running_one 3 = Ok s /\ rq_current (runqueue s) = init_task.
Proof.
  destruct running_one_good as [G Hc].
  destruct (exit_task_correct running_one 2 [] 3 G Hc) as (s & E & _ & Hn & _).
  exact (ex_intro _ s (conj E Hn)).
Defined.

Lemma exit_idle_drops_queue_witness :
  exists s, exit_task one_task 0 = Ok s /\ rq_head (runqueue s) = 0.
Proof.
  destruct one_task_good as [(I & _) Hc].
  destruct (exit_idle_drops_queue one_task [2] 0 I Hc) as (s & E & Hh & _).
  exact (ex_intro _ s (conj E Hh)).
Defined.

Lemma schedule_no_rotation_witness : schedule running_one = Ok running_one.
Proof.
  destruct running_one_good as [(I & _) Hc].
  apply (schedule_no_rotation running_one [2] I). rewrite Hc. exact eq_refl.
Defined.

Lemma get_task_by_pid_correct_witness :
  exists p, get_task_by_pid one_task 1 = Ok p /\ p = 2.
Proof.
  destruct one_task_good as [(I & _) _].
  destruct (get_task_by_pid_correct one_task [2] 1 I) as (p & E & _).
  exists p. split; [exact E|].
  apply (f_equal (fun o => match o with Ok p => p | _ => 0 end)) in E. vm_compute in E. exact (eq_sym E).
Defined.
