(* ===== verification/Signal.v ===== *)
(** * Signals (src/kernel/sched/signal.c)

    A [signal_struct *] is a pool index plus one, 0 is the null pointer.  A
    handler is its address; what a user handler does to the state is the
    parameter [run_handler].  A default action may take the CPU away from the
    task: [flow] says where [do_signal] stands when it does. *)
From S2P Require Import Prelude DList Pmm PmmSpec Sched SchedSpec SchedTheorems.
#[local] Open Scope Z_scope.

Definition SIGKILL : Z := 9.
Definition SIGCHLD : Z := 17.
Definition SIGCONT : Z := 18.
Definition SIGSTOP : Z := 19.
Definition SIGTSTP : Z := 20.
Definition SIGTTIN : Z := 21.
Definition SIGTTOU : Z := 22.
Definition SIGURG : Z := 23.
Definition SIGWINCH : Z := 28.
Definition NSIG : Z := 32.
Definition SIG_DFL : Z := 0.
Definition SIG_IGN : Z := 1.

Record sigaction := Sigaction { sa_handler : Z; sa_mask : Z; sa_flags : Z; sa_restorer : Z }.
Record signal_struct := Sigs { pending : Z; blocked : Z; actions : gmap Z sigaction }.

(** A zero-initialised entry of [actions]. *)
Definition zero_action : sigaction := Sigaction 0 0 0 0.
Definition action_of (g : signal_struct) (sig : Z) : sigaction := default zero_action (actions g !! sig).

Record sigstate := Sigstate { sch : sched; sig_pool : gmap Z signal_struct; sig_pool_idx : Z }.

Definition with_sch (s : sigstate) (c : sched) : sigstate := Sigstate c (sig_pool s) (sig_pool_idx s).
Definition with_pool (s : sigstate) (p : gmap Z signal_struct) : sigstate :=
  Sigstate (sch s) p (sig_pool_idx s).

(** [task->signals], which must point to a structure. *)
Definition get_signals (s : sigstate) (task : Z) : outcome (Z * signal_struct) :=
  t ← get_task (sch s) task;
  g ← of_option (sig_pool s !! t_signals t);
  Ok (t_signals t, g).
Definition put_signals (s : sigstate) (p : Z) (g : signal_struct) : sigstate :=
  with_pool s (<[p := g]> (sig_pool s)).

Inductive flow :=
| Done (s : sigstate)              (* [do_signal] returned *)
| Parked (sig : Z) (s : sigstate)  (* another task runs; the loop goes on after [sig] *)
| Gone (s : sigstate).             (* the task has exited *)

(** ** Default actions *)

Definition sig_default_term (s : sigstate) (sig : Z) : outcome sigstate :=
  c ← exit_task (sch s) sig; Ok (with_sch s c).

Definition sig_default_stop (s : sigstate) : outcome sigstate :=
  c ← upd_task (sch s) (get_current (sch s)) (fun t => with_state t TASK_STOPPED);
  c ← schedule c;
  Ok (with_sch s c).

Definition sig_default_cont (s : sigstate) : outcome sigstate :=
  c ← upd_task (sch s) (get_current (sch s)) (fun t => with_state t TASK_RUNNING);
  Ok (with_sch s c).

(** The three fields that the loop of [signal_init] resets, for the 32 entries;
    the fuel is [NSIG - i]. *)
Fixpoint reset_actions (fuel : nat) (m : gmap Z sigaction) (i : Z) : gmap Z sigaction :=
  match fuel with
  | O => m
  | S fuel =>
      let old := default zero_action (m !! i) in
      reset_actions fuel (<[i := Sigaction SIG_DFL 0 0 (sa_restorer old)]> m) (i + 1)
  end.

Definition signal_init (s : sigstate) (task : Z) : outcome sigstate :=
  t ← get_task (sch s) task;
  r ← (if t_signals t =? 0 then
         if sig_pool_idx s <? 64 then
           let p := sig_pool_idx s + 1 in
           c ← upd_task (sch s) task (fun t => with_signals t p);
           Ok (Some p, Sigstate c (sig_pool s) (sig_pool_idx s + 1))
         else Ok (None, s)
       else Ok (Some (t_signals t), s));
  let '(p, s) := r in
  match p with
  | None => Ok s
  | Some p =>
      let g := default (Sigs 0 0 ∅) (sig_pool s !! p) in
      Ok (put_signals s p (Sigs 0 0 (reset_actions (Z.to_nat NSIG) (actions g) 0)))
  end.

Definition kill_task (s : sigstate) (task sig : Z) : outcome (Z * sigstate) :=
  if (sig <? 0) || (NSIG <=? sig) then Ok (-1, s)
  else if task =? 0 then Ok (-1, s)
  else
    t ← get_task (sch s) task;
    if t_signals t =? 0 then Ok (-1, s)
    else
      r ← get_signals s task;
      let '(p, g) := r in
      let s := put_signals s p (Sigs (Z.lor (pending g) (Z.shiftl 1 sig)) (blocked g) (actions g)) in
      if bool_decide (t_state t = TASK_INTERRUPTIBLE) then
        r ← wake_up_process (sch s) task;
        Ok (0, with_sch s (snd r))
      else Ok (0, s).

Section handlers.
(** [run_handler h sig s] is the state after the call [h(sig)]. *)
Context (run_handler : Z -> Z -> sigstate -> sigstate).

Definition default_ignored (sig : Z) : bool :=
  (sig =? SIGCHLD) || (sig =? SIGURG) || (sig =? SIGWINCH).
Definition default_stops (sig : Z) : bool :=
  (sig =? SIGSTOP) || (sig =? SIGTSTP) || (sig =? SIGTTIN) || (sig =? SIGTTOU).

(** [for (sig = 1; sig < NSIG; sig++)] over the snapshot [snap]; the fuel is [NSIG - sig]. *)
Fixpoint do_signal_loop (fuel : nat) (s : sigstate) (task snap sig : Z) : outcome flow :=
  match fuel with
  | O => Ok (Done s)
  | S fuel =>
      if Z.land snap (Z.shiftl 1 sig) =? 0 then do_signal_loop fuel s task snap (sig + 1)
      else
        r ← get_signals s task;
        let '(p, g) := r in
        let action := action_of g sig in
        let s := put_signals s p
                   (Sigs (Z.land (pending g) (Z.lnot (Z.shiftl 1 sig))) (blocked g) (actions g)) in
        if sa_handler action =? SIG_IGN then do_signal_loop fuel s task snap (sig + 1)
        else if sa_handler action =? SIG_DFL then
          if default_ignored sig then do_signal_loop fuel s task snap (sig + 1)
          else if sig =? SIGCONT then
            s ← sig_default_cont s;
            do_signal_loop fuel s task snap (sig + 1)
          else if default_stops sig then
            s' ← sig_default_stop s;
            if get_current (sch s') =? get_current (sch s)
            then do_signal_loop fuel s' task snap (sig + 1)
            else Ok (Parked sig s')
          else
            s ← sig_default_term s sig;
            Ok (Gone s)
        else do_signal_loop fuel (run_handler (sa_handler action) sig s) task snap (sig + 1)
  end.

Definition do_signal (s : sigstate) (task : Z) : outcome flow :=
  if task =? 0 then Ok (Done s)
  else
    t ← get_task (sch s) task;
    if t_signals t =? 0 then Ok (Done s)
    else
      r ← get_signals s task;
      let '(_, g) := r in
      let snap := Z.land (pending g) (Z.lnot (blocked g)) in
      if snap =? 0 then Ok (Done s) else do_signal_loop 31 s task snap 1.
End handlers.

(** ** System calls: the value returned, the old value stored through the last
    argument when it is not null ([want_old]), and the state. *)

Definition sigprocmask (s : sigstate) (how : Z) (set : option Z) (want_old : bool)
    : outcome (Z * option Z * sigstate) :=
  let task := get_current (sch s) in
  t ← get_task (sch s) task;
  if t_signals t =? 0 then Ok (-1, None, s)
  else
    r ← get_signals s task;
    let '(p, g) := r in
    let old := if want_old then Some (blocked g) else None in
    let blk := match set with
               | None => Some (blocked g)
               | Some v =>
                   if how =? 0 then Some (Z.lor (blocked g) v)
                   else if how =? 1 then Some (Z.land (blocked g) (Z.lnot v))
                   else if how =? 2 then Some v else None
               end in
    match blk with
    | None => Ok (-1, old, s)
    | Some b =>
        let b := Z.land b (Z.lnot (Z.lor (Z.shiftl 1 SIGKILL) (Z.shiftl 1 SIGSTOP))) in
        Ok (0, old, put_signals s p (Sigs (pending g) b (actions g)))
    end.

Definition sigaction_syscall (s : sigstate) (sig : Z) (act : option sigaction) (want_old : bool)
    : outcome (Z * option sigaction * sigstate) :=
  let task := get_current (sch s) in
  t ← get_task (sch s) task;
  if (sig <? 1) || (NSIG <=? sig) then Ok (-1, None, s)
  else if (sig =? SIGKILL) || (sig =? SIGSTOP) then Ok (-1, None, s)
  else if t_signals t =? 0 then Ok (-1, None, s)
  else
    r ← get_signals s task;
    let '(p, g) := r in
    let old := if want_old then Some (action_of g sig) else None in
    let s := match act with
             | Some a => put_signals s p (Sigs (pending g) (blocked g) (<[sig := a]> (actions g)))
             | None => s
             end in
    Ok (0, old, s).

(** [do_waitpid]: the pid returned, the status stored, and the state when it
    returns; [None] when another task runs first. *)
Definition do_waitpid (s : sched) (pid : Z) (want_status : bool)
    : outcome (option Z * option Z * sched) :=
  let current := get_current s in
  let status := if want_status then Some 0 else None in
  s1 ← upd_task s current (fun t => with_state t TASK_INTERRUPTIBLE);
  s2 ← schedule s1;
  Ok (if get_current s2 =? current then Some pid else None, status, s2).
