(* ===== verification/SignalTheorems.v ===== *)
(** * Signals: masks, delivery, and the wait that does not wait *)
From S2P Require Import Prelude DList Pmm PmmSpec Sched SchedSpec SchedTheorems Signal.
#[local] Open Scope Z_scope.

(** [task] has the signal structure [g] at [p]. *)
Definition has_signals (s : sigstate) (task p : Z) (g : signal_struct) : Prop :=
  (exists t, tasks (sch s) !! task = Some t /\ t_signals t = p) /\ p <> 0 /\ sig_pool s !! p = Some g.

Lemma get_signals_ok s task p g : has_signals s task p g -> get_signals s task = Ok (p, g).
Proof.
  intros ((t & Ht & <-) & _ & Hg). unfold get_signals. rewrite (get_task_ok _ _ _ Ht), bind_ok, Hg. done.
Qed.

Lemma has_signals_put s task p g g' : has_signals s task p g -> has_signals (put_signals s p g') task p g'.
Proof. intros (Ht & Hp & _). split; [done|]. split; [done|]. apply lookup_insert_eq. Qed.

Lemma put_put s p g g' : put_signals (put_signals s p g) p g' = put_signals s p g'.
Proof. unfold put_signals, with_pool. cbn. by rewrite insert_insert_eq. Qed.

Lemma put_same s p g : sig_pool s !! p = Some g -> put_signals s p g = s.
Proof. intros H. unfold put_signals, with_pool. rewrite insert_id by done. by destruct s. Qed.

(** ** Masks and handlers *)

(** The signals that no task may block or handle. *)
Definition unblockable (i : Z) : bool := (i =? SIGKILL) || (i =? SIGSTOP).

(** SIGKILL and SIGSTOP are deliverable and have their default action. *)
Definition protected (g : signal_struct) : Prop :=
  forall i, unblockable i = true -> Z.testbit (blocked g) i = false /\ sa_handler (action_of g i) = SIG_DFL.

Lemma mask_bits b i : 0 <= i ->
  Z.testbit (Z.land b (Z.lnot (Z.lor (Z.shiftl 1 SIGKILL) (Z.shiftl 1 SIGSTOP)))) i =
  Z.testbit b i && negb (unblockable i).
Proof.
  intros Hi. rewrite Z.land_spec, Z.lnot_spec, Z.lor_spec, !Z.shiftl_1_l, !Z.pow2_bits_eqb by
    (unfold SIGKILL, SIGSTOP; lia). unfold unblockable.
  by rewrite (Z.eqb_sym SIGKILL), (Z.eqb_sym SIGSTOP).
Qed.

(** What [how] asks for, bit by bit. *)
Definition new_mask (how : Z) (old v : Z) (i : Z) : bool :=
  if how =? 0 then Z.testbit old i || Z.testbit v i
  else if how =? 1 then Z.testbit old i && negb (Z.testbit v i)
  else Z.testbit v i.

(** [sigprocmask] sets the mask of the running task as [how] says, except
    that SIGKILL and SIGSTOP are never blocked; an unknown [how] is refused and
    changes nothing; the old mask is what it reports. *)
Theorem sigprocmask_correct (s : sigstate) (how : Z) (set : option Z) (want_old : bool) (p : Z) (g : signal_struct) :
  has_signals s (get_current (sch s)) p g ->
  exists r s', sigprocmask s how set want_old = Ok (r, if want_old then Some (blocked g) else None, s') /\
    sch s' = sch s /\
    ((r = -1 /\ s' = s /\ is_Some set /\ ~ (0 <= how <= 2)) \/
     (r = 0 /\ exists g', has_signals s' (get_current (sch s)) p g' /\
        pending g' = pending g /\ actions g' = actions g /\
        forall i, 0 <= i -> Z.testbit (blocked g') i =
          negb (unblockable i) &&
          match set with Some v => new_mask how (blocked g) v i | None => Z.testbit (blocked g) i end)).
Proof.
  intros Hs. unfold sigprocmask. pose proof Hs as ((t & Ht & Hp) & Hp0 & Hg).
  rewrite (get_task_ok _ _ _ Ht), bind_ok, Hp, (proj2 (Z.eqb_neq _ _) Hp0).
  rewrite (get_signals_ok _ _ _ _ Hs), bind_ok. cbv beta iota zeta.
  set (blk := match set with None => _ | Some _ => _ end).
  assert (blk = None \/ exists b, blk = Some b /\ forall i, 0 <= i -> Z.testbit b i =
    match set with Some v => new_mask how (blocked g) v i | None => Z.testbit (blocked g) i end) as Hblk.
  { unfold blk, new_mask. destruct set as [v|]; [|right; by eexists].
    destruct (how =? 0); [right; eexists; split; [done|]; intros; apply Z.lor_spec|].
    destruct (how =? 1); [right; eexists; split; [done|]; intros; by rewrite Z.land_spec, Z.lnot_spec|].
    destruct (how =? 2); [right; by eexists | by left]. }
  destruct Hblk as [Hn | (b & -> & Hb)].
  - rewrite Hn. exists (-1), s. do 2 (split; [done|]). left. split; [done|]. split; [done|].
    unfold blk in Hn. destruct set as [v|]; [|done]. split; [by eexists|].
    destruct (Z.eqb_spec how 0), (Z.eqb_spec how 1), (Z.eqb_spec how 2); try done; lia.
  - eexists 0, _. do 2 (split; [done|]). right. split; [done|]. eexists.
    split; [by eapply has_signals_put|]. do 2 (split; [done|]). intros i Hi. cbn.
    by rewrite mask_bits, Hb, andb_comm.
Qed.

(** [sigaction] installs a handler for one signal; it refuses SIGKILL,
    SIGSTOP and numbers out of range, and never changes another signal's action. *)
Theorem sigaction_correct (s : sigstate) (sig : Z) (act : sigaction) (p : Z) (g : signal_struct) :
  has_signals s (get_current (sch s)) p g ->
  exists r old s', sigaction_syscall s sig (Some act) true = Ok (r, old, s') /\
    ((r = -1 /\ s' = s /\ (~ (1 <= sig < NSIG) \/ unblockable sig = true)) \/
     (r = 0 /\ old = Some (action_of g sig) /\ 1 <= sig < NSIG /\ unblockable sig = false /\
      exists g', has_signals s' (get_current (sch s)) p g' /\
        pending g' = pending g /\ blocked g' = blocked g /\
        forall i, action_of g' i = if decide (i = sig) then act else action_of g i)).
Proof.
  intros Hs. unfold sigaction_syscall. pose proof Hs as ((t & Ht & Hp) & Hp0 & Hg).
  rewrite (get_task_ok _ _ _ Ht), bind_ok.
  destruct ((sig <? 1) || (NSIG <=? sig)) eqn:Er.
  { exists (-1), None, s. split; [done|]. left. split; [done|]. split; [done|]. left.
    apply orb_true_iff in Er as [?|?]; lia. }
  b2p. fold (unblockable sig). destruct (unblockable sig) eqn:Eu.
  { exists (-1), None, s. split; [done|]. left. auto. }
  rewrite Hp, (proj2 (Z.eqb_neq _ _) Hp0), (get_signals_ok _ _ _ _ Hs), bind_ok. cbv beta iota zeta.
  eexists 0, _, _. split; [done|]. right. split; [done|]. split; [done|]. split; [lia|]. split; [done|].
  eexists. split; [by eapply has_signals_put|]. do 2 (split; [done|]). intros i. unfold action_of. cbn.
  case_decide as E; [subst; by rewrite lookup_insert_eq | by rewrite lookup_insert_ne].
Qed.

(** [kill_task] marks the signal pending and nothing else; a task that sleeps
    interruptibly is put at the end of the run queue. *)
Theorem kill_task_correct (s : sigstate) (q : list Z) (k sig p : Z) (g : signal_struct) (t : task) :
  good (sch s) q -> 2 <= k -> has_signals s k p g -> tasks (sch s) !! k = Some t ->
  0 <= sig < NSIG ->
  exists s', kill_task s k sig = Ok (0, s') /\
    sig_pool s' !! p = Some (Sigs (Z.lor (pending g) (Z.shiftl 1 sig)) (blocked g) (actions g)) /\
    (forall p', p' <> p -> sig_pool s' !! p' = sig_pool s !! p') /\
    (t_state t <> TASK_INTERRUPTIBLE /\ sch s' = sch s \/
     t_state t = TASK_INTERRUPTIBLE /\ good (sch s') (q ++ [k])).
Proof.
  intros G H2 Hs Ht Hsig. unfold kill_task.
  rewrite (proj2 (Z.ltb_ge sig 0)), (proj2 (Z.leb_gt NSIG sig)), (proj2 (Z.eqb_neq k 0)) by lia. cbn [orb].
  rewrite (get_task_ok _ _ _ Ht), bind_ok. pose proof Hs as ((t' & Ht' & Hp) & Hp0 & Hg).
  assert (t' = t) as -> by congruence. rewrite Hp, (proj2 (Z.eqb_neq _ _) Hp0).
  rewrite (get_signals_ok _ _ _ _ Hs), bind_ok. cbv beta iota zeta.
  case_bool_decide as Hst.
  - destruct (wake_spec (sch s) q k t G Ht) as (c & E & G' & _); [by rewrite Hst | done |].
    cbn [sch put_signals with_pool]. rewrite E, bind_ok. eexists. split; [done|]. cbn.
    split; [apply lookup_insert_eq|]. split; [|by right]. intros p' Hp'. by rewrite lookup_insert_ne.
  - eexists. split; [done|]. cbn. split; [apply lookup_insert_eq|]. split; [|by left].
    intros p' Hp'. by rewrite lookup_insert_ne.
Qed.

(** ** Delivery *)

Section delivery.
Context (rh : Z -> Z -> sigstate -> sigstate).

(** Signals whose delivery only clears their pending bit. *)
Definition quiet (g : signal_struct) (sig : Z) : bool :=
  (sa_handler (action_of g sig) =? SIG_IGN) ||
  ((sa_handler (action_of g sig) =? SIG_DFL) && default_ignored sig).

Lemma loop_quiet snap task p k : forall fuel s g sig,
  has_signals s task p g -> 0 <= sig ->
  (forall j, sig <= j < sig + Z.of_nat k -> Z.testbit snap j = true -> quiet g j = true) ->
  exists pend, (forall i, 0 <= i -> Z.testbit pend i =
      Z.testbit (pending g) i && negb ((sig <=? i) && (i <? sig + Z.of_nat k) && Z.testbit snap i)) /\
    do_signal_loop rh (k + fuel) s task snap sig =
    do_signal_loop rh fuel (put_signals s p (Sigs pend (blocked g) (actions g))) task snap (sig + Z.of_nat k).
Proof using Type.
  induction k as [|k IH]; intros fuel s g sig Hs Hsig Hq.
  - exists (pending g). split.
    + intros i Hi. destruct (Z.leb_spec sig i), (Z.ltb_spec i (sig + Z.of_nat 0)); cbn;
        try lia; by rewrite andb_true_r.
    + rewrite Z.add_0_r. destruct g as [pe bl ac]. cbn [pending blocked actions Nat.add].
      rewrite put_same; [done|]. apply Hs.
  - cbn [Nat.add do_signal_loop]. rewrite land_bit by done.
    replace (sig + Z.of_nat (S k)) with (sig + 1 + Z.of_nat k) by lia.
    destruct (Z.testbit snap sig) eqn:Eb; cbn [negb].
    + rewrite (get_signals_ok _ _ _ _ Hs), bind_ok. cbv beta iota zeta.
      set (g1 := Sigs (Z.land (pending g) (Z.lnot (Z.shiftl 1 sig))) (blocked g) (actions g)).
      destruct (IH fuel (put_signals s p g1) g1 (sig + 1)) as (pend & Hpend & Hl).
      { by eapply has_signals_put. }
      { lia. }
      { intros j Hj Hjb. apply (Hq j); [lia | done]. }
      exists pend. split.
      * intros i Hi. rewrite Hpend by done. unfold g1. cbn [pending]. rewrite testbit_clear by lia.
        destruct (Z.eqb_spec i sig) as [->|Hne]; cbn.
        -- rewrite (proj2 (Z.leb_le sig sig)), (proj2 (Z.ltb_lt sig _)), Eb by lia.
           by rewrite andb_false_r.
        -- f_equal. f_equal. f_equal. f_equal.
           destruct (Z.leb_spec (sig + 1) i), (Z.leb_spec sig i); done || lia.
      * assert (quiet g sig = true) as Hqs by (apply Hq; [lia | done]). unfold quiet in Hqs.
        rewrite put_put in Hl. unfold g1 in Hl. cbn [blocked actions] in Hl. rewrite <- Hl.
        destruct (sa_handler (action_of g sig) =? SIG_IGN); [done|]. cbn [orb] in Hqs.
        apply andb_true_iff in Hqs as [-> ->]. done.
    + destruct (IH fuel s g (sig + 1)) as (pend & Hpend & Hl); [done | lia | |].
      { intros j Hj. apply Hq. lia. }
      exists pend. split; [|done]. intros i Hi. rewrite Hpend by done. f_equal. f_equal.
      destruct (Z.eqb_spec i sig) as [->|Hne]; [by rewrite Eb, !andb_false_r|]. f_equal. f_equal.
      destruct (Z.leb_spec (sig + 1) i), (Z.leb_spec sig i); done || lia.
Qed.

#[local] Lemma snap_bit g i : 0 <= i ->
  Z.testbit (Z.land (pending g) (Z.lnot (blocked g))) i = Z.testbit (pending g) i && negb (Z.testbit (blocked g) i).
Proof using Type. intros. by rewrite Z.land_spec, Z.lnot_spec. Qed.

(** Entering the loop. *)
#[local] Lemma do_signal_enter s task p g i :
  task <> 0 -> has_signals s task p g -> 0 <= i ->
  Z.testbit (Z.land (pending g) (Z.lnot (blocked g))) i = true ->
  do_signal rh s task = do_signal_loop rh 31 s task (Z.land (pending g) (Z.lnot (blocked g))) 1.
Proof using Type.
  intros Ht0 Hs Hi Hb. unfold do_signal. pose proof Hs as ((t & Ht & Hp) & Hp0 & Hg).
  rewrite (proj2 (Z.eqb_neq _ _) Ht0), (get_task_ok _ _ _ Ht), bind_ok, Hp, (proj2 (Z.eqb_neq _ _) Hp0).
  rewrite (get_signals_ok _ _ _ _ Hs), bind_ok. cbv beta iota zeta.
  destruct (Z.eqb_spec (Z.land (pending g) (Z.lnot (blocked g))) 0) as [E|]; [|done].
  rewrite E, Z.testbit_0_l in Hb. done.
Qed.

(** When every deliverable signal is ignored, [do_signal] returns with
    exactly the deliverable signals no longer pending: blocked signals stay. *)
Theorem do_signal_quiet (s : sigstate) (task p : Z) (g : signal_struct) :
  task <> 0 -> has_signals s task p g ->
  (forall j, 1 <= j < NSIG -> Z.testbit (pending g) j = true -> Z.testbit (blocked g) j = false ->
     quiet g j = true) ->
  exists s' g', do_signal rh s task = Ok (Done s') /\ sch s' = sch s /\
    has_signals s' task p g' /\ blocked g' = blocked g /\ actions g' = actions g /\
    forall i, 1 <= i < NSIG -> Z.testbit (pending g') i = Z.testbit (pending g) i && Z.testbit (blocked g) i.
Proof using Type.
  intros Ht0 Hs Hq. set (snap := Z.land (pending g) (Z.lnot (blocked g))).
  destruct (decide (snap = 0)) as [Hz|Hnz].
  - exists s, g. split.
    + unfold do_signal. pose proof Hs as ((t & Ht & Hp) & Hp0 & Hg).
      rewrite (proj2 (Z.eqb_neq _ _) Ht0), (get_task_ok _ _ _ Ht), bind_ok, Hp, (proj2 (Z.eqb_neq _ _) Hp0).
      rewrite (get_signals_ok _ _ _ _ Hs), bind_ok. cbv beta iota zeta. fold snap. by rewrite Hz.
    + do 4 (split; [done|]). intros i Hi. pose proof (snap_bit g i ltac:(lia)) as Hb. fold snap in Hb.
      rewrite Hz, Z.testbit_0_l in Hb.
      destruct (Z.testbit (pending g) i), (Z.testbit (blocked g) i); done.
  - destruct (loop_quiet snap task p 31 0 s g 1 Hs ltac:(lia)) as (pend & Hpend & Hl).
    { intros j Hj Hb. unfold snap in Hb. rewrite snap_bit in Hb by lia. apply andb_true_iff in Hb as [Hb1 Hb2].
      apply negb_true_iff in Hb2. apply Hq; [unfold NSIG; lia | done | done]. }
    exists (put_signals s p (Sigs pend (blocked g) (actions g))), (Sigs pend (blocked g) (actions g)).
    split.
    + unfold do_signal. pose proof Hs as ((t & Ht & Hp) & Hp0 & Hg).
      rewrite (proj2 (Z.eqb_neq _ _) Ht0), (get_task_ok _ _ _ Ht), bind_ok, Hp, (proj2 (Z.eqb_neq _ _) Hp0).
      rewrite (get_signals_ok _ _ _ _ Hs), bind_ok. cbv beta iota zeta. fold snap.
      rewrite (proj2 (Z.eqb_neq _ _) Hnz). change 31%nat with (31 + 0)%nat. by rewrite Hl.
    + split; [done|]. split; [by eapply has_signals_put|]. do 2 (split; [done|]). cbn [pending].
      intros i Hi. unfold NSIG in Hi. rewrite Hpend by lia.
      rewrite (proj2 (Z.leb_le 1 i)), (proj2 (Z.ltb_lt i _)) by lia. cbn [andb].
      unfold snap. rewrite snap_bit by lia.
      destruct (Z.testbit (pending g) i), (Z.testbit (blocked g) i); done.
Qed.

(** A pending SIGKILL ends the running task, whatever it has blocked or
    handles: the task becomes a zombie with exit code 9 and leaves the queue. *)
Theorem sigkill_terminates (s : sigstate) (cur : Z) (l2 : list Z) (p : Z) (g : signal_struct) :
  good (sch s) (cur :: l2) -> get_current (sch s) = cur -> has_signals s cur p g -> protected g ->
  Z.testbit (pending g) SIGKILL = true ->
  (forall j, 1 <= j < SIGKILL -> Z.testbit (pending g) j = true -> Z.testbit (blocked g) j = false ->
     quiet g j = true) ->
  exists s' t, do_signal rh s cur = Ok (Gone s') /\ good (sch s') l2 /\
    get_current (sch s') = default init_task (head l2) /\
    tasks (sch s') !! cur = Some t /\ t_state t = TASK_ZOMBIE /\ t_exit_code t = SIGKILL.
Proof using Type.
  intros G Hc Hs Hprot Hpend Hq. destruct (Hprot SIGKILL eq_refl) as [Hnb Hdfl].
  set (snap := Z.land (pending g) (Z.lnot (blocked g))).
  assert (Z.testbit snap SIGKILL = true) as Hb by (unfold snap; rewrite snap_bit by done; by rewrite Hpend, Hnb).
  assert (cur <> 0) as Hc0.
  { destruct G as (I & _). pose proof (si_pool _ _ I cur ltac:(by apply elem_of_cons; left)). lia. }
  rewrite (do_signal_enter s cur p g SIGKILL) by done. fold snap.
  destruct (loop_quiet snap cur p 8 23 s g 1 Hs ltac:(lia)) as (pend & _ & Hl).
  { intros j Hj Hjb. unfold snap in Hjb. rewrite snap_bit in Hjb by lia.
    apply andb_true_iff in Hjb as [H1 H2]. apply negb_true_iff in H2.
    apply Hq; [unfold SIGKILL; lia | done | done]. }
  change 31%nat with (8 + 23)%nat. rewrite Hl. change (1 + Z.of_nat 8) with SIGKILL.
  set (s1 := put_signals s p _). set (g1 := Sigs pend (blocked g) (actions g)) in *.
  assert (has_signals s1 cur p g1) as Hs1 by (by eapply has_signals_put).
  clear Hl. generalize 22%nat. intros n. cbn [do_signal_loop]. rewrite land_bit, Hb by done. cbn [negb].
  rewrite (get_signals_ok _ _ _ _ Hs1), bind_ok. cbv beta iota zeta.
  change (sa_handler (action_of g1 SIGKILL)) with (sa_handler (action_of g SIGKILL)). rewrite Hdfl.
  change (SIG_DFL =? SIG_IGN) with false. change (SIG_DFL =? SIG_DFL) with true.
  change (default_ignored SIGKILL) with false. change (SIGKILL =? SIGCONT) with false.
  change (default_stops SIGKILL) with false. cbv iota. unfold sig_default_term.
  change (sch (put_signals s1 p ?x)) with (sch s).
  destruct G as (I & Hr & _).
  destruct (exit_spec (sch s) cur l2 SIGKILL I Hc Hr) as (c & -> & _ & G' & Hcur & t & Ht & Hz & Hcode).
  rewrite !bind_ok. eexists _, t. split; [done|]. done.
Qed.
End delivery.

(** ** Waiting *)

(** [do_waitpid] does not wait: the running task, still at the head of the
    queue, is marked asleep and picked again, so the call returns the pid it was
    given at once, and the sleeping task stays queued and running. *)
Theorem waitpid_returns_at_once (s : sched) (q : list Z) (pid : Z) (w : bool) :
  sched_inv s q -> head q = Some (rq_current (runqueue s)) ->
  exists s' t, do_waitpid s pid w = Ok (Some pid, if w then Some 0 else None, s') /\
    sched_inv s' q /\ rq_current (runqueue s') = rq_current (runqueue s) /\
    tasks s' !! rq_current (runqueue s) = Some t /\ t_state t = TASK_INTERRUPTIBLE.
Proof.
  intros I Hh. unfold do_waitpid, get_current. destruct (si_current _ _ I) as [t Ht].
  rewrite (upd_task_ok _ _ _ _ Ht), bind_ok.
  assert (sched_inv (with_tasks s (<[rq_current (runqueue s) := with_state t TASK_INTERRUPTIBLE]> (tasks s))) q)
    as I1 by by apply inv_upd with t.
  rewrite (schedule_same _ q I1) by (cbn; by rewrite Hh). rewrite bind_ok. cbn.
  rewrite Z.eqb_refl. eexists _, _. split; [done|]. split; [done|]. split; [done|].
  split; [apply lookup_insert_eq | done].
Qed.

(** Waking the task that [do_waitpid] left queued enqueues it a second time:
    alone in the queue, it then points to itself in both directions and is
    counted twice. *)
Theorem waitpid_wake_corrupts (s : sched) (c pid : Z) :
  sched_inv s [c] -> rq_current (runqueue s) = c ->
  exists s1 s2 t, do_waitpid s pid false = Ok (Some pid, None, s1) /\
    wake_up_process s1 c = Ok (1, s2) /\ tasks s2 !! c = Some t /\
    t_next t = c /\ t_prev t = c /\ nr_running (runqueue s2) = 2.
Proof.
  intros I Hc. unfold do_waitpid, get_current. destruct (si_current _ _ I) as [t Ht].
  rewrite Hc in Ht |- *. rewrite (upd_task_ok _ _ _ _ Ht), bind_ok.
  set (s1 := with_tasks s _).
  assert (sched_inv s1 [c]) as I1 by by apply inv_upd with t.
  rewrite (schedule_same _ [c] I1) by by cbn. rewrite bind_ok.
  change (rq_current (runqueue s1)) with (rq_current (runqueue s)). rewrite Hc, Z.eqb_refl.
  pose proof (si_queue _ _ I1) as (Hch & Hc0 & n & Hn & Hpv & Hnx & Htl).
  assert (c <> 0) as Hcn by by rewrite Hch.
  pose proof (si_nr _ _ I1) as Hnr. cbn in Hnr.
  exists s1. enough (exists s2 t, wake_up_process s1 c = Ok (1, s2) /\ tasks s2 !! c = Some t /\
    t_next t = c /\ t_prev t = c /\ nr_running (runqueue s2) = 2) as (s2 & t2 & ?) by (exists s2, t2; done).
  unfold wake_up_process. rewrite (proj2 (Z.eqb_neq c 0) Hcn).
  assert (tasks s1 !! c = Some (with_state t TASK_INTERRUPTIBLE)) as Ht1 by apply lookup_insert_eq.
  rewrite (get_task_ok _ _ _ Ht1), bind_ok. change (bool_decide _) with false. cbv iota.
  rewrite (upd_task_ok _ _ _ _ Ht1), bind_ok. set (s2 := with_tasks s1 _).
  assert (exists s3 t3, enqueue_task s2 c = Ok s3 /\ tasks s3 !! c = Some t3 /\
    t_next t3 = c /\ t_prev t3 = c /\ nr_running (runqueue s3) = 2) as (s3 & t3 & -> & Hres).
  { unfold enqueue_task. rewrite (upd_task_ok _ _ _ _ (lookup_insert_eq _ _ _)), bind_ok. cbv zeta.
    cbn [runqueue with_tasks s2]. rewrite <- Hch, (proj2 (Z.eqb_neq c 0) Hcn), Htl, <- Hch.
    rewrite (upd_task_ok _ _ _ _ (lookup_insert_eq _ _ _)), bind_ok. cbn [tasks with_tasks].
    rewrite (upd_task_ok _ _ _ _ (lookup_insert_eq _ _ _)), !bind_ok.
    eexists _, _. split; [done|]. cbn. rewrite Hnr. split; [apply lookup_insert_eq|]. done. }
  rewrite bind_ok. exists s3, t3. done.
Qed.

(** ** Runs of the scheduler and of the signal calls *)

Abbreviation current s := (rq_current (runqueue s)).

(** A task that can be woken, if it does not run, without being queued twice. *)
Definition settled (s : sched) (p : Z) : Prop :=
  forall t, tasks s !! p = Some t -> t_state t <> TASK_RUNNING -> p <> init_task /\ p <> current s.

(** Everything that the scheduler and the signal code do, but for two things: the idle task does
    not exit, and nobody wakes the idle task or the running one after it has gone to
    sleep.  The last step stands for what [do_signal], [sigprocmask] and
    [sigaction_syscall] do to the pending bits, the masks and the handlers; the default
    actions that [do_signal] calls are steps of their own. *)
Inductive run_step (s : sigstate) : sigstate -> Prop :=
| run_create entry arg flags p c : create_task (sch s) entry arg flags = Ok (p, c) -> run_step s (with_sch s c)
| run_thread entry arg stack cf r c : create_thread (sch s) entry arg stack cf = Ok (r, c) -> run_step s (with_sch s c)
| run_schedule c : schedule (sch s) = Ok c -> run_step s (with_sch s c)
| run_exit code c : current (sch s) <> init_task -> exit_task (sch s) code = Ok c -> run_step s (with_sch s c)
| run_wait pid w r c : do_waitpid (sch s) pid w = Ok (r, c) -> run_step s (with_sch s c)
| run_stop s' : sig_default_stop s = Ok s' -> run_step s s'
| run_continue s' : sig_default_cont s = Ok s' -> run_step s s'
| run_wake p r c : settled (sch s) p -> wake_up_process (sch s) p = Ok (r, c) -> run_step s (with_sch s c)
| run_kill pid r c : (forall p, get_task_by_pid (sch s) pid = Ok p -> p <> init_task -> settled (sch s) p) ->
    sched_kill_task (sch s) pid = Ok (r, c) -> run_step s (with_sch s c)
| run_signal task sig r s' : settled (sch s) task -> kill_task s task sig = Ok (r, s') -> run_step s s'
| run_signal_init task s' : signal_init s task = Ok s' -> run_step s s'
| run_signals p : run_step s (with_pool s p).

(** The run queue holds runnable tasks, except that the running one may have gone to sleep
    in it; a task that sleeps is the running one or the idle one. *)
Record run_ok (N : Z) (s : sched) (q : list Z) : Prop := {
  ro_queue : good_but (current s) s q;
  ro_pages : pmm_inv (pages s) N;
  ro_idle t : tasks s !! init_task = Some t -> t_pid t = 0;
  ro_asleep x t : tasks s !! x = Some t -> asleep t -> x = current s \/ x = init_task
}.

Lemma run_calm N s c q q' : run_ok N s q -> good_but (current s) c q' -> pmm_inv (pages c) N -> calm s c -> run_ok N c q'.
Proof.
  intros R G Ip [Ec Hn]. split; [by rewrite Ec|done|..].
  - intros t' Ht. destruct (proj2 (Hn _ _ Ht) eq_refl) as (t & E & ->). by apply (ro_idle _ _ _ R).
  - intros x t' Ht Hs. destruct (proj1 (Hn _ _ Ht) Hs) as (t & E & S). rewrite Ec. by apply (ro_asleep _ _ _ R x t).
Qed.

Lemma idle_not_queued s q : sched_inv s q -> init_task ∉ q.
Proof. intros I Hx. pose proof (si_pool _ _ I _ Hx). unfold init_task in *. lia. Qed.

Lemma run_schedule_ok N s q : run_ok N s q -> exists c, schedule s = Ok c /\ run_ok N c q.
Proof.
  intros R. destruct (schedule_but s q _ (ro_queue _ _ _ R)) as (c & E & (I & Hr & Hc) & Hp & Ec & Hn).
  exists c. split; [done|]. pose proof (ro_queue _ _ _ R) as (Is & _ & Hcs).
  assert (current s = current c \/ current s = init_task) as Hsame.
  { destruct Hcs as [?|Hh]; [by right|left]. by rewrite Ec, Hh. }
  split; [split; [done|split; [|done]]|rewrite Hp; apply R|..].
  - intros x t Hx Hxc. apply Hr; [done|]. destruct Hsame as [->|Ei]; [done|]. rewrite Ei. intros ->. by apply (idle_not_queued s q).
  - intros t' Ht. destruct (proj2 (Hn _ _ Ht) eq_refl) as (t & Et & ->). by apply (ro_idle _ _ _ R).
  - intros x t' Ht Hs. destruct (proj1 (Hn _ _ Ht) Hs) as (t & Et & S). destruct (ro_asleep _ _ _ R x t Et S) as [->|]; [done|by right].
Qed.

(** The running task changes its state. *)
Lemma run_state N s q t st : run_ok N s q -> tasks s !! current s = Some t ->
  run_ok N (with_tasks s (<[current s := with_state t st]> (tasks s))) q.
Proof.
  intros R Ht. pose proof (ro_queue _ _ _ R) as (I & Hr & Hc). split; [split; [|split; [|done]]|apply R|..]; cbn.
  - by apply inv_upd with t.
  - by apply running_but_upd.
  - intros ti [[E <-]|[_ Hi]]%lookup_insert_Some; [|by apply (ro_idle _ _ _ R)]. cbn. apply (ro_idle _ _ _ R). by rewrite <- E.
  - intros x tx [[-> _]|[_ Hx]]%lookup_insert_Some Hs; [by left|]. by apply (ro_asleep _ _ _ R x tx).
Qed.

Lemma run_current N s q : run_ok N s q -> exists t, tasks s !! current s = Some t.
Proof. intros R. apply (si_current _ _ (proj1 (ro_queue _ _ _ R))). Qed.

Lemma run_exit_ok N s q code c : run_ok N s q -> current s <> init_task -> exit_task s code = Ok c -> exists q', run_ok N c q'.
Proof.
  intros R Hni E. pose proof (ro_queue _ _ _ R) as (I & Hr & [?|Hh]); [done|]. destruct q as [|x l2]; [done|]. injection Hh as ->.
  destruct (exit_but s _ l2 code I eq_refl Hr) as (c2 & E2 & Hp & (I' & Hr' & Hc') & _ & Hn & tz & Htz & Hz & _).
  assert (c2 = c) as -> by congruence. exists l2. split; [split; [done|split; [|done]]|rewrite Hp; apply R|..].
  - intros x t Hx _. by apply Hr'.
  - intros t' Ht. destruct (proj2 (Hn _ _ Ht) eq_refl) as (t & Et & ->). by apply (ro_idle _ _ _ R).
  - intros x t' Ht Hs. right. destruct (proj1 (Hn _ _ Ht) Hs) as (t & Et & S). destruct (ro_asleep _ _ _ R x t Et S) as [->|]; [|done].
    exfalso. assert (t' = tz) as -> by congruence. unfold asleep in Hs. rewrite Hz in Hs. by destruct Hs as [?|[?|?]].
Qed.

Lemma run_wake_ok N s q p r c : run_ok N s q -> settled s p -> wake_up_process s p = Ok (r, c) -> exists q', run_ok N c q'.
Proof.
  intros R Hs E. pose proof E as E1. unfold wake_up_process in E1. destruct (Z.eqb_spec p 0) as [->|Hp]; [injection E1 as <- <-; by exists q|].
  inv_bind E1. unfold get_task in Hv. apply of_option_ok in Hv. rename v into t.
  case_bool_decide as Hst; [injection E1 as <- <-; by exists q|]. destruct (Hs t Hv Hst) as [Hi Hc].
  destruct (wake_but s q p t _ (ro_queue _ _ _ R) Hv Hst) as (c2 & E2 & G & Hpg & C).
  { pose proof (proj1 (si_tasks _ _ (proj1 (ro_queue _ _ _ R)) p) (mk_is_Some _ _ Hv)). unfold init_task in *. lia. }
  { done. }
  assert (c2 = c) as -> by congruence. exists (q ++ [p]). apply (run_calm N s c q); [done|done|rewrite Hpg; apply R|done].
Qed.

Lemma run_with_signals N s q x t sg : run_ok N s q -> tasks s !! x = Some t ->
  run_ok N (with_tasks s (<[x := with_signals t sg]> (tasks s))) q.
Proof.
  intros R Ht. pose proof (ro_queue _ _ _ R) as (I & Hr & Hc). split; [split; [|split; [|done]]|apply R|..]; cbn.
  - by apply inv_upd with t.
  - apply running_but_upd; [done|]. intros Hx Hxe. by apply (Hr x t).
  - intros ti [[E <-]|[_ Hi]]%lookup_insert_Some; [|by apply (ro_idle _ _ _ R)]. cbn. apply (ro_idle _ _ _ R). by rewrite <- E.
  - intros y ty [[-> <-]|[_ Hx]]%lookup_insert_Some Hs; [by apply (ro_asleep _ _ _ R y t)|by apply (ro_asleep _ _ _ R y ty)].
Qed.

Lemma run_step_ok N s s' : (exists q, run_ok N (sch s) q) -> run_step s s' -> exists q, run_ok N (sch s') q.
Proof.
  intros [q R] Hs. pose proof (ro_queue _ _ _ R) as G. pose proof (ro_pages _ _ _ R) as Ip. destruct (run_current N _ q R) as [tc Htc].
  destruct Hs as [entry arg flags p c E|entry arg stack cf r c E|c E|code c Hni E|pid w r c E|s' E|s' E|p r c Hw E|pid r c Hk E|task sig r s' Hw E|task s' E|p]; cbn.
  - destruct (create_but _ q N entry arg flags _ G Ip) as (p' & c2 & E2 & Ip' & C & Hres). assert (c2 = c) as -> by congruence.
    destruct Hres as [(_ & -> & _)|[(_ & G' & _)|(_ & G' & _)]]; eexists; by eapply run_calm.
  - destruct (thread_but _ q N entry arg stack cf r c _ G Ip E) as (q' & G' & Ip' & C). exists q'. by eapply run_calm.
  - destruct (run_schedule_ok N _ q R) as (c2 & E2 & R2). exists q. by assert (c2 = c) as -> by congruence.
  - by apply (run_exit_ok N (sch s) q code).
  - exists q. unfold do_waitpid, get_current in E. rewrite (upd_task_ok _ _ _ _ Htc), bind_ok in E.
    destruct (run_schedule_ok N _ q (run_state N _ q tc TASK_INTERRUPTIBLE R Htc)) as (c2 & E2 & R2). rewrite E2, bind_ok in E. by injection E as <- <-.
  - exists q. unfold sig_default_stop, get_current in E. rewrite (upd_task_ok _ _ _ _ Htc), bind_ok in E.
    destruct (run_schedule_ok N _ q (run_state N _ q tc TASK_STOPPED R Htc)) as (c2 & E2 & R2). rewrite E2, bind_ok in E. by injection E as <-.
  - exists q. unfold sig_default_cont, get_current in E. rewrite (upd_task_ok _ _ _ _ Htc), bind_ok in E. injection E as <-. by apply run_state.
  - by apply (run_wake_ok N (sch s) q p r).
  - destruct (kill_but _ q N pid r c _ G Ip (ro_idle _ _ _ R)) with (2 := E) as (q' & G' & Ip' & C); [|exists q'; by eapply run_calm].
    intros p t Ep Hi Ht Hst. apply (Hk p Ep Hi t Ht). by destruct Hst as [-> | ->].
  - unfold kill_task in E. destruct (_ || _); [injection E as <- <-; by exists q|]. destruct (task =? 0); [injection E as <- <-; by exists q|].
    inv_bind E. unfold get_task in Hv. apply of_option_ok in Hv. destruct (_ =? 0) in E; [injection E as <- <-; by exists q|].
    inv_bind E. destruct v0 as [p g]. cbv beta iota zeta in E. case_bool_decide as Hst; [|injection E as <- <-; by exists q].
    inv_bind E. destruct v0 as [r2 c]. injection E as <- <-. by apply (run_wake_ok N (sch s) q task r2).
  - unfold signal_init in E. inv_bind E. unfold get_task in Hv. apply of_option_ok in Hv. inv_bind E. destruct v0 as [op s1].
    assert (exists q, run_ok N (sch s1) q) as R1.
    { exists q. destruct (_ =? 0) in Hv0; [|by injection Hv0 as <- <-]. destruct (_ <? 64) in Hv0; [|by injection Hv0 as <- <-].
      rewrite (upd_task_ok _ _ _ _ Hv), bind_ok in Hv0. injection Hv0 as <- <-. by apply run_with_signals. }
    destruct op as [p|]; [|by injection E as <-].
    revert E. cbv zeta. generalize (reset_actions (Z.to_nat NSIG) (actions (default (Sigs 0 0 ∅) (sig_pool s1 !! p))) 0). intros m [= <-]. exact R1.
  - by exists q.
Qed.

(** *** What the two exceptions do *)

(** Where [enqueue_task] puts a task, whatever it is. *)
Lemma enqueue_anything s q x t : sched_inv s q -> tasks s !! x = Some t ->
  exists c, enqueue_task s x = Ok c /\ rq_tail (runqueue c) = x /\
    (q <> [] -> rq_head (runqueue c) = rq_head (runqueue s) /\
      exists t', tasks c !! x = Some t' /\ t_prev t' = rq_tail (runqueue s)).
Proof.
  intros I Ht. unfold enqueue_task. rewrite (upd_task_ok _ _ _ _ Ht), bind_ok. cbn [runqueue with_tasks].
  set (t1 := with_state t TASK_RUNNING). set (s1 := with_tasks s _). pose proof (si_queue _ _ I) as Hq.
  pose proof (dseg_head _ _ _ _ _ _ _ _ Hq) as Hh. pose proof (dseg_last _ _ _ _ _ _ _ _ Hq) as Hl.
  assert (tasks s1 !! x = Some t1) as Ht1 by apply lookup_insert_eq.
  destruct (last q) as [y|] eqn:El; simpl in Hl.
  - assert (y ∈ q) as Hy by (by apply last_Some_elem_of). destruct (dseg_lookup _ _ _ _ _ _ _ _ y Hq Hy) as [_ [ty Hty]].
    assert (rq_head (runqueue s) <> 0) as Hhne.
    { rewrite Hh. destruct q as [|z q]; [done|]. simpl. apply (dseg_lookup _ _ _ _ _ _ _ _ z Hq). by apply elem_of_cons; left. }
    rewrite (proj2 (Z.eqb_neq _ _) Hhne), (upd_task_ok _ _ _ _ Ht1), bind_ok, Hl.
    assert (exists t2, tasks (with_tasks s1 (<[x := with_links t1 0 y]> (tasks s1))) !! y = Some t2 /\ (x = y -> t2 = with_links t1 0 y)) as (t2 & Ht2 & E2).
    { cbn. destruct (decide (x = y)) as [<-|Hne]; [rewrite lookup_insert_eq; by eexists|].
      rewrite !lookup_insert_ne by done. by exists ty. }
    rewrite (upd_task_ok _ _ _ _ Ht2), !bind_ok. eexists. split; [done|]. split; [done|]. intros _. split; [done|]. cbn.
    destruct (decide (x = y)) as [<-|Hne]; [rewrite lookup_insert_eq; eexists; split; [done|]; by rewrite E2|].
    rewrite lookup_insert_ne, lookup_insert_eq by done. by eexists.
  - apply last_None in El as ->. simpl in Hh. rewrite Hh, Z.eqb_refl.
    cbv zeta. rewrite (upd_task_ok (set_head (set_tail s1 x) x) x _ t1 Ht1), !bind_ok. by eexists.
Qed.

(** Waking the idle task, or the running one that still stands in the queue, leaves no well-formed queue. *)
Lemma wake_breaks N s q x t : run_ok N s q -> tasks s !! x = Some t -> t_state t <> TASK_RUNNING ->
  x = init_task \/ x = current s -> exists c, wake_up_process s x = Ok (1, c) /\ ~ exists q', sched_inv c q'.
Proof.
  intros R Ht Hst Hx. pose proof (ro_queue _ _ _ R) as (I & _ & Hc). unfold wake_up_process.
  pose proof (proj1 (si_tasks _ _ I x) (mk_is_Some _ _ Ht)) as Hx1. rewrite (proj2 (Z.eqb_neq x 0)) by lia.
  rewrite (get_task_ok _ _ _ Ht), bind_ok, bool_decide_false, (upd_task_ok _ _ _ _ Ht), bind_ok by done.
  set (s1 := with_tasks s _). assert (sched_inv s1 q) as I1 by (by apply inv_upd with t).
  destruct (enqueue_anything s1 q x _ I1 (lookup_insert_eq _ _ _)) as (c & E & Htl & Hlinks). rewrite E, bind_ok.
  exists c. split; [done|]. intros [q' I']. destruct (decide (x = init_task)) as [->|Hi].
  - pose proof (dseg_last _ _ _ _ _ _ _ _ (si_queue _ _ I')) as Hl. rewrite Htl in Hl.
    destruct (last q') as [y|] eqn:El; simpl in Hl; [subst y|done]. by apply (idle_not_queued c q' I'), last_Some_elem_of.
  - destruct Hx as [?|Ex]; [done|]. destruct Hc as [?|Hh]; [congruence|]. destruct q as [|z q0]; [done|]. injection Hh as ->.
    destruct Hlinks as (Hhd & t' & Ht' & Hp); [done|]. pose proof (si_queue _ _ I1) as Hq1.
    pose proof (dseg_head _ _ _ _ _ _ _ _ Hq1) as Hh1. pose proof (dseg_last _ _ _ _ _ _ _ _ Hq1) as Hl1. simpl in Hh1.
    pose proof (si_queue _ _ I') as Hq'. assert (rq_head (runqueue c) = x) as Ehx by (rewrite Hhd, Ex; exact Hh1). rewrite Ehx in Hq'. destruct q' as [|y q']; [by destruct Hq' as [? _]; lia|].
    destruct Hq' as (-> & _ & t2 & Ht2 & Hp2 & _). assert (t2 = t') as -> by congruence. rewrite Hp2 in Hp.
    destruct (last (current s :: q0)) as [y|] eqn:El; [|by apply last_None in El]. simpl in Hl1.
    destruct (dseg_lookup _ _ _ _ _ _ _ _ y Hq1 ltac:(by apply last_Some_elem_of)) as [Hy0 _].
    apply Hy0. rewrite <- Hl1. symmetry. exact Hp.
Qed.

(** C31. From boot on, whatever the scheduler and the signal code do, as long as the idle
    task does not exit and nobody wakes the idle task or the running one after it went to
    sleep: the run queue is a well-formed list without repetition of tasks of the pool;
    [nr_running] is its length; every queued task but the running one is runnable; and the
    running task is the idle task or the head of the queue.  The exceptions are needed and
    there are no others: when the idle task exits, the tasks that wait are lost
    from the queue; and [do_waitpid] and the stop signals leave the caller in the queue, so that
    every task that sleeps or is stopped is the running one or the idle one, and waking one
    leaves no well-formed queue at all. *)
Theorem sched_reachable_inv (p : pmm) (N n : Z) (pool : gmap Z signal_struct) (s : sigstate) :
  pmm_inv p N -> star run_step (Sigstate (sched_init (sched_static p)) pool n) s ->
  exists q, sched_inv (sch s) q /\ nr_running (runqueue (sch s)) = Z.of_nat (length q) /\
    (forall x t, x ∈ q -> x <> current (sch s) -> tasks (sch s) !! x = Some t -> t_state t = TASK_RUNNING) /\
    (current (sch s) = init_task \/ head q = Some (current (sch s))) /\
    (forall code, current (sch s) = init_task -> exists c, exit_task (sch s) code = Ok c /\ rq_head (runqueue c) = 0 /\
      pick_next_task c = init_task /\ forall x, x ∈ q -> tasks c !! x = tasks (sch s) !! x) /\
    (forall x t, tasks (sch s) !! x = Some t -> asleep t -> ~ settled (sch s) x) /\
    (forall x, is_Some (tasks (sch s) !! x) -> ~ settled (sch s) x ->
      exists c, wake_up_process (sch s) x = Ok (1, c) /\ ~ exists q', sched_inv c q').
Proof.
  intros Ip Hs. destruct (star_inv run_step (fun s => exists q, run_ok N (sch s) q) (run_step_ok N) _ _ Hs) as [q R].
  { exists []. destruct (init_good p) as (I & Hr & Hc). split; [split; [done|split; [|done]]|done|..]; cbn -[sched_init sched_static].
    - intros x t Hx _. by apply Hr.
    - intros t. rewrite boot_tasks, decide_True by done. by intros [= <-].
    - intros x t. rewrite boot_tasks. case_decide; [by right|done]. }
  pose proof (ro_queue _ _ _ R) as (I & Hr & Hc). exists q. split; [done|]. split; [apply I|]. split; [done|]. split; [done|]. split; [|split].
  - intros code Hi. destruct (exit_idle_drops_queue _ q code I Hi) as (c & E & ? & _ & ? & ?). by exists c.
  - intros x t Ht Ha Hn. destruct (Hn t Ht) as [H1 H2]; [by destruct Ha as [-> |[-> | ->]]|]. destruct (ro_asleep _ _ _ R x t Ht Ha); done.
  - intros x [t Ht] Hn. assert (t_state t <> TASK_RUNNING /\ (x = init_task \/ x = current (sch s))) as [Hst Hx]; [|by apply (wake_breaks N _ q x t)].
    destruct (decide (t_state t = TASK_RUNNING)) as [E|Hst].
    { exfalso. apply Hn. intros t' Ht' Hst. congruence. }
    split; [done|]. destruct (decide (x = init_task)) as [|Hi]; [by left|]. destruct (decide (x = current (sch s))) as [|Hcx]; [by right|].
    exfalso. apply Hn. by intros ? _ _.
Qed.

(** ** Witnesses: the running task of [running_one], with a signal structure *)

Definition sig_task : task := with_signals (default zero_task (tasks running_one !! 2)) 1.
Definition sig_sched : sched := with_tasks running_one (<[2 := sig_task]> (tasks running_one)).
Definition sig_state (g : signal_struct) : sigstate := Sigstate sig_sched {[ 1 := g ]} 1.
Definition quiet_rh (h sig : Z) (s : sigstate) : sigstate := s.

(** Changing a task's signal structure keeps the scheduler's state good. *)
Lemma good_with_signals s q x t sg :
  good s q -> tasks s !! x = Some t ->
  good (with_tasks s (<[x := with_signals t sg]> (tasks s))) q /\
  get_current (with_tasks s (<[x := with_signals t sg]> (tasks s))) = rq_current (runqueue s).
Proof.
  intros (I & Hr & Hc) Ht. split; [split; [|split; [|done]]|done].
  - by apply inv_upd with t.
  - apply running_upd; [done|]. intros Hx. by apply (Hr x t).
Qed.

Lemma sig_sched_good : good sig_sched [2] /\ get_current sig_sched = 2.
Proof.
  destruct running_one_good as [G Hcur].
  destruct (dseg_lookup _ _ _ _ _ _ _ _ 2 (si_queue _ _ (proj1 G))) as [_ [t Ht]];
    [by apply elem_of_cons; left|].
  assert (sig_task = with_signals t 1) as E by (unfold sig_task; rewrite Ht; exact eq_refl).
  unfold sig_sched. rewrite E.
  destruct (good_with_signals running_one [2] 2 t 1 G Ht) as [G' Hc]. rewrite Hcur in Hc.
  exact (conj G' Hc).
Qed.

Lemma sig_state_has g : has_signals (sig_state g) 2 1 g.
Proof.
  split; [|split; [lia | apply lookup_singleton_eq]].
  exists sig_task. split; [apply lookup_insert_eq | exact eq_refl].
Qed.

Lemma sig_state_current g : has_signals (sig_state g) (get_current (sch (sig_state g))) 1 g.
Proof.
  destruct sig_sched_good as [_ E]. change (sch (sig_state g)) with sig_sched. rewrite E.
  apply sig_state_has.
Qed.

Lemma sigprocmask_correct_witness :
  exists r s', sigprocmask (sig_state (Sigs 0 0 ∅)) 0 (Some 0xFFFFFFFF) true = Ok (r, Some 0, s').
Proof.
  destruct (sigprocmask_correct (sig_state (Sigs 0 0 ∅)) 0 (Some 0xFFFFFFFF) true 1 _
    (sig_state_current _)) as (r & s' & E & _).
  exact (ex_intro _ r (ex_intro _ s' E)).
Defined.

Lemma sigaction_correct_witness :
  exists r old s', sigaction_syscall (sig_state (Sigs 0 0 ∅)) 15 (Some (Sigaction 4096 0 0 0)) true = Ok (r, old, s').
Proof.
  destruct (sigaction_correct (sig_state (Sigs 0 0 ∅)) 15 (Sigaction 4096 0 0 0) 1 _
    (sig_state_current _)) as (r & old & s' & E & _).
  exact (ex_intro _ r (ex_intro _ old (ex_intro _ s' E))).
Defined.

Lemma kill_task_correct_witness :
  exists s', kill_task (sig_state (Sigs 0 0 ∅)) 2 9 = Ok (0, s') /\
    sig_pool s' !! 1 = Some (Sigs (Z.lor 0 (Z.shiftl 1 9)) 0 ∅).
Proof.
  destruct (kill_task_correct (sig_state (Sigs 0 0 ∅)) [2] 2 9 1 (Sigs 0 0 ∅) sig_task
    (proj1 sig_sched_good) ltac:(lia) (sig_state_has _) (lookup_insert_eq _ _ _)) as (s' & E & Hp & _).
  - unfold NSIG. lia.
  - exact (ex_intro _ s' (conj E Hp)).
Defined.

Lemma do_signal_quiet_witness :
  exists s', do_signal quiet_rh (sig_state (Sigs (2 ^ 17) 0 ∅)) 2 = Ok (Done s').
Proof.
  destruct (do_signal_quiet quiet_rh (sig_state (Sigs (2 ^ 17) 0 ∅)) 2 1 _ ltac:(lia) (sig_state_has _))
    as (s' & g' & E & _).
  - intros j Hj Hb _. cbn in Hb. rewrite Z.pow2_bits_eqb in Hb by lia. apply Z.eqb_eq in Hb. subst j.
    exact eq_refl.
  - exact (ex_intro _ s' E).
Defined.

Lemma sigkill_terminates_witness :
  exists s', do_signal quiet_rh (sig_state (Sigs (2 ^ 9) 0 ∅)) 2 = Ok (Gone s') /\
    get_current (sch s') = init_task.
Proof.
  destruct sig_sched_good as [G Hc].
  destruct (sigkill_terminates quiet_rh (sig_state (Sigs (2 ^ 9) 0 ∅)) 2 [] 1 _ G Hc (sig_state_has _))
    as (s' & t & E & _ & Hcur & _).
  - intros i _. split; [apply Z.testbit_0_l | exact eq_refl].
  - exact eq_refl.
  - intros j Hj Hb _. cbn in Hb. rewrite Z.pow2_bits_eqb in Hb by lia.
    apply Z.eqb_eq in Hb. unfold SIGKILL in Hj. lia.
  - exact (ex_intro _ s' (conj E Hcur)).
Defined.

Lemma waitpid_returns_at_once_witness :
  exists s', do_waitpid running_one 1 true = Ok (Some 1, Some 0, s').
Proof.
  destruct running_one_good as [(I & _) Hc].
  destruct (waitpid_returns_at_once running_one [2] 1 true I) as (s' & t & E & _).
  - rewrite Hc. exact eq_refl.
  - exact (ex_intro _ s' E).
Defined.

Lemma waitpid_wake_corrupts_witness :
  exists s1 s2, do_waitpid running_one 1 false = Ok (Some 1, None, s1) /\
    wake_up_process s1 2 = Ok (1, s2) /\ nr_running (runqueue s2) = 2.
Proof.
  destruct running_one_good as [(I & _) Hc].
  destruct (waitpid_wake_corrupts running_one 2 1 I Hc) as (s1 & s2 & t & E1 & E2 & _ & _ & _ & Hn).
  exact (ex_intro _ s1 (ex_intro _ s2 (conj E1 (conj E2 Hn)))).
Defined.

(** A task is created, runs, creates another one, and waits for it: it is now asleep in the queue,
    and a wake-up destroys the queue. *)
Definition waiting (s : sched) : outcome (sched * sched * sched * sched) :=
  r1 ← create_task s 0x400000 7 1; c2 ← schedule r1.2; r3 ← create_task c2 0x400000 8 1; r4 ← do_waitpid r3.2 3 true;
  Ok (r1.2, c2, r3.2, r4.2).

Lemma waiting_ok s : match waiting s with Ok (_, c) => (current c, t_state <$> tasks c !! 2) | _ => (0, None) end = (2, Some TASK_INTERRUPTIBLE) ->
  exists c1 c2 c3 c r1 r3 r4, create_task s 0x400000 7 1 = Ok (r1, c1) /\ schedule c1 = Ok c2 /\
  create_task c2 0x400000 8 1 = Ok (r3, c3) /\ do_waitpid c3 3 true = Ok (r4, c) /\ current c = 2 /\
  t_state <$> tasks c !! 2 = Some TASK_INTERRUPTIBLE.
Proof.
  unfold waiting. intros Hv.
  destruct (create_task s 0x400000 7 1) as [[r1 c1]| |]; [|discriminate Hv..]. rewrite bind_ok in Hv. cbn [snd] in Hv.
  destruct (schedule c1) as [c2| |] eqn:E2; [|discriminate Hv..]. rewrite bind_ok in Hv.
  destruct (create_task c2 0x400000 8 1) as [[r3 c3]| |] eqn:E3; [|discriminate Hv..]. rewrite bind_ok in Hv. cbn [snd] in Hv.
  destruct (do_waitpid c3 3 true) as [[r4 c]| |] eqn:E4; [|discriminate Hv..]. rewrite bind_ok in Hv. cbn [snd] in Hv.
  injection Hv as Hc Ht. exists c1, c2, c3, c, r1, r3, r4. repeat (split; [done|]). done.
Qed.

Definition no_signals (c : sched) : sigstate := Sigstate c ∅ 0.

Lemma sched_reachable_inv_witness : exists c q, star run_step (no_signals boot_sched) (no_signals c) /\ sched_inv c q /\ nr_running (runqueue c) = Z.of_nat (length q) /\
  current c = 2 /\ exists c', wake_up_process c 2 = Ok (1, c') /\ ~ exists q', sched_inv c' q'.
Proof.
  destruct (waiting_ok boot_sched) as (c1 & c2 & c3 & c & r1 & r3 & r4 & E1 & E2 & E3 & E4 & Hc & Ht); [vm_compute; exact eq_refl|].
  pose proof (star_step _ _ _ _ (star_step _ _ _ _ (star_step _ _ _ _ (star_step _ _ _ _ (star_refl _ (no_signals boot_sched))
    (run_create (no_signals boot_sched) _ _ _ _ c1 E1)) (run_schedule (no_signals c1) c2 E2)) (run_create (no_signals c2) _ _ _ _ c3 E3))
    (run_wait (no_signals c3) _ _ _ c E4)) as Hs.
  destruct (sched_reachable_inv mini_pmm 16 0 ∅ (no_signals c) mini_pmm_inv Hs) as (q & I & Hl & _ & _ & _ & Ha & Hw).
  exists c, q. split; [exact Hs|]. split; [exact I|]. split; [exact Hl|]. split; [exact Hc|].
  destruct (tasks c !! 2) as [t|] eqn:Et; [|discriminate Ht].
  injection Ht as Ht. apply (Hw 2); [exists t; exact Et|]. apply (Ha 2 t Et). by left.
Defined.
