(* ===== verification/Ramfs.v ===== *)
(** * The RAM file system (src/kernel/fs/ramfs.c): state and operations

    Inodes, their data buffers and the VFS inodes made for them are objects of
    the kernel heap, found by address; the heap is any [Allocator].  A name or a
    path is the list of characters of a C string, without its terminator.
    [junk] is what a buffer that was not cleared happens to hold.  The static
    root inode of the VFS is the reference [Root]. *)
From S2P Require Import Prelude AllocSpec.
#[local] Open Scope Z_scope.

Definition RAMFS_MAX_NAME : Z := 255.
Definition RAMFS_BLOCK_SIZE : Z := 4096.
Definition S_IFMT : Z := 0xF000.
Definition S_IFREG : Z := 0x8000.
Definition S_IFDIR : Z := 0x4000.
Definition S_ISDIR (m : Z) : bool := Z.land m S_IFMT =? S_IFDIR.

(** sizeof(struct ramfs_inode), sizeof(struct inode) on a 64-bit target. *)
Definition SIZEOF_RAMFS_INODE : Z := 328.
Definition SIZEOF_INODE : Z := 144.

Record ramfs_inode := RInode {
  r_ino : Z; r_mode : Z; r_uid : Z; r_gid : Z; r_size : Z;
  r_data : Z; r_cap : Z; r_parent : Z; r_children : Z; r_sibling : Z; r_name : list Z
}.

Definition with_data (i : ramfs_inode) (size data cap : Z) : ramfs_inode :=
  RInode (r_ino i) (r_mode i) (r_uid i) (r_gid i) size data cap (r_parent i) (r_children i) (r_sibling i) (r_name i).
Definition with_parent (i : ramfs_inode) (p : Z) : ramfs_inode :=
  RInode (r_ino i) (r_mode i) (r_uid i) (r_gid i) (r_size i) (r_data i) (r_cap i) p (r_children i) (r_sibling i) (r_name i).
Definition with_children (i : ramfs_inode) (c : Z) : ramfs_inode :=
  RInode (r_ino i) (r_mode i) (r_uid i) (r_gid i) (r_size i) (r_data i) (r_cap i) (r_parent i) c (r_sibling i) (r_name i).
Definition with_sibling (i : ramfs_inode) (n : Z) : ramfs_inode :=
  RInode (r_ino i) (r_mode i) (r_uid i) (r_gid i) (r_size i) (r_data i) (r_cap i) (r_parent i) (r_children i) n (r_name i).
Definition with_name (i : ramfs_inode) (n : list Z) : ramfs_inode :=
  RInode (r_ino i) (r_mode i) (r_uid i) (r_gid i) (r_size i) (r_data i) (r_cap i) (r_parent i) (r_children i) (r_sibling i) n.

(** The tables of operations; [i_op] and [i_fop] point to them. *)
Inductive inode_ops := ramfs_inode_ops.
Inductive file_ops := ramfs_file_ops | ramfs_dir_ops.

(** [struct inode *]. *)
Inductive iref := Root | Obj (a : Z).
Definition inull : iref := Obj 0.

Record vinode := VInode {
  i_ino : Z; i_mode : Z; i_size : Z; i_op : option inode_ops; i_fop : option file_ops; i_private : Z
}.

(** [for (i = 0; i < n && name[i]; i++)]: what is copied of a name. *)
Fixpoint copy_name (n : nat) (name : list Z) : list Z :=
  match n, name with
  | S n, c :: name => if c =? 0 then [] else c :: copy_name n name
  | _, _ => []
  end.

(** [while ( *a && *b && *a == *b)]: what is left of the two strings. *)
Fixpoint skip_common (a b : list Z) : list Z * list Z :=
  match a, b with
  | x :: a', y :: b' => if x =? y then skip_common a' b' else (a, b)
  | _, _ => (a, b)
  end.
Definition names_match (a b : list Z) : bool :=
  match skip_common a b with ([], []) => true | _ => false end.

Section ramfs.
  Context {A : Type} `{Allocator A}.

Record ramfs := Ramfs {
  heap : A;
  inodes : gmap Z ramfs_inode;
  bufs : gmap Z (list Z);
  root_vnode : vinode;
  vnodes : gmap Z vinode;
  sb_root : Z;
  next_ino : Z;
  inode_count : Z
}.

Definition with_heap (s : ramfs) (h : A) : ramfs :=
  Ramfs h (inodes s) (bufs s) (root_vnode s) (vnodes s) (sb_root s) (next_ino s) (inode_count s).
Definition with_inodes (s : ramfs) (m : gmap Z ramfs_inode) : ramfs :=
  Ramfs (heap s) m (bufs s) (root_vnode s) (vnodes s) (sb_root s) (next_ino s) (inode_count s).
Definition with_bufs (s : ramfs) (b : gmap Z (list Z)) : ramfs :=
  Ramfs (heap s) (inodes s) b (root_vnode s) (vnodes s) (sb_root s) (next_ino s) (inode_count s).
Definition with_vnodes (s : ramfs) (v : gmap Z vinode) : ramfs :=
  Ramfs (heap s) (inodes s) (bufs s) (root_vnode s) v (sb_root s) (next_ino s) (inode_count s).
Definition with_root_vnode (s : ramfs) (v : vinode) : ramfs :=
  Ramfs (heap s) (inodes s) (bufs s) v (vnodes s) (sb_root s) (next_ino s) (inode_count s).
Definition with_sb (s : ramfs) (root ino count : Z) : ramfs :=
  Ramfs (heap s) (inodes s) (bufs s) (root_vnode s) (vnodes s) root ino count.

Definition get_inode (s : ramfs) (p : Z) : outcome ramfs_inode := of_option (inodes s !! p).
Definition upd_inode (s : ramfs) (p : Z) (f : ramfs_inode -> ramfs_inode) : outcome ramfs :=
  i ← get_inode s p; Ok (with_inodes s (<[p := f i]> (inodes s))).
Definition get_vnode (s : ramfs) (r : iref) : outcome vinode :=
  match r with Root => Ok (root_vnode s) | Obj a => of_option (vnodes s !! a) end.

(** ** Inodes *)

Definition ramfs_alloc_inode (s : ramfs) (mode : Z) (name : list Z) : outcome (Z * ramfs) :=
  r ← a_kzalloc (heap s) SIZEOF_RAMFS_INODE GFP_KERNEL;
  let '(p, h) := r in
  if p =? 0 then Ok (NULL, with_heap s h)
  else
    let inode := RInode (next_ino s) mode 0 0 0 0 0 0 0 0 (copy_name (Z.to_nat RAMFS_MAX_NAME) name) in
    Ok (p, with_sb (with_inodes (with_heap s h) (<[p := inode]> (inodes s)))
             (sb_root s) (next_ino s + 1) (inode_count s + 1)).

Definition ramfs_free_inode (s : ramfs) (p : Z) : outcome ramfs :=
  if p =? 0 then Ok s
  else
    i ← get_inode s p;
    s ← (if negb (r_data i =? 0) then
           h ← a_kfree (heap s) (r_data i);
           Ok (with_bufs (with_heap s h) (delete (r_data i) (bufs s)))
         else Ok s);
    let s := with_sb s (sb_root s) (next_ino s) (u64 (inode_count s - 1)) in
    h ← a_kfree (heap s) p;
    Ok (with_inodes (with_heap s h) (delete p (inodes s))).

(** The loop over the children of a directory; [fuel] bounds the chain. *)
Fixpoint lookup_loop (fuel : nat) (s : ramfs) (child : Z) (name : list Z) : outcome Z :=
  match fuel with
  | O => NoFuel
  | S fuel =>
      if child =? 0 then Ok NULL
      else
        c ← get_inode s child;
        if names_match (r_name c) name then Ok child
        else lookup_loop fuel s (r_sibling c) name
  end.

(** A chain without repetition is no longer than the number of inodes. *)
Definition chain_fuel (s : ramfs) : nat := S (size (inodes s)).

Definition ramfs_lookup_child (s : ramfs) (dir : Z) (name : list Z) : outcome Z :=
  d ← get_inode s dir;
  if negb (S_ISDIR (r_mode d)) then Ok NULL
  else lookup_loop (chain_fuel s) s (r_children d) name.

Definition ramfs_add_child (s : ramfs) (dir child : Z) : outcome (Z * ramfs) :=
  d ← get_inode s dir;
  if negb (S_ISDIR (r_mode d)) then Ok (- ENOTDIR, s)
  else
    s ← upd_inode s child (fun c => with_parent c dir);
    d ← get_inode s dir;
    s ← upd_inode s child (fun c => with_sibling c (r_children d));
    s ← upd_inode s dir (fun d => with_children d child);
    Ok (0, s).

(** ** File data *)

(** [buf[i] = data[pos + i]] for [n] bytes. *)
Fixpoint read_run (n : nat) (data : list Z) (pos : Z) : outcome (list Z) :=
  match n with
  | O => Ok []
  | S n => b ← of_option (data !! Z.to_nat pos); bs ← read_run n data (pos + 1); Ok (b :: bs)
  end.

(** [data[pos + i] = buf[i]]: a store outside the buffer is a fault. *)
Fixpoint write_run (data : list Z) (pos : Z) (buf : list Z) : outcome (list Z) :=
  match buf with
  | [] => Ok data
  | b :: buf =>
      _ ← of_option (data !! Z.to_nat pos);
      write_run (<[Z.to_nat pos := b]> data) (pos + 1) buf
  end.

(** [private_data] and [*pos] of the file; the bytes stored through [buf] and the new position. *)
Definition ramfs_read (s : ramfs) (inode count pos : Z) : outcome (list Z * Z) :=
  if inode =? 0 then Ok ([], pos)
  else
    i ← get_inode s inode;
    if r_data i =? 0 then Ok ([], pos)
    else if i64 (r_size i) <=? pos then Ok ([], pos)
    else
      let available := u64 (r_size i - pos) in
      let to_read := if count <? available then count else available in
      data ← of_option (bufs s !! r_data i);
      bs ← read_run (Z.to_nat to_read) data pos;
      Ok (bs, pos + to_read).

(** "Grow data buffer if needed": false when there is no memory.  [junk] is what
    the new buffer holds before the copy. *)
Definition ramfs_grow (s : ramfs) (inode new_size : Z) (junk : list Z) : outcome (bool * ramfs) :=
  i ← get_inode s inode;
  if r_cap i <? new_size then
    let new_cap := Z.land (u64 (new_size + RAMFS_BLOCK_SIZE - 1)) (Z.lnot (RAMFS_BLOCK_SIZE - 1)) in
    r ← a_kmalloc (heap s) new_cap GFP_KERNEL;
    let '(new_data, h) := r in
    let s := with_heap s h in
    if new_data =? 0 then Ok (false, s)
    else
      r ← (if negb (r_data i =? 0) then
             old ← of_option (bufs s !! r_data i);
             head ← read_run (Z.to_nat (r_size i)) old 0;
             d ← write_run junk 0 head;
             h ← a_kfree (heap s) (r_data i);
             Ok (d, with_bufs (with_heap s h) (delete (r_data i) (bufs s)))
           else Ok (junk, s));
      let '(d, s) := r in
      s ← upd_inode (with_bufs s (<[new_data := d]> (bufs s))) inode
            (fun i => with_data i (r_size i) new_data new_cap);
      Ok (true, s)
  else Ok (true, s).

(** The value returned, the new position and the state. *)
Definition ramfs_write (s : ramfs) (inode : Z) (buf : list Z) (pos : Z) (junk : list Z)
    : outcome (Z * Z * ramfs) :=
  if inode =? 0 then Ok (- EIO, pos, s)
  else
    let count := Z.of_nat (length buf) in
    let new_size := u64 (pos + count) in
    r ← ramfs_grow s inode new_size junk;
    let '(ok, s) := r in
    if negb ok then Ok (- ENOMEM, pos, s)
    else
      i ← get_inode s inode;
      s ← (match buf with
           | [] => Ok s
           | _ =>
               d ← of_option (bufs s !! r_data i);
               d ← write_run d pos buf;
               Ok (with_bufs s (<[r_data i := d]> (bufs s)))
           end);
      let pos := pos + count in
      s ← (if i64 (r_size i) <? pos
           then upd_inode s inode (fun i => with_data i pos (r_data i) (r_cap i)) else Ok s);
      Ok (count, pos, s).

(** One call of [filldir]: name, offset, inode number, type. *)
Definition dirent : Type := list Z * Z * Z * Z.

Fixpoint readdir_loop (fuel : nat) (s : ramfs) (child pos : Z) : outcome (list dirent) :=
  match fuel with
  | O => NoFuel
  | S fuel =>
      if child =? 0 then Ok []
      else
        c ← get_inode s child;
        rest ← readdir_loop fuel s (r_sibling c) (pos + 1);
        Ok ((r_name c, pos, r_ino c, Z.shiftr (r_mode c) 12) :: rest)
  end.

(** The calls that [ramfs_readdir] makes to a non-null [filldir]. *)
Definition ramfs_readdir (s : ramfs) (dir : Z) : outcome (Z * list dirent) :=
  if dir =? 0 then Ok (- ENOTDIR, [])
  else
    d ← get_inode s dir;
    if negb (S_ISDIR (r_mode d)) then Ok (- ENOTDIR, [])
    else
      up ← (if negb (r_parent d =? 0) then p ← get_inode s (r_parent d); Ok (r_ino p) else Ok (r_ino d));
      rest ← readdir_loop (chain_fuel s) s (r_children d) 2;
      Ok (0, ([46], 0, r_ino d, Z.shiftr S_IFDIR 12) :: ([46; 46], 1, up, Z.shiftr S_IFDIR 12) :: rest).

(** ** Directory operations: the directory is its VFS inode, the dentry its
    name; the result is what [d_inode] becomes. *)

(** A VFS inode for a ramfs inode. *)
Definition new_vnode (s : ramfs) (v : vinode) : outcome (iref * ramfs) :=
  r ← a_kzalloc (heap s) SIZEOF_INODE GFP_KERNEL;
  let '(p, h) := r in
  let s := with_heap s h in
  if p =? 0 then Ok (inull, s) else Ok (Obj p, with_vnodes s (<[p := v]> (vnodes s))).

Definition ramfs_lookup (s : ramfs) (dir : iref) (name : list Z) : outcome (iref * ramfs) :=
  v ← get_vnode s dir;
  child ← ramfs_lookup_child s (i_private v) name;
  if child =? 0 then Ok (inull, s)
  else
    c ← get_inode s child;
    new_vnode s (VInode (r_ino c) (r_mode c) (r_size c) (Some ramfs_inode_ops)
                   (Some (if S_ISDIR (r_mode c) then ramfs_dir_ops else ramfs_file_ops)) child).

(** [ramfs_create] and [ramfs_mkdir] differ in the type bits and the file operations. *)
Definition ramfs_make (s : ramfs) (dir : iref) (name : list Z) (mode : Z) (fop : file_ops)
    : outcome (Z * iref * ramfs) :=
  v ← get_vnode s dir;
  r ← ramfs_alloc_inode s mode name;
  let '(child, s) := r in
  if child =? 0 then Ok (- ENOMEM, inull, s)
  else
    r ← ramfs_add_child s (i_private v) child;
    let s := snd r in
    c ← get_inode s child;
    r ← new_vnode s (VInode (r_ino c) (r_mode c) 0 (Some ramfs_inode_ops) (Some fop) child);
    let '(d_inode, s) := r in
    match d_inode with
    | Obj 0 => Ok (- ENOMEM, inull, s)
    | _ => Ok (0, d_inode, s)
    end.

Definition ramfs_create (s : ramfs) (dir : iref) (name : list Z) (mode : Z)
    : outcome (Z * iref * ramfs) := ramfs_make s dir name (Z.lor S_IFREG mode) ramfs_file_ops.
Definition ramfs_mkdir (s : ramfs) (dir : iref) (name : list Z) (mode : Z)
    : outcome (Z * iref * ramfs) := ramfs_make s dir name (Z.lor S_IFDIR mode) ramfs_dir_ops.

(** [while (curr && curr->sibling != target)]. *)
Fixpoint find_prev (fuel : nat) (s : ramfs) (curr target : Z) : outcome Z :=
  match fuel with
  | O => NoFuel
  | S fuel =>
      if curr =? 0 then Ok 0
      else
        c ← get_inode s curr;
        if negb (r_sibling c =? target) then find_prev fuel s (r_sibling c) target else Ok curr
  end.

(** Step 1 of [ramfs_rename]. *)
Definition rename_unlink (s : ramfs) (dir target : Z) : outcome ramfs :=
  d ← get_inode s dir;
  t ← get_inode s target;
  if r_children d =? target then upd_inode s dir (fun d => with_children d (r_sibling t))
  else
    curr ← find_prev (chain_fuel s) s (r_children d) target;
    if negb (curr =? 0) then upd_inode s curr (fun c => with_sibling c (r_sibling t)) else Ok s.

(** [d_inode] of the old dentry is a VFS inode; the result is the return value. *)
Definition ramfs_rename (s : ramfs) (old_dir old_inode new_dir : iref) (new_name : list Z)
    : outcome (Z * ramfs) :=
  vo ← get_vnode s old_dir;
  vn ← get_vnode s new_dir;
  vt ← get_vnode s old_inode;
  let old_ram_dir := i_private vo in
  let new_ram_dir := i_private vn in
  let target := i_private vt in
  if target =? 0 then Ok (- ENOENT, s)
  else
    e ← ramfs_lookup_child s new_ram_dir new_name;
    if negb (e =? 0) then Ok (- EEXIST, s)
    else
      s ← rename_unlink s old_ram_dir target;
      s ← (if negb (old_ram_dir =? new_ram_dir) then
             nd ← get_inode s new_ram_dir;
             s ← upd_inode s target (fun t => with_sibling t (r_children nd));
             s ← upd_inode s new_ram_dir (fun d => with_children d target);
             upd_inode s target (fun t => with_parent t new_ram_dir)
           else
             od ← get_inode s old_ram_dir;
             s ← upd_inode s target (fun t => with_sibling t (r_children od));
             upd_inode s old_ram_dir (fun d => with_children d target));
      s ← upd_inode s target
            (fun t => with_name t (copy_name (Z.to_nat RAMFS_MAX_NAME) new_name));
      Ok (0, s).

(** [while ( *prev)]: unlink [target] from the chain that starts at [curr], the
    sibling of [prev], or the first child of [dir] when [prev] is 0. *)
Fixpoint unlink_loop (fuel : nat) (s : ramfs) (dir prev curr target : Z) : outcome ramfs :=
  match fuel with
  | O => NoFuel
  | S fuel =>
      if curr =? 0 then Ok s
      else
        c ← get_inode s curr;
        if curr =? target then
          if prev =? 0 then upd_inode s dir (fun d => with_children d (r_sibling c))
          else upd_inode s prev (fun p => with_sibling p (r_sibling c))
        else unlink_loop fuel s dir curr (r_sibling c) target
  end.

Definition unlink_child (s : ramfs) (dir target : Z) : outcome ramfs :=
  d ← get_inode s dir;
  s ← unlink_loop (chain_fuel s) s dir 0 (r_children d) target;
  ramfs_free_inode s target.

Definition ramfs_unlink (s : ramfs) (dir : iref) (name : list Z) : outcome (Z * ramfs) :=
  v ← get_vnode s dir;
  target ← ramfs_lookup_child s (i_private v) name;
  if target =? 0 then Ok (- ENOENT, s)
  else
    t ← get_inode s target;
    if S_ISDIR (r_mode t) then Ok (- EISDIR, s)
    else s ← unlink_child s (i_private v) target; Ok (0, s).

Definition ramfs_rmdir (s : ramfs) (dir : iref) (name : list Z) : outcome (Z * ramfs) :=
  v ← get_vnode s dir;
  target ← ramfs_lookup_child s (i_private v) name;
  if target =? 0 then Ok (- ENOENT, s)
  else
    t ← get_inode s target;
    if negb (S_ISDIR (r_mode t)) then Ok (- ENOTDIR, s)
    else if negb (r_children t =? 0) then Ok (- ENOTEMPTY, s)
    else s ← unlink_child s (i_private v) target; Ok (0, s).

(** [ramfs_mount]: [true] when a superblock is returned; its root dentry points
    to the static VFS root inode. *)
Definition ramfs_mount (s : ramfs) : outcome (bool * ramfs) :=
  let s := with_sb s (sb_root s) 1 0 in
  r ← ramfs_alloc_inode s (Z.lor S_IFDIR 0x1ED) [];
  let '(root, s) := r in
  let s := with_sb s root (next_ino s) (inode_count s) in
  if root =? 0 then Ok (false, s)
  else
    i ← get_inode s root;
    Ok (true, with_root_vnode s (VInode (r_ino i) (Z.lor S_IFDIR 0x1ED) 0
                                   (Some ramfs_inode_ops) (Some ramfs_dir_ops) root)).

(** ** Populating the file system at boot *)

Definition skip_slash (path : list Z) : list Z :=
  match path with c :: p => if c =? 47 then p else path | [] => [] end.

(** The path before and after its last slash. *)
Fixpoint last_slash (path : list Z) : option (list Z * list Z) :=
  match path with
  | [] => None
  | c :: p =>
      match last_slash p with
      | Some (d, f) => Some (c :: d, f)
      | None => if c =? 47 then Some ([], p) else None
      end
  end.

(** The directory, or 0, and the file name. *)
Definition ramfs_get_parent_dir (s : ramfs) (path : list Z) : outcome (Z * list Z) :=
  let path := skip_slash path in
  match last_slash path with
  | None => Ok (sb_root s, firstn (Z.to_nat RAMFS_MAX_NAME) path)
  | Some (d, f) =>
      let dirname := firstn (Z.to_nat RAMFS_MAX_NAME) d in
      let filename := firstn (Z.to_nat RAMFS_MAX_NAME) f in
      dir ← ramfs_lookup_child s (sb_root s) dirname;
      Ok (dir, filename)
  end.

(** [content] is null or the bytes of a string; [junk] as for [ramfs_write]. *)
Definition ramfs_create_file (s : ramfs) (path : list Z) (mode : Z) (content : option (list Z))
    (junk : list Z) : outcome (Z * ramfs) :=
  if sb_root s =? 0 then Ok (- ENOENT, s)
  else
    r ← ramfs_get_parent_dir s path;
    let '(parent, filename) :=
      if r.1 =? 0 then (sb_root s, firstn (Z.to_nat RAMFS_MAX_NAME) (skip_slash path)) else r in
    r ← ramfs_alloc_inode s (Z.lor S_IFREG mode) filename;
    let '(file, s) := r in
    if file =? 0 then Ok (- ENOMEM, s)
    else
      s ← (match content with
           | None => Ok s
           | Some bytes =>
               let len := Z.of_nat (length bytes) in
               r ← a_kmalloc (heap s) len GFP_KERNEL;
               let '(data, h) := r in
               let s := with_heap s h in
               if data =? 0 then Ok s
               else
                 d ← write_run junk 0 bytes;
                 upd_inode (with_bufs s (<[data := d]> (bufs s))) file
                   (fun i => with_data i len data len)
           end);
      r ← ramfs_add_child s parent file;
      Ok (0, snd r).

Definition ramfs_create_file_bytes (s : ramfs) (path : list Z) (mode : Z) (data : option (list Z))
    (junk : list Z) : outcome (Z * ramfs) :=
  if sb_root s =? 0 then Ok (- ENOENT, s)
  else
    r ← ramfs_get_parent_dir s path;
    let '(parent, filename) := r in
    if parent =? 0 then Ok (- ENOENT, s)
    else
      r ← ramfs_alloc_inode s (Z.lor S_IFREG mode) filename;
      let '(file, s) := r in
      if file =? 0 then Ok (- ENOMEM, s)
      else
        r ← (match data with
             | Some ((_ :: _) as bytes) =>
                 let size := Z.of_nat (length bytes) in
                 r ← a_kmalloc (heap s) size GFP_KERNEL;
                 let '(p, h) := r in
                 let s := with_heap s h in
                 if p =? 0 then Ok (false, s)
                 else
                   d ← write_run junk 0 bytes;
                   s ← upd_inode (with_bufs s (<[p := d]> (bufs s))) file
                         (fun i => with_data i size p size);
                   Ok (true, s)
             | _ => Ok (true, s)
             end);
        let '(ok, s) := r in
        if negb ok then Ok (- ENOMEM, s)
        else r ← ramfs_add_child s parent file; Ok (0, snd r).

Definition ramfs_create_dir (s : ramfs) (path : list Z) (mode : Z) : outcome (Z * ramfs) :=
  if sb_root s =? 0 then Ok (- ENOENT, s)
  else
    r ← ramfs_alloc_inode s (Z.lor S_IFDIR mode) path;
    let '(dir, s) := r in
    if dir =? 0 then Ok (- ENOMEM, s)
    else r ← ramfs_add_child s (sb_root s) dir; Ok (0, snd r).

End ramfs.
Arguments ramfs A : clear implicits.
