(* ===== verification/RamfsInv.v ===== *)
(** * The RAM file system: invariant

    [ram_inv F s ch]: the heap is well formed, every inode, buffer and VFS inode is
    a live block of it, the children of directory [d] are the chain [ch d], and
    the file system keeps off the live blocks [F] of its client. *)
From S2P Require Import Prelude DList AllocSpec Ramfs.
#[local] Open Scope Z_scope.

Section ramfs_inv.
Context {A : Type} `{AllocatorLaws A} {F : gset Z}.
Implicit Types (s : ramfs A) (ch : Z -> list Z) (d p : Z).

Definition live s p : Prop := is_Some (a_cap (heap s) p).

Record ram_inv s ch : Prop := {
  ri_heap : a_inv (heap s);
  ri_live p i : inodes s !! p = Some i -> live s p;
  ri_data p i : inodes s !! p = Some i -> r_data i <> 0 ->
    live s (r_data i) /\ inodes s !! r_data i = None /\ vnodes s !! r_data i = None /\
    exists b, bufs s !! r_data i = Some b /\ Z.of_nat (length b) = r_cap i;
  ri_nodata p i : inodes s !! p = Some i -> r_data i = 0 -> r_cap i = 0;
  ri_size p i : inodes s !! p = Some i -> 0 <= r_size i <= r_cap i /\ r_cap i < 2 ^ 63;
  ri_inj p q i j : inodes s !! p = Some i -> inodes s !! q = Some j ->
    r_data i <> 0 -> r_data i = r_data j -> p = q;
  ri_vnode p v : vnodes s !! p = Some v -> live s p /\ inodes s !! p = None;
  ri_chain d i : inodes s !! d = Some i -> chain r_sibling (inodes s) (r_children i) (ch d);
  ri_parent d p : p ∈ ch d -> exists c, inodes s !! p = Some c /\ r_parent c = d;
  ri_dir d i : inodes s !! d = Some i -> S_ISDIR (r_mode i) = false -> ch d = [];
  ri_dom d : inodes s !! d = None -> ch d = [];
  ri_foreign a : a ∈ F -> live s a /\ inodes s !! a = None /\ vnodes s !! a = None /\
    forall q i, inodes s !! q = Some i -> r_data i <> 0 -> r_data i <> a
}.

Lemma live_nonnull s ch p : ram_inv s ch -> live s p -> p <> 0.
Proof using Type*. intros I [c Hc] ->. rewrite law_null in Hc by apply I. done. Qed.

Lemma ri_nonnull s ch p i : ram_inv s ch -> inodes s !! p = Some i -> p <> 0.
Proof using Type*. intros I Hi. eapply live_nonnull; [done|]. by eapply ri_live. Qed.

Lemma get_inode_ok s p i : inodes s !! p = Some i -> get_inode s p = Ok i.
Proof using Type. intros E. unfold get_inode. by rewrite E. Qed.

Lemma upd_inode_ok s p f i : inodes s !! p = Some i ->
  upd_inode s p f = Ok (with_inodes s (<[p := f i]> (inodes s))).
Proof using Type. intros E. unfold upd_inode, get_inode. by rewrite E. Qed.

(** ** Names *)

Lemma names_match_eq a b : names_match a b = bool_decide (a = b).
Proof using Type.
  unfold names_match. revert b. induction a as [|x a IH]; intros [|y b]; simpl; try done.
  destruct (Z.eqb_spec x y) as [->|Hne].
  - rewrite IH. apply bool_decide_ext. split; [by intros -> | by intros [= ->]].
  - symmetry. apply bool_decide_eq_false. by intros [= ? _].
Qed.

(** ** Lookup *)

(** The first of the nodes [xs] with a given name. *)
Definition first_named s (name : list Z) (xs : list Z) : Z :=
  default 0 (List.find (fun x =>
    match inodes s !! x with Some c => bool_decide (r_name c = name) | None => false end) xs).

Lemma lookup_loop_spec s name xs : forall fuel p,
  chain r_sibling (inodes s) p xs -> (length xs < fuel)%nat ->
  lookup_loop fuel s p name = Ok (first_named s name xs).
Proof using Type.
  unfold first_named. induction xs as [|x xs IH]; intros [|fuel] p Hc Hf; simpl in *; try lia.
  - by rewrite Hc.
  - destruct Hc as (-> & Hp & c & Hci & Hc). rewrite (proj2 (Z.eqb_neq _ _) Hp).
    rewrite (get_inode_ok _ _ _ Hci), bind_ok, Hci, names_match_eq.
    case_bool_decide; [done|]. apply IH; [done|lia].
Qed.

Lemma chain_fuel_ok s p xs : chain r_sibling (inodes s) p xs -> (length xs < chain_fuel s)%nat.
Proof using Type.
  intros Hc. unfold chain_fuel. apply Nat.lt_succ_r, keys_length; [by eapply chain_NoDup|].
  intros x Hx. by destruct (chain_lookup _ _ _ _ x Hc Hx).
Qed.

Lemma lookup_child_spec s ch d di name : ram_inv s ch -> inodes s !! d = Some di ->
  ramfs_lookup_child s d name = Ok (first_named s name (ch d)).
Proof using Type.
  intros I Hd. unfold ramfs_lookup_child. rewrite (get_inode_ok _ _ _ Hd), bind_ok.
  destruct (S_ISDIR (r_mode di)) eqn:E; cbn [negb].
  - pose proof (ri_chain _ _ I d di Hd) as Hc. apply lookup_loop_spec; [done|].
    by eapply chain_fuel_ok.
  - by rewrite (ri_dir _ _ I d di Hd E).
Qed.

Lemma first_named_some s ch d name c : ram_inv s ch -> first_named s name (ch d) = c -> c <> 0 ->
  c ∈ ch d /\ exists i, inodes s !! c = Some i /\ r_name i = name /\ r_parent i = d.
Proof using Type.
  intros I. unfold first_named. destruct (List.find _ _) as [x|] eqn:E; simpl; [|done].
  intros <- _. apply find_some in E as [Hin Hx]. apply list_elem_of_In in Hin. split; [done|].
  destruct (ri_parent _ _ I d x Hin) as (i & Hi & Hp). rewrite Hi in Hx. exists i.
  by apply bool_decide_eq_true in Hx.
Qed.

(** ** Chains *)

(** A chain only depends on the siblings of its nodes. *)
Lemma chain_upd s p xs x i i' : inodes s !! x = Some i -> r_sibling i' = r_sibling i ->
  chain r_sibling (inodes s) p xs -> chain r_sibling (<[x := i']> (inodes s)) p xs.
Proof using Type.
  intros Hx Hs. apply chain_frame. intros y Hy n Hn. destruct (decide (y = x)) as [->|].
  - rewrite lookup_insert_eq. exists i'. split; [done|]. congruence.
  - rewrite lookup_insert_ne by done. eauto.
Qed.

(** A node is among the children of its parent only. *)
Lemma ri_only_parent s ch d p i : ram_inv s ch -> inodes s !! p = Some i -> p ∈ ch d -> r_parent i = d.
Proof using Type. intros I Hi Hp. destruct (ri_parent _ _ I d p Hp) as (c & Hc & Hd). congruence. Qed.

(** Two inodes with the same data, size and type. *)
Definition same_data (j i : ramfs_inode) : Prop :=
  r_data j = r_data i /\ r_cap j = r_cap i /\ r_size j = r_size i /\ r_mode j = r_mode i.

Definition relinked s (m : gmap Z ramfs_inode) : Prop :=
  forall q, option_Forall2 same_data (m !! q) (inodes s !! q).

#[local] Lemma relinked_some s m q j : relinked s m -> m !! q = Some j ->
  exists i, inodes s !! q = Some i /\ same_data j i.
Proof using Type. intros Hr Hj. specialize (Hr q). rewrite Hj in Hr. inversion Hr; eauto. Qed.

#[local] Lemma relinked_none s m q : relinked s m -> m !! q = None <-> inodes s !! q = None.
Proof using Type. intros Hr. specialize (Hr q). inversion Hr; split; congruence. Qed.

Lemma relinked_insert s m q i j : relinked s m -> m !! q = Some i -> same_data j i ->
  relinked s (<[q := j]> m).
Proof using Type.
  intros Hr Hq (H1 & H2 & H3 & H4) r. destruct (decide (r = q)) as [->|].
  - rewrite lookup_insert_eq. specialize (Hr q). rewrite Hq in Hr. inversion Hr as [? i0 (?&?&?&?)|].
    constructor. unfold same_data. repeat split; congruence.
  - rewrite lookup_insert_ne by done. apply Hr.
Qed.

Lemma relinked_refl s : relinked s (inodes s).
Proof using Type. intros q. destruct (inodes s !! q); by constructor. Qed.

(** Operations that only move inodes between directories. *)
Lemma inv_relink s ch m ch' : ram_inv s ch -> relinked s m ->
  (forall d j, m !! d = Some j -> chain r_sibling m (r_children j) (ch' d)) ->
  (forall d p, p ∈ ch' d -> exists c, m !! p = Some c /\ r_parent c = d) ->
  (forall d j, m !! d = Some j -> S_ISDIR (r_mode j) = false -> ch' d = []) ->
  (forall d, m !! d = None -> ch' d = []) ->
  ram_inv (with_inodes s m) ch'.
Proof using Type*.
  intros I Hr Hc Hp Hd Hn. split; cbn; try done.
  - apply I.
  - intros q j Hj. destruct (relinked_some _ _ _ _ Hr Hj) as (i & Hi & _). by apply (ri_live _ _ I q i).
  - intros q j Hj Hd0. destruct (relinked_some _ _ _ _ Hr Hj) as (i & Hi & E1 & E2 & _).
    rewrite E1, E2 in *. rewrite (relinked_none _ _ _ Hr). by apply (ri_data _ _ I q i).
  - intros q j Hj. destruct (relinked_some _ _ _ _ Hr Hj) as (i & Hi & -> & -> & _).
    by apply (ri_nodata _ _ I q i).
  - intros q j Hj. destruct (relinked_some _ _ _ _ Hr Hj) as (i & Hi & _ & -> & -> & _).
    by apply (ri_size _ _ I q i).
  - intros q r j k Hj Hk. destruct (relinked_some _ _ _ _ Hr Hj) as (i & Hi & -> & _).
    destruct (relinked_some _ _ _ _ Hr Hk) as (l & Hl & -> & _). by apply (ri_inj _ _ I).
  - intros q v Hv. rewrite (relinked_none _ _ _ Hr). by apply (ri_vnode _ _ I q v).
  - intros a Ha. destruct (ri_foreign _ _ I a Ha) as (? & ? & ? & Hf). rewrite (relinked_none _ _ _ Hr).
    do 3 (split; [done|]). intros q j Hj. destruct (relinked_some _ _ _ _ Hr Hj) as (i & Hi & -> & _). eauto.
Qed.

Lemma inv_set_name s ch p i n : ram_inv s ch -> inodes s !! p = Some i ->
  ram_inv (with_inodes s (<[p := with_name i n]> (inodes s))) ch.
Proof using Type*.
  intros I Hp. apply inv_relink with ch; [done | | | | |].
  - by apply relinked_insert with i; [apply relinked_refl|..].
  - intros d j Hj. assert (exists i0, inodes s !! d = Some i0 /\ r_children j = r_children i0) as (i0 & Hi0 & ->).
    { destruct (decide (d = p)) as [->|]; [|rewrite lookup_insert_ne in Hj by done; eauto].
      rewrite lookup_insert_eq in Hj. injection Hj as <-. eauto. }
    eapply chain_upd; [done | done |]. by apply (ri_chain _ _ I).
  - intros d x Hx. destruct (ri_parent _ _ I d x Hx) as (c & Hc & Hpc).
    destruct (decide (x = p)) as [->|]; [|rewrite lookup_insert_ne by done; eauto].
    rewrite lookup_insert_eq. eexists. split; [done|]. cbn. congruence.
  - intros d j Hj Hm. destruct (decide (d = p)) as [->|].
    + rewrite lookup_insert_eq in Hj. injection Hj as <-. by apply (ri_dir _ _ I p i).
    + rewrite lookup_insert_ne in Hj by done. by apply (ri_dir _ _ I d j).
  - intros d Hd. apply (ri_dom _ _ I). destruct (decide (d = p)) as [->|].
    + by rewrite lookup_insert_eq in Hd.
    + by rewrite lookup_insert_ne in Hd.
Qed.

(** ** Linking a node in at the front of a directory *)

(** [p] is in no directory. *)
Definition isolated ch p : Prop := forall d, p ∉ ch d.

Definition push_map (m : gmap Z ramfs_inode) (d p first : Z) : gmap Z ramfs_inode :=
  alter (fun i => with_children i p) d (alter (fun i => with_parent (with_sibling i first) d) p m).

#[local] Lemma push_lookup m d p first q : push_map m d p first !! q =
  (fun i => let i := if decide (q = p) then with_parent (with_sibling i first) d else i in
            if decide (q = d) then with_children i p else i) <$> m !! q.
Proof using Type.
  unfold push_map. destruct (decide (q = d)) as [->|Hd].
  - rewrite lookup_alter_eq. destruct (decide (d = p)) as [->|Hp].
    + rewrite lookup_alter_eq. by destruct (m !! p).
    + rewrite lookup_alter_ne by done. by destruct (m !! d).
  - rewrite lookup_alter_ne by done. destruct (decide (q = p)) as [->|Hp].
    + rewrite lookup_alter_eq. by destruct (m !! p).
    + rewrite lookup_alter_ne by done. by destruct (m !! q).
Qed.

Lemma inv_push s ch d di p pi : ram_inv s ch -> isolated ch p ->
  inodes s !! p = Some pi -> inodes s !! d = Some di -> S_ISDIR (r_mode di) = true ->
  ram_inv (with_inodes s (push_map (inodes s) d p (r_children di))) (<[d := p :: ch d]> ch).
Proof using Type*.
  intros I Hiso Hp Hd Hdir. pose proof (ri_nonnull _ _ _ _ I Hp) as Hp0.
  set (m := push_map _ _ _ _).
  assert (forall q xs, chain r_sibling (inodes s) q xs -> p ∉ xs -> chain r_sibling m q xs) as Hch.
  { intros q xs Hc Hx. revert Hc. apply chain_frame. intros y Hy n Hn. unfold m.
    rewrite push_lookup, Hn. cbn. rewrite (decide_False (P := y = p)) by (by intros ->).
    eexists. split; [done|]. by destruct (decide (y = d)). }
  apply inv_relink with ch; [done | | | | |].
  - intros q. unfold m. rewrite push_lookup. destruct (inodes s !! q); constructor.
    destruct (decide (q = p)), (decide (q = d)); done.
  - intros e j. unfold m at 1. rewrite push_lookup. intros Hj.
    destruct (inodes s !! e) as [ei|] eqn:Ee; [|done]. injection Hj as <-.
    destruct (decide (e = d)) as [->|Hne].
    + rewrite fn_lookup_insert. assert (ei = di) as -> by congruence. cbn [r_children with_children].
      split; [done|]. split; [done|]. unfold m. rewrite push_lookup, Hp. cbn.
      eexists. split; [done|]. destruct (decide (p = p)) as [_|]; [|done].
      assert (forall x : ramfs_inode, r_sibling (if decide (p = d) then with_children x p else x) = r_sibling x)
        as -> by (intros x; by destruct (decide (p = d))). cbn [r_sibling with_parent with_sibling].
      apply Hch; [by apply (ri_chain _ _ I) | apply Hiso].
    + rewrite fn_lookup_insert_ne by done.
      assert (r_children (if decide (e = p) then with_parent (with_sibling ei (r_children di)) d else ei) = r_children ei)
        as -> by (by case_decide).
      apply Hch; [by apply (ri_chain _ _ I) | apply Hiso].
  - intros e x Hx. assert (forall y, y ∈ ch e -> exists c, m !! y = Some c /\ r_parent c = e) as Hold.
    { intros y Hy. destruct (ri_parent _ _ I e y Hy) as (c & Hc & Hpc). unfold m.
      rewrite push_lookup, Hc. cbn. destruct (decide (y = p)) as [->|_]; [by destruct (Hiso e)|].
      eexists. split; [done|]. by destruct (decide (y = d)). }
    destruct (decide (e = d)) as [->|Hne].
    + rewrite fn_lookup_insert in Hx. apply elem_of_cons in Hx as [->|Hx]; [|auto].
      unfold m. rewrite push_lookup, Hp. cbn. eexists. split; [done|].
      destruct (decide (p = p)) as [_|]; [|done]. by destruct (decide (p = d)).
    + rewrite fn_lookup_insert_ne in Hx by done. auto.
  - intros e j. unfold m. rewrite push_lookup. intros Hj Hm.
    destruct (inodes s !! e) as [ei|] eqn:Ee; [|done]. injection Hj as <-.
    assert (S_ISDIR (r_mode ei) = false) as Hmode.
    { revert Hm. by destruct (decide (e = p)), (decide (e = d)). }
    destruct (decide (e = d)) as [->|Hne]; [congruence|].
    rewrite fn_lookup_insert_ne by done. by apply (ri_dir _ _ I e ei).
  - intros e. unfold m. rewrite push_lookup. destruct (inodes s !! e) eqn:Ee; [done|].
    intros _. rewrite fn_lookup_insert_ne by (intros <-; congruence). by apply (ri_dom _ _ I).
Qed.

Lemma add_child_spec s ch d di p pi : ram_inv s ch -> isolated ch p -> p <> d ->
  inodes s !! p = Some pi -> inodes s !! d = Some di -> S_ISDIR (r_mode di) = true ->
  exists s', ramfs_add_child s d p = Ok (0, s') /\ ram_inv s' (<[d := p :: ch d]> ch) /\
    s' = with_inodes s (push_map (inodes s) d p (r_children di)).
Proof using Type*.
  intros I Hiso Hne Hp Hd Hdir. unfold ramfs_add_child.
  rewrite (get_inode_ok _ _ _ Hd), bind_ok, Hdir. cbn [negb].
  rewrite (upd_inode_ok _ _ _ _ Hp), bind_ok. 
  rewrite (get_inode_ok _ d di) by (cbn; by rewrite lookup_insert_ne). rewrite bind_ok.
  rewrite (upd_inode_ok _ p _ (with_parent pi d)) by apply lookup_insert_eq. rewrite bind_ok. cbn [inodes with_inodes].
  rewrite (upd_inode_ok _ d _ di) by (cbn; by rewrite !lookup_insert_ne). rewrite bind_ok. cbn [inodes with_inodes].
  assert (<[d := with_children di p]> (<[p := with_sibling (with_parent pi d) (r_children di)]>
      (<[p := with_parent pi d]> (inodes s))) = push_map (inodes s) d p (r_children di)) as ->.
  { apply map_eq. intros q. rewrite push_lookup. destruct (decide (q = d)) as [->|Hqd].
    - rewrite lookup_insert_eq, Hd. cbn. by rewrite decide_False by done.
    - rewrite lookup_insert_ne by done. destruct (decide (q = p)) as [->|Hqp].
      + by rewrite lookup_insert_eq, Hp.
      + rewrite !lookup_insert_ne by done. by destruct (inodes s !! q). }
  exists (with_inodes s (push_map (inodes s) d p (r_children di))). split; [done|].
  split; [|done]. by apply inv_push with pi.
Qed.

(** ** Allocation *)

(** A heap in which at least the same blocks are live. *)
Lemma inv_heap s ch h : ram_inv s ch -> a_inv h ->
  (forall p, live s p -> is_Some (a_cap h p)) -> ram_inv (with_heap s h) ch.
Proof using Type.
  intros I Hh Hl. destruct I. split; cbn; try done.
  - intros p i Hi. apply Hl. eauto.
  - intros p i Hi Hd. destruct (ri_data0 p i Hi Hd) as (? & ? & ? & ?). split; [by apply Hl|done].
  - intros p v Hv. destruct (ri_vnode0 p v Hv). split; [by apply Hl|done].
  - intros a Ha. destruct (ri_foreign0 a Ha) as (? & ?). split; [by apply Hl|done].
Qed.

Lemma inv_sb s ch r n c : ram_inv s ch -> ram_inv (with_sb s r n c) ch.
Proof using Type. intros []. by split. Qed.

(** [a_kmalloc] or [a_kzalloc], seen from the file system. *)
Lemma alloc_cases s ch size flags : ram_inv s ch -> 0 <= size ->
  exists p h, a_kmalloc (heap s) size flags = Ok (p, h) /\ ram_inv (with_heap s h) ch /\
    (forall q, live s q -> live (with_heap s h) q) /\
    (p = 0 \/ p <> 0 /\ ~ live s p /\ live (with_heap s h) p).
Proof using Type*.
  intros I Hsz. destruct (law_alloc (heap s) size flags (ri_heap _ _ I) Hsz) as (p & h & -> & Hh & Hres).
  exists p, h. split; [done|]. destruct Hres as [[-> Hsame] | (Hp & Hn & c & _ & Hu)].
  - assert (forall q, live s q -> live (with_heap s h) q) as Hl.
    { intros q Hq. unfold live in *. cbn. by rewrite Hsame. }
    split; [by apply inv_heap|]. split; [done|by left].
  - assert (forall q, live s q -> live (with_heap s h) q) as Hl.
    { intros q Hq. unfold live in *. cbn. rewrite Hu. case_decide; [by eexists|done]. }
    split; [by apply inv_heap|]. split; [done|]. right. split; [done|]. split; [intros [c' Hc']; congruence|]. unfold live. cbn. rewrite Hu, decide_True by done. eauto.
Qed.

(** What is not live is no object. *)
Lemma not_live_fresh s ch p : ram_inv s ch -> ~ live s p ->
  inodes s !! p = None /\ vnodes s !! p = None /\
  (forall q i, inodes s !! q = Some i -> r_data i <> 0 -> r_data i <> p) /\
  isolated ch p /\ ch p = [] /\ p ∉ F.
Proof using Type.
  intros I Hl. assert (inodes s !! p = None) as Hp.
  { destruct (inodes s !! p) eqn:E; [|done]. destruct Hl. by eapply ri_live. }
  split; [done|]. split.
  { destruct (vnodes s !! p) eqn:E; [|done]. destruct Hl. by eapply ri_vnode. }
  split; [|split; [|split; [by apply (ri_dom _ _ I)|]]].
  - intros q i Hi Hd <-. apply Hl. by destruct (ri_data _ _ I q i Hi Hd).
  - intros d Hd. destruct (ri_parent _ _ I d p Hd) as (c & Hc & _). congruence.
  - intros Hf. by apply Hl, (ri_foreign _ _ I p Hf).
Qed.

(** The new inode of [ramfs_alloc_inode]. *)
Definition new_inode s (mode : Z) (name : list Z) : ramfs_inode :=
  RInode (next_ino s) mode 0 0 0 0 0 0 0 0 (copy_name (Z.to_nat RAMFS_MAX_NAME) name).

Lemma inv_new_inode s ch p mode name : ram_inv s ch -> inodes s !! p = None -> vnodes s !! p = None ->
  live s p -> (forall q i, inodes s !! q = Some i -> r_data i <> 0 -> r_data i <> p) ->
  ch p = [] -> p ∉ F -> ram_inv (with_inodes s (<[p := new_inode s mode name]> (inodes s))) ch.
Proof using Type.
  intros I Hp Hv Hl Hd Hch HpF.
  assert (forall q i, <[p := new_inode s mode name]> (inodes s) !! q = Some i ->
    q = p /\ i = new_inode s mode name \/ q <> p /\ inodes s !! q = Some i) as Hq.
  { intros q i. destruct (decide (q = p)) as [->|].
    - rewrite lookup_insert_eq. intros [= <-]. by left.
    - rewrite lookup_insert_ne by done. by right. }
  split; cbn.
  - apply I.
  - intros q i [[-> ->]|[Hne Hi]]%Hq; [done | exact (ri_live s ch I q i Hi)].
  - intros q i [[-> ->]|[Hne Hi]]%Hq; [done|]. intros Hdi.
    destruct (ri_data _ _ I q i Hi Hdi) as (? & ? & ? & ?). split; [done|].
    split; [|done]. rewrite lookup_insert_ne; [done|]. apply not_eq_sym. by eapply Hd.
  - intros q i [[-> ->]|[Hne Hi]]%Hq; [done | by apply (ri_nodata _ _ I q)].
  - intros q i [[-> ->]|[Hne Hi]]%Hq; [cbn; lia | by apply (ri_size _ _ I q)].
  - intros q r i j [[-> ->]|[Hne Hi]]%Hq; [done|]. intros [[-> ->]|[Hne' Hj]]%Hq; [cbn; congruence|].
    by apply (ri_inj _ _ I).
  - intros q v Hqv. destruct (ri_vnode _ _ I q v Hqv). split; [done|].
    rewrite lookup_insert_ne; [done|]. intros <-. congruence.
  - intros q i [[-> ->]|[Hne Hi]]%Hq; [by rewrite Hch|].
    pose proof (ri_chain _ _ I q i Hi) as Hc. apply chain_insert_out; [|done].
    intros Hx. destruct (chain_lookup _ _ _ _ _ Hc Hx) as [_ [? ?]]. congruence.
  - intros q x Hx. destruct (ri_parent _ _ I q x Hx) as (c & Hc & Hpc). exists c.
    rewrite lookup_insert_ne; [done|]. intros <-. congruence.
  - intros q i [[-> ->]|[Hne Hi]]%Hq Hm; [done | by apply (ri_dir _ _ I q i)].
  - intros q. destruct (decide (q = p)) as [->|]; [by rewrite lookup_insert_eq|].
    rewrite lookup_insert_ne by done. apply I.
  - intros a Ha. destruct (ri_foreign _ _ I a Ha) as (? & ? & ? & Hf). split; [done|].
    rewrite lookup_insert_ne by (intros <-; done). do 2 (split; [done|]).
    intros q i [[-> ->]|[Hne Hi]]%Hq; [done|eauto].
Qed.

(** The sizes of the objects of the file system and of its client: the two kinds
    of inodes, and the dentries and open files of the VFS. *)
Definition object_sizes : list Z := [SIZEOF_RAMFS_INODE; SIZEOF_INODE; 304; 48].
Definition has_room (k : nat) s : bool := roomy object_sizes k (heap s).
Definition spent (k : nat) s s' : Prop := spends object_sizes k (heap s) (heap s').

Lemma room_alloc s n p h : n ∈ object_sizes -> a_kzalloc (heap s) n GFP_KERNEL = Ok (p, h) ->
  spends object_sizes 1 (heap s) h /\ (p = 0 -> has_room 1 s = false).
Proof using Type.
  intros Hn E. split; [by apply (spends_alloc _ _ n p)|]. intros ->. by apply (refused_poor _ _ n h).
Qed.

Lemma alloc_inode_spec s ch mode name : ram_inv s ch ->
  exists p s', ramfs_alloc_inode s mode name = Ok (p, s') /\ ram_inv s' ch /\
    bufs s' = bufs s /\ vnodes s' = vnodes s /\ root_vnode s' = root_vnode s /\ sb_root s' = sb_root s /\
    spent 1 s s' /\
    ((p = 0 /\ inodes s' = inodes s /\ has_room 1 s = false) \/
     (p <> 0 /\ inodes s !! p = None /\ isolated ch p /\ ch p = [] /\ vnodes s !! p = None /\
      inodes s' = <[p := new_inode s mode name]> (inodes s))).
Proof using Type*.
  intros I. unfold ramfs_alloc_inode.
  destruct (alloc_cases s ch SIZEOF_RAMFS_INODE (Z.lor GFP_KERNEL GFP_ZERO) I ltac:(done))
    as (p & h & Ek & I' & _ & Hp); fold (a_kzalloc (heap s) SIZEOF_RAMFS_INODE GFP_KERNEL) in Ek.
  destruct (room_alloc s SIZEOF_RAMFS_INODE p h ltac:(set_solver) Ek) as [Hsp Hpoor]. rewrite Ek, bind_ok; cbv beta iota.
  destruct Hp as [->|(Hp & Hnl & Hl)].
  - exists 0, (with_heap s h). cbn. split; [done|]. split; [done|]. do 5 (split; [done|]). left. auto.
  - rewrite (proj2 (Z.eqb_neq _ _) Hp). eexists _, _. split; [done|].
    destruct (not_live_fresh s ch p I Hnl) as (H1 & H2 & H3 & H4 & H5 & H6).
    split; [|cbn; do 5 (split; [done|]); by right].
    apply inv_sb, (inv_new_inode (with_heap s h)); done.
Qed.

Lemma inv_new_vnode s ch p v : ram_inv s ch -> inodes s !! p = None -> live s p ->
  (forall q i, inodes s !! q = Some i -> r_data i <> 0 -> r_data i <> p) -> p ∉ F ->
  ram_inv (with_vnodes s (<[p := v]> (vnodes s))) ch.
Proof using Type.
  intros I Hp Hl Hd HpF. destruct I. split; cbn; try done.
  - intros q i Hi Hdi. destruct (ri_data0 q i Hi Hdi) as (? & ? & ? & ?). split; [done|]. split; [done|].
    split; [|done]. rewrite lookup_insert_ne; [done|]. apply not_eq_sym. by eapply Hd.
  - intros q w. destruct (decide (q = p)) as [->|]; [done|]. rewrite lookup_insert_ne by done. apply ri_vnode0.
  - intros a Ha. rewrite lookup_insert_ne; [by apply ri_foreign0 | by intros <-].
Qed.

Lemma new_vnode_spec s ch v : ram_inv s ch ->
  exists r s', new_vnode s v = Ok (r, s') /\ ram_inv s' ch /\
    inodes s' = inodes s /\ bufs s' = bufs s /\ root_vnode s' = root_vnode s /\ sb_root s' = sb_root s /\
    spent 1 s s' /\
    ((r = inull /\ vnodes s' = vnodes s /\ has_room 1 s = false) \/
     exists p, r = Obj p /\ p <> 0 /\ vnodes s !! p = None /\ inodes s !! p = None /\
       vnodes s' = <[p := v]> (vnodes s)).
Proof using Type*.
  intros I. unfold new_vnode.
  destruct (alloc_cases s ch SIZEOF_INODE (Z.lor GFP_KERNEL GFP_ZERO) I ltac:(done))
    as (p & h & Ek & I' & _ & Hp); fold (a_kzalloc (heap s) SIZEOF_INODE GFP_KERNEL) in Ek.
  destruct (room_alloc s SIZEOF_INODE p h ltac:(set_solver) Ek) as [Hsp Hpoor]. rewrite Ek, bind_ok; cbv beta iota zeta.
  destruct Hp as [->|(Hp & Hnl & Hl)].
  - exists inull, (with_heap s h). do 7 (split; [done|]). left. auto.
  - rewrite (proj2 (Z.eqb_neq _ _) Hp). eexists _, _. split; [done|].
    destruct (not_live_fresh s ch p I Hnl) as (H1 & H2 & H3 & H4 & H5 & H6).
    split; [by apply inv_new_vnode|]. cbn. do 5 (split; [done|]). right. eauto 10.
Qed.

(** ** Unlinking *)

(** The inodes after [t] is taken out of the chain of [d], where [y] is the
    node before it. *)
Definition unlink_map (m : gmap Z ramfs_inode) (d : Z) (y : option Z) (next : Z) : gmap Z ramfs_inode :=
  match y with
  | Some y => alter (fun i => with_sibling i next) y m
  | None => alter (fun i => with_children i next) d m
  end.

Lemma upd_inode_alter s p f : is_Some (inodes s !! p) ->
  upd_inode s p f = Ok (with_inodes s (alter f p (inodes s))).
Proof using Type.
  intros [i Hi]. rewrite (upd_inode_ok _ _ _ _ Hi). f_equal. f_equal. apply map_eq. intros q.
  destruct (decide (q = p)) as [->|].
  - by rewrite lookup_insert_eq, lookup_alter_eq, Hi.
  - by rewrite lookup_insert_ne, lookup_alter_ne.
Qed.

Lemma chain_unlink m p l1 t l2 ti : chain r_sibling m p (l1 ++ t :: l2) -> m !! t = Some ti ->
  match last l1 with
  | None => chain r_sibling m (r_sibling ti) l2
  | Some y => chain r_sibling (alter (fun i => with_sibling i (r_sibling ti)) y m) p (l1 ++ l2)
  end.
Proof using Type.
  intros Hc Ht. pose proof (chain_NoDup _ _ _ _ Hc) as Hnd.
  destruct l1 as [|y l1 _] using rev_ind.
  - simpl in *. destruct Hc as (-> & _ & n & Hn & Hc). by simplify_eq.
  - rewrite last_snoc, <- !app_assoc in *. simpl in *. revert p Hc Hnd.
    induction l1 as [|x l1 IH]; intros p Hc Hnd; simpl in *.
    + destruct Hc as (-> & Hp & n & Hn & -> & _ & n' & Hn' & Hc). simplify_eq.
      split; [done|]. split; [done|]. eexists. rewrite lookup_alter_eq, Hn. cbn. split; [done|].
      apply NoDup_cons in Hnd as [Hx Hnd]. apply NoDup_cons in Hnd as [_ Hnd].
      revert Hc. cbn. apply chain_frame. intros z Hz k Hk. rewrite lookup_alter_ne; [eauto|].
      intros ->. apply Hx. by right.
    + destruct Hc as (-> & Hp & n & Hn & Hc). apply NoDup_cons in Hnd as [Hx Hnd].
      split; [done|]. split; [done|]. exists n. rewrite lookup_alter_ne.
      * split; [done|]. by apply IH.
      * intros <-. apply Hx, elem_of_app. right. by left.
Qed.

Lemma inv_unlink s ch d di l1 t l2 ti : ram_inv s ch -> inodes s !! d = Some di ->
  ch d = l1 ++ t :: l2 -> inodes s !! t = Some ti ->
  ram_inv (with_inodes s (unlink_map (inodes s) d (last l1) (r_sibling ti))) (<[d := l1 ++ l2]> ch) /\
  isolated (<[d := l1 ++ l2]> ch) t.
Proof using Type*.
  intros I Hd Hch Ht. pose proof (ri_chain _ _ I d di Hd) as Hc. rewrite Hch in Hc.
  pose proof (chain_NoDup _ _ _ _ Hc) as Hnd. set (m := unlink_map _ _ _ _).
  assert (r_parent ti = d) as Hpar.
  { apply (ri_only_parent s ch d t ti I Ht). rewrite Hch. apply elem_of_mid. by left. }
  assert (forall q, m !! q = (fun i =>
    match last l1 with
    | Some y => if decide (q = y) then with_sibling i (r_sibling ti) else i
    | None => if decide (q = d) then with_children i (r_sibling ti) else i
    end) <$> inodes s !! q) as Hm.
  { intros q. unfold m, unlink_map. destruct (last l1) as [y|]; case_decide as E.
    - subst. by rewrite lookup_alter_eq.
    - rewrite lookup_alter_ne by done. by destruct (inodes s !! q).
    - subst. by rewrite lookup_alter_eq.
    - rewrite lookup_alter_ne by done. by destruct (inodes s !! q). }
  assert (forall e, e <> d -> forall p xs, chain r_sibling (inodes s) p xs -> (forall x, x ∈ xs -> x ∈ ch e) ->
    chain r_sibling m p xs) as Hother.
  { intros e Hne p xs Hx Hsub. revert Hx. apply chain_frame. intros z Hz n Hn. rewrite Hm, Hn. cbn.
    eexists. split; [done|]. destruct (last l1) as [y|] eqn:El; case_decide; try done. subst z. exfalso.
    apply Hne. rewrite <- (ri_only_parent s ch e y n I Hn (Hsub y Hz)).
    apply (ri_only_parent s ch d y n I Hn). rewrite Hch. apply elem_of_app. left. by apply last_Some_elem_of. }
  split.
  - apply inv_relink with ch; [done | | | | |].
    + intros q. rewrite Hm. destruct (inodes s !! q); constructor.
      destruct (last l1); by case_decide.
    + intros e j. rewrite Hm. intros Hj. destruct (inodes s !! e) as [ei|] eqn:Ee; [|done].
      injection Hj as <-. destruct (decide (e = d)) as [->|Hne].
      * rewrite fn_lookup_insert. assert (ei = di) as -> by congruence.
        pose proof (chain_unlink (inodes s) _ l1 t l2 ti Hc Ht) as Hu. unfold m, unlink_map.
        destruct (last l1) as [y|] eqn:El.
        -- assert (r_children (if decide (d = y) then with_sibling di (r_sibling ti) else di) = r_children di)
             as -> by by case_decide. done.
        -- apply last_None in El as ->. cbn [r_children with_children app].
           revert Hu. apply chain_frame. intros z Hz n Hn. destruct (decide (z = d)) as [->|].
           ++ rewrite lookup_alter_eq, Hn. by eexists.
           ++ rewrite lookup_alter_ne by done. eauto.
      * rewrite fn_lookup_insert_ne by done. apply (Hother e Hne); [|done].
        match goal with |- chain _ _ (r_children ?x) _ => assert (r_children x = r_children ei) as ->
          by (destruct (last l1) as [y|]; [by destruct (decide (e = y)) | done]) end.
        by apply (ri_chain _ _ I).
    + intros e x Hx. assert (x ∈ ch e) as Hx'.
      { destruct (decide (e = d)) as [->|]; [|by rewrite fn_lookup_insert_ne in Hx].
        rewrite fn_lookup_insert in Hx. rewrite Hch. apply elem_of_mid. by right. }
      destruct (ri_parent _ _ I e x Hx') as (c & Hcx & Hpc). rewrite Hm, Hcx. cbn.
      eexists. split; [done|]. destruct (last l1); by case_decide.
    + intros e j. rewrite Hm. intros Hj Hmode. destruct (inodes s !! e) as [ei|] eqn:Ee; [|done].
      injection Hj as <-. assert (S_ISDIR (r_mode ei) = false) as Hme.
      { revert Hmode. destruct (last l1); by case_decide. }
      pose proof (ri_dir _ _ I e ei Ee Hme) as Hnil. destruct (decide (e = d)) as [->|].
      * rewrite Hch in Hnil. by destruct l1.
      * by rewrite fn_lookup_insert_ne.
    + intros e. rewrite Hm. intros He. destruct (inodes s !! e) eqn:Ee; [done|].
      rewrite fn_lookup_insert_ne by (intros <-; congruence). by apply (ri_dom _ _ I).
  - intros e He. destruct (decide (e = d)) as [->|Hne].
    + rewrite fn_lookup_insert in He. by apply (NoDup_mid_ne l1 l2 t t).
    + rewrite fn_lookup_insert_ne in He by done. pose proof (ri_only_parent s ch e t ti I Ht He). congruence.
Qed.

End ramfs_inv.
Arguments ram_inv {A H} F s ch.

(** Handing a block over to the client of the file system, and freeing it. *)
Section foreign.
Context {A : Type} `{AllocatorLaws A}.
Implicit Types (s : ramfs A) (ch : Z -> list Z) (F : gset Z).

Lemma inv_mono F F' s ch : F' ⊆ F -> ram_inv F s ch -> ram_inv F' s ch.
Proof using Type. intros Hs []. split; auto. Qed.

Lemma inv_own F s ch a h : ram_inv F (with_heap s h) ch -> ~ live s a -> ram_inv F s ch ->
  live (with_heap s h) a -> ram_inv ({[a]} ∪ F) (with_heap s h) ch.
Proof using Type.
  intros I1 Hn I Hl. destruct (not_live_fresh s ch a I Hn) as (H1 & H2 & H3 & _). destruct I1. split; try done.
  intros b [->%elem_of_singleton|Hb]%elem_of_union; [|by apply ri_foreign0]. done.
Qed.

Lemma inv_disown F s ch a h : ram_inv F s ch -> a ∈ F -> a_inv h ->
  cap_update (a_cap (heap s)) (a_cap h) a None -> ram_inv (F ∖ {[a]}) (with_heap s h) ch.
Proof using Type.
  intros I Ha Hh Hu. destruct (ri_foreign _ _ I a Ha) as (_ & H1 & H2 & H3).
  assert (forall q, q <> a -> live s q -> is_Some (a_cap h q)) as Hl.
  { intros q Hq Hlq. rewrite Hu, decide_False by done. exact Hlq. }
  destruct I. split; cbn; try done.
  - intros p i Hi. apply Hl; [congruence|eauto].
  - intros p i Hi Hd. destruct (ri_data0 p i Hi Hd) as (? & ? & ? & ?). split; [apply Hl; eauto|done].
  - intros p v Hv. destruct (ri_vnode0 p v Hv). split; [apply Hl; [congruence|done]|done].
  - intros b [Hb Hne%not_elem_of_singleton]%elem_of_difference. destruct (ri_foreign0 b Hb) as (? & ?).
    split; [by apply Hl|done].
Qed.
End foreign.
