(* ===== verification/RamfsOps.v ===== *)
(** * The RAM file system: what each operation does to the tree and the data *)
From S2P Require Import Prelude DList AllocSpec Ramfs RamfsInv.
#[local] Open Scope Z_scope.

Section ramfs_ops.
Context {A : Type} `{AllocatorLaws A} {F : gset Z}.
Implicit Types (s : ramfs A) (ch : Z -> list Z) (d p : Z).

(** ** The unlink loops *)

Lemma unlink_loop_spec s d t ti l2 l1 : forall fuel prev curr,
  chain r_sibling (inodes s) curr (l1 ++ t :: l2) -> inodes s !! t = Some ti ->
  (length (l1 ++ t :: l2) < fuel)%nat -> is_Some (inodes s !! d) ->
  (prev <> 0 -> is_Some (inodes s !! prev)) ->
  unlink_loop fuel s d prev curr t =
    Ok (with_inodes s (unlink_map (inodes s) d
          (if l1 is [] then (if decide (prev = 0) then None else Some prev) else last l1) (r_sibling ti))) \/
  ~ NoDup (l1 ++ t :: l2).
Proof using Type.
  induction l1 as [|x l1 IH]; intros [|fuel] prev curr Hc Ht Hf Hd Hp; simpl in *; try lia.
  - left. destruct Hc as (-> & Hc0 & n & Hn & Hc). rewrite (proj2 (Z.eqb_neq _ _) Hc0).
    rewrite (get_inode_ok _ _ _ Hn), bind_ok, Z.eqb_refl. simplify_eq.
    destruct (Z.eqb_spec prev 0) as [->|Hp0]; [rewrite decide_True by done | rewrite decide_False by done];
      by rewrite upd_inode_alter by auto.
  - destruct Hc as (-> & Hc0 & n & Hn & Hc). rewrite (proj2 (Z.eqb_neq _ _) Hc0).
    rewrite (get_inode_ok _ _ _ Hn), bind_ok. destruct (Z.eqb_spec curr t) as [->|Hne].
    + right. intros [Hx _]%NoDup_cons. apply Hx, elem_of_mid. by left.
    + destruct (IH fuel curr (r_sibling n) Hc Ht ltac:(lia) Hd ltac:(eauto)) as [->|Hnd].
      * left. f_equal. f_equal. rewrite decide_False by done. destruct l1; [done|].
        by rewrite last_cons_cons.
      * right. by intros [_ ?]%NoDup_cons.
Qed.

Lemma find_prev_spec s t l2 l1 : forall fuel curr y,
  chain r_sibling (inodes s) curr (l1 ++ y :: t :: l2) -> NoDup (l1 ++ y :: t :: l2) ->
  (length (l1 ++ y :: t :: l2) < fuel)%nat -> find_prev fuel s curr t = Ok y.
Proof using Type.
  induction l1 as [|x l1 IH]; intros [|fuel] curr y Hc Hnd Hf; simpl in *; try lia.
  - destruct Hc as (-> & Hc0 & n & Hn & Ht & _). rewrite (proj2 (Z.eqb_neq _ _) Hc0).
    by rewrite (get_inode_ok _ _ _ Hn), bind_ok, Ht, Z.eqb_refl.
  - destruct Hc as (-> & Hc0 & n & Hn & Hc). rewrite (proj2 (Z.eqb_neq _ _) Hc0).
    rewrite (get_inode_ok _ _ _ Hn), bind_ok. apply NoDup_cons in Hnd as [_ Hnd].
    assert (r_sibling n <> t) as Hne.
    { destruct l1 as [|z l1]; simpl in *.
      - destruct Hc as (<- & _). apply NoDup_cons in Hnd as [Hy _]. intros ->. apply Hy. by left.
      - destruct Hc as (<- & _). apply NoDup_cons in Hnd as [Hz _]. intros ->. apply Hz.
        apply elem_of_app. right. right. by left. }
    rewrite (proj2 (Z.eqb_neq _ _) Hne). cbn [negb]. apply IH; [done|done|lia].
Qed.

(** The two ways the code unlinks a child agree. *)
Lemma rename_unlink_spec s ch d di l1 t l2 ti : ram_inv F s ch -> inodes s !! d = Some di ->
  ch d = l1 ++ t :: l2 -> inodes s !! t = Some ti ->
  rename_unlink s d t = Ok (with_inodes s (unlink_map (inodes s) d (last l1) (r_sibling ti))).
Proof using Type*.
  intros I Hd Hch Ht. pose proof (ri_chain _ _ I d di Hd) as Hc. rewrite Hch in Hc.
  pose proof (chain_NoDup _ _ _ _ Hc) as Hnd. pose proof (chain_fuel_ok _ _ _ Hc) as Hf.
  unfold rename_unlink. rewrite (get_inode_ok _ _ _ Hd), bind_ok, (get_inode_ok _ _ _ Ht), bind_ok.
  destruct l1 as [|y l1 _] using rev_ind.
  - destruct Hc as (<- & _). rewrite Z.eqb_refl. by rewrite upd_inode_alter by eauto.
  - rewrite last_snoc. rewrite <- !app_assoc in *. cbn [app] in *.
    assert (r_children di <> t) as Hne.
    { destruct l1 as [|z l1]; simpl in *.
      - destruct Hc as (<- & _). intros ->. apply NoDup_cons in Hnd as [Hy _]. apply Hy. by left.
      - destruct Hc as (<- & _). intros ->. apply NoDup_cons in Hnd as [Hy _]. apply Hy.
        apply elem_of_app. right. right. by left. }
    rewrite (proj2 (Z.eqb_neq _ _) Hne).
    rewrite (find_prev_spec s t l2 l1 _ _ y Hc Hnd Hf), bind_ok.
    assert (y ∈ l1 ++ y :: t :: l2) as Hy by (apply elem_of_mid; by left).
    destruct (chain_lookup _ _ _ _ y Hc Hy) as [Hy0 Hys].
    rewrite (proj2 (Z.eqb_neq _ _) Hy0). cbn [negb]. by rewrite upd_inode_alter.
Qed.

Lemma unlink_loop_top s ch d di l1 t l2 ti : ram_inv F s ch -> inodes s !! d = Some di ->
  ch d = l1 ++ t :: l2 -> inodes s !! t = Some ti ->
  unlink_loop (chain_fuel s) s d 0 (r_children di) t =
    Ok (with_inodes s (unlink_map (inodes s) d (last l1) (r_sibling ti))).
Proof using Type*.
  intros I Hd Hch Ht. pose proof (ri_chain _ _ I d di Hd) as Hc. rewrite Hch in Hc.
  destruct (unlink_loop_spec s d t ti l2 l1 (chain_fuel s) 0 (r_children di) Hc Ht) as [->|Hnd].
  - by eapply chain_fuel_ok.
  - eauto.
  - done.
  - f_equal. f_equal. destruct l1; [by rewrite decide_True|done].
  - destruct Hnd. by eapply chain_NoDup.
Qed.

(** ** Freeing *)

Lemma inv_free_node s ch p i h : ram_inv F s ch -> inodes s !! p = Some i -> isolated ch p -> ch p = [] ->
  r_data i = 0 -> a_inv h -> (forall q, q <> p -> live s q -> is_Some (a_cap h q)) ->
  ram_inv F (with_inodes (with_heap s h) (delete p (inodes s))) ch.
Proof using Type.
  intros I Hp Hiso Hch Hdp Hh Hl.
  assert (forall q j, delete p (inodes s) !! q = Some j -> q <> p /\ inodes s !! q = Some j) as Hq
    by (intros q j [? ?]%lookup_delete_Some; done).
  split; cbn.
  - done.
  - intros q j [Hne Hj]%Hq. apply Hl; [done|]. by eapply ri_live.
  - intros q j [Hne Hj]%Hq Hdj. destruct (ri_data _ _ I q j Hj Hdj) as (Hlv & Hn & Hv & Hb).
    split; [apply Hl; [congruence|done]|]. split; [apply lookup_delete_None; by right|]. done.
  - intros q j [Hne Hj]%Hq. by apply (ri_nodata _ _ I q).
  - intros q j [Hne Hj]%Hq. by apply (ri_size _ _ I q).
  - intros q r j k [_ Hj]%Hq [_ Hk]%Hq. by apply (ri_inj _ _ I).
  - intros q v Hv. destruct (ri_vnode _ _ I q v Hv) as [Hlv Hn]. split; [apply Hl; [congruence|done]|].
    apply lookup_delete_None. by right.
  - intros q j [Hne Hj]%Hq. pose proof (ri_chain _ _ I q j Hj) as Hc. revert Hc. apply chain_frame.
    intros y Hy n Hn. exists n. split; [|done]. rewrite lookup_delete_ne; [done|].
    intros <-. by apply (Hiso q).
  - intros q x Hx. destruct (ri_parent _ _ I q x Hx) as (c & Hc & Hpc). exists c. split; [|done].
    rewrite lookup_delete_ne; [done|]. intros <-. by apply (Hiso q).
  - intros q j [Hne Hj]%Hq. by apply (ri_dir _ _ I q j).
  - intros q [->|Hn]%lookup_delete_None; [done | by apply (ri_dom _ _ I)].
  - intros a Ha. destruct (ri_foreign _ _ I a Ha) as (? & Hn & ? & Hf). split; [apply Hl; [congruence|done]|].
    split; [apply lookup_delete_None; by right|]. split; [done|]. intros q j [Hne Hj]%Hq. eauto.
Qed.

(** Replacing the data of one inode: [data], [cap] and [size] are the new ones, the
    former buffer may be dead in the new heap [h]. *)
Lemma inv_data s ch p i h b size data cap : ram_inv F s ch -> inodes s !! p = Some i -> a_inv h ->
  (forall q, q <> r_data i -> live s q -> is_Some (a_cap h q)) ->
  (data <> 0 -> is_Some (a_cap h data) /\ inodes s !! data = None /\ vnodes s !! data = None /\ (data ∉ F) /\
     exists bs, b !! data = Some bs /\ Z.of_nat (length bs) = cap) ->
  (data = 0 -> cap = 0) -> 0 <= size <= cap /\ cap < 2 ^ 63 ->
  (forall q j, q <> p -> inodes s !! q = Some j -> r_data j <> 0 ->
     r_data j <> data /\ b !! r_data j = bufs s !! r_data j) ->
  ram_inv F (with_inodes (with_bufs (with_heap s h) b) (<[p := with_data i size data cap]> (inodes s))) ch.
Proof using Type*.
  intros I Hp Hh Hl Hd Hd0 Hsz Hb.
  assert (forall q j, <[p := with_data i size data cap]> (inodes s) !! q = Some j ->
    exists j0, inodes s !! q = Some j0 /\ r_children j = r_children j0 /\ r_mode j = r_mode j0 /\
      ((q = p /\ j = with_data i size data cap) \/ (q <> p /\ j = j0))) as Hq.
  { intros q j. destruct (decide (q = p)) as [->|].
    - rewrite lookup_insert_eq. intros [= <-]. exists i. eauto 10.
    - rewrite lookup_insert_ne by done. intros Hj. exists j. eauto 10. }
  assert (forall q, <[p := with_data i size data cap]> (inodes s) !! q = None <-> inodes s !! q = None) as Hnone.
  { intros q. destruct (decide (q = p)) as [->|]; [rewrite lookup_insert_eq; split; congruence|].
    by rewrite lookup_insert_ne. }
  assert (forall q, is_Some (inodes s !! q) \/ is_Some (vnodes s !! q) -> live s q -> q <> r_data i) as Hdi.
  { intros q Hq' Hlq ->. pose proof (live_nonnull _ _ _ I Hlq) as H1.
    destruct (ri_data _ _ I p i Hp H1) as (_ & H2 & H3 & _). destruct Hq' as [[? ?]|[? ?]]; congruence. }
  split; cbn.
  - done.
  - intros q j Hj. destruct (Hq q j Hj) as (j0 & Hj0 & _). pose proof (ri_live _ _ I q j0 Hj0) as Hlq.
    apply Hl; [|done]. apply Hdi; eauto.
  - intros q j Hj Hdj. rewrite Hnone. destruct (Hq q j Hj) as (j0 & Hj0 & _ & _ & [[-> ->] | [Hne ->]]).
    + intuition.
    + destruct (ri_data _ _ I q j0 Hj0 Hdj) as (H1 & H2 & H3 & H4). destruct (Hb q j0 Hne Hj0 Hdj) as [_ ->].
      split; [|done]. apply Hl; [|done]. intros E. apply Hne. symmetry. apply (ri_inj _ _ I p q i j0); congruence.
  - intros q j Hj. destruct (Hq q j Hj) as (j0 & Hj0 & _ & _ & [[-> ->] | [Hne ->]]); [done|].
    by apply (ri_nodata _ _ I q).
  - intros q j Hj. destruct (Hq q j Hj) as (j0 & Hj0 & _ & _ & [[-> ->] | [Hne ->]]); [done|].
    by apply (ri_size _ _ I q).
  - intros q r j k Hj Hk. destruct (Hq q j Hj) as (j0 & Hj0 & _ & _ & [[-> ->] | [Hne ->]]);
      destruct (Hq r k Hk) as (k0 & Hk0 & _ & _ & [[-> ->] | [Hne' ->]]); cbn; try done.
    + intros Hd1 E. destruct (Hb r k0 Hne' Hk0) as [? _]; congruence.
    + intros Hd1 E. destruct (Hb q j0 Hne Hj0) as [? _]; congruence.
    + by apply (ri_inj _ _ I).
  - intros q v Hv. destruct (ri_vnode _ _ I q v Hv) as [Hlq Hn]. rewrite Hnone. split; [|done].
    apply Hl; [|done]. apply Hdi; eauto.
  - intros q j Hj. destruct (Hq q j Hj) as (j0 & Hj0 & -> & _). eapply chain_upd; [done|done|].
    by apply (ri_chain _ _ I).
  - intros q x Hx. destruct (ri_parent _ _ I q x Hx) as (c & Hc & Hpc).
    destruct (decide (x = p)) as [->|]; [|rewrite lookup_insert_ne by done; eauto].
    rewrite lookup_insert_eq. eexists. split; [done|]. cbn. congruence.
  - intros q j Hj Hm. destruct (Hq q j Hj) as (j0 & Hj0 & _ & E & _). apply (ri_dir _ _ I q j0 Hj0). by rewrite <- E.
  - intros q. rewrite Hnone. apply (ri_dom _ _ I).
  - intros a Ha. destruct (ri_foreign _ _ I a Ha) as (? & ? & ? & Hf). rewrite Hnone. split.
    + apply Hl; [|done]. intros ->. destruct (decide (r_data i = 0)) as [E|]; [|by apply (Hf p i)].
      by apply (live_nonnull s ch (r_data i) I).
    + do 2 (split; [done|]). intros q j Hj. destruct (Hq q j Hj) as (j0 & Hj0 & _ & _ & [[-> ->] | [Hne ->]]); [|eauto].
      cbn. intros Hd1 ->. by apply Hd.
Qed.

(** Dropping the data of an inode that is about to be freed. *)
Lemma inv_drop_data s ch p i h : ram_inv F s ch -> inodes s !! p = Some i -> r_data i <> 0 ->
  a_inv h -> cap_update (a_cap (heap s)) (a_cap h) (r_data i) None ->
  ram_inv F (with_inodes (with_bufs (with_heap s h) (delete (r_data i) (bufs s)))
             (<[p := with_data i 0 0 0]> (inodes s))) ch.
Proof using Type*.
  intros I Hp Hd0 Hh Hu. apply inv_data; try done.
  - intros q Hq Hlq. rewrite Hu, decide_False by done. exact Hlq.
  - intros q j Hq Hj Hdj. split; [done|]. rewrite lookup_delete_ne; [done|]. intros E.
    apply Hq. symmetry. by apply (ri_inj _ _ I p q i j).
Qed.

(** [ramfs_free_inode] of a node in no directory, without children: the node and
    its data are given back to the heap. *)
Lemma free_inode_spec s ch p i : ram_inv F s ch -> inodes s !! p = Some i -> isolated ch p -> ch p = [] ->
  exists s', ramfs_free_inode s p = Ok s' /\ ram_inv F s' ch /\ inodes s' = delete p (inodes s) /\
    vnodes s' = vnodes s /\ root_vnode s' = root_vnode s /\ sb_root s' = sb_root s /\
    ~ live s' p /\ (r_data i <> 0 -> ~ live s' (r_data i)) /\
    inode_count s' = u64 (inode_count s - 1).
Proof using Type*.
  intros I Hp Hiso Hch. unfold ramfs_free_inode.
  pose proof (ri_nonnull _ _ _ _ I Hp) as Hp0. rewrite (proj2 (Z.eqb_neq _ _) Hp0).
  rewrite (get_inode_ok _ _ _ Hp), bind_ok.
  destruct (Z.eqb_spec (r_data i) 0) as [Hd|Hd]; cbn [negb].
  - rewrite bind_ok. cbn [heap with_sb]. destruct (ri_live _ _ I p i Hp) as [c Hc].
    destruct (law_free (heap s) p c (ri_heap _ _ I) Hc) as (h & -> & Hh & Hu). rewrite bind_ok.
    eexists. split; [done|]. cbn. split.
    + assert (ram_inv F (with_inodes (with_heap s h) (delete p (inodes s))) ch) as [].
      { apply inv_free_node with i; try done. intros q Hq Hl. rewrite Hu, decide_False by done. exact Hl. }
      by split.
    + do 4 (split; [done|]). unfold live. cbn. rewrite Hu, decide_True by done.
      split; [by intros []|]. done.
  - destruct (ri_data _ _ I p i Hp Hd) as ([c Hc] & Hdn & _).
    destruct (law_free (heap s) (r_data i) c (ri_heap _ _ I) Hc) as (h1 & -> & Hh1 & Hu1). rewrite !bind_ok.
    cbn [heap with_sb with_bufs with_heap].
    pose proof (inv_drop_data s ch p i h1 I Hp Hd Hh1 Hu1) as I1. set (s1 := with_inodes _ _) in I1.
    assert (inodes s1 !! p = Some (with_data i 0 0 0)) as Hp1 by apply lookup_insert_eq.
    destruct (ri_live _ _ I1 p _ Hp1) as [c1 Hc1]. cbn in Hc1.
    destruct (law_free h1 p c1 Hh1 Hc1) as (h & -> & Hh & Hu). rewrite bind_ok.
    eexists. split; [done|]. cbn. split.
    + assert (ram_inv F (with_inodes (with_heap s1 h) (delete p (inodes s1))) ch) as I2.
      { apply inv_free_node with (with_data i 0 0 0); try done. intros q Hq Hl.
        rewrite Hu, decide_False by done. exact Hl. }
      revert I2. unfold s1. cbn. rewrite delete_insert_eq. intros []. by split.
    + do 4 (split; [done|]). unfold live. cbn. assert (r_data i <> p) by congruence.
      split; [rewrite Hu, decide_True by done; by intros []|]. split; [|done]. intros _.
      rewrite Hu, decide_False, Hu1, decide_True by done. by intros [].
Qed.

Lemma unlink_child_spec s ch d di l1 t l2 ti : ram_inv F s ch -> inodes s !! d = Some di ->
  ch d = l1 ++ t :: l2 -> inodes s !! t = Some ti -> ch t = [] ->
  exists s', unlink_child s d t = Ok s' /\ ram_inv F s' (<[d := l1 ++ l2]> ch) /\ inodes s' !! t = None /\
    vnodes s' = vnodes s /\ root_vnode s' = root_vnode s /\ sb_root s' = sb_root s /\
    ~ live s' t /\ (r_data ti <> 0 -> ~ live s' (r_data ti)) /\
    (forall q i, q <> t -> inodes s !! q = Some i -> exists i', inodes s' !! q = Some i' /\
       same_data i' i /\ r_name i' = r_name i).
Proof using Type*.
  intros I Hd Hch Ht Hcht. destruct (inv_unlink s ch d di l1 t l2 ti I Hd Hch Ht) as [I1 Hiso].
  assert (d <> t) as Hdt by (intros ->; rewrite Hch in Hcht; by destruct l1).
  unfold unlink_child. rewrite (get_inode_ok _ _ _ Hd), bind_ok.
  rewrite (unlink_loop_top s ch d di l1 t l2 ti) by done. rewrite bind_ok.
  set (m := unlink_map _ _ _ _) in *. set (s1 := with_inodes s m) in *.
  assert (m !! t = Some ti) as Ht1.
  { unfold m, unlink_map. destruct (last l1) as [y|] eqn:El; [|by rewrite lookup_alter_ne].
    rewrite lookup_alter_ne; [done|]. intros ->. pose proof (ri_chain _ _ I d di Hd) as Hc. rewrite Hch in Hc.
    apply chain_NoDup in Hc. apply (NoDup_mid_ne l1 l2 t t); [done| |done].
    apply elem_of_app. left. by apply last_Some_elem_of. }
  destruct (free_inode_spec s1 _ t ti I1 Ht1 Hiso) as (s' & -> & I' & Hi & Hv & Hrv & Hrt & Hl & Hld & _).
  { by rewrite fn_lookup_insert_ne. }
  exists s'. split; [done|]. split; [done|]. split; [rewrite Hi; apply lookup_delete_eq|].
  do 5 (split; [done|]). intros q i Hq Hqi. rewrite Hi, lookup_delete_ne by done.
  unfold s1, m, unlink_map. cbn. destruct (last l1) as [y|].
  - destruct (decide (q = y)) as [->|]; [rewrite lookup_alter_eq, Hqi | rewrite lookup_alter_ne by done; rewrite Hqi];
      by eexists.
  - destruct (decide (q = d)) as [->|]; [rewrite lookup_alter_eq, Hqi | rewrite lookup_alter_ne by done; rewrite Hqi];
      by eexists.
Qed.

(** ** File data *)

Lemma read_run_spec n : forall data pos, 0 <= pos -> pos + Z.of_nat n <= Z.of_nat (length data) ->
  read_run n data pos = Ok (firstn n (skipn (Z.to_nat pos) data)).
Proof using Type.
  induction n as [|n IH]; intros data pos Hp Hn; simpl; [done|].
  destruct (lookup_lt_is_Some_2 data (Z.to_nat pos)) as [b Hb]; [lia|]. rewrite Hb. cbn [of_option].
  rewrite bind_ok, IH by lia. rewrite bind_ok. f_equal.
  rewrite (drop_S data b (Z.to_nat pos)) by done. simpl. by replace (Z.to_nat (pos + 1)) with (S (Z.to_nat pos)) by lia.
Qed.

Lemma write_run_spec buf : forall data pos, 0 <= pos -> pos + Z.of_nat (length buf) <= Z.of_nat (length data) ->
  write_run data pos buf = Ok (firstn (Z.to_nat pos) data ++ buf ++ skipn (Z.to_nat pos + length buf) data).
Proof using Type.
  induction buf as [|b buf IH]; intros data pos Hp Hn; simpl in *.
  - by rewrite Nat.add_0_r, take_drop.
  - destruct (lookup_lt_is_Some_2 data (Z.to_nat pos)) as [c Hc]; [lia|]. rewrite Hc. cbn [of_option].
    rewrite bind_ok, IH by (rewrite ?length_insert; lia). f_equal.
    replace (Z.to_nat (pos + 1)) with (S (Z.to_nat pos)) by lia.
    rewrite (take_S_r _ _ b) by (apply list_lookup_insert_eq; lia).
    rewrite take_insert_ge by lia. rewrite drop_insert_lt by lia. rewrite <- app_assoc. simpl.
    by replace (Z.to_nat pos + S (length buf))%nat with (S (Z.to_nat pos) + length buf)%nat by lia.
Qed.
End ramfs_ops.
