(* ===== verification/RamfsData.v ===== *)
(** * The RAM file system: file contents

    The bytes of a file are the first [r_size] bytes of its buffer; [ramfs_read]
    and [ramfs_write] are described on them. *)
From S2P Require Import Prelude DList AllocSpec Ramfs RamfsInv RamfsOps.
#[local] Open Scope Z_scope.

(** Overwriting [n] bytes at [pos] of a buffer whose first bytes are the file [C]. *)
Lemma splice_file {B} (C S buf : list B) pos :
  (pos + length buf <= length (C ++ S))%nat ->
  take (length C `max` (pos + length buf)) (take pos (C ++ S) ++ buf ++ drop (pos + length buf) (C ++ S)) =
  take pos C ++ take (pos - length C) S ++ buf ++ drop (pos + length buf) C.
Proof.
  rewrite length_app. intros Hl. destruct (decide (pos <= length C)%nat) as [Hp|Hp].
  - replace (pos - length C)%nat with 0%nat by lia. rewrite take_0, (take_app_le C) by lia. simpl.
    destruct (decide (pos + length buf <= length C)%nat).
    + rewrite drop_app_le by lia. rewrite Nat.max_l by lia. rewrite !app_assoc.
      apply take_app_length'. rewrite !length_app, length_take, length_drop. lia.
    + rewrite Nat.max_r by lia. rewrite (drop_ge C), app_nil_r by lia. rewrite app_assoc.
      apply take_app_length'. rewrite length_app, length_take. lia.
  - rewrite (take_ge C), (drop_ge C), app_nil_r by lia. rewrite Nat.max_r by lia.
    rewrite (take_app_ge C) by lia. rewrite !app_assoc. apply take_app_length'.
    rewrite !length_app, length_take. lia.
Qed.

Section ramfs_data.
Context {A : Type} `{AllocatorLaws A} {F : gset Z}.
Implicit Types (s : ramfs A) (ch : Z -> list Z) (i : ramfs_inode).

(** The buffer of an inode and the bytes of the file. *)
Definition raw s i : list Z := if r_data i =? 0 then [] else default [] (bufs s !! r_data i).
Definition file_bytes s i : list Z := take (Z.to_nat (r_size i)) (raw s i).

Lemma raw_length s ch p i : ram_inv F s ch -> inodes s !! p = Some i -> Z.of_nat (length (raw s i)) = r_cap i.
Proof using Type.
  intros I Hp. unfold raw. destruct (Z.eqb_spec (r_data i) 0) as [E|E].
  - by rewrite (ri_nodata _ _ I p i).
  - by destruct (ri_data _ _ I p i Hp E) as (_ & _ & _ & b & -> & <-).
Qed.

Lemma file_bytes_length s ch p i : ram_inv F s ch -> inodes s !! p = Some i ->
  Z.of_nat (length (file_bytes s i)) = r_size i.
Proof using Type.
  intros I Hp. unfold file_bytes. rewrite length_take. pose proof (raw_length s ch p i I Hp).
  pose proof (ri_size _ _ I p i Hp). lia.
Qed.

(** The other files are the same. *)
Definition others_same s s' p : Prop :=
  forall q j, q <> p -> inodes s !! q = Some j -> inodes s' !! q = Some j /\ file_bytes s' j = file_bytes s j.

Lemma read_spec s ch p i count pos : ram_inv F s ch -> inodes s !! p = Some i -> 0 <= pos -> 0 <= count ->
  let bs := take (Z.to_nat count) (drop (Z.to_nat pos) (file_bytes s i)) in
  ramfs_read s p count pos = Ok (bs, pos + Z.of_nat (length bs)).
Proof using Type*.
  intros I Hp Hpos Hc bs. pose proof (ri_nonnull _ _ _ _ I Hp) as Hp0.
  pose proof (ri_size _ _ I p i Hp) as Hsz. pose proof (raw_length s ch p i I Hp) as Hraw.
  pose proof (file_bytes_length s ch p i I Hp) as Hlen.
  unfold ramfs_read. rewrite (proj2 (Z.eqb_neq _ _) Hp0), (get_inode_ok _ _ _ Hp), bind_ok.
  destruct (Z.leb_spec (r_size i) pos) as [Hge|Hlt].
  - assert (bs = []) as ->. { unfold bs. rewrite drop_ge by lia. by rewrite take_nil. }
    rewrite Z.add_0_r. rewrite i64_small by lia. rewrite (proj2 (Z.leb_le _ _) Hge). by case_match.
  - assert (r_data i <> 0) as Hd. { intros E. rewrite (ri_nodata _ _ I p i Hp E) in Hsz. lia. }
    rewrite (proj2 (Z.eqb_neq _ _) Hd), i64_small, u64_small by lia. rewrite (proj2 (Z.leb_gt _ _) Hlt).
    destruct (ri_data _ _ I p i Hp Hd) as (_ & _ & _ & b & Hb & Hbl). rewrite Hb. cbn [of_option].
    rewrite bind_ok. assert ((if count <? r_size i - pos then count else r_size i - pos) = Z.min count (r_size i - pos))
      as -> by (destruct (Z.ltb_spec count (r_size i - pos)); lia).
    rewrite read_run_spec by lia. rewrite bind_ok.
    assert (bs = take (Z.to_nat (Z.min count (r_size i - pos))) (drop (Z.to_nat pos) b)) as ->.
    { unfold bs, file_bytes, raw. rewrite (proj2 (Z.eqb_neq _ _) Hd), Hb. cbn [default].
      rewrite skipn_firstn_comm, take_take. f_equal. lia. }
    rewrite length_take, length_drop. do 2 f_equal. lia.
Qed.
(** Capacity after growing to [n] bytes. *)
Definition grown_cap (n : Z) : Z := (n + 4095) / 4096 * 4096.
(** The bytes behind the end of the file after [ramfs_grow]. *)
Definition tail_after s i (n : Z) (junk : list Z) : list Z :=
  drop (Z.to_nat (r_size i)) (if r_cap i <? n then junk else raw s i).

Lemma grown_cap_mask n : 0 <= n < 2 ^ 64 - 4096 ->
  Z.land (u64 (n + RAMFS_BLOCK_SIZE - 1)) (Z.lnot (RAMFS_BLOCK_SIZE - 1)) = grown_cap n.
Proof using Type. exact (PAGE_ALIGN_spec n). Qed.

Lemma grown_cap_ge n : 0 <= n -> n <= grown_cap n < n + 4096.
Proof using Type. unfold grown_cap. intros. lia_mod. Qed.

Record grown s s' ch p i data cap n junk : Prop := {
  gr_inv : ram_inv F s' ch;
  gr_inodes : inodes s' = <[p := with_data i (r_size i) data cap]> (inodes s);
  gr_cap : n <= cap;
  gr_raw : raw s' (with_data i (r_size i) data cap) = file_bytes s i ++ tail_after s i n junk;
  gr_vnodes : vnodes s' = vnodes s;
  gr_root : root_vnode s' = root_vnode s;
  gr_sb : sb_root s' = sb_root s;
  gr_others : forall q j, q <> p -> inodes s !! q = Some j -> r_data j <> 0 ->
    r_data j <> data /\ bufs s' !! r_data j = bufs s !! r_data j
}.

Arguments gr_inv {s s' ch p i data cap n junk}.
Arguments gr_inodes {s s' ch p i data cap n junk}.
Arguments gr_cap {s s' ch p i data cap n junk}.
Arguments gr_raw {s s' ch p i data cap n junk}.
Arguments gr_others {s s' ch p i data cap n junk}.

Lemma grow_in_place s ch p i n junk : ram_inv F s ch -> inodes s !! p = Some i -> n <= r_cap i ->
  grown s s ch p i (r_data i) (r_cap i) n junk.
Proof using Type*.
  intros I Hp Hn. assert (with_data i (r_size i) (r_data i) (r_cap i) = i) as E by by destruct i.
  split; try done.
  - by rewrite E, insert_id.
  - rewrite E. unfold file_bytes, tail_after. rewrite (proj2 (Z.ltb_ge _ _) Hn). by rewrite take_drop.
  - intros q j Hq Hj Hd. split; [|done]. intros Hdd. by apply Hq, (ri_inj _ _ I q p j i).
Qed.

(** Moving to a fresh buffer [np] of [h1]; the old one is freed in [h]. *)
Lemma grow_move s ch p i n junk np h1 h b : ram_inv F s ch -> inodes s !! p = Some i ->
  r_cap i < n < 2 ^ 63 - 4096 -> Z.of_nat (length junk) = grown_cap n ->
  ram_inv F (with_heap s h1) ch -> np <> 0 -> ~ live s np -> is_Some (a_cap h1 np) ->
  a_inv h -> (forall q, q <> r_data i -> is_Some (a_cap h1 q) -> is_Some (a_cap h q)) ->
  (forall q, live s q -> is_Some (a_cap h1 q)) ->
  (forall q, q <> r_data i -> b !! q = bufs s !! q) ->
  grown s (with_inodes (with_bufs (with_heap s h) (<[np := file_bytes s i ++ drop (Z.to_nat (r_size i)) junk]> b))
             (<[p := with_data i (r_size i) np (grown_cap n)]> (inodes s))) ch p i np (grown_cap n) n junk.
Proof using Type*.
  intros I Hp Hn Hj I1 Hnp Hnl Hl1 Hh Hfree Hlive Hb.
  pose proof (file_bytes_length s ch p i I Hp) as Hlen. pose proof (ri_size _ _ I p i Hp) as Hsz.
  pose proof (grown_cap_ge n ltac:(lia)) as Hg.
  destruct (not_live_fresh s ch np I Hnl) as (F1 & F2 & F3 & _ & _ & F6).
  assert (r_data i <> np) as Hne. { destruct (decide (r_data i = 0)); [congruence|]. by apply (F3 p). }
  assert (forall q j, q <> p -> inodes s !! q = Some j -> r_data j <> 0 -> r_data j <> np /\
    <[np := file_bytes s i ++ drop (Z.to_nat (r_size i)) junk]> b !! r_data j = bufs s !! r_data j) as Ho.
  { intros q j Hq Hqj Hd. pose proof (F3 q j Hqj Hd). split; [done|]. rewrite lookup_insert_ne by done.
    apply Hb. intros E. by apply Hq, (ri_inj _ _ I q p j i). }
  split; cbn; try done.
  - apply inv_data; try done.
    + intros q Hq Hlq. apply Hfree; [done|]. by apply Hlive.
    + intros _. split; [by apply Hfree|]. do 3 (split; [done|]). rewrite lookup_insert_eq.
      eexists. split; [done|]. rewrite length_app, length_drop. lia.
    + lia.
  - lia.
  - unfold raw, tail_after. cbn. rewrite (proj2 (Z.eqb_neq _ _) Hnp), lookup_insert_eq. cbn.
    by rewrite (proj2 (Z.ltb_lt _ _) (proj1 Hn)).
Qed.
Definition unchanged s s' : Prop :=
  inodes s' = inodes s /\ bufs s' = bufs s /\ vnodes s' = vnodes s /\
  root_vnode s' = root_vnode s /\ sb_root s' = sb_root s.

Lemma copy_old s ch p i junk : ram_inv F s ch -> inodes s !! p = Some i -> r_data i <> 0 ->
  r_size i <= Z.of_nat (length junk) ->
  exists old, bufs s !! r_data i = Some old /\
    read_run (Z.to_nat (r_size i)) old 0 = Ok (file_bytes s i) /\
    write_run junk 0 (file_bytes s i) = Ok (file_bytes s i ++ drop (Z.to_nat (r_size i)) junk).
Proof using Type.
  intros I Hp Hd Hj. destruct (ri_data _ _ I p i Hp Hd) as (_ & _ & _ & old & Hold & Hlen).
  pose proof (ri_size _ _ I p i Hp) as Hsz. pose proof (file_bytes_length s ch p i I Hp) as Hl.
  exists old. split; [done|]. split.
  - rewrite read_run_spec by lia. unfold file_bytes, raw. by rewrite (proj2 (Z.eqb_neq _ _) Hd), Hold.
  - rewrite write_run_spec by lia. by rewrite <- Hl, Nat2Z.id.
Qed.

Lemma grow_spec s ch p i n junk : ram_inv F s ch -> inodes s !! p = Some i -> 0 <= n < 2 ^ 63 - 4096 ->
  (r_cap i < n -> Z.of_nat (length junk) = grown_cap n) ->
  exists ok s', ramfs_grow s p n junk = Ok (ok, s') /\
    ((ok = false /\ ram_inv F s' ch /\ unchanged s s') \/
     (ok = true /\ exists data cap, grown s s' ch p i data cap n junk)).
Proof using Type*.
  intros I Hp Hn Hj. unfold ramfs_grow. rewrite (get_inode_ok _ _ _ Hp), bind_ok.
  destruct (Z.ltb_spec (r_cap i) n) as [Hlt|Hge]; [|eauto 10 using grow_in_place].
  specialize (Hj Hlt). pose proof (ri_size _ _ I p i Hp) as Hsz.
  rewrite grown_cap_mask by lia. pose proof (grown_cap_ge n ltac:(lia)) as Hg.
  destruct (alloc_cases s ch (grown_cap n) GFP_KERNEL I ltac:(lia)) as (np & h1 & -> & I1 & Hlive & Hnp).
  rewrite bind_ok. cbv beta iota zeta.
  destruct Hnp as [->|(Hnp & Hnl & Hl1)]; [exists false, (with_heap s h1); split; [done|]; left; done|].
  rewrite (proj2 (Z.eqb_neq _ _) Hnp). cbn [bufs heap with_heap].
  destruct (Z.eqb_spec (r_data i) 0) as [Hd|Hd]; cbn [negb].
  - rewrite bind_ok. rewrite (upd_inode_ok _ p _ i) by done. rewrite bind_ok.
    eexists true, _. split; [done|]. right. split; [done|]. exists np, (grown_cap n).
    assert (r_size i = 0) as Hz. { rewrite (ri_nodata _ _ I p i Hp Hd) in Hsz. lia. }
    pose proof (grow_move s ch p i n junk np h1 h1 (bufs s) I Hp ltac:(lia) Hj I1 Hnp Hnl Hl1 (ri_heap _ _ I1)
      ltac:(done) Hlive ltac:(done)) as G.
    assert (file_bytes s i ++ drop (Z.to_nat (r_size i)) junk = junk) as E.
    { unfold file_bytes. by rewrite Hz. }
    rewrite E in G. exact G.
  - destruct (copy_old s ch p i junk I Hp Hd ltac:(lia)) as (old & -> & Hrd & Hwr). cbn [of_option].
    rewrite bind_ok, Hrd, bind_ok, Hwr, bind_ok.
    destruct (ri_data _ _ I1 p i Hp Hd) as ([c Hc] & _).
    destruct (law_free h1 (r_data i) c (ri_heap _ _ I1) Hc) as (h & -> & Hh & Hu). rewrite !bind_ok.
    rewrite (upd_inode_ok _ p _ i) by done. rewrite bind_ok.
    eexists true, _. split; [done|]. right. split; [done|]. exists np, (grown_cap n).
    apply (grow_move s ch p i n junk np h1 h (delete (r_data i) (bufs s))); try done; [lia | | ].
    + intros q Hq Hq1. by rewrite Hu, decide_False.
    + intros q Hq. by rewrite lookup_delete_ne.
Qed.
(** The bytes of the file after [buf] is written at [pos]; [tl] is what the buffer
    holds behind the end of the file. *)
Definition spliced (c tl buf : list Z) (pos : nat) : list Z :=
  take pos c ++ take (pos - length c) tl ++ buf ++ drop (pos + length buf) c.

Record written s s' ch p i buf pos junk : Prop := {
  wr_inv : ram_inv F s' ch;
  wr_inode : exists i', inodes s' !! p = Some i' /\ r_size i' = Z.max (r_size i) (pos + Z.of_nat (length buf)) /\
    r_name i' = r_name i /\ r_mode i' = r_mode i /\ r_parent i' = r_parent i /\
    file_bytes s' i' = spliced (file_bytes s i) (tail_after s i (pos + Z.of_nat (length buf)) junk) buf (Z.to_nat pos);
  wr_others : others_same s s' p;
  wr_vnodes : vnodes s' = vnodes s;
  wr_root : root_vnode s' = root_vnode s;
  wr_sb : sb_root s' = sb_root s
}.
(** The state with which [ramfs_write] stores the bytes. *)
Definition store s (data pos : Z) (buf : list Z) : outcome (ramfs A) :=
  match buf with
  | [] => Ok s
  | _ => d ← of_option (bufs s !! data); d ← write_run d pos buf; Ok (with_bufs s (<[data := d]> (bufs s)))
  end.

Lemma store_spec s ch p i data pos buf : ram_inv F s ch -> inodes s !! p = Some i -> r_data i = data ->
  0 <= pos -> pos + Z.of_nat (length buf) <= r_cap i ->
  exists b, store s data pos buf = Ok (with_bufs s b) /\
    (data <> 0 -> b !! data = Some (take (Z.to_nat pos) (raw s i) ++ buf ++
                                    drop (Z.to_nat pos + length buf) (raw s i))) /\
    (forall q, q <> data -> b !! q = bufs s !! q).
Proof using Type.
  intros I Hp <- Hpos Hc. assert (r_data i <> 0 -> bufs s !! r_data i = Some (raw s i)) as Hraw.
  { intros Hd. unfold raw. rewrite (proj2 (Z.eqb_neq _ _) Hd).
    by destruct (ri_data _ _ I p i Hp Hd) as (_ & _ & _ & b & -> & _). }
  pose proof (raw_length s ch p i I Hp) as Hl. destruct buf as [|c buf].
  - exists (bufs s). split; [by destruct s|]. split; [|done]. intros Hd. rewrite Hraw by done.
    simpl. by rewrite Nat.add_0_r, take_drop.
  - assert (r_data i <> 0) as Hd. { intros E. rewrite (ri_nodata _ _ I p i Hp E) in Hc. simpl in Hc. lia. }
    unfold store. rewrite Hraw by done. cbn [of_option]. rewrite bind_ok, write_run_spec by lia.
    rewrite bind_ok. eexists. split; [done|]. split; [intros _; apply lookup_insert_eq|].
    intros q Hq. by rewrite lookup_insert_ne.
Qed.

Lemma write_finish s s1 ch p i data cap pos buf junk b (sz := Z.max (r_size i) (pos + Z.of_nat (length buf))) :
  ram_inv F s ch -> inodes s !! p = Some i -> 0 <= pos -> pos + Z.of_nat (length buf) < 2 ^ 63 - 4096 ->
  grown s s1 ch p i data cap (pos + Z.of_nat (length buf)) junk ->
  (data <> 0 -> b !! data = Some (take (Z.to_nat pos) (raw s1 (with_data i (r_size i) data cap)) ++ buf ++
     drop (Z.to_nat pos + length buf) (raw s1 (with_data i (r_size i) data cap)))) ->
  (forall q, q <> data -> b !! q = bufs s1 !! q) ->
  written s (with_inodes (with_bufs s1 b) (<[p := with_data i sz data cap]> (inodes s))) ch p i buf pos junk.
Proof using Type*.
  intros I Hp Hpos Hn G Hb Hbo. set (i1 := with_data i (r_size i) data cap) in *.
  assert (inodes s1 !! p = Some i1) as Hp1 by (rewrite (gr_inodes G); apply lookup_insert_eq).
  pose proof (gr_inv G) as I1. pose proof (gr_cap G) as Hcap.
  pose proof (ri_size _ _ I1 p i1 Hp1) as [Hs1 Hs2]. cbn in Hs1, Hs2.
  pose proof (raw_length s1 ch p i1 I1 Hp1) as Hl. pose proof (file_bytes_length s ch p i I Hp) as Hfl.
  pose proof (ri_size _ _ I p i Hp) as Hsz.
  assert (forall q j, q <> p -> inodes s !! q = Some j -> r_data j <> 0 ->
    r_data j <> data /\ b !! r_data j = bufs s !! r_data j) as Ho.
  { intros q j Hq Hj Hd. destruct (gr_others G q j Hq Hj Hd) as [H1 H2].
    split; [done|]. by rewrite Hbo. }
  split; [| |  | apply G | apply G | apply G].
  - pose proof (inv_data s1 ch p i1 (heap s1) b sz data cap I1 Hp1 (ri_heap _ _ I1)) as HI. revert HI.
    rewrite (gr_inodes G), insert_insert_eq. intros HI. apply HI; clear HI.
    + intros q _ Hq. exact Hq.
    + intros Hd. destruct (ri_data _ _ I1 p i1 Hp1 Hd) as (H1 & H2 & H3 & _).
      rewrite (gr_inodes G) in H2. do 3 (split; [done|]).
      split; [intros Hf; destruct (ri_foreign _ _ I1 data Hf) as (_ & _ & _ & Hf'); by apply (Hf' p i1)|].
      eexists. split; [by apply Hb|]. rewrite !length_app, length_take, length_drop.
      change (r_cap i1) with cap in Hl. lia.
    + apply (ri_nodata _ _ I1 p i1 Hp1).
    + lia.
    + intros q j Hq. rewrite lookup_insert_ne by done. intros Hj Hd.
      destruct (Ho q j Hq Hj Hd) as [H1 H2]. split; [done|].
      destruct (gr_others G q j Hq Hj Hd) as [_ ->]. done.
  - exists (with_data i sz data cap). split; [apply lookup_insert_eq|]. do 4 (split; [done|]).
    pose proof (gr_raw G) as Hraw. fold i1 in Hraw. rewrite Hraw in Hb, Hl.
    unfold file_bytes at 1, raw. cbn. destruct (Z.eqb_spec data 0) as [Hd|Hd].
    + pose proof (ri_nodata _ _ I1 p i1 Hp1 Hd) as Hc0. cbn in Hc0. subst cap.
      assert (length buf = 0%nat /\ length (file_bytes s i) = 0%nat) as [Hb0 Hf0].
      { rewrite length_app in Hl. cbn in Hl. lia. }
      apply nil_length_inv in Hb0 as ->. apply nil_length_inv in Hf0. unfold spliced. rewrite Hf0.
      rewrite !take_nil, drop_nil, Nat.sub_0_r. replace (Z.to_nat pos) with 0%nat by (simpl in *; lia). done.
    + rewrite Hb by done. cbn [default]. unfold spliced.
      rewrite <- (splice_file (file_bytes s i)) by (rewrite length_app in *; cbn in Hl; lia).
      f_equal. unfold sz. lia.
  - intros q j Hq Hj. split; [cbn; by rewrite lookup_insert_ne|]. unfold file_bytes, raw. cbn.
    destruct (Z.eqb_spec (r_data j) 0); [done|]. by destruct (Ho q j Hq Hj) as [_ ->].
Qed.
Lemma write_spec s ch p i buf pos junk (n := pos + Z.of_nat (length buf)) :
  ram_inv F s ch -> inodes s !! p = Some i -> 0 <= pos -> n < 2 ^ 63 - 4096 ->
  (r_cap i < n -> Z.of_nat (length junk) = grown_cap n) ->
  (exists s', ramfs_write s p buf pos junk = Ok (- ENOMEM, pos, s') /\ ram_inv F s' ch /\ unchanged s s') \/
  (exists s', ramfs_write s p buf pos junk = Ok (Z.of_nat (length buf), n, s') /\
     written s s' ch p i buf pos junk).
Proof using Type*.
  intros I Hp Hpos Hn Hj. unfold ramfs_write.
  rewrite (proj2 (Z.eqb_neq _ _) (ri_nonnull _ _ _ _ I Hp)). rewrite u64_small by (unfold n in *; lia).
  fold n. destruct (grow_spec s ch p i n junk I Hp ltac:(unfold n in *; lia) Hj) as (ok & s1 & -> & Hr).
  rewrite bind_ok. cbv beta iota zeta.
  destruct Hr as [(-> & I' & Hu)|(-> & data & cap & G)]; cbn [negb]; [left; eauto|right].
  set (i1 := with_data i (r_size i) data cap).
  assert (inodes s1 !! p = Some i1) as Hp1 by (rewrite (gr_inodes G); apply lookup_insert_eq).
  rewrite (get_inode_ok _ _ _ Hp1), bind_ok. pose proof (gr_cap G) as Hcap.
  destruct (store_spec s1 ch p i1 (r_data i1) pos buf (gr_inv G) Hp1 eq_refl Hpos Hcap) as (b & Hst & Hb & Hbo).
  unfold store in Hst. rewrite Hst, bind_ok. pose proof (ri_size _ _ I p i Hp) as Hsz.
  change (r_size i1) with (r_size i). rewrite i64_small by lia.
  pose proof (write_finish s s1 ch p i data cap pos buf junk b I Hp Hpos Hn G Hb Hbo) as W. cbv zeta in W.
  fold n in W. eexists. split; [|exact W].
  destruct (Z.ltb_spec (r_size i) n) as [Hlt|Hge].
  - rewrite (upd_inode_ok _ p _ i1) by done. rewrite bind_ok. do 3 f_equal.
    change (inodes (with_bufs s1 b)) with (inodes s1). rewrite (gr_inodes G), insert_insert_eq.
    by rewrite Z.max_r by lia.
  - rewrite bind_ok. do 2 f_equal. rewrite Z.max_l by lia. rewrite <- (gr_inodes G). by destruct s1.
Qed.
End ramfs_data.
Arguments written {A H} F s s' ch p i buf pos junk.
