(* ===== verification/RamfsDir.v ===== *)
(** * The RAM file system: directory operations

    What create, mkdir, unlink, rmdir, rename and mount do to the tree. *)
From S2P Require Import Prelude DList AllocSpec Ramfs RamfsInv RamfsOps RamfsData.
#[local] Open Scope Z_scope.

(** A name that the file system stores unchanged. *)
Definition valid_name (name : list Z) : Prop := Forall (fun c => c <> 0) name /\ Z.of_nat (length name) <= RAMFS_MAX_NAME.

Lemma copy_name_id n name : Forall (fun c => c <> 0) name -> (length name <= n)%nat -> copy_name n name = name.
Proof.
  intros Hz. revert n. induction Hz as [|c name Hc _ IH]; intros [|n] Hn; simpl in *; try done; [lia|].
  rewrite (proj2 (Z.eqb_neq _ _) Hc), IH by lia. done.
Qed.

Lemma copy_name_valid name : valid_name name -> copy_name (Z.to_nat RAMFS_MAX_NAME) name = name.
Proof. intros [Hz Hl]. apply copy_name_id; [done|lia]. Qed.

Section ramfs_dir.
Context {A : Type} `{AllocatorLaws A} {F : gset Z}.
Implicit Types (s : ramfs A) (ch : Z -> list Z) (d p : Z) (name : list Z).

(** Every other inode keeps its name, data, size and type. *)
Definition kept s s' p : Prop :=
  forall q i, q <> p -> inodes s !! q = Some i -> exists i', inodes s' !! q = Some i' /\
    same_data i' i /\ r_name i' = r_name i.

(** [c] is a new, empty inode at the front of directory [d]. *)
Record linked s s' ch d c mode name : Prop := {
  ln_inv : ram_inv F s' (<[d := c :: ch d]> ch);
  ln_fresh : inodes s !! c = None;
  ln_new : exists ci, inodes s' !! c = Some ci /\ r_name ci = name /\ r_mode ci = mode /\
    r_size ci = 0 /\ r_parent ci = d /\ r_ino ci = next_ino s;
  ln_chain : ch c = [];
  ln_kept : kept s s' c;
  ln_bufs : bufs s' = bufs s;
  ln_vnodes : forall q w, vnodes s !! q = Some w -> vnodes s' !! q = Some w;
  ln_root : root_vnode s' = root_vnode s;
  ln_sb : sb_root s' = sb_root s
}.

Lemma push_kept s ch d di c ci : ram_inv F s ch -> inodes s !! d = Some di -> c <> d ->
  inodes s !! c = None -> kept s (with_inodes s (push_map (<[c := ci]> (inodes s)) d c (r_children di))) c.
Proof using Type.
  intros I Hd Hcd Hc q i Hq Hi. cbn. unfold push_map. destruct (decide (q = d)) as [->|].
  - rewrite lookup_alter_eq, lookup_alter_ne, lookup_insert_ne, Hi by done. by eexists.
  - rewrite !lookup_alter_ne, lookup_insert_ne by done. by exists i.
Qed.

(** Allocating an inode and adding it to a directory. *)
Lemma alloc_add_spec s ch d di mode name : ram_inv F s ch -> inodes s !! d = Some di ->
  S_ISDIR (r_mode di) = true -> valid_name name ->
  exists p s1, ramfs_alloc_inode s mode name = Ok (p, s1) /\ spent 1 s s1 /\
    ((p = 0 /\ has_room 1 s = false /\ ram_inv F s1 ch /\ unchanged s s1) \/
     (p <> 0 /\ exists s2, ramfs_add_child s1 d p = Ok (0, s2) /\ linked s s2 ch d p mode name /\
        vnodes s2 = vnodes s /\ heap s2 = heap s1)).
Proof using Type*.
  intros I Hd Hdir Hn.
  destruct (alloc_inode_spec s ch mode name I) as (p & s1 & -> & I1 & Hb & Hv & Hrv & Hrt & Hsp & Hp).
  exists p, s1. split; [done|]. split; [done|]. destruct Hp as [(-> & Hi & Hpoor)|(Hp & Hf & Hiso & Hch & Hfv & Hi)]; [by left|right].
  split; [done|]. assert (p <> d) as Hne by congruence.
  assert (inodes s1 !! d = Some di) as Hd1 by (rewrite Hi, lookup_insert_ne; done).
  assert (inodes s1 !! p = Some (new_inode s mode name)) as Hp1 by (rewrite Hi; apply lookup_insert_eq).
  destruct (add_child_spec s1 ch d di p _ I1 Hiso Hne Hp1 Hd1 Hdir) as (s2 & -> & I2 & ->).
  eexists. split; [done|]. split; [|split; [by rewrite <- Hv|done]]. split; try done.
  - cbn. unfold push_map. rewrite lookup_alter_ne by done. rewrite lookup_alter_eq, Hp1.
    eexists. split; [done|]. cbn. rewrite copy_name_valid by done. done.
  - rewrite Hi. exact (push_kept s ch d di p _ I Hd Hne Hf).
  - intros q w Hq. cbn. by rewrite Hv.
Qed.

Lemma linked_lookup s s' ch d c mode name : linked s s' ch d c mode name -> c <> 0 ->
  first_named s' name (<[d := c :: ch d]> ch d) = c.
Proof using Type.
  intros L Hc. rewrite fn_lookup_insert. unfold first_named. simpl.
  destruct (ln_new _ _ _ _ _ _ _ L) as (ci & -> & -> & _). by rewrite bool_decide_true.
Qed.

(** [new_vnode] after an inode was linked. *)
Lemma linked_vnode s s1 s2 ch d c mode name : linked s s1 ch d c mode name ->
  ram_inv F s2 (<[d := c :: ch d]> ch) -> inodes s2 = inodes s1 -> bufs s2 = bufs s1 ->
  root_vnode s2 = root_vnode s1 -> sb_root s2 = sb_root s1 ->
  (forall q w, vnodes s1 !! q = Some w -> vnodes s2 !! q = Some w) -> linked s s2 ch d c mode name.
Proof using Type.
  intros L I2 Hi Hb Hr Hs Hv. destruct L as [L1 L2 L3 L4 L5 L6 L7 L8 L9].
  split; rewrite ?Hi, ?Hb, ?Hr, ?Hs; auto. intros q i Hq Hqi. rewrite Hi. eauto.
Qed.

Lemma make_spec s ch dir v di name mode fop : ram_inv F s ch -> get_vnode s dir = Ok v ->
  inodes s !! i_private v = Some di -> S_ISDIR (r_mode di) = true -> valid_name name ->
  (exists s', ramfs_make s dir name mode fop = Ok (- ENOMEM, inull, s') /\ ram_inv F s' ch /\ unchanged s s' /\
     has_room 2 s = false /\ spent 2 s s') \/
  (exists c s', linked s s' ch (i_private v) c mode name /\ c <> 0 /\
     spent 2 s s' /\
     (ramfs_make s dir name mode fop = Ok (- ENOMEM, inull, s') /\ has_room 2 s = false \/
      exists p, ramfs_make s dir name mode fop = Ok (0, Obj p, s') /\
        vnodes s' !! p = Some (VInode (next_ino s) mode 0 (Some ramfs_inode_ops) (Some fop) c))).
Proof using Type*.
  intros I Hv Hd Hdir Hn. unfold ramfs_make. rewrite Hv, bind_ok.
  destruct (alloc_add_spec s ch (i_private v) di mode name I Hd Hdir Hn) as (c & s1 & -> & Hsp1 & Hr).
  rewrite bind_ok. cbv beta iota zeta. destruct Hr as [(-> & Hpoor & I1 & Hu)|(Hc & s2 & Hadd & L & Hvn & Hh2)].
  - left. exists s1. do 3 (split; [done|]). split; [by apply (poor_mono _ 1); [lia|]|by apply (spends_mono _ 1); [lia|]].
  - right. rewrite (proj2 (Z.eqb_neq _ _) Hc), Hadd, bind_ok. cbn [snd].
    destruct (ln_new _ _ _ _ _ _ _ L) as (ci & Hci & Hnm & Hm & Hsz & Hpar & Hino).
    rewrite (get_inode_ok _ _ _ Hci), bind_ok, Hm, Hino.
    destruct (new_vnode_spec s2 _ (VInode (next_ino s) mode 0 (Some ramfs_inode_ops) (Some fop) c) (ln_inv _ _ _ _ _ _ _ L))
      as (r & s3 & -> & I3 & Hi3 & Hb3 & Hr3 & Hs3 & Hs3' & Hres). rewrite bind_ok.
    assert (spent 2 s s3) as Hsp.
    { apply (spends_trans _ 1 1 _ (heap s1)); [exact Hsp1|]. rewrite <- Hh2. exact Hs3'. }
    exists c, s3. destruct Hres as [(-> & Hv3 & Hpoor)|(p & -> & Hp & Hpv & _ & Hv3)].
    + split; [eapply linked_vnode; try done; by rewrite Hv3|]. split; [done|]. split; [exact Hsp|]. left. split; [done|].
      apply (poor_spends _ 1 1 _ _ Hsp1). rewrite <- Hh2. exact Hpoor.
    + split.
      { eapply linked_vnode; try done. intros q w Hq. rewrite Hv3, lookup_insert_ne; [done|congruence]. }
      split; [done|]. split; [exact Hsp|]. right. exists p. split; [by destruct p|]. rewrite Hv3. apply lookup_insert_eq.
Qed.
(** [c] is a new, empty inode that no directory has. *)
Record orphaned s s' ch c mode name : Prop := {
  or_inv : ram_inv F s' ch;
  or_fresh : inodes s !! c = None;
  or_new : inodes s' = <[c := new_inode s mode name]> (inodes s);
  or_nowhere : isolated ch c;
  or_bufs : bufs s' = bufs s;
  or_vnodes : forall q w, vnodes s !! q = Some w -> vnodes s' !! q = Some w;
  or_root : root_vnode s' = root_vnode s
}.

(** What is made in a file instead of a directory is linked nowhere: the refusal of [ramfs_add_child] is not looked at. *)
Lemma make_orphan s ch dir v di name mode fop : ram_inv F s ch -> get_vnode s dir = Ok v ->
  inodes s !! i_private v = Some di -> S_ISDIR (r_mode di) = false ->
  has_room 2 s = false \/
  exists c s' p, ramfs_make s dir name mode fop = Ok (0, Obj p, s') /\ orphaned s s' ch c mode name /\ c <> 0 /\ spent 2 s s' /\
    vnodes s' !! p = Some (VInode (next_ino s) mode 0 (Some ramfs_inode_ops) (Some fop) c).
Proof using Type*.
  intros I Hv Hd Hdir. unfold ramfs_make. rewrite Hv, bind_ok.
  destruct (alloc_inode_spec s ch mode name I) as (c & s1 & -> & I1 & Hb & Hvn & Hrv & _ & Hsp1 & Hc).
  destruct Hc as [(-> & _ & Hpoor)|(Hc & Hf & Hiso & _ & _ & Hi)]; [left; by apply (poor_mono _ 1); [lia|]|].
  rewrite bind_ok. cbv beta iota zeta. rewrite (proj2 (Z.eqb_neq _ _) Hc). unfold ramfs_add_child.
  assert (inodes s1 !! i_private v = Some di) as Hd1 by (rewrite Hi, lookup_insert_ne; [done|congruence]).
  rewrite (get_inode_ok _ _ _ Hd1), bind_ok, Hdir. cbn [negb]. rewrite bind_ok. cbn [snd].
  assert (inodes s1 !! c = Some (new_inode s mode name)) as Hc1 by (rewrite Hi; apply lookup_insert_eq).
  rewrite (get_inode_ok _ _ _ Hc1), bind_ok. cbn [r_ino r_mode new_inode].
  destruct (new_vnode_spec s1 ch (VInode (next_ino s) mode 0 (Some ramfs_inode_ops) (Some fop) c) I1)
    as (r & s2 & -> & I2 & Hi2 & Hb2 & Hr2 & _ & Hsp2 & Hres). rewrite bind_ok.
  destruct Hres as [(-> & _ & Hpoor)|(p & -> & Hp & Hpv & _ & Hv2)]; [left; by apply (poor_spends _ 1 1 _ _ Hsp1)|right].
  exists c, s2, p. split; [by destruct p|]. split; [|split; [done|split; [by apply (spends_trans _ 1 1 _ (heap s1))|rewrite Hv2; apply lookup_insert_eq]]].
  split; try done; try congruence. intros q w Hq. rewrite Hv2, lookup_insert_ne; [congruence|]. intros <-. congruence.
Qed.

(** [t] is gone from directory [d], with its data. *)
Record unlinked s s' ch d l1 t l2 ti : Prop := {
  un_inv : ram_inv F s' (<[d := l1 ++ l2]> ch);
  un_gone : inodes s' !! t = None;
  un_kept : kept s s' t;
  un_freed : ~ live s' t /\ (r_data ti <> 0 -> ~ live s' (r_data ti));
  un_vnodes : vnodes s' = vnodes s;
  un_root : root_vnode s' = root_vnode s
}.

(** What [first_named] finds, and where it is in the chain. *)
Lemma first_named_split s name xs t : first_named s name xs = t -> t <> 0 ->
  exists l1 l2 i, xs = l1 ++ t :: l2 /\ inodes s !! t = Some i /\ r_name i = name /\
    first_named s name l1 = 0.
Proof using Type.
  unfold first_named. induction xs as [|x xs IH]; simpl; [done|].
  destruct (inodes s !! x) as [i|] eqn:Ex; [case_bool_decide as Hn|].
  - intros <- _. exists [], xs, i. done.
  - intros E Ht. destruct (IH E Ht) as (l1 & l2 & j & -> & Hj & Hnj & Hl1). exists (x :: l1), l2, j.
    split; [done|]. split; [done|]. split; [done|]. simpl. rewrite Ex. by rewrite bool_decide_false.
  - intros E Ht. destruct (IH E Ht) as (l1 & l2 & j & -> & Hj & Hnj & Hl1). exists (x :: l1), l2, j.
    split; [done|]. split; [done|]. split; [done|]. simpl. by rewrite Ex.
Qed.

Lemma unlink_child_unlinked s ch d di l1 t l2 ti : ram_inv F s ch -> inodes s !! d = Some di ->
  ch d = l1 ++ t :: l2 -> inodes s !! t = Some ti -> ch t = [] ->
  exists s', unlink_child s d t = Ok s' /\ unlinked s s' ch d l1 t l2 ti.
Proof using Type*.
  intros I Hd Hch Ht Hct.
  destruct (unlink_child_spec s ch d di l1 t l2 ti I Hd Hch Ht Hct)
    as (s' & Hu & I' & Hg & Hv & Hrv & _ & Hl & Hld & Hk). exists s'. done.
Qed.

Lemma ramfs_unlink_spec s ch dir v di name : ram_inv F s ch -> get_vnode s dir = Ok v ->
  inodes s !! i_private v = Some di ->
  let d := i_private v in
  let t := first_named s name (ch d) in
  (t = 0 /\ ramfs_unlink s dir name = Ok (- ENOENT, s)) \/
  (exists l1 l2 ti, t <> 0 /\ ch d = l1 ++ t :: l2 /\ inodes s !! t = Some ti /\ r_name ti = name /\
     first_named s name l1 = 0 /\
     if S_ISDIR (r_mode ti) then ramfs_unlink s dir name = Ok (- EISDIR, s)
     else exists s', ramfs_unlink s dir name = Ok (0, s') /\ unlinked s s' ch d l1 t l2 ti).
Proof using Type*.
  intros I Hv Hd d t. unfold ramfs_unlink. rewrite Hv, bind_ok.
  rewrite (lookup_child_spec s ch _ di name I Hd), bind_ok. fold d t.
  destruct (Z.eqb_spec t 0) as [E|E]; [left; done|right].
  destruct (first_named_split s name (ch d) t eq_refl E) as (l1 & l2 & ti & Hch & Ht & Hn & Hl1).
  exists l1, l2, ti. do 5 (split; [done|]). rewrite (get_inode_ok _ _ _ Ht), bind_ok.
  destruct (S_ISDIR (r_mode ti)) eqn:Edir; [done|].
  destruct (unlink_child_unlinked s ch d di l1 t l2 ti I Hd Hch Ht) as (s' & -> & U).
  { by apply (ri_dir _ _ I t ti). }
  exists s'. done.
Qed.

Lemma ramfs_rmdir_spec s ch dir v di name : ram_inv F s ch -> get_vnode s dir = Ok v ->
  inodes s !! i_private v = Some di ->
  let d := i_private v in
  let t := first_named s name (ch d) in
  (t = 0 /\ ramfs_rmdir s dir name = Ok (- ENOENT, s)) \/
  (exists l1 l2 ti, t <> 0 /\ ch d = l1 ++ t :: l2 /\ inodes s !! t = Some ti /\ r_name ti = name /\
     first_named s name l1 = 0 /\
     if negb (S_ISDIR (r_mode ti)) then ramfs_rmdir s dir name = Ok (- ENOTDIR, s)
     else if decide (ch t = []) then exists s', ramfs_rmdir s dir name = Ok (0, s') /\ unlinked s s' ch d l1 t l2 ti
     else ramfs_rmdir s dir name = Ok (- ENOTEMPTY, s)).
Proof using Type*.
  intros I Hv Hd d t. unfold ramfs_rmdir. rewrite Hv, bind_ok.
  rewrite (lookup_child_spec s ch _ di name I Hd), bind_ok. fold d t.
  destruct (Z.eqb_spec t 0) as [E|E]; [left; done|right].
  destruct (first_named_split s name (ch d) t eq_refl E) as (l1 & l2 & ti & Hch & Ht & Hn & Hl1).
  exists l1, l2, ti. do 5 (split; [done|]). rewrite (get_inode_ok _ _ _ Ht), bind_ok.
  destruct (S_ISDIR (r_mode ti)) eqn:Edir; cbn [negb]; [|done].
  pose proof (ri_chain _ _ I t ti Ht) as Hc. case_decide as Hct.
  - rewrite Hct in Hc. rewrite Hc, Z.eqb_refl.
    destruct (unlink_child_unlinked s ch d di l1 t l2 ti I Hd Hch Ht Hct) as (s' & -> & U).
    exists s'. done.
  - destruct (ch t) as [|x xs]; [done|]. destruct Hc as (-> & Hx & _). by rewrite (proj2 (Z.eqb_neq _ _) Hx).
Qed.

(** ** Renaming *)

Lemma push_after_unlink s ch od odi l1 t l2 ti nd ndi : ram_inv F s ch -> inodes s !! od = Some odi ->
  ch od = l1 ++ t :: l2 -> inodes s !! t = Some ti -> inodes s !! nd = Some ndi ->
  S_ISDIR (r_mode ndi) = true ->
  let m := unlink_map (inodes s) od (last l1) (r_sibling ti) in
  let ch1 := <[od := l1 ++ l2]> ch in
  exists ndi1 ti1, m !! nd = Some ndi1 /\ m !! t = Some ti1 /\ S_ISDIR (r_mode ndi1) = true /\
    r_parent ti1 = od /\ same_data ti1 ti /\
    ram_inv F (with_inodes s (push_map m nd t (r_children ndi1))) (<[nd := t :: ch1 nd]> ch1) /\
    kept s (with_inodes s (push_map m nd t (r_children ndi1))) t.
Proof using Type*.
  intros I Hod Hch Ht Hnd Hdir m ch1. destruct (inv_unlink s ch od odi l1 t l2 ti I Hod Hch Ht) as [I1 Hiso].
  fold m ch1 in I1, Hiso.
  assert (forall q i, inodes s !! q = Some i -> exists i', m !! q = Some i' /\ same_data i' i /\
    r_name i' = r_name i /\ r_parent i' = r_parent i) as Hm.
  { intros q i Hq. unfold m, unlink_map. destruct (last l1) as [y|].
    - destruct (decide (q = y)) as [->|]; [rewrite lookup_alter_eq, Hq | rewrite lookup_alter_ne by done; rewrite Hq];
        by eexists.
    - destruct (decide (q = od)) as [->|]; [rewrite lookup_alter_eq, Hq | rewrite lookup_alter_ne by done; rewrite Hq];
        by eexists. }
  destruct (Hm nd ndi Hnd) as (ndi1 & Hnd1 & (_ & _ & _ & Hmd) & _ & _).
  destruct (Hm t ti Ht) as (ti1 & Ht1 & Hsame & _ & Hpar).
  exists ndi1, ti1. do 2 (split; [done|]). split; [by rewrite Hmd|]. split.
  { rewrite Hpar. apply (ri_only_parent s ch od t ti I Ht). rewrite Hch. apply elem_of_mid. by left. }
  split; [done|]. split.
  - pose proof (inv_push (with_inodes s m) ch1 nd ndi1 t ti1 I1 Hiso Ht1 Hnd1) as HI. rewrite Hmd in HI. by apply HI.
  - intros q i Hq Hqi. destruct (Hm q i Hqi) as (i' & Hi' & ? & ? & _). cbn. unfold push_map.
    destruct (decide (q = nd)) as [->|]; [rewrite lookup_alter_eq|rewrite lookup_alter_ne by done];
      rewrite lookup_alter_ne, Hi' by done; by eexists.
Qed.

Lemma push_map_rename (m : gmap Z ramfs_inode) nd t c :
  alter (fun i => with_parent i nd) t (alter (fun i => with_children i t) nd
    (alter (fun i => with_sibling i c) t m)) = push_map m nd t c.
Proof using Type.
  unfold push_map. apply map_eq. intros q. rewrite !lookup_alter.
  repeat case_decide; subst; try done; by destruct (m !! _).
Qed.

Lemma push_map_same (m : gmap Z ramfs_inode) d t c ti : m !! t = Some ti -> r_parent ti = d ->
  alter (fun i => with_children i t) d (alter (fun i => with_sibling i c) t m) = push_map m d t c.
Proof using Type.
  intros Ht <-. unfold push_map. f_equal. apply map_eq. intros q. destruct (decide (q = t)) as [->|].
  - rewrite !lookup_alter_eq, Ht. by destruct ti.
  - by rewrite !lookup_alter_ne.
Qed.

(** Step 2 of [ramfs_rename]: linking [t] into the new directory. *)
Lemma rename_link s od nd t ndi ti : inodes s !! nd = Some ndi -> inodes s !! t = Some ti -> r_parent ti = od ->
  (if negb (od =? nd) then
     nd_i ← get_inode s nd;
     s ← upd_inode s t (fun t => with_sibling t (r_children nd_i));
     s ← upd_inode s nd (fun x => with_children x t);
     upd_inode s t (fun t => with_parent t nd)
   else
     od_i ← get_inode s od;
     s ← upd_inode s t (fun t => with_sibling t (r_children od_i));
     upd_inode s od (fun x => with_children x t)) =
  Ok (with_inodes s (push_map (inodes s) nd t (r_children ndi))).
Proof using Type.
  intros Hnd Ht Hpar. destruct (Z.eqb_spec od nd) as [->|Hne]; cbn [negb];
    rewrite (get_inode_ok _ _ _ Hnd), bind_ok, (upd_inode_alter _ t), bind_ok by eauto.
  - rewrite (upd_inode_alter _ nd); [|cbn; apply lookup_alter_is_Some; eauto]. cbn [inodes with_inodes].
    by rewrite (push_map_same _ _ _ _ ti).
  - rewrite (upd_inode_alter _ nd); [|cbn; apply lookup_alter_is_Some; eauto]. rewrite bind_ok.
    rewrite (upd_inode_alter _ t); [|cbn; do 2 apply lookup_alter_is_Some; eauto]. cbn [inodes with_inodes].
    by rewrite push_map_rename.
Qed.

(** [t] moved from [od] to the front of [nd] under a new name. *)
Record renamed s s' ch od l1 t l2 ti nd name : Prop := {
  rn_inv : let ch1 := <[od := l1 ++ l2]> ch in ram_inv F s' (<[nd := t :: ch1 nd]> ch1);
  rn_inode : exists ti', inodes s' !! t = Some ti' /\ r_name ti' = name /\ r_parent ti' = nd /\ same_data ti' ti;
  rn_kept : kept s s' t;
  rn_bufs : bufs s' = bufs s;
  rn_vnodes : vnodes s' = vnodes s
}.

Lemma ramfs_rename_spec s ch old_dir old_inode new_dir vo vn vt odi ndi l1 l2 ti name :
  ram_inv F s ch -> get_vnode s old_dir = Ok vo -> get_vnode s new_dir = Ok vn -> get_vnode s old_inode = Ok vt ->
  let od := i_private vo in let nd := i_private vn in let t := i_private vt in
  inodes s !! od = Some odi -> ch od = l1 ++ t :: l2 -> inodes s !! t = Some ti ->
  inodes s !! nd = Some ndi -> S_ISDIR (r_mode ndi) = true -> valid_name name ->
  if decide (first_named s name (ch nd) = 0)
  then exists s', ramfs_rename s old_dir old_inode new_dir name = Ok (0, s') /\ renamed s s' ch od l1 t l2 ti nd name
  else ramfs_rename s old_dir old_inode new_dir name = Ok (- EEXIST, s).
Proof using Type*.
  intros I Ho Hn Ht od nd t Hod Hch Hti Hnd Hdir Hname. unfold ramfs_rename.
  rewrite Ho, Hn, Ht, !bind_ok. cbv zeta. fold od nd t.
  rewrite (proj2 (Z.eqb_neq _ _) (ri_nonnull _ _ _ _ I Hti)).
  rewrite (lookup_child_spec s ch nd ndi name I Hnd), bind_ok.
  case_decide as Hf; [rewrite Hf|by rewrite (proj2 (Z.eqb_neq _ _) Hf)].
  cbn [negb Z.eqb]. rewrite (rename_unlink_spec s ch od odi l1 t l2 ti I Hod Hch Hti), bind_ok.
  destruct (push_after_unlink s ch od odi l1 t l2 ti nd ndi I Hod Hch Hti Hnd Hdir)
    as (ndi1 & ti1 & Hnd1 & Ht1 & _ & Hpar & Hsame & I2 & K). set (m := unlink_map _ _ _ _) in *.
  rewrite (rename_link (with_inodes s m) od nd t ndi1 ti1 Hnd1 Ht1 Hpar), bind_ok. cbn [inodes with_inodes].
  set (s2 := with_inodes s (push_map m nd t (r_children ndi1))) in *.
  assert (exists ti2, inodes s2 !! t = Some ti2 /\ r_parent ti2 = nd /\ same_data ti2 ti) as (ti2 & Ht2 & Hp2 & Hs2).
  { unfold s2, push_map. cbn. destruct (decide (t = nd)) as [<-|].
    - rewrite !lookup_alter_eq, Ht1. by eexists.
    - rewrite lookup_alter_ne, lookup_alter_eq, Ht1 by done. by eexists. }
  change (with_inodes (with_inodes s m) (push_map m nd t (r_children ndi1))) with s2.
  rewrite (upd_inode_ok _ t _ ti2 Ht2), bind_ok, copy_name_valid by done.
  eexists. split; [done|]. split; [|  | |done|done].
  - cbv zeta. by apply (inv_set_name s2).
  - eexists. split; [apply lookup_insert_eq|]. done.
  - intros q i Hq Hi. destruct (K q i Hq Hi) as (i' & ? & ? & ?). exists i'. split; [|done].
    cbn. by rewrite lookup_insert_ne.
Qed.
(** ** Looking up and mounting *)

(** The VFS inode that a lookup makes. *)
Definition vnode_of (t : Z) (c : ramfs_inode) : vinode :=
  VInode (r_ino c) (r_mode c) (r_size c) (Some ramfs_inode_ops)
    (Some (if S_ISDIR (r_mode c) then ramfs_dir_ops else ramfs_file_ops)) t.

Lemma ramfs_lookup_spec s ch dir v di name : ram_inv F s ch -> get_vnode s dir = Ok v ->
  inodes s !! i_private v = Some di ->
  let t := first_named s name (ch (i_private v)) in
  exists r s', ramfs_lookup s dir name = Ok (r, s') /\ ram_inv F s' ch /\
    inodes s' = inodes s /\ bufs s' = bufs s /\ root_vnode s' = root_vnode s /\ sb_root s' = sb_root s /\
    (forall q w, vnodes s !! q = Some w -> vnodes s' !! q = Some w) /\ spent 1 s s' /\
    (r = inull /\ (t = 0 \/ has_room 1 s = false) \/
     exists p c, t <> 0 /\ r = Obj p /\ p <> 0 /\ inodes s !! t = Some c /\
     vnodes s' !! p = Some (vnode_of t c)).
Proof using Type*.
  intros I Hv Hd t. unfold ramfs_lookup. rewrite Hv, bind_ok.
  rewrite (lookup_child_spec s ch _ di name I Hd), bind_ok. fold t.
  destruct (Z.eqb_spec t 0) as [E|E]; [exists inull, s; do 7 (split; [done|]); split; [apply spends_refl|left]; by split; [|left]|].
  destruct (first_named_some s ch _ name t I eq_refl E) as (Hin & ti & Ht & _).
  rewrite (get_inode_ok _ _ _ Ht), bind_ok.
  match goal with |- context [new_vnode s ?v] => set (w := v) end.
  destruct (new_vnode_spec s ch w I) as (r & s' & -> & I' & Hi & Hb & Hr & Hs & Hsp & Hres).
  exists r, s'. split; [done|]. split; [done|]. do 4 (split; [done|]).
  destruct Hres as [(-> & Hvn & Hno)|(p & -> & Hp & Hpv & _ & Hvn)]; rewrite Hvn.
  - split; [done|]. split; [done|]. left. split; [done|by right].
  - split; [intros q x Hq; rewrite lookup_insert_ne; [done|congruence]|]. split; [done|]. right. exists p, ti.
    rewrite lookup_insert_eq. done.
Qed.

Lemma inv_empty s : a_inv (heap s) -> inodes s = ∅ -> vnodes s = ∅ -> ram_inv ∅ s (fun _ => []).
Proof using Type.
  intros Hh Hi Hv. split; rewrite ?Hi, ?Hv; try done; intros *;
    rewrite ?lookup_empty; try done.
  by intros ?%elem_of_nil.
Qed.

Lemma ramfs_mount_spec s ch : ram_inv F s ch ->
  exists ok s', ramfs_mount s = Ok (ok, s') /\ ram_inv F s' ch /\ vnodes s' = vnodes s /\ bufs s' = bufs s /\
    (ok = false -> inodes s' = inodes s /\ root_vnode s' = root_vnode s /\ has_room 1 s = false) /\
    (ok = true -> i_op (root_vnode s') = Some ramfs_inode_ops /\ exists root i, sb_root s' = root /\ root <> 0 /\ inodes s' = <[root := i]> (inodes s) /\
       inodes s !! root = None /\ S_ISDIR (r_mode i) = true /\ ch root = [] /\
       i_private (root_vnode s') = root /\ r_parent i = 0).
Proof using Type*.
  intros I. unfold ramfs_mount.
  destruct (alloc_inode_spec (with_sb s (sb_root s) 1 0) ch (Z.lor S_IFDIR 0x1ED) [] (inv_sb _ _ _ _ _ I))
    as (p & s1 & -> & I1 & Hb & Hv & Hrv & Hrt & _ & Hp). rewrite bind_ok. cbv beta iota zeta.
  destruct Hp as [(-> & Hi & Hpoor)|(Hp & Hf & Hiso & Hch & Hfv & Hi)].
  - exists false, (with_sb s1 0 (next_ino s1) (inode_count s1)). split; [done|]. split; [by apply inv_sb|done].
  - rewrite (proj2 (Z.eqb_neq _ _) Hp).
    rewrite (get_inode_ok _ p (new_inode (with_sb s (sb_root s) 1 0) (Z.lor S_IFDIR 0x1ED) []))
      by (cbn; rewrite Hi; apply lookup_insert_eq).
    rewrite bind_ok. eexists true, _. split; [done|]. split.
    + destruct I1. by split.
    + do 3 (split; [done|]). intros _. split; [done|]. exists p. eexists. do 2 (split; [done|]). split; [exact Hi|]. done.
Qed.
End ramfs_dir.
Arguments linked {A H} F s s' ch d c mode name.
Arguments orphaned {A H} F s s' ch c mode name.
Arguments unlinked {A H} F s s' ch d l1 t l2 ti.
Arguments renamed {A H} F s s' ch od l1 t l2 ti nd name.
