(* ===== verification/RamfsTheorems.v ===== *)
(** * The RAM file system: properties *)
From S2P Require Import Prelude DList AllocSpec Kmalloc KmallocSpec Ramfs RamfsInv RamfsOps RamfsData RamfsDir.
#[local] Open Scope Z_scope.

(** ** A concrete file system, on the kernel heap *)

Definition empty_vnode : vinode := VInode 0 0 0 None None 0.
Definition blank_fs : ramfs Kmalloc.heap := Ramfs (boot_heap (2 ^ 30)) ∅ ∅ empty_vnode ∅ 0 0 0.
Definition state_of {B} (o : outcome (B * ramfs Kmalloc.heap)) : ramfs Kmalloc.heap := match o with Ok (_, s) => s | _ => blank_fs end.

(** Mounted, with one file "f" in the root. *)
Definition mounted_fs : ramfs Kmalloc.heap := state_of (ramfs_mount blank_fs).
Definition name_f : list Z := [102].
Definition one_file_fs : ramfs Kmalloc.heap := state_of (ramfs_create mounted_fs Root name_f 0x1A4).
Definition root_ino : Z := 0x42000020.
Definition file_ino : Z := 0x420001A0.


Lemma blank_inv : ram_inv ∅ blank_fs (fun _ => []).
Proof. by apply inv_empty; [apply boot_heap_inv|..]. Qed.

Lemma mounted_root : inodes mounted_fs !! root_ino = Some (RInode 1 0x41ED 0 0 0 0 0 0 0 0 []).
Proof. vm_compute. reflexivity. Qed.

Lemma mounted_vnode : get_vnode mounted_fs Root = Ok (VInode 1 0x41ED 0 (Some ramfs_inode_ops) (Some ramfs_dir_ops) root_ino).
Proof. vm_compute. reflexivity. Qed.

Lemma state_of_ok {B} (b : B) (s t : ramfs Kmalloc.heap) (o : outcome (B * ramfs Kmalloc.heap)) :
  o = Ok (b, s) -> state_of o = t -> s = t.
Proof. intros ->. exact id. Qed.

Lemma mounted_inv : ram_inv ∅ mounted_fs (fun _ => []).
Proof.
  destruct (ramfs_mount_spec blank_fs _ blank_inv) as (ok & s' & E & I & _).
  rewrite <- (state_of_ok _ _ mounted_fs _ E eq_refl). exact I.
Qed.

Definition file_vnode : vinode := VInode 2 0x81A4 0 (Some ramfs_inode_ops) (Some ramfs_file_ops) file_ino.
Definition file_vref : iref := Obj 0x42000320.
Definition file_inode : ramfs_inode := RInode 2 0x81A4 0 0 0 0 0 root_ino 0 0 name_f.
Definition root_inode : ramfs_inode := RInode 1 0x41ED 0 0 0 0 0 0 file_ino 0 [].
Definition one_file_tree : Z -> list Z := <[root_ino := [file_ino]]> (fun _ => []).

Definition result_of {B} (o : outcome (B * ramfs Kmalloc.heap)) : option B := match o with Ok (b, _) => Some b | _ => None end.

Lemma one_file_eq : result_of (ramfs_create mounted_fs Root name_f 0x1A4) = Some (0, file_vref).
Proof. vm_compute. reflexivity. Qed.

Lemma one_file_root : inodes one_file_fs !! root_ino = Some root_inode.
Proof. vm_compute. reflexivity. Qed.

Lemma one_file_file : inodes one_file_fs !! file_ino = Some file_inode.
Proof. vm_compute. reflexivity. Qed.

Lemma one_file_root_vnode :
  get_vnode one_file_fs Root = Ok (VInode 1 0x41ED 0 (Some ramfs_inode_ops) (Some ramfs_dir_ops) root_ino).
Proof. vm_compute. reflexivity. Qed.

Lemma one_file_vnode : get_vnode one_file_fs file_vref = Ok file_vnode.
Proof. vm_compute. reflexivity. Qed.

Lemma name_f_valid : valid_name name_f.
Proof. split; [by repeat constructor|done]. Qed.

Lemma one_file_inv : ram_inv ∅ one_file_fs one_file_tree.
Proof.
  destruct (make_spec mounted_fs (fun _ => []) Root _ _ name_f (Z.lor S_IFREG 0x1A4) ramfs_file_ops mounted_inv
    mounted_vnode mounted_root eq_refl name_f_valid) as [(s' & E' & _)|(c & s' & L & _ & _ & E')].
  - exfalso. pose proof one_file_eq as E. unfold ramfs_create in E. rewrite E' in E. discriminate E.
  - assert (s' = one_file_fs) as Es.
    { destruct E' as [[E' _]|(p & E' & _)]; exact (state_of_ok _ _ one_file_fs _ E' eq_refl). }
    pose proof (ln_inv _ _ _ _ _ _ _ L) as I. cbn [i_private] in I. rewrite Es in I. clear L E' Es.
    pose proof (ri_chain _ _ I root_ino root_inode one_file_root) as Hc.
    rewrite fn_lookup_insert in Hc. destruct Hc as (Hc & _). cbn [r_children root_inode] in Hc.
    rewrite Hc in I. exact I.
Qed.

(** ** Properties *)

Section properties.
  Context {A : Type} `{AllocatorLaws A} {F : gset Z}.
  Implicit Types (s : ramfs A) (ch : Z -> list Z).

(** Reading a file at a position returns exactly the bytes of the file from
    there on, cut at the requested count and at the end of the file, and moves
    the position by what was read; it changes nothing and never leaves the buffer. *)
Theorem ramfs_read_correct s ch p i count pos (Hinv : ram_inv F s ch) (Hp : inodes s !! p = Some i)
    (Hpos : 0 <= pos) (Hc : 0 <= count) :
  let bs := take (Z.to_nat count) (drop (Z.to_nat pos) (file_bytes s i)) in
  ramfs_read s p count pos = Ok (bs, pos + Z.of_nat (length bs)).
Proof using Type*. exact (read_spec s ch p i count pos Hinv Hp Hpos Hc). Qed.

(** Writing either fails with ENOMEM, changing no file and not the position,
    or stores all the bytes: the file is then its old bytes with the buffer
    spliced in at the position, the rest of the old bytes behind it, the size
    grows to the end of the write, and no other file changes.  The heap and the
    tree stay well formed and no store leaves a buffer. *)
Theorem ramfs_write_correct s ch p i buf pos junk (n := pos + Z.of_nat (length buf))
    (Hinv : ram_inv F s ch) (Hp : inodes s !! p = Some i) (Hpos : 0 <= pos) (Hmax : n < 2 ^ 63 - 4096)
    (Hjunk : r_cap i < n -> Z.of_nat (length junk) = grown_cap n) :
  exists r pos' s', ramfs_write s p buf pos junk = Ok (r, pos', s') /\ ram_inv F s' ch /\ others_same s s' p /\
    ((r = - ENOMEM /\ pos' = pos /\ inodes s' = inodes s /\ bufs s' = bufs s) \/
     (r = Z.of_nat (length buf) /\ pos' = n /\ exists i', inodes s' !! p = Some i' /\
        r_size i' = Z.max (r_size i) n /\ r_name i' = r_name i /\
        file_bytes s' i' = spliced (file_bytes s i) (tail_after s i n junk) buf (Z.to_nat pos) /\
        (pos <= r_size i -> file_bytes s' i' =
           take (Z.to_nat pos) (file_bytes s i) ++ buf ++ drop (Z.to_nat n) (file_bytes s i)))).
Proof using Type*.
  destruct (write_spec s ch p i buf pos junk Hinv Hp Hpos Hmax Hjunk) as [(s' & E & I & Hu)|(s' & E & W)];
    do 3 eexists; (split; [exact E|]).
  - split; [done|]. destruct Hu as (Hi & Hb & _). split; [|by left].
    intros q j _ Hj. unfold file_bytes, raw. by rewrite Hi, Hb.
  - split; [apply W|]. split; [apply W|]. right. do 2 (split; [done|]).
    destruct (wr_inode _ _ _ _ _ _ _ _ W) as (i' & Hi' & Hsz & Hn & _ & _ & Hf).
    exists i'. do 4 (split; [done|]). intros Hle. rewrite Hf. unfold spliced.
    pose proof (file_bytes_length s ch p i Hinv Hp). pose proof (ri_size _ _ Hinv p i Hp).
    replace (Z.to_nat pos - length (file_bytes s i))%nat with 0%nat by lia. rewrite take_0. cbn [app].
    by replace (Z.to_nat n) with (Z.to_nat pos + length buf)%nat by (unfold n; lia).
Qed.

(** A write behind the end of an empty file does not clear the gap: reading the
    gap back afterwards returns what the fresh heap block happened to hold. *)
Theorem ramfs_hole_leaks s ch p i buf pos junk s' (n := pos + Z.of_nat (length buf))
    (Hinv : ram_inv F s ch) (Hp : inodes s !! p = Some i) (Hempty : r_data i = 0) (Hpos : 0 <= pos)
    (Hmax : 0 < n < 2 ^ 63 - 4096) (Hjunk : Z.of_nat (length junk) = grown_cap n)
    (Hw : ramfs_write s p buf pos junk = Ok (Z.of_nat (length buf), n, s')) :
  ramfs_read s' p pos 0 = Ok (take (Z.to_nat pos) junk, pos).
Proof using Type*.
  destruct (write_spec s ch p i buf pos junk Hinv Hp Hpos (proj2 Hmax) (fun _ => Hjunk)) as [(t & E & _)|(t & E & W)].
  { rewrite E in Hw. injection Hw as Hl _ _. unfold ENOMEM in *. lia. }
  rewrite E in Hw. injection Hw as ->.
  destruct (wr_inode _ _ _ _ _ _ _ _ W) as (i' & Hi' & _ & _ & _ & _ & Hf).
  rewrite (read_spec s' ch p i' pos 0 (wr_inv _ _ _ _ _ _ _ _ W) Hi' ltac:(lia) Hpos).
  pose proof (ri_size _ _ Hinv p i Hp) as Hsz. rewrite (ri_nodata _ _ Hinv p i Hp Hempty) in Hsz.
  assert (file_bytes s i = []) as E0. { unfold file_bytes, raw. rewrite Hempty. apply take_nil. }
  rewrite Hf, E0. unfold spliced, tail_after. rewrite (ri_nodata _ _ Hinv p i Hp Hempty).
  assert (r_size i = 0) as -> by lia. fold n. rewrite (proj2 (Z.ltb_lt _ _) (proj1 Hmax)).
  rewrite take_nil, drop_nil, app_nil_r, Nat.sub_0_r. cbn [app]. rewrite drop_0. cbn [Z.to_nat]. rewrite drop_0.
  pose proof (grown_cap_ge n ltac:(lia)). assert (length (take (Z.to_nat pos) junk) = Z.to_nat pos) as Hl.
  { rewrite length_take. unfold n in *. lia. }
  rewrite take_app_length' by done. rewrite Hl. f_equal. f_equal. lia.
Qed.

(** Creating a file or a directory with a valid name in a directory: on success
    the new dentry's inode stands for a fresh, empty inode of the requested type,
    linked at the front of the directory, and looking the name up in the directory
    finds it; every other inode keeps its name, data and type.  On failure,
    which does not happen while the heap can serve two more objects, the result is
    ENOMEM, and either nothing changed or, when the VFS inode could not
    be allocated, the new inode has been left linked in the directory. *)
Theorem ramfs_create_lookup s ch dir v di name mode (Hinv : ram_inv F s ch) (Hv : get_vnode s dir = Ok v)
    (Hd : inodes s !! i_private v = Some di) (Hdir : S_ISDIR (r_mode di) = true) (Hn : valid_name name)
    (d := i_private v) :
  exists e r s', ramfs_create s dir name mode = Ok (e, r, s') /\
    ((e = - ENOMEM /\ r = inull /\ has_room 2 s = false /\ ram_inv F s' ch /\ unchanged s s') \/
     exists c, linked F s s' ch d c (Z.lor S_IFREG mode) name /\ c <> 0 /\
       ramfs_lookup_child s' d name = Ok c /\
       ((e = - ENOMEM /\ r = inull /\ has_room 2 s = false) \/
        (e = 0 /\ exists w, get_vnode s' r = Ok w /\ i_private w = c /\ i_fop w = Some ramfs_file_ops))).
Proof using Type*.
  unfold ramfs_create.
  destruct (make_spec s ch dir v di name (Z.lor S_IFREG mode) ramfs_file_ops Hinv Hv Hd Hdir Hn)
    as [(s' & E & I & U & Hpoor & _)|(c & s' & L & Hc & _ & E)].
  { exists (- ENOMEM), inull, s'. split; [done|]. by left. }
  assert (ramfs_lookup_child s' d name = Ok c) as Hl.
  { assert (d <> c) as Hdc by (intros E'; pose proof (ln_fresh _ _ _ _ _ _ _ L); unfold d in *; congruence).
    destruct (ln_kept _ _ _ _ _ _ _ L d di Hdc Hd) as (di' & Hd' & _).
    rewrite (lookup_child_spec _ _ d di' name (ln_inv _ _ _ _ _ _ _ L) Hd').
    f_equal. exact (linked_lookup _ _ _ _ _ _ _ L Hc). }
  destruct E as [[E Hpoor]|(p & E & Hp)]; do 3 eexists; (split; [exact E|]); right; exists c; do 3 (split; [done|]).
  - by left.
  - right. split; [done|]. eexists. cbn [get_vnode]. rewrite Hp. done.
Qed.

(** C13. Unlinking by name: ENOENT when the directory has no such name and EISDIR for
    a directory, with nothing changed; otherwise the first child of that name leaves
    the directory, and its inode and its data are given back to the heap, while
    every other inode keeps its name, data and type.  After it, a read through
    a file that still had the inode open touches freed memory. *)
Theorem ramfs_unlink_correct s ch dir v di name (Hinv : ram_inv F s ch) (Hv : get_vnode s dir = Ok v)
    (Hd : inodes s !! i_private v = Some di) (d := i_private v) (t := first_named s name (ch d)) :
  (t = 0 -> ramfs_unlink s dir name = Ok (- ENOENT, s)) /\
  (t <> 0 -> exists l1 l2 ti, ch d = l1 ++ t :: l2 /\ inodes s !! t = Some ti /\ r_name ti = name /\
     first_named s name l1 = 0 /\
     (S_ISDIR (r_mode ti) = true -> ramfs_unlink s dir name = Ok (- EISDIR, s)) /\
     (S_ISDIR (r_mode ti) = false -> exists s', ramfs_unlink s dir name = Ok (0, s') /\
        ram_inv F s' (<[d := l1 ++ l2]> ch) /\ kept s s' t /\
        ~ live s' t /\ (r_data ti <> 0 -> ~ live s' (r_data ti)) /\
        forall count pos, ramfs_read s' t count pos = Fault)).
Proof using Type*.
  destruct (ramfs_unlink_spec s ch dir v di name Hinv Hv Hd) as [[Ht E]|(l1 & l2 & ti & Ht & Hch & Hti & Hn & Hl1 & E)];
    (split; [done|]); [done|].
  intros _. exists l1, l2, ti. do 4 (split; [done|]). destruct (S_ISDIR (r_mode ti)); [done|]. split; [done|].
  intros _. destruct E as (s' & E & U). exists s'. split; [done|]. split; [apply U|]. split; [apply U|].
  split; [apply U|]. split; [apply U|]. intros count pos. unfold ramfs_read, get_inode.
  rewrite (proj2 (Z.eqb_neq t 0) Ht). pose proof (un_gone _ _ _ _ _ _ _ _ U : inodes s' !! t = None) as Hg.
  by rewrite Hg.
Qed.

(** Removing a directory by name: ENOENT, ENOTDIR or ENOTEMPTY, with nothing
    changed, when there is no such name, when it is a file, or when it has children;
    otherwise it leaves its parent and is freed, and nothing else changes. *)
Theorem ramfs_rmdir_correct s ch dir v di name (Hinv : ram_inv F s ch) (Hv : get_vnode s dir = Ok v)
    (Hd : inodes s !! i_private v = Some di) (d := i_private v) (t := first_named s name (ch d)) :
  (t = 0 -> ramfs_rmdir s dir name = Ok (- ENOENT, s)) /\
  (t <> 0 -> exists l1 l2 ti, ch d = l1 ++ t :: l2 /\ inodes s !! t = Some ti /\ r_name ti = name /\
     (S_ISDIR (r_mode ti) = false -> ramfs_rmdir s dir name = Ok (- ENOTDIR, s)) /\
     (S_ISDIR (r_mode ti) = true -> ch t <> [] -> ramfs_rmdir s dir name = Ok (- ENOTEMPTY, s)) /\
     (S_ISDIR (r_mode ti) = true -> ch t = [] -> exists s', ramfs_rmdir s dir name = Ok (0, s') /\
        ram_inv F s' (<[d := l1 ++ l2]> ch) /\ kept s s' t /\ inodes s' !! t = None /\ ~ live s' t)).
Proof using Type*.
  destruct (ramfs_rmdir_spec s ch dir v di name Hinv Hv Hd) as [[Ht E]|(l1 & l2 & ti & Ht & Hch & Hti & Hn & Hl1 & E)];
    (split; [done|]); [done|].
  intros _. exists l1, l2, ti. do 3 (split; [done|]). destruct (S_ISDIR (r_mode ti)); cbn [negb] in E; [|done].
  split; [done|]. case_decide as Hc.
  - split; [done|]. intros _ _. destruct E as (s' & E & U). exists s'. split; [done|].
    split; [exact (un_inv _ _ _ _ _ _ _ _ U)|]. split; [exact (un_kept _ _ _ _ _ _ _ _ U)|].
    split; [exact (un_gone _ _ _ _ _ _ _ _ U) | exact (proj1 (un_freed _ _ _ _ _ _ _ _ U))].
  - split; [done|]. intros _ ?. done.
Qed.

(** C14. Renaming moves an inode to the front of the new directory under the new name,
    with its data and type, and changes no other inode; when the new directory
    already has the name it fails with EEXIST and changes nothing.  Nothing stops a
    directory from being moved into itself: the move then takes it, with
    everything below it, out of the tree. *)
Theorem ramfs_rename_correct s ch old_dir old_inode new_dir vo vn vt odi ndi l1 l2 ti name
    (od := i_private vo) (nd := i_private vn) (t := i_private vt)
    (Hinv : ram_inv F s ch) (Ho : get_vnode s old_dir = Ok vo) (Hn : get_vnode s new_dir = Ok vn)
    (Ht : get_vnode s old_inode = Ok vt) (Hod : inodes s !! od = Some odi) (Hch : ch od = l1 ++ t :: l2)
    (Hti : inodes s !! t = Some ti) (Hnd : inodes s !! nd = Some ndi) (Hdir : S_ISDIR (r_mode ndi) = true)
    (Hname : valid_name name) :
  (first_named s name (ch nd) <> 0 -> ramfs_rename s old_dir old_inode new_dir name = Ok (- EEXIST, s)) /\
  (first_named s name (ch nd) = 0 -> exists s', ramfs_rename s old_dir old_inode new_dir name = Ok (0, s') /\
     renamed F s s' ch od l1 t l2 ti nd name /\
     (nd <> od -> ramfs_lookup_child s' nd name = Ok t) /\
     (nd = t -> nd <> od -> let ch1 := <[od := l1 ++ l2]> ch in
        ram_inv F s' (<[t := t :: ch1 t]> ch1) /\ forall q, q <> t -> t ∉ (<[t := t :: ch1 t]> ch1) q)).
Proof using Type*.
  pose proof (ramfs_rename_spec s ch old_dir old_inode new_dir vo vn vt odi ndi l1 l2 ti name
    Hinv Ho Hn Ht Hod Hch Hti Hnd Hdir Hname) as R. fold od nd t in R.
  split; intros Hf; case_decide; try done. destruct R as (s' & E & R). exists s'. split; [done|].
  split; [done|]. pose proof (rn_inv _ _ _ _ _ _ _ _ _ _ R) as I. cbv zeta in I.
  destruct (rn_inode _ _ _ _ _ _ _ _ _ _ R) as (ti' & Hti' & Hnm & Hpar & _). split.
  - intros _. assert (exists ndi', inodes s' !! nd = Some ndi') as (ndi' & Hnd').
    { destruct (decide (nd = t)) as [->|Hne]; [eauto|].
      destruct (rn_kept _ _ _ _ _ _ _ _ _ _ R nd ndi Hne Hnd) as (? & ? & _). eauto. }
    rewrite (lookup_child_spec s' _ nd ndi' name I Hnd'), fn_lookup_insert. unfold first_named. simpl.
    by rewrite Hti', bool_decide_true.
  - intros E1 Hne. cbv zeta. rewrite E1 in I. split; [done|]. intros q Hq Hin. apply Hq.
    destruct (ri_parent _ _ I q t Hin) as (c & Hc & <-). congruence.
Qed.
End properties.

(** ** The properties on the concrete file system *)

Definition junk_page : list Z := replicate 4096 9.
Definition written_fs : ramfs Kmalloc.heap := state_of (ramfs_write one_file_fs file_ino [1; 2; 3] 0 junk_page).

Lemma written_res : result_of (ramfs_write one_file_fs file_ino [1; 2; 3] 0 junk_page) = Some (3, 3).
Proof. vm_compute. reflexivity. Qed.

Lemma written_inv : ram_inv ∅ written_fs one_file_tree.
Proof.
  destruct (write_spec one_file_fs one_file_tree file_ino file_inode [1; 2; 3] 0 junk_page one_file_inv
    one_file_file ltac:(lia) ltac:(simpl; lia) ltac:(reflexivity)) as [(s' & E & _)|(s' & E & W)].
  - exfalso. pose proof written_res as R. rewrite E in R. discriminate R.
  - rewrite <- (state_of_ok _ _ written_fs _ E eq_refl). apply W.
Qed.

Definition written_inode : ramfs_inode := RInode 2 0x81A4 0 0 3 0x420003E0 4096 root_ino 0 0 name_f.

Lemma written_file : inodes written_fs !! file_ino = Some written_inode.
Proof. vm_compute. reflexivity. Qed.

Lemma ramfs_read_correct_witness : ramfs_read written_fs file_ino 10 1 = Ok ([2; 3], 3).
Proof.
  pose proof (ramfs_read_correct written_fs one_file_tree file_ino written_inode 10 1 written_inv written_file
    ltac:(lia) ltac:(lia)) as R. cbv zeta in R.
  assert (take (Z.to_nat 10) (drop (Z.to_nat 1) (file_bytes written_fs written_inode)) = [2; 3]) as E
    by (vm_compute; reflexivity).
  rewrite E in R. exact R.
Defined.

Lemma ramfs_write_correct_witness : exists r pos' s', ramfs_write written_fs file_ino [7; 8] 2 [] = Ok (r, pos', s') /\
  ram_inv ∅ s' one_file_tree.
Proof.
  destruct (ramfs_write_correct written_fs one_file_tree file_ino written_inode [7; 8] 2 [] written_inv written_file
    ltac:(lia) ltac:(simpl; lia) ltac:(simpl; lia)) as (r & pos' & s' & E & I & _).
  exists r, pos', s'. split; [exact E | exact I].
Defined.

Lemma ramfs_hole_leaks_witness :
  ramfs_read (state_of (ramfs_write one_file_fs file_ino [5] 4 junk_page)) file_ino 4 0 = Ok ([9; 9; 9; 9], 4).
Proof.
  assert (result_of (ramfs_write one_file_fs file_ino [5] 4 junk_page) = Some (1, 5)) as R by (vm_compute; reflexivity).
  destruct (ramfs_write one_file_fs file_ino [5] 4 junk_page) as [[[r q] s']| |] eqn:E; [|discriminate R..].
  injection R as -> ->. cbn [state_of].
  exact (ramfs_hole_leaks one_file_fs one_file_tree file_ino file_inode [5] 4 junk_page s' one_file_inv one_file_file
    eq_refl ltac:(lia) ltac:(simpl; lia) eq_refl E).
Defined.

Lemma ramfs_create_lookup_witness : exists e r s', ramfs_create mounted_fs Root name_f 0x1A4 = Ok (e, r, s') /\
  (e = 0 -> exists c, c <> 0 /\ ramfs_lookup_child s' root_ino name_f = Ok c).
Proof.
  destruct (ramfs_create_lookup mounted_fs (fun _ => []) Root _ _ name_f 0x1A4 mounted_inv mounted_vnode mounted_root
    eq_refl name_f_valid) as (e & r & s' & E & Hr).
  exists e, r, s'. split; [exact E|]. intros ->. destruct Hr as [(Hr & _)|(c & _ & Hc & Hl & _)].
  - discriminate Hr.
  - exists c. split; [exact Hc | exact Hl].
Defined.

Lemma one_file_found : first_named one_file_fs name_f (one_file_tree root_ino) = file_ino.
Proof. vm_compute. reflexivity. Qed.

Lemma ramfs_unlink_correct_witness : exists s', ramfs_unlink one_file_fs Root name_f = Ok (0, s') /\ ~ live s' file_ino.
Proof.
  destruct (ramfs_unlink_correct one_file_fs one_file_tree Root _ _ name_f one_file_inv one_file_root_vnode
    one_file_root) as [_ U].
  cbn [i_private] in U. rewrite one_file_found in U.
  destruct (U ltac:(discriminate)) as (l1 & l2 & ti & _ & Hti & _ & _ & _ & U').
  rewrite one_file_file in Hti. injection Hti as <-.
  destruct (U' eq_refl) as (s' & E & _ & _ & Hl & _). exists s'. split; [exact E | exact Hl].
Defined.

Lemma ramfs_rmdir_correct_witness : ramfs_rmdir one_file_fs Root name_f = Ok (- ENOTDIR, one_file_fs).
Proof.
  destruct (ramfs_rmdir_correct one_file_fs one_file_tree Root _ _ name_f one_file_inv one_file_root_vnode
    one_file_root) as [_ U].
  cbn [i_private] in U. rewrite one_file_found in U.
  destruct (U ltac:(discriminate)) as (l1 & l2 & ti & _ & Hti & _ & U' & _).
  rewrite one_file_file in Hti. injection Hti as <-. exact (U' eq_refl).
Defined.

Lemma ramfs_rename_correct_witness : exists s', ramfs_rename one_file_fs Root file_vref Root [103] = Ok (0, s') /\
  exists ti, inodes s' !! file_ino = Some ti /\ r_name ti = [103].
Proof.
  destruct (ramfs_rename_correct one_file_fs one_file_tree Root file_vref Root _ _ _ root_inode root_inode [] []
    file_inode [103] one_file_inv one_file_root_vnode one_file_root_vnode one_file_vnode one_file_root eq_refl
    one_file_file one_file_root eq_refl ltac:(split; [by repeat constructor | done])) as [_ R].
  destruct (R ltac:(vm_compute; reflexivity)) as (s' & E & Rn & _).
  exists s'. split; [exact E|]. destruct (rn_inode _ _ _ _ _ _ _ _ _ _ Rn) as (ti & Hti & Hn & _).
  exists ti. split; [exact Hti | exact Hn].
Defined.
