(* ===== verification/Vfs.v ===== *)
(** * The virtual file system switch (src/kernel/fs/vfs.c): state and operations

    Dentries and open files are objects of the same heap as the file system's,
    found by address; [RootD] is the static root dentry of the mounted file
    system.  A path is the list of characters of a C string.  A null file or
    buffer pointer is the address 0. *)
From S2P Require Import Prelude AllocSpec Ramfs.
#[local] Open Scope Z_scope.

Definition NAME_MAX : nat := 255.
Definition MAX_MOUNTS : Z := 64.
Definition O_CREAT : Z := 0x40.
Definition SEEK_SET : Z := 0.
Definition SEEK_CUR : Z := 1.
Definition SEEK_END : Z := 2.
(** sizeof(struct dentry), sizeof(struct file). *)
Definition SIZEOF_DENTRY : Z := 304.
Definition SIZEOF_FILE : Z := 48.
Definition SLASH : Z := 47.

(** [struct dentry *], not null. *)
Inductive dref := RootD | DObj (a : Z).

Record dentry := Dentry { d_name : list Z; d_inode : iref; d_parent : option dref }.
Definition root_dentry_obj : dentry := Dentry [SLASH] Root (Some RootD).

Record file := File {
  f_dentry : option dref; f_op : option file_ops; f_pos : Z; f_flags : Z; f_mode : Z; f_count : Z; private_data : Z
}.
Definition with_pos (f : file) (pos : Z) : file :=
  File (f_dentry f) (f_op f) pos (f_flags f) (f_mode f) (f_count f) (private_data f).
Definition with_private (f : file) (p : Z) : file :=
  File (f_dentry f) (f_op f) (f_pos f) (f_flags f) (f_mode f) (f_count f) p.
Definition with_count (f : file) (c : Z) : file :=
  File (f_dentry f) (f_op f) (f_pos f) (f_flags f) (f_mode f) c (private_data f).

Definition is_null (r : iref) : bool := match r with Obj 0 => true | _ => false end.

(** Which entries the two [struct file_operations] of ramfs.c have. *)
Definition has_read (o : file_ops) : bool := match o with ramfs_file_ops => true | ramfs_dir_ops => false end.
Definition has_write (o : file_ops) : bool := match o with ramfs_file_ops => true | ramfs_dir_ops => false end.
Definition has_readdir (o : file_ops) : bool := match o with ramfs_file_ops => false | ramfs_dir_ops => true end.

(** ** Paths *)

(** [while ( *p == '/') p++]. *)
Fixpoint skip_slashes (p : list Z) : list Z :=
  match p with c :: p' => if c =? SLASH then skip_slashes p' else p | [] => [] end.

(** The next component, of which the first [n] characters are kept, and what follows it. *)
Fixpoint component (n : nat) (p : list Z) : list Z * list Z :=
  match p with
  | [] => ([], [])
  | c :: p' =>
      if c =? SLASH then ([], p)
      else let '(name, rest) := component (pred n) p' in
           (match n with O => [] | S _ => c :: name end, rest)
  end.

(** [path_compare]: the difference of the first characters that differ. *)
Definition path_compare (a b : list Z) : Z :=
  let '(a, b) := skip_common a b in default 0 (head a) - default 0 (head b).

Section vfs.
  Context {A : Type} `{Allocator A}.

(** [struct file_system_type]: its name and its mount function. *)
Record fs_type := FsType { t_name : option (list Z); t_mount : option (ramfs A -> outcome (bool * ramfs A)) }.
Record vfsmount := Mount { mnt_root : dref; mnt_devname : list Z }.

Record vfs := Vfs {
  fs : ramfs A;
  dentries : gmap Z dentry;
  files : gmap Z file;
  file_systems : list fs_type;
  mounts : list (option vfsmount);   (* the first [mount_count] entries of the table *)
  root_dentry : option dref
}.

Definition with_fs (s : vfs) (f : ramfs A) : vfs :=
  Vfs f (dentries s) (files s) (file_systems s) (mounts s) (root_dentry s).
Definition with_dentries (s : vfs) (d : gmap Z dentry) : vfs :=
  Vfs (fs s) d (files s) (file_systems s) (mounts s) (root_dentry s).
Definition with_files (s : vfs) (f : gmap Z file) : vfs :=
  Vfs (fs s) (dentries s) f (file_systems s) (mounts s) (root_dentry s).
Definition with_types (s : vfs) (l : list fs_type) : vfs :=
  Vfs (fs s) (dentries s) (files s) l (mounts s) (root_dentry s).
Definition with_mounts (s : vfs) (l : list (option vfsmount)) (r : option dref) : vfs :=
  Vfs (fs s) (dentries s) (files s) (file_systems s) l r.

Definition get_dentry (s : vfs) (d : dref) : outcome dentry :=
  match d with RootD => Ok root_dentry_obj | DObj a => of_option (dentries s !! a) end.
Definition get_file (s : vfs) (f : Z) : outcome file := of_option (files s !! f).
Definition set_file (s : vfs) (f : Z) (x : file) : vfs := with_files s (<[f := x]> (files s)).

(** ** File system types *)

Fixpoint find_type (l : list fs_type) (name : list Z) : option fs_type :=
  match l with
  | [] => None
  | t :: l =>
      match t_name t with
      | Some n => if names_match n name then Some t else find_type l name
      | None => find_type l name
      end
  end.
Definition find_filesystem (s : vfs) (name : list Z) : option fs_type := find_type (file_systems s) name.

(** The table is cleared, [mount_count] is not. *)
Definition vfs_init (s : vfs) : vfs := with_mounts s (map (fun _ => None) (mounts s)) (root_dentry s).

Definition register_filesystem (s : vfs) (t : option fs_type) : Z * vfs :=
  match t with
  | Some (FsType (Some name) m as t) =>
      match find_filesystem s name with
      | Some _ => (- EBUSY, s)
      | None => (0, with_types s (t :: file_systems s))
      end
  | _ => (- EINVAL, s)
  end.

(** ** Dentries *)

(** A zeroed dentry with a name and a parent: its address, or 0. *)
Definition new_dentry (s : vfs) (name : list Z) (parent : option dref) : outcome (Z * vfs) :=
  r ← a_kzalloc (heap (fs s)) SIZEOF_DENTRY GFP_KERNEL;
  let '(a, h) := r in
  let s := with_fs s (with_heap (fs s) h) in
  if a =? 0 then Ok (0, s) else Ok (a, with_dentries s (<[a := Dentry name inull parent]> (dentries s))).

Definition free_dentry (s : vfs) (a : Z) : outcome vfs :=
  h ← a_kfree (heap (fs s)) a;
  Ok (with_dentries (with_fs s (with_heap (fs s) h)) (delete a (dentries s))).

(** What the file system stores in [d_inode]. *)
Definition set_inode (s : vfs) (a : Z) (r : iref) : outcome vfs :=
  d ← of_option (dentries s !! a);
  Ok (with_dentries s (<[a := Dentry (d_name d) r (d_parent d)]> (dentries s))).

(** [i_op->lookup(inode, child)]. *)
Definition call_lookup (s : vfs) (dir : iref) (child : Z) : outcome vfs :=
  d ← of_option (dentries s !! child);
  r ← ramfs_lookup (fs s) dir (d_name d);
  let '(ino, f) := r in
  set_inode (with_fs s f) child ino.

(** ** Path lookup *)

(** The loop of [vfs_lookup_parent]: the directory and the last component, or null. *)
Fixpoint lookup_parent_loop (fuel : nat) (s : vfs) (curr : dref) (p : list Z)
    : outcome (option (dref * list Z) * vfs) :=
  match fuel with
  | O => NoFuel
  | S fuel =>
      match p with
      | [] => Ok (None, s)
      | _ =>
          let '(name, p) := component NAME_MAX p in
          let p := skip_slashes p in
          match p with
          | [] => Ok (Some (curr, name), s)
          | _ =>
              d ← get_dentry s curr;
              if is_null (d_inode d) then Ok (None, s)
              else
                v ← get_vnode (fs s) (d_inode d);
                match i_op v with
                | None => Ok (None, s)
                | Some _ =>
                    r ← new_dentry s name None;
                    let '(child, s) := r in
                    if child =? 0 then Ok (None, s)
                    else
                      s ← call_lookup s (d_inode d) child;
                      c ← of_option (dentries s !! child);
                      if is_null (d_inode c) then s ← free_dentry s child; Ok (None, s)
                      else lookup_parent_loop fuel s (DObj child) p
                end
          end
      end
  end.

Definition vfs_lookup_parent (s : vfs) (path : list Z) : outcome (option (dref * list Z) * vfs) :=
  match root_dentry s with
  | None => Ok (None, s)
  | Some root =>
      match skip_slashes path with
      | [] => Ok (None, s)
      | p => lookup_parent_loop (S (length p)) s root p
      end
  end.

(** ** Open, create, make a directory *)

Definition new_file (s : vfs) (x : file) : outcome (Z * vfs) :=
  r ← a_kzalloc (heap (fs s)) SIZEOF_FILE GFP_KERNEL;
  let '(f, h) := r in
  let s := with_fs s (with_heap (fs s) h) in
  if f =? 0 then Ok (0, s) else Ok (f, set_file s f x).

(** "Special case for root". *)
Definition open_root (s : vfs) (flags mode : Z) : outcome (Z * vfs) :=
  root ← of_option (root_dentry s);
  d ← get_dentry s root;
  v ← get_vnode (fs s) (d_inode d);
  r ← new_file s (File (Some root) (i_fop v) 0 flags mode 1 (i_private v));
  let '(f, s) := r in
  if f =? 0 then Fault else Ok (f, s).

(** The directory and the name that [vfs_open] uses, or null: the result of
    [vfs_lookup_parent], or the root with the first component of the path. *)
Definition open_parent (s : vfs) (path : list Z) : outcome (option (option dref * list Z) * vfs) :=
  r ← vfs_lookup_parent s path;
  let '(parent, s) := r in
  match parent with
  | Some (d, name) => Ok (Some (Some d, name), s)
  | None =>
      let '(name, rest) := component NAME_MAX (skip_slashes path) in
      match rest with [] => Ok (Some (root_dentry s, name), s) | _ => Ok (None, s) end
  end.

(** [ramfs_open] and [ramfs_release]. *)
Definition ramfs_open (v : vinode) (x : file) : file := with_private x (i_private v).
Definition ramfs_release (x : file) : file := with_private x 0.

(** The end of [vfs_open]: a file for the dentry [child]. *)
Definition open_dentry (s : vfs) (child flags mode : Z) : outcome (Z * vfs) :=
  c ← of_option (dentries s !! child);
  r ← new_file s (File (Some (DObj child)) None 0 flags mode 1 0);
  let '(f, s) := r in
  if f =? 0 then Ok (0, s)
  else
    v ← get_vnode (fs s) (d_inode c);
    let x := File (Some (DObj child)) (i_fop v) 0 flags mode 1 (i_private v) in
    let x := match i_fop v with Some _ => ramfs_open v x | None => x end in
    Ok (f, set_file s f x).

Definition vfs_open (s : vfs) (path : list Z) (flags mode : Z) : outcome (Z * vfs) :=
  if decide (path = [SLASH]) then open_root s flags mode
  else
    r ← open_parent s path;
    let '(target, s) := r in
    match target with
    | None => Ok (0, s)
    | Some (parent, name) =>
        r ← new_dentry s name None;
        let '(child, s) := r in
        if child =? 0 then Fault
        else
          parent ← of_option parent;
          p ← get_dentry s parent;
          s ← (if is_null (d_inode p) then Ok s
               else v ← get_vnode (fs s) (d_inode p);
                    match i_op v with None => Ok s | Some _ => call_lookup s (d_inode p) child end);
          c ← of_option (dentries s !! child);
          if is_null (d_inode c) then
            if Z.land flags O_CREAT =? 0 then s ← free_dentry s child; Ok (0, s)
            else
              v ← get_vnode (fs s) (d_inode p);
              _ ← of_option (i_op v);
              r ← ramfs_create (fs s) (d_inode p) name mode;
              let '(ret, ino, f) := r in
              let s := with_fs s f in
              if negb (ret =? 0) then s ← free_dentry s child; Ok (0, s)
              else s ← set_inode s child ino; open_dentry s child flags mode
          else open_dentry s child flags mode
    end.

(** [vfs_create] and [vfs_mkdir] differ in the operation they call. *)
Definition vfs_make (make : ramfs A -> iref -> list Z -> Z -> outcome (Z * iref * ramfs A))
    (s : vfs) (path : list Z) (mode : Z) : outcome (Z * vfs) :=
  r ← vfs_lookup_parent s path;
  let '(parent, s) := r in
  match parent with
  | None => Ok (- ENOENT, s)
  | Some (parent, name) =>
      r ← new_dentry s name None;
      let '(child, s) := r in
      if child =? 0 then Fault
      else
        p ← get_dentry s parent;
        v ← get_vnode (fs s) (d_inode p);
        match i_op v with
        | None => Ok (- EPERM, s)
        | Some _ =>
            r ← make (fs s) (d_inode p) name mode;
            let '(ret, ino, f) := r in
            s ← set_inode (with_fs s f) child ino;
            Ok (ret, s)
        end
  end.

Definition vfs_create (s : vfs) (path : list Z) (mode : Z) : outcome (Z * vfs) := vfs_make ramfs_create s path mode.
Definition vfs_mkdir (s : vfs) (path : list Z) (mode : Z) : outcome (Z * vfs) := vfs_make ramfs_mkdir s path mode.

(** ** Open files *)

Definition vfs_readdir (s : vfs) (f : Z) : outcome (Z * list dirent) :=
  if f =? 0 then Ok (- EINVAL, [])
  else
    x ← get_file s f;
    match f_op x with
    | Some o => if has_readdir o then ramfs_readdir (fs s) (private_data x) else Ok (- EINVAL, [])
    | None => Ok (- EINVAL, [])
    end.

Definition vfs_close (s : vfs) (f : Z) : outcome (Z * vfs) :=
  if f =? 0 then Ok (- EBADF, s)
  else
    x ← get_file s f;
    x ← (match f_op x, f_dentry x with
         | Some _, Some d => _ ← get_dentry s d; Ok (ramfs_release x)
         | _, _ => Ok x
         end);
    let x := with_count x (f_count x - 1) in
    if f_count x <=? 0 then
      h ← a_kfree (heap (fs s)) f;
      Ok (0, with_files (with_fs s (with_heap (fs s) h)) (delete f (files s)))
    else Ok (0, set_file s f x).

(** The value returned, the bytes stored through [buf] and the state. *)
Definition vfs_read (s : vfs) (f buf count : Z) : outcome (Z * list Z * vfs) :=
  if f =? 0 then Ok (- EBADF, [], s)
  else if buf =? 0 then Ok (- EFAULT, [], s)
  else
    x ← get_file s f;
    match f_op x with
    | Some o =>
        if has_read o then
          r ← ramfs_read (fs s) (private_data x) count (f_pos x);
          let '(bs, pos) := r in
          Ok (Z.of_nat (length bs), bs, set_file s f (with_pos x pos))
        else Ok (- EINVAL, [], s)
    | None => Ok (- EINVAL, [], s)
    end.

(** [buf] is null or the [count] bytes it points to. *)
Definition vfs_write (s : vfs) (f : Z) (buf : option (list Z)) (junk : list Z) : outcome (Z * vfs) :=
  if f =? 0 then Ok (- EBADF, s)
  else
    match buf with
    | None => Ok (- EFAULT, s)
    | Some bytes =>
        x ← get_file s f;
        match f_op x with
        | Some o =>
            if has_write o then
              r ← ramfs_write (fs s) (private_data x) bytes (f_pos x) junk;
              let '(ret, pos, g) := r in
              Ok (ret, set_file (with_fs s g) f (with_pos x pos))
            else Ok (- EINVAL, s)
        | None => Ok (- EINVAL, s)
        end
    end.

(** Addition of two [loff_t]; overflow has no meaning in C. *)
Definition loff_add (a b : Z) : outcome Z :=
  if (- 2 ^ 63 <=? a + b) && (a + b <? 2 ^ 63) then Ok (a + b) else Fault.

(** The inode of an open file, if any. *)
Definition file_inode (s : vfs) (x : file) : outcome iref :=
  match f_dentry x with None => Ok inull | Some d => d ← get_dentry s d; Ok (d_inode d) end.

Definition vfs_lseek (s : vfs) (f offset whence : Z) : outcome (Z * vfs) :=
  if f =? 0 then Ok (- EBADF, s)
  else
    x ← get_file s f;
    ino ← file_inode s x;
    new_pos ← (if whence =? SEEK_SET then Ok (Some offset)
               else if whence =? SEEK_CUR then (p ← loff_add (f_pos x) offset; Ok (Some p))
               else if whence =? SEEK_END then
                 if is_null ino then Ok None
                 else v ← get_vnode (fs s) ino; p ← loff_add (i_size v) offset; Ok (Some p)
               else Ok None);
    match new_pos with
    | None => Ok (- EINVAL, s)
    | Some p => if p <? 0 then Ok (- EINVAL, s) else Ok (p, set_file s f (with_pos x p))
    end.

(** ** Removing and renaming *)

(** The common part of [vfs_rmdir], [vfs_unlink] and [vfs_rename]: a dentry for
    the last component, looked up in its directory. *)
Definition lookup_target (s : vfs) (parent : dref) (name : list Z) : outcome (Z * iref * vfs) :=
  r ← new_dentry s name None;
  let '(child, s) := r in
  if child =? 0 then Ok (0, inull, s)
  else
    p ← get_dentry s parent;
    v ← get_vnode (fs s) (d_inode p);
    s ← (match i_op v with None => Ok s | Some _ => call_lookup s (d_inode p) child end);
    c ← of_option (dentries s !! child);
    Ok (child, d_inode c, s).

(** [vfs_rmdir] wants a directory, [vfs_unlink] anything else. *)
Definition vfs_remove (dir : bool) (s : vfs) (path : list Z) : outcome (Z * vfs) :=
  r ← vfs_lookup_parent s path;
  let '(parent, s) := r in
  match parent with
  | None => Ok (- ENOENT, s)
  | Some (parent, name) =>
      r ← lookup_target s parent name;
      let '(child, ino, s) := r in
      if child =? 0 then Ok (- ENOMEM, s)
      else if is_null ino then s ← free_dentry s child; Ok (- ENOENT, s)
      else
        v ← get_vnode (fs s) ino;
        if negb (Bool.eqb (S_ISDIR (i_mode v)) dir) then
          s ← free_dentry s child; Ok (- (if dir then ENOTDIR else EISDIR), s)
        else
          p ← get_dentry s parent;
          pv ← get_vnode (fs s) (d_inode p);
          match i_op pv with
          | None => s ← free_dentry s child; Ok (- EPERM, s)
          | Some _ =>
              r ← (if dir then ramfs_rmdir else ramfs_unlink) (fs s) (d_inode p) name;
              let '(ret, f) := r in
              s ← free_dentry (with_fs s f) child;
              Ok (ret, s)
          end
  end.

Definition vfs_rmdir (s : vfs) (path : list Z) : outcome (Z * vfs) := vfs_remove true s path.
Definition vfs_unlink (s : vfs) (path : list Z) : outcome (Z * vfs) := vfs_remove false s path.

Definition vfs_rename (s : vfs) (old new : list Z) : outcome (Z * vfs) :=
  r ← vfs_lookup_parent s old;
  let '(old_parent, s) := r in
  match old_parent with
  | None => Ok (- ENOENT, s)
  | Some (old_parent, old_name) =>
      r ← vfs_lookup_parent s new;
      let '(new_parent, s) := r in
      match new_parent with
      | None => Ok (- ENOENT, s)
      | Some (new_parent, new_name) =>
          r ← lookup_target s old_parent old_name;
          let '(old_child, ino, s) := r in
          if old_child =? 0 then Fault
          else if is_null ino then s ← free_dentry s old_child; Ok (- ENOENT, s)
          else
            r ← new_dentry s new_name None;
            let '(new_child, s) := r in
            if new_child =? 0 then Fault
            else
              op ← get_dentry s old_parent;
              np ← get_dentry s new_parent;
              pv ← get_vnode (fs s) (d_inode op);
              match i_op pv with
              | None =>
                  s ← free_dentry s old_child;
                  s ← free_dentry s new_child;
                  Ok (- EPERM, s)
              | Some _ =>
                  r ← ramfs_rename (fs s) (d_inode op) ino (d_inode np) new_name;
                  let '(ret, f) := r in
                  s ← free_dentry (with_fs s f) old_child;
                  s ← free_dentry s new_child;
                  Ok (ret, s)
              end
      end
  end.

(** ** Mounting *)

Definition vfs_mount (s : vfs) (source target fstype : list Z) : outcome (Z * vfs) :=
  match find_filesystem s fstype with
  | None => Ok (- ENODEV, s)
  | Some t =>
      if MAX_MOUNTS <=? Z.of_nat (length (mounts s)) then Ok (- ENOMEM, s)
      else
        match t_mount t with
        | None => Ok (- ENOSYS, s)
        | Some mount =>
            r ← mount (fs s);
            let '(ok, f) := r in
            let s := with_fs s f in
            if negb ok then Ok (- EIO, s)
            else
              let root := if path_compare target [SLASH] =? 0 then Some RootD else root_dentry s in
              Ok (0, with_mounts s (mounts s ++ [Some (Mount RootD (firstn 63 source))]) root)
        end
  end.

Definition vfs_umount (s : vfs) (target : list Z) : Z := - ENOSYS.

(** [ramfs_fs_type]. *)
Definition ramfs_name : list Z := [114; 97; 109; 102; 115].
Definition ramfs_fs_type : fs_type := FsType (Some ramfs_name) (Some ramfs_mount).
Definition ramfs_init (s : vfs) : Z * vfs := register_filesystem s (Some ramfs_fs_type).

End vfs.
Arguments vfs A : clear implicits.
