(* ===== verification/VfsSpec.v ===== *)
(** * The virtual file system switch: invariant and path lookup *)
From S2P Require Import Prelude DList AllocSpec Ramfs RamfsInv RamfsOps RamfsData RamfsDir Vfs.
#[local] Open Scope Z_scope.

(** ** Paths *)

(** The words between the slashes of a path. *)
Fixpoint split_path (p : list Z) : list (list Z) :=
  match p with
  | [] => [[]]
  | c :: p =>
      if c =? SLASH then [] :: split_path p
      else match split_path p with w :: ws => (c :: w) :: ws | [] => [[c]] end
  end.

Definition nonempty (w : list Z) : bool := match w with [] => false | _ => true end.

(** The components of a path, cut at [NAME_MAX] characters. *)
Definition components (p : list Z) : list (list Z) := map (take NAME_MAX) (List.filter nonempty (split_path p)).

Lemma split_path_cons p : exists w ws, split_path p = w :: ws.
Proof. induction p as [|c p (w & ws & IH)]; simpl; [eauto|]. rewrite IH. case_match; eauto. Qed.

Lemma component_spec n p : exists w ws, split_path p = w :: ws /\
  exists rest, component n p = (take n w, rest) /\
    ((rest = [] /\ ws = []) \/ exists r, rest = SLASH :: r /\ ws = split_path r).
Proof.
  revert n. induction p as [|c p IH]; intros n; simpl.
  - exists [], []. split; [done|]. exists []. split; [by destruct n|by left].
  - destruct (Z.eqb_spec c SLASH) as [->|Hc].
    + exists [], (split_path p). split; [done|]. exists (SLASH :: p). split; [by destruct n|right; eauto].
    + destruct (IH (pred n)) as (w & ws & E & rest & Hcomp & Hr). rewrite E, Hcomp.
      exists (c :: w), ws. split; [done|]. exists rest. split; [by destruct n|done].
Qed.

Lemma filter_split_skip p : List.filter nonempty (split_path (skip_slashes p)) = List.filter nonempty (split_path p).
Proof. induction p as [|c p IH]; simpl; [done|]. destruct (c =? SLASH) eqn:E; [by rewrite IH|]. simpl. by rewrite E. Qed.

Lemma components_skip p : components (skip_slashes p) = components p.
Proof. unfold components. by rewrite filter_split_skip. Qed.

(** A path that does not start with a slash. *)
Definition at_name (p : list Z) : Prop := match p with [] => False | c :: _ => c <> SLASH end.

Lemma skip_at_name p : skip_slashes p = [] \/ at_name (skip_slashes p).
Proof.
  induction p as [|c p IH]; simpl; [by left|]. destruct (Z.eqb_spec c SLASH); [done|by right].
Qed.

Lemma at_name_skip p : at_name p -> skip_slashes p = p.
Proof. destruct p as [|c p]; simpl; [done|]. intros Hc. by rewrite (proj2 (Z.eqb_neq _ _) Hc). Qed.

Lemma skip_slashes_length p : (length (skip_slashes p) <= length p)%nat.
Proof. induction p as [|c p IH]; simpl; [lia|]. destruct (c =? SLASH); simpl; lia. Qed.

Lemma component_length n p : (length (snd (component n p)) <= length p)%nat.
Proof.
  revert n. induction p as [|c p IH]; intros n; simpl; [lia|]. destruct (c =? SLASH); simpl; [lia|].
  specialize (IH (pred n)). destruct (component (pred n) p). simpl in *. lia.
Qed.

(** The step of the lookup loop on paths. *)
Lemma component_components p : at_name p -> let '(name, rest) := component NAME_MAX p in
  name <> [] /\ components p = name :: components (skip_slashes rest) /\
  (length (skip_slashes rest) < length p)%nat.
Proof.
  intros Hp. destruct p as [|c p]; [done|]. simpl in Hp.
  destruct (component_spec NAME_MAX (c :: p)) as (w & ws & E & rest & Hc & Hr).
  assert (exists w', w = c :: w') as [w' ->].
  { cbn [split_path] in E. rewrite (proj2 (Z.eqb_neq _ _) Hp) in E. destruct (split_path_cons p) as (v & vs & Ev).
    rewrite Ev in E. injection E as <- _. eauto. }
  assert (length rest <= length p)%nat as Hlen.
  { cbn [component] in Hc. rewrite (proj2 (Z.eqb_neq _ _) Hp) in Hc. pose proof (component_length (pred NAME_MAX) p) as Hl.
    destruct (component (pred NAME_MAX) p) as [n r]. injection Hc as _ <-. exact Hl. }
  rewrite Hc. split; [done|]. split.
  - rewrite components_skip. unfold components. rewrite E.
    destruct Hr as [[-> ->]|(r & -> & ->)]; [done|]. simpl. done.
  - pose proof (skip_slashes_length rest). simpl. lia.
Qed.

Lemma components_nil p : skip_slashes p = [] <-> components p = [].
Proof.
  rewrite <- (components_skip p). split; [by intros ->|].
  destruct (skip_at_name p) as [|Hp]; [done|]. pose proof (component_components _ Hp) as Hc.
  destruct (component NAME_MAX (skip_slashes p)) as [n r]. destruct Hc as (_ & -> & _). done.
Qed.

(** Walking down the directory tree. *)
Fixpoint walk {A} `{Allocator A} (f : ramfs A) (ch : Z -> list Z) (d : Z) (comps : list (list Z)) : option Z :=
  match comps with
  | [] => Some d
  | c :: cs => let t := first_named f c (ch d) in if t =? 0 then None else walk f ch t cs
  end.

Section vfs_spec.
Context {A : Type} `{AllocatorLaws A}.
Implicit Types (s : vfs A) (ch : Z -> list Z) (d a : Z).

(** [r] is the VFS inode of the ramfs inode [d]. *)
Definition stands_for (f : ramfs A) (r : iref) d : Prop :=
  is_null r = false /\ exists v, get_vnode f r = Ok v /\ is_Some (i_op v) /\ i_private v = d.

(** The root dentry's inode is a directory, and in no directory. *)
Record root_ok (rv : vinode) (m : gmap Z ramfs_inode) ch : Prop := {
  ro_op : i_op rv = Some ramfs_inode_ops;
  ro_dir : exists i, m !! i_private rv = Some i /\ S_ISDIR (r_mode i) = true;
  ro_top d : i_private rv ∉ ch d
}.

Lemma root_ok_mono (f f' : ramfs A) ch ch' : root_vnode f' = root_vnode f ->
  (forall i, inodes f !! i_private (root_vnode f) = Some i ->
     exists i', inodes f' !! i_private (root_vnode f) = Some i' /\ r_mode i' = r_mode i) ->
  (forall d, i_private (root_vnode f) ∉ ch' d) -> root_ok (root_vnode f) (inodes f) ch -> root_ok (root_vnode f') (inodes f') ch'.
Proof using Type.
  intros Hr Hi Ht [Hop (i & Hri & Hd) _]. split; rewrite Hr; [done| |done].
  destruct (Hi i Hri) as (i' & Hi' & Hm). exists i'. by rewrite Hm.
Qed.

Lemma root_ok_same (f f' : ramfs A) ch : root_vnode f' = root_vnode f ->
  (forall q i, inodes f !! q = Some i -> exists i', inodes f' !! q = Some i' /\ r_mode i' = r_mode i) ->
  root_ok (root_vnode f) (inodes f) ch -> root_ok (root_vnode f') (inodes f') ch.
Proof using Type. intros Hr Hi Hro. apply (root_ok_mono f _ ch); eauto using ro_top. Qed.

Definition owned s : gset Z := dom (dentries s) ∪ dom (files s).

Record vfs_inv s ch : Prop := {
  vi_ram : ram_inv (owned s) (fs s) ch;
  vi_disj : dom (dentries s) ## dom (files s);
  vi_dentry a x : dentries s !! a = Some x -> is_null (d_inode x) = true \/ exists v, get_vnode (fs s) (d_inode x) = Ok v;
  vi_file a x : files s !! a = Some x -> match f_dentry x with Some (DObj b) => is_Some (dentries s !! b) | _ => True end;
  vi_root : match root_dentry s with None => True | Some r =>
    r = RootD /\ root_ok (root_vnode (fs s)) (inodes (fs s)) ch end
}.

Definition root_of s : Z := i_private (root_vnode (fs s)).

(** The blocks that the tables of dentries, VFS inodes and open files stand for. *)
Definition objs s : gset Z := dom (dentries s) ∪ dom (vnodes (fs s)) ∪ dom (files s).

(** The heap of [s'] is that of [s] but for the entries that the tables gained and lost: nothing else was allocated or freed. *)
Definition accounts s s' : Prop := forall q,
  (q ∉ objs s -> q ∉ objs s' -> a_cap (heap (fs s')) q = a_cap (heap (fs s)) q) /\
  (q ∉ objs s -> q ∈ objs s' -> a_cap (heap (fs s)) q = None) /\
  (q ∈ objs s -> q ∉ objs s' -> a_cap (heap (fs s')) q = None).

Lemma accounts_same s s' : objs s' = objs s -> cap_same (a_cap (heap (fs s))) (a_cap (heap (fs s'))) -> accounts s s'.
Proof using Type. intros Ho Hc q. rewrite Ho. split; [by rewrite (Hc q)|]. by split. Qed.

Lemma accounts_trans s1 s2 s3 : accounts s1 s2 -> accounts s2 s3 -> accounts s1 s3.
Proof using Type.
  intros H1 H2 q. destruct (H1 q) as (A1 & A2 & A3), (H2 q) as (B1 & B2 & B3). destruct (decide (q ∈ objs s2)) as [Hq|Hq]; (split; [|split]); intros Ha Hb.
  - by rewrite (A2 Ha Hq), (B3 Hq Hb).
  - exact (A2 Ha Hq).
  - exact (B3 Hq Hb).
  - by rewrite (B1 Hq Hb), (A1 Ha Hq).
  - by rewrite <- (A1 Ha Hq), (B2 Hq Hb).
  - by rewrite (B1 Hq Hb), (A3 Ha Hq).
Qed.

Lemma accounts_new s s' a size : alloc_result (a_cap (heap (fs s))) (a_cap (heap (fs s'))) a size -> a <> 0 -> (forall q, q ∈ objs s -> is_Some (a_cap (heap (fs s)) q)) -> objs s' = {[a]} ∪ objs s -> accounts s s'.
Proof using Type.
  intros [[-> _]|(_ & Hn & c & _ & Hu)] Ha Hl Ho; [done|]. intros q. rewrite Ho, elem_of_union, elem_of_singleton. split; [|split].
  - intros Hq Hq'. rewrite (Hu q). apply decide_False. tauto.
  - by intros Hq [-> |?].
  - intros Hq Hq'. by destruct Hq'; right.
Qed.

Lemma accounts_freed s s' a : cap_update (a_cap (heap (fs s))) (a_cap (heap (fs s'))) a None -> a ∈ objs s -> objs s' = objs s ∖ {[a]} -> accounts s s'.
Proof using Type.
  intros Hu Ha Ho q. rewrite Ho, elem_of_difference, elem_of_singleton. split; [|split].
  - intros Hq _. rewrite (Hu q). apply decide_False. by intros ->.
  - tauto.
  - intros Hq Hq'. rewrite (Hu q). apply decide_True. destruct (decide (q = a)); tauto.
Qed.

(** Only the caches changed: more VFS inodes and dentries. *)
Record ext s s' : Prop := {
  ex_inodes : inodes (fs s') = inodes (fs s);
  ex_bufs : bufs (fs s') = bufs (fs s);
  ex_rootv : root_vnode (fs s') = root_vnode (fs s);
  ex_sb : sb_root (fs s') = sb_root (fs s);
  ex_vnodes : vnodes (fs s) ⊆ vnodes (fs s');
  ex_dentries : dentries s ⊆ dentries s';
  ex_files : files s' = files s;
  ex_root : root_dentry s' = root_dentry s;
  ex_caps : accounts s s'
}.

Lemma ext_refl s : ext s s.
Proof using Type. by split. Qed.

Lemma ext_trans s1 s2 s3 : ext s1 s2 -> ext s2 s3 -> ext s1 s3.
Proof using Type. intros [] []. split; try congruence; [by etrans|by etrans|by eapply accounts_trans]. Qed.

Lemma get_vnode_mono (f f' : ramfs A) r v : root_vnode f' = root_vnode f -> vnodes f ⊆ vnodes f' ->
  get_vnode f r = Ok v -> get_vnode f' r = Ok v.
Proof using Type.
  intros Hr Hv. destruct r as [|a]; simpl; [by rewrite Hr|]. rewrite !of_option_ok. intros ?. by eapply lookup_weaken.
Qed.

Lemma stands_for_mono (f f' : ramfs A) r d : root_vnode f' = root_vnode f -> vnodes f ⊆ vnodes f' ->
  stands_for f r d -> stands_for f' r d.
Proof using Type. intros Hr Hv (Hn & v & Hg & Hs). split; [done|]. exists v. split; [by eapply get_vnode_mono|done]. Qed.

(** A dentry that stands for the inode [d]. *)
Definition points s (c : dref) d : Prop :=
  exists x, get_dentry s c = Ok x /\ stands_for (fs s) (d_inode x) d /\ is_Some (inodes (fs s) !! d).

Lemma points_ext s s' c d : ext s s' -> points s c d -> points s' c d.
Proof using Type.
  intros [] (x & Hx & Hs & Hd). exists x. split.
  - destruct c as [|b]; simpl in *; [done|]. rewrite of_option_ok in *. by eapply lookup_weaken.
  - split; [by eapply stands_for_mono|congruence].
Qed.

Lemma points_root s ch : vfs_inv s ch -> is_Some (root_dentry s) ->
  root_dentry s = Some RootD /\ points s RootD (root_of s).
Proof using Type.
  intros I [r Hr]. pose proof (vi_root _ _ I) as Hroot. rewrite Hr in *. destruct Hroot as (-> & [Hop (i & Hi & _) _]).
  split; [done|]. exists root_dentry_obj. split; [done|]. split; [|by exists i]. split; [done|].
  exists (root_vnode (fs s)). split; [done|]. by rewrite Hop.
Qed.

Lemma first_named_ext (f f' : ramfs A) n xs : inodes f' = inodes f -> first_named f' n xs = first_named f n xs.
Proof using Type. intros E. unfold first_named. by rewrite E. Qed.

Lemma walk_ext (f f' : ramfs A) ch cs : inodes f' = inodes f -> forall d, walk f' ch d cs = walk f ch d cs.
Proof using Type.
  intros E. induction cs as [|c cs IH]; intros d; simpl; [done|]. rewrite (first_named_ext f f') by done.
  by rewrite IH.
Qed.

(** ** Dentries *)

Definition room (k : nat) s : bool := has_room k (fs s).
Definition used (k : nat) s s' : Prop := spent k (fs s) (fs s').

Lemma objs_live s ch q : vfs_inv s ch -> q ∈ objs s -> is_Some (a_cap (heap (fs s)) q).
Proof using Type*.
  intros I Hq. pose proof (vi_ram _ _ I) as R. unfold objs in Hq. apply elem_of_union in Hq as [[Hq|[v Hv]%elem_of_dom]%elem_of_union|Hq].
  - apply (ri_foreign _ _ R q). unfold owned. set_solver.
  - by apply (ri_vnode _ _ R q v).
  - apply (ri_foreign _ _ R q). unfold owned. set_solver.
Qed.

Lemma alloc_caps (f : ramfs A) F ch size flags p h : ram_inv F f ch -> 0 <= size -> a_kmalloc (heap f) size flags = Ok (p, h) -> alloc_result (a_cap (heap f)) (a_cap h) p size.
Proof using Type*. intros R Hs E. destruct (law_alloc (heap f) size flags (ri_heap _ _ R) Hs) as (p' & h' & E' & _ & Hr). congruence. Qed.

(** A lookup allocates one VFS inode, or nothing. *)
Lemma lookup_caps (f f' : ramfs A) F ch dir name r : ram_inv F f ch -> ramfs_lookup f dir name = Ok (r, f') ->
  vnodes f' = vnodes f /\ cap_same (a_cap (heap f)) (a_cap (heap f')) \/
  exists p v, p <> 0 /\ vnodes f' = <[p := v]> (vnodes f) /\ alloc_result (a_cap (heap f)) (a_cap (heap f')) p SIZEOF_INODE.
Proof using Type*.
  intros R E. unfold ramfs_lookup in E. inv_bind E. inv_bind E. destruct (_ =? 0); [injection E as <- <-; by left|]. inv_bind E. unfold new_vnode in E. inv_bind E. destruct v2 as [p h].
  pose proof (alloc_caps f F ch SIZEOF_INODE _ p h R ltac:(done) Hv2) as Hal. destruct (Z.eqb_spec p 0) as [->|Hp].
  - injection E as <- <-. left. split; [done|]. by destruct Hal as [[_ Hs]|[? _]].
  - injection E as <- <-. right. eexists p, _. by split.
Qed.

Lemma inv_new_block s ch size : vfs_inv s ch -> 0 <= size ->
  exists a h, a_kzalloc (heap (fs s)) size GFP_KERNEL = Ok (a, h) /\
    ram_inv (owned s) (with_heap (fs s) h) ch /\ alloc_result (a_cap (heap (fs s))) (a_cap h) a size /\
    (size ∈ object_sizes -> spends object_sizes 1 (heap (fs s)) h) /\
    (a = 0 /\ (size ∈ object_sizes -> room 1 s = false) \/ a <> 0 /\ (a ∉ owned s) /\ ram_inv ({[a]} ∪ owned s) (with_heap (fs s) h) ch).
Proof using Type*.
  intros I Hsz. pose proof (vi_ram _ _ I) as R.
  destruct (alloc_cases (fs s) ch size (Z.lor GFP_KERNEL GFP_ZERO) R Hsz) as (a & h & E & R' & _ & Ha).
  fold (a_kzalloc (heap (fs s)) size GFP_KERNEL) in E.
  exists a, h. split; [done|]. split; [done|]. split; [by apply (alloc_caps (fs s) (owned s) ch size (Z.lor GFP_KERNEL GFP_ZERO))|]. split; [intros Hin; by apply (room_alloc (fs s) size a h)|].
  destruct Ha as [->|(Ha & Hn & Hl)]; [left; split; [done|]; intros Hin; by apply (room_alloc (fs s) size 0 h)|right].
  split; [done|]. split; [|by apply inv_own].
  intros Ho. by apply Hn, (ri_foreign _ _ R).
Qed.

Lemma inv_with_heap s ch h : vfs_inv s ch -> ram_inv (owned s) (with_heap (fs s) h) ch ->
  vfs_inv (with_fs s (with_heap (fs s) h)) ch.
Proof using Type. intros [] R. by split. Qed.

Lemma new_dentry_spec s ch name parent : vfs_inv s ch ->
  exists a s', new_dentry s name parent = Ok (a, s') /\ vfs_inv s' ch /\ ext s s' /\ used 1 s s' /\
    (a = 0 /\ room 1 s = false \/ a <> 0 /\ dentries s !! a = None /\ files s !! a = None /\
      dentries s' = <[a := Dentry name inull parent]> (dentries s)).
Proof using Type*.
  intros I. unfold new_dentry. destruct (inv_new_block s ch SIZEOF_DENTRY I ltac:(done)) as (a & h & -> & R & Hal & Hsp & Ha).
  specialize (Hsp ltac:(unfold object_sizes; set_solver)).
  rewrite bind_ok. cbv beta iota zeta. destruct Ha as [[-> Hno]|(Ha & Hn & R')].
  - exists 0, (with_fs s (with_heap (fs s) h)). split; [done|]. split; [by apply inv_with_heap|].
    split; [split; try done; apply accounts_same; [done|by destruct Hal as [[_ Hs]|[? _]]]|]. split; [done|]. left. split; [done|]. apply Hno. unfold object_sizes; set_solver.
  - rewrite (proj2 (Z.eqb_neq _ _) Ha). eexists _, _. split; [done|].
    apply not_elem_of_union in Hn as [Hd%not_elem_of_dom Hf%not_elem_of_dom]. split; [|split; [split; try done|split; [done|by right]]].
    + destruct I as [_ Hdisj Hdent Hfile Hroot]. split; cbn; try done.
      * unfold owned. cbn. rewrite dom_insert_L. replace ({[a]} ∪ dom (dentries s) ∪ dom (files s)) with ({[a]} ∪ owned s)
          by (unfold owned; set_solver). done.
      * rewrite dom_insert_L. apply not_elem_of_dom in Hf. set_solver.
      * intros b x. destruct (decide (b = a)) as [->|]; [rewrite lookup_insert_eq; intros [= <-]; by left|].
        rewrite lookup_insert_ne by done. apply Hdent.
      * intros b x Hx. specialize (Hfile b x Hx). destruct (f_dentry x) as [[|c]|]; try done.
        destruct (decide (c = a)) as [->|]; [by rewrite lookup_insert_eq|by rewrite lookup_insert_ne].
    + by apply insert_subseteq.
    + apply (accounts_new s _ a SIZEOF_DENTRY); [done|done|by intros q; apply (objs_live s ch)|]. unfold objs. cbn. rewrite dom_insert_L. set_solver.
Qed.
(** No open file uses the dentry [a]. *)
Definition unused s a : Prop := forall f x, files s !! f = Some x -> f_dentry x <> Some (DObj a).

Lemma free_dentry_spec s ch a x : vfs_inv s ch -> dentries s !! a = Some x -> unused s a ->
  exists s', free_dentry s a = Ok s' /\ vfs_inv s' ch /\ dentries s' = delete a (dentries s) /\
    inodes (fs s') = inodes (fs s) /\ bufs (fs s') = bufs (fs s) /\ vnodes (fs s') = vnodes (fs s) /\
    root_vnode (fs s') = root_vnode (fs s) /\ sb_root (fs s') = sb_root (fs s) /\
    files s' = files s /\ root_dentry s' = root_dentry s /\ accounts s s'.
Proof using Type*.
  intros I Ha Hu. unfold free_dentry. pose proof (vi_ram _ _ I) as R.
  assert (a ∈ owned s) as Ho by (apply elem_of_union; left; by apply elem_of_dom).
  destruct (ri_foreign _ _ R a Ho) as ([c Hc] & _ & Hnv & _).
  destruct (law_free (heap (fs s)) a c (ri_heap _ _ R) Hc) as (h & -> & Hh & Hup). rewrite bind_ok.
  eexists. split; [done|].
  pose proof (inv_disown _ _ _ a h R Ho Hh Hup) as R'.
  destruct I as [_ Hdisj Hdent Hfile Hroot].
  assert (a ∉ dom (files s)) as Hnf by (intros Hf; apply (Hdisj a); [by apply elem_of_dom|done]).
  split; [|do 8 (split; [done|]); apply (accounts_freed s _ a); [done| |]].
  2: { unfold objs. apply elem_of_union. left. apply elem_of_union. left. by apply elem_of_dom. }
  2: { unfold objs. cbn. rewrite dom_delete_L. apply not_elem_of_dom in Hnv. set_solver. }
  split; cbn; try done.
  - unfold owned. cbn. rewrite dom_delete_L.
    replace (dom (dentries s) ∖ {[a]} ∪ dom (files s)) with (owned s ∖ {[a]}) by (unfold owned; set_solver). done.
  - rewrite dom_delete_L. set_solver.
  - intros b y [_ Hb]%lookup_delete_Some. by apply (Hdent b).
  - intros b y Hb. specialize (Hfile b y Hb). pose proof (Hu b y Hb). destruct (f_dentry y) as [[|e]|]; try done.
    rewrite lookup_delete_ne; [done|]. congruence.
Qed.

Lemma set_inode_ok s a x r : dentries s !! a = Some x ->
  set_inode s a r = Ok (with_dentries s (<[a := Dentry (d_name x) r (d_parent x)]> (dentries s))).
Proof using Type. intros Ha. unfold set_inode. by rewrite Ha. Qed.

(** Storing a VFS inode in a dentry. *)
Lemma inv_set_inode s ch a x r : vfs_inv s ch -> dentries s !! a = Some x ->
  (is_null r = true \/ exists v, get_vnode (fs s) r = Ok v) ->
  vfs_inv (with_dentries s (<[a := Dentry (d_name x) r (d_parent x)]> (dentries s))) ch.
Proof using Type*.
  intros [R Hdisj Hdent Hfile Hroot] Ha Hr.
  assert (dom (<[a := Dentry (d_name x) r (d_parent x)]> (dentries s)) = dom (dentries s)) as Hdom.
  { rewrite dom_insert_L. assert (a ∈ dom (dentries s)) by by apply elem_of_dom. set_solver. }
  split; cbn; try done.
  - unfold owned. cbn. by rewrite Hdom.
  - by rewrite Hdom.
  - intros b y. destruct (decide (b = a)) as [->|]; [rewrite lookup_insert_eq; by intros [= <-]|].
    rewrite lookup_insert_ne by done. apply Hdent.
  - intros b y Hb. specialize (Hfile b y Hb). destruct (f_dentry y) as [[|e]|]; try done.
    destruct (decide (e = a)) as [->|]; [by rewrite lookup_insert_eq|by rewrite lookup_insert_ne].
Qed.

(** The file system went on, keeping the client's blocks and every VFS inode. *)
Lemma inv_with_fs s ch ch' f : vfs_inv s ch -> ram_inv (owned s) f ch' -> root_vnode f = root_vnode (fs s) ->
  (forall q w, vnodes (fs s) !! q = Some w -> vnodes f !! q = Some w) ->
  (root_ok (root_vnode (fs s)) (inodes (fs s)) ch -> root_ok (root_vnode f) (inodes f) ch') ->
  vfs_inv (with_fs s f) ch'.
Proof using Type*.
  intros [R Hdisj Hdent Hfile Hroot] R' Hrv Hvn Hd. split; cbn; try done.
  - intros a x Ha. destruct (Hdent a x Ha) as [?|[v Hv]]; [by left|right]. exists v.
    eapply get_vnode_mono; [done| |done]. by apply map_subseteq_spec.
  - destruct (root_dentry s); [|done]. destruct Hroot as [-> Hroot]. split; [done|]. by apply Hd.
Qed.

Lemma call_lookup_spec s ch dir d child x : vfs_inv s ch -> stands_for (fs s) dir d ->
  is_Some (inodes (fs s) !! d) -> dentries s !! child = Some x ->
  exists s' r, call_lookup s dir child = Ok s' /\ vfs_inv s' ch /\
    dentries s' = <[child := Dentry (d_name x) r (d_parent x)]> (dentries s) /\
    inodes (fs s') = inodes (fs s) /\ bufs (fs s') = bufs (fs s) /\ root_vnode (fs s') = root_vnode (fs s) /\
    sb_root (fs s') = sb_root (fs s) /\ vnodes (fs s) ⊆ vnodes (fs s') /\ files s' = files s /\
    root_dentry s' = root_dentry s /\ used 1 s s' /\ accounts s s' /\
    (let t := first_named (fs s) (d_name x) (ch d) in
     r = inull /\ (t = 0 \/ room 1 s = false) \/
     exists c, t <> 0 /\ inodes (fs s) !! t = Some c /\ is_null r = false /\ get_vnode (fs s') r = Ok (vnode_of t c)).
Proof using Type*.
  intros I (Hn & v & Hv & Hop & <-) [di Hd] Hx. unfold call_lookup. rewrite Hx. cbn [of_option]. rewrite bind_ok.
  destruct (ramfs_lookup_spec (fs s) ch dir v di (d_name x) (vi_ram _ _ I) Hv Hd)
    as (r & f & Ef & R & Hi & Hb & Hrv & Hsb & Hvn & Hsp & Hr). pose proof (lookup_caps _ _ _ _ _ _ _ (vi_ram _ _ I) Ef) as Hcaps. rewrite Ef, bind_ok. cbv beta iota zeta.
  rewrite (set_inode_ok _ _ x) by done. eexists _, r. split; [done|]. split.
  - apply (inv_set_inode (with_fs s f)); [|done|].
    + apply (inv_with_fs s ch); try done. apply root_ok_same; [by rewrite Hrv|]. intros q i. rewrite Hi. eauto.
    + cbn. destruct Hr as [[-> _]|(p & c & _ & -> & Hp & _ & Hw)]; [by left|right]. eexists. simpl. by rewrite Hw.
  - cbn. do 5 (split; [done|]). split; [by apply map_subseteq_spec|]. do 3 (split; [done|]). split.
    { assert (dom (<[child := Dentry (d_name x) r (d_parent x)]> (dentries s)) = dom (dentries s)) as Hdom by (apply dom_insert_lookup_L; by exists x).
      destruct Hcaps as [[Hvs Hs]|(p & w & Hp & Hvs & Hal)]; [apply accounts_same; [unfold objs; cbn; by rewrite Hdom, Hvs|done]|].
      apply (accounts_new s _ p SIZEOF_INODE); [done|done|by intros q; apply (objs_live s ch)|]. unfold objs. cbn. rewrite Hdom, Hvs, dom_insert_L. set_solver. }
    destruct Hr as [Hr|(p & c & Ht & -> & Hp & Hc & Hw)]; [by left|right]. exists c. split; [done|].
    split; [done|]. split; [by destruct p|]. simpl. by rewrite Hw.
Qed.
(** What a lookup left in a dentry: nothing, or a VFS inode for the first child of that name. *)
Definition looked_up s s' ch d name (r : iref) : Prop :=
  let t := first_named (fs s) name (ch d) in
  r = inull /\ (t = 0 \/ room 2 s = false) \/
    exists c, t <> 0 /\ inodes (fs s) !! t = Some c /\ is_null r = false /\ get_vnode (fs s') r = Ok (vnode_of t c).

(** A fresh dentry that is looked up in a directory. *)
Lemma fresh_lookup s ch dir d name : vfs_inv s ch -> stands_for (fs s) dir d -> is_Some (inodes (fs s) !! d) ->
  exists a s1, new_dentry s name None = Ok (a, s1) /\ vfs_inv s1 ch /\ ext s s1 /\
    used 1 s s1 /\
    (a = 0 /\ room 1 s = false \/ a <> 0 /\ dentries s !! a = None /\ dentries s1 !! a = Some (Dentry name inull None) /\
       unused s1 a /\
       exists s2 r, call_lookup s1 dir a = Ok s2 /\ vfs_inv s2 ch /\ ext s s2 /\ used 2 s s2 /\ unused s2 a /\
         dentries s2 = <[a := Dentry name r None]> (dentries s) /\ looked_up s s2 ch d name r).
Proof using Type*.
  intros I Hdir Hd. destruct (new_dentry_spec s ch name None I) as (a & s1 & -> & I1 & E1 & Hsp1 & Ha).
  exists a, s1. do 4 (split; [done|]).
  destruct Ha as [[-> Hno]|(Ha & Hn & Hf & Hden)]; [by left|right].
  assert (forall s', files s' = files s -> unused s' a) as Hun.
  { intros s' Hfs f x Hx Hfx. rewrite Hfs in Hx. pose proof (vi_file _ _ I f x Hx) as Hv. rewrite Hfx in Hv.
    destruct Hv as [? Hv]. congruence. }
  assert (dentries s1 !! a = Some (Dentry name inull None)) as Ha1 by (rewrite Hden; apply lookup_insert_eq).
  split; [done|]. split; [done|]. split; [done|]. split; [apply Hun, E1|]. pose proof E1 as X1.
  destruct E1 as [E1 E2 E3 E4 E5 E6 E7 E8 E9].
  destruct (call_lookup_spec s1 ch dir d a (Dentry name inull None) I1) as (s2 & r & -> & I2 & D2 & F1 & F2 & F3 & F4 & F5 & F6 & F7 & Hsp2 & Hacc & Hr);
    [by apply (stands_for_mono (fs s))|by rewrite E1|done|].
  exists s2, r. split; [done|]. split; [done|]. rewrite D2, Hden, insert_insert_eq. cbn [d_name d_parent].
  split; [|split; [by apply (spends_trans _ 1 1 _ (heap (fs s1)))|split; [apply Hun; congruence|split; [done|]]]].
  - split; try congruence; [by etrans| |by apply (accounts_trans _ s1)]. rewrite D2, Hden, insert_insert_eq. by apply insert_subseteq.
  - unfold looked_up. cbn [d_name] in Hr. rewrite (first_named_ext (fs s)) in Hr by done.
    destruct Hr as [[-> Ht]|(c & Ht & Hc & Hnr & Hg)]; [left|right].
    + split; [done|]. destruct Ht as [Ht|Ht]; [by left|right]. by apply (poor_spends _ 1 1 _ (heap (fs s1))).
    + rewrite E1 in Hc. by exists c.
Qed.

(** A dentry that turned out empty is freed again. *)
Lemma drop_dentry s s2 ch a name r : vfs_inv s2 ch -> ext s s2 -> unused s2 a -> dentries s !! a = None ->
  dentries s2 = <[a := Dentry name r None]> (dentries s) ->
  exists s3, free_dentry s2 a = Ok s3 /\ vfs_inv s3 ch /\ ext s s3 /\ dentries s3 = dentries s.
Proof using Type*.
  intros I2 [E1 E2 E3 E4 E5 E6 E7 E8 E9] Hu Hn Hd.
  destruct (free_dentry_spec s2 ch a (Dentry name r None) I2) as (s3 & -> & I3 & D3 & F1 & F2 & F3 & F4 & F5 & F6 & F7 & F8);
    [rewrite Hd; apply lookup_insert_eq|done|].
  assert (dentries s3 = dentries s) as Hds by (rewrite D3, Hd; by apply delete_insert_id).
  exists s3. do 2 (split; [done|]). split; [|done].
  split; try congruence; [by rewrite F3 | by rewrite Hds | by apply (accounts_trans _ s2)].
Qed.

Lemma points_vnode s ch a x r t c : vfs_inv s ch -> dentries s !! a = Some x -> d_inode x = r -> is_null r = false ->
  get_vnode (fs s) r = Ok (vnode_of t c) -> inodes (fs s) !! t = Some c -> points s (DObj a) t.
Proof using Type.
  intros I Hx <- Hn Hg Ht. exists x. simpl. rewrite Hx. split; [done|]. split; [|eauto].
  split; [done|]. exists (vnode_of t c). by eauto.
Qed.

Lemma lookup_loop_ok ch : forall fuel s curr d p, vfs_inv s ch -> points s curr d -> at_name p -> (length p < fuel)%nat ->
  exists r s' init name, lookup_parent_loop fuel s curr p = Ok (r, s') /\ vfs_inv s' ch /\ ext s s' /\
    components p = init ++ [name] /\
    (r = None /\ (walk (fs s) ch d init = None \/ room (2 * length init) s = false) \/
     exists c' d', r = Some (c', name) /\ used (2 * length init) s s' /\ walk (fs s) ch d init = Some d' /\ points s' c' d').
Proof using Type*.
  induction fuel as [|fuel IH]; intros s curr d p I Hpt Hp Hf; [lia|].
  pose proof (component_components p Hp) as Hc. cbn [lookup_parent_loop].
  destruct p as [|ch0 p0]; [done|]. set (p := ch0 :: p0) in *. clearbody p.
  destruct (component NAME_MAX p) as [name rest]. destruct Hc as (Hne & Hcomp & Hlen).
  destruct (skip_at_name rest) as [Hrest|Hrest].
  { rewrite Hrest in *. eexists _, s, [], name. split; [done|]. split; [done|]. split; [apply ext_refl|].
    split; [done|]. right. exists curr, d. split; [done|]. split; [apply spends_refl|done]. }
  assert (exists init' nm, components (skip_slashes rest) = init' ++ [nm]) as (init' & nm & Hinit).
  { destruct (exists_last (l := components (skip_slashes rest))) as (l & x & ->); [|eauto].
    intros E%components_nil. by rewrite (at_name_skip _ Hrest) in E; rewrite E in Hrest. }
  destruct (skip_slashes rest) as [|c1 p1] eqn:Er; [done|]. rewrite <- Er in *. clear c1 p1 Er.
  destruct Hpt as (x & Hx & Hst & Hd). pose proof Hst as (Hnull & v & Hv & [o Hop] & Hpriv).
  rewrite Hx, bind_ok, Hnull, Hv, bind_ok, Hop.
  destruct (fresh_lookup s ch (d_inode x) d name I Hst Hd) as (a & s1 & -> & I1 & E1 & Hsp1 & Ha).
  rewrite bind_ok. cbv beta iota zeta.
  destruct Ha as [[-> Hno]|(Ha & Hn & Ha1 & _ & s2 & r & Hcall & I2 & E2 & Hsp2 & Hu & D2 & Hr)].
  { exists None, s1, (name :: init'), nm. rewrite Hcomp, Hinit. do 4 (split; [done|]). left. split; [done|right]. by apply (poor_mono _ 1); [simpl; lia|]. }
  rewrite (proj2 (Z.eqb_neq _ _) Ha), Hcall, bind_ok, D2, lookup_insert_eq. cbn [of_option]. rewrite bind_ok. cbn [d_inode].
  destruct Hr as [[-> Hno]|(c & Ht & Hc & Hnr & Hg)].
  { destruct (drop_dentry s s2 ch a name inull I2 E2 Hu Hn D2) as (s3 & -> & I3 & E3 & _). rewrite bind_ok.
    exists None, s3, (name :: init'), nm. rewrite Hcomp, Hinit. do 4 (split; [done|]). left. split; [done|].
    destruct Hno as [Ht|Hno]; [left; cbn [walk]; by rewrite Ht|right].
    by apply (poor_mono _ 2); [simpl; lia|]. }
  rewrite Hnr. set (t := first_named _ _ _) in *.
  destruct (IH s2 (DObj a) t (skip_slashes rest) I2) as (res & s' & i2 & n2 & -> & I' & E' & Hci & Hres); [|done|lia|].
  { apply (points_vnode s2 ch a (Dentry name r None) r t c); try done; [rewrite D2; apply lookup_insert_eq|].
    by rewrite (ex_inodes _ _ E2). }
  exists res, s', (name :: i2), n2. do 2 (split; [done|]). split; [by eapply ext_trans|].
  rewrite Hcomp, Hci. split; [done|]. cbn [walk]. fold t. rewrite (proj2 (Z.eqb_neq _ _) Ht).
  rewrite (walk_ext (fs s) (fs s2) ch i2 (ex_inodes _ _ E2) t) in Hres.
  replace (2 * length (name :: i2))%nat with (2 + 2 * length i2)%nat by (simpl; lia).
  destruct Hres as [[-> [Hw|Hno]]|(c' & d' & -> & Hsp & Hw & Hp')]; [left; split; [done|by left] |left|right].
  - split; [done|right]. by apply (poor_spends _ 2 _ _ (heap (fs s2))).
  - exists c', d'. split; [done|]. split; [by apply (spends_trans _ 2 _ _ (heap (fs s2)))|done].
Qed.

(** A directory and a name in it, as [vfs_lookup_parent] gives them for [path]. *)
Definition resolves s ch (path : list Z) (c : dref) name d : Prop :=
  points s c d /\ exists init, components path = init ++ [name] /\ walk (fs s) ch (root_of s) init = Some d.

Lemma lookup_parent_spec s ch path : vfs_inv s ch ->
  exists r s', vfs_lookup_parent s path = Ok (r, s') /\ vfs_inv s' ch /\ ext s s' /\
    (r = None /\ (root_dentry s = None \/ components path = [] \/
       room (2 * pred (length (components path))) s = false \/
       exists init name, components path = init ++ [name] /\ walk (fs s) ch (root_of s) init = None) \/
     exists c name d, r = Some (c, name) /\ resolves s' ch path c name d /\
       used (2 * pred (length (components path))) s s').
Proof using Type*.
  intros I. unfold vfs_lookup_parent. destruct (root_dentry s) as [root|] eqn:Hroot.
  - destruct (points_root s ch I ltac:(eauto)) as [Hr Hpt]. rewrite Hroot in Hr. injection Hr as ->.
    destruct (skip_at_name path) as [E|Hp]; [rewrite E; exists None, s|].
    { do 2 (split; [done|]). split; [apply ext_refl|left]. split; [done|]. right. left. by apply components_nil. }
    destruct (lookup_loop_ok ch (S (length (skip_slashes path))) s RootD (root_of s) (skip_slashes path) I Hpt Hp ltac:(lia))
      as (r & s' & init & nm & E & I' & X & Hci & Hres).
    exists r, s'. destruct (skip_slashes path) as [|c0 p0] eqn:Es; [done|]. split; [done|]. split; [done|]. split; [done|].
    rewrite <- Es, components_skip in Hci.
    assert (length init = pred (length (components path))) as Hlen by (rewrite Hci, length_app; simpl; lia). rewrite Hlen in Hres.
    destruct Hres as [[-> [Hw|Hno]]|(c' & d' & -> & Hsp & Hw & Hp')]; [left|left|right]; [split; [done|]; eauto 10..|].
    exists c', nm, d'. split; [done|]. split; [|done]. split; [done|]. exists init.
    split; [done|]. unfold root_of in *. rewrite (ex_rootv _ _ X). rewrite <- Hw. apply walk_ext, X.
  - exists None, s. do 2 (split; [done|]). split; [apply ext_refl|left]. split; [done|by left].
Qed.
End vfs_spec.

(** * What the operations are made of

    Path lookup, the lookup of the last component, opening a dentry and the
    file system calls, with the room they need, ready to be composed. *)

Section vfs_ops.
Context {A : Type} `{AllocatorLaws A}.
Implicit Types (s : vfs A) (ch : Z -> list Z) (d a : Z).

Lemma room_mono j k s : (j <= k)%nat -> room k s = true -> room j s = true.
Proof using Type. apply roomy_mono. Qed.

Lemma room_poor j k s : room k s = true -> room j s = false -> (j <= k)%nat -> False.
Proof using Type. intros Hk Hj Hjk. apply (room_mono j) in Hk; [congruence|done]. Qed.

(** Path lookup when the heap has room for it and [k] objects more. *)
Lemma lookup_parent_ok s ch path init name k : vfs_inv s ch -> is_Some (root_dentry s) ->
  components path = init ++ [name] -> room (2 * length init + k) s = true ->
  exists s', vfs_inv s' ch /\ ext s s' /\
    match walk (fs s) ch (root_of s) init with
    | None => vfs_lookup_parent s path = Ok (None, s')
    | Some d => exists c, vfs_lookup_parent s path = Ok (Some (c, name), s') /\ points s' c d /\ room k s' = true
    end.
Proof using Type*.
  intros I Hroot Hc Hr. destruct (lookup_parent_spec s ch path I) as (r & s' & E & I' & X & Hres).
  exists s'. do 2 (split; [done|]). rewrite Hc, length_app, Nat.add_1_r in Hres. cbn [pred] in Hres.
  destruct Hres as [[-> Hn]|(c & nm & d & -> & (Hp & i2 & Hc2 & Hw) & Hu)].
  - destruct Hn as [Hn|[Hn|[Hn|(i2 & nm & Hc2 & Hw)]]].
    + rewrite Hn in Hroot. by destruct Hroot.
    + by destruct init.
    + exfalso. apply (room_poor _ _ _ Hr Hn). lia.
    + apply app_inj_tail in Hc2 as [<- <-]. by rewrite Hw.
  - rewrite Hc in Hc2. apply app_inj_tail in Hc2 as [<- <-].
    rewrite (walk_ext (fs s)) in Hw by apply X. unfold root_of in *. rewrite (ex_rootv _ _ X) in Hw. rewrite Hw.
    exists c. do 2 (split; [done|]). by apply Hu.
Qed.

(** What the lookup of the last component found in directory [d]. *)
Definition found s s' ch d name (r : iref) : Prop :=
  let t := first_named (fs s) name (ch d) in
  t = 0 /\ r = inull \/
  exists c, t <> 0 /\ inodes (fs s) !! t = Some c /\ is_null r = false /\ get_vnode (fs s') r = Ok (vnode_of t c).

(** The dentry [a] for the last component, after it was looked up. *)
Record target s s2 ch d name a r : Prop := {
  tg_inv : vfs_inv s2 ch;
  tg_ext : ext s s2;
  tg_unused : unused s2 a;
  tg_new : dentries s !! a = None;
  tg_dentries : dentries s2 = <[a := Dentry name r None]> (dentries s);
  tg_found : found s s2 ch d name r
}.

Lemma target_ok s ch dir d name k : vfs_inv s ch -> stands_for (fs s) dir d -> is_Some (inodes (fs s) !! d) ->
  room (2 + k) s = true ->
  exists a s1 s2 r, new_dentry s name None = Ok (a, s1) /\ a <> 0 /\ ext s s1 /\
    dentries s1 !! a = Some (Dentry name inull None) /\ call_lookup s1 dir a = Ok s2 /\
    target s s2 ch d name a r /\ room k s2 = true.
Proof using Type*.
  intros I Hdir Hd Hr. destruct (fresh_lookup s ch dir d name I Hdir Hd) as (a & s1 & E & I1 & X1 & _ & Ha).
  destruct Ha as [[_ Hno]|(Ha & Hn & Ha1 & Hu1 & s2 & r & Hcall & I2 & X2 & Hu & Hun & D2 & Hl)].
  { exfalso. apply (room_poor _ _ _ Hr Hno). lia. }
  exists a, s1, s2, r. do 5 (split; [done|]). split; [|by apply Hu]. split; try done.
  destruct Hl as [[-> [Ht|Hno]]|(c & Hc)]; [left; done| |right; by exists c].
  exfalso. apply (room_poor _ _ _ Hr Hno). lia.
Qed.

Lemma get_dentry_ext s s' c x : ext s s' -> get_dentry s c = Ok x -> get_dentry s' c = Ok x.
Proof using Type.
  intros X. destruct c as [|a]; simpl; [done|]. rewrite !of_option_ok. intros Ha. eapply lookup_weaken; [done|apply X].
Qed.

Lemma get_vnode_ext s s' r v : ext s s' -> get_vnode (fs s) r = Ok v -> get_vnode (fs s') r = Ok v.
Proof using Type. intros X. apply get_vnode_mono; apply X. Qed.

(** [lookup_target], the form of [vfs_rmdir], [vfs_unlink] and [vfs_rename]. *)
Lemma lookup_target_ok s ch c d name k : vfs_inv s ch -> points s c d -> room (2 + k) s = true ->
  exists a r s', lookup_target s c name = Ok (a, r, s') /\ a <> 0 /\ target s s' ch d name a r /\ room k s' = true.
Proof using Type*.
  intros I (p & Hp & Hst & Hd) Hr. pose proof Hst as (_ & v & Hv & [o Hop] & _).
  destruct (target_ok s ch (d_inode p) d name k I Hst Hd Hr) as (a & s1 & s2 & r & E & Ha & X1 & Ha1 & Hcall & T & Hk).
  exists a, r, s2. split; [|done]. unfold lookup_target. rewrite E, bind_ok. cbv beta iota zeta.
  rewrite (proj2 (Z.eqb_neq _ _) Ha), (get_dentry_ext _ _ _ _ X1 Hp), bind_ok, (get_vnode_ext _ _ _ _ X1 Hv), bind_ok.
  rewrite Hop, Hcall, bind_ok, (tg_dentries _ _ _ _ _ _ _ T), lookup_insert_eq. done.
Qed.

(** ** Open files *)

(** [f] is a new file for the dentry [a], whose VFS inode is [v]. *)
Record opened s s' ch f a v flags mode : Prop := {
  op_inv : vfs_inv s' ch;
  op_nonnull : f <> 0;
  op_new : files s !! f = None;
  op_files : files s' = <[f := File (Some (DObj a)) (i_fop v) 0 flags mode 1 (i_private v)]> (files s);
  op_fs : exists h, fs s' = with_heap (fs s) h;
  op_dentries : dentries s' = dentries s;
  op_root : root_dentry s' = root_dentry s;
  op_vnode : exists y, dentries s !! a = Some y /\ get_vnode (fs s) (d_inode y) = Ok v;
  op_caps : accounts s s'
}.

Lemma inv_add_file s ch f x h : vfs_inv s ch -> ram_inv ({[f]} ∪ owned s) (with_heap (fs s) h) ch ->
  f ∉ owned s -> match f_dentry x with Some (DObj b) => is_Some (dentries s !! b) | _ => True end ->
  vfs_inv (set_file (with_fs s (with_heap (fs s) h)) f x) ch.
Proof using Type*.
  intros [_ Hdisj Hdent Hfile Hroot] R Hf Hx. unfold owned in *. split; cbn; try done.
  - unfold owned. cbn. rewrite dom_insert_L.
    replace (dom (dentries s) ∪ ({[f]} ∪ dom (files s))) with ({[f]} ∪ (dom (dentries s) ∪ dom (files s))) by set_solver.
    done.
  - rewrite dom_insert_L. set_solver.
  - intros b y. destruct (decide (b = f)) as [->|]; [rewrite lookup_insert_eq; by intros [= <-]|].
    rewrite lookup_insert_ne by done. apply Hfile.
Qed.

(** Changing fields of an open file other than its dentry. *)
Lemma inv_set_file s ch f x y : vfs_inv s ch -> files s !! f = Some x -> f_dentry y = f_dentry x ->
  vfs_inv (set_file s f y) ch.
Proof using Type*.
  intros [R Hdisj Hdent Hfile Hroot] Hx Hy.
  assert (dom (<[f := y]> (files s)) = dom (files s)) as Hdom.
  { rewrite dom_insert_L. assert (f ∈ dom (files s)) by by apply elem_of_dom. set_solver. }
  split; cbn; try done.
  - unfold owned. cbn. by rewrite Hdom.
  - by rewrite Hdom.
  - intros b z. destruct (decide (b = f)) as [->|]; [rewrite lookup_insert_eq|by rewrite lookup_insert_ne; [apply Hfile|]].
    intros [= <-]. rewrite Hy. by apply (Hfile f).
Qed.

Lemma open_dentry_ok s ch a x v flags mode : vfs_inv s ch -> dentries s !! a = Some x ->
  get_vnode (fs s) (d_inode x) = Ok v -> room 1 s = true ->
  exists f s', open_dentry s a flags mode = Ok (f, s') /\ opened s s' ch f a v flags mode.
Proof using Type*.
  intros I Hx Hv Hr. unfold open_dentry, new_file. rewrite Hx. cbn [of_option]. rewrite bind_ok.
  destruct (inv_new_block s ch SIZEOF_FILE I ltac:(done)) as (f & h & -> & R & Hal & _ & Hf).
  rewrite !bind_ok. cbv beta iota zeta.
  destruct Hf as [[_ Hno]|(Hf & Hn & R')].
  { exfalso. apply (room_poor _ _ _ Hr (Hno ltac:(unfold object_sizes, SIZEOF_FILE; set_solver))). lia. }
  rewrite (proj2 (Z.eqb_neq _ _) Hf). rewrite bind_ok. cbv beta iota zeta. rewrite (proj2 (Z.eqb_neq _ _) Hf).
  change (get_vnode (fs (set_file (with_fs s (with_heap (fs s) h)) f (File (Some (DObj a)) None 0 flags mode 1 0))) (d_inode x))
    with (get_vnode (fs s) (d_inode x)). rewrite Hv, bind_ok.
  eexists f, _. split; [done|].
  replace (match i_fop v with
           | Some _ => ramfs_open v (File (Some (DObj a)) (i_fop v) 0 flags mode 1 (i_private v))
           | None => File (Some (DObj a)) (i_fop v) 0 flags mode 1 (i_private v) end)
    with (File (Some (DObj a)) (i_fop v) 0 flags mode 1 (i_private v)) by (by destruct (i_fop v)).
  set (y := File _ (i_fop v) _ _ _ _ _).
  assert (set_file (set_file (with_fs s (with_heap (fs s) h)) f (File (Some (DObj a)) None 0 flags mode 1 0)) f y =
          set_file (with_fs s (with_heap (fs s) h)) f y) as ->.
  { unfold set_file, with_files. cbn. by rewrite insert_insert_eq. }
  split; try done.
  - apply inv_add_file; try done. cbn. by eexists.
  - unfold owned in Hn. apply not_elem_of_union in Hn as [_ Hn]. by apply not_elem_of_dom.
  - by exists h.
  - by exists x.
  - apply (accounts_new s _ f SIZEOF_FILE); [done|done|by intros q; apply (objs_live s ch)|]. unfold objs. cbn. rewrite dom_insert_L. set_solver.
Qed.

(** ** File system calls *)

Lemma inv_linked s ch d di f c mode name : vfs_inv s ch -> inodes (fs s) !! d = Some di ->
  linked (owned s) (fs s) f ch d c mode name -> vfs_inv (with_fs s f) (<[d := c :: ch d]> ch).
Proof using Type*.
  intros I Hd L. apply (inv_with_fs s ch _ f I); try apply L. intros Hro.
  apply (root_ok_mono (fs s) f ch); try done; [apply L| |].
  - intros i Hi. destruct (ln_kept _ _ _ _ _ _ _ L (i_private (root_vnode (fs s))) i) as (i' & ? & (_ & _ & _ & ?) & _); [|done|eauto].
    intros E. rewrite E in Hi. pose proof (ln_fresh _ _ _ _ _ _ _ L). congruence.
  - intros q. destruct (decide (q = d)) as [->|]; [rewrite fn_lookup_insert|rewrite fn_lookup_insert_ne by done; apply Hro].
    intros [E|Hin]%elem_of_cons; [|by apply (ro_top _ _ _ Hro d)].
    destruct (ro_dir _ _ _ Hro) as (i & Hi & _). rewrite E in Hi. pose proof (ln_fresh _ _ _ _ _ _ _ L). congruence.
Qed.

Lemma inv_orphaned s ch f c mode name : vfs_inv s ch -> orphaned (owned s) (fs s) f ch c mode name -> vfs_inv (with_fs s f) ch.
Proof using Type*.
  intros I O. apply (inv_with_fs s ch ch f I); try apply O. intros Hro. apply (root_ok_same (fs s) f ch); [apply O| |done].
  intros q i Hi. exists i. split; [|done]. rewrite (or_new _ _ _ _ _ _ O), lookup_insert_ne; [done|]. intros <-. pose proof (or_fresh _ _ _ _ _ _ O). congruence.
Qed.

Lemma inv_unlinked s ch d f l1 t l2 ti : vfs_inv s ch -> ch d = l1 ++ t :: l2 ->
  unlinked (owned s) (fs s) f ch d l1 t l2 ti ->
  vfs_inv (with_fs s f) (<[d := l1 ++ l2]> ch).
Proof using Type*.
  intros I Hch U. pose proof (un_root _ _ _ _ _ _ _ _ U) as Hrv.
  apply (inv_with_fs s ch _ f I); [apply U|done|by rewrite (un_vnodes _ _ _ _ _ _ _ _ U)|].
  intros Hro. apply (root_ok_mono (fs s) f ch); try done.
  - intros i Hi. destruct (un_kept _ _ _ _ _ _ _ _ U (i_private (root_vnode (fs s))) i) as (i' & ? & (_ & _ & _ & ?) & _); [|done|eauto].
    intros E. apply (ro_top _ _ _ Hro d). rewrite E, Hch. apply elem_of_mid. by left.
  - intros q. destruct (decide (q = d)) as [->|]; [rewrite fn_lookup_insert|rewrite fn_lookup_insert_ne by done; apply Hro].
    intros Hin. apply (ro_top _ _ _ Hro d). rewrite Hch. apply elem_of_mid. by right.
Qed.
End vfs_ops.

(** * Opening files *)

Lemma component_more p name rest : at_name p -> component NAME_MAX p = (name, rest) ->
  (1 < length (components p))%nat -> rest <> [].
Proof.
  intros Hp E Hl ->. pose proof (component_components p Hp) as Hc. rewrite E in Hc.
  destruct Hc as (_ & Hc & _). rewrite Hc in Hl. simpl in Hl. lia.
Qed.

Lemma components_names path init name : components path = init ++ [name] -> Forall (fun x => x <> 0) path ->
  valid_name name.
Proof.
  intros Hc Hz.
  assert (Forall (Forall (fun x => x <> 0)) (split_path path)) as Hs.
  { clear Hc. induction Hz as [|x p Hx _ IH]; simpl; [by repeat constructor|].
    destruct (x =? SLASH); [by constructor|]. destruct (split_path p); inversion IH; subst; repeat constructor; done. }
  assert (name ∈ components path) as Hin by (rewrite Hc; apply elem_of_app; right; by left).
  unfold components in Hin. apply list_elem_of_fmap in Hin as (w & -> & Hw).
  apply list_elem_of_In, filter_In in Hw as [Hw _]. apply list_elem_of_In in Hw.
  rewrite Forall_forall in Hs. split; [by apply Forall_take, Hs|].
  rewrite length_take. unfold RAMFS_MAX_NAME, NAME_MAX. lia.
Qed.

Section vfs_open.
Context {A : Type} `{AllocatorLaws A}.
Implicit Types (s : vfs A) (ch : Z -> list Z) (d a : Z).

(** A path whose directory does not exist opens nothing. *)
Lemma open_nowhere s s' path init name flags mode : components path = init ++ [name] -> init <> [] ->
  vfs_lookup_parent s path = Ok (None, s') -> vfs_open s path flags mode = Ok (0, s').
Proof using Type.
  intros Hc Hi E. unfold vfs_open. rewrite decide_False; [|intros ->; by destruct init].
  unfold open_parent. rewrite E, bind_ok. cbv beta iota zeta.
  destruct (component NAME_MAX (skip_slashes path)) as [n rest] eqn:Ec.
  assert (at_name (skip_slashes path)) as Hp.
  { destruct (skip_at_name path) as [E0|]; [|done]. apply components_nil in E0. rewrite E0 in Hc. by destruct init. }
  pose proof (component_more _ _ _ Hp Ec) as Hr. rewrite components_skip, Hc, length_app in Hr. cbn [length] in Hr.
  destruct rest; [|done]. destruct Hr; [|done]. destruct init; [done|simpl; lia].
Qed.

(** The last component of [vfs_open], in directory [d]. *)
Lemma open_step s s0 ch path c d name k flags mode : path <> [SLASH] ->
  vfs_lookup_parent s path = Ok (Some (c, name), s0) -> vfs_inv s0 ch -> points s0 c d -> room (2 + k) s0 = true ->
  exists p a s2 r, stands_for (fs s2) (d_inode p) d /\ target s0 s2 ch d name a r /\ room k s2 = true /\
    vfs_open s path flags mode =
      if is_null r then
        if Z.land flags O_CREAT =? 0 then s ← free_dentry s2 a; Ok (0, s)
        else
          v ← get_vnode (fs s2) (d_inode p);
          _ ← of_option (i_op v);
          r ← ramfs_create (fs s2) (d_inode p) name mode;
          let '(ret, ino, f) := r in
          let s := with_fs s2 f in
          if negb (ret =? 0) then s ← free_dentry s a; Ok (0, s)
          else s ← set_inode s a ino; open_dentry s a flags mode
      else open_dentry s2 a flags mode.
Proof using Type*.
  intros Hne E I (p & Hp & Hst & Hd) Hr. pose proof Hst as (Hnull & v & Hv & [o Hop] & _).
  destruct (target_ok s0 ch (d_inode p) d name k I Hst Hd Hr) as (a & s1 & s2 & r & En & Ha & X1 & Ha1 & Hcall & T & Hk).
  exists p, a, s2, r. split; [apply (stands_for_mono (fs s0)); try done; apply T|]. do 2 (split; [done|]).
  unfold vfs_open. rewrite decide_False by done. unfold open_parent. rewrite E, !bind_ok. cbv beta iota zeta.
  rewrite En, bind_ok. cbv beta iota zeta. rewrite (proj2 (Z.eqb_neq _ _) Ha). cbn [of_option].
  rewrite bind_ok, (get_dentry_ext _ _ _ _ X1 Hp), bind_ok, Hnull, (get_vnode_ext _ _ _ _ X1 Hv), bind_ok, Hop, Hcall, bind_ok.
  rewrite (tg_dentries _ _ _ _ _ _ _ T), lookup_insert_eq. cbn [of_option]. rewrite bind_ok. done.
Qed.

(** A name that is there is opened. *)
Lemma open_found s2 s0 ch d name a r flags mode : target s0 s2 ch d name a r -> room 1 s2 = true ->
  let t := first_named (fs s0) name (ch d) in t <> 0 ->
  is_null r = false /\ exists c f s', inodes (fs s0) !! t = Some c /\ open_dentry s2 a flags mode = Ok (f, s') /\
    opened s2 s' ch f a (vnode_of t c) flags mode.
Proof using Type*.
  intros T Hr t Ht. destruct (tg_found _ _ _ _ _ _ _ T) as [[E _]|(c & _ & Hc & Hn & Hg)]; [done|].
  split; [done|]. exists c.
  destruct (open_dentry_ok s2 ch a (Dentry name r None) (vnode_of t c) flags mode) as (f & s' & E & O); try done; [apply T| |].
  - rewrite (tg_dentries _ _ _ _ _ _ _ T). apply lookup_insert_eq.
  - by exists f, s'.
Qed.

Lemma open_create s0 s2 ch d name a p flags mode di : target s0 s2 ch d name a inull ->
  stands_for (fs s2) (d_inode p) d -> inodes (fs s2) !! d = Some di -> S_ISDIR (r_mode di) = true ->
  valid_name name -> room 3 s2 = true ->
  exists v ret ino f s1, get_vnode (fs s2) (d_inode p) = Ok v /\ is_Some (i_op v) /\
    ramfs_create (fs s2) (d_inode p) name mode = Ok (ret, ino, f) /\ ret = 0 /\
    set_inode (with_fs s2 f) a ino = Ok s1 /\
    exists c w g s', open_dentry s1 a flags mode = Ok (g, s') /\ linked (owned s2) (fs s2) (fs s1) ch d c (Z.lor S_IFREG mode) name /\
      root_dentry s1 = root_dentry s2 /\ files s1 = files s2 /\ opened s1 s' (<[d := c :: ch d]> ch) g a w flags mode /\
      c <> 0 /\ i_private w = c /\ i_fop w = Some ramfs_file_ops.
Proof using Type*.
  intros T (_ & v & Hv & Hop & <-) Hd Hdir Hn Hr. exists v.
  destruct (make_spec (fs s2) ch (d_inode p) v di name (Z.lor S_IFREG mode) ramfs_file_ops
    (vi_ram _ _ (tg_inv _ _ _ _ _ _ _ T)) Hv Hd Hdir Hn) as [(f & _ & _ & _ & Hpoor & _)|(c & f & L & Hc & Hu & E)].
  { exfalso. apply (room_poor 2 _ _ Hr Hpoor). lia. }
  destruct E as [[_ Hpoor]|(q & E & Hq)]; [exfalso; apply (room_poor 2 _ _ Hr Hpoor); lia|].
  set (w := VInode _ _ _ _ _ c) in Hq.
  pose proof (inv_linked s2 ch _ di f c _ name (tg_inv _ _ _ _ _ _ _ T) Hd L) as I3.
  assert (dentries (with_fs s2 f) !! a = Some (Dentry name inull None)) as Ha.
  { cbn. rewrite (tg_dentries _ _ _ _ _ _ _ T). apply lookup_insert_eq. }
  assert (get_vnode f (Obj q) = Ok w) as Hg by (cbn; by rewrite Hq).
  assert (vfs_inv (with_dentries (with_fs s2 f) (<[a := Dentry name (Obj q) None]> (dentries s2)))
    (<[i_private v := c :: ch (i_private v)]> ch)) as I4.
  { apply (inv_set_inode (with_fs s2 f) _ a (Dentry name inull None)); [done|done|right; by exists w]. }
  exists 0, (Obj q), f. eexists. do 2 (split; [done|]). split; [exact E|]. split; [done|].
  split; [apply (set_inode_ok _ a (Dentry name inull None)); exact Ha|]. cbn [d_name d_parent].
  destruct (open_dentry_ok _ _ a (Dentry name (Obj q) None) w flags mode I4) as (g & s' & Eo & O); [|done| |].
  - cbn. apply lookup_insert_eq.
  - apply Hu. exact Hr.
  - exists c, w, g, s'. split; [exact Eo|]. do 3 (split; [done|]). split; [exact O|]. done.
Qed.

(** The same in a file: the new file is opened, but it is in no directory. *)
Lemma open_orphan s0 s2 ch d name a p flags mode di : target s0 s2 ch d name a inull ->
  stands_for (fs s2) (d_inode p) d -> inodes (fs s2) !! d = Some di -> S_ISDIR (r_mode di) = false -> room 3 s2 = true ->
  exists v ino f s1, get_vnode (fs s2) (d_inode p) = Ok v /\ is_Some (i_op v) /\
    ramfs_create (fs s2) (d_inode p) name mode = Ok (0, ino, f) /\ set_inode (with_fs s2 f) a ino = Ok s1 /\
    exists c w g s', open_dentry s1 a flags mode = Ok (g, s') /\ orphaned (owned s2) (fs s2) (fs s1) ch c (Z.lor S_IFREG mode) name /\
      root_dentry s1 = root_dentry s2 /\ files s1 = files s2 /\ opened s1 s' ch g a w flags mode /\ c <> 0 /\ i_private w = c.
Proof using Type*.
  intros T (_ & v & Hv & Hop & <-) Hd Hdir Hr. exists v.
  destruct (make_orphan (fs s2) ch (d_inode p) v di name (Z.lor S_IFREG mode) ramfs_file_ops
    (vi_ram _ _ (tg_inv _ _ _ _ _ _ _ T)) Hv Hd Hdir) as [Hpoor|(c & f & q & E & O & Hc & Hu & Hq)].
  { exfalso. apply (room_poor 2 _ _ Hr Hpoor). lia. }
  set (w := VInode _ _ _ _ _ c) in Hq. pose proof (inv_orphaned s2 ch f c _ name (tg_inv _ _ _ _ _ _ _ T) O) as I3.
  assert (dentries (with_fs s2 f) !! a = Some (Dentry name inull None)) as Ha by (cbn; rewrite (tg_dentries _ _ _ _ _ _ _ T); apply lookup_insert_eq).
  assert (get_vnode f (Obj q) = Ok w) as Hg by (cbn; by rewrite Hq).
  assert (vfs_inv (with_dentries (with_fs s2 f) (<[a := Dentry name (Obj q) None]> (dentries s2))) ch) as I4
    by (apply (inv_set_inode (with_fs s2 f) _ a (Dentry name inull None)); [done|done|right; by exists w]).
  exists (Obj q), f. eexists. do 2 (split; [done|]). split; [exact E|]. split; [apply (set_inode_ok _ a (Dentry name inull None)); exact Ha|]. cbn [d_name d_parent].
  destruct (open_dentry_ok _ _ a (Dentry name (Obj q) None) w flags mode I4) as (g & s' & Eo & Op); [cbn; apply lookup_insert_eq|done|apply Hu; exact Hr|].
  exists c, w, g, s'. split; [exact Eo|]. do 3 (split; [done|]). by split.
Qed.

(** ** Removing *)

Lemma target_drop s s2 ch d name a r : target s s2 ch d name a r ->
  exists s3, free_dentry s2 a = Ok s3 /\ vfs_inv s3 ch /\ ext s s3 /\ dentries s3 = dentries s.
Proof using Type*. intros []. by eapply drop_dentry. Qed.

(** The state after [vfs_rmdir] or [vfs_unlink] removed [t] from directory [d]. *)
Record removed s s' ch d l1 t l2 ti : Prop := {
  rm_inv : vfs_inv s' (<[d := l1 ++ l2]> ch);
  rm_fs : exists s1 f, ext s s1 /\ unlinked (owned s1) (fs s1) f ch d l1 t l2 ti /\
    inodes (fs s') = inodes f /\ bufs (fs s') = bufs f;
  rm_dentries : dentries s' = dentries s;
  rm_files : files s' = files s
}.

Lemma target_removed s s2 ch d name a r f l1 t l2 ti : target s s2 ch d name a r ->
  ch d = l1 ++ t :: l2 -> unlinked (owned s2) (fs s2) f ch d l1 t l2 ti ->
  exists s', free_dentry (with_fs s2 f) a = Ok s' /\ removed s s' ch d l1 t l2 ti.
Proof using Type*.
  intros T Hch U. pose proof (inv_unlinked s2 ch d f l1 t l2 ti (tg_inv _ _ _ _ _ _ _ T) Hch U) as I.
  destruct (free_dentry_spec (with_fs s2 f) _ a (Dentry name r None) I) as (s' & E & I' & D & F1 & F2 & _ & _ & _ & F3 & _).
  - cbn. rewrite (tg_dentries _ _ _ _ _ _ _ T). apply lookup_insert_eq.
  - apply T.
  - exists s'. split; [exact E|]. split; [done| | |].
    + exists s2, f. split; [apply T|done].
    + rewrite D. cbn. rewrite (tg_dentries _ _ _ _ _ _ _ T). apply delete_insert_id, T.
    + rewrite F3. apply (ex_files _ _ (tg_ext _ _ _ _ _ _ _ T)).
Qed.

(** The body of [vfs_rmdir] and [vfs_unlink] after the last component was looked up. *)
Lemma remove_step dir s s0 ch path c d name : vfs_lookup_parent s path = Ok (Some (c, name), s0) ->
  vfs_inv s0 ch -> points s0 c d -> room 2 s0 = true ->
  exists p a s2 r, stands_for (fs s2) (d_inode p) d /\ target s0 s2 ch d name a r /\
    vfs_remove dir s path =
      if is_null r then s ← free_dentry s2 a; Ok (- ENOENT, s)
      else
        v ← get_vnode (fs s2) r;
        if negb (Bool.eqb (S_ISDIR (i_mode v)) dir) then
          s ← free_dentry s2 a; Ok (- (if dir then ENOTDIR else EISDIR), s)
        else
          r ← (if dir then ramfs_rmdir else ramfs_unlink) (fs s2) (d_inode p) name;
          let '(ret, f) := r in
          s ← free_dentry (with_fs s2 f) a;
          Ok (ret, s).
Proof using Type*.
  intros E I Hp Hr. destruct (lookup_target_ok s0 ch c d name 0 I Hp Hr) as (a & r & s2 & Et & Ha & T & _).
  destruct (points_ext _ _ _ _ (tg_ext _ _ _ _ _ _ _ T) Hp) as (p & Hp2 & Hst & _). exists p, a, s2, r. do 2 (split; [done|]).
  destruct Hst as (_ & v & Hv & [o Hop] & _).
  unfold vfs_remove. rewrite E, bind_ok. cbv beta iota zeta. rewrite Et, bind_ok. cbv beta iota zeta.
  rewrite (proj2 (Z.eqb_neq _ _) Ha). destruct (is_null r); [done|]. destruct (get_vnode (fs s2) r); [|done..].
  rewrite !bind_ok. case_match; [done|]. by rewrite Hp2, bind_ok, Hv, bind_ok, Hop.
Qed.

(** The two operations of the file system, on a name that is there. *)
Lemma ramfs_remove_found (dir : bool) s ch r v di name t ti : vfs_inv s ch -> get_vnode (fs s) r = Ok v ->
  inodes (fs s) !! i_private v = Some di -> first_named (fs s) name (ch (i_private v)) = t -> t <> 0 ->
  inodes (fs s) !! t = Some ti -> S_ISDIR (r_mode ti) = dir ->
  exists l1 l2, ch (i_private v) = l1 ++ t :: l2 /\ r_name ti = name /\
    if decide (ch t = []) then exists f, (if dir then ramfs_rmdir else ramfs_unlink) (fs s) r name = Ok (0, f) /\
                                 unlinked (owned s) (fs s) f ch (i_private v) l1 t l2 ti
    else (if dir then ramfs_rmdir else ramfs_unlink) (fs s) r name = Ok (- ENOTEMPTY, fs s).
Proof using Type*.
  intros I Hv Hd <- Ht Hti Hdir. destruct dir.
  - destruct (ramfs_rmdir_spec (fs s) ch r v di name (vi_ram _ _ I) Hv Hd) as [[E0 _]|(l1 & l2 & i & _ & Hc & Hi & Hn & _ & Hres)]; [done|].
    assert (i = ti) as -> by congruence. rewrite Hdir in Hres. by exists l1, l2.
  - destruct (ramfs_unlink_spec (fs s) ch r v di name (vi_ram _ _ I) Hv Hd) as [[E0 _]|(l1 & l2 & i & _ & Hc & Hi & Hn & _ & Hres)]; [done|].
    assert (i = ti) as -> by congruence. rewrite Hdir in Hres. exists l1, l2. do 2 (split; [done|]).
    rewrite decide_True by (by apply (ri_dir _ _ (vi_ram _ _ I) _ ti)). done.
Qed.

Lemma remove_found dir s s0 ch path c d name (t := first_named (fs s0) name (ch d)) :
  vfs_lookup_parent s path = Ok (Some (c, name), s0) -> vfs_inv s0 ch -> points s0 c d -> room 2 s0 = true ->
  (t = 0 /\ exists s', vfs_remove dir s path = Ok (- ENOENT, s') /\ vfs_inv s' ch /\ ext s0 s') \/
  (t <> 0 /\ exists ti, inodes (fs s0) !! t = Some ti /\
     if negb (Bool.eqb (S_ISDIR (r_mode ti)) dir) then
       exists s', vfs_remove dir s path = Ok (- (if dir then ENOTDIR else EISDIR), s') /\ vfs_inv s' ch /\ ext s0 s'
     else if decide (ch t = []) then
       exists l1 l2 s', vfs_remove dir s path = Ok (0, s') /\ ch d = l1 ++ t :: l2 /\ removed s0 s' ch d l1 t l2 ti
     else exists s', vfs_remove dir s path = Ok (- ENOTEMPTY, s') /\ vfs_inv s' ch /\ ext s0 s').
Proof using Type*.
  intros E I Hp Hr. destruct (remove_step dir s s0 ch path c d name E I Hp Hr) as (p & a & s2 & r & Hst & T & ->).
  destruct (target_drop _ _ _ _ _ _ _ T) as (s3 & Ef & I3 & X3 & _).
  pose proof (tg_inv _ _ _ _ _ _ _ T) as I2. pose proof (tg_ext _ _ _ _ _ _ _ T) as X2.
  destruct (tg_found _ _ _ _ _ _ _ T) as [[Ht ->]|(ti & Ht & Hti & Hn & Hg)].
  { left. split; [done|]. rewrite Ef. by exists s3. }
  right. fold t in Ht, Hti, Hg. split; [done|]. exists ti. split; [done|].
  rewrite Hn, Hg, bind_ok. cbn [i_mode vnode_of].
  destruct (Bool.eqb (S_ISDIR (r_mode ti)) dir) eqn:Ed; cbn [negb]; [|rewrite Ef; by exists s3].
  apply Bool.eqb_prop in Ed. destruct Hp as (_ & _ & _ & di & Hdi). rewrite <- (ex_inodes _ _ X2) in Hdi, Hti.
  destruct Hst as (_ & v & Hv & _ & <-).
  destruct (ramfs_remove_found dir s2 ch (d_inode p) v di name t ti I2 Hv Hdi) as (l1 & l2 & Hch & _ & Hres); try done.
  { apply first_named_ext, X2. }
  case_decide as Hct.
  - destruct Hres as (f & -> & U). rewrite bind_ok. cbv beta iota zeta.
    destruct (target_removed _ _ _ _ _ _ _ _ _ _ _ _ T Hch U) as (s' & -> & R). by exists l1, l2, s'.
  - rewrite Hres, bind_ok. cbv beta iota zeta. replace (with_fs s2 (fs s2)) with s2 by (by destruct s2).
    rewrite Ef. by exists s3.
Qed.
End vfs_open.
