(* ===== verification/VfsTheorems.v ===== *)
(** * The virtual file system switch: properties *)
From S2P Require Import Prelude DList AllocSpec Kmalloc KmallocSpec Ramfs RamfsInv RamfsOps RamfsData RamfsDir.
From S2P Require Import RamfsTheorems Vfs VfsSpec.
#[local] Open Scope Z_scope.

Section vfs_lemmas.
Context {A : Type} `{AllocatorLaws A}.
Implicit Types (s : vfs A) (ch : Z -> list Z) (d a f : Z).

(** ** Mounting *)

Lemma mount_ok s ch source t : vfs_inv s ch -> find_filesystem s ramfs_name = Some t ->
  t_mount t = Some ramfs_mount -> Z.of_nat (length (mounts s)) < MAX_MOUNTS ->
  exists e s', vfs_mount s source [SLASH] ramfs_name = Ok (e, s') /\ dentries s' = dentries s /\ files s' = files s /\
    ((e = - EIO /\ room 1 s = false /\ vfs_inv s' ch /\ root_dentry s' = root_dentry s) \/
     (e = 0 /\ vfs_inv s' ch /\ root_dentry s' = Some RootD /\ length (mounts s') = S (length (mounts s)) /\
        inodes (fs s) !! root_of s' = None /\ ch (root_of s') = [] /\
        exists i, inodes (fs s') = <[root_of s' := i]> (inodes (fs s)) /\ S_ISDIR (r_mode i) = true)).
Proof using Type*.
  intros I Ht Hm Hl. unfold vfs_mount. rewrite Ht, (proj2 (Z.leb_gt _ _) Hl), Hm.
  destruct (ramfs_mount_spec (fs s) ch (vi_ram _ _ I)) as (ok & g & -> & R & Hv & Hb & Hno & Hok). rewrite bind_ok.
  cbv beta iota zeta. destruct ok; cbn [negb].
  - destruct (Hok eq_refl) as (Hop & root & i & _ & Hr0 & Hi & Hnew & Hdir & Hch & Hpr & _).
    exists 0. eexists. split; [done|]. do 2 (split; [done|]). right. split; [done|].
    destruct I as [I1 I2 I3 I4 I5]. split; [split; cbn; try done|].
    + intros a x Ha. destruct (I3 a x Ha) as [?|[v Hg]]; [by left|right]. destruct (d_inode x) as [|b]; [by eexists|].
      exists v. revert Hg. simpl. by rewrite Hv.
    + split; [done|]. split; [done| |].
      * exists i. rewrite Hpr, Hi. by rewrite lookup_insert_eq.
      * intros d Hin. rewrite Hpr in Hin. destruct (ri_parent _ _ I1 d root Hin) as (c & Hc & _). congruence.
    + split; [done|]. unfold root_of. cbn. rewrite Hpr. split; [rewrite length_app; simpl; lia|].
      do 2 (split; [done|]). by exists i.
  - destruct (Hno eq_refl) as (Hi & Hrv & Hpoor). exists (- EIO), (with_fs s g). split; [done|].
    do 2 (split; [done|]). left. split; [done|]. split; [done|]. split; [|done].
    apply (inv_with_fs s ch ch g I R Hrv); [by rewrite Hv|]. by rewrite Hrv, Hi.
Qed.

(** ** Opening *)

(** What opening [path] (a directory [d] and a [name] in it) does. *)
Definition open_outcome s s' ch d name flags mode (res : outcome (Z * vfs A)) : Prop :=
  let t := first_named (fs s) name (ch d) in
  if decide (t = 0) then
    if Z.land flags O_CREAT =? 0 then res = Ok (0, s') /\ vfs_inv s' ch /\ ext s s'
    else exists f a v c s1 s2, res = Ok (f, s') /\ ext s s1 /\
      linked (owned s1) (fs s1) (fs s2) ch d c (Z.lor S_IFREG mode) name /\ root_dentry s2 = root_dentry s1 /\ files s2 = files s1 /\
      opened s2 s' (<[d := c :: ch d]> ch) f a v flags mode /\
      c <> 0 /\ i_private v = c /\ i_fop v = Some ramfs_file_ops
  else exists f a c s1, res = Ok (f, s') /\ inodes (fs s) !! t = Some c /\ ext s s1 /\
    opened s1 s' ch f a (vnode_of t c) flags mode.

Lemma open_outcome_ext s s0 s' ch d name flags mode res : ext s s0 ->
  open_outcome s0 s' ch d name flags mode res -> open_outcome s s' ch d name flags mode res.
Proof using Type.
  intros X. unfold open_outcome. rewrite (first_named_ext (fs s)) by apply X. rewrite (ex_inodes _ _ X).
  case_decide; [case_match|].
  - intros (? & ? & ?). do 2 (split; [done|]). by eapply ext_trans.
  - intros (f & a & v & c & s1 & s2 & ? & ? & ?). exists f, a, v, c, s1, s2. split; [done|]. split; [by eapply ext_trans|done].
  - intros (f & a & c & s1 & ? & ? & ? & ?). exists f, a, c, s1. do 2 (split; [done|]). split; [by eapply ext_trans|done].
Qed.

Lemma open_lost s ch path init name flags mode : vfs_inv s ch -> is_Some (root_dentry s) ->
  components path = init ++ [name] -> room (2 * length init + 5) s = true ->
  walk (fs s) ch (root_of s) init = None ->
  exists s', vfs_open s path flags mode = Ok (0, s') /\ vfs_inv s' ch /\ ext s s'.
Proof using Type*.
  intros I Hroot Hc Hr Hw. destruct (lookup_parent_ok s ch path init name 5 I Hroot Hc Hr) as (s0 & I0 & X0 & E).
  rewrite Hw in E. exists s0. split; [|done]. apply (open_nowhere s s0 path init name); try done. by intros ->.
Qed.

Lemma open_ok s ch path init name flags mode d di : vfs_inv s ch -> is_Some (root_dentry s) ->
  components path = init ++ [name] -> Forall (fun x => x <> 0) path -> room (2 * length init + 5) s = true ->
  walk (fs s) ch (root_of s) init = Some d -> inodes (fs s) !! d = Some di -> S_ISDIR (r_mode di) = true ->
  exists s', open_outcome s s' ch d name flags mode (vfs_open s path flags mode).
Proof using Type*.
  intros I Hroot Hc Hz Hr Hw Hdi Hdir.
  destruct (lookup_parent_ok s ch path init name 5 I Hroot Hc Hr) as (s0 & I0 & X0 & E). rewrite Hw in E.
  destruct E as (c & E & Hp & Hr0).
  destruct (open_step s s0 ch path c d name 3 flags mode) as (p & a & s2 & r & Hst & T & Hk & Eo); try done.
  { intros ->. by destruct init. }
  assert (forall s' res, open_outcome s0 s' ch d name flags mode res -> open_outcome s s' ch d name flags mode res) as Hx
    by (intros s' res; by apply open_outcome_ext).
  rewrite Eo. clear Eo. destruct (decide (first_named (fs s0) name (ch d) = 0)) as [Ht|Ht].
  - destruct (tg_found _ _ _ _ _ _ _ T) as [[_ ->]|(? & ? & _)]; [|done]. cbn [is_null].
    destruct (Z.land flags O_CREAT =? 0) eqn:Ec.
    + destruct (target_drop _ _ _ _ _ _ _ T) as (s3 & Ef & I3 & X3 & _). exists s3. apply Hx. unfold open_outcome.
      rewrite decide_True by done. by rewrite Ef, Ec.
    + assert (inodes (fs s2) !! d = Some di) as Hd2.
      { by rewrite (ex_inodes _ _ (tg_ext _ _ _ _ _ _ _ T)), (ex_inodes _ _ X0). }
      destruct (open_create s0 s2 ch d name a p flags mode di T Hst Hd2 Hdir (components_names _ _ _ Hc Hz) Hk)
        as (v & ret & ino & g & s3 & Hv & [o Hop] & Ecr & -> & Esi & c' & w & f & s' & Eod & L & Hrd & Hfl & O & Hc' & Hpv & Hfop).
      exists s'. apply Hx. unfold open_outcome. rewrite decide_True by done. rewrite Ec.
      rewrite Hv, bind_ok, Hop. cbn [of_option]. rewrite bind_ok, Ecr, bind_ok. cbv beta iota zeta. cbn [negb Z.eqb].
      rewrite Esi, bind_ok, Eod. exists f, a, w, c', s2, s3. split; [done|]. split; [apply T|]. done.
  - destruct (open_found s2 s0 ch d name a r flags mode T (room_mono 1 3 _ ltac:(lia) Hk) Ht)
      as (Hn & c' & f & s' & Hc' & Eod & O).
    rewrite Hn. exists s'. apply Hx. unfold open_outcome. rewrite decide_False by done. exists f, a, c', s2.
    split; [done|]. split; [done|]. split; [apply T|done].
Qed.

(** A path that goes through a regular file at its last step: the file has no entries, but with [O_CREAT] a file is made all the same. *)
Lemma open_in_file s ch path init name flags mode d di : vfs_inv s ch -> is_Some (root_dentry s) ->
  components path = init ++ [name] -> room (2 * length init + 5) s = true ->
  walk (fs s) ch (root_of s) init = Some d -> inodes (fs s) !! d = Some di -> S_ISDIR (r_mode di) = false ->
  exists s', if Z.land flags O_CREAT =? 0 then vfs_open s path flags mode = Ok (0, s') /\ vfs_inv s' ch /\ ext s s'
    else exists f a v c s1 s2, vfs_open s path flags mode = Ok (f, s') /\ ext s s1 /\ orphaned (owned s1) (fs s1) (fs s2) ch c (Z.lor S_IFREG mode) name /\
      opened s2 s' ch f a v flags mode /\ c <> 0 /\ i_private v = c.
Proof using Type*.
  intros I Hroot Hc Hr Hw Hdi Hdir.
  destruct (lookup_parent_ok s ch path init name 5 I Hroot Hc Hr) as (s0 & I0 & X0 & E). rewrite Hw in E.
  destruct E as (c & E & Hp & Hr0).
  destruct (open_step s s0 ch path c d name 3 flags mode) as (p & a & s2 & r & Hst & T & Hk & ->); try done.
  { intros ->. by destruct init. }
  assert (first_named (fs s0) name (ch d) = 0) as Ht by (by rewrite (ri_dir _ _ (vi_ram _ _ I) d di Hdi Hdir)).
  destruct (tg_found _ _ _ _ _ _ _ T) as [[_ ->]|(? & ? & _)]; [|done]. cbn [is_null]. destruct (Z.land flags O_CREAT =? 0).
  - destruct (target_drop _ _ _ _ _ _ _ T) as (s3 & Ef & I3 & X3 & _). exists s3. rewrite Ef, bind_ok. split; [done|]. split; [done|]. by eapply ext_trans.
  - assert (inodes (fs s2) !! d = Some di) as Hd2 by (by rewrite (ex_inodes _ _ (tg_ext _ _ _ _ _ _ _ T)), (ex_inodes _ _ X0)).
    destruct (open_orphan s0 s2 ch d name a p flags mode di T Hst Hd2 Hdir Hk) as (v & ino & g & s3 & Hv & [o Hop] & Ecr & Esi & c' & w & f & s' & Eod & L & _ & _ & O & Hc' & Hpv).
    exists s', f, a, w, c', s2, s3. rewrite Hv, bind_ok, Hop. cbn [of_option]. rewrite bind_ok, Ecr, bind_ok. cbv beta iota zeta. cbn [negb Z.eqb]. rewrite Esi, bind_ok.
    split; [exact Eod|]. split; [eapply ext_trans; [exact X0|apply T]|done].
Qed.

(** ** Reading and writing *)

Lemma inv_written s ch p i buf pos junk g : vfs_inv s ch -> inodes (fs s) !! p = Some i ->
  written (owned s) (fs s) g ch p i buf pos junk -> vfs_inv (with_fs s g) ch.
Proof using Type*.
  intros I Hp W. apply (inv_with_fs s ch ch g I); try apply W.
  - by rewrite (wr_vnodes _ _ _ _ _ _ _ _ W).
  - apply root_ok_same; [apply W|]. intros q j Hq. destruct (decide (q = p)) as [->|Hne].
    + assert (j = i) as -> by congruence. destruct (wr_inode _ _ _ _ _ _ _ _ W) as (i' & Hi' & _ & _ & Hm & _). eauto.
    + destruct (wr_others _ _ _ _ _ _ _ _ W q j Hne Hq) as [Hj _]. eauto.
Qed.

Lemma file_nonnull s ch f x : vfs_inv s ch -> files s !! f = Some x -> f <> 0.
Proof using Type*.
  intros I Hx. destruct (ri_foreign _ _ (vi_ram _ _ I) f) as (Hl & _).
  - unfold owned. apply elem_of_union. right. by apply elem_of_dom.
  - by eapply live_nonnull; [apply I|].
Qed.

Lemma file_inode_ok s ch f x : vfs_inv s ch -> files s !! f = Some x -> exists r, file_inode s x = Ok r.
Proof using Type*.
  intros I Hx. pose proof (vi_file _ _ I f x Hx) as Hd. unfold file_inode.
  destruct (f_dentry x) as [[|b]|]; [by eexists| |by eexists]. destruct Hd as [y Hy]. simpl. rewrite Hy. by eexists.
Qed.

(** The state after a write through the open file [f]. *)
Record file_written s s' ch f x i buf junk : Prop := {
  fw_inv : vfs_inv s' ch;
  fw_files : files s' = <[f := with_pos x (f_pos x + Z.of_nat (length buf))]> (files s);
  fw_dentries : dentries s' = dentries s;
  fw_fs : written (owned s) (fs s) (fs s') ch (private_data x) i buf (f_pos x) junk
}.

Lemma vfs_write_ok s ch f x i buf junk : vfs_inv s ch -> files s !! f = Some x -> f_op x = Some ramfs_file_ops ->
  inodes (fs s) !! private_data x = Some i -> 0 <= f_pos x ->
  f_pos x + Z.of_nat (length buf) < 2 ^ 63 - 4096 ->
  (r_cap i < f_pos x + Z.of_nat (length buf) -> Z.of_nat (length junk) = grown_cap (f_pos x + Z.of_nat (length buf))) ->
  exists r s', vfs_write s f (Some buf) junk = Ok (r, s') /\
    (r = - ENOMEM /\ vfs_inv s' ch /\ unchanged (fs s) (fs s') /\ files s' = files s \/
     r = Z.of_nat (length buf) /\ file_written s s' ch f x i buf junk).
Proof using Type*.
  intros I Hx Hop Hi Hpos Hmax Hj. unfold vfs_write, get_file.
  rewrite (proj2 (Z.eqb_neq _ _) (file_nonnull _ _ _ _ I Hx)), Hx. cbn [of_option]. rewrite bind_ok, Hop. cbn [has_write].
  destruct (write_spec (fs s) ch (private_data x) i buf (f_pos x) junk (vi_ram _ _ I) Hi Hpos Hmax Hj)
    as [(g & -> & R & U)|(g & -> & W)]; rewrite bind_ok; cbv beta iota zeta; do 2 eexists; (split; [done|]); [left|right].
  - split; [done|]. assert (set_file (with_fs s g) f (with_pos x (f_pos x)) = with_fs s g) as ->.
    { unfold set_file, with_files, with_fs. cbn. f_equal. replace (with_pos x (f_pos x)) with x by (by destruct x).
      by apply insert_id. }
    split; [|done]. pose proof U as (Hi2 & Hb & Hv & Hrv & _). apply (inv_with_fs s ch ch g I R Hrv); [by rewrite Hv|].
    by rewrite Hi2, Hrv.
  - split; [done|]. split; try done. apply (inv_set_file (with_fs s g) ch f x); [|done|done].
    by apply (inv_written s ch (private_data x) i buf (f_pos x) junk).
Qed.

Lemma lseek_set_ok s ch f x off : vfs_inv s ch -> files s !! f = Some x -> 0 <= off ->
  vfs_lseek s f off SEEK_SET = Ok (off, set_file s f (with_pos x off)) /\ vfs_inv (set_file s f (with_pos x off)) ch.
Proof using Type*.
  intros I Hx Hoff. destruct (file_inode_ok s ch f x I Hx) as [r Hr]. unfold vfs_lseek, get_file.
  rewrite (proj2 (Z.eqb_neq _ _) (file_nonnull _ _ _ _ I Hx)), Hx. cbn [of_option]. rewrite bind_ok, Hr, bind_ok.
  rewrite Z.eqb_refl, bind_ok. rewrite (proj2 (Z.ltb_ge _ _) Hoff). split; [done|]. by apply (inv_set_file s ch f x).
Qed.

Lemma vfs_read_ok s ch f x i b count : vfs_inv s ch -> files s !! f = Some x -> f_op x = Some ramfs_file_ops ->
  inodes (fs s) !! private_data x = Some i -> 0 <= f_pos x -> b <> 0 -> 0 <= count ->
  let bs := take (Z.to_nat count) (drop (Z.to_nat (f_pos x)) (file_bytes (fs s) i)) in
  vfs_read s f b count = Ok (Z.of_nat (length bs), bs, set_file s f (with_pos x (f_pos x + Z.of_nat (length bs)))).
Proof using Type*.
  intros I Hx Hop Hi Hpos Hb Hc bs. unfold vfs_read, get_file.
  rewrite (proj2 (Z.eqb_neq _ _) (file_nonnull _ _ _ _ I Hx)), (proj2 (Z.eqb_neq _ _) Hb), Hx. cbn [of_option].
  rewrite bind_ok, Hop. cbn [has_read].
  by rewrite (read_spec (fs s) ch (private_data x) i count (f_pos x) (vi_ram _ _ I) Hi Hpos Hc), bind_ok.
Qed.

(** Reading back what was spliced in. *)
Lemma spliced_read c tl buf pos : (pos <= length c + length tl)%nat ->
  take (length buf) (drop pos (spliced c tl buf pos)) = buf.
Proof using Type.
  intros Hl. unfold spliced. rewrite app_assoc.
  assert (length (take pos c ++ take (pos - length c) tl) = pos) as Hp by (rewrite length_app, !length_take; lia).
  rewrite <- Hp at 1. rewrite drop_app_length. by rewrite take_app_length.
Qed.

Lemma tail_after_length s ch p i n junk : vfs_inv s ch -> inodes (fs s) !! p = Some i -> 0 <= n ->
  (r_cap i < n -> Z.of_nat (length junk) = grown_cap n) ->
  (Z.to_nat n <= length (file_bytes (fs s) i) + length (tail_after (fs s) i n junk))%nat.
Proof using Type*.
  intros I Hp Hn Hj. pose proof (file_bytes_length (fs s) ch p i (vi_ram _ _ I) Hp).
  pose proof (raw_length (fs s) ch p i (vi_ram _ _ I) Hp). pose proof (ri_size _ _ (vi_ram _ _ I) p i Hp).
  pose proof (grown_cap_ge n Hn). unfold tail_after. rewrite length_drop.
  destruct (Z.ltb_spec (r_cap i) n); lia.
Qed.

Lemma reread s s1 ch f x i buf junk b : vfs_inv s ch -> files s !! f = Some x -> f_op x = Some ramfs_file_ops ->
  inodes (fs s) !! private_data x = Some i -> 0 <= f_pos x -> b <> 0 ->
  (r_cap i < f_pos x + Z.of_nat (length buf) -> Z.of_nat (length junk) = grown_cap (f_pos x + Z.of_nat (length buf))) ->
  file_written s s1 ch f x i buf junk ->
  exists s2 s3, vfs_lseek s1 f (f_pos x) SEEK_SET = Ok (f_pos x, s2) /\ vfs_inv s2 ch /\
    vfs_read s2 f b (Z.of_nat (length buf)) = Ok (Z.of_nat (length buf), buf, s3) /\ vfs_inv s3 ch.
Proof using Type*.
  intros I Hf Hop Hi Hpos Hb Hj W. set (n := f_pos x + Z.of_nat (length buf)) in *.
  assert (files s1 !! f = Some (with_pos x n)) as Hf1 by (rewrite (fw_files _ _ _ _ _ _ _ _ W); apply lookup_insert_eq).
  destruct (lseek_set_ok s1 ch f _ (f_pos x) (fw_inv _ _ _ _ _ _ _ _ W) Hf1 Hpos) as [E2 I2].
  change (with_pos (with_pos x n) (f_pos x)) with (with_pos x (f_pos x)) in E2, I2.
  set (s2 := set_file s1 f (with_pos x (f_pos x))) in *.
  assert (files s2 !! f = Some (with_pos x (f_pos x))) as Hf2 by apply lookup_insert_eq.
  destruct (wr_inode _ _ _ _ _ _ _ _ (fw_fs _ _ _ _ _ _ _ _ W)) as (i' & Hi' & _ & _ & _ & _ & Hbytes).
  pose proof (vfs_read_ok s2 ch f _ i' b (Z.of_nat (length buf)) I2 Hf2 Hop Hi' Hpos Hb ltac:(lia)) as R.
  pose proof (tail_after_length s ch _ i n junk I Hi ltac:(lia) Hj) as Hl.
  change (fs s2) with (fs s1) in R. cbn [f_pos with_pos] in R. rewrite Hbytes, Nat2Z.id in R.
  rewrite spliced_read in R by (fold n; lia). exists s2. eexists. do 2 (split; [done|]). split; [exact R|].
  by apply (inv_set_file s2 ch f (with_pos x (f_pos x))).
Qed.

(** ** Removing *)

Lemma remove_ok dir s ch path init name : vfs_inv s ch -> is_Some (root_dentry s) ->
  components path = init ++ [name] -> room (2 * length init + 2) s = true ->
  exists s', match walk (fs s) ch (root_of s) init with
    | None => vfs_remove dir s path = Ok (- ENOENT, s') /\ vfs_inv s' ch /\ ext s s'
    | Some d => let t := first_named (fs s) name (ch d) in
        if decide (t = 0) then vfs_remove dir s path = Ok (- ENOENT, s') /\ vfs_inv s' ch /\ ext s s'
        else exists ti, inodes (fs s) !! t = Some ti /\
          if negb (Bool.eqb (S_ISDIR (r_mode ti)) dir) then
            vfs_remove dir s path = Ok (- (if dir then ENOTDIR else EISDIR), s') /\ vfs_inv s' ch /\ ext s s'
          else if decide (ch t = []) then exists l1 l2 s0, vfs_remove dir s path = Ok (0, s') /\ ext s s0 /\
            ch d = l1 ++ t :: l2 /\ removed s0 s' ch d l1 t l2 ti
          else vfs_remove dir s path = Ok (- ENOTEMPTY, s') /\ vfs_inv s' ch /\ ext s s'
    end.
Proof using Type*.
  intros I Hroot Hc Hr. destruct (lookup_parent_ok s ch path init name 2 I Hroot Hc Hr) as (s0 & I0 & X0 & E).
  destruct (walk (fs s) ch (root_of s) init) as [d|].
  - destruct E as (c & E & Hp & Hr0). cbv zeta.
    pose proof (remove_found dir s s0 ch path c d name E I0 Hp Hr0) as Hrm. cbv zeta in Hrm.
    rewrite (first_named_ext (fs s)) in Hrm by apply X0. rewrite (ex_inodes _ _ X0) in Hrm.
    destruct Hrm as [[Ht (s' & ? & ? & ?)]|(Ht & ti & Hti & Hrm)].
    { exists s'. rewrite decide_True by done. do 2 (split; [done|]). by eapply ext_trans. }
    case_match eqn:Ed; [|case_decide].
    + destruct Hrm as (s' & ? & ? & ?). exists s'. rewrite (decide_False (P := _ = 0)) by done. exists ti. rewrite Ed. do 3 (split; [done|]). by eapply ext_trans.
    + destruct Hrm as (l1 & l2 & s' & ? & ? & ?). exists s'. rewrite (decide_False (P := _ = 0)) by done. exists ti. rewrite Ed. split; [done|].
      by exists l1, l2, s0.
    + destruct Hrm as (s' & ? & ? & ?). exists s'. rewrite (decide_False (P := _ = 0)) by done. exists ti. rewrite Ed. do 3 (split; [done|]).
      by eapply ext_trans.
  - exists s0. unfold vfs_remove. by rewrite E, bind_ok.
Qed.
End vfs_lemmas.

(** ** Properties *)

Section vfs_properties.
Context {A : Type} `{AllocatorLaws A}.
Implicit Types (s : vfs A) (ch : Z -> list Z) (d a f : Z).

(** C3. Path lookup agrees with walking the tree: for a path whose components are
    [init] and a last [name], [vfs_lookup_parent] returns exactly when walking
    [init] from the root reaches an inode [d] the name together with a dentry that
    stands for [d], and null otherwise.  It always returns; files,
    directories, buffers and open files are unchanged, only dentries and VFS inodes
    are added.  It needs at most two objects for each component it walks. *)
Theorem vfs_lookup_parent_correct s ch path init name (Hinv : vfs_inv s ch) (Hroot : is_Some (root_dentry s))
    (Hpath : components path = init ++ [name]) (Hroom : room (2 * length init) s = true) :
  exists s', vfs_inv s' ch /\ ext s s' /\
    match walk (fs s) ch (root_of s) init with
    | None => vfs_lookup_parent s path = Ok (None, s')
    | Some d => exists c, vfs_lookup_parent s path = Ok (Some (c, name), s') /\ points s' c d
    end.
Proof using Type*.
  destruct (lookup_parent_ok s ch path init name 0 Hinv Hroot Hpath ltac:(by rewrite Nat.add_0_r)) as (s' & I & X & E).
  exists s'. do 2 (split; [done|]). case_match; [|done]. destruct E as (c & E & Hp & _). by exists c.
Qed.

(** C2. Opening a path.  When its directory does not exist, the result is null.
    When the name is there, the result is a new open file at position 0 on the first
    inode of that name, with the operations of its type.  When it is not there,
    the result is null without [O_CREAT], and with it a new empty file is linked
    into the directory and opened.  When the path leads through a regular file instead of a
    directory, the result is null without [O_CREAT]; with it, where POSIX has ENOTDIR, a new empty
    file is made that no directory has, and opened.  In every case the invariant of the files,
    dentries and the file system holds again.  Five objects, and two for each
    directory of the path, are all it allocates. *)
Theorem vfs_open_correct s ch path init name flags mode (Hinv : vfs_inv s ch) (Hroot : is_Some (root_dentry s))
    (Hpath : components path = init ++ [name]) (Hnz : Forall (fun x => x <> 0) path)
    (Hroom : room (2 * length init + 5) s = true) :
  (walk (fs s) ch (root_of s) init = None ->
     exists s', vfs_open s path flags mode = Ok (0, s') /\ vfs_inv s' ch /\ ext s s') /\
  (forall d di, walk (fs s) ch (root_of s) init = Some d -> inodes (fs s) !! d = Some di -> S_ISDIR (r_mode di) = true ->
     let t := first_named (fs s) name (ch d) in
     (t <> 0 -> exists f a c s1 s', vfs_open s path flags mode = Ok (f, s') /\ inodes (fs s) !! t = Some c /\
        ext s s1 /\ opened s1 s' ch f a (vnode_of t c) flags mode) /\
     (t = 0 -> Z.land flags O_CREAT = 0 ->
        exists s', vfs_open s path flags mode = Ok (0, s') /\ vfs_inv s' ch /\ ext s s') /\
     (t = 0 -> Z.land flags O_CREAT <> 0 -> exists f a v c s1 s2 s', vfs_open s path flags mode = Ok (f, s') /\
        ext s s1 /\ linked (owned s1) (fs s1) (fs s2) ch d c (Z.lor S_IFREG mode) name /\
        opened s2 s' (<[d := c :: ch d]> ch) f a v flags mode /\
        c <> 0 /\ i_private v = c /\ i_fop v = Some ramfs_file_ops)) /\
  (forall d di, walk (fs s) ch (root_of s) init = Some d -> inodes (fs s) !! d = Some di -> S_ISDIR (r_mode di) = false ->
     (Z.land flags O_CREAT = 0 -> exists s', vfs_open s path flags mode = Ok (0, s') /\ vfs_inv s' ch /\ ext s s') /\
     (Z.land flags O_CREAT <> 0 -> exists f a v c s1 s2 s', vfs_open s path flags mode = Ok (f, s') /\
        ext s s1 /\ orphaned (owned s1) (fs s1) (fs s2) ch c (Z.lor S_IFREG mode) name /\
        opened s2 s' ch f a v flags mode /\ c <> 0 /\ i_private v = c)).
Proof using Type*.
  split; [exact (open_lost s ch path init name flags mode Hinv Hroot Hpath Hroom)|]. split.
  2: { intros d di Hw Hdi Hdir. destruct (open_in_file s ch path init name flags mode d di Hinv Hroot Hpath Hroom Hw Hdi Hdir) as (s' & O). split; intros Hc.
       - rewrite Hc in O. by exists s'.
       - apply Z.eqb_neq in Hc. rewrite Hc in O. destruct O as (f & a & v & c & s1 & s2 & O). by exists f, a, v, c, s1, s2, s'. }
  intros d di Hw Hdi Hdir t.
  destruct (open_ok s ch path init name flags mode d di Hinv Hroot Hpath Hnz Hroom Hw Hdi Hdir) as (s' & O).
  unfold open_outcome in O. fold t in O. split; [|split].
  - intros Ht. rewrite decide_False in O by done. destruct O as (f & a & c & s1 & O). by exists f, a, c, s1, s'.
  - intros Ht Hc. rewrite decide_True in O by done. rewrite Hc in O. by exists s'.
  - intros Ht Hc%Z.eqb_neq. rewrite decide_True in O by done. rewrite Hc in O.
    destruct O as (f & a & v & c & s1 & s2 & E & X & L & _ & _ & O). by exists f, a, v, c, s1, s2, s'.
Qed.

(** [vfs_unlink] and [vfs_rmdir]: ENOENT when the directory or the name does not
    exist, EISDIR or ENOTDIR for the wrong type and ENOTEMPTY for a directory with
    children, all without any change to the tree; otherwise the first entry of
    that name leaves its directory and is freed, every other inode is kept, and the dentry
    made for the call is given back. *)
Theorem vfs_remove_correct (dir : bool) s ch path init name (Hinv : vfs_inv s ch) (Hroot : is_Some (root_dentry s))
    (Hpath : components path = init ++ [name]) (Hroom : room (2 * length init + 2) s = true) :
  exists e s', (if dir then vfs_rmdir else vfs_unlink) s path = Ok (e, s') /\
    let t := match walk (fs s) ch (root_of s) init with Some d => first_named (fs s) name (ch d) | None => 0 end in
    (t = 0 -> e = - ENOENT /\ vfs_inv s' ch /\ ext s s') /\
    (forall ti, inodes (fs s) !! t = Some ti ->
       (S_ISDIR (r_mode ti) <> dir -> e = - (if dir then ENOTDIR else EISDIR) /\ vfs_inv s' ch /\ ext s s') /\
       (S_ISDIR (r_mode ti) = dir -> ch t <> [] -> e = - ENOTEMPTY /\ vfs_inv s' ch /\ ext s s') /\
       (S_ISDIR (r_mode ti) = dir -> ch t = [] -> e = 0 /\ exists d l1 l2 s0,
          walk (fs s) ch (root_of s) init = Some d /\ ext s s0 /\ ch d = l1 ++ t :: l2 /\ removed s0 s' ch d l1 t l2 ti)).
Proof using Type*.
  destruct (remove_ok dir s ch path init name Hinv Hroot Hpath Hroom) as (s' & R).
  replace ((if dir then vfs_rmdir else vfs_unlink) s path) with (vfs_remove dir s path) by (by destruct dir).
  assert (inodes (fs s) !! 0 = None) as Hnull.
  { destruct (inodes (fs s) !! 0) as [i|] eqn:E; [|done]. by destruct (ri_nonnull _ _ 0 i (vi_ram _ _ Hinv) E). }
  destruct (walk (fs s) ch (root_of s) init) as [d|]; cbv zeta in R |- *.
  - case_decide as Ht.
    { destruct R as (E & R). exists (- ENOENT), s'. split; [done|]. split; [done|]. intros ti. rewrite Ht, Hnull. done. }
    destruct R as (ti & Hti & R). case_match eqn:Ed; [|case_decide as Hct].
    + destruct R as (E & R). exists (- (if dir then ENOTDIR else EISDIR)), s'. split; [done|]. split; [done|].
      intros ti' Hti'. assert (ti' = ti) as -> by congruence. split; [done|].
      apply negb_true_iff in Ed. apply Bool.eqb_false_iff in Ed. split; intros ?; done.
    + apply negb_false_iff, Bool.eqb_prop in Ed. destruct R as (l1 & l2 & s0 & E & X & Hch & R).
      exists 0, s'. split; [done|]. split; [done|]. intros ti' Hti'. assert (ti' = ti) as -> by congruence.
      split; [done|]. split; [done|]. intros _ _. split; [done|]. by exists d, l1, l2, s0.
    + apply negb_false_iff, Bool.eqb_prop in Ed. destruct R as (E & R).
      exists (- ENOTEMPTY), s'. split; [done|]. split; [done|].
      intros ti' Hti'. assert (ti' = ti) as -> by congruence. split; [done|]. split; [done|]. done.
  - destruct R as (E & R). exists (- ENOENT), s'. split; [done|]. split; [done|]. intros ti. rewrite Hnull. done.
Qed.

(** Writing to an open file, seeking back and reading returns what was written:
    when the write succeeds (the only failure is ENOMEM, which changes no file), the
    read delivers exactly the bytes of the buffer, and the invariant holds throughout. *)
Theorem vfs_write_seek_read s ch f x i buf junk b (n := f_pos x + Z.of_nat (length buf)) (Hinv : vfs_inv s ch)
    (Hf : files s !! f = Some x) (Hop : f_op x = Some ramfs_file_ops)
    (Hi : inodes (fs s) !! private_data x = Some i) (Hpos : 0 <= f_pos x) (Hmax : n < 2 ^ 63 - 4096)
    (Hjunk : r_cap i < n -> Z.of_nat (length junk) = grown_cap n) (Hb : b <> 0) :
  exists r s1, vfs_write s f (Some buf) junk = Ok (r, s1) /\ vfs_inv s1 ch /\
    (r = - ENOMEM /\ unchanged (fs s) (fs s1) /\ files s1 = files s \/
     r = Z.of_nat (length buf) /\ exists s2 s3, vfs_lseek s1 f (f_pos x) SEEK_SET = Ok (f_pos x, s2) /\ vfs_inv s2 ch /\
       vfs_read s2 f b (Z.of_nat (length buf)) = Ok (Z.of_nat (length buf), buf, s3) /\ vfs_inv s3 ch).
Proof using Type*.
  destruct (vfs_write_ok s ch f x i buf junk Hinv Hf Hop Hi Hpos Hmax Hjunk) as (r & s1 & E & [(-> & I1 & U)|(-> & W)]);
    [exists (- ENOMEM), s1|exists (Z.of_nat (length buf)), s1]; (split; [done|]).
  - split; [done|by left].
  - split; [apply W|]. right. split; [done|]. by apply (reread s s1 ch f x i buf junk b).
Qed.

(** Seeking relative to the end of a file uses the size recorded when the file
    was looked up: after a write that made the file longer, the position reached
    with [SEEK_END] is the old end, inside the file, and not its current end. *)
Theorem vfs_seek_end_stale s ch f x i a y v buf junk (n := f_pos x + Z.of_nat (length buf)) (Hinv : vfs_inv s ch)
    (Hf : files s !! f = Some x) (Hop : f_op x = Some ramfs_file_ops)
    (Hi : inodes (fs s) !! private_data x = Some i) (Hpos : 0 <= f_pos x) (Hmax : n < 2 ^ 63 - 4096)
    (Hjunk : r_cap i < n -> Z.of_nat (length junk) = grown_cap n)
    (Hd : f_dentry x = Some (DObj a)) (Hy : dentries s !! a = Some y) (Hn : is_null (d_inode y) = false)
    (Hv : get_vnode (fs s) (d_inode y) = Ok v) (Hsz : 0 <= i_size v < 2 ^ 63) :
  exists r s1, vfs_write s f (Some buf) junk = Ok (r, s1) /\
    (r = - ENOMEM \/ exists i' s2, inodes (fs s1) !! private_data x = Some i' /\ r_size i' = Z.max (r_size i) n /\
       vfs_lseek s1 f 0 SEEK_END = Ok (i_size v, s2)).
Proof using Type*.
  destruct (vfs_write_ok s ch f x i buf junk Hinv Hf Hop Hi Hpos Hmax Hjunk) as (r & s1 & E & [(-> & _)|(-> & W)]);
    [exists (- ENOMEM), s1|exists (Z.of_nat (length buf)), s1]; (split; [done|]); [by left|right].
  destruct (wr_inode _ _ _ _ _ _ _ _ (fw_fs _ _ _ _ _ _ _ _ W)) as (i' & Hi' & Hs' & _).
  assert (files s1 !! f = Some (with_pos x n)) as Hf1 by (rewrite (fw_files _ _ _ _ _ _ _ _ W); apply lookup_insert_eq).
  assert (get_vnode (fs s1) (d_inode y) = Ok v) as Hv1.
  { eapply get_vnode_mono; [apply W| |exact Hv]. by rewrite (wr_vnodes _ _ _ _ _ _ _ _ (fw_fs _ _ _ _ _ _ _ _ W)). }
  exists i'. eexists. do 2 (split; [done|]). unfold vfs_lseek, get_file.
  rewrite (proj2 (Z.eqb_neq _ _) (file_nonnull _ _ _ _ Hinv Hf)), Hf1. cbn [of_option]. rewrite bind_ok.
  unfold file_inode. cbn [f_dentry with_pos]. rewrite Hd. cbn [get_dentry]. rewrite (fw_dentries _ _ _ _ _ _ _ _ W), Hy.
  cbn [of_option]. rewrite !bind_ok. cbn [Z.eqb Pos.eqb SEEK_END SEEK_SET SEEK_CUR]. rewrite Hn, Hv1, bind_ok. unfold loff_add.
  rewrite Z.add_0_r, (proj2 (Z.leb_le (- 2 ^ 63) (i_size v))), (proj2 (Z.ltb_lt (i_size v) (2 ^ 63))) by lia. cbn [andb]. rewrite !bind_ok.
  by rewrite (proj2 (Z.ltb_ge (i_size v) 0)) by lia.
Qed.

(** Mounting a registered RAM file system at "/" with a free mount slot: the only
    failure is EIO, when there is no room for an inode, and leaves the root as it was;
    otherwise the root dentry stands for a new, empty directory, one mount slot is taken,
    no file is touched, and the invariant that every other operation needs holds. *)
Theorem vfs_mount_root s ch source t (Hinv : vfs_inv s ch) (Ht : find_filesystem s ramfs_name = Some t)
    (Hm : t_mount t = Some ramfs_mount) (Hl : Z.of_nat (length (mounts s)) < MAX_MOUNTS) :
  exists e s', vfs_mount s source [SLASH] ramfs_name = Ok (e, s') /\ files s' = files s /\ vfs_inv s' ch /\
    ((e = - EIO /\ room 1 s = false /\ root_dentry s' = root_dentry s) \/
     (e = 0 /\ root_dentry s' = Some RootD /\ length (mounts s') = S (length (mounts s)) /\
        ch (root_of s') = [] /\ points s' RootD (root_of s'))).
Proof using Type*.
  destruct (mount_ok s ch source t Hinv Ht Hm Hl) as (e & s' & E & _ & Hf & [(-> & Hp & I & Hr)|(-> & I & Hr & Hlen & _ & Hc & _)]);
    do 2 eexists; (split; [exact E|]); do 2 (split; [done|]); [by left|right].
  do 4 (split; [done|]). by apply (points_root s' ch I).
Qed.
End vfs_properties.

(** ** The properties on a concrete system *)

Definition vfs_state {B} (o : outcome (B * vfs Kmalloc.heap)) : vfs Kmalloc.heap :=
  match o with Ok (_, s) => s | _ => Vfs blank_fs ∅ ∅ [] [] None end.
Definition vfs_result {B} (o : outcome (B * vfs Kmalloc.heap)) : option B :=
  match o with Ok (b, _) => Some b | _ => None end.

Lemma vfs_state_ok {B} (b : B) (s t : vfs Kmalloc.heap) (o : outcome (B * vfs Kmalloc.heap)) :
  o = Ok (b, s) -> vfs_state o = t -> s = t.
Proof. intros ->. exact id. Qed.

(** The RAM file system is registered, mounted at "/", and "/f" is created and opened. *)
Definition typed_vfs : vfs Kmalloc.heap := snd (ramfs_init (Vfs blank_fs ∅ ∅ [] [] None)).
Definition booted_vfs : vfs Kmalloc.heap := vfs_state (vfs_mount typed_vfs [] [SLASH] ramfs_name).
Definition path_f : list Z := [SLASH; 102].
Definition open_vfs : vfs Kmalloc.heap := vfs_state (vfs_open booted_vfs path_f O_CREAT 0x1A4).

Lemma typed_inv : vfs_inv typed_vfs (fun _ => []).
Proof.
  split; cbn; try done. exact blank_inv.
Qed.

Lemma booted_inv : vfs_inv booted_vfs (fun _ => []).
Proof.
  destruct (mount_ok typed_vfs (fun _ => []) [] ramfs_fs_type typed_inv eq_refl eq_refl ltac:(done))
    as (e & s' & E & _ & _ & [(_ & _ & I & _)|(_ & I & _)]);
    rewrite <- (vfs_state_ok _ _ booted_vfs _ E eq_refl); exact I.
Qed.

Lemma booted_room : room 5 booted_vfs = true.
Proof. vm_compute. reflexivity. Qed.

Definition root_no : Z := 1107296288.
Definition new_no : Z := 1107297024.
Definition file_f : Z := 1107297600.
Definition dentry_f : Z := 1107296672.
Definition vnode_f : Z := 1107297408.
Definition root_dir (c : Z) : ramfs_inode := RInode 1 0x41ED 0 0 0 0 0 0 c 0 [].
Definition new_inode_f : ramfs_inode := RInode 2 0x81A4 0 0 0 0 0 root_no 0 0 [102].
Definition opened_file : file := File (Some (DObj dentry_f)) (Some ramfs_file_ops) 0 O_CREAT 0x1A4 1 new_no.
Definition tree_f : Z -> list Z := <[root_no := [new_no]]> (fun _ => []).

Lemma path_f_components : components path_f = [] ++ [[102]].
Proof. reflexivity. Qed.

Lemma path_f_chars : Forall (fun x => x <> 0) path_f.
Proof. by repeat constructor. Qed.

Lemma booted_root : is_Some (root_dentry booted_vfs).
Proof. vm_compute. by eexists. Qed.

Lemma booted_root_of : root_of booted_vfs = root_no.
Proof. vm_compute. reflexivity. Qed.

Lemma booted_dir : inodes (fs booted_vfs) !! root_of booted_vfs = Some (root_dir 0).
Proof. rewrite booted_root_of. vm_compute. reflexivity. Qed.

Lemma opened_root_inode : inodes (fs open_vfs) !! root_no = Some (root_dir new_no).
Proof. vm_compute. reflexivity. Qed.

Lemma opened_inode : inodes (fs open_vfs) !! new_no = Some new_inode_f.
Proof. vm_compute. reflexivity. Qed.

Lemma opened_files : files open_vfs !! file_f = Some opened_file.
Proof. vm_compute. reflexivity. Qed.

Lemma opened_inv : vfs_inv open_vfs tree_f.
Proof.
  destruct (open_ok booted_vfs (fun _ => []) path_f [] [102] O_CREAT 0x1A4 (root_of booted_vfs) (root_dir 0)
    booted_inv booted_root path_f_components path_f_chars booted_room eq_refl booted_dir eq_refl) as (s' & O).
  unfold open_outcome in O. cbn [O_CREAT Z.land Z.eqb] in O.
  rewrite decide_True in O by reflexivity. destruct O as (f & a & v & c & s1 & s2 & E & _ & _ & _ & _ & O & _).
  pose proof (op_inv _ _ _ _ _ _ _ _ O) as I. rewrite (vfs_state_ok _ _ open_vfs _ E eq_refl), booted_root_of in I.
  clear E O. pose proof (ri_chain _ _ (vi_ram _ _ I) root_no _ opened_root_inode) as Hc.
  rewrite fn_lookup_insert in Hc. destruct Hc as (Hc & _). cbn [r_children root_dir] in Hc. rewrite Hc in I. exact I.
Qed.

Lemma vfs_lookup_parent_correct_witness :
  exists s' c, vfs_lookup_parent booted_vfs path_f = Ok (Some (c, [102]), s') /\ points s' c root_no.
Proof.
  destruct (vfs_lookup_parent_correct booted_vfs (fun _ => []) path_f [] [102] booted_inv booted_root path_f_components
    eq_refl) as (s' & _ & _ & E).
  cbn [walk] in E. rewrite booted_root_of in E. destruct E as (c & E & P). exists s', c. split; [exact E | exact P].
Defined.

Lemma vfs_open_correct_witness : exists f s', vfs_open booted_vfs path_f O_CREAT 0x1A4 = Ok (f, s') /\ f <> 0.
Proof.
  destruct (vfs_open_correct booted_vfs (fun _ => []) path_f [] [102] O_CREAT 0x1A4 booted_inv booted_root path_f_components
    path_f_chars booted_room) as (_ & O & _).
  destruct (O _ _ eq_refl booted_dir eq_refl) as (_ & _ & Oc).
  destruct (Oc eq_refl ltac:(discriminate)) as (f & a & v & c & s1 & s2 & s' & E & _ & _ & Op & _).
  exists f, s'. split; [exact E | exact (op_nonnull _ _ _ _ _ _ _ _ Op)].
Defined.

Lemma opened_room : room 2 open_vfs = true.
Proof. vm_compute. reflexivity. Qed.

Lemma vfs_remove_correct_witness : exists s', vfs_unlink open_vfs path_f = Ok (0, s').
Proof.
  destruct (vfs_remove_correct false open_vfs tree_f path_f [] [102] opened_inv ltac:(vm_compute; by eexists) path_f_components
    opened_room) as (e & s' & E & _ & R).
  destruct (R new_inode_f ltac:(vm_compute; reflexivity)) as (_ & _ & R').
  destruct (R' eq_refl ltac:(vm_compute; reflexivity)) as [-> _]. exists s'. exact E.
Defined.

Definition after_write : outcome (Z * vfs Kmalloc.heap) := vfs_write open_vfs file_f (Some [1; 2; 3]) junk_page.

Lemma after_write_result : vfs_result after_write = Some 3.
Proof. vm_compute. reflexivity. Qed.

Lemma vfs_write_seek_read_witness : exists s1 s2 s3, vfs_write open_vfs file_f (Some [1; 2; 3]) junk_page = Ok (3, s1) /\
  vfs_lseek s1 file_f 0 SEEK_SET = Ok (0, s2) /\ vfs_read s2 file_f 1 3 = Ok (3, [1; 2; 3], s3).
Proof.
  destruct (vfs_write_seek_read open_vfs tree_f file_f opened_file new_inode_f [1; 2; 3] junk_page 1 opened_inv opened_files
    eq_refl opened_inode ltac:(simpl; lia) ltac:(simpl; lia) ltac:(reflexivity) ltac:(lia))
    as (r & s1 & E & _ & [(-> & _)|(-> & s2 & s3 & E2 & _ & E3 & _)]).
  - exfalso. pose proof after_write_result as R. unfold after_write in R. rewrite E in R. discriminate R.
  - exists s1, s2, s3. split; [exact E|]. split; [exact E2 | exact E3].
Defined.

Lemma vfs_seek_end_stale_witness : exists s1 s2, vfs_write open_vfs file_f (Some [1; 2; 3]) junk_page = Ok (3, s1) /\
  vfs_lseek s1 file_f 0 SEEK_END = Ok (0, s2).
Proof.
  destruct (vfs_seek_end_stale open_vfs tree_f file_f opened_file new_inode_f dentry_f (Dentry [102] (Obj vnode_f) None)
    (VInode 2 0x81A4 0 (Some ramfs_inode_ops) (Some ramfs_file_ops) new_no) [1; 2; 3] junk_page opened_inv opened_files
    eq_refl opened_inode ltac:(simpl; lia) ltac:(simpl; lia) ltac:(reflexivity) eq_refl ltac:(vm_compute; reflexivity) eq_refl
    ltac:(vm_compute; reflexivity) ltac:(simpl; lia)) as (r & s1 & E & Hr).
  pose proof after_write_result as R. unfold after_write in R. rewrite E in R. injection R as ->.
  destruct Hr as [Hr|(i' & s2 & _ & _ & E2)]; [discriminate Hr|]. exists s1, s2. split; [exact E | exact E2].
Defined.

Lemma vfs_mount_root_witness : exists e s', vfs_mount typed_vfs [] [SLASH] ramfs_name = Ok (e, s') /\ vfs_inv s' (fun _ => []).
Proof.
  destruct (vfs_mount_root typed_vfs (fun _ => []) [] ramfs_fs_type typed_inv eq_refl eq_refl ltac:(reflexivity))
    as (e & s' & E & _ & I & _).
  exists e, s'. split; [exact E | exact I].
Defined.
