(* ===== verification/VfsFiles.v ===== *)
(** * The virtual file system switch: open files as its callers see them *)
From S2P Require Import Prelude AllocSpec Ramfs RamfsInv RamfsOps RamfsData RamfsDir.
From S2P Require Import RamfsTheorems Vfs VfsSpec VfsTheorems.
#[local] Open Scope Z_scope.

Section files.
Context {A : Type} `{AllocatorLaws A}.
Implicit Types (s : vfs A) (ch : Z -> list Z) (d a f : Z).

(** An open file: one reference, a position that is not negative, and an inode
    when it is no directory. *)
Record file_ok s (x : file) : Prop := {
  fk_count : f_count x = 1;
  fk_pos : 0 <= f_pos x < 2 ^ 63;
  fk_live : f_op x = Some ramfs_file_ops -> is_Some (inodes (fs s) !! private_data x)
}.

(** Every open file is well formed and the root is mounted. *)
Record switch_ok s ch : Prop := {
  sw_inv : vfs_inv s ch;
  sw_root : is_Some (root_dentry s);
  sw_files f x : files s !! f = Some x -> file_ok s x
}.

Lemma file_ok_mono s s' x : (forall q, is_Some (inodes (fs s) !! q) -> is_Some (inodes (fs s') !! q)) ->
  file_ok s x -> file_ok s' x.
Proof using Type. intros Hi []. split; try done. auto. Qed.

(** ** Close *)

Lemma vfs_close_ok s ch f x : vfs_inv s ch -> files s !! f = Some x -> f_count x = 1 ->
  exists s', vfs_close s f = Ok (0, s') /\ vfs_inv s' ch /\ files s' = delete f (files s) /\ dentries s' = dentries s /\
    root_dentry s' = root_dentry s /\ inodes (fs s') = inodes (fs s) /\ bufs (fs s') = bufs (fs s) /\
    vnodes (fs s') = vnodes (fs s) /\ root_vnode (fs s') = root_vnode (fs s) /\
    cap_update (a_cap (heap (fs s))) (a_cap (heap (fs s'))) f None.
Proof using Type*.
  intros I Hx Hc. unfold vfs_close, get_file.
  rewrite (proj2 (Z.eqb_neq _ _) (file_nonnull _ _ _ _ I Hx)), Hx. cbn [of_option]. rewrite bind_ok.
  pose proof (vi_ram _ _ I) as R. pose proof (vi_disj _ _ I) as Hdisj.
  assert (f ∈ owned s) as Ho by (unfold owned; apply elem_of_union; right; by apply elem_of_dom).
  destruct (ri_foreign _ _ R f Ho) as ([c Hcap] & _).
  destruct (law_free (heap (fs s)) f c (ri_heap _ _ R) Hcap) as (h & Ef & Hh & Hup).
  assert (exists y, (match f_op x, f_dentry x with
    | Some _, Some d => _ ← get_dentry s d; Ok (ramfs_release x) | _, _ => Ok x end) = Ok y /\ f_count y = 1) as (y & -> & Hy).
  { destruct (f_op x); [|by eexists]. pose proof (vi_file _ _ I f x Hx) as Hd. destruct (f_dentry x) as [[|b]|]; [by eexists| |by eexists].
    destruct Hd as [z Hz]. cbn [get_dentry]. rewrite Hz. cbn [of_option]. rewrite bind_ok. by eexists. }
  rewrite bind_ok. cbv beta iota zeta. cbn [f_count with_count]. rewrite Hy. cbn [Z.sub Z.leb Z.compare Z.add Z.opp Pos.compare Z.pos_sub].
  rewrite Ef, bind_ok. eexists. split; [done|]. split; [|done].
  pose proof (inv_disown _ _ _ f h R Ho Hh Hup) as R'. destruct I as [_ _ Hdent Hfile Hroot].
  assert (f ∉ dom (dentries s)) as Hnd by (intros Hd; apply (Hdisj f); [done|by apply elem_of_dom]).
  split; cbn; try done.
  - unfold owned in *. cbn. rewrite dom_delete_L. replace (dom (dentries s) ∪ dom (files s) ∖ {[f]})
      with ((dom (dentries s) ∪ dom (files s)) ∖ {[f]}) by set_solver. done.
  - rewrite dom_delete_L. set_solver.
  - intros b z Hb. apply lookup_delete_Some in Hb as [_ Hb]. by apply (Hfile b z).
Qed.

Lemma close_switch s ch f x s' : switch_ok s ch -> files s !! f = Some x -> vfs_inv s' ch -> files s' = delete f (files s) ->
  root_dentry s' = root_dentry s -> inodes (fs s') = inodes (fs s) -> switch_ok s' ch.
Proof using Type.
  intros [I Hr Hf] Hx I' Hfs Hrd Hin. split; [done|by rewrite Hrd|]. intros g y Hg. rewrite Hfs in Hg.
  apply lookup_delete_Some in Hg as [_ Hg]. apply (file_ok_mono s); [by rewrite Hin|]. by apply (Hf g).
Qed.

(** ** New positions *)

Lemma dom_set_file s f x y : files s !! f = Some x -> dom (files (set_file s f y)) = dom (files s).
Proof using Type. intros Hx. apply dom_insert_lookup_L. by exists x. Qed.

Lemma set_pos_switch s ch f x p : switch_ok s ch -> files s !! f = Some x -> 0 <= p < 2 ^ 63 ->
  switch_ok (set_file s f (with_pos x p)) ch.
Proof using Type*.
  intros [I Hr Hf] Hx Hp. split; [by apply (inv_set_file s ch f x)|done|]. intros g y Hg. cbn in Hg.
  destruct (decide (g = f)) as [->|]; [|rewrite lookup_insert_ne in Hg by done; apply (file_ok_mono s); [done|by apply (Hf g)]].
  rewrite lookup_insert_eq in Hg. injection Hg as <-. destruct (Hf f x Hx). by split.
Qed.

(** The base that [whence] names. *)
Definition seek_base s x (whence : Z) : option Z :=
  if whence =? SEEK_SET then Some 0
  else if whence =? SEEK_CUR then Some (f_pos x)
  else if whence =? SEEK_END then
    match file_inode s x with Ok r => if is_null r then None else match get_vnode (fs s) r with Ok v => Some (i_size v) | _ => None end | _ => None end
  else None.

Lemma file_vnode_ok s ch f x r : vfs_inv s ch -> files s !! f = Some x -> file_inode s x = Ok r ->
  is_null r = true \/ exists v, get_vnode (fs s) r = Ok v.
Proof using Type.
  intros I Hx. pose proof (vi_file _ _ I f x Hx) as Hd. unfold file_inode. destruct (f_dentry x) as [[|b]|].
  - intros [= <-]. right. by eexists.
  - destruct Hd as [y Hy]. cbn [get_dentry]. rewrite Hy. cbn [of_option]. rewrite bind_ok. intros [= <-].
    destruct (vi_dentry _ _ I b y Hy) as [|[v Hv]]; [by left|]. right. by exists v.
  - intros [= <-]. by left.
Qed.

Lemma loff_add_ok x y : - 2 ^ 63 <= x + y < 2 ^ 63 -> loff_add x y = Ok (x + y).
Proof using Type. intros Hr. unfold loff_add. rewrite (proj2 (Z.leb_le _ _)), (proj2 (Z.ltb_lt _ _)) by lia. done. Qed.

(** Seeking: the base plus the offset, or EINVAL and no change. *)
Lemma vfs_lseek_eq s ch f x off whence : vfs_inv s ch -> files s !! f = Some x ->
  (forall b, seek_base s x whence = Some b -> - 2 ^ 63 <= b + off < 2 ^ 63) ->
  vfs_lseek s f off whence = Ok match seek_base s x whence with
    | Some b => if b + off <? 0 then (- EINVAL, s) else (b + off, set_file s f (with_pos x (b + off)))
    | None => (- EINVAL, s)
    end.
Proof using Type*.
  intros I Hx Hr. destruct (file_inode_ok s ch f x I Hx) as [r Hino].
  pose proof (file_vnode_ok s ch f x r I Hx Hino) as Hv. unfold vfs_lseek, get_file.
  rewrite (proj2 (Z.eqb_neq _ _) (file_nonnull _ _ _ _ I Hx)), Hx. cbn [of_option]. rewrite bind_ok, Hino, bind_ok.
  unfold seek_base in *. rewrite Hino in *. destruct (whence =? SEEK_SET); [rewrite bind_ok; by destruct (_ <? 0)|].
  destruct (whence =? SEEK_CUR).
  { rewrite loff_add_ok, !bind_ok by (by apply Hr). by destruct (_ <? 0). }
  destruct (whence =? SEEK_END); [|done]. destruct (is_null r) eqn:En; [done|]. destruct Hv as [|[v Hv]]; [congruence|].
  rewrite Hv in *. rewrite bind_ok, loff_add_ok, !bind_ok by (by apply Hr). by destruct (_ <? 0).
Qed.

Lemma vfs_lseek_file s ch f x off whence : switch_ok s ch -> files s !! f = Some x ->
  (forall b, seek_base s x whence = Some b -> - 2 ^ 63 <= b + off < 2 ^ 63) ->
  exists r s', vfs_lseek s f off whence = Ok (r, s') /\ switch_ok s' ch /\ dom (files s') = dom (files s).
Proof using Type*.
  intros Hsw Hx Hr. rewrite (vfs_lseek_eq s ch f x off whence (sw_inv _ _ Hsw) Hx Hr).
  destruct (seek_base s x whence) as [b|]; [|by do 2 eexists]. specialize (Hr b eq_refl).
  destruct (Z.ltb_spec (b + off) 0); do 2 eexists; (split; [done|]); [done|]. split; [apply set_pos_switch; (done || lia)|].
  by apply dom_set_file with x.
Qed.

(** ** Reading and writing *)

Lemma vfs_read_file s ch f x b count : switch_ok s ch -> files s !! f = Some x -> b <> 0 -> 0 <= count ->
  exists r bs s', vfs_read s f b count = Ok (r, bs, s') /\ Z.of_nat (length bs) <= count /\ switch_ok s' ch /\ dom (files s') = dom (files s).
Proof using Type*.
  intros Hsw Hx Hb Hc. pose proof Hsw as [I _ Hf]. pose proof (Hf f x Hx) as Hok.
  destruct (f_op x) as [[]|] eqn:Eop.
  - destruct (fk_live _ _ Hok Eop) as [i Hi]. pose proof (fk_pos _ _ Hok).
    rewrite (vfs_read_ok s ch f x i b count I Hx Eop Hi ltac:(lia) Hb Hc). do 3 eexists. split; [done|].
    set (bs := take _ _). assert (Z.of_nat (length bs) <= Z.max 0 (r_size i - f_pos x)) as Hbs.
    { unfold bs. rewrite length_take, length_drop. pose proof (file_bytes_length (fs s) ch _ i (vi_ram _ _ I) Hi). lia. }
    split; [unfold bs; rewrite length_take; lia|]. split.
    + pose proof (ri_size _ _ (vi_ram _ _ I) _ i Hi). apply set_pos_switch; [done|done|lia].
    + by apply dom_set_file with x.
  - exists (- EINVAL), [], s. unfold vfs_read, get_file.
    rewrite (proj2 (Z.eqb_neq _ _) (file_nonnull _ _ _ _ I Hx)), (proj2 (Z.eqb_neq _ _) Hb), Hx. cbn [of_option].
    rewrite bind_ok, Eop. cbn [has_read]. split; [done|]. split; [cbn; lia|]. done.
  - exists (- EINVAL), [], s. unfold vfs_read, get_file.
    rewrite (proj2 (Z.eqb_neq _ _) (file_nonnull _ _ _ _ I Hx)), (proj2 (Z.eqb_neq _ _) Hb), Hx. cbn [of_option].
    rewrite bind_ok, Eop. split; [done|]. split; [cbn; lia|]. done.
Qed.
Lemma vfs_write_root s f buf junk r s' : vfs_write s f buf junk = Ok (r, s') -> root_dentry s' = root_dentry s.
Proof using Type.
  unfold vfs_write. destruct (f =? 0); [by intros [= _ <-]|]. destruct buf as [buf|]; [|by intros [= _ <-]]. intros E.
  apply bind_ok_inv in E as (x & _ & E). destruct (f_op x) as [o|]; [|by injection E as _ <-].
  destruct (has_write o); [|by injection E as _ <-]. apply bind_ok_inv in E as ([[ret pos] g] & _ & E). by injection E as _ <-.
Qed.

Lemma vfs_write_file s ch f x buf junk (n := f_pos x + Z.of_nat (length buf)) : switch_ok s ch -> files s !! f = Some x ->
  n < 2 ^ 63 - 4096 ->
  (forall i, inodes (fs s) !! private_data x = Some i -> r_cap i < n -> Z.of_nat (length junk) = grown_cap n) ->
  exists r s', vfs_write s f (Some buf) junk = Ok (r, s') /\ switch_ok s' ch /\ dom (files s') = dom (files s).
Proof using Type*.
  intros Hsw Hx Hn Hj. pose proof Hsw as [I Hr Hf]. pose proof (Hf f x Hx) as Hok. pose proof (fk_pos _ _ Hok).
  destruct (f_op x) as [[]|] eqn:Eop.
  - destruct (fk_live _ _ Hok Eop) as [i Hi].
    destruct (vfs_write_ok s ch f x i buf junk I Hx Eop Hi ltac:(lia) Hn ltac:(eauto)) as (r & s' & E & [(-> & I' & U & Hfs)|(-> & W)]);
      pose proof (vfs_write_root _ _ _ _ _ _ E) as Hrd.
    + exists (- ENOMEM), s'. split; [done|]. split; [|by rewrite Hfs]. destruct U as (Hin & _).
      split; [done| |].
      * by rewrite Hrd.
      * intros g y Hg. rewrite Hfs in Hg. apply (file_ok_mono s); [by rewrite Hin|]. by apply (Hf g).
    + eexists _, s'. split; [done|]. destruct W as [I' Hfs Hds W].
      split; [split; [done| |]|by rewrite Hfs; apply (dom_set_file s f x)].
      * by rewrite Hrd.
      * intros g y Hg. apply (file_ok_mono s).
        { intros q [j Hq]. destruct (decide (q = private_data x)) as [->|Hne]; [destruct (wr_inode _ _ _ _ _ _ _ _ W) as (i' & ? & _); by exists i'|].
          destruct (wr_others _ _ _ _ _ _ _ _ W q j Hne Hq) as [Hq' _]. by exists j. }
        rewrite Hfs in Hg. destruct (decide (g = f)) as [->|]; [|rewrite lookup_insert_ne in Hg by done; by apply (Hf g)].
        rewrite lookup_insert_eq in Hg. injection Hg as <-. destruct Hok. split; try done. cbn. fold n. lia.
  - exists (- EINVAL), s. unfold vfs_write, get_file.
    rewrite (proj2 (Z.eqb_neq _ _) (file_nonnull _ _ _ _ I Hx)), Hx. cbn [of_option].
    by rewrite bind_ok, Eop.
  - exists (- EINVAL), s. unfold vfs_write, get_file.
    rewrite (proj2 (Z.eqb_neq _ _) (file_nonnull _ _ _ _ I Hx)), Hx. cbn [of_option].
    by rewrite bind_ok, Eop.
Qed.

(** ** Opening *)

(** A path the switch can open or refuse: "/", or a name in a directory or nowhere. *)
Definition path_ok s ch (path : list Z) : Prop :=
  (path = [SLASH] /\ room 1 s = true) \/
  exists init name, components path = init ++ [name] /\ Forall (fun c => c <> 0) path /\
    room (2 * length init + 5) s = true /\
    match walk (fs s) ch (root_of s) init with
    | Some d => exists di, inodes (fs s) !! d = Some di /\ S_ISDIR (r_mode di) = true
    | None => True
    end.

Lemma files_switch s s' ch ch' f x : switch_ok s ch -> vfs_inv s' ch' -> root_dentry s' = root_dentry s ->
  files s' = <[f := x]> (files s) -> (forall q, is_Some (inodes (fs s) !! q) -> is_Some (inodes (fs s') !! q)) ->
  file_ok s' x -> switch_ok s' ch'.
Proof using Type.
  intros [I Hr Hf] I' Hrd Hfs Hin Hx. split; [done|by rewrite Hrd|]. intros g y Hg. rewrite Hfs in Hg.
  destruct (decide (g = f)) as [->|]; [rewrite lookup_insert_eq in Hg; by injection Hg as <-|].
  rewrite lookup_insert_ne in Hg by done. apply (file_ok_mono s); [done|]. by apply (Hf g).
Qed.

Lemma ext_switch s s' ch : switch_ok s ch -> vfs_inv s' ch -> ext s s' -> switch_ok s' ch.
Proof using Type.
  intros [I Hr Hf] I' X. split; [done|by rewrite (ex_root _ _ X)|]. intros g y Hg. rewrite (ex_files _ _ X) in Hg.
  apply (file_ok_mono s); [by rewrite (ex_inodes _ _ X)|]. by apply (Hf g).
Qed.

(** A fresh open file, or none. *)
Definition opens s s' (f : Z) : Prop :=
  (f = 0 /\ files s' = files s) \/ (f <> 0 /\ files s !! f = None /\ dom (files s') = {[f]} ∪ dom (files s)).

Lemma vfs_open_root s ch flags mode : switch_ok s ch -> room 1 s = true ->
  exists f s', vfs_open s [SLASH] flags mode = Ok (f, s') /\ switch_ok s' ch /\ opens s s' f.
Proof using Type*.
  intros Hsw Hr. pose proof Hsw as [I [r Hroot] Hf]. pose proof (vi_root _ _ I) as Hrt. rewrite Hroot in Hrt. destruct Hrt as [-> Hro].
  unfold vfs_open. rewrite decide_True by done. unfold open_root, new_file. rewrite Hroot. cbn [of_option]. rewrite bind_ok.
  cbn [get_dentry]. rewrite bind_ok. change (get_vnode (fs s) (d_inode root_dentry_obj)) with (Ok (root_vnode (fs s)) : outcome vinode).
  rewrite bind_ok.
  destruct (inv_new_block s ch SIZEOF_FILE I ltac:(done)) as (f & h & -> & R & _ & _ & Hfc). rewrite bind_ok. cbv beta iota zeta.
  destruct Hfc as [[_ Hno]|(Hnz & Hn & R')].
  { exfalso. apply (room_poor _ _ _ Hr (Hno ltac:(unfold object_sizes, SIZEOF_FILE; set_solver))). lia. }
  rewrite (proj2 (Z.eqb_neq _ _) Hnz), bind_ok. cbv beta iota zeta. rewrite (proj2 (Z.eqb_neq _ _) Hnz).
  set (x := File _ _ _ _ _ _ _). do 2 eexists. split; [done|]. split.
  - eapply (files_switch s); [done|apply inv_add_file; try done|done|done|by intros q|]. split; try done.
    intros _. destruct (ro_dir _ _ _ Hro) as (i & Hi & _). by exists i.
  - right. split; [done|]. unfold owned in Hn. apply not_elem_of_union in Hn as [_ Hn]. split; [by apply not_elem_of_dom|].
    cbn. apply dom_insert_L.
Qed.

Lemma opened_switch s s1 s' ch ch' f a v flags mode : switch_ok s ch -> opened s1 s' ch' f a v flags mode ->
  files s1 = files s -> root_dentry s1 = root_dentry s ->
  (forall q, is_Some (inodes (fs s) !! q) -> is_Some (inodes (fs s1) !! q)) -> is_Some (inodes (fs s1) !! i_private v) ->
  switch_ok s' ch' /\ opens s s' f.
Proof using Type.
  intros Hsw O Hfs Hrd Hin Hv. destruct (op_fs _ _ _ _ _ _ _ _ O) as [h Hh]. pose proof (op_files _ _ _ _ _ _ _ _ O) as Hof.
  pose proof (op_root _ _ _ _ _ _ _ _ O) as Hor. split.
  - apply (files_switch s s' ch ch' f (File (Some (DObj a)) (i_fop v) 0 flags mode 1 (i_private v))); try done.
    + apply O.
    + congruence.
    + by rewrite Hof, Hfs.
    + rewrite Hh. exact Hin.
    + split; try done. intros _. by rewrite Hh.
  - right. split; [apply O|]. rewrite <- Hfs. split; [apply O|]. rewrite Hof. apply dom_insert_L.
Qed.

Lemma vfs_open_file s ch path flags mode : switch_ok s ch -> path_ok s ch path ->
  exists f s' ch', vfs_open s path flags mode = Ok (f, s') /\ switch_ok s' ch' /\ opens s s' f.
Proof using Type*.
  intros Hsw [[-> Hr]|(init & name & Hc & Hz & Hr & Hw)].
  { destruct (vfs_open_root s ch flags mode Hsw Hr) as (f & s' & ?). by exists f, s', ch. }
  pose proof Hsw as [I Hroot Hf]. destruct (walk (fs s) ch (root_of s) init) as [d|] eqn:Ew.
  2: { destruct (open_lost s ch path init name flags mode I Hroot Hc Hr Ew) as (s' & E & I' & X).
       exists 0, s', ch. split; [done|]. split; [by apply (ext_switch s)|]. left. split; [done|apply X]. }
  destruct Hw as (di & Hdi & Hdir).
  destruct (open_ok s ch path init name flags mode d di I Hroot Hc Hz Hr Ew Hdi Hdir) as (s' & O). unfold open_outcome in O.
  case_decide; [destruct (Z.land flags O_CREAT =? 0)|].
  - destruct O as (E & I' & X). exists 0, s', ch. split; [done|]. split; [by apply (ext_switch s)|]. left. split; [done|apply X].
  - destruct O as (f & a & v & c & s1 & s2 & E & X & L & Hrd & Hfl & O & _ & Hpv & _).
    exists f, s', (<[d := c :: ch d]> ch). split; [done|]. apply (opened_switch s s2 s' ch _ f a v flags mode Hsw O).
    + by rewrite Hfl, (ex_files _ _ X).
    + by rewrite Hrd, (ex_root _ _ X).
    + intros q Hq. rewrite <- (ex_inodes _ _ X) in Hq. destruct Hq as [i Hi]. destruct (decide (q = c)) as [->|Hne].
      * destruct (ln_new _ _ _ _ _ _ _ L) as (ci & ? & _). by exists ci.
      * destruct (ln_kept _ _ _ _ _ _ _ L q i Hne Hi) as (i' & ? & _). by exists i'.
    + rewrite Hpv. destruct (ln_new _ _ _ _ _ _ _ L) as (ci & ? & _). by exists ci.
  - destruct O as (f & a & c & s1 & E & Hi & X & O). exists f, s', ch. split; [done|].
    apply (opened_switch s s1 s' ch _ f a (vnode_of _ c) flags mode Hsw O); [apply X|apply X|by rewrite (ex_inodes _ _ X)|].
    rewrite (ex_inodes _ _ X). by exists c.
Qed.

(** ** A file that is there *)

(** Opening a file that is there: a new open file at its start, on its inode. *)
Lemma vfs_open_existing s ch path init name flags mode d di c (t := first_named (fs s) name (ch d)) : switch_ok s ch ->
  components path = init ++ [name] -> Forall (fun c => c <> 0) path -> room (2 * length init + 5) s = true ->
  walk (fs s) ch (root_of s) init = Some d -> inodes (fs s) !! d = Some di -> S_ISDIR (r_mode di) = true ->
  t <> 0 -> inodes (fs s) !! t = Some c ->
  exists f v x r, vfs_open s path flags mode = Ok (f, v) /\ switch_ok v ch /\ files s !! f = None /\
    files v = <[f := x]> (files s) /\ f_pos x = 0 /\ f_count x = 1 /\ private_data x = t /\ f_op x = i_fop (vnode_of t c) /\
    file_inode v x = Ok r /\ is_null r = false /\ get_vnode (fs v) r = Ok (vnode_of t c) /\
    inodes (fs v) = inodes (fs s) /\ file_bytes (fs v) c = file_bytes (fs s) c /\ accounts s v.
Proof using Type*.
  intros Hsw Hc Hz Hr Ew Hdi Hdir Ht Hi. pose proof Hsw as [I Hroot Hf].
  destruct (open_ok s ch path init name flags mode d di I Hroot Hc Hz Hr Ew Hdi Hdir) as (s' & O). unfold open_outcome in O.
  rewrite decide_False in O by done. destruct O as (f & a & c' & s1 & E & Hi' & X & O).
  assert (c' = c) as -> by (unfold t in Hi; congruence). fold t in O.
  pose proof (op_files _ _ _ _ _ _ _ _ O) as Hfs. destruct (op_fs _ _ _ _ _ _ _ _ O) as [h Hh].
  destruct (op_vnode _ _ _ _ _ _ _ _ O) as (y & Hy & Hv).
  assert (is_null (d_inode y) = false) as Hn.
  { destruct (d_inode y) as [|q]; [done|]. cbn [get_vnode] in Hv. destruct (vnodes (fs s1) !! q) as [w|] eqn:Ew'; [|done].
    pose proof (vi_ram _ _ (op_inv _ _ _ _ _ _ _ _ O)) as R. assert (q <> 0) as Hq; [|by destruct q].
    apply (live_nonnull (fs s') ch q R).
    eapply (ri_vnode _ _ R). rewrite Hh. exact Ew'. }
  exists f, s'. eexists. exists (d_inode y). split; [exact E|].
  split.
  { apply (opened_switch s s1 s' ch _ f a (vnode_of t c) flags mode Hsw O); [apply X|apply X|by rewrite (ex_inodes _ _ X)|].
    rewrite (ex_inodes _ _ X). by exists c. }
  split; [rewrite <- (ex_files _ _ X); apply O|]. rewrite <- (ex_files _ _ X). split; [exact Hfs|]. do 4 (split; [done|]).
  split; [unfold file_inode; cbn [f_dentry get_dentry]; rewrite (op_dentries _ _ _ _ _ _ _ _ O), Hy; cbn [of_option]; by rewrite bind_ok|].
  split; [done|]. split; [rewrite Hh; exact Hv|]. split; [rewrite Hh; apply X|].
  split; [|eapply accounts_trans; [exact (ex_caps _ _ X)|exact (op_caps _ _ _ _ _ _ _ _ O)]]. rewrite Hh.
  unfold file_bytes, raw. cbn [bufs with_heap]. by rewrite (ex_bufs _ _ X).
Qed.
End files.
