(* ===== verification/Dns.v ===== *)
(** * The DNS resolver (src/kernel/net/dns.c): state and operations

    Packet buffers are those of [Buffer].  A C string is the list of its characters, without the
    terminator.  The buffer that a name is decoded into is kept as the
    characters stored in it so far. *)
From S2P Require Import Prelude Buffer.
#[local] Open Scope Z_scope.

Definition DNS_MAX_NAME_LEN : Z := 255.
Definition DNS_HEADER_SIZE : Z := 12.
Definition DNS_TYPE_A : Z := 1.
Definition DNS_FLAG_QR : Z := 0x8000.
Definition DNS_FLAG_RD : Z := 0x0100.
Definition DNS_RCODE_MASK : Z := 0x000F.
Definition DNS_CACHE_SIZE : nat := 64.
(** ['.']. *)
Definition DOT : Z := 46.

Record dns_cache_entry := CacheEntry { ce_name : list Z; ce_ip : Z; ce_ttl : Z; ce_timestamp : Z; ce_valid : bool }.

Record dns := Dns {
  dns_cache : list dns_cache_entry;
  dns_servers : list Z;
  num_dns_servers : Z;
  dns_query_id : Z
}.

Definition dns_boot : dns := Dns (replicate DNS_CACHE_SIZE (CacheEntry [] 0 0 0 false)) [0x08080808; 0x08080404; 0; 0] 2 1.

Definition htons (x : Z) : Z := Z.lor (Z.shiftl (Z.land x 0xFF) 8) (Z.land (Z.shiftr x 8) 0xFF).
Definition ntohs (x : Z) : Z := htons x.

(** ** Names *)

(** One label of [dns_encode_name], written at [base + pos]: [None] when it does not fit. *)
Definition put_label (buf : list Z) (base pos : Z) (label : list Z) (buf_len : Z) : outcome (option (list Z)) :=
  if buf_len <=? pos + 1 + Z.of_nat (length label) then Ok None
  else
    buf ← put buf (base + pos) (Z.of_nat (length label));
    buf ← put_all buf (base + pos + 1) label;
    Ok (Some buf).

(** [label] is what was read since [label_start], [pos] the number of bytes written. *)
Fixpoint encode_loop (name label : list Z) (buf : list Z) (base pos buf_len : Z) : outcome (Z * list Z) :=
  match name with
  | c :: name =>
      if c =? DOT then
        r ← put_label buf base pos label buf_len;
        match r with
        | None => Ok (-1, buf)
        | Some buf => encode_loop name [] buf base (pos + 1 + Z.of_nat (length label)) buf_len
        end
      else encode_loop name (label ++ [c]) buf base pos buf_len
  | [] =>
      r ← (match label with
           | [] => Ok (Some buf)
           | _ => put_label buf base pos label buf_len
           end);
      match r with
      | None => Ok (-1, buf)
      | Some buf =>
          let pos := match label with [] => pos | _ => pos + 1 + Z.of_nat (length label) end in
          buf ← put buf (base + pos) 0;
          Ok (i32 (pos + 1), buf)
      end
  end.

(** [dns_encode_name(name, buf + base, buf_len)]. *)
Definition dns_encode_name (name : list Z) (buf : list Z) (base buf_len : Z) : outcome (Z * list Z) :=
  encode_loop name [] buf base 0 buf_len.

(** [for (i = 0; i < len && offset < response_len; i++, offset++)]. *)
Fixpoint decode_label (n : nat) (response : list Z) (response_len offset : Z) (name : list Z) (name_len : Z)
    : outcome (list Z * Z) :=
  match n with
  | O => Ok (name, offset)
  | S n =>
      if offset <? response_len then
        c ← get response offset;
        let name := if Z.of_nat (length name) <? u64 (name_len - 1) then name ++ [c] else name in
        decode_label n response response_len (offset + 1) name name_len
      else Ok (name, offset)
  end.

Fixpoint decode_loop (fuel : nat) (response : list Z) (response_len offset : Z) (name : list Z) (name_len read_len : Z)
    (jumped : bool) : outcome (option (list Z * Z)) :=
  match fuel with
  | O => NoFuel
  | S fuel =>
      if offset <? response_len then
        len ← get response offset;
        if len =? 0 then Ok (Some (name, if jumped then read_len else read_len + 1))
        else if Z.land len 0xC0 =? 0xC0 then
          if response_len <=? offset + 1 then Ok None
          else
            lo ← get response (offset + 1);
            decode_loop fuel response response_len (Z.lor (Z.shiftl (Z.land len 0x3F) 8) lo) name name_len
              (if jumped then read_len else read_len + 2) true
        else
          let read_len := if jumped then read_len else read_len + 1 + len in
          let pos := Z.of_nat (length name) in
          let name := if (0 <? pos) && (pos <? u64 (name_len - 1)) then name ++ [DOT] else name in
          r ← decode_label (Z.to_nat len) response response_len (offset + 1) name name_len;
          let '(name, offset) := r in
          decode_loop fuel response response_len offset name name_len read_len jumped
      else Ok (Some (name, read_len))
  end.

(** The length read, or -1, and the characters before the terminator. *)
Definition dns_decode_name (fuel : nat) (response : list Z) (response_len offset name_len : Z) : outcome (Z * list Z) :=
  r ← decode_loop fuel response response_len offset [] name_len 0 false;
  match r with None => Ok (-1, []) | Some (name, read_len) => Ok (i32 read_len, name) end.

(** ** Packets *)

Definition dns_build_query (s : dns) (name : list Z) (type : Z) (buf : list Z) (buf_len : Z)
    : outcome (Z * list Z * dns) :=
  if buf_len <? DNS_HEADER_SIZE + DNS_MAX_NAME_LEN + 4 then Ok (-1, buf, s)
  else
    buf ← put16 buf 0 (htons (dns_query_id s));
    let s := Dns (dns_cache s) (dns_servers s) (num_dns_servers s) (u16 (dns_query_id s + 1)) in
    buf ← put16 buf 2 (htons DNS_FLAG_RD);
    buf ← put16 buf 4 (htons 1);
    buf ← put16 buf 6 0;
    buf ← put16 buf 8 0;
    buf ← put16 buf 10 0;
    r ← dns_encode_name name buf DNS_HEADER_SIZE (buf_len - DNS_HEADER_SIZE);
    let '(name_len, buf) := r in
    if name_len <? 0 then Ok (-1, buf, s)
    else
      let pos := DNS_HEADER_SIZE + name_len in
      buf ← put_all buf pos [Z.land (Z.shiftr type 8) 0xFF; Z.land type 0xFF; 0; 1];
      Ok (i32 (pos + 4), buf, s).

(** The loop that skips a name: the position and whether a pointer ended it. *)
Fixpoint skip_name (fuel : nat) (response : list Z) (len pos : Z) : outcome (Z * bool) :=
  match fuel with
  | O => NoFuel
  | S fuel =>
      if pos <? len then
        b ← get response pos;
        if b =? 0 then Ok (pos, false)
        else if Z.land b 0xC0 =? 0xC0 then Ok (pos + 2, true)
        else skip_name fuel response len (pos + 1 + b)
      else Ok (pos, false)
  end.

(** [if (response[pos] == 0) pos++]. *)
Definition skip_zero (response : list Z) (pos : Z) : outcome Z :=
  b ← get response pos; Ok (if b =? 0 then pos + 1 else pos).

Fixpoint skip_questions (n : nat) (response : list Z) (len pos : Z) : outcome Z :=
  match n with
  | O => Ok pos
  | S n =>
      r ← skip_name (S (Z.to_nat len)) response len pos;
      pos ← skip_zero response (fst r);
      skip_questions n response len (pos + 4)
  end.

Definition get_be16 (response : list Z) (pos : Z) : outcome Z :=
  hi ← get response pos; lo ← get response (pos + 1); Ok (Z.lor (Z.shiftl hi 8) lo).

(** The address of the first usable answer, or [None]. *)
Fixpoint parse_answers (n : nat) (response : list Z) (len pos : Z) : outcome (option Z) :=
  match n with
  | O => Ok None
  | S n =>
      if pos <? len then
        r ← skip_name (S (Z.to_nat len)) response len pos;
        let '(pos, pointer) := r in
        pos ← (if pointer : bool then Ok pos else skip_zero response pos);
        if len <? pos + 10 then Ok None
        else
          type ← get_be16 response pos;
          rdlength ← get_be16 response (pos + 8);
          let pos := pos + 10 in
          if (type =? DNS_TYPE_A) && (rdlength =? 4) then
            a ← get response pos;
            b ← get response (pos + 1);
            c ← get response (pos + 2);
            d ← get response (pos + 3);
            Ok (Some (u32 (Z.lor (Z.lor (Z.lor (Z.shiftl a 24) (Z.shiftl b 16)) (Z.shiftl c 8)) d)))
          else parse_answers n response len (pos + rdlength)
      else Ok None
  end.

(** The result and the address stored through [ip_out]. *)
Definition dns_parse_response (response : list Z) (len : Z) : outcome (Z * option Z) :=
  if len <? DNS_HEADER_SIZE then Ok (-1, None)
  else
    flags ← get16 response 2;
    let flags := ntohs flags in
    if Z.land flags DNS_FLAG_QR =? 0 then Ok (-1, None)
    else if negb (Z.land flags DNS_RCODE_MASK =? 0) then Ok (-1, None)
    else
      qd ← get16 response 4;
      an ← get16 response 6;
      let qdcount := ntohs qd in
      let ancount := ntohs an in
      if ancount =? 0 then Ok (-1, None)
      else
        pos ← skip_questions (Z.to_nat qdcount) response len DNS_HEADER_SIZE;
        ip ← parse_answers (Z.to_nat ancount) response len pos;
        match ip with Some ip => Ok (0, Some ip) | None => Ok (-1, None) end.

(** ** Cache *)

(** [for (j = 0; name[j] || entry[j]; j++)]. *)
Fixpoint same_name (a b : list Z) : bool :=
  match a, b with
  | [], [] => true
  | x :: a, y :: b => if x =? y then same_name a b else false
  | _, _ => false
  end.

(** The index of the entry. *)
Definition dns_cache_lookup (s : dns) (name : list Z) : option nat :=
  fst <$> list_find (fun e => ce_valid e && same_name name (ce_name e) = true) (dns_cache s).

(** Storing the characters of a nonempty name, the first 254 of them, each with a
    terminator; the empty name stores nothing. *)
Definition store_name (old name : list Z) : list Z :=
  match name with [] => old | _ => take (Z.to_nat (DNS_MAX_NAME_LEN - 1)) name end.

Definition dns_cache_add (s : dns) (name : list Z) (ip ttl : Z) : outcome dns :=
  let slot := default 0%nat (fst <$> list_find (fun e => ce_valid e = false) (dns_cache s)) in
  e ← of_option (dns_cache s !! slot);
  Ok (Dns (<[slot := CacheEntry (store_name (ce_name e) name) ip ttl 0 true]> (dns_cache s))
        (dns_servers s) (num_dns_servers s) (dns_query_id s)).

(** The value returned and the address stored through [ip_out]; [query] is the
    uninitialised buffer on the stack. *)
Definition dns_resolve (s : dns) (hostname query : list Z) : outcome (Z * option Z * dns) :=
  match dns_cache_lookup s hostname with
  | Some i => e ← of_option (dns_cache s !! i); Ok (0, Some (ce_ip e), s)
  | None =>
      r ← dns_build_query s hostname DNS_TYPE_A query 512;
      let '(_, _, s) := r in
      Ok (-1, None, s)
  end.

Definition dns_set_server (s : dns) (index ip : Z) : Z * dns :=
  if (index <? 0) || (4 <=? index) then (-1, s)
  else
    (0, Dns (dns_cache s) (<[Z.to_nat index := ip]> (dns_servers s))
          (if num_dns_servers s <=? index then index + 1 else num_dns_servers s) (dns_query_id s)).

Definition dns_init (s : dns) : dns :=
  Dns (map (fun e => CacheEntry (ce_name e) (ce_ip e) (ce_ttl e) (ce_timestamp e) false) (dns_cache s))
    (dns_servers s) (num_dns_servers s) (dns_query_id s).
