(* ===== verification/DnsSpec.v ===== *)
(** * The DNS resolver: names on the wire, answers and the cache *)
From S2P Require Import Prelude Buffer Dns.
#[local] Open Scope Z_scope.

(** ** Names on the wire *)

(** The labels of a name: what is between the dots, without an empty last one. *)
Fixpoint labels_from (name label : list Z) : list (list Z) :=
  match name with
  | [] => match label with [] => [] | _ => [label] end
  | c :: name => if c =? DOT then label :: labels_from name [] else labels_from name (label ++ [c])
  end.
Definition labels (name : list Z) : list (list Z) := labels_from name [].

Definition wire_label (l : list Z) : list Z := Z.of_nat (length l) :: l.
Definition wire (ls : list (list Z)) : list Z := concat (map wire_label ls) ++ [0].

(** Labels that fit the length byte. *)
Definition short (l : list Z) : Prop := (length l < 256)%nat /\ Forall byte l.

Lemma wire_label_bytes l : short l -> Forall byte (wire_label l).
Proof. intros [Hl Hb]. constructor; [unfold byte; lia|done]. Qed.

Lemma put_label_ok buf base pos l buf_len : short l -> Z.of_nat base + buf_len <= Z.of_nat (length buf) ->
  put_label buf (Z.of_nat base) (Z.of_nat pos) l buf_len =
    Ok (if buf_len <=? Z.of_nat (pos + length (wire_label l)) then None else Some (splice buf (base + pos) (wire_label l))).
Proof.
  intros [Hl Hb] Hlen. unfold put_label. cbn [length wire_label].
  replace (Z.of_nat (pos + S (length l))) with (Z.of_nat pos + 1 + Z.of_nat (length l)) by lia.
  destruct (Z.leb_spec buf_len (Z.of_nat pos + 1 + Z.of_nat (length l))); [done|].
  rewrite <- Nat2Z.inj_add, put_ok by (unfold byte; lia). rewrite bind_ok.
  replace (Z.of_nat (base + pos) + 1) with (Z.of_nat (base + pos + 1)) by lia.
  rewrite put_all_ok by (done || rewrite splice_length; simpl; lia). rewrite bind_ok. do 2 f_equal.
  apply (splice_app buf (base + pos) [Z.of_nat (length l)] l). simpl. lia.
Qed.

Lemma wire_cons l ls : wire (l :: ls) = wire_label l ++ wire ls.
Proof. unfold wire. simpl. by rewrite <- app_assoc. Qed.

Lemma wire_pos ls : (0 < length (wire ls))%nat.
Proof. unfold wire. rewrite length_app. simpl. lia. Qed.

Lemma labels_from_nonnil name label : label <> [] -> labels_from name label <> [].
Proof.
  revert label. induction name as [|c name IH]; intros label Hl; simpl; [by destruct label|].
  destruct (c =? DOT); [done|]. apply IH. by destruct label.
Qed.

(** A label and what follows it. *)
Definition encoded (o : outcome (Z * list Z)) (buf w : list Z) (base pos : nat) (buf_len : Z) : Prop :=
  if Z.of_nat (pos + length w) <=? buf_len then o = Ok (Z.of_nat (pos + length w), splice buf (base + pos) w)
  else exists buf', o = Ok (-1, buf') /\ length buf' = length buf.

Lemma encode_end buf base pos buf_len : 0 < buf_len < 2 ^ 31 -> Z.of_nat pos < buf_len ->
  Z.of_nat base + buf_len <= Z.of_nat (length buf) ->
  (buf ← put buf (Z.of_nat base + Z.of_nat pos) 0; Ok (i32 (Z.of_nat pos + 1), buf)) =
    Ok (Z.of_nat (pos + length (wire [])), splice buf (base + pos) (wire [])).
Proof.
  intros Hb Hpos Hlen. rewrite <- Nat2Z.inj_add, put_ok, bind_ok, i32_small by (unfold byte; lia).
  cbn [wire map concat app length]. do 2 f_equal. lia.
Qed.

Lemma encoded_step o1 o2 buf l w base pos buf_len : short l -> Z.of_nat base + buf_len <= Z.of_nat (length buf) ->
  (0 < length w)%nat -> o1 = Ok (-1, buf) ->
  (Z.of_nat (pos + length (wire_label l)) < buf_len ->
     encoded (o2 (splice buf (base + pos) (wire_label l))) (splice buf (base + pos) (wire_label l)) w base
       (pos + length (wire_label l)) buf_len) ->
  encoded (r ← put_label buf (Z.of_nat base) (Z.of_nat pos) l buf_len;
           match r with None => o1 | Some buf => o2 buf end) buf (wire_label l ++ w) base pos buf_len.
Proof.
  intros Hs Hlen Hw -> Hrest. rewrite put_label_ok, bind_ok by done. unfold encoded in *. rewrite length_app.
  destruct (Z.leb_spec buf_len (Z.of_nat (pos + length (wire_label l)))) as [Hle|Hlt].
  - rewrite (proj2 (Z.leb_gt _ _)) by lia. by exists buf.
  - specialize (Hrest Hlt). rewrite <- Nat.add_assoc in Hrest.
    destruct (Z.leb_spec (Z.of_nat (pos + (length (wire_label l) + length w))) buf_len) as [Hle|Hgt].
    + rewrite Hrest. do 2 f_equal. rewrite Nat.add_assoc. apply splice_app. lia.
    + destruct Hrest as (buf' & -> & Hl). exists buf'. split; [done|]. rewrite Hl. apply splice_length. lia.
Qed.

Lemma encode_loop_ok name : forall label buf (base pos : nat) buf_len,
  Forall short (labels_from name label) -> 0 < buf_len < 2 ^ 31 -> Z.of_nat pos < buf_len ->
  Z.of_nat base + buf_len <= Z.of_nat (length buf) ->
  encoded (encode_loop name label buf (Z.of_nat base) (Z.of_nat pos) buf_len) buf (wire (labels_from name label))
    base pos buf_len.
Proof.
  induction name as [|c name IH]; intros label buf base pos buf_len Hs Hb Hpos Hlen; cbn [encode_loop labels_from] in *.
  - destruct label as [|c0 l0].
    + rewrite bind_ok. unfold encoded. rewrite (proj2 (Z.leb_le _ _)) by (cbn; lia). by apply (encode_end _ _ _ buf_len).
    + set (l := c0 :: l0) in *. inversion_clear Hs as [|? ? Hl _]. rewrite wire_cons.
      apply (encoded_step (Ok (-1, buf)) (fun buf => buf ← put buf (Z.of_nat base + (Z.of_nat pos + 1 + Z.of_nat (length l))) 0;
        Ok (i32 (Z.of_nat pos + 1 + Z.of_nat (length l) + 1), buf))); [done|done|apply wire_pos|done|].
      intros Hlt. replace (Z.of_nat pos + 1 + Z.of_nat (length l)) with (Z.of_nat (pos + length (wire_label l))) by (cbn; lia).
      unfold encoded. rewrite (proj2 (Z.leb_le _ _)) by (cbn in *; lia). apply (encode_end _ _ _ buf_len); [done|done|].
      rewrite splice_length; [done|lia].
  - destruct (c =? DOT).
    + inversion_clear Hs as [|? ? Hl Hs']. rewrite wire_cons.
      apply (encoded_step (Ok (-1, buf)) (fun buf' => encode_loop name [] buf' (Z.of_nat base)
        (Z.of_nat pos + 1 + Z.of_nat (length label)) buf_len)); [done|done|apply wire_pos|done|].
      intros Hlt. replace (Z.of_nat pos + 1 + Z.of_nat (length label)) with (Z.of_nat (pos + length (wire_label label))) by (cbn; lia).
      apply IH; [done|done|done|]. rewrite splice_length; [done|lia].
    + by apply IH.
Qed.

Lemma encode_name_ok name buf base buf_len : Forall short (labels name) -> 0 < buf_len < 2 ^ 31 ->
  Z.of_nat base + buf_len <= Z.of_nat (length buf) ->
  encoded (dns_encode_name name buf (Z.of_nat base) buf_len) buf (wire (labels name)) base 0 buf_len.
Proof. intros Hs Hb Hl. apply (encode_loop_ok name [] buf base 0 buf_len); try done. lia. Qed.

(** ** Decoding *)

(** The name at an offset of a packet: a zero byte ends it, a label and a
    compression pointer go on.  The number counts the bytes up to the end or the
    first pointer. *)
Inductive name_at (r : list Z) : nat -> list (list Z) -> Z -> Prop :=
| at_end off : r !! off = Some 0 -> name_at r off [] 1
| at_label off l ls n : (0 < length l < 192)%nat -> r !! off = Some (Z.of_nat (length l)) ->
    (off + S (length l) <= length r)%nat -> stored r (S off) l ->
    name_at r (off + S (length l)) ls n -> name_at r off (l :: ls) (1 + Z.of_nat (length l) + n)
| at_pointer off hi lo ls n : r !! off = Some hi -> 192 <= hi < 256 -> r !! S off = Some lo -> byte lo ->
    name_at r (Z.to_nat ((hi - 192) * 256 + lo)) ls n -> name_at r off ls 2.

(** The labels joined by dots, after the characters [acc]. *)
Definition dotted (acc l : list Z) : list Z := match acc with [] => l | _ => acc ++ DOT :: l end.
Definition join (acc : list Z) (ls : list (list Z)) : list Z := fold_left dotted ls acc.

Lemma join_length acc ls : (length acc <= length (join acc ls))%nat.
Proof.
  revert acc. induction ls as [|l ls IH]; intros acc; simpl; [lia|]. etrans; [|apply IH].
  unfold dotted. destruct acc; [simpl; lia|]. rewrite length_app. lia.
Qed.

Lemma is_pointer b : byte b -> (Z.land b 0xC0 =? 0xC0) = (192 <=? b).
Proof. apply (byte_cases (fun b => Z.land b 0xC0 =? 0xC0) (fun b => 192 <=? b)). reflexivity. Qed.

Lemma pointer_target hi lo : 192 <= hi < 256 -> byte lo ->
  Z.lor (Z.shiftl (Z.land hi 0x3F) 8) lo = (hi - 192) * 256 + lo.
Proof.
  intros Hhi Hlo. change 0x3F with (Z.ones 6). rewrite Z.land_ones, lor_bytes by (done || lia). f_equal. f_equal.
  change (2 ^ 6) with 64. lia_mod.
Qed.

Lemma decode_label_ok r l : forall off name name_len, stored r off l -> (off + length l <= length r)%nat ->
  Z.of_nat (length name + length l) < name_len < 2 ^ 64 ->
  decode_label (length l) r (Z.of_nat (length r)) (Z.of_nat off) name name_len = Ok (name ++ l, Z.of_nat (off + length l)).
Proof.
  induction l as [|c l IH]; intros off name name_len Hs Hl Hn; cbn [decode_label length] in *.
  - by rewrite app_nil_r, Nat.add_0_r.
  - apply stored_cons in Hs as [Hc Hs]. rewrite (proj2 (Z.ltb_lt _ _)) by lia. rewrite (get_nat _ _ _ Hc), bind_ok.
    rewrite u64_small, (proj2 (Z.ltb_lt _ _)) by lia.
    replace (Z.of_nat off + 1) with (Z.of_nat (S off)) by lia. rewrite IH; [|done|lia|rewrite length_app; simpl; lia].
    rewrite <- app_assoc. do 2 f_equal. lia.
Qed.

Lemma decode_loop_ok r off ls n : name_at r off ls n -> forall acc name_len rd jumped,
  Z.of_nat (length (join acc ls)) < name_len < 2 ^ 64 ->
  exists k, forall fuel, (k <= fuel)%nat ->
    decode_loop fuel r (Z.of_nat (length r)) (Z.of_nat off) acc name_len rd jumped =
      Ok (Some (join acc ls, if jumped then rd else rd + n)).
Proof.
  induction 1 as [off Hb|off l ls n Hl Hb Hle Hs _ IH|off hi lo ls n Hh Hhi Hlo Hblo _ IH]; intros acc name_len rd jumped Hn.
  - exists 1%nat. intros [|fuel] Hf; [lia|]. cbn [decode_loop]. rewrite (proj2 (Z.ltb_lt _ _)) by (apply lookup_lt_Some in Hb; lia).
    by rewrite (get_nat _ _ _ Hb), bind_ok.
  - assert (Hj : (length (dotted acc l) <= length (join (dotted acc l) ls))%nat) by apply join_length.
    destruct (IH (dotted acc l) name_len (if jumped then rd else rd + 1 + Z.of_nat (length l)) jumped Hn) as (k & Hk).
    exists (S k). intros [|fuel] Hf; [lia|]. cbn [decode_loop]. rewrite (proj2 (Z.ltb_lt _ _)) by lia.
    rewrite (get_nat _ _ _ Hb), bind_ok. rewrite (proj2 (Z.eqb_neq _ _)) by lia.
    rewrite is_pointer, (proj2 (Z.leb_gt _ _)) by (unfold byte; lia). rewrite u64_small by lia. rewrite Nat2Z.id.
    set (acc' := if (0 <? _) && _ then _ else _).
    assert (acc' ++ l = dotted acc l) as Hd.
    { unfold acc'. cbn [join fold_left] in Hn. fold (join (dotted acc l) ls) in Hn. unfold dotted in *.
      destruct acc as [|c acc]; [done|]. rewrite length_app in Hj. cbn [length] in *.
      rewrite (proj2 (Z.ltb_lt 0 _)), (proj2 (Z.ltb_lt _ (name_len - 1))) by lia. cbn [andb]. by rewrite <- app_assoc. }
    replace (Z.of_nat off + 1) with (Z.of_nat (S off)) by lia.
    assert (Z.of_nat (length acc' + length l) < name_len < 2 ^ 64) as Hfit.
    { rewrite <- length_app, Hd. cbn [join fold_left] in Hn. fold (join (dotted acc l) ls) in Hn. lia. }
    rewrite (decode_label_ok r l (S off) acc' name_len Hs ltac:(lia) Hfit), bind_ok. cbv beta iota zeta. rewrite Hd.
    replace (Z.of_nat (S off + length l)) with (Z.of_nat (off + S (length l))) by lia. rewrite Hk by lia.
    destruct jumped; [done|]. do 3 f_equal. lia.
  - destruct (IH acc name_len (if jumped then rd else rd + 2) true Hn) as (k & Hk). exists (S k).
    intros [|fuel] Hf; [lia|]. cbn [decode_loop]. rewrite (proj2 (Z.ltb_lt _ _)) by (apply lookup_lt_Some in Hh; lia).
    rewrite (get_nat _ _ _ Hh), bind_ok. rewrite (proj2 (Z.eqb_neq _ _)) by lia.
    rewrite is_pointer, (proj2 (Z.leb_le _ _)) by (unfold byte; lia).
    rewrite (proj2 (Z.leb_gt _ _)) by (apply lookup_lt_Some in Hlo; lia).
    replace (Z.of_nat off + 1) with (Z.of_nat (S off)) by lia. rewrite (get_nat _ _ _ Hlo), bind_ok, pointer_target by done.
    rewrite <- (Z2Nat.id ((hi - 192) * 256 + lo)) by (unfold byte in *; lia). rewrite Hk by lia. by destruct jumped.
Qed.

(** ** What was encoded is decoded *)

Lemma wire_name_at r ls : forall off, Forall (fun l => (0 < length l < 192)%nat) ls ->
  (off + length (wire ls) <= length r)%nat -> stored r off (wire ls) -> name_at r off ls (Z.of_nat (length (wire ls))).
Proof.
  induction ls as [|l ls IH]; intros off Hf Hlen Hs.
  - apply stored_cons in Hs as [Hs _]. by constructor.
  - inversion_clear Hf as [|? ? Hl Hf']. rewrite wire_cons, length_app in *. cbn [wire_label length app] in *.
    change (stored r off (wire_label l ++ wire ls)) in Hs. apply stored_app in Hs as [Hs1 Hs2].
    apply stored_cons in Hs1 as [Hc Hs1].
    replace (Z.of_nat (S (length l) + length (wire ls))) with (1 + Z.of_nat (length l) + Z.of_nat (length (wire ls))) by lia.
    constructor; [done|done|lia|done|]. apply IH; [done|lia|done].
Qed.

(** The labels of a name, joined by dots, are the name. *)
Lemma dotted_snoc acc l c : dotted acc (l ++ [c]) = dotted acc l ++ [c].
Proof. unfold dotted. destruct acc; [done|]. by rewrite <- app_assoc. Qed.

Lemma join_labels_from name : forall acc label, Forall (fun l => l <> []) (labels_from name label) -> name <> [] ->
  last name <> Some DOT -> join acc (labels_from name label) = dotted acc (label ++ name).
Proof.
  induction name as [|c name IH]; intros acc label Hf Hne Hlast; [done|]. cbn [labels_from] in *.
  destruct (Z.eqb_spec c DOT) as [->|Hc].
  - inversion_clear Hf as [|? ? Hl Hf']. destruct name as [|c2 name]; [done|]. cbn [join fold_left].
    fold (join (dotted acc label) (labels_from (c2 :: name) [])). rewrite IH; [|done|done|done].
    unfold dotted. destruct acc as [|a acc]; [by destruct label|]. by rewrite <- app_assoc.
  - destruct name as [|c2 name].
    + cbn [labels_from]. destruct label; by cbn.
    + rewrite IH, <- app_assoc by done. done.
Qed.

Lemma join_labels name : Forall (fun l => l <> []) (labels name) -> last name <> Some DOT -> join [] (labels name) = name.
Proof.
  intros Hf Hl. destruct name as [|c name]; [done|]. by apply (join_labels_from (c :: name) [] []).
Qed.

(** A name that can be asked for: labels of 1 to 63 bytes, no dot at the end. *)
Definition host_name (name : list Z) : Prop :=
  Forall byte name /\ Forall (fun l => (0 < length l < 64)%nat) (labels name) /\ last name <> Some DOT.

Lemma labels_bytes name : forall label, Forall byte name -> Forall byte label -> Forall (Forall byte) (labels_from name label).
Proof.
  induction name as [|c name IH]; intros label Hn Hl; cbn [labels_from].
  - destruct label; constructor; done.
  - inversion_clear Hn. destruct (c =? DOT).
    + constructor; [done|]. apply IH; done.
    + apply IH; [done|]. apply Forall_app. split; [done|]. by apply Forall_singleton.
Qed.

Lemma host_name_short name : host_name name -> Forall short (labels name).
Proof.
  intros (Hb & Hl & _). pose proof (labels_bytes name [] Hb ltac:(done)) as Hbs. apply Forall_forall. intros l Hin.
  rewrite Forall_forall in Hl, Hbs. split; [|by apply Hbs]. pose proof (Hl l Hin). lia.
Qed.

(** ** Responses *)

Definition be16 (v : Z) : list Z := [v / 256; v mod 256].

Lemma get_be16_ok r off v : 0 <= v < 2 ^ 16 -> stored r off (be16 v) -> get_be16 r (Z.of_nat off) = Ok v.
Proof.
  intros Hv Hs. apply stored_cons in Hs as [H1 Hs]. apply stored_cons in Hs as [H2 _]. unfold get_be16.
  rewrite (get_nat _ _ _ H1), bind_ok. replace (Z.of_nat off + 1) with (Z.of_nat (S off)) by lia.
  rewrite (get_nat _ _ _ H2), bind_ok, lor_bytes; [f_equal|unfold byte]; lia_mod.
Qed.

(** A field of the header, stored in network order. *)
Lemma get_header_ok r off v : 0 <= v < 2 ^ 16 -> stored r off (be16 v) ->
  exists x, get16 r (Z.of_nat off) = Ok x /\ ntohs x = v.
Proof.
  intros Hv Hs. apply stored_cons in Hs as [H1 Hs]. apply stored_cons in Hs as [H2 _]. unfold get16.
  rewrite (get_nat _ _ _ H1), bind_ok. replace (Z.of_nat off + 1) with (Z.of_nat (S off)) by lia.
  rewrite (get_nat _ _ _ H2), bind_ok. eexists. split; [done|]. rewrite Z.lor_comm, lor_bytes by (unfold byte; lia_mod).
  unfold ntohs, htons. change 0xFF with (Z.ones 8). rewrite !Z.land_ones, Z.shiftr_div_pow2 by lia.
  rewrite lor_bytes by (unfold byte; apply Z.mod_pos_bound; lia). change (2 ^ 8) with 256. lia_mod.
Qed.

(** How a name ends: with a zero byte or with a pointer. *)
Inductive name_end := Zero | Pointer (hi lo : Z).
Definition end_bytes (e : name_end) : list Z := match e with Zero => [0] | Pointer hi lo => [hi; lo] end.
Definition end_ok (e : name_end) : Prop := match e with Zero => True | Pointer hi _ => 192 <= hi < 256 end.
Definition is_ptr (e : name_end) : bool := match e with Zero => false | Pointer _ _ => true end.
Definition label_bytes (ls : list (list Z)) : list Z := concat (map wire_label ls).
Definition name_bytes (ls : list (list Z)) (e : name_end) : list Z := label_bytes ls ++ end_bytes e.

Lemma skip_name_ok r e : end_ok e -> forall ls fuel off, Forall (fun l => (0 < length l < 192)%nat) ls ->
  (length ls < fuel)%nat -> (off + length (name_bytes ls e) <= length r)%nat -> stored r off (name_bytes ls e) ->
  skip_name fuel r (Z.of_nat (length r)) (Z.of_nat off) =
    Ok (Z.of_nat (off + length (label_bytes ls) + if is_ptr e then 2 else 0), is_ptr e).
Proof.
  intros He. induction ls as [|l ls IH]; intros fuel off Hf Hfuel Hl Hs; (destruct fuel as [|fuel]; [simpl in *; lia|]).
  - cbn [skip_name]. unfold name_bytes in *. cbn [label_bytes map concat app length] in *. rewrite Nat.add_0_r.
    rewrite (proj2 (Z.ltb_lt _ _)) by (destruct e; simpl in *; lia). destruct e as [|hi lo]; simpl in Hs, He.
    + apply stored_cons in Hs as [Hc _]. rewrite (get_nat _ _ _ Hc), bind_ok. cbn. by rewrite Nat.add_0_r.
    + apply stored_cons in Hs as [Hc _]. rewrite (get_nat _ _ _ Hc), bind_ok. rewrite (proj2 (Z.eqb_neq _ _)) by lia.
      rewrite is_pointer, (proj2 (Z.leb_le _ _)) by (unfold byte; lia). cbn [is_ptr]. do 2 f_equal. lia.
  - inversion_clear Hf as [|? ? Hll Hf']. cbn [skip_name].
    assert (name_bytes (l :: ls) e = wire_label l ++ name_bytes ls e) as En
      by (unfold name_bytes, label_bytes; simpl; by rewrite <- app_assoc).
    rewrite En in *. rewrite length_app in Hl. cbn [wire_label length] in Hl.
    rewrite (proj2 (Z.ltb_lt _ _)) by lia. pose proof Hs as Hs2. apply stored_app in Hs2 as [Hs1 Hs2].
    apply stored_cons in Hs1 as [Hc _]. rewrite (get_nat _ _ _ Hc), bind_ok. rewrite (proj2 (Z.eqb_neq _ _)) by lia.
    rewrite is_pointer, (proj2 (Z.leb_gt _ _)) by (unfold byte; lia).
    replace (Z.of_nat off + 1 + Z.of_nat (length l)) with (Z.of_nat (off + S (length l))) by lia.
    rewrite IH; [|done|simpl in *; lia|lia|exact Hs2]. do 3 f_equal. unfold label_bytes. cbn [map concat wire_label].
    rewrite length_app. unfold wire_label at 2. cbn [length]. lia.
Qed.

(** The position behind a name. *)
Lemma skip_owner_ok r e ls off : end_ok e -> Forall (fun l => (0 < length l < 192)%nat) ls ->
  (off + length (name_bytes ls e) <= length r)%nat -> stored r off (name_bytes ls e) ->
  exists p b, skip_name (S (Z.to_nat (Z.of_nat (length r)))) r (Z.of_nat (length r)) (Z.of_nat off) = Ok (p, b) /\
    (if b then Ok p else skip_zero r p) = Ok (Z.of_nat (off + length (name_bytes ls e))) /\
    (e = Zero -> skip_zero r p = Ok (Z.of_nat (off + length (name_bytes ls e)))).
Proof.
  intros He Hf Hl Hs. do 2 eexists. split.
  - apply skip_name_ok; [done|done| |done|done]. rewrite Nat2Z.id. unfold name_bytes in Hl. rewrite length_app in Hl.
    assert (length ls <= length (label_bytes ls))%nat; [|lia].
    clear. induction ls as [|l ls IH]; [simpl; lia|]. unfold label_bytes in *. simpl. rewrite length_app. lia.
  - unfold name_bytes in *. rewrite length_app. apply stored_app in Hs as [_ Hs]. destruct e as [|hi lo]; cbn [is_ptr end_bytes length] in *.
    + apply stored_cons in Hs as [Hc _]. rewrite Nat.add_0_r. unfold skip_zero. rewrite (get_nat _ _ _ Hc), bind_ok. cbn [Z.eqb].
      split; [|intros _]; f_equal; lia.
    + split; [f_equal; lia|done].
Qed.

(** A resource record. *)
Record record := Rec {
  rec_labels : list (list Z); rec_end : name_end; rec_type : Z; rec_class : list Z; rec_ttl : list Z; rec_data : list Z
}.
Record record_ok (c : record) : Prop := {
  ro_end : end_ok (rec_end c);
  ro_labels : Forall (fun l => (0 < length l < 192)%nat) (rec_labels c);
  ro_type : 0 <= rec_type c < 2 ^ 16;
  ro_class : length (rec_class c) = 2%nat;
  ro_ttl : length (rec_ttl c) = 4%nat;
  ro_data : Z.of_nat (length (rec_data c)) < 2 ^ 16 /\ Forall byte (rec_data c)
}.
Definition record_head (c : record) : list Z :=
  name_bytes (rec_labels c) (rec_end c) ++ be16 (rec_type c) ++ rec_class c ++ rec_ttl c ++
  be16 (Z.of_nat (length (rec_data c))).
Definition record_bytes (c : record) : list Z := record_head c ++ rec_data c.

(** The IPv4 address of a record, if it is one. *)
Definition address (c : record) : option Z :=
  match rec_data c with
  | [a; b; x; d] => if rec_type c =? DNS_TYPE_A then Some (a * 2 ^ 24 + b * 2 ^ 16 + x * 2 ^ 8 + d) else None
  | _ => None
  end.

(** The address of the first record that has one. *)
Fixpoint first_address (cs : list record) : option Z :=
  match cs with [] => None | c :: cs => match address c with Some ip => Some ip | None => first_address cs end end.

Lemma address_bytes a b c d : byte a -> byte b -> byte c -> byte d ->
  u32 (Z.lor (Z.lor (Z.lor (Z.shiftl a 24) (Z.shiftl b 16)) (Z.shiftl c 8)) d) = a * 2 ^ 24 + b * 2 ^ 16 + c * 2 ^ 8 + d.
Proof.
  unfold byte. intros Ha Hb Hc Hd. rewrite <- !Z.lor_assoc.
  rewrite (lor_low 8 c d), (lor_low 16 b), (lor_low 24 a) by lia. rewrite u32_small by lia. lia.
Qed.

(** The fixed part of a record, behind the name. *)
Lemma record_fields r off c : record_ok c -> stored r off (record_head c) ->
  let p := (off + length (name_bytes (rec_labels c) (rec_end c)))%nat in
  stored r off (name_bytes (rec_labels c) (rec_end c)) /\
  get_be16 r (Z.of_nat p) = Ok (rec_type c) /\ get_be16 r (Z.of_nat p + 8) = Ok (Z.of_nat (length (rec_data c))).
Proof.
  intros Hok Hs p. unfold record_head in Hs. apply stored_app in Hs as [Hn Hs]. fold p in Hs. split; [done|].
  apply stored_app in Hs as [Ht Hs]. apply stored_app in Hs as [_ Hs]. apply stored_app in Hs as [_ Hs].
  rewrite (ro_class _ Hok), (ro_ttl _ Hok) in *. cbn [length be16] in *.
  split; [by apply get_be16_ok; [apply Hok|]|].
  replace (Z.of_nat p + 8) with (Z.of_nat (p + 2 + 2 + 4)) by lia. apply get_be16_ok; [|done].
  pose proof (ro_data _ Hok). lia.
Qed.

Lemma record_head_length c : record_ok c ->
  length (record_head c) = (length (name_bytes (rec_labels c) (rec_end c)) + 10)%nat.
Proof. intros Hok. unfold record_head. rewrite !length_app, (ro_class _ Hok), (ro_ttl _ Hok). cbn [length be16]. lia. Qed.

Lemma record_length c : record_ok c ->
  length (record_bytes c) = (length (name_bytes (rec_labels c) (rec_end c)) + 10 + length (rec_data c))%nat.
Proof. intros Hok. unfold record_bytes. by rewrite length_app, record_head_length. Qed.

Lemma parse_answers_ok r cs : forall off, Forall record_ok cs ->
  (off + length (concat (map record_bytes cs)) <= length r)%nat -> stored r off (concat (map record_bytes cs)) ->
  parse_answers (length cs) r (Z.of_nat (length r)) (Z.of_nat off) = Ok (first_address cs).
Proof.
  induction cs as [|c cs IH]; intros off Hok Hl Hs; [done|]. inversion_clear Hok as [|? ? Hc Hcs].
  cbn [map concat length parse_answers first_address] in *. rewrite length_app, (record_length c Hc) in Hl.
  apply stored_app in Hs as [Hs Hrest]. unfold record_bytes in Hs. apply stored_app in Hs as [Hs Hdata].
  destruct (record_fields r off c Hc Hs) as (Hn & Ht & Hd). rewrite (record_head_length c Hc), Nat.add_assoc in Hdata.
  set (p := (off + length (name_bytes (rec_labels c) (rec_end c)))%nat) in *.
  destruct (skip_owner_ok r (rec_end c) (rec_labels c) off (ro_end _ Hc) (ro_labels _ Hc) ltac:(lia) Hn) as (q & b & Eq & Ez & _).
  fold p in Ez. rewrite (proj2 (Z.ltb_lt _ _)) by (unfold p in *; lia). rewrite Eq, bind_ok. cbv beta iota zeta. rewrite Ez, bind_ok.
  rewrite (proj2 (Z.ltb_ge _ _)) by (unfold p in *; lia). rewrite Ht, bind_ok, Hd, bind_ok.
  assert (parse_answers (length cs) r (Z.of_nat (length r)) (Z.of_nat p + 10 + Z.of_nat (length (rec_data c))) =
    Ok (first_address cs)) as Hnext.
  { replace (Z.of_nat p + 10 + Z.of_nat (length (rec_data c))) with (Z.of_nat (off + length (record_bytes c)))
      by (rewrite (record_length c Hc); unfold p; lia).
    apply IH; [done| |done]. rewrite (record_length c Hc). lia. }
  unfold address. destruct (rec_type c =? DNS_TYPE_A); cbn [andb].
  - destruct (Z.eqb_spec (Z.of_nat (length (rec_data c))) 4) as [H4|H4].
    + destruct (ro_data _ Hc) as [_ Hb]. destruct (rec_data c) as [|x0 [|x1 [|x2 [|x3 [|]]]]]; try (simpl in H4; lia).
      rewrite !Forall_cons in Hb. destruct Hb as (B0 & B1 & B2 & B3 & _).
      replace (Z.of_nat p + 10) with (Z.of_nat (p + 10 + 0)) by lia. rewrite (get_stored _ _ _ 0 x0 Hdata eq_refl), bind_ok.
      replace (Z.of_nat (p + 10 + 0) + 1) with (Z.of_nat (p + 10 + 1)) by lia. rewrite (get_stored _ _ _ 1 x1 Hdata eq_refl), bind_ok.
      replace (Z.of_nat (p + 10 + 0) + 2) with (Z.of_nat (p + 10 + 2)) by lia. rewrite (get_stored _ _ _ 2 x2 Hdata eq_refl), bind_ok.
      replace (Z.of_nat (p + 10 + 0) + 3) with (Z.of_nat (p + 10 + 3)) by lia. rewrite (get_stored _ _ _ 3 x3 Hdata eq_refl), bind_ok.
      by rewrite address_bytes.
    + rewrite Hnext. destruct (rec_data c) as [|x0 [|x1 [|x2 [|x3 [|]]]]]; try done.
  - rewrite Hnext. destruct (rec_data c) as [|x0 [|x1 [|x2 [|x3 [|]]]]]; done.
Qed.

(** A question: its name and four bytes of type and class. *)
Definition question_bytes (q : list (list Z) * list Z) : list Z := wire (fst q) ++ snd q.
Definition question_ok (q : list (list Z) * list Z) : Prop :=
  Forall (fun l => (0 < length l < 192)%nat) (fst q) /\ length (snd q) = 4%nat.

Lemma skip_questions_ok r qs : forall off, Forall question_ok qs ->
  (off + length (concat (map question_bytes qs)) <= length r)%nat -> stored r off (concat (map question_bytes qs)) ->
  skip_questions (length qs) r (Z.of_nat (length r)) (Z.of_nat off) =
    Ok (Z.of_nat (off + length (concat (map question_bytes qs)))).
Proof.
  induction qs as [|q qs IH]; intros off Hok Hl Hs; cbn [map concat length skip_questions] in *.
  - by rewrite Nat.add_0_r.
  - inversion_clear Hok as [|? ? [Hq Hq4] Hqs]. unfold question_bytes at 1 in Hl. unfold question_bytes at 1 in Hs.
    rewrite !length_app in *. rewrite <- app_assoc in Hs. apply stored_app in Hs as [Hw Hs]. apply stored_app in Hs as [_ Hs].
    rewrite Hq4 in *. change (wire (fst q)) with (name_bytes (fst q) Zero) in *.
    destruct (skip_owner_ok r Zero (fst q) off I Hq ltac:(lia) Hw) as (p & b & E & _ & Ez).
    rewrite E, bind_ok. cbn [fst]. rewrite (Ez eq_refl), bind_ok.
    replace (Z.of_nat (off + length (name_bytes (fst q) Zero)) + 4) with (Z.of_nat (off + length (name_bytes (fst q) Zero) + 4)) by lia.
    rewrite IH; [|done|lia|done]. f_equal. unfold question_bytes at 2. rewrite length_app, Hq4.
    change (wire (fst q)) with (name_bytes (fst q) Zero). lia.
Qed.
