(* ===== verification/DnsTheorems.v ===== *)
(** * The DNS resolver: properties *)
From S2P Require Import Prelude Buffer Dns DnsSpec.
#[local] Open Scope Z_scope.

(** ** Cache *)

Lemma same_name_eq a b : same_name a b = true <-> a = b.
Proof.
  revert b. induction a as [|x a IH]; intros [|y b]; simpl; try done.
  destruct (Z.eqb_spec x y) as [->|Hne]; [rewrite IH; split; congruence|]. split; [done|congruence].
Qed.

(** The address that the cache has for a name. *)
Definition cached (s : dns) (name : list Z) : option Z :=
  i ← dns_cache_lookup s name; ce_ip <$> dns_cache s !! i.

Lemma cached_spec s name : cached s name =
  ce_ip ∘ snd <$> list_find (fun e => ce_valid e && same_name name (ce_name e) = true) (dns_cache s).
Proof.
  unfold cached, dns_cache_lookup. destruct (list_find _ _) as [[i e]|] eqn:E; [|done]. simpl.
  apply list_find_Some in E as (-> & _). done.
Qed.

Lemma list_find_insert_first {A} (P : A -> Prop) `{!forall x, Decision (P x)} (l : list A) i x :
  (i < length l)%nat -> P x -> (forall j y, (j < i)%nat -> l !! j = Some y -> ~ P y) ->
  list_find P (<[i := x]> l) = Some (i, x).
Proof.
  intros Hi Hx Hlt. apply list_find_Some. rewrite list_lookup_insert_eq by done. do 2 (split; [done|]).
  intros j y Hj Hji. rewrite list_lookup_insert_ne in Hj by lia. by apply (Hlt j).
Qed.

(** Replacing an entry that does not match by one that does not match changes no search. *)
Lemma list_find_insert_other {A} (P : A -> Prop) `{!forall x, Decision (P x)} (l : list A) i x y :
  l !! i = Some x -> ~ P x -> ~ P y -> list_find P (<[i := y]> l) = list_find P l.
Proof.
  intros Hi Hx Hy. assert (i < length l)%nat as Hl by by apply lookup_lt_Some in Hi.
  destruct (list_find P l) as [[j z]|] eqn:E.
  - apply list_find_Some in E as (Hj & Hz & Hlt). apply list_find_Some.
    assert (i <> j) by congruence. rewrite list_lookup_insert_ne by done. do 2 (split; [done|]).
    intros k w Hk Hkj. destruct (decide (k = i)) as [->|].
    + rewrite list_lookup_insert_eq in Hk by done. congruence.
    + rewrite list_lookup_insert_ne in Hk by done. by apply (Hlt k).
  - apply list_find_None in E. apply list_find_None. rewrite Forall_forall in *. intros w Hw.
    apply list_elem_of_lookup in Hw as (k & Hk). destruct (decide (k = i)) as [->|].
    + rewrite list_lookup_insert_eq in Hk by done. congruence.
    + rewrite list_lookup_insert_ne in Hk by done. apply E, list_elem_of_lookup. eauto.
Qed.

(** The slot that [dns_cache_add] takes. *)
Definition add_slot (s : dns) : nat := default 0%nat (fst <$> list_find (fun e => ce_valid e = false) (dns_cache s)).

Lemma add_slot_lt s : dns_cache s <> [] -> (add_slot s < length (dns_cache s))%nat.
Proof.
  intros Hne. unfold add_slot. destruct (list_find _ _) as [[i e]|] eqn:E; simpl.
  - apply list_find_Some in E as (Hi & _). by apply lookup_lt_Some in Hi.
  - destruct (dns_cache s); [done|simpl; lia].
Qed.

(** Adding a name of 1 to 254 characters that is not in the cache makes a lookup
    of it find the address added.  The names already there keep their addresses
    while an entry is unused; when all 64 are used, the first entry makes room. *)
Theorem dns_cache_add_lookup s name ip ttl (Hne : dns_cache s <> []) (Hname : (0 < length name < 255)%nat)
    (Hnew : cached s name = None) :
  exists s', dns_cache_add s name ip ttl = Ok s' /\ cached s' name = Some ip /\
    (forall n, n <> name -> (exists e, e ∈ dns_cache s /\ ce_valid e = false) -> cached s' n = cached s n) /\
    (forall n e, n <> name -> dns_cache s !! 0%nat = Some e -> ce_name e <> n -> cached s' n = cached s n).
Proof.
  pose proof (add_slot_lt s Hne) as Hlt. destruct (lookup_lt_is_Some_2 _ _ Hlt) as [old Hold].
  unfold dns_cache_add. fold (add_slot s). rewrite Hold. cbn [of_option]. rewrite bind_ok.
  assert (store_name (ce_name old) name = name) as ->.
  { unfold store_name. destruct name as [|c name]; [simpl in Hname; lia|]. apply take_ge. simpl in *. unfold DNS_MAX_NAME_LEN. lia. }
  eexists. split; [done|]. rewrite cached_spec in Hnew. apply fmap_None, list_find_None in Hnew.
  rewrite Forall_forall in Hnew. split; [|split].
  - rewrite cached_spec. cbn. rewrite list_find_insert_first; [done|done| |].
    + cbn. by apply same_name_eq.
    + intros j y _ Hj. apply Hnew, list_elem_of_lookup. eauto.
  - intros n Hn (e & He & Hv). rewrite !cached_spec. cbn. f_equal. apply (list_find_insert_other _ _ _ old); [done| |].
    + unfold add_slot in Hold. destruct (list_find _ _) as [[i x]|] eqn:E; simpl in Hold.
      * apply list_find_Some in E as (Hi & Hx & _). assert (x = old) as -> by congruence. by rewrite Hx.
      * apply list_find_None in E. rewrite Forall_forall in E. by destruct (E e He).
    + cbn. by rewrite same_name_eq.
  - intros n e Hn He Hen. rewrite !cached_spec. cbn. f_equal. apply (list_find_insert_other _ _ _ old); [done| |].
    + unfold add_slot in Hold. destruct (list_find _ _) as [[i x]|] eqn:E; simpl in Hold.
      * apply list_find_Some in E as (Hi & Hx & _). assert (x = old) as -> by congruence. by rewrite Hx.
      * assert (e = old) as -> by congruence. intros [_ Hs]%andb_prop. apply same_name_eq in Hs. congruence.
    + cbn. by rewrite same_name_eq.
Qed.

Definition host_ab : list Z := [97; 46; 98].

Lemma dns_cache_add_lookup_witness : exists s', dns_cache_add dns_boot host_ab 0x7F000001 60 = Ok s' /\ cached s' host_ab = Some 0x7F000001.
Proof.
  destruct (dns_cache_add_lookup dns_boot host_ab 0x7F000001 60 ltac:(discriminate) ltac:(simpl; lia) ltac:(vm_compute; reflexivity))
    as (s' & E & C & _).
  exists s'. split; [exact E | exact C].
Defined.

(** ** Names *)

(** C23. Encoding a host name and decoding the result gives the name back: when the
    encoding fits the buffer, [dns_encode_name] stores exactly the wire form of its
    labels and returns its length, and [dns_decode_name] at that place
    terminates, consumes the same number of bytes and yields the name.  When it
    does not fit, [dns_encode_name] returns -1 and stays inside the buffer. *)
Theorem dns_name_roundtrip name buf base buf_len name_len (w := wire (labels name)) (Hname : host_name name)
    (Hb : 0 < buf_len < 2 ^ 31) (Hl : Z.of_nat base + buf_len <= Z.of_nat (length buf))
    (Hn : Z.of_nat (length name) < name_len < 2 ^ 64) :
  (Z.of_nat (length w) <= buf_len ->
     dns_encode_name name buf (Z.of_nat base) buf_len = Ok (Z.of_nat (length w), splice buf base w) /\
     exists k, forall fuel, (k <= fuel)%nat ->
       dns_decode_name fuel (splice buf base w) (Z.of_nat (length buf)) (Z.of_nat base) name_len = Ok (Z.of_nat (length w), name)) /\
  (buf_len < Z.of_nat (length w) ->
     exists buf', dns_encode_name name buf (Z.of_nat base) buf_len = Ok (-1, buf') /\ length buf' = length buf).
Proof.
  pose proof (encode_name_ok name buf base buf_len (host_name_short name Hname) Hb Hl) as E. fold w in E.
  unfold encoded in E. cbn [Nat.add] in E. rewrite Nat.add_0_r in E. split; intros Hle.
  - rewrite (proj2 (Z.leb_le _ _)) in E by done. split; [done|]. destruct Hname as (_ & Hls & Hlast).
    assert (name_at (splice buf base w) base (labels name) (Z.of_nat (length w))) as Hat.
    { unfold w in *. apply wire_name_at; [|rewrite splice_length; lia|apply splice_stored; lia].
      eapply Forall_impl; [exact Hls|]. cbn beta. intros l Hll. lia. }
    assert (join [] (labels name) = name) as Hj.
    { apply join_labels; [|done]. eapply Forall_impl; [exact Hls|]. intros l Hll ->. simpl in Hll. lia. }
    destruct (decode_loop_ok _ _ _ _ Hat [] name_len 0 false) as (k & Hk); [by rewrite Hj|].
    exists k. intros fuel Hf. unfold dns_decode_name. rewrite splice_length in Hk by lia. rewrite Hk, bind_ok, Hj by done.
    cbv beta iota zeta. rewrite Z.add_0_l, i32_small by lia. done.
  - by rewrite (proj2 (Z.leb_gt _ _)) in E.
Qed.

Lemma dns_name_roundtrip_witness : exists k, forall fuel, (k <= fuel)%nat ->
  dns_decode_name fuel (splice (replicate 16 9) 2 [1; 97; 1; 98; 0]) 16 2 100 = Ok (5, host_ab).
Proof.
  assert (host_name host_ab) as Hh.
  { split; [by repeat constructor|]. split; [|discriminate]. repeat constructor; simpl; lia. }
  destruct (dns_name_roundtrip host_ab (replicate 16 9) 2 14 100 Hh ltac:(lia) ltac:(simpl; lia) ltac:(simpl; lia)) as [R _].
  destruct (R ltac:(vm_compute; discriminate)) as [_ K]. exact K.
Defined.

(** Decoding follows the wire format with compression: whenever the labels of a
    name can be read at an offset, through any chain of compression pointers,
    and fit the buffer when joined by dots, [dns_decode_name] terminates with exactly
    that string and with the number of bytes up to the first pointer or the end. *)
Theorem dns_decode_correct r off ls n name_len (Hat : name_at r off ls n)
    (Hfit : Z.of_nat (length (join [] ls)) < name_len < 2 ^ 64) (Hn : 0 <= n < 2 ^ 31) :
  exists k, forall fuel, (k <= fuel)%nat ->
    dns_decode_name fuel r (Z.of_nat (length r)) (Z.of_nat off) name_len = Ok (n, join [] ls).
Proof.
  destruct (decode_loop_ok r off ls n Hat [] name_len 0 false Hfit) as (k & Hk). exists k. intros fuel Hf.
  unfold dns_decode_name. rewrite Hk, bind_ok by done. cbv beta iota zeta. by rewrite Z.add_0_l, i32_small by lia.
Qed.

(** "b" at offset 0, and "a" followed by a pointer to it at offset 3. *)
Lemma dns_decode_correct_witness : exists k, forall fuel, (k <= fuel)%nat ->
  dns_decode_name fuel [1; 98; 0; 1; 97; 192; 0] 7 3 100 = Ok (4, host_ab).
Proof.
  apply (dns_decode_correct [1; 98; 0; 1; 97; 192; 0] 3 [[97]; [98]] 4 100).
  - apply (at_label _ 3 [97] [[98]] 2); [simpl; lia|reflexivity|simpl; lia|reflexivity|].
    apply (at_pointer _ 5 192 0 [[98]] 3); [reflexivity|lia|reflexivity|unfold byte; lia|].
    apply (at_label _ 0 [98] [] 1); [simpl; lia|reflexivity|simpl; lia|reflexivity|].
    apply at_end. reflexivity.
  - vm_compute. split; reflexivity.
  - lia.
Defined.

(** A compression pointer that points to itself is followed forever: no number
    of iterations ends the loop of [dns_decode_name]. *)
Theorem dns_decode_diverges r off hi lo name_len fuel (Hhi : r !! off = Some hi) (Hp : 192 <= hi < 256)
    (Hlo : r !! S off = Some lo) (Hb : byte lo) (Hself : (hi - 192) * 256 + lo = Z.of_nat off) :
  dns_decode_name fuel r (Z.of_nat (length r)) (Z.of_nat off) name_len = NoFuel.
Proof.
  assert (forall n acc rd j, decode_loop n r (Z.of_nat (length r)) (Z.of_nat off) acc name_len rd j = NoFuel) as E.
  { induction n as [|n IH]; intros acc rd j; cbn [decode_loop]; [done|].
    rewrite (proj2 (Z.ltb_lt _ _)) by (apply lookup_lt_Some in Hhi; lia). rewrite (get_nat _ _ _ Hhi), bind_ok.
    rewrite (proj2 (Z.eqb_neq _ _)) by lia. rewrite is_pointer, (proj2 (Z.leb_le _ _)) by (unfold byte; lia).
    rewrite (proj2 (Z.leb_gt _ _)) by (apply lookup_lt_Some in Hlo; lia).
    replace (Z.of_nat off + 1) with (Z.of_nat (S off)) by lia.
    by rewrite (get_nat _ _ _ Hlo), bind_ok, pointer_target, Hself, IH. }
  unfold dns_decode_name. by rewrite E.
Qed.

Lemma dns_decode_diverges_witness : dns_decode_name 1000 [192; 0] 2 0 256 = NoFuel.
Proof.
  exact (dns_decode_diverges [192; 0] 0 192 0 256 1000 eq_refl ltac:(lia) eq_refl ltac:(unfold byte; lia) eq_refl).
Defined.

(** ** Responses *)

Definition header (id : list Z) (flags q a : Z) (counts : list Z) : list Z := id ++ be16 flags ++ be16 q ++ be16 a ++ counts.

Lemma header_length id flags q a counts : length id = 2%nat -> length counts = 4%nat ->
  length (header id flags q a counts) = 12%nat.
Proof. intros H1 H2. unfold header. rewrite !length_app, H1, H2. done. Qed.

(** What the parser does with the header. *)
Lemma parse_header r id flags q a counts len : stored r 0 (header id flags q a counts) -> length id = 2%nat ->
  0 <= flags < 2 ^ 16 -> 0 <= q < 2 ^ 16 -> 0 <= a < 2 ^ 16 -> 12 <= len ->
  dns_parse_response r len =
    if Z.land flags DNS_FLAG_QR =? 0 then Ok (-1, None)
    else if negb (Z.land flags DNS_RCODE_MASK =? 0) then Ok (-1, None)
    else if a =? 0 then Ok (-1, None)
    else
      pos ← skip_questions (Z.to_nat q) r len DNS_HEADER_SIZE;
      ip ← parse_answers (Z.to_nat a) r len pos;
      match ip with Some ip => Ok (0, Some ip) | None => Ok (-1, None) end.
Proof.
  intros Hs Hid Hf Hq Ha Hlen. unfold dns_parse_response. rewrite (proj2 (Z.ltb_ge _ _)) by (unfold DNS_HEADER_SIZE; lia).
  apply stored_app in Hs as [_ Hs]. rewrite Hid in Hs.
  apply stored_app in Hs as [H2 Hs]. apply stored_app in Hs as [H4 Hs]. apply stored_app in Hs as [H6 _].
  destruct (get_header_ok r 2 flags Hf H2) as (x & Ex & Hx).
  destruct (get_header_ok r 4 q Hq H4) as (y & Ey & Hy).
  destruct (get_header_ok r 6 a Ha H6) as (z & Ez & Hz).
  change (Z.of_nat 2) with 2 in Ex. change (Z.of_nat 4) with 4 in Ey. change (Z.of_nat 6) with 6 in Ez.
  rewrite Ex, bind_ok, Hx. destruct (Z.land flags DNS_FLAG_QR =? 0); [done|].
  destruct (negb _); [done|]. by rewrite Ey, bind_ok, Ez, bind_ok, Hy, Hz.
Qed.

(** A DNS message: the header, the questions, the answers and whatever follows. *)
Definition message (id : list Z) (flags : Z) (counts : list Z) (qs : list (list (list Z) * list Z)) (cs : list record)
    (rest : list Z) : list Z :=
  header id flags (Z.of_nat (length qs)) (Z.of_nat (length cs)) counts ++ concat (map question_bytes qs) ++ concat (map record_bytes cs) ++ rest.

(** The verdict on the flags. *)
Definition accepted (flags : Z) : bool := negb (Z.land flags DNS_FLAG_QR =? 0) && (Z.land flags DNS_RCODE_MASK =? 0).

(** Parsing a response returns the address of its first answer that is an
    IPv4 address, whatever the names of the questions and answers, compressed or
    not, and the other answers; -1 when the message is not a response, reports an
    error or has no such answer.  No byte behind the message is read. *)
Theorem dns_parse_response_correct id flags counts qs cs rest (r := message id flags counts qs cs rest)
    (Hid : length id = 2%nat) (Hc : length counts = 4%nat) (Hflags : 0 <= flags < 2 ^ 16)
    (Hqs : Forall question_ok qs) (Hcs : Forall record_ok cs) (Hnq : Z.of_nat (length qs) < 2 ^ 16)
    (Hnc : Z.of_nat (length cs) < 2 ^ 16) :
  dns_parse_response r (Z.of_nat (length r)) =
    Ok (if accepted flags then match first_address cs with Some ip => (0, Some ip) | None => (-1, None) end else (-1, None)).
Proof.
  assert (stored r 0 r) as Hs by (unfold stored; by rewrite drop_0, firstn_all).
  assert (length r = (12 + length (concat (map question_bytes qs)) + length (concat (map record_bytes cs)) + length rest)%nat) as Hlen.
  { unfold r, message. rewrite !length_app, header_length by done. lia. }
  unfold r at 2, message in Hs. apply stored_app in Hs as [Hh Hs]. rewrite header_length in Hs by done. cbn [Nat.add] in Hs.
  apply stored_app in Hs as [Hq Hs]. apply stored_app in Hs as [Ha _].
  rewrite (parse_header r _ _ _ _ _ _ Hh) by (done || lia). unfold accepted.
  destruct (Z.land flags DNS_FLAG_QR =? 0); cbn [negb andb]; [done|].
  destruct (Z.land flags DNS_RCODE_MASK =? 0); cbn [negb]; [|done].
  destruct (Z.eqb_spec (Z.of_nat (length cs)) 0) as [E0|_].
  { destruct cs; [done|simpl in E0; lia]. }
  rewrite !Nat2Z.id. change DNS_HEADER_SIZE with (Z.of_nat 12).
  rewrite (skip_questions_ok r qs 12 Hqs ltac:(lia) Hq), bind_ok.
  rewrite (parse_answers_ok r cs (12 + length (concat (map question_bytes qs))) Hcs ltac:(lia) Ha), bind_ok. by destruct (first_address cs).
Qed.

(** A response for "a.b" with a CNAME answer and an address, both with compressed names. *)
Definition sample : list record :=
  [Rec [] (Pointer 192 12) 5 [0; 1] [0; 0; 0; 60] [1; 98; 0]; Rec [] (Pointer 192 12) 1 [0; 1] [0; 0; 0; 60] [10; 0; 0; 7]].

Lemma dns_parse_response_correct_witness :
  dns_parse_response (message [0; 1] 0x8180 [0; 0; 0; 0] [([[97]; [98]], [0; 1; 0; 1])] sample []) 52 = Ok (0, Some 0x0A000007).
Proof.
  refine (dns_parse_response_correct [0; 1] 0x8180 [0; 0; 0; 0] [([[97]; [98]], [0; 1; 0; 1])] sample [] eq_refl eq_refl
    _ _ _ _ _); [lia| | |simpl; lia|simpl; lia].
  - repeat constructor; simpl; lia.
  - repeat constructor; simpl; lia.
Defined.

(** The check that a message holds a whole record does not cover the rest: for
    a message that ends with its header and announces a question, and for one that
    ends with the fixed part of an address record, the parser reads behind the end. *)
Theorem dns_parse_overread id flags counts c (Hid : length id = 2%nat) (Hc : length counts = 4%nat)
    (Hflags : 0 <= flags < 2 ^ 16) (Hacc : accepted flags = true) (nq nc : Z) (Hnq : 0 < nq < 2 ^ 16) (Hnc : 0 < nc < 2 ^ 16)
    (Hr : record_ok c) (Ht : rec_type c = DNS_TYPE_A) (Hd : length (rec_data c) = 4%nat)
    (cut := header id flags 0 nc counts ++ record_head c) :
  dns_parse_response (header id flags nq nc counts) 12 = Fault /\
  dns_parse_response cut (Z.of_nat (length cut)) = Fault.
Proof.
  unfold accepted in Hacc. apply andb_prop in Hacc as [H1%negb_true_iff H2]. split.
  - assert (stored (header id flags nq nc counts) 0 (header id flags nq nc counts)) as Hs
      by (unfold stored; by rewrite drop_0, firstn_all).
    assert (length (header id flags nq nc counts) = 12%nat) as Hl by by apply header_length.
    rewrite (parse_header _ id flags nq nc counts 12) by (done || lia). rewrite H1, H2. cbn [negb].
    rewrite (proj2 (Z.eqb_neq _ _)) by lia. destruct (Z.to_nat nq) as [|n] eqn:En; [lia|]. cbn [skip_questions].
    unfold DNS_HEADER_SIZE. cbn [Z.to_nat Pos.to_nat Pos.iter_op skip_name]. rewrite Z.ltb_irrefl, bind_ok. cbn [fst].
    unfold skip_zero. by rewrite get_past by lia.
  - assert (stored cut 0 (header id flags 0 nc counts ++ record_head c)) as Hs
      by (unfold stored; by rewrite drop_0, firstn_all).
    apply stored_app in Hs as [Hh Hs]. rewrite (header_length id flags 0 nc counts Hid Hc) in Hs. cbn [Nat.add] in Hs.
    assert (length cut = (12 + (length (name_bytes (rec_labels c) (rec_end c)) + 10))%nat) as Hl.
    { unfold cut. by rewrite length_app, header_length, record_head_length. }
    rewrite (parse_header _ id flags 0 nc counts) by (done || lia). rewrite H1, H2. cbn [negb].
    rewrite (proj2 (Z.eqb_neq _ _)) by lia. change (Z.to_nat 0) with 0%nat. cbn [skip_questions]. rewrite bind_ok.
    destruct (Z.to_nat nc) as [|n] eqn:En; [lia|]. cbn [parse_answers].
    destruct (record_fields cut 12 c Hr Hs) as (Hn & Hty & Hdl).
    destruct (skip_owner_ok cut (rec_end c) (rec_labels c) 12 (ro_end _ Hr) (ro_labels _ Hr) ltac:(lia) Hn) as (q & b & Eq & Ez & _).
    change DNS_HEADER_SIZE with (Z.of_nat 12). rewrite (proj2 (Z.ltb_lt _ _)) by lia. rewrite Eq, bind_ok. cbv beta iota zeta.
    rewrite Ez, bind_ok. rewrite (proj2 (Z.ltb_ge _ _)) by lia. rewrite Hty, bind_ok, Hdl, bind_ok, Ht, Hd.
    change ((DNS_TYPE_A =? DNS_TYPE_A) && (Z.of_nat 4 =? 4)) with true. cbv iota.
    by rewrite (get_past cut (Z.of_nat (12 + length (name_bytes (rec_labels c) (rec_end c))) + 10)) by lia.
Qed.

Lemma dns_parse_overread_witness : dns_parse_response (header [0; 1] 0x8180 1 1 [0; 0; 0; 0]) 12 = Fault.
Proof.
  refine (proj1 (dns_parse_overread [0; 1] 0x8180 [0; 0; 0; 0] (Rec [] (Pointer 192 12) 1 [0; 1] [0; 0; 0; 60] [10; 0; 0; 7])
    eq_refl eq_refl ltac:(lia) eq_refl 1 1 ltac:(lia) ltac:(lia) _ eq_refl eq_refl)).
  repeat constructor; simpl; lia.
Defined.
