(* ===== verification/Packet.v ===== *)
(** * Network packets: headers, byte order, checksums
    (net/tcp_ip.c, net/socket.c, include/net/net.h)

    A header is a record; [*_bytes] is the layout of its packed structure.  A
    field holds the number the machine reads, so a field in network order holds
    the swapped number. *)
From S2P Require Import Prelude Buffer.
#[local] Open Scope Z_scope.

Definition ETH_ALEN : Z := 6.
Definition ETH_HLEN : Z := 14.
Definition ETH_P_IP : Z := 0x0800.
Definition ETH_P_ARP : Z := 0x0806.
Definition IP_PROTO_ICMP : Z := 1.
Definition IP_PROTO_TCP : Z := 6.
Definition IP_PROTO_UDP : Z := 17.

(** ** Byte order *)

Definition htons (x : Z) : Z := Z.lor (Z.land (Z.shiftr x 8) 0xFF) (Z.shiftl (Z.land x 0xFF) 8).
Definition ntohs (x : Z) : Z := htons x.
Definition htonl (x : Z) : Z :=
  Z.lor (Z.lor (Z.lor (Z.land (Z.shiftr x 24) 0xFF) (Z.land (Z.shiftr x 8) 0xFF00))
           (Z.shiftl (Z.land x 0xFF00) 8)) (u32 (Z.shiftl (Z.land x 0xFF) 24)).
Definition ntohl (x : Z) : Z := htonl x.

(** ** Headers *)

Definition le16 (v : Z) : list Z := [v mod 256; v / 256].
Definition le32 (v : Z) : list Z := [v mod 256; v / 256 mod 256; v / 65536 mod 256; v / 16777216].

Record eth_hdr := EthHdr { eth_dest : list Z; eth_src : list Z; eth_type : Z }.
Definition eth_bytes (h : eth_hdr) : list Z := eth_dest h ++ eth_src h ++ le16 (eth_type h).

Record arp_hdr := ArpHdr {
  hw_type : Z; proto_type : Z; hw_len : Z; proto_len : Z; opcode : Z;
  sender_mac : list Z; sender_ip : Z; target_mac : list Z; target_ip : Z
}.
Definition arp_bytes (h : arp_hdr) : list Z :=
  le16 (hw_type h) ++ le16 (proto_type h) ++ [hw_len h; proto_len h] ++ le16 (opcode h) ++
  sender_mac h ++ le32 (sender_ip h) ++ target_mac h ++ le32 (target_ip h).

Record ip_hdr := IpHdr {
  version_ihl : Z; tos : Z; total_len : Z; ip_id : Z; flags_frag : Z;
  ttl : Z; protocol : Z; ip_checksum : Z; src_ip : Z; dst_ip : Z
}.
Definition ip_bytes (h : ip_hdr) : list Z :=
  [version_ihl h; tos h] ++ le16 (total_len h) ++ le16 (ip_id h) ++ le16 (flags_frag h) ++
  [ttl h; protocol h] ++ le16 (ip_checksum h) ++ le32 (src_ip h) ++ le32 (dst_ip h).

Record icmp_hdr := IcmpHdr { icmp_type : Z; icmp_code : Z; icmp_checksum : Z; icmp_id : Z; icmp_seq : Z }.
Definition icmp_bytes (h : icmp_hdr) : list Z :=
  [icmp_type h; icmp_code h] ++ le16 (icmp_checksum h) ++ le16 (icmp_id h) ++ le16 (icmp_seq h).

Record udp_hdr := UdpHdr { udp_src_port : Z; udp_dst_port : Z; udp_length : Z; udp_checksum : Z }.
Definition udp_bytes (h : udp_hdr) : list Z :=
  le16 (udp_src_port h) ++ le16 (udp_dst_port h) ++ le16 (udp_length h) ++ le16 (udp_checksum h).

Record tcp_hdr := TcpHdr {
  src_port : Z; dst_port : Z; tcp_seq : Z; tcp_ack : Z; data_offset : Z;
  tcp_flags : Z; window : Z; tcp_check : Z; urgent : Z
}.
Definition tcp_bytes (h : tcp_hdr) : list Z :=
  le16 (src_port h) ++ le16 (dst_port h) ++ le32 (tcp_seq h) ++ le32 (tcp_ack h) ++
  [data_offset h; tcp_flags h] ++ le16 (window h) ++ le16 (tcp_check h) ++ le16 (urgent h).

(** sizeof of the packed structures. *)
Definition SIZEOF_ARP : Z := 28.
Definition SIZEOF_IP : Z := 20.
Definition SIZEOF_ICMP : Z := 8.
Definition SIZEOF_UDP : Z := 8.
Definition SIZEOF_TCP : Z := 20.

(** ** Checksums *)

(** The first two loops of [checksum]: 16-bit words, then an odd byte. *)
Fixpoint sum_words (data : list Z) (sum : Z) : Z :=
  match data with
  | lo :: hi :: data => sum_words data (u32 (sum + (lo + 256 * hi)))
  | [b] => u32 (sum + b)
  | [] => sum
  end.

(** [while (sum >> 16)]; three rounds suffice (fold_sum_spec). *)
Fixpoint fold_sum (fuel : nat) (sum : Z) : outcome Z :=
  match fuel with
  | O => NoFuel
  | S fuel =>
      if Z.shiftr sum 16 =? 0 then Ok sum
      else fold_sum fuel (u32 (Z.land sum 0xFFFF + Z.shiftr sum 16))
  end.

Definition checksum (data : list Z) : outcome Z :=
  s ← fold_sum 3 (sum_words data 0); Ok (u16 (Z.lnot s)).

(** The pseudo header: the addresses of [ip], the protocol and the length. *)
Definition pseudo_sum (src dst tcp_len : Z) : Z :=
  let sum := Z.land (Z.shiftr src 16) 0xFFFF in
  let sum := u32 (sum + Z.land src 0xFFFF) in
  let sum := u32 (sum + Z.land (Z.shiftr dst 16) 0xFFFF) in
  let sum := u32 (sum + Z.land dst 0xFFFF) in
  let sum := u32 (sum + htons IP_PROTO_TCP) in
  u32 (sum + htons (u16 tcp_len)).

(** [segment] is the TCP header with its data, [tcp_len] bytes. *)
Definition tcp_checksum (src dst : Z) (segment : list Z) (tcp_len : Z) : outcome Z :=
  s ← fold_sum 3 (sum_words segment (pseudo_sum src dst tcp_len)); Ok (u16 (Z.lnot s)).

(** ** Reading a header inside a frame *)

Definition get32 (buf : list Z) (pos : Z) : outcome Z :=
  lo ← get16 buf pos; hi ← get16 buf (pos + 2); Ok (Z.lor lo (Z.shiftl hi 16)).

Fixpoint get_bytes (n : nat) (buf : list Z) (pos : Z) : outcome (list Z) :=
  match n with
  | O => Ok []
  | S n => b ← get buf pos; bs ← get_bytes n buf (pos + 1); Ok (b :: bs)
  end.
