(* ===== verification/PacketSpec.v ===== *)
(** * Network packets: byte order, checksums and layout *)
From S2P Require Import Prelude Buffer Packet.
#[local] Open Scope Z_scope.

(** ** Byte order *)

Lemma htons_spec x : 0 <= x < 2 ^ 16 -> htons x = x mod 256 * 256 + x / 256.
Proof.
  intros Hx. unfold htons. change 0xFF with (Z.ones 8). rewrite !Z.land_ones, Z.shiftr_div_pow2, Z.lor_comm by lia.
  rewrite lor_bytes by (unfold byte; apply Z.mod_pos_bound; lia). change (2 ^ 8) with 256. lia_mod.
Qed.

Lemma htons_range x : 0 <= x < 2 ^ 16 -> 0 <= htons x < 2 ^ 16.
Proof. intros Hx. rewrite htons_spec by done. lia_mod. Qed.

Lemma ntohs_htons x : 0 <= x < 2 ^ 16 -> ntohs (htons x) = x.
Proof.
  intros Hx. unfold ntohs. rewrite (htons_spec (htons x)) by (by apply htons_range). rewrite htons_spec by done. lia_mod.
Qed.

Lemma htonl_spec x : 0 <= x < 2 ^ 32 ->
  htonl x = x mod 256 * 16777216 + x / 256 mod 256 * 65536 + x / 65536 mod 256 * 256 + x / 16777216.
Proof.
  intros Hx. unfold htonl.
  assert (Z.land x 0xFF00 = Z.shiftl (x / 256 mod 256) 8) as E1.
  { apply Z.bits_inj'. intros n Hn. rewrite Z.land_spec. change 0xFF00 with (Z.shiftl (Z.ones 8) 8).
    rewrite !Z.shiftl_spec by lia. change 256 with (2 ^ 8). rewrite <- Z.land_ones, <- Z.shiftr_div_pow2 by lia.
    destruct (Z.ltb_spec n 8).
    - by rewrite !(Z.testbit_neg_r _ (n - 8)), andb_false_r by lia.
    - rewrite Z.land_spec, Z.shiftr_spec by lia. do 2 f_equal. lia. }
  assert (Z.land (Z.shiftr x 8) 0xFF00 = Z.shiftl (x / 65536 mod 256) 8) as E2.
  { apply Z.bits_inj'. intros n Hn. rewrite Z.land_spec, Z.shiftr_spec by lia. change 0xFF00 with (Z.shiftl (Z.ones 8) 8).
    rewrite !Z.shiftl_spec by lia. change 256 with (2 ^ 8). change 65536 with (2 ^ 16).
    rewrite <- Z.land_ones, <- Z.shiftr_div_pow2 by lia.
    destruct (Z.ltb_spec n 8).
    - by rewrite !(Z.testbit_neg_r _ (n - 8)), andb_false_r by lia.
    - rewrite Z.land_spec, Z.shiftr_spec by lia. do 2 f_equal. lia. }
  rewrite E1, E2, Z.shiftl_shiftl by lia. change 0xFF with (Z.ones 8). rewrite !Z.land_ones, Z.shiftr_div_pow2 by lia.
  change (2 ^ 24) with 16777216. change (2 ^ 8) with 256. change (8 + 8) with 16.
  assert (u32 (Z.shiftl (x mod 256) 24) = Z.shiftl (x mod 256) 24) as ->.
  { apply u32_small. rewrite Z.shiftl_mul_pow2 by lia. change (2 ^ 24) with 16777216. lia_mod. }
  rewrite Z.lor_comm, (Z.lor_comm _ (Z.shiftl (x / 256 mod 256) 16)), (Z.lor_comm (x / 16777216 mod 256)).
  rewrite (lor_low 8 (x / 65536 mod 256)) by lia_mod.
  rewrite (lor_low 16 (x / 256 mod 256)) by (change (2 ^ 8) with 256; lia_mod).
  rewrite (lor_low 24 (x mod 256)) by (change (2 ^ 8) with 256; change (2 ^ 16) with 65536; lia_mod).
  change (2 ^ 8) with 256. change (2 ^ 16) with 65536. change (2 ^ 24) with 16777216. lia_mod.
Qed.

(** The bytes of a number. *)
Definition num32 (a b c d : Z) : Z := a + 256 * b + 65536 * c + 16777216 * d.
Lemma num32_digits a b c d : byte a -> byte b -> byte c -> byte d ->
  num32 a b c d mod 256 = a /\ num32 a b c d / 256 mod 256 = b /\ num32 a b c d / 65536 mod 256 = c /\
  num32 a b c d / 16777216 = d /\ 0 <= num32 a b c d < 2 ^ 32.
Proof.
  unfold num32, byte. intros. split; [lia_mod|]. split; [|split; [|split; [lia_mod|lia]]].
  - replace ((a + 256 * b + 65536 * c + 16777216 * d) / 256) with (b + 256 * (c + 256 * d)) by lia_mod. lia_mod.
  - replace ((a + 256 * b + 65536 * c + 16777216 * d) / 65536) with (c + 256 * d) by lia_mod. lia_mod.
Qed.
Lemma num32_exists x : 0 <= x < 2 ^ 32 -> exists a b c d, x = num32 a b c d /\ byte a /\ byte b /\ byte c /\ byte d.
Proof.
  intros Hx. exists (x mod 256), (x / 256 mod 256), (x / 65536 mod 256), (x / 16777216). unfold num32, byte.
  split; [|lia_mod]. replace (x / 65536) with (x / 256 / 256) by (rewrite Z.div_div by lia; reflexivity).
  replace (x / 16777216) with (x / 256 / 256 / 256) by (rewrite !Z.div_div by lia; reflexivity).
  pose proof (Z.div_mod x 256). pose proof (Z.div_mod (x / 256) 256). pose proof (Z.div_mod (x / 256 / 256) 256). lia.
Qed.

Lemma htonl_num32 a b c d : byte a -> byte b -> byte c -> byte d -> htonl (num32 a b c d) = num32 d c b a.
Proof.
  intros Ha Hb Hc Hd. destruct (num32_digits a b c d) as (E1 & E2 & E3 & E4 & Hr); [done..|].
  rewrite htonl_spec, E1, E2, E3, E4 by done. unfold num32. lia.
Qed.

Lemma htonl_range x : 0 <= x < 2 ^ 32 -> 0 <= htonl x < 2 ^ 32.
Proof.
  intros (a & b & c & d & -> & ? & ? & ? & ?)%num32_exists. rewrite htonl_num32 by done. by apply num32_digits.
Qed.

Lemma ntohl_htonl x : 0 <= x < 2 ^ 32 -> ntohl (htonl x) = x.
Proof.
  intros (a & b & c & d & -> & ? & ? & ? & ?)%num32_exists. unfold ntohl. by rewrite !htonl_num32.
Qed.

(** Putting a number back together from its bytes. *)
Lemma le16_join v : 0 <= v < 2 ^ 16 -> Z.lor (v mod 256) (Z.shiftl (v / 256) 8) = v.
Proof. intros Hv. rewrite Z.lor_comm, lor_bytes by (unfold byte; lia_mod). lia_mod. Qed.

Lemma le32_join v : 0 <= v < 2 ^ 32 ->
  Z.lor (Z.lor (v mod 256) (Z.shiftl (v / 256 mod 256) 8))
    (Z.shiftl (Z.lor (v / 65536 mod 256) (Z.shiftl (v / 16777216) 8)) 16) = v.
Proof.
  intros Hv. rewrite !(Z.lor_comm (_ mod 256)), !lor_bytes, Z.lor_comm by (unfold byte; lia_mod).
  rewrite (lor_low 16) by lia_mod. lia_mod.
Qed.

Lemma le16_bytes v : 0 <= v < 2 ^ 16 -> Forall byte (le16 v).
Proof. intros Hv. repeat constructor; unfold byte; lia_mod. Qed.
Lemma le32_bytes v : 0 <= v < 2 ^ 32 -> Forall byte (le32 v).
Proof.
  intros (a & b & c & d & -> & ? & ? & ? & ?)%num32_exists. unfold le32.
  destruct (num32_digits a b c d) as (-> & -> & -> & -> & _); [done..|]. repeat (constructor; [done|]). constructor.
Qed.

(** ** Checksums *)

(** The sum of the 16-bit words, without a bound. *)
Fixpoint words (data : list Z) : Z :=
  match data with
  | lo :: hi :: data => lo + 256 * hi + words data
  | [b] => b
  | [] => 0
  end.

(** Induction on a list two elements at a time. *)
Lemma list_ind2 (P : list Z -> Prop) :
  P [] -> (forall b, P [b]) -> (forall a b l, P l -> P (a :: b :: l)) -> forall l, P l.
Proof.
  intros H0 H1 H2. fix IH 1. intros [|a [|b l]]; [done|apply H1|]. apply H2, IH.
Qed.

Lemma words_bound l : Forall byte l -> 0 <= words l <= 65535 * ((Z.of_nat (length l) + 1) / 2).
Proof.
  induction l as [|b|a b l IH] using list_ind2; intros Hl.
  - cbn [words length]. lia_mod.
  - inversion_clear Hl. unfold byte in *. cbn [words length]. lia_mod.
  - inversion_clear Hl as [|? ? Ha Hl']. inversion_clear Hl' as [|? ? Hb Hl].
    specialize (IH Hl). unfold byte in *. cbn [words length]. lia_mod.
Qed.

Lemma words_app a b : Nat.Even (length a) -> words (a ++ b) = words a + words b.
Proof.
  induction a as [|x|x y a IH] using list_ind2; intros He.
  - done.
  - destruct He as [k Hk]. cbn in Hk. lia.
  - cbn [app words]. rewrite IH; [lia|]. destruct He as [k Hk]. exists (k - 1)%nat. cbn in Hk. lia.
Qed.

Lemma words_le16 v : 0 <= v < 2 ^ 16 -> words (le16 v) = v.
Proof. intros Hv. cbn. lia_mod. Qed.

Lemma sum_words_spec l : forall s, Forall byte l -> 0 <= s -> s + words l < 2 ^ 32 -> sum_words l s = s + words l.
Proof.
  induction l as [|b|a b l IH] using list_ind2; intros s Hl Hs Hlt.
  - cbn. lia.
  - inversion_clear Hl. cbn in *. apply u32_small. unfold byte in *. lia.
  - inversion_clear Hl as [|? ? Ha Hl']. inversion_clear Hl' as [|? ? Hb Hl].
    pose proof (words_bound l Hl). cbn [sum_words words] in *. unfold byte in *. rewrite u32_small by lia.
    rewrite IH; [lia|done|lia|lia].
Qed.

Lemma fold_mod x : (x mod 65536 + x / 65536) mod 65535 = x mod 65535.
Proof.
  rewrite (Z.div_mod x 65536) at 3 by lia.
  replace (65536 * (x / 65536) + x mod 65536) with (x mod 65536 + x / 65536 + x / 65536 * 65535) by lia.
  by rewrite Z.mod_add.
Qed.

(** Folding keeps the sum modulo 65535, and keeps it apart from 0. *)
Lemma fold_sum_spec s : 0 <= s < 2 ^ 32 ->
  exists f, fold_sum 3 s = Ok f /\ 0 <= f < 2 ^ 16 /\ f mod 65535 = s mod 65535 /\ (0 < s -> 0 < f).
Proof.
  intros Hs.
  assert (forall t, 0 <= t < 2 ^ 32 -> u32 (Z.land t 0xFFFF + Z.shiftr t 16) = t mod 65536 + t / 65536) as Hstep.
  { intros t Ht. change 0xFFFF with (Z.ones 16). rewrite Z.land_ones, Z.shiftr_div_pow2 by lia.
    change (2 ^ 16) with 65536. apply u32_small. lia_mod. }
  assert (forall t fuel, 0 <= t < 2 ^ 32 -> fold_sum (S fuel) t = if t <? 65536 then Ok t else fold_sum fuel (t mod 65536 + t / 65536)) as Hf.
  { intros t fuel Ht. cbn [fold_sum]. rewrite Hstep, Z.shiftr_div_pow2 by lia. change (2 ^ 16) with 65536.
    destruct (Z.ltb_spec t 65536); [by rewrite Z.div_small by lia|]. rewrite (proj2 (Z.eqb_neq _ _)) by lia_mod. done. }
  rewrite Hf by lia. destruct (Z.ltb_spec s 65536) as [H1|H1]; [exists s; split; [done|lia]|].
  set (t := s mod 65536 + s / 65536). assert (0 < t < 131071 /\ t mod 65535 = s mod 65535) as [Ht Hm] by (unfold t; split; [lia_mod|apply fold_mod]).
  rewrite Hf by lia. destruct (Z.ltb_spec t 65536) as [H2|H2]; [exists t; split; [done|lia]|].
  set (v := t mod 65536 + t / 65536). assert (0 < v < 65536 /\ v mod 65535 = t mod 65535) as [Hv Hm2] by (unfold v; split; [lia_mod|apply fold_mod]).
  rewrite Hf by lia. rewrite (proj2 (Z.ltb_lt _ _)) by lia. exists v. split; [done|]. lia.
Qed.

Lemma lnot_u16 f : 0 <= f < 2 ^ 16 -> u16 (Z.lnot f) = 65535 - f.
Proof. intros Hf. unfold u16, Z.lnot. change (2 ^ 16) with 65536 in *. lia_mod. Qed.

(** The checksum of data whose checksum field is zero, put into the field, makes
    the whole sum up to zero: [p] is the sum of a pseudo header. *)
Definition sum_check (p : Z) (data : list Z) : outcome Z :=
  s ← fold_sum 3 (sum_words data p); Ok (u16 (Z.lnot s)).

Lemma sum_check_spec p a b : 0 <= p < 2 ^ 24 -> Nat.Even (length a) -> Forall byte (a ++ b) ->
  Z.of_nat (length (a ++ b)) < 2 ^ 16 ->
  exists c, sum_check p (a ++ le16 0 ++ b) = Ok c /\ 0 <= c < 2 ^ 16 /\ sum_check p (a ++ le16 c ++ b) = Ok 0.
Proof.
  intros Hp He Hb Hl. apply Forall_app in Hb as [Ha Hb]. rewrite length_app in Hl.
  pose proof (words_bound a Ha). pose proof (words_bound b Hb).
  assert (forall c, 0 <= c < 2 ^ 16 -> sum_words (a ++ le16 c ++ b) p = p + words a + c + words b /\
    p + words a + c + words b < 2 ^ 32) as Hsum.
  { intros c Hc. assert (words (a ++ le16 c ++ b) = words a + c + words b) as Ew.
    { rewrite !words_app, words_le16 by (done || by exists 1%nat). lia. }
    rewrite sum_words_spec; rewrite ?Ew; [split; [lia|]| |lia|]; try lia_mod.
    rewrite !Forall_app. split; [done|]. split; [by apply le16_bytes|done]. }
  destruct (Hsum 0 ltac:(lia)) as [E0 B0]. unfold sum_check. rewrite E0.
  destruct (fold_sum_spec (p + words a + 0 + words b)) as (f & Ef & Hf & Hm & Hpos); [lia|].
  rewrite Ef, bind_ok, lnot_u16 by done. exists (65535 - f). split; [done|]. split; [lia|].
  destruct (Hsum (65535 - f) ltac:(lia)) as [E1 B1]. rewrite E1.
  destruct (fold_sum_spec (p + words a + (65535 - f) + words b)) as (g & Eg & Hg & Hmg & Hgpos); [lia|].
  rewrite Eg, bind_ok, lnot_u16 by done. f_equal.
  assert (0 < p + words a + (65535 - f) + words b) as Hpos2.
  { destruct (decide (f = 65535)); [|lia]. destruct (decide (p + words a + 0 + words b = 0)) as [Ez|]; [|lia].
    rewrite Ez in *. cbn in Ef. injection Ef as <-. lia. }
  assert (g mod 65535 = 0) as Hg0.
  { rewrite Hmg. replace (p + words a + (65535 - f) + words b) with ((p + words a + 0 + words b) + (65535 - f)) by lia.
    rewrite Z.add_mod, <- Hm, <- Z.add_mod by lia. replace (f + (65535 - f)) with 65535 by lia. done. }
  specialize (Hgpos Hpos2). lia_mod.
Qed.

Lemma checksum_sum data : checksum data = sum_check 0 data.
Proof. done. Qed.
Lemma tcp_checksum_sum src dst data n : tcp_checksum src dst data n = sum_check (pseudo_sum src dst n) data.
Proof. done. Qed.

Lemma pseudo_sum_range src dst n : 0 <= src < 2 ^ 32 -> 0 <= dst < 2 ^ 32 -> 0 <= n < 2 ^ 16 ->
  0 <= pseudo_sum src dst n < 2 ^ 24.
Proof.
  intros Hs Hd Hn. unfold pseudo_sum. change 0xFFFF with (Z.ones 16). rewrite !Z.land_ones, !Z.shiftr_div_pow2 by lia.
  change (2 ^ 16) with 65536 in *. change (htons IP_PROTO_TCP) with 1536.
  pose proof (htons_range (u16 n)) as Hh. unfold u16 in *. change (2 ^ 16) with 65536 in *.
  specialize (Hh ltac:(lia_mod)). unfold u32.
  assert (0 <= (src / 65536) mod 65536 < 65536 /\ 0 <= src mod 65536 < 65536 /\ 0 <= (dst / 65536) mod 65536 < 65536
    /\ 0 <= dst mod 65536 < 65536) as (? & ? & ? & ?) by lia_mod.
  revert Hh. generalize dependent ((src / 65536) mod 65536). generalize dependent (src mod 65536).
  generalize dependent ((dst / 65536) mod 65536). generalize dependent (dst mod 65536). generalize (htons (n mod 65536)).
  clear. intros. lia_mod.
Qed.

(** ** Reading the fields of a stored header *)

Lemma stored_all b : stored b 0 b.
Proof. unfold stored. by rewrite drop_0, firstn_all. Qed.

Lemma get16_stored b off v : 0 <= v < 2 ^ 16 -> stored b off (le16 v) -> get16 b (Z.of_nat off) = Ok v.
Proof.
  intros Hv Hs. unfold get16.
  assert (get b (Z.of_nat (off + 0)) = Ok (v mod 256)) as E0 by (by apply (get_stored _ _ _ 0 _ Hs)).
  assert (get b (Z.of_nat (off + 1)) = Ok (v / 256)) as E1 by (by apply (get_stored _ _ _ 1 _ Hs)).
  rewrite Nat.add_0_r in E0. rewrite E0, bind_ok. replace (Z.of_nat off + 1) with (Z.of_nat (off + 1)) by lia.
  rewrite E1, bind_ok. by rewrite le16_join.
Qed.

Lemma le32_le16 v : 0 <= v < 2 ^ 32 -> le32 v = le16 (v mod 65536) ++ le16 (v / 65536) .
Proof.
  intros (a & b & c & d & -> & Ha & Hb & Hc & Hd)%num32_exists. destruct (num32_digits a b c d) as (E1 & E2 & E3 & E4 & _); [done..|].
  unfold le32, le16. rewrite E1, E2, E3, E4. unfold num32, byte in *. cbn [app]. repeat f_equal; lia_mod.
Qed.

Lemma get32_stored b off v : 0 <= v < 2 ^ 32 -> stored b off (le32 v) -> get32 b (Z.of_nat off) = Ok v.
Proof.
  intros Hv Hs. rewrite le32_le16 in Hs by done. apply stored_app in Hs as [Hlo Hhi]. unfold get32.
  rewrite (get16_stored _ _ (v mod 65536)), bind_ok by (done || lia_mod).
  replace (Z.of_nat off + 2) with (Z.of_nat (off + length (le16 (v mod 65536)))) by (cbn [le16 length]; lia).
  rewrite (get16_stored _ _ (v / 65536)), bind_ok by (done || lia_mod).
  rewrite Z.lor_comm, (lor_low 16) by lia_mod. f_equal. lia_mod.
Qed.

(** Numbers of 16 and 32 bits. *)
Definition w16 (v : Z) : Prop := 0 <= v < 2 ^ 16.
Definition w32 (v : Z) : Prop := 0 <= v < 2 ^ 32.

Record ip_ok (h : ip_hdr) : Prop := {
  ipo_ihl : byte (version_ihl h); ipo_tos : byte (tos h); ipo_len : w16 (total_len h); ipo_id : w16 (ip_id h);
  ipo_frag : w16 (flags_frag h); ipo_ttl : byte (ttl h); ipo_proto : byte (protocol h); ipo_sum : w16 (ip_checksum h);
  ipo_src : w32 (src_ip h); ipo_dst : w32 (dst_ip h)
}.
Record tcp_ok (h : tcp_hdr) : Prop := {
  tco_src : w16 (src_port h); tco_dst : w16 (dst_port h); tco_seq : w32 (tcp_seq h); tco_ack : w32 (tcp_ack h);
  tco_off : byte (data_offset h); tco_flags : byte (tcp_flags h); tco_win : w16 (window h); tco_sum : w16 (tcp_check h);
  tco_urg : w16 (urgent h)
}.

Lemma ip_bytes_ok h : ip_ok h -> Forall byte (ip_bytes h) /\ length (ip_bytes h) = 20%nat.
Proof.
  intros []. split; [|done]. unfold ip_bytes. rewrite !Forall_app.
  repeat split; try (by apply le16_bytes); try (by apply le32_bytes); by repeat (constructor; [done|]).
Qed.
Lemma tcp_bytes_ok h : tcp_ok h -> Forall byte (tcp_bytes h) /\ length (tcp_bytes h) = 20%nat.
Proof.
  intros []. split; [|done]. unfold tcp_bytes. rewrite !Forall_app.
  repeat split; try (by apply le16_bytes); try (by apply le32_bytes); by repeat (constructor; [done|]).
Qed.

(** Split a stored concatenation of fields. *)
Ltac fields H :=
  repeat match type of H with
  | stored _ _ (_ ++ _) => let H1 := fresh "Hf" in apply stored_app in H as [H1 H]
  end.

Lemma ip_fields b off h : ip_ok h -> stored b off (ip_bytes h) ->
  get b (Z.of_nat off) = Ok (version_ihl h) /\ get16 b (Z.of_nat off + 2) = Ok (total_len h) /\
  get b (Z.of_nat off + 9) = Ok (protocol h) /\ get32 b (Z.of_nat off + 12) = Ok (src_ip h) /\
  get32 b (Z.of_nat off + 16) = Ok (dst_ip h).
Proof.
  intros [] Hs. unfold ip_bytes in Hs. fields Hs. rewrite !length_cons, !length_nil in *. cbn [length le16 le32 Nat.add] in *.
  repeat split.
  - rewrite <- (Nat.add_0_r off). by apply (get_stored _ _ _ 0 _ Hf).
  - replace (Z.of_nat off + 2) with (Z.of_nat (off + 2)) by lia. by apply get16_stored.
  - replace (Z.of_nat off + 9) with (Z.of_nat (off + 2 + 2 + 2 + 2 + 1)) by lia. by apply (get_stored _ _ _ 1 _ Hf3).
  - replace (Z.of_nat off + 12) with (Z.of_nat (off + 2 + 2 + 2 + 2 + 2 + 2)) by lia. by apply get32_stored.
  - replace (Z.of_nat off + 16) with (Z.of_nat (off + 2 + 2 + 2 + 2 + 2 + 2 + 4)) by lia. by apply get32_stored.
Qed.

Lemma tcp_fields b off h : tcp_ok h -> stored b off (tcp_bytes h) ->
  get16 b (Z.of_nat off) = Ok (src_port h) /\ get16 b (Z.of_nat off + 2) = Ok (dst_port h) /\
  get32 b (Z.of_nat off + 4) = Ok (tcp_seq h) /\ get32 b (Z.of_nat off + 8) = Ok (tcp_ack h) /\
  get b (Z.of_nat off + 12) = Ok (data_offset h) /\ get b (Z.of_nat off + 13) = Ok (tcp_flags h).
Proof.
  intros [] Hs. unfold tcp_bytes in Hs. fields Hs. cbn [length le16 le32 Nat.add] in *.
  repeat split.
  - by apply get16_stored.
  - replace (Z.of_nat off + 2) with (Z.of_nat (off + 2)) by lia. by apply get16_stored.
  - replace (Z.of_nat off + 4) with (Z.of_nat (off + 2 + 2)) by lia. by apply get32_stored.
  - replace (Z.of_nat off + 8) with (Z.of_nat (off + 2 + 2 + 4)) by lia. by apply get32_stored.
  - replace (Z.of_nat off + 12) with (Z.of_nat (off + 2 + 2 + 4 + 4 + 0)) by lia. by apply (get_stored _ _ _ 0 _ Hf3).
  - replace (Z.of_nat off + 13) with (Z.of_nat (off + 2 + 2 + 4 + 4 + 1)) by lia. by apply (get_stored _ _ _ 1 _ Hf3).
Qed.
