(* ===== verification/Net.v ===== *)
(** * The TCP/IP stack (net/tcp_ip.c): state and operations

    The tables of the file, the kernel heap under it and the frames handed to
    the drivers.  A connection or an interface is named by its index.  [uninit p
    n] is what a block of [n] bytes at [p] holds when it is allocated; blocks
    that live longer than a call are kept in [bufs].  A frame that arrives is the
    list of its bytes and a read behind its end is a [Fault]. *)
From S2P Require Import Prelude AllocSpec Buffer Packet.
#[local] Open Scope Z_scope.

Definition TCP_FIN : Z := 0x01.
Definition TCP_SYN : Z := 0x02.
Definition TCP_RST : Z := 0x04.
Definition TCP_PSH : Z := 0x08.
Definition TCP_ACK : Z := 0x10.

Inductive tcp_state :=
| TCP_CLOSED | TCP_LISTEN | TCP_SYN_SENT | TCP_SYN_RECEIVED | TCP_ESTABLISHED | TCP_FIN_WAIT_1
| TCP_FIN_WAIT_2 | TCP_CLOSE_WAIT | TCP_CLOSING | TCP_LAST_ACK | TCP_TIME_WAIT.

#[export] Instance tcp_state_eq_dec : EqDecision tcp_state.
Proof. solve_decision. Defined.

Definition ARP_CACHE_SIZE : nat := 64.
Definition MAX_INTERFACES : Z := 4.
Definition MAX_TCP_CONNECTIONS : nat := 256.

Record arp_entry := ArpEntry { ae_ip : Z; ae_mac : list Z; ae_timestamp : Z; ae_valid : bool }.

(** [struct net_interface]; [if_send] is whether a driver has set its send function. *)
Record net_interface := NetInterface {
  if_name : list Z; if_mac : list Z; if_ip : Z; if_netmask : Z; if_gateway : Z; if_up : bool;
  rx_packets : Z; tx_packets : Z; rx_bytes : Z; tx_bytes : Z; if_send : bool
}.

Record tcp_connection := Conn {
  local_ip : Z; local_port : Z; remote_ip : Z; remote_port : Z; c_state : tcp_state;
  c_seq : Z; c_ack : Z; recv_wnd : Z; send_wnd : Z;
  recv_buf : Z; recv_len : Z; recv_capacity : Z;
  send_buf : Z; send_len : Z; send_capacity : Z; in_use : bool
}.

Definition with_state (st : tcp_state) (c : tcp_connection) : tcp_connection :=
  Conn (local_ip c) (local_port c) (remote_ip c) (remote_port c) st (c_seq c) (c_ack c) (recv_wnd c) (send_wnd c)
    (recv_buf c) (recv_len c) (recv_capacity c) (send_buf c) (send_len c) (send_capacity c) (in_use c).
Definition with_seq (n : Z) (c : tcp_connection) : tcp_connection :=
  Conn (local_ip c) (local_port c) (remote_ip c) (remote_port c) (c_state c) n (c_ack c) (recv_wnd c) (send_wnd c)
    (recv_buf c) (recv_len c) (recv_capacity c) (send_buf c) (send_len c) (send_capacity c) (in_use c).
Definition with_ack (n : Z) (c : tcp_connection) : tcp_connection :=
  Conn (local_ip c) (local_port c) (remote_ip c) (remote_port c) (c_state c) (c_seq c) n (recv_wnd c) (send_wnd c)
    (recv_buf c) (recv_len c) (recv_capacity c) (send_buf c) (send_len c) (send_capacity c) (in_use c).
Definition with_recv_len (n : Z) (c : tcp_connection) : tcp_connection :=
  Conn (local_ip c) (local_port c) (remote_ip c) (remote_port c) (c_state c) (c_seq c) (c_ack c) (recv_wnd c) (send_wnd c)
    (recv_buf c) n (recv_capacity c) (send_buf c) (send_len c) (send_capacity c) (in_use c).
Definition with_send_len (n : Z) (c : tcp_connection) : tcp_connection :=
  Conn (local_ip c) (local_port c) (remote_ip c) (remote_port c) (c_state c) (c_seq c) (c_ack c) (recv_wnd c) (send_wnd c)
    (recv_buf c) (recv_len c) (recv_capacity c) (send_buf c) n (send_capacity c) (in_use c).
Definition with_in_use (b : bool) (c : tcp_connection) : tcp_connection :=
  Conn (local_ip c) (local_port c) (remote_ip c) (remote_port c) (c_state c) (c_seq c) (c_ack c) (recv_wnd c) (send_wnd c)
    (recv_buf c) (recv_len c) (recv_capacity c) (send_buf c) (send_len c) (send_capacity c) b.

Section net.
Context {A : Type} `{Allocator A}.

Record net := Net {
  arp_cache : list arp_entry;
  interfaces : list net_interface;
  num_interfaces : Z;
  tcp_connections : list tcp_connection;
  next_ephemeral_port : Z;
  tcp_isn_counter : Z;
  heap : A;
  bufs : gmap Z (list Z);
  wire : list (Z * list Z)      (* frames given to a driver: interface, bytes *)
}.

Definition with_arp (s : net) (a : list arp_entry) : net :=
  Net a (interfaces s) (num_interfaces s) (tcp_connections s) (next_ephemeral_port s) (tcp_isn_counter s) (heap s) (bufs s) (wire s).
Definition with_interfaces (s : net) (l : list net_interface) (n : Z) : net :=
  Net (arp_cache s) l n (tcp_connections s) (next_ephemeral_port s) (tcp_isn_counter s) (heap s) (bufs s) (wire s).
Definition with_conns (s : net) (l : list tcp_connection) : net :=
  Net (arp_cache s) (interfaces s) (num_interfaces s) l (next_ephemeral_port s) (tcp_isn_counter s) (heap s) (bufs s) (wire s).
Definition with_counters (s : net) (port isn : Z) : net :=
  Net (arp_cache s) (interfaces s) (num_interfaces s) (tcp_connections s) port isn (heap s) (bufs s) (wire s).
Definition with_heap (s : net) (h : A) : net :=
  Net (arp_cache s) (interfaces s) (num_interfaces s) (tcp_connections s) (next_ephemeral_port s) (tcp_isn_counter s) h (bufs s) (wire s).
Definition with_bufs (s : net) (b : gmap Z (list Z)) : net :=
  Net (arp_cache s) (interfaces s) (num_interfaces s) (tcp_connections s) (next_ephemeral_port s) (tcp_isn_counter s) (heap s) b (wire s).
Definition with_wire (s : net) (w : list (Z * list Z)) : net :=
  Net (arp_cache s) (interfaces s) (num_interfaces s) (tcp_connections s) (next_ephemeral_port s) (tcp_isn_counter s) (heap s) (bufs s) w.

Context (uninit : Z -> Z -> list Z).

Definition get_iface (s : net) (i : Z) : outcome net_interface := of_option (interfaces s !! Z.to_nat i).
Definition get_conn (s : net) (i : nat) : outcome tcp_connection := of_option (tcp_connections s !! i).
Definition upd_conn (s : net) (i : nat) (f : tcp_connection -> tcp_connection) : outcome net :=
  c ← get_conn s i; Ok (with_conns s (<[i := f c]> (tcp_connections s))).

(** [iface->send(iface, packet, len)], when there is a driver. *)
Definition driver_send (s : net) (i : Z) (packet : list Z) : net := with_wire s (wire s ++ [(i, packet)]).

(** Sending through [interfaces[0]] with its counters. *)
Definition iface_send (s : net) (packet : list Z) : outcome net :=
  f ← get_iface s 0;
  if if_send f then
    let s := driver_send s 0 packet in
    let f := NetInterface (if_name f) (if_mac f) (if_ip f) (if_netmask f) (if_gateway f) (if_up f) (rx_packets f)
               (u64 (tx_packets f + 1)) (rx_bytes f) (u64 (tx_bytes f + Z.of_nat (length packet))) (if_send f) in
    Ok (with_interfaces s (<[0%nat := f]> (interfaces s)) (num_interfaces s))
  else Ok s.

(** ** ARP *)

(** The index of the first valid entry for the address. *)
Definition arp_lookup (s : net) (ip : Z) : option nat :=
  fst <$> list_find (fun e => ae_valid e && (ae_ip e =? ip) = true) (arp_cache s).

(** The search for an empty or the oldest slot, from slot [i] on. *)
Fixpoint arp_slot (l : list arp_entry) (i oldest : nat) (oldest_time : Z) : nat :=
  match l with
  | [] => oldest
  | e :: l =>
      if negb (ae_valid e) then i
      else if ae_timestamp e <? oldest_time then arp_slot l (S i) i (ae_timestamp e)
      else arp_slot l (S i) oldest oldest_time
  end.

Definition arp_add (s : net) (ip : Z) (mac : list Z) : net :=
  let slot := arp_slot (arp_cache s) 0 0 (2 ^ 64 - 1) in
  with_arp s (<[slot := ArpEntry ip mac 0 true]> (arp_cache s)).

Definition arp_packet (dest src : list Z) (a : arp_hdr) : list Z :=
  eth_bytes (EthHdr dest src (htons ETH_P_ARP)) ++ arp_bytes a.

(** The ARP packet at [off] of the frame [data]. *)
Definition arp_handle (s : net) (i : Z) (data : list Z) (off : Z) : outcome net :=
  op ← get16 data (off + 6);
  f ← get_iface s i;
  if ntohs op =? 1 then
    target ← get32 data (off + 24);
    if target =? if_ip f then
      mac ← get_bytes 6 data (off + 8);
      ip ← get32 data (off + 14);
      let reply := ArpHdr (htons 1) (htons ETH_P_IP) ETH_ALEN 4 (htons 2) (if_mac f) (if_ip f) mac ip in
      if if_send f then Ok (driver_send s i (arp_packet mac (if_mac f) reply)) else Ok s
    else Ok s
  else if ntohs op =? 2 then
    ip ← get32 data (off + 14);
    mac ← get_bytes 6 data (off + 8);
    Ok (arp_add s ip mac)
  else Ok s.

Definition arp_send_request (s : net) (target : Z) : outcome (Z * net) :=
  if num_interfaces s =? 0 then Ok (-1, s)
  else
    f ← get_iface s 0;
    let a := ArpHdr (htons 1) (htons ETH_P_IP) ETH_ALEN 4 (htons 1) (if_mac f) (if_ip f) (replicate 6 0) target in
    s ← iface_send s (arp_packet (replicate 6 255) (if_mac f) a);
    Ok (0, s).

(** ** ICMP and UDP: the destination of the Ethernet header is not set *)

Definition icmp_send_echo (s : net) (dest id seq : Z) : outcome (Z * net) :=
  if num_interfaces s =? 0 then Ok (-1, s)
  else
    let len := ETH_HLEN + SIZEOF_IP + SIZEOF_ICMP in
    r ← a_kmalloc (heap s) len GFP_KERNEL;
    let '(packet, h) := r in
    let s := with_heap s h in
    if packet =? 0 then Ok (-1, s)
    else
      f ← get_iface s 0;
      let ip c := IpHdr 0x45 0 (htons (SIZEOF_IP + SIZEOF_ICMP)) (htons 1) 0 64 IP_PROTO_ICMP c (if_ip f) dest in
      ip_sum ← checksum (ip_bytes (ip 0));
      let icmp c := IcmpHdr 8 0 c (htons id) (htons seq) in
      icmp_sum ← checksum (icmp_bytes (icmp 0));
      s ← iface_send s (eth_bytes (EthHdr (take 6 (uninit packet len)) (if_mac f) (htons ETH_P_IP)) ++
                        ip_bytes (ip ip_sum) ++ icmp_bytes (icmp icmp_sum));
      h ← a_kfree (heap s) packet;
      Ok (0, with_heap s h).

Definition udp_send (s : net) (dest sport dport : Z) (data : list Z) : outcome (Z * net) :=
  if num_interfaces s =? 0 then Ok (-1, s)
  else
    let n := Z.of_nat (length data) in
    let len := u64 (ETH_HLEN + SIZEOF_IP + SIZEOF_UDP + n) in
    r ← a_kmalloc (heap s) len GFP_KERNEL;
    let '(packet, h) := r in
    let s := with_heap s h in
    if packet =? 0 then Ok (-1, s)
    else
      f ← get_iface s 0;
      let ip c := IpHdr 0x45 0 (htons (u16 (SIZEOF_IP + SIZEOF_UDP + n))) (htons 1) 0 64 IP_PROTO_UDP c (if_ip f) dest in
      ip_sum ← checksum (ip_bytes (ip 0));
      s ← iface_send s (eth_bytes (EthHdr (take 6 (uninit packet len)) (if_mac f) (htons ETH_P_IP)) ++ ip_bytes (ip ip_sum) ++
                        udp_bytes (UdpHdr (htons sport) (htons dport) (htons (u16 (SIZEOF_UDP + n))) 0) ++ data);
      h ← a_kfree (heap s) packet;
      Ok (i32 n, with_heap s h).

(** ** TCP connections *)

(** The first free entry gets two buffers, whether or not there is memory for them. *)
Definition tcp_alloc_connection (s : net) : outcome (option nat * net) :=
  match list_find (fun c => in_use c = false) (tcp_connections s) with
  | None => Ok (None, s)
  | Some (i, c) =>
      r ← a_kmalloc (heap s) 65536 GFP_KERNEL;
      let '(rb, h) := r in
      r ← a_kmalloc h 65536 GFP_KERNEL;
      let '(sb, h) := r in
      let b := if rb =? 0 then bufs s else <[rb := uninit rb 65536]> (bufs s) in
      let b := if sb =? 0 then b else <[sb := uninit sb 65536]> b in
      let c := Conn (local_ip c) (local_port c) (remote_ip c) (remote_port c) TCP_CLOSED (c_seq c) (c_ack c)
                 65535 65535 rb 0 65536 sb 0 65536 true in
      Ok (Some i, with_conns (with_bufs (with_heap s h) b) (<[i := c]> (tcp_connections s)))
  end.

Definition free_buffer (s : net) (p : Z) : outcome net :=
  if p =? 0 then Ok s
  else h ← a_kfree (heap s) p; Ok (with_bufs (with_heap s h) (delete p (bufs s))).

Definition tcp_free_connection (s : net) (i : nat) : outcome net :=
  c ← get_conn s i;
  s ← free_buffer s (recv_buf c);
  s ← free_buffer s (send_buf c);
  upd_conn s i (with_in_use false).

(** The headers and the frame that [tcp_send_packet] builds. *)
Definition tcp_ip_header (c : tcp_connection) (tcp_len sum : Z) : ip_hdr :=
  IpHdr 0x45 0 (htons (u16 (SIZEOF_IP + tcp_len))) (htons (Z.land (c_seq c) 0xFFFF)) (htons 0x4000) 64
    IP_PROTO_TCP sum (local_ip c) (remote_ip c).
Definition tcp_header (c : tcp_connection) (flags sum : Z) : tcp_hdr :=
  TcpHdr (htons (local_port c)) (htons (remote_port c)) (htonl (c_seq c)) (htonl (c_ack c)) 0x50 flags
    (htons (u16 (recv_wnd c))) sum 0.

Definition tcp_frame (mac : list Z) (c : tcp_connection) (flags : Z) (data : list Z) : outcome (list Z) :=
  let tcp_len := SIZEOF_TCP + Z.of_nat (length data) in
  ip_sum ← checksum (ip_bytes (tcp_ip_header c tcp_len 0));
  tcp_sum ← tcp_checksum (local_ip c) (remote_ip c) (tcp_bytes (tcp_header c flags 0) ++ data) tcp_len;
  Ok (eth_bytes (EthHdr (replicate 6 255) mac (htons ETH_P_IP)) ++ ip_bytes (tcp_ip_header c tcp_len ip_sum) ++
      tcp_bytes (tcp_header c flags tcp_sum) ++ data).

(** [data] is null or the bytes to send. *)
Definition tcp_send_packet (s : net) (i : nat) (flags : Z) (data : list Z) : outcome (Z * net) :=
  if num_interfaces s =? 0 then Ok (-1, s)
  else
    f ← get_iface s 0;
    let total_len := ETH_HLEN + SIZEOF_IP + (SIZEOF_TCP + Z.of_nat (length data)) in
    r ← a_kmalloc (heap s) total_len GFP_KERNEL;
    let '(packet, h) := r in
    let s := with_heap s h in
    if packet =? 0 then Ok (-1, s)
    else
      c ← get_conn s i;
      frame ← tcp_frame (if_mac f) c flags data;
      s ← iface_send s frame;
      h ← a_kfree (heap s) packet;
      Ok (0, with_heap s h).

Definition tcp_generate_isn (s : net) : Z * net :=
  let n := u32 (tcp_isn_counter s * 1103515245 + 12345) in (n, with_counters s (next_ephemeral_port s) n).

(** The index of the connection, or -1. *)
Definition tcp_connect (s : net) (dest dest_port : Z) : outcome (Z * net) :=
  r ← tcp_alloc_connection s;
  let '(conn, s) := r in
  match conn with
  | None => Ok (-1, s)
  | Some i =>
      if num_interfaces s =? 0 then s ← tcp_free_connection s i; Ok (-1, s)
      else
        f ← get_iface s 0;
        let port := next_ephemeral_port s in
        let next := u16 (port + 1) in
        let s := with_counters s (if 65000 <? next then 49152 else next) (tcp_isn_counter s) in
        let '(isn, s) := tcp_generate_isn s in
        s ← upd_conn s i (fun c =>
              Conn (if_ip f) port dest dest_port TCP_SYN_SENT isn 0 (recv_wnd c) (send_wnd c) (recv_buf c) (recv_len c)
                (recv_capacity c) (send_buf c) (send_len c) (send_capacity c) (in_use c));
        r ← tcp_send_packet s i TCP_SYN [];
        let '(ret, s) := r in
        if ret <? 0 then s ← tcp_free_connection s i; Ok (-1, s)
        else
          s ← upd_conn s i (fun c => with_seq (u32 (c_seq c + 1)) c);
          Ok (Z.of_nat i, s)
  end.

(** Bytes stored one by one from [pos] on in the buffer at [p]. *)
Definition store_bytes (s : net) (p pos : Z) (bs : list Z) : outcome net :=
  match bs with
  | [] => Ok s
  | _ => b ← of_option (bufs s !! p); b ← put_all b pos bs; Ok (with_bufs s (<[p := b]> (bufs s)))
  end.

Definition tcp_send (s : net) (i : nat) (data : list Z) : outcome (Z * net) :=
  c ← get_conn s i;
  let len := Z.of_nat (length data) in
  if negb (bool_decide (c_state c = TCP_ESTABLISHED)) then Ok (-1, s)
  else if send_capacity c <? u64 (send_len c + len) then Ok (-1, s)
  else
    s ← store_bytes s (send_buf c) (send_len c) data;
    s ← upd_conn s i (with_send_len (send_len c + len));
    r ← tcp_send_packet s i (Z.lor TCP_PSH TCP_ACK) data;
    let '(ret, s) := r in
    if ret =? 0 then
      s ← upd_conn s i (fun c => with_seq (u32 (c_seq c + len)) c);
      Ok (i32 len, s)
    else Ok (-1, s).

(** [for (i = to_copy; i < recv_len; i++) buf[i - to_copy] = buf[i];] for [n] rounds from [i]. *)
Fixpoint shift_down (n : nat) (buf : list Z) (i to_copy : Z) : outcome (list Z) :=
  match n with
  | O => Ok buf
  | S n => b ← get buf i; buf ← put buf (i - to_copy) b; shift_down n buf (i + 1) to_copy
  end.

(** The value returned, the bytes stored through [data] and the state. *)
Definition tcp_recv (s : net) (i : nat) (len : Z) : outcome (Z * list Z * net) :=
  c ← get_conn s i;
  if recv_len c =? 0 then Ok (0, [], s)
  else
    let to_copy := if len <? recv_len c then len else recv_len c in
    b ← of_option (bufs s !! recv_buf c);
    out ← get_bytes (Z.to_nat to_copy) b 0;
    b ← shift_down (Z.to_nat (recv_len c - to_copy)) b to_copy to_copy;
    s ← upd_conn (with_bufs s (<[recv_buf c := b]> (bufs s))) i (with_recv_len (recv_len c - to_copy));
    Ok (i32 to_copy, out, s).

Definition tcp_close (s : net) (conn : option nat) : outcome (Z * net) :=
  match conn with
  | None => Ok (-1, s)
  | Some i =>
      c ← get_conn s i;
      if negb (in_use c) then Ok (-1, s)
      else
        let closing st :=
          s ← upd_conn s i (with_state st);
          r ← tcp_send_packet s i (Z.lor TCP_FIN TCP_ACK) [];
          s ← upd_conn (snd r) i (fun c => with_seq (u32 (c_seq c + 1)) c);
          Ok (0, s) in
        match c_state c with
        | TCP_ESTABLISHED => closing TCP_FIN_WAIT_1
        | TCP_CLOSE_WAIT => closing TCP_LAST_ACK
        | TCP_SYN_SENT | TCP_LISTEN => s ← tcp_free_connection s i; Ok (0, s)
        | _ => Ok (0, s)
        end
  end.

Definition tcp_find_connection (s : net) (rip rport lip lport : Z) : option nat :=
  fst <$> list_find (fun c =>
    in_use c && (remote_ip c =? rip) && (remote_port c =? rport) && (local_ip c =? lip) && (local_port c =? lport) = true)
    (tcp_connections s).

(** [for (i = 0; i < data_len; i++) buf[pos++] = data[i];] where [src] is the
    frame from [data] on. *)
Fixpoint recv_copy (src : list Z) (n : Z) (buf : list Z) (pos : Z) : outcome (list Z) :=
  match src with
  | [] => if n <=? 0 then Ok buf else Fault
  | c :: src => if n <=? 0 then Ok buf else buf ← put buf pos c; recv_copy src (n - 1) buf (pos + 1)
  end.

Definition has (flags f : Z) : bool := negb (Z.land flags f =? 0).

(** The connection acknowledges and goes to [st]. *)
Definition ack_and (s : net) (i : nat) (ack : Z) (st : tcp_state) : outcome net :=
  s ← upd_conn s i (fun c => with_state st (with_ack ack c));
  r ← tcp_send_packet s i TCP_ACK [];
  Ok (snd r).

(** The state machine of [tcp_handle_segment]; the data are [data_len] bytes
    from the head of [src] on. *)
Definition tcp_process (s : net) (i : nat) (seq flags : Z) (src : list Z) (data_len : Z) : outcome net :=
  c ← get_conn s i;
  match c_state c with
  | TCP_SYN_SENT =>
      if Z.land flags (Z.lor TCP_SYN TCP_ACK) =? Z.lor TCP_SYN TCP_ACK then ack_and s i (u32 (seq + 1)) TCP_ESTABLISHED
      else if has flags TCP_RST then
        s ← upd_conn s i (with_state TCP_CLOSED);
        tcp_free_connection s i
      else Ok s
  | TCP_ESTABLISHED =>
      if has flags TCP_FIN then ack_and s i (u32 (seq + data_len + 1)) TCP_CLOSE_WAIT
      else if 0 <? data_len then
        if u64 (recv_len c + data_len) <=? recv_capacity c then
          b ← of_option (bufs s !! recv_buf c);
          b ← recv_copy src data_len b (recv_len c);
          s ← upd_conn (with_bufs s (<[recv_buf c := b]> (bufs s))) i
                (fun c => with_ack (u32 (seq + data_len)) (with_recv_len (u64 (recv_len c + data_len)) c));
          r ← tcp_send_packet s i TCP_ACK [];
          Ok (snd r)
        else Ok s
      else Ok s
  | TCP_FIN_WAIT_1 =>
      s ← (if has flags TCP_ACK then upd_conn s i (with_state TCP_FIN_WAIT_2) else Ok s);
      if has flags TCP_FIN then
        s ← upd_conn s i (with_ack (u32 (seq + 1)));
        r ← tcp_send_packet s i TCP_ACK [];
        upd_conn (snd r) i (with_state (if has flags TCP_ACK then TCP_TIME_WAIT else TCP_CLOSING))
      else Ok s
  | TCP_FIN_WAIT_2 =>
      if has flags TCP_FIN then
        s ← upd_conn s i (with_ack (u32 (seq + 1)));
        r ← tcp_send_packet s i TCP_ACK [];
        upd_conn (snd r) i (with_state TCP_TIME_WAIT)
      else Ok s
  | TCP_CLOSING => if has flags TCP_ACK then upd_conn s i (with_state TCP_TIME_WAIT) else Ok s
  | TCP_LAST_ACK =>
      if has flags TCP_ACK then
        s ← upd_conn s i (with_state TCP_CLOSED);
        tcp_free_connection s i
      else Ok s
  | TCP_TIME_WAIT => tcp_free_connection s i
  | _ => Ok s
  end.

(** The segment is the [tcp_len] bytes at [off] of the frame [data]. *)
Definition tcp_handle_segment (s : net) (src dst : Z) (data : list Z) (off tcp_len : Z) : outcome net :=
  sport ← get16 data off;
  dport ← get16 data (off + 2);
  seq ← get32 data (off + 4);
  _ ← get32 data (off + 8);
  flags ← get data (off + 13);
  match tcp_find_connection s src (ntohs sport) dst (ntohs dport) with
  | None => Ok s
  | Some i =>
      d ← get data (off + 12);
      let header_len := Z.land (Z.shiftr d 4) 0xF * 4 in
      tcp_process s i (ntohl seq) flags (drop (Z.to_nat (off + header_len)) data) (u64 (tcp_len - header_len))
  end.

(** ** Frames that arrive *)

(** The IP packet at [off] of the frame [data], of [len] bytes. *)
Definition ip_handle (s : net) (data : list Z) (off len : Z) : outcome net :=
  v ← get data off;
  if negb (Z.shiftr v 4 =? 4) then Ok s
  else
    let ip_hlen := Z.land v 0xF * 4 in
    total ← get16 data (off + 2);
    let total_len := ntohs total in
    if len <? total_len then Ok s
    else
      let payload := off + ip_hlen in
      let payload_len := u64 (total_len - ip_hlen) in
      proto ← get data (off + 9);
      if proto =? IP_PROTO_ICMP then
        type ← get data payload;
        _ ← (if type =? 0 then get16 data (payload + 6) else Ok 0);
        Ok s
      else if proto =? IP_PROTO_TCP then
        src ← get32 data (off + 12);
        dst ← get32 data (off + 16);
        tcp_handle_segment s src dst data payload payload_len
      else Ok s.

Definition net_rx (s : net) (i : Z) (data : list Z) : outcome net :=
  let len := Z.of_nat (length data) in
  if len <? ETH_HLEN then Ok s
  else
    type ← get16 data 12;
    f ← get_iface s i;
    let f := NetInterface (if_name f) (if_mac f) (if_ip f) (if_netmask f) (if_gateway f) (if_up f)
               (u64 (rx_packets f + 1)) (tx_packets f) (u64 (rx_bytes f + len)) (tx_bytes f) (if_send f) in
    let s := with_interfaces s (<[Z.to_nat i := f]> (interfaces s)) (num_interfaces s) in
    let payload_len := len - ETH_HLEN in
    if ntohs type =? ETH_P_ARP then
      if SIZEOF_ARP <=? payload_len then arp_handle s i data ETH_HLEN else Ok s
    else if ntohs type =? ETH_P_IP then
      if SIZEOF_IP <=? payload_len then ip_handle s data ETH_HLEN payload_len else Ok s
    else Ok s.

(** ** Initialisation *)

Definition lo_name : list Z := [108; 111; 0].

(** [name] overwritten from its start, without a terminator. *)
Definition copy_if_name (old name : list Z) : list Z :=
  let n := take 15 name in n ++ drop (length n) old.

Definition tcpip_init (s : net) : outcome net :=
  let s := with_arp s (map (fun e => ArpEntry (ae_ip e) (ae_mac e) (ae_timestamp e) false) (arp_cache s)) in
  let s := with_conns s (map (with_in_use false) (tcp_connections s)) in
  f ← get_iface s (num_interfaces s);
  let f := NetInterface (lo_name ++ drop 3 (if_name f)) (if_mac f) 0x7F000001 0xFF000000 0 true
             (rx_packets f) (tx_packets f) (rx_bytes f) (tx_bytes f) (if_send f) in
  Ok (with_interfaces s (<[Z.to_nat (num_interfaces s) := f]> (interfaces s)) (num_interfaces s + 1)).

(** The index of the interface, or [None]. *)
Definition net_add_interface (s : net) (name mac : list Z) (ip netmask gateway : Z) : outcome (option Z * net) :=
  if MAX_INTERFACES <=? num_interfaces s then Ok (None, s)
  else
    let i := num_interfaces s in
    f ← get_iface s i;
    let f := NetInterface (copy_if_name (if_name f) name) mac ip netmask gateway true
               (rx_packets f) (tx_packets f) (rx_bytes f) (tx_bytes f) false in
    Ok (Some i, with_interfaces s (<[Z.to_nat i := f]> (interfaces s)) (i + 1)).

(** [net_iface->send = virtio_net_send;] *)
Definition attach_driver (s : net) (i : Z) : outcome net :=
  f ← get_iface s i;
  let f := NetInterface (if_name f) (if_mac f) (if_ip f) (if_netmask f) (if_gateway f) (if_up f)
             (rx_packets f) (tx_packets f) (rx_bytes f) (tx_bytes f) true in
  Ok (with_interfaces s (<[Z.to_nat i := f]> (interfaces s)) (num_interfaces s)).

End net.
Arguments net A : clear implicits.

(** The static tables before initialisation. *)
Definition zero_iface : net_interface := NetInterface (replicate 16 0) (replicate 6 0) 0 0 0 false 0 0 0 0 false.
Definition zero_conn : tcp_connection := Conn 0 0 0 0 TCP_CLOSED 0 0 0 0 0 0 0 0 0 0 false.
Definition net_static {A} (h : A) : net A :=
  Net (replicate ARP_CACHE_SIZE (ArpEntry 0 (replicate 6 0) 0 false)) (replicate 4 zero_iface) 0
    (replicate MAX_TCP_CONNECTIONS zero_conn) 49152 0x12345678 h ∅ [].

(** What the boot code does: main.c calls [tcpip_init] and then the driver, whose
    [virtio_net_init] registers its interface and sets its send function. *)
Definition eth0_name : list Z := [101; 116; 104; 48].
Definition net_boot {A} (h : A) (mac : list Z) : outcome (net A) :=
  s ← tcpip_init (net_static h);
  r ← net_add_interface s eth0_name mac 0x0A00020F 0xFFFFFF00 0x0A000202;
  let '(iface, s) := r in
  match iface with Some i => attach_driver s i | None => Ok s end.
