(* ===== verification/NetSpec.v ===== *)
(** * The TCP/IP stack: frames, the invariant and the effect of the operations *)
From S2P Require Import Prelude AllocSpec Buffer Packet PacketSpec Net.
#[local] Open Scope Z_scope.

(** ** Frames *)

Record conn_range (c : tcp_connection) : Prop := {
  cr_lip : w32 (local_ip c); cr_lport : w16 (local_port c); cr_rip : w32 (remote_ip c); cr_rport : w16 (remote_port c);
  cr_seq : w32 (c_seq c); cr_ack : w32 (c_ack c)
}.

Definition mac_ok (m : list Z) : Prop := length m = 6%nat /\ Forall byte m.

(** The most data whose IP packet has a 16-bit length. *)
Definition MAX_SEGMENT : Z := 65495.

(** The layout of a frame, and what the sender fills in besides. *)
Record frame_layout (c : tcp_connection) (flags : Z) (data : list Z) (frame : list Z) (eh : eth_hdr) (ih : ip_hdr) (th : tcp_hdr) : Prop := {
  fp_bytes : frame = eth_bytes eh ++ ip_bytes ih ++ tcp_bytes th ++ data;
  fp_eth : length (eth_dest eh) = 6%nat /\ length (eth_src eh) = 6%nat /\ eth_type eh = htons ETH_P_IP;
  fp_ip : ip_ok ih;
  fp_tcp : tcp_ok th;
  fp_version : version_ihl ih = 0x45;
  fp_proto : protocol ih = IP_PROTO_TCP;
  fp_len : total_len ih = htons (40 + Z.of_nat (length data));
  fp_src : src_ip ih = local_ip c;
  fp_dst : dst_ip ih = remote_ip c;
  fp_sport : src_port th = htons (local_port c);
  fp_dport : dst_port th = htons (remote_port c);
  fp_seq : tcp_seq th = htonl (c_seq c);
  fp_ack : tcp_ack th = htonl (c_ack c);
  fp_flags : tcp_flags th = flags
}.

Record frame_parts (c : tcp_connection) (flags : Z) (data : list Z) (frame : list Z) (eh : eth_hdr) (ih : ip_hdr) (th : tcp_hdr) : Prop := {
  fp_layout :> frame_layout c flags data frame eh ih th;
  fp_off : data_offset th = 0x50;
  fp_ipsum : checksum (ip_bytes ih) = Ok 0;
  fp_tcpsum : tcp_checksum (src_ip ih) (dst_ip ih) (tcp_bytes th ++ data) (20 + Z.of_nat (length data)) = Ok 0
}.

Lemma checksum_field p a b f : 0 <= p < 2 ^ 24 -> Nat.Even (length a) -> Forall byte (a ++ b) ->
  Z.of_nat (length (a ++ b)) < 2 ^ 16 -> (forall c, f c = a ++ le16 c ++ b) ->
  exists c, sum_check p (f 0) = Ok c /\ w16 c /\ sum_check p (f c) = Ok 0.
Proof.
  intros Hp He Hb Hl Hf. destruct (sum_check_spec p a b Hp He Hb Hl) as (c & E1 & Hc & E2).
  exists c. rewrite !Hf. done.
Qed.

Lemma land_w16 x : 0 <= Z.land x 0xFFFF < 2 ^ 16.
Proof. change 0xFFFF with (Z.ones 16). rewrite Z.land_ones by lia. apply Z.mod_pos_bound. lia. Qed.
Lemma u16_range x : 0 <= u16 x < 2 ^ 16.
Proof. apply Z.mod_pos_bound. lia. Qed.
Lemma u16_small x : 0 <= x < 2 ^ 16 -> u16 x = x.
Proof. apply Z.mod_small. Qed.
Lemma u32_range x : 0 <= u32 x < 2 ^ 32.
Proof. apply Z.mod_pos_bound. lia. Qed.

Lemma tcp_frame_ok mac c flags data : conn_range c -> mac_ok mac -> byte flags -> Forall byte data ->
  Z.of_nat (length data) <= MAX_SEGMENT ->
  exists frame eh ih th, tcp_frame mac c flags data = Ok frame /\ frame_parts c flags data frame eh ih th.
Proof.
  intros [] [Hm Hmb] Hfl Hd Hl. unfold tcp_frame, SIZEOF_TCP, MAX_SEGMENT in *.
  set (len := Z.of_nat (length data)) in *.
  set (ip := tcp_ip_header c (20 + len)). set (tcp := tcp_header c flags).
  assert (forall sum, w16 sum -> ip_ok (ip sum)) as Hip.
  { intros sum Hs. split; cbn; try done; try (by apply htons_range, u16_range); try (by apply htons_range, land_w16). }
  assert (forall sum, w16 sum -> tcp_ok (tcp sum)) as Htcp.
  { intros sum Hs. split; cbn; try done; try (by apply htons_range); try (by apply htonl_range); apply htons_range, u16_range. }
  assert (w16 0) as H0 by (unfold w16; lia).
  destruct (checksum_field 0 (take 10 (ip_bytes (ip 0))) (drop 12 (ip_bytes (ip 0))) (fun s => ip_bytes (ip s)))
    as (cs & E1 & Hcs & E2); [lia|by exists 5%nat| |cbn; lia|done|].
  { destruct (ip_bytes_ok _ (Hip 0 H0)) as [Hb _]. apply Forall_app. split; [by apply Forall_take|by apply Forall_drop]. }
  destruct (checksum_field (pseudo_sum (local_ip c) (remote_ip c) (20 + len)) (take 16 (tcp_bytes (tcp 0)))
    (drop 18 (tcp_bytes (tcp 0)) ++ data) (fun s => tcp_bytes (tcp s) ++ data)) as (ts & E3 & Hts & E4).
  { apply pseudo_sum_range; [done|done|lia]. }
  { by exists 8%nat. }
  { destruct (tcp_bytes_ok _ (Htcp 0 H0)) as [Hb _]. rewrite !Forall_app.
    split; [by apply Forall_take|]. split; [by apply Forall_drop|done]. }
  { rewrite !length_app. cbn [length take drop tcp_bytes app le16 le32]. lia. }
  { done. }
  cbv beta in *. rewrite checksum_sum, E1, bind_ok, tcp_checksum_sum, E3, bind_ok. do 4 eexists. split; [reflexivity|].
  split; [split; [reflexivity|by split|by apply Hip|by apply Htcp| | | | | | | | | |]| |rewrite checksum_sum; exact E2|rewrite tcp_checksum_sum; exact E4];
    unfold ip, tcp, tcp_ip_header, tcp_header, SIZEOF_IP; cbn [version_ihl protocol total_len src_ip dst_ip src_port dst_port tcp_seq
      tcp_ack tcp_flags data_offset]; try reflexivity.
  rewrite u16_small by lia. f_equal. lia.
Qed.

Section receive.
Context {A : Type} `{Allocator A}.
Implicit Types (s : net A).

(** The state after the counters of [net_rx]. *)
Definition rx_iface (f : net_interface) (n : Z) : net_interface :=
  NetInterface (if_name f) (if_mac f) (if_ip f) (if_netmask f) (if_gateway f) (if_up f)
    (u64 (rx_packets f + 1)) (tx_packets f) (u64 (rx_bytes f + n)) (tx_bytes f) (if_send f).
Definition rx_counted (s : net A) (i : Z) (f : net_interface) (n : Z) : net A :=
  with_interfaces s (<[Z.to_nat i := rx_iface f n]> (interfaces s)) (num_interfaces s).

Lemma eth_length eh : length (eth_dest eh) = 6%nat /\ length (eth_src eh) = 6%nat -> length (eth_bytes eh) = 14%nat.
Proof. intros [Hd Hs]. unfold eth_bytes. rewrite !length_app, Hd, Hs. done. Qed.

Lemma frame_stored c flags data frame eh ih th : frame_layout c flags data frame eh ih th ->
  stored frame 12 (le16 (eth_type eh)) /\ stored frame 14 (ip_bytes ih) /\ stored frame 34 (tcp_bytes th) /\
  length frame = (54 + length data)%nat /\ drop 54 frame = data.
Proof.
  intros []. destruct fp_eth0 as (Hd & Hs & _). pose proof (stored_all frame) as Hst. rewrite fp_bytes0 in Hst at 2.
  destruct (ip_bytes_ok _ fp_ip0) as [_ Hi]. destruct (tcp_bytes_ok _ fp_tcp0) as [_ Ht].
  pose proof (eth_length eh (conj Hd Hs)) as He.
  apply stored_app in Hst as [H1 Hst]. apply stored_app in Hst as [H2 Hst]. apply stored_app in Hst as [H3 _].
  rewrite He in H2. rewrite He, Hi in H3. split; [|split; [exact H2|split; [exact H3|]]].
  - unfold eth_bytes in H1. apply stored_app in H1 as [_ H1]. apply stored_app in H1 as [_ H1]. by rewrite Hd, Hs in H1.
  - rewrite fp_bytes0. split; [rewrite !length_app; lia|].
    rewrite (app_assoc _ (ip_bytes ih)), (app_assoc _ (tcp_bytes th)), drop_app_length'; [done|]. rewrite !length_app. lia.
Qed.

(** Receiving a frame: the segment begins where the header length says. *)
Lemma net_rx_layout s i f c flags data frame eh ih th : frame_layout c flags data frame eh ih th -> conn_range c ->
  interfaces s !! Z.to_nat i = Some f -> Z.of_nat (length data) <= MAX_SEGMENT ->
  net_rx s i frame =
    let s' := rx_counted s i f (Z.of_nat (length frame)) in
    let hl := Z.land (Z.shiftr (data_offset th) 4) 0xF * 4 in
    match tcp_find_connection s (local_ip c) (local_port c) (remote_ip c) (remote_port c) with
    | None => Ok s'
    | Some j => tcp_process s' j (c_seq c) flags (drop (Z.to_nat (34 + hl)) frame) (u64 (20 + Z.of_nat (length data) - hl))
    end.
Proof.
  intros Hp Hc Hf Hl. destruct (frame_stored _ _ _ _ _ _ _ Hp) as (He & Hi & Ht & Hlen & _). destruct Hp, Hc.
  unfold MAX_SEGMENT in *. unfold net_rx, ETH_HLEN, SIZEOF_ARP, SIZEOF_IP.
  rewrite (proj2 (Z.ltb_ge _ _)) by lia.
  destruct fp_eth0 as (_ & _ & Hty). rewrite Hty in He. change 12 with (Z.of_nat 12).
  rewrite (get16_stored _ _ _ (htons_range ETH_P_IP ltac:(unfold ETH_P_IP; lia)) He), bind_ok.
  unfold get_iface. rewrite Hf. cbn [of_option]. rewrite bind_ok, ntohs_htons by (unfold ETH_P_IP; lia).
  change (ETH_P_IP =? ETH_P_ARP) with false. change (ETH_P_IP =? ETH_P_IP) with true. cbn [andb].
  rewrite (proj2 (Z.leb_le _ _)) by lia.
  destruct (ip_fields _ _ _ fp_ip0 Hi) as (E1 & E2 & E3 & E4 & E5). unfold ip_handle.
  change 14 with (Z.of_nat 14). rewrite E1, bind_ok, fp_version0. change (Z.shiftr 69 4 =? 4) with true.
  change (Z.land 69 15 * 4) with 20. cbn [negb]. assert (0 <= 40 + Z.of_nat (length data) < 2 ^ 16) as Hr by lia.
  rewrite E2, bind_ok, fp_len0, (ntohs_htons _ Hr), (proj2 (Z.ltb_ge _ _)) by lia. rewrite E3, bind_ok, fp_proto0. cbn [Z.eqb IP_PROTO_ICMP IP_PROTO_TCP Pos.eqb].
  rewrite E4, bind_ok, E5, bind_ok.
  destruct (tcp_fields _ _ _ fp_tcp0 Ht) as (F1 & F2 & F3 & F4 & F5 & F6). unfold tcp_handle_segment.
  change (Z.of_nat 14 + 20) with (Z.of_nat 34).
  rewrite F1, bind_ok, F2, bind_ok, F3, bind_ok, F4, bind_ok, F6, bind_ok, fp_sport0, fp_dport0, !ntohs_htons by done.
  rewrite fp_src0, fp_dst0, fp_seq0, ntohl_htonl, fp_flags0 by done.
  change (with_interfaces s _ _) with (rx_counted s i f (Z.of_nat (length frame))).
  change (tcp_find_connection (rx_counted s i f (Z.of_nat (length frame)))) with (tcp_find_connection s).
  destruct (tcp_find_connection _ _ _ _ _) as [j|]; [|done].
  rewrite F5, bind_ok. cbv zeta. rewrite (u64_small (40 + _ - 20)) by lia. f_equal. f_equal. lia.
Qed.

(** Receiving a frame that [tcp_send_packet] built hands its connection the
    sequence number, the flags and exactly the data. *)
Lemma net_rx_tcp s i f c flags data frame eh ih th : frame_parts c flags data frame eh ih th -> conn_range c ->
  interfaces s !! Z.to_nat i = Some f -> Z.of_nat (length data) <= MAX_SEGMENT ->
  net_rx s i frame =
    let s' := rx_counted s i f (Z.of_nat (length frame)) in
    match tcp_find_connection s (local_ip c) (local_port c) (remote_ip c) (remote_port c) with
    | None => Ok s'
    | Some j => tcp_process s' j (c_seq c) flags data (Z.of_nat (length data))
    end.
Proof.
  intros [Hlay Ho _ _] Hc Hf Hl. rewrite (net_rx_layout s i f c flags data frame eh ih th Hlay Hc Hf Hl). cbv zeta. rewrite Ho.
  change (Z.land (Z.shiftr 80 4) 15 * 4) with 20. destruct (frame_stored _ _ _ _ _ _ _ Hlay) as (_ & _ & _ & _ & Hdrop).
  change (Z.to_nat (34 + 20)) with 54%nat. rewrite Hdrop. unfold MAX_SEGMENT in Hl. rewrite u64_small by lia.
  destruct (tcp_find_connection _ _ _ _ _); [|done]. f_equal. lia.
Qed.
End receive.
