(* ===== verification/NetInv.v ===== *)
(** * The TCP/IP stack: the invariant and the effect of the operations *)
From S2P Require Import Prelude AllocSpec Buffer Packet PacketSpec Net NetSpec.
#[local] Open Scope Z_scope.

(** ** Copying between buffers *)

Lemma recv_copy_ok src : forall n buf pos, (n <= length src)%nat -> (pos + n <= length buf)%nat -> Forall byte src ->
  recv_copy src (Z.of_nat n) buf (Z.of_nat pos) = Ok (splice buf pos (take n src)).
Proof.
  induction src as [|c src IH]; intros n buf pos Hn Hp Hb.
  - destruct n; [|simpl in Hn; lia]. cbn. by rewrite splice_nil.
  - destruct n as [|n]; [cbn; by rewrite splice_nil|]. inversion_clear Hb. cbn [recv_copy take length] in *.
    rewrite (proj2 (Z.leb_gt _ _)) by lia. rewrite put_ok by (done || lia). rewrite bind_ok.
    replace (Z.of_nat (S n) - 1) with (Z.of_nat n) by lia. replace (Z.of_nat pos + 1) with (Z.of_nat (pos + 1)) by lia.
    rewrite IH by (done || (rewrite splice_length; simpl; lia) || lia). f_equal.
    apply (splice_app buf pos [c]). rewrite length_take. simpl. lia.
Qed.

Lemma get_bytes_ok n : forall buf off, (off + n <= length buf)%nat ->
  get_bytes n buf (Z.of_nat off) = Ok (take n (drop off buf)).
Proof.
  induction n as [|n IH]; intros buf off Hl; [done|]. cbn [get_bytes].
  destruct (lookup_lt_is_Some_2 buf off ltac:(lia)) as [c Hc].
  rewrite (get_nat _ _ _ Hc), bind_ok. replace (Z.of_nat off + 1) with (Z.of_nat (S off)) by lia.
  rewrite IH, bind_ok by lia. by rewrite (drop_S _ _ _ Hc).
Qed.

Lemma splice_0_length buf bs : (length bs <= length buf)%nat -> length (splice buf 0 bs) = length buf.
Proof. intros. apply splice_length. lia. Qed.

Lemma shift_down_ok b k : Forall byte b -> forall n m, (k + m + n <= length b)%nat ->
  shift_down n (splice b 0 (take m (drop k b))) (Z.of_nat (k + m)) (Z.of_nat k) = Ok (splice b 0 (take (m + n) (drop k b))).
Proof.
  intros Hb. induction n as [|n IH]; intros m Hl; cbn [shift_down]; [by rewrite Nat.add_0_r|].
  assert (length (take m (drop k b)) = m) as Hm by (rewrite length_take, length_drop; lia).
  destruct (lookup_lt_is_Some_2 b (k + m)%nat ltac:(lia)) as [c Hc].
  assert (splice b 0 (take m (drop k b)) !! (k + m)%nat = Some c) as Hg.
  { unfold splice. rewrite lookup_app_r, lookup_app_r, lookup_drop, Hm, length_take by (rewrite ?Hm, ?length_take; lia).
    rewrite <- Hc. f_equal. lia. }
  rewrite (get_nat _ _ _ Hg), bind_ok. replace (Z.of_nat (k + m) - Z.of_nat k) with (Z.of_nat m) by lia.
  rewrite put_ok; [|rewrite splice_0_length; lia|by eapply Forall_lookup_1]. rewrite bind_ok.
  replace (Z.of_nat (k + m) + 1) with (Z.of_nat (k + S m)) by lia.
  pose proof (splice_app b 0 (take m (drop k b)) [c]) as Hs. rewrite Hm, Nat.add_0_l in Hs. rewrite Hs by (simpl; lia).
  rewrite <- (take_S_r _ _ c), IH by (lia || by rewrite lookup_drop). do 3 f_equal. lia.
Qed.

Lemma splice_bytes b pos bs : Forall byte b -> Forall byte bs -> Forall byte (splice b pos bs).
Proof. intros. unfold splice. rewrite !Forall_app. split; [by apply Forall_take|]. split; [done|by apply Forall_drop]. Qed.

(** ** Every checksum of the code is computed *)

Lemma sum_words_range l : forall s, 0 <= s < 2 ^ 32 -> 0 <= sum_words l s < 2 ^ 32.
Proof.
  induction l as [|b|a b l IH] using list_ind2; intros s Hs; cbn [sum_words]; [done|apply u32_range|].
  apply IH, u32_range.
Qed.

Lemma sum_check_total p l : 0 <= p < 2 ^ 32 -> exists c, sum_check p l = Ok c.
Proof.
  intros Hp. unfold sum_check. destruct (fold_sum_spec (sum_words l p)) as (f & -> & _); [by apply sum_words_range|]. eauto.
Qed.

Lemma checksum_total l : exists c, checksum l = Ok c.
Proof. rewrite checksum_sum. apply sum_check_total. lia. Qed.

Lemma tcp_frame_total mac c flags data : exists frame, tcp_frame mac c flags data = Ok frame.
Proof.
  unfold tcp_frame. destruct (checksum_total (ip_bytes (tcp_ip_header c (SIZEOF_TCP + Z.of_nat (length data)) 0))) as [x ->].
  rewrite bind_ok, tcp_checksum_sum.
  destruct (sum_check_total (pseudo_sum (local_ip c) (remote_ip c) (SIZEOF_TCP + Z.of_nat (length data)))
    (tcp_bytes (tcp_header c flags 0) ++ data)) as [y ->]; [apply u32_range|].
  rewrite bind_ok. eauto.
Qed.

Section inv.
Context {A : Type} `{AllocatorLaws A}.
Context (uninit : Z -> Z -> list Z).
Context (uninit_ok : forall p n, 0 <= n -> Z.of_nat (length (uninit p n)) = n /\ Forall byte (uninit p n)).
Implicit Types (s : net A).

(** ** The invariant *)

Definition buffer (s : net A) (p : Z) (b : list Z) : Prop :=
  bufs s !! p = Some b /\ Z.of_nat (length b) = 65536 /\ Forall byte b.

(** A connection that is in use: its two buffers exist and hold what the
    lengths say. *)
Record conn_ok (s : net A) (c : tcp_connection) : Prop := {
  co_range : conn_range c;
  co_recv : exists b, buffer s (recv_buf c) b;
  co_send : exists b, buffer s (send_buf c) b;
  co_ne : recv_buf c <> send_buf c;
  co_rlen : 0 <= recv_len c <= 65536;
  co_rcap : recv_capacity c = 65536;
  co_slen : 0 <= send_len c <= 65536;
  co_scap : send_capacity c = 65536
}.

Definition buffers (c : tcp_connection) : list Z := [recv_buf c; send_buf c].

Definition iface_ok (f : net_interface) : Prop := mac_ok (if_mac f) /\ w32 (if_ip f).

Record net_inv (s : net A) : Prop := {
  ni_heap : a_inv (heap s);
  ni_arp : length (arp_cache s) = ARP_CACHE_SIZE;
  ni_ifaces : Z.of_nat (length (interfaces s)) = MAX_INTERFACES /\ Forall iface_ok (interfaces s);
  ni_num : 0 <= num_interfaces s <= MAX_INTERFACES;
  ni_port : w16 (next_ephemeral_port s);
  ni_range : Forall conn_range (tcp_connections s);
  ni_conn : forall i c, tcp_connections s !! i = Some c -> in_use c = true -> conn_ok s c;
  ni_disjoint : forall i j c d p, tcp_connections s !! i = Some c -> tcp_connections s !! j = Some d ->
    in_use c = true -> in_use d = true -> p ∈ buffers c -> p ∈ buffers d -> i = j;
  ni_live : forall p b, bufs s !! p = Some b -> p <> 0 /\ exists n, a_cap (heap s) p = Some n
}.

(** ** Steps that touch no connection *)

Definition fixed (f : net_interface) : list Z * Z * bool := (if_mac f, if_ip f, if_send f).

Record quiet (s s' : net A) : Prop := {
  q_arp : arp_cache s' = arp_cache s;
  q_conns : tcp_connections s' = tcp_connections s;
  q_bufs : bufs s' = bufs s;
  q_num : num_interfaces s' = num_interfaces s;
  q_port : next_ephemeral_port s' = next_ephemeral_port s;
  q_ifaces : map fixed (interfaces s') = map fixed (interfaces s);
  q_heap : a_inv (heap s) -> a_inv (heap s');
  q_cap : cap_same (a_cap (heap s)) (a_cap (heap s'))
}.

Lemma quiet_refl s : quiet s s.
Proof. by split. Qed.

Lemma quiet_trans s1 s2 s3 : quiet s1 s2 -> quiet s2 s3 -> quiet s1 s3.
Proof using Type. intros [] []. split; try congruence; try tauto; intros q; by rewrite q_cap1, q_cap0. Qed.

Lemma map_fixed_ok l l' : map fixed l' = map fixed l -> Forall iface_ok l -> Forall iface_ok l' /\ length l' = length l.
Proof using Type.
  intros Hm Hl. split; [|by rewrite <- (length_map fixed l'), Hm, length_map].
  apply Forall_forall. intros f Hf. apply (list_elem_of_fmap_2 fixed) in Hf. change (fixed <$> l') with (map fixed l') in Hf.
  rewrite Hm in Hf. apply list_elem_of_fmap in Hf as (g & Hg & Hin). rewrite Forall_forall in Hl.
  destruct (Hl g Hin) as [? ?]. unfold fixed, iface_ok in *. injection Hg as -> -> _. done.
Qed.

Lemma conn_ok_bufs s s' c : bufs s' = bufs s -> conn_ok s c -> conn_ok s' c.
Proof using Type. intros E []. split; try done; unfold buffer in *; by rewrite E. Qed.

Lemma quiet_conn s s' c : quiet s s' -> conn_ok s c -> conn_ok s' c.
Proof using Type. intros []. by apply conn_ok_bufs. Qed.

Lemma quiet_inv s s' : quiet s s' -> net_inv s -> net_inv s'.
Proof using Type.
  intros Hq Hi. pose proof (fun c => quiet_conn s s' c Hq) as Hcq. destruct Hq, Hi, ni_ifaces0 as [Hl Hf].
  destruct (map_fixed_ok _ _ q_ifaces0 Hf) as [Hf' Hl'].
  split; rewrite ?q_arp0, ?q_conns0, ?q_bufs0, ?q_num0, ?q_port0; try done; [by apply q_heap0|by rewrite Hl'| |].
  - intros i c Hc Hu. eauto.
  - intros p b Hb. destruct (ni_live0 p b Hb) as [Hp [n Hn]]. split; [done|]. exists n. by rewrite q_cap0.
Qed.

Lemma fixed_insert l i f f' : l !! i = Some f -> fixed f' = fixed f -> map fixed (<[i:=f']> l) = map fixed l.
Proof using Type.
  intros Hl Hf. change (fixed <$> <[i:=f']> l = fixed <$> l). rewrite list_fmap_insert, Hf.
  apply list_insert_id. by rewrite list_lookup_fmap, Hl.
Qed.

Lemma quiet_rx s i f n : interfaces s !! Z.to_nat i = Some f -> quiet s (rx_counted s i f n).
Proof using Type. intros Hf. split; try done. cbn. by apply (fixed_insert _ _ f). Qed.

(** ** Sending *)

(** What sending one frame adds to the wire. *)
Definition put_on_wire (s : net A) (frame : list Z) : list (Z * list Z) :=
  match interfaces s !! 0%nat with Some f => if if_send f then [(0, frame)] else [] | None => [] end.

Lemma iface_send_spec s frame : net_inv s ->
  exists s', iface_send s frame = Ok s' /\ quiet s s' /\ wire s' = wire s ++ put_on_wire s frame.
Proof using Type.
  intros []. destruct ni_ifaces0 as [Hl _]. unfold iface_send, get_iface, put_on_wire. change (Z.to_nat 0) with 0%nat.
  destruct (lookup_lt_is_Some_2 (interfaces s) 0) as [f Hf]; [unfold MAX_INTERFACES in *; lia|]. rewrite Hf. cbn [of_option].
  rewrite bind_ok. destruct (if_send f) eqn:E.
  - eexists. split; [reflexivity|]. split; [|done]. split; try done. cbn. apply (fixed_insert _ _ f); [done|].
    unfold fixed. cbn. by rewrite E.
  - eexists. split; [reflexivity|]. split; [apply quiet_refl|]. by rewrite app_nil_r.
Qed.

(** The block a packet is built in: the heap is as before when it is freed. *)
Lemma packet_block s n : net_inv s -> 0 <= n ->
  exists p h, a_kmalloc (heap s) n GFP_KERNEL = Ok (p, h) /\
    ((p = 0 /\ quiet s (with_heap s h)) \/
     (p <> 0 /\ net_inv (with_heap s h) /\
      forall s2, quiet (with_heap s h) s2 -> exists h2, a_kfree (heap s2) p = Ok h2 /\ quiet s (with_heap s2 h2))).
Proof using Type*.
  intros Hi Hn. destruct (law_alloc (heap s) n GFP_KERNEL (ni_heap _ Hi) Hn) as (p & h & E & Hh & Hr).
  exists p, h. split; [done|]. destruct Hr as [[-> Hs]|(Hp & Hnone & c & Hc & Hu)].
  - left. split; [done|]. by split.
  - right. split; [done|]. split.
    + destruct Hi. split; try done.
      * intros i d Hd Hu'. apply (conn_ok_bufs s); eauto.
      * intros q b Hb. destruct (ni_live0 q b Hb) as [Hq [m Hm]]. split; [done|]. cbn. rewrite Hu. case_decide; eauto.
    + intros s2 Hq. destruct Hq. cbn in *. specialize (q_heap0 Hh).
      destruct (law_free (heap s2) p c q_heap0) as (h2 & E2 & Hh2 & Hu2).
      { rewrite q_cap0, Hu. by rewrite decide_True. }
      exists h2. split; [done|]. split; try done. cbn. intros q. rewrite Hu2. case_decide; [by subst|].
      rewrite q_cap0, Hu. by rewrite decide_False.
Qed.

(** Sending a segment: no memory, or the frame goes to the driver of the first interface. *)
Definition tcp_sent (s s' : net A) (c : tcp_connection) (flags : Z) (data : list Z) (ret : Z) : Prop :=
  quiet s s' /\
  ((ret = -1 /\ wire s' = wire s) \/
   (ret = 0 /\ exists f frame, interfaces s !! 0%nat = Some f /\ tcp_frame (if_mac f) c flags data = Ok frame /\
      wire s' = wire s ++ put_on_wire s frame)).

Lemma tcp_send_packet_spec s i c flags data : net_inv s -> tcp_connections s !! i = Some c ->
  exists ret s', tcp_send_packet s i flags data = Ok (ret, s') /\ tcp_sent s s' c flags data ret.
Proof using Type*.
  intros Hi Hc. unfold tcp_send_packet. destruct (Z.eqb_spec (num_interfaces s) 0).
  { do 2 eexists. split; [reflexivity|]. split; [apply quiet_refl|]. by left. }
  destruct (ni_ifaces _ Hi) as [Hl _].
  destruct (lookup_lt_is_Some_2 (interfaces s) 0) as [f Hf]; [unfold MAX_INTERFACES in *; lia|].
  unfold get_iface. change (Z.to_nat 0) with 0%nat. rewrite Hf. cbn [of_option]. rewrite bind_ok.
  destruct (packet_block s (ETH_HLEN + SIZEOF_IP + (SIZEOF_TCP + Z.of_nat (length data))) Hi) as (p & h & E & Hr);
    [unfold ETH_HLEN, SIZEOF_IP, SIZEOF_TCP; lia|]. rewrite E, bind_ok.
  destruct Hr as [[-> Hq]|(Hp & Hi1 & Hfree)]; cbn [Z.eqb].
  { do 2 eexists. split; [reflexivity|]. split; [done|]. by left. }
  rewrite (proj2 (Z.eqb_neq _ _)) by done. unfold get_conn. cbn [tcp_connections with_heap]. rewrite Hc. cbn [of_option].
  rewrite bind_ok. destruct (tcp_frame_total (if_mac f) c flags data) as [frame Ef]. rewrite Ef, bind_ok.
  destruct (iface_send_spec _ frame Hi1) as (s2 & E2 & Hq2 & Hw). rewrite E2, bind_ok.
  destruct (Hfree _ Hq2) as (h2 & -> & Hq3). rewrite bind_ok. do 2 eexists. split; [reflexivity|].
  split; [done|]. right. split; [done|]. exists f, frame. split; [done|]. split; [done|]. exact Hw.
Qed.

(** ** What a TCP operation may change *)

(** Only TCP segments leave, through the first interface, if it has a driver. *)
Definition mute (s : net A) : Prop := forall f, interfaces s !! 0%nat = Some f -> if_send f = false.

Record mild (s s' : net A) : Prop := {
  m_arp : arp_cache s' = arp_cache s;
  m_num : num_interfaces s' = num_interfaces s;
  m_fixed : map fixed (interfaces s') = map fixed (interfaces s);
  m_wire : mute s -> wire s' = wire s
}.

Lemma mute_fixed s s' : map fixed (interfaces s') = map fixed (interfaces s) -> mute s -> mute s'.
Proof using Type.
  intros Hm Hs f Hf. assert (map fixed (interfaces s') !! 0%nat = Some (fixed f)) as E.
  { change (fixed <$> interfaces s') with (fixed <$> interfaces s'). rewrite list_lookup_fmap, Hf. done. }
  rewrite Hm, list_lookup_fmap in E. destruct (interfaces s !! 0%nat) as [g|] eqn:Eg; [|done].
  cbn in E. injection E as _ _ <-. by apply Hs.
Qed.

Lemma mild_refl s : mild s s.
Proof using Type. by split. Qed.

Lemma mild_trans s1 s2 s3 : mild s1 s2 -> mild s2 s3 -> mild s1 s3.
Proof using Type.
  intros [] []. split; try congruence. intros Hm. rewrite m_wire1 by (by apply (mute_fixed s1)). by apply m_wire0.
Qed.

Lemma put_mute s frame : mute s -> put_on_wire s frame = [].
Proof using Type.
  intros Hm. unfold put_on_wire. destruct (interfaces s !! 0%nat) as [f|] eqn:E; [|done]. by rewrite (Hm f E).
Qed.

Lemma sent_mild s s' c flags data ret : tcp_sent s s' c flags data ret -> mild s s'.
Proof using Type.
  intros [[] Hw]. split; try done. intros Hm. destruct Hw as [[_ ->]|(_ & f & frame & _ & _ & ->)]; [done|].
  by rewrite put_mute, app_nil_r.
Qed.

(** ** Changing one connection *)

Lemma upd_conn_ok s i c f : tcp_connections s !! i = Some c ->
  upd_conn s i f = Ok (with_conns s (<[i := f c]> (tcp_connections s))).
Proof using Type. intros Hc. unfold upd_conn, get_conn. by rewrite Hc. Qed.

Lemma get_conn_ok s i c : tcp_connections s !! i = Some c -> get_conn s i = Ok c.
Proof using Type. intros Hc. unfold get_conn. by rewrite Hc. Qed.

Lemma inv_set s i c c' b : net_inv s -> tcp_connections s !! i = Some c -> in_use c = true ->
  conn_range c' -> (in_use c' = true -> conn_ok (with_bufs s b) c' /\ buffers c' = buffers c) ->
  (forall p, p ∉ buffers c -> b !! p = bufs s !! p) -> (forall p, is_Some (b !! p) -> is_Some (bufs s !! p)) ->
  net_inv (with_conns (with_bufs s b) (<[i := c']> (tcp_connections s))).
Proof using Type.
  intros [] Hc Hu Hcr Hc' Hout Hsub. assert (i < length (tcp_connections s))%nat as Hlt by (by eapply lookup_lt_Some).
  split; cbn; try done.
  - by apply Forall_insert.
  - intros j d Hd Hud. apply (conn_ok_bufs (with_bufs s b)); [done|]. destruct (decide (i = j)) as [<-|Hne].
    + rewrite list_lookup_insert_eq in Hd by done. injection Hd as <-. by apply Hc'.
    + rewrite list_lookup_insert_ne in Hd by done. pose proof (ni_conn0 _ _ Hd Hud) as [].
      assert (forall p, p ∈ buffers d -> b !! p = bufs s !! p) as Hsame.
      { intros p Hp. apply Hout. intros Hpc. apply Hne. by apply (ni_disjoint0 i j c d p). }
      unfold buffers in Hsame. split; try done; unfold buffer; cbn.
      * rewrite Hsame by (apply elem_of_cons; by left). done.
      * rewrite Hsame by (apply elem_of_cons; right; apply elem_of_cons; by left). done.
  - assert (forall j d, <[i:=c']> (tcp_connections s) !! j = Some d -> in_use d = true ->
      exists d0, tcp_connections s !! j = Some d0 /\ in_use d0 = true /\ buffers d = buffers d0) as Hback.
    { intros j d Hd Hud. destruct (decide (i = j)) as [<-|Hne].
      - rewrite list_lookup_insert_eq in Hd by done. injection Hd as <-. exists c. by destruct (Hc' Hud).
      - rewrite list_lookup_insert_ne in Hd by done. eauto. }
    intros j k d e p Hd He Hud Hue Hpd Hpe. destruct (Hback _ _ Hd Hud) as (d0 & ? & ? & Eb).
    destruct (Hback _ _ He Hue) as (e0 & ? & ? & Ee). rewrite Eb in Hpd. rewrite Ee in Hpe. eauto.
  - intros p b' Hb. destruct (Hsub p) as [b0 Hb0]; [by eexists|]. eauto.
Qed.

Lemma with_bufs_id s : with_bufs s (bufs s) = s.
Proof. by destruct s. Qed.

(** A new value for a connection, with the same buffers. *)
Lemma inv_conn s i c c' : net_inv s -> tcp_connections s !! i = Some c -> in_use c = true ->
  conn_range c' -> (in_use c' = true -> conn_ok s c' /\ buffers c' = buffers c) ->
  net_inv (with_conns s (<[i := c']> (tcp_connections s))).
Proof using Type.
  intros Hi Hc Hu Hcr Hc'. rewrite <- (with_bufs_id s) at 1. apply (inv_set s i c); try done. by rewrite with_bufs_id.
Qed.

Lemma inv_state s i c st : net_inv s -> tcp_connections s !! i = Some c -> in_use c = true ->
  net_inv (with_conns s (<[i := with_state st c]> (tcp_connections s))).
Proof using Type. intros Hi Hc Hu. apply (inv_conn s i c); try done; [|intros _; split; [|done]]; by destruct (ni_conn _ Hi i c Hc Hu) as [[]]. Qed.

Lemma inv_ack s i c n : net_inv s -> tcp_connections s !! i = Some c -> in_use c = true -> w32 n ->
  net_inv (with_conns s (<[i := with_ack n c]> (tcp_connections s))).
Proof using Type. intros Hi Hc Hu Hn. apply (inv_conn s i c); try done; [|intros _; split; [|done]]; by destruct (ni_conn _ Hi i c Hc Hu) as [[]]. Qed.

Lemma inv_seq s i c n : net_inv s -> tcp_connections s !! i = Some c -> in_use c = true -> w32 n ->
  net_inv (with_conns s (<[i := with_seq n c]> (tcp_connections s))).
Proof using Type. intros Hi Hc Hu Hn. apply (inv_conn s i c); try done; [|intros _; split; [|done]]; by destruct (ni_conn _ Hi i c Hc Hu) as [[]]. Qed.

Lemma lookup_insert_conn s i c c' : tcp_connections s !! i = Some c ->
  <[i := c']> (tcp_connections s) !! i = Some c'.
Proof. intros Hc. apply list_lookup_insert_eq. by eapply lookup_lt_Some. Qed.

(** ** Freeing a connection *)

(** A block that no connection uses any more is given back. *)
Lemma inv_drop s p b : net_inv s -> bufs s !! p = Some b ->
  (forall i c, tcp_connections s !! i = Some c -> in_use c = true -> p ∉ buffers c) ->
  exists h, p <> 0 /\ a_kfree (heap s) p = Ok h /\ net_inv (with_bufs (with_heap s h) (delete p (bufs s))).
Proof using Type*.
  intros [] Hb Hno. destruct (ni_live0 p b Hb) as [Hp [n Hn]].
  destruct (law_free (heap s) p n ni_heap0 Hn) as (h & E & Hh & Hu). exists h. split; [done|]. split; [done|].
  split; try done; cbn.
  - intros i c Hc Hu'. pose proof (Hno i c Hc Hu') as Hni. unfold buffers in Hni.
    apply not_elem_of_cons in Hni as [H1 Hni]. apply not_elem_of_cons in Hni as [H2 _].
    destruct (ni_conn0 i c Hc Hu') as []. split; try done; unfold buffer; cbn; by rewrite lookup_delete_ne.
  - intros q b' Hb'. apply lookup_delete_Some in Hb' as [Hne Hb']. destruct (ni_live0 q b' Hb') as [Hq [m Hm]].
    split; [done|]. exists m. rewrite Hu. by rewrite decide_False.
Qed.

Lemma free_buffer_ok s p h : p <> 0 -> a_kfree (heap s) p = Ok h ->
  free_buffer s p = Ok (with_bufs (with_heap s h) (delete p (bufs s))).
Proof using Type. intros Hp E. unfold free_buffer. rewrite (proj2 (Z.eqb_neq _ _)) by done. by rewrite E. Qed.

Lemma tcp_free_spec s i c : net_inv s -> tcp_connections s !! i = Some c -> in_use c = true ->
  exists s', tcp_free_connection s i = Ok s' /\ net_inv s' /\ mild s s' /\
    tcp_connections s' = <[i := with_in_use false c]> (tcp_connections s).
Proof using Type*.
  intros Hi Hc Hu. pose proof (ni_conn _ Hi _ _ Hc Hu) as Hok. destruct (co_recv _ _ Hok) as (rb & Hr & _).
  destruct (co_send _ _ Hok) as (sb & Hs & _). pose proof (co_ne _ _ Hok) as Hne.
  set (l := <[i := with_in_use false c]> (tcp_connections s)).
  assert (net_inv (with_conns s l)) as Hi1 by (apply (inv_conn s i c); try done; by destruct (co_range _ _ Hok)).
  assert (forall p j d, p ∈ buffers c -> l !! j = Some d -> in_use d = true -> p ∉ buffers d) as Hno.
  { intros p j d Hp Hd Hud Hpd. unfold l in Hd. destruct (decide (i = j)) as [<-|Hij].
    - rewrite (lookup_insert_conn s i c) in Hd by done. by injection Hd as <-.
    - rewrite list_lookup_insert_ne in Hd by done. apply Hij. by apply (ni_disjoint _ Hi i j c d p). }
  destruct (inv_drop _ _ rb Hi1 Hr) as (h1 & Hn1 & E1 & Hi2); [intros j d; by apply Hno, list_elem_of_here|].
  destruct (inv_drop _ (send_buf c) sb Hi2) as (h2 & Hn2 & E2 & Hi3).
  { cbn. by rewrite lookup_delete_ne. }
  { intros j d. apply Hno. apply elem_of_cons. right. by apply list_elem_of_here. }
  eexists. split; [|split; [exact Hi3|split; [by split|done]]].
  unfold tcp_free_connection. rewrite (get_conn_ok s i c), bind_ok by done.
  rewrite (free_buffer_ok s _ h1), bind_ok by done. rewrite (free_buffer_ok _ _ h2), bind_ok by done.
  by rewrite (upd_conn_ok _ i c).
Qed.

(** ** Receiving a segment *)

(** An operation that keeps the invariant and changes nothing but connections. *)
Definition good (s : net A) (o : outcome (net A)) : Prop :=
  exists s', o = Ok s' /\ net_inv s' /\ mild s s'.

Lemma good_ok s : net_inv s -> good s (Ok s).
Proof using Type. intros Hi. exists s. split; [done|]. split; [done|apply mild_refl]. Qed.

Lemma good_mild s s1 o : mild s s1 -> good s1 o -> good s o.
Proof using Type. intros Hm (s' & -> & Hi & Hm'). exists s'. split; [done|]. split; [done|]. by apply (mild_trans s s1). Qed.

Lemma good_set s i c c' o : tcp_connections s !! i = Some c -> net_inv (with_conns s (<[i := c']> (tcp_connections s))) ->
  good (with_conns s (<[i := c']> (tcp_connections s))) o -> good s o.
Proof using Type. intros Hc Hi. apply good_mild. by split. Qed.

(** An acknowledgement, or any segment without data, and what follows it. *)
Lemma good_send s i c flags (k : net A -> outcome (net A)) : net_inv s -> tcp_connections s !! i = Some c ->
  (forall s1, net_inv s1 -> tcp_connections s1 !! i = Some c -> quiet s s1 -> good s1 (k s1)) ->
  good s (r ← tcp_send_packet s i flags []; k (snd r)).
Proof using Type*.
  intros Hi Hc Hk. destruct (tcp_send_packet_spec s i c flags [] Hi Hc) as (ret & s1 & E & Hs).
  rewrite E, bind_ok. cbn [snd]. pose proof (sent_mild _ _ _ _ _ _ Hs) as Hm. destruct Hs as [Hq _].
  apply (good_mild s s1 _ Hm). apply Hk; [by apply (quiet_inv s)| |done]. by rewrite (q_conns _ _ Hq).
Qed.

Lemma good_ack_and s i c ack st : net_inv s -> tcp_connections s !! i = Some c -> in_use c = true -> w32 ack ->
  good s (ack_and s i ack st).
Proof using Type*.
  intros Hi Hc Hu Ha. unfold ack_and. rewrite (upd_conn_ok s i c), bind_ok by done.
  assert (net_inv (with_conns s (<[i:=with_state st (with_ack ack c)]> (tcp_connections s)))) as Hi1.
  { apply (inv_conn s i c); try done; [|intros _; split; [|done]]; by destruct (ni_conn _ Hi i c Hc Hu) as [[]]. }
  apply (good_set s i c _ _ Hc Hi1). apply (good_send _ i (with_state st (with_ack ack c))); [done|by apply (lookup_insert_conn s i c)|].
  intros s1 Hi2 _ _. by apply good_ok.
Qed.

Lemma good_free s i c : net_inv s -> tcp_connections s !! i = Some c -> in_use c = true -> good s (tcp_free_connection s i).
Proof using Type*.
  intros Hi Hc Hu. destruct (tcp_free_spec s i c Hi Hc Hu) as (s' & E & Hi' & Hm & _). by exists s'.
Qed.

(** The state after [n] bytes have been received into the buffer. *)
Definition received (s : net A) (i : nat) (c : tcp_connection) (b : list Z) (seq : Z) (bs : list Z) : net A :=
  with_conns (with_bufs s (<[recv_buf c := splice b (Z.to_nat (recv_len c)) bs]> (bufs s)))
    (<[i := with_ack (u32 (seq + Z.of_nat (length bs))) (with_recv_len (recv_len c + Z.of_nat (length bs)) c)]> (tcp_connections s)).

Lemma buffer_insert s p b b' q x : buffer s p b -> Z.of_nat (length b') = 65536 -> Forall byte b' ->
  buffer s q x -> exists y, buffer (with_bufs s (<[p := b']> (bufs s))) q y.
Proof using Type.
  intros (Hb & Hl & _) Hl' Hb' (Hq & Hlx & Hx). unfold buffer. cbn. destruct (decide (p = q)) as [<-|Hne].
  - exists b'. by rewrite lookup_insert_eq.
  - exists x. by rewrite lookup_insert_ne.
Qed.

(** New contents for one of the two buffers of a connection. *)
Lemma inv_buffer s i c c' p b b' : net_inv s -> tcp_connections s !! i = Some c -> in_use c = true -> p ∈ buffers c ->
  buffer s p b -> length b' = length b -> Forall byte b' ->
  buffers c' = buffers c -> conn_range c' -> 0 <= recv_len c' <= 65536 -> recv_capacity c' = 65536 ->
  0 <= send_len c' <= 65536 -> send_capacity c' = 65536 ->
  net_inv (with_conns (with_bufs s (<[p := b']> (bufs s))) (<[i := c']> (tcp_connections s))).
Proof using Type.
  intros Hi Hc Hu Hp Hb Hl' Hb' Hbs ? ? ? ? ?. pose proof Hb as (Hbp & Hlb & _).
  assert (Z.of_nat (length b') = 65536) as Hlz by lia.
  apply (inv_set s i c); try done.
  - intros _. split; [|done]. destruct (ni_conn _ Hi i c Hc Hu) as [_ [rb Hr] [sb Hs] Hne _ _ _ _].
    unfold buffers in Hbs. injection Hbs as E1 E2. split; try done; rewrite ?E1, ?E2; [| |done].
    + by apply (buffer_insert s p b b' (recv_buf c) rb).
    + by apply (buffer_insert s p b b' (send_buf c) sb).
  - intros q Hq. apply lookup_insert_ne. intros <-. done.
  - intros q [x Hx]. destruct (decide (p = q)) as [<-|Hne]; [by eexists|]. rewrite lookup_insert_ne in Hx by done. by eexists.
Qed.

Lemma received_inv s i c b seq bs : net_inv s -> tcp_connections s !! i = Some c -> in_use c = true ->
  buffer s (recv_buf c) b -> Forall byte bs -> recv_len c + Z.of_nat (length bs) <= 65536 -> net_inv (received s i c b seq bs).
Proof using Type.
  intros Hi Hc Hu Hb Hbs Hl. destruct (ni_conn _ Hi i c Hc Hu) as []. pose proof Hb as (_ & Hlb & Hbb).
  apply (inv_buffer s i c _ (recv_buf c) b); try done; cbn.
  - by apply list_elem_of_here.
  - apply splice_length. lia.
  - by apply splice_bytes.
  - destruct co_range0. split; try done. apply u32_range.
  - lia.
Qed.

Lemma process_data s i c b seq flags src n : net_inv s -> tcp_connections s !! i = Some c -> in_use c = true ->
  c_state c = TCP_ESTABLISHED -> has flags TCP_FIN = false -> buffer s (recv_buf c) b -> Forall byte src ->
  (0 < n <= length src)%nat -> recv_len c + Z.of_nat n <= 65536 ->
  exists ret s', tcp_process s i seq flags src (Z.of_nat n) = Ok s' /\
    tcp_sent (received s i c b seq (take n src)) s'
      (with_ack (u32 (seq + Z.of_nat n)) (with_recv_len (recv_len c + Z.of_nat n) c)) TCP_ACK [] ret /\
    net_inv (received s i c b seq (take n src)).
Proof using Type*.
  intros Hi Hc Hu Hst Hf Hb Hsrc Hn Hroom. pose proof (ni_conn _ Hi i c Hc Hu) as [].
  pose proof Hb as (Hbp & Hlb & Hbb).
  assert (length (take n src) = n) as Hlt by (rewrite length_take; lia).
  assert (net_inv (received s i c b seq (take n src))) as Hir.
  { apply received_inv; try done; [by apply Forall_take|by rewrite Hlt]. }
  unfold tcp_process. rewrite (get_conn_ok s i c), bind_ok, Hst, Hf by done.
  rewrite (proj2 (Z.ltb_lt _ _)), u64_small, co_rcap0, (proj2 (Z.leb_le _ _)), Hbp by lia. cbn [of_option]. rewrite bind_ok.
  assert (recv_copy src (Z.of_nat n) b (recv_len c) = Ok (splice b (Z.to_nat (recv_len c)) (take n src))) as ->.
  { rewrite <- recv_copy_ok by (done || lia). by rewrite Z2Nat.id by lia. }
  rewrite bind_ok, (upd_conn_ok _ i c), bind_ok, u64_small by (done || lia).
  destruct (tcp_send_packet_spec _ i (with_ack (u32 (seq + Z.of_nat n)) (with_recv_len (recv_len c + Z.of_nat n) c)) TCP_ACK [] Hir)
    as (ret & s' & E & Hs).
  { unfold received. cbn. rewrite Hlt. by apply (lookup_insert_conn s i c). }
  exists ret, s'. split; [|done]. revert E. unfold received. rewrite Hlt. intros E. cbn [tcp_connections with_bufs].
  unfold with_conns, with_bufs in *. cbn [arp_cache interfaces num_interfaces tcp_connections next_ephemeral_port tcp_isn_counter heap bufs wire] in *.
  rewrite E. done.
Qed.

Lemma received_mild s i c b seq bs : mild s (received s i c b seq bs).
Proof using Type. by split. Qed.

Lemma good_data s i c seq flags src n : net_inv s -> tcp_connections s !! i = Some c -> in_use c = true ->
  c_state c = TCP_ESTABLISHED -> has flags TCP_FIN = false -> Forall byte src -> (n <= length src)%nat ->
  Z.of_nat n < 2 ^ 32 -> good s (tcp_process s i seq flags src (Z.of_nat n)).
Proof using Type*.
  intros Hi Hc Hu Hst Hf Hsrc Hn Hn32. pose proof (ni_conn _ Hi i c Hc Hu) as []. destruct co_recv0 as [b Hb].
  destruct n as [|n].
  { unfold tcp_process. rewrite (get_conn_ok s i c), bind_ok, Hst, Hf by done. by apply good_ok. }
  destruct (Z.leb_spec (recv_len c + Z.of_nat (S n)) 65536) as [Hroom|Hfull].
  - destruct (process_data s i c b seq flags src (S n)) as (ret & s' & E & Hs & Hir); try done; [lia|].
    exists s'. split; [done|]. split; [by destruct Hs as [Hq _]; apply (quiet_inv _ _ Hq)|].
    eapply mild_trans; [by apply received_mild|]. by eapply sent_mild.
  - unfold tcp_process. rewrite (get_conn_ok s i c), bind_ok, Hst, Hf by done.
    rewrite (proj2 (Z.ltb_lt _ _)), u64_small, co_rcap0, (proj2 (Z.leb_gt _ _)) by lia. by apply good_ok.
Qed.

Lemma good_state s i c st : net_inv s -> tcp_connections s !! i = Some c -> in_use c = true ->
  good s (upd_conn s i (with_state st)).
Proof using Type.
  intros Hi Hc Hu. rewrite (upd_conn_ok s i c) by done. eexists. split; [reflexivity|].
  split; [by apply inv_state|]. by split.
Qed.

(** After a change of state or acknowledgement number the entry is still in use. *)
Lemma good_upd s i c f (k : net A -> outcome (net A)) : net_inv s -> tcp_connections s !! i = Some c -> in_use c = true ->
  in_use (f c) = true -> conn_ok s (f c) -> buffers (f c) = buffers c ->
  (forall s1, net_inv s1 -> tcp_connections s1 !! i = Some (f c) -> good s1 (k s1)) ->
  good s (s ← upd_conn s i f; k s).
Proof using Type.
  intros Hi Hc Hu Hu' Hok Hbs Hk. rewrite (upd_conn_ok s i c), bind_ok by done.
  assert (net_inv (with_conns s (<[i := f c]> (tcp_connections s)))) as Hi1 by (apply (inv_conn s i c); try done; apply Hok).
  apply (good_set s i c _ _ Hc Hi1). apply Hk; [done|]. by apply (lookup_insert_conn s i c).
Qed.

Lemma conn_ok_ctl s c c' : conn_ok s c -> conn_range c' -> buffers c' = buffers c -> recv_len c' = recv_len c ->
  recv_capacity c' = recv_capacity c -> send_len c' = send_len c -> send_capacity c' = send_capacity c -> conn_ok s c'.
Proof using Type. intros [] ? [= E1 E2] E3 E4 E5 E6. split; rewrite ?E1, ?E2, ?E3, ?E4, ?E5, ?E6; done. Qed.

Lemma ctl_ok s c ack st : conn_ok s c -> w32 ack ->
  conn_ok s (with_state st c) /\ conn_ok s (with_ack ack c) /\ conn_ok s (with_seq ack c).
Proof using Type.
  intros Hok Ha. pose proof (co_range _ _ Hok) as [].
  split; [|split]; apply (conn_ok_ctl s c); try done; by split.
Qed.

(** The state machine takes any segment whose data lie inside the frame. *)
Lemma good_process s i c seq flags src n : net_inv s -> tcp_connections s !! i = Some c -> in_use c = true ->
  Forall byte src -> (n <= length src)%nat -> Z.of_nat n < 2 ^ 32 -> good s (tcp_process s i seq flags src (Z.of_nat n)).
Proof using Type*.
  intros Hi Hc Hu Hsrc Hn Hn32. pose proof (ni_conn _ Hi i c Hc Hu) as Hok.
  assert (forall s1 d st ack, net_inv s1 -> tcp_connections s1 !! i = Some d -> in_use d = true -> w32 ack ->
    good s1 (s ← upd_conn s1 i (with_ack ack); r ← tcp_send_packet s i TCP_ACK []; upd_conn (snd r) i (with_state st))) as Hfin.
  { intros s1 d st ack Hi1 Hd Hud Ha. destruct (ctl_ok s1 d ack st (ni_conn _ Hi1 i d Hd Hud) Ha) as (_ & Hok1 & _).
    apply (good_upd s1 i d); try done. intros s2 Hi2 Hc2. apply (good_send s2 i (with_ack ack d) TCP_ACK (fun s => upd_conn s i (with_state st))); [done|done|].
    intros s3 Hi3 Hc3 _. by apply (good_state s3 i (with_ack ack d)). }
  destruct (c_state c) eqn:Est; [| | | | |..]; cycle 4.
  { destruct (has flags TCP_FIN) eqn:Ef; [|by apply good_data with c].
    unfold tcp_process. rewrite (get_conn_ok s i c), bind_ok, Est, Ef by done. apply (good_ack_and s i c); try done. apply u32_range. }
  all: unfold tcp_process; rewrite (get_conn_ok s i c), bind_ok, Est by done; try (by apply good_ok).
  - destruct (has flags TCP_ACK).
    + destruct (ctl_ok s c 0 TCP_FIN_WAIT_2 Hok ltac:(unfold w32; lia)) as (Hok1 & _).
      apply (good_upd s i c); try done. intros s1 Hi1 Hc1.
      destruct (has flags TCP_FIN); [|by apply good_ok]. apply (Hfin _ (with_state TCP_FIN_WAIT_2 c)); try done. apply u32_range.
    + rewrite bind_ok. destruct (has flags TCP_FIN); [|by apply good_ok]. apply (Hfin s c); try done. apply u32_range.
  - destruct (has flags TCP_FIN); [|by apply good_ok]. apply (Hfin s c); try done. apply u32_range.
  - destruct (has flags TCP_ACK); [by apply (good_state s i c)|by apply good_ok].
  - destruct (has flags TCP_ACK); [|by apply good_ok].
    destruct (ctl_ok s c 0 TCP_CLOSED Hok ltac:(unfold w32; lia)) as (Hok1 & _).
    apply (good_upd s i c); try done. intros s1 Hi1 Hc1. by apply (good_free s1 i (with_state TCP_CLOSED c)).
  - by apply (good_free s i c).
  - destruct (_ =? _); [apply (good_ack_and s i c); try done; apply u32_range|].
    destruct (has flags TCP_RST); [|by apply good_ok].
    destruct (ctl_ok s c 0 TCP_CLOSED Hok ltac:(unfold w32; lia)) as (Hok1 & _).
    apply (good_upd s i c); try done. intros s1 Hi1 Hc1. by apply (good_free s1 i (with_state TCP_CLOSED c)).
Qed.

(** ** The calls of a user of a connection *)

(** [tcp_send] refuses, or stores the data in the send buffer and sends one
    segment; when the packet cannot be built the data stay in the buffer. *)
Definition queued (s : net A) (i : nat) (c : tcp_connection) (b data : list Z) : net A :=
  with_conns (with_bufs s (<[send_buf c := splice b (Z.to_nat (send_len c)) data]> (bufs s)))
    (<[i := with_send_len (send_len c + Z.of_nat (length data)) c]> (tcp_connections s)).

Lemma queued_inv s i c b data : net_inv s -> tcp_connections s !! i = Some c -> in_use c = true ->
  buffer s (send_buf c) b -> Forall byte data -> send_len c + Z.of_nat (length data) <= 65536 -> net_inv (queued s i c b data).
Proof using Type.
  intros Hi Hc Hu Hb Hbs Hl. destruct (ni_conn _ Hi i c Hc Hu) as []. pose proof Hb as (_ & Hlb & Hbb).
  apply (inv_buffer s i c _ (send_buf c) b); try done; cbn.
  - apply elem_of_cons. right. by apply list_elem_of_here.
  - apply splice_length. lia.
  - by apply splice_bytes.
  - by destruct co_range0.
  - lia.
Qed.

Lemma store_bytes_ok s p b pos data : bufs s !! p = Some b -> 0 <= pos -> Forall byte data ->
  pos + Z.of_nat (length data) <= Z.of_nat (length b) ->
  store_bytes s p pos data = Ok (with_bufs s (<[p := splice b (Z.to_nat pos) data]> (bufs s))).
Proof using Type.
  intros Hb Hp Hd Hl. unfold store_bytes. destruct data as [|x data].
  - rewrite splice_nil, insert_id by done. by rewrite with_bufs_id.
  - rewrite Hb. cbn [of_option]. rewrite bind_ok. rewrite <- (Z2Nat.id pos) at 1 by lia. by rewrite put_all_ok, bind_ok by (done || lia).
Qed.

Lemma tcp_send_spec s i c b data : net_inv s -> tcp_connections s !! i = Some c -> in_use c = true ->
  c_state c = TCP_ESTABLISHED -> buffer s (send_buf c) b -> Forall byte data -> Z.of_nat (length data) < 2 ^ 31 ->
  if send_len c + Z.of_nat (length data) <=? 65536 then
    exists ret s1, tcp_sent (queued s i c b data) s1 (with_send_len (send_len c + Z.of_nat (length data)) c)
        (Z.lor TCP_PSH TCP_ACK) data ret /\ net_inv s1 /\ mild s s1 /\
      tcp_send s i data = if ret =? 0
        then Ok (Z.of_nat (length data), with_conns s1
          (<[i := with_seq (u32 (c_seq c + Z.of_nat (length data))) (with_send_len (send_len c + Z.of_nat (length data)) c)]>
            (tcp_connections s1)))
        else Ok (-1, s1)
  else tcp_send s i data = Ok (-1, s).
Proof using Type*.
  intros Hi Hc Hu Hst Hb Hd Hl31. pose proof (ni_conn _ Hi i c Hc Hu) as []. pose proof Hb as (Hbp & Hlb & _).
  unfold tcp_send. rewrite (get_conn_ok s i c), bind_ok, bool_decide_eq_true_2 by done. cbn [negb]. rewrite co_scap0, u64_small by lia.
  destruct (Z.leb_spec (send_len c + Z.of_nat (length data)) 65536) as [Hroom|Hfull].
  2: { by rewrite (proj2 (Z.ltb_lt _ _)) by lia. }
  rewrite (proj2 (Z.ltb_ge _ _)) by lia.
  rewrite (store_bytes_ok s _ b), bind_ok by (done || lia). rewrite (upd_conn_ok _ i c), bind_ok by done.
  pose proof (queued_inv s i c b data Hi Hc Hu Hb Hd Hroom) as Hiq.
  destruct (tcp_send_packet_spec _ i (with_send_len (send_len c + Z.of_nat (length data)) c) (Z.lor TCP_PSH TCP_ACK) data Hiq)
    as (ret & s1 & E & Hs); [by apply (lookup_insert_conn s i c)|].
  exists ret, s1. split; [done|]. pose proof (sent_mild _ _ _ _ _ _ Hs) as Hm. pose proof Hs as [Hq _].
  split; [by apply (quiet_inv _ _ Hq)|]. split; [by eapply mild_trans; [|exact Hm]|].
  unfold queued in E. cbn [tcp_connections with_bufs]. rewrite E, bind_ok. destruct (ret =? 0); [|done].
  rewrite (upd_conn_ok _ i (with_send_len (send_len c + Z.of_nat (length data)) c)), bind_ok.
  - by rewrite i32_small by lia.
  - rewrite (q_conns _ _ Hq). by apply (lookup_insert_conn s i c).
Qed.

(** [tcp_recv] takes bytes from the front of the buffer. *)
Definition taken (s : net A) (i : nat) (c : tcp_connection) (b : list Z) (n : nat) : net A :=
  with_conns (with_bufs s (<[recv_buf c := splice b 0 (take (Z.to_nat (recv_len c) - n) (drop n b))]> (bufs s)))
    (<[i := with_recv_len (recv_len c - Z.of_nat n) c]> (tcp_connections s)).

Lemma tcp_recv_spec s i c b len : net_inv s -> tcp_connections s !! i = Some c -> in_use c = true ->
  buffer s (recv_buf c) b -> 0 <= len ->
  let n := Z.to_nat (Z.min len (recv_len c)) in
  tcp_recv s i len = Ok (Z.of_nat n, take n b, if decide (recv_len c = 0) then s else taken s i c b n) /\ net_inv (taken s i c b n).
Proof using Type.
  intros Hi Hc Hu Hb Hlen n. pose proof (ni_conn _ Hi i c Hc Hu) as []. pose proof Hb as (Hbp & Hlb & Hbb).
  assert (Z.of_nat n <= recv_len c) as Hn by lia.
  split.
  - unfold tcp_recv. rewrite (get_conn_ok s i c), bind_ok by done. case_decide as Hz.
    { rewrite Hz. cbn. subst n. by rewrite Hz, Z.min_r by lia. }
    rewrite (proj2 (Z.eqb_neq _ _)) by done. rewrite Hbp. cbn [of_option]. rewrite bind_ok.
    assert ((if len <? recv_len c then len else recv_len c) = Z.of_nat n) as -> by (destruct (Z.ltb_spec len (recv_len c)); lia).
    rewrite Nat2Z.id. change (get_bytes n b 0) with (get_bytes n b (Z.of_nat 0)). rewrite get_bytes_ok, bind_ok, drop_0 by lia.
    pose proof (shift_down_ok b n Hbb (Z.to_nat (recv_len c - Z.of_nat n)) 0) as Hsh.
    rewrite take_0, splice_nil, Nat.add_0_r, Nat.add_0_l in Hsh. rewrite Hsh, bind_ok by lia.
    rewrite (upd_conn_ok _ i c), bind_ok, i32_small by (done || lia). do 2 f_equal. unfold taken. do 3 f_equal. f_equal. f_equal. lia.
  - apply (inv_buffer s i c _ (recv_buf c) b); try done; cbn.
    + by apply list_elem_of_here.
    + apply splice_length. rewrite length_take, length_drop. lia.
    + apply splice_bytes; [done|]. by apply Forall_take, Forall_drop.
    + by destruct co_range0.
    + lia.
Qed.

Lemma good_close s i c : net_inv s -> tcp_connections s !! i = Some c ->
  exists ret s', tcp_close s (Some i) = Ok (ret, s') /\ net_inv s' /\ mild s s'.
Proof using Type*.
  intros Hi Hc. unfold tcp_close. rewrite (get_conn_ok s i c), bind_ok by done.
  destruct (in_use c) eqn:Hu; cbn [negb]; [|exists (-1), s; split; [done|split; [done|apply mild_refl]]].
  pose proof (ni_conn _ Hi i c Hc Hu) as Hok.
  assert (forall st, exists ret s', (s ← upd_conn s i (with_state st);
     r ← tcp_send_packet s i (Z.lor TCP_FIN TCP_ACK) [];
     s ← upd_conn (snd r) i (fun c => with_seq (u32 (c_seq c + 1)) c);
     Ok (0, s)) = Ok (ret, s') /\ net_inv s' /\ mild s s') as Hclose.
  { intros st. destruct (ctl_ok s c 0 st Hok ltac:(unfold w32; lia)) as (Hok1 & _).
    assert (good s (s ← upd_conn s i (with_state st); r ← tcp_send_packet s i (Z.lor TCP_FIN TCP_ACK) [];
      upd_conn (snd r) i (fun c => with_seq (u32 (c_seq c + 1)) c))) as (s' & E & Hi' & Hm).
    { apply (good_upd s i c); try done. intros s1 Hi1 Hc1.
      apply (good_send s1 i (with_state st c) _ (fun s => upd_conn s i (fun c => with_seq (u32 (c_seq c + 1)) c))); [done|done|].
      intros s2 Hi2 Hc2 _. rewrite (upd_conn_ok s2 i (with_state st c)) by done. eexists. split; [reflexivity|].
      split; [|by split]. apply inv_seq; try done. apply u32_range. }
    exists 0, s'. split; [|done]. inv_bind E. rewrite Hv. rewrite bind_ok. inv_bind E. rewrite Hv0, bind_ok, E. done. }
  destruct (c_state c); try apply Hclose; try (exists 0, s; split; [done|split; [done|apply mild_refl]]);
    destruct (good_free s i c Hi Hc Hu) as (s' & -> & ? & ?); exists 0, s'; by rewrite bind_ok.
Qed.

(** ** Opening a connection *)

(** The heap has room for the two buffers; the code does not test for it. *)
Definition buffers_available (s : net A) : Prop :=
  exists p h q h', a_kmalloc (heap s) 65536 GFP_KERNEL = Ok (p, h) /\ p <> 0 /\
    a_kmalloc h 65536 GFP_KERNEL = Ok (q, h') /\ q <> 0.

Lemma tcp_alloc_spec s : net_inv s -> buffers_available s ->
  tcp_alloc_connection uninit s = Ok (None, s) \/
  exists i s1 c1, tcp_alloc_connection uninit s = Ok (Some i, s1) /\ net_inv s1 /\ mild s s1 /\
    tcp_connections s1 !! i = Some c1 /\ in_use c1 = true.
Proof using Type* uninit_ok.
  intros Hi (p & h & q & h' & Ep & Hp & Eq & Hq). unfold tcp_alloc_connection.
  destruct (list_find _ (tcp_connections s)) as [[i c]|] eqn:Ef; [|by left]. right.
  apply list_find_Some in Ef as (Hc & Hu & _).
  rewrite Ep, bind_ok, Eq, bind_ok. rewrite !(proj2 (Z.eqb_neq _ _)) by done.
  destruct (law_alloc (heap s) 65536 GFP_KERNEL (ni_heap _ Hi) ltac:(lia)) as (? & ? & E & Hh & Hr).
  rewrite Ep in E. injection E as <- <-. destruct Hr as [[? _]|(_ & Hpn & cp & _ & Hup)]; [done|].
  destruct (law_alloc h 65536 GFP_KERNEL Hh ltac:(lia)) as (? & ? & E & Hh' & Hr).
  rewrite Eq in E. injection E as <- <-. destruct Hr as [[? _]|(_ & Hqn & cq & _ & Huq)]; [done|].
  assert (p <> q) as Hpq. { intros ->. rewrite Hup, decide_True in Hqn by done. done. }
  destruct Hi. assert (forall r b, bufs s !! r = Some b -> r <> p /\ r <> q) as Hfresh.
  { intros r b Hb. destruct (ni_live0 r b Hb) as [_ [n Hn]]. split; intros ->; [congruence|].
    rewrite Hup, decide_False, Hn in Hqn by done. done. }
  assert (forall j d r, tcp_connections s !! j = Some d -> in_use d = true -> r ∈ buffers d -> r <> p /\ r <> q) as Hfc.
  { intros j d r Hd Hud Hr. destruct (ni_conn0 j d Hd Hud) as [_ (rb & Hrb & _) (sb & Hsb & _) _ _ _ _ _].
    unfold buffers in Hr. apply elem_of_cons in Hr as [->|Hr]; [by eapply Hfresh|].
    apply elem_of_cons in Hr as [->|Hr]; [by eapply Hfresh|by apply elem_of_nil in Hr]. }
  pose proof (Forall_lookup_1 _ _ _ _ ni_range0 Hc) as Hcr.
  assert (i < length (tcp_connections s))%nat as Hlt by (by eapply lookup_lt_Some).
  set (c1 := Conn _ _ _ _ TCP_CLOSED _ _ 65535 65535 p 0 65536 q 0 65536 true).
  assert (forall r b, buffer s r b -> buffer (with_bufs s (<[q:=uninit q 65536]> (<[p:=uninit p 65536]> (bufs s)))) r b) as Hold.
  { intros r b (Hb & Hl). destruct (Hfresh r b Hb). unfold buffer. cbn. by rewrite !lookup_insert_ne. }
  eexists i, _, c1. split; [reflexivity|]. cbn. rewrite list_lookup_insert_eq by done.
  split; [|by split]. split; cbn; try done.
  - apply Forall_insert; [done|]. by destruct Hcr.
  - intros j d Hd Hud. destruct (decide (i = j)) as [<-|Hne].
    + rewrite list_lookup_insert_eq in Hd by done. injection Hd as <-.
      split; cbn; try done; try lia; [by destruct Hcr| |].
      * exists (uninit p 65536). destruct (uninit_ok p 65536 ltac:(lia)). unfold buffer. cbn.
        by rewrite lookup_insert_ne, lookup_insert_eq.
      * exists (uninit q 65536). destruct (uninit_ok q 65536 ltac:(lia)). unfold buffer. cbn. by rewrite lookup_insert_eq.
    + rewrite list_lookup_insert_ne in Hd by done. destruct (ni_conn0 j d Hd Hud) as [? [rb Hrb] [sb Hsb] ? ? ? ? ?].
      split; try done; [exists rb|exists sb]; by apply Hold.
  - intros j k d e r Hd He Hud Hue Hrd Hre. destruct (decide (i = j)) as [Hj|Hj], (decide (i = k)) as [Hk|Hk].
    + congruence.
    + subst j. rewrite list_lookup_insert_eq in Hd by done. injection Hd as <-.
      rewrite list_lookup_insert_ne in He by done. destruct (Hfc k e r He Hue Hre). unfold buffers, c1 in Hrd. cbn in Hrd.
      apply elem_of_cons in Hrd as [?|Hrd]; [done|]. apply elem_of_cons in Hrd as [?|Hrd]; [done|by apply elem_of_nil in Hrd].
    + subst k. rewrite list_lookup_insert_eq in He by done. injection He as <-.
      rewrite list_lookup_insert_ne in Hd by done. destruct (Hfc j d r Hd Hud Hrd). unfold buffers, c1 in Hre. cbn in Hre.
      apply elem_of_cons in Hre as [?|Hre]; [done|]. apply elem_of_cons in Hre as [?|Hre]; [done|by apply elem_of_nil in Hre].
    + rewrite list_lookup_insert_ne in Hd, He by done. eauto.
  - intros r b Hb. rewrite Huq. case_decide as Hrq; [subst r; by eauto|]. rewrite lookup_insert_ne in Hb by done.
    rewrite Hup. case_decide as Hrp; [subst r; by eauto|]. rewrite lookup_insert_ne in Hb by done. eauto.
Qed.

Lemma inv_counters s port isn : net_inv s -> w16 port -> net_inv (with_counters s port isn) /\ mild s (with_counters s port isn).
Proof using Type.
  intros Hi Hp. split; [|by split]. destruct Hi. split; try done. intros i c Hc Hu. apply (conn_ok_bufs s); eauto.
Qed.

Lemma tcp_connect_spec s dest port : net_inv s -> buffers_available s -> w32 dest -> w16 port ->
  exists ret s', tcp_connect uninit s dest port = Ok (ret, s') /\ net_inv s' /\ mild s s'.
Proof using Type* uninit_ok.
  intros Hi Hav Hd Hp. unfold tcp_connect.
  destruct (tcp_alloc_spec s Hi Hav) as [E|(i & s1 & c & E & Hi1 & Hm1 & Hc & Hu)]; rewrite E, bind_ok.
  { exists (-1), s. split; [done|]. split; [done|apply mild_refl]. }
  destruct (Z.eqb_spec (num_interfaces s1) 0) as [|Hnum].
  { destruct (good_free s1 i c Hi1 Hc Hu) as (s2 & -> & ? & ?). rewrite bind_ok. exists (-1), s2.
    split; [done|]. split; [done|]. by apply (mild_trans s s1). }
  destruct (ni_ifaces _ Hi1) as [Hl Hif].
  destruct (lookup_lt_is_Some_2 (interfaces s1) 0) as [f Hf]; [unfold MAX_INTERFACES in *; lia|].
  unfold get_iface. change (Z.to_nat 0) with 0%nat. rewrite Hf. cbn [of_option]. rewrite bind_ok. unfold tcp_generate_isn.
  set (next := if 65000 <? u16 (next_ephemeral_port s1 + 1) then 49152 else u16 (next_ephemeral_port s1 + 1)).
  assert (w16 next) as Hnext. { unfold next. case_match; [unfold w16; lia|apply u16_range]. }
  cbn [with_counters next_ephemeral_port tcp_isn_counter]. set (isn := u32 (tcp_isn_counter s1 * 1103515245 + 12345)).
  destruct (inv_counters s1 next isn Hi1 Hnext) as [Hi2 Hm2].
  set (upd := fun c : tcp_connection => Conn (if_ip f) (next_ephemeral_port s1) dest port TCP_SYN_SENT isn 0 (recv_wnd c) (send_wnd c)
    (recv_buf c) (recv_len c) (recv_capacity c) (send_buf c) (send_len c) (send_capacity c) (in_use c)).
  assert (conn_ok s1 (upd c)) as Hok.
  { destruct (ni_conn _ Hi1 i c Hc Hu) as []. split; try done. split; cbn; try done.
    - apply (Forall_lookup_1 _ _ _ _ Hif Hf).
    - apply (ni_port _ Hi1).
    - apply u32_range. }
  set (s2 := with_counters s1 next isn) in *.
  change (with_counters _ next isn) with s2.
  rewrite (upd_conn_ok s2 i c), bind_ok by done.
  assert (net_inv (with_conns s2 (<[i:=upd c]> (tcp_connections s2)))) as Hi3.
  { apply (inv_conn s2 i c); try done; [apply Hok|]. intros _. split; [|done]. by apply (conn_ok_bufs s1). }
  destruct (tcp_send_packet_spec _ i (upd c) TCP_SYN [] Hi3) as (ret & s3 & E3 & Hs); [by apply (lookup_insert_conn s2 i c)|].
  rewrite E3, bind_ok. pose proof (sent_mild _ _ _ _ _ _ Hs) as Hm3. destruct Hs as [Hq _].
  pose proof (quiet_inv _ _ Hq Hi3) as Hi4.
  assert (tcp_connections s3 !! i = Some (upd c)) as Hc3 by (rewrite (q_conns _ _ Hq); by apply (lookup_insert_conn s2 i c)).
  assert (mild s s3) as Hm.
  { apply (mild_trans s s1); [done|]. apply (mild_trans s1 s2); [done|]. eapply mild_trans; [|exact Hm3]. by split. }
  destruct (ret <? 0).
  - destruct (good_free s3 i (upd c) Hi4 Hc3 Hu) as (s4 & -> & ? & ?). rewrite bind_ok. exists (-1), s4.
    split; [done|]. split; [done|]. by apply (mild_trans s s3).
  - rewrite (upd_conn_ok s3 i (upd c)), bind_ok by done. do 2 eexists. split; [reflexivity|]. split.
    + apply inv_seq; try done. apply u32_range.
    + eapply mild_trans; [exact Hm|]. by split.
Qed.

(** ** The other operations *)

Lemma arp_add_inv s ip mac : net_inv s -> net_inv (arp_add s ip mac).
Proof using Type.
  intros []. unfold arp_add. split; try done; cbn; [by rewrite length_insert|].
  intros i c Hc Hu. apply (conn_ok_bufs s); eauto.
Qed.

Lemma iface_lookup s i : net_inv s -> 0 <= i < MAX_INTERFACES -> exists f, interfaces s !! Z.to_nat i = Some f /\ iface_ok f.
Proof using Type.
  intros [] Hi. destruct ni_ifaces0 as [Hl Hf]. destruct (lookup_lt_is_Some_2 (interfaces s) (Z.to_nat i)) as [f E]; [lia|].
  exists f. split; [done|]. by apply (Forall_lookup_1 _ _ _ _ Hf E).
Qed.


(** A packet built in a block of its own and sent through the first interface. *)
Lemma block_sent s n : net_inv s -> 0 <= n ->
  exists p h, a_kmalloc (heap s) n GFP_KERNEL = Ok (p, h) /\
    ((p = 0 /\ net_inv (with_heap s h) /\ mild s (with_heap s h)) \/
     (p <> 0 /\ exists f, interfaces s !! 0%nat = Some f /\ forall frame, exists s2 h2,
        iface_send (with_heap s h) frame = Ok s2 /\ a_kfree (heap s2) p = Ok h2 /\
        net_inv (with_heap s2 h2) /\ mild s (with_heap s2 h2))).
Proof using Type*.
  intros Hi Hn. destruct (packet_block s n Hi Hn) as (p & h & E & Hr). exists p, h. split; [done|].
  destruct Hr as [[-> Hq]|(Hp & Hi1 & Hfree)].
  - left. split; [done|]. split; [by apply (quiet_inv s)|]. by destruct Hq.
  - right. split; [done|]. destruct (iface_lookup s 0 Hi) as (f & Hf & _); [unfold MAX_INTERFACES; lia|].
    exists f. split; [done|]. intros frame. destruct (iface_send_spec _ frame Hi1) as (s2 & E2 & Hq2 & Hw).
    destruct (Hfree s2 Hq2) as (h2 & E3 & Hq3). exists s2, h2. split; [done|]. split; [done|].
    split; [by apply (quiet_inv s)|]. destruct Hq3. split; try done. intros Hmu. cbn. rewrite Hw. cbn.
    by rewrite (put_mute (with_heap s h)), app_nil_r.
Qed.

Lemma icmp_spec s dest id seq : net_inv s ->
  exists ret s', icmp_send_echo uninit s dest id seq = Ok (ret, s') /\ net_inv s' /\ mild s s'.
Proof using Type*.
  intros Hi. unfold icmp_send_echo. destruct (num_interfaces s =? 0).
  { exists (-1), s. split; [done|]. split; [done|apply mild_refl]. }
  destruct (block_sent s (ETH_HLEN + SIZEOF_IP + SIZEOF_ICMP) Hi) as (p & h & E & Hr);
    [unfold ETH_HLEN, SIZEOF_IP, SIZEOF_ICMP; lia|]. rewrite E, bind_ok.
  destruct Hr as [(-> & ? & ?)|(Hp & f & Hf & Hs)]; [by exists (-1), (with_heap s h)|].
  rewrite (proj2 (Z.eqb_neq _ _)) by done. unfold get_iface. change (Z.to_nat 0) with 0%nat. cbn [interfaces with_heap].
  rewrite Hf. cbn [of_option]. rewrite bind_ok.
  match goal with |- context [checksum (ip_bytes ?l)] => destruct (checksum_total (ip_bytes l)) as [x ->] end. rewrite bind_ok.
  match goal with |- context [checksum ?l] => destruct (checksum_total l) as [y ->] end. rewrite bind_ok.
  match goal with |- context [iface_send _ ?fr] => destruct (Hs fr) as (s2 & h2 & -> & E3 & ? & ?) end.
  rewrite bind_ok, E3, bind_ok. by exists 0, (with_heap s2 h2).
Qed.

Lemma udp_spec s dest sport dport data : net_inv s -> Z.of_nat (length data) < 2 ^ 32 ->
  exists ret s', udp_send uninit s dest sport dport data = Ok (ret, s') /\ net_inv s' /\ mild s s'.
Proof using Type*.
  intros Hi Hl. unfold udp_send. destruct (num_interfaces s =? 0).
  { exists (-1), s. split; [done|]. split; [done|apply mild_refl]. }
  destruct (block_sent s (u64 (ETH_HLEN + SIZEOF_IP + SIZEOF_UDP + Z.of_nat (length data))) Hi) as (p & h & E & Hr);
    [apply u64_range|]. rewrite E, bind_ok.
  destruct Hr as [(-> & ? & ?)|(Hp & f & Hf & Hs)]; [by exists (-1), (with_heap s h)|].
  rewrite (proj2 (Z.eqb_neq _ _)) by done. unfold get_iface. change (Z.to_nat 0) with 0%nat. cbn [interfaces with_heap].
  rewrite Hf. cbn [of_option]. rewrite bind_ok.
  match goal with |- context [checksum ?l] => destruct (checksum_total l) as [x ->] end. rewrite bind_ok.
  match goal with |- context [iface_send _ ?fr] => destruct (Hs fr) as (s2 & h2 & -> & E3 & ? & ?) end.
  rewrite bind_ok, E3, bind_ok. do 2 eexists. split; [reflexivity|]. done.
Qed.

Lemma arp_request_spec s target : net_inv s ->
  exists ret s', arp_send_request s target = Ok (ret, s') /\ net_inv s' /\ mild s s'.
Proof using Type*.
  intros Hi. unfold arp_send_request. destruct (num_interfaces s =? 0).
  { exists (-1), s. split; [done|]. split; [done|apply mild_refl]. }
  destruct (iface_lookup s 0 Hi) as (f & Hf & _); [unfold MAX_INTERFACES; lia|].
  unfold get_iface. rewrite Hf. cbn [of_option]. rewrite bind_ok.
  match goal with |- context [iface_send _ ?fr] => destruct (iface_send_spec s fr Hi) as (s2 & -> & Hq & Hw) end.
  rewrite bind_ok. exists 0, s2. split; [done|]. split; [by apply (quiet_inv s)|]. destruct Hq. split; try done.
  intros Hmu. by rewrite Hw, put_mute, app_nil_r.
Qed.

(** ** Frames that arrive *)

Lemma get_in data pos : 0 <= pos < Z.of_nat (length data) -> Forall byte data -> exists c, get data pos = Ok c /\ byte c.
Proof using Type.
  intros Hp Hb. destruct (lookup_lt_is_Some_2 data (Z.to_nat pos)) as [c Hc]; [lia|]. exists c.
  rewrite <- (Z2Nat.id pos) by lia. split; [by apply get_nat|by eapply Forall_lookup_1].
Qed.

Lemma get16_in data pos : 0 <= pos -> pos + 2 <= Z.of_nat (length data) -> Forall byte data ->
  exists v, get16 data pos = Ok v /\ w16 v.
Proof using Type.
  intros Hp Hl Hb. unfold get16. destruct (get_in data pos) as (a & -> & Ha); [lia|done|]. rewrite bind_ok.
  destruct (get_in data (pos + 1)) as (b & -> & Hb'); [lia|done|]. rewrite bind_ok. eexists. split; [reflexivity|].
  rewrite Z.lor_comm, lor_bytes by done. unfold w16, byte in *. lia.
Qed.

Lemma get32_in data pos : 0 <= pos -> pos + 4 <= Z.of_nat (length data) -> Forall byte data ->
  exists v, get32 data pos = Ok v /\ w32 v.
Proof using Type.
  intros Hp Hl Hb. unfold get32. destruct (get16_in data pos) as (a & -> & Ha); [lia|lia|done|]. rewrite bind_ok.
  destruct (get16_in data (pos + 2)) as (b & -> & Hb'); [lia|lia|done|]. rewrite bind_ok. eexists. split; [reflexivity|].
  unfold w16, w32 in *. rewrite Z.lor_comm, (lor_low 16) by lia. lia.
Qed.

(** An IP frame whose length fields stay inside it: the header and the transport
    header it announces end before the packet does. *)
Definition lengths_ok (data : list Z) : bool :=
  match get data 14, get16 data 16, get data 23 with
  | Ok v, Ok total, Ok proto =>
      let hl := Z.land v 0xF * 4 in
      let n := Z.of_nat (length data) in
      if proto =? IP_PROTO_ICMP then 14 + hl + 8 <=? n
      else if proto =? IP_PROTO_TCP then
        (14 + hl + 20 <=? n) &&
        match get data (14 + hl + 12) with
        | Ok d => hl + Z.land (Z.shiftr d 4) 0xF * 4 <=? ntohs total
        | _ => false
        end
      else true
  | _, _, _ => true
  end.

Lemma nibble_range v : 0 <= Z.land v 0xF * 4 <= 60.
Proof using Type. change 0xF with (Z.ones 4). rewrite Z.land_ones by lia. lia_mod. Qed.

Lemma good_handle s src dst data off n : net_inv s -> Forall byte data -> 0 <= off -> off + 20 <= Z.of_nat (length data) ->
  (forall d, get data (off + 12) = Ok d -> 0 <= n - Z.land (Z.shiftr d 4) 0xF * 4) -> off + n <= Z.of_nat (length data) -> n < 2 ^ 16 ->
  good s (tcp_handle_segment s src dst data off n).
Proof using Type*.
  intros Hi Hb Hoff Hh Hd Hn H16. unfold tcp_handle_segment.
  destruct (get16_in data off) as (sp & -> & _); [lia|lia|done|]. rewrite bind_ok.
  destruct (get16_in data (off + 2)) as (dp & -> & _); [lia|lia|done|]. rewrite bind_ok.
  destruct (get32_in data (off + 4)) as (sq & -> & _); [lia|lia|done|]. rewrite bind_ok.
  destruct (get32_in data (off + 8)) as (ak & -> & _); [lia|lia|done|]. rewrite bind_ok.
  destruct (get_in data (off + 13)) as (fl & -> & _); [lia|done|]. rewrite bind_ok.
  destruct (tcp_find_connection _ _ _ _ _) as [i|] eqn:Ef; [|by apply good_ok].
  unfold tcp_find_connection in Ef. apply fmap_Some in Ef as ([j c] & Ef & ->). apply list_find_Some in Ef as (Hc & Hu & _).
  rewrite !andb_true_iff in Hu. destruct Hu as ((((Hu & _) & _) & _) & _).
  destruct (get_in data (off + 12)) as (d & Ed & _); [lia|done|]. rewrite Ed, bind_ok. specialize (Hd d Ed).
  pose proof (nibble_range (Z.shiftr d 4)) as Hnib. set (hl := Z.land (Z.shiftr d 4) 15 * 4) in *.
  rewrite u64_small by lia. rewrite <- (Z2Nat.id (n - hl)) by lia.
  apply (good_process s j c); try done; [by apply Forall_drop| |lia]. rewrite length_drop. lia.
Qed.

Lemma good_ip s data : net_inv s -> Forall byte data -> 34 <= Z.of_nat (length data) -> lengths_ok data = true ->
  good s (ip_handle s data ETH_HLEN (Z.of_nat (length data) - ETH_HLEN)).
Proof using Type*.
  intros Hi Hb Hl Hok. unfold ip_handle, ETH_HLEN. unfold lengths_ok in Hok.
  destruct (get_in data 14) as (v & Ev & _); [lia|done|]. rewrite Ev, bind_ok. rewrite Ev in Hok.
  destruct (negb (Z.shiftr v 4 =? 4)); [by apply good_ok|]. change (14 + 2) with 16. change (14 + 9) with 23.
  change (14 + 12) with 26. change (14 + 16) with 30.
  destruct (get16_in data 16) as (total & Et & Htot); [lia|lia|done|]. rewrite Et, bind_ok. rewrite Et in Hok.
  destruct (Z.ltb_spec (Z.of_nat (length data) - 14) (ntohs total)) as [|Hlen]; [by apply good_ok|].
  destruct (get_in data 23) as (proto & Ep & _); [lia|done|]. rewrite Ep, bind_ok. rewrite Ep in Hok.
  pose proof (nibble_range v) as Hnib. set (hl := Z.land v 15 * 4) in *.
  destruct (proto =? IP_PROTO_ICMP).
  { apply Z.leb_le in Hok. destruct (get_in data (14 + hl)) as (ty & -> & _); [lia|done|]. rewrite bind_ok.
    destruct (get16_in data (14 + hl + 6)) as (sq & E & _); [lia|lia|done|]. rewrite E.
    destruct (ty =? 0); rewrite bind_ok; by apply good_ok. }
  destruct (proto =? IP_PROTO_TCP); [|by apply good_ok].
  apply andb_true_iff in Hok as [Hh Hd]. apply Z.leb_le in Hh.
  destruct (get32_in data 26) as (src & -> & _); [lia|lia|done|]. rewrite bind_ok.
  destruct (get32_in data 30) as (dst & -> & _); [lia|lia|done|]. rewrite bind_ok.
  destruct (get_in data (14 + hl + 12)) as (d & Ed & _); [lia|done|]. rewrite Ed in Hd. apply Z.leb_le in Hd.
  pose proof (nibble_range (Z.shiftr d 4)). assert (0 <= ntohs total < 2 ^ 16) as Hn by (by apply htons_range).
  rewrite u64_small by lia. apply good_handle; try done; try lia. intros d' Ed'. rewrite Ed in Ed'. injection Ed' as <-. lia.
Qed.

(** An ARP frame. *)
Definition is_arp (p : list Z) : Prop := get16 p 12 = Ok (htons ETH_P_ARP).

Lemma arp_packet_is dest src a : length dest = 6%nat -> length src = 6%nat -> is_arp (arp_packet dest src a).
Proof using Type.
  intros Hd Hs. unfold is_arp, arp_packet, eth_bytes. cbn [eth_dest eth_src eth_type].
  do 6 (destruct dest as [|? dest]; [done|]). destruct dest; [|done].
  do 6 (destruct src as [|? src]; [done|]). destruct src; [|done]. reflexivity.
Qed.

(** What receiving a frame may put on the wire when the first interface is mute:
    a reply through the interface it came from. *)
Definition replied (s s' : net A) (i : Z) : Prop :=
  mute s -> wire s' = wire s \/ exists p, wire s' = wire s ++ [(i, p)] /\ is_arp p /\ i <> 0.

Definition rx_good (s : net A) (i : Z) (o : outcome (net A)) : Prop :=
  exists s', o = Ok s' /\ net_inv s' /\ num_interfaces s' = num_interfaces s /\
    map fixed (interfaces s') = map fixed (interfaces s) /\ replied s s' i.

Lemma good_rx s i o : good s o -> rx_good s i o.
Proof using Type. intros (s' & -> & Hi & []). exists s'. repeat (split; [done|]). intros Hm. left. auto. Qed.

Lemma wire_inv s w : net_inv s -> net_inv (with_wire s w).
Proof using Type. intros []. split; try done. intros i c Hc Hu. apply (conn_ok_bufs s); eauto. Qed.

Lemma get_bytes_in data n pos : 0 <= pos -> pos + Z.of_nat n <= Z.of_nat (length data) ->
  exists l, get_bytes n data pos = Ok l /\ length l = n.
Proof using Type.
  intros Hp Hl. rewrite <- (Z2Nat.id pos) by lia. rewrite get_bytes_ok by lia. eexists. split; [reflexivity|].
  rewrite length_take, length_drop. lia.
Qed.

Lemma arp_handle_spec s i data : net_inv s -> 0 <= i < MAX_INTERFACES -> Forall byte data -> 42 <= Z.of_nat (length data) ->
  rx_good s i (arp_handle s i data ETH_HLEN).
Proof using Type*.
  intros Hi Hr Hb Hl. unfold arp_handle, ETH_HLEN.
  destruct (get16_in data (14 + 6)) as (op & -> & _); [lia|lia|done|]. rewrite bind_ok.
  destruct (iface_lookup s i Hi Hr) as (f & Hf & Hfo & _). unfold get_iface. rewrite Hf. cbn [of_option]. rewrite bind_ok.
  destruct (get32_in data (14 + 14)) as (ip & Eip & _); [lia|lia|done|].
  destruct (get_bytes_in data 6 (14 + 8)) as (mac & Emac & Hmac); [lia|lia|].
  destruct (ntohs op =? 1); [|destruct (ntohs op =? 2); [|by apply good_rx, good_ok]].
  - destruct (get32_in data (14 + 24)) as (tg & -> & _); [lia|lia|done|]. rewrite bind_ok.
    destruct (tg =? if_ip f); [|by apply good_rx, good_ok]. rewrite Emac, bind_ok, Eip, bind_ok.
    destruct (if_send f) eqn:Ef; [|by apply good_rx, good_ok].
    eexists. split; [reflexivity|]. split; [by apply wire_inv|]. split; [done|]. split; [done|].
    intros Hm. right. eexists. split; [reflexivity|]. split; [apply arp_packet_is; [done|apply Hfo]|].
    intros ->. change (Z.to_nat 0) with 0%nat in Hf. by rewrite (Hm f Hf) in Ef.
  - rewrite Eip, bind_ok, Emac, bind_ok. eexists. split; [reflexivity|]. split; [by apply arp_add_inv|]. split; [done|]. split; [done|]. by left.
Qed.

Lemma net_rx_spec s i data : net_inv s -> 0 <= i < MAX_INTERFACES -> Forall byte data -> lengths_ok data = true ->
  rx_good s i (net_rx s i data).
Proof using Type*.
  intros Hi Hr Hb Hok. unfold net_rx. destruct (Z.ltb_spec (Z.of_nat (length data)) ETH_HLEN) as [|Hl]; [by apply good_rx, good_ok|].
  unfold ETH_HLEN in Hl. destruct (get16_in data 12) as (ty & -> & _); [lia|lia|done|]. rewrite bind_ok.
  destruct (iface_lookup s i Hi Hr) as (f & Hf & _). unfold get_iface. rewrite Hf. cbn [of_option]. rewrite bind_ok.
  change (with_interfaces s _ _) with (rx_counted s i f (Z.of_nat (length data))).
  pose proof (quiet_rx s i f (Z.of_nat (length data)) Hf) as Hq. pose proof (quiet_inv _ _ Hq Hi) as Hi1.
  set (s1 := rx_counted s i f (Z.of_nat (length data))) in *.
  assert (forall o, rx_good s1 i o -> rx_good s i o) as Hback.
  { intros o (s' & -> & ? & Hn & Hfx & Hrp). exists s'. split; [done|]. split; [done|]. destruct Hq.
    split; [congruence|]. split; [congruence|]. intros Hm. by apply Hrp, (mute_fixed s). }
  apply Hback. destruct (_ =? ETH_P_ARP).
  - destruct (Z.leb_spec SIZEOF_ARP (Z.of_nat (length data) - ETH_HLEN)) as [Ha|]; [|by apply good_rx, good_ok].
    apply arp_handle_spec; try done. unfold SIZEOF_ARP, ETH_HLEN in Ha. lia.
  - destruct (_ =? ETH_P_IP); [|by apply good_rx, good_ok].
    destruct (Z.leb_spec SIZEOF_IP (Z.of_nat (length data) - ETH_HLEN)) as [Ha|]; [|by apply good_rx, good_ok].
    apply good_rx, good_ip; try done. unfold SIZEOF_IP, ETH_HLEN in Ha. lia.
Qed.
End inv.
