(* ===== verification/NetStream.v ===== *)
(** * The TCP/IP stack: an established connection and its peer *)
From S2P Require Import Prelude AllocSpec Buffer Packet PacketSpec Net NetSpec NetInv.
#[local] Open Scope Z_scope.

(** ** Finding a connection depends on the addresses alone *)

Definition ckey (c : tcp_connection) : bool * Z * Z * Z * Z :=
  (in_use c, remote_ip c, remote_port c, local_ip c, local_port c).

Lemma list_find_map {X Y} (f : X -> Y) (P : Y -> Prop) `{!forall y, Decision (P y)} (Q : X -> Prop) `{!forall x, Decision (Q x)} l :
  (forall x, Q x <-> P (f x)) -> fst <$> list_find Q l = fst <$> list_find P (map f l).
Proof.
  intros HQ. induction l as [|x l IH]; [done|]. cbn [list_find map]. destruct (decide (Q x)) as [Hx|Hx].
  - by rewrite decide_True by by apply HQ.
  - rewrite decide_False by by rewrite <- HQ. unfold prod_map in *.
    destruct (list_find Q l) as [[]|], (list_find P (map f l)) as [[]|]; try done. cbn in *. congruence.
Qed.

Definition key_is (rip rport lip lport : Z) (k : bool * Z * Z * Z * Z) : Prop :=
  let '(u, ri, rp, li, lp) := k in u && (ri =? rip) && (rp =? rport) && (li =? lip) && (lp =? lport) = true.
#[export] Instance key_is_dec rip rport lip lport k : Decision (key_is rip rport lip lport k).
Proof. destruct k as [[[[]]]]. unfold key_is. apply _. Defined.

Lemma find_keys {A} (s s' : net A) rip rport lip lport : map ckey (tcp_connections s') = map ckey (tcp_connections s) ->
  tcp_find_connection s' rip rport lip lport = tcp_find_connection s rip rport lip lport.
Proof.
  intros E. unfold tcp_find_connection.
  rewrite (list_find_map ckey (key_is rip rport lip lport)), E by done. symmetry. by apply list_find_map.
Qed.

Lemma ckey_insert l i c c' : l !! i = Some c -> ckey c' = ckey c -> map ckey (<[i:=c']> l) = map ckey l.
Proof.
  intros Hl Hf. change (ckey <$> <[i:=c']> l = ckey <$> l). rewrite list_fmap_insert, Hf.
  apply list_insert_id. by rewrite list_lookup_fmap, Hl.
Qed.

(** ** Segments and hosts *)

(** The addresses of [d] are those of [c], seen from the other end. *)
Definition peers (c d : tcp_connection) : Prop :=
  local_ip d = remote_ip c /\ local_port d = remote_port c /\ remote_ip d = local_ip c /\ remote_port d = local_port c.

(** A frame that a connection with the addresses of [c] sent, with any sequence number. *)
Definition segment (c : tcp_connection) (flags : Z) (data : list Z) (frame : list Z) : Prop :=
  exists d eh ih th, ckey d = ckey c /\ conn_range d /\ Forall byte data /\ Z.of_nat (length data) <= MAX_SEGMENT /\
    frame_parts d flags data frame eh ih th.

Section host.
Context {A : Type} `{AllocatorLaws A}.
Implicit Types (s : net A).

(** An established connection that the stack finds for segments of its peer. *)
Record host (s : net A) (i : nat) (c : tcp_connection) : Prop := {
  h_inv : net_inv s;
  h_conn : tcp_connections s !! i = Some c;
  h_use : in_use c = true;
  h_est : c_state c = TCP_ESTABLISHED;
  h_find : tcp_find_connection s (remote_ip c) (remote_port c) (local_ip c) (local_port c) = Some i
}.

(** The bytes received and not yet read. *)
Definition content (s : net A) (c : tcp_connection) : list Z :=
  match bufs s !! recv_buf c with Some b => take (Z.to_nat (recv_len c)) b | None => [] end.

(** The connection changed, but not its addresses, its state and what is not in [c']. *)
Record advanced (s s' : net A) (c c' : tcp_connection) : Prop := {
  adv_key : ckey c' = ckey c;
  adv_fixed : map fixed (interfaces s') = map fixed (interfaces s)
}.

Lemma advanced_trans s1 s2 s3 c1 c2 c3 : advanced s1 s2 c1 c2 -> advanced s2 s3 c2 c3 -> advanced s1 s3 c1 c3.
Proof using Type. intros [] []. split; congruence. Qed.

Lemma host_set s s' i c c' : host s i c -> net_inv s' -> tcp_connections s' = <[i := c']> (tcp_connections s) ->
  ckey c' = ckey c -> c_state c' = TCP_ESTABLISHED -> host s' i c'.
Proof using Type.
  intros [] Hi Hc Hk Hst. pose proof Hk as Hk'. unfold ckey in Hk. injection Hk as Hu K1 K2 K3 K4. split; try done.
  - rewrite Hc. by apply (lookup_insert_conn s i c).
  - congruence.
  - rewrite K1, K2, K3, K4, (find_keys s); [done|]. rewrite Hc. by apply (ckey_insert _ _ c).
Qed.

Lemma ckey_segment c d flags data frame : ckey d = ckey c -> segment c flags data frame -> segment d flags data frame.
Proof using Type. intros E (e & eh & ih & th & E' & Hr). exists e, eh, ih, th. split; [congruence|done]. Qed.

(** What sending puts on the wire is a segment of the connection. *)
Lemma sent_segment s s' c flags data ret : net_inv s -> tcp_sent s s' c flags data ret -> conn_range c -> byte flags ->
  Forall byte data -> Z.of_nat (length data) <= MAX_SEGMENT ->
  (ret = -1 /\ wire s' = wire s) \/
  (ret = 0 /\ exists f, interfaces s !! 0%nat = Some f /\
    if if_send f then exists frame, wire s' = wire s ++ [(0, frame)] /\ segment c flags data frame else wire s' = wire s).
Proof using Type.
  intros Hi [_ [?|(Hr & f & frame & Hf & Efr & Hw)]] Hc Hfl Hd Hl; [by left|]. right. split; [done|]. exists f. split; [done|].
  unfold put_on_wire in Hw. rewrite Hf in Hw. destruct (if_send f); [|by rewrite app_nil_r in Hw].
  exists frame. split; [done|]. destruct (iface_lookup s 0 Hi) as (f' & Hf' & [Hm _]); [unfold MAX_INTERFACES; lia|].
  change (Z.to_nat 0) with 0%nat in Hf'. rewrite Hf in Hf'. injection Hf' as <-.
  destruct (tcp_frame_ok (if_mac f) c flags data Hc Hm Hfl Hd Hl) as (fr & eh & ih & th & Efr' & Hp).
  rewrite Efr in Efr'. injection Efr' as <-. by exists c, eh, ih, th.
Qed.

Lemma host_ok s i c : host s i c -> conn_ok s c.
Proof using Type. intros []. by apply (ni_conn s h_inv0 i). Qed.

(** ** Sending, receiving a segment, reading *)

(** A connection of the first interface that has a driver. *)
Definition driven (s : net A) : Prop := exists f, interfaces s !! 0%nat = Some f /\ if_send f = true.

Lemma driven_fixed s s' : map fixed (interfaces s') = map fixed (interfaces s) -> driven s -> driven s'.
Proof using Type.
  intros Hm (f & Hf & Hs). change (fixed <$> interfaces s' = fixed <$> interfaces s) in Hm.
  apply (f_equal (.!! 0%nat)) in Hm. rewrite !list_lookup_fmap, Hf in Hm.
  destruct (interfaces s' !! 0%nat) as [g|] eqn:Eg; [|done]. cbn in Hm. injection Hm as _ _ E. exists g. split; [done|congruence].
Qed.

Lemma psh_ack_byte : byte (Z.lor TCP_PSH TCP_ACK).
Proof using Type. done. Qed.
Lemma ack_byte : byte TCP_ACK.
Proof using Type. done. Qed.

Lemma host_send s i c data : host s i c -> driven s -> Forall byte data -> Z.of_nat (length data) <= MAX_SEGMENT ->
  if send_len c + Z.of_nat (length data) <=? 65536 then
    exists ret s' c', tcp_send s i data = Ok (ret, s') /\ host s' i c' /\ advanced s s' c c' /\
      send_len c' = send_len c + Z.of_nat (length data) /\
      ((ret = -1 /\ wire s' = wire s) \/
       (ret = Z.of_nat (length data) /\ exists frame, wire s' = wire s ++ [(0, frame)] /\ segment c (Z.lor TCP_PSH TCP_ACK) data frame))
  else tcp_send s i data = Ok (-1, s).
Proof using Type*.
  intros Hh (f & Hf & Hs) Hd Hl. pose proof (host_ok _ _ _ Hh) as Hok. destruct (co_send _ _ Hok) as [b Hb]. pose proof Hh as [].
  pose proof (tcp_send_spec s i c b data h_inv0 h_conn0 h_use0 h_est0 Hb Hd) as Hsend. unfold MAX_SEGMENT in Hl.
  specialize (Hsend ltac:(lia)). destruct (Z.leb_spec (send_len c + Z.of_nat (length data)) 65536) as [Hroom|_]; [|done].
  destruct Hsend as (ret & s1 & Hsent & Hi1 & Hm1 & E). rewrite E.
  pose proof (queued_inv s i c b data h_inv0 h_conn0 h_use0 Hb Hd Hroom) as Hqi.
  pose proof Hsent as [Hq _].
  assert (host s1 i (with_send_len (send_len c + Z.of_nat (length data)) c)) as Hh1.
  { apply (host_set s s1 i c); try done. by rewrite (q_conns _ _ Hq). }
  apply (sent_segment _ _) in Hsent; [|done|by destruct (co_range _ _ Hok)|apply psh_ack_byte|done|done].
  cbn [interfaces queued with_conns with_bufs wire] in Hsent. rewrite Hf in Hsent.
  destruct Hsent as [[-> Hw]|(-> & f' & [= <-] & Hw)]; cbn [Z.eqb].
  - exists (-1), s1, (with_send_len (send_len c + Z.of_nat (length data)) c). split; [reflexivity|]. split; [exact Hh1|]. split; [split; [done|by destruct Hm1]|]. split; [done|]. by left.
  - rewrite Hs in Hw. eexists _, _, (with_seq (u32 (c_seq c + Z.of_nat (length data))) (with_send_len (send_len c + Z.of_nat (length data)) c)).
    split; [reflexivity|]. split; [|split; [split; [done|by destruct Hm1]|]].
    + refine (host_set s1 _ i _ (with_seq (u32 (c_seq c + Z.of_nat (length data))) (with_send_len (send_len c + Z.of_nat (length data)) c)) Hh1 _ _ _ _);
        try done. apply (inv_seq s1 i (with_send_len (send_len c + Z.of_nat (length data)) c)); [done|apply Hh1|done|apply u32_range].
    + split; [done|]. right. split; [done|]. exact Hw.
Qed.

Lemma take_splice (b : list Z) n bs : (n + length bs <= length b)%nat ->
  take (n + length bs) (splice b n bs) = take n b ++ bs.
Proof using Type.
  intros Hl. unfold splice. rewrite (app_assoc (take n b)). rewrite take_app_le by (rewrite length_app, length_take; lia).
  apply take_ge. rewrite length_app, length_take. lia.
Qed.

Lemma host_rx s j i c f n : host s i c -> interfaces s !! Z.to_nat j = Some f -> host (rx_counted s j f n) i c.
Proof using Type.
  intros [] Hf. split; try done. by apply (quiet_inv s), h_inv0; apply quiet_rx.
Qed.

Lemma host_segment s i j c d flags data frame : host s i c -> segment d flags data frame -> peers c d ->
  0 <= j < MAX_INTERFACES -> has flags TCP_FIN = false -> recv_len c + Z.of_nat (length data) <= 65536 ->
  exists s' c', net_rx s j frame = Ok s' /\ host s' i c' /\ advanced s s' c c' /\ send_len c' = send_len c /\
    content s' c' = content s c ++ data /\ recv_len c' = recv_len c + Z.of_nat (length data) /\
    (wire s' = wire s \/ (data <> [] /\ exists ack, wire s' = wire s ++ [(0, ack)] /\ segment c TCP_ACK [] ack)).
Proof using Type*.
  intros Hh (e & eh & ih & th & Hk & Hr & Hd & Hl & Hp) (P1 & P2 & P3 & P4) Hj Hfin Hroom.
  unfold ckey in Hk. injection Hk as _ K1 K2 K3 K4.
  destruct (iface_lookup s j (h_inv _ _ _ Hh) Hj) as (f & Hf & _).
  rewrite (net_rx_tcp s j f e flags data frame eh ih th Hp Hr Hf Hl). cbv zeta.
  rewrite K1, K2, K3, K4, P1, P2, P3, P4, (h_find _ _ _ Hh). set (n := Z.of_nat (length frame)).
  pose proof (host_rx s j i c f n Hh Hf) as Hh1. pose proof (host_ok _ _ _ Hh1) as Hok.
  assert (map fixed (interfaces (rx_counted s j f n)) = map fixed (interfaces s)) as Hfx.
  { by apply (q_ifaces _ _ (quiet_rx s j f n Hf)). }
  destruct (co_recv _ _ Hok) as [b Hb]. pose proof Hh1 as [].
  assert (content s c = take (Z.to_nat (recv_len c)) b) as Hcont.
  { unfold content. destruct Hb as [Hb _]. cbn in Hb. by rewrite Hb. }
  destruct data as [|x data].
  - exists (rx_counted s j f n), c. split.
    { unfold tcp_process. by rewrite (get_conn_ok _ i c), bind_ok, h_est0, Hfin by done. }
    split; [done|]. split; [by split|]. split; [done|]. split; [by rewrite app_nil_r|]. split; [cbn; lia|]. by left.
  - set (bs := x :: data) in *.
    destruct (process_data (rx_counted s j f n) i c b (c_seq e) flags bs (length bs)) as (ret & s' & E & Hs & Hi'); try done.
    { unfold bs. cbn [length]. lia. }
    rewrite firstn_all in Hs, Hi'. rewrite E. exists s'. exists (with_ack (u32 (c_seq e + Z.of_nat (length bs))) (with_recv_len (recv_len c + Z.of_nat (length bs)) c)). split; [reflexivity|]. pose proof Hs as [Hq _].
    apply (sent_segment _ _) in Hs; [|done| |apply ack_byte|done|cbn; unfold MAX_SEGMENT; lia].
    2: { destruct (co_range _ _ Hok). split; try done. apply u32_range. }
    split; [|split; [split; [done|]|]].
    + apply (host_set (rx_counted s j f n) s' i c); [done|by apply (quiet_inv _ _ Hq)|by rewrite (q_conns _ _ Hq)|done|done].
    + rewrite (q_ifaces _ _ Hq). cbn. exact Hfx.
    + split; [done|]. split; [|split; [done|]].
      * rewrite Hcont. unfold content. cbn [recv_buf recv_len with_ack with_recv_len]. rewrite (q_bufs _ _ Hq). cbn.
        rewrite lookup_insert_eq. destruct Hb as (_ & Hlb & _). pose proof (co_rlen _ _ Hok).
        rewrite <- (take_splice b (Z.to_nat (recv_len c)) bs) by lia. f_equal. unfold bs. cbn [length]. lia.
      * destruct Hs as [[_ ->]|(_ & g & Hg & Hw)]; [by left|]. destruct (if_send g); [|by left]. right. by split.
Qed.

Lemma host_recv s i c len : host s i c -> 0 <= len ->
  exists out s' c', tcp_recv s i len = Ok (Z.of_nat (length out), out, s') /\ host s' i c' /\ advanced s s' c c' /\
    content s c = out ++ content s' c' /\ Z.of_nat (length out) = Z.min len (recv_len c) /\ wire s' = wire s.
Proof using Type*.
  intros Hh Hlen. pose proof (host_ok _ _ _ Hh) as Hok. destruct (co_recv _ _ Hok) as [b Hb]. pose proof Hh as [].
  destruct (tcp_recv_spec s i c b len h_inv0 h_conn0 h_use0 Hb Hlen) as [E Hi]. set (n := Z.to_nat (Z.min len (recv_len c))) in *.
  pose proof Hb as (Hbp & Hlb & _). pose proof (co_rlen _ _ Hok).
  assert (length (take n b) = n) as Hn by (rewrite length_take; lia).
  assert (content s c = take (Z.to_nat (recv_len c)) b) as Hcont by (unfold content; by rewrite Hbp).
  exists (take n b). rewrite Hn, E. case_decide as Hz.
  - exists s, c. split; [done|]. split; [done|]. split; [by split|]. split; [|split; [lia|done]].
    rewrite Hcont. subst n. rewrite Hz, Z.min_r by lia. done.
  - eexists _, (with_recv_len (recv_len c - Z.of_nat n) c). split; [reflexivity|]. split; [|split; [by split|split; [|split; [lia|done]]]].
    + by refine (host_set s (taken s i c b n) i c (with_recv_len (recv_len c - Z.of_nat n) c) Hh Hi _ _ _).
    + rewrite Hcont. unfold content, taken. cbn. rewrite lookup_insert_eq. set (m := (Z.to_nat (recv_len c) - n)%nat).
      assert (length (take m (drop n b)) = m) as Hm by (rewrite length_take, length_drop; lia).
      replace (Z.to_nat (recv_len c - Z.of_nat n)) with (0 + length (take m (drop n b)))%nat by lia.
      rewrite take_splice by (rewrite Hm; lia). cbn [take app].
      rewrite <- (take_drop n (take (Z.to_nat (recv_len c)) b)) at 1. rewrite take_take, skipn_firstn_comm. f_equal. f_equal. lia.
Qed.
End host.
