(* ===== verification/NetTheorems.v ===== *)
(** * The TCP/IP stack: properties *)
From S2P Require Import Prelude AllocSpec Kmalloc KmallocSpec Buffer Packet PacketSpec Net NetSpec NetInv NetStream.
#[local] Open Scope Z_scope.

(** ** The calls and events of the stack *)

Inductive net_op :=
| Connect (dest port : Z)
| Send (i : nat) (data : list Z)
| Recv (i : nat) (len : Z)
| Close (conn : option nat)
| Receive (i : Z) (data : list Z)
| ArpRequest (target : Z)
| Echo (dest id seq : Z)
| Udp (dest sport dport : Z) (data : list Z).

Section machine.
Context {A : Type} `{AllocatorLaws A}.
Context (uninit : Z -> Z -> list Z).
Context (uninit_ok : forall p n, 0 <= n -> Z.of_nat (length (uninit p n)) = n /\ Forall byte (uninit p n)).
Implicit Types (s : net A).

Definition run_op (s : net A) (o : net_op) : outcome (net A) :=
  match o with
  | Connect d p => r ← tcp_connect uninit s d p; Ok (snd r)
  | Send i data => r ← tcp_send s i data; Ok (snd r)
  | Recv i len => r ← tcp_recv s i len; Ok (snd r)
  | Close c => r ← tcp_close s c; Ok (snd r)
  | Receive i data => net_rx s i data
  | ArpRequest t => r ← arp_send_request s t; Ok (snd r)
  | Echo d id seq => r ← icmp_send_echo uninit s d id seq; Ok (snd r)
  | Udp d sp dp data => r ← udp_send uninit s d sp dp data; Ok (snd r)
  end.

(** What the stack needs from its callers: handles of open connections, room for
    the buffers of a new one (the code does not test for it), and from the
    network: frames whose length fields stay inside the frame. *)
Definition open_conn (s : net A) (i : nat) : Prop :=
  exists c, tcp_connections s !! i = Some c /\ in_use c = true.

Definition op_ok (s : net A) (o : net_op) : Prop :=
  match o with
  | Connect d p => w32 d /\ w16 p /\ buffers_available s
  | Send i data => open_conn s i /\ Forall byte data /\ Z.of_nat (length data) < 2 ^ 31
  | Recv i len => open_conn s i /\ 0 <= len
  | Close None => True
  | Close (Some i) => exists c, tcp_connections s !! i = Some c
  | Receive i data => 0 <= i < MAX_INTERFACES /\ Forall byte data /\ lengths_ok data = true
  | ArpRequest _ | Echo _ _ _ => True
  | Udp _ _ _ data => Z.of_nat (length data) < 2 ^ 32
  end.

Inductive net_step : net A -> net A -> Prop :=
| net_step_op s o s' : op_ok s o -> run_op s o = Ok s' -> net_step s s'.

(** What a step may put on the wire while the first interface is mute. *)
Definition arp_only (s s' : net A) : Prop :=
  mute s -> wire s' = wire s \/ exists i p, wire s' = wire s ++ [(i, p)] /\ is_arp p /\ i <> 0.

Definition kept (s s' : net A) : Prop :=
  net_inv s' /\ map fixed (interfaces s') = map fixed (interfaces s) /\ arp_only s s'.

Lemma mild_kept s s' : net_inv s' -> mild s s' -> kept s s'.
Proof using Type. intros Hi []. split; [done|]. split; [done|]. intros Hm. left. auto. Qed.

Lemma run_mild s (o : outcome (Z * net A)) : (exists ret s', o = Ok (ret, s') /\ net_inv s' /\ mild s s') ->
  exists s', (r ← o; Ok (snd r)) = Ok s' /\ kept s s'.
Proof using Type. intros (ret & s' & -> & Hi & Hm). exists s'. split; [done|]. by apply mild_kept. Qed.

Lemma send_good s i c data : net_inv s -> tcp_connections s !! i = Some c -> in_use c = true -> Forall byte data ->
  Z.of_nat (length data) < 2 ^ 31 -> exists ret s', tcp_send s i data = Ok (ret, s') /\ net_inv s' /\ mild s s'.
Proof using Type*.
  intros Hi Hc Hu Hd Hl. destruct (decide (c_state c = TCP_ESTABLISHED)) as [Hst|Hst].
  - pose proof (ni_conn _ Hi i c Hc Hu) as Hok. destruct (co_send _ _ Hok) as [b Hb].
    pose proof (tcp_send_spec s i c b data Hi Hc Hu Hst Hb Hd Hl) as Hs.
    destruct (send_len c + Z.of_nat (length data) <=? 65536) eqn:Hroom.
    2: { exists (-1), s. split; [done|]. split; [done|apply mild_refl]. }
    destruct Hs as (ret & s1 & Hsent & Hi1 & Hm1 & E). rewrite E. destruct (ret =? 0); [|by exists (-1), s1].
    do 2 eexists. split; [reflexivity|]. split; [|by destruct Hm1].
    pose proof Hsent as [Hq _].
    assert (tcp_connections s1 !! i = Some (with_send_len (send_len c + Z.of_nat (length data)) c)) as Hc1.
    { rewrite (q_conns _ _ Hq). by apply (lookup_insert_conn s i c). }
    apply (inv_seq s1 i (with_send_len (send_len c + Z.of_nat (length data)) c)); try done. apply u32_range.
  - exists (-1), s. unfold tcp_send. rewrite (get_conn_ok s i c), bind_ok, bool_decide_eq_false_2 by done.
    split; [done|]. split; [done|apply mild_refl].
Qed.

(** Every operation that its caller may call returns, and keeps the invariant. *)
Lemma run_op_spec s o : net_inv s -> op_ok s o -> exists s', run_op s o = Ok s' /\ kept s s'.
Proof using Type* uninit_ok.
  intros Hi Hok. destruct o as [d p|i data|i len|[i|]|i data|t|d id sq|d sp dp data]; cbn [run_op op_ok] in *.
  - destruct Hok as (? & ? & ?). by apply run_mild, tcp_connect_spec.
  - destruct Hok as ((c & ? & ?) & ? & ?). by apply run_mild, (send_good s i c).
  - destruct Hok as ((c & Hc & Hu) & Hlen). pose proof (ni_conn _ Hi i c Hc Hu) as Hcok. destruct (co_recv _ _ Hcok) as [b Hb].
    destruct (tcp_recv_spec s i c b len Hi Hc Hu Hb Hlen) as [E Hit]. rewrite E, bind_ok. eexists. split; [reflexivity|].
    cbn [snd]. case_decide; apply mild_kept; try done; by split.
  - destruct Hok as [c Hc]. by apply run_mild, (good_close s i c).
  - apply run_mild. exists (-1), s. split; [done|]. split; [done|apply mild_refl].
  - destruct Hok as (? & ? & ?). destruct (net_rx_spec s i data) as (s' & E & Hi' & _ & Hf & Hr); try done.
    exists s'. split; [done|]. split; [done|]. split; [done|]. intros Hm. destruct (Hr Hm) as [|(p & ? & ? & ?)]; [by left|].
    right. by exists i, p.
  - by apply run_mild, arp_request_spec.
  - by apply run_mild, icmp_spec.
  - by apply run_mild, udp_spec.
Qed.

(** ** Boot *)

Definition lo_iface : net_interface :=
  NetInterface (lo_name ++ replicate 13 0) (replicate 6 0) 0x7F000001 0xFF000000 0 true 0 0 0 0 false.
Definition eth0_iface (mac : list Z) : net_interface :=
  NetInterface (eth0_name ++ replicate 12 0) mac 0x0A00020F 0xFFFFFF00 0x0A000202 true 0 0 0 0 true.
Definition booted (h : A) (mac : list Z) : net A :=
  Net (replicate ARP_CACHE_SIZE (ArpEntry 0 (replicate 6 0) 0 false)) [lo_iface; eth0_iface mac; zero_iface; zero_iface] 2
    (replicate MAX_TCP_CONNECTIONS zero_conn) 49152 0x12345678 h ∅ [].

Lemma booted_eq h mac : net_boot h mac = Ok (booted h mac).
Proof using Type. reflexivity. Qed.

Lemma boot_inv (h : A) mac : a_inv h -> mac_ok mac -> net_inv (booted h mac).
Proof using Type.
  intros Hh Hmac.
  assert (forall i c, replicate MAX_TCP_CONNECTIONS zero_conn !! i = Some c -> c = zero_conn) as Hz.
  { intros i c Hc. by apply lookup_replicate in Hc as [-> _]. }
  split; cbn [heap arp_cache interfaces num_interfaces next_ephemeral_port tcp_connections bufs booted].
  - done.
  - apply length_replicate.
  - assert (mac_ok (replicate 6 0)) as Hmac0 by (split; [done|repeat constructor; unfold byte; lia]).
    split; [done|]. repeat constructor; try done; try (apply Hmac0); apply Hmac.
  - unfold MAX_INTERFACES. lia.
  - unfold w16. lia.
  - apply Forall_replicate. split; cbn; unfold w32, w16; lia.
  - by intros i c ->%Hz.
  - by intros i j c d p ->%Hz.
  - done.
Qed.

Lemma boot_mute (h : A) mac : mute (booted h mac).
Proof using Type. by intros f [= <-]. Qed.

(** The frames that leave a machine whose first interface is mute. *)
Definition only_replies (s : net A) : Prop := Forall (fun p => fst p <> 0 /\ is_arp (snd p)) (wire s).

Lemma reach_kept s0 s : net_inv s0 -> star net_step s0 s ->
  net_inv s /\ (mute s0 -> only_replies s0 -> mute s /\ only_replies s).
Proof using Type* uninit_ok.
  intros Hi0 Hst. induction Hst as [|s1 s2 s3 Hst IH Hs]; [done|]. destruct (IH Hi0) as [Hi Hw].
  destruct Hs as [s2 o s3 Hok E]. destruct (run_op_spec s2 o Hi Hok) as (s' & E' & Hi' & Hf' & Ha).
  rewrite E in E'. injection E' as <-. split; [done|]. intros Hm0 Hr0. destruct (Hw Hm0 Hr0) as [Hm Hr].
  split; [by apply (mute_fixed s2)|]. unfold only_replies.
  destruct (Ha Hm) as [->|(i & p & -> & Hp & Hne)]; [done|]. apply Forall_app. split; [done|]. by repeat constructor.
Qed.
End machine.

(** ** A stream between two machines

    Machine [wa] sends on its connection [i], machine [wb] takes the frames of
    the wire in order, through its interface [ib], when its connection [j] has
    room for them, and reads; acknowledgements reach [wa] through [ia] at any
    time or not at all. [next] is the frame of [wa]'s wire to be delivered next;
    [sent] are the bytes of the calls of tcp_send that succeeded, [got] what
    tcp_recv has returned. *)
Section stream.
Context {A : Type} `{AllocatorLaws A}.
Context (i j : nat) (ia ib : Z) (acks : nat).

Record stream := Stream { wa : net A; wb : net A; next : nat; sent : list Z; got : list Z }.

Inductive stream_step : stream -> stream -> Prop :=
| stream_send w data ret s :
    Forall byte data -> Z.of_nat (length data) <= MAX_SEGMENT -> tcp_send (wa w) i data = Ok (ret, s) ->
    stream_step w (Stream s (wb w) (next w) (if ret <? 0 then sent w else sent w ++ data) (got w))
| stream_deliver w frame c s :
    wire (wa w) !! next w = Some (0, frame) -> tcp_connections (wb w) !! j = Some c ->
    recv_len c + (Z.of_nat (length frame) - 54) <= 65536 -> net_rx (wb w) ib frame = Ok s ->
    stream_step w (Stream (wa w) s (S (next w)) (sent w) (got w))
| stream_recv w len ret out s :
    0 <= len -> tcp_recv (wb w) j len = Ok (ret, out, s) ->
    stream_step w (Stream (wa w) s (next w) (sent w) (got w ++ out))
| stream_ack w k frame s :
    (acks <= k)%nat -> wire (wb w) !! k = Some (0, frame) -> net_rx (wa w) ia frame = Ok s ->
    stream_step w (Stream s (wb w) (next w) (sent w) (got w)).

(** Both ends are established and know each other, and the sender has a driver. *)
Definition linked (w : stream) (ca cb : tcp_connection) : Prop :=
  host (wa w) i ca /\ host (wb w) j cb /\ peers ca cb /\ driven (wa w).

Definition fresh (w : stream) : Prop :=
  exists ca cb, linked w ca cb /\ recv_len cb = 0 /\ 0 <= send_len ca /\
    next w = length (wire (wa w)) /\ acks = length (wire (wb w)) /\ sent w = [] /\ got w = [].

Definition carries (c : tcp_connection) (flags : Z) (p : Z * list Z) (data : list Z) : Prop :=
  exists frame, p = (0, frame) /\ segment c flags data frame.

Definition stream_inv (w : stream) : Prop :=
  exists ca cb payloads, linked w ca cb /\
    Forall2 (carries ca (Z.lor TCP_PSH TCP_ACK)) (drop (next w) (wire (wa w))) payloads /\
    Forall (fun p => carries cb TCP_ACK p []) (drop acks (wire (wb w))) /\
    (next w <= length (wire (wa w)))%nat /\ (acks <= length (wire (wb w)))%nat /\
    sent w = got w ++ content (wb w) cb ++ concat payloads /\ Z.of_nat (length (sent w)) <= send_len ca.

Lemma segment_frame_length c flags data frame : segment c flags data frame -> length frame = (54 + length data)%nat.
Proof using Type. intros (d & eh & ih & th & _ & _ & _ & _ & Hp). by apply (frame_stored _ _ _ _ _ _ _ Hp). Qed.

Lemma carries_key c d flags p data : ckey d = ckey c -> carries c flags p data -> carries d flags p data.
Proof using Type. intros E (fr & -> & Hs). exists fr. split; [done|]. by apply (ckey_segment c). Qed.

Lemma peers_key c d c' d' : ckey c' = ckey c -> ckey d' = ckey d -> peers c d -> peers c' d'.
Proof using Type. unfold ckey, peers. intros [= _ ? ? ? ?] [= _ ? ? ? ?] ?. intuition congruence. Qed.

Lemma peers_sym c d : peers c d -> peers d c.
Proof using Type. unfold peers. intuition congruence. Qed.

Lemma drop_snoc {X} n (l : list X) x : (n <= length l)%nat -> drop n (l ++ [x]) = drop n l ++ [x].
Proof using Type. intros Hl. rewrite drop_app_le by done. done. Qed.

Lemma stream_inv_send w data ret s : stream_inv w -> Forall byte data -> Z.of_nat (length data) <= MAX_SEGMENT ->
  tcp_send (wa w) i data = Ok (ret, s) ->
  stream_inv (Stream s (wb w) (next w) (if ret <? 0 then sent w else sent w ++ data) (got w)).
Proof using Type*.
  intros (ca & cb & pl & (Ha & Hb & Hp & Hdr) & Hf & Hk & Hn & Hka & Hs & Hlen) Hd Hl E.
  pose proof (host_send (wa w) i ca data Ha Hdr Hd Hl) as Hsend.
  destruct (Z.leb_spec (send_len ca + Z.of_nat (length data)) 65536).
  2: { rewrite E in Hsend. injection Hsend as -> ->. by exists ca, cb, pl. }
  destruct Hsend as (ret' & s' & c' & E' & Hh' & [Hkey Hfx] & Hsl & Hw). rewrite E in E'. injection E' as <- <-.
  assert (linked (Stream s (wb w) (next w) (if ret <? 0 then sent w else sent w ++ data) (got w)) c' cb) as Hlink.
  { split; [done|]. split; [done|]. split; [by apply (peers_key ca cb)|]. by apply (driven_fixed (wa w)). }
  assert (Forall2 (carries c' (Z.lor TCP_PSH TCP_ACK)) (drop (next w) (wire (wa w))) pl) as Hf'.
  { eapply Forall2_impl; [exact Hf|]. intros ? ?. by apply carries_key. }
  destruct Hw as [[-> Hw]|(-> & frame & Hw & Hseg)].
  - exists c', cb, pl. split; [exact Hlink|]. cbn [wa wb next sent got Z.ltb Z.compare]. rewrite Hw. repeat (split; [done|]). lia.
  - exists c', cb, (pl ++ [data]). split; [exact Hlink|]. cbn [wa wb next sent got]. rewrite (proj2 (Z.ltb_ge _ _)) by lia.
    rewrite Hw, length_app, drop_snoc by done. split; [|split; [done|split; [lia|split; [done|split]]]].
    + apply Forall2_app; [done|]. repeat constructor. exists frame. split; [done|]. by apply (ckey_segment ca).
    + rewrite concat_app, Hs. cbn. by rewrite app_nil_r, <- !app_assoc.
    + rewrite length_app. lia.
Qed.

Lemma stream_inv_deliver w frame c s : 0 <= ib < MAX_INTERFACES -> stream_inv w ->
  wire (wa w) !! next w = Some (0, frame) -> tcp_connections (wb w) !! j = Some c ->
  recv_len c + (Z.of_nat (length frame) - 54) <= 65536 -> net_rx (wb w) ib frame = Ok s ->
  stream_inv (Stream (wa w) s (S (next w)) (sent w) (got w)).
Proof using Type*.
  intros Hib (ca & cb & pl & (Ha & Hb & Hp & Hdr) & Hf & Hk & Hn & Hka & Hs & Hlen) Hw Hc Hroom E.
  rewrite (h_conn _ _ _ Hb) in Hc. injection Hc as <-. rewrite (drop_S _ _ _ Hw) in Hf.
  apply Forall2_cons_inv_l in Hf as (data & pl' & (fr & Hfr & Hseg) & Hf & ->). injection Hfr as <-.
  rewrite (segment_frame_length _ _ _ _ Hseg) in Hroom.
  destruct (host_segment (wb w) j ib cb ca _ data frame Hb Hseg) as (s' & c' & E' & Hh' & [Hkey Hfx] & _ & Hcont & _ & Hack);
    [by apply peers_sym|done|done|lia|].
  rewrite E in E'. injection E' as <-.
  exists ca, c', pl'. split; [|cbn [wa wb next sent got]; split; [done|]].
  { split; [done|]. split; [done|]. split; [by apply (peers_key ca cb)|done]. }
  assert (Forall (fun p => carries c' TCP_ACK p []) (drop acks (wire (wb w)))) as Hk'.
  { eapply Forall_impl; [exact Hk|]. intros ?. by apply carries_key. }
  apply lookup_lt_Some in Hw. split; [|split; [lia|split; [|split; [|done]]]].
  - destruct Hack as [->|(_ & ack & -> & Hsa)]; [done|]. rewrite drop_snoc by done. apply Forall_app. split; [done|].
    repeat constructor. exists ack. split; [done|]. by apply (ckey_segment cb).
  - destruct Hack as [->|(_ & ack & -> & _)]; [done|]. rewrite length_app. lia.
  - rewrite Hcont, Hs. cbn [concat]. by rewrite <- !app_assoc.
Qed.

Lemma stream_inv_recv w len ret out s : stream_inv w -> 0 <= len -> tcp_recv (wb w) j len = Ok (ret, out, s) ->
  stream_inv (Stream (wa w) s (next w) (sent w) (got w ++ out)).
Proof using Type*.
  intros (ca & cb & pl & (Ha & Hb & Hp & Hdr) & Hf & Hk & Hn & Hka & Hs & Hlen) Hl E.
  destruct (host_recv (wb w) j cb len Hb Hl) as (out' & s' & c' & E' & Hh' & [Hkey Hfx] & Hcont & _ & Hw).
  rewrite E in E'. injection E' as _ <- <-. exists ca, c', pl. split; [|cbn [wa wb next sent got]; rewrite Hw].
  { split; [done|]. split; [done|]. split; [by apply (peers_key ca cb)|done]. }
  split; [done|]. split; [|split; [done|split; [done|split; [|done]]]].
  - eapply Forall_impl; [exact Hk|]. intros ?. by apply carries_key.
  - rewrite Hs, Hcont. by rewrite <- !app_assoc.
Qed.

Lemma stream_inv_ack w k frame s : 0 <= ia < MAX_INTERFACES -> stream_inv w -> (acks <= k)%nat ->
  wire (wb w) !! k = Some (0, frame) -> net_rx (wa w) ia frame = Ok s ->
  stream_inv (Stream s (wb w) (next w) (sent w) (got w)).
Proof using Type*.
  intros Hia (ca & cb & pl & (Ha & Hb & Hp & Hdr) & Hf & Hk & Hn & Hka & Hs & Hlen) Hle Hw E.
  assert (drop acks (wire (wb w)) !! (k - acks)%nat = Some (0, frame)) as Hin.
  { rewrite lookup_drop, <- Hw. f_equal. lia. }
  destruct (Forall_lookup_1 _ _ _ _ Hk Hin) as (fr & Hfr & Hseg). injection Hfr as <-.
  pose proof (co_rlen _ _ (host_ok _ _ _ Ha)).
  destruct (host_segment (wa w) i ia ca cb TCP_ACK [] frame Ha Hseg Hp Hia) as
    (s' & c' & E' & Hh' & [Hkey Hfx] & Hsl & _ & _ & Hack); [done|cbn; lia|].
  rewrite E in E'. injection E' as <-. destruct Hack as [Hw'|[? _]]; [|done].
  exists c', cb, pl. split; [|cbn [wa wb next sent got]; rewrite Hw', Hsl].
  { split; [done|]. split; [done|]. split; [by apply (peers_key ca cb)|]. by apply (driven_fixed (wa w)). }
  split; [|done]. eapply Forall2_impl; [exact Hf|]. intros ? ?. by apply carries_key.
Qed.

Lemma stream_reach w0 w : 0 <= ia < MAX_INTERFACES -> 0 <= ib < MAX_INTERFACES -> fresh w0 -> star stream_step w0 w -> stream_inv w.
Proof using Type*.
  intros Hia Hib Hfr Hst. apply (star_inv stream_step stream_inv) in Hst; [done| |].
  - intros w1 w2 Hi Hs. destruct Hs.
    + by apply stream_inv_send.
    + by eapply stream_inv_deliver.
    + by eapply stream_inv_recv.
    + by eapply stream_inv_ack.
  - destruct Hfr as (ca & cb & Hl & Hr & Hsl & Hn & Hk & Hs & Hg). exists ca, cb, []. split; [done|].
    rewrite Hn, Hk, !drop_all, Hs, Hg. split; [done|]. split; [done|]. split; [done|]. split; [done|]. split; [|done].
    unfold content. rewrite Hr. destruct (_ !! _); done.
Qed.
End stream.

(** A header length that reaches behind the segment. *)
Definition long_header (d : tcp_connection) (flags : Z) : list Z :=
  eth_bytes (EthHdr (replicate 6 255) (replicate 6 0) (htons ETH_P_IP)) ++ ip_bytes (tcp_ip_header d 20 0) ++
  tcp_bytes (TcpHdr (htons (local_port d)) (htons (remote_port d)) (htonl (c_seq d)) (htonl (c_ack d)) 0xF0 flags 0 0 0).

Lemma long_header_layout d flags : conn_range d -> byte flags -> exists eh ih th,
  frame_layout d flags [] (long_header d flags) eh ih th /\ data_offset th = 0xF0.
Proof.
  intros [] Hf. unfold long_header. do 3 eexists. split; [|shelve]. split; [by rewrite app_nil_r| | | | | | | | | | | | |];
    cbn; try reflexivity; try done.
  - split; cbn; try done; by apply htons_range, land_w16.
  - split; cbn; try done; try (by apply htons_range); by apply htonl_range.
  Unshelve. done.
Qed.

(** ** Properties *)

Section claims.
Context {A : Type} `{AllocatorLaws A}.
Context (uninit : Z -> Z -> list Z).
Context (uninit_ok : forall p n, 0 <= n -> Z.of_nat (length (uninit p n)) = n /\ Forall byte (uninit p n)).

(** C26. The bytes of a stream arrive once, in order and unchanged: as long as the
    receiver's window has room and no frame is lost or repeated, what tcp_recv
    returned is a prefix of what tcp_send accepted; when every frame has been
    delivered, one more tcp_recv returns exactly the rest.  The send buffer is
    never emptied: a connection accepts 65536 bytes in all. *)
Theorem tcp_stream (i j : nat) (ia ib : Z) (acks : nat) (w0 w : stream)
    (Hia : 0 <= ia < MAX_INTERFACES) (Hib : 0 <= ib < MAX_INTERFACES) (Hf : fresh i j acks w0)
    (Hs : star (stream_step i j ia ib acks) w0 w) :
  (exists rest, sent w = got w ++ rest) /\
  Z.of_nat (length (sent w)) <= 65536 /\
  (next w = length (wire (wa w)) -> exists out s, tcp_recv (wb w) j 65536 = Ok (Z.of_nat (length out), out, s) /\
     sent w = got w ++ out).
Proof using Type*.
  destruct (stream_reach i j ia ib acks w0 w Hia Hib Hf Hs) as (ca & cb & pl & (Ha & Hb & _) & Hpl & _ & _ & _ & E & Hl).
  pose proof (co_slen _ _ (host_ok _ _ _ Ha)). split; [by eexists|]. split; [lia|]. intros Hn.
  rewrite Hn, drop_all in Hpl. apply Forall2_nil_inv_l in Hpl as ->. cbn [concat] in E. rewrite app_nil_r in E.
  destruct (host_recv (wb w) j cb 65536 Hb) as (out & s & c' & Er & Hh & _ & Hcont & Hlen & _); [lia|].
  exists out, s. split; [done|]. rewrite E, Hcont. pose proof (co_rlen _ _ (host_ok _ _ _ Hb)). pose proof (co_rlen _ _ (host_ok _ _ _ Hh)).
  destruct (co_recv _ _ (host_ok _ _ _ Hb)) as (b & Hb1 & Hb2 & _).
  assert (length (content (wb w) cb) = length out) as Hlc.
  { unfold content. rewrite Hb1, length_take. lia. }
  rewrite Hcont, length_app in Hlc. destruct (content s c'); [by rewrite app_nil_r|cbn in Hlc; lia].
Qed.

(** Sequence numbers are not checked: a segment of the peer is appended to
    the received data whatever its number, so a frame that arrives twice is
    received twice. *)
Theorem tcp_duplicate_received (s : net A) (i : nat) (c d : tcp_connection) (j : Z) (flags : Z) (data frame : list Z)
    (Hh : host s i c) (Hs : segment d flags data frame) (Hp : peers c d) (Hj : 0 <= j < MAX_INTERFACES)
    (Hf : has flags TCP_FIN = false) (Hl : recv_len c + 2 * Z.of_nat (length data) <= 65536) :
  exists s' s'' c'', net_rx s j frame = Ok s' /\ net_rx s' j frame = Ok s'' /\ host s'' i c'' /\
    content s'' c'' = content s c ++ data ++ data.
Proof using Type*.
  destruct (host_segment s i j c d flags data frame Hh Hs Hp Hj Hf) as (s1 & c1 & E1 & Hh1 & [Hk1 _] & _ & Hc1 & Hl1 & _); [lia|].
  destruct (host_segment s1 i j c1 d flags data frame Hh1 Hs) as (s2 & c2 & E2 & Hh2 & _ & _ & Hc2 & _); [|done|done|lia|].
  - by apply (peers_key c d).
  - exists s1, s2, c2. rewrite Hc2, Hc1, <- app_assoc. done.
Qed.

(** C27. A segment round trip: the frame that [tcp_frame] builds carries IP and TCP
    checksums that verify, and net_rx hands its addressee the sequence number, the
    flags and exactly the data. *)
Theorem tcp_frame_roundtrip (mac : list Z) (c : tcp_connection) (flags : Z) (data : list Z)
    (Hc : conn_range c) (Hm : mac_ok mac) (Hf : byte flags) (Hd : Forall byte data) (Hl : Z.of_nat (length data) <= MAX_SEGMENT) :
  exists frame eh ih th, tcp_frame mac c flags data = Ok frame /\
    frame = eth_bytes eh ++ ip_bytes ih ++ tcp_bytes th ++ data /\
    checksum (ip_bytes ih) = Ok 0 /\
    tcp_checksum (local_ip c) (remote_ip c) (tcp_bytes th ++ data) (20 + Z.of_nat (length data)) = Ok 0 /\
    forall (s : net A) k f, interfaces s !! Z.to_nat k = Some f ->
      net_rx s k frame =
        let s' := rx_counted s k f (Z.of_nat (length frame)) in
        match tcp_find_connection s (local_ip c) (local_port c) (remote_ip c) (remote_port c) with
        | None => Ok s'
        | Some j => tcp_process s' j (c_seq c) flags data (Z.of_nat (length data))
        end.
Proof using Type*.
  destruct (tcp_frame_ok mac c flags data Hc Hm Hf Hd Hl) as (frame & eh & ih & th & E & Hp).
  exists frame, eh, ih, th. split; [done|]. pose proof Hp as [Hlay _ Hi Ht]. rewrite (fp_src _ _ _ _ _ _ _ Hlay), (fp_dst _ _ _ _ _ _ _ Hlay) in Ht.
  split; [apply Hlay|]. split; [done|]. split; [done|]. intros s k f Hk. by apply (net_rx_tcp s k f c flags data frame eh ih th).
Qed.

(** C28. From boot on, every call of the stack with an open connection, memory for
    the buffers of a new one, and every frame whose length fields stay inside it,
    returns without a fault and keeps the invariant. *)
Theorem net_never_faults (h : A) (mac : list Z) (s0 s : net A) (o : net_op)
    (Hh : a_inv h) (Hm : mac_ok mac) (Hb : net_boot h mac = Ok s0) (Hs : star (net_step uninit) s0 s) (Ho : op_ok s o) :
  exists s', run_op uninit s o = Ok s' /\ net_inv s'.
Proof using Type* uninit_ok.
  rewrite booted_eq in Hb. injection Hb as <-. destruct (reach_kept uninit uninit_ok _ s (boot_inv h mac Hh Hm) Hs) as [Hi _].
  destruct (run_op_spec uninit uninit_ok s o Hi Ho) as (s' & E & Hi' & _). by exists s'.
Qed.

(** After boot nothing is ever sent through the first interface, which is the
    loopback without a driver: whatever is called and whatever arrives, the only
    frames handed to a driver are replies to ARP requests, through another
    interface. *)
Theorem boot_never_transmits (h : A) (mac : list Z) (s0 s : net A)
    (Hh : a_inv h) (Hm : mac_ok mac) (Hb : net_boot h mac = Ok s0) (Hs : star (net_step uninit) s0 s) :
  Forall (fun p => fst p <> 0 /\ is_arp (snd p)) (wire s).
Proof using Type* uninit_ok.
  rewrite booted_eq in Hb. injection Hb as <-.
  destruct (reach_kept uninit uninit_ok _ s (boot_inv h mac Hh Hm) Hs) as [_ Hr].
  apply Hr; [apply boot_mute|apply Forall_nil_2].
Qed.

(** The length of a segment's data is computed without a test that the header
    fits: a frame whose data offset is 15 gives 20 - 60 bytes, which passes the
    test of the receive buffer once it holds 40 bytes, and the copy runs over the
    end of the frame and of the buffer. *)
Theorem tcp_header_overrun (s : net A) (i : nat) (c d : tcp_connection) (j : Z) (flags : Z)
    (Hh : host s i c) (Hp : peers c d) (Hd : conn_range d) (Hj : 0 <= j < MAX_INTERFACES)
    (Hb : byte flags) (Hf : has flags TCP_FIN = false) (Hl : 40 <= recv_len c) :
  net_rx s j (long_header d flags) = Fault.
Proof using Type*.
  destruct (long_header_layout d flags Hd Hb) as (eh & ih & th & Hlay & Ho).
  destruct (iface_lookup s j (h_inv _ _ _ Hh) Hj) as (f & Ef & _).
  rewrite (net_rx_layout s j f d flags [] _ eh ih th Hlay Hd Ef ltac:(done)). cbv zeta. destruct Hp as (-> & -> & -> & ->).
  rewrite (h_find _ _ _ Hh), Ho. pose proof (host_ok _ _ _ Hh) as Hok.
  destruct (co_recv _ _ Hok) as (b & Hbuf & _). pose proof (co_rlen _ _ Hok).
  change (u64 (20 + Z.of_nat (length []) - Z.land (Z.shiftr 240 4) 15 * 4)) with (2 ^ 64 - 40).
  unfold tcp_process. rewrite (get_conn_ok _ i c), bind_ok, (h_est _ _ _ Hh), Hf by apply Hh.
  change (0 <? 2 ^ 64 - 40) with true. cbn [recv_len].
  assert (u64 (recv_len c + (2 ^ 64 - 40)) = recv_len c - 40) as E.
  { replace (recv_len c + (2 ^ 64 - 40)) with (recv_len c - 40 + 1 * 2 ^ 64) by lia. unfold u64. rewrite Z.mod_add by lia.
    apply Z.mod_small. lia. }
  rewrite E, (co_rcap _ _ Hok), (proj2 (Z.leb_le _ _)) by lia. cbn [bufs rx_counted with_interfaces]. rewrite Hbuf. cbn [of_option]. rewrite bind_ok.
  rewrite drop_ge; [done|]. rewrite (proj1 (proj2 (proj2 (proj2 (frame_stored _ _ _ _ _ _ _ Hlay))))). change (Z.land (Z.shiftr 240 4) 15 * 4) with 60. cbn [length]. lia.
Qed.
End claims.

(** ** Two machines on which the properties run

    Each has booted with 1 GB, got a driver for its first interface and called
    tcp_connect; a SYN with an acknowledgement establishes the connection.  Both
    have the loopback address and the first ephemeral port, so they are peers. *)
Definition blank (p n : Z) : list Z := replicate (Z.to_nat n) 0.
Lemma blank_ok p n : 0 <= n -> Z.of_nat (length (blank p n)) = n /\ Forall byte (blank p n).
Proof. intros Hn. unfold blank. rewrite length_replicate. split; [lia|]. apply Forall_replicate. unfold byte. lia. Qed.

Definition card (m : Z) : list Z := [0x52; 0x54; 0; 0; 0; m].
Lemma card_ok m : byte m -> mac_ok (card m).
Proof. intros Hm. split; [done|]. repeat (constructor; [done|]). constructor. Qed.

#[local] Abbreviation machine := (net Kmalloc.heap).
Definition result {X} (o : outcome X) (d : X) : X := match o with Ok x => x | _ => d end.
Definition plugged : machine := result (attach_driver (booted (boot_heap (2 ^ 30)) (card 1)) 0) (net_static (boot_heap (2 ^ 30))).

Definition buffers_ok (s : machine) : bool :=
  match a_kmalloc (heap s) 65536 GFP_KERNEL with
  | Ok (p, h) => negb (p =? 0) && match a_kmalloc h 65536 GFP_KERNEL with Ok (q, _) => negb (q =? 0) | _ => false end
  | _ => false
  end.
Lemma buffers_ok_available s : buffers_ok s = true -> buffers_available s.
Proof.
  unfold buffers_ok, buffers_available. destruct (a_kmalloc (heap s) 65536 GFP_KERNEL) as [[p h]| |]; [|done..].
  intros [Hp Hq]%andb_prop. destruct (a_kmalloc h 65536 GFP_KERNEL) as [[q h']| |] eqn:E; [|done..]. exists p, h, q, h'.
  split; [done|]. split; [by destruct (Z.eqb_spec p 0)|]. split; [done|]. by destruct (Z.eqb_spec q 0).
Qed.

Lemma boot_heap_ok : a_inv (boot_heap (2 ^ 30)).
Proof. apply (boot_heap_inv (2 ^ 30)). Qed.

Lemma plugged_inv : net_inv plugged.
Proof.
  destruct (boot_inv (boot_heap (2 ^ 30)) (card 1) boot_heap_ok (card_ok 1 ltac:(done))). split; try done.
  - split; [done|]. destruct ni_ifaces as [_ Hf]. inversion_clear Hf as [|? ? Hlo Hr]. constructor; [exact Hlo|exact Hr].
  - intros i c Hc Hu. apply (conn_ok_bufs (booted (boot_heap (2 ^ 30)) (card 1))); eauto.
Qed.

(** The other end as a segment sees it. *)
Definition peer : tcp_connection := Conn 0x7F000001 49152 0x7F000001 49152 TCP_ESTABLISHED 7 0 0 0 0 0 0 0 0 0 true.
Definition peer_frame (flags : Z) (data : list Z) : list Z := result (tcp_frame (card 2) peer flags data) [].
Definition syn_ack : list Z := peer_frame (Z.lor TCP_SYN TCP_ACK) [].

Definition connected : machine := result (run_op blank plugged (Connect 0x7F000001 49152)) plugged.
Definition established : machine := result (run_op blank connected (Receive 1 syn_ack)) connected.
Definition conn_of (s : machine) : tcp_connection := default zero_conn (tcp_connections s !! 0%nat).

Lemma run_result s o : net_inv s -> op_ok s o -> net_inv (result (run_op blank s o) s).
Proof. intros Hi Ho. by destruct (run_op_spec blank blank_ok s o Hi Ho) as (s' & -> & ? & _). Qed.

Lemma connected_inv : net_inv connected.
Proof.
  apply (run_result plugged); [apply plugged_inv|]. split; [done|]. split; [done|]. apply buffers_ok_available.
  vm_compute. reflexivity.
Qed.

Lemma byte_list l : forallb (fun b => (0 <=? b) && (b <? 256)) l = true -> Forall byte l.
Proof.
  induction l as [|b l IH]; [by constructor|]. cbn. intros [Hb Hl]%andb_prop. constructor; [unfold byte; lia|auto].
Qed.

Lemma established_inv : net_inv established.
Proof.
  apply (run_result connected); [apply connected_inv|]. split; [done|].
  split; [apply byte_list; vm_compute; reflexivity|vm_compute; reflexivity].
Qed.

Lemma state_host (s : machine) : net_inv s -> length (tcp_connections s) = MAX_TCP_CONNECTIONS ->
  in_use (conn_of s) = true -> c_state (conn_of s) = TCP_ESTABLISHED ->
  tcp_find_connection s (remote_ip (conn_of s)) (remote_port (conn_of s)) (local_ip (conn_of s)) (local_port (conn_of s)) = Some 0%nat ->
  host s 0 (conn_of s).
Proof.
  intros Hi Hl Hu Hst Hf. split; try done. unfold conn_of.
  destruct (lookup_lt_is_Some_2 (tcp_connections s) 0) as [c ->]; [rewrite Hl; unfold MAX_TCP_CONNECTIONS; lia|done].
Qed.

Lemma established_host : host established 0 (conn_of established).
Proof. apply state_host; [apply established_inv|vm_compute; reflexivity..]. Qed.

Lemma peer_range : conn_range peer.
Proof. split; vm_compute; split; discriminate || reflexivity. Qed.

Lemma peer_segment flags data : byte flags -> Forall byte data -> Z.of_nat (length data) <= MAX_SEGMENT ->
  segment peer flags data (peer_frame flags data).
Proof.
  intros Hf Hd Hl. unfold peer_frame.
  destruct (tcp_frame_ok (card 2) peer flags data peer_range (card_ok 2 ltac:(done)) Hf Hd Hl) as (fr & eh & ih & th & -> & Hp).
  cbn [result]. exists peer, eh, ih, th. split; [done|]. split; [apply peer_range|]. done.
Qed.

Lemma result_ok {X} (o : outcome X) d : match o with Ok _ => true | _ => false end = true -> o = Ok (result o d).
Proof. by destruct o. Qed.

Definition hello : list Z := [104; 101; 108; 108; 111].

Definition sent_hello : Z * machine := result (tcp_send established 0 hello) (0, established).
Lemma sent_hello_ok : tcp_send established 0 hello = Ok (5, snd sent_hello).
Proof.
  assert (tcp_send established 0 hello = Ok sent_hello) as E by (apply result_ok; vm_compute; reflexivity).
  assert (fst sent_hello = 5) as F by (vm_compute; reflexivity). rewrite E, <- F. by destruct sent_hello.
Qed.

Definition hello_frame : list Z := snd (default (0, []) (wire (snd sent_hello) !! 2%nat)).
Definition told : machine := result (net_rx established 1 hello_frame) established.

Definition stream0 : stream := Stream established established 2 [] [].
Definition stream1 : stream := Stream (snd sent_hello) established 2 hello [].
Definition stream2 : stream := Stream (snd sent_hello) told 3 hello [].

Lemma stream0_fresh : fresh 0 0 2 stream0.
Proof.
  exists (conn_of established), (conn_of established). split; [|vm_compute; repeat split; discriminate].
  split; [apply established_host|]. split; [apply established_host|]. split; [vm_compute; auto|].
  eexists. split; vm_compute; reflexivity.
Qed.

Lemma stream_run : star (stream_step 0 0 1 1 2) stream0 stream2.
Proof.
  apply star_step with stream1; [apply star_step with stream0; [apply star_refl|]|].
  - apply (stream_send 0 0 1 1 2 stream0 hello 5 (snd sent_hello)); [by apply byte_list|done|apply sent_hello_ok].
  - apply (stream_deliver 0 0 1 1 2 stream1 hello_frame (conn_of established) told); [vm_compute; reflexivity| | |].
    + apply (h_conn _ _ _ established_host).
    + vm_compute. discriminate.
    + apply result_ok. vm_compute. reflexivity.
Qed.

Lemma tcp_stream_witness : exists s, tcp_recv told 0 65536 = Ok (5, hello, s).
Proof.
  destruct (tcp_stream 0 0 1 1 2 stream0 stream2 ltac:(done) ltac:(done) stream0_fresh stream_run) as (_ & _ & Hr).
  destruct (Hr ltac:(vm_compute; reflexivity)) as (out & s & E & Eo). cbn [sent got stream2 app] in Eo. subst out.
  exists s. exact E.
Defined.

Lemma tcp_duplicate_received_witness : exists s s' c, net_rx established 1 (peer_frame TCP_ACK hello) = Ok s /\
  net_rx s 1 (peer_frame TCP_ACK hello) = Ok s' /\ content s' c = hello ++ hello.
Proof.
  destruct (tcp_duplicate_received established 0 (conn_of established) peer 1 TCP_ACK hello (peer_frame TCP_ACK hello)
    established_host (peer_segment TCP_ACK hello ltac:(done) ltac:(by apply byte_list) ltac:(done)) ltac:(vm_compute; auto)
    ltac:(done) eq_refl ltac:(vm_compute; discriminate)) as (s & s' & c & E & E' & _ & Hc).
  exists s, s', c. split; [exact E|]. split; [exact E'|]. rewrite Hc. vm_compute. reflexivity.
Defined.

Lemma tcp_frame_roundtrip_witness : exists frame, tcp_frame (card 2) peer TCP_ACK hello = Ok frame /\
  net_rx plugged 1 frame = Ok (rx_counted plugged 1 (eth0_iface (card 1)) (Z.of_nat (length frame))).
Proof.
  destruct (tcp_frame_roundtrip (A := Kmalloc.heap) (card 2) peer TCP_ACK hello peer_range (card_ok 2 ltac:(done)) ltac:(done)
    ltac:(by apply byte_list) ltac:(done)) as (frame & eh & ih & th & E & _ & _ & _ & Hrx).
  exists frame. split; [exact E|]. rewrite (Hrx plugged 1 (eth0_iface (card 1))) by reflexivity.
  replace (tcp_find_connection plugged _ _ _ _) with (@None nat) by (vm_compute; reflexivity). reflexivity.
Defined.

Lemma net_never_faults_witness : exists s, run_op blank (booted (boot_heap (2 ^ 30)) (card 1)) (Receive 1 syn_ack) = Ok s.
Proof.
  destruct (net_never_faults blank blank_ok (boot_heap (2 ^ 30)) (card 1) _ _ (Receive 1 syn_ack) boot_heap_ok
    (card_ok 1 ltac:(done)) (booted_eq _ _) (star_refl _ _)) as (s & E & _).
  - split; [done|]. split; [apply byte_list; vm_compute; reflexivity|vm_compute; reflexivity].
  - exists s. exact E.
Defined.

(** A request for the address of the machine's card is answered. *)
Definition who_has : list Z :=
  arp_packet (replicate 6 255) (card 3) (ArpHdr (htons 1) (htons ETH_P_IP) 6 4 (htons 1) (card 3) 0x0A000002 (replicate 6 0) 0x0A00020F).
Definition answered : machine := result (run_op blank (booted (boot_heap (2 ^ 30)) (card 1)) (Receive 1 who_has)) plugged.

Lemma boot_never_transmits_witness : length (wire answered) = 1%nat /\ Forall (fun p => fst p <> 0 /\ is_arp (snd p)) (wire answered).
Proof.
  split; [vm_compute; reflexivity|].
  apply (boot_never_transmits blank blank_ok (boot_heap (2 ^ 30)) (card 1) _ answered boot_heap_ok (card_ok 1 ltac:(done))
    (booted_eq _ _)). apply star_step with (booted (boot_heap (2 ^ 30)) (card 1)); [apply star_refl|].
  apply (net_step_op blank _ (Receive 1 who_has)); [|apply result_ok; vm_compute; reflexivity].
  split; [done|]. split; [apply byte_list; vm_compute; reflexivity|vm_compute; reflexivity].
Defined.

(** 45 bytes of data, and then the frame with the long header. *)
Definition much : list Z := replicate 45 7.
Definition loaded : machine := result (run_op blank established (Receive 1 (peer_frame TCP_ACK much))) established.

Lemma tcp_header_overrun_witness : net_rx loaded 1 (long_header peer TCP_ACK) = Fault.
Proof.
  apply (tcp_header_overrun loaded 0 (conn_of loaded) peer 1 TCP_ACK); [|vm_compute; auto|apply peer_range|done|done|done|vm_compute; discriminate].
  apply state_host; [|vm_compute; reflexivity..]. apply run_result; [apply established_inv|].
  split; [done|]. split; [apply byte_list; vm_compute; reflexivity|vm_compute; reflexivity].
Defined.
