(* ===== verification/Elf.v ===== *)
(** * The ELF loader (src/kernel/loader/elf.c, include/loader/elf.h): operations

    The file image, the program being loaded and everything else lie in one
    byte memory; the fields of the ELF structures are loads at their offsets,
    as the code does them, each time it does them.  A signed multiplication that
    overflows and a division by zero are [Fault]s. *)
From S2P Require Import Prelude Memory.
#[local] Open Scope Z_scope.

Definition PT_LOAD : Z := 1.
Definition PT_DYNAMIC : Z := 2.
Definition DT_NULL : Z := 0.
Definition DT_RELA : Z := 7.
Definition DT_RELASZ : Z := 8.
Definition DT_RELAENT : Z := 9.
Definition R_AARCH64_RELATIVE : Z := 0x403.
Definition ELFCLASS64 : Z := 2.
Definition ELFDATA2LSB : Z := 1.
Definition EM_AARCH64 : Z := 183.
Definition ET_EXEC : Z := 2.
Definition ET_DYN : Z := 3.

(** sizeof(Elf64_Ehdr), sizeof(Elf64_Rela). *)
Definition EHDR_SIZE : Z := 64.
Definition RELA_SIZE : Z := 24.

Definition e_ident (m : mem) (e i : Z) : outcome Z := load8 m (u64 (e + i)).
Definition e_type (m : mem) (e : Z) : outcome Z := load16 m (u64 (e + 16)).
Definition e_machine (m : mem) (e : Z) : outcome Z := load16 m (u64 (e + 18)).
Definition e_entry (m : mem) (e : Z) : outcome Z := load64 m (u64 (e + 24)).
Definition e_phoff (m : mem) (e : Z) : outcome Z := load64 m (u64 (e + 32)).
Definition e_phentsize (m : mem) (e : Z) : outcome Z := load16 m (u64 (e + 54)).
Definition e_phnum (m : mem) (e : Z) : outcome Z := load16 m (u64 (e + 56)).

Definition p_type (m : mem) (p : Z) : outcome Z := load32 m p.
Definition p_offset (m : mem) (p : Z) : outcome Z := load64 m (u64 (p + 8)).
Definition p_vaddr (m : mem) (p : Z) : outcome Z := load64 m (u64 (p + 16)).
Definition p_filesz (m : mem) (p : Z) : outcome Z := load64 m (u64 (p + 32)).
Definition p_memsz (m : mem) (p : Z) : outcome Z := load64 m (u64 (p + 40)).

(** Multiplication of two [int]s. *)
Definition int_mul (a b : Z) : outcome Z :=
  if (- 2 ^ 31 <=? a * b) && (a * b <? 2 ^ 31) then Ok (a * b) else Fault.

(** [while (n--) *d++ = *s++] and [while (n--) *p++ = c]. *)
Fixpoint elf_memcpy (n : nat) (m : mem) (d s : Z) : outcome mem :=
  match n with
  | O => Ok m
  | S n => b ← load8 m s; m ← store8 m d b; elf_memcpy n m (u64 (d + 1)) (u64 (s + 1))
  end.

Fixpoint elf_memset (n : nat) (m : mem) (p c : Z) : outcome mem :=
  match n with
  | O => Ok m
  | S n => m ← store8 m p (u8 c); elf_memset n m (u64 (p + 1)) c
  end.

Definition elf_validate (m : mem) (data size : Z) : outcome Z :=
  if size <? EHDR_SIZE then Ok (-1)
  else
    m0 ← e_ident m data 0;
    bad ← (if negb (m0 =? 0x7F) then Ok true
           else m1 ← e_ident m data 1;
                if negb (m1 =? 69) then Ok true
                else m2 ← e_ident m data 2;
                     if negb (m2 =? 76) then Ok true
                     else m3 ← e_ident m data 3; Ok (negb (m3 =? 70)));
    if bad : bool then Ok (-2)
    else
      class ← e_ident m data 4;
      if negb (class =? ELFCLASS64) then Ok (-3)
      else
        enc ← e_ident m data 5;
        if negb (enc =? ELFDATA2LSB) then Ok (-4)
        else
          mach ← e_machine m data;
          if negb (mach =? EM_AARCH64) then Ok (-5)
          else
            t ← e_type m data;
            if negb (t =? ET_EXEC) && negb (t =? ET_DYN) then Ok (-6) else Ok 0.

Definition elf_entry (m : mem) (data : Z) : outcome Z := e_entry m data.

(** The address of program header [i]. *)
Definition phdr_addr (m : mem) (data i : Z) : outcome Z :=
  off ← e_phoff m data;
  ent ← e_phentsize m data;
  d ← int_mul i ent;
  Ok (u64 (data + off + d)).

(** The loop of [elf_calc_size] from header [i] on. *)
Fixpoint calc_loop (fuel : nat) (m : mem) (data i min_addr max_addr : Z) : outcome (Z * Z) :=
  match fuel with
  | O => NoFuel
  | S fuel =>
      n ← e_phnum m data;
      if i <? n then
        p ← phdr_addr m data i;
        t ← p_type m p;
        if negb (t =? PT_LOAD) then calc_loop fuel m data (i + 1) min_addr max_addr
        else
          v ← p_vaddr m p;
          let min_addr := if v <? min_addr then v else min_addr in
          sz ← p_memsz m p;
          let e := u64 (v + sz) in
          calc_loop fuel m data (i + 1) min_addr (if max_addr <? e then e else max_addr)
      else Ok (min_addr, max_addr)
  end.

(** More iterations than a 16-bit count of headers allows. *)
Definition PHDR_FUEL : nat := Z.to_nat (2 ^ 16).

Definition elf_calc_size (m : mem) (data size : Z) : outcome Z :=
  valid ← elf_validate m data size;
  if negb (valid =? 0) then Ok 0
  else
    r ← calc_loop PHDR_FUEL m data 0 (2 ^ 64 - 1) 0;
    let '(min_addr, max_addr) := r in
    if max_addr <=? min_addr then Ok 0 else Ok (max_addr - min_addr).

(** ** Relocations *)

(** The loop over the dynamic section: the table, its size and its entry size. *)
Fixpoint dynamic_loop (fuel : nat) (m : mem) (dyn rela_addr rela_size rela_ent : Z) : outcome (Z * Z * Z) :=
  match fuel with
  | O => NoFuel
  | S fuel =>
      tag ← load64 m dyn;
      if tag =? DT_NULL then Ok (rela_addr, rela_size, rela_ent)
      else
        v ← load64 m (u64 (dyn + 8));
        let next := u64 (dyn + 16) in
        if tag =? DT_RELA then dynamic_loop fuel m next v rela_size rela_ent
        else if tag =? DT_RELASZ then dynamic_loop fuel m next rela_addr v rela_ent
        else if tag =? DT_RELAENT then dynamic_loop fuel m next rela_addr rela_size v
        else dynamic_loop fuel m next rela_addr rela_size rela_ent
  end.

(** The loop over the table: [n] entries from [rela] on. *)
Fixpoint rela_loop (n : nat) (m : mem) (load_base rela : Z) : outcome mem :=
  match n with
  | O => Ok m
  | S n =>
      offset ← load64 m rela;
      info ← load64 m (u64 (rela + 8));
      addend ← load64 m (u64 (rela + 16));
      let next := u64 (rela + RELA_SIZE) in
      if Z.land info 0xFFFFFFFF =? R_AARCH64_RELATIVE then
        m ← store64 m (u64 (load_base + offset)) (u64 (load_base + i64 addend));
        rela_loop n m load_base next
      else rela_loop n m load_base next
  end.

Definition elf_process_relocations (fuel : nat) (m : mem) (load_base dynamic : Z) : outcome mem :=
  r ← dynamic_loop fuel m dynamic 0 0 RELA_SIZE;
  let '(rela_addr, rela_size, rela_ent) := r in
  if (rela_addr =? 0) || (rela_size =? 0) then Ok m
  else if rela_ent =? 0 then Fault
  else
    let num_relas := i32 (rela_size / rela_ent) in
    rela_loop (Z.to_nat num_relas) m load_base (u64 (load_base + rela_addr)).

(** ** Loading *)

(** [elf_load_info_t]. *)
Record elf_load_info := LoadInfo { li_entry : Z; li_load_base : Z; li_load_size : Z }.

(** One [PT_LOAD] header at [p]: [None] when the file does not hold its data;
    otherwise the memory and the end of the segment. *)
Definition load_segment (m : mem) (data size load_base : Z) (is_pie : bool) (p : Z) : outcome (option (mem * Z)) :=
  off ← p_offset m p;
  filesz ← p_filesz m p;
  if (size <? off) || (size - off <? filesz) then Ok None
  else
    v ← p_vaddr m p;
    let dest := if is_pie then u64 (load_base + v) else v in
    let src := u64 (data + off) in
    m ← (if 0 <? filesz then elf_memcpy (Z.to_nat filesz) m dest src else Ok m);
    memsz ← p_memsz m p;
    filesz ← p_filesz m p;
    m ← (if filesz <? memsz then elf_memset (Z.to_nat (memsz - filesz)) m (u64 (dest + filesz)) 0 else Ok m);
    v ← p_vaddr m p;
    memsz ← p_memsz m p;
    Ok (Some (m, u64 (v + memsz))).

(** The loop of [elf_load_at] from header [i] on: [None] when it returns -1. *)
Fixpoint load_loop (fuel : nat) (m : mem) (data size load_base : Z) (is_pie : bool) (i total_size : Z) (dynamic : option Z)
    : outcome (mem * option (Z * option Z)) :=
  match fuel with
  | O => NoFuel
  | S fuel =>
      n ← e_phnum m data;
      if i <? n then
        off ← e_phoff m data;
        ent ← e_phentsize m data;
        d ← int_mul (i + 1) ent;
        if size <? u64 (off + d) then Ok (m, None)
        else
          p ← phdr_addr m data i;
          t ← p_type m p;
          if t =? PT_DYNAMIC then
            v ← p_vaddr m p;
            load_loop fuel m data size load_base is_pie (i + 1) total_size (Some (u64 (load_base + v)))
          else if negb (t =? PT_LOAD) then load_loop fuel m data size load_base is_pie (i + 1) total_size dynamic
          else
            r ← load_segment m data size load_base is_pie p;
            match r with
            | None => Ok (m, None)
            | Some (m, seg_end) =>
                load_loop fuel m data size load_base is_pie (i + 1)
                  (if total_size <? seg_end then seg_end else total_size) dynamic
            end
      else Ok (m, Some (total_size, dynamic))
  end.

(** The result, the memory and [*info]; [fuel] bounds the dynamic section. *)
Definition elf_load_at (fuel : nat) (m : mem) (data size load_base : Z) : outcome (Z * mem * option elf_load_info) :=
  valid ← elf_validate m data size;
  if negb (valid =? 0) then Ok (-1, m, None)
  else
    t ← e_type m data;
    let is_pie := t =? ET_DYN in
    r ← load_loop PHDR_FUEL m data size load_base is_pie 0 0 None;
    let '(m, r) := r in
    match r with
    | None => Ok (-1, m, None)
    | Some (total_size, dynamic) =>
        m ← (match dynamic with
             | Some d => if is_pie && negb (d =? 0) then elf_process_relocations fuel m load_base d else Ok m
             | None => Ok m
             end);
        ent ← e_entry m data;
        let entry := if is_pie then u64 (load_base + ent) else ent in
        _ ← load32 m entry;
        _ ← load32 m (u64 (entry + 4));
        _ ← load32 m (u64 (entry + 8));
        _ ← load32 m (u64 (entry + 12));
        Ok (0, m, Some (LoadInfo entry load_base total_size))
    end.
