(* ===== verification/ElfSpec.v ===== *)
(** * The ELF loader: segments, headers and relocations *)
From S2P Require Import Prelude Memory StringLib Elf.
#[local] Open Scope Z_scope.

(** ** Memory *)

(** The two memories have the same bytes in the [n] addresses from [a]. *)
Definition agree (m m' : mem) (a n : Z) : Prop := forall x, a <= x < a + n -> m' !! x = m !! x.

Lemma agree_sub m m' a n a' n' : agree m m' a n -> a <= a' -> a' + n' <= a + n -> agree m m' a' n'.
Proof. intros H ?? x ?. apply H. lia. Qed.

Lemma agree_trans m1 m2 m3 a n : agree m1 m2 a n -> agree m2 m3 a n -> agree m1 m3 a n.
Proof. intros H1 H2 x Hx. by rewrite H2, H1. Qed.

Lemma load8_agree m m' a : agree m m' a 1 -> load8 m' a = load8 m a.
Proof. intros H. unfold load8. by rewrite H by lia. Qed.

Lemma load16_agree m m' a : agree m m' a 2 -> load16 m' a = load16 m a.
Proof. intros H. unfold load16. by rewrite !(load8_agree m m') by (eapply agree_sub; [done|lia..]). Qed.

Lemma load32_agree m m' a : agree m m' a 4 -> load32 m' a = load32 m a.
Proof. intros H. unfold load32. by rewrite !(load16_agree m m') by (eapply agree_sub; [done|lia..]). Qed.

Lemma load64_agree m m' a : agree m m' a 8 -> load64 m' a = load64 m a.
Proof. intros H. unfold load64. by rewrite !(load32_agree m m') by (eapply agree_sub; [done|lia..]). Qed.

Lemma wrote_agree m m' d bs a n : wrote m m' d bs -> (a + n <= d \/ d + Z.of_nat (length bs) <= a) -> agree m m' a n.
Proof. intros H Hd x Hx. eapply wrote_frame; [done|]. lia. Qed.

Lemma wrote_mapped m m' d bs a n : wrote m m' d bs -> mapped m a n -> mapped m' a n.
Proof.
  intros H Hm x Hx. rewrite H. destruct (_ && _) eqn:E; [|by apply Hm]. b2p. apply lookup_lt_is_Some. lia.
Qed.

Lemma wrote_app m m1 m2 a xs ys : wrote m m1 a xs -> wrote m1 m2 (a + Z.of_nat (length xs)) ys -> wrote m m2 a (xs ++ ys).
Proof.
  intros H1 H2 x. rewrite H2, H1, length_app.
  destruct (Z.leb_spec (a + Z.of_nat (length xs)) x), (Z.ltb_spec x (a + Z.of_nat (length xs) + Z.of_nat (length ys))),
    (Z.leb_spec a x), (Z.ltb_spec x (a + Z.of_nat (length xs))), (Z.ltb_spec x (a + Z.of_nat (length xs + length ys)));
    simpl; try done; try lia.
  - rewrite lookup_app_r by lia. f_equal. lia.
  - by rewrite lookup_app_l by lia.
Qed.

(** What is at an address after the pieces are written one after the other. *)
Fixpoint overlay (segs : list (Z * list Z)) (f : Z -> option Z) : Z -> option Z :=
  match segs with
  | [] => f
  | (d, bs) :: segs =>
      overlay segs (fun x => if (d <=? x) && (x <? d + Z.of_nat (length bs)) then bs !! Z.to_nat (x - d) else f x)
  end.

Lemma overlay_ext segs : forall f g, (forall x, f x = g x) -> forall x, overlay segs f x = overlay segs g x.
Proof.
  induction segs as [|[d bs] segs IH]; intros f g Hfg x; simpl; [done|]. apply IH. intros y. by rewrite Hfg.
Qed.

Lemma overlay_wrote m m' d bs segs x : wrote m m' d bs ->
  overlay segs (fun y => m' !! y) x = overlay ((d, bs) :: segs) (fun y => m !! y) x.
Proof. intros H. simpl. apply overlay_ext. intros y. apply H. Qed.

(** Outside the pieces nothing changes. *)
Lemma overlay_out segs x : forall f, Forall (fun '(d, bs) => ~ (d <= x < d + Z.of_nat (length bs))) segs ->
  overlay segs f x = f x.
Proof.
  induction segs as [|[d bs] segs IH]; intros f Hf; simpl; [done|]. inversion_clear Hf. rewrite IH by done.
  destruct (Z.leb_spec d x), (Z.ltb_spec x (d + Z.of_nat (length bs))); simpl; done || lia.
Qed.

Lemma overlay_mapped segs x : forall f, is_Some (f x) -> is_Some (overlay segs f x).
Proof.
  induction segs as [|[d bs] segs IH]; intros f Hf; simpl; [done|]. apply IH. destruct (_ && _) eqn:E; [|done].
  b2p. apply lookup_lt_is_Some. lia.
Qed.

(** ** Copying and zeroing *)

Lemma elf_memcpy_up n : forall m d s, 0 <= d -> 0 <= s -> d + Z.of_nat n <= 2 ^ 64 -> s + Z.of_nat n <= 2 ^ 64 ->
  elf_memcpy n m d s = copy_up n m d s.
Proof.
  induction n as [|n IH]; intros m d s Hd Hs Hdn Hsn; cbn [elf_memcpy copy_up]; [done|].
  destruct (load8 m s); [|done..]. rewrite !bind_ok. destruct (store8 m d a) as [m'| |]; [|done..]. rewrite !bind_ok.
  destruct n as [|n]; [done|]. rewrite !u64_small by lia. apply IH; lia.
Qed.

Lemma elf_memset_fill n : forall m p c, 0 <= p -> p + Z.of_nat n <= 2 ^ 64 -> elf_memset n m p c = fill n m p c.
Proof.
  induction n as [|n IH]; intros m p c Hp Hn; cbn [elf_memset fill]; [done|].
  destruct (store8 m p (u8 c)) as [m'| |]; [|done..]. rewrite !bind_ok.
  destruct n as [|n]; [done|]. rewrite u64_small by lia. apply IH; lia.
Qed.

(** ** Program headers *)

Record phdr := Phdr { ph_type : Z; ph_offset : Z; ph_vaddr : Z; ph_filesz : Z; ph_memsz : Z }.
Definition PHDR_SIZE : Z := 56.

Record header_at (m : mem) (p : Z) (h : phdr) : Prop := {
  ha_type : p_type m p = Ok (ph_type h);
  ha_offset : p_offset m p = Ok (ph_offset h);
  ha_vaddr : p_vaddr m p = Ok (ph_vaddr h);
  ha_filesz : p_filesz m p = Ok (ph_filesz h);
  ha_memsz : p_memsz m p = Ok (ph_memsz h)
}.

Lemma header_agree m m' p h : agree m m' p PHDR_SIZE -> 0 <= p -> p + PHDR_SIZE <= 2 ^ 64 ->
  header_at m p h -> header_at m' p h.
Proof.
  unfold PHDR_SIZE. intros H Hp Hn []. unfold p_type, p_offset, p_vaddr, p_filesz, p_memsz in *.
  rewrite u64_small in * by lia. split; unfold p_type, p_offset, p_vaddr, p_filesz, p_memsz;
    rewrite ?u64_small, ?(load64_agree m m'), ?(load32_agree m m') by (lia || (eapply agree_sub; [done|lia..])); done.
Qed.

(** A program image of [size] bytes at [data] with the program headers [phs]. *)
Record program (m : mem) (data size : Z) (off ent : Z) (img : list Z) (phs : list phdr) : Prop := {
  pg_data : 0 <= data /\ data + size < 2 ^ 64 /\ EHDR_SIZE <= size;
  pg_img : bytes_at m data img /\ Z.of_nat (length img) = size;
  pg_valid : elf_validate m data size = Ok 0;
  pg_num : e_phnum m data = Ok (Z.of_nat (length phs));
  pg_off : e_phoff m data = Ok off;
  pg_ent : e_phentsize m data = Ok ent;
  pg_table : 0 <= off /\ PHDR_SIZE <= ent /\ off + Z.of_nat (length phs) * ent <= size /\ Z.of_nat (length phs) * ent < 2 ^ 31 /\
    Z.of_nat (length phs) < 2 ^ 16;
  pg_headers i h : phs !! i = Some h -> header_at m (data + off + Z.of_nat i * ent) h
}.

Lemma validate_agree m m' data size : agree m m' data EHDR_SIZE -> 0 <= data -> data + EHDR_SIZE <= 2 ^ 64 ->
  elf_validate m' data size = elf_validate m data size.
Proof.
  unfold EHDR_SIZE. intros H Hd Hn. unfold elf_validate, e_ident, e_machine, e_type. rewrite !u64_small by lia.
  by rewrite !(load8_agree m m'), !(load16_agree m m') by (eapply agree_sub; [done|lia..]).
Qed.

Lemma program_agree m m' data size off ent img phs : agree m m' data size -> program m data size off ent img phs ->
  program m' data size off ent img phs.
Proof.
  intros H [Hd [Hb Hi] Hv Hn Ho He Ht Hh]. unfold EHDR_SIZE in *. split; try done.
  - split; [|done]. intros i b Hib. rewrite H; [by apply Hb|]. apply lookup_lt_Some in Hib. lia.
  - rewrite (validate_agree m m'); [done|eapply agree_sub; [done|unfold EHDR_SIZE; lia..]|lia|unfold EHDR_SIZE; lia].
  - unfold e_phnum in *. rewrite u64_small in * by lia. rewrite (load16_agree m m'); [done|eapply agree_sub; [done|lia..]].
  - unfold e_phoff in *. rewrite u64_small in * by lia. rewrite (load64_agree m m'); [done|eapply agree_sub; [done|lia..]].
  - unfold e_phentsize in *. rewrite u64_small in * by lia. rewrite (load16_agree m m'); [done|eapply agree_sub; [done|lia..]].
  - intros i h Hih. pose proof (lookup_lt_Some _ _ _ Hih). unfold PHDR_SIZE in *.
    apply (header_agree m m'); [eapply agree_sub; [done|unfold PHDR_SIZE; nia..]|nia|unfold PHDR_SIZE; nia|by apply Hh].
Qed.

(** ** Segments *)

Section load.
Context (data size load_base : Z) (is_pie : bool) (img : list Z).

(** Where a segment goes, and what. *)
Definition ph_dest (h : phdr) : Z := if is_pie then u64 (load_base + ph_vaddr h) else ph_vaddr h.
Definition contents (h : phdr) : list Z :=
  take (Z.to_nat (ph_filesz h)) (drop (Z.to_nat (ph_offset h)) img) ++ replicate (Z.to_nat (ph_memsz h - ph_filesz h)) 0.
Definition is_load (h : phdr) : bool := ph_type h =? PT_LOAD.
Definition segments (phs : list phdr) : list (Z * list Z) := map (fun h => (ph_dest h, contents h)) (List.filter is_load phs).

(** The file holds the data of the segment. *)
Definition in_file (h : phdr) : Prop := 0 <= ph_offset h /\ 0 <= ph_filesz h /\ ph_offset h + ph_filesz h <= size.

(** The destination is mapped memory that does not overlap the file. *)
Record fits (m : mem) (h : phdr) : Prop := {
  ft_file : in_file h;
  ft_range : 0 <= ph_dest h /\ ph_dest h + Z.max (ph_filesz h) (ph_memsz h) <= 2 ^ 64;
  ft_mapped : mapped m (ph_dest h) (Z.max (ph_filesz h) (ph_memsz h));
  ft_apart : data + size <= ph_dest h \/ ph_dest h + Z.max (ph_filesz h) (ph_memsz h) <= data
}.

(** The highest end of a segment. *)
Definition load_end (phs : list phdr) (total : Z) : Z :=
  fold_left (fun t h => if is_load h then (if t <? u64 (ph_vaddr h + ph_memsz h) then u64 (ph_vaddr h + ph_memsz h) else t) else t) phs total.

(** The dynamic section of the last header that has one. *)
Definition dynamic_of (phs : list phdr) (dyn : option Z) : option Z :=
  fold_left (fun dyn h => if ph_type h =? PT_DYNAMIC then Some (u64 (load_base + ph_vaddr h)) else dyn) phs dyn.

Lemma contents_length h : in_file h -> Z.of_nat (length img) = size ->
  Z.of_nat (length (contents h)) = Z.max (ph_filesz h) (ph_memsz h).
Proof.
  intros (H1 & H2 & H3) Hi. unfold contents. rewrite length_app, length_take, length_drop, length_replicate. lia.
Qed.

Lemma bytes_at_slice m a bs i n : bytes_at m a bs -> bytes_at m (a + Z.of_nat i) (take n (drop i bs)).
Proof.
  intros H j b Hj. apply lookup_take_Some in Hj as [Hj _]. rewrite lookup_drop in Hj.
  replace (a + Z.of_nat i + Z.of_nat j) with (a + Z.of_nat (i + j)) by lia. by apply H.
Qed.

(** Copying the file part of a segment and zeroing the rest. *)
Lemma copy_segment m h : bytes_at m data img -> Z.of_nat (length img) = size -> 0 <= data -> data + size < 2 ^ 64 ->
  fits m h ->
  exists m1, (if 0 <? ph_filesz h then elf_memcpy (Z.to_nat (ph_filesz h)) m (ph_dest h) (u64 (data + ph_offset h)) else Ok m) = Ok m1 /\
    wrote m m1 (ph_dest h) (take (Z.to_nat (ph_filesz h)) (drop (Z.to_nat (ph_offset h)) img)).
Proof.
  intros Hb Hi Hd Hn [(H1 & H2 & H3) [R1 R2] Hm Ha].
  assert (length (take (Z.to_nat (ph_filesz h)) (drop (Z.to_nat (ph_offset h)) img)) = Z.to_nat (ph_filesz h)) as Hlen
    by (rewrite length_take, length_drop; lia).
  destruct (Z.ltb_spec 0 (ph_filesz h)) as [Hp|Hz].
  - rewrite u64_small, elf_memcpy_up by lia. apply copy_up_spec; [done| |eapply mapped_sub; [exact Hm|lia..]|lia].
    rewrite <- (Z2Nat.id (ph_offset h)) at 1 by lia. by apply bytes_at_slice.
  - exists m. split; [done|]. replace (ph_filesz h) with 0 by lia. rewrite take_0. apply wrote_nil.
Qed.

Lemma zero_rest m h : fits m h ->
  exists m1, (if ph_filesz h <? ph_memsz h
              then elf_memset (Z.to_nat (ph_memsz h - ph_filesz h)) m (u64 (ph_dest h + ph_filesz h)) 0 else Ok m) = Ok m1 /\
    wrote m m1 (ph_dest h + ph_filesz h) (replicate (Z.to_nat (ph_memsz h - ph_filesz h)) 0).
Proof.
  intros [(H1 & H2 & H3) [R1 R2] Hm Ha]. destruct (Z.ltb_spec (ph_filesz h) (ph_memsz h)) as [Hp|Hz].
  - rewrite u64_small, elf_memset_fill by lia. apply (fill_spec _ _ _ 0). eapply mapped_sub; [exact Hm|lia..].
  - exists m. split; [done|]. replace (Z.to_nat (ph_memsz h - ph_filesz h)) with 0%nat by lia. apply wrote_nil.
Qed.

Lemma fits_wrote m m1 d bs h : wrote m m1 d bs -> fits m h -> fits m1 h.
Proof. intros Hw []. split; try done. by eapply wrote_mapped. Qed.

Lemma load_segment_ok m p off ent phs h : program m data size off ent img phs -> header_at m p h -> data <= p ->
  p + PHDR_SIZE <= data + size -> fits m h ->
  exists m1, load_segment m data size load_base is_pie p = Ok (Some (m1, u64 (ph_vaddr h + ph_memsz h))) /\
    wrote m m1 (ph_dest h) (contents h).
Proof.
  intros P Ha Hp1 Hp2 F. destruct (pg_data _ _ _ _ _ _ _ P) as (Hd & Hn & _). destruct (pg_img _ _ _ _ _ _ _ P) as [Hb Hi].
  pose proof F as [(F1 & F2 & F3) [R1 R2] _ Hap]. unfold load_segment.
  rewrite (ha_offset _ _ _ Ha), bind_ok, (ha_filesz _ _ _ Ha), bind_ok.
  rewrite (proj2 (Z.ltb_ge size (ph_offset h))), (proj2 (Z.ltb_ge (size - ph_offset h) (ph_filesz h))) by lia. cbn [orb].
  rewrite (ha_vaddr _ _ _ Ha), bind_ok. fold (ph_dest h). cbv zeta.
  destruct (copy_segment m h Hb Hi Hd Hn F) as (m1 & -> & W1). rewrite bind_ok.
  assert (Hlen : Z.of_nat (length (take (Z.to_nat (ph_filesz h)) (drop (Z.to_nat (ph_offset h)) img))) = ph_filesz h)
    by (rewrite length_take, length_drop; lia).
  assert (agree m m1 data size) as A1 by (eapply wrote_agree; [exact W1|lia]).
  unfold PHDR_SIZE in Hp2.
  assert (header_at m1 p h) as Ha1.
  { apply (header_agree m m1); [eapply agree_sub; [exact A1|unfold PHDR_SIZE; lia..]|lia|unfold PHDR_SIZE; lia|done]. }
  rewrite (ha_memsz _ _ _ Ha1), bind_ok, (ha_filesz _ _ _ Ha1), bind_ok.
  destruct (zero_rest m1 h (fits_wrote _ _ _ _ _ W1 F)) as (m2 & -> & W2). rewrite bind_ok.
  assert (wrote m m2 (ph_dest h) (contents h)) as W.
  { apply (wrote_app m m1 m2); [done|]. by rewrite Hlen. }
  assert (agree m m2 data size) as A2.
  { eapply wrote_agree; [exact W|]. rewrite contents_length by (done || by split). lia. }
  assert (header_at m2 p h) as Ha2.
  { apply (header_agree m m2); [eapply agree_sub; [exact A2|unfold PHDR_SIZE; lia..]|lia|unfold PHDR_SIZE; lia|done]. }
  rewrite (ha_vaddr _ _ _ Ha2), bind_ok, (ha_memsz _ _ _ Ha2), bind_ok. by exists m2.
Qed.

(** A segment whose data is not in the file ends the load. *)
Lemma load_segment_outside m p h : header_at m p h -> 0 <= ph_filesz h -> size < ph_offset h + ph_filesz h ->
  load_segment m data size load_base is_pie p = Ok None.
Proof.
  intros Ha Hf Ho. unfold load_segment. rewrite (ha_offset _ _ _ Ha), bind_ok, (ha_filesz _ _ _ Ha), bind_ok.
  destruct (Z.ltb_spec size (ph_offset h)), (Z.ltb_spec (size - ph_offset h) (ph_filesz h)); simpl; done || lia.
Qed.

(** The address of a program header inside the table. *)
Lemma phdr_addr_ok m off ent phs i : program m data size off ent img phs -> (i < length phs)%nat ->
  phdr_addr m data (Z.of_nat i) = Ok (data + off + Z.of_nat i * ent) /\
  data <= data + off + Z.of_nat i * ent /\ data + off + Z.of_nat i * ent + PHDR_SIZE <= data + size.
Proof.
  intros P Hi. destruct (pg_data _ _ _ _ _ _ _ P) as (Hd & Hn & _). destruct (pg_table _ _ _ _ _ _ _ P) as (T1 & T2 & T3 & T4 & T5).
  unfold phdr_addr. rewrite (pg_off _ _ _ _ _ _ _ P), bind_ok, (pg_ent _ _ _ _ _ _ _ P), bind_ok. unfold int_mul, PHDR_SIZE in *.
  rewrite (proj2 (Z.leb_le _ _)), (proj2 (Z.ltb_lt _ _)) by nia. cbn [andb]. rewrite bind_ok, u64_small by nia.
  split; [done|]. nia.
Qed.

(** The memory [m'] is [m] with the pieces written in order. *)
Definition placed (m m' : mem) (segs : list (Z * list Z)) : Prop :=
  forall x, m' !! x = overlay segs (fun y => m !! y) x.

Lemma placed_cons m m1 m' d bs segs : wrote m m1 d bs -> placed m1 m' segs -> placed m m' ((d, bs) :: segs).
Proof. intros W P x. rewrite (P x). by apply overlay_wrote. Qed.

Lemma load_end_cons h phs t : load_end (h :: phs) t =
  load_end phs (if is_load h then (if t <? u64 (ph_vaddr h + ph_memsz h) then u64 (ph_vaddr h + ph_memsz h) else t) else t).
Proof. done. Qed.

Lemma dynamic_cons h phs dyn : dynamic_of (h :: phs) dyn =
  dynamic_of phs (if ph_type h =? PT_DYNAMIC then Some (u64 (load_base + ph_vaddr h)) else dyn).
Proof. done. Qed.

Lemma segments_cons h phs : segments (h :: phs) = if is_load h then (ph_dest h, contents h) :: segments phs else segments phs.
Proof. unfold segments. simpl. by destruct (is_load h). Qed.

(** One iteration up to the type of the header. *)
Lemma load_loop_header off ent phs fuel m i total dyn h : program m data size off ent img phs -> phs !! i = Some h ->
  exists p, data <= p /\ p + PHDR_SIZE <= data + size /\ header_at m p h /\
    load_loop (S fuel) m data size load_base is_pie (Z.of_nat i) total dyn =
      if ph_type h =? PT_DYNAMIC then
        load_loop fuel m data size load_base is_pie (Z.of_nat (S i)) total (Some (u64 (load_base + ph_vaddr h)))
      else if negb (is_load h) then load_loop fuel m data size load_base is_pie (Z.of_nat (S i)) total dyn
      else
        r ← load_segment m data size load_base is_pie p;
        match r with
        | None => Ok (m, None)
        | Some (m, seg_end) => load_loop fuel m data size load_base is_pie (Z.of_nat (S i))
            (if total <? seg_end then seg_end else total) dyn
        end.
Proof.
  intros P Hh. pose proof (lookup_lt_Some _ _ _ Hh) as Hlt. destruct (phdr_addr_ok m off ent phs i P Hlt) as (Ea & Hp1 & Hp2).
  exists (data + off + Z.of_nat i * ent). do 2 (split; [done|]). pose proof (pg_headers _ _ _ _ _ _ _ P i h Hh) as Ha.
  split; [done|]. cbn [load_loop]. rewrite (pg_num _ _ _ _ _ _ _ P), bind_ok. rewrite (proj2 (Z.ltb_lt _ _)) by lia.
  destruct (pg_table _ _ _ _ _ _ _ P) as (T1 & T2 & T3 & T4 & T5). pose proof (pg_data _ _ _ _ _ _ _ P) as (Hd & Hn & _).
  unfold PHDR_SIZE in T2.
  rewrite (pg_off _ _ _ _ _ _ _ P), bind_ok, (pg_ent _ _ _ _ _ _ _ P), bind_ok. unfold int_mul.
  rewrite (proj2 (Z.leb_le (- 2 ^ 31) _)), (proj2 (Z.ltb_lt _ (2 ^ 31))) by nia. cbn [andb]. rewrite bind_ok, u64_small by nia.
  rewrite (proj2 (Z.ltb_ge size _)) by nia. rewrite Ea, bind_ok, (ha_type _ _ _ Ha), bind_ok.
  replace (Z.of_nat i + 1) with (Z.of_nat (S i)) by lia. unfold is_load. destruct (Z.eqb_spec (ph_type h) PT_DYNAMIC); [|done].
  by rewrite (ha_vaddr _ _ _ Ha), bind_ok.
Qed.

Lemma load_loop_steps off ent phs tail : forall good fuel m i total dyn, program m data size off ent img phs ->
  drop i phs = good ++ tail -> Forall (fun h => is_load h = true -> fits m h) good ->
  exists m', load_loop (length good + fuel) m data size load_base is_pie (Z.of_nat i) total dyn =
      load_loop fuel m' data size load_base is_pie (Z.of_nat (i + length good)) (load_end good total) (dynamic_of good dyn) /\
    placed m m' (segments good) /\ agree m m' data size.
Proof.
  induction good as [|h good IH]; intros fuel m i total dyn P Hdrop Hf.
  - exists m. rewrite Nat.add_0_r. split; [done|]. split; [by intros x|by intros x _].
  - assert (phs !! i = Some h) as Hh by (rewrite <- (Nat.add_0_r i), <- lookup_drop, Hdrop; done).
    assert (drop (S i) phs = good ++ tail) as Hdrop' by (by rewrite <- Nat.add_1_r, <- drop_drop, Hdrop).
    inversion_clear Hf as [|? ? Hfh Hfr]. cbn [length Nat.add].
    destruct (load_loop_header off ent phs (length good + fuel) m i total dyn h P Hh) as (p & Hp1 & Hp2 & Ha & ->).
    replace (i + S (length good))%nat with (S i + length good)%nat by lia.
    rewrite load_end_cons, dynamic_cons, segments_cons.
    destruct (Z.eqb_spec (ph_type h) PT_DYNAMIC) as [Edyn|Edyn].
    + assert (is_load h = false) as -> by (unfold is_load; by rewrite Edyn). by apply IH.
    + destruct (is_load h) eqn:El; cbn [negb]; [|by apply IH].
      destruct (load_segment_ok m p off ent phs h P Ha Hp1 Hp2 (Hfh eq_refl)) as (m1 & -> & W). rewrite bind_ok.
      pose proof (Hfh eq_refl) as F. pose proof (ft_apart _ _ F) as Hap.
      assert (agree m m1 data size) as A1.
      { eapply wrote_agree; [exact W|]. rewrite contents_length by (apply F || apply P). lia. }
      destruct (IH fuel m1 (S i) (if total <? u64 (ph_vaddr h + ph_memsz h) then u64 (ph_vaddr h + ph_memsz h) else total) dyn)
        as (m' & -> & Hpl & A2); [by apply (program_agree m m1)|done| |].
      { eapply Forall_impl; [exact Hfr|]. intros h' Hf' Hl. eapply fits_wrote; [exact W|by apply Hf']. }
      exists m'. split; [done|]. split; [|by eapply agree_trans]. by apply (placed_cons m m1).
Qed.

Lemma load_loop_done off ent phs fuel m total dyn : program m data size off ent img phs ->
  load_loop (S fuel) m data size load_base is_pie (Z.of_nat (length phs)) total dyn = Ok (m, Some (total, dyn)).
Proof. intros P. cbn [load_loop]. rewrite (pg_num _ _ _ _ _ _ _ P), bind_ok. by rewrite Z.ltb_irrefl. Qed.

Lemma phnum_fuel m off ent phs : program m data size off ent img phs -> (length phs < PHDR_FUEL)%nat.
Proof.
  intros P. destruct (pg_table _ _ _ _ _ _ _ P) as (_ & _ & _ & _ & T). unfold PHDR_FUEL.
  apply Nat2Z.inj_lt. rewrite Z2Nat.id; [done|by apply Z.pow_nonneg].
Qed.
End load.

(** ** Relocations *)

(** The eight bytes of a value, low byte first. *)
Definition le64 (v : Z) : list Z :=
  [u8 v; u8 (Z.shiftr v 8); u8 (Z.shiftr v 16); u8 (Z.shiftr v 24); u8 (Z.shiftr v 32); u8 (Z.shiftr v 40);
   u8 (Z.shiftr v 48); u8 (Z.shiftr v 56)].

(** An address that stays mapped through stores. *)
Ltac stays_mapped Hm := match goal with |- is_Some (?m !! _) =>
  match type of Hm with mapped _ ?a ?n =>
    let H := fresh in assert (mapped m a n) as H by (repeat apply mapped_insert; exact Hm); apply H; lia end end.

Lemma store64_ok m a v : mapped m a 8 -> exists m', store64 m a v = Ok m' /\ wrote m m' a (le64 v).
Proof.
  intros Hm. unfold store64, le64.
  do 8 (rewrite store8_ok by (stays_mapped Hm); rewrite ?bind_ok).
  eexists. split; [done|]. do 8 (apply wrote_cons; rewrite <- ?Z.add_assoc; cbn [Z.add Pos.add]). apply wrote_nil.
Qed.

(** The entries of a dynamic section before the terminating one. *)
Fixpoint dyn_at (m : mem) (a : Z) (es : list (Z * Z)) : Prop :=
  match es with
  | [] => load64 m a = Ok DT_NULL
  | (t, v) :: es => t <> DT_NULL /\ load64 m a = Ok t /\ load64 m (a + 8) = Ok v /\ dyn_at m (a + 16) es
  end.

(** What they say: the address of the table, its size and the size of an entry. *)
Definition rela_step (r : Z * Z * Z) (e : Z * Z) : Z * Z * Z :=
  let '(addr, size, ent) := r in
  let '(t, v) := e in
  if t =? DT_RELA then (v, size, ent)
  else if t =? DT_RELASZ then (addr, v, ent)
  else if t =? DT_RELAENT then (addr, size, v)
  else r.

Lemma dynamic_loop_ok es : forall fuel m a addr size ent, dyn_at m a es -> 0 <= a ->
  a + 16 * Z.of_nat (length es) < 2 ^ 64 -> (length es < fuel)%nat ->
  dynamic_loop fuel m a addr size ent = Ok (fold_left rela_step es (addr, size, ent)).
Proof.
  induction es as [|[t v] es IH]; intros fuel m a addr size ent Hd Ha Hn Hf; (destruct fuel as [|fuel]; [simpl in *; lia|]);
    cbn [dynamic_loop dyn_at length] in *.
  - by rewrite Hd, bind_ok.
  - destruct Hd as (Ht & -> & Hv & Hd). rewrite bind_ok. rewrite (proj2 (Z.eqb_neq _ _) Ht). rewrite !u64_small by lia.
    rewrite Hv, bind_ok. cbn [fold_left rela_step]. repeat case_match; apply IH; (done || lia).
Qed.

(** A table of relocations: offset, info and addend. *)
Fixpoint rela_at (m : mem) (a : Z) (rs : list (Z * Z * Z)) : Prop :=
  match rs with
  | [] => True
  | (o, i, d) :: rs => load64 m a = Ok o /\ load64 m (a + 8) = Ok i /\ load64 m (a + 16) = Ok d /\ rela_at m (a + RELA_SIZE) rs
  end.

Lemma rela_agree m m' rs : forall a, agree m m' a (RELA_SIZE * Z.of_nat (length rs)) -> rela_at m a rs -> rela_at m' a rs.
Proof.
  unfold RELA_SIZE. induction rs as [|[[o i] d] rs IH]; intros a H; cbn [rela_at length] in *; [done|].
  intros (? & ? & ? & ?). rewrite !(load64_agree m m') by (eapply agree_sub; [exact H|lia..]). do 3 (split; [done|]).
  apply IH; [eapply agree_sub; [exact H|unfold RELA_SIZE; lia..]|done].
Qed.

Definition relative (r : Z * Z * Z) : bool := let '(_, i, _) := r in Z.land i 0xFFFFFFFF =? R_AARCH64_RELATIVE.

(** The word a relative relocation stores, and where. *)
Definition patch (load_base : Z) (r : Z * Z * Z) : Z * list Z :=
  let '(o, _, d) := r in (u64 (load_base + o), le64 (u64 (load_base + i64 d))).
Definition patches (load_base : Z) (rs : list (Z * Z * Z)) : list (Z * list Z) := map (patch load_base) (List.filter relative rs).

(** The word is mapped and not part of the [n] bytes of the table. *)
Definition patch_ok (m : mem) (load_base rela n : Z) (r : Z * Z * Z) : Prop :=
  relative r = true -> let t := fst (patch load_base r) in mapped m t 8 /\ (t + 8 <= rela \/ rela + n <= t).

Lemma rela_loop_ok load_base rs : forall m a n, rela_at m a rs -> 0 <= a ->
  RELA_SIZE * Z.of_nat (length rs) <= n -> a + n < 2 ^ 64 -> Forall (patch_ok m load_base a n) rs ->
  exists m', rela_loop (length rs) m load_base a = Ok m' /\ placed m m' (patches load_base rs).
Proof.
  unfold RELA_SIZE. induction rs as [|[[o i] d] rs IH]; intros m a n Hr Ha Hn Hlt Hp; cbn [rela_at length rela_loop] in *.
  - exists m. split; [done|]. by intros x.
  - destruct Hr as (Ho & Hi & Hd & Hr). inversion_clear Hp as [|? ? Hp1 Hp2]. rewrite !u64_small by (unfold RELA_SIZE; lia).
    rewrite Ho, bind_ok, Hi, bind_ok, Hd, bind_ok. unfold RELA_SIZE in *. unfold patches. cbn [List.filter].
    assert (forall m1, rela_at m1 (a + 24) rs -> Forall (patch_ok m1 load_base a n) rs ->
      exists m', rela_loop (length rs) m1 load_base (a + 24) = Ok m' /\ placed m1 m' (patches load_base rs)) as Hnext.
    { intros m1 Hr1 Hp'. apply (IH m1 (a + 24) (n - 24)); [done|lia|lia|lia|]. eapply Forall_impl; [exact Hp'|].
      intros r Hok Hrel. destruct (Hok Hrel) as [Hm Hdis]. split; [done|]. lia. }
    destruct (relative (o, i, d)) eqn:Erel; unfold relative in Erel; rewrite Erel; cbn [map].
    + destruct (Hp1 Erel) as [Hm Hdis]. cbn [patch fst] in Hm, Hdis.
      destruct (store64_ok m (u64 (load_base + o)) (u64 (load_base + i64 d)) Hm) as (m1 & -> & W). rewrite bind_ok.
      destruct (Hnext m1) as (m' & E & Hpl).
      * apply (rela_agree m m1); [|done]. eapply wrote_agree; [exact W|]. cbn [length le64] in *. unfold RELA_SIZE. lia.
      * eapply Forall_impl; [exact Hp2|]. intros r Hok Hrel. destruct (Hok Hrel) as [Hm2 Hdis2]. split; [|done].
        by eapply wrote_mapped.
      * exists m'. split; [exact E|]. by apply (placed_cons m m1).
    + by apply Hnext.
Qed.
