(* ===== verification/ElfTheorems.v ===== *)
(** * The ELF loader: properties *)
From S2P Require Import Prelude Memory StringLib Elf ElfSpec.
#[local] Open Scope Z_scope.

Lemma load8_mapped m a n : mapped m a n -> 0 < n -> exists b, load8 m a = Ok b.
Proof. intros Hm Hn. destruct (Hm a) as [b Hb]; [lia|]. exists b. by apply load8_ok. Qed.

Lemma load32_mapped m a : mapped m a 4 -> exists v, load32 m a = Ok v.
Proof.
  intros Hm. unfold load32, load16.
  destruct (load8_mapped m a 1) as [b0 ->]; [eapply mapped_sub; [exact Hm|lia..]|lia|].
  destruct (load8_mapped m (a + 1) 1) as [b1 ->]; [eapply mapped_sub; [exact Hm|lia..]|lia|].
  destruct (load8_mapped m (a + 2) 1) as [b2 ->]; [eapply mapped_sub; [exact Hm|lia..]|lia|].
  destruct (load8_mapped m (a + 2 + 1) 1) as [b3 ->]; [eapply mapped_sub; [exact Hm|lia..]|lia|].
  rewrite !bind_ok. eauto.
Qed.

Lemma placed_mapped m m' segs a n : placed m m' segs -> mapped m a n -> mapped m' a n.
Proof. intros P Hm x Hx. rewrite (P x). by apply overlay_mapped, Hm. Qed.

(** The read of the first instructions, and the result. *)
Definition finish (m : mem) (data load_base total : Z) (is_pie : bool) : outcome (Z * mem * option elf_load_info) :=
  ent ← e_entry m data;
  let entry := if is_pie then u64 (load_base + ent) else ent in
  _ ← load32 m entry;
  _ ← load32 m (u64 (entry + 4));
  _ ← load32 m (u64 (entry + 8));
  _ ← load32 m (u64 (entry + 12));
  Ok (0, m, Some (LoadInfo entry load_base total)).

Lemma finish_ok m data load_base total is_pie e (entry := if is_pie : bool then u64 (load_base + e) else e) :
  e_entry m data = Ok e -> 0 <= entry -> entry + 16 <= 2 ^ 64 -> mapped m entry 16 ->
  finish m data load_base total is_pie = Ok (0, m, Some (LoadInfo entry load_base total)).
Proof.
  intros He H0 Hn Hm. unfold finish. rewrite He, bind_ok. fold entry. cbv zeta. rewrite !u64_small by lia.
  destruct (load32_mapped m entry) as [? ->]; [eapply mapped_sub; [exact Hm|lia..]|].
  destruct (load32_mapped m (entry + 4)) as [? ->]; [eapply mapped_sub; [exact Hm|lia..]|].
  destruct (load32_mapped m (entry + 8)) as [? ->]; [eapply mapped_sub; [exact Hm|lia..]|].
  destruct (load32_mapped m (entry + 12)) as [? ->]; [eapply mapped_sub; [exact Hm|lia..]|].
  by rewrite !bind_ok.
Qed.

(** [elf_load_at] on a well-formed table of headers whose segments all fit. *)
Lemma load_at_steps fuel m data size load_base off ent img phs t (is_pie := t =? ET_DYN) :
  program m data size off ent img phs -> e_type m data = Ok t ->
  Forall (fun h => is_load h = true -> fits data size load_base is_pie m h) phs ->
  exists m1, placed m m1 (segments load_base is_pie img phs) /\ agree m m1 data size /\
    elf_load_at fuel m data size load_base =
      m2 ← (match dynamic_of load_base phs None with
            | Some d => if is_pie && negb (d =? 0) then elf_process_relocations fuel m1 load_base d else Ok m1
            | None => Ok m1
            end);
      finish m2 data load_base (load_end phs 0) is_pie.
Proof.
  intros P Ht Hf. unfold elf_load_at. rewrite (pg_valid _ _ _ _ _ _ _ P), bind_ok. cbn [Z.eqb negb]. rewrite Ht, bind_ok.
  fold is_pie. cbv zeta. pose proof (phnum_fuel _ _ _ _ _ _ _ P) as Hfuel.
  destruct (load_loop_steps data size load_base is_pie img off ent phs [] phs (S (PHDR_FUEL - length phs - 1)) m 0 0 None P)
    as (m1 & E & Hpl & A); [by rewrite app_nil_r|done|].
  replace (length phs + S (PHDR_FUEL - length phs - 1))%nat with PHDR_FUEL in E by lia. change (Z.of_nat 0) with 0 in E.
  rewrite E. cbn [Nat.add].
  rewrite (load_loop_done data size load_base is_pie img off ent phs) by (by apply (program_agree m m1)).
  rewrite bind_ok. cbv beta iota zeta. exists m1. done.
Qed.

(** Loading without relocations. *)
Lemma load_static fuel m data size load_base off ent img phs t e (is_pie := t =? ET_DYN)
    (entry := if is_pie then u64 (load_base + e) else e) (Hprog : program m data size off ent img phs)
    (Ht : e_type m data = Ok t) (Hfits : Forall (fun h => is_load h = true -> fits data size load_base is_pie m h) phs)
    (Hdyn : is_pie = false \/ dynamic_of load_base phs None = None)
    (He : e_entry m data = Ok e) (H0 : 0 <= entry) (H1 : entry + 16 <= 2 ^ 64) (Hcode : mapped m entry 16) :
  exists m', elf_load_at fuel m data size load_base = Ok (0, m', Some (LoadInfo entry load_base (load_end phs 0))) /\
    forall x, m' !! x = overlay (segments load_base is_pie img phs) (fun y => m !! y) x.
Proof.
  destruct (load_at_steps fuel m data size load_base off ent img phs t Hprog Ht Hfits) as (m1 & Hpl & A & ->).
  exists m1. split; [|exact Hpl]. fold is_pie.
  replace (match dynamic_of load_base phs None with
           | Some d => if is_pie && negb (d =? 0) then elf_process_relocations fuel m1 load_base d else Ok m1
           | None => Ok m1 end) with (Ok m1 : outcome mem)
    by (destruct Hdyn as [-> | ->]; [by destruct (dynamic_of _ _ _)|done]).
  rewrite bind_ok. apply finish_ok; [|done|done|by eapply placed_mapped].
  unfold e_entry in *. pose proof (pg_data _ _ _ _ _ _ _ Hprog) as (Hd & Hn & Hs). unfold EHDR_SIZE in Hs.
  rewrite u64_small in * by lia. rewrite (load64_agree m m1); [done|eapply agree_sub; [exact A|lia..]].
Qed.

(** Loading an executable, or a position-independent one without a dynamic
    section: when the headers are in the file and every loadable segment has its
    data in the file and goes to mapped memory away from the file, the load
    succeeds, and memory afterwards is memory before with exactly the segments
    written in order: the bytes of the file followed by zeros up to the
    size in memory, at the address asked for, moved by the base when
    position-independent.  Nothing else changes.  The entry point and the size reported
    are those of the headers. *)
Theorem elf_load_correct fuel m data size load_base off ent img phs t e (is_pie := t =? ET_DYN)
    (entry := if is_pie then u64 (load_base + e) else e) (Hprog : program m data size off ent img phs)
    (Ht : e_type m data = Ok t) (Hfits : Forall (fun h => is_load h = true -> fits data size load_base is_pie m h) phs)
    (Hdyn : is_pie = false \/ dynamic_of load_base phs None = None)
    (He : e_entry m data = Ok e) (H0 : 0 <= entry) (H1 : entry + 16 <= 2 ^ 64) (Hcode : mapped m entry 16) :
  exists m', elf_load_at fuel m data size load_base = Ok (0, m', Some (LoadInfo entry load_base (load_end phs 0))) /\
    forall x, m' !! x = overlay (segments load_base is_pie img phs) (fun y => m !! y) x.
Proof. by apply (load_static fuel m data size load_base off ent img phs t e). Qed.

(** C22. Loading a position-independent executable with a dynamic section: after the
    segments are in place ([m1]), the relocation table that the dynamic section
    describes is processed: each relative relocation stores base plus addend, in eight bytes,
    at base plus offset, and nothing else changes; other relocation types are skipped. *)
Theorem elf_load_pie_correct fuel m m1 data size load_base off ent img phs e d es rs addr rsize rent
    (entry := u64 (load_base + e)) (Hprog : program m data size off ent img phs) (Ht : e_type m data = Ok ET_DYN)
    (Hfits : Forall (fun h => is_load h = true -> fits data size load_base true m h) phs)
    (Hm1 : placed m m1 (segments load_base true img phs)) (Hdyn : dynamic_of load_base phs None = Some d) (Hd : 0 < d)
    (Hes : dyn_at m1 d es) (Hlen : d + 16 * Z.of_nat (length es) < 2 ^ 64) (Hfuel : (length es < fuel)%nat)
    (Hinfo : fold_left rela_step es (0, 0, RELA_SIZE) = (addr, rsize, rent))
    (Haddr : addr <> 0) (Hent : rent = RELA_SIZE) (Hsize : rsize = RELA_SIZE * Z.of_nat (length rs)) (Hne : rs <> [])
    (Hmany : Z.of_nat (length rs) < 2 ^ 31) (Hrs : rela_at m1 (u64 (load_base + addr)) rs)
    (Hrange : u64 (load_base + addr) + rsize < 2 ^ 64)
    (Hpatch : Forall (patch_ok m1 load_base (u64 (load_base + addr)) rsize) rs)
    (Hapart : Forall (fun r => relative r = true -> let t := fst (patch load_base r) in t + 8 <= data \/ data + size <= t) rs)
    (He : e_entry m data = Ok e) (H1 : entry + 16 <= 2 ^ 64) (Hcode : mapped m entry 16) :
  exists m2, elf_load_at fuel m data size load_base = Ok (0, m2, Some (LoadInfo entry load_base (load_end phs 0))) /\
    forall x, m2 !! x = overlay (patches load_base rs) (fun y => m1 !! y) x.
Proof.
  destruct (load_at_steps fuel m data size load_base off ent img phs ET_DYN Hprog Ht Hfits) as (m1' & Hpl & A & ->).
  assert (m1' = m1) as -> by (apply map_eq; intros x; by rewrite (Hpl x), (Hm1 x)).
  rewrite Hdyn. rewrite (proj2 (Z.eqb_neq d 0)) by lia. cbn [negb andb Z.eqb ET_DYN Pos.eqb].
  unfold elf_process_relocations. rewrite (dynamic_loop_ok es) by (done || lia). rewrite bind_ok, Hinfo. cbv beta iota zeta.
  assert (length rs <> 0)%nat as Hl0 by (by destruct rs). unfold RELA_SIZE in *.
  rewrite (proj2 (Z.eqb_neq addr 0)), (proj2 (Z.eqb_neq rsize 0)), (proj2 (Z.eqb_neq rent 0)) by lia. cbn [orb].
  rewrite Hent, Hsize, Z.mul_comm, Z.div_mul by lia. rewrite i32_small by lia. rewrite Nat2Z.id.
  destruct (rela_loop_ok load_base rs m1 (u64 (load_base + addr)) rsize Hrs) as (m2 & -> & Hp2);
    [apply u64_range|unfold RELA_SIZE; lia|done|done|].
  rewrite bind_ok. exists m2. split; [|exact Hp2].
  pose proof (pg_data _ _ _ _ _ _ _ Hprog) as (Hd0 & Hn & Hs). unfold EHDR_SIZE in Hs.
  apply (finish_ok m2 data load_base (load_end phs 0) true e); [|apply u64_range|done|by eapply placed_mapped, placed_mapped].
  unfold e_entry in *. rewrite u64_small in * by lia. rewrite <- He. apply load64_agree. intros x Hx.
  rewrite (Hp2 x), overlay_out; [apply A; lia|]. apply Forall_forall. intros [t bs] Hin.
  unfold patches in Hin. apply list_elem_of_fmap in Hin as (r & Er & Hr). apply list_elem_of_In, filter_In in Hr as [Hr Hrel].
  apply list_elem_of_In in Hr. rewrite Forall_forall in Hapart. specialize (Hapart r Hr Hrel). cbv zeta in Hapart.
  destruct r as [[o i] a]. cbn [patch fst] in *. injection Er as -> ->. cbn [le64 length]. lia.
Qed.

(** A segment whose data reaches behind the end of the file makes the load fail
    with -1, without any information stored; the segments before it have been
    written by then, and stay. *)
Theorem elf_load_rejects fuel m data size load_base off ent img good h rest t (is_pie := t =? ET_DYN)
    (Hprog : program m data size off ent img (good ++ h :: rest)) (Ht : e_type m data = Ok t)
    (Hfits : Forall (fun h => is_load h = true -> fits data size load_base is_pie m h) good)
    (Hload : is_load h = true) (Hsz : 0 <= ph_filesz h) (Hout : size < ph_offset h + ph_filesz h) :
  exists m', elf_load_at fuel m data size load_base = Ok (-1, m', None) /\
    forall x, m' !! x = overlay (segments load_base is_pie img good) (fun y => m !! y) x.
Proof.
  unfold elf_load_at. rewrite (pg_valid _ _ _ _ _ _ _ Hprog), bind_ok. cbn [Z.eqb negb]. rewrite Ht, bind_ok.
  fold is_pie. cbv zeta. pose proof (phnum_fuel _ _ _ _ _ _ _ Hprog) as Hfuel. rewrite length_app in Hfuel. cbn [length] in Hfuel.
  destruct (load_loop_steps data size load_base is_pie img off ent (good ++ h :: rest) (h :: rest) good
    (S (PHDR_FUEL - length good - 1)) m 0 0 None Hprog eq_refl Hfits) as (m1 & E & Hpl & A).
  replace (length good + S (PHDR_FUEL - length good - 1))%nat with PHDR_FUEL in E by lia. change (Z.of_nat 0) with 0 in E.
  rewrite E. cbn [Nat.add]. pose proof (program_agree m m1 _ _ _ _ _ _ A Hprog) as P1.
  assert ((good ++ h :: rest) !! length good = Some h) as Hh by (by rewrite lookup_app_r, Nat.sub_diag by lia).
  destruct (load_loop_header data size load_base is_pie img off ent (good ++ h :: rest) (PHDR_FUEL - length good - 1) m1 (length good)
    (load_end good 0) (dynamic_of load_base good None) h P1 Hh) as (p & _ & _ & Ha & ->).
  rewrite Hload. cbn [negb]. assert (ph_type h = PT_LOAD) as Et by (by apply Z.eqb_eq).
  rewrite Et. change (PT_LOAD =? PT_DYNAMIC) with false. cbv iota.
  rewrite (load_segment_outside data size load_base is_pie m1 p h Ha Hsz Hout), !bind_ok. by exists m1.
Qed.

Lemma int_mul_ok a b : - 2 ^ 31 <= a * b < 2 ^ 31 -> int_mul a b = Ok (a * b).
Proof. intros H. unfold int_mul. by rewrite (proj2 (Z.leb_le _ _)), (proj2 (Z.ltb_lt _ _)) by lia. Qed.

(** The check that a program header lies in the file wraps around: with a table
    offset just below 2^64 it passes, and the loader reads the first header in
    front of the file, a fault when nothing is mapped there. *)
Theorem elf_header_wrap fuel m data size load_base k ent n t (Hdata : 0 <= data) (Hend : data + size < 2 ^ 64)
    (Hvalid : elf_validate m data size = Ok 0) (Ht : e_type m data = Ok t) (Hn : e_phnum m data = Ok n) (Hpos : 0 < n)
    (Hoff : e_phoff m data = Ok (2 ^ 64 - k)) (Hent : e_phentsize m data = Ok ent) (Hk : 0 < k <= ent) (Hu16 : ent < 2 ^ 16)
    (Hfits : ent - k <= size) (Hbefore : k <= data) (Hhole : m !! (data - k) = None) :
  elf_load_at fuel m data size load_base = Fault.
Proof.
  unfold elf_load_at. rewrite Hvalid, bind_ok. cbn [Z.eqb negb]. rewrite Ht, bind_ok. cbv zeta.
  assert (exists f, PHDR_FUEL = S f) as [f ->] by (exists (pred PHDR_FUEL); unfold PHDR_FUEL; lia).
  cbn [load_loop]. rewrite Hn, bind_ok, (proj2 (Z.ltb_lt _ _) Hpos), Hoff, bind_ok, Hent, bind_ok, int_mul_ok by lia.
  rewrite bind_ok. replace (u64 (2 ^ 64 - k + (0 + 1) * ent)) with (ent - k) by (unfold u64; lia_mod).
  rewrite (proj2 (Z.ltb_ge _ _)) by lia.
  assert (phdr_addr m data 0 = Ok (data - k)) as ->.
  { unfold phdr_addr. rewrite Hoff, bind_ok, Hent, bind_ok, int_mul_ok, bind_ok by lia. f_equal. unfold u64. lia_mod. }
  assert (load8 m (data - k) = Fault) as Hf by (unfold load8; by rewrite Hhole).
  rewrite bind_ok. unfold p_type, load32, load16. by rewrite Hf.
Qed.

(** ** The properties on concrete images *)

Definition bytes_ok (m : mem) (a : Z) (bs : list Z) : bool :=
  forallb (fun i => bool_decide (m !! (a + Z.of_nat i) = bs !! i)) (seq 0 (length bs)).
Definition mapped_ok (m : mem) (a : Z) (n : nat) : bool :=
  forallb (fun i => bool_decide (is_Some (m !! (a + Z.of_nat i)))) (seq 0 n).

Lemma bytes_check m a bs : bytes_ok m a bs = true -> bytes_at m a bs.
Proof.
  unfold bytes_ok. rewrite forallb_forall. intros Hf i b Hi. specialize (Hf i). rewrite in_seq in Hf.
  pose proof (lookup_lt_Some _ _ _ Hi). specialize (Hf ltac:(lia)). apply bool_decide_eq_true in Hf. congruence.
Qed.

Lemma mapped_check m a n : mapped_ok m a n = true -> mapped m a (Z.of_nat n).
Proof.
  unfold mapped_ok. rewrite forallb_forall. intros Hf x Hx. specialize (Hf (Z.to_nat (x - a))). rewrite in_seq in Hf.
  specialize (Hf ltac:(lia)). apply bool_decide_eq_true in Hf. by replace (a + Z.of_nat (Z.to_nat (x - a))) with x in Hf by lia.
Qed.

(** An image with the given type, program headers, and contents behind them. *)
Definition le (n : nat) (v : Z) : list Z := take n (le64 v).
Definition ehdr_bytes (t entry phoff phnum : Z) : list Z :=
  [0x7F; 69; 76; 70; 2; 1; 1; 0; 0; 0; 0; 0; 0; 0; 0; 0] ++ le 2 t ++ le 2 183 ++ le 4 1 ++ le 8 entry ++ le 8 phoff ++
  le 8 0 ++ le 4 0 ++ le 2 64 ++ le 2 56 ++ le 2 phnum ++ le 2 0 ++ le 2 0 ++ le 2 0.
Definition phdr_bytes (h : phdr) : list Z :=
  le 4 (ph_type h) ++ le 4 5 ++ le 8 (ph_offset h) ++ le 8 (ph_vaddr h) ++ le 8 (ph_vaddr h) ++ le 8 (ph_filesz h) ++
  le 8 (ph_memsz h) ++ le 8 8.
Definition image (t entry : Z) (phs : list phdr) (rest : list Z) : list Z :=
  ehdr_bytes t entry 64 (Z.of_nat (length phs)) ++ concat (map phdr_bytes phs) ++ rest.

(** The image at 0x1000 and [room] zeroed bytes at 0x4000. *)
Definition loader_mem (img : list Z) (room : nat) : mem := mem_of 0x1000 img ∪ mem_of 0x4000 (replicate room 0).

(** A program of 16 bytes, and 8 more of zeros. *)
Definition exec_phs : list phdr := [Phdr PT_LOAD 120 0x4000 16 24].
Definition exec_img : list Z := image ET_EXEC 0x4000 exec_phs (replicate 16 0xAA).
Definition exec_mem : mem := loader_mem exec_img 32.

Lemma exec_program : program exec_mem 0x1000 136 64 56 exec_img exec_phs.
Proof.
  split; try (vm_compute; reflexivity).
  - unfold EHDR_SIZE. lia.
  - split; [apply bytes_check|]; vm_compute; reflexivity.
  - cbn. unfold PHDR_SIZE. lia.
  - intros [|i] h Hi; [|discriminate Hi]. injection Hi as <-. split; vm_compute; reflexivity.
Qed.

Lemma exec_fits is_pie : is_pie = false -> Forall (fun h => is_load h = true -> fits 0x1000 136 0 is_pie exec_mem h) exec_phs.
Proof.
  intros ->. constructor; [|done]. intros _. split; cbn.
  - unfold in_file. cbn. lia.
  - lia.
  - apply (mapped_check _ _ 24). vm_compute. reflexivity.
  - lia.
Qed.

Lemma elf_load_correct_witness : exists m', elf_load_at 10 exec_mem 0x1000 136 0 = Ok (0, m', Some (LoadInfo 0x4000 0 0x4018)) /\
  m' !! 0x4000 = Some 0xAA /\ m' !! 0x4010 = Some 0.
Proof.
  destruct (elf_load_correct 10 exec_mem 0x1000 136 0 64 56 exec_img exec_phs ET_EXEC 0x4000 exec_program
    ltac:(vm_compute; reflexivity) (exec_fits _ eq_refl) ltac:(left; reflexivity) ltac:(vm_compute; reflexivity)
    ltac:(cbn; lia) ltac:(cbn; lia) ltac:(apply (mapped_check _ _ 16); vm_compute; reflexivity)) as (m' & E & P).
  exists m'. split; [exact E|]. split; [rewrite (P 0x4000)|rewrite (P 0x4010)]; vm_compute; reflexivity.
Defined.

(** A second header that asks for more than the file has. *)
Definition bad_header : phdr := Phdr PT_LOAD 100 0x4010 200 200.
Definition bad_phs : list phdr := [Phdr PT_LOAD 176 0x4000 16 16] ++ bad_header :: [].
Definition bad_img : list Z := image ET_EXEC 0x4000 bad_phs (replicate 16 0xAA).
Definition bad_mem : mem := loader_mem bad_img 32.

Lemma bad_program : program bad_mem 0x1000 192 64 56 bad_img bad_phs.
Proof.
  split; try (vm_compute; reflexivity).
  - unfold EHDR_SIZE. lia.
  - split; [apply bytes_check|]; vm_compute; reflexivity.
  - cbn. unfold PHDR_SIZE. lia.
  - intros [|[|i]] h Hi; [| |discriminate Hi]; injection Hi as <-; split; vm_compute; reflexivity.
Qed.

Lemma bad_fits is_pie : is_pie = false -> Forall (fun h => is_load h = true -> fits 0x1000 192 0 is_pie bad_mem h) [Phdr PT_LOAD 176 0x4000 16 16].
Proof.
  intros ->. constructor; [|done]. intros _. split; cbn.
  - unfold in_file. cbn. lia.
  - lia.
  - apply (mapped_check _ _ 16). vm_compute. reflexivity.
  - lia.
Qed.

Lemma elf_load_rejects_witness : exists m', elf_load_at 10 bad_mem 0x1000 192 0 = Ok (-1, m', None) /\ m' !! 0x4000 = Some 0xAA.
Proof.
  destruct (elf_load_rejects 10 bad_mem 0x1000 192 0 64 56 bad_img [Phdr PT_LOAD 176 0x4000 16 16] bad_header [] ET_EXEC bad_program
    ltac:(vm_compute; reflexivity) (bad_fits _ eq_refl) eq_refl ltac:(cbn; lia) ltac:(cbn; lia)) as (m' & E & P).
  exists m'. split; [exact E|]. rewrite (P 0x4000). vm_compute. reflexivity.
Defined.

(** A header table 56 bytes in front of the file. *)
Definition wrap_img : list Z := ehdr_bytes ET_EXEC 0x4000 (2 ^ 64 - 56) 1.
Definition wrap_mem : mem := mem_of 0x1000 wrap_img.

Lemma elf_header_wrap_witness : elf_load_at 10 wrap_mem 0x1000 64 0 = Fault.
Proof.
  apply (elf_header_wrap 10 wrap_mem 0x1000 64 0 56 56 1 ET_EXEC); first [lia | vm_compute; reflexivity].
Defined.

(** A position-independent image: 16 bytes of code, the dynamic section, one relocation
    and the word it patches. *)
Definition pie_phs : list phdr := [Phdr PT_LOAD 176 0 112 112; Phdr PT_DYNAMIC 192 16 64 64].
Definition pie_body : list Z :=
  replicate 16 0xAA ++ concat (map le64 [DT_RELA; 80; DT_RELASZ; 24; DT_RELAENT; 24; DT_NULL; 0; 104; R_AARCH64_RELATIVE; 5; 0]).
Definition pie_img : list Z := image ET_DYN 0 pie_phs pie_body.
Definition pie_mem : mem := loader_mem pie_img 128.
Definition pie_loaded : mem := match elf_memcpy 112 pie_mem 0x4000 (u64 (0x1000 + 176)) with Ok m => m | _ => ∅ end.

Lemma pie_program : program pie_mem 0x1000 288 64 56 pie_img pie_phs.
Proof.
  split; try (vm_compute; reflexivity).
  - unfold EHDR_SIZE. lia.
  - split; [apply bytes_check|]; vm_compute; reflexivity.
  - cbn. unfold PHDR_SIZE. lia.
  - intros [|[|i]] h Hi; [| |discriminate Hi]; injection Hi as <-; split; vm_compute; reflexivity.
Qed.

Lemma pie_segment : fits 0x1000 288 0x4000 true pie_mem (Phdr PT_LOAD 176 0 112 112).
Proof.
  split.
  - unfold in_file. cbn. lia.
  - vm_compute. split; discriminate.
  - apply (mapped_check _ _ 112). vm_compute. reflexivity.
  - left. vm_compute. discriminate.
Qed.

Lemma pie_placed : placed pie_mem pie_loaded (segments 0x4000 true pie_img pie_phs).
Proof.
  destruct (copy_segment 0x1000 288 0x4000 true pie_img pie_mem (Phdr PT_LOAD 176 0 112 112)) as (m1 & E & W);
    [apply pie_program|apply pie_program|lia|lia|exact pie_segment|].
  assert (m1 = pie_loaded) as Em.
  { unfold pie_loaded. change (elf_memcpy 112 pie_mem 0x4000 (u64 (0x1000 + 176)) = Ok m1) in E. by rewrite E. }
  rewrite Em in W. apply (placed_cons pie_mem pie_loaded); [|intros x; reflexivity].
  replace (contents pie_img (Phdr PT_LOAD 176 0 112 112)) with (take 112 (drop 176 pie_img)) by (vm_compute; reflexivity).
  exact W.
Qed.

Lemma elf_load_pie_correct_witness : exists m2, elf_load_at 10 pie_mem 0x1000 288 0x4000 =
  Ok (0, m2, Some (LoadInfo 0x4000 0x4000 112)) /\ m2 !! (0x4000 + 104) = Some 0x05 /\ m2 !! (0x4000 + 105) = Some 0x40.
Proof.
  destruct (elf_load_pie_correct 10 pie_mem pie_loaded 0x1000 288 0x4000 64 56 pie_img pie_phs 0 (0x4000 + 16)
    [(DT_RELA, 80); (DT_RELASZ, 24); (DT_RELAENT, 24)] [(104, R_AARCH64_RELATIVE, 5)] 80 24 24 pie_program
    ltac:(vm_compute; reflexivity) ltac:(constructor; [intros _; exact pie_segment|constructor; [discriminate|done]]) pie_placed
    ltac:(vm_compute; reflexivity) ltac:(lia) ltac:(cbn [dyn_at]; repeat split; first [discriminate | vm_compute; reflexivity])
    ltac:(simpl; lia) ltac:(simpl; lia) ltac:(reflexivity) ltac:(discriminate) eq_refl ltac:(reflexivity) ltac:(discriminate)
    ltac:(simpl; lia) ltac:(vm_compute; repeat split; reflexivity) ltac:(vm_compute; reflexivity)
    ltac:(constructor; [intros _; split; [apply (mapped_check _ _ 8); vm_compute; reflexivity|right; vm_compute; discriminate]|done])
    ltac:(constructor; [intros _; right; vm_compute; discriminate|done]) ltac:(vm_compute; reflexivity)
    ltac:(vm_compute; discriminate) ltac:(apply (mapped_check _ _ 16); vm_compute; reflexivity)) as (m2 & E & P).
  exists m2. split; [exact E|]. split; [rewrite (P (0x4000 + 104))|rewrite (P (0x4000 + 105))]; vm_compute; reflexivity.
Defined.
