(* ===== verification/Syscall.v ===== *)
(** * System calls (src/kernel/syscall/syscall.c): state and handlers

    The table of file descriptors over the file system switch, the program break
    and the mapping region, and the dispatcher, which reaches the scheduler and
    the loader.  [k_mem] is the memory behind user pointers; kernel objects are
    not in it.  The bytes a call is given are read, and the bytes it returns
    stored, in one piece. *)
From S2P Require Import Prelude Memory AllocSpec Pmm Sched Ramfs Vfs Elf.
#[local] Open Scope Z_scope.

Definition MAX_FDS : nat := 256.
Definition ENOEXEC : Z := 8.
Definition EMFILE : Z := 24.
Definition USER_HEAP_START : Z := 0x10000000.
Definition USER_HEAP_SIZE : Z := 0x04000000.
Definition MAP_ANONYMOUS : Z := 0x20.
Definition O_RDONLY : Z := 0.
Definition PF_USER : Z := Z.shiftl 1 3.
Definition USER_CODE_BASE : Z := 0x400000.
Definition KERNEL_START : Z := 0x40000000.
Definition KERNEL_END : Z := 0x50000000.

Definition NR_syscalls : Z := 512.
Definition SYS_openat : Z := 56.
Definition SYS_close : Z := 57.
Definition SYS_lseek : Z := 62.
Definition SYS_read : Z := 63.
Definition SYS_write : Z := 64.
Definition SYS_exit : Z := 93.
Definition SYS_exit_group : Z := 94.
Definition SYS_nanosleep : Z := 101.
Definition SYS_sched_yield : Z := 124.
Definition SYS_uname : Z := 160.
Definition SYS_getpid : Z := 172.
Definition SYS_getppid : Z := 173.
Definition SYS_getuid : Z := 174.
Definition SYS_geteuid : Z := 175.
Definition SYS_getgid : Z := 176.
Definition SYS_getegid : Z := 177.
Definition SYS_gettid : Z := 178.
Definition SYS_brk : Z := 214.
Definition SYS_munmap : Z := 215.
Definition SYS_clone : Z := 220.
Definition SYS_execve : Z := 221.
Definition SYS_mmap : Z := 222.

Record fd_entry := FdEntry { fe_file : Z; fe_flags : Z; fe_in_use : bool }.
Definition fd_free : fd_entry := FdEntry 0 0 false.
Definition fd_reserved : fd_entry := FdEntry 0 0 true.

(** ** User memory

    The loops end at the latest at an address that is not mapped; [S (size m)] is
    more than the addresses that are. *)

Fixpoint load_loop (fuel : nat) (m : mem) (a n : Z) : outcome (list Z) :=
  if n <=? 0 then Ok []
  else match fuel with
       | O => NoFuel
       | S fuel => b ← load8 m a; bs ← load_loop fuel m (u64 (a + 1)) (n - 1); Ok (b :: bs)
       end.
Definition load_bytes (m : mem) (a n : Z) : outcome (list Z) := load_loop (S (size m)) m a n.

(** A C string without its terminator. *)
Fixpoint string_loop (fuel : nat) (m : mem) (a : Z) : outcome (list Z) :=
  match fuel with
  | O => NoFuel
  | S fuel => c ← load8 m a; if c =? 0 then Ok [] else cs ← string_loop fuel m (u64 (a + 1)); Ok (c :: cs)
  end.
Definition load_string (m : mem) (a : Z) : outcome (list Z) := string_loop (S (size m)) m a.

Fixpoint store_bytes (m : mem) (a : Z) (bs : list Z) : outcome mem :=
  match bs with
  | [] => Ok m
  | b :: bs => m ← store8 m a b; store_bytes m (u64 (a + 1)) bs
  end.

(** [for (i = 0; i < n; i++) p[i] = 0]. *)
Fixpoint zero_loop (fuel : nat) (m : mem) (a n : Z) : outcome mem :=
  if n <=? 0 then Ok m
  else match fuel with
       | O => NoFuel
       | S fuel => m ← store8 m a 0; zero_loop fuel m (u64 (a + 1)) (n - 1)
       end.
Definition zero_bytes (m : mem) (a n : Z) : outcome mem := zero_loop (S (size m)) m a n.

Definition is_valid_user_ptr (ptr len : Z) : bool :=
  if ptr =? 0 then false
  else if (0 <? len) && (2 ^ 64 - 1 - len <? ptr) then false
  else
    let e := u64 (ptr + len) in
    if (0x10000000 <=? ptr) && (e <=? 0x14000000) then true
    else if (0x44000000 <=? ptr) && (e <? 0x50000000) then true
    else if (KERNEL_START <=? ptr) && (ptr <? KERNEL_END) then false
    else true.

Section syscall.
Context {A : Type} `{Allocator A}.

Record kern := Kern {
  k_vfs : vfs A; k_sched : sched; k_mem : mem;
  fd_table : list fd_entry; fd_table_initialized : bool;
  user_brk_current : Z; user_mmap_current : Z;
  console : list Z
}.

Definition with_vfs (k : kern) (v : vfs A) : kern :=
  Kern v (k_sched k) (k_mem k) (fd_table k) (fd_table_initialized k) (user_brk_current k) (user_mmap_current k) (console k).
Definition with_sched (k : kern) (s : sched) : kern :=
  Kern (k_vfs k) s (k_mem k) (fd_table k) (fd_table_initialized k) (user_brk_current k) (user_mmap_current k) (console k).
Definition with_mem (k : kern) (m : mem) : kern :=
  Kern (k_vfs k) (k_sched k) m (fd_table k) (fd_table_initialized k) (user_brk_current k) (user_mmap_current k) (console k).
Definition with_fds (k : kern) (l : list fd_entry) (b : bool) : kern :=
  Kern (k_vfs k) (k_sched k) (k_mem k) l b (user_brk_current k) (user_mmap_current k) (console k).
Definition with_heap_ends (k : kern) (brk mmap : Z) : kern :=
  Kern (k_vfs k) (k_sched k) (k_mem k) (fd_table k) (fd_table_initialized k) brk mmap (console k).
Definition with_console (k : kern) (c : list Z) : kern :=
  Kern (k_vfs k) (k_sched k) (k_mem k) (fd_table k) (fd_table_initialized k) (user_brk_current k) (user_mmap_current k) c.

(** ** The table of file descriptors *)

Definition init_fd_table (k : kern) : kern :=
  if fd_table_initialized k then k
  else with_fds k (replicate 3 fd_reserved ++ replicate (MAX_FDS - 3) fd_free) true.

(** The first free descriptor from 3 on, or -1. *)
Definition alloc_fd (k : kern) : Z * kern :=
  let k := init_fd_table k in
  match list_find (fun e => fe_in_use e = false) (drop 3 (fd_table k)) with
  | Some (i, e) =>
      let i := (3 + i)%nat in
      (Z.of_nat i, with_fds k (<[i := FdEntry (fe_file e) (fe_flags e) true]> (fd_table k)) (fd_table_initialized k))
  | None => (-1, k)
  end.

Definition fd_in_range (fd : Z) : bool := (0 <=? fd) && (fd <? Z.of_nat MAX_FDS).

Definition free_fd (k : kern) (fd : Z) : kern :=
  if fd_in_range fd then with_fds k (<[Z.to_nat fd := fd_free]> (fd_table k)) (fd_table_initialized k) else k.

Definition get_file (k : kern) (fd : Z) : Z :=
  if negb (fd_in_range fd) then 0
  else match fd_table k !! Z.to_nat fd with Some e => if fe_in_use e then fe_file e else 0 | None => 0 end.

(** ** Files *)

(** Whether [vfs_write] reaches the write function, and so the buffer. *)
Definition writes (v : vfs A) (f : Z) : bool :=
  match files v !! f with Some x => match f_op x with Some o => has_write o | None => false end | None => false end.

Definition sys_read (k : kern) (fd buf count : Z) : outcome (Z * kern) :=
  let k := init_fd_table k in
  if negb (is_valid_user_ptr buf count) then Ok (- EFAULT, k)
  else if fd =? 0 then Ok (0, k)
  else
    let f := get_file k (i32 fd) in
    if f =? 0 then Ok (- EBADF, k)
    else
      r ← vfs_read (k_vfs k) f buf count;
      let '(ret, bs, v) := r in
      m ← store_bytes (k_mem k) buf bs;
      Ok (ret, with_mem (with_vfs k v) m).

(** [junk] is what a new data block of the file system holds. *)
Definition sys_write (k : kern) (fd buf count : Z) (junk : list Z) : outcome (Z * kern) :=
  let k := init_fd_table k in
  if (fd =? 1) || (fd =? 2) then
    bs ← load_bytes (k_mem k) buf count;
    Ok (i64 count, with_console k (console k ++ bs))
  else
    let f := get_file k (i32 fd) in
    if f =? 0 then Ok (- EBADF, k)
    else
      bytes ← (if buf =? 0 then Ok None
               else if writes (k_vfs k) f then bs ← load_bytes (k_mem k) buf count; Ok (Some bs) else Ok (Some []));
      r ← vfs_write (k_vfs k) f bytes junk;
      let '(ret, v) := r in
      Ok (ret, with_vfs k v).

Definition sys_openat (k : kern) (dirfd pathname flags mode : Z) : outcome (Z * kern) :=
  let k := init_fd_table k in
  let '(fd, k) := alloc_fd k in
  if fd <? 0 then Ok (- EMFILE, k)
  else
    path ← load_string (k_mem k) pathname;
    r ← vfs_open (k_vfs k) path (i32 flags) (u32 mode);
    let '(f, v) := r in
    let k := with_vfs k v in
    if f =? 0 then Ok (- ENOENT, free_fd k fd)
    else
      e ← of_option (fd_table k !! Z.to_nat fd);
      Ok (fd, with_fds k (<[Z.to_nat fd := FdEntry f (i32 flags) (fe_in_use e)]> (fd_table k)) (fd_table_initialized k)).

Definition sys_close (k : kern) (fd : Z) : outcome (Z * kern) :=
  let k := init_fd_table k in
  if fd <? 3 then Ok (0, k)
  else
    let f := get_file k (i32 fd) in
    if f =? 0 then Ok (- EBADF, k)
    else
      r ← vfs_close (k_vfs k) f;
      Ok (0, free_fd (with_vfs k (snd r)) (i32 fd)).

Definition sys_lseek (k : kern) (fd offset whence : Z) : outcome (Z * kern) :=
  let k := init_fd_table k in
  let f := get_file k (i32 fd) in
  if f =? 0 then Ok (- EBADF, k)
  else
    r ← vfs_lseek (k_vfs k) f (i64 offset) (i32 whence);
    let '(ret, v) := r in
    Ok (ret, with_vfs k v).

(** ** Tasks *)

Definition sys_exit (k : kern) (error_code : Z) : outcome (Z * kern) :=
  s ← exit_task (k_sched k) (i32 error_code);
  Ok (0, with_sched k s).

Definition sys_getpid (k : kern) : outcome (Z * kern) :=
  let current := get_current (k_sched k) in
  if current =? 0 then Ok (-1, k) else t ← get_task (k_sched k) current; Ok (t_pid t, k).

Definition sys_getppid (k : kern) : outcome (Z * kern) :=
  let current := get_current (k_sched k) in
  if current =? 0 then Ok (0, k)
  else
    t ← get_task (k_sched k) current;
    if t_parent t =? 0 then Ok (0, k) else p ← get_task (k_sched k) (t_parent t); Ok (t_pid p, k).

Definition sys_getuid (k : kern) : outcome (Z * kern) :=
  let current := get_current (k_sched k) in
  if current =? 0 then Ok (0, k) else t ← get_task (k_sched k) current; Ok (t_uid t, k).

Definition sys_getgid (k : kern) : outcome (Z * kern) :=
  let current := get_current (k_sched k) in
  if current =? 0 then Ok (0, k) else t ← get_task (k_sched k) current; Ok (t_gid t, k).

Definition sys_gettid : kern -> outcome (Z * kern) := sys_getpid.

Definition sys_sched_yield (k : kern) : outcome (Z * kern) :=
  s ← schedule (k_sched k); Ok (0, with_sched k s).

(** ** The user heap *)

Definition sys_brk (k : kern) (brk : Z) : outcome (Z * kern) :=
  if (brk =? 0) || (brk <? USER_HEAP_START) then Ok (user_brk_current k, k)
  else if USER_HEAP_START + USER_HEAP_SIZE / 2 <? brk then Ok (user_brk_current k, k)
  else Ok (brk, with_heap_ends k brk (user_mmap_current k)).

Definition sys_mmap (k : kern) (addr len prot flags fd offset : Z) : outcome (Z * kern) :=
  if (Z.land flags MAP_ANONYMOUS =? 0) || negb (i64 fd =? -1) then Ok (- ENOSYS, k)
  else
    let len := PAGE_ALIGN len in
    if USER_HEAP_START + USER_HEAP_SIZE <? u64 (user_mmap_current k + len) then Ok (- ENOMEM, k)
    else
      let result := user_mmap_current k in
      let k := with_heap_ends k (user_brk_current k) (u64 (user_mmap_current k + len)) in
      m ← zero_bytes (k_mem k) result len;
      Ok (result, with_mem k m).

Definition sys_munmap (k : kern) (addr len : Z) : outcome (Z * kern) := Ok (0, k).

(** ** Programs *)

Definition sys_clone (k : kern) : outcome (Z * kern) := Ok (- ENOSYS, k).
Definition sys_nanosleep (k : kern) (req rem : Z) : outcome (Z * kern) := Ok (0, k).

(** Closing the file and giving up. *)
Definition exec_close (k : kern) (f ret : Z) : outcome (Z * kern) :=
  r ← vfs_close (k_vfs k) f; Ok (ret, with_vfs k (snd r)).
Definition exec_free (k : kern) (p ret : Z) : outcome (Z * kern) :=
  h ← a_kfree (heap (fs (k_vfs k))) p; Ok (ret, with_vfs k (with_fs (k_vfs k) (with_heap (fs (k_vfs k)) h))).

(** [comm[i] = path[i]] for at most [n] characters, and the terminator; [path] is read
    again, after the load. *)
Fixpoint comm_loop (n : nat) (m : mem) (a : Z) : outcome (list Z) :=
  c ← load8 m a;
  if c =? 0 then Ok []
  else match n with O => Ok [] | S n => cs ← comm_loop n m (u64 (a + 1)); Ok (c :: cs) end.
Definition exec_comm (comm name : list Z) : list Z := name ++ 0 :: drop (S (length name)) comm.

Definition exec_task (name : list Z) (t : task) : task :=
  Task (t_state t) (t_prio t) (t_static_prio t) (t_nice t) (t_pid t) (t_tgid t) (t_uid t) (t_gid t)
    (exec_comm (t_comm t) name) (t_sp t) (t_pc t) (t_x19 t) (t_mm t) (t_active_mm t) (t_stack t) (t_stack_size t)
    (t_parent t) (t_next t) (t_prev t) (t_exit_code t) (t_signals t) (t_pending_signals t)
    (Z.land (Z.lor (t_flags t) PF_USER) (Z.lnot PF_KTHREAD)).

(** [fuel] bounds the dynamic section of the image. *)
Definition sys_execve (fuel : nat) (k : kern) (filename : Z) : outcome (Z * kern) :=
  path ← load_string (k_mem k) filename;
  r ← vfs_open (k_vfs k) path O_RDONLY 0;
  let '(f, v) := r in
  let k := with_vfs k v in
  if f =? 0 then Ok (- ENOENT, k)
  else
    x ← Vfs.get_file (k_vfs k) f;
    ino ← file_inode (k_vfs k) x;
    file_size ← (if is_null ino then Ok 0 else w ← get_vnode (fs (k_vfs k)) ino; Ok (u64 (i_size w)));
    if (file_size =? 0) || (64 * 1024 * 1024 <? file_size) then exec_close k f (- ENOEXEC)
    else
      r ← a_kmalloc (heap (fs (k_vfs k))) file_size GFP_KERNEL;
      let '(buf, h) := r in
      let k := with_vfs k (with_fs (k_vfs k) (with_heap (fs (k_vfs k)) h)) in
      if buf =? 0 then exec_close k f (- ENOMEM)
      else
        r ← vfs_read (k_vfs k) f buf file_size;
        let '(bytes_read, bs, v) := r in
        c ← vfs_close v f;
        let k := with_vfs k (snd c) in
        if negb (bytes_read =? file_size) then exec_free k buf (- EIO)
        else
          let m := map_region (k_mem k) buf bs in
          ret ← elf_validate m buf file_size;
          if negb (ret =? 0) then exec_free k buf (- ENOEXEC)
          else
            mem_size ← elf_calc_size m buf file_size;
            if mem_size =? 0 then exec_free k buf (- ENOEXEC)
            else
              r ← elf_load_at fuel m buf file_size USER_CODE_BASE;
              let '(ret, m, info) := r in
              let k := with_mem k (unmap_region m (k_mem k) buf file_size) in
              r ← exec_free k buf (- ENOEXEC);
              let '(failed, k) := r in
              match info with
              | Some info =>
                  if negb (ret =? 0) then Ok (failed, k)
                  else
                    let current := get_current (k_sched k) in
                    s ← (if current =? 0 then Ok (k_sched k)
                         else name ← comm_loop (Z.to_nat (TASK_COMM_LEN - 1)) (k_mem k) filename;
                              upd_task (k_sched k) current (exec_task name));
                    Ok (i64 (li_entry info), with_sched k s)
              | None => Ok (failed, k)
              end.

(** ** uname *)

(** A field of 65 bytes: the name without a terminator, and a zero at its end. *)
Definition uname_field (m : mem) (a : Z) (name : list Z) : outcome mem :=
  m ← store_bytes m a (take 64 name); store8 m (u64 (a + 64)) 0.

Definition sysname : list Z := [71; 67; 32; 65; 79; 83].
Definition nodename : list Z := [103; 99; 45; 97; 111; 115].
Definition release : list Z := [48; 46; 49; 46; 48].
Definition version : list Z := [48; 46; 49; 46; 48; 45; 97; 114; 109; 54; 52].
Definition machine : list Z := [97; 97; 114; 99; 104; 54; 52].

Definition sys_uname (k : kern) (buf : Z) : outcome (Z * kern) :=
  m ← uname_field (k_mem k) buf sysname;
  m ← uname_field m (u64 (buf + 65)) nodename;
  m ← uname_field m (u64 (buf + 130)) release;
  m ← uname_field m (u64 (buf + 195)) version;
  m ← uname_field m (u64 (buf + 260)) machine;
  m ← uname_field m (u64 (buf + 325)) [];
  Ok (0, with_mem k m).

(** ** The dispatcher *)

(** [regs]: x8 and x0 to x5. *)
Record pt_regs := PtRegs { x8 : Z; x0 : Z; x1 : Z; x2 : Z; x3 : Z; x4 : Z; x5 : Z }.

Definition syscall_table (fuel : nat) (junk : list Z) (nr : Z) (k : kern) (a0 a1 a2 a3 a4 a5 : Z) : outcome (Z * kern) :=
  if nr =? SYS_read then sys_read k a0 a1 a2
  else if nr =? SYS_write then sys_write k a0 a1 a2 junk
  else if nr =? SYS_openat then sys_openat k a0 a1 a2 a3
  else if nr =? SYS_close then sys_close k a0
  else if nr =? SYS_lseek then sys_lseek k a0 a1 a2
  else if (nr =? SYS_exit) || (nr =? SYS_exit_group) then sys_exit k a0
  else if nr =? SYS_getpid then sys_getpid k
  else if nr =? SYS_getppid then sys_getppid k
  else if (nr =? SYS_getuid) || (nr =? SYS_geteuid) then sys_getuid k
  else if (nr =? SYS_getgid) || (nr =? SYS_getegid) then sys_getgid k
  else if nr =? SYS_gettid then sys_gettid k
  else if nr =? SYS_brk then sys_brk k a0
  else if nr =? SYS_mmap then sys_mmap k a0 a1 a2 a3 a4 a5
  else if nr =? SYS_munmap then sys_munmap k a0 a1
  else if nr =? SYS_clone then sys_clone k
  else if nr =? SYS_execve then sys_execve fuel k a0
  else if nr =? SYS_uname then sys_uname k a0
  else if nr =? SYS_sched_yield then sys_sched_yield k
  else if nr =? SYS_nanosleep then sys_nanosleep k a0 a1
  else Ok (- ENOSYS, k).

Definition handle_syscall (fuel : nat) (junk : list Z) (k : kern) (regs : pt_regs) : outcome (Z * kern) :=
  let nr := x8 regs in
  if NR_syscalls <=? nr then Ok (- ENOSYS, k)
  else syscall_table fuel junk nr k (x0 regs) (x1 regs) (x2 regs) (x3 regs) (x4 regs) (x5 regs).

End syscall.
Arguments kern A : clear implicits.
