(* ===== verification/SyscallSpec.v ===== *)
(** * System calls: user memory, the descriptor table and the invariant *)
From S2P Require Import Prelude Memory AllocSpec Pmm Sched SchedSpec SchedTheorems Ramfs RamfsInv RamfsData Vfs VfsSpec VfsFiles Elf Syscall.
#[local] Open Scope Z_scope.

(** ** User memory *)

(** The addresses of a region are that many keys of the map. *)
Lemma mapped_size (m : mem) a n : mapped m a (Z.of_nat n) -> (n <= size m)%nat.
Proof.
  intros Hm. rewrite <- size_dom. replace n with (length (seqZ a (Z.of_nat n))) by (rewrite length_seqZ; lia).
  rewrite <- (size_list_to_set (C := gset Z)) by apply NoDup_seqZ. apply subseteq_size.
  intros x Hx. apply elem_of_list_to_set, elem_of_seqZ in Hx. by apply elem_of_dom, Hm.
Qed.

Lemma bytes_mapped m a bs : bytes_at m a bs -> mapped m a (Z.of_nat (length bs)).
Proof.
  intros Hb x Hx. destruct (lookup_lt_is_Some_2 bs (Z.to_nat (x - a))) as [b Eb]; [lia|].
  exists b. replace x with (a + Z.of_nat (Z.to_nat (x - a))) by lia. by apply Hb.
Qed.

Lemma load_loop_ok m bs : forall fuel a, bytes_at m a bs -> 0 <= a -> a + Z.of_nat (length bs) <= 2 ^ 64 ->
  (length bs <= fuel)%nat -> load_loop fuel m a (Z.of_nat (length bs)) = Ok bs.
Proof.
  induction bs as [|b bs IH]; intros fuel a Hb Ha Hl Hf; [by destruct fuel|].
  apply bytes_at_cons in Hb as [H0 Hb]. destruct fuel as [|fuel]; [simpl in Hf; lia|]. cbn [load_loop length] in *.
  rewrite (proj2 (Z.leb_gt _ _)) by lia. rewrite (load8_ok _ _ _ H0), bind_ok.
  destruct bs as [|c bs]; [by destruct fuel|]. cbn [length] in *. rewrite u64_small by lia.
  replace (Z.of_nat (S (S (length bs))) - 1) with (Z.of_nat (S (length bs))) by lia.
  by rewrite (IH fuel (a + 1)) by (done || lia).
Qed.

Lemma load_bytes_ok m a bs : bytes_at m a bs -> 0 <= a -> a + Z.of_nat (length bs) <= 2 ^ 64 ->
  load_bytes m a (Z.of_nat (length bs)) = Ok bs.
Proof.
  intros Hb Ha Hl. apply load_loop_ok; try done. pose proof (mapped_size m a (length bs) (bytes_mapped m a bs Hb)). lia.
Qed.

(** Every mapped region holds some bytes. *)
Lemma mapped_bytes m a n : mapped m a (Z.of_nat n) -> exists bs, length bs = n /\ bytes_at m a bs.
Proof.
  revert a. induction n as [|n IH]; intros a Hm; [by exists []|].
  destruct (Hm a) as [b Hb]; [lia|]. destruct (IH (a + 1)) as (bs & Hl & Hbs); [intros x Hx; apply Hm; lia|].
  exists (b :: bs). split; [simpl; lia|]. by apply bytes_at_cons.
Qed.

Lemma string_loop_ok m s : forall fuel a, bytes_at m a (s ++ [0]) -> Forall (fun c => c <> 0) s -> 0 <= a ->
  a + Z.of_nat (length s) < 2 ^ 64 -> (length s < fuel)%nat -> string_loop fuel m a = Ok s.
Proof.
  induction s as [|c s IH]; intros fuel a Hb Hz Ha Hl Hf; (destruct fuel as [|fuel]; [lia|]); cbn [string_loop app length] in *;
    apply bytes_at_cons in Hb as [H0 Hb]; rewrite (load8_ok _ _ _ H0), bind_ok; [done|].
  inversion_clear Hz. rewrite (proj2 (Z.eqb_neq _ _)) by done. rewrite u64_small by lia. by rewrite IH by (done || lia).
Qed.

Lemma load_string_ok m a s : bytes_at m a (s ++ [0]) -> Forall (fun c => c <> 0) s -> 0 <= a ->
  a + Z.of_nat (length s) < 2 ^ 64 -> load_string m a = Ok s.
Proof.
  intros Hb Hz Ha Hl. apply string_loop_ok; try done.
  pose proof (mapped_size m a _ (bytes_mapped m a _ Hb)) as Hs. rewrite length_app in Hs. simpl in Hs. lia.
Qed.

Lemma put_bytes_ok bs : forall m a, mapped m a (Z.of_nat (length bs)) -> 0 <= a -> a + Z.of_nat (length bs) <= 2 ^ 64 ->
  exists m', store_bytes m a bs = Ok m' /\ wrote m m' a bs /\ dom m' = dom m.
Proof.
  induction bs as [|b bs IH]; intros m a Hm Ha Hl; [exists m; split; [done|]; split; [apply wrote_nil|done]|].
  cbn [store_bytes length] in *. assert (is_Some (m !! a)) as Hma by (apply Hm; lia).
  rewrite store8_ok, bind_ok by done. assert (dom (<[a:=b]> m) = dom m) as Hd by by apply dom_insert_lookup_L.
  destruct bs as [|c bs].
  { exists (<[a:=b]> m). split; [done|]. split; [apply wrote_cons, wrote_nil|done]. }
  cbn [length] in *. rewrite u64_small by lia. destruct (IH (<[a:=b]> m) (a + 1)) as (m' & E & W & D).
  - apply mapped_insert. intros x Hx. apply Hm. cbn [length] in Hx. lia.
  - lia.
  - cbn [length]. lia.
  - exists m'. split; [done|]. split; [by apply wrote_cons|congruence].
Qed.

Lemma zero_loop_ok n : forall fuel m a, mapped m a (Z.of_nat n) -> 0 <= a -> a + Z.of_nat n <= 2 ^ 64 -> (n <= fuel)%nat ->
  exists m', zero_loop fuel m a (Z.of_nat n) = Ok m' /\ wrote m m' a (replicate n 0) /\ dom m' = dom m.
Proof.
  induction n as [|n IH]; intros fuel m a Hm Ha Hl Hf; [exists m; split; [by destruct fuel|]; split; [apply wrote_nil|done]|].
  destruct fuel as [|fuel]; [lia|]. cbn [zero_loop]. rewrite (proj2 (Z.leb_gt _ _)) by lia.
  assert (is_Some (m !! a)) as Hma by (apply Hm; lia). rewrite store8_ok, bind_ok by done.
  assert (dom (<[a:=0]> m) = dom m) as Hd by by apply dom_insert_lookup_L.
  replace (Z.of_nat (S n) - 1) with (Z.of_nat n) by lia. destruct n as [|n].
  { exists (<[a:=0]> m). split; [by destruct fuel|]. split; [apply wrote_cons, wrote_nil|done]. }
  rewrite u64_small by lia. destruct (IH fuel (<[a:=0]> m) (a + 1)) as (m' & E & W & D); [|lia..|].
  - apply mapped_insert. intros x Hx. apply Hm. lia.
  - exists m'. split; [done|]. split; [by apply wrote_cons|congruence].
Qed.

Lemma zero_bytes_ok m a n : mapped m a n -> 0 <= n -> 0 <= a -> a + n <= 2 ^ 64 ->
  exists m', zero_bytes m a n = Ok m' /\ wrote m m' a (replicate (Z.to_nat n) 0) /\ dom m' = dom m.
Proof.
  intros Hm Hn Ha Hl. pose proof (zero_loop_ok (Z.to_nat n) (S (size m)) m a) as Hz.
  pose proof (mapped_size m a (Z.to_nat n)) as Hs. rewrite Z2Nat.id in Hz, Hs by done. apply Hz; try done. specialize (Hs Hm). lia.
Qed.

(** What [is_valid_user_ptr] accepts. *)
Lemma user_ptr_range ptr len : 0 <= ptr -> 0 <= len -> is_valid_user_ptr ptr len = true -> 0 < ptr /\ ptr + len < 2 ^ 64 \/ 0 < ptr /\ len = 0.
Proof.
  intros Hp Hl. unfold is_valid_user_ptr. destruct (Z.eqb_spec ptr 0); [done|].
  destruct (Z.ltb_spec 0 len); cbn [andb]; [|intros _; right; lia].
  destruct (Z.ltb_spec (2 ^ 64 - 1 - len) ptr); [done|]. intros _. left. lia.
Qed.

(** ** The table of file descriptors *)

(** The table [fds] hands out exactly the open files of the set [fs], each to one
    descriptor from 3 on; the first three are reserved. *)
Record fds_ok (fds : list fd_entry) (fs : gset Z) : Prop := {
  fo_len : length fds = MAX_FDS;
  fo_std i e : (i < 3)%nat -> fds !! i = Some e -> fe_in_use e = true /\ fe_file e = 0;
  fo_live i e : (3 <= i)%nat -> fds !! i = Some e -> fe_in_use e = true -> fe_file e ∈ fs;
  fo_inj i j d e : (3 <= i)%nat -> (3 <= j)%nat -> fds !! i = Some d -> fds !! j = Some e ->
    fe_in_use d = true -> fe_in_use e = true -> fe_file d = fe_file e -> i = j;
  fo_all f : f ∈ fs -> exists i e, (3 <= i)%nat /\ fds !! i = Some e /\ fe_in_use e = true /\ fe_file e = f
}.

Definition initial_fds : list fd_entry := replicate 3 fd_reserved ++ replicate (MAX_FDS - 3) fd_free.

Lemma initial_fds_ok : fds_ok initial_fds ∅.
Proof.
  assert (forall i e, (3 <= i)%nat -> initial_fds !! i = Some e -> e = fd_free) as Hfree.
  { intros i e Hi He. unfold initial_fds in He. rewrite lookup_app_r in He by (simpl; lia).
    by apply lookup_replicate in He as [-> _]. }
  split.
  - done.
  - intros i e Hi He. unfold initial_fds in He. rewrite lookup_app_l in He by (simpl; lia).
    by apply lookup_replicate in He as [-> _].
  - intros i e Hi He. apply Hfree in He as ->; done.
  - intros i j d e Hi _ Hd _. apply Hfree in Hd as ->; done.
  - set_solver.
Qed.

Lemma insert_cases {X} (l : list X) i j x y : (i < length l)%nat -> <[i := x]> l !! j = Some y ->
  (j = i /\ y = x) \/ (j <> i /\ l !! j = Some y).
Proof.
  intros Hlt Hj. destruct (decide (j = i)) as [->|]; [left; rewrite list_lookup_insert_eq in Hj by done; split; congruence|].
  right. by rewrite list_lookup_insert_ne in Hj.
Qed.

(** A free descriptor gets a new file. *)
Lemma fds_open fds fs i e fl b f : fds_ok fds fs -> (3 <= i)%nat -> fds !! i = Some e -> fe_in_use e = false -> f ∉ fs -> b = true ->
  fds_ok (<[i := FdEntry f fl b]> fds) ({[f]} ∪ fs).
Proof.
  intros [] Hi He Hu Hf ->. assert (i < length fds)%nat as Hlt by (by eapply lookup_lt_Some).
  pose proof (fun j d => insert_cases fds i j (FdEntry f fl true) d Hlt) as Hins.
  split.
  - by rewrite length_insert.
  - intros j d Hj [[-> ->]|[_ Hd]]%Hins; [lia|]. by apply (fo_std0 j).
  - intros j d Hj [[-> ->]|[_ Hd]]%Hins Hud; [cbn; set_solver|]. apply elem_of_union_r. by apply (fo_live0 j).
  - intros j k d e' Hj Hk [[-> ->]|[Hne Hd]]%Hins [[-> ->]|[Hne' He']]%Hins Hud Hue' E; cbn in *; [done| | |by apply (fo_inj0 j k d e')].
    + exfalso. apply Hf. rewrite E. by apply (fo_live0 k).
    + exfalso. apply Hf. rewrite <- E. by apply (fo_live0 j).
  - intros g [->%elem_of_singleton|Hg]%elem_of_union.
    + exists i, (FdEntry f fl true). by rewrite list_lookup_insert_eq.
    + destruct (fo_all0 g Hg) as (j & d & Hj & Hd & Hud & Hgd). exists j, d.
      rewrite list_lookup_insert_ne; [done|]. intros ->. congruence.
Qed.

(** A free descriptor stays free. *)
Lemma fds_stay fds fs i e : fds_ok fds fs -> (3 <= i)%nat -> fds !! i = Some e -> fe_in_use e = false ->
  fds_ok (<[i := fd_free]> fds) fs.
Proof.
  intros [] Hi He Hu. assert (i < length fds)%nat as Hlt by (by eapply lookup_lt_Some).
  pose proof (fun j d => insert_cases fds i j fd_free d Hlt) as Hins.
  split.
  - by rewrite length_insert.
  - intros j d Hj [[-> ->]|[_ Hd]]%Hins; [lia|]. by apply (fo_std0 j).
  - intros j d Hj [[-> ->]|[_ Hd]]%Hins Hud; [done|]. by apply (fo_live0 j).
  - intros j k d e' Hj Hk [[-> ->]|[_ Hd]]%Hins [[-> ->]|[_ He']]%Hins; [done..|]. by apply (fo_inj0 j k d e').
  - intros g Hg. destruct (fo_all0 g Hg) as (j & d & Hj & Hd & Hud & Hgd). exists j, d.
    rewrite list_lookup_insert_ne; [done|]. intros ->. congruence.
Qed.

(** A descriptor in use is given back. *)
Lemma fds_close fds fs i e : fds_ok fds fs -> (3 <= i)%nat -> fds !! i = Some e -> fe_in_use e = true ->
  fds_ok (<[i := fd_free]> fds) (fs ∖ {[fe_file e]}).
Proof.
  intros [] Hi He Hu. assert (i < length fds)%nat as Hlt by (by eapply lookup_lt_Some).
  pose proof (fun j d => insert_cases fds i j fd_free d Hlt) as Hins.
  split.
  - by rewrite length_insert.
  - intros j d Hj [[-> ->]|[_ Hd]]%Hins; [lia|]. by apply (fo_std0 j).
  - intros j d Hj [[-> ->]|[Hne Hd]]%Hins Hud; [done|]. apply elem_of_difference. split; [by apply (fo_live0 j)|].
    intros E%elem_of_singleton. apply Hne. by apply (fo_inj0 j i d e).
  - intros j k d e' Hj Hk [[-> ->]|[Hne Hd]]%Hins [[-> ->]|[Hne' He']]%Hins; [done..|]. by apply (fo_inj0 j k d e').
  - intros g [Hg Hne]%elem_of_difference. destruct (fo_all0 g Hg) as (j & d & Hj & Hd & Hud & Hgd). exists j, d.
    rewrite list_lookup_insert_ne; [done|]. intros ->. apply Hne, elem_of_singleton. congruence.
Qed.

Section kern.
Context {A : Type} `{AllocatorLaws A}.
Implicit Types (k : kern A) (ch : Z -> list Z).

(** ** The invariant *)

Definition HEAP_MID : Z := USER_HEAP_START + USER_HEAP_SIZE / 2.
Definition HEAP_END : Z := USER_HEAP_START + USER_HEAP_SIZE.

(** [ch] gives the children of each directory and [q] the run queue. *)
Record kern_inv k ch (q : list Z) : Prop := {
  ki_switch : switch_ok (k_vfs k) ch;
  ki_fds : fds_ok (fd_table (init_fd_table k)) (dom (files (k_vfs k)));
  ki_sched : good (k_sched k) q;
  ki_brk : USER_HEAP_START <= user_brk_current k <= HEAP_MID;
  ki_mmap : HEAP_MID <= user_mmap_current k <= HEAP_END /\ user_mmap_current k mod PAGE_SIZE = 0
}.

Lemma init_idem k : init_fd_table (init_fd_table k) = init_fd_table k.
Proof using Type. unfold init_fd_table. by destruct (fd_table_initialized k) eqn:E; [rewrite E|]. Qed.

Lemma init_fields k : k_vfs (init_fd_table k) = k_vfs k /\ k_sched (init_fd_table k) = k_sched k /\ k_mem (init_fd_table k) = k_mem k /\
  user_brk_current (init_fd_table k) = user_brk_current k /\ user_mmap_current (init_fd_table k) = user_mmap_current k /\
  console (init_fd_table k) = console k /\ fd_table_initialized (init_fd_table k) = true.
Proof using Type. unfold init_fd_table. by destruct (fd_table_initialized k) eqn:E; [rewrite E|]. Qed.

Lemma table_init_inv k ch q : kern_inv k ch q -> kern_inv (init_fd_table k) ch q.
Proof using Type.
  intros []. destruct (init_fields k) as (E1 & E2 & _ & E4 & E5 & _). split; rewrite ?E1, ?E2, ?E4, ?E5, ?init_idem; done.
Qed.

(** New contents of the switch, on an initialised table. *)
Lemma inv_vfs k ch q v ch' : kern_inv k ch q -> fd_table_initialized k = true -> switch_ok v ch' ->
  dom (files v) = dom (files (k_vfs k)) -> kern_inv (with_vfs k v) ch' q.
Proof using Type.
  intros [] Hi Hv Hd. split; try done. unfold init_fd_table in *. cbn. rewrite Hi in *. by rewrite Hd.
Qed.

Lemma inv_mem k ch q m : kern_inv k ch q -> kern_inv (with_mem k m) ch q.
Proof using Type. intros []. split; try done. unfold init_fd_table in *. cbn. by destruct (fd_table_initialized k). Qed.
Lemma inv_console k ch q c : kern_inv k ch q -> kern_inv (with_console k c) ch q.
Proof using Type. intros []. split; try done. unfold init_fd_table in *. cbn. by destruct (fd_table_initialized k). Qed.
Lemma inv_sched k ch q s q' : kern_inv k ch q -> good s q' -> kern_inv (with_sched k s) ch q'.
Proof using Type. intros [] ?. split; try done. unfold init_fd_table in *. cbn. by destruct (fd_table_initialized k). Qed.
Lemma inv_heap_ends k ch q brk mm : kern_inv k ch q -> USER_HEAP_START <= brk <= HEAP_MID ->
  HEAP_MID <= mm <= HEAP_END -> mm mod PAGE_SIZE = 0 -> kern_inv (with_heap_ends k brk mm) ch q.
Proof using Type. intros [] ? ? ?. split; try done. unfold init_fd_table in *. cbn. by destruct (fd_table_initialized k). Qed.

(** A descriptor: none, or an open file. *)
Lemma get_file_cases k ch q fd : kern_inv k ch q -> fd_table_initialized k = true ->
  get_file k fd = 0 \/ exists i e x, fd = Z.of_nat i /\ (3 <= i)%nat /\ fd_table k !! i = Some e /\ fe_in_use e = true /\
    get_file k fd = fe_file e /\ fe_file e <> 0 /\ files (k_vfs k) !! fe_file e = Some x.
Proof using Type*.
  intros [Hs Hf _ _ _] Hi. unfold init_fd_table in Hf. rewrite Hi in Hf. unfold get_file, fd_in_range.
  destruct (Z.leb_spec 0 fd); cbn [andb negb]; [|by left]. destruct (Z.ltb_spec fd (Z.of_nat MAX_FDS)); cbn [negb]; [|by left].
  destruct (fd_table k !! Z.to_nat fd) as [e|] eqn:Ee; [|by left]. destruct (fe_in_use e) eqn:Hu; [|by left].
  destruct (decide (Z.to_nat fd < 3)%nat) as [Hlt|Hge]; [left; by destruct (fo_std _ _ Hf _ _ Hlt Ee) as [_ ->]|].
  right. assert (3 <= Z.to_nat fd)%nat as H3 by lia. pose proof (fo_live _ _ Hf _ _ H3 Ee Hu) as Hl.
  apply elem_of_dom in Hl as [x Hx]. exists (Z.to_nat fd), e, x. split; [lia|]. do 4 (split; [done|]). split; [|done].
  by apply (VfsTheorems.file_nonnull _ _ _ _ (sw_inv _ _ Hs) Hx).
Qed.
End kern.

(** * A booted kernel, on which the properties are instantiated *)

From S2P Require Import Kmalloc KmallocSpec VfsTheorems.

(** The RAM file system is mounted, one task runs, and its memory holds the string
    "/f" at 256 MB and two zeroed pages at the start of the mapping area. *)
Definition user_mem (n : Z) : mem :=
  list_to_map (zip (seqZ USER_HEAP_START 3) (path_f ++ [0])) ∪ list_to_map (zip (seqZ HEAP_MID n) (replicate (Z.to_nat n) 0)).

Lemma zero_pages n : mapped (user_mem n) HEAP_MID n.
Proof.
  intros x Hx. unfold user_mem. apply lookup_union_is_Some. right. rewrite <- elem_of_dom, dom_list_to_map.
  apply elem_of_list_to_set. rewrite fst_zip by by rewrite length_seqZ, length_replicate.
  by apply elem_of_seqZ.
Qed.

Definition boot_kern (v : vfs Kmalloc.heap) (m : mem) (fds : list fd_entry) (init : bool) : kern Kmalloc.heap :=
  Kern v running_one m fds init USER_HEAP_START HEAP_MID [].

Lemma booted_switch : switch_ok booted_vfs (fun _ => []).
Proof.
  split; [exact booted_inv|exact booted_root|]. intros f x Hx.
  assert (files booted_vfs = ∅) as Hf by (vm_compute; reflexivity). rewrite Hf in Hx. by rewrite lookup_empty in Hx.
Qed.

Lemma opened_switch_ok : switch_ok open_vfs tree_f.
Proof.
  split; [exact opened_inv|vm_compute; by eexists|]. intros f x Hx.
  assert (files open_vfs = {[file_f := opened_file]}) as Hf by (vm_compute; reflexivity). rewrite Hf in Hx.
  apply lookup_singleton_Some in Hx as [<- <-]. split; [done|cbn; lia|]. intros _. exists new_inode_f. exact opened_inode.
Qed.

Lemma running_good : good running_one [2].
Proof. apply running_one_good. Qed.

(** Nothing is open. *)
Lemma boot_kern_inv m : kern_inv (boot_kern booted_vfs m [] false) (fun _ => []) [2].
Proof.
  split; cbn; [exact booted_switch| |exact running_good|vm_compute; intuition discriminate|vm_compute; intuition discriminate].
  assert (dom (files booted_vfs) = ∅) as -> by (vm_compute; reflexivity). exact initial_fds_ok.
Qed.

(** Descriptor 3 is the file "/f". *)
Definition fd3_table : list fd_entry := <[3%nat := FdEntry file_f O_CREAT true]> initial_fds.
Definition fd3_kern (m : mem) : kern Kmalloc.heap := boot_kern open_vfs m fd3_table true.

Lemma fd3_kern_inv m : kern_inv (fd3_kern m) tree_f [2].
Proof.
  split; [exact opened_switch_ok| |exact running_good|vm_compute; intuition discriminate|vm_compute; intuition discriminate].
  change (k_vfs (fd3_kern m)) with open_vfs. change (fd_table (init_fd_table (fd3_kern m))) with fd3_table.
  assert (dom (files open_vfs) = {[file_f]} ∪ ∅) as -> by (vm_compute; reflexivity).
  apply (fds_open _ _ _ fd_free); [exact initial_fds_ok|lia|done|done|set_solver|done].
Qed.
