(* ===== verification/SyscallTheorems.v ===== *)
(** * System calls: properties *)
From S2P Require Import Prelude Memory AllocSpec Kmalloc KmallocSpec Pmm PmmSpec Sched SchedSpec SchedTheorems.
From S2P Require Import Ramfs RamfsInv RamfsData RamfsTheorems Vfs VfsSpec VfsTheorems VfsFiles Elf ElfSpec Syscall SyscallSpec.
#[local] Open Scope Z_scope.

Section calls.
Context {A : Type} `{AllocatorLaws A}.
Implicit Types (k : kern A) (ch : Z -> list Z).

(** A call that returns and keeps the invariant. *)
Definition returns (ch : Z -> list Z) (q : list Z) (o : outcome (Z * kern A)) : Prop :=
  exists r k' ch' q', o = Ok (r, k') /\ kern_inv k' ch' q'.

Lemma returns_same k ch q r : kern_inv k ch q -> returns ch q (Ok (r, k)).
Proof using Type. intros I. by exists r, k, ch, q. Qed.

(** A region of user memory that the call may touch. *)
Definition user_region k (a n : Z) : Prop := 0 <= a /\ 0 <= n /\ a + n <= 2 ^ 64 /\ mapped (k_mem k) a n.

Lemma region_bytes k a n : user_region k a n -> exists bs, Z.of_nat (length bs) = n /\ load_bytes (k_mem k) a n = Ok bs.
Proof using Type.
  intros (Ha & Hn & Hl & Hm). rewrite <- (Z2Nat.id n) in Hm by done. destruct (mapped_bytes _ _ _ Hm) as (bs & Hlen & Hb).
  exists bs. split; [lia|]. replace n with (Z.of_nat (length bs)) by lia. apply load_bytes_ok; [done|done|lia].
Qed.

Lemma read_returns k ch q fd buf count : kern_inv k ch q -> 0 <= buf -> 0 <= count ->
  (is_valid_user_ptr buf count = true -> user_region k buf count) -> returns ch q (sys_read k fd buf count).
Proof using Type*.
  intros I Hb Hc Hm. apply table_init_inv in I. unfold sys_read. destruct (init_fields k) as (_ & _ & Em & _ & _ & _ & Hi).
  destruct (is_valid_user_ptr buf count) eqn:Ev; cbn [negb]; [|by apply returns_same].
  destruct (user_ptr_range buf count Hb Hc Ev) as [?|?]; [|]; (destruct (fd =? 0); [by apply returns_same|]);
  (destruct (get_file_cases _ _ _ (i32 fd) I Hi) as [->|(i & e & x & _ & _ & _ & _ & -> & Hnz & Hx)]; [by apply returns_same|]);
  rewrite (proj2 (Z.eqb_neq _ _) Hnz);
  (destruct (vfs_read_file _ _ _ _ buf count (ki_switch _ _ _ I) Hx ltac:(lia) Hc) as (r & bs & v & -> & Hl & Hsw & Hd));
  rewrite bind_ok, Em; cbv beta iota zeta;
  destruct (Hm eq_refl) as (_ & _ & Hr & Hmp);
  (destruct (put_bytes_ok bs (k_mem k) buf) as (m & -> & _); [intros y Hy; apply Hmp; lia|lia|lia|]); rewrite bind_ok;
  do 4 eexists; (split; [done|]); apply inv_mem; by apply (inv_vfs _ ch).
Qed.

(** The new data block, when the file has to grow, and the end of the file. *)
Definition write_fits k (fd count : Z) (junk : list Z) : Prop :=
  forall x, files (k_vfs k) !! get_file (init_fd_table k) (i32 fd) = Some x ->
    let n := f_pos x + count in
    n < 2 ^ 63 - 4096 /\
    forall i, inodes (fs (k_vfs k)) !! private_data x = Some i -> r_cap i < n -> Z.of_nat (length junk) = grown_cap n.

Lemma write_returns k ch q fd buf count junk : kern_inv k ch q -> user_region k buf count -> write_fits k fd count junk ->
  returns ch q (sys_write k fd buf count junk).
Proof using Type*.
  intros I Hm Hfit. apply table_init_inv in I. unfold sys_write. destruct (init_fields k) as (Ev & _ & Em & _ & _ & _ & Hi).
  rewrite Em. destruct (region_bytes k buf count Hm) as (bs & Hl & Hload).
  destruct ((fd =? 1) || (fd =? 2)).
  { rewrite Hload, bind_ok. do 4 eexists. split; [done|]. by apply inv_console. }
  unfold write_fits in Hfit. rewrite <- Ev in Hfit.
  destruct (get_file_cases _ _ _ (i32 fd) I Hi) as [->|(i & e & x & _ & _ & _ & _ & Eg & Hnz & Hx)]; [by apply returns_same|].
  rewrite Eg in *. rewrite (proj2 (Z.eqb_neq _ _) Hnz). destruct (Hfit x Hx) as [Hn Hj].
  assert (forall r v, vfs_write (k_vfs (init_fd_table k)) (fe_file e) r junk = Ok v -> switch_ok (snd v) ch ->
    dom (files (snd v)) = dom (files (k_vfs (init_fd_table k))) ->
    returns ch q (r ← vfs_write (k_vfs (init_fd_table k)) (fe_file e) r junk; let '(ret, v) := r in Ok (ret, with_vfs (init_fd_table k) v))) as Hend.
  { intros r [ret v] -> Hsw Hd. rewrite bind_ok. do 4 eexists. split; [done|]. by apply (inv_vfs _ ch). }
  destruct (buf =? 0).
  { rewrite bind_ok. apply (Hend None (- EFAULT, k_vfs (init_fd_table k))); [|by apply (ki_switch _ _ _ I)|done]. unfold vfs_write. by rewrite (proj2 (Z.eqb_neq _ _) Hnz). }
  unfold writes. rewrite Hx. destruct (f_op x) as [[]|] eqn:Eop; cbn [has_write].
  - rewrite Hload, !bind_ok.
    destruct (vfs_write_file _ _ _ _ bs junk (ki_switch _ _ _ I) Hx) as (r & v & E & Hsw & Hd); [by rewrite Hl|by rewrite Hl|].
    by apply (Hend (Some bs) (r, v)).
  - rewrite bind_ok. apply (Hend (Some []) (- EINVAL, k_vfs (init_fd_table k))); [|apply (ki_switch _ _ _ I)|done].
    unfold vfs_write, Vfs.get_file. rewrite (proj2 (Z.eqb_neq _ _) Hnz), Hx. cbn [of_option]. by rewrite bind_ok, Eop.
  - rewrite bind_ok. apply (Hend (Some []) (- EINVAL, k_vfs (init_fd_table k))); [|apply (ki_switch _ _ _ I)|done].
    unfold vfs_write, Vfs.get_file. rewrite (proj2 (Z.eqb_neq _ _) Hnz), Hx. cbn [of_option]. by rewrite bind_ok, Eop.
Qed.

(** A path in user memory. *)
Definition user_path k (a : Z) (path : list Z) : Prop :=
  bytes_at (k_mem k) a (path ++ [0]) /\ Forall (fun c => c <> 0) path /\ 0 <= a /\ a + Z.of_nat (length path) < 2 ^ 64.

Lemma openat_returns k ch q dirfd pathname flags mode path : kern_inv k ch q -> user_path k pathname path ->
  path_ok (k_vfs k) ch path -> returns ch q (sys_openat k dirfd pathname flags mode).
Proof using Type*.
  intros I (Hb & Hz & Ha & Hl) Hp. apply table_init_inv in I. unfold sys_openat, alloc_fd.
  destruct (init_fields k) as (Ev & _ & Em & _ & _ & _ & Hi). rewrite init_idem. set (k1 := init_fd_table k) in *.
  destruct (list_find _ (drop 3 (fd_table k1))) as [[n e]|] eqn:Ef; [|by apply returns_same].
  apply list_find_Some in Ef as (He & Hu & _). rewrite lookup_drop in He.
  assert (3 + n < length (fd_table k1))%nat as Hlt by (by eapply lookup_lt_Some).
  pose proof (ki_fds _ _ _ I) as Hfds. unfold k1 in Hfds. rewrite init_idem in Hfds. fold k1 in Hfds.
  pose proof (fo_len _ _ Hfds) as Hlen. rewrite Hlen in Hlt.
  cbv beta iota zeta. rewrite (proj2 (Z.ltb_ge _ _)) by lia.
  change (k_mem (with_fds k1 _ _)) with (k_mem k1). rewrite Em, (load_string_ok _ _ path), bind_ok by done.
  change (k_vfs (with_fds k1 _ _)) with (k_vfs k1). pose proof (ki_switch _ _ _ I) as Hsw. rewrite <- Ev in Hp.
  destruct (vfs_open_file (k_vfs k1) ch path (i32 flags) (u32 mode) Hsw Hp) as (f & v & ch' & -> & Hsw' & Hop).
  rewrite bind_ok. cbv beta iota zeta. rewrite Nat2Z.id.
  assert (forall e', fds_ok (<[(3 + n)%nat := e']> (fd_table k1)) (dom (files v)) ->
    kern_inv (with_fds (with_vfs k1 v) (<[(3 + n)%nat := e']> (fd_table k1)) true) ch' q) as Hend.
  { intros e' Hok. destruct I. by split. }
  destruct Hop as [[-> Hfs]|(Hf & Hnew & Hd)].
  - cbn [Z.eqb]. unfold free_fd, fd_in_range. rewrite (proj2 (Z.leb_le _ _)), (proj2 (Z.ltb_lt _ _)) by lia. cbn [andb].
    rewrite Nat2Z.id. cbn [fd_table with_fds with_vfs fd_table_initialized]. rewrite list_insert_insert_eq.
    do 4 eexists. split; [done|]. rewrite Hi. apply Hend. rewrite Hfs. apply (fds_stay _ _ _ e); (done || lia).
  - rewrite (proj2 (Z.eqb_neq _ _) Hf). cbn [fd_table with_fds with_vfs fd_table_initialized].
    rewrite list_lookup_insert_eq by (rewrite Hlen; lia). cbn [of_option]. rewrite bind_ok, list_insert_insert_eq.
    do 4 eexists. split; [done|]. rewrite Hi. apply Hend. rewrite Hd. cbn [fe_in_use].
    apply (fds_open _ _ _ e); try done; [lia|]. by apply not_elem_of_dom.
Qed.

Lemma close_returns k ch q fd : kern_inv k ch q -> returns ch q (sys_close k fd).
Proof using Type*.
  intros I. apply table_init_inv in I. unfold sys_close. destruct (init_fields k) as (_ & _ & _ & _ & _ & _ & Hi).
  destruct (fd <? 3); [by apply returns_same|].
  destruct (get_file_cases _ _ _ (i32 fd) I Hi) as [->|(i & e & x & Efd & Hi3 & He & Hu & -> & Hnz & Hx)]; [by apply returns_same|].
  rewrite (proj2 (Z.eqb_neq _ _) Hnz). pose proof (ki_switch _ _ _ I) as Hsw. pose proof (sw_files _ _ Hsw _ _ Hx) as Hok.
  destruct (vfs_close_ok _ ch _ x (sw_inv _ _ Hsw) Hx (fk_count _ _ Hok)) as (v & -> & Iv & Hfs & _ & Hrd & Hin & _).
  rewrite bind_ok. cbn [snd]. pose proof (ki_fds _ _ _ I) as Hfds. rewrite init_idem in Hfds.
  pose proof (fo_len _ _ Hfds) as Hlen. assert (i < MAX_FDS)%nat as Hlt by (rewrite <- Hlen; by eapply lookup_lt_Some).
  unfold free_fd, fd_in_range. rewrite Efd, (proj2 (Z.leb_le _ _)), (proj2 (Z.ltb_lt _ _)) by lia. cbn [andb]. rewrite Nat2Z.id.
  do 4 eexists. split; [done|]. cbn [fd_table with_vfs fd_table_initialized]. rewrite Hi.
  pose proof (close_switch _ ch _ x v Hsw Hx Iv Hfs Hrd Hin) as Hsw'. destruct I. split; try done.
  unfold init_fd_table. cbn. rewrite Hfs, dom_delete_L. by apply fds_close.
Qed.

(** A seek whose arithmetic stays in range. *)
Definition seek_fits k (fd offset whence : Z) : Prop :=
  forall x b, files (k_vfs k) !! get_file (init_fd_table k) (i32 fd) = Some x ->
    seek_base (k_vfs k) x (i32 whence) = Some b -> - 2 ^ 63 <= b + i64 offset < 2 ^ 63.

Lemma lseek_returns k ch q fd offset whence : kern_inv k ch q -> seek_fits k fd offset whence ->
  returns ch q (sys_lseek k fd offset whence).
Proof using Type*.
  intros I Hfit. apply table_init_inv in I. unfold sys_lseek. destruct (init_fields k) as (Ev & _ & _ & _ & _ & _ & Hi).
  unfold seek_fits in Hfit. rewrite <- Ev in Hfit.
  destruct (get_file_cases _ _ _ (i32 fd) I Hi) as [->|(i & e & x & _ & _ & _ & _ & Eg & Hnz & Hx)]; [by apply returns_same|].
  rewrite Eg in *. rewrite (proj2 (Z.eqb_neq _ _) Hnz).
  destruct (vfs_lseek_file _ ch _ x (i64 offset) (i32 whence) (ki_switch _ _ _ I) Hx) as (r & v & -> & Hsw & Hd); [eauto|].
  rewrite bind_ok. do 4 eexists. split; [done|]. by apply (inv_vfs _ ch).
Qed.

(** ** Tasks and the user heap *)

Lemma current_task k ch q : kern_inv k ch q -> exists t, tasks (k_sched k) !! rq_current (runqueue (k_sched k)) = Some t.
Proof using Type. intros I. destruct (ki_sched _ _ _ I) as (Is & _). apply (si_current _ _ Is). Qed.

Lemma exit_returns k ch q code : kern_inv k ch q -> get_current (k_sched k) <> init_task -> returns ch q (sys_exit k code).
Proof using Type.
  intros I Hc. unfold sys_exit, get_current in *. pose proof (ki_sched _ _ _ I) as (Is & Hr & [?|Hh]); [done|].
  destruct q as [|cur l]; [done|]. injection Hh as Hh.
  destruct (exit_spec (k_sched k) cur l (i32 code) Is (eq_sym Hh) Hr) as (s & -> & _ & G & _). rewrite bind_ok.
  do 4 eexists. split; [done|]. by apply (inv_sched k ch (cur :: l)).
Qed.

Lemma yield_returns k ch q : kern_inv k ch q -> returns ch q (sys_sched_yield k).
Proof using Type.
  intros I. unfold sys_sched_yield. destruct (schedule_good _ _ (ki_sched _ _ _ I)) as (s & -> & G & _).
  rewrite bind_ok. do 4 eexists. split; [done|]. by apply (inv_sched k ch q).
Qed.

(** A property of the current task, or 0 or -1. *)
Lemma task_returns k ch q (f : task -> Z) d : kern_inv k ch q ->
  returns ch q (let current := get_current (k_sched k) in if current =? 0 then Ok (d, k) else t ← get_task (k_sched k) current; Ok (f t, k)).
Proof using Type.
  intros I. destruct (current_task _ _ _ I) as [t Ht]. cbv zeta. unfold get_current. destruct (_ =? 0); [by apply returns_same|].
  rewrite (get_task_ok _ _ _ Ht), bind_ok. by apply returns_same.
Qed.

Lemma brk_returns k ch q brk : kern_inv k ch q -> returns ch q (sys_brk k brk).
Proof using Type.
  intros I. unfold sys_brk. destruct (Z.eqb_spec brk 0), (Z.ltb_spec brk USER_HEAP_START); cbn [orb]; try by apply returns_same.
  destruct (Z.ltb_spec (USER_HEAP_START + USER_HEAP_SIZE / 2) brk); [by apply returns_same|].
  do 4 eexists. split; [done|]. pose proof (ki_mmap _ _ _ I) as [Hr Ha]. apply (inv_heap_ends k ch q); [done| |done|done]. unfold HEAP_MID, USER_HEAP_START in *. lia.
Qed.

Lemma mmap_returns k ch q addr len prot flags fd offset : kern_inv k ch q -> 0 <= len < 2 ^ 63 ->
  user_region k HEAP_MID (USER_HEAP_SIZE / 2) -> returns ch q (sys_mmap k addr len prot flags fd offset).
Proof using Type.
  intros I Hl (_ & _ & _ & Hm). unfold sys_mmap. destruct (_ || _); [by apply returns_same|]. cbv zeta.
  pose proof (ki_mmap _ _ _ I) as [Hr Ha]. rewrite PAGE_ALIGN_spec by (unfold PAGE_SIZE; lia).
  set (n := (len + 4095) / 4096 * 4096). assert (0 <= n < 2 ^ 63 + 4096) as Hn by (unfold n; lia_mod).
  change (USER_HEAP_START + USER_HEAP_SIZE) with 0x14000000. change HEAP_MID with 0x12000000 in *. change HEAP_END with 0x14000000 in *.
  change (USER_HEAP_SIZE / 2) with 0x02000000 in *. rewrite u64_small by lia.
  destruct (Z.ltb_spec 0x14000000 (user_mmap_current k + n)); [by apply returns_same|].
  destruct (zero_bytes_ok (k_mem k) (user_mmap_current k) n) as (m & E & _); [intros x Hx; apply Hm; lia|lia..|].
  change (k_mem (with_heap_ends k (user_brk_current k) (user_mmap_current k + n))) with (k_mem k). rewrite E, bind_ok.
  do 4 eexists. split; [done|]. apply inv_mem. apply (inv_heap_ends k ch q); [done|apply I| |].
  { change HEAP_MID with 0x12000000. change HEAP_END with 0x14000000. lia. }
  unfold PAGE_SIZE in *. rewrite Z.add_mod, Ha by lia. unfold n. by rewrite Z.mod_mul, Z.mod_0_l by lia.
Qed.

(** ** uname *)

Lemma uname_field_ok m a name : (length name <= 64)%nat -> mapped m a 65 -> 0 <= a -> a + 65 <= 2 ^ 64 ->
  exists m', uname_field m a name = Ok m' /\ dom m' = dom m.
Proof using Type.
  intros Hl Hm Ha Hr. unfold uname_field. pose proof (firstn_le_length 64 name) as Hf.
  destruct (put_bytes_ok (take 64 name) m a) as (m1 & -> & _ & D1); [intros x Hx; apply Hm; lia|lia|lia|]. rewrite bind_ok.
  rewrite u64_small by lia. assert (is_Some (m1 !! (a + 64))) as Hs.
  { apply elem_of_dom. rewrite D1. apply elem_of_dom. apply Hm. lia. }
  rewrite store8_ok by done. eexists. split; [done|]. rewrite <- D1. by apply dom_insert_lookup_L.
Qed.

Lemma mapped_dom (m m' : mem) a n : dom m' = dom m -> mapped m a n -> mapped m' a n.
Proof using Type. intros D Hm x Hx. apply elem_of_dom. rewrite D. by apply elem_of_dom, Hm. Qed.

Lemma uname_returns k ch q buf : kern_inv k ch q -> user_region k buf 390 -> returns ch q (sys_uname k buf).
Proof using Type.
  intros I (Hb & _ & Hl & Hm). unfold sys_uname.
  assert (forall m i name, dom m = dom (k_mem k) -> 0 <= i <= 325 -> (length name <= 64)%nat ->
    exists m', uname_field m (u64 (buf + i)) name = Ok m' /\ dom m' = dom (k_mem k)) as Hstep.
  { intros m i name Hd Hi Hn. rewrite u64_small by lia.
    destruct (uname_field_ok m (buf + i) name Hn) as (m' & E & D); [|lia|lia|exists m'; split; congruence].
    apply (mapped_dom (k_mem k)); [done|]. intros x Hx. apply Hm. lia. }
  destruct (Hstep (k_mem k) 0 sysname) as (m1 & E1 & D1); [done|lia|vm_compute; lia|]. rewrite Z.add_0_r, u64_small in E1 by lia.
  rewrite E1, bind_ok. destruct (Hstep m1 65 nodename) as (m2 & -> & D2); [done|lia|vm_compute; lia|]. rewrite bind_ok.
  destruct (Hstep m2 130 release) as (m3 & -> & D3); [done|lia|vm_compute; lia|]. rewrite bind_ok.
  destruct (Hstep m3 195 version) as (m4 & -> & D4); [done|lia|vm_compute; lia|]. rewrite bind_ok.
  destruct (Hstep m4 260 machine) as (m5 & -> & D5); [done|lia|vm_compute; lia|]. rewrite bind_ok.
  destruct (Hstep m5 325 []) as (m6 & -> & D6); [done|lia|vm_compute; lia|]. rewrite bind_ok.
  do 4 eexists. split; [done|]. by apply (inv_mem k ch q).
Qed.

(** ** The dispatcher *)

(** What a task owes the kernel: memory it may touch where the code does not
    check, and values whose arithmetic is defined.  [execve] is not here. *)
Definition checked_calls : list Z :=
  [SYS_read; SYS_write; SYS_openat; SYS_lseek; SYS_exit; SYS_exit_group; SYS_getppid; SYS_mmap; SYS_execve; SYS_uname].

Inductive call_ok k ch (junk : list Z) (r : pt_regs) : Prop :=
| ok_read : x8 r = SYS_read -> 0 <= x1 r -> 0 <= x2 r ->
    (is_valid_user_ptr (x1 r) (x2 r) = true -> user_region k (x1 r) (x2 r)) -> call_ok k ch junk r
| ok_write : x8 r = SYS_write -> user_region k (x1 r) (x2 r) -> write_fits k (x0 r) (x2 r) junk -> call_ok k ch junk r
| ok_openat path : x8 r = SYS_openat -> user_path k (x1 r) path -> path_ok (k_vfs k) ch path -> call_ok k ch junk r
| ok_lseek : x8 r = SYS_lseek -> seek_fits k (x0 r) (x1 r) (x2 r) -> call_ok k ch junk r
| ok_exit : x8 r = SYS_exit \/ x8 r = SYS_exit_group -> get_current (k_sched k) <> init_task -> call_ok k ch junk r
| ok_getppid : x8 r = SYS_getppid ->
    (forall t, tasks (k_sched k) !! get_current (k_sched k) = Some t -> t_parent t = 0 \/ is_Some (tasks (k_sched k) !! t_parent t)) ->
    call_ok k ch junk r
| ok_mmap : x8 r = SYS_mmap -> 0 <= x1 r < 2 ^ 63 -> user_region k HEAP_MID (USER_HEAP_SIZE / 2) -> call_ok k ch junk r
| ok_uname : x8 r = SYS_uname -> user_region k (x0 r) 390 -> call_ok k ch junk r
| ok_plain : x8 r ∉ checked_calls -> call_ok k ch junk r.

Lemma plain_returns fuel k ch q junk r : kern_inv k ch q -> x8 r ∉ checked_calls -> returns ch q (handle_syscall fuel junk k r).
Proof using Type*.
  intros I Hn. unfold checked_calls in Hn. rewrite !not_elem_of_cons in Hn.
  destruct Hn as (N1 & N2 & N3 & N4 & N5 & N6 & N7 & N8 & N9 & N10 & _).
  unfold handle_syscall. destruct (_ <=? _); [by apply returns_same|]. unfold syscall_table.
  repeat match goal with N : x8 r <> ?n |- _ => rewrite (proj2 (Z.eqb_neq (x8 r) n) N); clear N end. cbn [orb].
  repeat (case_match; [first [by apply returns_same | by apply close_returns | by apply (task_returns k ch q t_pid)
    | by apply (task_returns k ch q t_uid) | by apply (task_returns k ch q t_gid) | by apply brk_returns | by apply yield_returns]|]).
  by apply returns_same.
Qed.

Lemma getppid_returns k ch q : kern_inv k ch q ->
  (forall t, tasks (k_sched k) !! get_current (k_sched k) = Some t -> t_parent t = 0 \/ is_Some (tasks (k_sched k) !! t_parent t)) ->
  returns ch q (sys_getppid k).
Proof using Type.
  intros I Hp. unfold sys_getppid. destruct (current_task _ _ _ I) as [t Ht]. unfold get_current in *. destruct (_ =? 0); [by apply returns_same|].
  rewrite (get_task_ok _ _ _ Ht), bind_ok. destruct (Z.eqb_spec (t_parent t) 0); [by apply returns_same|].
  destruct (Hp t Ht) as [|[p Hpt]]; [done|]. rewrite (get_task_ok _ _ _ Hpt), bind_ok. by apply returns_same.
Qed.

(** C4. From any state of the invariant - every descriptor from 3 on that is in use
    holds an open file of its own, every open file belongs to a descriptor, the
    file system and the run queue are well formed, and the break and the mapping
    area stay in their halves of the user heap - every system call but execve whose
    arguments are in order returns and keeps the invariant. *)
Theorem syscall_invariant (fuel : nat) k ch (q junk : list Z) (r : pt_regs)
    (Hinv : kern_inv k ch q) (Hok : call_ok k ch junk r) :
  exists ret k' ch' q', handle_syscall fuel junk k r = Ok (ret, k') /\ kern_inv k' ch' q'.
Proof using Type*.
  destruct Hok as [E ? ? ?|E ? ?|path E ? ?|E ?|E ?|E ?|E ? ?|E ?|?]; [..|by apply (plain_returns fuel k ch q)];
    unfold handle_syscall; [..|destruct E as [E|E]| | |]; rewrite E.
  - by apply (read_returns k ch q).
  - by apply (write_returns k ch q).
  - by apply (openat_returns k ch q _ _ _ _ path).
  - by apply (lseek_returns k ch q).
  - by apply (exit_returns k ch q).
  - by apply (exit_returns k ch q).
  - by apply (getppid_returns k ch q).
  - by apply (mmap_returns k ch q).
  - by apply (uname_returns k ch q).
Qed.

(** ** A file through its descriptor *)

Lemma i32_fd fd : 3 <= fd < Z.of_nat MAX_FDS -> i32 fd = fd.
Proof using Type. change (Z.of_nat MAX_FDS) with 256. intros Hfd. apply i32_small. lia. Qed.

(** C6. What is written through a descriptor is what a seek back and a read deliver to
    user memory: the write takes [bs] from [src], and unless it reports ENOMEM and
    leaves every file as it was, the read stores exactly [bs] at [dst]. *)
Theorem fd_write_seek_read k ch (q junk : list Z) fd x i src dst (bs : list Z)
    (f := get_file (init_fd_table k) fd) (n := f_pos x + Z.of_nat (length bs))
    (Hinv : kern_inv k ch q) (Hfd : 3 <= fd < Z.of_nat MAX_FDS) (Hf : files (k_vfs k) !! f = Some x)
    (Hop : f_op x = Some ramfs_file_ops) (Hi : inodes (fs (k_vfs k)) !! private_data x = Some i)
    (Hmax : n < 2 ^ 63 - 4096) (Hjunk : r_cap i < n -> Z.of_nat (length junk) = grown_cap n)
    (Hsrc : bytes_at (k_mem k) src bs) (Hsrc_range : 0 < src /\ src + Z.of_nat (length bs) <= 2 ^ 64)
    (Hdst : user_region k dst (Z.of_nat (length bs))) (Hvalid : is_valid_user_ptr dst (Z.of_nat (length bs)) = true) :
  exists r k1, sys_write k fd src (Z.of_nat (length bs)) junk = Ok (r, k1) /\
    (r = - ENOMEM /\ unchanged (fs (k_vfs k)) (fs (k_vfs k1)) \/
     r = Z.of_nat (length bs) /\ exists k2 k3, sys_lseek k1 fd (f_pos x) SEEK_SET = Ok (f_pos x, k2) /\
       sys_read k2 fd dst (Z.of_nat (length bs)) = Ok (Z.of_nat (length bs), k3) /\ wrote (k_mem k) (k_mem k3) dst bs).
Proof using Type*.
  pose proof (table_init_inv _ _ _ Hinv) as I. destruct (init_fields k) as (Ev & _ & Em & _ & _ & _ & Hi').
  pose proof (ki_switch _ _ _ Hinv) as Hsw. pose proof (sw_inv _ _ Hsw) as Iv. pose proof (fk_pos _ _ (sw_files _ _ Hsw _ _ Hf)) as Hpos.
  pose proof (file_nonnull _ _ _ _ Iv Hf) as Hnz. destruct Hdst as (Hd0 & _ & Hd1 & Hdm).
  assert (dst <> 0) as Hdz by (intros ->; done).
  unfold sys_write. rewrite (i32_fd fd Hfd). fold f. rewrite (proj2 (Z.eqb_neq f 0) Hnz), !(proj2 (Z.eqb_neq fd _)) by lia. cbn [orb].
  rewrite (proj2 (Z.eqb_neq src 0)) by lia. unfold writes. rewrite Ev, Em, Hf, Hop. cbn [has_write].
  rewrite (load_bytes_ok _ _ bs Hsrc) by lia. rewrite !bind_ok.
  destruct (vfs_write_ok (k_vfs k) ch f x i bs junk Iv Hf Hop Hi ltac:(lia) Hmax Hjunk) as (r & v1 & -> & Hres). rewrite bind_ok. cbv beta iota zeta.
  exists r, (with_vfs (init_fd_table k) v1). split; [done|]. destruct Hres as [(-> & _ & U & _)|(-> & W)]; [by left|right; split; [done|]].
  destruct (reread (k_vfs k) v1 ch f x i bs junk dst Iv Hf Hop Hi ltac:(lia) Hdz Hjunk W) as (v2 & v3 & E2 & _ & E3 & _).
  destruct (put_bytes_ok bs (k_mem k) dst Hdm ltac:(lia) Hd1) as (m & Est & Hw & _).
  unfold sys_lseek. assert (forall v, init_fd_table (with_vfs (init_fd_table k) v) = with_vfs (init_fd_table k) v) as Hsame.
  { intros v. unfold init_fd_table at 1. cbn [fd_table_initialized with_vfs]. by rewrite Hi'. }
  assert (forall v, get_file (with_vfs (init_fd_table k) v) fd = f) as Hget by done.
  rewrite Hsame, (i32_fd fd Hfd), Hget, (proj2 (Z.eqb_neq f 0) Hnz), (i64_small (f_pos x)) by lia. change (i32 SEEK_SET) with SEEK_SET.
  cbn [k_vfs with_vfs]. rewrite E2, bind_ok. eexists (with_vfs (init_fd_table k) v2). eexists. split; [done|].
  unfold sys_read. rewrite Hsame, Hvalid, (i32_fd fd Hfd), Hget, (proj2 (Z.eqb_neq f 0) Hnz), (proj2 (Z.eqb_neq fd 0)) by lia. cbn [negb k_vfs with_vfs].
  rewrite E3, bind_ok. cbv beta iota zeta. cbn [k_mem with_vfs]. rewrite Em.
  rewrite Est, bind_ok. split; [done|exact Hw].
Qed.

(** ** Mappings *)

(** One system call of a user program; the lengths it maps are below 2^63. *)
Definition user_call fuel k k' : Prop :=
  exists junk r ret, handle_syscall fuel junk k r = Ok (ret, k') /\ (x8 r = SYS_mmap -> 0 <= x1 r < 2 ^ 63).

Definition mmap_flags (flags fd : Z) : Prop := Z.land flags MAP_ANONYMOUS <> 0 /\ i64 fd = -1.

(** Every way through a handler. *)
Ltac handler :=
  repeat match goal with
  | E : Ok _ = Ok _ |- _ => injection E as ? ?; subst
  | E : (_ ← _; _) = Ok _ |- _ => apply bind_ok_inv in E as (? & ? & E); cbv beta iota zeta in E
  | E : context [match ?b with _ => _ end] |- _ => first [is_var b; destruct b | destruct b eqn:?]; cbv beta iota zeta in E
  end.

Definition same_mmap k k' : Prop := user_mmap_current k' = user_mmap_current k.

Lemma init_mmap k k' : same_mmap (init_fd_table k) k' -> same_mmap k k'.
Proof using Type. unfold same_mmap. destruct (init_fields k) as (_ & _ & _ & _ & E & _). by rewrite E. Qed.

Lemma exec_free_mmap k p ret r k' : exec_free k p ret = Ok (r, k') -> same_mmap k k'.
Proof using Type. unfold exec_free. intros E. by handler. Qed.
Lemma exec_close_mmap k f ret r k' : exec_close k f ret = Ok (r, k') -> same_mmap k k'.
Proof using Type. unfold exec_close. intros E. by handler. Qed.

Lemma execve_mmap fuel k a r k' : sys_execve fuel k a = Ok (r, k') -> same_mmap k k'.
Proof using Type.
  unfold sys_execve. intros E. handler; try done.
  all: match goal with E : exec_free _ _ _ = _ |- _ => apply exec_free_mmap in E | E : exec_close _ _ _ = _ |- _ => apply exec_close_mmap in E end; done.
Qed.

Lemma alloc_fd_mmap k : same_mmap k (snd (alloc_fd k)).
Proof using Type. apply init_mmap. unfold alloc_fd. by destruct (list_find _ _) as [[]|]. Qed.

Lemma openat_mmap k a b c d r k' : sys_openat k a b c d = Ok (r, k') -> same_mmap k k'.
Proof using Type.
  unfold sys_openat. intros E. apply init_mmap. pose proof (alloc_fd_mmap (init_fd_table k)) as Ha.
  destruct (alloc_fd (init_fd_table k)) as [fd k1]. cbn [snd] in Ha. handler; try done.
  unfold same_mmap, free_fd in *. by case_match.
Qed.

(** No other call moves the end of the mappings. *)
Lemma other_mmap fuel k junk r ret k' : handle_syscall fuel junk k r = Ok (ret, k') -> x8 r <> SYS_mmap -> same_mmap k k'.
Proof using Type.
  intros E Hne. unfold handle_syscall in E. destruct (_ <=? _); [by handler|]. unfold syscall_table in E.
  rewrite (proj2 (Z.eqb_neq (x8 r) SYS_mmap) Hne) in E.
  repeat match type of E with (if ?b then _ else _) = _ => destruct b end;
    first [by apply openat_mmap in E | by apply execve_mmap in E | idtac].
  all: unfold sys_read, sys_write, sys_close, sys_lseek, sys_exit, sys_getpid, sys_getppid, sys_getuid, sys_getgid, sys_gettid, sys_getpid,
    sys_brk, sys_uname, sys_sched_yield, sys_munmap, sys_clone, sys_nanosleep, uname_field in E.
  all: handler; unfold free_fd; repeat case_match; first [done | by apply init_mmap].
Qed.

Lemma aligned_len len : 0 <= len < 2 ^ 63 -> exists n, PAGE_ALIGN len = n /\ len <= n < len + PAGE_SIZE /\ n mod PAGE_SIZE = 0.
Proof using Type.
  intros Hl. exists ((len + 4095) / 4096 * 4096). rewrite PAGE_ALIGN_spec by (unfold PAGE_SIZE; lia). split; [done|].
  unfold PAGE_SIZE. split; [lia_mod|by rewrite Z.mod_mul].
Qed.

Lemma mmap_cases k a len p fl fd o ret k' : 0 <= len < 2 ^ 63 -> 0 <= user_mmap_current k <= HEAP_END ->
  sys_mmap k a len p fl fd o = Ok (ret, k') ->
  (k' = k /\ ret < 0) \/ exists m, ret = user_mmap_current k /\ user_mmap_current k' = ret + PAGE_ALIGN len /\ ret + PAGE_ALIGN len <= HEAP_END /\
    zero_bytes (k_mem k) ret (PAGE_ALIGN len) = Ok m /\ k_mem k' = m.
Proof using Type.
  intros Hl Hr. unfold sys_mmap. destruct (_ || _); [intros [= <- <-]; by left|]. cbv zeta.
  destruct (aligned_len len Hl) as (n & -> & Hn & _). unfold PAGE_SIZE in Hn. change HEAP_END with 0x14000000 in *.
  change (USER_HEAP_START + USER_HEAP_SIZE) with 0x14000000. rewrite u64_small by lia.
  destruct (Z.ltb_spec 0x14000000 (user_mmap_current k + n)); [intros [= <- <-]; by left|]. intros E. apply bind_ok_inv in E as (m & Em & [= <- <-]).
  right. by exists m.
Qed.

(** The mapping area only grows. *)
Lemma call_mmap fuel k k' : HEAP_MID <= user_mmap_current k <= HEAP_END -> user_call fuel k k' ->
  user_mmap_current k <= user_mmap_current k' <= HEAP_END.
Proof using Type.
  intros Hr (junk & r & ret & E & Hl). change HEAP_MID with 0x12000000 in *. destruct (decide (x8 r = SYS_mmap)) as [Em|Hne].
  - specialize (Hl Em). unfold handle_syscall in E. rewrite Em in E.
    change (sys_mmap k (x0 r) (x1 r) (x2 r) (x3 r) (x4 r) (x5 r) = Ok (ret, k')) in E.
    pose proof (mmap_cases k _ _ _ _ _ _ _ _ Hl ltac:(lia) E) as Hc. destruct Hc as [[-> _]|(m & -> & -> & Hb & _)]; [lia|].
    destruct (aligned_len (x1 r) Hl) as (n & En & Hn & _). rewrite En in *. lia.
  - apply other_mmap in E as ->; [lia|done].
Qed.

Lemma calls_mmap fuel k k' : star (user_call fuel) k k' -> HEAP_MID <= user_mmap_current k <= HEAP_END ->
  user_mmap_current k <= user_mmap_current k' <= HEAP_END.
Proof using Type.
  induction 1 as [k|k k1 k2 Hs IH Hc]; intros Hr; [lia|]. specialize (IH Hr). apply call_mmap in Hc; lia.
Qed.

(** C7. An anonymous mapping: refused with ENOMEM when it would pass the end of the
    user heap, and otherwise at the end of the earlier ones - page aligned, inside the
    upper half, all zero, nothing else of memory changed - and whatever system calls
    come between, the next mapping begins at or after its end. *)
Theorem mmap_disjoint (fuel : nat) k ch (q : list Z) addr len prot flags fd offset (n := (len + 4095) / 4096 * 4096)
    (Hinv : kern_inv k ch q) (Hlen : 0 <= len < 2 ^ 63) (Hflags : mmap_flags flags fd)
    (Hmem : user_mmap_current k + n <= HEAP_END -> mapped (k_mem k) (user_mmap_current k) n) :
  if HEAP_END <? user_mmap_current k + n then sys_mmap k addr len prot flags fd offset = Ok (- ENOMEM, k)
  else exists a k1, sys_mmap k addr len prot flags fd offset = Ok (a, k1) /\
    a mod PAGE_SIZE = 0 /\ HEAP_MID <= a /\ a + n <= HEAP_END /\ wrote (k_mem k) (k_mem k1) a (replicate (Z.to_nat n) 0) /\
    forall k2 addr' len' prot' flags' fd' offset' b k3, star (user_call fuel) k1 k2 -> 0 <= len' < 2 ^ 63 ->
      sys_mmap k2 addr' len' prot' flags' fd' offset' = Ok (b, k3) -> b < 0 \/ a + n <= b.
Proof using Type*.
  destruct Hflags as [Hf1 Hf2]. pose proof (ki_mmap _ _ _ Hinv) as [Hr Ha].
  assert (0 <= n < 2 ^ 63 + 4096) as Hn by (unfold n; lia_mod).
  destruct (Z.ltb_spec HEAP_END (user_mmap_current k + n)) as [Hlt|Hge]; unfold sys_mmap at 1; rewrite (proj2 (Z.eqb_neq _ _) Hf1), Hf2;
    cbn [orb negb Z.eqb Pos.eqb]; cbv zeta; rewrite PAGE_ALIGN_spec by (unfold PAGE_SIZE; lia); fold n;
    change HEAP_END with 0x14000000 in *; change HEAP_MID with 0x12000000 in *; change (USER_HEAP_START + USER_HEAP_SIZE) with 0x14000000;
    rewrite u64_small by lia.
  { by rewrite (proj2 (Z.ltb_lt _ _)) by lia. }
  rewrite (proj2 (Z.ltb_ge _ _)) by lia.
  destruct (zero_bytes_ok (k_mem k) (user_mmap_current k) n) as (m & E & Hw & _); [apply Hmem; lia|lia..|].
  cbn [k_mem with_heap_ends]. rewrite E, bind_ok. do 2 eexists. split; [done|]. do 3 (split; [done || lia|]). split; [exact Hw|].
  intros k2 ? len' ? ? ? ? b k3 Hs Hl' E'. apply calls_mmap in Hs; cbn [user_mmap_current with_mem with_heap_ends] in *;
    change HEAP_MID with 0x12000000 in *; change HEAP_END with 0x14000000 in *; [|lia].
  apply mmap_cases in E' as [[_ ?]|(_ & -> & _)]; [by left|right; lia|done|change HEAP_END with 0x14000000; lia].
Qed.
End calls.

(** ** The properties on a booted kernel *)

Lemma user_mem_path n : bytes_at (user_mem n) USER_HEAP_START (path_f ++ [0]).
Proof.
  intros i b Hi. unfold user_mem. apply lookup_union_Some_l. do 3 (destruct i as [|i]; [injection Hi as <-; vm_compute; reflexivity|]). done.
Qed.

Lemma syscall_invariant_witness :
  exists ret k' ch' q', handle_syscall 0 [] (boot_kern booted_vfs (user_mem 0) [] false)
    (PtRegs SYS_openat (2 ^ 64 - 100) USER_HEAP_START O_CREAT 0x1A4 0 0) = Ok (ret, k') /\ kern_inv k' ch' q'.
Proof.
  apply (syscall_invariant 0 _ _ [2] [] _ (boot_kern_inv _)). apply (ok_openat _ _ _ _ path_f); [reflexivity| |].
  - split; [exact (user_mem_path 0)|]. split; [exact path_f_chars|]. vm_compute. split; [discriminate|reflexivity].
  - right. exists [], [102]. split; [exact path_f_components|]. split; [exact path_f_chars|]. split; [exact booted_room|].
    exists (root_dir 0). split; [exact booted_dir|reflexivity].
Defined.

Lemma dst_region : user_region (fd3_kern (user_mem 0)) (USER_HEAP_START + 1) 2.
Proof.
  unfold USER_HEAP_START. do 3 (split; [lia|]). intros x Hx. change (k_mem (fd3_kern (user_mem 0))) with (user_mem 0).
  destruct (decide (x = 0x10000001)) as [->|]; [eexists; vm_compute; reflexivity|].
  destruct (decide (x = 0x10000002)) as [->|]; [eexists; vm_compute; reflexivity|]. lia.
Qed.

(** "/f" is written and read back through descriptor 3. *)
Lemma fd_write_seek_read_witness :
  exists r k1, sys_write (fd3_kern (user_mem 0)) 3 USER_HEAP_START 2 (replicate 4096 0) = Ok (r, k1) /\
    (r = - ENOMEM /\ unchanged (fs open_vfs) (fs (k_vfs k1)) \/
     r = 2 /\ exists k2 k3, sys_lseek k1 3 0 SEEK_SET = Ok (0, k2) /\
       sys_read k2 3 (USER_HEAP_START + 1) 2 = Ok (2, k3) /\ wrote (user_mem 0) (k_mem k3) (USER_HEAP_START + 1) path_f).
Proof.
  apply (fd_write_seek_read (fd3_kern (user_mem 0)) tree_f [2] (replicate 4096 0) 3 opened_file new_inode_f
    USER_HEAP_START (USER_HEAP_START + 1) path_f (fd3_kern_inv _)).
  - vm_compute. split; [discriminate|reflexivity].
  - exact opened_files.
  - reflexivity.
  - exact opened_inode.
  - vm_compute. reflexivity.
  - intros _. vm_compute. reflexivity.
  - pose proof (user_mem_path 0) as Hb. apply (bytes_at_app _ _ path_f [0]) in Hb as [Hb _]. exact Hb.
  - vm_compute. split; [reflexivity|discriminate].
  - exact dst_region.
  - vm_compute. reflexivity.
Defined.

(** One page is mapped, and the next mapping begins after it. *)
Lemma mmap_disjoint_witness :
  exists a k1, sys_mmap (boot_kern booted_vfs (user_mem 4096) [] false) 0 1000 3 0x22 (2 ^ 64 - 1) 0 = Ok (a, k1) /\ HEAP_MID <= a /\
    forall k2 b k3, star (user_call 0) k1 k2 -> sys_mmap k2 0 1 3 0x22 (2 ^ 64 - 1) 0 = Ok (b, k3) -> b < 0 \/ a + 4096 <= b.
Proof.
  destruct (mmap_disjoint 0 (boot_kern booted_vfs (user_mem 4096) [] false) _ [2] 0 1000 3 0x22 (2 ^ 64 - 1) 0 (boot_kern_inv _))
    as (a & k1 & E & _ & Ha & _ & _ & Hnext); [lia|split; [discriminate|reflexivity]|intros _; exact (zero_pages 4096)|].
  exists a, k1. split; [exact E|]. split; [exact Ha|]. intros k2 b k3 Hs Hb. apply (Hnext k2 0 1 3 0x22 (2 ^ 64 - 1) 0 b k3 Hs); [lia|exact Hb].
Defined.
