(* ===== verification/SyscallExec.v ===== *)
(** * System calls: starting a program

    [sys_execve] takes an image out of the file system, through a buffer of the
    kernel heap, into user memory, and renames the current task. *)
From S2P Require Import Prelude Memory StringLib AllocSpec Kmalloc KmallocSpec Pmm Sched SchedSpec SchedTheorems.
From S2P Require Import Ramfs RamfsInv RamfsData RamfsDir RamfsTheorems Vfs VfsSpec VfsTheorems VfsFiles Elf ElfSpec ElfTheorems.
From S2P Require Import Syscall SyscallSpec SyscallTheorems.
#[local] Open Scope Z_scope.

Section exec.
Context {A : Type} `{AllocatorLaws A}.
Implicit Types (s : vfs A) (k : kern A) (ch : Z -> list Z).

(** ** A buffer of the heap that the file system does not know *)

(** The same file system on a heap in which more is allocated, or less of what it
    does not use. *)
Lemma inv_heap_grow s ch h : vfs_inv s ch -> a_inv h ->
  (forall a, is_Some (a_cap (heap (fs s)) a) -> is_Some (a_cap h a)) -> vfs_inv (with_fs s (with_heap (fs s) h)) ch.
Proof using Type*.
  intros [R Hdisj Hdent Hfile Hroot] Hh Hl. split; cbn; try done. split; cbn; try done; unfold live in *; cbn; try apply R.
  - intros p i Hp. apply Hl. by apply (ri_live _ _ R p i).
  - intros p i Hp Hd. destruct (ri_data _ _ R p i Hp Hd) as (? & ?). split; [by apply Hl|done].
  - intros p v Hv. destruct (ri_vnode _ _ R p v Hv). split; [by apply Hl|done].
  - intros a Ha. destruct (ri_foreign _ _ R a Ha) as (? & ?). split; [by apply Hl|done].
Qed.

Lemma switch_heap s ch h : switch_ok s ch -> vfs_inv (with_fs s (with_heap (fs s) h)) ch -> switch_ok (with_fs s (with_heap (fs s) h)) ch.
Proof using Type. intros [_ Hr Hf] I. split; [done|done|]. intros f x Hx. destruct (Hf f x Hx). by split. Qed.

(** An address that is not live is none of the file system's. *)
Lemma unknown_buffer s ch p : vfs_inv s ch -> a_cap (heap (fs s)) p = None ->
  (p ∉ owned s) /\ inodes (fs s) !! p = None /\ vnodes (fs s) !! p = None /\
  forall q i, inodes (fs s) !! q = Some i -> r_data i <> 0 -> r_data i <> p.
Proof using Type.
  intros I Hn. pose proof (vi_ram _ _ I) as R.
  assert (~ live (fs s) p) as Hl by (intros [c Hc]; congruence).
  destruct (not_live_fresh (fs s) ch p R Hl) as (? & ? & ? & _ & _ & ?). done.
Qed.

Lemma free_buffer s ch p c : vfs_inv s ch -> a_cap (heap (fs s)) p = Some c -> p ∉ owned s ->
  inodes (fs s) !! p = None -> vnodes (fs s) !! p = None ->
  (forall q i, inodes (fs s) !! q = Some i -> r_data i <> 0 -> r_data i <> p) ->
  exists h, a_kfree (heap (fs s)) p = Ok h /\ vfs_inv (with_fs s (with_heap (fs s) h)) ch /\ cap_update (a_cap (heap (fs s))) (a_cap h) p None.
Proof using Type*.
  intros I Hc Ho Hi Hv Hd. pose proof (vi_ram _ _ I) as R.
  destruct (law_free (heap (fs s)) p c (ri_heap _ _ R) Hc) as (h & Ef & Hh & Hu). exists h. split; [done|].
  assert (ram_inv ({[p]} ∪ owned s) (fs s) ch) as R1.
  { split; try apply R. intros a [->%elem_of_singleton|Ha]%elem_of_union; [|by apply (ri_foreign _ _ R)]. split; [by exists c|done]. }
  pose proof (inv_disown _ _ _ p h R1 ltac:(set_solver) Hh Hu) as R2.
  replace (({[p]} ∪ owned s) ∖ {[p]}) with (owned s) in R2 by set_solver.
  destruct I as [_ Hdisj Hdent Hfile Hroot]. split; [by split|done].
Qed.

(** A file that is closed leaves the tables. *)
Lemma closed_objs s s' ch f x : vfs_inv s ch -> files s !! f = Some x -> files s' = delete f (files s) -> dentries s' = dentries s -> vnodes (fs s') = vnodes (fs s) ->
  f ∈ objs s /\ objs s' = objs s ∖ {[f]}.
Proof using Type*.
  intros I Hx Hf Hd Hv. assert (f ∈ dom (files s)) as Hin by (apply elem_of_dom; by exists x). split; [unfold objs; set_solver|].
  assert (f ∉ dom (dentries s)) as Hnd by (intros Hfd; by apply (vi_disj _ _ I f)). destruct (ri_foreign _ _ (vi_ram _ _ I) f) as (_ & _ & Hnv & _); [unfold owned; set_solver|]. apply not_elem_of_dom in Hnv.
  unfold objs. rewrite Hf, Hd, Hv, dom_delete_L. set_solver.
Qed.

(** ** Reading the image *)

(** The way of the file through [sys_execve]: it is opened, a buffer is allocated, all of it
    is read, and it is closed and the buffer freed; the open files are as before. *)
Lemma image_read s ch path init name d di c (t := first_named (fs s) name (ch d)) : switch_ok s ch ->
  components path = init ++ [name] -> Forall (fun c => c <> 0) path -> room (2 * length init + 5) s = true ->
  walk (fs s) ch (root_of s) init = Some d -> inodes (fs s) !! d = Some di -> S_ISDIR (r_mode di) = true ->
  t <> 0 -> inodes (fs s) !! t = Some c -> S_ISDIR (r_mode c) = false ->
  exists f v x r, vfs_open s path O_RDONLY 0 = Ok (f, v) /\ f <> 0 /\ Vfs.get_file v f = Ok x /\
    file_inode v x = Ok r /\ is_null r = false /\ get_vnode (fs v) r = Ok (vnode_of t c) /\
    exists p h, a_kmalloc (heap (fs v)) (r_size c) GFP_KERNEL = Ok (p, h) /\ let w := with_fs v (with_heap (fs v) h) in
      (p = 0 /\ exists v', vfs_close w f = Ok (0, v') /\ switch_ok v' ch /\ files v' = files s /\ accounts s v') \/
      (p <> 0 /\ exists v1 v2 h', vfs_read w f p (r_size c) = Ok (r_size c, file_bytes (fs s) c, v1) /\
         vfs_close v1 f = Ok (0, v2) /\ a_kfree (heap (fs v2)) p = Ok h' /\ let v' := with_fs v2 (with_heap (fs v2) h') in
         switch_ok v' ch /\ files v' = files s /\ accounts s v').
Proof using Type*.
  intros Hsw Hc Hz Hr Ew Hdi Hdir Ht Hi Hreg.
  destruct (vfs_open_existing s ch path init name O_RDONLY 0 d di c Hsw Hc Hz Hr Ew Hdi Hdir Ht Hi)
    as (f & v & x & r & E & Hsv & Hnew & Hfv & Hpos & Hcnt & Hpriv & Hop & Hino & Hnull & Hvn & Hin & Hby & Hacc). fold t in Hpriv, Hop, Hvn.
  assert (files v !! f = Some x) as Hx by (rewrite Hfv; apply lookup_insert_eq). pose proof (sw_inv _ _ Hsv) as Iv.
  pose proof (file_nonnull _ _ _ _ Iv Hx) as Hnz.
  exists f, v, x, r. do 2 (split; [done|]). split; [unfold Vfs.get_file; by rewrite Hx|]. do 3 (split; [done|]).
  assert (inodes (fs v) !! t = Some c) as Hiv by (by rewrite Hin). pose proof (vi_ram _ _ Iv) as Rv.
  pose proof (ri_size _ _ Rv _ _ Hiv) as Hsz.
  destruct (law_alloc (heap (fs v)) (r_size c) GFP_KERNEL (ri_heap _ _ Rv) ltac:(lia)) as (p & h & Ek & Hh & Hres).
  exists p, h. split; [done|]. cbv zeta. set (w := with_fs v (with_heap (fs v) h)).
  assert (vfs_inv w ch) as Iw.
  { apply inv_heap_grow; [done|done|]. intros a Ha. destruct Hres as [[_ Hs]|(_ & Hn & z & _ & Hu)]; [by rewrite Hs|].
    rewrite Hu. by case_decide. }
  pose proof (switch_heap v ch h Hsv Iw) as Hsw'. fold w in Hsw'. assert (files w !! f = Some x) as Hxw by done.
  assert (forall g, delete f (<[f := g]> (files s)) = files s) as Hdel by (intros g; by apply delete_insert_id).
  destruct Hres as [[-> Hs0]|(Hp & Hn & z & _ & Hu)]; [left|right]; (split; [done|]).
  { destruct (vfs_close_ok w ch f x Iw Hxw Hcnt) as (v' & Ec & Iv' & Hfs & Hds & Hrd & Hin' & _ & Hvn' & _ & Hup). exists v'. split; [done|].
    split; [by apply (close_switch w ch f x)|]. split; [rewrite Hfs; cbn [files w with_fs]; by rewrite Hfv|]. destruct (closed_objs w v' ch f x Iw Hxw Hfs Hds Hvn') as [Hfo Ho].
    apply (accounts_trans _ v); [done|]. apply (accounts_trans _ w); [by apply accounts_same|by apply (accounts_freed w v' f)]. }
  assert (f_op x = Some ramfs_file_ops) as Hop' by (rewrite Hop; unfold vnode_of; cbn [i_fop]; by rewrite Hreg).
  assert (inodes (fs w) !! private_data x = Some c) as Hiw by (by rewrite Hpriv).
  pose proof (vfs_read_ok w ch f x c p (r_size c) Iw Hxw Hop' Hiw ltac:(lia) Hp ltac:(lia)) as Hread.
  cbv zeta in Hread. change (file_bytes (fs w) c) with (file_bytes (fs v) c) in Hread. rewrite Hby, Hpos in Hread.
  pose proof (file_bytes_length (fs v) ch t c Rv Hiv) as Hlen. rewrite Hby in Hlen.
  rewrite drop_0, take_ge in Hread by lia. rewrite Hlen in Hread.
  set (y := with_pos x (0 + r_size c)) in *. set (v1 := set_file w f y) in *.
  assert (switch_ok v1 ch) as Hsw1 by (apply set_pos_switch; [done|done|lia]). pose proof (sw_inv _ _ Hsw1) as I1.
  assert (files v1 !! f = Some y) as Hy by apply lookup_insert_eq.
  destruct (vfs_close_ok v1 ch f y I1 Hy Hcnt) as (v2 & Ec & I2 & Hfs & Hds & Hrd & Hin2 & _ & Hvn2 & _ & Hu2).
  destruct (unknown_buffer v ch p Iv Hn) as (Ho & Hpi & Hpv & Hpd).
  assert (p <> f) as Hpf by (intros ->; apply Ho; unfold owned; apply elem_of_union; right; apply elem_of_dom; by exists x).
  destruct (free_buffer v2 ch p z I2) as (h' & Ef & I3 & Hu3).
  - rewrite Hu2, decide_False by done. change (heap (fs v1)) with h. by rewrite Hu, decide_True.
  - unfold owned in *. rewrite Hds, Hfs. cbn. rewrite dom_delete_L, dom_insert_lookup_L by (by exists x). set_solver.
  - by rewrite Hin2.
  - by rewrite Hvn2.
  - by rewrite Hin2.
  - exists v1, v2, h'. do 3 (split; [done|]). split.
    + apply switch_heap; [|done]. by apply (close_switch v1 ch f y).
    + split; [cbn [files with_fs]; rewrite Hfs; cbn [files v1 set_file with_files w with_fs]; by rewrite Hfv, insert_insert_eq|].
      destruct (closed_objs v (with_fs v2 (with_heap (fs v2) h')) ch f x Iv Hx) as [Hfo Hoj]; [cbn; rewrite Hfs; cbn; by apply delete_insert_eq|exact Hds|exact Hvn2|].
      apply (accounts_trans _ v); [done|]. apply (accounts_freed v _ f); [|done|done]. intros q. cbn [fs with_fs heap with_heap]. rewrite (Hu3 q), (Hu2 q). change (heap (fs v1)) with h. rewrite (Hu q).
      destruct (decide (q = p)) as [->|]; [|done]. by rewrite decide_False.
Qed.

(** ** The name of the task *)

Lemma comm_loop_ok m path : forall n a, bytes_at m a (path ++ [0]) -> Forall (fun c => c <> 0) path -> 0 <= a ->
  a + Z.of_nat (length path) < 2 ^ 64 -> comm_loop n m a = Ok (take n path).
Proof using Type.
  induction path as [|c path IH]; intros n a Hb Hz Ha Hl; apply bytes_at_cons in Hb as [Hc Hb].
  - destruct n; cbn [comm_loop]; by rewrite (load8_ok _ _ _ Hc), bind_ok.
  - inversion_clear Hz. cbn [length] in Hl.
    destruct n as [|n]; cbn [comm_loop]; rewrite (load8_ok _ _ _ Hc), bind_ok, (proj2 (Z.eqb_neq c 0)) by done; [done|].
    rewrite u64_small by lia. by rewrite (IH n) by (done || lia).
Qed.

(** Renaming the running task keeps the run queue. *)
Lemma exec_good (sc : sched) (q name : list Z) t : good sc q -> tasks sc !! get_current sc = Some t ->
  upd_task sc (get_current sc) (exec_task name) = Ok (with_tasks sc (<[get_current sc := exec_task name t]> (tasks sc))) /\
  good (with_tasks sc (<[get_current sc := exec_task name t]> (tasks sc))) q.
Proof using Type.
  intros (I & Hr & Hc) Ht. split; [by apply upd_task_ok|]. split; [by apply (inv_upd sc q _ t)|]. split; [|exact Hc].
  apply running_upd; [done|]. intros Hq. exact (Hr _ t Hq Ht).
Qed.

(** ** Memory with the image in it, and without *)

Lemma overlay_point segs x : forall f g, f x = g x -> overlay segs f x = overlay segs g x.
Proof using Type. induction segs as [|[d bs] segs IH]; intros f g E; [exact E|]. cbn [overlay]. apply IH. by rewrite E. Qed.

(** What was loaded from a buffer stays when the buffer goes. *)
Lemma unmap_overlay m m1 p img segs : placed (map_region m p img) m1 segs ->
  Forall (fun '(d, bs) => d + Z.of_nat (length bs) <= p \/ p + Z.of_nat (length img) <= d) segs ->
  placed m (unmap_region m1 m p (Z.of_nat (length img))) segs.
Proof using Type.
  intros P Ha x. destruct (decide (p <= x < p + Z.of_nat (length img))) as [Hin|Hout].
  - rewrite unmap_region_in, overlay_out by done || (eapply Forall_impl; [exact Ha|]; intros [d bs]; lia). done.
  - rewrite unmap_region_out, (P x) by done. apply overlay_point. by apply map_region_out.
Qed.

Lemma placed_keeps m m' segs a bs : placed m m' segs -> bytes_at m a bs ->
  Forall (fun '(d, cs) => d + Z.of_nat (length cs) <= a \/ a + Z.of_nat (length bs) <= d) segs -> bytes_at m' a bs.
Proof using Type.
  intros P Hb Ha j b Hj. rewrite (P _), overlay_out; [by apply Hb|]. apply lookup_lt_Some in Hj.
  eapply Forall_impl; [exact Ha|]. intros [d cs]. lia.
Qed.

(** ** execve *)

(** The bytes [img] at [p] are a program without relocations that fits memory, and
    the loader leaves the name at [a] alone. *)
Record loads (m : mem) (p : Z) (img : list Z) (off ent : Z) (phs : list phdr) (t e entry : Z) (a n : Z) : Prop := {
  lo_program : program m p (Z.of_nat (length img)) off ent img phs;
  lo_type : e_type m p = Ok t;
  lo_size : exists total, elf_calc_size m p (Z.of_nat (length img)) = Ok total /\ total <> 0;
  lo_fits : Forall (fun h => is_load h = true -> fits p (Z.of_nat (length img)) USER_CODE_BASE (t =? ET_DYN) m h) phs;
  lo_static : (t =? ET_DYN) = false \/ dynamic_of USER_CODE_BASE phs None = None;
  lo_entry : e_entry m p = Ok e /\ entry = (if t =? ET_DYN then u64 (USER_CODE_BASE + e) else e);
  lo_code : 0 <= entry /\ entry + 16 <= 2 ^ 64 /\ mapped m entry 16;
  lo_name : Forall (fun '(d, bs) => d + Z.of_nat (length bs) <= a \/ a + n <= d) (segments USER_CODE_BASE (t =? ET_DYN) img phs)
}.

Lemma segments_apart m p img off ent phs t e entry a n : loads m p img off ent phs t e entry a n ->
  Forall (fun '(d, bs) => d + Z.of_nat (length bs) <= p \/ p + Z.of_nat (length img) <= d) (segments USER_CODE_BASE (t =? ET_DYN) img phs).
Proof using Type.
  intros L. unfold segments. apply Forall_map. apply Forall_forall. intros h Hh.
  apply list_elem_of_In, filter_In in Hh as [Hh Hl]. apply list_elem_of_In in Hh.
  pose proof (lo_fits _ _ _ _ _ _ _ _ _ _ _ L) as Hf. rewrite Forall_forall in Hf. destruct (Hf h Hh Hl) as [F _ _ Hap].
  rewrite (contents_length (Z.of_nat (length img))) by done. lia.
Qed.

Lemma exec_free_ok k p h (r : Z) : a_kfree (heap (fs (k_vfs k))) p = Ok h ->
  exec_free k p r = Ok (r, with_vfs k (with_fs (k_vfs k) (with_heap (fs (k_vfs k)) h))).
Proof using Type. intros E. unfold exec_free. by rewrite E, bind_ok. Qed.

Lemma inv_vfs_files k ch (q : list Z) v ch' : kern_inv k ch q -> switch_ok v ch' ->
  files v = files (k_vfs k) -> kern_inv (with_vfs k v) ch' q.
Proof using Type.
  intros I Hv Hf. pose proof (ki_fds _ _ _ I) as Hfds. destruct I. split; try done.
  unfold init_fd_table in *. cbn [k_vfs with_vfs]. rewrite Hf. by destruct (fd_table_initialized k) eqn:E; cbn; rewrite ?E in *.
Qed.

(** C5. Executing a program: the file is found, read through a buffer of the heap, checked
    and loaded.  Either there is no room for the buffer, and only ENOMEM is
    reported; or the entry point is returned, user memory is what it was with exactly
    the segments of the file in place, and the running task carries the name of the
    file and is a user task.  In both cases the file is closed again, the open files and
    the descriptors are as before, the heap has nothing more than before but the dentries and inodes that opening the file
    left in the tables of the switch, which never gives them back, and the invariant holds. *)
Theorem sys_execve_correct (fuel : nat) k ch (q : list Z) filename path init name d di c off ent phs t e entry
    (s := k_vfs k) (i := first_named (fs s) name (ch d)) (img := file_bytes (fs s) c) (Hinv : kern_inv k ch q)
    (Hpath : user_path k filename path) (Hc : components path = init ++ [name]) (Hroom : room (2 * length init + 5) s = true)
    (Hwalk : walk (fs s) ch (root_of s) init = Some d) (Hdi : inodes (fs s) !! d = Some di) (Hdir : S_ISDIR (r_mode di) = true)
    (Hi : i <> 0) (Hci : inodes (fs s) !! i = Some c) (Hreg : S_ISDIR (r_mode c) = false) (Hsize : 0 < r_size c <= 64 * 1024 * 1024)
    (Hload : forall f v p h, vfs_open s path O_RDONLY 0 = Ok (f, v) -> a_kmalloc (heap (fs v)) (r_size c) GFP_KERNEL = Ok (p, h) ->
       p <> 0 -> loads (map_region (k_mem k) p img) p img off ent phs t e entry filename (Z.of_nat (length path) + 1)) :
  exists r k', sys_execve fuel k filename = Ok (r, k') /\ kern_inv k' ch q /\ files (k_vfs k') = files s /\ fd_table k' = fd_table k /\ accounts s (k_vfs k') /\
    ((r = - ENOMEM /\ k_mem k' = k_mem k /\ k_sched k' = k_sched k) \/
     (r = i64 entry /\ placed (k_mem k) (k_mem k') (segments USER_CODE_BASE (t =? ET_DYN) img phs) /\
      exists tk, tasks (k_sched k) !! get_current (k_sched k) = Some tk /\
        k_sched k' = with_tasks (k_sched k) (<[get_current (k_sched k) := exec_task (take 15 path) tk]> (tasks (k_sched k))))).
Proof using Type*.
  destruct Hpath as (Hb & Hz & Ha0 & Ha1). pose proof (ki_switch _ _ _ Hinv) as Hsw.
  destruct (image_read s ch path init name d di c Hsw Hc Hz Hroom Hwalk Hdi Hdir Hi Hci Hreg)
    as (f & v & x & r & E & Hf & Hx & Hino & Hnull & Hvn & p & h & Ek & Hrest). cbv zeta in Hrest.
  unfold sys_execve. rewrite (load_string_ok _ _ path) by done. rewrite bind_ok. fold s. rewrite E, bind_ok. cbv beta iota zeta.
  rewrite (proj2 (Z.eqb_neq f 0) Hf). cbn [k_vfs with_vfs]. rewrite Hx, bind_ok, Hino, bind_ok, Hnull, Hvn, !bind_ok.
  cbn [i_size vnode_of]. rewrite u64_small by lia.
  rewrite (proj2 (Z.eqb_neq (r_size c) 0)), (proj2 (Z.ltb_ge (64 * 1024 * 1024) (r_size c))) by lia. cbn [orb].
  rewrite Ek, bind_ok. cbv beta iota zeta. cbn [k_vfs with_vfs].
  destruct Hrest as [(-> & v' & Ec & Hsw' & Hfs & Hacc)|(Hp & v1 & v2 & h' & Er & Ec & Ef & Hsw' & Hfs & Hacc)].
  { cbn [Z.eqb]. unfold exec_close. cbn [k_vfs with_vfs]. rewrite Ec, bind_ok. do 2 eexists. split; [done|].
    split; [by apply (inv_vfs_files k ch q _ ch)|]. split; [exact Hfs|]. split; [done|]. split; [exact Hacc|]. by left. }
  specialize (Hload f v p h E Ek Hp). rewrite (proj2 (Z.eqb_neq p 0) Hp), Er, bind_ok. cbv beta iota zeta. fold img.
  rewrite Ec, bind_ok. cbn [snd]. rewrite Z.eqb_refl. cbn [negb k_mem with_vfs]. cbv zeta.
  set (m := map_region (k_mem k) p img) in *. pose proof Hload as [P Ht (total & Etot & Htot) Hfits Hst [He Hen] (H1 & H2 & H3) Hname].
  assert (r_size c = Z.of_nat (length img)) as Hlen by (symmetry; by apply (file_bytes_length (fs s) ch i c (vi_ram _ _ (sw_inv _ _ Hsw)))).
  rewrite Hlen in *. rewrite (pg_valid _ _ _ _ _ _ _ P), bind_ok. cbn [Z.eqb negb]. rewrite Etot, bind_ok, (proj2 (Z.eqb_neq total 0) Htot).
  subst entry. destruct (load_static fuel m p _ USER_CODE_BASE off ent img phs t e P Ht Hfits Hst He H1 H2 H3) as (m1 & El & Hpl).
  rewrite El, bind_ok. cbv beta iota zeta. rewrite (exec_free_ok _ p h') by exact Ef. rewrite bind_ok. cbv beta iota zeta. cbn [Z.eqb negb].
  cbn [k_sched with_vfs with_mem k_mem]. pose proof (unmap_overlay _ _ _ _ _ Hpl (segments_apart _ _ _ _ _ _ _ _ _ _ _ Hload)) as Hpl'.
  set (m2 := unmap_region m1 (k_mem k) p (Z.of_nat (length img))) in *.
  destruct (current_task k ch q Hinv) as [tk Htk]. destruct (exec_good _ q (take 15 path) tk (ki_sched _ _ _ Hinv) Htk) as [Eu Hg].
  assert (get_current (k_sched k) <> 0) as Hcur.
  { destruct (ki_sched _ _ _ Hinv) as (Is & _). pose proof (proj1 (si_tasks _ _ Is _) (mk_is_Some _ _ Htk)). unfold init_task, get_current in *. lia. }
  assert (bytes_at m2 filename (path ++ [0])) as Hb2.
  { apply (placed_keeps (k_mem k) m2 _ _ _ Hpl' Hb). rewrite length_app, Nat2Z.inj_add. exact Hname. }
  rewrite (proj2 (Z.eqb_neq _ 0) Hcur), (comm_loop_ok _ path) by done.
  rewrite bind_ok. change (Z.to_nat (TASK_COMM_LEN - 1)) with 15%nat. rewrite Eu, bind_ok. do 2 eexists. split; [done|].
  split; [|split; [exact Hfs|split; [done|split; [exact Hacc|right; split; [done|split; [exact Hpl'|by exists tk]]]]]].
  apply (inv_sched _ ch q); [|exact Hg].
  exact (inv_vfs_files (with_mem k m2) ch q _ ch (inv_mem _ _ _ m2 Hinv) Hsw' Hfs).
Qed.
End exec.

(** ** A program on a booted kernel *)

(** The image of [exec_img] is written to "/f", which is closed. *)
Definition written_vfs : vfs Kmalloc.heap := vfs_state (vfs_write open_vfs file_f (Some exec_img) (replicate 4096 0)).
Definition elf_vfs : vfs Kmalloc.heap := vfs_state (vfs_close written_vfs file_f).
Definition elf_inode : ramfs_inode := RInode 2 0x81A4 0 0 136 1107297696 4096 root_no 0 0 [102].
Definition buffer : Z := 1107302368.

Lemma written_switch : switch_ok written_vfs tree_f.
Proof.
  destruct (vfs_write_file open_vfs tree_f file_f opened_file exec_img (replicate 4096 0) opened_switch_ok opened_files)
    as (r & v & E & Hsw & _).
  - vm_compute. reflexivity.
  - intros i Hi _. vm_compute. reflexivity.
  - rewrite (vfs_state_ok _ _ written_vfs _ E eq_refl) in Hsw. exact Hsw.
Qed.

Lemma elf_switch : switch_ok elf_vfs tree_f.
Proof.
  assert (files written_vfs !! file_f = Some (with_pos opened_file 136)) as Hf by (vm_compute; reflexivity).
  destruct (vfs_close_ok written_vfs tree_f file_f _ (sw_inv _ _ written_switch) Hf eq_refl)
    as (v & E & Iv & Hfs & _ & Hrd & Hin & _).
  pose proof (close_switch written_vfs tree_f file_f _ v written_switch Hf Iv Hfs Hrd Hin) as Hsw.
  rewrite (vfs_state_ok _ _ elf_vfs _ E eq_refl) in Hsw. exact Hsw.
Qed.

(** Its memory has room for the program. *)
Definition elf_kern : kern Kmalloc.heap := boot_kern elf_vfs (mem_of 0x4000 (replicate 32 0) ∪ user_mem 0) [] false.

Lemma elf_kern_inv : kern_inv elf_kern tree_f [2].
Proof.
  split; [exact elf_switch| |exact running_good|vm_compute; intuition discriminate|vm_compute; intuition discriminate].
  change (k_vfs elf_kern) with elf_vfs. change (fd_table (init_fd_table elf_kern)) with initial_fds.
  assert (dom (files elf_vfs) = ∅) as -> by (vm_compute; reflexivity). exact initial_fds_ok.
Qed.

Definition placed_at : option Z :=
  match vfs_open elf_vfs path_f O_RDONLY 0 with
  | Ok (f, v) => match a_kmalloc (heap (fs v)) 136 GFP_KERNEL with Ok (p, _) => Some p | _ => None end
  | _ => None
  end.

Lemma buffer_at f v p h : vfs_open elf_vfs path_f O_RDONLY 0 = Ok (f, v) ->
  a_kmalloc (heap (fs v)) 136 GFP_KERNEL = Ok (p, h) -> p = buffer.
Proof.
  intros E Ek. assert (placed_at = Some buffer) as Hp by (vm_compute; reflexivity).
  unfold placed_at in Hp. rewrite E, Ek in Hp. by injection Hp.
Qed.

Definition buffer_mem : mem := map_region (k_mem elf_kern) buffer exec_img.

Lemma buffer_program : program buffer_mem buffer 136 64 56 exec_img exec_phs.
Proof.
  split.
  - unfold EHDR_SIZE, buffer. lia.
  - split; [apply bytes_check|]; vm_compute; reflexivity.
  - vm_compute. reflexivity.
  - vm_compute. reflexivity.
  - vm_compute. reflexivity.
  - vm_compute. reflexivity.
  - cbn. unfold PHDR_SIZE. lia.
  - intros [|i] h Hi; [|discriminate Hi]. injection Hi as <-. split; vm_compute; reflexivity.
Qed.

Lemma buffer_loads : loads buffer_mem buffer exec_img 64 56 exec_phs ET_EXEC 0x4000 0x4000 USER_HEAP_START 3.
Proof.
  split.
  - exact buffer_program.
  - vm_compute. reflexivity.
  - exists 24. split; [vm_compute; reflexivity|discriminate].
  - constructor; [|done]. intros _. split.
    + unfold in_file. cbn. lia.
    + cbn. lia.
    + apply (mapped_check _ _ 24). vm_compute. reflexivity.
    + right. vm_compute. discriminate.
  - by left.
  - split; [vm_compute; reflexivity|done].
  - split; [lia|split; [lia|]]. apply (mapped_check _ _ 16). vm_compute. reflexivity.
  - constructor; [|done]. left. vm_compute. discriminate.
Qed.

Lemma elf_path : user_path elf_kern USER_HEAP_START path_f.
Proof.
  split; [apply bytes_check; vm_compute; reflexivity|]. split; [exact path_f_chars|]. vm_compute. split; [discriminate|reflexivity].
Qed.

Lemma elf_file : inodes (fs elf_vfs) !! new_no = Some elf_inode /\ first_named (fs elf_vfs) [102] (tree_f root_no) = new_no.
Proof. split; vm_compute; reflexivity. Qed.

Lemma elf_bytes : file_bytes (fs elf_vfs) elf_inode = exec_img.
Proof. vm_compute. reflexivity. Qed.

Lemma sys_execve_correct_witness : exists r k', sys_execve 0 elf_kern USER_HEAP_START = Ok (r, k') /\
  (r = - ENOMEM \/ r = 0x4000 /\ k_mem k' !! 0x4000 = Some 0xAA).
Proof.
  assert (root_of elf_vfs = root_no) as Hroot by (vm_compute; reflexivity).
  destruct (sys_execve_correct 0 elf_kern tree_f [2] USER_HEAP_START path_f [] [102] root_no (root_dir new_no) elf_inode 64 56
    exec_phs ET_EXEC 0x4000 0x4000 elf_kern_inv elf_path path_f_components) as (r & k' & E & _ & _ & _ & _ & Hres).
  - vm_compute. reflexivity.
  - change (k_vfs elf_kern) with elf_vfs. rewrite Hroot. reflexivity.
  - vm_compute. reflexivity.
  - reflexivity.
  - change (k_vfs elf_kern) with elf_vfs. rewrite (proj2 elf_file). discriminate.
  - change (k_vfs elf_kern) with elf_vfs. rewrite (proj2 elf_file). apply elf_file.
  - reflexivity.
  - vm_compute. intuition discriminate.
  - intros f v p h Eo Ek _. change (k_vfs elf_kern) with elf_vfs in *. rewrite elf_bytes, (buffer_at f v p h Eo Ek). exact buffer_loads.
  - exists r, k'. split; [exact E|]. destruct Hres as [[-> _]|(-> & P & _)]; [by left|right]. split; [vm_compute; reflexivity|].
    rewrite (P 0x4000). change (k_vfs elf_kern) with elf_vfs. rewrite elf_bytes. vm_compute. reflexivity.
Defined.
