(* ===== verification/Event.v ===== *)
(** * The event system (src/kernel/core/event_system.c): state and operations

    The events of the pool, the list heads and the handler entries are nodes of
    one store of kernel lists; static objects are small numbers, handler entries
    are blocks of the kernel heap, 0 is null.  A handler function is its address;
    what such a function, or the router, does to the system is the parameter [run]
    or [run_router], and what the window manager answers is a parameter as well.
    [fuel] is how often a lock word is tested, and how many events or handlers a
    loop visits. *)
From S2P Require Import Prelude AllocSpec KList.
#[local] Open Scope Z_scope.

Definition EVENT_USER : Z := 1000.
Definition EVENT_QUEUE_SIZE : Z := 1024.
Definition EVENT_KEY_DOWN : Z := 0.
Definition EVENT_KEY_UP : Z := 1.
Definition EVENT_MOUSE_MOVE : Z := 3.
Definition EVENT_MOUSE_DOWN : Z := 4.
Definition EVENT_MOUSE_UP : Z := 5.
Definition EVENT_MOUSE_SCROLL : Z := 6.
Definition ALL_TYPES : Z := 2 ^ 32 - 1.
Definition SIZEOF_HANDLER : Z := 48.

(** Static addresses: the list heads and the pool. *)
Definition FREE : Z := 1.
Definition PENDING : Z := 2.
Definition HANDLERS : Z := 3.
Definition TYPE_HANDLERS (i : Z) : Z := 4 + i.
Definition EVENTS (i : Z) : Z := 2000 + i.
Definition STATIC_END : Z := 4096.

Inductive event_data :=
| DNone
| DKeyboard (keycode scancode modifiers character : Z)
| DMouse (x y delta_x delta_y button scroll_delta modifiers : Z)
| DWindow (window_id x y width height : Z)
| DSystem (timestamp : Z).

Record event := Event {
  ev_type : Z; ev_id : Z; ev_timestamp : Z; ev_target_window : Z; ev_target_process : Z; ev_data : event_data
}.

Record handler_entry := HandlerEntry { h_type : Z; h_handler : Z; h_user_data : Z; h_priority : Z }.

(** What a window is asked for: its number and the process of its owner, if any. *)
Record window := Window { w_id : Z; w_owner : option Z }.

Record event_system (A : Type) := EventSystem {
  e_links : gmap Z list_head;
  e_events : gmap Z event;
  e_handlers : gmap Z handler_entry;
  e_heap : A;
  q_lock : bool; q_count : Z;
  e_router : Z;
  events_posted : Z; events_dispatched : Z; events_dropped : Z;
  next_event_id : Z; enabled : bool;
  time_counter : Z;
  prev_mouse_x : Z; prev_mouse_y : Z; prev_button_mask : Z
}.
Arguments EventSystem {A}.
Arguments e_links {A}. Arguments e_events {A}. Arguments e_handlers {A}. Arguments e_heap {A}.
Arguments q_lock {A}. Arguments q_count {A}. Arguments e_router {A}. Arguments events_posted {A}.
Arguments events_dispatched {A}. Arguments events_dropped {A}. Arguments next_event_id {A}. Arguments enabled {A}.
Arguments time_counter {A}. Arguments prev_mouse_x {A}. Arguments prev_mouse_y {A}. Arguments prev_button_mask {A}.

Section updates.
Context {A : Type}.
Implicit Types (s : event_system A).

Definition with_links s l := EventSystem l (e_events s) (e_handlers s) (e_heap s) (q_lock s) (q_count s) (e_router s) (events_posted s)
  (events_dispatched s) (events_dropped s) (next_event_id s) (enabled s) (time_counter s) (prev_mouse_x s) (prev_mouse_y s) (prev_button_mask s).
Definition with_events s e := EventSystem (e_links s) e (e_handlers s) (e_heap s) (q_lock s) (q_count s) (e_router s) (events_posted s)
  (events_dispatched s) (events_dropped s) (next_event_id s) (enabled s) (time_counter s) (prev_mouse_x s) (prev_mouse_y s) (prev_button_mask s).
Definition with_handlers s h (a : A) := EventSystem (e_links s) (e_events s) h a (q_lock s) (q_count s) (e_router s) (events_posted s)
  (events_dispatched s) (events_dropped s) (next_event_id s) (enabled s) (time_counter s) (prev_mouse_x s) (prev_mouse_y s) (prev_button_mask s).
Definition with_lock s b := EventSystem (e_links s) (e_events s) (e_handlers s) (e_heap s) b (q_count s) (e_router s) (events_posted s)
  (events_dispatched s) (events_dropped s) (next_event_id s) (enabled s) (time_counter s) (prev_mouse_x s) (prev_mouse_y s) (prev_button_mask s).
Definition with_count s c := EventSystem (e_links s) (e_events s) (e_handlers s) (e_heap s) (q_lock s) c (e_router s) (events_posted s)
  (events_dispatched s) (events_dropped s) (next_event_id s) (enabled s) (time_counter s) (prev_mouse_x s) (prev_mouse_y s) (prev_button_mask s).
Definition with_router s r := EventSystem (e_links s) (e_events s) (e_handlers s) (e_heap s) (q_lock s) (q_count s) r (events_posted s)
  (events_dispatched s) (events_dropped s) (next_event_id s) (enabled s) (time_counter s) (prev_mouse_x s) (prev_mouse_y s) (prev_button_mask s).
Definition with_stats s p d x := EventSystem (e_links s) (e_events s) (e_handlers s) (e_heap s) (q_lock s) (q_count s) (e_router s) p
  d x (next_event_id s) (enabled s) (time_counter s) (prev_mouse_x s) (prev_mouse_y s) (prev_button_mask s).
Definition with_ids s i t := EventSystem (e_links s) (e_events s) (e_handlers s) (e_heap s) (q_lock s) (q_count s) (e_router s) (events_posted s)
  (events_dispatched s) (events_dropped s) i (enabled s) t (prev_mouse_x s) (prev_mouse_y s) (prev_button_mask s).
Definition with_enabled s b := EventSystem (e_links s) (e_events s) (e_handlers s) (e_heap s) (q_lock s) (q_count s) (e_router s) (events_posted s)
  (events_dispatched s) (events_dropped s) (next_event_id s) b (time_counter s) (prev_mouse_x s) (prev_mouse_y s) (prev_button_mask s).
Definition with_mouse s x y m := EventSystem (e_links s) (e_events s) (e_handlers s) (e_heap s) (q_lock s) (q_count s) (e_router s) (events_posted s)
  (events_dispatched s) (events_dropped s) (next_event_id s) (enabled s) (time_counter s) x y m.
End updates.

Definition set_targets (e : event) (w p : Z) : event := Event (ev_type e) (ev_id e) (ev_timestamp e) w p (ev_data e).
Definition set_data (e : event) (d : event_data) : event := Event (ev_type e) (ev_id e) (ev_timestamp e) (ev_target_window e) (ev_target_process e) d.

Section event.
Context {A : Type} `{Allocator A}.
Abbreviation ev := (event_system A).
Context (fuel : nat) (run : Z -> Z -> Z -> ev -> outcome (Z * ev)) (run_router : Z -> Z -> ev -> outcome (Z * ev)).
Context (window_get_focused : option window) (window_at_position : Z -> Z -> option window) (window_get : Z -> option window).

(** [spin_lock]: the wait for a lock that this CPU holds already never ends. *)
Fixpoint spin (n : nat) (s : ev) : outcome ev :=
  if q_lock s then match n with O => NoFuel | S n => spin n s end else Ok (with_lock s true).
Definition spin_lock (s : ev) : outcome ev := spin fuel s.
Definition spin_unlock (s : ev) : ev := with_lock s false.

Definition in_links (s : ev) (f : gmap Z list_head -> outcome (gmap Z list_head)) : outcome ev := l ← f (e_links s); Ok (with_links s l).
Definition upd_event (s : ev) (p : Z) (f : event -> event) : outcome ev :=
  e ← of_option (e_events s !! p); Ok (with_events s (<[p := f e]> (e_events s))).

(** ** Helpers *)

Definition alloc_event_id (s : ev) : Z * ev := (next_event_id s, with_ids s (u32 (next_event_id s + 1)) (time_counter s)).
Definition get_time_ns (s : ev) : Z * ev :=
  let c := u64 (time_counter s + 1) in (u64 (c * 1000000), with_ids s (next_event_id s) c).

Definition alloc_event_from_pool (s : ev) : outcome (Z * ev) :=
  s ← spin_lock s;
  b ← list_empty (e_links s) FREE;
  if b : bool then Ok (0, spin_unlock s)
  else
    event ← next_of (e_links s) FREE;
    s ← in_links s (fun l => list_del l event);
    Ok (event, spin_unlock (with_count s (q_count s + 1))).

Definition free_event_to_pool (s : ev) (event : Z) : outcome ev :=
  s ← spin_lock s;
  s ← in_links s (fun l => list_add l event FREE);
  Ok (spin_unlock (if 0 <? q_count s then with_count s (q_count s - 1) else s)).

(** ** Initialization *)

Definition static_addresses : list Z :=
  [FREE; PENDING; HANDLERS] ++ map TYPE_HANDLERS (seqZ 0 EVENT_USER) ++ map EVENTS (seqZ 0 EVENT_QUEUE_SIZE).
Definition zero_event : event := Event 0 0 0 0 0 DNone.

Fixpoint pool_loop (n : nat) (i : Z) (l : gmap Z list_head) : outcome (gmap Z list_head) :=
  match n with O => Ok l | S n => l ← list_add l (EVENTS i) FREE; pool_loop n (i + 1) l end.
Fixpoint type_loop (n : nat) (i : Z) (l : gmap Z list_head) : gmap Z list_head :=
  match n with O => l | S n => type_loop n (i + 1) (INIT_LIST_HEAD l (TYPE_HANDLERS i)) end.

(** [memset] clears every static object; what the heap and [get_time_ns] hold stays. *)
Definition event_system_init (s : ev) : outcome ev :=
  let l := list_to_map (map (fun a => (a, ListHead 0 0)) static_addresses) ∪ e_links s in
  let evs := list_to_map (map (fun i => (EVENTS i, zero_event)) (seqZ 0 EVENT_QUEUE_SIZE)) in
  let l := INIT_LIST_HEAD (INIT_LIST_HEAD l FREE) PENDING in
  l ← pool_loop (Z.to_nat EVENT_QUEUE_SIZE) 0 l;
  let l := type_loop (Z.to_nat EVENT_USER) 0 (INIT_LIST_HEAD l HANDLERS) in
  Ok (EventSystem l evs (e_handlers s) (e_heap s) false 0 0 0 0 0 0 true (time_counter s)
        (prev_mouse_x s) (prev_mouse_y s) (prev_button_mask s)).

(** The loop saves the next event before it frees one. *)
Fixpoint shutdown_loop (n : nat) (s : ev) (event : Z) : outcome ev :=
  if event =? PENDING then Ok s
  else match n with
       | O => NoFuel
       | S n =>
           tmp ← next_of (e_links s) event;
           s ← in_links s (fun l => list_del l event);
           s ← free_event_to_pool s event;
           shutdown_loop n s tmp
       end.

Definition event_system_shutdown (s : ev) : outcome ev :=
  s ← spin_lock (with_enabled s false);
  first ← next_of (e_links s) PENDING;
  s ← shutdown_loop fuel s first;
  Ok (spin_unlock s).

Definition event_system_enable (s : ev) : ev := with_enabled s true.
Definition event_system_disable (s : ev) : ev := with_enabled s false.

(** ** Creation *)

Definition event_create (s : ev) (type : Z) : outcome (Z * ev) :=
  r ← alloc_event_from_pool s;
  let '(event, s) := r in
  if event =? 0 then Ok (0, with_stats s (events_posted s) (events_dispatched s) (u64 (events_dropped s + 1)))
  else
    let '(id, s) := alloc_event_id s in
    let '(now, s) := get_time_ns s in
    s ← upd_event s event (fun _ => Event type id now (-1) (-1) DNone);
    Ok (event, with_links s (INIT_LIST_HEAD (e_links s) event)).

Definition event_free (s : ev) (event : Z) : outcome ev := if event =? 0 then Ok s else free_event_to_pool s event.

Definition event_set_target (s : ev) (event window_id process_id : Z) : outcome ev :=
  if event =? 0 then Ok s else upd_event s event (fun e => set_targets e window_id process_id).

(** ** Posting *)

Definition event_post (s : ev) (event : Z) : outcome (Z * ev) :=
  if (event =? 0) || negb (enabled s) then Ok (-1, s)
  else
    s ← spin_lock s;
    s ← in_links s (fun l => list_add_tail l event PENDING);
    Ok (0, spin_unlock (with_stats s (u64 (events_posted s + 1)) (events_dispatched s) (events_dropped s))).

(** The window an event goes to, and its owner. *)
Definition route (w : option window) (e : event) : event :=
  match w with
  | None => e
  | Some w => set_targets e (w_id w) (match w_owner w with Some p => p | None => ev_target_process e end)
  end.
Definition route_owner (w : option window) (e : event) : event :=
  match w with Some (Window _ (Some p)) => set_targets e (ev_target_window e) p | _ => e end.

Definition event_post_keyboard (s : ev) (type keycode scancode modifiers character : Z) : outcome (Z * ev) :=
  r ← event_create s type;
  let '(event, s) := r in
  if event =? 0 then Ok (-1, s)
  else
    s ← upd_event s event (fun e => route window_get_focused (set_data e (DKeyboard keycode scancode modifiers character)));
    event_post s event.

Definition event_post_mouse (s : ev) (type x y button modifiers : Z) : outcome (Z * ev) :=
  r ← event_create s type;
  let '(event, s) := r in
  if event =? 0 then Ok (-1, s)
  else
    s ← upd_event s event (fun e => route (window_at_position x y) (set_data e (DMouse x y 0 0 button 0 modifiers)));
    event_post s event.

Definition event_post_window (s : ev) (type window_id x y width height : Z) : outcome (Z * ev) :=
  r ← event_create s type;
  let '(event, s) := r in
  if event =? 0 then Ok (-1, s)
  else
    s ← upd_event s event (fun e => route_owner (window_get window_id)
          (set_data (set_targets e window_id (ev_target_process e)) (DWindow window_id x y width height)));
    event_post s event.

Definition event_post_system (s : ev) (type : Z) : outcome (Z * ev) :=
  r ← event_create s type;
  let '(event, s) := r in
  if event =? 0 then Ok (-1, s)
  else
    let '(now, s) := get_time_ns s in
    s ← upd_event s event (fun e => set_data e (DSystem now));
    event_post s event.

(** ** Dispatch *)

(** [list_for_each_entry] over the handlers from [pos] on: 1 when one consumed the event. *)
Fixpoint call_handlers (n : nat) (s : ev) (global : bool) (head pos event : Z) : outcome (Z * ev) :=
  if pos =? head then Ok (0, s)
  else match n with
       | O => NoFuel
       | S n =>
           h ← of_option (e_handlers s !! pos);
           e ← of_option (e_events s !! event);
           if negb global || (h_type h =? ALL_TYPES) || (h_type h =? ev_type e) then
             r ← run (h_handler h) event (h_user_data h) s;
             let '(ret, s) := r in
             if ret =? 0 then Ok (1, s) else p ← next_of (e_links s) pos; call_handlers n s global head p event
           else p ← next_of (e_links s) pos; call_handlers n s global head p event
       end.

Definition event_dispatch (s : ev) (event : Z) : outcome ev :=
  if event =? 0 then Ok s
  else
    first ← next_of (e_links s) HANDLERS;
    r ← call_handlers fuel s true HANDLERS first event;
    let '(handled, s) := r in
    r ← (if handled =? 0 then
           e ← of_option (e_events s !! event);
           if ev_type e <? EVENT_USER then
             first ← next_of (e_links s) (TYPE_HANDLERS (ev_type e));
             call_handlers fuel s false (TYPE_HANDLERS (ev_type e)) first event
           else Ok (handled, s)
         else Ok (handled, s));
    let '(handled, s) := r in
    r ← (if (handled =? 0) && negb (e_router s =? 0) then run_router (e_router s) event s else Ok (handled, s));
    let '(handled, s) := r in
    event_free (with_stats s (events_posted s) (u64 (events_dispatched s + 1)) (events_dropped s)) event.

Definition event_poll (s : ev) (timeout_ms : Z) : outcome (Z * ev) :=
  s ← spin_lock s;
  b ← list_empty (e_links s) PENDING;
  if b : bool then Ok (0, spin_unlock s)
  else
    event ← next_of (e_links s) PENDING;
    s ← in_links s (fun l => list_del l event);
    Ok (event, spin_unlock s).

Fixpoint dispatch_loop (n : nat) (s : ev) : outcome ev :=
  match n with
  | O => NoFuel
  | S n =>
      s ← spin_lock s;
      b ← list_empty (e_links s) PENDING;
      if b : bool then Ok (spin_unlock s)
      else
        event ← next_of (e_links s) PENDING;
        s ← in_links s (fun l => list_del l event);
        s ← event_dispatch (spin_unlock s) event;
        dispatch_loop n s
  end.
Definition event_dispatch_all (s : ev) : outcome ev := dispatch_loop fuel s.

(** ** Handlers *)

(** The place for a handler of [priority]: before the first one of lower priority. *)
Fixpoint find_place (n : nat) (s : ev) (head pos priority : Z) : outcome Z :=
  if pos =? head then Ok head
  else match n with
       | O => NoFuel
       | S n => h ← of_option (e_handlers s !! pos);
                if h_priority h <? priority then Ok pos else p ← next_of (e_links s) pos; find_place n s head p priority
       end.

Definition event_register_handler (s : ev) (type handler user_data priority : Z) : outcome (Z * ev) :=
  if handler =? 0 then Ok (-1, s)
  else
    r ← a_kmalloc (e_heap s) SIZEOF_HANDLER GFP_KERNEL;
    let '(entry, a) := r in
    if entry =? 0 then Ok (-2, with_handlers s (e_handlers s) a)
    else
      let s := with_handlers s (<[entry := HandlerEntry type handler user_data priority]> (e_handlers s)) a in
      let s := with_links s (INIT_LIST_HEAD (e_links s) entry) in
      if (type =? ALL_TYPES) || (type <? EVENT_USER) then
        let head := if type =? ALL_TYPES then HANDLERS else TYPE_HANDLERS type in
        first ← next_of (e_links s) head;
        pos ← find_place fuel s head first priority;
        s ← in_links s (fun l => list_add_tail l entry pos);
        Ok (i32 entry, s)
      else
        a ← a_kfree (e_heap s) entry;
        Ok (-3, with_handlers s (delete entry (e_handlers s)) a).

Definition event_unregister_handler (s : ev) (handler_id : Z) : outcome (Z * ev) :=
  if handler_id =? 0 then Ok (-1, s)
  else
    let entry := u64 handler_id in
    s ← in_links s (fun l => list_del l entry);
    a ← a_kfree (e_heap s) entry;
    Ok (0, with_handlers s (delete entry (e_handlers s)) a).

Definition event_set_router (s : ev) (router : Z) : ev := with_router s router.

(** ** Input *)

Definition scancode_to_keycode (scancode : Z) : Z :=
  if scancode =? 0x01 then 27 else if scancode =? 0x02 then 49 else if scancode =? 0x03 then 50
  else if scancode =? 0x1E then 97 else if scancode =? 0x30 then 98 else if scancode =? 0x2E then 99
  else if scancode =? 0x20 then 100 else if scancode =? 0x1C then 13 else if scancode =? 0x39 then 32
  else if scancode =? 0x0E then 8 else scancode.

(** A [char] of the machine is unsigned. *)
Definition event_input_keyboard (s : ev) (scancode : Z) (pressed : bool) : outcome ev :=
  let keycode := scancode_to_keycode scancode in
  let type := if pressed then EVENT_KEY_DOWN else EVENT_KEY_UP in
  let character := if pressed && (keycode <? 128) then u8 keycode else 0 in
  r ← event_post_keyboard s type keycode scancode 0 character;
  Ok (snd r).

Fixpoint button_loop (n : nat) (i : Z) (s : ev) (x y button_mask : Z) : outcome ev :=
  match n with
  | O => Ok s
  | S n =>
      let was_pressed := Z.land (Z.shiftr (prev_button_mask s) i) 1 in
      let is_pressed := Z.land (Z.shiftr button_mask i) 1 in
      s ← (if negb (is_pressed =? 0) && (was_pressed =? 0) then r ← event_post_mouse s EVENT_MOUSE_DOWN x y i 0; Ok (snd r)
           else if (is_pressed =? 0) && negb (was_pressed =? 0) then r ← event_post_mouse s EVENT_MOUSE_UP x y i 0; Ok (snd r)
           else Ok s);
      button_loop n (i + 1) s x y button_mask
  end.

Definition post_motion (s : ev) (type : Z) (d : event_data) : outcome ev :=
  r ← event_create s type;
  let '(event, s) := r in
  if event =? 0 then Ok s
  else
    s ← upd_event s event (fun e => set_data e d);
    r ← event_post s event;
    Ok (snd r).

Definition event_input_mouse (s : ev) (x y button_mask delta_z : Z) : outcome ev :=
  s ← (if negb (x =? prev_mouse_x s) || negb (y =? prev_mouse_y s) then
         r ← event_create s EVENT_MOUSE_MOVE;
         let '(event, s) := r in
         if event =? 0 then Ok s
         else
           dx ← int_arith (x - prev_mouse_x s);
           dy ← int_arith (y - prev_mouse_y s);
           s ← upd_event s event (fun e => set_data e (DMouse x y dx dy 0 0 0));
           r ← event_post s event;
           Ok (snd r)
       else Ok s);
  s ← button_loop 5 0 s x y button_mask;
  s ← (if negb (delta_z =? 0) then post_motion s EVENT_MOUSE_SCROLL (DMouse x y 0 0 0 delta_z 0) else Ok s);
  Ok (with_mouse s x y button_mask).

Definition event_get_stats (s : ev) : Z * Z * Z := (events_posted s, events_dispatched s, events_dropped s).

End event.
