(* ===== verification/EventSpec.v ===== *)
(** * The event system: the pool, the queue and the handler lists

    [e_inv s rs held]: the list with head [h] has the elements [rs h], every event
    of the pool is free, pending or one of those that callers [held], and the
    handler lists hold exactly the registered handlers, by falling priority. *)
From S2P Require Import Prelude AllocSpec KList Event.
From Stdlib Require Import Sorting.Sorted.
#[local] Open Scope Z_scope.

(** ** Lists sorted by falling priority *)

Section sorted.
Context {B : Type}.
Implicit Types (f : B -> Z) (xs : list B).

Lemma filter_none (P : B -> Prop) `{forall x, Decision (P x)} xs : (forall x, x ∈ xs -> ~ P x) -> filter P xs = [].
Proof.
  induction xs as [|x xs IH]; intros Hn; [done|]. rewrite filter_cons, decide_False by (apply Hn; by left).
  apply IH. intros y Hy. apply Hn. by right.
Qed.

Definition falling f xs : Prop := StronglySorted (fun x y => f y <= f x) xs.

Lemma falling_ext f g xs : (forall x, x ∈ xs -> g x = f x) -> falling f xs -> falling g xs.
Proof.
  intros E. induction 1 as [|x xs Hs IH Hf]; [constructor|]. constructor; [apply IH; intros y Hy; apply E; by right|].
  apply Forall_forall. intros y Hy. rewrite Forall_forall in Hf. rewrite !E; [by apply Hf|by left|by right].
Qed.

Lemma filter_same f g p xs : (forall x, x ∈ xs -> g x = f x) ->
  filter (fun x => p <= g x) xs = filter (fun x => p <= f x) xs /\ filter (fun x => g x < p) xs = filter (fun x => f x < p) xs.
Proof.
  induction xs as [|x xs IH]; intros E; [done|]. destruct IH as [E1 E2]; [intros y Hy; apply E; by right|].
  rewrite !filter_cons, E1, E2, (E x) by (by left). done.
Qed.

(** A test on the priority splits a sorted list. *)
Lemma falling_split f p xs : falling f xs -> xs = filter (fun x => p <= f x) xs ++ filter (fun x => f x < p) xs.
Proof.
  induction 1 as [|x xs Hs IH Hf]; [done|]. rewrite !filter_cons. repeat case_decide; try lia.
  - simpl. by rewrite <- IH.
  - rewrite Forall_forall in Hf. replace (filter (fun y => p <= f y) xs) with (@nil B) in *; [simpl in *; by f_equal|].
    symmetry. apply filter_none. intros z Hz Hpz. specialize (Hf z Hz). lia.
Qed.

Lemma falling_mid f xs x ys : falling f (xs ++ x :: ys) -> falling f (xs ++ ys).
Proof.
  induction xs as [|y xs IH]; simpl; intros [Hs Hf]%StronglySorted_inv; [done|]. constructor; [by apply IH|].
  rewrite Forall_app, Forall_cons in *. tauto.
Qed.

Lemma falling_insert f p xs x : falling f xs -> f x = p -> falling f (filter (fun y => p <= f y) xs ++ x :: filter (fun y => f y < p) xs).
Proof.
  intros Hs Hx. induction Hs as [|y xs Hs IH Hf]; [by repeat constructor|]. rewrite Forall_forall in Hf.
  rewrite !filter_cons. repeat case_decide; try lia.
  - simpl. constructor; [done|]. apply Forall_forall. intros z [Hz|[->|Hz]%elem_of_cons]%elem_of_app; [apply Hf|lia|apply Hf];
      by apply list_elem_of_filter in Hz as [_ ?].
  - replace (filter (fun z => p <= f z) xs) with (@nil B) in *.
    2: { symmetry. apply filter_none. intros z Hz Hpz. specialize (Hf z Hz). lia. }
    simpl in *. apply StronglySorted_inv in IH as [IH _]. repeat constructor; try done.
    + apply Forall_forall. intros z Hz. apply Hf. by apply list_elem_of_filter in Hz as [_ ?].
    + lia.
    + apply Forall_forall. intros z Hz. apply list_elem_of_filter in Hz as [Hlt _]. lia.
Qed.
End sorted.

(** ** Many rings at once *)

Definition is_head (h : Z) : Prop := 1 <= h < 1004.
Definition is_handler_head (h : Z) : Prop := 3 <= h < 1004.

Record rings (l : gmap Z list_head) (rs : Z -> list Z) : Prop := {
  rg_ring h : is_head h -> ring l h (rs h);
  rg_elem h x : is_head h -> x ∈ rs h -> 1004 <= x;
  rg_apart h g x : is_head h -> is_head g -> x ∈ rs h -> x ∈ rs g -> h = g
}.

(** Changing one ring and the nodes of it leaves the others alone. *)
Lemma rings_update l l' rs h xs x : rings l rs -> is_head h -> ring l' h xs -> 1004 <= x ->
  (forall g, is_head g -> g <> h -> x ∉ rs g) ->
  (forall y, y ∈ xs -> y = x \/ y ∈ rs h) -> (forall y, y ∉ x :: h :: rs h -> l' !! y = l !! y) ->
  rings l' (<[h := xs]> rs).
Proof.
  intros [Hr He Ha] Hh R Hx Hn Hin Hf. split.
  - intros g Hg. destruct (decide (g = h)) as [->|Hne]; [by rewrite fn_lookup_insert|]. rewrite fn_lookup_insert_ne by done.
    apply (ring_frame l); [|by apply Hr]. intros y Hy. apply Hf. intros Hy'.
    unfold is_head in *. apply elem_of_cons in Hy as [->|Hy].
    + apply elem_of_cons in Hy' as [->|[->|Hy']%elem_of_cons]; [lia|done|]. specialize (He h g Hh Hy'). lia.
    + apply elem_of_cons in Hy' as [->|[->|Hy']%elem_of_cons]; [by apply (Hn g)|specialize (He g h Hg Hy); lia|].
      apply Hne. by apply (Ha g h y).
  - intros g y Hg. destruct (decide (g = h)) as [->|Hne]; [rewrite fn_lookup_insert|rewrite fn_lookup_insert_ne by done; by apply He].
    intros [->|Hy]%Hin; [done|by apply (He h)].
  - intros g g' y Hg Hg'. destruct (decide (g = h)) as [->|Hne], (decide (g' = h)) as [->|Hne'];
      rewrite ?fn_lookup_insert, ?(fn_lookup_insert_ne _ h _ _) by done.
    + done.
    + intros [->|Hy]%Hin Hy'; [by destruct (Hn g')|by apply (Ha h g' y)].
    + intros Hy [->|Hy']%Hin; [by destruct (Hn g)|by apply (Ha g h y)].
    + by apply Ha.
Qed.

Lemma rings_not_in l rs h x : rings l rs -> is_head h -> 1004 <= x -> (forall g, is_head g -> x ∉ rs g) -> x ∉ h :: rs h.
Proof. intros R Hh Hx Hn [->|Hin]%elem_of_cons; [unfold is_head in Hh; lia|by apply (Hn h)]. Qed.

Lemma rings_add l rs h x : rings l rs -> is_head h -> 1004 <= x -> (forall g, is_head g -> x ∉ rs g) -> is_Some (l !! x) ->
  exists l', list_add l x h = Ok l' /\ rings l' (<[h := x :: rs h]> rs) /\ dom l' = dom l.
Proof.
  intros R Hh Hx Hn Hm. destruct (list_add_ok l h (rs h) x (rg_ring _ _ R h Hh) (rings_not_in _ _ _ _ R Hh Hx Hn) Hm) as (l' & E & R' & D & F).
  exists l'. split; [done|]. split; [|done]. apply (rings_update l l' rs h _ x); try done; [by intros g Hg _; apply Hn|].
  intros y [->|Hy]%elem_of_cons; [by left|by right].
Qed.

Lemma rings_add_before l rs h xs ys x : rings l rs -> is_head h -> rs h = xs ++ ys -> 1004 <= x -> (forall g, is_head g -> x ∉ rs g) ->
  is_Some (l !! x) -> exists l', list_add_tail l x (firstz ys h) = Ok l' /\ rings l' (<[h := xs ++ x :: ys]> rs) /\ dom l' = dom l.
Proof.
  intros R Hh Hxs Hx Hn Hm. pose proof (rg_ring _ _ R h Hh) as Rh. pose proof (rings_not_in _ _ _ _ R Hh Hx Hn) as Hxn. rewrite Hxs in Rh, Hxn.
  destruct (list_add_before_ok l h xs ys x Rh Hxn Hm) as (l' & E & R' & D & F).
  exists l'. split; [done|]. split; [|done]. apply (rings_update l l' rs h _ x); try done; [by intros g Hg _; apply Hn| |by rewrite Hxs].
  rewrite Hxs. intros y [Hy|[->|Hy]%elem_of_cons]%elem_of_app; [right|by left|right]; apply elem_of_app; auto.
Qed.

Lemma rings_del l rs h xs ys x : rings l rs -> is_head h -> rs h = xs ++ x :: ys ->
  exists l', list_del l x = Ok l' /\ rings l' (<[h := xs ++ ys]> rs) /\ dom l' = dom l.
Proof.
  intros R Hh Hxs. pose proof (rg_ring _ _ R h Hh) as Rh. rewrite Hxs in Rh.
  assert (x ∈ rs h) as Hin by (rewrite Hxs; apply elem_of_app; right; by left).
  destruct (list_del_ok l h xs ys x Rh) as (l' & E & R' & D & F). exists l'. split; [done|]. split; [|done].
  apply (rings_update l l' rs h _ x); try done.
  - by apply (rg_elem _ _ R h).
  - intros g Hg Hne Hg'. apply Hne. by apply (rg_apart _ _ R g h x).
  - rewrite Hxs. intros y [Hy|Hy]%elem_of_app; right; apply elem_of_app; [by left|right; by right].
  - intros y Hy. apply F. rewrite Hxs in Hy. intros Hy'. apply Hy. apply elem_of_cons in Hy' as [->|[->|Hy']%elem_of_cons]; [by left|right; by left|].
    right. right. apply elem_of_app in Hy' as [?|?]; apply elem_of_app; [by left|right; by right].
Qed.

(** New links of a node outside every list. *)
Lemma rings_init l rs x : rings l rs -> 1004 <= x -> (forall g, is_head g -> x ∉ rs g) -> rings (INIT_LIST_HEAD l x) rs.
Proof.
  intros [Hr He Ha] Hx Hn. split; [|done|done]. intros h Hh. apply (ring_frame l); [|by apply Hr]. intros y Hy.
  unfold INIT_LIST_HEAD. apply lookup_insert_ne. intros <-. apply elem_of_cons in Hy as [->|Hy]; [unfold is_head in Hh; lia|by apply (Hn h)].
Qed.

Lemma rings_mapped l rs h x : rings l rs -> is_head h -> x ∈ rs h -> is_Some (l !! x).
Proof. intros R Hh Hx. apply (ring_mapped l h (rs h)); [by apply R|by right]. Qed.

(** ** The invariant *)

Definition pool : list Z := map EVENTS (seqZ 0 EVENT_QUEUE_SIZE).

Lemma pool_range x : x ∈ pool <-> 2000 <= x < 3024.
Proof.
  unfold pool, EVENTS, EVENT_QUEUE_SIZE. rewrite list_elem_of_fmap. setoid_rewrite elem_of_seqZ. split; [by intros (i & -> & ?); lia|].
  intros ?. exists (x - 2000). lia.
Qed.

Lemma pool_nodup : NoDup pool.
Proof. apply NoDup_fmap_2; [|apply NoDup_seqZ]. intros x y. unfold EVENTS. lia. Qed.

Lemma pool_length : length pool = 1024%nat.
Proof. unfold pool. rewrite length_map, length_seqZ. done. Qed.

Section spec.
Context {A : Type} `{AllocatorLaws A}.
Abbreviation ev := (event_system A).
Implicit Types (s : ev) (rs : Z -> list Z).

Definition priority s x : Z := match e_handlers s !! x with Some h => h_priority h | None => 0 end.

Record e_inv s rs (held : list Z) : Prop := {
  ei_lock : q_lock s = false;
  ei_rings : rings (e_links s) rs;
  ei_pool : Permutation (rs FREE ++ rs PENDING ++ held) pool;
  ei_count : q_count s = Z.of_nat (length (rs PENDING) + length held);
  ei_mapped x : x ∈ pool -> is_Some (e_links s !! x) /\ is_Some (e_events s !! x);
  ei_entries x : is_Some (e_handlers s !! x) <-> exists h, is_handler_head h /\ x ∈ rs h;
  ei_sorted h : is_handler_head h -> falling (priority s) (rs h);
  ei_heap : a_inv (e_heap s);
  ei_live x : is_Some (e_handlers s !! x) -> is_Some (a_cap (e_heap s) x) /\ STATIC_END <= x
}.

Lemma handler_head_head h : is_handler_head h -> is_head h.
Proof using Type. unfold is_handler_head, is_head. lia. Qed.

(** A held event is in no list. *)
Lemma held_free s rs held x : e_inv s rs held -> x ∈ held -> x ∈ pool /\ 1004 <= x /\ (forall g, is_head g -> x ∉ rs g).
Proof using Type.
  intros I Hx. pose proof (ei_pool _ _ _ I) as Hp. assert (x ∈ pool) as Hxp by (rewrite <- Hp; rewrite !elem_of_app; by right; right).
  split; [done|]. pose proof (proj1 (pool_range x) Hxp). split; [lia|]. intros g Hg Hin.
  pose proof pool_nodup as Hnd. rewrite <- Hp in Hnd.
  destruct (decide (g = FREE)) as [->|Hf].
  { apply NoDup_app in Hnd as (_ & Hd & _). apply (Hd x Hin). apply elem_of_app. by right. }
  destruct (decide (g = PENDING)) as [->|Hq].
  { apply NoDup_app in Hnd as (_ & _ & Hnd). apply NoDup_app in Hnd as (_ & Hd & _). by apply (Hd x Hin). }
  assert (is_handler_head g) as Hhg by (unfold is_handler_head, is_head, FREE, PENDING in *; lia).
  destruct (ei_live _ _ _ I x) as [_ Hs]; [apply (ei_entries _ _ _ I); by exists g|]. unfold STATIC_END in Hs. lia.
Qed.

Lemma lock_ok fuel s : q_lock s = false -> spin_lock fuel s = Ok (with_lock s true).
Proof using Type. intros E. unfold spin_lock. destruct fuel; cbn [spin]; by rewrite E. Qed.

(** The operations on the pool and the queue change nothing about the handlers. *)
Lemma inv_pool s s' rs rs' held held' : e_inv s rs held -> q_lock s' = false -> rings (e_links s') rs' ->
  Permutation (rs' FREE ++ rs' PENDING ++ held') pool -> q_count s' = Z.of_nat (length (rs' PENDING) + length held') ->
  dom (e_links s') = dom (e_links s) -> dom (e_events s') = dom (e_events s) -> (forall h, is_handler_head h -> rs' h = rs h) ->
  e_handlers s' = e_handlers s -> e_heap s' = e_heap s -> e_inv s' rs' held'.
Proof using Type.
  intros I Hl Hr Hp Hc Dl De Hh Eh Ea. destruct I as [_ _ _ _ Hm He Hs Hi Hv]. split; try done.
  - intros x Hx. destruct (Hm x Hx) as [H1 H2]. rewrite <- !elem_of_dom in *. by rewrite Dl, De.
  - intros x. rewrite Eh, He. split; intros (h & Hh' & Hx); exists h; (split; [done|]); [by rewrite Hh|by rewrite Hh in Hx].
  - intros h Hh'. rewrite Hh by done. unfold priority. rewrite Eh. by apply Hs.
  - by rewrite Ea.
  - rewrite Eh, Ea. done.
Qed.

Lemma free_head : is_head FREE. Proof using Type. by unfold is_head, FREE. Qed.
Lemma pending_head : is_head PENDING. Proof using Type. by unfold is_head, PENDING. Qed.
Lemma handler_head_ne h : is_handler_head h -> FREE <> h /\ PENDING <> h.
Proof using Type. unfold is_handler_head, FREE, PENDING. lia. Qed.

(** Two of the lists of the pool changed. *)
Ltac head_cases := intros ? ?%handler_head_ne; rewrite !fn_lookup_insert_ne by tauto; done.

Lemma alloc_event_ok fuel s rs held : e_inv s rs held ->
  (rs FREE = [] /\ alloc_event_from_pool fuel s = Ok (0, s)) \/
  (exists x fs l, rs FREE = x :: fs /\
    let s' := with_lock (with_count (with_links s l) (q_count s + 1)) false in
    alloc_event_from_pool fuel s = Ok (x, s') /\ e_inv s' (<[FREE := fs]> rs) (x :: held)).
Proof using Type.
  intros I. pose proof (rg_ring _ _ (ei_rings _ _ _ I) FREE free_head) as R. unfold alloc_event_from_pool.
  rewrite lock_ok, bind_ok by apply I. cbn [e_links with_lock].
  rewrite (list_empty_ok _ _ _ R), bind_ok. destruct (rs FREE) as [|x fs] eqn:E.
  - left. split; [done|]. rewrite bool_decide_true by done. do 2 f_equal. pose proof (ei_lock _ _ _ I). destruct s. simpl in *. by subst.
  - right. destruct (rings_del _ _ FREE [] fs x (ei_rings _ _ _ I) free_head E) as (l & El & Rl & Dl).
    exists x, fs, l. split; [done|]. rewrite bool_decide_false by done. cbv zeta.
    rewrite (list_first_ok _ _ _ _ R), bind_ok. unfold in_links. cbn [e_links with_lock]. rewrite El, !bind_ok. split; [done|].
    eapply (inv_pool s); try done.
    + rewrite fn_lookup_insert, fn_lookup_insert_ne by done. rewrite <- (ei_pool _ _ _ I), E. simpl.
      by rewrite <- !Permutation_middle.
    + rewrite fn_lookup_insert_ne by done. simpl. rewrite (ei_count _ _ _ I). lia.
    + head_cases.
Qed.

(** A held event goes back to the pool. *)
Lemma free_event_ok fuel s rs held held' x : e_inv s rs held -> Permutation held (x :: held') ->
  exists l, let s' := with_lock (with_count (with_links s l) (q_count s - 1)) false in
    free_event_to_pool fuel s x = Ok s' /\ e_inv s' (<[FREE := x :: rs FREE]> rs) held'.
Proof using Type.
  intros I Hp. destruct (held_free s rs held x I) as (Hx & Hlt & Hn); [rewrite Hp; by left|].
  destruct (rings_add _ _ FREE x (ei_rings _ _ _ I) free_head Hlt Hn) as (l & El & Rl & Dl); [by apply (ei_mapped _ _ _ I)|].
  exists l. cbv zeta. unfold free_event_to_pool. rewrite lock_ok, bind_ok by apply I. unfold in_links. cbn [e_links with_lock].
  rewrite El, !bind_ok. pose proof (ei_count _ _ _ I) as Hc. rewrite Hp in Hc. cbn [length] in Hc. cbn [q_count with_links with_lock].
  rewrite (proj2 (Z.ltb_lt 0 (q_count s))) by lia. split; [done|]. eapply (inv_pool s); try done.
  - rewrite fn_lookup_insert, fn_lookup_insert_ne by done. rewrite <- (ei_pool _ _ _ I), Hp. simpl. by rewrite <- !Permutation_middle.
  - rewrite fn_lookup_insert_ne by done. simpl. lia.
  - head_cases.
Qed.

Lemma upd_event_ok s rs held x f : e_inv s rs held -> x ∈ pool ->
  exists e, e_events s !! x = Some e /\ let s' := with_events s (<[x := f e]> (e_events s)) in
    upd_event s x f = Ok s' /\ e_inv s' rs held.
Proof using Type.
  intros I Hx. destruct (proj2 (ei_mapped _ _ _ I x Hx)) as [e E]. exists e. split; [done|]. cbv zeta. unfold upd_event. rewrite E.
  split; [done|]. eapply (inv_pool s); try done; try apply I. simpl. apply dom_insert_lookup_L. by exists e.
Qed.

Lemma relink_ok s rs held x : e_inv s rs held -> x ∈ held -> e_inv (with_links s (INIT_LIST_HEAD (e_links s) x)) rs held.
Proof using Type.
  intros I Hx. destruct (held_free s rs held x I Hx) as (Hp & Hlt & Hn). eapply (inv_pool s); try done; try apply I.
  - apply rings_init; [apply I|done|done].
  - simpl. apply dom_insert_lookup_L. by apply (ei_mapped _ _ _ I).
Qed.

(** What an operation on one event leaves alone. *)
Definition same_rest s s' : Prop := e_handlers s' = e_handlers s /\ e_heap s' = e_heap s /\ enabled s' = enabled s /\
  e_router s' = e_router s /\ events_dispatched s' = events_dispatched s.

Lemma same_rest_trans s1 s2 s3 : same_rest s1 s2 -> same_rest s2 s3 -> same_rest s1 s3.
Proof using Type. unfold same_rest. intuition congruence. Qed.

(** The invariant does not depend on the counters. *)
Lemma inv_same s s' rs held : e_inv s rs held -> q_lock s' = false -> e_links s' = e_links s -> e_events s' = e_events s ->
  q_count s' = q_count s -> e_handlers s' = e_handlers s -> e_heap s' = e_heap s -> e_inv s' rs held.
Proof using Type.
  intros I Hl El Ee Ec Eh Ea. eapply (inv_pool s); try done; rewrite ?El, ?Ee; try done; try apply I. rewrite Ec. apply I.
Qed.

Lemma pool_nonzero s rs held x : e_inv s rs held -> x ∈ pool -> (x =? 0) = false.
Proof using Type. intros _ Hx. apply pool_range in Hx. apply Z.eqb_neq. lia. Qed.

Lemma free_pool s rs held x fs : e_inv s rs held -> rs FREE = x :: fs -> x ∈ pool.
Proof using Type. intros I E. rewrite <- (ei_pool _ _ _ I), E. by left. Qed.
Lemma pending_pool s rs held x : e_inv s rs held -> x ∈ rs PENDING -> x ∈ pool.
Proof using Type. intros I Hx. rewrite <- (ei_pool _ _ _ I). rewrite !elem_of_app. auto. Qed.
Lemma held_pool s rs held x : e_inv s rs held -> x ∈ held -> x ∈ pool.
Proof using Type. intros I Hx. rewrite <- (ei_pool _ _ _ I). rewrite !elem_of_app. auto. Qed.

Lemma event_create_ok fuel s rs held type : e_inv s rs held ->
  exists x s', event_create fuel s type = Ok (x, s') /\ same_rest s s' /\ events_posted s' = events_posted s /\
    ((x = 0 /\ rs FREE = [] /\ e_inv s' rs held /\ e_events s' = e_events s) \/
     (exists fs id now, rs FREE = x :: fs /\ x ∈ pool /\ e_inv s' (<[FREE := fs]> rs) (x :: held) /\
        e_events s' = <[x := Event type id now (-1) (-1) DNone]> (e_events s))).
Proof using Type.
  intros I. unfold event_create. destruct (alloc_event_ok fuel s rs held I) as [[E ->]|(x & fs & l & E & Ea & I')]; cbv zeta in *.
  - rewrite bind_ok. simpl. eexists _, _. split; [done|]. split; [done|]. split; [done|]. left. split_and!; try done.
    eapply (inv_same s); try done. apply I.
  - rewrite Ea, bind_ok. pose proof (free_pool _ _ _ _ _ I E) as Hx. rewrite (pool_nonzero _ _ _ _ I Hx). cbn [alloc_event_id get_time_ns].
    set (s1 := with_ids _ _ _). assert (e_inv s1 (<[FREE := fs]> rs) (x :: held)) as I1 by (eapply inv_same; [exact I'|done..]).
    destruct (upd_event_ok s1 _ _ x (fun _ => Event type (next_event_id s) (u64 (u64 (time_counter s + 1) * 1000000)) (-1) (-1) DNone) I1 Hx)
      as (e & _ & Eu & I2).
    cbn [next_event_id time_counter with_lock with_count with_links with_ids] in *. rewrite Eu, bind_ok.
    eexists _, _. split; [done|]. split; [done|]. split; [done|]. right. exists fs. do 2 eexists. split; [done|]. split; [done|]. split; [|done].
    apply (relink_ok _ _ _ x I2). by left.
Qed.

Lemma event_free_ok fuel s rs held held' x : e_inv s rs held -> Permutation held (x :: held') ->
  exists s', event_free fuel s x = Ok s' /\ same_rest s s' /\ events_posted s' = events_posted s /\ e_events s' = e_events s /\
    e_inv s' (<[FREE := x :: rs FREE]> rs) held'.
Proof using Type.
  intros I Hp. destruct (free_event_ok fuel s rs held held' x I Hp) as (l & E & I'). unfold event_free.
  rewrite (pool_nonzero _ _ _ x I) by (apply (held_pool _ _ _ x I); rewrite Hp; by left). by eexists.
Qed.

Lemma event_post_ok fuel s rs held held' x : e_inv s rs held -> Permutation held (x :: held') ->
  if enabled s then
    exists s', event_post fuel s x = Ok (0, s') /\ same_rest s s' /\ events_posted s' = u64 (events_posted s + 1) /\ e_events s' = e_events s /\
      e_inv s' (<[PENDING := rs PENDING ++ [x]]> rs) held'
  else event_post fuel s x = Ok (-1, s).
Proof using Type.
  intros I Hp. assert (x ∈ held) as Hin by (rewrite Hp; by left). destruct (held_free s rs held x I Hin) as (Hx & Hlt & Hn).
  unfold event_post. rewrite (pool_nonzero _ _ _ x I Hx). destruct (enabled s) eqn:En; simpl; [|done].
  destruct (rings_add_before _ _ PENDING (rs PENDING) [] x (ei_rings _ _ _ I) pending_head) as (l & El & Rl & Dl);
    [by rewrite app_nil_r|done|done|by apply (ei_mapped _ _ _ I)|].
  rewrite lock_ok, bind_ok by apply I. unfold in_links. cbn [e_links with_lock firstz] in *. rewrite El, !bind_ok.
  eexists. split; [done|]. split; [done|]. split; [done|]. split; [done|]. eapply (inv_pool s); try done.
  - rewrite fn_lookup_insert, fn_lookup_insert_ne by done. rewrite <- (ei_pool _ _ _ I), Hp, <- app_assoc. simpl. done.
  - rewrite fn_lookup_insert. rewrite length_app. simpl. rewrite (ei_count _ _ _ I), Hp. simpl. lia.
  - head_cases.
Qed.

Lemma event_poll_ok fuel s rs held timeout : e_inv s rs held ->
  exists x s', event_poll fuel s timeout = Ok (x, s') /\ same_rest s s' /\ events_posted s' = events_posted s /\ e_events s' = e_events s /\
    ((x = 0 /\ rs PENDING = [] /\ s' = s) \/
     (exists ps, rs PENDING = x :: ps /\ x ∈ pool /\ e_inv s' (<[PENDING := ps]> rs) (x :: held))).
Proof using Type.
  intros I. pose proof (rg_ring _ _ (ei_rings _ _ _ I) PENDING pending_head) as R. unfold event_poll.
  rewrite lock_ok, bind_ok by apply I. cbn [e_links with_lock].
  rewrite (list_empty_ok _ _ _ R), bind_ok. destruct (rs PENDING) as [|x ps] eqn:E.
  - rewrite bool_decide_true by done. exists 0, s. split; [|split_and!; try done; by left].
    do 2 f_equal. pose proof (ei_lock _ _ _ I). destruct s. simpl in *. by subst.
  - destruct (rings_del _ _ PENDING [] ps x (ei_rings _ _ _ I) pending_head E) as (l & El & Rl & Dl). rewrite bool_decide_false by done.
    rewrite (list_first_ok _ _ _ _ R), bind_ok. unfold in_links. cbn [e_links with_lock]. rewrite El, !bind_ok.
    eexists _, _. split; [done|]. split_and!; try done. right. exists ps. split; [done|].
    split; [apply (pending_pool _ _ _ _ I); rewrite E; by left|]. eapply (inv_pool s); try done.
    + rewrite fn_lookup_insert, fn_lookup_insert_ne by done. rewrite <- (ei_pool _ _ _ I), E. simpl. apply Permutation_app_head.
      by rewrite <- Permutation_middle.
    + rewrite fn_lookup_insert. simpl. rewrite (ei_count _ _ _ I), E. simpl. lia.
    + head_cases.
Qed.

(** ** Registration *)

(** The kernel heap lies above the static objects and below 2 GB. *)
Context (heap_low : forall (a : A) p c, a_inv a -> a_cap a p = Some c -> STATIC_END <= p < 2 ^ 31).

Definition handler_list (type : Z) : Z := if type =? ALL_TYPES then HANDLERS else TYPE_HANDLERS type.
Definition valid_type (type : Z) : bool := (type =? ALL_TYPES) || (type <? EVENT_USER).

Lemma handler_list_head type : 0 <= type -> valid_type type = true -> is_handler_head (handler_list type).
Proof using Type.
  unfold valid_type, handler_list, is_handler_head, EVENT_USER, HANDLERS, TYPE_HANDLERS. intros Ht.
  destruct (Z.eqb_spec type ALL_TYPES); simpl; intros; b2p; lia.
Qed.

Lemma entry_in s rs held x : e_inv s rs held -> is_Some (e_handlers s !! x) -> STATIC_END <= x < 2 ^ 31 /\ (x ∉ pool).
Proof using Type*.
  intros I Hx. destruct (ei_live _ _ _ I x Hx) as [[c Hc] _]. pose proof (heap_low _ _ _ (ei_heap _ _ _ I) Hc) as Hl. split; [done|].
  intros Hp%pool_range. unfold STATIC_END in Hl. lia.
Qed.

Lemma find_place_ok n s head xs ys p : ring (e_links s) head (xs ++ ys) -> (length ys <= n)%nat ->
  (forall y, y ∈ ys -> is_Some (e_handlers s !! y)) -> falling (priority s) ys ->
  find_place n s head (firstz ys head) p = Ok (firstz (filter (fun x => priority s x < p) ys) head).
Proof using Type.
  revert n xs. induction ys as [|y ys IH]; intros n xs R Hn Hm Hs.
  - simpl. destruct n; cbn [find_place]; by rewrite Z.eqb_refl.
  - destruct n as [|n]; [simpl in Hn; lia|]. cbn [firstz find_place]. destruct (Hm y) as [e Ee]; [by left|].
    assert ((y =? head) = false) as ->.
    { apply Z.eqb_neq. intros ->. destruct R as [Hnd _]. apply NoDup_cons in Hnd as [Hnd _]. apply Hnd, elem_of_app. right. by left. }
    rewrite Ee. cbn [of_option]. rewrite bind_ok.
    assert (priority s y = h_priority e) as Ep by (unfold priority; by rewrite Ee).
    apply StronglySorted_inv in Hs as [Hs _]. rewrite filter_cons, Ep. case_decide.
    + by rewrite (proj2 (Z.ltb_lt _ _)).
    + rewrite (proj2 (Z.ltb_ge _ _)) by lia. rewrite (ring_next _ _ _ _ _ R), bind_ok.
      apply (IH n (xs ++ [y])); [by rewrite <- app_assoc|simpl in Hn; lia|intros z Hz; apply Hm; by right|done].
Qed.

Lemma inv_heap_only s rs held a : e_inv s rs held -> a_inv a -> (forall x, is_Some (e_handlers s !! x) -> is_Some (a_cap a x)) ->
  e_inv (with_handlers s (e_handlers s) a) rs held.
Proof using Type.
  intros [Hl Hr Hp Hc Hm He Hs Hi Hv] Ia Ha. split; try done. intros x Hx. destruct (Hv x Hx). split; [by apply Ha|done].
Qed.

Lemma relink_new s rs held x : e_inv s rs held -> 1004 <= x -> (forall g, is_head g -> x ∉ rs g) ->
  e_inv (with_links s (INIT_LIST_HEAD (e_links s) x)) rs held.
Proof using Type.
  intros [Hl Hr Hp Hc Hm He Hs Hi Hv] Hx Hn. split; try done; [by apply rings_init|]. intros y Hy. destruct (Hm y Hy) as [H1 H2].
  split; [|done]. apply elem_of_dom. unfold INIT_LIST_HEAD. simpl. rewrite dom_insert_L. apply elem_of_union_r. by apply elem_of_dom.
Qed.

(** A new entry takes its place in a handler list. *)
Lemma inv_register s s' rs held head x h xs : e_inv s rs held -> is_handler_head head ->
  rings (e_links s') (<[head := xs]> rs) -> Permutation xs (x :: rs head) -> e_handlers s !! x = None ->
  e_handlers s' = <[x := h]> (e_handlers s) -> falling (priority s') xs ->
  q_lock s' = false -> q_count s' = q_count s -> e_events s' = e_events s -> dom (e_links s) ⊆ dom (e_links s') ->
  a_inv (e_heap s') -> STATIC_END <= x -> is_Some (a_cap (e_heap s') x) ->
  (forall y, is_Some (a_cap (e_heap s) y) -> is_Some (a_cap (e_heap s') y)) -> e_inv s' (<[head := xs]> rs) held.
Proof using Type.
  intros I Hh Hr Hp Hx Eh Hs Hl Hc Ee Dl Ia Hlo Hcx Hcap. destruct I as [_ _ Hpool Hcount Hm He Hso _ Hv].
  pose proof (handler_head_ne _ Hh) as [Hf Hq]. split; try done.
  - by rewrite !fn_lookup_insert_ne.
  - rewrite fn_lookup_insert_ne by done. congruence.
  - intros y Hy. destruct (Hm y Hy) as [H1 H2]. rewrite Ee. split; [|done]. apply elem_of_dom. apply Dl. by apply elem_of_dom.
  - intros y. rewrite Eh. split.
    + intros Hy. destruct (decide (y = x)) as [->|Hne]; [exists head; split; [done|]; rewrite fn_lookup_insert, Hp; by left|].
      rewrite lookup_insert_ne in Hy by done. apply He in Hy as (g & Hg & Hy). exists g. split; [done|].
      destruct (decide (g = head)) as [->|]; [rewrite fn_lookup_insert, Hp; by right|by rewrite fn_lookup_insert_ne].
    + intros (g & Hg & Hy). destruct (decide (y = x)) as [->|Hne]; [rewrite lookup_insert_eq; by eexists|].
      rewrite lookup_insert_ne by done. apply He. exists g. split; [done|].
      destruct (decide (g = head)) as [->|Hne']; [|by rewrite fn_lookup_insert_ne in Hy]. rewrite fn_lookup_insert, Hp in Hy.
      by apply elem_of_cons in Hy as [?|?].
  - intros g Hg. destruct (decide (g = head)) as [->|Hne']; [by rewrite fn_lookup_insert|rewrite fn_lookup_insert_ne by done].
    apply (falling_ext (priority s)); [|by apply Hso]. intros y Hy. unfold priority. rewrite Eh, lookup_insert_ne; [done|].
    intros <-. assert (is_Some (e_handlers s !! x)) as [? ?] by (apply He; by exists g). congruence.
  - intros y. rewrite Eh. intros Hy. destruct (decide (y = x)) as [->|Hne]; [done|]. rewrite lookup_insert_ne in Hy by done.
    destruct (Hv y Hy). split; [by apply Hcap|done].
Qed.

Definition new_list s head x p (rs : Z -> list Z) : list Z :=
  filter (fun y => p <= priority s y) (rs head) ++ x :: filter (fun y => priority s y < p) (rs head).

Lemma event_register_ok fuel s rs held type handler user_data p : e_inv s rs held -> handler <> 0 -> 0 <= type ->
  (valid_type type = true -> (length (rs (handler_list type)) <= fuel)%nat) ->
  exists id s', event_register_handler fuel s type handler user_data p = Ok (id, s') /\
    e_events s' = e_events s /\ enabled s' = enabled s /\ events_posted s' = events_posted s /\
    ((id < 0 /\ e_handlers s' = e_handlers s /\ e_inv s' rs held /\ (valid_type type = false \/ id = -2)) \/
     (valid_type type = true /\ STATIC_END <= id < 2 ^ 31 /\ e_handlers s !! id = None /\
        e_handlers s' = <[id := HandlerEntry type handler user_data p]> (e_handlers s) /\
        e_inv s' (<[handler_list type := new_list s (handler_list type) id p rs]> rs) held)).
Proof using Type*.
  intros I Hh Ht Hfuel. unfold event_register_handler. rewrite (proj2 (Z.eqb_neq _ _)) by done.
  destruct (law_alloc (e_heap s) SIZEOF_HANDLER GFP_KERNEL (ei_heap _ _ _ I)) as (x & a & Ea & Ia & Hres); [by unfold SIZEOF_HANDLER|].
  rewrite Ea, bind_ok. destruct Hres as [[-> Hsame]|(Hx & Hcx & c & _ & Hup)].
  - simpl. exists (-2). eexists. split; [done|]. split_and!; try done. left. split_and!; try done; [|by right].
    apply (inv_heap_only s rs held a I Ia). intros y Hy. rewrite (Hsame y). by apply (ei_live _ _ _ I).
  - rewrite (proj2 (Z.eqb_neq _ _)) by done. cbn zeta. fold (valid_type type). fold (handler_list type).
    assert (a_cap a x = Some c) as Hc by (rewrite Hup; by rewrite decide_True).
    assert (e_handlers s !! x = None) as Hnone.
    { apply eq_None_not_Some. intros Hs. destruct (ei_live _ _ _ I x Hs) as [[? ?] _]. congruence. }
    pose proof (heap_low _ _ _ Ia Hc) as Hlow.
    assert (forall g, is_head g -> x ∉ rs g) as Hnot.
    { intros g Hg Hin. destruct (decide (is_handler_head g)) as [Hhg|Hng].
      - assert (is_Some (e_handlers s !! x)) as [? ?] by (apply (ei_entries _ _ _ I); by exists g). congruence.
      - assert (x ∈ pool) as Hxp; [|apply pool_range in Hxp; unfold STATIC_END in Hlow; lia]. rewrite <- (ei_pool _ _ _ I), !elem_of_app.
        assert (g = FREE \/ g = PENDING) as [-> | ->] by (unfold is_handler_head, is_head, FREE, PENDING in *; lia); auto. }
    destruct (valid_type type) eqn:Hv.
    + pose proof (handler_list_head _ Ht Hv) as Hhead. set (head := handler_list type) in *.
      pose proof (handler_head_head _ Hhead) as Hih. set (h := HandlerEntry type handler user_data p).
      set (s1 := with_links _ _).
      assert (rings (e_links s1) rs) as R1 by (apply rings_init; [apply I|unfold STATIC_END in Hlow; lia|done]).
      assert (forall y, y ∈ rs head -> y <> x) as Hne by (intros y Hy ->; by apply (Hnot head)).
      assert (forall y, y ∈ rs head -> priority s1 y = priority s y) as Hpr.
      { intros y Hy. unfold priority. simpl. by rewrite lookup_insert_ne by (apply not_eq_sym, Hne, Hy). }
      assert (falling (priority s1) (rs head)) as Hfall by (apply (falling_ext (priority s)); [done|by apply (ei_sorted _ _ _ I)]).
      assert (priority s1 x = p) as Hpx by (unfold priority; simpl; by rewrite lookup_insert_eq).
      pose proof (falling_split _ p _ Hfall) as Hsplit.
      pose proof (rg_ring _ _ R1 head Hih) as Rh. destruct (ring_split _ _ [] _ Rh) as (_ & _ & [Hfirst _]).
      cbn [lastz] in Hfirst. rewrite (next_of_ok _ _ _ Hfirst), bind_ok.
      rewrite (find_place_ok fuel s1 head [] (rs head) p Rh (Hfuel eq_refl)), bind_ok; [|intros y Hy|done].
      2: { simpl. rewrite lookup_insert_ne by (apply not_eq_sym, Hne, Hy). apply (ei_entries _ _ _ I). by exists head. }
      destruct (rings_add_before _ _ head _ _ x R1 Hih Hsplit) as (l & El & Rl & Dl);
        [unfold STATIC_END in Hlow; lia|done|unfold s1, INIT_LIST_HEAD; simpl; rewrite lookup_insert_eq; by eexists|].
      unfold in_links. rewrite El, !bind_ok. unfold i32. rewrite Z.mod_small by (unfold STATIC_END in Hlow; lia).
      replace (x + 2 ^ 31 - 2 ^ 31) with x by lia. eexists _, _. split; [done|]. split_and!; try done. right. split_and!; try done; [lia..|].
      destruct (filter_same (priority s) (priority s1) p (rs head) Hpr) as [E1 E2]. rewrite E1, E2 in Rl.
      eapply inv_register; try done; cbn [e_links e_handlers e_heap e_events with_links with_handlers].
      * unfold new_list. rewrite <- Permutation_middle, <- E1, <- E2, <- Hsplit. done.
      * unfold new_list. rewrite <- E1, <- E2. by apply falling_insert.
      * apply (ei_lock _ _ _ I).
      * rewrite Dl. unfold s1, INIT_LIST_HEAD. simpl. rewrite dom_insert_L. set_solver.
      * lia.
      * intros y [d Hy]. unfold s1; simpl. rewrite Hup. case_decide; eauto.
    + destruct (law_free a x c Ia Hc) as (a' & Ef & Ia' & Hup'). cbn [e_heap with_links with_handlers]. rewrite Ef, bind_ok.
      exists (-3). eexists. split; [done|]. cbn [e_handlers with_handlers with_links].
      rewrite delete_insert_id by done. split_and!; try done. left. split_and!; try done; [|by left].
      apply (inv_heap_only (with_links s (INIT_LIST_HEAD (e_links s) x))); [|done|].
      * apply relink_new; [done|unfold STATIC_END in Hlow; lia|done].
      * intros y Hy. rewrite (cap_update_undo _ _ _ _ _ Hcx Hup Hup'). by apply (ei_live _ _ _ I).
Qed.

Lemma event_unregister_ok s rs held id : e_inv s rs held -> is_Some (e_handlers s !! id) ->
  exists head xs ys s', is_handler_head head /\ rs head = xs ++ id :: ys /\ event_unregister_handler s id = Ok (0, s') /\
    e_events s' = e_events s /\ enabled s' = enabled s /\ events_posted s' = events_posted s /\
    e_handlers s' = delete id (e_handlers s) /\ e_inv s' (<[head := xs ++ ys]> rs) held.
Proof using Type*.
  intros I Hid. destruct (entry_in s rs held id I Hid) as [Hlow _]. unfold STATIC_END in Hlow.
  destruct (ei_live _ _ _ I id Hid) as [[c Hc] _].
  destruct (proj1 (ei_entries _ _ _ I id) Hid) as (head & Hh & Hin). pose proof (handler_head_head _ Hh) as Hih.
  apply list_elem_of_split in Hin as (xs & ys & E). exists head, xs, ys.
  destruct (rings_del _ _ head xs ys id (ei_rings _ _ _ I) Hih E) as (l & El & Rl & Dl).
  destruct (law_free _ id c (ei_heap _ _ _ I) Hc) as (a & Ef & Ia & Hup).
  unfold event_unregister_handler. rewrite (proj2 (Z.eqb_neq _ _)) by lia. cbv zeta. rewrite u64_small by lia.
  unfold in_links. rewrite El, !bind_ok. cbn [e_heap with_links]. rewrite Ef, bind_ok.
  eexists. split_and!; try done. pose proof (handler_head_ne _ Hh) as [Hf Hq]. destruct I as [Hl Hr Hp Hct Hm He Hs _ Hv].
  pose proof (rg_ring _ _ Hr head Hih) as [Hnd _]. rewrite E in Hnd. apply NoDup_cons in Hnd as [_ Hnd].
  assert (forall y, y ∈ xs ++ ys -> y <> id) as Hne by (intros y; by apply NoDup_mid_ne).
  assert (forall g y, is_handler_head g -> y ∈ (<[head := xs ++ ys]> rs) g <-> (y ∈ rs g /\ y <> id)) as Hel.
  { intros g y Hg. destruct (decide (g = head)) as [->|Hgn].
    - rewrite fn_lookup_insert, E, elem_of_mid. split; [intros Hy; split; [by right|by apply Hne]|by intros [[?|?] ?]].
    - rewrite fn_lookup_insert_ne by done. split; [|by intros [? _]]. intros Hy. split; [done|]. intros ->. apply Hgn.
      apply (rg_apart _ _ Hr g head id); [by apply handler_head_head|done|done|]. rewrite E. apply elem_of_mid. by left. }
  split; cbn; try done.
  - by rewrite !fn_lookup_insert_ne by done.
  - by rewrite fn_lookup_insert_ne by done.
  - intros y Hy. rewrite <- (elem_of_dom l), Dl, elem_of_dom. by apply Hm.
  - intros y. rewrite lookup_delete_is_Some, He. split.
    + intros [Hy (g & Hg & Hyg)]. exists g. split; [done|]. by apply Hel.
    + intros (g & Hg & [Hyg Hy]%Hel); [|done]. split; [done|]. by exists g.
  - intros g Hg. apply (falling_ext (priority s)).
    { intros y [_ Hy]%Hel; [|done]. unfold priority. cbn. by rewrite lookup_delete_ne. }
    destruct (decide (g = head)) as [->|Hgn]; [|rewrite fn_lookup_insert_ne by done; by apply Hs].
    rewrite fn_lookup_insert. specialize (Hs head Hg). rewrite E in Hs. by apply falling_mid in Hs.
  - intros y [Hy Hs']%lookup_delete_is_Some. destruct (Hv y Hs'). split; [|done]. rewrite Hup. by rewrite decide_False.
Qed.

(** ** Initialization *)

Lemma pool_loop_ok n i l xs : 0 <= i -> ring l FREE xs -> ring l PENDING [] -> (forall x, x ∈ xs -> 2000 <= x < 2000 + i) ->
  (forall x, 2000 + i <= x < 2000 + i + Z.of_nat n -> is_Some (l !! x)) ->
  exists l' xs', pool_loop n i l = Ok l' /\ ring l' FREE xs' /\ ring l' PENDING [] /\ dom l' = dom l /\
    Permutation xs' (map EVENTS (seqZ i (Z.of_nat n)) ++ xs).
Proof using Type.
  revert i l xs. induction n as [|n IH]; intros i l xs Hi R P Hx Hm; [by exists l, xs|]. cbn [pool_loop].
  destruct (list_add_ok l FREE xs (EVENTS i)) as (l1 & E & R1 & D1 & F1); [done| |apply Hm; unfold EVENTS; lia|].
  { intros [Heq|Hin]%elem_of_cons; [unfold EVENTS, FREE in Heq; lia|]. apply Hx in Hin. unfold EVENTS in Hin. lia. }
  rewrite E, bind_ok. destruct (IH (i + 1) l1 (EVENTS i :: xs)) as (l' & xs' & E' & R' & P' & D' & Hp); [lia|done| | | |].
  - apply (ring_frame l); [|done]. intros y ->%list_elem_of_singleton. apply F1. unfold PENDING, EVENTS, FREE.
    intros [?|[?|Hin]%elem_of_cons]%elem_of_cons; [lia|lia|]. apply Hx in Hin. lia.
  - intros x [->|Hin]%elem_of_cons; [unfold EVENTS; lia|]. apply Hx in Hin. lia.
  - intros x Hr. apply elem_of_dom. rewrite D1. apply elem_of_dom, Hm. lia.
  - exists l', xs'. split; [done|]. split; [done|]. split; [done|]. split; [congruence|]. rewrite Hp, (seqZ_cons i) by lia.
    replace (Z.pred (Z.of_nat (S n))) with (Z.of_nat n) by lia. replace (Z.succ i) with (i + 1) by lia. simpl. by rewrite <- Permutation_middle.
Qed.

Lemma type_loop_lookup n i l y :
  type_loop n i l !! y = if decide (4 + i <= y < 4 + i + Z.of_nat n) then Some (ListHead y y) else l !! y.
Proof using Type.
  revert i l. induction n as [|n IH]; intros i l; cbn [type_loop]; [by rewrite decide_False by lia|]. rewrite IH.
  unfold INIT_LIST_HEAD, TYPE_HANDLERS. destruct (decide (y = 4 + i)) as [->|Hne].
  - rewrite decide_False, decide_True, lookup_insert_eq by lia. done.
  - rewrite lookup_insert_ne by done. repeat case_decide; try lia; done.
Qed.

#[local] Opaque list_to_map type_loop seqZ.

Lemma static_cleared (l : gmap Z list_head) x : x ∈ static_addresses ->
  is_Some ((list_to_map (map (fun a => (a, ListHead 0 0)) static_addresses) ∪ l : gmap Z list_head) !! x).
Proof using Type.
  intros Hx. apply lookup_union_is_Some. left. rewrite <- (elem_of_dom (D := gset Z)), dom_list_to_map_L.
  apply elem_of_list_to_set. rewrite list_elem_of_fmap. exists (x, ListHead 0 0). split; [done|]. apply list_elem_of_fmap. by exists x.
Qed.

Definition initial_rings (fl : list Z) (h : Z) : list Z := if h =? FREE then fl else [].

(** Nothing is registered before the first initialization. *)
Lemma event_system_init_ok s : e_handlers s = ∅ -> a_inv (e_heap s) ->
  exists fl s', event_system_init s = Ok s' /\ Permutation fl pool /\ e_inv s' (initial_rings fl) [] /\
    e_handlers s' = ∅ /\ enabled s' = true /\ events_posted s' = 0.
Proof using Type.
  intros Hn Ha. unfold event_system_init.
  set (l0 := list_to_map (map (fun a => (a, ListHead 0 0)) static_addresses) ∪ e_links s : gmap Z list_head).
  set (l1 := INIT_LIST_HEAD (INIT_LIST_HEAD l0 FREE) PENDING).
  assert (forall x, 2000 <= x < 2000 + 0 + Z.of_nat (Z.to_nat EVENT_QUEUE_SIZE) -> is_Some (l1 !! x)) as Hm.
  { intros x Hx. change (Z.of_nat (Z.to_nat EVENT_QUEUE_SIZE)) with 1024 in Hx. unfold l1, INIT_LIST_HEAD.
    rewrite !lookup_insert_ne by (unfold PENDING, FREE; lia). apply static_cleared. unfold static_addresses. rewrite !elem_of_app.
    right. right. apply (pool_range x). lia. }
  destruct (pool_loop_ok (Z.to_nat EVENT_QUEUE_SIZE) 0 l1 []) as (l2 & fl & E & R & P & D & Hp).
  { lia. } { apply (ring_frame (INIT_LIST_HEAD l0 FREE)); [|apply init_ring]. intros y ->%list_elem_of_singleton.
    unfold l1, INIT_LIST_HEAD. by rewrite lookup_insert_ne. } { apply init_ring. } { intros x Hx. by apply elem_of_nil in Hx. } { done. }
  rewrite E, bind_ok. rewrite app_nil_r in Hp. change (Z.of_nat (Z.to_nat EVENT_QUEUE_SIZE)) with EVENT_QUEUE_SIZE in Hp. fold pool in Hp.
  set (l3 := type_loop _ _ _). set (evs := list_to_map _).
  assert (forall x, x ∈ pool -> is_Some (evs !! x)) as Hev.
  { intros x Hx. unfold evs. rewrite <- (elem_of_dom (D := gset Z)), dom_list_to_map_L. apply elem_of_list_to_set, list_elem_of_fmap.
    apply list_elem_of_fmap in Hx as (i & -> & Hi). exists (EVENTS i, zero_event). split; [done|]. apply list_elem_of_fmap. by exists i. }
  clearbody evs. exists fl. eexists. split; [done|]. split; [done|]. split; [|done].
  assert (forall y, l3 !! y = if decide (4 <= y < 1004) then Some (ListHead y y) else if decide (y = 3) then Some (ListHead y y) else l2 !! y) as Hl3.
  { intros y. unfold l3. rewrite type_loop_lookup. change (4 + 0 + Z.of_nat (Z.to_nat EVENT_USER)) with 1004. change (4 + 0) with 4.
    case_decide; [done|]. unfold INIT_LIST_HEAD, HANDLERS. case_decide; [subst; apply lookup_insert_eq|by apply lookup_insert_ne]. }
  clearbody l3. clear E. clearbody l1.
  assert (forall x, x ∈ fl -> 2000 <= x < 3024) as Hfl by (intros x Hx; rewrite Hp in Hx; by apply pool_range).
  assert (rings l3 (initial_rings fl)) as R3.
  { split.
    - intros h Hh. unfold initial_rings. destruct (Z.eqb_spec h FREE) as [->|Hne].
      + apply (ring_frame l2); [|done]. intros y Hy. rewrite Hl3. apply elem_of_cons in Hy as [->|Hy]; [done|].
        apply Hfl in Hy. by rewrite !decide_False by lia.
      + destruct (decide (h = PENDING)) as [->|Hnp]; [apply (ring_frame l2); [|done]; intros y ->%list_elem_of_singleton; by rewrite Hl3|].
        assert (l3 !! h = Some (ListHead h h)) as E3.
        { rewrite Hl3. unfold is_head, FREE, PENDING in *. case_decide; [done|]. by rewrite decide_True by lia. }
        split; [by repeat constructor; apply not_elem_of_nil|]. split; eexists; (split; [exact E3|done]).
    - intros h x _. unfold initial_rings. destruct (h =? FREE); [|by intros ?%elem_of_nil]. intros Hx%Hfl. lia.
    - intros h g x _ _. unfold initial_rings. destruct (Z.eqb_spec h FREE), (Z.eqb_spec g FREE); try (by intros ?%elem_of_nil); try congruence;
        by intros _ ?%elem_of_nil. }
  split; try done.
  - cbn. by rewrite app_nil_r.
  - intros x Hx. pose proof (proj1 (pool_range x) Hx). split.
    + cbn. rewrite Hl3, !decide_False by lia. apply elem_of_dom. rewrite D. apply elem_of_dom, Hm.
      change (Z.of_nat (Z.to_nat EVENT_QUEUE_SIZE)) with 1024. lia.
    + by apply Hev.
  - intros x. cbn. rewrite Hn, lookup_empty. split; [by intros [? ?]|]. intros (h & Hh & Hx). unfold initial_rings, is_handler_head, FREE in *.
    destruct (Z.eqb_spec h 1); [lia|by apply elem_of_nil in Hx].
  - intros h Hh. unfold initial_rings. destruct (Z.eqb_spec h FREE) as [->|]; [unfold is_handler_head, FREE in Hh; lia|constructor].
  - intros x. cbn. rewrite Hn, lookup_empty. by intros [? ?].
Qed.

(** ** A client and its log *)

Definition content s (x : Z) : event := default zero_event (e_events s !! x).
Definition queued s rs : list event := map (content s) (rs PENDING).

Lemma held_nodup s rs held : e_inv s rs held -> NoDup held /\ NoDup (rs PENDING) /\ (forall x, x ∈ held -> x ∉ rs PENDING).
Proof using Type.
  intros I. pose proof pool_nodup as Hnd. rewrite <- (ei_pool _ _ _ I) in Hnd.
  apply NoDup_app in Hnd as (_ & _ & (Hp & Hd & Hh)%NoDup_app). split_and!; try done. intros x Hx Hx'. by apply (Hd x).
Qed.

Definition without (x : Z) (xs : list Z) : list Z := filter (fun y => y <> x) xs.

Lemma without_perm x xs : NoDup xs -> x ∈ xs -> Permutation xs (x :: without x xs).
Proof using Type.
  intros Hnd (l & k & ->)%list_elem_of_split. assert (without x (l ++ x :: k) = l ++ k) as ->; [|by rewrite Permutation_middle].
  unfold without. rewrite filter_app, filter_cons, decide_False by tauto. rewrite <- filter_app.
  assert (forall y, y ∈ l ++ k -> y <> x) as Hne by (intros y; by apply NoDup_mid_ne). clear Hnd.
  induction (l ++ k) as [|y ys IH]; [done|]. rewrite filter_cons, decide_True by (apply Hne; by left). f_equal.
  apply IH. intros z Hz. apply Hne. by right.
Qed.

Lemma queued_same s s' rs rs' : rs' PENDING = rs PENDING -> (forall x, x ∈ rs PENDING -> e_events s' !! x = e_events s !! x) ->
  queued s' rs' = queued s rs.
Proof using Type.
  intros E Hs. unfold queued. rewrite E. apply list_fmap_ext. intros i x Hi. unfold content. f_equal. apply Hs.
  by eapply list_elem_of_lookup_2.
Qed.

(** ** Making and posting an event *)

(** What a receiver sees of an event, its number and time apart. *)
Definition what (e : event) : Z * Z * Z * event_data := (ev_type e, ev_target_window e, ev_target_process e, ev_data e).
Definition same_mouse s s' : Prop :=
  prev_mouse_x s' = prev_mouse_x s /\ prev_mouse_y s' = prev_mouse_y s /\ prev_button_mask s' = prev_button_mask s.

Lemma spin_mouse n s s' : spin n s = Ok s' -> same_mouse s s'.
Proof using Type. induction n as [|n IH]; cbn [spin]; destruct (q_lock s); try done; by intros [= <-]. Qed.

Lemma create_same_mouse fuel s t x s' : event_create fuel s t = Ok (x, s') -> same_mouse s s'.
Proof using Type.
  unfold event_create, alloc_event_from_pool. intros E. inv_bind E. inv_bind Hv. apply spin_mouse in Hv0.
  inv_bind Hv. destruct v1; [injection Hv as <-; simpl in E; by injection E as <- <-|].
  inv_bind Hv. unfold in_links in Hv. inv_bind Hv. inv_bind Hv3. injection Hv3 as <-. injection Hv as <-.
  case_match; [by injection E as <- <-|]. unfold upd_event in E. inv_bind E. inv_bind Hv. injection Hv as <-. by injection E as <- <-.
Qed.

Lemma post_same_mouse fuel s x r s' : event_post fuel s x = Ok (r, s') -> same_mouse s s'.
Proof using Type.
  unfold event_post. case_match; [by intros [= <- <-]|]. intros E. inv_bind E. apply spin_mouse in Hv.
  unfold in_links in E. inv_bind E. inv_bind Hv0. injection Hv0 as <-. by injection E as <- <-.
Qed.

(** [s'] is [s] with the events [ws] posted. *)
Record posts (s : ev) rs (held : list Z) (s' : ev) rs' (ws : list (Z * Z * Z * event_data)) : Prop := {
  po_inv : e_inv s' rs' held;
  po_rest : same_rest s s';
  po_mouse : same_mouse s s';
  po_queue : map what (queued s' rs') = map what (queued s rs) ++ ws;
  po_room : (length (rs FREE) = length (rs' FREE) + length ws)%nat
}.

Lemma posts_refl s rs held : e_inv s rs held -> posts s rs held s rs [].
Proof using Type. intros I. split; try done; simpl; rewrite ?app_nil_r; done || lia. Qed.

Lemma posts_trans s1 rs1 held s2 rs2 s3 rs3 ws1 ws2 :
  posts s1 rs1 held s2 rs2 ws1 -> posts s2 rs2 held s3 rs3 ws2 -> posts s1 rs1 held s3 rs3 (ws1 ++ ws2).
Proof using Type.
  intros [_ R1 M1 Q1 L1] [I2 R2 M2 Q2 L2]. split; [done|by eapply same_rest_trans|unfold same_mouse in *; intuition congruence| |].
  - by rewrite Q2, Q1, app_assoc.
  - rewrite length_app. lia.
Qed.

(** With room in the pool and the system enabled, the event is made and posted. *)
Lemma create_ok_room fuel s rs held t : e_inv s rs held -> (0 < length (rs FREE))%nat ->
  exists x s1 rs1 id now, event_create fuel s t = Ok (x, s1) /\ (x =? 0) = false /\ e_inv s1 rs1 (x :: held) /\ same_rest s s1 /\
    same_mouse s s1 /\ (forall h, h <> FREE -> rs1 h = rs h) /\ (length (rs FREE) = S (length (rs1 FREE)))%nat /\
    e_events s1 = <[x := Event t id now (-1) (-1) DNone]> (e_events s) /\ (x ∉ rs PENDING).
Proof using Type.
  intros I Hr. destruct (event_create_ok fuel s rs held t I) as (x & s1 & E & R & _ & [(_ & Hf & _)|(fs & id & now & Hf & Hx & I1 & Ee)]);
    [rewrite Hf in Hr; simpl in Hr; lia|].
  exists x, s1, (<[FREE := fs]> rs), id, now. split; [done|]. split; [by eapply pool_nonzero|]. split; [done|]. split; [done|].
  split; [by eapply create_same_mouse|]. split; [intros h Hh; by rewrite fn_lookup_insert_ne|]. split; [rewrite fn_lookup_insert, Hf; done|]. split; [done|].
  destruct (held_nodup _ _ _ I1) as (_ & _ & Hd). specialize (Hd x (list_elem_of_here _ _)). by rewrite fn_lookup_insert_ne in Hd.
Qed.

Lemma fill_post_ok fuel s rs held x f e : e_inv s rs (x :: held) -> enabled s = true -> e_events s !! x = Some e -> (x ∉ rs PENDING) ->
  exists s1 s' rs', upd_event s x f = Ok s1 /\ event_post fuel s1 x = Ok (0, s') /\ e_inv s' rs' held /\ same_rest s s' /\ same_mouse s s' /\
    queued s' rs' = queued s rs ++ [f e] /\ rs' FREE = rs FREE.
Proof using Type.
  intros I En Ee Hx. destruct (upd_event_ok s rs (x :: held) x f I) as (e' & Ee' & Eu & I1); [eapply held_pool; [exact I|by left]|].
  assert (e' = e) as -> by congruence. cbv zeta in *. set (s1 := with_events _ _) in *. exists s1.
  pose proof (event_post_ok fuel s1 rs (x :: held) held x I1 (Permutation_refl _)) as Hp.
  change (enabled s1) with (enabled s) in Hp. rewrite En in Hp.
  destruct Hp as (s' & Ep & R & _ & Ee1 & I'). exists s', (<[PENDING := rs PENDING ++ [x]]> rs). split; [done|]. split; [done|]. split; [done|].
  split; [done|]. split; [by eapply (post_same_mouse fuel s1)|]. split; [|by rewrite fn_lookup_insert_ne].
  unfold queued. rewrite fn_lookup_insert, map_app. f_equal.
  - apply list_fmap_ext. intros i y Hy. unfold content. rewrite Ee1. simpl. rewrite lookup_insert_ne; [done|]. intros ->.
    apply Hx. by eapply list_elem_of_lookup_2.
  - simpl. unfold content. rewrite Ee1. simpl. by rewrite lookup_insert_eq.
Qed.

Lemma create_post_ok fuel s rs held t f w : e_inv s rs held -> enabled s = true -> (0 < length (rs FREE))%nat ->
  (forall id now, what (f (Event t id now (-1) (-1) DNone)) = w) ->
  exists x s1 s2 s3 rs', event_create fuel s t = Ok (x, s1) /\ (x =? 0) = false /\ upd_event s1 x f = Ok s2 /\ event_post fuel s2 x = Ok (0, s3) /\
    same_mouse s s1 /\ posts s rs held s3 rs' [w].
Proof using Type.
  intros I En Hr Hw. destruct (create_ok_room fuel s rs held t I Hr) as (x & s1 & rs1 & id & now & E & Ex & I1 & R1 & M1 & P1 & L1 & Ee & Hx).
  destruct (fill_post_ok fuel s1 rs1 held x f (Event t id now (-1) (-1) DNone) I1) as (s2 & s3 & rs' & Eu & Ep & I' & R2 & M2 & Q & L2).
  { destruct R1 as (_ & _ & -> & _). done. } { rewrite Ee. apply lookup_insert_eq. } { by rewrite (P1 PENDING). }
  exists x, s1, s2, s3, rs'. split_and!; try done; [by apply M1..|]. split; [done|by eapply same_rest_trans|unfold same_mouse in *; intuition congruence| |].
  - rewrite Q, map_app. simpl. rewrite Hw. do 2 f_equal. apply queued_same; [by apply P1|]. intros y Hy. rewrite Ee. apply lookup_insert_ne. by intros ->.
  - rewrite L2. simpl. lia.
Qed.
End spec.
