(* ===== verification/EventTheorems.v ===== *)
(** * The event system: what its clients see *)
From S2P Require Import Prelude AllocSpec Kmalloc KmallocSpec KList Event EventSpec.
From Stdlib Require Import Sorting.Sorted.
#[local] Open Scope Z_scope.

(** ** Clients

    The calls of the interface, made on events the caller holds and on handlers it
    registered; other calls are not made.  The log keeps what was posted and what was
    polled, with the contents of the events. *)

Inductive action :=
| Create (type : Z) | Fill (event : Z) (f : Event.event -> Event.event) | Free (event : Z) | Post (event : Z) | Poll (timeout : Z)
| Register (type handler user_data priority : Z) | Unregister (id : Z) | Enable | Disable | SetRouter (router : Z).

Section clients.
Context {A : Type} `{AllocatorLaws A} (heap_low : forall (a : A) p c, a_inv a -> a_cap a p = Some c -> STATIC_END <= p < 2 ^ 31).
Abbreviation ev := (event_system A).

Record client := Client { cl_s : ev; cl_held : list Z; cl_ids : list Z; cl_posted : list event; cl_delivered : list event }.
Implicit Types (c : client).

Definition client_step (fuel : nat) c (a : action) : outcome client :=
  let '(Client s held ids posted delivered) := c in
  match a with
  | Create t => r ← event_create fuel s t; let '(x, s) := r in
      Ok (Client s (if x =? 0 then held else x :: held) ids posted delivered)
  | Fill x f => if decide (x ∈ held) then s ← upd_event s x f; Ok (Client s held ids posted delivered) else Ok c
  | Free x => if decide (x ∈ held) then s ← event_free fuel s x; Ok (Client s (without x held) ids posted delivered) else Ok c
  | Post x => if decide (x ∈ held) then r ← event_post fuel s x; let '(ret, s') := r in
      Ok (if ret =? 0 then Client s' (without x held) ids (posted ++ [content s x]) delivered else Client s' held ids posted delivered) else Ok c
  | Poll t => r ← event_poll fuel s t; let '(x, s') := r in
      Ok (if x =? 0 then Client s' held ids posted delivered else Client s' (x :: held) ids posted (delivered ++ [content s x]))
  | Register t h u p => r ← event_register_handler fuel s (u32 t) h u p; let '(id, s) := r in
      Ok (Client s held (if 0 <? id then id :: ids else ids) posted delivered)
  | Unregister id => if decide (id ∈ ids) then r ← event_unregister_handler s id; Ok (Client (snd r) held (without id ids) posted delivered) else Ok c
  | Enable => Ok (Client (event_system_enable s) held ids posted delivered)
  | Disable => Ok (Client (event_system_disable s) held ids posted delivered)
  | SetRouter r => Ok (Client (event_set_router s r) held ids posted delivered)
  end.

Fixpoint client_run (fuel : nat) c (acts : list action) : outcome client :=
  match acts with [] => Ok c | a :: acts => c ← client_step fuel c a; client_run fuel c acts end.

Record client_inv c rs : Prop := {
  ci_inv : e_inv (cl_s c) rs (cl_held c);
  ci_ids x : x ∈ cl_ids c <-> is_Some (e_handlers (cl_s c) !! x);
  ci_nodup : NoDup (cl_ids c);
  ci_fifo : cl_posted c = cl_delivered c ++ queued (cl_s c) rs;
  ci_posted : events_posted (cl_s c) = u64 (Z.of_nat (length (cl_posted c)))
}.

(** The handler lists are no longer than the number of registrations. *)
Lemma handler_list_short c rs head : client_inv c rs -> is_handler_head head -> (length (rs head) <= length (cl_ids c))%nat.
Proof using Type.
  intros I Hh. apply submseteq_length, NoDup_submseteq.
  - pose proof (rg_ring _ _ (ei_rings _ _ _ (ci_inv _ _ I)) head (handler_head_head _ Hh)) as [Hnd _]. by apply NoDup_cons in Hnd as [_ ?].
  - intros x Hx. apply (ci_ids _ _ I). apply (ei_entries _ _ _ (ci_inv _ _ I)). by exists head.
Qed.

(** The log and the handlers stay the same. *)
Lemma client_same s held ids posted delivered rs s' held' rs' : client_inv (Client s held ids posted delivered) rs ->
  e_inv s' rs' held' -> rs' PENDING = rs PENDING -> (forall x, x ∈ rs PENDING -> e_events s' !! x = e_events s !! x) ->
  e_handlers s' = e_handlers s -> events_posted s' = events_posted s -> client_inv (Client s' held' ids posted delivered) rs'.
Proof using Type.
  intros [Ie Hids Hnd Hfifo Hpost] I' Ep Ee Eh En. cbn in *. split; cbn; try done; [by rewrite Eh| |congruence].
  rewrite Hfifo. f_equal. symmetry. by apply queued_same.
Qed.

Lemma client_step_ok fuel c rs a : client_inv c rs -> (length (cl_ids c) <= fuel)%nat ->
  exists c' rs', client_step fuel c a = Ok c' /\ client_inv c' rs' /\ (length (cl_ids c') <= S (length (cl_ids c)))%nat.
Proof using Type*.
  intros I Hfuel. destruct c as [s held ids posted delivered]. pose proof I as [Ie Hids Hnd Hfifo Hpost]. cbn in *.
  destruct (held_nodup _ _ _ Ie) as (Hhn & Hpn & Hdis).
  assert (exists c' rs', Ok (Client s held ids posted delivered) = Ok c' /\ client_inv c' rs' /\ (length (cl_ids c') <= S (length ids))%nat) as Hskip
    by (exists (Client s held ids posted delivered), rs; split_and!; [done|done|cbn; lia]).
  destruct a as [t|x f|x|x|t|t h u p|id| | |r]; cbn [client_step].
  - destruct (event_create_ok fuel s rs held t Ie) as (x & s' & -> & (Eh & _) & Ep & [(-> & Ef & I' & Ee)|(fs & id & now & Ef & Hx & I' & Ee)]);
      rewrite bind_ok; eexists _, _; (split; [done|]); (split; [|cbn; lia]).
    + eapply client_same; try done. intros y _. by rewrite Ee.
    + rewrite (pool_nonzero _ _ _ _ Ie Hx). eapply client_same; try done.
      intros y Hy. rewrite Ee. apply lookup_insert_ne. intros ->.
      destruct (held_nodup _ _ _ I') as (_ & _ & Hd). apply (Hd y); [by left|]. by rewrite fn_lookup_insert_ne.
  - destruct (decide (x ∈ held)) as [Hx|]; [|exact Hskip].
    destruct (upd_event_ok s rs held x f Ie) as (e & Ee & Eu & I'); [by eapply held_pool|]. rewrite Eu, bind_ok.
    eexists _, _. split; [done|]. split; [|cbn; lia]. eapply client_same; try done. intros y Hy. cbn. apply lookup_insert_ne. intros ->. by apply (Hdis y).
  - destruct (decide (x ∈ held)) as [Hx|]; [|exact Hskip].
    destruct (event_free_ok fuel s rs held (without x held) x Ie) as (s' & E & (Eh & _) & Ep & Ee & I'); [by apply without_perm|].
    rewrite E, bind_ok. eexists _, _. split; [done|]. split; [|cbn; lia]. eapply client_same; try done. intros y _. by rewrite Ee.
  - destruct (decide (x ∈ held)) as [Hx|]; [|exact Hskip].
    pose proof (event_post_ok fuel s rs held (without x held) x Ie (without_perm _ _ Hhn Hx)) as Hpo. destruct (enabled s).
    + destruct Hpo as (s' & E & (Eh & _) & Ep & Ee & I'). rewrite E, bind_ok. simpl. eexists _, _. split; [done|]. split; [|cbn; lia].
      split; cbn; try done; [by rewrite Eh| |].
      * rewrite Hfifo, <- app_assoc. f_equal. unfold queued. rewrite fn_lookup_insert, map_app. unfold content. by rewrite Ee.
      * rewrite Ep, Hpost, length_app. unfold u64. rewrite Zplus_mod_idemp_l. f_equal. simpl. lia.
    + rewrite Hpo, bind_ok. simpl. exact Hskip.
  - destruct (event_poll_ok fuel s rs held t Ie) as (x & s' & E & (Eh & _) & Ep & Ee & [(-> & Hn & ->)|(ps & Hps & Hx & I')]); rewrite E, bind_ok.
    + simpl. exact Hskip.
    + rewrite (pool_nonzero _ _ _ _ Ie Hx). eexists _, _. split; [done|]. split; [|cbn; lia]. split; cbn; try done; [by rewrite Eh| |congruence].
      rewrite Hfifo, <- app_assoc. f_equal. unfold queued. rewrite Hps, fn_lookup_insert. simpl. f_equal.
      unfold content. by rewrite Ee.
  - destruct (decide (h = 0)) as [->|Hh].
    { unfold event_register_handler. simpl. exact Hskip. }
    assert (0 <= u32 t) as Ht by (apply Z.mod_pos_bound; lia).
    destruct (event_register_ok heap_low fuel s rs held (u32 t) h u p Ie Hh Ht) as (id & s' & E & Ee & _ & Ep & Hres).
    { intros Hv. pose proof (handler_list_short _ rs (handler_list (u32 t)) I (handler_list_head _ Ht Hv)). cbn in *. lia. }
    rewrite E, bind_ok. destruct Hres as [(Hid & Eh & I' & _)|(Hv & Hid & Hnone & Eh & I')].
    + rewrite (proj2 (Z.ltb_ge _ _)) by lia. eexists _, _. split; [done|]. split; [|cbn; lia]. eapply client_same; try done. intros y _. by rewrite Ee.
    + rewrite (proj2 (Z.ltb_lt _ _)) by (unfold STATIC_END in Hid; lia). eexists _, _. split; [done|]. split; [|cbn; lia].
      pose proof (handler_head_ne _ (handler_list_head _ Ht Hv)) as [_ Hq].
      split; cbn; try done; [| |rewrite Hfifo; f_equal; symmetry; apply queued_same; [by rewrite fn_lookup_insert_ne|by intros; rewrite Ee]|congruence].
      * intros y. rewrite Eh, elem_of_cons, Hids, lookup_insert_is_Some. destruct (decide (id = y)); intuition.
      * constructor; [|done]. rewrite Hids, Hnone. by intros [? ?].
  - destruct (decide (id ∈ ids)) as [Hid|]; [|exact Hskip].
    destruct (event_unregister_ok heap_low s rs held id Ie) as (head & xs & ys & s' & Hh & Hxs & E & Ee & _ & Ep & Eh & I'); [by apply Hids|].
    rewrite E, bind_ok. pose proof (handler_head_ne _ Hh) as [_ Hq]. pose proof (without_perm id ids Hnd Hid) as Hperm.
    eexists _, _. split; [done|]. split; [|cbn; apply Permutation_length in Hperm; simpl in *; lia].
    split; cbn; try done; [| |rewrite Hfifo; f_equal; symmetry; apply queued_same; [by rewrite fn_lookup_insert_ne|by intros; rewrite Ee]|congruence].
    + intros y. unfold without. rewrite list_elem_of_filter, Eh, lookup_delete_is_Some, Hids. intuition.
    + by apply NoDup_filter.
  - eexists _, rs. split; [done|]. split; [|cbn; lia]. eapply client_same; try done. eapply (inv_same s); try done. apply Ie.
  - eexists _, rs. split; [done|]. split; [|cbn; lia]. eapply client_same; try done. eapply (inv_same s); try done. apply Ie.
  - eexists _, rs. split; [done|]. split; [|cbn; lia]. eapply client_same; try done. eapply (inv_same s); try done. apply Ie.
Qed.

Lemma client_run_ok fuel c rs acts : client_inv c rs -> (length (cl_ids c) + length acts <= fuel)%nat ->
  exists c' rs', client_run fuel c acts = Ok c' /\ client_inv c' rs'.
Proof using Type*.
  revert c rs. induction acts as [|a acts IH]; intros c rs I Hl; [by exists c, rs|]. cbn [client_run length] in *.
  destruct (client_step_ok fuel c rs a I) as (c1 & rs1 & -> & I1 & Hl1); [lia|]. rewrite bind_ok. apply (IH c1 rs1 I1). lia.
Qed.

(** C8. From the initialization of the event system on, every sequence of calls returns:
    creating, filling, freeing, posting and polling events, registering and unregistering
    handlers, enabling and disabling.  Afterwards every one of the 1024 events is
    free, pending or held by the client, the count says how many are in use, every handler
    list is sorted by falling priority and holds the registered handlers, and the
    events posted so far are those polled so far followed by those that wait, in
    this order and with their contents. *)
Theorem event_queue_fifo (fuel : nat) (s : ev) (acts : list action) :
  e_handlers s = ∅ -> a_inv (e_heap s) -> (length acts <= fuel)%nat ->
  exists s0 c rs, event_system_init s = Ok s0 /\ client_run fuel (Client s0 [] [] [] []) acts = Ok c /\
    e_inv (cl_s c) rs (cl_held c) /\ cl_posted c = cl_delivered c ++ queued (cl_s c) rs /\
    events_posted (cl_s c) = u64 (Z.of_nat (length (cl_posted c))).
Proof using Type*.
  intros Hn Ha Hl. destruct (event_system_init_ok s Hn Ha) as (fl & s0 & E & Hp & I & Eh & _ & Ep). exists s0.
  destruct (client_run_ok fuel (Client s0 [] [] [] []) (initial_rings fl) acts) as (c & rs & Er & [? _ _ ? ?]).
  - split; cbn; try done; [|constructor]. intros x. rewrite Eh, lookup_empty, elem_of_nil. split; [done|by intros [? ?]].
  - done.
  - by exists c, rs.
Qed.
End clients.

(** ** Mouse input *)

Section mouse.
Context {A : Type} `{AllocatorLaws A} (fuel : nat) (window_at_position : Z -> Z -> option window).
Abbreviation ev := (event_system A).
Implicit Types (s : ev).
Abbreviation seen := (Z * Z * Z * event_data)%type.

Definition target (w : option window) : Z * Z :=
  match w with None => (-1, -1) | Some w => (w_id w, default (-1) (w_owner w)) end.

(** The event for button [i], if it changed from mask [pm] to mask [m]. *)
Definition button_events (pm m x y i : Z) : list seen :=
  if Bool.eqb (Z.testbit m i) (Z.testbit pm i) then []
  else [(if Z.testbit m i then EVENT_MOUSE_DOWN else EVENT_MOUSE_UP, fst (target (window_at_position x y)),
         snd (target (window_at_position x y)), DMouse x y 0 0 i 0 0)].

(** What a report of the mouse means, after one at [px], [py] with buttons [pm]. *)
Definition mouse_events (px py pm x y m dz : Z) : list seen :=
  (if (x =? px) && (y =? py) then [] else [(EVENT_MOUSE_MOVE, -1, -1, DMouse x y (x - px) (y - py) 0 0 0)]) ++
  flat_map (button_events pm m x y) [0; 1; 2; 3; 4] ++
  (if dz =? 0 then [] else [(EVENT_MOUSE_SCROLL, -1, -1, DMouse x y 0 0 0 dz 0)]).

Lemma event_post_mouse_ok s rs held t x y i : e_inv s rs held -> enabled s = true -> (0 < length (rs FREE))%nat ->
  exists s' rs', event_post_mouse fuel window_at_position s t x y i 0 = Ok (0, s') /\
    posts s rs held s' rs' [(t, fst (target (window_at_position x y)), snd (target (window_at_position x y)), DMouse x y 0 0 i 0 0)].
Proof using Type*.
  intros I En Hr.
  destruct (create_post_ok fuel s rs held t (fun e => route (window_at_position x y) (set_data e (DMouse x y 0 0 i 0 0)))
    (t, fst (target (window_at_position x y)), snd (target (window_at_position x y)), DMouse x y 0 0 i 0 0) I En Hr)
    as (p & s1 & s2 & s3 & rs' & Ec & Ep & Eu & Epo & _ & Hpo).
  { intros id now. destruct (window_at_position x y) as [[w [o|]]|]; done. }
  exists s3, rs'. split; [|done]. unfold event_post_mouse. by rewrite Ec, bind_ok, Ep, Eu, bind_ok.
Qed.

Lemma post_motion_ok s rs held t d : e_inv s rs held -> enabled s = true -> (0 < length (rs FREE))%nat ->
  exists s' rs', post_motion fuel s t d = Ok s' /\ posts s rs held s' rs' [(t, -1, -1, d)].
Proof using Type*.
  intros I En Hr. destruct (create_post_ok fuel s rs held t (fun e => set_data e d) (t, -1, -1, d) I En Hr)
    as (p & s1 & s2 & s3 & rs' & Ec & Ep & Eu & Epo & _ & Hpo); [done|].
  exists s3, rs'. split; [|done]. unfold post_motion. by rewrite Ec, bind_ok, Ep, Eu, bind_ok, Epo, bind_ok.
Qed.

Lemma button_bit a i : 0 <= i -> Z.land (Z.shiftr a i) 1 = Z.b2z (Z.testbit a i).
Proof using Type. intros Hi. change 1 with (Z.ones 1). rewrite Z.land_ones, Z.testbit_spec' by lia. by rewrite Z.shiftr_div_pow2. Qed.

Lemma button_loop_ok s rs held m x y n i : 0 <= i -> e_inv s rs held -> enabled s = true -> (n <= length (rs FREE))%nat ->
  exists s' rs', button_loop fuel window_at_position n i s x y m = Ok s' /\
    posts s rs held s' rs' (flat_map (button_events (prev_button_mask s) m x y) (seqZ i (Z.of_nat n))).
Proof using Type*.
  revert s rs i. induction n as [|n IH]; intros s rs i Hi I En Hr; [exists s, rs; split; [done|by apply posts_refl]|].
  cbn [button_loop]. rewrite !button_bit by done. rewrite seqZ_cons by lia. cbn [flat_map].
  replace (Z.pred (Z.of_nat (S n))) with (Z.of_nat n) by lia. replace (Z.succ i) with (i + 1) by lia.
  assert (exists s1 rs1, (if negb (Z.b2z (Z.testbit m i) =? 0) && (Z.b2z (Z.testbit (prev_button_mask s) i) =? 0) then
      r ← event_post_mouse fuel window_at_position s EVENT_MOUSE_DOWN x y i 0; Ok (snd r)
    else if (Z.b2z (Z.testbit m i) =? 0) && negb (Z.b2z (Z.testbit (prev_button_mask s) i) =? 0) then
      r ← event_post_mouse fuel window_at_position s EVENT_MOUSE_UP x y i 0; Ok (snd r) else Ok s) = Ok s1 /\
    posts s rs held s1 rs1 (button_events (prev_button_mask s) m x y i)) as (s1 & rs1 & E1 & P1).
  { unfold button_events. destruct (Z.testbit m i), (Z.testbit (prev_button_mask s) i); cbn [Z.b2z Z.eqb negb andb Bool.eqb].
    - exists s, rs. split; [done|by apply posts_refl].
    - destruct (event_post_mouse_ok s rs held EVENT_MOUSE_DOWN x y i I En) as (s' & rs' & E & P); [lia|]. exists s', rs'. by rewrite E, bind_ok.
    - destruct (event_post_mouse_ok s rs held EVENT_MOUSE_UP x y i I En) as (s' & rs' & E & P); [lia|]. exists s', rs'. by rewrite E, bind_ok.
    - exists s, rs. split; [done|by apply posts_refl]. }
  rewrite E1, bind_ok. pose proof (po_room _ _ _ _ _ _ P1) as Hroom.
  assert (length (button_events (prev_button_mask s) m x y i) <= 1)%nat by (unfold button_events; destruct (Bool.eqb _ _); simpl; lia).
  destruct (IH s1 rs1 (i + 1)) as (s2 & rs2 & E2 & P2); [lia|apply P1|destruct (po_rest _ _ _ _ _ _ P1) as (_ & _ & -> & _); done|lia|].
  exists s2, rs2. split; [done|]. eapply posts_trans; [exact P1|]. destruct (po_mouse _ _ _ _ _ _ P1) as (_ & _ & Em). by rewrite Em in P2.
Qed.

(** A report of the mouse puts into the queue, in this order: a motion event when the
    pointer moved, with the distance; for each of the five buttons that changed a press
    or a release, routed to the window under the pointer and its owner; a scroll
    event when the wheel turned.  Nothing else is posted, the invariant is kept, and the
    report becomes the one the next is compared with. *)
Theorem mouse_input_events (s : ev) (rs : Z -> list Z) (held : list Z) (x y m dz : Z) :
  e_inv s rs held -> enabled s = true -> (7 <= length (rs FREE))%nat ->
  - 2 ^ 31 <= x - prev_mouse_x s < 2 ^ 31 -> - 2 ^ 31 <= y - prev_mouse_y s < 2 ^ 31 ->
  exists s' rs', event_input_mouse fuel window_at_position s x y m dz = Ok s' /\ e_inv s' rs' held /\
    map what (queued s' rs') = map what (queued s rs) ++
      mouse_events (prev_mouse_x s) (prev_mouse_y s) (prev_button_mask s) x y m dz /\
    (prev_mouse_x s', prev_mouse_y s', prev_button_mask s') = (x, y, m).
Proof using Type*.
  intros I En Hr Hx Hy. unfold event_input_mouse, mouse_events.
  match goal with |- context [mbind _ (if ?c then ?a else Ok s)] => set (move := if c then a else Ok s) end.
  set (w1 := if (x =? prev_mouse_x s) && (y =? prev_mouse_y s) then [] else _).
  assert (exists s1 rs1, move = Ok s1 /\ posts s rs held s1 rs1 w1 /\ (length w1 <= 1)%nat) as (s1 & rs1 & E1 & P1 & L1).
  { subst move w1. destruct (Z.eqb_spec x (prev_mouse_x s)), (Z.eqb_spec y (prev_mouse_y s)); simpl;
      try (exists s, rs; split; [done|split; [by apply posts_refl|simpl; lia]]).
    all: destruct (create_post_ok fuel s rs held EVENT_MOUSE_MOVE (fun e => set_data e (DMouse x y (x - prev_mouse_x s) (y - prev_mouse_y s) 0 0 0))
        (EVENT_MOUSE_MOVE, -1, -1, DMouse x y (x - prev_mouse_x s) (y - prev_mouse_y s) 0 0 0) I En)
        as (p & t1 & t2 & t3 & rs' & Ec & Ep & Eu & Epo & (Mx & My & _) & Hpo); [lia|done|].
    all: exists t3, rs'; rewrite Ec, bind_ok, Ep, Mx, My, !int_arith_ok, !bind_ok, Eu, bind_ok, Epo by done; done. }
  rewrite E1, bind_ok. pose proof (po_room _ _ _ _ _ _ P1) as R1. pose proof (po_rest _ _ _ _ _ _ P1) as (_ & _ & En1 & _).
  destruct (po_mouse _ _ _ _ _ _ P1) as (_ & _ & Mb).
  destruct (button_loop_ok s1 rs1 held m x y 5 0) as (s2 & rs2 & E2 & P2); [lia|apply P1|congruence|lia|]. rewrite E2, bind_ok, Mb in *.
  change (seqZ 0 (Z.of_nat 5)) with [0; 1; 2; 3; 4] in P2. set (w2 := flat_map _ _) in *.
  assert (length w2 <= 5)%nat as L2 by (subst w2; cbn [flat_map]; unfold button_events; do 5 destruct (Bool.eqb _ _); simpl; lia).
  pose proof (po_room _ _ _ _ _ _ P2) as R2. pose proof (po_rest _ _ _ _ _ _ P2) as (_ & _ & En2 & _).
  set (w3 := if dz =? 0 then [] else _).
  assert (exists s3 rs3, (if negb (dz =? 0) then post_motion fuel s2 EVENT_MOUSE_SCROLL (DMouse x y 0 0 0 dz 0) else Ok s2) = Ok s3 /\
    posts s2 rs2 held s3 rs3 w3) as (s3 & rs3 & E3 & P3).
  { subst w3. destruct (dz =? 0); simpl; [exists s2, rs2; split; [done|apply posts_refl, P2]|]. apply post_motion_ok; [apply P2|congruence|lia]. }
  rewrite E3, bind_ok. pose proof (posts_trans _ _ _ _ _ _ _ _ _ P1 (posts_trans _ _ _ _ _ _ _ _ _ P2 P3)) as P.
  exists (with_mouse s3 x y m), rs3. split; [done|]. split; [|split; [|done]].
  - eapply (inv_same s3); try done; apply P.
  - apply (po_queue _ _ _ _ _ _ P).
Qed.
End mouse.

(** ** Dispatch *)

Section dispatch.
Context {A : Type} `{AllocatorLaws A} (fuel : nat).
Abbreviation ev := (event_system A).
Context (run : Z -> Z -> Z -> ev -> outcome (Z * ev)) (run_router : Z -> Z -> ev -> outcome (Z * ev)).
Implicit Types (s : ev).

(** While [event] is dispatched, a handler may use the system, but leaves the handlers,
    the router and this event alone. *)
Definition keeps (event : Z) s rs s' rs' held' : Prop :=
  e_inv s' rs' held' /\ event ∈ held' /\ (forall h, is_handler_head h -> rs' h = rs h) /\ e_handlers s' = e_handlers s /\
  e_events s' !! event = e_events s !! event /\ e_router s' = e_router s.

Context (run_keeps : forall h event u s rs held, e_inv s rs held -> event ∈ held ->
  exists r s' rs' held', run h event u s = Ok (r, s') /\ keeps event s rs s' rs' held').
Context (router_keeps : forall r event s rs held, e_inv s rs held -> event ∈ held ->
  exists b s' rs' held', run_router r event s = Ok (b, s') /\ keeps event s rs s' rs' held').

Lemma keeps_refl event s rs held : e_inv s rs held -> event ∈ held -> keeps event s rs s rs held.
Proof using Type. done. Qed.

Lemma keeps_trans event s1 rs1 s2 rs2 held2 s3 rs3 held3 :
  keeps event s1 rs1 s2 rs2 held2 -> keeps event s2 rs2 s3 rs3 held3 -> keeps event s1 rs1 s3 rs3 held3.
Proof using Type.
  intros (_ & _ & H1 & H2 & H3 & H4) (I & He & K1 & K2 & K3 & K4). split_and!; try done; try congruence. intros h Hh. by rewrite K1, H1.
Qed.

(** Offering an event to handlers, one after the other, until one of them consumes it. *)
Fixpoint offer (hs : list handler_entry) (event : Z) s : outcome (bool * ev) :=
  match hs with
  | [] => Ok (false, s)
  | h :: hs => r ← run (h_handler h) event (h_user_data h) s; if r.1 =? 0 then Ok (true, r.2) else offer hs event r.2
  end.

Definition takes (type : Z) (h : handler_entry) : bool := (h_type h =? ALL_TYPES) || (h_type h =? type).

Definition entries s (xs : list Z) : list handler_entry := omap (fun x => e_handlers s !! x) xs.

(** The handlers an event of [type] is offered to. *)
Definition handlers_for s rs (type : Z) : list handler_entry :=
  List.filter (takes type) (entries s (rs HANDLERS)) ++ (if type <? EVENT_USER then entries s (rs (TYPE_HANDLERS type)) else []).

(** The reference: all handlers in turn, then the router, then the event goes back. *)
Definition dispatch_reference s rs (event type : Z) : outcome ev :=
  r ← offer (handlers_for s rs type) event s;
  s ← (if (r : bool * ev).1 || (e_router s =? 0) then Ok r.2 else q ← run_router (e_router s) event r.2; Ok q.2);
  event_free fuel (with_stats s (events_posted s) (u64 (events_dispatched s + 1)) (events_dropped s)) event.

Lemma offer_app hs1 hs2 event s : offer (hs1 ++ hs2) event s = (r ← offer hs1 event s; if (r : bool * ev).1 then Ok r else offer hs2 event r.2).
Proof using Type.
  revert s. induction hs1 as [|h hs1 IH]; intros s; [done|]. cbn [offer app]. destruct (run _ _ _ _) as [[r s1]| |]; try done.
  rewrite !bind_ok. simpl. destruct (r =? 0); [done|]. apply IH.
Qed.

Lemma call_handlers_ok n s rs held global head xs ys event e : e_inv s rs held -> event ∈ held -> is_handler_head head ->
  rs head = xs ++ ys -> (length ys <= n)%nat -> e_events s !! event = Some e ->
  exists (b : bool) s' rs' held', call_handlers run n s global head (firstz ys head) event = Ok (Z.b2z b, s') /\
    offer (if global then List.filter (takes (ev_type e)) (entries s ys) else entries s ys) event s = Ok (b, s') /\
    keeps event s rs s' rs' held'.
Proof using run_keeps.
  intros I Hev Hh. revert n s rs held xs I Hev. induction ys as [|y ys IH]; intros n s rs held xs I Hev E Hn Ee.
  - exists false, s, rs, held. split; [destruct n; cbn [call_handlers firstz]; by rewrite Z.eqb_refl|]. split; [by destruct global|done].
  - destruct n as [|n]; [simpl in Hn; lia|]. cbn [firstz call_handlers].
    pose proof (rg_ring _ _ (ei_rings _ _ _ I) head (handler_head_head _ Hh)) as R. rewrite E in R.
    assert (y ∈ rs head) as Hy by (rewrite E; apply elem_of_mid; by left).
    assert ((y =? head) = false) as ->.
    { apply Z.eqb_neq. pose proof (rg_elem _ _ (ei_rings _ _ _ I) head y (handler_head_head _ Hh) Hy). unfold is_handler_head in Hh. lia. }
    destruct (proj2 (ei_entries _ _ _ I y)) as [h Eh]; [by exists head|]. rewrite Eh, Ee. cbn [of_option]. rewrite !bind_ok.
    replace (entries s (y :: ys)) with (h :: entries s ys) by (unfold entries; cbn; by rewrite Eh). cbn [List.filter].
    fold (takes (ev_type e) h). rewrite <- orb_assoc. fold (takes (ev_type e) h).
    assert (forall b, negb global || b = true -> (if global then if b then h :: List.filter (takes (ev_type e)) (entries s ys)
      else List.filter (takes (ev_type e)) (entries s ys) else h :: entries s ys) =
      h :: (if global then List.filter (takes (ev_type e)) (entries s ys) else entries s ys)) as Hsel by (intros []; by destruct global).
    destruct (negb global || takes (ev_type e) h) eqn:Ht.
    + rewrite Hsel by done. cbn [offer]. destruct (run_keeps (h_handler h) event (h_user_data h) s rs held I Hev) as (r & s1 & rs1 & held1 & Er & K).
      rewrite Er, !bind_ok. simpl. destruct (r =? 0); [by exists true, s1, rs1, held1|].
      destruct K as (I1 & Hev1 & Hr1 & Hh1 & He1 & Hq1). specialize (Hr1 head Hh) as Hrh.
      pose proof (rg_ring _ _ (ei_rings _ _ _ I1) head (handler_head_head _ Hh)) as R1. rewrite Hrh, E in R1.
      rewrite (ring_next _ _ _ _ _ R1), bind_ok.
      destruct (IH n s1 rs1 held1 (xs ++ [y]) I1 Hev1) as (b & s2 & rs2 & held2 & E2 & O2 & K2);
        [by rewrite Hrh, E, <- app_assoc|simpl in Hn; lia|congruence|].
      exists b, s2, rs2, held2. split; [done|]. unfold entries in *. rewrite Hh1 in O2. split; [done|]. eapply keeps_trans; [|exact K2]. done.
    + apply orb_false_iff in Ht as [Hg Ht]. rewrite Ht in *. destruct global; [|done]. rewrite (ring_next _ _ _ _ _ R), bind_ok.
      apply (IH n s rs held (xs ++ [y])); try done; [by rewrite E, <- app_assoc|simpl in Hn; lia].
Qed.

Lemma second_pass s rs event e s1 rs1 held1 (b1 : bool) : 0 <= ev_type e -> (forall h, is_handler_head h -> (length (rs h) <= fuel)%nat) ->
  e_events s !! event = Some e -> keeps event s rs s1 rs1 held1 ->
  exists (b2 : bool) s2 rs2 held2,
    (if Z.b2z b1 =? 0 then
       e ← of_option (e_events s1 !! event);
       if ev_type e <? EVENT_USER then
         first ← next_of (e_links s1) (TYPE_HANDLERS (ev_type e));
         call_handlers run fuel s1 false (TYPE_HANDLERS (ev_type e)) first event
       else Ok (Z.b2z b1, s1)
     else Ok (Z.b2z b1, s1)) = Ok (Z.b2z b2, s2) /\
    (if b1 then Ok (b1, s1) else offer (if ev_type e <? EVENT_USER then entries s (rs (TYPE_HANDLERS (ev_type e))) else []) event s1) = Ok (b2, s2) /\
    keeps event s rs s2 rs2 held2.
Proof using run_keeps.
  intros Ht Hfuel Ee K. destruct b1; cbn [Z.b2z Z.eqb]; [by exists true, s1, rs1, held1|].
  pose proof K as (I1 & Hev1 & Hr1 & Hh1 & He1 & _). rewrite He1, Ee. cbn [of_option]. rewrite bind_ok.
  destruct (Z.ltb_spec (ev_type e) EVENT_USER) as [Hlt|]; [|by exists false, s1, rs1, held1].
  set (head := TYPE_HANDLERS (ev_type e)). assert (is_handler_head head) as Hh by (unfold head, is_handler_head, TYPE_HANDLERS, EVENT_USER in *; lia).
  pose proof (rg_ring _ _ (ei_rings _ _ _ I1) head (handler_head_head _ Hh)) as R. destruct (ring_split _ _ [] _ R) as (_ & _ & [Hf _]).
  cbn [lastz] in Hf. rewrite (next_of_ok _ _ _ Hf), bind_ok.
  destruct (call_handlers_ok fuel s1 rs1 held1 false head [] (rs1 head) event e I1 Hev1 Hh eq_refl) as (b2 & s2 & rs2 & held2 & E2 & O2 & K2);
    [rewrite Hr1 by done; by apply Hfuel|congruence|].
  exists b2, s2, rs2, held2. split; [done|]. unfold entries in *. rewrite Hh1, Hr1 in O2 by done. split; [done|]. by eapply keeps_trans.
Qed.

Lemma router_pass s rs event s2 rs2 held2 (b2 : bool) : keeps event s rs s2 rs2 held2 ->
  exists h s3 rs3 held3,
    (if (Z.b2z b2 =? 0) && negb (e_router s2 =? 0) then run_router (e_router s2) event s2 else Ok (Z.b2z b2, s2)) = Ok (h, s3) /\
    (if b2 || (e_router s =? 0) then Ok s2 else q ← run_router (e_router s) event s2; Ok q.2) = Ok s3 /\
    keeps event s rs s3 rs3 held3.
Proof using router_keeps.
  intros K. pose proof K as (I & Hev & _ & _ & _ & ->). destruct b2; cbn [Z.b2z Z.eqb orb andb]; [by do 4 eexists|].
  destruct (e_router s =? 0) eqn:Er; cbn [negb]; [by do 4 eexists|].
  destruct (router_keeps (e_router s) event s2 rs2 held2 I Hev) as (b & s3 & rs3 & held3 & E & K3).
  exists b, s3, rs3, held3. rewrite E. split; [done|]. split; [done|]. by eapply keeps_trans.
Qed.

(** C9. Dispatching an event offers it to the handlers for all types that take it and then
    to those of its own type, each list by falling priority, until one of them consumes
    it; otherwise the router gets it.  The event is then back in
    the pool.  This is the reference, which calls every handler at most once.  Handlers and router
    may create, fill, post, poll and free other events while they run, but they leave the handlers that are
    registered, the router and the event itself alone ([keeps]). *)
Theorem event_dispatch_order (s : ev) (rs : Z -> list Z) (held : list Z) (event : Z) (e : Event.event) :
  e_inv s rs held -> event ∈ held -> e_events s !! event = Some e -> 0 <= ev_type e ->
  (forall h, is_handler_head h -> (length (rs h) <= fuel)%nat) ->
  exists s' rs' held', event_dispatch fuel run run_router s event = Ok s' /\ dispatch_reference s rs event (ev_type e) = Ok s' /\
    e_inv s' rs' held' /\ (event ∉ held') /\ event ∈ rs' FREE /\
    falling (priority s) (rs HANDLERS) /\ (ev_type e < EVENT_USER -> falling (priority s) (rs (TYPE_HANDLERS (ev_type e)))).
Proof using Type*.
  intros I Hev Ee Ht Hfuel. assert (is_handler_head HANDLERS) as Hh0 by (unfold is_handler_head, HANDLERS; lia).
  unfold event_dispatch, dispatch_reference, handlers_for. rewrite (pool_nonzero _ _ _ event I) by (by eapply held_pool).
  pose proof (rg_ring _ _ (ei_rings _ _ _ I) HANDLERS (handler_head_head _ Hh0)) as R. destruct (ring_split _ _ [] _ R) as (_ & _ & [Hf _]).
  cbn [lastz] in Hf. rewrite (next_of_ok _ _ _ Hf), bind_ok.
  destruct (call_handlers_ok fuel s rs held true HANDLERS [] (rs HANDLERS) event e I Hev Hh0 eq_refl (Hfuel _ Hh0) Ee)
    as (b1 & s1 & rs1 & held1 & E1 & O1 & K1). rewrite E1, bind_ok, offer_app, O1, bind_ok. cbn [fst snd].
  destruct (second_pass s rs event e s1 rs1 held1 b1 Ht Hfuel Ee K1) as (b2 & s2 & rs2 & held2 & E2 & O2 & K2).
  rewrite E2, bind_ok, O2, bind_ok. cbn [fst snd]. clear E1 E2 O1 O2.
  destruct (router_pass s rs event s2 rs2 held2 b2 K2) as (h & s3 & rs3 & held3 & E3 & O3 & (I3 & Hev3 & _)).
  rewrite E3, bind_ok, O3, bind_ok. set (s4 := with_stats _ _ _ _).
  assert (e_inv s4 rs3 held3) as I4 by (eapply inv_same; [exact I3|apply I3|done..]). destruct (held_nodup _ _ _ I4) as (Hnd & _).
  destruct (event_free_ok fuel s4 rs3 held3 _ event I4 (without_perm _ _ Hnd Hev3)) as (s5 & E5 & _ & _ & _ & I5).
  exists s5, (<[FREE := event :: rs3 FREE]> rs3), (without event held3). split; [done|]. split; [done|]. split; [done|].
  split; [unfold without; rewrite list_elem_of_filter; tauto|]. split; [rewrite fn_lookup_insert; by left|].
  split; [by apply (ei_sorted _ _ _ I)|]. intros Hlt. apply (ei_sorted _ _ _ I). unfold is_handler_head, TYPE_HANDLERS, EVENT_USER in *. lia.
Qed.
End dispatch.

(** ** Shutting down and switching off *)

Section off.
Context {A : Type} `{AllocatorLaws A} (fuel : nat) (window_get_focused : option window).
Abbreviation ev := (event_system A).
Implicit Types (s : ev).

Lemma spin_locked n s : q_lock s = true -> spin n s = NoFuel.
Proof using Type. intros E. induction n; cbn [spin]; by rewrite E. Qed.

(** Shutting the system down with nothing pending returns and switches it off; with a
    pending event it never returns, however long it waits: the events are freed with the
    lock held, and freeing an event takes the lock again. *)
Theorem shutdown_waits_for_itself (s : ev) (rs : Z -> list Z) (held : list Z) : e_inv s rs held ->
  (rs PENDING = [] -> exists s', event_system_shutdown fuel s = Ok s' /\ e_inv s' rs held /\ enabled s' = false) /\
  (rs PENDING <> [] -> event_system_shutdown fuel s = NoFuel).
Proof using Type.
  intros I. pose proof (rg_ring _ _ (ei_rings _ _ _ I) PENDING pending_head) as R. destruct (ring_split _ _ [] _ R) as (_ & _ & [Hf _]).
  unfold event_system_shutdown. rewrite lock_ok, bind_ok by apply I. cbn [lastz e_links with_lock with_enabled] in *.
  rewrite (next_of_ok _ _ _ Hf), bind_ok. split.
  - intros E. rewrite E. cbn [firstz]. eexists. split; [destruct fuel; cbn [shutdown_loop]; by rewrite Z.eqb_refl, bind_ok|].
    split; [|done]. by eapply (inv_same s).
  - destruct (rs PENDING) as [|x ps] eqn:E; [done|]. intros _. cbn [firstz].
    assert ((x =? PENDING) = false) as Hx.
    { apply Z.eqb_neq. intros ->. destruct R as [Hnd _]. apply NoDup_cons in Hnd as [Hnd _]. apply Hnd. by left. }
    destruct fuel as [|n] eqn:Efuel; cbn [shutdown_loop]; rewrite Hx; [done|]. cbn [e_links with_lock with_enabled].
    rewrite (ring_next _ _ [] _ _ R), bind_ok. destruct (list_del_ok _ _ [] ps x R) as (l & El & _).
    unfold in_links. cbn [e_links with_lock with_enabled]. rewrite El, !bind_ok. unfold free_event_to_pool, spin_lock. by rewrite spin_locked.
Qed.

Record key := Key { k_type : Z; k_keycode : Z; k_scancode : Z; k_modifiers : Z; k_character : Z }.

Fixpoint post_keys (s : ev) (ks : list key) : outcome ev :=
  match ks with
  | [] => Ok s
  | k :: ks => r ← event_post_keyboard fuel window_get_focused s (k_type k) (k_keycode k) (k_scancode k) (k_modifiers k) (k_character k);
               post_keys r.2 ks
  end.

Lemma key_lost s rs held k : e_inv s rs held -> enabled s = false ->
  exists s' rs' held', event_post_keyboard fuel window_get_focused s (k_type k) (k_keycode k) (k_scancode k) (k_modifiers k) (k_character k)
      = Ok (-1, s') /\ e_inv s' rs' held' /\ enabled s' = false /\ length (rs' FREE) = pred (length (rs FREE)) /\ rs' PENDING = rs PENDING.
Proof using Type*.
  intros I En. unfold event_post_keyboard.
  destruct (event_create_ok fuel s rs held (k_type k) I) as (x & s1 & E & (_ & _ & R & _) & _ & [(-> & Hf & I1 & _)|(fs & id & now & Hf & Hx & I1 & _)]);
    rewrite E, bind_ok.
  - simpl. exists s1, rs, held. rewrite Hf. split_and!; try done. congruence.
  - rewrite (pool_nonzero _ _ _ _ I Hx). match goal with |- context [upd_event s1 x ?g] => set (f := g) end.
    destruct (upd_event_ok s1 _ _ x f I1 Hx) as (e & _ & -> & I2). rewrite bind_ok. cbv zeta in *. set (s2 := with_events _ _) in *.
    pose proof (event_post_ok fuel s2 _ (x :: held) held x I2 (Permutation_refl _)) as Hp. change (enabled s2) with (enabled s1) in Hp.
    rewrite R, En in Hp. rewrite Hp. exists s2, (<[FREE := fs]> rs), (x :: held). split_and!; try done; [cbn; congruence|by rewrite fn_lookup_insert, Hf].
Qed.

(** An event posted while the system is switched off is lost for the pool: the caller
    gets an error, nothing is pending, and nobody has the event any more.  After as
    many keys as the pool has free events (1024 at most) no event can be created, not even
    when the system is switched on again. *)
Theorem disabled_posts_drain_pool (s : ev) (rs : Z -> list Z) (held : list Z) (ks : list key) :
  e_inv s rs held -> (length (rs FREE) <= length ks)%nat ->
  exists s' rs' held', post_keys (event_system_disable s) ks = Ok s' /\ e_inv s' rs' held' /\ rs' FREE = [] /\ rs' PENDING = rs PENDING /\
    forall type, exists s'', event_create fuel (event_system_enable s') type = Ok (0, s'').
Proof using Type*.
  intros I. set (s0 := event_system_disable s).
  assert (e_inv s0 rs held) as I0 by (eapply inv_same; [exact I|apply I|done..]). assert (enabled s0 = false) as En by done.
  clearbody s0. clear I s. revert s0 rs held I0 En. induction ks as [|k ks IH]; intros s rs held I En Hl; cbn [post_keys length] in *.
  - assert (rs FREE = []) as Hf by (apply length_zero_iff_nil; lia). exists s, rs, held. split_and!; try done. intros type.
    assert (e_inv (event_system_enable s) rs held) as I' by (eapply inv_same; [exact I|apply I|done..]).
    destruct (event_create_ok fuel _ rs held type I') as (x & s'' & E & _ & _ & [(-> & _)|(fs & id & now & Hf' & _)]); [by exists s''|congruence].
  - destruct (key_lost s rs held k I En) as (s1 & rs1 & held1 & -> & I1 & En1 & Hl1 & Hp1). rewrite bind_ok.
    destruct (IH s1 rs1 held1 I1 En1) as (s' & rs' & held' & ? & ? & ? & Hp & ?); [lia|]. exists s', rs', held'. rewrite Hp. done.
Qed.
End off.

(** ** The system at boot

    On a machine with 1 GB the heap lies between the static objects and 2 GB. *)

#[local] Instance event_heap : Allocator Kmalloc.heap := low_heap STATIC_END (2 ^ 31).
#[local] Instance event_heap_laws : AllocatorLaws Kmalloc.heap := low_heap_laws STATIC_END (2 ^ 31).

Definition zero_system : event_system Kmalloc.heap := EventSystem ∅ ∅ ∅ (boot_heap (2 ^ 30)) false 0 0 0 0 0 0 false 0 0 0 0.

Lemma boot_heap_low : a_inv (boot_heap (2 ^ 30)).
Proof. split; [apply boot_heap_inv|]. split; apply Z.leb_le; vm_compute; reflexivity. Qed.

Lemma Ok_inj {A} (a b : A) : Ok a = Ok b -> a = b.
Proof. by intros [=]. Qed.

Lemma init_mouse {A} (s s' : event_system A) : event_system_init s = Ok s' -> same_mouse s s'.
Proof. unfold event_system_init. intros E. inv_bind E. apply Ok_inj in E. rewrite <- E. repeat split. Qed.

(** An initialized system: everything is in the pool, nothing is pressed. *)
Lemma booted_system : exists s rs, event_system_init zero_system = Ok s /\ e_inv s rs [] /\ enabled s = true /\
  length (rs FREE) = 1024%nat /\ rs PENDING = [] /\ (forall h, is_handler_head h -> rs h = []) /\ same_mouse zero_system s.
Proof.
  destruct (event_system_init_ok zero_system eq_refl boot_heap_low) as (fl & s & E & Hp & I & _ & En & _).
  exists s, (initial_rings fl). split; [done|]. split; [done|]. split; [done|]. split; [|split; [done|split; [|by apply init_mouse]]].
  - change (initial_rings fl FREE) with fl. by rewrite Hp, pool_length.
  - intros h Hh. unfold initial_rings. destruct (Z.eqb_spec h FREE) as [->|]; [unfold is_handler_head, FREE in Hh; lia|done].
Qed.

(** A client that posts one event, registers a handler, and polls twice. *)
Definition short_session : list action :=
  [Create 0; Post 3023; Register ALL_TYPES 0x1000 7 5; Poll 0; Poll 0; Disable; SetRouter 0x2000].

Lemma event_queue_fifo_witness : exists s0 c rs, event_system_init zero_system = Ok s0 /\
  client_run 10 (Client s0 [] [] [] []) short_session = Ok c /\ e_inv (cl_s c) rs (cl_held c).
Proof.
  destruct (event_queue_fifo (low_heap_range STATIC_END (2 ^ 31)) 10 zero_system short_session eq_refl boot_heap_low)
    as (s0 & c & rs & E & Er & I & _); [simpl; lia|]. exists s0, c, rs. split; [exact E|]. split; [exact Er|exact I].
Defined.

Lemma mouse_input_events_witness : exists (s s' : event_system Kmalloc.heap) rs', event_input_mouse 1 (fun _ _ => Some (Window 3 None)) s 5 6 1 (-1) = Ok s' /\
  map what (queued s' rs') = [(3, -1, -1, DMouse 5 6 5 6 0 0 0); (4, 3, -1, DMouse 5 6 0 0 0 0 0); (6, -1, -1, DMouse 5 6 0 0 0 (-1) 0)].
Proof.
  destruct booted_system as (s & rs & _ & I & En & Hf & Hp & _ & (Mx & My & Mb)). cbn in Mx, My, Mb.
  destruct (mouse_input_events 1 (fun _ _ => Some (Window 3 None)) s rs [] 5 6 1 (-1) I En) as (s' & rs' & E & _ & Q & _); [lia|lia|lia|].
  exists s, s', rs'. split; [exact E|]. rewrite Q, Mx, My, Mb. unfold queued. rewrite Hp. reflexivity.
Defined.

(** Handlers that write their number into the count of posted events, so that it shows who was called and when; number 2 also takes an
    event for itself, and number 3 consumes what it is offered.  The router writes 9. *)
Definition sign (n : Z) (s : event_system Kmalloc.heap) : event_system Kmalloc.heap := with_stats s (10 * events_posted s + n) (events_dispatched s) (events_dropped s).
Definition signing (h event u : Z) (s : event_system Kmalloc.heap) : outcome (Z * event_system Kmalloc.heap) :=
  if h =? 2 then r ← event_create 4 (sign h s) EVENT_KEY_DOWN; Ok (1, snd r) else Ok (if h =? 3 then 0 else 1, sign h s).
Definition take (r event : Z) (s : event_system Kmalloc.heap) : outcome (Z * event_system Kmalloc.heap) := Ok (1, sign 9 s).

Lemma sign_keeps n event s rs held : e_inv s rs held -> event ∈ held -> keeps event s rs (sign n s) rs held.
Proof. intros I He. split; [|done]. eapply inv_same; [exact I|apply I|done..]. Qed.

Lemma signing_keeps h event u s rs held : e_inv s rs held -> event ∈ held ->
  exists r s' rs' held', signing h event u s = Ok (r, s') /\ keeps event s rs s' rs' held'.
Proof.
  intros I He. pose proof (sign_keeps h event s rs held I He) as K. unfold signing. destruct (h =? 2); [|by do 4 eexists]. destruct K as (I1 & _ & _ & _ & _ & _).
  destruct (event_create_ok 4 (sign h s) rs held EVENT_KEY_DOWN I1) as (x & s' & -> & (Eh & _ & _ & Er & _) & _ & [(_ & _ & I2 & Ee)|(fs & id & now & Ef & _ & I2 & Ee)]); rewrite bind_ok.
  - exists 1, s', rs, held. split; [done|]. split; [exact I2|]. split; [done|]. split; [done|]. split; [by rewrite Eh|]. split; [by rewrite Ee|by rewrite Er].
  - exists 1, s', (<[FREE := fs]> rs), (x :: held). split; [done|]. split; [exact I2|]. split; [by right|]. split; [|split; [by rewrite Eh|split; [|by rewrite Er]]].
    + intros g Hg. pose proof (handler_head_ne _ Hg) as [? _]. by rewrite fn_lookup_insert_ne.
    + rewrite Ee. apply lookup_insert_ne. intros ->. destruct (held_nodup _ _ _ I2) as (Hn & _ & _). apply NoDup_cons in Hn as [Hn _]. done.
Qed.
Lemma take_keeps r event s rs held : e_inv s rs held -> event ∈ held ->
  exists b s' rs' held', take r event s = Ok (b, s') /\ keeps event s rs s' rs' held'.
Proof. intros I He. exists 1, (sign 9 s), rs, held. split; [done|]. by apply sign_keeps. Qed.

(** Two handlers for everything, two for keys that go down, and an event. *)
Definition crowd : list action := [Register ALL_TYPES 1 0 5; Register ALL_TYPES 2 0 9; Register EVENT_KEY_DOWN 3 0 8; Register EVENT_KEY_DOWN 4 0 7; Create EVENT_KEY_DOWN].
Definition crowded : outcome client := s ← event_system_init zero_system; client_run 10 (Client s [] [] [] []) crowd.

Lemma crowded_ok : exists c rs, crowded = Ok c /\ client_inv c rs.
Proof.
  destruct (event_system_init_ok zero_system eq_refl boot_heap_low) as (fl & s & E & _ & I & Eh & _ & Ep).
  unfold crowded. rewrite E, bind_ok. clear E.
  apply (client_run_ok (low_heap_range STATIC_END (2 ^ 31)) 10 _ (initial_rings fl)); [|simpl; lia]. split; cbn; try done; [|constructor]. intros x. rewrite Eh, lookup_empty, elem_of_nil. split; [done|by intros [? ?]].
Qed.

(** Number 2 comes before 1 by its priority, then 3, which consumes the event: neither 4 nor the router is called. *)
Lemma event_dispatch_order_witness : exists c s', crowded = Ok c /\ event_dispatch 10 signing take (event_set_router (cl_s c) 9) 3023 = Ok s' /\ events_posted s' = 213.
Proof.
  destruct crowded_ok as (c & rs & E & I). pose proof (ci_inv _ _ I) as Ie.
  assert (match crowded with Ok c => Some (cl_held c, length (cl_ids c), option_map ev_type (e_events (cl_s c) !! 3023),
    match event_dispatch 10 signing take (event_set_router (cl_s c) 9) 3023 with Ok s' => events_posted s' | _ => 0 end) | _ => None end = Some ([3023], 4%nat, Some EVENT_KEY_DOWN, 213)) as Hf by (vm_compute; reflexivity).
  rewrite E in Hf. injection Hf as Hheld Hids Het Hlog. destruct (e_events (cl_s c) !! 3023) as [e|] eqn:Ee; [|discriminate Het]. injection Het as Het.
  assert (e_inv (event_set_router (cl_s c) 9) rs (cl_held c)) as I3 by (eapply inv_same; [exact Ie|apply Ie|done..]).
  destruct (event_dispatch_order 10 signing take signing_keeps take_keeps (event_set_router (cl_s c) 9) rs (cl_held c) 3023 e I3) as (s' & ? & ? & Ed & _).
  - rewrite Hheld. by left.
  - exact Ee.
  - rewrite Het. done.
  - intros h Hh. pose proof (handler_list_short c rs h I Hh). lia.
  - exists c, s'. split; [exact E|]. split; [exact Ed|]. rewrite Ed in Hlog. exact Hlog.
Defined.

Lemma shutdown_waits_for_itself_witness : exists s s' : event_system Kmalloc.heap, event_system_shutdown 9 s = Ok s' /\ exists s2 : event_system Kmalloc.heap, event_system_shutdown 4000 s2 = NoFuel.
Proof.
  destruct booted_system as (s & rs & _ & I & En & Hf & Hp & _).
  destruct (proj1 (shutdown_waits_for_itself 9 s rs [] I) Hp) as (s' & E & _). exists s, s'. split; [exact E|].
  destruct (create_post_ok 4 s rs [] 0 id (0, -1, -1, DNone) I En) as (x & s1 & s2 & s3 & rs' & _ & _ & _ & _ & _ & P); [lia|done|].
  exists s3. apply (proj2 (shutdown_waits_for_itself 4000 s3 rs' [] (po_inv _ _ _ _ _ _ P))). intros Hn.
  pose proof (po_queue _ _ _ _ _ _ P) as Q. unfold queued in Q. by rewrite Hn, Hp in Q.
Defined.

Lemma disabled_posts_drain_pool_witness : exists s s' s'' : event_system Kmalloc.heap,
  post_keys 4 None (event_system_disable s) (replicate 1024 (Key EVENT_KEY_DOWN 97 0x1E 0 97)) = Ok s' /\
  event_create 4 (event_system_enable s') EVENT_KEY_DOWN = Ok (0, s'').
Proof.
  destruct booted_system as (s & rs & _ & I & En & Hf & _).
  destruct (disabled_posts_drain_pool 4 None s rs [] (replicate 1024 (Key EVENT_KEY_DOWN 97 0x1E 0 97)) I) as (s' & rs' & held' & E & _ & _ & _ & Hc).
  - rewrite length_replicate, Hf. done.
  - destruct (Hc EVENT_KEY_DOWN) as [s'' E']. exists s, s', s''. split; [exact E|exact E'].
Defined.
