(* ===== verification/Aslr.v ===== *)
(** * Address randomization (src/kernel/mm/aslr.c)

    A linear congruential generator, seeded from two reads of a hardware counter
    ([e1], [e2]), and the offsets that are cut out of its output. *)
From S2P Require Import Prelude.
#[local] Open Scope Z_scope.

Definition LCG_MULTIPLIER : Z := 6364136223846793005.
Definition LCG_INCREMENT : Z := 1442695040888963407.
Definition ASLR_STACK_BITS : Z := 12.
Definition ASLR_HEAP_BITS : Z := 12.
Definition ASLR_MMAP_BITS : Z := 16.
Definition ASLR_EXEC_BITS : Z := 16.

Record aslr := Aslr { aslr_seed : Z; aslr_initialized : bool }.

Definition next_random (a : aslr) : Z * aslr :=
  let s := u64 (aslr_seed a * LCG_MULTIPLIER + LCG_INCREMENT) in (s, Aslr s (aslr_initialized a)).

Fixpoint warm_up (n : nat) (a : aslr) : aslr := match n with O => a | S n => warm_up n (snd (next_random a)) end.

Definition aslr_init (e1 e2 : Z) : aslr :=
  let seed := Z.lxor (Z.lxor e1 (u64 (Z.shiftl e2 13))) (Z.shiftr e2 7) in
  Aslr (aslr_seed (warm_up 8 (Aslr seed false))) true.

Definition aslr_random (e1 e2 : Z) (a : aslr) : Z * aslr :=
  next_random (if aslr_initialized a then a else aslr_init e1 e2).

(** [(random & ((1 << bits) - 1)) << shift] *)
Definition offset_of (bits shift random : Z) : Z := u64 (Z.shiftl (Z.land random (Z.shiftl 1 bits - 1)) shift).

Definition aslr_stack_offset (e1 e2 : Z) (a : aslr) : Z * aslr := let '(r, a) := aslr_random e1 e2 a in (offset_of ASLR_STACK_BITS 12 r, a).
Definition aslr_heap_offset (e1 e2 : Z) (a : aslr) : Z * aslr := let '(r, a) := aslr_random e1 e2 a in (offset_of ASLR_HEAP_BITS 12 r, a).
Definition aslr_exec_offset (e1 e2 : Z) (a : aslr) : Z * aslr := let '(r, a) := aslr_random e1 e2 a in (offset_of ASLR_EXEC_BITS 16 r, a).
Definition aslr_mmap_offset (e1 e2 : Z) (a : aslr) : Z * aslr := let '(r, a) := aslr_random e1 e2 a in (offset_of ASLR_MMAP_BITS 12 r, a).

(** ** Offsets *)

Lemma offset_of_spec bits shift r : 0 <= bits -> 0 <= shift -> bits + shift <= 64 -> offset_of bits shift r = r mod 2 ^ bits * 2 ^ shift.
Proof.
  intros Hb Hs Hbs. unfold offset_of. rewrite Z.shiftl_1_l. replace (2 ^ bits - 1) with (Z.ones bits) by (rewrite Z.ones_equiv; lia).
  rewrite Z.land_ones, Z.shiftl_mul_pow2 by done. apply u64_small.
  pose proof (Z.mod_pos_bound r (2 ^ bits)). assert (2 ^ bits * 2 ^ shift <= 2 ^ 64) by (rewrite <- Z.pow_add_r by done; apply Z.pow_le_mono_r; lia).
  assert (0 < 2 ^ bits) by lia. assert (0 < 2 ^ shift) by lia. nia.
Qed.

(** A load offset is a multiple of 64 KB below 4 GB. *)
Lemma exec_offset_range e1 e2 a : let '(o, _) := aslr_exec_offset e1 e2 a in 0 <= o < 2 ^ 32 /\ o mod 2 ^ 16 = 0.
Proof.
  unfold aslr_exec_offset, ASLR_EXEC_BITS. destruct (aslr_random e1 e2 a) as [r a']. rewrite offset_of_spec by lia.
  pose proof (Z.mod_pos_bound r (2 ^ 16)). split; [lia|]. by rewrite Z.mod_mul.
Qed.
