(* ===== verification/VfsCompat.v ===== *)
(** * The path wrappers of the program launcher (src/kernel/fs/vfs_compat.c)

    A pool of 32 nodes; a node is its index plus one.  The only files with contents are
    the two images built into the kernel, which are parameters.  Paths are lists of
    bytes without a zero. *)
From S2P Require Import Prelude.
#[local] Open Scope Z_scope.

Definition MAX_VFS_NODES : nat := 32.

Inductive embedded := NoData | DoomBinary | DoomWad.

Record vfs_node := VfsNode { vn_name : list Z; vn_size : Z; vn_is_dir : bool; vn_internal : embedded }.

(** [node_pool] with [node_used], and the working directory. *)
Record compat := Compat { node_pool : list (bool * vfs_node); cwd : list Z }.

Definition empty_node : vfs_node := VfsNode [] 0 false NoData.
Definition compat_boot : compat := Compat (replicate MAX_VFS_NODES (false, empty_node)) [47].

Section compat.
Context (doom_binary doom_wad : list Z).

(** The difference of the first bytes that differ; strings end with a zero. *)
Fixpoint strcmp_simple (s1 s2 : list Z) : Z :=
  match s1, s2 with
  | c1 :: s1', c2 :: s2' => if c1 =? c2 then strcmp_simple s1' s2' else c1 - c2
  | c1 :: _, [] => c1
  | [], c2 :: _ => - c2
  | [], [] => 0
  end.

Definition get_node (s : compat) (p : Z) : option vfs_node := snd <$> node_pool s !! Z.to_nat (p - 1).
Definition set_node (s : compat) (p : Z) (b : bool) (n : vfs_node) : compat := Compat (<[Z.to_nat (p - 1) := (b, n)]> (node_pool s)) (cwd s).

Definition alloc_node (s : compat) : Z :=
  match find_index (fun x => negb (fst x)) (node_pool s) with Some i => Z.of_nat i + 1 | None => 0 end.

Definition free_node (s : compat) (p : Z) : compat :=
  match get_node s p with Some n => set_node s p false n | None => s end.

(** [max - 1] wraps around. *)
Definition strcpy_safe (src : list Z) (max : nat) : list Z := match max with O => src | S n => take n src end.

Definition bin_doom : list Z := [47; 98; 105; 110; 47; 100; 111; 111; 109].
Definition wad_names : list (list Z) :=
  [[47; 68; 79; 79; 77; 49; 46; 87; 65; 68];
   [68; 79; 79; 77; 49; 46; 87; 65; 68];
   [47; 100; 97; 116; 97; 47; 68; 79; 79; 77; 49; 46; 87; 65; 68];
   [47; 103; 97; 109; 101; 115; 47; 100; 111; 111; 109; 49; 46; 119; 97; 100];
   [47; 103; 97; 109; 101; 115; 47; 68; 79; 79; 77; 49; 46; 87; 65; 68];
   [103; 97; 109; 101; 115; 47; 100; 111; 111; 109; 49; 46; 119; 97; 100];
   [47; 100; 111; 111; 109; 49; 46; 119; 97; 100];
   [100; 111; 111; 109; 49; 46; 119; 97; 100]].

Definition vfs_lookup (s : compat) (path : list Z) : Z * compat :=
  let node := alloc_node s in
  if node =? 0 then (0, s)
  else
    let name := strcpy_safe path 256 in
    let n := match path with
             | [47] => VfsNode name 0 true NoData
             | _ => if strcmp_simple path bin_doom =? 0 then VfsNode name (Z.of_nat (length doom_binary)) false DoomBinary
                    else if existsb (fun w => strcmp_simple path w =? 0) wad_names
                    then VfsNode name (Z.of_nat (length doom_wad)) false DoomWad
                    else VfsNode name 0 false NoData
             end in
    (node, set_node s node true n).

Definition vfs_open_handle := vfs_lookup.
Definition vfs_close_handle (s : compat) (node : Z) : compat := if node =? 0 then s else free_node s node.

(** The result and the bytes stored into the buffer. *)
Definition vfs_read_compat (s : compat) (node buf size offset : Z) : outcome (Z * list Z) :=
  if (node =? 0) || (buf =? 0) then Ok (-1, [])
  else
    n ← of_option (get_node s node);
    match (match vn_internal n with DoomBinary => Some doom_binary | DoomWad => Some doom_wad | NoData => None end) with
    | None => Ok (0, [])
    | Some data =>
        let avail := if offset <? vn_size n then vn_size n - offset else 0 in
        let to_read := if size <? avail then size else avail in
        Ok (i32 to_read, take (Z.to_nat to_read) (drop (Z.to_nat offset) data))
    end.

Definition vfs_write_compat (s : compat) (node buf size : Z) : Z := 0.
Definition vfs_is_dir (s : compat) (node : Z) : outcome bool :=
  if node =? 0 then Ok false else n ← of_option (get_node s node); Ok (vn_is_dir n).

Definition new_compat (is_dir : bool) (s : compat) (path : list Z) : Z * compat :=
  let node := alloc_node s in
  if node =? 0 then (0, s) else (node, set_node s node true (VfsNode (strcpy_safe path 256) 0 is_dir NoData)).
Definition vfs_create_compat := new_compat false.
Definition vfs_mkdir_compat := new_compat true.

Definition vfs_set_cwd (s : compat) (path : list Z) : compat := Compat (node_pool s) (strcpy_safe path 256).
Definition vfs_get_cwd_path (s : compat) (size : nat) : list Z := strcpy_safe (cwd s) size.

(** ** What a lookup finds *)

Lemma strcmp_simple_eq s1 s2 : Forall (fun c => 0 < c) s1 -> Forall (fun c => 0 < c) s2 -> strcmp_simple s1 s2 = 0 <-> s1 = s2.
Proof.
  intros H1. revert s2. induction H1 as [|c1 s1 Hc1 H1 IH]; intros s2 H2; destruct H2 as [|c2 s2 Hc2 H2]; cbn [strcmp_simple].
  - done.
  - split; [lia|done].
  - split; [lia|done].
  - destruct (Z.eqb_spec c1 c2) as [->|Hne]; [rewrite IH by done; split; congruence|]. split; [lia|congruence].
Qed.

(** The number of nodes in use. *)
Definition in_use (s : compat) : nat := length (filter (fun x => fst x = true) (node_pool s)).

Lemma find_index_free l i m : find_index (fun x : bool * vfs_node => negb (fst x)) l = Some i ->
  (i < length l)%nat /\ length (filter (fun x => fst x = true) (<[i := (true, m)]> l)) = S (length (filter (fun x => fst x = true) l)).
Proof.
  revert i. induction l as [|[b n] l IH]; intros i; [done|]. cbn [find_index fst]. destruct b; cbn [negb].
  - destruct (find_index _ l) as [j|] eqn:E; [|done]. intros [= <-]. destruct (IH j eq_refl) as [Hj Hlen]. split; [cbn; lia|].
    change (<[S j := (true, m)]> ((true, n) :: l)) with ((true, n) :: <[j := (true, m)]> l). rewrite !filter_cons, !decide_True by done.
    cbn [length]. by rewrite Hlen.
  - intros [= <-]. split; [cbn; lia|]. cbn. by rewrite decide_True, decide_False by done.
Qed.

(** What the path stands for. *)
Definition file_of (path : list Z) : vfs_node :=
  let name := strcpy_safe path 256 in
  match path with
  | [47] => VfsNode name 0 true NoData
  | _ => if strcmp_simple path bin_doom =? 0 then VfsNode name (Z.of_nat (length doom_binary)) false DoomBinary
         else if existsb (fun w => strcmp_simple path w =? 0) wad_names
         then VfsNode name (Z.of_nat (length doom_wad)) false DoomWad
         else VfsNode name 0 false NoData
  end.

(** A lookup takes one more node, or fails without one. *)
Lemma vfs_lookup_ok s path : let '(p, s') := vfs_lookup s path in
  (p = 0 /\ s' = s /\ in_use s = length (node_pool s)) \/
  ((p =? 0) = false /\ get_node s' p = Some (file_of path) /\ in_use s' = S (in_use s) /\ length (node_pool s') = length (node_pool s)).
Proof.
  unfold vfs_lookup, alloc_node. destruct (find_index _ (node_pool s)) as [i|] eqn:E.
  - rewrite (proj2 (Z.eqb_neq _ _)) by lia. right. destruct (find_index_free _ _ (file_of path) E) as [Hi Hlen].
    fold (file_of path). unfold get_node, set_node, in_use. cbn [node_pool]. replace (Z.to_nat (Z.of_nat i + 1 - 1)) with i by lia.
    split; [apply Z.eqb_neq; lia|]. rewrite list_lookup_insert_eq by done. split; [done|]. by rewrite length_insert.
  - left. split; [done|]. split; [done|]. unfold in_use. induction (node_pool s) as [|[b n] l IH]; [done|]. cbn in E. destruct b; [|done].
    rewrite filter_cons, decide_True by done. cbn. f_equal. apply IH. by destruct (find_index _ l).
Qed.
End compat.
