(* ===== verification/Process.v ===== *)
(** * Processes (src/kernel/core/process.c, process.h): state and operations

    The table of programs that the timer switches between, on ARM64.  A pointer into the
    table is a slot number, [None] the kernel.  A context switch is assembly: an
    operation returns where the CPU goes, a [transfer]; [regs] is what the switch
    saves of the code that called.  [fuel] bounds the dynamic section of an image and the
    waiting loop of [process_exec_args]. *)
From S2P Require Import Prelude Memory AllocSpec Elf Aslr VfsCompat.
#[local] Open Scope Z_scope.

Definition PROGRAM_LOAD_BASE : Z := 0x44000000.
Definition PROCESS_NAME_MAX : nat := 32.
Definition PROCESS_STACK_SIZE : Z := 0x100000.
Definition MAX_PROCESSES : Z := 16.

Inductive proc_state := PROC_STATE_FREE | PROC_STATE_READY | PROC_STATE_RUNNING | PROC_STATE_BLOCKED | PROC_STATE_ZOMBIE.

#[export] Instance proc_state_eq : EqDecision proc_state.
Proof. solve_decision. Defined.

(** The registers that the code sets or tests: [x19] to [x22] hold the arguments. *)
Record cpu_context := Context { ctx_pc : Z; ctx_sp : Z; ctx_flags : Z; ctx_args : list Z }.
Definition zero_context : cpu_context := Context 0 0 0 [].

Record process := Process {
  p_pid : Z; p_name : list Z; p_state : proc_state;
  p_load_base : Z; p_load_size : Z; p_stack_base : Z; p_stack_size : Z;
  p_entry : Z; p_context : cpu_context; p_exit_status : Z; p_parent_pid : Z
}.
Definition zero_process : process := Process 0 [] PROC_STATE_FREE 0 0 0 0 0 zero_context 0 0.

Definition with_state (p : process) (st : proc_state) : process :=
  Process (p_pid p) (p_name p) st (p_load_base p) (p_load_size p) (p_stack_base p) (p_stack_size p) (p_entry p) (p_context p) (p_exit_status p) (p_parent_pid p).
Definition with_pid (p : process) (pid : Z) : process :=
  Process pid (p_name p) (p_state p) (p_load_base p) (p_load_size p) (p_stack_base p) (p_stack_size p) (p_entry p) (p_context p) (p_exit_status p) (p_parent_pid p).
Definition with_context (p : process) (c : cpu_context) : process :=
  Process (p_pid p) (p_name p) (p_state p) (p_load_base p) (p_load_size p) (p_stack_base p) (p_stack_size p) (p_entry p) c (p_exit_status p) (p_parent_pid p).
Definition with_stack (p : process) (b n : Z) : process :=
  Process (p_pid p) (p_name p) (p_state p) (p_load_base p) (p_load_size p) b n (p_entry p) (p_context p) (p_exit_status p) (p_parent_pid p).
Definition with_status (p : process) (st : Z) : process :=
  Process (p_pid p) (p_name p) (p_state p) (p_load_base p) (p_load_size p) (p_stack_base p) (p_stack_size p) (p_entry p) (p_context p) st (p_parent_pid p).

Record procs (A : Type) := Procs {
  proc_table : Z -> process;
  current_pid : Z; current_process : option Z; next_pid : Z; next_load_addr : Z;
  kernel_context : cpu_context;
  pr_heap : A; pr_mem : mem; pr_vfs : compat; pr_aslr : aslr
}.
Arguments Procs {A}.
Arguments proc_table {A}. Arguments current_pid {A}. Arguments current_process {A}. Arguments next_pid {A}. Arguments next_load_addr {A}.
Arguments kernel_context {A}. Arguments pr_heap {A}. Arguments pr_mem {A}. Arguments pr_vfs {A}. Arguments pr_aslr {A}.

Inductive transfer := Stay | Idle | SwitchTo (slot : option Z).

Definition ALIGN_64K (x : Z) : Z := Z.land (u64 (x + 0xFFFF)) (Z.lnot 0xFFFF).

Section process.
Context {A : Type} `{Allocator A}.
Abbreviation st := (procs A).
(** The built-in images, the address of the entry wrapper and of the kernel interface, two reads
    of the hardware counter, and what happens between a switch away from the kernel and the
    switch back. *)
Context (doom_binary doom_wad : list Z) (process_entry_wrapper kapi : Z) (e1 e2 : Z) (resume : transfer -> st -> outcome st).

Definition with_table (s : st) (t : Z -> process) : st :=
  Procs t (current_pid s) (current_process s) (next_pid s) (next_load_addr s) (kernel_context s) (pr_heap s) (pr_mem s) (pr_vfs s) (pr_aslr s).
Definition with_current (s : st) (c : Z) (p : option Z) : st :=
  Procs (proc_table s) c p (next_pid s) (next_load_addr s) (kernel_context s) (pr_heap s) (pr_mem s) (pr_vfs s) (pr_aslr s).
Definition with_next_pid (s : st) (n : Z) : st :=
  Procs (proc_table s) (current_pid s) (current_process s) n (next_load_addr s) (kernel_context s) (pr_heap s) (pr_mem s) (pr_vfs s) (pr_aslr s).
Definition with_load (s : st) (a : Z) (m : mem) : st :=
  Procs (proc_table s) (current_pid s) (current_process s) (next_pid s) a (kernel_context s) (pr_heap s) m (pr_vfs s) (pr_aslr s).
Definition with_kernel_context (s : st) (c : cpu_context) : st :=
  Procs (proc_table s) (current_pid s) (current_process s) (next_pid s) (next_load_addr s) c (pr_heap s) (pr_mem s) (pr_vfs s) (pr_aslr s).
Definition with_heap (s : st) (h : A) : st :=
  Procs (proc_table s) (current_pid s) (current_process s) (next_pid s) (next_load_addr s) (kernel_context s) h (pr_mem s) (pr_vfs s) (pr_aslr s).
Definition with_vfs (s : st) (v : compat) : st :=
  Procs (proc_table s) (current_pid s) (current_process s) (next_pid s) (next_load_addr s) (kernel_context s) (pr_heap s) (pr_mem s) v (pr_aslr s).
Definition with_aslr (s : st) (a : aslr) : st :=
  Procs (proc_table s) (current_pid s) (current_process s) (next_pid s) (next_load_addr s) (kernel_context s) (pr_heap s) (pr_mem s) (pr_vfs s) a.

Definition set_proc (s : st) (i : Z) (p : process) : st := with_table s (<[i := p]> (proc_table s)).
Definition upd_proc (s : st) (i : Z) (f : process -> process) : st := set_proc s i (f (proc_table s i)).

Definition slots : list Z := seqZ 0 MAX_PROCESSES.

(** The first slot with a property. *)
Definition find_slot (f : Z -> bool) : option Z := head (filter (fun i => f i = true) slots).

Definition is_state (q : proc_state) (p : process) : bool := bool_decide (p_state p = q).

Definition process_init (s : st) : st :=
  let clear p := with_context (with_pid (with_state p PROC_STATE_FREE) 0) zero_context in
  Procs (fun i => if (0 <=? i) && (i <? MAX_PROCESSES) then clear (proc_table s i) else proc_table s i)
    (-1) None 1 (ALIGN_64K PROGRAM_LOAD_BASE) (kernel_context s) (pr_heap s) (pr_mem s) (pr_vfs s) (pr_aslr s).

Definition find_free_slot_unlocked (s : st) : option Z := find_slot (fun i => is_state PROC_STATE_FREE (proc_table s i)).

Definition process_current (s : st) : option Z := if current_pid s <? 0 then None else Some (current_pid s).

Definition process_get (s : st) (pid : Z) : option Z :=
  find_slot (fun i => (p_pid (proc_table s i) =? pid) && negb (is_state PROC_STATE_FREE (proc_table s i))).

Definition runnable (p : process) : bool := is_state PROC_STATE_READY p || is_state PROC_STATE_RUNNING p.
Definition process_count_ready (s : st) : Z := Z.of_nat (length (filter (fun i => runnable (proc_table s i) = true) slots)).

(** The name, cut to the buffer, and the state of an active slot. *)
Definition process_get_info (s : st) (index name_size : Z) : option (list Z * proc_state) :=
  if (index <? 0) || (MAX_PROCESSES <=? index) then None
  else
    let p := proc_table s index in
    if is_state PROC_STATE_FREE p then None
    else
      let len := Z.of_nat (length (p_name p)) in
      let len := if name_size <=? len then name_size - 1 else len in
      Some (if 0 <? name_size then take (Z.to_nat len) (p_name p) else [], p_state p).

(** ** Creation *)

Definition free_and (s : st) (data ret : Z) : outcome (Z * st) := h ← a_kfree (pr_heap s) data; Ok (ret, with_heap s h).

(** The slot [i] becomes the program that was loaded. *)
Definition new_process (p : process) (pid : Z) (path : list Z) (info : elf_load_info) (parent : Z) : process :=
  Process pid (take (PROCESS_NAME_MAX - 1) path) PROC_STATE_READY (li_load_base info) (li_load_size info)
    (p_stack_base p) (p_stack_size p) (li_entry info) (p_context p) 0 parent.

Definition start_context (entry argc argv stack_base stack_size : Z) : cpu_context :=
  Context process_entry_wrapper (Z.land (u64 (stack_base + stack_size)) (Z.lnot 0xF)) 0x3c5 [entry; kapi; argc; argv].

Definition process_create (fuel : nat) (s : st) (path : list Z) (argc argv : Z) : outcome (Z * st) :=
  match find_free_slot_unlocked s with
  | None => Ok (-1, s)
  | Some slot =>
      n ← int_arith (next_pid s + 1);
      let s := upd_proc s slot (fun p => with_pid (with_state p PROC_STATE_READY) (next_pid s)) in
      let s := with_next_pid s n in
      let '(file, v) := vfs_lookup doom_binary doom_wad (pr_vfs s) path in
      let s := with_vfs s v in
      if file =? 0 then Ok (-1, s)
      else
        dir ← vfs_is_dir v file;
        node ← of_option (get_node v file);
        let size := vn_size node in
        if (dir : bool) || (size =? 0) then Ok (-1, s)
        else
          r ← a_kmalloc (pr_heap s) size GFP_KERNEL;
          let '(data, h) := r in
          let s := with_heap s h in
          if data =? 0 then Ok (-1, s)
          else
            r ← vfs_read_compat doom_binary doom_wad v file data size 0;
            let '(bytes, bs) := r in
            if negb (bytes =? i32 size) then free_and s data (-1)
            else
              let m := map_region (pr_mem s) data bs in
              prog_size ← elf_calc_size m data size;
              if prog_size =? 0 then free_and s data (-1)
              else
                let '(off, rnd) := aslr_exec_offset e1 e2 (pr_aslr s) in
                let s := with_aslr s rnd in
                let load_addr := ALIGN_64K (u64 (next_load_addr s + off)) in
                r ← elf_load_at fuel m data size load_addr;
                let '(ret, m, info) := r in
                let s := with_load s (next_load_addr s) (unmap_region m (pr_mem s) data size) in
                match info with
                | None => free_and s data (-1)
                | Some info =>
                    if negb (ret =? 0) then free_and s data (-1)
                    else
                      h ← a_kfree (pr_heap s) data;
                      let s := with_load (with_heap s h) (ALIGN_64K (u64 (load_addr + li_load_size info + 0x10000))) (pr_mem s) in
                      n ← int_arith (next_pid s + 1);
                      let s := upd_proc s slot (fun p => new_process p (next_pid s) path info (current_pid s)) in
                      let s := with_next_pid s n in
                      r ← a_kmalloc (pr_heap s) PROCESS_STACK_SIZE GFP_KERNEL;
                      let '(stack, h) := r in
                      let s := upd_proc (with_heap s h) slot (fun p => with_stack p stack PROCESS_STACK_SIZE) in
                      if stack =? 0 then Ok (-1, upd_proc s slot (fun p => with_state p PROC_STATE_FREE))
                      else
                        let s := upd_proc s slot (fun p => with_context p (start_context (p_entry p) argc argv stack PROCESS_STACK_SIZE)) in
                        Ok (p_pid (proc_table s slot), s)
                end
  end.

Definition process_start (s : st) (pid : Z) : Z :=
  match process_get s pid with
  | None => -1
  | Some i => if is_state PROC_STATE_READY (proc_table s i) then 0 else -1
  end.

(** ** Killing *)

Definition free_stack (s : st) (i : Z) : outcome st :=
  let b := p_stack_base (proc_table s i) in
  if b =? 0 then Ok s else h ← a_kfree (pr_heap s) b; Ok (upd_proc (with_heap s h) i (fun p => with_stack p 0 (p_stack_size p))).

Definition kill_slot (s : st) (i : Z) : outcome st :=
  s ← free_stack s i; Ok (upd_proc s i (fun p => with_pid (with_state p PROC_STATE_FREE) 0)).

(** The inner loop: the children of [parent] among the slots [todo] go to the work stack, and all but the
    current process are killed. *)
Fixpoint kill_scan (todo : list Z) (s : st) (parent : Z) (work : list Z) : outcome (list Z * st) :=
  match todo with
  | [] => Ok (work, s)
  | i :: todo =>
      let p := proc_table s i in
      if negb (is_state PROC_STATE_FREE p) && (p_parent_pid p =? parent) then
        let work := if Z.of_nat (length work) <? MAX_PROCESSES then p_pid p :: work else work in
        s ← (if i =? current_pid s then Ok s else kill_slot s i);
        kill_scan todo s parent work
      else kill_scan todo s parent work
  end.

Fixpoint kill_loop (n : nat) (s : st) (work : list Z) : outcome st :=
  match work with
  | [] => Ok s
  | parent :: work =>
      match n with
      | O => NoFuel
      | S n => r ← kill_scan slots s parent work; let '(work, s) := r in kill_loop n s work
      end
  end.

(** Every slot is a child once, the parent comes on top. *)
Definition kill_children (s : st) (parent_pid : Z) : outcome st := kill_loop (S (Z.to_nat MAX_PROCESSES)) s [parent_pid].

Definition process_kill (s : st) (pid : Z) : outcome (Z * st) :=
  if pid <=? 0 then Ok (-1, s)
  else
    match process_get s pid with
    | None => Ok (-1, s)
    | Some slot =>
        if slot =? current_pid s then Ok (-1, s)
        else
          s ← kill_children s pid;
          s ← kill_slot s slot;
          Ok (0, s)
    end.

(** ** Scheduling *)

(** The slots after [old], around the table. *)
Definition rotation (old : Z) : list Z :=
  map (fun i => ((if 0 <=? old then old + 1 else 0) + i) mod MAX_PROCESSES) slots.

Definition save_context (s : st) (old : Z) (regs : cpu_context) : st :=
  if 0 <=? old then upd_proc s old (fun p => with_context p regs) else with_kernel_context s regs.

Definition process_schedule (s : st) (regs : cpu_context) : transfer * st :=
  let old := current_pid s in
  match head (filter (fun i => is_state PROC_STATE_READY (proc_table s i) = true) (rotation old)) with
  | None =>
      if (0 <=? old) && is_state PROC_STATE_RUNNING (proc_table s old) then (Stay, s)
      else if 0 <=? old then (SwitchTo None, save_context (with_current s (-1) None) old regs)
      else (Idle, s)
  | Some next =>
      if (next =? old) && is_state PROC_STATE_RUNNING (proc_table s old) then (Stay, s)
      else if (next =? old) && is_state PROC_STATE_READY (proc_table s old) then (Idle, upd_proc s old (fun p => with_state p PROC_STATE_RUNNING))
      else
        let s := if (0 <=? old) && is_state PROC_STATE_RUNNING (proc_table s old)
                 then upd_proc s old (fun p => with_state p PROC_STATE_READY) else s in
        let s := with_current (upd_proc s next (fun p => with_state p PROC_STATE_RUNNING)) next (Some next) in
        (SwitchTo (Some next), save_context s old regs)
  end.

Definition process_yield (s : st) (regs : cpu_context) : transfer * st :=
  process_schedule (if 0 <=? current_pid s then upd_proc s (current_pid s) (fun p => with_state p PROC_STATE_READY) else s) regs.

(** [while (1)] when the context of the kernel is gone. *)
Definition process_exit (s : st) (status : Z) (regs : cpu_context) : outcome (transfer * st) :=
  if current_pid s <? 0 then Ok (Stay, s)
  else
    let slot := current_pid s in
    s ← kill_children s (p_pid (proc_table s slot));
    let s := upd_proc s slot (fun p => with_state (with_status p status) PROC_STATE_FREE) in
    let s := with_current s (-1) None in
    if (ctx_pc (kernel_context s) =? 0) || (ctx_sp (kernel_context s) =? 0) then NoFuel
    else Ok (SwitchTo None, save_context s slot regs).

Fixpoint exec_loop (fuel : nat) (s : st) (slot : Z) (regs : cpu_context) : outcome (Z * st) :=
  let p := proc_table s slot in
  if is_state PROC_STATE_FREE p || is_state PROC_STATE_ZOMBIE p then Ok (p_exit_status p, s)
  else match fuel with
       | O => NoFuel
       | S fuel => let '(t, s) := process_schedule s regs in s ← resume t s; exec_loop fuel s slot regs
       end.

Definition process_exec_args (fuel : nat) (s : st) (path : list Z) (argc argv : Z) (regs : cpu_context) : outcome (Z * st) :=
  r ← process_create fuel s path argc argv;
  let '(pid, s) := r in
  if pid <? 0 then Ok (pid, s)
  else
    match find_slot (fun i => p_pid (proc_table s i) =? pid) with
    | None => Ok (-1, s)
    | Some slot => exec_loop fuel s slot regs
    end.

Definition process_exec (fuel : nat) (s : st) (path : list Z) (argv : Z) (regs : cpu_context) : outcome (Z * st) :=
  process_exec_args fuel s path 1 argv regs.

(** The loop over the slots after [old]: the first that is ready, and is [old] itself or has a context. *)
Definition irq_candidate (s : st) (old i : Z) : bool :=
  is_state PROC_STATE_READY (proc_table s i) &&
  ((i =? old) || negb ((ctx_sp (p_context (proc_table s i)) =? 0) || (ctx_pc (p_context (proc_table s i)) =? 0))).

Definition process_schedule_from_irq (s : st) : st :=
  let ready := process_count_ready s in
  let old := current_pid s in
  if (0 <=? old) && (ready <=? 1) then s
  else if (old <? 0) && (ready =? 0) then s
  else
    match head (filter (fun i => irq_candidate s old i = true) (rotation old)) with
    | None => s
    | Some i =>
        if i =? old then s
        else
          let s := if (0 <=? old) && is_state PROC_STATE_RUNNING (proc_table s old)
                   then upd_proc s old (fun p => with_state p PROC_STATE_READY) else s in
          with_current (upd_proc s i (fun p => with_state p PROC_STATE_RUNNING)) i (Some i)
    end.

(** [boot.S]: the registers at an interrupt go to the process that runs, if one does, and
    otherwise to the context of the kernel when the handler has started a process. *)
Definition irq_handler (s : st) (regs : cpu_context) : st :=
  match current_process s with
  | Some i => process_schedule_from_irq (upd_proc s i (fun p => with_context p regs))
  | None => let s := process_schedule_from_irq s in if current_process s is Some _ then with_kernel_context s regs else s
  end.

End process.
