(* ===== verification/ProcessSpec.v ===== *)
(** * Processes: the table, killing, and what every operation keeps *)
From S2P Require Import Prelude Memory AllocSpec Elf Aslr VfsCompat Process.
From Stdlib Require Import FunctionalExtensionality.
#[local] Open Scope Z_scope.

Definition in_table (i : Z) : Prop := 0 <= i < MAX_PROCESSES.

Lemma slots_spec i : i ∈ slots <-> in_table i.
Proof. unfold slots, in_table. rewrite elem_of_seqZ. lia. Qed.

Lemma slots_nodup : NoDup slots.
Proof. apply NoDup_seqZ. Qed.

Lemma slots_length : length slots = 16%nat.
Proof. reflexivity. Qed.

Lemma is_state_spec q p : is_state q p = true <-> p_state p = q.
Proof. unfold is_state. apply bool_decide_eq_true. Qed.
Lemma is_state_false q p : is_state q p = false <-> p_state p <> q.
Proof. unfold is_state. apply bool_decide_eq_false. Qed.

Lemma head_filter_seq f n k i : head (filter (fun i => f i = true) (seqZ k (Z.of_nat n))) = Some i ->
  k <= i < k + Z.of_nat n /\ f i = true /\ forall j, k <= j < i -> f j = false.
Proof.
  revert k. induction n as [|n IH]; intros k; [done|]. rewrite seqZ_cons by lia. rewrite filter_cons.
  replace (Z.pred (Z.of_nat (S n))) with (Z.of_nat n) by lia. case_decide as Hf.
  - intros [= <-]. split; [lia|]. split; [done|]. lia.
  - intros E. destruct (IH _ E) as (Hr & Hi & Hj). split; [lia|]. split; [done|]. intros j Hjr.
    destruct (decide (j = k)) as [->|]; [by destruct (f k)|]. apply Hj. lia.
Qed.

Lemma head_filter_none {B} (P : B -> Prop) `{forall x, Decision (P x)} l : head (filter P l) = None -> forall x, x ∈ l -> ~ P x.
Proof.
  intros E x Hx Hp. destruct (filter P l) as [|y l'] eqn:Ef; [|done]. apply (elem_of_nil x). rewrite <- Ef. by apply list_elem_of_filter.
Qed.

Lemma find_slot_some f i : find_slot f = Some i -> in_table i /\ f i = true /\ forall j, 0 <= j < i -> f j = false.
Proof. intros E. destruct (head_filter_seq f 16 0 i E) as (Hr & ?). split; [unfold in_table, MAX_PROCESSES; lia|done]. Qed.

Lemma find_slot_none f : find_slot f = None -> forall i, in_table i -> f i = false.
Proof. intros E i Hi. apply not_true_iff_false. apply (head_filter_none _ _ E). by apply slots_spec. Qed.

Section spec.
Context {A : Type} `{AllocatorLaws A}.
Abbreviation st := (procs A).
Implicit Types (s : st).

Definition live s (i : Z) : Prop := in_table i /\ p_state (proc_table s i) <> PROC_STATE_FREE.
Abbreviation pid s i := (p_pid (proc_table s i)).
Abbreviation parent s i := (p_parent_pid (proc_table s i)).
Abbreviation stack s i := (p_stack_base (proc_table s i)).

#[local] Instance live_dec s i : Decision (live s i).
Proof. unfold live, in_table. apply _. Defined.

(** ** Killing a set of slots *)

Definition dead (p : process) : process := with_pid (with_state (with_stack p 0 (p_stack_size p)) PROC_STATE_FREE) 0.

(** [s] is [s0] with the slots [K] dead and their stacks freed. *)
Record killed s0 (K : list Z) s : Prop := {
  kl_table i : proc_table s i = if decide (i ∈ K) then dead (proc_table s0 i) else proc_table s0 i;
  kl_rest : s = with_heap (with_table s0 (proc_table s)) (pr_heap s);
  kl_inv : a_inv (pr_heap s);
  kl_freed p : p <> 0 -> (exists i, i ∈ K /\ stack s0 i = p) -> a_cap (pr_heap s) p = None;
  kl_kept p : (forall i, i ∈ K -> stack s0 i <> p) -> a_cap (pr_heap s) p = a_cap (pr_heap s0) p
}.

(** The stacks of the table are blocks of the heap. *)
Record stacks_ok s : Prop := {
  sk_inv : a_inv (pr_heap s);
  sk_live i : in_table i -> stack s i <> 0 -> is_Some (a_cap (pr_heap s) (stack s i));
  sk_apart i j : in_table i -> in_table j -> stack s i <> 0 -> stack s i = stack s j -> i = j
}.

Lemma killed_nil s : a_inv (pr_heap s) -> killed s [] s.
Proof using Type.
  intros I. split; try done; [by destruct s|]. intros p _ (i & Hi & _). by apply elem_of_nil in Hi.
Qed.

Lemma kill_slot_ok s0 K s i : stacks_ok s0 -> killed s0 K s -> in_table i -> i ∉ K -> (forall j, j ∈ K -> in_table j) ->
  exists s', kill_slot s i = Ok s' /\ killed s0 (i :: K) s'.
Proof using Type*.
  intros [Hi0 Hsl Hsa] [Ht Hr Hinv Hf Hk] Hit Hi HK. pose proof (Ht i) as Hti. rewrite decide_False in Hti by done.
  unfold kill_slot, free_stack. rewrite Hti.
  assert (forall t h, (forall j, t j = if decide (j ∈ i :: K) then dead (proc_table s0 j) else proc_table s0 j) -> a_inv h ->
    (forall p, p <> 0 -> (exists j, j ∈ i :: K /\ stack s0 j = p) -> a_cap h p = None) ->
    (forall p, (forall j, j ∈ i :: K -> stack s0 j <> p) -> a_cap h p = a_cap (pr_heap s0) p) ->
    killed s0 (i :: K) (with_heap (with_table s t) h)) as Hmk.
  { intros t h ? ? ? ?. split; try done. cbn. rewrite Hr. done. }
  assert (forall t, (forall j, t j = if decide (j = i) then dead (proc_table s0 i) else proc_table s j) ->
    forall j, t j = if decide (j ∈ i :: K) then dead (proc_table s0 j) else proc_table s0 j) as Htab.
  { intros t E j. rewrite E. destruct (decide (j = i)) as [->|Hne]; [by rewrite decide_True by (by left)|]. rewrite Ht.
    destruct (decide (j ∈ K)); [rewrite decide_True by (by right)|rewrite decide_False by (by rewrite elem_of_cons; intros [?|?])]; done. }
  destruct (Z.eqb_spec (stack s0 i) 0) as [E0|Hne].
  - rewrite bind_ok. eexists. split; [done|]. unfold upd_proc, set_proc. replace (with_table s _) with
      (with_heap (with_table s (<[i := with_pid (with_state (proc_table s i) PROC_STATE_FREE) 0]> (proc_table s))) (pr_heap s)) by done.
    apply Hmk; [apply Htab; intros j|done|..].
    + destruct (decide (j = i)) as [->|Hji]; [rewrite fn_lookup_insert, Hti|by rewrite fn_lookup_insert_ne].
      unfold dead. rewrite <- E0 at 2. by destruct (proc_table s0 i).
    + intros p Hp (j & [->|Hj]%elem_of_cons & Ej); [congruence|]. apply Hf; [done|by exists j].
    + intros p Hp. apply Hk. intros j Hj. apply Hp. by right.
  - assert (forall j, j ∈ K -> stack s0 j <> stack s0 i) as Hapart.
    { intros j Hj E. apply Hi. rewrite (Hsa i j Hit (HK j Hj)); done. }
    destruct (Hsl i Hit Hne) as [c Hc]. rewrite <- Hk in Hc by done.
    destruct (law_free (pr_heap s) (stack s0 i) c Hinv Hc) as (h & Ef & Hh & Hu). rewrite Ef, !bind_ok.
    eexists. split; [done|]. unfold upd_proc, set_proc. cbn [proc_table with_table with_heap].
    replace (with_table _ _) with (with_heap (with_table s (<[i := dead (proc_table s0 i)]> (proc_table s))) h).
    2: { unfold with_table, with_heap. cbn. f_equal. rewrite fn_lookup_insert. unfold dead, insert, fn_insert. 
         apply functional_extensionality. intros j. case_decide; [|done]. by rewrite Hti. }
    apply Hmk; [apply Htab; intros j|done|..].
    + destruct (decide (j = i)) as [->|Hji]; [by rewrite fn_lookup_insert|by rewrite fn_lookup_insert_ne].
    + intros p Hp (j & Hj & Ej). rewrite Hu. case_decide as Hd; [done|]. apply elem_of_cons in Hj as [->|Hj]; [congruence|]. apply Hf; [done|by exists j].
    + intros p Hp. rewrite Hu, decide_False by (intros ->; by apply (Hp i); [left|]). apply Hk. intros j Hj. apply Hp. by right.
Qed.

(** ** The descendants of a process *)

(** As the code sees them: through [parent_pid]. *)
Inductive descendant s (root : Z) : Z -> Prop :=
| desc_child i : live s i -> parent s i = root -> descendant s root i
| desc_step i j : descendant s root j -> live s i -> parent s i = pid s j -> descendant s root i.

Record family s : Prop := {
  fm_unique i j : live s i -> live s j -> pid s i = pid s j -> i = j;
  fm_parent i : live s i -> parent s i < pid s i
}.

Lemma desc_live s root i : descendant s root i -> live s i.
Proof using Type. by destruct 1. Qed.

Lemma desc_younger s root i : family s -> descendant s root i -> root < pid s i.
Proof using Type. intros F. induction 1 as [i Hl <-|i j _ IH Hl E]; [by apply (fm_parent _ F)|]. pose proof (fm_parent _ F i Hl). lia. Qed.

Definition is_child s (q i : Z) : Prop := live s i /\ parent s i = q.
#[local] Instance is_child_dec s q i : Decision (is_child s q i).
Proof. unfold is_child. apply _. Defined.

Lemma filter_ext_in {B} (P Q : B -> Prop) `{forall x, Decision (P x)} `{forall x, Decision (Q x)} (l : list B) :
  (forall x, x ∈ l -> P x <-> Q x) -> filter P l = filter Q l.
Proof using Type.
  induction l as [|x l IH]; intros E; [done|]. rewrite !filter_cons, IH by (intros y Hy; apply E; by right).
  destruct (E x) as [E1 E2]; [by left|]. repeat case_decide; done || tauto.
Qed.

(** One pass over the slots: the children that are left go onto the work stack and die. *)
Lemma kill_scan_ok s0 q todo : stacks_ok s0 -> NoDup todo -> (forall i, i ∈ todo -> in_table i) ->
  forall K s work (hit := filter (fun i => is_child s0 q i /\ i ∉ K) todo), killed s0 K s -> (forall i, i ∈ K -> in_table i) ->
  (length work + length hit <= 16)%nat ->
  exists s', kill_scan todo s q work = Ok (rev (map (fun i => pid s0 i) hit) ++ work, s') /\
    killed s0 (rev (filter (fun i => i <> current_pid s0) hit) ++ K) s'.
Proof using Type*.
  intros Hs. induction todo as [|i todo IH]; intros Hnd Hin K s work hit Hk HK Hlen; [by exists s|].
  apply NoDup_cons in Hnd as [Hi Hnd]. assert (in_table i) as Hit by (apply Hin; by left).
  specialize (IH Hnd (fun j Hj => Hin j (list_elem_of_further _ _ _ Hj))).
  assert (current_pid s = current_pid s0) as Ec by (rewrite (kl_rest _ _ _ Hk); done).
  cbn [kill_scan]. pose proof (kl_table _ _ _ Hk i) as Et. subst hit. rewrite filter_cons in *.
  destruct (decide (i ∈ K)) as [HiK|HiK].
  - rewrite Et. cbn. rewrite (decide_False (P := is_child s0 q i /\ i ∉ K)) in * by tauto. by apply IH.
  - rewrite Et. destruct (decide (is_child s0 q i /\ i ∉ K)) as [[[[_ Hl] Hp] _]|Hn].
    + rewrite (proj2 (is_state_false _ _)) by done. cbn [negb andb]. rewrite (proj2 (Z.eqb_eq _ _)) by done.
      cbn [length] in Hlen. rewrite (proj2 (Z.ltb_lt _ _)) by (unfold MAX_PROCESSES; lia). rewrite Ec.
      set (hit := filter _ todo) in *. cbn [map rev]. rewrite filter_cons, <- app_assoc. cbn [app].
      destruct (Z.eqb_spec i (current_pid s0)) as [->|Hne].
      * rewrite bind_ok, decide_False by tauto. apply IH; [done|done|fold hit; cbn [length]; lia].
      * destruct (kill_slot_ok s0 K s i Hs Hk Hit HiK HK) as (s1 & -> & Hk1). rewrite bind_ok, decide_True by done. cbn [rev]. rewrite <- app_assoc. cbn [app].
        assert (hit = filter (fun j => is_child s0 q j /\ j ∉ i :: K) todo) as Eh.
        { apply filter_ext_in. intros j Hj. rewrite not_elem_of_cons. split; [|tauto]. intros [? ?]. split_and!; try done. by intros ->. }
        destruct (IH (i :: K) s1 (pid s0 i :: work) Hk1) as (s' & E' & Hk').
        -- intros j [->|Hj]%elem_of_cons; [done|by apply HK].
        -- rewrite <- Eh. cbn [length]. lia.
        -- rewrite <- Eh in E', Hk'. by exists s'.
    + assert (negb (is_state PROC_STATE_FREE (proc_table s0 i)) && (p_parent_pid (proc_table s0 i) =? q) = false) as ->; [|by apply IH].
      apply not_true_iff_false. intros [Hl Hp]%andb_prop. apply Hn. split; [|done]. split; [|by apply Z.eqb_eq].
      split; [done|]. apply is_state_false. by destruct (is_state _ _).
Qed.

Lemma elem_of_rev {B} (x : B) l : x ∈ rev l <-> x ∈ l.
Proof using Type. by rewrite <- Permutation_rev. Qed.

(** The state of the search: processed parents [P], waiting ones [W], dead slots [K]. *)
Record search s0 root (P W K : list Z) s : Prop := {
  se_killed : killed s0 K s;
  se_nodup : NoDup (P ++ W);
  se_root : root ∈ P ++ W;
  se_known x : x ∈ P ++ W -> x = root \/ exists j, descendant s0 root j /\ pid s0 j = x /\ parent s0 j ∈ P;
  se_dead i : i ∈ K -> descendant s0 root i /\ i <> current_pid s0 /\ parent s0 i ∈ P;
  se_done i : live s0 i -> parent s0 i ∈ P -> (i ∈ K \/ i = current_pid s0) /\ pid s0 i ∈ P ++ W
}.

Lemma known_short s0 root l : NoDup l -> (forall x, x ∈ l -> x = root \/ exists j, live s0 j /\ pid s0 j = x) -> (length l <= 17)%nat.
Proof using Type.
  intros Hnd Hl. change 17%nat with (length (root :: map (fun j => pid s0 j) slots)). apply submseteq_length, NoDup_submseteq; [done|].
  intros x Hx. destruct (Hl x Hx) as [->|(j & [Hj _] & <-)]; [by left|right]. apply list_elem_of_fmap. exists j. split; [done|]. by apply slots_spec.
Qed.

Lemma search_step s0 root P q W K s : stacks_ok s0 -> family s0 -> search s0 root P (q :: W) K s ->
  exists W' K' s', kill_scan slots s q W = Ok (W', s') /\ search s0 root (q :: P) W' K' s'.
Proof using Type*.
  intros Hs F [Hk Hnd Hroot Hknown Hdead Hdone]. set (hit := filter (fun i => is_child s0 q i) slots).
  assert (Permutation (P ++ q :: W) (q :: P ++ W)) as Hperm by (by rewrite Permutation_middle).
  assert (q ∉ P) as HqP by (rewrite Hperm in Hnd; apply NoDup_cons in Hnd as [Hq _]; intros ?; apply Hq, elem_of_app; by left).
  assert (forall i, is_child s0 q i -> i ∉ K) as Hnew by (intros i [_ E] Hi; apply Hdead in Hi as (_ & _ & Hp); by rewrite E in Hp).
  assert (forall i, is_child s0 q i -> descendant s0 root i) as Hdesc.
  { intros i [Hl E]. destruct (Hknown q) as [->|(j & Hj & Ej & _)]; [apply elem_of_app; right; by left|by apply desc_child|].
    apply (desc_step _ _ i j); congruence || done. }
  assert (forall i, i ∈ hit <-> is_child s0 q i) as Hhit.
  { intros i. unfold hit. rewrite list_elem_of_filter, slots_spec. unfold is_child, live. tauto. }
  assert (NoDup ((q :: P) ++ rev (map (fun i => pid s0 i) hit) ++ W)) as Hnd'.
  { assert (Permutation ((q :: P) ++ rev (map (fun i => pid s0 i) hit) ++ W) (map (fun i => pid s0 i) hit ++ P ++ q :: W)) as ->.
    { rewrite <- Permutation_rev, Hperm. cbn [app]. rewrite <- Permutation_middle. constructor. rewrite !app_assoc. apply Permutation_app_tail. apply Permutation_app_comm. }
    apply NoDup_app. split; [|split; [|done]].
    - apply NoDup_fmap_2_strong; [|apply NoDup_filter, slots_nodup]. intros i j [Hi _]%Hhit [Hj _]%Hhit. by apply (fm_unique _ F).
    - intros x (i & -> & Hi%Hhit)%list_elem_of_fmap Hx. pose proof (desc_younger _ _ _ F (Hdesc i Hi)).
      destruct (Hknown _ Hx) as [E|(j & Hj & E & Hp)]; [lia|]. assert (i = j) as <-; [|destruct Hi as [_ E']; by rewrite E' in Hp].
      apply (fm_unique _ F); [by destruct Hi|by eapply desc_live|done]. }
  assert (forall x, x ∈ (q :: P) ++ rev (map (fun i => pid s0 i) hit) ++ W ->
    x = root \/ exists j, descendant s0 root j /\ pid s0 j = x /\ parent s0 j ∈ q :: P) as Hknown'.
  { intros x. rewrite !elem_of_app, elem_of_rev, list_elem_of_fmap. intros Hx.
    assert (x ∈ P ++ q :: W \/ exists i, x = pid s0 i /\ i ∈ hit) as [Hx'|(i & -> & Hi%Hhit)].
    { rewrite elem_of_app, elem_of_cons. rewrite elem_of_cons in Hx. tauto. }
    - destruct (Hknown x Hx') as [->|(j & ? & ? & ?)]; [by left|right]. exists j. split_and!; try done. by right.
    - right. exists i. split; [by apply Hdesc|]. split; [done|]. destruct Hi as [_ ->]. by left. }
  assert (hit = filter (fun i => is_child s0 q i /\ i ∉ K) slots) as Eh.
  { apply filter_ext_in. intros i _. split; [|tauto]. intros Hi. split; [done|by apply Hnew]. }
  destruct (kill_scan_ok s0 q slots Hs slots_nodup (fun i => proj1 (slots_spec i)) K s W Hk) as (s' & E & Hk').
  { intros i Hi. apply Hdead in Hi as (Hd & _). by destruct (desc_live _ _ _ Hd). }
  { rewrite <- Eh. pose proof (known_short s0 root _ Hnd') as Hlen. rewrite !length_app, length_rev, length_map in Hlen. cbn [length] in Hlen.
    specialize (Hlen (fun x Hx => match Hknown' x Hx with or_introl e => or_introl e | or_intror (ex_intro _ j (conj d (conj e _))) => or_intror (ex_intro _ j (conj (desc_live _ _ _ d) e)) end)). lia. }
  rewrite <- Eh in E, Hk'. eexists _, _, s'. split; [exact E|]. split; [exact Hk'|exact Hnd'| |exact Hknown'| |].
  - rewrite !elem_of_app, elem_of_cons. rewrite elem_of_app, elem_of_cons in Hroot. tauto.
  - intros i. rewrite elem_of_app, elem_of_rev, list_elem_of_filter, Hhit. intros [[Hne Hc]|Hi].
    + split; [by apply Hdesc|]. split; [done|]. destruct Hc as [_ ->]. by left.
    + destruct (Hdead i Hi) as (? & ? & ?). split_and!; try done. by right.
  - intros i Hl [Hq|Hp]%elem_of_cons.
    + assert (i ∈ hit) as Hi by (by apply Hhit). split.
      * destruct (decide (i = current_pid s0)) as [->|Hne]; [by right|left]. rewrite elem_of_app, elem_of_rev, list_elem_of_filter. by left.
      * rewrite !elem_of_app, elem_of_rev, list_elem_of_fmap. right. left. by exists i.
    + destruct (Hdone i Hl Hp) as [Hd Hpid]. split.
      * destruct Hd as [?|?]; [left; apply elem_of_app; by right|by right].
      * rewrite !elem_of_app, elem_of_cons. rewrite elem_of_app, elem_of_cons in Hpid. tauto.
Qed.

Lemma kill_loop_ok s0 root n : forall P W K s, stacks_ok s0 -> family s0 -> search s0 root P W K s -> (17 <= n + length P)%nat ->
  exists P' K' s', kill_loop n s W = Ok s' /\ search s0 root P' [] K' s'.
Proof using Type*.
  induction n as [|n IH]; intros P W K s Hs F Se Hn; (destruct W as [|q W]; [by exists P, K, s|]).
  - exfalso. pose proof (known_short s0 root _ (se_nodup _ _ _ _ _ _ Se)) as Hlen. rewrite length_app in Hlen. cbn [length] in Hlen.
    enough (length P + S (length W) <= 17)%nat by lia. apply Hlen. intros x Hx.
    destruct (se_known _ _ _ _ _ _ Se x Hx) as [?|(j & Hd & ? & _)]; [by left|right]. exists j. split; [by eapply desc_live|done].
  - cbn [kill_loop]. destruct (search_step s0 root P q W K s Hs F Se) as (W' & K' & s' & -> & Se'). rewrite bind_ok.
    apply (IH (q :: P) W' K' s' Hs F Se'). cbn [length]. lia.
Qed.

(** [kill_children] kills exactly the descendants, except the running process. *)
Lemma kill_children_ok s root : stacks_ok s -> family s ->
  exists K s', kill_children s root = Ok s' /\ killed s K s' /\ forall i, i ∈ K <-> descendant s root i /\ i <> current_pid s.
Proof using Type*.
  intros Hs F. destruct (kill_loop_ok s root 17 [] [root] [] s Hs F) as (P & K & s' & E & Se).
  - split; cbn; try (by intros i ?%elem_of_nil).
    + by apply killed_nil, Hs.
    + apply NoDup_singleton.
    + by left.
    + intros x ->%list_elem_of_singleton. by left.
    + intros i _ ?%elem_of_nil. done.
  - cbn. lia.
  - exists K, s'. split; [exact E|]. split; [by apply Se|]. intros i. split; [intros Hi; by destruct (se_dead _ _ _ _ _ _ Se i Hi) as (? & ? & _)|].
    intros [Hd Hne]. assert (parent s i ∈ P) as Hp.
    { clear Hne. induction Hd as [i Hl <-|i j Hj IH Hl ->].
      - pose proof (se_root _ _ _ _ _ _ Se) as Hr. by rewrite app_nil_r in Hr.
      - pose proof (proj2 (se_done _ _ _ _ _ _ Se j (desc_live _ _ _ Hj) IH)) as Hr. by rewrite app_nil_r in Hr. }
    by destruct (se_done _ _ _ _ _ _ Se i (desc_live _ _ _ Hd) Hp) as [[?|?] _].
Qed.

(** ** The invariant *)

Definition running s : option Z := if current_pid s <? 0 then None else Some (current_pid s).

Record p_inv s : Prop := {
  pi_stacks : stacks_ok s;
  pi_states i : in_table i -> p_state (proc_table s i) ∈ [PROC_STATE_FREE; PROC_STATE_READY; PROC_STATE_RUNNING];
  pi_current : current_pid s = -1 \/ in_table (current_pid s);
  pi_pointer : current_process s = running s;
  pi_running i : in_table i -> p_state (proc_table s i) = PROC_STATE_RUNNING <-> i = current_pid s;
  pi_pid i : live s i -> i < pid s i < next_pid s;
  pi_unique i j : live s i -> live s j -> pid s i = pid s j -> i = j;
  pi_parent i : live s i -> parent s i < pid s i;
  pi_old i : in_table i -> parent s i < next_pid s;
  pi_next : 0 < next_pid s
}.

Lemma inv_family s : p_inv s -> family s.
Proof using Type. intros I. split; [apply (pi_unique _ I)|apply (pi_parent _ I)]. Qed.

(** Some processes that do not run are dead. *)
Lemma inv_killed s K s' : p_inv s -> killed s K s' -> (forall i, i ∈ K -> live s i /\ i <> current_pid s) -> p_inv s'.
Proof using Type.
  intros [[_ Hsl Hsa] Hst Hc Hp Hr Hpid Hu Hpar Ho Hn] [Ht Hrest Hinv Hf Hk] HK.
  assert (forall i, live s' i -> (i ∉ K) /\ live s i /\ proc_table s' i = proc_table s i) as Hl.
  { intros i [Hi Hl]. rewrite Ht in *. destruct (decide (i ∈ K)); [done|]. done. }
  assert (current_pid s' = current_pid s /\ current_process s' = current_process s /\ next_pid s' = next_pid s) as (E1 & E2 & E3) by (by rewrite Hrest).
  split; unfold running; rewrite ?E1, ?E2, ?E3; try done.
  - split; [done|..].
    + intros i Hi. rewrite Ht. destruct (decide (i ∈ K)) as [|Hni]; [done|]. intros Hne.
      rewrite Hk; [by apply Hsl|]. intros j Hj E. apply Hni. rewrite <- (Hsa j i); try done; [by apply HK in Hj as [[? _] _]|congruence].
    + intros i j Hi Hj. rewrite !Ht. destruct (decide (i ∈ K)); [done|]. destruct (decide (j ∈ K)); [cbn; intros ? ?; congruence|by apply Hsa].
  - intros i Hi. rewrite Ht. destruct (decide (i ∈ K)); [by left|by apply Hst].
  - intros i Hi. rewrite Ht. destruct (decide (i ∈ K)) as [HiK|]; [|by apply Hr]. destruct (HK i HiK) as [_ ?]. by cbn.
  - intros i (_ & Hi & ->)%Hl. by apply Hpid.
  - intros i j (_ & Hi & ->)%Hl (_ & Hj & ->)%Hl. by apply Hu.
  - intros i (_ & Hi & ->)%Hl. by apply Hpar.
  - intros i Hi. rewrite Ht. destruct (decide (i ∈ K)); by apply Ho.
Qed.

(** ** Scheduling keeps it *)

(** Only states and contexts change, and the running process. *)
Lemma inv_table s s' : p_inv s ->
  (forall i, pid s' i = pid s i /\ parent s' i = parent s i /\ stack s' i = stack s i) ->
  (forall i, in_table i -> p_state (proc_table s i) = PROC_STATE_FREE -> p_state (proc_table s' i) = PROC_STATE_FREE) ->
  (forall i, in_table i -> p_state (proc_table s' i) ∈ [PROC_STATE_FREE; PROC_STATE_READY; PROC_STATE_RUNNING]) ->
  (current_pid s' = -1 \/ in_table (current_pid s')) -> current_process s' = running s' ->
  (forall i, in_table i -> p_state (proc_table s' i) = PROC_STATE_RUNNING <-> i = current_pid s') ->
  next_pid s' = next_pid s -> pr_heap s' = pr_heap s -> p_inv s'.
Proof using Type.
  intros [[Hsi Hsl Hsa] Hst Hc Hp Hr Hpid Hu Hpar Ho Hn] Hsame Hfree Hst' Hc' Hp' Hr' En Hh'.
  assert (forall i, live s' i -> live s i) as Hl by (intros i [Hi Hn']; split; [done|]; intros E; by apply Hn', Hfree).
  assert (forall i, pid s' i = pid s i) as E1 by (intros i; apply Hsame). assert (forall i, parent s' i = parent s i) as E2 by (intros i; apply Hsame).
  assert (forall i, stack s' i = stack s i) as E3 by (intros i; apply Hsame).
  split; try done.
  - split; [by rewrite Hh'|..].
    + intros i. rewrite E3, Hh'. by apply Hsl.
    + intros i j. rewrite !E3. by apply Hsa.
  - intros i Hi%Hl. rewrite E1, En. by apply Hpid.
  - intros i j Hi%Hl Hj%Hl. rewrite !E1. by apply Hu.
  - intros i Hi%Hl. rewrite E1, E2. by apply Hpar.
  - intros i Hi. rewrite E2, En. by apply Ho.
  - lia.
Qed.

Lemma runs_table s i : p_inv s -> current_pid s = i -> 0 <= i -> in_table i /\ p_state (proc_table s i) = PROC_STATE_RUNNING.
Proof using Type. intros I E Hi. destruct (pi_current _ I) as [?|Hin]; [lia|]. rewrite E in Hin. split; [done|]. by apply (pi_running _ I). Qed.

(** The CPU goes from the running process, if any, to slot [next]. *)
Definition handed s (next : Z) : st :=
  let s := if 0 <=? current_pid s then upd_proc s (current_pid s) (fun p => with_state p PROC_STATE_READY) else s in
  with_current (upd_proc s next (fun p => with_state p PROC_STATE_RUNNING)) next (Some next).

Lemma handed_state s next i : p_state (proc_table (handed s next) i) =
  if decide (i = next) then PROC_STATE_RUNNING else if decide (0 <= current_pid s /\ i = current_pid s) then PROC_STATE_READY else p_state (proc_table s i).
Proof using Type.
  unfold handed, upd_proc, set_proc. cbn [proc_table with_current with_table]. destruct (decide (i = next)) as [->|Hne]; [by rewrite fn_lookup_insert|].
  rewrite fn_lookup_insert_ne by done. destruct (Z.leb_spec 0 (current_pid s)).
  - cbn. destruct (decide (i = current_pid s)) as [->|]; [rewrite fn_lookup_insert, decide_True by done; done|].
    rewrite fn_lookup_insert_ne by done. by rewrite decide_False by tauto.
  - by rewrite decide_False by lia.
Qed.

Lemma handed_same s next i : let p := proc_table (handed s next) i in
  p_pid p = pid s i /\ p_parent_pid p = parent s i /\ p_stack_base p = stack s i /\ p_context p = p_context (proc_table s i).
Proof using Type.
  unfold handed, upd_proc, set_proc. cbn [proc_table with_current with_table].
  destruct (decide (i = next)) as [->|Hne]; [rewrite fn_lookup_insert|rewrite fn_lookup_insert_ne by done];
    (destruct (Z.leb_spec 0 (current_pid s)); [|done]); cbn.
  - destruct (decide (next = current_pid s)) as [E|]; [rewrite E, fn_lookup_insert; done|by rewrite fn_lookup_insert_ne].
  - destruct (decide (i = current_pid s)) as [->|]; [by rewrite fn_lookup_insert|by rewrite fn_lookup_insert_ne].
Qed.

Lemma handed_rest s next : let s' := handed s next in current_pid s' = next /\ current_process s' = Some next /\ next_pid s' = next_pid s /\
  pr_heap s' = pr_heap s /\ kernel_context s' = kernel_context s.
Proof using Type. unfold handed. by destruct (0 <=? current_pid s). Qed.

Lemma inv_handed s next : p_inv s -> live s next -> p_inv (handed s next).
Proof using Type.
  intros I [Hin Hl]. destruct (handed_rest s next) as (E1 & E2 & E3 & E4 & _). apply (inv_table s); try done.
  - intros i. by destruct (handed_same s next i) as (? & ? & ? & _).
  - intros i Hi. rewrite handed_state. destruct (decide (i = next)) as [->|]; [done|].
    destruct (decide (0 <= current_pid s /\ i = current_pid s)) as [[Hc ->]|]; [|done].
    destruct (runs_table s _ I eq_refl Hc) as [_ ->]. done.
  - intros i Hi. rewrite handed_state. repeat case_decide; [|by right; left|by apply (pi_states _ I)]. right. right. by left.
  - rewrite E1. by right.
  - unfold running. rewrite E1, E2. by rewrite (proj2 (Z.ltb_ge _ _)) by (unfold in_table in Hin; lia).
  - intros i Hi. rewrite handed_state, E1. destruct (decide (i = next)) as [->|Hne]; [done|]. case_decide as Hc; [by split|].
    rewrite (pi_running _ I) by done. split; [|done]. intros ->. exfalso. unfold in_table in Hi. apply Hc. lia.
Qed.

(** Saving registers somewhere. *)
Lemma inv_save s old regs : p_inv s -> p_inv (save_context s old regs).
Proof using Type.
  intros I. unfold save_context. destruct (0 <=? old); [|by apply (inv_table s); try done; apply I].
  apply (inv_table s); try done; unfold upd_proc, set_proc; cbn; try apply I.
  - intros i. destruct (decide (i = old)) as [->|]; [by rewrite fn_lookup_insert|by rewrite fn_lookup_insert_ne].
  - intros i _. destruct (decide (i = old)) as [->|]; [by rewrite fn_lookup_insert|by rewrite fn_lookup_insert_ne].
  - intros i Hi. destruct (decide (i = old)) as [->|]; [rewrite fn_lookup_insert|rewrite fn_lookup_insert_ne by done]; by apply (pi_states _ I).
  - intros i Hi. destruct (decide (i = old)) as [->|]; [rewrite fn_lookup_insert|rewrite fn_lookup_insert_ne by done]; by apply (pi_running _ I).
Qed.

(** ** Turns *)

Lemma head_filter_map (P : Z -> Prop) `{forall x, Decision (P x)} (g : Z -> Z) n k :
  match head (filter P (map g (seqZ k (Z.of_nat n)))) with
  | Some x => exists j, k <= j < k + Z.of_nat n /\ x = g j /\ P x /\ forall j', k <= j' < j -> ~ P (g j')
  | None => forall j, k <= j < k + Z.of_nat n -> ~ P (g j)
  end.
Proof using Type.
  revert k. induction n as [|n IH]; intros k; [simpl; lia|]. rewrite seqZ_cons by lia. cbn [map]. rewrite filter_cons.
  replace (Z.pred (Z.of_nat (S n))) with (Z.of_nat n) by lia. case_decide as Hf.
  - exists k. split; [lia|]. split; [done|]. split; [done|]. lia.
  - specialize (IH (Z.succ k)). destruct (head _) as [x|].
    + destruct IH as (j & Hj & -> & Hp & Hn). exists j. split; [lia|]. split; [done|]. split; [done|]. intros j' Hj'.
      destruct (decide (j' = k)) as [->|]; [done|]. apply Hn. lia.
    + intros j Hj. destruct (decide (j = k)) as [->|]; [done|]. apply IH. lia.
Qed.

(** How far slot [i] is behind [old] around the table: 1 to 16. *)
Definition distance (old i : Z) : Z := (i - (if 0 <=? old then old + 1 else 0)) mod MAX_PROCESSES.

Lemma distance_range old i : 0 <= distance old i < MAX_PROCESSES.
Proof using Type. apply Z.mod_pos_bound. by unfold MAX_PROCESSES. Qed.

Lemma distance_slot old i j : in_table i -> 0 <= j < MAX_PROCESSES -> old = -1 \/ in_table old ->
  i = ((if 0 <=? old then old + 1 else 0) + j) mod MAX_PROCESSES <-> j = distance old i.
Proof using Type. unfold in_table, distance, MAX_PROCESSES. intros. destruct (Z.leb_spec 0 old); lia_mod. Qed.

(** The first slot with [P] after [old]: nothing with [P] is nearer. *)
Lemma first_turn (P : Z -> Prop) `{forall x, Decision (P x)} old : old = -1 \/ in_table old ->
  match head (filter P (rotation old)) with
  | Some x => in_table x /\ P x /\ forall i, in_table i -> P i -> distance old x <= distance old i
  | None => forall i, in_table i -> ~ P i
  end.
Proof using Type.
  intros Ho. unfold rotation, slots. pose proof (head_filter_map P (fun i => ((if 0 <=? old then old + 1 else 0) + i) mod MAX_PROCESSES) 16 0) as Hf.
  change (Z.of_nat 16) with MAX_PROCESSES in Hf. destruct (head _) as [x|].
  - destruct Hf as (j & Hj & -> & Hp & Hn). set (x := _ mod _) in *.
    assert (in_table x) as Hx by (apply Z.mod_pos_bound; by unfold MAX_PROCESSES). split; [done|]. split; [done|].
    intros i Hi Hpi. assert (j = distance old x) as <- by (apply distance_slot; done || lia).
    destruct (Z.le_gt_cases j (distance old i)) as [|Hgt]; [done|]. exfalso. pose proof (distance_range old i).
    apply (Hn (distance old i)); [lia|]. rewrite <- (proj2 (distance_slot old i (distance old i) Hi ltac:(lia) Ho) eq_refl). done.
  - intros i Hi Hp. pose proof (distance_range old i). apply (Hf (distance old i)); [lia|].
    by rewrite <- (proj2 (distance_slot old i (distance old i) Hi ltac:(lia) Ho) eq_refl).
Qed.

Definition ready s i : Prop := p_state (proc_table s i) = PROC_STATE_READY.

(** A voluntary switch: to the nearest ready slot, if any. *)
Lemma process_schedule_cases s regs : p_inv s ->
  (exists next, in_table next /\ ready s next /\ next <> current_pid s /\
    (forall i, in_table i -> ready s i -> distance (current_pid s) next <= distance (current_pid s) i) /\
    process_schedule s regs = (SwitchTo (Some next), save_context (handed s next) (current_pid s) regs)) \/
  ((forall i, in_table i -> ~ ready s i) /\ process_schedule s regs = (if 0 <=? current_pid s then Stay else Idle, s)).
Proof using Type.
  intros I. unfold process_schedule. pose proof (first_turn (fun i => is_state PROC_STATE_READY (proc_table s i) = true) _ (pi_current _ I)) as Ht.
  assert (0 <= current_pid s -> is_state PROC_STATE_RUNNING (proc_table s (current_pid s)) = true) as Hrun.
  { intros Hc. apply is_state_spec. by destruct (runs_table s _ I eq_refl Hc). }
  destruct (head _) as [next|].
  - left. destruct Ht as (Hin & Hr%is_state_spec & Hnear). exists next. split; [done|]. split; [done|].
    assert (next <> current_pid s) as Hne.
    { intros ->. assert (p_state (proc_table s (current_pid s)) = PROC_STATE_RUNNING) by (by apply (pi_running _ I)). congruence. }
    split; [done|]. split; [intros i Hi Hri; apply Hnear; [done|by apply is_state_spec]|].
    rewrite (proj2 (Z.eqb_neq _ _)) by done. cbn [andb]. f_equal. f_equal. unfold handed.
    destruct (Z.leb_spec 0 (current_pid s)) as [Hc|]; cbn [andb]; [by rewrite Hrun|done].
  - right. split; [intros i Hi Hri; by apply (Ht i Hi), is_state_spec|].
    destruct (Z.leb_spec 0 (current_pid s)) as [Hc|]; cbn [andb]; [by rewrite Hrun|done].
Qed.

Lemma inv_schedule s regs : p_inv s -> p_inv (process_schedule s regs).2.
Proof using Type.
  intros I. destruct (process_schedule_cases s regs I) as [(next & Hin & Hr & _ & _ & ->)|[_ ->]]; [|done].
  apply inv_save, inv_handed; [done|]. split; [done|]. unfold ready in Hr. by rewrite Hr.
Qed.

(** Another state is as good as [s] when it has the same fields and an equal table. *)
Lemma with_table_eq s t : (forall i, t i = proc_table s i) -> with_table s t = s.
Proof using Type. intros E. assert (t = proc_table s) as -> by (by apply functional_extensionality). by destruct s. Qed.

Lemma process_yield_cases s regs : p_inv s ->
  (exists next, in_table next /\ ready s next /\ process_yield s regs = (SwitchTo (Some next), save_context (handed s next) (current_pid s) regs)) \/
  process_yield s regs = (Idle, s).
Proof using Type.
  intros I. unfold process_yield. destruct (Z.leb_spec 0 (current_pid s)) as [Hc|Hc].
  2: { destruct (process_schedule_cases s regs I) as [(next & ? & ? & _ & _ & ->)|[_ ->]]; [left; by exists next|right].
       by rewrite (proj2 (Z.leb_gt _ _)). }
  destruct (runs_table s _ I eq_refl Hc) as [Hin Hrun]. set (old := current_pid s) in *. set (s1 := upd_proc s old _).
  assert (proc_table s1 old = with_state (proc_table s old) PROC_STATE_READY) as E1 by (unfold s1, upd_proc, set_proc; cbn; by rewrite fn_lookup_insert).
  assert (forall i, i <> old -> proc_table s1 i = proc_table s i) as E2 by (intros i Hi; unfold s1, upd_proc, set_proc; cbn; by rewrite fn_lookup_insert_ne).
  unfold process_schedule. change (current_pid s1) with old.
  pose proof (first_turn (fun i => is_state PROC_STATE_READY (proc_table s1 i) = true) old (or_intror Hin)) as Ht.
  destruct (head _) as [next|]; [|exfalso; apply (Ht old Hin), is_state_spec; by rewrite E1].
  destruct Ht as (Hnin & Hr%is_state_spec & _). rewrite E1.
  assert (is_state PROC_STATE_RUNNING (with_state (proc_table s old) PROC_STATE_READY) = false) as -> by done.
  assert (is_state PROC_STATE_READY (with_state (proc_table s old) PROC_STATE_READY) = true) as -> by done.
  destruct (Z.eqb_spec next old) as [->|Hne]; rewrite ?andb_false_r; cbn [andb].
  - right. f_equal. set (s2 := upd_proc s1 old _). assert (s2 = with_table s (proc_table s2)) as -> by done. apply with_table_eq. intros i.
    unfold s2, upd_proc, set_proc. cbn [proc_table with_table]. destruct (decide (i = old)) as [->|]; [rewrite fn_lookup_insert, E1|by rewrite fn_lookup_insert_ne, E2].
    destruct (proc_table s old); cbn in *; by subst.
  - left. exists next. split; [done|]. split; [unfold ready; by rewrite <- E2|]. 
    unfold handed. fold old. by rewrite (proj2 (Z.leb_le _ _)).
Qed.

Lemma inv_yield s regs : p_inv s -> p_inv (process_yield s regs).2.
Proof using Type.
  intros I. destruct (process_yield_cases s regs I) as [(next & Hin & Hr & ->)| ->]; [|done].
  apply inv_save, inv_handed; [done|]. split; [done|]. unfold ready in Hr. by rewrite Hr.
Qed.

(** ** The timer *)

Definition has_context s i : Prop := ctx_sp (p_context (proc_table s i)) <> 0 /\ ctx_pc (p_context (proc_table s i)) <> 0.

Lemma count_ready_lower s l : NoDup l -> (forall i, i ∈ l -> in_table i /\ runnable (proc_table s i) = true) -> Z.of_nat (length l) <= process_count_ready s.
Proof using Type.
  intros Hnd Hl. unfold process_count_ready. apply inj_le. apply submseteq_length, NoDup_submseteq; [done|].
  intros i Hi. destruct (Hl i Hi). apply list_elem_of_filter. split; [done|]. by apply slots_spec.
Qed.

Lemma runnable_ready s i : ready s i -> runnable (proc_table s i) = true.
Proof using Type. intros Hr. unfold runnable. by rewrite (proj2 (is_state_spec _ _) Hr). Qed.
Lemma runnable_running s i : p_state (proc_table s i) = PROC_STATE_RUNNING -> runnable (proc_table s i) = true.
Proof using Type. intros Hr. unfold runnable. by rewrite (proj2 (is_state_spec _ _) Hr), orb_true_r. Qed.

(** A tick: to the nearest ready slot with a context, if any; the kernel never gets the CPU back. *)
Lemma irq_cases s : p_inv s ->
  (exists i, in_table i /\ ready s i /\ has_context s i /\
    (forall j, in_table j -> ready s j -> has_context s j -> distance (current_pid s) i <= distance (current_pid s) j) /\
    process_schedule_from_irq s = handed s i) \/
  ((forall i, in_table i -> ready s i -> ~ has_context s i) /\ process_schedule_from_irq s = s).
Proof using Type.
  intros I. unfold process_schedule_from_irq.
  pose proof (first_turn (fun i => irq_candidate s (current_pid s) i = true) _ (pi_current _ I)) as Ht.
  assert (forall i, in_table i -> ready s i -> i <> current_pid s) as Hne.
  { intros i Hi Hr ->. assert (p_state (proc_table s (current_pid s)) = PROC_STATE_RUNNING) by (by apply (pi_running _ I)). unfold ready in Hr. congruence. }
  assert (forall i, in_table i -> irq_candidate s (current_pid s) i = true <-> ready s i /\ has_context s i) as Hcand.
  { intros i Hi. unfold irq_candidate, has_context. rewrite andb_true_iff, is_state_spec, orb_true_iff, negb_true_iff, orb_false_iff, !Z.eqb_neq, Z.eqb_eq.
    split; [|tauto]. intros [Hr [?|?]]; [by destruct (Hne i Hi Hr)|done]. }
  destruct (head _) as [i|].
  - destruct Ht as (Hi & Hc & Hnear). apply Hcand in Hc as [Hr Hctx]; [|done]. left. exists i. do 3 (split; [done|]).
    split; [intros j Hj Hrj Hcj; apply Hnear; [done|by apply Hcand]|]. specialize (Hne i Hi Hr).
    assert (1 <= process_count_ready s) by (apply (count_ready_lower s [i]); [apply NoDup_singleton|intros j ->%list_elem_of_singleton; split; [done|by apply runnable_ready]]).
    rewrite (proj2 (Z.eqb_neq i _)) by done. unfold handed.
    destruct (Z.leb_spec 0 (current_pid s)) as [Hcur|]; cbn [andb].
    + destruct (runs_table s _ I eq_refl Hcur) as [Hcin Hrun].
      assert (2 <= process_count_ready s).
      { apply (count_ready_lower s [i; current_pid s]); [apply NoDup_cons; split; [by rewrite list_elem_of_singleton|apply NoDup_singleton]|].
        intros j [-> | ->%list_elem_of_singleton]%elem_of_cons; (split; [done|]); [by apply runnable_ready|by apply runnable_running]. }
      rewrite (proj2 (Z.leb_gt _ _)), (proj2 (Z.ltb_ge _ _)) by lia. cbn [andb]. by rewrite (proj2 (is_state_spec _ _) Hrun).
    + rewrite (proj2 (Z.ltb_lt _ _)), (proj2 (Z.eqb_neq _ _)) by lia. done.
  - right. split; [intros i Hi Hr Hctx; by apply (Ht i Hi), Hcand|]. by repeat case_match.
Qed.

Lemma inv_irq s : p_inv s -> p_inv (process_schedule_from_irq s).
Proof using Type.
  intros I. destruct (irq_cases s I) as [(i & Hi & Hr & _ & _ & ->)|[_ ->]]; [|done]. apply inv_handed; [done|]. split; [done|]. unfold ready in Hr. by rewrite Hr.
Qed.

(** ** Killing and leaving keep it *)

Lemma process_get_spec s q i : process_get s q = Some i -> live s i /\ pid s i = q.
Proof using Type.
  intros (Hi & Hf & _)%find_slot_some. apply andb_prop in Hf as [Hq Hl]. apply Z.eqb_eq in Hq. split; [|done]. split; [done|].
  apply is_state_false. by destruct (is_state _ _).
Qed.

Lemma process_get_none s q i : process_get s q = None -> live s i -> pid s i <> q.
Proof using Type.
  intros E [Hi Hl] Hq. pose proof (find_slot_none _ E i Hi) as Hf. cbn in Hf. rewrite (proj2 (Z.eqb_eq _ _) Hq) in Hf.
  by rewrite (proj2 (is_state_false _ _) Hl) in Hf.
Qed.

(** What [process_kill] kills. *)
Definition victims s i (j : Z) : Prop := j = i \/ (descendant s (pid s i) j /\ j <> current_pid s).

Lemma process_kill_ok s q : p_inv s ->
  (exists i K s', 0 < q /\ process_get s q = Some i /\ i <> current_pid s /\ process_kill s q = Ok (0, s') /\ killed s K s' /\ forall j, j ∈ K <-> victims s i j) \/
  (process_kill s q = Ok (-1, s) /\ (q <= 0 \/ process_get s q = None \/ exists i, process_get s q = Some i /\ running s = Some i)).
Proof using Type*.
  intros I. unfold process_kill. destruct (Z.leb_spec q 0); [right; auto|]. destruct (process_get s q) as [i|] eqn:Eg; [|right; auto].
  destruct (process_get_spec _ _ _ Eg) as [Hl Hq]. destruct (Z.eqb_spec i (current_pid s)) as [->|Hne].
  { right. split; [done|]. right. right. exists (current_pid s). split; [done|]. unfold running. destruct Hl as [Hi _]. unfold in_table in Hi. by rewrite (proj2 (Z.ltb_ge _ _)) by lia. }
  left. destruct (kill_children_ok s q (pi_stacks _ I) (inv_family _ I)) as (K & s1 & E1 & Hk & HK). rewrite E1, bind_ok.
  assert (i ∉ K) as HiK. { intros [Hd _]%HK. pose proof (desc_younger _ _ _ (inv_family _ I) Hd). lia. }
  assert (forall j, j ∈ K -> in_table j) as HKt by (intros j [Hd _]%HK; by destruct (desc_live _ _ _ Hd)).
  destruct (kill_slot_ok s K s1 i (pi_stacks _ I) Hk (proj1 Hl) HiK HKt) as (s2 & E2 & Hk2). rewrite E2, bind_ok.
  exists i, (i :: K), s2. split_and!; try done. intros j. unfold victims. by rewrite elem_of_cons, HK, Hq.
Qed.

Lemma inv_kill s q r s' : p_inv s -> process_kill s q = Ok (r, s') -> p_inv s'.
Proof using Type*.
  intros I E. destruct (process_kill_ok s q I) as [(i & K & s1 & _ & Hg & Hne & E1 & Hk & HK)|[E1 _]]; rewrite E1 in E; injection E as <- <-; [|done].
  apply (inv_killed s K); [done|done|]. intros j Hj. apply HK in Hj as [->|[Hd ?]]; [by apply process_get_spec in Hg as [? _]|].
  split; [by eapply desc_live|done].
Qed.

(** The running process leaves the table; its stack stays allocated. *)
Definition gone s (status : Z) (regs : cpu_context) : st :=
  save_context (with_current (upd_proc s (current_pid s) (fun p => with_state (with_status p status) PROC_STATE_FREE)) (-1) None) (current_pid s) regs.

Lemma inv_gone s status regs : p_inv s -> 0 <= current_pid s -> p_inv (gone s status regs).
Proof using Type.
  intros I Hc. apply inv_save. apply (inv_table s); try done; unfold upd_proc, set_proc; cbn.
  - intros i. destruct (decide (i = current_pid s)) as [->|]; [by rewrite fn_lookup_insert|by rewrite fn_lookup_insert_ne].
  - intros i Hi. destruct (decide (i = current_pid s)) as [->|]; [by rewrite fn_lookup_insert|by rewrite fn_lookup_insert_ne].
  - intros i Hi. destruct (decide (i = current_pid s)) as [->|]; [rewrite fn_lookup_insert; by left|rewrite fn_lookup_insert_ne by done; by apply (pi_states _ I)].
  - by left.
  - intros i Hi. destruct (decide (i = current_pid s)) as [->|]; [rewrite fn_lookup_insert|rewrite fn_lookup_insert_ne by done].
    + cbn. split; [done|]. unfold in_table in Hi. lia.
    + rewrite (pi_running _ I) by done. unfold in_table in Hi. split; [done|lia].
Qed.

Lemma process_exit_ok s status regs : p_inv s -> 0 <= current_pid s -> ctx_pc (kernel_context s) <> 0 -> ctx_sp (kernel_context s) <> 0 ->
  exists K s1, killed s K s1 /\ (forall j, j ∈ K <-> descendant s (pid s (current_pid s)) j /\ j <> current_pid s) /\ p_inv s1 /\
    process_exit s status regs = Ok (SwitchTo None, gone s1 status regs).
Proof using Type*.
  intros I Hc Hpc Hsp. unfold process_exit. rewrite (proj2 (Z.ltb_ge _ _)) by lia.
  destruct (kill_children_ok s (pid s (current_pid s)) (pi_stacks _ I) (inv_family _ I)) as (K & s1 & E & Hk & HK). exists K, s1. split; [done|]. split; [done|].
  split; [apply (inv_killed s K); [done|done|]; intros j [Hd ?]%HK; split; [by eapply desc_live|done]|].
  rewrite E, bind_ok. cbn [kernel_context with_current upd_proc set_proc with_table].
  assert (kernel_context s1 = kernel_context s /\ current_pid s1 = current_pid s) as [-> E2] by (by rewrite (kl_rest _ _ _ Hk)).
  rewrite (proj2 (Z.eqb_neq _ _)), (proj2 (Z.eqb_neq _ _)) by done. cbn [orb]. unfold gone. by rewrite E2.
Qed.
End spec.

(** * Creation, and the states that can be reached *)

Section create.
Context {A : Type} `{AllocatorLaws A}.
Abbreviation st := (procs A).
Implicit Types (s : st).
Context (doom_binary doom_wad : list Z) (process_entry_wrapper kapi : Z) (e1 e2 : Z).
Abbreviation pid s i := (p_pid (proc_table s i)).
Abbreviation parent s i := (p_parent_pid (proc_table s i)).
Abbreviation stack s i := (p_stack_base (proc_table s i)).
Abbreviation create := (process_create doom_binary doom_wad process_entry_wrapper kapi e1 e2).

(** ** Small changes *)

Lemma inv_fields s s' : p_inv s -> proc_table s' = proc_table s -> current_pid s' = current_pid s -> current_process s' = current_process s ->
  next_pid s' = next_pid s -> pr_heap s' = pr_heap s -> p_inv s'.
Proof using Type.
  intros I Et Ec Ep En Eh. apply (inv_table s); unfold running; rewrite ?Et, ?Ec; try done; try apply I. rewrite Ep. apply I.
Qed.

Lemma p_inv_heap s h : p_inv s -> a_inv h -> (forall p, is_Some (a_cap (pr_heap s) p) -> is_Some (a_cap h p)) -> p_inv (with_heap s h).
Proof using Type.
  intros [[_ Hl Ha] ? ? ? ? ? ? ? ? ?] Hi Hc. split; try done. split; cbn; [done|intros i Hin Hne; apply Hc, Hl; done|done].
Qed.

(** A block of the heap that is no stack. *)
Definition own s (p : Z) : Prop := is_Some (a_cap (pr_heap s) p) /\ forall i, in_table i -> stack s i <> 0 -> stack s i <> p.

Lemma fresh_block s n : p_inv s -> 0 <= n -> exists p h, a_kmalloc (pr_heap s) n GFP_KERNEL = Ok (p, h) /\ p_inv (with_heap s h) /\
  (p = 0 \/ own (with_heap s h) p).
Proof using Type*.
  intros I Hn. destruct (law_alloc (pr_heap s) n GFP_KERNEL (sk_inv _ (pi_stacks _ I)) Hn) as (p & h & E & Hh & Hres). exists p, h. split; [done|].
  destruct Hres as [[-> Hs]|(Hp & Hnone & c & _ & Hu)].
  - split; [|by left]. apply p_inv_heap; [done|done|]. intros q Hq. by rewrite Hs.
  - split; [apply p_inv_heap; [done|done|intros q Hq; rewrite Hu; by case_decide]|]. right. split; [cbn; rewrite Hu, decide_True by done; by eexists|].
    cbn. intros i Hi Hne E'. destruct (sk_live _ (pi_stacks _ I) i Hi Hne) as [? Hc]. congruence.
Qed.

Lemma free_own s p : p_inv s -> own s p -> exists h, a_kfree (pr_heap s) p = Ok h /\ p_inv (with_heap s h).
Proof using Type*.
  intros I [[c Hc] Hns]. destruct (law_free (pr_heap s) p c (sk_inv _ (pi_stacks _ I)) Hc) as (h & E & Hh & Hu). exists h. split; [done|].
  destruct I as [[_ Hl Ha] ? ? ? ? ? ? ? ? ?]. split; try done. split; cbn; [done| |done]. intros i Hi Hne. rewrite Hu, decide_False by (by apply Hns). by apply Hl.
Qed.

Lemma free_and_inv s p r r' s' : p_inv s -> own s p -> free_and s p r = Ok (r', s') -> p_inv s' /\ r' = r.
Proof using Type*. intros I Ho E. destruct (free_own s p I Ho) as (h & Ef & Hi). unfold free_and in E. rewrite Ef in E. by injection E as <- <-. Qed.

(** Changing a slot that does not run. *)
Lemma inv_slot s s' i p : p_inv s -> in_table i -> i <> current_pid s -> proc_table s' = <[i := p]> (proc_table s) ->
  current_pid s' = current_pid s -> current_process s' = current_process s -> next_pid s <= next_pid s' -> pr_heap s' = pr_heap s ->
  (p_state p = PROC_STATE_FREE \/ (p_state p = PROC_STATE_READY /\ i < p_pid p < next_pid s' /\ p_parent_pid p < p_pid p /\
     forall j, live s j -> j <> i -> pid s j <> p_pid p)) ->
  p_parent_pid p < next_pid s' ->
  (p_stack_base p = 0 \/ p_stack_base p = stack s i \/ own s (p_stack_base p)) -> p_inv s'.
Proof using Type*.
  intros [[Hsi Hsl Hsa] Hst Hc Hptr Hr Hpid Hu Hpar Ho Hn] Hi Hne Et Ec Ep En Eh Hp Hold Hstk.
  assert (proc_table s' i = p) as Ei by (by rewrite Et, fn_lookup_insert). assert (forall j, j <> i -> proc_table s' j = proc_table s j) as Ej by (intros j Hj; by rewrite Et, fn_lookup_insert_ne).
  assert (forall j, live s' j -> j <> i -> live s j) as Hl by (intros j [? ?] Hj; split; [done|]; by rewrite <- Ej).
  assert (forall j, in_table j -> j <> i -> stack s j <> 0 -> stack s j <> p_stack_base p) as Hap.
  { intros j Hj Hji Hz E. destruct Hstk as [E0|[Es|[_ Hns]]]; [congruence| |by apply (Hns j Hj Hz)]. apply Hji. apply Hsa; [done|done|done|congruence]. }
  split; unfold running; rewrite ?Ec, ?Ep, ?Eh; try done; try lia.
  - split; rewrite ?Eh; [done|..].
    + intros j Hj. destruct (decide (j = i)) as [->|Hji]; [rewrite Ei|rewrite Ej by done; by apply Hsl]. intros Hz.
      destruct Hstk as [?|[Es|[? _]]]; [done|rewrite Es in *; by apply Hsl|done].
    + intros j k Hj Hk. destruct (decide (j = i)) as [->|Hji], (decide (k = i)) as [->|Hki]; rewrite ?Ei, ?(Ej j), ?(Ej k) by done; [done| | |by apply Hsa].
      * intros Hz E. destruct (Hap k Hk Hki); congruence.
      * intros Hz E. by destruct (Hap j Hj Hji Hz).
  - intros j Hj. destruct (decide (j = i)) as [->|Hji]; [rewrite Ei|rewrite Ej by done; by apply Hst]. destruct Hp as [->|[-> _]]; [by left|by right; left].
  - intros j Hj. destruct (decide (j = i)) as [->|Hji]; [rewrite Ei|rewrite Ej by done; by apply Hr]. destruct Hp as [->|[-> _]]; done.
  - intros j Hj. destruct (decide (j = i)) as [->|Hji]; [|specialize (Hpid j (Hl j Hj Hji)); rewrite Ej by done; lia].
    rewrite Ei. destruct Hj as [_ Hj]. rewrite Ei in Hj. destruct Hp as [?|(_ & ? & _)]; done.
  - intros j k Hj Hk. destruct (decide (j = i)) as [->|Hji], (decide (k = i)) as [->|Hki]; [done| | |rewrite (Ej j), (Ej k) by done; apply Hu; by apply Hl].
    + rewrite Ei, Ej by done. destruct Hj as [_ Hj]. rewrite Ei in Hj. destruct Hp as [?|(_ & _ & _ & Hd)]; [done|]. intros E. destruct (Hd k (Hl k Hk Hki) Hki). congruence.
    + rewrite Ei, Ej by done. destruct Hk as [_ Hk]. rewrite Ei in Hk. destruct Hp as [?|(_ & _ & _ & Hd)]; [done|]. intros E. by destruct (Hd j (Hl j Hj Hji) Hji).
  - intros j Hj. destruct (decide (j = i)) as [->|Hji]; [|rewrite Ej by done; by apply Hpar, Hl].
    rewrite Ei. destruct Hj as [_ Hj]. rewrite Ei in Hj. destruct Hp as [?|(_ & _ & ? & _)]; done.
  - intros j Hj. destruct (decide (j = i)) as [->|Hji]; [by rewrite Ei|rewrite Ej by done]. specialize (Ho j Hj). lia.
Qed.

(** ** Reserving a slot *)

Definition reserve s (i : Z) : st :=
  with_next_pid (upd_proc s i (fun p => with_pid (with_state p PROC_STATE_READY) (next_pid s))) (next_pid s + 1).

Lemma free_slot_spec s i : find_free_slot_unlocked s = Some i ->
  in_table i /\ p_state (proc_table s i) = PROC_STATE_FREE /\ forall j, 0 <= j < i -> p_state (proc_table s j) <> PROC_STATE_FREE.
Proof using Type.
  intros (Hi & Hf & Hj)%find_slot_some. split; [done|]. split; [by apply is_state_spec|]. intros j Hr. by apply is_state_false, Hj.
Qed.

(** The slots before it are taken, by processes with different numbers. *)
Lemma free_slot_below s i : p_inv s -> find_free_slot_unlocked s = Some i -> i < next_pid s.
Proof using Type.
  intros I (Hi & _ & Hl)%free_slot_spec. unfold in_table in Hi.
  assert (forall j, j ∈ seqZ 0 i -> live s j) as Hlive by (intros j Hj%elem_of_seqZ; split; [unfold in_table; lia|apply Hl; lia]).
  assert (length (map (fun j => pid s j) (seqZ 0 i)) <= length (seqZ 1 (next_pid s - 1)))%nat as Hlen.
  { apply submseteq_length, NoDup_submseteq.
    - apply NoDup_fmap_2_strong; [|apply NoDup_seqZ]. intros j k Hj%Hlive Hk%Hlive. by apply (pi_unique _ I).
    - intros x (j & -> & Hj)%list_elem_of_fmap. pose proof (pi_pid _ I j (Hlive j Hj)). apply elem_of_seqZ in Hj. apply elem_of_seqZ. cbv beta. lia. }
  rewrite length_map, !length_seqZ in Hlen. pose proof (pi_next _ I). lia.
Qed.

Lemma free_not_current s i : p_inv s -> in_table i -> p_state (proc_table s i) = PROC_STATE_FREE -> i <> current_pid s.
Proof using Type. intros I Hi Hf ->. assert (p_state (proc_table s (current_pid s)) = PROC_STATE_RUNNING) by (by apply (pi_running _ I)). congruence. Qed.

Lemma inv_reserve s i : p_inv s -> find_free_slot_unlocked s = Some i -> p_inv (reserve s i).
Proof using Type*.
  intros I Hf. pose proof (free_slot_below s i I Hf). destruct (free_slot_spec s i Hf) as (Hi & Hfree & _).
  eapply (inv_slot s _ i); try done; [by apply free_not_current|cbn; lia| | |by right; left]; cbn.
  - right. split; [done|]. split; [lia|]. split; [by apply (pi_old _ I)|]. intros j Hj _. pose proof (pi_pid _ I j Hj). lia.
  - pose proof (pi_old _ I i Hi). lia.
Qed.

Lemma set_proc_twice s i p q : set_proc (set_proc s i p) i q = set_proc s i q.
Proof using Type.
  unfold set_proc, with_table. cbn. f_equal. apply functional_extensionality. intros j.
  destruct (decide (j = i)) as [->|]; [by rewrite !fn_lookup_insert|by rewrite !fn_lookup_insert_ne].
Qed.

Lemma set_proc_at s i p : proc_table (set_proc s i p) i = p.
Proof using Type. unfold set_proc. cbn. by rewrite fn_lookup_insert. Qed.

(** A creation under way in slot [i]. *)
Record making s (i : Z) : Prop := {
  mk_inv : p_inv s; mk_in : in_table i; mk_ne : i <> current_pid s; mk_ready : p_state (proc_table s i) = PROC_STATE_READY
}.

Lemma making_reserve s i : p_inv s -> find_free_slot_unlocked s = Some i -> making (reserve s i) i.
Proof using Type*.
  intros I Hf. destruct (free_slot_spec s i Hf) as (Hi & Hfree & _). split; [by apply inv_reserve|done|by apply (free_not_current s)|].
  unfold reserve, upd_proc, set_proc. cbn. by rewrite fn_lookup_insert.
Qed.

Lemma making_fields s s' i : making s i -> proc_table s' = proc_table s -> current_pid s' = current_pid s -> current_process s' = current_process s ->
  next_pid s' = next_pid s -> pr_heap s' = pr_heap s -> making s' i.
Proof using Type. intros [I Hi Hne Hr] Et Ec Ep En Eh. split; rewrite ?Et, ?Ec; try done. by apply (inv_fields s). Qed.

Lemma making_heap s i h : making s i -> p_inv (with_heap s h) -> making (with_heap s h) i.
Proof using Type. intros [I Hi Hne Hr] I'. by split. Qed.

Lemma making_alloc s i n : making s i -> 0 <= n -> exists p h, a_kmalloc (pr_heap s) n GFP_KERNEL = Ok (p, h) /\
  making (with_heap s h) i /\ (p = 0 \/ own (with_heap s h) p).
Proof using Type*.
  intros M Hn. destruct (fresh_block s n (mk_inv _ _ M) Hn) as (p & h & E & I & Ho). exists p, h. split; [done|]. split; [by apply making_heap|done].
Qed.

(** The program is entered into its slot and gets its stack. *)
Lemma making_done s i path info n stack h argc argv (s1 := with_next_pid (upd_proc s i (fun p => new_process p (next_pid s) path info (current_pid s))) n) :
  making s i -> n = next_pid s + 1 -> a_kmalloc (pr_heap s1) PROCESS_STACK_SIZE GFP_KERNEL = Ok (stack, h) ->
  let s2 := upd_proc (with_heap s1 h) i (fun p => with_stack p stack PROCESS_STACK_SIZE) in
  p_inv (upd_proc s2 i (fun p => with_state p PROC_STATE_FREE)) /\
  p_inv (upd_proc s2 i (fun p => with_context p (start_context process_entry_wrapper kapi (p_entry p) argc argv stack PROCESS_STACK_SIZE))).
Proof using Type*.
  intros [I Hi Hne Hr] -> E. cbv zeta. assert (live s i) as Hlive by (split; [done|by rewrite Hr]).
  destruct (pi_pid _ I i Hlive) as [Hlow Hhigh].
  assert (current_pid s < next_pid s) as Hcur.
  { destruct (pi_current _ I) as [->|Hc]; [pose proof (pi_next _ I); lia|].
    assert (live s (current_pid s)) as Hl by (split; [done|]; rewrite (proj2 (pi_running _ I _ Hc) eq_refl); done). pose proof (pi_pid _ I _ Hl). lia. }
  assert (p_inv s1) as I1.
  { eapply (inv_slot s s1 i); try done; [cbn; lia| |cbn; lia|right; left; done]. right. cbn. split; [done|]. split; [lia|]. split; [done|].
    intros j Hj _. pose proof (pi_pid _ I j Hj). lia. }
  destruct (fresh_block s1 PROCESS_STACK_SIZE I1) as (q & h' & E' & I2 & Ho); [done|]. rewrite E in E'. injection E' as <- <-.
  assert (live s1 i) as Hl1 by (split; [done|]; unfold s1, upd_proc, set_proc; cbn; by rewrite fn_lookup_insert).
  assert (pid s1 i = next_pid s) as Hpi by (unfold s1, upd_proc, set_proc; cbn; by rewrite fn_lookup_insert).
  assert (forall p, p_stack_base p = stack -> p_parent_pid p = current_pid s -> p_state p = PROC_STATE_FREE \/ (p_state p = PROC_STATE_READY /\ p_pid p = next_pid s) ->
    p_inv (set_proc (with_heap s1 h) i p)) as Hset.
  { intros p E1 E2 E3. eapply (inv_slot (with_heap s1 h) _ i p); try done.
    - destruct E3 as [?|[? Ep]]; [by left|right]. split; [done|]. cbn. rewrite Ep, E2. split; [lia|]. split; [done|].
      intros j Hj Hji Ej. apply Hji, (pi_unique _ I1); [done|done|]. rewrite Hpi. exact Ej.
    - cbn. lia.
    - rewrite E1. destruct Ho as [?|?]; [by left|by right; right]. }
  set (np := new_process (proc_table s i) (next_pid s) path info (current_pid s)) in *.
  assert (upd_proc (with_heap s1 h) i (fun p => with_stack p stack PROCESS_STACK_SIZE) = set_proc (with_heap s1 h) i (with_stack np stack PROCESS_STACK_SIZE)) as ->.
  { unfold s1, upd_proc, set_proc. cbn. by rewrite fn_lookup_insert. }
  unfold upd_proc. rewrite !set_proc_at, !set_proc_twice. split; apply Hset; cbn; auto.
Qed.

Lemma int_arith_inv z n : int_arith z = Ok n -> n = z.
Proof using Type. unfold int_arith. case_match; [by intros [= ->]|done]. Qed.

Lemma file_size_pos path : 0 <= vn_size (file_of doom_binary doom_wad path).
Proof using Type. unfold file_of. repeat case_match; cbn; lia. Qed.

(** A new process: its number, and the slot of its creator. *)
Definition entered s s' (q i : Z) : Prop :=
  in_table i /\ i <> current_pid s' /\ proc_table s' i = with_state (proc_table s' i) PROC_STATE_READY /\ pid s' i = q /\
  parent s' i = current_pid s' /\ current_pid s' = current_pid s /\ kernel_context s' = kernel_context s.

(** Who runs, and where the kernel goes on. *)
Definition same_cpu s s' : Prop := current_pid s' = current_pid s /\ kernel_context s' = kernel_context s.

(** The buffer goes back and the slot stays as it is. *)
Lemma failed_making s0 s i p r s' : making s i -> own s p -> same_cpu s0 s -> free_and s p (-1) = Ok (r, s') ->
  p_inv s' /\ ((r = -1 /\ same_cpu s0 s') \/ exists k, entered s0 s' r k).
Proof using Type*.
  intros M Ho Hs E. destruct (free_and_inv s p (-1) r s' (mk_inv _ _ M) Ho E) as [I ->]. split; [done|]. left. split; [done|].
  unfold free_and in E. inv_bind E. by injection E as <-.
Qed.

Lemma create_result fuel s path argc argv r s' : p_inv s -> create fuel s path argc argv = Ok (r, s') ->
  p_inv s' /\ ((r = -1 /\ same_cpu s s') \/ exists k, entered s s' r k).
Proof using Type*.
  intros I. unfold process_create. destruct (find_free_slot_unlocked s) as [i|] eqn:Hf; [|intros [= <- <-]; split; [done|by left]].
  intros E. inv_bind E. apply int_arith_inv in Hv as ->. fold (reserve s i) in E. cbv zeta in E.
  pose proof (making_reserve s i I Hf) as M.
  pose proof (vfs_lookup_ok doom_binary doom_wad (pr_vfs (reserve s i)) path) as Hlk.
  destruct (vfs_lookup _ _ _ _) as [file v]. assert (making (with_vfs (reserve s i) v) i) as M1 by (by eapply making_fields).
  destruct Hlk as [(-> & _)|(Hfz & Hnode & _)]; [injection E as <- <-; split; [apply M1|by left]|]. rewrite Hfz in E.
  inv_bind E. rewrite Hnode in E. cbn [of_option] in E. rewrite bind_ok in E. pose proof (file_size_pos path) as Hsz. set (size := vn_size _) in *.
  destruct (v0 || (size =? 0)); [injection E as <- <-; split; [apply M1|by left]|].
  destruct (making_alloc _ i size M1 Hsz) as (data & h & Ea & M2 & Hown). cbn [pr_heap with_vfs] in Ea. cbn [pr_heap with_vfs] in E. rewrite Ea, bind_ok in E.
  set (s2 := with_heap (with_vfs (reserve s i) v) h) in *.
  assert (same_cpu s s2) as Hsame by done. clearbody s2. destruct (Z.eqb_spec data 0) as [->|Hd]; [injection E as <- <-; split; [apply M2|by left]|].
  destruct Hown as [?|Hown]; [done|]. inv_bind E. destruct v1 as [bytes bs].
  destruct (negb (bytes =? i32 size)); [by eapply failed_making; [..|exact E]|]. inv_bind E.
  destruct (v1 =? 0); [by eapply failed_making; [..|exact E]|]. destruct (aslr_exec_offset e1 e2 (pr_aslr s2)) as [off rnd].
  inv_bind E. destruct v2 as [[ret m] info]. set (s3 := with_load _ _ _) in E.
  assert (making s3 i) as M3 by (by apply (making_fields s2)). assert (own s3 data) as Ho3 by exact Hown.
  destruct info as [info|]; [|by eapply failed_making]. destruct (negb (ret =? 0)); [by eapply failed_making; [..|exact E]|].
  destruct (free_own s3 data (mk_inv _ _ M3) Ho3) as (h3 & Ef & I4). rewrite Ef, bind_ok in E.
  set (s4 := with_load _ _ _) in E. assert (making s4 i) as M4 by (apply (making_fields (with_heap s3 h3)); [by apply making_heap|done..]).
  assert (same_cpu s s4) as Hsame4 by exact Hsame. clearbody s4.
  apply bind_ok_inv in E as (n & En & E). apply int_arith_inv in En. cbv zeta in E. apply bind_ok_inv in E as ([stack h5] & Ek & E).
  destruct (making_done s4 i path info n stack h5 argc argv M4 En Ek) as [Hfail Hok].
  destruct (stack =? 0); injection E as <- <-; (split; [assumption|]); [by left|right]. exists i. destruct Hsame4 as [E1 E2].
  unfold entered, upd_proc. rewrite !set_proc_at. cbn [proc_table with_heap with_next_pid]. rewrite !set_proc_at.
  split; [apply M4|]. split; [apply M4|]. cbn. rewrite !fn_lookup_insert. cbn. by rewrite E1, E2.
Qed.
End create.
