(* ===== verification/ProcessTheorems.v ===== *)
(** * Processes: what the table promises *)
From S2P Require Import Prelude Memory AllocSpec Kmalloc KmallocSpec Elf Aslr ElfSpec ElfTheorems VfsCompat Process ProcessSpec.
#[local] Open Scope Z_scope.

Section theorems.
Context {A : Type} `{AllocatorLaws A}.
Abbreviation st := (procs A).
Implicit Types (s : st).
Context (doom_binary doom_wad : list Z) (process_entry_wrapper kapi : Z) (e1 e2 : Z).
Abbreviation pid s i := (p_pid (proc_table s i)).
Abbreviation stack s i := (p_stack_base (proc_table s i)).
Abbreviation create := (process_create doom_binary doom_wad process_entry_wrapper kapi e1 e2).

(** ** Reachable states *)

(** A context that can be resumed. *)
Definition usable (c : cpu_context) : Prop := ctx_pc c <> 0 /\ ctx_sp c <> 0.

(** The calls, the timer, and what the rest of the kernel and the programs do meanwhile.  The
    registers that a switch or an interrupt saves are those of running code: its program
    counter and its stack pointer are not null. *)
Inductive pstep : st -> st -> Prop :=
| step_create fuel s path argc argv r s' : create fuel s path argc argv = Ok (r, s') -> pstep s s'
| step_kill s q r s' : process_kill s q = Ok (r, s') -> pstep s s'
| step_schedule s regs : usable regs -> pstep s (process_schedule s regs).2
| step_yield s regs : usable regs -> pstep s (process_yield s regs).2
| step_irq s regs : usable regs -> pstep s (irq_handler s regs)
| step_exit s status regs t s' : process_exit s status regs = Ok (t, s') -> pstep s s'
| step_memory s m : pstep s (with_load s (next_load_addr s) m)
| step_heap s h : a_inv h -> (forall i, in_table i -> stack s i <> 0 -> is_Some (a_cap h (stack s i))) -> pstep s (with_heap s h).

(** While a process runs, the context of the kernel is one that was saved. *)
Definition kernel_saved s : Prop := 0 <= current_pid s -> usable (kernel_context s).

(** Leaving without a context of the kernel never ends. *)
Lemma exit_lost s status regs : p_inv s -> 0 <= current_pid s -> ~ usable (kernel_context s) -> process_exit s status regs = NoFuel.
Proof using Type*.
  intros I Hc Hu. unfold process_exit. rewrite (proj2 (Z.ltb_ge _ _)) by lia.
  destruct (kill_children_ok s (pid s (current_pid s)) (pi_stacks _ I) (inv_family _ I)) as (K & s1 & -> & Hk & _).
  rewrite bind_ok. cbn [kernel_context with_current upd_proc set_proc with_table]. 
  assert (kernel_context s1 = kernel_context s) as -> by (by rewrite (kl_rest _ _ _ Hk)).
  destruct (Z.eqb_spec (ctx_pc (kernel_context s)) 0); [done|]. destruct (Z.eqb_spec (ctx_sp (kernel_context s)) 0); [done|by destruct Hu].
Qed.

Lemma exit_result s status regs t s' : p_inv s -> process_exit s status regs = Ok (t, s') ->
  current_pid s < 0 /\ s' = s \/
  0 <= current_pid s /\ exists K s1, killed s K s1 /\ (forall j, j ∈ K <-> descendant s (pid s (current_pid s)) j /\ j <> current_pid s) /\
    p_inv s1 /\ s' = gone s1 status regs.
Proof using Type*.
  intros I E. destruct (Z.ltb_spec (current_pid s) 0) as [Hc|Hc].
  { left. unfold process_exit in E. rewrite (proj2 (Z.ltb_lt _ _)) in E by done. by injection E as <- <-. }
  right. split; [done|]. destruct (decide (ctx_pc (kernel_context s) = 0 \/ ctx_sp (kernel_context s) = 0)) as [Hz|Hz].
  - by rewrite exit_lost in E by (done || (unfold usable; tauto)).
  - destruct (process_exit_ok s status regs I Hc) as (K & s1 & Hk & HK & I1 & E1); [tauto|tauto|]. rewrite E1 in E. injection E as <- <-. by exists K, s1.
Qed.

Lemma inv_exit s status regs t s' : p_inv s -> process_exit s status regs = Ok (t, s') -> p_inv s' /\ current_pid s' < 0.
Proof using Type*.
  intros I E. destruct (exit_result s status regs t s' I E) as [[Hc ->]|(Hc & K & s1 & Hk & _ & I1 & ->)]; [done|].
  assert (current_pid s1 = current_pid s) as Ec by (by rewrite (kl_rest _ _ _ Hk)).
  split; [apply inv_gone; [done|lia]|]. unfold gone, save_context. by case_match.
Qed.

(** A switch to a process leaves the context of the kernel usable. *)
Lemma saved_handed s next regs : usable regs -> kernel_saved s -> kernel_saved (save_context (handed s next) (current_pid s) regs).
Proof using Type.
  intros Hu Hs _. destruct (handed_rest s next) as (_ & _ & _ & _ & Ek). unfold save_context.
  destruct (Z.leb_spec 0 (current_pid s)); [|done]. assert (usable (kernel_context (handed s next))) as Hk by (rewrite Ek; by apply Hs). exact Hk.
Qed.

Lemma irq_handler_ok s regs : p_inv s -> usable regs -> kernel_saved s -> p_inv (irq_handler s regs) /\ kernel_saved (irq_handler s regs).
Proof using Type.
  intros I Hu Hs. unfold irq_handler. rewrite (pi_pointer _ I). unfold running. destruct (Z.ltb_spec (current_pid s) 0) as [Hc|Hc].
  - destruct (irq_cases s I) as [(i & Hi & Hr & _ & _ & ->)|[_ ->]].
    + destruct (handed_rest s i) as (_ & -> & _). split; [|by intros _]. apply (inv_save _ (-1) regs), inv_handed; [done|].
      split; [done|]. unfold ready in Hr. by rewrite Hr.
    + rewrite (pi_pointer _ I). unfold running. by rewrite (proj2 (Z.ltb_lt _ _)).
  - set (s1 := upd_proc s (current_pid s) _). assert (s1 = save_context s (current_pid s) regs) as E1 by (unfold save_context; by rewrite (proj2 (Z.leb_le _ _))).
    assert (p_inv s1) as I1 by (rewrite E1; by apply inv_save). split; [by apply inv_irq|]. intros _.
    assert (kernel_context (process_schedule_from_irq s1) = kernel_context s) as ->; [|by apply Hs].
    destruct (irq_cases s1 I1) as [(i & _ & _ & _ & _ & ->)|[_ ->]]; [|done]. by destruct (handed_rest s1 i) as (_ & _ & _ & _ & ->).
Qed.

Lemma pstep_inv s s' : p_inv s /\ kernel_saved s -> pstep s s' -> p_inv s' /\ kernel_saved s'.
Proof using Type*.
  intros [I Hk] Hs. destruct Hs as [fuel s path argc argv r s' E|s q r s' E|s regs Hu|s regs Hu|s regs Hu|s status regs t s' E|s m|s h Hh Hl].
  - apply create_result in E as [I' Hc]; [|done]. split; [done|]. assert (same_cpu s s') as [Ec Ek] by (destruct Hc as [[_ ?]|(k & _ & _ & _ & _ & _ & ? & ?)]; done).
    unfold kernel_saved. by rewrite Ec, Ek.
  - split; [by eapply inv_kill|]. destruct (process_kill_ok s q I) as [(i & K & s1 & _ & _ & _ & E1 & Hkl & _)|[E1 _]]; rewrite E1 in E; injection E as <- <-; [|done].
    unfold kernel_saved. by rewrite (kl_rest _ _ _ Hkl).
  - split; [by apply inv_schedule|]. destruct (process_schedule_cases s regs I) as [(next & _ & _ & _ & _ & ->)|[_ ->]]; [|done]. by apply saved_handed.
  - split; [by apply inv_yield|]. destruct (process_yield_cases s regs I) as [(next & _ & _ & ->)| ->]; [|done]. by apply saved_handed.
  - by apply irq_handler_ok.
  - apply inv_exit in E as [? Hc]; [|done]. split; [done|]. intros ?. lia.
  - split; [by apply (inv_fields s)|done].
  - split; [|done]. destruct I as [[_ Hl0 Ha] ? ? ? ? ? ? ? ? ?]. by split.
Qed.

Lemma process_init_inv s0 : a_inv (pr_heap s0) -> (forall i, proc_table s0 i = zero_process) -> p_inv (process_init s0).
Proof using Type.
  intros Hh Hz. assert (forall i, proc_table (process_init s0) i = zero_process) as Et by (intros i; cbn; rewrite Hz; by destruct (_ && _)).
  assert (forall i, ~ live (process_init s0) i) as Hl by (intros i [_ Hl]; by rewrite Et in Hl).
  split; try done; try (intros i ? Hi; by destruct (Hl i)); try (intros i Hi; by destruct (Hl i)).
  - split; [done|..]; intros i; rewrite Et; done.
  - intros i Hi. rewrite Et. by left.
  - by left.
  - intros i Hi. rewrite Et. cbn. split; [done|]. unfold in_table in Hi. lia.
  - intros i Hi. rewrite Et. cbn. lia.
Qed.

(** C10. From the initialization of the table on, whatever programs are created, killed, leave, yield or are
    preempted: exactly the current process, if any, is running and the pointer that the
    interrupt code uses names it; live processes have different numbers, each above its
    slot and above its parent's; stacks are live blocks of the heap that no two
    slots share.  In every such state killing returns; leaving does nothing when no
    process runs and otherwise returns to the kernel, whose context was saved: this
    is so because the registers at a switch or an interrupt have a program counter and a stack pointer,
    and the code would loop forever in a state without that context. *)
Theorem process_reachable_inv (s0 s : st) : a_inv (pr_heap s0) -> (forall i, proc_table s0 i = zero_process) ->
  star pstep (process_init s0) s ->
  p_inv s /\ (forall q, exists r s', process_kill s q = Ok (r, s')) /\
  (forall status regs, current_pid s < 0 -> process_exit s status regs = Ok (Stay, s)) /\
  (forall status regs, 0 <= current_pid s -> exists s', process_exit s status regs = Ok (SwitchTo None, s') /\ usable (kernel_context s')) /\
  (forall c status regs, 0 <= current_pid s -> ~ usable c -> process_exit (with_kernel_context s c) status regs = NoFuel).
Proof using Type*.
  intros Hh Hz Hs. assert (p_inv s /\ kernel_saved s) as [I Hk].
  { apply (star_inv pstep _ pstep_inv _ _ Hs). split; [by apply process_init_inv|]. intros Hc. cbn in Hc. lia. }
  split; [done|]. split; [|split; [|split]].
  - intros q. destruct (process_kill_ok s q I) as [(i & K & s' & _ & _ & _ & E & _)|[E _]]; rewrite E; by do 2 eexists.
  - intros status regs Hc. unfold process_exit. by rewrite (proj2 (Z.ltb_lt _ _)).
  - intros status regs Hc. destruct (Hk Hc) as [Hpc Hsp]. destruct (process_exit_ok s status regs I Hc Hpc Hsp) as (K & s1 & Hkl & _ & _ & E). rewrite E.
    eexists. split; [done|]. assert (current_pid s1 = current_pid s /\ kernel_context s1 = kernel_context s) as [Ec Ek] by (by rewrite (kl_rest _ _ _ Hkl)).
    unfold gone, save_context. rewrite Ec, (proj2 (Z.leb_le _ _)) by done. cbn. rewrite Ek. by split.
  - intros c status regs Hc Hu. apply exit_lost; [|done|done]. apply (inv_save s (-1) c I).
Qed.

(** ** The timer *)

Lemma tick s i : p_inv s -> in_table i -> ready s i -> has_context s i ->
  current_pid (process_schedule_from_irq s) = i \/
  (let s' := process_schedule_from_irq s in p_inv s' /\ ready s' i /\ has_context s' i /\ distance (current_pid s') i < distance (current_pid s) i).
Proof using Type.
  intros I Hi Hr Hc. destruct (irq_cases s I) as [(c & Hcin & Hcr & Hcc & Hnear & E)|[Hn _]]; [|by destruct (Hn i Hi Hr)]. rewrite E.
  destruct (handed_rest s c) as (Ec & _). destruct (decide (c = i)) as [->|Hne]; [by left|right]. cbv zeta.
  assert (i <> current_pid s) as Hicur.
  { intros ->. assert (p_state (proc_table s (current_pid s)) = PROC_STATE_RUNNING) by (by apply (pi_running _ I)). unfold ready in Hr. congruence. }
  split; [apply inv_handed; [done|]; split; [done|]; unfold ready in Hcr; by rewrite Hcr|].
  split; [unfold ready; rewrite handed_state, !decide_False by (tauto || congruence); done|].
  split; [unfold has_context; by destruct (handed_same s c i) as (_ & _ & _ & ->)|].
  specialize (Hnear i Hi Hr Hc). rewrite Ec. unfold distance, in_table, MAX_PROCESSES in *. rewrite (proj2 (Z.leb_le 0 c)) by lia.
  pose proof (pi_current _ I) as Hcur. unfold in_table, MAX_PROCESSES in Hcur.
  destruct (Z.leb_spec 0 (current_pid s)); lia_mod.
Qed.

(** C11. No ready program starves: when nothing but the timer happens, one that is ready and has a context
    runs after at most 16 calls of [process_schedule_from_irq], which the timer interrupt makes
    at every tick, each of them going to the next such slot around the table.  So a program
    keeps the processor for one tick while another one waits; the 20 ticks that [process.h] gives it
    are nowhere in the code. *)
Theorem irq_round_robin (s : st) (i : Z) : p_inv s -> in_table i -> ready s i -> has_context s i ->
  (exists n, (0 < n <= 16)%nat /\ current_pid (Nat.iter n process_schedule_from_irq s) = i) /\
  current_pid (process_schedule_from_irq s) <> current_pid s.
Proof using Type.
  intros I Hi Hr Hc.
  assert (forall (d : nat) s, p_inv s -> ready s i -> has_context s i -> distance (current_pid s) i < Z.of_nat d ->
    exists n, (0 < n <= d)%nat /\ current_pid (Nat.iter n process_schedule_from_irq s) = i) as Hd.
  { clear s I Hr Hc. induction d as [|d IH]; intros s I Hr Hc Hlt; [pose proof (distance_range (current_pid s) i); lia|].
    destruct (tick s i I Hi Hr Hc) as [E|(I' & Hr' & Hc' & Hlt')]; [exists 1%nat; split; [lia|exact E]|].
    destruct (IH _ I' Hr' Hc') as (n & Hn & E); [lia|]. exists (S n). split; [lia|]. by rewrite Nat.iter_succ_r. }
  split; [apply Hd; try done; pose proof (distance_range (current_pid s) i); unfold MAX_PROCESSES in *; lia|].
  destruct (irq_cases s I) as [(c & Hcin & Hcr & _ & _ & ->)|[Hn _]]; [|by destruct (Hn i Hi Hr)].
  destruct (handed_rest s c) as (-> & _). intros ->. assert (p_state (proc_table s (current_pid s)) = PROC_STATE_RUNNING) by (by apply (pi_running _ I)).
  unfold ready in Hcr. congruence.
Qed.

(** ** Killing *)

(** C12. Killing fails without any effect for a number that is not positive, that no live process
    has, or that is the running one's.  Otherwise exactly the process and those that
    descend from it, except the running one, are dead: their slots are free, their stacks
    are given back to the heap, and nothing else changes. *)
Theorem process_kill_correct (s : st) (q : Z) : p_inv s ->
  (process_kill s q = Ok (-1, s) /\ (q <= 0 \/ (forall i, live s i -> pid s i <> q) \/ exists i, running s = Some i /\ pid s i = q)) \/
  (exists i s', live s i /\ pid s i = q /\ process_kill s q = Ok (0, s') /\ p_inv s' /\
    (forall j, victims s i j -> proc_table s' j = dead (proc_table s j) /\ (stack s j <> 0 -> a_cap (pr_heap s') (stack s j) = None)) /\
    (forall j, ~ victims s i j -> proc_table s' j = proc_table s j) /\
    (forall p, (forall j, victims s i j -> stack s j <> p) -> a_cap (pr_heap s') p = a_cap (pr_heap s) p) /\
    current_pid s' = current_pid s /\ next_pid s' = next_pid s /\ pr_mem s' = pr_mem s).
Proof using Type*.
  intros I. destruct (process_kill_ok s q I) as [(i & K & s' & Hq & Hg & Hne & E & Hk & HK)|[E Hwhy]]; [right|left].
  - destruct (process_get_spec _ _ _ Hg) as [Hl Hp]. exists i, s'. do 3 (split; [done|]). split; [by eapply inv_kill|]. pose proof (kl_rest _ _ _ Hk) as Er.
    split; [|split; [|split; [|by rewrite Er]]].
    + intros j Hj%HK. rewrite (kl_table _ _ _ Hk), decide_True by done. split; [done|]. intros Hz. apply (kl_freed _ _ _ Hk); [done|by exists j].
    + intros j Hj. by rewrite (kl_table _ _ _ Hk), decide_False by (by rewrite HK).
    + intros p Hp'. apply (kl_kept _ _ _ Hk). intros j Hj%HK. by apply Hp'.
  - split; [done|]. destruct Hwhy as [?|[Hn|Hr]]; [by left|right; left|right; right].
    + intros i. by apply process_get_none.
    + destruct Hr as (i & Hg & Hr). exists i. split; [done|]. by apply process_get_spec in Hg as [_ ?].
Qed.

(** ** Children *)

(** A process that leaves never takes the programs it created with it, although the code says
    so: their [parent_pid] is the slot of the creator, which is always below its number, and
    the search compares it with numbers. *)
Theorem exit_spares_children (fuel : nat) (s s1 s2 : st) (path : list Z) (argc argv q status : Z) (regs : cpu_context) (t : transfer) :
  p_inv s -> 0 <= current_pid s -> create fuel s path argc argv = Ok (q, s1) -> 0 <= q -> process_exit s1 status regs = Ok (t, s2) ->
  exists k, live s2 k /\ pid s2 k = q /\ proc_table s2 k = proc_table s1 k.
Proof using Type*.
  intros I Hc Ecr Hq Eex. destruct (create_result _ _ _ _ _ _ _ _ _ _ _ _ _ I Ecr) as [I1 [[-> _]|(k & Hin & Hne & Hst & Hp & Hpar & Ecur & _)]]; [lia|].
  rewrite <- Ecur in Hc. exists k. destruct (runs_table s1 _ I1 eq_refl Hc) as [Hcin Hcrun].
  assert (live s1 (current_pid s1)) as Hlc by (split; [done|by rewrite Hcrun]). pose proof (pi_pid _ I1 _ Hlc) as [Hslot _].
  assert (live s1 k) as Hlk by (split; [done|]; by rewrite Hst).
  assert (~ descendant s1 (pid s1 (current_pid s1)) k) as Hnd.
  { intros Hd. inversion Hd as [? _ E|? j Hj _ E]; subst; [lia|]. pose proof (desc_younger _ _ _ (inv_family _ I1) Hj). lia. }
  assert (proc_table s2 k = proc_table s1 k) as Et; [|split; [destruct Hlk; split; [done|by rewrite Et]|]; split; [by rewrite Et|done]].
  destruct (exit_result s1 status regs t s2 I1 Eex) as [[? _]|(_ & K & s3 & Hk & HK & _ & ->)]; [lia|].
  assert (current_pid s3 = current_pid s1) as E3 by (by rewrite (kl_rest _ _ _ Hk)).
  unfold gone, save_context, upd_proc, set_proc. rewrite E3, (proj2 (Z.leb_le _ _)) by done. cbn. rewrite !fn_lookup_insert_ne by congruence.
  rewrite (kl_table _ _ _ Hk), decide_False; [done|]. intros [? _]%HK. done.
Qed.

(** ** Programs that do not exist *)

Definition unknown (path : list Z) : Prop := vn_size (file_of doom_binary doom_wad path) = 0.

Fixpoint creates (fuel : nat) (s : st) (paths : list (list Z)) : outcome (list Z * st) :=
  match paths with
  | [] => Ok ([], s)
  | p :: paths => r ← create fuel s p 0 0; q ← creates fuel r.2 paths; Ok (r.1 :: q.1, q.2)
  end.

Lemma create_unknown fuel s i path argc argv : find_free_slot_unlocked s = Some i -> - 2 ^ 31 <= next_pid s + 1 < 2 ^ 31 -> unknown path ->
  exists v, create fuel s path argc argv = Ok (-1, with_vfs (reserve s i) v).
Proof using Type.
  intros Hf Hn Hu. unfold process_create. rewrite Hf, int_arith_ok, bind_ok by done. cbv zeta.
  change (pr_vfs (with_next_pid _ _)) with (pr_vfs s). pose proof (vfs_lookup_ok doom_binary doom_wad (pr_vfs s) path) as Hlk.
  destruct (vfs_lookup _ _ (pr_vfs s) path) as [file v]. exists v. destruct Hlk as [(-> & _)|(Hfz & Hnode & _)]; [done|]. rewrite Hfz.
  unfold vfs_is_dir. rewrite Hfz, Hnode. cbn [of_option]. rewrite !bind_ok. unfold unknown in Hu. rewrite Hu. by rewrite orb_true_r.
Qed.

Lemma free_slot_after s n : 0 <= n < 16 -> (forall i, in_table i -> p_state (proc_table s i) = PROC_STATE_FREE <-> n <= i) -> find_free_slot_unlocked s = Some n.
Proof using Type.
  intros Hn Hfree. destruct (find_free_slot_unlocked s) as [i|] eqn:E.
  - destruct (free_slot_spec s i E) as (Hi & Hf & Hj). f_equal. apply Hfree in Hf; [|done]. destruct (decide (i = n)) as [|Hne]; [done|exfalso].
    apply (Hj n); [lia|]. apply Hfree; [unfold in_table, MAX_PROCESSES; lia|lia].
  - exfalso. pose proof (find_slot_none _ E n) as Hf. cbn in Hf. apply is_state_false in Hf; [|unfold in_table, MAX_PROCESSES; lia].
    apply Hf, Hfree; [unfold in_table, MAX_PROCESSES; lia|lia].
Qed.

(** The first [n] slots are taken by failed creations. *)
Definition leaked s0 s (n : Z) : Prop := forall i, in_table i ->
  p_state (proc_table s i) = (if i <? n then PROC_STATE_READY else PROC_STATE_FREE) /\ p_context (proc_table s i) = p_context (proc_table s0 i).

Lemma leaked_one s0 s n v : leaked s0 s n -> 0 <= n < 16 -> leaked s0 (with_vfs (reserve s n) v) (n + 1).
Proof using Type.
  intros Hl Hn i Hi. destruct (Hl i Hi) as [Hs Hc]. unfold reserve, upd_proc, set_proc. cbn [proc_table with_vfs with_next_pid with_table].
  destruct (decide (i = n)) as [->|Hne]; [rewrite fn_lookup_insert|rewrite fn_lookup_insert_ne by done; rewrite Hs].
  - rewrite (proj2 (Z.ltb_lt _ _)) by lia. done.
  - split; [|done]. destruct (Z.ltb_spec i n), (Z.ltb_spec i (n + 1)); done || lia.
Qed.

Lemma leaked_full fuel s0 s n path argc argv : leaked s0 s n -> 16 <= n -> create fuel s path argc argv = Ok (-1, s).
Proof using Type.
  intros Hl Hn. unfold process_create. destruct (find_free_slot_unlocked s) as [i|] eqn:E; [|done]. exfalso.
  destruct (free_slot_spec s i E) as (Hi & Hf & _). destruct (Hl i Hi) as [Hs _]. unfold in_table, MAX_PROCESSES in Hi. rewrite (proj2 (Z.ltb_lt _ _)) in Hs by lia. congruence.
Qed.

Lemma creates_leak fuel s0 paths : forall s n, p_inv s -> 0 <= n -> leaked s0 s n -> current_pid s = -1 -> Forall unknown paths ->
  next_pid s + Z.of_nat (length paths) < 2 ^ 31 ->
  exists s', creates fuel s paths = Ok (replicate (length paths) (-1), s') /\ p_inv s' /\ current_pid s' = -1 /\
    leaked s0 s' (n + Z.of_nat (length paths)).
Proof using Type*.
  induction paths as [|path paths IH]; intros s n I Hn Hl Hc Hu Hp; cbn [creates length replicate].
  { exists s. split; [done|]. rewrite Z.add_0_r. done. }
  apply Forall_cons in Hu as [Hu Hus]. cbn [length] in Hp. pose proof (pi_next _ I).
  replace (n + Z.of_nat (S (length paths))) with (n + 1 + Z.of_nat (length paths)) by lia.
  destruct (Z.lt_ge_cases n 16) as [Hlt|Hge].
  - assert (find_free_slot_unlocked s = Some n) as Hf.
    { apply free_slot_after; [lia|]. intros i Hi. destruct (Hl i Hi) as [-> _]. destruct (Z.ltb_spec i n); split; done || lia. }
    destruct (create_unknown fuel s n path 0 0 Hf) as (v & E); [lia|done|]. rewrite E, bind_ok. cbn [fst snd].
    destruct (create_result _ _ _ _ _ _ _ _ _ _ _ _ _ I E) as [I' _].
    destruct (IH (with_vfs (reserve s n) v) (n + 1) I') as (s' & Es & ?); [lia|by apply leaked_one|done|done|cbn; lia|].
    exists s'. rewrite Es, bind_ok. done.
  - rewrite (leaked_full fuel s0 s n path 0 0 Hl Hge), bind_ok. cbn [fst snd].
    destruct (IH s (n + 1) I) as (s' & Es & ?); [lia| |done|done|lia|].
    { intros i Hi. destruct (Hl i Hi) as [Hs Hcx]. split; [|done]. rewrite Hs. unfold in_table, MAX_PROCESSES in Hi.
      by rewrite !(proj2 (Z.ltb_lt _ _)) by lia. }
    exists s'. rewrite Es, bind_ok. done.
Qed.

(** Starting a program that does not exist fails, but keeps its slot, as a ready process with
    the context the slot had before.  From an empty table, one such call is enough
    for the next voluntary switch to jump to the context of slot 0, which nobody has set
    up; after 16 no program can be started any more. *)
Theorem missing_programs_fill_table (fuel : nat) (s : st) (paths : list (list Z)) :
  p_inv s -> current_pid s = -1 -> (forall i, in_table i -> p_state (proc_table s i) = PROC_STATE_FREE) -> Forall unknown paths -> paths <> [] ->
  next_pid s + Z.of_nat (length paths) < 2 ^ 31 ->
  exists s', creates fuel s paths = Ok (replicate (length paths) (-1), s') /\ p_inv s' /\
    (forall regs, (process_schedule s' regs).1 = SwitchTo (Some 0) /\
       p_context (proc_table (process_schedule s' regs).2 0) = p_context (proc_table s 0)) /\
    (16 <= Z.of_nat (length paths) -> forall path argc argv, create fuel s' path argc argv = Ok (-1, s')).
Proof using Type*.
  intros I Hc Hfree Hu Hne Hp. destruct (creates_leak fuel s paths s 0 I) as (s' & E & I' & Hc' & Hl); try done.
  { intros i Hi. unfold in_table in Hi. rewrite (proj2 (Z.ltb_ge _ _)) by lia. by rewrite Hfree. }
  exists s'. split; [done|]. split; [done|]. assert (in_table 0) as Hin0 by (unfold in_table, MAX_PROCESSES; lia). split.
  - intros regs. destruct (Hl 0 Hin0) as [Hs Hcx]. assert (0 < length paths)%nat by (destruct paths; [done|simpl; lia]).
    rewrite (proj2 (Z.ltb_lt _ _)) in Hs by lia.
    destruct (process_schedule_cases s' regs I') as [(next & Hin & Hr & _ & Hnear & Es)|[Hno _]]; [|by destruct (Hno 0 Hin0)].
    assert (next = 0) as ->.
    { specialize (Hnear 0 Hin0 Hs). rewrite Hc' in Hnear. change (distance (-1) 0) with 0 in Hnear.
      assert (distance (-1) next = next) as Ed; [|unfold in_table in Hin; lia]. unfold distance. change (if 0 <=? -1 then _ else 0) with 0.
      rewrite Z.sub_0_r. apply Z.mod_small. exact Hin. }
    rewrite Es. split; [done|]. rewrite Hc'. destruct (handed_same s' 0 0) as (_ & _ & _ & Ec). rewrite <- Hcx, <- Ec. reflexivity.
  - intros Hlen path argc argv. apply (leaked_full fuel s s' _ path argc argv Hl). lia.
Qed.
End theorems.

(** ** Address randomization *)

(** The load address of a program says where the next one goes: each offset is a fixed
    function of the one before, since the low 16 bits of the generator only depend on
    its low 16 bits. *)
Theorem aslr_predictable (e1 e2 : Z) (a a1 a2 : aslr) (o1 o2 : Z) : aslr_initialized a = true ->
  aslr_exec_offset e1 e2 a = (o1, a1) -> aslr_exec_offset e1 e2 a1 = (o2, a2) ->
  o2 = (o1 / 2 ^ 16 * LCG_MULTIPLIER + LCG_INCREMENT) mod 2 ^ 16 * 2 ^ 16.
Proof.
  unfold aslr_exec_offset, aslr_random, ASLR_EXEC_BITS. intros Hi. rewrite Hi. cbn [next_random]. intros [= <- <-]. cbn [aslr_initialized].
  rewrite Hi. cbn [next_random aslr_seed]. intros [= <- _]. rewrite !offset_of_spec by lia. set (r := u64 (aslr_seed a * _ + _)).
  rewrite Z.div_mul by done. f_equal. unfold u64.
  rewrite Z.mod_mod_divide by (exists (2 ^ 48); done).
  rewrite <- (Zplus_mod_idemp_l (r * _)), <- (Zmult_mod_idemp_l r), Zplus_mod_idemp_l. done.
Qed.

(** ** A concrete table

    Slot 0 runs, slot 1 is ready; the built-in program is a small image that is loaded to
    0x4000. *)

Definition runner : process := Process 2 [47; 97] PROC_STATE_RUNNING 0 0 0 0 0x4000 (Context 0x4000 0x5000 0x3c5 []) 0 (-1).
Definition waiter : process := Process 4 [47; 98] PROC_STATE_READY 0 0 0 0 0x4000 (Context 0x4000 0x6000 0x3c5 []) 0 0.

Definition boot_procs : procs Kmalloc.heap :=
  Procs (fun _ => zero_process) 0 None 0 0 (Context 0x40080000 0x5f000000 0x3c5 []) (boot_heap (2 ^ 30)) exec_mem compat_boot (Aslr 1 true).
Definition two_procs : procs Kmalloc.heap :=
  Procs (<[0 := runner]> (<[1 := waiter]> (fun _ => zero_process))) 0 (Some 0) 5 0x44000000 (Context 0x40080000 0x5f000000 0x3c5 [])
    (boot_heap (2 ^ 30)) exec_mem compat_boot (Aslr 1 true).

Lemma two_procs_table i : proc_table two_procs i = if decide (i = 0) then runner else if decide (i = 1) then waiter else zero_process.
Proof.
  cbn. destruct (decide (i = 0)) as [->|]; [by rewrite fn_lookup_insert|]. rewrite fn_lookup_insert_ne by congruence.
  destruct (decide (i = 1)) as [->|]; [by rewrite fn_lookup_insert|]. by rewrite fn_lookup_insert_ne by congruence.
Qed.

Lemma two_procs_inv : p_inv two_procs.
Proof.
  assert (forall i, live two_procs i -> i = 0 \/ i = 1) as Hl by (intros i [_ Hl]; rewrite two_procs_table in Hl; repeat case_decide; by auto).
  split; try (intros i Hi; rewrite two_procs_table).
  - split; [apply boot_heap_inv|..]; intros i; rewrite two_procs_table; by repeat case_decide.
  - repeat case_decide; [by right; right; left|by right; left|by left].
  - by right.
  - done.
  - cbn. repeat case_decide; subst; cbn; split; done || lia.
  - destruct (Hl i Hi) as [-> | ->]; vm_compute; by split.
  - intros Hj Hk. rewrite !two_procs_table. destruct (Hl _ Hj) as [-> | ->], (Hl _ Hk) as [-> | ->]; done.
  - destruct (Hl i Hi) as [-> | ->]; vm_compute; done.
  - repeat case_decide; done.
  - done.
Qed.

Lemma boot_procs_heap : a_inv (pr_heap boot_procs).
Proof. apply boot_heap_inv. Qed.

(** A machine on which no context of the kernel has been saved yet: a program is started, an interrupt switches to it and
    it starts another one; an interrupt and a yield go to the other one and back, the first kills the other one, and leaves. *)
Definition fresh_procs : procs Kmalloc.heap :=
  Procs (fun _ => zero_process) 0 None 0 0 zero_context (boot_heap (2 ^ 30)) exec_mem compat_boot (Aslr 1 true).
Definition boot_regs : cpu_context := Context 0x40080000 0x5f000000 0x3c5 [].
Definition user_regs : cpu_context := Context 0x44000000 0x45000000 0x3c5 [].
Definition start (s : procs Kmalloc.heap) : outcome (Z * procs Kmalloc.heap) := process_create exec_img [] 0x40090000 0 0 0 10 s bin_doom 0 0.
Definition first_started : outcome (Z * procs Kmalloc.heap) := start (process_init fresh_procs).
Definition both_started (s : procs Kmalloc.heap) : outcome (Z * procs Kmalloc.heap) := start (irq_handler s boot_regs).
Definition back_again (s : procs Kmalloc.heap) : outcome (Z * procs Kmalloc.heap) :=
  process_kill (process_yield (irq_handler s user_regs) user_regs).2 4.

Definition view (s : procs Kmalloc.heap) := (map (fun i => (p_pid (proc_table s i), p_state (proc_table s i), p_parent_pid (proc_table s i))) [0; 1; 2], current_pid s).

Lemma process_reachable_inv_witness : exists s s', star (pstep exec_img [] 0x40090000 0 0 0) (process_init fresh_procs) s /\ p_inv s /\
  view s = ([(2, PROC_STATE_RUNNING, -1); (0, PROC_STATE_FREE, 0); (0, PROC_STATE_FREE, 0)], 0) /\ process_exit s 0 user_regs = Ok (SwitchTo None, s').
Proof.
  assert (match first_started with Ok (_, s) => match both_started s with Ok (_, s) => match back_again s with Ok (_, s) => Some (view s) | _ => None end | _ => None end | _ => None end
    = Some ([(2, PROC_STATE_RUNNING, -1); (0, PROC_STATE_FREE, 0); (0, PROC_STATE_FREE, 0)], 0)) as Hv by (vm_compute; reflexivity).
  destruct first_started as [[q1 s1]| |] eqn:E1; [|discriminate Hv..]. destruct (both_started s1) as [[q2 s2]| |] eqn:E2; [|discriminate Hv..].
  destruct (back_again s2) as [[q3 s]| |] eqn:E3; [|discriminate Hv..]. apply (inj Some) in Hv.
  pose proof (step_create exec_img [] 0x40090000 0 0 0 10 (process_init fresh_procs) bin_doom 0 0 q1 s1 E1) as P1.
  pose proof (step_irq exec_img [] 0x40090000 0 0 0 s1 boot_regs ltac:(by split)) as P2.
  pose proof (step_create exec_img [] 0x40090000 0 0 0 10 (irq_handler s1 boot_regs) bin_doom 0 0 q2 s2 E2) as P3.
  pose proof (step_irq exec_img [] 0x40090000 0 0 0 s2 user_regs ltac:(by split)) as P4.
  pose proof (step_yield exec_img [] 0x40090000 0 0 0 (irq_handler s2 user_regs) user_regs ltac:(by split)) as P5.
  pose proof (step_kill exec_img [] 0x40090000 0 0 0 _ 4 q3 s E3) as P6.
  pose proof (star_step _ _ _ _ (star_step _ _ _ _ (star_step _ _ _ _ (star_step _ _ _ _ (star_step _ _ _ _ (star_step _ _ _ _ (star_refl _ _) P1) P2) P3) P4) P5) P6) as Hs.
  destruct (process_reachable_inv exec_img [] 0x40090000 0 0 0 fresh_procs s boot_procs_heap (fun _ => eq_refl) Hs) as (I & _ & _ & Hx & _).
  assert (current_pid s = 0) as Hc by (change (snd (view s) = 0); by rewrite Hv).
  destruct (Hx 0 user_regs) as (s' & E & _); [by rewrite Hc|]. exists s, s'. split; [exact Hs|]. split; [exact I|]. split; [exact Hv|exact E].
Defined.

Lemma irq_round_robin_witness : exists n, (0 < n <= 16)%nat /\ current_pid (Nat.iter n process_schedule_from_irq two_procs) = 1.
Proof. destruct (irq_round_robin two_procs 1 two_procs_inv) as [E _]; [split; done|reflexivity|split; done|exact E]. Defined.

Lemma process_kill_correct_witness : exists s', process_kill two_procs 4 = Ok (0, s') /\ p_state (proc_table s' 1) = PROC_STATE_FREE.
Proof.
  destruct (process_kill_correct two_procs 4 two_procs_inv) as [[E _]|(i & s' & Hl & Hp & E & _ & Hv & _)]; [vm_compute in E; discriminate E|].
  exists s'. split; [exact E|]. assert (i = 1) as ->.
  { destruct Hl as [_ Hl]. rewrite two_procs_table in *. destruct (decide (i = 0)) as [->|]; [discriminate Hp|]. destruct (decide (i = 1)); [assumption|]. by destruct Hl. }
  destruct (Hv 1) as [-> _]; [by left|reflexivity].
Defined.

(** Slot 0 starts the built-in program. *)
Definition created : outcome (Z * procs Kmalloc.heap) := process_create exec_img [] 0x40090000 0 0 0 10 two_procs bin_doom 0 0.
Definition with_child : procs Kmalloc.heap := match created with Ok r => snd r | _ => two_procs end.

Lemma created_ok : created = Ok (6, with_child).
Proof.
  assert (match created with Ok r => fst r =? 6 | _ => false end = true) as Hf by (vm_compute; reflexivity).
  unfold with_child. destruct created as [[q s]| |]; [|discriminate Hf..]. apply Z.eqb_eq in Hf. cbn in Hf. by subst.
Qed.

Lemma exit_spares_children_witness : exists k t s2, process_exit with_child 0 zero_context = Ok (t, s2) /\ p_pid (proc_table s2 k) = 6.
Proof.
  destruct (create_result exec_img [] 0x40090000 0 0 0 10 two_procs bin_doom 0 0 6 with_child two_procs_inv created_ok)
    as [I1 [[? _]|(j & _ & _ & _ & _ & _ & Ec & Ek)]]; [discriminate|].
  destruct (process_exit_ok with_child 0 zero_context I1) as (K & s1 & _ & _ & _ & E); [rewrite Ec; discriminate|rewrite Ek; discriminate|rewrite Ek; discriminate|].
  destruct (exit_spares_children exec_img [] 0x40090000 0 0 0 10 two_procs with_child _ bin_doom 0 0 6 0 zero_context _ two_procs_inv
    ltac:(discriminate) created_ok ltac:(discriminate) E) as (k & _ & Hp & _).
  exists k. do 2 eexists. split; [exact E|exact Hp].
Defined.

Lemma missing_programs_fill_table_witness : exists s', creates exec_img [] 0x40090000 0 0 0 10 (process_init boot_procs) (replicate 16 [47; 120]) = Ok (replicate 16 (-1), s') /\
  process_create exec_img [] 0x40090000 0 0 0 10 s' bin_doom 0 0 = Ok (-1, s').
Proof.
  destruct (missing_programs_fill_table exec_img [] 0x40090000 0 0 0 10 (process_init boot_procs) (replicate 16 [47; 120])) as (s' & E & _ & _ & Hfull).
  - apply process_init_inv; [apply boot_heap_inv|done].
  - reflexivity.
  - intros i _. cbn. by destruct (_ && _).
  - repeat constructor.
  - discriminate.
  - reflexivity.
  - exists s'. split; [exact E|]. apply Hfull. vm_compute. discriminate.
Defined.

Lemma aslr_predictable_witness : exists a1 a2, aslr_exec_offset 0 0 (Aslr 1 true) = (0x7c0000, a1) /\ aslr_exec_offset 0 0 a1 = (0x1b1b0000, a2).
Proof.
  assert (aslr_exec_offset 0 0 (Aslr 1 true) = (0x7c0000, Aslr 7806831264735756412 true)) as E1 by reflexivity.
  destruct (aslr_exec_offset 0 0 (Aslr 7806831264735756412 true)) as [o2 a2] eqn:E2. do 2 eexists. split; [exact E1|].
  rewrite E2.   rewrite (aslr_predictable 0 0 (Aslr 1 true) _ a2 _ o2 eq_refl E1 E2). reflexivity.
Defined.
