(* ===== verification/Surface.v ===== *)
(** * Drawing (src/kernel/gui/window.c)

    The pixel buffers of the screen and of the windows are lists of 32-bit words, found by
    their address; drawing goes to the buffer that is set as the target, clipped to its size.  What a
    drawing operation does is stated as a picture: a function from points to colours, applied to the
    target by [painted]. *)
From S2P Require Import Prelude.
#[local] Open Scope Z_scope.

(** ** Pixel buffers *)

Abbreviation pixels := (list Z).
Definition px_get (b : pixels) (i : Z) : outcome Z := if i <? 0 then Fault else of_option (b !! Z.to_nat i).
Definition px_set (b : pixels) (i v : Z) : outcome pixels := if (0 <=? i) && (i <? Z.of_nat (length b)) then Ok (<[Z.to_nat i := v]> b) else Fault.

(** A loop over the columns of a row and one over the rows; [f] gives the new value of a
    word, [None] where the loop stores nothing. *)
Fixpoint col_loop (n : nat) (col base : Z) (f : Z -> outcome (option Z)) (b : pixels) : outcome pixels :=
  match n with
  | O => Ok b
  | S n => v ← f col; b ← match v with Some v => px_set b (base + col) v | None => Ok b end; col_loop n (col + 1) base f b
  end.

Fixpoint row_loop (n : nat) (row tx ty pitch : Z) (w : nat) (f : Z -> Z -> outcome (option Z)) (b : pixels) : outcome pixels :=
  match n with
  | O => Ok b
  | S n => r ← int_arith (ty + row); base ← int_arith (r * pitch); b ← col_loop w 0 (base + tx) (f row) b; row_loop n (row + 1) tx ty pitch w f b
  end.

(** ** The target *)

Record display := Display { d_width : Z; d_height : Z; d_pitch : Z; framebuffer : Z; backbuffer : Z }.
Record gui := Gui {
  disp : display;
  r_target : Z; r_width : Z; r_height : Z; r_pitch : Z; r_ox : Z; r_oy : Z;
  buffers : gmap Z pixels
}.
Definition with_buffers (s : gui) (m : gmap Z pixels) : gui := Gui (disp s) (r_target s) (r_width s) (r_height s) (r_pitch s) (r_ox s) (r_oy s) m.
Definition set_buffer (s : gui) (a : Z) (b : pixels) : gui := with_buffers s (<[a := b]> (buffers s)).
Definition get_buffer (s : gui) (a : Z) : outcome pixels := of_option (buffers s !! a).

Definition gui_get_target_buffer (s : gui) : Z :=
  if r_target s =? 0 then (if backbuffer (disp s) =? 0 then framebuffer (disp s) else backbuffer (disp s)) else r_target s.
Definition gui_get_target_width (s : gui) : Z := if r_target s =? 0 then i32 (d_width (disp s)) else r_width s.
Definition gui_get_target_height (s : gui) : Z := if r_target s =? 0 then i32 (d_height (disp s)) else r_height s.
Definition gui_get_target_pitch (s : gui) : Z := if r_target s =? 0 then d_pitch (disp s) / 4 else r_pitch s.

Definition gui_begin_surface (s : gui) (buffer width height pitch ox oy : Z) : gui := Gui (disp s) buffer width height pitch ox oy (buffers s).
Definition gui_end_surface (s : gui) : gui := Gui (disp s) 0 0 0 0 0 0 (buffers s).

(** ** Points and rectangles *)

Definition draw_pixel (s : gui) (x y color : Z) : outcome gui :=
  tx ← int_arith (x - r_ox s);
  ty ← int_arith (y - r_oy s);
  if (tx <? 0) || (gui_get_target_width s <=? tx) then Ok s
  else if (ty <? 0) || (gui_get_target_height s <=? ty) then Ok s
  else if gui_get_target_buffer s =? 0 then Ok s
  else
    base ← int_arith (ty * gui_get_target_pitch s);
    i ← int_arith (base + tx);
    b ← get_buffer s (gui_get_target_buffer s);
    b ← px_set b i color;
    Ok (set_buffer s (gui_get_target_buffer s) b).

(** The part of a range that is not negative, and the part below a limit. *)
Definition clip_low (t w : Z) : outcome (Z * Z) := if t <? 0 then w ← int_arith (w + t); Ok (0, w) else Ok (t, w).
Definition clip_high (t w limit : Z) : outcome Z := e ← int_arith (t + w); if limit <? e then int_arith (limit - t) else Ok w.

Definition gui_draw_rect (s : gui) (x y w h color : Z) : outcome gui :=
  let target := gui_get_target_buffer s in
  let width := gui_get_target_width s in
  let height := gui_get_target_height s in
  tx ← int_arith (x - r_ox s);
  ty ← int_arith (y - r_oy s);
  if (target =? 0) || (w <=? 0) || (h <=? 0) then Ok s
  else
    r ← clip_low tx w;
    let '(tx, w) := r in
    r ← clip_low ty h;
    let '(ty, h) := r in
    if (width <=? tx) || (height <=? ty) then Ok s
    else
      w ← clip_high tx w width;
      h ← clip_high ty h height;
      if (w <=? 0) || (h <=? 0) then Ok s
      else
        b ← get_buffer s target;
        b ← row_loop (Z.to_nat h) 0 tx ty (gui_get_target_pitch s) (Z.to_nat w) (fun _ _ => Ok (Some color)) b;
        Ok (set_buffer s target b).

Definition gui_draw_rect_outline (s : gui) (x y w h color thickness : Z) : outcome gui :=
  s ← gui_draw_rect s x y w thickness color;
  e ← int_arith (y + h); e ← int_arith (e - thickness);
  s ← gui_draw_rect s x e w thickness color;
  s ← gui_draw_rect s x y thickness h color;
  e ← int_arith (x + w); e ← int_arith (e - thickness);
  gui_draw_rect s e y thickness h color.

(** ** Lines *)

Fixpoint line_loop (fuel : nat) (s : gui) (x0 y0 x1 y1 dx dy sx sy err color : Z) : outcome gui :=
  match fuel with
  | O => NoFuel
  | S fuel =>
      s ← draw_pixel s x0 y0 color;
      if (x0 =? x1) && (y0 =? y1) then Ok s
      else
        e2 ← int_arith (2 * err);
        r ← (if - dy <? e2 then e ← int_arith (err - dy); x ← int_arith (x0 + sx); Ok (e, x) else Ok (err, x0));
        let '(err, x0) := r in
        r ← (if e2 <? dx then e ← int_arith (err + dx); y ← int_arith (y0 + sy); Ok (e, y) else Ok (err, y0));
        let '(err, y0) := r in
        line_loop fuel s x0 y0 x1 y1 dx dy sx sy err color
  end.

(** The loop ends after as many steps as the larger distance has points. *)
Definition gui_draw_line (s : gui) (x0 y0 x1 y1 color : Z) : outcome gui :=
  dx ← int_arith (if x0 <? x1 then x1 - x0 else x0 - x1);
  dy ← int_arith (if y0 <? y1 then y1 - y0 else y0 - y1);
  err ← int_arith (dx - dy);
  line_loop (S (Z.to_nat (Z.max dx dy))) s x0 y0 x1 y1 dx dy (if x0 <? x1 then 1 else -1) (if y0 <? y1 then 1 else -1) err color.

(** ** Text *)

Definition FONT_WIDTH : Z := 8.
Definition FONT_HEIGHT : Z := 16.

Section text.
(** The font (gui/font.c): the rows of a glyph, the left pixel in the highest bit. *)
Context (font_data : Z -> Z -> Z).

Definition glyph_color (c row col fg bg : Z) : Z := if Z.land (font_data c row) (Z.shiftr 0x80 col) =? 0 then bg else fg.

(** A character that does not fit is not drawn at all. *)
Definition outside (t size limit : Z) : outcome bool := if t <? 0 then Ok true else e ← int_arith (t + size); Ok (limit <? e).
Definition char_outside (s : gui) (tx ty : Z) : outcome bool :=
  o ← outside tx FONT_WIDTH (gui_get_target_width s);
  if o : bool then Ok true else outside ty FONT_HEIGHT (gui_get_target_height s).

Definition gui_draw_char (s : gui) (x y c fg bg : Z) : outcome gui :=
  tx ← int_arith (x - r_ox s);
  ty ← int_arith (y - r_oy s);
  o ← char_outside s tx ty;
  let target := gui_get_target_buffer s in
  if o : bool then Ok s
  else if target =? 0 then Ok s
  else
    b ← get_buffer s target;
    b ← row_loop (Z.to_nat FONT_HEIGHT) 0 tx ty (gui_get_target_pitch s) (Z.to_nat FONT_WIDTH) (fun row col => Ok (Some (glyph_color (u8 c) row col fg bg))) b;
    Ok (set_buffer s target b).

(** [str] without its zero. *)
Fixpoint string_loop (s : gui) (start_x x y : Z) (str : list Z) (fg bg : Z) : outcome gui :=
  match str with
  | [] => Ok s
  | c :: str =>
      if c =? 10 then y ← int_arith (y + FONT_HEIGHT); string_loop s start_x start_x y str fg bg
      else
        tx ← int_arith (x - r_ox s);
        ty ← int_arith (y - r_oy s);
        o ← char_outside s tx ty;
        s ← (if o : bool then Ok s else gui_draw_char s x y c fg bg);
        x ← int_arith (x + FONT_WIDTH);
        string_loop s start_x x y str fg bg
  end.
Definition gui_draw_string (s : gui) (x y : Z) (str : list Z) (fg bg : Z) : outcome gui := string_loop s x x y str fg bg.
End text.

(** ** Pictures *)

Abbreviation picture := (Z -> Z -> option Z).
Definition over (g' g : picture) : picture := fun x y => match g' x y with Some v => Some v | None => g x y end.
Definition point (x y color : Z) : picture := fun x' y' => if (x' =? x) && (y' =? y) then Some color else None.
Definition in_rect (x y w h x' y' : Z) : bool := (x <=? x') && (x' <? x + w) && (y <=? y') && (y' <? y + h).
Definition rect (x y w h color : Z) : picture := fun x' y' => if in_rect x y w h x' y' then Some color else None.
Definition dots (ps : list (Z * Z)) (color : Z) : picture := fun x y => if bool_decide ((x, y) ∈ ps) then Some color else None.

(** The words of a buffer after a picture; words beyond the width of a row keep their value. *)
Definition painted (pitch w h ox oy : Z) (g : picture) (b : pixels) : pixels :=
  imap (fun k v => let c := Z.of_nat k mod pitch in let r := Z.of_nat k / pitch in
    if (c <? w) && (r <? h) then default v (g (c + ox) (r + oy)) else v) b.

Definition paint (s : gui) (g : picture) : gui :=
  let a := gui_get_target_buffer s in
  match buffers s !! a with
  | Some b => set_buffer s a (painted (gui_get_target_pitch s) (gui_get_target_width s) (gui_get_target_height s) (r_ox s) (r_oy s) g b)
  | None => s
  end.

(** A target whose rows lie in its buffer. *)
Record good_target (s : gui) : Prop := {
  gt_target : gui_get_target_buffer s <> 0;
  gt_buffer : exists b, buffers s !! gui_get_target_buffer s = Some b /\ gui_get_target_height s * gui_get_target_pitch s <= Z.of_nat (length b) <= 2 ^ 30;
  gt_width : 0 <= gui_get_target_width s <= gui_get_target_pitch s;
  gt_height : 0 <= gui_get_target_height s <= 2 ^ 28;
  gt_pitch : 0 < gui_get_target_pitch s <= 2 ^ 28;
  gt_origin : - 2 ^ 28 <= r_ox s <= 2 ^ 28 /\ - 2 ^ 28 <= r_oy s <= 2 ^ 28
}.

(** Coordinates for which no sum overflows. *)
Definition near (v : Z) : Prop := - 2 ^ 28 <= v <= 2 ^ 28.

Lemma painted_length pitch w h ox oy g b : length (painted pitch w h ox oy g b) = length b.
Proof. apply length_imap. Qed.

Lemma painted_lookup pitch w h ox oy g b k :
  painted pitch w h ox oy g b !! k = (fun v => if (Z.of_nat k mod pitch <? w) && (Z.of_nat k / pitch <? h) then default v (g (Z.of_nat k mod pitch + ox) (Z.of_nat k / pitch + oy)) else v) <$> b !! k.
Proof. unfold painted. by rewrite list_lookup_imap. Qed.

Lemma painted_over pitch w h ox oy g g' b : painted pitch w h ox oy g' (painted pitch w h ox oy g b) = painted pitch w h ox oy (over g' g) b.
Proof.
  apply list_eq. intros k. rewrite !painted_lookup, <- option_fmap_compose. destruct (b !! k) as [v|]; [|done]. cbn. f_equal. unfold over.
  destruct ((_ <? w) && _); [|done]. by destruct (g' _ _).
Qed.

Lemma painted_ext pitch w h ox oy (g g' : picture) b :
  (forall c r, 0 <= c < w -> 0 <= r < h -> g (c + ox) (r + oy) = g' (c + ox) (r + oy)) -> 0 < pitch -> painted pitch w h ox oy g b = painted pitch w h ox oy g' b.
Proof.
  intros Hg Hp. apply list_eq. intros k. rewrite !painted_lookup. destruct (b !! k) as [v|]; [|done]. cbn. f_equal.
  destruct (Z.ltb_spec (Z.of_nat k mod pitch) w); [|done]. destruct (Z.ltb_spec (Z.of_nat k / pitch) h); [|done]. cbn [andb]. rewrite Hg; [done| |].
  - pose proof (Z.mod_pos_bound (Z.of_nat k) pitch). lia. - split; [apply Z.div_pos; lia|done].
Qed.

Lemma painted_none pitch w h ox oy b : painted pitch w h ox oy (fun _ _ => None) b = b.
Proof. apply list_eq. intros k. rewrite painted_lookup. destruct (b !! k) as [v|]; [|done]. cbn. by destruct (_ && _). Qed.

(** ** Painting a target *)

Lemma target_set s a b : gui_get_target_buffer (set_buffer s a b) = gui_get_target_buffer s.
Proof. done. Qed.

Lemma paint_over s g g' : paint (paint s g) g' = paint s (over g' g).
Proof.
  unfold paint at 2 3. destruct (buffers s !! gui_get_target_buffer s) as [b|] eqn:E; [|unfold paint; by rewrite E].
  unfold paint. rewrite target_set. cbn [buffers set_buffer with_buffers]. rewrite lookup_insert_eq. unfold set_buffer, with_buffers. cbn. f_equal. rewrite insert_insert_eq. f_equal. apply painted_over.
Qed.

Lemma paint_good s g : good_target s -> good_target (paint s g).
Proof.
  intros [Ht (b & Eb & Hl) Hw Hh Hp Ho]. unfold paint. rewrite Eb. split; try done. rewrite target_set. cbn [buffers set_buffer with_buffers].
  eexists. split; [apply lookup_insert_eq|]. by rewrite painted_length.
Qed.

Lemma paint_target s g : gui_get_target_width (paint s g) = gui_get_target_width s /\ gui_get_target_height (paint s g) = gui_get_target_height s /\
  r_ox (paint s g) = r_ox s /\ r_oy (paint s g) = r_oy s.
Proof. unfold paint. by destruct (buffers s !! _). Qed.

Lemma paint_ext s g g' : good_target s ->
  (forall x y, 0 <= x - r_ox s < gui_get_target_width s -> 0 <= y - r_oy s < gui_get_target_height s -> g x y = g' x y) -> paint s g = paint s g'.
Proof.
  intros Hs Hg. unfold paint. destruct (buffers s !! _) as [b|]; [|done]. f_equal. apply painted_ext; [|apply gt_pitch; done]. intros c r Hc Hr. apply Hg; lia.
Qed.

Lemma paint_none s g : good_target s ->
  (forall x y, 0 <= x - r_ox s < gui_get_target_width s -> 0 <= y - r_oy s < gui_get_target_height s -> g x y = None) -> paint s g = s.
Proof.
  intros Hs Hg. rewrite (paint_ext s g (fun _ _ => None) Hs Hg). unfold paint. destruct (buffers s !! _) as [b|] eqn:E; [|done].
  rewrite painted_none. unfold set_buffer. rewrite insert_id by done. by destruct s.
Qed.

(** ** The loops *)

Lemma px_set_ok b i v : 0 <= i < Z.of_nat (length b) -> px_set b i v = Ok (<[Z.to_nat i := v]> b).
Proof. intros Hi. unfold px_set. by rewrite (proj2 (Z.leb_le _ _)), (proj2 (Z.ltb_lt _ _)) by lia. Qed.

Definition span (lo n k : Z) : bool := (lo <=? k) && (k <? lo + n).

Lemma span_iff lo n k : span lo n k = true <-> lo <= k < lo + n.
Proof. unfold span. rewrite andb_true_iff, Z.leb_le, Z.ltb_lt. lia. Qed.

Lemma span_split lo n k : 0 <= n -> span lo (n + 1) k = (k =? lo) || span (lo + 1) n k.
Proof. intros Hn. apply eq_true_iff_eq. rewrite orb_true_iff, !span_iff, Z.eqb_eq. lia. Qed.

Lemma col_loop_ok f (g : Z -> option Z) n : forall col base b, 0 <= base + col -> base + col + Z.of_nat n <= Z.of_nat (length b) ->
  (forall c, col <= c < col + Z.of_nat n -> f c = Ok (g c)) ->
  exists b', col_loop n col base f b = Ok b' /\ length b' = length b /\
    forall k : nat, b' !! k = (fun v => if span (base + col) (Z.of_nat n) (Z.of_nat k) then default v (g (Z.of_nat k - base)) else v) <$> b !! k.
Proof.
  induction n as [|n IH]; intros col base b Hlo Hhi Hf; cbn [col_loop].
  { exists b. split; [done|]. split; [done|]. intros k. destruct (b !! k); [|done]. cbn. destruct (span _ _ _) eqn:E; [|done]. apply span_iff in E. lia. }
  rewrite Hf, bind_ok by lia.
  set (b1 := match g col with Some v => <[Z.to_nat (base + col) := v]> b | None => b end).
  assert (match g col with Some v => px_set b (base + col) v | None => Ok b end = Ok b1) as -> by (unfold b1; destruct (g col); [by apply px_set_ok; lia|done]).
  assert (length b1 = length b) as Hl by (unfold b1; destruct (g col); [apply length_insert|done]).
  assert (forall k : nat, b1 !! k = (fun v => if Z.of_nat k =? base + col then default v (g col) else v) <$> b !! k) as Hb1.
  { intros k. unfold b1. destruct (Z.eqb_spec (Z.of_nat k) (base + col)) as [E|E].
    - assert (k = Z.to_nat (base + col)) as -> by lia. destruct (lookup_lt_is_Some_2 b (Z.to_nat (base + col))) as [v Ev]; [lia|]. rewrite Ev.
      destruct (g col); [by rewrite list_lookup_insert_eq by lia|done].
    - destruct (g col); [rewrite list_lookup_insert_ne by lia|]; by destruct (b !! k). }
  rewrite bind_ok. destruct (IH (col + 1) base b1) as (b' & E & Hl' & Hb'); [lia|lia|intros c Hc; apply Hf; lia|]. exists b'. split; [done|]. split; [congruence|].
  intros k. rewrite Hb', Hb1. destruct (b !! k) as [v|]; [|done]. cbn. f_equal. rewrite Nat2Z.inj_succ, <- Z.add_1_r, span_split by lia. replace (base + (col + 1)) with (base + col + 1) by lia.
  destruct (Z.eqb_spec (Z.of_nat k) (base + col)) as [Ek|Ek]; cbn [orb]; [|done]. destruct (span (base + col + 1) _ _) eqn:Es; [apply span_iff in Es; lia|]. by replace (Z.of_nat k - base) with col by lia.
Qed.

(** A word of a row, by its row and column. *)
Lemma word_split pitch tx w r k : 0 <= tx -> tx + w <= pitch -> 0 < pitch ->
  span (r * pitch + tx) w k = (k / pitch =? r) && span tx w (k mod pitch).
Proof.
  intros Htx Hw Hp. pose proof (Z.div_mod k pitch). pose proof (Z.mod_pos_bound k pitch). apply eq_true_iff_eq. rewrite andb_true_iff, !span_iff, Z.eqb_eq. split.
  - intros Hk. assert (k / pitch = r) as E; [|split; [done|nia]]. symmetry. apply (Z.div_unique k pitch r (k - r * pitch)); [left; lia|lia].
  - intros [<- Hm]. nia.
Qed.

Definition in_block (tx w ty h pitch k : Z) : bool := span ty h (k / pitch) && span tx w (k mod pitch).

Lemma row_loop_ok f (g : Z -> Z -> option Z) tx ty pitch w n : forall row b, 0 <= tx -> tx + Z.of_nat w <= pitch -> 0 < pitch -> 0 <= ty + row -> 0 <= row ->
  (ty + row + Z.of_nat n) * pitch <= Z.of_nat (length b) <= 2 ^ 30 ->
  (forall r c, row <= r < row + Z.of_nat n -> 0 <= c < Z.of_nat w -> f r c = Ok (g r c)) ->
  exists b', row_loop n row tx ty pitch w f b = Ok b' /\ length b' = length b /\
    forall k : nat, b' !! k = (fun v => if in_block tx (Z.of_nat w) (ty + row) (Z.of_nat n) pitch (Z.of_nat k) then default v (g (Z.of_nat k / pitch - ty) (Z.of_nat k mod pitch - tx)) else v) <$> b !! k.
Proof.
  induction n as [|n IH]; intros row b Htx Hw Hp Hty Hrow Hb Hf; cbn [row_loop].
  { exists b. split; [done|]. split; [done|]. intros k. destruct (b !! k); [|done]. cbn. unfold in_block. destruct (span (ty + row) _ _) eqn:E; [apply span_iff in E; lia|done]. }
  rewrite Nat2Z.inj_succ in *. rewrite int_arith_ok by nia. rewrite bind_ok, int_arith_ok by nia. rewrite bind_ok.
  destruct (col_loop_ok (f row) (g row) w 0 ((ty + row) * pitch + tx) b) as (b1 & E1 & Hl1 & Hb1); [nia|nia|intros c Hc; apply Hf; lia|]. rewrite E1, bind_ok.
  destruct (IH (row + 1) b1) as (b' & E & Hl' & Hb'); [done|done|done|lia|lia|rewrite Hl1; lia|intros r c Hr Hc; apply Hf; lia|]. exists b'. split; [done|]. split; [congruence|].
  intros k. rewrite Hb', Hb1. destruct (b !! k) as [v|]; [|done]. cbn. f_equal. unfold in_block. rewrite Z.add_0_r, word_split by done.
  rewrite <- Z.add_1_r, (span_split (ty + row)) by lia. replace (ty + (row + 1)) with (ty + row + 1) by lia.
  destruct (Z.eqb_spec (Z.of_nat k / pitch) (ty + row)) as [Er|Er]; cbn [orb andb]; [|done].
  destruct (span (ty + row + 1) _ _) eqn:Es; [apply span_iff in Es; lia|]. cbn [andb]. destruct (span tx _ _); [|done].
  f_equal. f_equal; [lia|]. pose proof (Z.div_mod (Z.of_nat k) pitch). nia.
Qed.

(** A block of rows inside the target is a picture. *)
Lemma row_loop_paint s b f g tx ty w h : good_target s -> buffers s !! gui_get_target_buffer s = Some b ->
  0 <= tx -> 0 <= ty -> 0 <= w -> 0 <= h -> tx + w <= gui_get_target_width s -> ty + h <= gui_get_target_height s ->
  (forall r c, 0 <= r < h -> 0 <= c < w -> f r c = Ok (g r c)) ->
  exists b', row_loop (Z.to_nat h) 0 tx ty (gui_get_target_pitch s) (Z.to_nat w) f b = Ok b' /\
    set_buffer s (gui_get_target_buffer s) b' = paint s (fun x y => if in_rect (tx + r_ox s) (ty + r_oy s) w h x y then g (y - (ty + r_oy s)) (x - (tx + r_ox s)) else None).
Proof.
  intros [_ (b0 & Eb & Hl) Hw0 Hh0 Hp _] Eb' Htx Hty Hw Hh Htw Hth Hf. assert (b0 = b) as -> by congruence.
  destruct (row_loop_ok f g tx ty (gui_get_target_pitch s) (Z.to_nat w) (Z.to_nat h) 0 b) as (b' & E & Hl' & Hb'); try lia; [nia|intros r c Hr Hc; apply Hf; lia|].
  exists b'. split; [done|]. unfold paint. rewrite Eb. f_equal. apply list_eq. intros k. rewrite Hb', painted_lookup. destruct (b !! k) as [v|]; [|done]. cbn. f_equal.
  set (c := Z.of_nat k mod gui_get_target_pitch s). set (r := Z.of_nat k / gui_get_target_pitch s).
  assert (in_rect (tx + r_ox s) (ty + r_oy s) w h (c + r_ox s) (r + r_oy s) = in_block tx (Z.of_nat (Z.to_nat w)) (ty + 0) (Z.of_nat (Z.to_nat h)) (gui_get_target_pitch s) (Z.of_nat k)) as ->.
  { apply eq_true_iff_eq. unfold in_block, in_rect. rewrite !andb_true_iff, !span_iff, !Z.leb_le, !Z.ltb_lt. fold c r. lia. }
  destruct (in_block _ _ _ _ _ _) eqn:Ei.
  - unfold in_block in Ei. rewrite andb_true_iff, !span_iff in Ei. fold c r in Ei. rewrite (proj2 (Z.ltb_lt c _)), (proj2 (Z.ltb_lt r _)) by lia. cbn [andb]. f_equal. f_equal; lia.
  - by destruct (_ && _).
Qed.

(** ** Points and rectangles *)

Lemma good_near s : good_target s -> near (r_ox s) /\ near (r_oy s) /\ 0 <= gui_get_target_width s <= 2 ^ 28 /\ 0 <= gui_get_target_height s <= 2 ^ 28.
Proof. intros [_ _ Hw Hh Hp Ho]. unfold near. lia. Qed.

Lemma draw_pixel_ok s x y color : good_target s -> near x -> near y -> draw_pixel s x y color = Ok (paint s (point x y color)).
Proof.
  intros Hs Hx Hy. destruct (good_near s Hs) as (Hox & Hoy & Hw & Hh). unfold near in *. unfold draw_pixel. rewrite (int_arith_ok (x - r_ox s)) by lia. rewrite bind_ok, (int_arith_ok (y - r_oy s)) by lia. rewrite bind_ok.
  assert (forall P : Prop, (P -> 0 <= x - r_ox s < gui_get_target_width s -> 0 <= y - r_oy s < gui_get_target_height s -> False) -> P -> paint s (point x y color) = s) as Hout.
  { intros P HP EP. apply paint_none; [done|]. intros x' y' Hx' Hy'. unfold point. destruct (Z.eqb_spec x' x) as [->|]; [|done]. destruct (Z.eqb_spec y' y) as [->|]; [|done]. by destruct (HP EP). }
  destruct ((x - r_ox s <? 0) || _) eqn:E1; [rewrite orb_true_iff, Z.ltb_lt, Z.leb_le in E1; by rewrite (Hout _ ltac:(lia) E1)|].
  destruct ((y - r_oy s <? 0) || _) eqn:E2; [rewrite orb_true_iff, Z.ltb_lt, Z.leb_le in E2; by rewrite (Hout _ ltac:(lia) E2)|].
  b2p. pose proof Hs as [Ht (b & Eb & Hl) Hwp _ Hp _]. rewrite (proj2 (Z.eqb_neq _ _)) by done. rewrite int_arith_ok by nia. rewrite bind_ok, int_arith_ok by nia. rewrite bind_ok.
  unfold get_buffer. rewrite Eb. cbn [of_option]. rewrite bind_ok, px_set_ok by nia. rewrite bind_ok. unfold paint. rewrite Eb. do 2 f_equal. apply list_eq. intros k.
  rewrite painted_lookup. set (p := gui_get_target_pitch s) in *. set (i := (y - r_oy s) * p + (x - r_ox s)).
  assert ((Z.of_nat k =? i) = (Z.of_nat k mod p + r_ox s =? x) && (Z.of_nat k / p + r_oy s =? y)) as Ek.
  { pose proof (word_split p (x - r_ox s) 1 (y - r_oy s) (Z.of_nat k) ltac:(lia) ltac:(lia) ltac:(lia)) as Hs1. fold i in Hs1.
    pose proof (span_iff i 1 (Z.of_nat k)) as H1'. rewrite Hs1, andb_true_iff, span_iff, Z.eqb_eq in H1'. apply eq_true_iff_eq. rewrite andb_true_iff, !Z.eqb_eq. lia. }
  unfold point. rewrite <- Ek. destruct (Z.eqb_spec (Z.of_nat k) i) as [E|E].
  - symmetry in Ek. apply andb_true_iff in Ek as [Ex Ey]. b2p. rewrite (proj2 (Z.ltb_lt (Z.of_nat k mod p) _)), (proj2 (Z.ltb_lt (Z.of_nat k / p) _)) by lia. assert (k = Z.to_nat i) as -> by lia.
    rewrite list_lookup_insert_eq by nia. destruct (lookup_lt_is_Some_2 b (Z.to_nat i)) as [v ->]; [nia|done].
  - assert (0 <= i) by nia. rewrite list_lookup_insert_ne by lia. destruct (b !! k); cbn; [|done]. by repeat case_match.
Qed.

Lemma clip_low_ok t w : - 2 ^ 30 <= t <= 2 ^ 30 -> - 2 ^ 30 <= w <= 2 ^ 30 -> clip_low t w = Ok (Z.max t 0, w + Z.min t 0).
Proof. intros Ht Hw. unfold clip_low. destruct (Z.ltb_spec t 0); [rewrite int_arith_ok by lia; cbn|]; do 2 f_equal; lia. Qed.

Lemma clip_high_ok t w limit : 0 <= t <= 2 ^ 30 -> - 2 ^ 30 <= w < 2 ^ 30 -> 0 <= limit <= 2 ^ 30 -> clip_high t w limit = Ok (Z.min w (limit - t)).
Proof. intros Ht Hw Hl. unfold clip_high. rewrite (int_arith_ok (t + w)) by lia. rewrite bind_ok. destruct (Z.ltb_spec limit (t + w)); [rewrite int_arith_ok by lia|]; f_equal; lia. Qed.

Ltac bool_lia := repeat match goal with
  | H : in_rect _ _ _ _ _ _ = true |- _ => unfold in_rect in H; rewrite !andb_true_iff, !Z.leb_le, !Z.ltb_lt in H
  | H : in_rect _ _ _ _ _ _ = false |- _ => apply not_true_iff_false in H; unfold in_rect in H; rewrite !andb_true_iff, !Z.leb_le, !Z.ltb_lt in H
  end; lia.

Lemma rect_none x y w h color x' y' : ~ (x <= x' < x + w /\ y <= y' < y + h) -> rect x y w h color x' y' = None.
Proof. intros Hn. unfold rect. destruct (in_rect _ _ _ _ _ _) eqn:E; [bool_lia|done]. Qed.

Lemma draw_rect_paint s x y w h color : good_target s -> near x -> near y -> near w -> near h -> gui_draw_rect s x y w h color = Ok (paint s (rect x y w h color)).
Proof.
  intros Hs Hx Hy Hw Hh. destruct (good_near s Hs) as (Hox & Hoy & Hgw & Hgh). unfold near in *. unfold gui_draw_rect. rewrite (int_arith_ok (x - r_ox s)) by lia. rewrite bind_ok, (int_arith_ok (y - r_oy s)) by lia. rewrite bind_ok.
  rewrite (proj2 (Z.eqb_neq _ 0)) by (by apply gt_target). cbn [orb].
  assert (forall P : Prop, (P -> forall x' y', x <= x' < x + w -> y <= y' < y + h -> 0 <= x' - r_ox s < gui_get_target_width s -> 0 <= y' - r_oy s < gui_get_target_height s -> False) -> P -> Ok s = Ok (paint s (rect x y w h color))) as Hout.
  { intros P HP HPt. rewrite paint_none; [done|done|]. intros x' y' Hx' Hy'. apply rect_none. intros [? ?]. by apply (HP HPt x' y'). }
  destruct ((w <=? 0) || (h <=? 0)) eqn:E0; [rewrite orb_true_iff, !Z.leb_le in E0; apply (Hout _ ltac:(lia) E0)|].
  rewrite (clip_low_ok (x - r_ox s)) by lia. rewrite bind_ok, (clip_low_ok (y - r_oy s)) by lia. rewrite bind_ok. b2p.
  destruct ((_ <=? Z.max (x - r_ox s) 0) || _) eqn:E1; [rewrite orb_true_iff, !Z.leb_le in E1; apply (Hout _ ltac:(lia) E1)|]. b2p.
  rewrite (clip_high_ok (Z.max (x - r_ox s) 0)) by lia. rewrite bind_ok, (clip_high_ok (Z.max (y - r_oy s) 0)) by lia. rewrite bind_ok.
  destruct ((_ <=? 0) || _) eqn:E2; [rewrite orb_true_iff, !Z.leb_le in E2; apply (Hout _ ltac:(lia) E2)|]. b2p.
  pose proof (gt_buffer s Hs) as (b & Eb & _). unfold get_buffer. rewrite Eb. cbn [of_option]. rewrite bind_ok.
  set (W := Z.min (w + Z.min (x - r_ox s) 0) (gui_get_target_width s - Z.max (x - r_ox s) 0)) in *.
  set (V := Z.min (h + Z.min (y - r_oy s) 0) (gui_get_target_height s - Z.max (y - r_oy s) 0)) in *.
  destruct (row_loop_paint s b (fun _ _ => Ok (Some color)) (fun _ _ => Some color) (Z.max (x - r_ox s) 0) (Z.max (y - r_oy s) 0) W V) as (b' & E & Ep); try done; try lia.
  rewrite E, bind_ok, Ep. f_equal. apply paint_ext; [done|]. intros x' y' Hx' Hy'. unfold rect. 
  destruct (in_rect x y w h x' y') eqn:E3; destruct (in_rect _ _ W V x' y') eqn:E4; try done; bool_lia.
Qed.

(** C36. A rectangle is drawn exactly: every point of the target that lies in it gets its colour, every other word of memory keeps its value, wherever the rectangle and the origin of the target are. *)
Theorem draw_rect_correct s x y w h color (Hs : good_target s) (Hx : near x) (Hy : near y) (Hw : near w) (Hh : near h) :
  gui_draw_rect s x y w h color = Ok (paint s (rect x y w h color)).
Proof. by apply draw_rect_paint. Qed.

(** Four rectangles. *)
Lemma draw_rect_outline_ok s x y w h color t : good_target s -> near x -> near y -> near w -> near h -> near t -> near (x + w - t) -> near (y + h - t) ->
  gui_draw_rect_outline s x y w h color t = Ok (paint (paint (paint (paint s (rect x y w t color)) (rect x (y + h - t) w t color)) (rect x y t h color)) (rect (x + w - t) y t h color)).
Proof.
  intros Hs Hx Hy Hw Hh Ht Hr Hb. unfold gui_draw_rect_outline. pose proof Hr as Hr'. pose proof Hb as Hb'. pose proof Hx as Hx'. pose proof Hy as Hy'. pose proof Ht as Ht'. pose proof Hw as Hw'. pose proof Hh as Hh'. unfold near in Hr', Hb', Hx', Hy', Ht', Hw', Hh'.
  rewrite draw_rect_paint by done. rewrite bind_ok, (int_arith_ok (y + h)) by lia. rewrite bind_ok, (int_arith_ok (y + h - t)) by lia. rewrite bind_ok, draw_rect_paint by (repeat apply paint_good; done).
  rewrite bind_ok, draw_rect_paint by (repeat apply paint_good; done). rewrite bind_ok, (int_arith_ok (x + w)) by lia. rewrite bind_ok, (int_arith_ok (x + w - t)) by lia. rewrite bind_ok, draw_rect_paint by (repeat apply paint_good; done). done.
Qed.

(** ** Text *)

Definition glyph (font_data : Z -> Z -> Z) (x y c fg bg : Z) : picture := fun x' y' =>
  if in_rect x y FONT_WIDTH FONT_HEIGHT x' y' then Some (glyph_color font_data (u8 c) (y' - y) (x' - x) fg bg) else None.

(** The character lies in the target. *)
Definition fits (s : gui) (x y : Z) : bool :=
  (0 <=? x - r_ox s) && (x - r_ox s + FONT_WIDTH <=? gui_get_target_width s) && (0 <=? y - r_oy s) && (y - r_oy s + FONT_HEIGHT <=? gui_get_target_height s).

Lemma char_outside_ok s x y : good_target s -> near x -> near y -> char_outside s (x - r_ox s) (y - r_oy s) = Ok (negb (fits s x y)).
Proof.
  intros Hs Hx Hy. destruct (good_near s Hs) as (Hox & Hoy & _ & _). unfold near in *. unfold char_outside, outside, fits, FONT_WIDTH, FONT_HEIGHT.
  rewrite (int_arith_ok (x - r_ox s + 8)), (int_arith_ok (y - r_oy s + 16)) by lia. rewrite !bind_ok. rewrite !(Z.leb_antisym), !negb_andb, !negb_involutive.
  destruct (x - r_ox s <? 0); [done|]. cbn. destruct (gui_get_target_width s <? _); [done|]. by destruct (y - r_oy s <? 0).
Qed.

Lemma draw_char_ok font_data s x y c fg bg : good_target s -> near x -> near y ->
  gui_draw_char font_data s x y c fg bg = Ok (if fits s x y then paint s (glyph font_data x y c fg bg) else s).
Proof.
  intros Hs Hx Hy. destruct (good_near s Hs) as (Hox & Hoy & _ & _). pose proof Hx as Hx'. pose proof Hy as Hy'. unfold near in Hx', Hy', Hox, Hoy. unfold gui_draw_char.
  rewrite (int_arith_ok (x - r_ox s)) by lia. rewrite bind_ok, (int_arith_ok (y - r_oy s)) by lia. rewrite bind_ok, char_outside_ok by done. rewrite bind_ok.
  destruct (fits s x y) eqn:E; cbn [negb]; [|done]. rewrite (proj2 (Z.eqb_neq _ 0)) by (by apply gt_target). unfold fits in E. b2p.
  pose proof (gt_buffer s Hs) as (b & Eb & _). unfold get_buffer. rewrite Eb. cbn [of_option]. rewrite bind_ok.
  destruct (row_loop_paint s b (fun row col => Ok (Some (glyph_color font_data (u8 c) row col fg bg))) (fun row col => Some (glyph_color font_data (u8 c) row col fg bg)) (x - r_ox s) (y - r_oy s) FONT_WIDTH FONT_HEIGHT)
    as (b' & E' & Ep); try done.
  rewrite E', bind_ok, Ep. f_equal. replace (x - r_ox s + r_ox s) with x by lia. by replace (y - r_oy s + r_oy s) with y by lia.
Qed.

(** ** Lines *)

(** Where a loop of [i] steps in x and [j] steps in y is off the line from the origin to (dx, dy), and the next step. *)
Definition off_line (dx dy i j : Z) : Z := j * dx - i * dy.
Definition x_step (dx dy i j : Z) : bool := - dy <? 2 * (off_line dx dy i j + dx - dy).
Definition y_step (dx dy i j : Z) : bool := 2 * (off_line dx dy i j + dx - dy) <? dx.

(** On the way: at most half a pixel off. *)
Record on_line (dx dy i j : Z) : Prop := {
  ol_x : 0 <= i <= dx; ol_y : 0 <= j <= dy; ol_off : 2 * Z.abs (off_line dx dy i j) <= Z.max dx dy
}.

Lemma on_line_bounds dx dy i j : 0 <= dx -> 0 <= dy -> 0 < Z.max dx dy -> 2 * Z.abs (off_line dx dy i j) <= Z.max dx dy ->
  (dy <= dx -> 0 <= i <= dx) -> (dx < dy -> 0 <= j <= dy) -> on_line dx dy i j.
Proof.
  unfold off_line. intros Hx Hy Hm Ho Hi Hj. destruct (Z.le_gt_cases dy dx).
  - rewrite Z.max_l in * by lia. specialize (Hi ltac:(lia)). split; [done| |unfold off_line; lia]. split; nia.
  - rewrite Z.max_r in * by lia. specialize (Hj ltac:(lia)). split; [|done|unfold off_line; lia]. split; nia.
Qed.

Definition one (b : bool) : Z := if b then 1 else 0.

(** Each step goes on by one in the longer direction and stays on the line. *)
Lemma line_step dx dy i j : on_line dx dy i j -> (if dy <=? dx then i < dx else j < dy) ->
  on_line dx dy (i + one (x_step dx dy i j)) (j + one (y_step dx dy i j)) /\
  (if dy <=? dx then x_step dx dy i j = true else y_step dx dy i j = true).
Proof.
  intros [Hi Hj Ho] Hlt. assert (0 < Z.max dx dy) by (destruct (Z.leb_spec dy dx); lia). set (D := off_line dx dy i j) in *.
  assert (forall a b, off_line dx dy (i + a) (j + b) = D + b * dx - a * dy) as Hstep by (intros; unfold D, off_line; lia).
  unfold x_step, y_step. fold D. destruct (Z.leb_spec dy dx) as [Hd|Hd].
  - rewrite Z.max_l in * by lia. assert (- dy < 2 * (D + dx - dy)) as Hx.
    { destruct (Z.eq_dec dy dx) as [->|]; [|lia]. assert (D = (j - i) * dx) as HD by (unfold D, off_line; lia). clearbody D. subst D. assert (j - i = 0) as -> by nia. lia. }
    rewrite (proj2 (Z.ltb_lt _ _)) by done. cbn [one]. split; [|done].
    apply on_line_bounds; try lia. rewrite Hstep, Z.max_l by lia. destruct (Z.ltb_spec (2 * (D + dx - dy)) dx); cbn [one]; lia.
  - rewrite Z.max_r in * by lia. assert (2 * (D + dx - dy) < dx) as Hy by lia.
    rewrite (proj2 (Z.ltb_lt (2 * (D + dx - dy)) dx)) by done. cbn [one]. split; [|done].
    apply on_line_bounds; try lia. rewrite Hstep, Z.max_r by lia. destruct (Z.ltb_spec (- dy) (2 * (D + dx - dy))); cbn [one]; lia.
Qed.

(** Only the end of the line is as far as its length. *)
Lemma line_end dx dy i j : on_line dx dy i j -> (if dy <=? dx then i = dx else j = dy) -> i = dx /\ j = dy.
Proof.
  intros [Hi Hj Ho] He. unfold off_line in Ho. destruct (Z.leb_spec dy dx).
  - subst i. rewrite Z.max_l in Ho by lia. split; [done|]. destruct (Z.eq_dec dx 0); [lia|]. nia.
  - subst j. rewrite Z.max_r in Ho by lia. split; [|done]. nia.
Qed.

Lemma dots_cons s x y ps color : good_target s -> paint (paint s (point x y color)) (dots ps color) = paint s (dots ((x, y) :: ps) color).
Proof.
  intros Hs. rewrite paint_over. apply paint_ext; [done|]. intros x' y' _ _. unfold over, dots, point. rewrite (bool_decide_ext ((x', y') ∈ (x, y) :: ps) ((x' = x /\ y' = y) \/ (x', y') ∈ ps)).
  - destruct (bool_decide_reflect ((x', y') ∈ ps)); [by rewrite bool_decide_true by auto|]. destruct (Z.eqb_spec x' x), (Z.eqb_spec y' y); cbn; subst; [by rewrite bool_decide_true by auto|..]; rewrite bool_decide_false; naive_solver.
  - rewrite elem_of_cons. naive_solver.
Qed.

Section line.
Context (x0 y0 x1 y1 : Z) (Hx0 : near x0) (Hy0 : near y0) (Hx1 : near x1) (Hy1 : near y1).
Let dx := Z.abs (x1 - x0).
Let dy := Z.abs (y1 - y0).
Let sx := if x0 <? x1 then 1 else -1.
Let sy := if y0 <? y1 then 1 else -1.

Lemma sx_end : x0 + sx * dx = x1.
Proof using Type. clear -sx dx. unfold sx, dx. destruct (Z.ltb_spec x0 x1); lia. Qed.
Lemma sy_end : y0 + sy * dy = y1.
Proof using Type. clear -sy dy. unfold sy, dy. destruct (Z.ltb_spec y0 y1); lia. Qed.

Lemma line_near i j : on_line dx dy i j -> near (x0 + sx * i) /\ near (y0 + sy * j) /\ (x0 + sx * i = x1 <-> i = dx) /\ (y0 + sy * j = y1 <-> j = dy).
Proof using Type*.
  intros [Hi Hj _]. clear -Hi Hj Hx0 Hy0 Hx1 Hy1. unfold near, sx, sy, dx, dy in *. destruct (Z.ltb_spec x0 x1), (Z.ltb_spec y0 y1); lia.
Qed.

(** The points of a line: one for each step, on the line. *)
Definition line_point (k : nat) (p : Z * Z) : Prop :=
  exists i j, p = (x0 + sx * i, y0 + sy * j) /\ on_line dx dy i j /\ (if dy <=? dx then i else j) = Z.of_nat k.

Lemma line_loop_ok color n : forall s i j, good_target s -> on_line dx dy i j -> (if dy <=? dx then i else j) + Z.of_nat n = Z.max dx dy ->
  exists ps, line_loop (S n) s (x0 + sx * i) (y0 + sy * j) x1 y1 dx dy sx sy (off_line dx dy i j + dx - dy) color = Ok (paint s (dots ps color)) /\ length ps = S n /\
    forall k p, ps !! k = Some p -> line_point (Z.to_nat (if dy <=? dx then i else j) + k) p.
Proof using Type*.
  induction n as [|n IH]; intros s i j Hs Hol Hn; destruct (line_near i j Hol) as (Hnx & Hny & Hex & Hey); cbn [line_loop]; rewrite draw_pixel_ok by done; rewrite bind_ok;
    pose proof (ol_x _ _ _ _ Hol) as Hi; pose proof (ol_y _ _ _ _ Hol) as Hj.
  - destruct (line_end dx dy i j Hol) as [-> ->]; [destruct (Z.leb_spec dy dx); lia|]. rewrite sx_end, sy_end, !Z.eqb_refl. cbn [andb].
    exists [(x1, y1)]. split; [f_equal; rewrite <- dots_cons by done; symmetry; apply paint_none; [by apply paint_good|]; intros; unfold dots; by rewrite bool_decide_false by (by intros ?%elem_of_nil)|]. split; [done|].
    intros [|k] p; [|done]. intros [= <-]. exists dx, dy. rewrite sx_end, sy_end. split; [done|]. split; [done|]. destruct (Z.leb_spec dy dx); lia.
  - assert ((x0 + sx * i =? x1) && (y0 + sy * j =? y1) = false) as -> by (apply andb_false_iff; rewrite !Z.eqb_neq, Hex, Hey; destruct (Z.leb_spec dy dx); lia).
    set (D := off_line dx dy i j) in *. assert (0 <= dx <= 2 ^ 29) by (unfold dx, near in *; lia). assert (0 <= dy <= 2 ^ 29) by (unfold dy, near in *; lia). pose proof (ol_off _ _ _ _ Hol) as Ho. fold D in Ho.
    destruct (line_step dx dy i j Hol) as [Hol' Hmaj]; [destruct (Z.leb_spec dy dx); lia|]. destruct (line_near _ _ Hol') as (Hnx' & Hny' & _ & _).
    rewrite (int_arith_ok (2 * (D + dx - dy))) by lia. rewrite bind_ok. unfold near in *.
    assert ((if - dy <? 2 * (D + dx - dy) then e ← int_arith (D + dx - dy - dy); x ← int_arith (x0 + sx * i + sx); Ok (e, x) else Ok (D + dx - dy, x0 + sx * i))
      = Ok (D - one (x_step dx dy i j) * dy + dx - dy, x0 + sx * (i + one (x_step dx dy i j)))) as ->.
    { unfold x_step in *. fold D in Hnx' |- *. destruct (- dy <? _); cbn [one] in *; [rewrite (int_arith_ok (D + dx - dy - dy)) by lia; rewrite bind_ok, int_arith_ok by lia; rewrite bind_ok|]; do 2 f_equal; lia. }
    rewrite bind_ok.
    assert ((if 2 * (D + dx - dy) <? dx then e ← int_arith (D - one (x_step dx dy i j) * dy + dx - dy + dx); y ← int_arith (y0 + sy * j + sy); Ok (e, y) else Ok (D - one (x_step dx dy i j) * dy + dx - dy, y0 + sy * j))
      = Ok (off_line dx dy (i + one (x_step dx dy i j)) (j + one (y_step dx dy i j)) + dx - dy, y0 + sy * (j + one (y_step dx dy i j)))) as ->.
    { assert (off_line dx dy (i + one (x_step dx dy i j)) (j + one (y_step dx dy i j)) = D + one (y_step dx dy i j) * dx - one (x_step dx dy i j) * dy) as -> by (unfold D, off_line; lia).
      assert (0 <= one (x_step dx dy i j) * dy <= dy) as Hu by (clear -H0; destruct (x_step _ _ _ _); cbn; lia).
      clear IH Hol Hol' Hmaj Hnx' Hex Hey. set (u := one (x_step dx dy i j) * dy) in *. clearbody u.
      unfold y_step in *. fold D in Hny' |- *. destruct (_ <? dx); cbn [one] in *; [rewrite (int_arith_ok (_ - dy + dx)) by lia; rewrite bind_ok, int_arith_ok by lia; rewrite bind_ok|]; do 2 f_equal; lia. }
    rewrite bind_ok. destruct (IH (paint s (point (x0 + sx * i) (y0 + sy * j) color)) _ _ (paint_good _ _ Hs) Hol') as (ps & E & Hl & Hps).
    { destruct (dy <=? dx); rewrite Hmaj; cbn [one]; lia. }
    rewrite dots_cons in E by done. exists ((x0 + sx * i, y0 + sy * j) :: ps). split; [exact E|]. split; [cbn; lia|].
    intros [|k] p; cbn [lookup list_lookup]; [intros [= <-]; exists i, j; split; [done|]; split; [done|]; destruct (Z.leb_spec dy dx); lia|].
    intros Hp. apply Hps in Hp. assert (forall a b : Z, b = a + 1 -> 0 <= a -> (Z.to_nat a + S k = Z.to_nat b + k)%nat) as Hnat by lia.
    rewrite (Hnat _ (if dy <=? dx then i + one (x_step dx dy i j) else j + one (y_step dx dy i j))); [done|destruct (dy <=? dx); by rewrite Hmaj|destruct (dy <=? dx); lia].
Qed.
End line.

(** C37. A line is drawn with one point for each step in its longer direction, from one end to the other; each point is at most half a pixel off the line, the loop ends with the point at the other end, and no other word of memory changes. *)
Theorem draw_line_correct s x0 y0 x1 y1 color (Hs : good_target s) (Hx0 : near x0) (Hy0 : near y0) (Hx1 : near x1) (Hy1 : near y1) :
  exists ps, gui_draw_line s x0 y0 x1 y1 color = Ok (paint s (dots ps color)) /\ Z.of_nat (length ps) = Z.max (Z.abs (x1 - x0)) (Z.abs (y1 - y0)) + 1 /\
    head ps = Some (x0, y0) /\ last ps = Some (x1, y1) /\ forall k p, ps !! k = Some p -> line_point x0 y0 x1 y1 k p.
Proof.
  set (dx := Z.abs (x1 - x0)). set (dy := Z.abs (y1 - y0)). assert (on_line dx dy 0 0) as H0 by (split; unfold off_line; lia).
  destruct (line_loop_ok x0 y0 x1 y1 Hx0 Hy0 Hx1 Hy1 color (Z.to_nat (Z.max dx dy)) s 0 0 Hs H0) as (ps & E & Hl & Hps); [fold dx dy; destruct (dy <=? dx); lia|].
  fold dx dy in E, Hps. assert ((if dy <=? dx then 0 else 0) = 0) as Hif by (by destruct (dy <=? dx)). rewrite Hif in Hps. rewrite !Z.mul_0_r, !Z.add_0_r in E.
  exists ps. split; [|split; [lia|split; [|split; [|done]]]].
  - unfold gui_draw_line. unfold near in *. rewrite (int_arith_ok (if x0 <? x1 then _ else _)) by (destruct (x0 <? x1); lia). rewrite bind_ok, (int_arith_ok (if y0 <? y1 then _ else _)) by (destruct (y0 <? y1); lia).
    assert ((if x0 <? x1 then x1 - x0 else x0 - x1) = dx) as -> by (unfold dx; destruct (Z.ltb_spec x0 x1); lia). assert ((if y0 <? y1 then y1 - y0 else y0 - y1) = dy) as -> by (unfold dy; destruct (Z.ltb_spec y0 y1); lia).
    rewrite bind_ok, int_arith_ok by (unfold dx, dy; lia). rewrite bind_ok. exact E.
  - destruct ps as [|p ps]; [done|]. destruct (Hps 0%nat p eq_refl) as (i & j & -> & Ho & Ek). cbn. fold dx dy in Ho, Ek. pose proof (ol_x _ _ _ _ Ho). pose proof (ol_y _ _ _ _ Ho). pose proof (ol_off _ _ _ _ Ho) as Hoff.
    unfold off_line in Hoff. assert (i = 0 /\ j = 0) as [-> ->] by (destruct (Z.leb_spec dy dx); cbn in Ek; nia). by rewrite !Z.mul_0_r, !Z.add_0_r.
  - rewrite last_lookup, Hl. cbn [pred]. destruct (ps !! Z.to_nat (Z.max dx dy)) as [p|] eqn:Ep; [|apply lookup_ge_None in Ep; lia]. destruct (Hps _ _ Ep) as (i & j & -> & Ho & Ek). fold dx dy in Ho, Ek.
    destruct (line_end dx dy i j Ho) as [-> ->]; [destruct (Z.leb_spec dy dx); lia|]. unfold dx, dy. by rewrite sx_end, sy_end.
Qed.

(** The places of the characters of a text; a line feed starts a new row. *)
Fixpoint places (start_x x y : Z) (str : list Z) : list (Z * Z * Z) :=
  match str with
  | [] => []
  | c :: str => if c =? 10 then places start_x start_x (y + FONT_HEIGHT) str else (x, y, c) :: places start_x (x + FONT_WIDTH) y str
  end.

Definition text_picture (font_data : Z -> Z -> Z) (s : gui) (fg bg : Z) (ps : list (Z * Z * Z)) : picture :=
  foldr (fun p g => let '(x, y, c) := p in if fits s x y then over g (glyph font_data x y c fg bg) else g) (fun _ _ => None) ps.

Lemma fits_paint s g x y : fits (paint s g) x y = fits s x y.
Proof. destruct (paint_target s g) as (Ew & Eh & Ex & Ey). unfold fits. by rewrite Ew, Eh, Ex, Ey. Qed.

Lemma text_picture_paint font_data s g fg bg ps : text_picture font_data (paint s g) fg bg ps = text_picture font_data s fg bg ps.
Proof. unfold text_picture in *. induction ps as [|[[x y] c] ps IH]; cbn [foldr]; [done|]. by rewrite fits_paint, IH. Qed.

(** A text is drawn as its characters in their places, those that do not fit into the target left out whole. *)
Theorem draw_string_correct font_data s x y str fg bg (Hs : good_target s) (Hx : near x) (Hy : near y) (Hl : near (x + 8 * Z.of_nat (length str))) (Hb : near (y + 16 * Z.of_nat (length str))) :
  gui_draw_string font_data s x y str fg bg = Ok (paint s (text_picture font_data s fg bg (places x x y str))).
Proof.
  unfold gui_draw_string. assert (forall str s x' y, good_target s -> near x' -> near y -> near (x' + 8 * Z.of_nat (length str)) -> near (x + 8 * Z.of_nat (length str)) -> near (y + 16 * Z.of_nat (length str)) ->
    string_loop font_data s x x' y str fg bg = Ok (paint s (text_picture font_data s fg bg (places x x' y str)))) as H; [|by apply H].
  clear s y str Hs Hy Hl Hb. induction str as [|c str IH]; intros s x' y Hs Hx' Hy Hl Hl' Hb; cbn [string_loop places]; [cbn; by rewrite paint_none|].
  pose proof (good_near s Hs) as (Hox & Hoy & _ & _). cbn [length] in Hl, Hl', Hb. unfold near, FONT_WIDTH, FONT_HEIGHT in *. destruct (c =? 10).
  - rewrite int_arith_ok by lia. rewrite bind_ok. apply IH; done || lia.
  - rewrite (int_arith_ok (x' - r_ox s)) by lia. rewrite bind_ok, (int_arith_ok (y - r_oy s)) by lia. rewrite bind_ok, char_outside_ok by done. rewrite bind_ok. cbn [text_picture foldr]. fold (text_picture font_data s fg bg (places x (x' + 8) y str)).
    rewrite draw_char_ok by done. destruct (fits s x' y) eqn:E; cbn [negb]; rewrite bind_ok, (int_arith_ok (x' + 8)) by lia; rewrite bind_ok.
    + rewrite IH by (try apply paint_good; done || lia). by rewrite text_picture_paint, paint_over.
    + apply IH; done || lia.
Qed.

(** ** A small screen: 10 by 18 points in rows of 12 words *)

Definition small : gui := Gui (Display 10 18 48 100 0) 0 0 0 0 0 0 {[100 := replicate 216 0]}.

Lemma small_good : good_target small.
Proof.
  assert (gui_get_target_width small = 10) as Ew by reflexivity. assert (gui_get_target_height small = 18) as Eh by reflexivity. assert (gui_get_target_pitch small = 12) as Ep by reflexivity.
  split; rewrite ?Ew, ?Eh, ?Ep; [discriminate| |lia|lia|lia|cbn; lia]. exists (replicate 216 0). split; [reflexivity|]. rewrite length_replicate. lia.
Qed.

Lemma draw_rect_correct_witness : exists s, gui_draw_rect small (-1) 2 3 2 7 = Ok s /\ s = paint small (rect (-1) 2 3 2 7).
Proof. eexists. split; [apply (draw_rect_correct small (-1) 2 3 2 7 small_good); split; done|done]. Defined.

Lemma draw_line_correct_witness : exists ps, gui_draw_line small 1 1 8 4 7 = Ok (paint small (dots ps 7)) /\ Z.of_nat (length ps) = 8.
Proof.
  destruct (draw_line_correct small 1 1 8 4 7 small_good ltac:(split; done) ltac:(split; done) ltac:(split; done) ltac:(split; done)) as (ps & E & Hl & _). exists ps. split; [exact E|exact Hl].
Defined.

(** A font in which the rows of a glyph are its number. *)
Lemma draw_string_correct_witness : exists s, gui_draw_string (fun c _ => c) small 1 1 [65; 66; 10; 67] 7 9 = Ok s /\ px_get (default [] (buffers s !! 100)) 14 = Ok 7 /\ px_get (default [] (buffers s !! 100)) 21 = Ok 0.
Proof.
  eexists. split; [apply (draw_string_correct (fun c _ => c) small 1 1 [65; 66; 10; 67] 7 9 small_good); split; done|]. split; vm_compute; reflexivity.
Defined.

(** The points of a short line. *)
Example short_line : match gui_draw_line small 0 0 4 2 7 with Ok s => filter (fun k => match px_get (default [] (buffers s !! 100)) k with Ok v => v =? 7 | _ => false end = true) (seqZ 0 40) | _ => [] end = [0; 1; 14; 15; 28].
Proof. vm_compute. reflexivity. Qed.
