(* ===== verification/Compositor.v ===== *)
(** * The compositor and the mouse cursor (src/kernel/gui/window.c)

    What is drawn into the back buffer reaches the frame buffer by dirty rectangles; the
    cursor is drawn over the frame buffer, with what is below it kept aside.  Of [gui_compose] this file
    holds the update of the frame buffer; 64-bit copies are copies of two words. *)
From S2P Require Import Prelude Surface.
#[local] Open Scope Z_scope.

Definition MAX_DIRTY_REGIONS : nat := 32.
Definition CURSOR_WIDTH : Z := 12.
Definition CURSOR_HEIGHT : Z := 19.

(** 1 is black, 2 white, 0 transparent. *)
Definition cursor_data : list (list Z) := [
  [1;0;0;0;0;0;0;0;0;0;0;0]; [1;1;0;0;0;0;0;0;0;0;0;0]; [1;2;1;0;0;0;0;0;0;0;0;0]; [1;2;2;1;0;0;0;0;0;0;0;0]; [1;2;2;2;1;0;0;0;0;0;0;0];
  [1;2;2;2;2;1;0;0;0;0;0;0]; [1;2;2;2;2;2;1;0;0;0;0;0]; [1;2;2;2;2;2;2;1;0;0;0;0]; [1;2;2;2;2;2;2;2;1;0;0;0]; [1;2;2;2;2;2;2;2;2;1;0;0];
  [1;2;2;2;2;2;2;2;2;2;1;0]; [1;2;2;2;2;2;2;1;1;1;1;1]; [1;2;2;2;1;2;2;1;0;0;0;0]; [1;2;2;1;0;1;2;2;1;0;0;0]; [1;2;1;0;0;1;2;2;1;0;0;0];
  [1;1;0;0;0;0;1;2;2;1;0;0]; [1;0;0;0;0;0;1;2;2;1;0;0]; [0;0;0;0;0;0;0;1;2;1;0;0]; [0;0;0;0;0;0;0;1;1;0;0;0]].
Definition cursor_pixel (row col : Z) : Z := default 0 (default [] (cursor_data !! Z.to_nat row) !! Z.to_nat col).
Definition cursor_color (row col : Z) : option Z :=
  let pixel := cursor_pixel row col in if pixel =? 0 then None else Some (if pixel =? 1 then 0x000000 else 0xFFFFFF).

(** A dirty region; those in the list are the valid ones. *)
Record region := Region { g_x : Z; g_y : Z; g_w : Z; g_h : Z }.
Record screen := Screen {
  sg : gui; dirty : list region; full_redraw : bool;
  saved_pixels : pixels; saved_x : Z; saved_y : Z; saved_valid : bool; mouse_x : Z; mouse_y : Z
}.
Definition with_gui (s : screen) (g : gui) : screen := Screen g (dirty s) (full_redraw s) (saved_pixels s) (saved_x s) (saved_y s) (saved_valid s) (mouse_x s) (mouse_y s).
Definition with_dirty (s : screen) (l : list region) (f : bool) : screen := Screen (sg s) l f (saved_pixels s) (saved_x s) (saved_y s) (saved_valid s) (mouse_x s) (mouse_y s).
Definition with_cursor (s : screen) (p : pixels) (x y : Z) (v : bool) : screen := Screen (sg s) (dirty s) (full_redraw s) p x y v (mouse_x s) (mouse_y s).
Definition with_mouse (s : screen) (x y : Z) : screen := Screen (sg s) (dirty s) (full_redraw s) (saved_pixels s) (saved_x s) (saved_y s) (saved_valid s) x y.
Abbreviation dsp s := (disp (sg s)).

(** ** Dirty regions *)

Definition rects_overlap (ax ay aw ah bx by_ bw bh : Z) : outcome bool :=
  br ← int_arith (bx + bw);
  if negb (ax <? br) then Ok false
  else
    ar ← int_arith (ax + aw);
    if negb (bx <? ar) then Ok false
    else
      bb ← int_arith (by_ + bh);
      if negb (ay <? bb) then Ok false else ab ← int_arith (ay + ah); Ok (by_ <? ab).

Fixpoint needs_blit_loop (l : list region) (x y w h : Z) : outcome bool :=
  match l with
  | [] => Ok false
  | r :: l => o ← rects_overlap x y w h (g_x r) (g_y r) (g_w r) (g_h r); if o : bool then Ok true else needs_blit_loop l x y w h
  end.
Definition compositor_window_needs_blit (s : screen) (x y w h : Z) : outcome bool := if full_redraw s then Ok true else needs_blit_loop (dirty s) x y w h.

Definition compositor_mark_dirty (s : screen) (x y w h : Z) : screen :=
  if (length (dirty s) <? MAX_DIRTY_REGIONS)%nat then with_dirty s (dirty s ++ [Region x y w h]) (full_redraw s) else with_dirty s (dirty s) true.
Definition compositor_mark_full_redraw (s : screen) : screen := with_dirty s [] true.

(** ** Copies *)

Fixpoint copy_words (n : nat) (i : Z) (src dst : pixels) : outcome pixels :=
  match n with O => Ok dst | S n => v ← px_get src i; dst ← px_set dst i v; copy_words n (i + 1) src dst end.

(** [count] double words from word [base] on. *)
Definition copy_qwords (count base : Z) (src dst : pixels) : outcome pixels := copy_words (Z.to_nat (2 * count)) base src dst.

Definition fast_memcpy_line (base : Z) (src dst : pixels) (width : Z) : outcome pixels :=
  dst ← copy_qwords (Z.quot width 2) base src dst;
  if Z.odd width then copy_words 1 (base + (width - 1)) src dst else Ok dst.

Fixpoint blit_rows (n : nat) (row x w pitch : Z) (src dst : pixels) : outcome pixels :=
  match n with
  | O => Ok dst
  | S n => base ← int_arith (row * pitch); dst ← fast_memcpy_line (base + x) src dst w; blit_rows n (row + 1) x w pitch src dst
  end.

(** Clipping at the border of the screen, whose size is unsigned. *)
Definition clip_screen (t w limit : Z) : outcome Z := e ← int_arith (t + w); Ok (if i32 limit <? e then i32 (u32 (limit - t)) else w).

Definition blit_region (g : gui) (x y w h : Z) : outcome gui :=
  if (backbuffer (disp g) =? 0) || (framebuffer (disp g) =? 0) then Ok g
  else
    r ← clip_low x w;
    let '(x, w) := r in
    r ← clip_low y h;
    let '(y, h) := r in
    w ← clip_screen x w (d_width (disp g));
    h ← clip_screen y h (d_height (disp g));
    if (w <=? 0) || (h <=? 0) then Ok g
    else
      src ← get_buffer g (backbuffer (disp g));
      dst ← get_buffer g (framebuffer (disp g));
      dst ← blit_rows (Z.to_nat h) y x w (d_pitch (disp g) / 4) src dst;
      Ok (set_buffer g (framebuffer (disp g)) dst).

Fixpoint blit_regions (g : gui) (l : list region) : outcome gui :=
  match l with [] => Ok g | r :: l => g ← blit_region g (g_x r) (g_y r) (g_w r) (g_h r); blit_regions g l end.

(** The whole frame: as many double words as the buffer has, counted in 32 bits. *)
Definition blit_full (g : gui) : outcome gui :=
  src ← get_buffer g (backbuffer (disp g));
  dst ← get_buffer g (framebuffer (disp g));
  dst ← copy_qwords (u32 (d_pitch (disp g) * d_height (disp g)) / 8) 0 src dst;
  Ok (set_buffer g (framebuffer (disp g)) dst).

(** ** The cursor *)

Definition cursor_cells : list (Z * Z) := list_prod (seqZ 0 CURSOR_HEIGHT) (seqZ 0 CURSOR_WIDTH).

(** The word of a cell of the cursor at (cx, cy), [None] off the screen. *)
Definition cell_word (d : display) (cx cy : Z) (cell : Z * Z) : outcome (option Z) :=
  px ← int_arith (cx + cell.2);
  py ← int_arith (cy + cell.1);
  if (0 <=? px) && (px <? i32 (d_width d)) && (0 <=? py) && (py <? i32 (d_height d)) then
    base ← int_arith (py * (d_pitch d / 4)); i ← int_arith (base + px); Ok (Some i)
  else Ok None.
Definition cell_index (cell : Z * Z) : Z := cell.1 * CURSOR_WIDTH + cell.2.

Fixpoint erase_cells (d : display) (cx cy : Z) (saved : pixels) (cells : list (Z * Z)) (fb : pixels) : outcome pixels :=
  match cells with
  | [] => Ok fb
  | c :: cells =>
      i ← cell_word d cx cy c;
      fb ← match i with Some i => v ← px_get saved (cell_index c); px_set fb i v | None => Ok fb end;
      erase_cells d cx cy saved cells fb
  end.

Definition cursor_erase (s : screen) : outcome screen :=
  if negb (saved_valid s) || (framebuffer (dsp s) =? 0) then Ok s
  else
    fb ← get_buffer (sg s) (framebuffer (dsp s));
    fb ← erase_cells (dsp s) (saved_x s) (saved_y s) (saved_pixels s) cursor_cells fb;
    Ok (with_cursor (with_gui s (set_buffer (sg s) (framebuffer (dsp s)) fb)) (saved_pixels s) (saved_x s) (saved_y s) false).

Fixpoint draw_cells (d : display) (cx cy : Z) (cells : list (Z * Z)) (fb saved : pixels) : outcome (pixels * pixels) :=
  match cells with
  | [] => Ok (fb, saved)
  | c :: cells =>
      i ← cell_word d cx cy c;
      r ← match i with
          | Some i =>
              v ← px_get fb i;
              saved ← px_set saved (cell_index c) v;
              fb ← match cursor_color c.1 c.2 with Some color => px_set fb i color | None => Ok fb end;
              Ok (fb, saved)
          | None => Ok (fb, saved)
          end;
      let '(fb, saved) := r in draw_cells d cx cy cells fb saved
  end.

Definition gui_draw_cursor (s : screen) : outcome screen :=
  if framebuffer (dsp s) =? 0 then Ok s
  else
    fb ← get_buffer (sg s) (framebuffer (dsp s));
    r ← draw_cells (dsp s) (mouse_x s) (mouse_y s) cursor_cells fb (saved_pixels s);
    let '(fb, saved) := r in
    Ok (with_cursor (with_gui s (set_buffer (sg s) (framebuffer (dsp s)) fb)) saved (mouse_x s) (mouse_y s) true).

Definition gui_refresh_cursor (s : screen) : outcome screen :=
  if framebuffer (dsp s) =? 0 then Ok s else s ← cursor_erase s; gui_draw_cursor s.

Definition gui_move_mouse (s : screen) (dx dy : Z) : outcome screen :=
  x ← int_arith (mouse_x s + dx);
  y ← int_arith (mouse_y s + dy);
  let x := if x <? 0 then 0 else x in
  let y := if y <? 0 then 0 else y in
  let x := if i32 (d_width (dsp s)) <=? x then i32 (u32 (d_width (dsp s) - 1)) else x in
  let y := if i32 (d_height (dsp s)) <=? y then i32 (u32 (d_height (dsp s) - 1)) else y in
  Ok (with_mouse s x y).

(** ** The end of a frame *)

Definition present (s : screen) : outcome screen :=
  s ← (if (backbuffer (dsp s) =? 0) || (framebuffer (dsp s) =? 0) then Ok s
       else
         s ← cursor_erase s;
         s ← (if full_redraw s then g ← blit_full (sg s); Ok (with_dirty (with_gui s g) (dirty s) false)
              else g ← blit_regions (sg s) (dirty s); Ok (with_gui s g));
         gui_draw_cursor s);
  Ok (with_dirty s [] (full_redraw s)).

(** ** Copies of words *)

Lemma px_get_ok b i v : 0 <= i -> b !! Z.to_nat i = Some v -> px_get b i = Ok v.
Proof. intros Hi E. unfold px_get. rewrite (proj2 (Z.ltb_ge _ _)) by done. by rewrite E. Qed.

(** [dst'] is [dst] with the words of [P] taken from [src]. *)
Definition copied (P : Z -> bool) (src dst dst' : pixels) : Prop :=
  length dst' = length dst /\ forall k : nat, dst' !! k = if P (Z.of_nat k) then src !! k else dst !! k.

Lemma copied_trans P Q src dst dst' dst'' : copied P src dst dst' -> copied Q src dst' dst'' -> copied (fun k => P k || Q k) src dst dst''.
Proof. intros [L1 H1] [L2 H2]. split; [congruence|]. intros k. rewrite H2, H1. by destruct (P _), (Q _). Qed.

Lemma copied_ext P Q src dst dst' : (forall k, 0 <= k -> P k = Q k) -> copied P src dst dst' -> copied Q src dst dst'.
Proof. intros E [L H]. split; [done|]. intros k. by rewrite H, E by lia. Qed.

Lemma copy_words_ok n : forall i src dst, 0 <= i -> i + Z.of_nat n <= Z.of_nat (length src) -> i + Z.of_nat n <= Z.of_nat (length dst) ->
  exists dst', copy_words n i src dst = Ok dst' /\ copied (span i (Z.of_nat n)) src dst dst'.
Proof.
  induction n as [|n IH]; intros i src dst Hi Hs Hd; cbn [copy_words].
  { exists dst. split; [done|]. split; [done|]. intros k. destruct (span _ _ _) eqn:E; [apply span_iff in E; lia|done]. }
  destruct (lookup_lt_is_Some_2 src (Z.to_nat i)) as [v Ev]; [lia|]. rewrite (px_get_ok _ _ _ Hi Ev), bind_ok, px_set_ok by lia. rewrite bind_ok.
  destruct (IH (i + 1) src (<[Z.to_nat i := v]> dst)) as (dst' & E & Hc); [lia|lia|rewrite length_insert; lia|]. exists dst'. split; [done|].
  apply (copied_ext (fun k => (k =? i) || span (i + 1) (Z.of_nat n) k)); [intros k _; rewrite Nat2Z.inj_succ, <- Z.add_1_r; symmetry; apply span_split; lia|].
  apply (copied_trans (fun k => k =? i) _ _ _ (<[Z.to_nat i := v]> dst)); [|done]. split; [apply length_insert|]. intros k. destruct (Z.eqb_spec (Z.of_nat k) i).
  - assert (k = Z.to_nat i) as -> by lia. rewrite list_lookup_insert_eq by lia. done.
  - by rewrite list_lookup_insert_ne by lia.
Qed.

Lemma fast_memcpy_line_ok base src dst w : 0 <= base -> 0 <= w -> base + w <= Z.of_nat (length src) -> base + w <= Z.of_nat (length dst) ->
  exists dst', fast_memcpy_line base src dst w = Ok dst' /\ copied (span base w) src dst dst'.
Proof.
  intros Hb Hw Hs Hd. unfold fast_memcpy_line, copy_qwords. rewrite Z.quot_div_nonneg by lia. pose proof (Z.div_mod w 2 ltac:(lia)) as Hd2. pose proof (Zmod_odd w) as Ho. pose proof (Z.mod_pos_bound w 2 ltac:(lia)).
  destruct (copy_words_ok (Z.to_nat (2 * (w / 2))) base src dst) as (d1 & E1 & Hc1); [lia|lia|lia|]. rewrite E1, bind_ok. pose proof (proj1 Hc1) as Hl1.
  destruct (Z.odd w); rewrite Ho in Hd2.
  - destruct (copy_words_ok 1 (base + (w - 1)) src d1) as (d2 & E2 & Hc2); [lia|lia|lia|]. exists d2. split; [done|]. eapply copied_ext; [|exact (copied_trans _ _ _ _ _ _ Hc1 Hc2)].
    intros k _. apply eq_true_iff_eq. cbn beta. rewrite orb_true_iff, !span_iff. lia.
  - exists d1. split; [done|]. eapply copied_ext; [|exact Hc1]. intros k _. apply eq_true_iff_eq. rewrite !span_iff. lia.
Qed.

Lemma blit_rows_ok x w pitch src n : forall row dst, 0 <= x -> 0 <= w -> x + w <= pitch -> 0 < pitch -> 0 <= row ->
  (row + Z.of_nat n) * pitch <= Z.of_nat (length src) -> (row + Z.of_nat n) * pitch <= Z.of_nat (length dst) -> Z.of_nat (length dst) <= 2 ^ 30 ->
  exists dst', blit_rows n row x w pitch src dst = Ok dst' /\ copied (in_block x w row (Z.of_nat n) pitch) src dst dst'.
Proof.
  induction n as [|n IH]; intros row dst Hx Hw Hp Hp0 Hr Hs Hd Hl; cbn [blit_rows].
  { exists dst. split; [done|]. split; [done|]. intros k. unfold in_block. destruct (span row _ _) eqn:E; [apply span_iff in E; lia|done]. }
  rewrite Nat2Z.inj_succ in *. rewrite int_arith_ok by nia. rewrite bind_ok.
  destruct (fast_memcpy_line_ok (row * pitch + x) src dst w) as (d1 & E1 & Hc1); [nia|lia|nia|nia|]. rewrite E1, bind_ok. pose proof (proj1 Hc1) as Hl1.
  destruct (IH (row + 1) d1) as (d2 & E2 & Hc2); try done; try lia. exists d2. split; [done|]. eapply copied_ext; [|exact (copied_trans _ _ _ _ _ _ Hc1 Hc2)].
  intros k _. cbn beta. unfold in_block. rewrite word_split by done. rewrite <- Z.add_1_r, (span_split row) by lia. destruct (k / pitch =? row), (span (row + 1) _ _); cbn; rewrite ?orb_false_r; try done. by destruct (span x _ _).
Qed.

(** ** The display *)

Abbreviation words d := (d_pitch d / 4).
Definition visible (d : display) (k : Z) : bool := (k mod words d <? d_width d) && (k / words d <? d_height d).
Definition inside (d : display) (r : region) (k : Z) : bool := in_rect (g_x r) (g_y r) (g_w r) (g_h r) (k mod words d) (k / words d).
Definition near_region (r : region) : Prop := near (g_x r) /\ near (g_y r) /\ near (g_w r) /\ near (g_h r).

(** Two buffers for a display whose rows are whole double words. *)
Record good_display (d : display) : Prop := {
  gd_fb : framebuffer d <> 0; gd_bb : backbuffer d <> 0; gd_ne : framebuffer d <> backbuffer d;
  gd_width : 0 < d_width d <= words d; gd_height : 0 < d_height d; gd_rows : d_pitch d mod 8 = 0; gd_size : words d * d_height d <= 2 ^ 28
}.
Definition sized (d : display) (b : pixels) : Prop := words d * d_height d <= Z.of_nat (length b) <= 2 ^ 30.

Lemma good_dims d : good_display d -> 0 < words d <= 2 ^ 28 /\ d_height d <= 2 ^ 28 /\ d_width d <= 2 ^ 28 /\ i32 (d_width d) = d_width d /\ i32 (d_height d) = d_height d.
Proof.
  intros [_ _ _ Hw Hh _ Hs]. assert (0 < words d) by lia. assert (words d <= 2 ^ 28) by nia. assert (d_height d <= 2 ^ 28) by nia. rewrite !i32_small by lia. repeat split; lia.
Qed.

Lemma i32_u32 z : i32 (u32 z) = i32 z.
Proof. unfold i32, u32. by rewrite Zplus_mod_idemp_l. Qed.

Lemma clip_screen_ok t w limit : 0 <= t <= 2 ^ 28 -> - 2 ^ 30 <= w < 2 ^ 30 -> 0 <= limit <= 2 ^ 28 -> clip_screen t w limit = Ok (Z.min w (limit - t)).
Proof.
  intros Ht Hw Hl. unfold clip_screen. rewrite int_arith_ok by lia. rewrite bind_ok, (i32_small limit), i32_u32, (i32_small (limit - t)) by lia. f_equal. destruct (Z.ltb_spec limit (t + w)); lia.
Qed.

(** ** The parts of the frame *)

(** The words of a picture that change when the frame buffer gets the words of [P] from the back buffer. *)
Definition blitted (g : gui) (P : Z -> bool) (src dst : pixels) (o : outcome gui) : Prop :=
  exists dst', o = Ok (set_buffer g (framebuffer (disp g)) dst') /\ copied P src dst dst'.

Lemma blit_region_ok g r src dst : good_display (disp g) -> near_region r -> buffers g !! backbuffer (disp g) = Some src -> buffers g !! framebuffer (disp g) = Some dst ->
  sized (disp g) src -> sized (disp g) dst ->
  blitted g (fun k => visible (disp g) k && inside (disp g) r k) src dst (blit_region g (g_x r) (g_y r) (g_w r) (g_h r)).
Proof.
  intros Hd (Hx & Hy & Hw & Hh) Es Ed Hs Hdl. destruct (good_dims _ Hd) as (Hp & Hhb & Hwb & _ & _). pose proof Hd as [Hf Hb _ Hwd Hhd _ Hsz]. unfold near, sized in *.
  unfold blit_region. rewrite (proj2 (Z.eqb_neq (backbuffer _) 0)), (proj2 (Z.eqb_neq (framebuffer _) 0)) by done. cbn [orb].
  rewrite (clip_low_ok (g_x r)) by lia. rewrite bind_ok, (clip_low_ok (g_y r)) by lia. rewrite bind_ok, (clip_screen_ok (Z.max (g_x r) 0)) by lia. rewrite bind_ok, (clip_screen_ok (Z.max (g_y r) 0)) by lia. rewrite bind_ok.
  set (X := Z.max (g_x r) 0). set (Y := Z.max (g_y r) 0). set (W := Z.min (g_w r + Z.min (g_x r) 0) (d_width (disp g) - X)). set (V := Z.min (g_h r + Z.min (g_y r) 0) (d_height (disp g) - Y)).
  assert (forall k, 0 <= k -> (visible (disp g) k && inside (disp g) r k = true <-> X <= k mod words (disp g) < X + W /\ Y <= k / words (disp g) < Y + V)) as Hiff.
  { intros k Hk. pose proof (Z.mod_pos_bound k (words (disp g)) ltac:(lia)). pose proof (Z.div_pos k (words (disp g)) Hk ltac:(lia)).
    unfold visible, inside, in_rect. rewrite !andb_true_iff, !Z.leb_le, !Z.ltb_lt. unfold X, Y, W, V. lia. }
  destruct ((W <=? 0) || (V <=? 0)) eqn:E0.
  - exists dst. split; [f_equal; unfold set_buffer; rewrite insert_id by done; by destruct g|]. split; [done|]. intros k. destruct (visible _ _ && _) eqn:E; [|done]. apply Hiff in E; [|lia].
    rewrite orb_true_iff, !Z.leb_le in E0. lia.
  - b2p. unfold get_buffer. rewrite Es, Ed. cbn [of_option]. rewrite !bind_ok.
    assert (X + W <= words (disp g)) by lia. assert ((Y + V) * words (disp g) <= words (disp g) * d_height (disp g)) by (assert (Y + V <= d_height (disp g)) by lia; nia).
    destruct (blit_rows_ok X W (words (disp g)) src (Z.to_nat V) Y dst) as (dst' & E & Hc); try lia. rewrite E, bind_ok. exists dst'. split; [done|]. eapply copied_ext; [|exact Hc].
    intros k Hk. apply eq_true_iff_eq. rewrite Hiff by done. unfold in_block. rewrite andb_true_iff, !span_iff. lia.
Qed.

Definition in_regions (d : display) (l : list region) (k : Z) : bool := existsb (fun r => inside d r k) l.

Lemma blit_regions_ok l : forall g src dst, good_display (disp g) -> Forall near_region l -> buffers g !! backbuffer (disp g) = Some src -> buffers g !! framebuffer (disp g) = Some dst ->
  sized (disp g) src -> sized (disp g) dst -> blitted g (fun k => visible (disp g) k && in_regions (disp g) l k) src dst (blit_regions g l).
Proof.
  induction l as [|r l IH]; intros g src dst Hd Hl Es Ed Hs Hdl; cbn [blit_regions].
  { exists dst. split; [f_equal; unfold set_buffer; rewrite insert_id by done; by destruct g|]. split; [done|]. intros k. cbn. by rewrite andb_false_r. }
  apply Forall_cons in Hl as [Hr Hl]. destruct (blit_region_ok g r src dst Hd Hr Es Ed Hs Hdl) as (d1 & E1 & Hc1). rewrite E1, bind_ok. pose proof (gd_ne _ Hd) as Hne.
  destruct (IH (set_buffer g (framebuffer (disp g)) d1) src d1) as (d2 & E2 & Hc2); try done.
  - cbn [disp set_buffer with_buffers buffers]. by rewrite lookup_insert_ne. - cbn [disp set_buffer with_buffers buffers]. by rewrite lookup_insert_eq.
  - unfold sized in *. by rewrite (proj1 Hc1).
  - exists d2. split; [rewrite E2; unfold set_buffer, with_buffers; cbn; by rewrite insert_insert_eq|]. eapply copied_ext; [|exact (copied_trans _ _ _ _ _ _ Hc1 Hc2)].
    intros k _. cbn. destruct (visible _ _), (inside _ _ _); cbn; by rewrite ?orb_true_r.
Qed.

Lemma blit_full_ok g src dst : good_display (disp g) -> buffers g !! backbuffer (disp g) = Some src -> buffers g !! framebuffer (disp g) = Some dst ->
  sized (disp g) src -> sized (disp g) dst -> blitted g (span 0 (words (disp g) * d_height (disp g))) src dst (blit_full g).
Proof.
  intros Hd Es Ed Hs Hdl. destruct (good_dims _ Hd) as (Hp & _ & _ & _ & _). pose proof Hd as [_ _ _ _ Hh Hr Hsz]. unfold sized in *. unfold blit_full, get_buffer. rewrite Es, Ed. cbn [of_option]. rewrite !bind_ok. unfold copy_qwords.
  set (d := disp g) in *. assert (d_pitch d = 8 * (d_pitch d / 8)) as E8 by lia_mod. assert (words d = 2 * (d_pitch d / 8)) as Ew by lia_mod.
  assert (2 * (u32 (d_pitch d * d_height d) / 8) = words d * d_height d) as ->.
  { rewrite u32_small by nia. replace (d_pitch d * d_height d) with (d_pitch d / 8 * d_height d * 8) by lia. rewrite Z.div_mul by lia. lia. }
  destruct (copy_words_ok (Z.to_nat (words d * d_height d)) 0 src dst) as (dst' & E & Hc); [lia|lia|lia|]. rewrite E, bind_ok. exists dst'. split; [done|]. eapply copied_ext; [|exact Hc].
  intros k _. by rewrite Z2Nat.id by nia.
Qed.

(** ** The cursor *)

Definition cell (c : Z * Z) : Prop := 0 <= c.1 < CURSOR_HEIGHT /\ 0 <= c.2 < CURSOR_WIDTH.
Definition on_screen (d : display) (cx cy : Z) (c : Z * Z) : bool := (0 <=? cx + c.2) && (cx + c.2 <? d_width d) && (0 <=? cy + c.1) && (cy + c.1 <? d_height d).
Definition cell_pos (d : display) (cx cy : Z) (c : Z * Z) : Z := (cy + c.1) * words d + (cx + c.2).

Lemma cursor_cells_cell : Forall cell cursor_cells.
Proof. apply Forall_forall. intros [r c]. unfold cursor_cells. rewrite list_elem_of_In, in_prod_iff, <- !list_elem_of_In, !elem_of_seqZ. unfold cell. cbn. lia. Qed.

Lemma cursor_cells_all c : cell c -> c ∈ cursor_cells.
Proof. destruct c as [r c]. unfold cell, cursor_cells. cbn. intros H. rewrite list_elem_of_In, in_prod_iff, <- !list_elem_of_In, !elem_of_seqZ. lia. Qed.

Lemma cursor_cells_nodup : NoDup cursor_cells.
Proof. vm_compute. apply (bool_decide_unpack _). vm_compute. exact I. Qed.

Section cells.
Context (d : display) (Hd : good_display d) (cx cy : Z) (Hcx : near cx) (Hcy : near cy).

Lemma cell_word_ok c : cell c -> cell_word d cx cy c = Ok (if on_screen d cx cy c then Some (cell_pos d cx cy c) else None).
Proof using Hd Hcx Hcy.
  intros [Hr Hc]. destruct (good_dims d Hd) as (Hp & Hh & Hw & Ew & Eh). pose proof (gd_size d Hd). unfold near, CURSOR_HEIGHT, CURSOR_WIDTH in *. unfold cell_word. rewrite (int_arith_ok (cx + c.2)) by lia. rewrite bind_ok, (int_arith_ok (cy + c.1)) by lia. rewrite bind_ok, Ew, Eh.
  fold (on_screen d cx cy c). destruct (on_screen d cx cy c) eqn:E; [|done]. unfold on_screen in E. b2p. rewrite int_arith_ok by nia. rewrite bind_ok, int_arith_ok by nia. done.
Qed.

Lemma cell_pos_ok b c : sized d b -> cell c -> on_screen d cx cy c = true -> 0 <= cell_pos d cx cy c < Z.of_nat (length b).
Proof using Hd.
  intros Hb _ E. destruct (good_dims d Hd) as (Hp & Hh & Hw & _). pose proof Hd as [_ _ _ Hwd _ _ _]. unfold sized in Hb. unfold on_screen in E. b2p. unfold cell_pos. split; [nia|].
  assert ((cy + c.1 + 1) * words d <= d_height d * words d) by (apply Z.mul_le_mono_nonneg_r; lia). lia.
Qed.

(** The point of a cell, as the row and column of a word. *)
Lemma cell_pos_word c k : on_screen d cx cy c = true -> (k = cell_pos d cx cy c <-> k mod words d = cx + c.2 /\ k / words d = cy + c.1).
Proof using Hd.
  intros E. destruct (good_dims d Hd) as (Hp & _). pose proof Hd as [_ _ _ Hwd _ _ _]. unfold on_screen in E. b2p. unfold cell_pos.
  pose proof (word_split (words d) (cx + c.2) 1 (cy + c.1) k ltac:(lia) ltac:(lia) ltac:(lia)) as Hs. pose proof (span_iff ((cy + c.1) * words d + (cx + c.2)) 1 k) as Hk1. rewrite Hs, andb_true_iff, span_iff, Z.eqb_eq in Hk1. lia.
Qed.

Lemma cell_pos_inj c c' : on_screen d cx cy c = true -> on_screen d cx cy c' = true -> cell_pos d cx cy c = cell_pos d cx cy c' -> c = c'.
Proof using Hd.
  intros E E' H. apply (cell_pos_word c' (cell_pos d cx cy c) E') in H as [H1 H2]. destruct (proj1 (cell_pos_word c (cell_pos d cx cy c) E) eq_refl) as [H3 H4].
  destruct c, c'. cbn in *. f_equal; lia.
Qed.

Lemma cell_index_ok c : cell c -> 0 <= cell_index c < 228.
Proof using Type. unfold cell, cell_index, CURSOR_HEIGHT, CURSOR_WIDTH. lia. Qed.
Lemma cell_index_inj c c' : cell c -> cell c' -> cell_index c = cell_index c' -> c = c'.
Proof using Type. destruct c, c'. unfold cell, cell_index, CURSOR_HEIGHT, CURSOR_WIDTH. cbn. intros ? ? ?. f_equal; lia. Qed.

(** Word [k] belongs to a cell of [cells]. *)
Definition covered (cells : list (Z * Z)) (k : nat) : Prop := exists c, c ∈ cells /\ on_screen d cx cy c = true /\ Z.of_nat k = cell_pos d cx cy c.

Lemma covered_cons c cells k : covered (c :: cells) k <-> (on_screen d cx cy c = true /\ Z.of_nat k = cell_pos d cx cy c) \/ covered cells k.
Proof using Type. unfold covered. setoid_rewrite elem_of_cons. naive_solver. Qed.

Lemma erase_cells_ok saved cells : forall fb, Forall cell cells -> NoDup cells -> length saved = 228%nat -> sized d fb ->
  exists fb', erase_cells d cx cy saved cells fb = Ok fb' /\ length fb' = length fb /\ (forall k, ~ covered cells k -> fb' !! k = fb !! k) /\
    (forall c, c ∈ cells -> on_screen d cx cy c = true -> fb' !! Z.to_nat (cell_pos d cx cy c) = saved !! Z.to_nat (cell_index c)).
Proof using Hd Hcx Hcy.
  induction cells as [|c cells IH]; intros fb Hc Hn Hs Hb; cbn [erase_cells].
  { exists fb. split; [done|]. split; [done|]. split; [done|]. by intros c ?%elem_of_nil. }
  apply Forall_cons in Hc as [Hc Hcs]. apply NoDup_cons in Hn as [Hni Hn]. rewrite cell_word_ok, bind_ok by done. destruct (on_screen d cx cy c) eqn:E.
  - pose proof (cell_index_ok c Hc). destruct (lookup_lt_is_Some_2 saved (Z.to_nat (cell_index c))) as [v Ev]; [lia|]. rewrite (px_get_ok _ _ v) by (done || lia). rewrite bind_ok.
    pose proof (cell_pos_ok fb c Hb Hc E) as Hp. rewrite px_set_ok by done. rewrite bind_ok. destruct (IH (<[Z.to_nat (cell_pos d cx cy c) := v]> fb)) as (fb' & E' & Hl & Hout & Hin); try done; [unfold sized in *; by rewrite length_insert|].
    exists fb'. split; [done|]. split; [by rewrite Hl, length_insert|]. split.
    + intros k Hk. rewrite covered_cons in Hk. rewrite Hout by tauto. apply list_lookup_insert_ne. intros <-. apply Hk. left. split; [done|lia].
    + intros c' Hc' Ec'. apply elem_of_cons in Hc' as [->|Hc']; [|by apply Hin]. rewrite Hout, list_lookup_insert_eq by lia || (intros (c2 & H2 & E2 & Ep); rewrite Z2Nat.id in Ep by lia; apply cell_pos_inj in Ep; [by subst|done|done]). done.
  - destruct (IH fb) as (fb' & E' & Hl & Hout & Hin); try done. exists fb'. split; [done|]. split; [done|]. split.
    + intros k Hk. rewrite covered_cons in Hk. apply Hout. tauto.
    + intros c' Hc' Ec'. apply elem_of_cons in Hc' as [->|Hc']; [congruence|]. by apply Hin.
Qed.

Lemma draw_cells_ok cells : forall fb saved, Forall cell cells -> NoDup cells -> length saved = 228%nat -> sized d fb ->
  exists fb' saved', draw_cells d cx cy cells fb saved = Ok (fb', saved') /\ length fb' = length fb /\ length saved' = 228%nat /\ (forall k, ~ covered cells k -> fb' !! k = fb !! k) /\
    (forall c, c ∈ cells -> on_screen d cx cy c = true -> fb' !! Z.to_nat (cell_pos d cx cy c) = match cursor_color c.1 c.2 with Some v => Some v | None => fb !! Z.to_nat (cell_pos d cx cy c) end) /\
    (forall c, c ∈ cells -> on_screen d cx cy c = true -> saved' !! Z.to_nat (cell_index c) = fb !! Z.to_nat (cell_pos d cx cy c)) /\
    (forall c, cell c -> c ∉ cells -> saved' !! Z.to_nat (cell_index c) = saved !! Z.to_nat (cell_index c)).
Proof using Hd Hcx Hcy.
  induction cells as [|c cells IH]; intros fb saved Hc Hn Hs Hb; cbn [draw_cells].
  { exists fb, saved. repeat (split; [done|]). split; [by intros c ?%elem_of_nil|]. split; [by intros c ?%elem_of_nil|done]. }
  apply Forall_cons in Hc as [Hc Hcs]. apply NoDup_cons in Hn as [Hni Hn]. rewrite cell_word_ok, bind_ok by done. destruct (on_screen d cx cy c) eqn:E.
  - pose proof (cell_index_ok c Hc). pose proof (cell_pos_ok fb c Hb Hc E) as Hp. destruct (lookup_lt_is_Some_2 fb (Z.to_nat (cell_pos d cx cy c))) as [v Ev]; [lia|].
    rewrite (px_get_ok _ _ v) by (done || lia). rewrite bind_ok, px_set_ok by lia. rewrite bind_ok.
    set (p := Z.to_nat (cell_pos d cx cy c)) in *. set (fb1 := match cursor_color c.1 c.2 with Some w => <[p := w]> fb | None => fb end). set (sv1 := <[Z.to_nat (cell_index c) := v]> saved).
    assert (match cursor_color c.1 c.2 with Some color => px_set fb (cell_pos d cx cy c) color | None => Ok fb end = Ok fb1) as -> by (unfold fb1; destruct (cursor_color _ _); [by apply px_set_ok|done]).
    rewrite !bind_ok. assert (length fb1 = length fb) as Hl1 by (unfold fb1; destruct (cursor_color _ _); [apply length_insert|done]).
    assert (forall k, k <> p -> fb1 !! k = fb !! k) as Hfb1 by (intros k Hk; unfold fb1; destruct (cursor_color _ _); [by rewrite list_lookup_insert_ne|done]).
    destruct (IH fb1 sv1) as (fb' & sv' & E' & Hl & Hl' & Hout & Hin & Hsv & Hsv'); try done; [by unfold sv1; rewrite length_insert|unfold sized in *; by rewrite Hl1|].
    assert (forall c', c' ∈ cells -> on_screen d cx cy c' = true -> Z.to_nat (cell_pos d cx cy c') <> p) as Hne.
    { intros c' Hc' Ec' Ep. assert (cell c') as Hcc by (rewrite Forall_forall in Hcs; by apply Hcs). pose proof (cell_pos_ok fb c' Hb Hcc Ec'). unfold p in Ep. assert (c' = c) as -> by (apply cell_pos_inj; [done|done|lia]). done. }
    exists fb', sv'. split; [done|]. split; [congruence|]. split; [done|]. split; [|split; [|split]].
    + intros k Hk. rewrite covered_cons in Hk. rewrite Hout by tauto. apply Hfb1. intros ->. apply Hk. left. split; [done|unfold p; lia].
    + intros c' Hc' Ec'. apply elem_of_cons in Hc' as [->|Hc']; [|rewrite Hin by done; destruct (cursor_color c'.1 c'.2); [done|apply Hfb1; by apply Hne]].
      fold p. rewrite Hout by (intros (c2 & H2 & E2 & Ep); apply (Hne c2 H2 E2); lia). unfold fb1. destruct (cursor_color _ _); [by rewrite list_lookup_insert_eq by (unfold p; lia)|done].
    + intros c' Hc' Ec'. apply elem_of_cons in Hc' as [->|Hc']; [|rewrite Hsv by done; apply Hfb1; by apply Hne]. rewrite Hsv' by done. fold p. unfold sv1. rewrite list_lookup_insert_eq by lia. by rewrite Ev.
    + intros c' Hcc Hni'. apply not_elem_of_cons in Hni' as [Hne' Hni']. rewrite Hsv' by done. unfold sv1. apply list_lookup_insert_ne. intros Ei. apply Hne'. pose proof (cell_index_ok c' Hcc). apply cell_index_inj; [done|done|lia].
  - rewrite bind_ok. destruct (IH fb saved) as (fb' & sv' & E' & Hl & Hl' & Hout & Hin & Hsv & Hsv'); try done. exists fb', sv'. split; [done|]. split; [done|]. split; [done|]. split; [|split; [|split]].
    + intros k Hk. rewrite covered_cons in Hk. apply Hout. tauto.
    + intros c' Hc' Ec'. apply elem_of_cons in Hc' as [->|Hc']; [congruence|]. by apply Hin.
    + intros c' Hc' Ec'. apply elem_of_cons in Hc' as [->|Hc']; [congruence|]. by apply Hsv.
    + intros c' Hcc Hni'. apply not_elem_of_cons in Hni' as [_ Hni']. by apply Hsv'.
Qed.
End cells.

(** ** Frames *)

Abbreviation fb_of s := (buffers (sg s) !! framebuffer (dsp s)).
Abbreviation bb_of s := (buffers (sg s) !! backbuffer (dsp s)).

Record good_screen (s : screen) : Prop := {
  gs_display : good_display (dsp s);
  gs_fb : exists fb, fb_of s = Some fb /\ sized (dsp s) fb;
  gs_bb : exists bb, bb_of s = Some bb /\ sized (dsp s) bb;
  gs_saved : length (saved_pixels s) = 228%nat;
  gs_mouse : near (mouse_x s) /\ near (mouse_y s);
  gs_saved_at : near (saved_x s) /\ near (saved_y s);
  gs_dirty : Forall near_region (dirty s)
}.

(** What the frame buffer shows below the cursor. *)
Definition beneath (s : screen) (b : pixels) : Prop :=
  exists fb, fb_of s = Some fb /\ length b = length fb /\
    (forall k, (saved_valid s = true -> ~ covered (dsp s) (saved_x s) (saved_y s) cursor_cells k) -> b !! k = fb !! k) /\
    (saved_valid s = true -> forall c, cell c -> on_screen (dsp s) (saved_x s) (saved_y s) c = true -> b !! Z.to_nat (cell_pos (dsp s) (saved_x s) (saved_y s) c) = saved_pixels s !! Z.to_nat (cell_index c)).

Definition erased (s : screen) (b : pixels) : screen := with_cursor (with_gui s (set_buffer (sg s) (framebuffer (dsp s)) b)) (saved_pixels s) (saved_x s) (saved_y s) false.

Lemma covered_cell d cx cy k : {covered d cx cy cursor_cells k} + {~ covered d cx cy cursor_cells k}.
Proof.
  destruct (existsb (fun c => on_screen d cx cy c && (Z.of_nat k =? cell_pos d cx cy c)) cursor_cells) eqn:E; [left|right].
  - apply existsb_exists in E as (c & Hc & E). b2p. exists c. split; [by apply list_elem_of_In|]. auto.
  - intros (c & Hc & E1 & E2). apply not_true_iff_false in E. apply E. apply existsb_exists. exists c. split; [by apply list_elem_of_In|]. rewrite E1. by apply Z.eqb_eq.
Qed.

Lemma cursor_erase_ok s b : good_screen s -> beneath s b -> cursor_erase s = Ok (erased s b).
Proof.
  intros [Hd (fb0 & Ef0 & Hsz) _ Hs _ [Hsx Hsy] _] (fb & Ef & Hl & Hout & Hin). assert (fb0 = fb) as -> by congruence. unfold cursor_erase, erased. destruct (saved_valid s) eqn:Ev; cbn [negb orb].
  - rewrite (proj2 (Z.eqb_neq _ 0)) by (by apply gd_fb). unfold get_buffer. rewrite Ef. cbn [of_option]. rewrite bind_ok.
    destruct (erase_cells_ok _ Hd _ _ Hsx Hsy (saved_pixels s) cursor_cells fb cursor_cells_cell cursor_cells_nodup Hs Hsz) as (fb' & E & Hl' & Hout' & Hin'). rewrite E, bind_ok.
    assert (fb' = b) as ->; [|done]. apply list_eq. intros k. destruct (covered_cell (dsp s) (saved_x s) (saved_y s) k) as [(c & Hc & Eo & Ek)|Hn].
    + assert (k = Z.to_nat (cell_pos (dsp s) (saved_x s) (saved_y s) c)) as -> by lia. rewrite Hin' by done. symmetry. apply Hin; [done| |done]. pose proof cursor_cells_cell as Hcc. rewrite Forall_forall in Hcc. by apply Hcc.
    + rewrite Hout', Hout by done. done.
  - assert (b = fb) as -> by (apply list_eq; intros k; by apply Hout). f_equal. destruct s as [g ? ? ? ? ? v ? ?]. cbn in *. subst v. unfold with_cursor, with_gui, set_buffer, with_buffers. cbn. f_equal. rewrite insert_id by done. by destruct g.
Qed.

(** The colour of the cursor at (cx, cy) over the word [k]. *)
Definition overlay (d : display) (cx cy k : Z) : option Z :=
  if in_rect cx cy CURSOR_WIDTH CURSOR_HEIGHT (k mod words d) (k / words d) then cursor_color (k / words d - cy) (k mod words d - cx) else None.

Lemma gui_draw_cursor_ok s b : good_screen s -> fb_of s = Some b ->
  exists fb' saved', gui_draw_cursor s = Ok (with_cursor (with_gui s (set_buffer (sg s) (framebuffer (dsp s)) fb')) saved' (mouse_x s) (mouse_y s) true) /\ length fb' = length b /\ length saved' = 228%nat /\
    beneath (with_cursor (with_gui s (set_buffer (sg s) (framebuffer (dsp s)) fb')) saved' (mouse_x s) (mouse_y s) true) b /\
    (forall k : nat, visible (dsp s) (Z.of_nat k) = true -> fb' !! k = match overlay (dsp s) (mouse_x s) (mouse_y s) (Z.of_nat k) with Some v => Some v | None => b !! k end).
Proof.
  intros [Hd (fb0 & Ef0 & Hsz) _ Hs [Hmx Hmy] _ _] Ef. assert (fb0 = b) as -> by congruence. unfold gui_draw_cursor. rewrite (proj2 (Z.eqb_neq _ 0)) by (by apply gd_fb). unfold get_buffer. rewrite Ef. cbn [of_option]. rewrite bind_ok.
  destruct (draw_cells_ok _ Hd _ _ Hmx Hmy cursor_cells b (saved_pixels s) cursor_cells_cell cursor_cells_nodup Hs Hsz) as (fb' & sv' & E & Hl & Hl' & Hout & Hin & Hsv & _). rewrite E, bind_ok.
  exists fb', sv'. split; [done|]. split; [done|]. split; [done|]. split.
  - exists fb'. cbn [sg dsp with_cursor with_gui disp set_buffer with_buffers buffers saved_valid saved_x saved_y saved_pixels]. rewrite lookup_insert_eq. split; [done|]. split; [done|]. split.
    + intros k Hk. symmetry. apply Hout. by apply Hk.
    + intros _ c Hc Eo. symmetry. apply Hsv; [by apply cursor_cells_all|done].
  - intros k Hk. unfold overlay. destruct (in_rect _ _ _ _ _ _) eqn:Er.
    + set (c := (Z.of_nat k / words (dsp s) - mouse_y s, Z.of_nat k mod words (dsp s) - mouse_x s)). assert (cell c) as Hc by (unfold cell, c; cbn; bool_lia).
      assert (on_screen (dsp s) (mouse_x s) (mouse_y s) c = true) as Eo.
      { destruct (good_dims _ Hd) as (Hp & _). pose proof (Z.mod_pos_bound (Z.of_nat k) (words (dsp s)) ltac:(lia)). pose proof (Z.div_pos (Z.of_nat k) (words (dsp s)) ltac:(lia) ltac:(lia)).
        unfold visible in Hk. unfold on_screen, c. cbn [fst snd]. b2p. rewrite !andb_true_iff, !Z.leb_le, !Z.ltb_lt. lia. }
      assert (Z.of_nat k = cell_pos (dsp s) (mouse_x s) (mouse_y s) c) as Ek by (apply cell_pos_word; [done|done|unfold c; cbn; lia]).
      assert (k = Z.to_nat (cell_pos (dsp s) (mouse_x s) (mouse_y s) c)) as E' by lia. rewrite E' at 1. rewrite Hin by (by try apply cursor_cells_all). by rewrite <- E'.
    + apply Hout. intros (c & Hc & Eo & Ek). apply cell_pos_word in Ek as [E1 E2]; [|done|done]. pose proof cursor_cells_cell as Hcc. rewrite Forall_forall in Hcc. specialize (Hcc c Hc). unfold cell in Hcc.
      rewrite E1, E2 in Er. bool_lia.
Qed.

(** What is on the screen below the cursor is the back buffer, but for what is marked. *)
Definition fresh (s : screen) : Prop := good_screen s /\ exists b bb, beneath s b /\ bb_of s = Some bb /\ sized (dsp s) bb /\
  (full_redraw s = true \/ forall k : nat, visible (dsp s) (Z.of_nat k) = true -> in_regions (dsp s) (dirty s) (Z.of_nat k) = false -> b !! k = bb !! k).

(** The screen shows the back buffer and the cursor. *)
Definition shows (s : screen) (bb : pixels) : Prop := exists fb, fb_of s = Some fb /\
  forall k : nat, visible (dsp s) (Z.of_nat k) = true -> fb !! k = match overlay (dsp s) (mouse_x s) (mouse_y s) (Z.of_nat k) with Some v => Some v | None => bb !! k end.

Lemma visible_span d k : good_display d -> 0 <= k -> visible d k = true -> span 0 (words d * d_height d) k = true.
Proof.
  intros Hd Hk Hv. destruct (good_dims d Hd) as (Hp & _). unfold visible in Hv. b2p. apply span_iff. pose proof (Z.div_mod k (words d) ltac:(lia)). pose proof (Z.mod_pos_bound k (words d) ltac:(lia)).
  assert (words d * (k / words d + 1) <= words d * d_height d) by (apply Z.mul_le_mono_nonneg_l; lia). lia.
Qed.

(** Drawing the cursor over a frame buffer [b] from which it was erased. *)
Lemma draw_over_ok s b bb : good_screen s -> fb_of s = Some b -> bb_of s = Some bb -> sized (dsp s) b ->
  exists s', gui_draw_cursor s = Ok s' /\ good_screen s' /\ beneath s' b /\ bb_of s' = Some bb /\ dsp s' = dsp s /\ dirty s' = dirty s /\ full_redraw s' = full_redraw s /\
    ((forall k : nat, visible (dsp s) (Z.of_nat k) = true -> b !! k = bb !! k) -> shows s' bb).
Proof.
  intros Hg Ef Eb Hb. destruct (gui_draw_cursor_ok s b Hg Ef) as (fb' & sv' & E & Hl & Hl' & Hbn & Hvis). eexists. split; [exact E|]. pose proof Hg as [Hd _ (bb0 & Eb0 & Hsb) _ Hm _ Hdt].
  assert (bb0 = bb) as -> by congruence. pose proof (gd_ne _ Hd) as Hne. cbn [sg dsp with_cursor with_gui disp set_buffer with_buffers buffers dirty full_redraw]. split.
  - split; cbn [sg dsp with_cursor with_gui disp set_buffer with_buffers buffers dirty full_redraw saved_pixels mouse_x mouse_y saved_x saved_y]; try done.
    + exists fb'. rewrite lookup_insert_eq. split; [done|]. unfold sized in *. by rewrite Hl.
    + exists bb. by rewrite lookup_insert_ne.
  - split; [exact Hbn|]. rewrite lookup_insert_ne by done. split; [done|]. split; [done|]. split; [done|]. split; [done|]. intros Hsame.
    exists fb'. cbn [sg dsp with_cursor with_gui disp set_buffer with_buffers buffers mouse_x mouse_y]. rewrite lookup_insert_eq. split; [done|]. intros k Hk. rewrite Hvis by done. destruct (overlay _ _ _ _); [done|]. by apply Hsame.
Qed.

Lemma beneath_sized s b : good_screen s -> beneath s b -> sized (dsp s) b.
Proof. intros [_ (fb0 & E0 & Hs) _ _ _ _ _] (fb & E & Hl & _). unfold sized in *. rewrite Hl. by assert (fb = fb0) as -> by congruence. Qed.

(** A buffer as frame buffer instead of the one with the cursor. *)
Lemma set_fb_good s b dl f : good_screen s -> sized (dsp s) b -> Forall near_region dl -> good_screen (with_dirty (erased s b) dl f).
Proof.
  intros [Hd _ (bb & Eb & Hsb) Hs Hm Hsv _] Hb Hdl. pose proof (gd_ne _ Hd) as Hne.
  split; cbn [with_dirty erased sg dsp with_cursor with_gui disp set_buffer with_buffers buffers dirty saved_pixels mouse_x mouse_y saved_x saved_y]; try done.
  - exists b. by rewrite lookup_insert_eq. - exists bb. by rewrite lookup_insert_ne.
Qed.

Lemma present_ok s : fresh s -> exists s' bb, present s = Ok s' /\ fresh s' /\ bb_of s = Some bb /\ shows s' bb /\ dsp s' = dsp s.
Proof.
  intros (Hg & b & bb & Hbn & Eb & Hsb & Hor). pose proof Hg as [Hd _ _ _ _ _ Hdt]. pose proof (beneath_sized s b Hg Hbn) as Hsz. pose proof (gd_ne _ Hd) as Hne.
  unfold present. rewrite (proj2 (Z.eqb_neq (backbuffer _) 0)), (proj2 (Z.eqb_neq (framebuffer _) 0)) by (by apply gd_bb || by apply gd_fb). cbn [orb].
  rewrite (cursor_erase_ok s b Hg Hbn), bind_ok. set (g := set_buffer (sg s) (framebuffer (dsp s)) b).
  assert (buffers g !! backbuffer (disp g) = Some bb) as Egb by (cbn; by rewrite lookup_insert_ne). assert (buffers g !! framebuffer (disp g) = Some b) as Egf by (cbn; by rewrite lookup_insert_eq).
  assert (exists b', (if full_redraw (erased s b) then g ← blit_full (sg (erased s b)); Ok (with_dirty (with_gui (erased s b) g) (dirty (erased s b)) false) else g ← blit_regions (sg (erased s b)) (dirty (erased s b)); Ok (with_gui (erased s b) g))
    = Ok (with_dirty (erased s b') (dirty s) false) /\ sized (dsp s) b' /\ forall k : nat, visible (dsp s) (Z.of_nat k) = true -> b' !! k = bb !! k) as (b' & E' & Hsz' & Hsame).
  { change (sg (erased s b)) with g. change (dirty (erased s b)) with (dirty s). change (full_redraw (erased s b)) with (full_redraw s). destruct (full_redraw s) eqn:Ef.
    - destruct (blit_full_ok g bb b Hd Egb Egf Hsb Hsz) as (b' & E & Hl & Hc). exists b'. rewrite E, bind_ok. split; [f_equal; unfold erased, with_dirty, with_gui, with_cursor, g, set_buffer, with_buffers; cbn; by rewrite insert_insert_eq|].
      split; [unfold sized in *; by rewrite Hl|]. intros k Hk. rewrite Hc. cbn [disp g set_buffer with_buffers]. rewrite visible_span by (done || lia). done.
    - destruct (blit_regions_ok (dirty s) g bb b Hd Hdt Egb Egf Hsb Hsz) as (b' & E & Hl & Hc). exists b'. rewrite E, bind_ok. split; [f_equal; unfold erased, with_dirty, with_gui, with_cursor, g, set_buffer, with_buffers; cbn; by rewrite insert_insert_eq, Ef|].
      split; [unfold sized in *; by rewrite Hl|]. intros k Hk. rewrite Hc. change (disp g) with (dsp s). rewrite Hk. cbn [andb]. destruct (in_regions _ _ _) eqn:Er; [done|]. destruct Hor as [Hor|Hor]; [done|]. by apply Hor. }
  rewrite E', bind_ok. destruct (draw_over_ok (with_dirty (erased s b') (dirty s) false) b' bb) as (s' & Es & Hg' & Hbn' & Eb' & Ed' & _ & Ef' & Hsh); [by apply set_fb_good|cbn; by rewrite lookup_insert_eq|cbn; by rewrite lookup_insert_ne|done|].
  rewrite Es, bind_ok. exists (with_dirty s' [] (full_redraw s')), bb. split; [done|]. change (dsp (with_dirty (erased s b') (dirty s) false)) with (dsp s) in *. change (dsp (with_dirty s' [] (full_redraw s'))) with (dsp s'). split; [|split; [done|]].
  - split; [destruct Hg'; by split|]. exists b', bb. split; [exact Hbn'|]. split; [exact Eb'|]. change (dsp (with_dirty s' [] (full_redraw s'))) with (dsp s'). rewrite Ed'. split; [done|]. right. intros k Hk _. by apply Hsame.
  - split; [by apply Hsh|done].
Qed.

(** What happens between frames: something is drawn into the back buffer inside a region that is then marked, or anywhere before
    everything is marked; the mouse moves; the cursor is redrawn; a frame ends. *)
Inductive step (s : screen) : screen -> Prop :=
| step_draw r bb bb' : bb_of s = Some bb -> length bb' = length bb -> near_region r ->
    (forall k : nat, visible (dsp s) (Z.of_nat k) = true -> inside (dsp s) r (Z.of_nat k) = false -> bb' !! k = bb !! k) ->
    step s (compositor_mark_dirty (with_gui s (set_buffer (sg s) (backbuffer (dsp s)) bb')) (g_x r) (g_y r) (g_w r) (g_h r))
| step_full bb bb' : bb_of s = Some bb -> length bb' = length bb -> step s (compositor_mark_full_redraw (with_gui s (set_buffer (sg s) (backbuffer (dsp s)) bb')))
| step_move dx dy s' : near dx -> near dy -> gui_move_mouse s dx dy = Ok s' -> step s s'
| step_refresh s' : gui_refresh_cursor s = Ok s' -> step s s'
| step_present s' : present s = Ok s' -> step s s'.

(** Another back buffer and other marks. *)
Lemma fresh_back s bb' dl f : fresh s -> (exists bb, bb_of s = Some bb /\ length bb' = length bb) -> Forall near_region dl ->
  (f = true \/ (full_redraw s = false /\ forall k : nat, visible (dsp s) (Z.of_nat k) = true -> in_regions (dsp s) dl (Z.of_nat k) = false -> in_regions (dsp s) (dirty s) (Z.of_nat k) = false /\ bb' !! k = default [] (bb_of s) !! k)) ->
  fresh (with_dirty (with_gui s (set_buffer (sg s) (backbuffer (dsp s)) bb')) dl f).
Proof.
  intros (Hg & b & bb & (fb & Ef & Hbn) & Eb & Hsb & Hor) (bb0 & Eb0 & Hl) Hdl Hf. assert (bb0 = bb) as -> by congruence. pose proof Hg as [Hd (fb0 & Ef0 & Hsf) _ Hs Hm Hsv _]. pose proof (gd_ne _ Hd) as Hne.
  assert (sized (dsp s) bb') as Hsb' by (unfold sized in *; by rewrite Hl). split.
  - split; cbn [with_dirty sg dsp with_gui disp set_buffer with_buffers buffers dirty saved_pixels mouse_x mouse_y saved_x saved_y]; try done.
    + exists fb0. by rewrite lookup_insert_ne. + exists bb'. by rewrite lookup_insert_eq.
  - exists b, bb'. cbn [with_dirty sg dsp with_gui disp set_buffer with_buffers buffers dirty full_redraw]. rewrite lookup_insert_eq. split; [|split; [done|split; [done|]]].
    + exists fb. cbn [with_dirty sg dsp with_gui disp set_buffer with_buffers buffers saved_valid saved_x saved_y saved_pixels]. by rewrite lookup_insert_ne.
    + destruct Hf as [->|[Hff Hf]]; [by left|]. right. intros k Hk Hr. destruct (Hf k Hk Hr) as [Hr' ->]. rewrite Eb. cbn. destruct Hor as [Hor|Hor]; [congruence|]. by apply Hor.
Qed.

Lemma mouse_clamp v limit : - 2 ^ 30 <= v <= 2 ^ 30 -> 0 < limit <= 2 ^ 28 ->
  near (if i32 limit <=? (if v <? 0 then 0 else v) then i32 (u32 (limit - 1)) else (if v <? 0 then 0 else v)).
Proof.
  intros Hv Hl. rewrite i32_u32, (i32_small limit), (i32_small (limit - 1)) by lia. unfold near. destruct (Z.ltb_spec v 0); destruct (Z.leb_spec limit (if v <? 0 then 0 else v)); destruct (Z.leb_spec limit 0); destruct (Z.leb_spec limit v); lia.
Qed.

Lemma step_fresh s s' : fresh s -> step s s' -> fresh s' /\ dsp s' = dsp s.
Proof.
  intros Hf Hst. destruct Hst as [r bb bb' Eb Hl Hr Hin|bb bb' Eb Hl|dx dy s' Hdx Hdy E|s' E|s' E].
  - pose proof Hf as (Hg & _). pose proof (gs_dirty _ Hg) as Hdt. unfold compositor_mark_dirty. change (dirty (with_gui s _)) with (dirty s). destruct (_ <? _)%nat.
    + split; [|done]. apply fresh_back; [done|by exists bb| |].
      * apply Forall_app. split; [done|]. apply Forall_singleton. by destruct r.
      * change (full_redraw (with_gui s _)) with (full_redraw s). destruct (full_redraw s) eqn:Efr; [by left|right]. split; [done|]. intros k Hk Hn. unfold in_regions in Hn |- *. rewrite existsb_app in Hn. cbn [existsb] in Hn.
        apply orb_false_iff in Hn as [Hn1 Hn2]. rewrite orb_false_r in Hn2. split; [done|]. rewrite Eb. cbn. apply Hin; [done|]. destruct r. exact Hn2.
    + split; [|done]. apply fresh_back; [done|by exists bb|done|by left].
  - split; [|done]. unfold compositor_mark_full_redraw. apply fresh_back; [done|by exists bb|by constructor|by left].
  - pose proof Hf as (Hg & Hrest). pose proof Hg as [Hd Hfb Hbb Hs [Hmx Hmy] Hsv Hdt]. unfold gui_move_mouse in E. unfold near in *. rewrite (int_arith_ok (mouse_x s + dx)) in E by lia. rewrite bind_ok, (int_arith_ok (mouse_y s + dy)) in E by lia. rewrite bind_ok in E. injection E as <-.
    split; [|done]. split; [|exact Hrest]. destruct (good_dims _ Hd) as (_ & Hh & Hw & _). pose proof (gd_width _ Hd). pose proof (gd_height _ Hd). split; [exact Hd|exact Hfb|exact Hbb|exact Hs| |exact Hsv|exact Hdt]. cbn [mouse_x mouse_y with_mouse]. split; apply mouse_clamp; lia.
  - pose proof Hf as (Hg & b & bb & Hbn & Eb & Hsb & Hor). pose proof Hg as [Hd _ _ _ _ _ Hdt]. pose proof (beneath_sized s b Hg Hbn) as Hsz. pose proof (gd_ne _ Hd) as Hne.
    unfold gui_refresh_cursor in E. rewrite (proj2 (Z.eqb_neq _ 0)) in E by (by apply gd_fb). rewrite (cursor_erase_ok s b Hg Hbn), bind_ok in E.
    destruct (draw_over_ok (with_dirty (erased s b) (dirty s) (full_redraw s)) b bb) as (s2 & Es & Hg' & Hbn' & Eb' & Ed' & Edt & Ef' & _); [by apply set_fb_good|cbn; by rewrite lookup_insert_eq|cbn; by rewrite lookup_insert_ne|done|].
    change (with_dirty (erased s b) (dirty s) (full_redraw s)) with (erased s b) in *. assert (s2 = s') as -> by congruence. change (dsp (erased s b)) with (dsp s) in *. change (dirty (erased s b)) with (dirty s) in *. change (full_redraw (erased s b)) with (full_redraw s) in *.
    split; [|done]. split; [done|]. exists b, bb. split; [done|]. split; [done|]. rewrite Ed', Edt, Ef'. by split.
  - destruct (present_ok s Hf) as (s2 & bb & E2 & Hf2 & _ & _ & Ed). assert (s2 = s') as -> by congruence. done.
Qed.

(** C34. Nothing stale stays on the screen: from a start with everything marked, after any sequence of drawing that marks what it changed (more regions than the table holds included), mouse movements, cursor updates and frames, the end of a frame returns and the frame buffer shows the back buffer with the cursor over it. *)
Theorem screen_never_stale s0 s (H0 : good_screen s0) (Hf : full_redraw s0 = true) (Hv : saved_valid s0 = false) (Hs : star step s0 s) :
  exists s' bb, present s = Ok s' /\ bb_of s = Some bb /\ shows s' bb.
Proof.
  assert (fresh s0) as H00.
  { pose proof H0 as [_ (fb & Ef & Hsf) (bb & Eb & Hsb) _ _ _ _]. split; [done|]. exists fb, bb. split; [exists fb; by rewrite Hv|]. auto. }
  assert (fresh s) as Hfs by (apply (star_inv step fresh (fun a b Ha Hab => proj1 (step_fresh a b Ha Hab)) _ _ Hs H00)). destruct (present_ok s Hfs) as (s' & bb & E & _ & Eb & Hsh & _). by exists s', bb.
Qed.

(** C35. The cursor leaves no trace: taking it away after it was drawn, wherever it is on or off the screen, gives the frame buffer that was there before. *)
Theorem cursor_roundtrip s b (Hg : good_screen s) (Hb : fb_of s = Some b) :
  exists s1 s2, gui_draw_cursor s = Ok s1 /\ cursor_erase s1 = Ok s2 /\ fb_of s2 = Some b.
Proof.
  pose proof Hg as [_ (fb0 & E0 & Hsz) (bb & Ebb & _) _ _ _ _]. assert (fb0 = b) as -> by congruence. destruct (draw_over_ok s b bb Hg Hb Ebb Hsz) as (s1 & E & Hg1 & Hbn & _ & Ed & _).
  exists s1, (erased s1 b). split; [done|]. split; [by apply cursor_erase_ok|]. cbn. by rewrite lookup_insert_eq.
Qed.

(** ** A small screen: 16 by 20 points *)

Definition desk : screen :=
  Screen (Gui (Display 16 20 64 100 200) 0 0 0 0 0 0 {[100 := replicate 320 0; 200 := replicate 320 5]}) [] true (replicate 228 0) 0 0 false 12 15.

Lemma desk_good : good_screen desk.
Proof.
  assert (sized (dsp desk) (replicate 320 0) /\ sized (dsp desk) (replicate 320 5)) as [H1 H2] by (unfold sized; rewrite !length_replicate; change (words (dsp desk)) with 16; change (d_height (dsp desk)) with 20; lia).
  split; [split; change (words (dsp desk)) with 16; change (d_width (dsp desk)) with 16; change (d_height (dsp desk)) with 20; change (d_pitch (dsp desk)) with 64; try lia; by cbn|exists (replicate 320 0); split; [reflexivity|exact H1]|exists (replicate 320 5); split; [reflexivity|exact H2]|apply length_replicate| | |constructor]; unfold near; cbn [mouse_x mouse_y saved_x saved_y desk]; lia.
Qed.

Lemma screen_never_stale_witness : exists s' bb, present (with_mouse desk 10 15) = Ok s' /\ bb_of (with_mouse desk 10 15) = Some bb /\ shows s' bb.
Proof. apply (screen_never_stale desk (with_mouse desk 10 15) desk_good eq_refl eq_refl). eapply star_step; [apply star_refl|]. apply (step_move _ (-2) 0); [split; done|split; done|reflexivity]. Defined.

Lemma cursor_roundtrip_witness : exists s1 s2, gui_draw_cursor desk = Ok s1 /\ cursor_erase s1 = Ok s2 /\ fb_of s2 = Some (replicate 320 0).
Proof. apply (cursor_roundtrip desk (replicate 320 0) desk_good). reflexivity. Defined.
