(* ===== verification/Windows.v ===== *)
(** * Windows (src/kernel/gui/window.c)

    The table of windows with the stack that orders them, over any allocator, and the mouse on their
    frames.  A window is its slot number from 1 on.  The handlers of a window are function pointers that
    are kept but for [on_close] not called here; the places below a title bar that belong to an
    application are left to it. *)
From S2P Require Import Prelude AllocSpec Surface Compositor.
From S2P Require Kmalloc KmallocSpec.
#[local] Open Scope Z_scope.

Definition MAX_WINDOWS : Z := 64.
Definition TITLEBAR_HEIGHT : Z := 28.
Definition BORDER_WIDTH : Z := 2.
Definition MENU_BAR_HEIGHT : Z := 28.
Definition DOCK_HEIGHT : Z := 70.

Inductive window_state := WINDOW_NORMAL | WINDOW_MINIMIZED | WINDOW_MAXIMIZED | WINDOW_FULLSCREEN | WINDOW_RESIZING.
#[export] Instance window_state_eq_dec : EqDecision window_state.
Proof. solve_decision. Defined.

(** The place of a window, and its handlers. *)
Record frame := Frame { f_x : Z; f_y : Z; f_w : Z; f_h : Z }.
Record handlers := Handlers { on_draw : Z; on_key : Z; on_mouse : Z; on_close : Z }.
Record window := Window {
  w_id : Z; w_title : list Z; w_frame : frame; w_state : window_state; w_visible : bool; w_focused : bool; w_titlebar : bool; w_resizable : bool;
  w_buffer : Z; w_surface : Z * Z; w_dirty : bool; w_userdata : Z; w_saved : frame; w_handlers : handlers; w_next : Z
}.
Definition with_id (v : window) (i : Z) : window := Window i (w_title v) (w_frame v) (w_state v) (w_visible v) (w_focused v) (w_titlebar v) (w_resizable v) (w_buffer v) (w_surface v) (w_dirty v) (w_userdata v) (w_saved v) (w_handlers v) (w_next v).
Definition with_frame (v : window) (f : frame) : window := Window (w_id v) (w_title v) f (w_state v) (w_visible v) (w_focused v) (w_titlebar v) (w_resizable v) (w_buffer v) (w_surface v) (w_dirty v) (w_userdata v) (w_saved v) (w_handlers v) (w_next v).
Definition with_state (v : window) (q : window_state) (vis : bool) : window := Window (w_id v) (w_title v) (w_frame v) q vis (w_focused v) (w_titlebar v) (w_resizable v) (w_buffer v) (w_surface v) (w_dirty v) (w_userdata v) (w_saved v) (w_handlers v) (w_next v).
Definition with_focused (v : window) (b : bool) : window := Window (w_id v) (w_title v) (w_frame v) (w_state v) (w_visible v) b (w_titlebar v) (w_resizable v) (w_buffer v) (w_surface v) (w_dirty v) (w_userdata v) (w_saved v) (w_handlers v) (w_next v).
Definition with_surface (v : window) (b : Z) (wh : Z * Z) (d : bool) : window := Window (w_id v) (w_title v) (w_frame v) (w_state v) (w_visible v) (w_focused v) (w_titlebar v) (w_resizable v) b wh d (w_userdata v) (w_saved v) (w_handlers v) (w_next v).
Definition with_userdata (v : window) (u : Z) : window := Window (w_id v) (w_title v) (w_frame v) (w_state v) (w_visible v) (w_focused v) (w_titlebar v) (w_resizable v) (w_buffer v) (w_surface v) (w_dirty v) u (w_saved v) (w_handlers v) (w_next v).
Definition with_saved (v : window) (f : frame) : window := Window (w_id v) (w_title v) (w_frame v) (w_state v) (w_visible v) (w_focused v) (w_titlebar v) (w_resizable v) (w_buffer v) (w_surface v) (w_dirty v) (w_userdata v) f (w_handlers v) (w_next v).
Definition with_next (v : window) (n : Z) : window := Window (w_id v) (w_title v) (w_frame v) (w_state v) (w_visible v) (w_focused v) (w_titlebar v) (w_resizable v) (w_buffer v) (w_surface v) (w_dirty v) (w_userdata v) (w_saved v) (w_handlers v) n.
Definition with_w_dirty (v : window) : window := with_surface v (w_buffer v) (w_surface v) true.

(** What a drag or a resize started from. *)
Record grab := Grab { drag_x : Z; drag_y : Z; resize_edge : Z; start_x : Z; start_y : Z; start_frame : frame }.

Record wm (A : Type) := Wm {
  windows : list window; window_stack : Z; focused_window : Z; next_window_id : Z; dragging_window : Z; resizing_window : Z;
  grabbed : grab; comp : screen; heap : A
}.
Arguments Wm {A}. Arguments windows {A}. Arguments window_stack {A}. Arguments focused_window {A}. Arguments next_window_id {A}. Arguments dragging_window {A}.
Arguments resizing_window {A}. Arguments grabbed {A}. Arguments comp {A}. Arguments heap {A}.

(** What a press on a window was: on its frame, or inside, for the application. *)
Inductive press := Resizing | Closing | Minimizing | Zooming | Dragging | Inside.
#[export] Instance press_eq_dec : EqDecision press.
Proof. solve_decision. Defined.

Section windows.
Context {A : Type} `{Allocator A}.
Abbreviation state := (wm A).
Context (run_close : Z -> state -> Z -> outcome state).

Definition win (s : state) (p : Z) : outcome window := if p <? 1 then Fault else of_option (windows s !! Z.to_nat (p - 1)).
Definition set_win (s : state) (p : Z) (v : window) : state :=
  Wm (<[Z.to_nat (p - 1) := v]> (windows s)) (window_stack s) (focused_window s) (next_window_id s) (dragging_window s) (resizing_window s) (grabbed s) (comp s) (heap s).
Definition with_stack (s : state) (p : Z) : state := Wm (windows s) p (focused_window s) (next_window_id s) (dragging_window s) (resizing_window s) (grabbed s) (comp s) (heap s).
Definition with_focus (s : state) (p : Z) : state := Wm (windows s) (window_stack s) p (next_window_id s) (dragging_window s) (resizing_window s) (grabbed s) (comp s) (heap s).
Definition with_next_id (s : state) (n : Z) : state := Wm (windows s) (window_stack s) (focused_window s) n (dragging_window s) (resizing_window s) (grabbed s) (comp s) (heap s).
Definition with_drag (s : state) (d r : Z) (g : grab) : state := Wm (windows s) (window_stack s) (focused_window s) (next_window_id s) d r g (comp s) (heap s).
Definition with_comp (s : state) (c : screen) : state := Wm (windows s) (window_stack s) (focused_window s) (next_window_id s) (dragging_window s) (resizing_window s) (grabbed s) c (heap s).
Definition with_heap (s : state) (h : A) : state := Wm (windows s) (window_stack s) (focused_window s) (next_window_id s) (dragging_window s) (resizing_window s) (grabbed s) (comp s) h.
Definition upd_win (s : state) (p : Z) (f : window -> window) : outcome state := v ← win s p; Ok (set_win s p (f v)).
Definition mark (s : state) (x y w h : Z) : state := with_comp s (compositor_mark_dirty (comp s) x y w h).

Definition gui_mark_window_dirty (s : state) (p : Z) : outcome state :=
  if p =? 0 then Ok s
  else
    s ← upd_win s p with_w_dirty;
    v ← win s p;
    x ← int_arith (f_x (w_frame v) - BORDER_WIDTH - 2);
    y ← int_arith (f_y (w_frame v) - BORDER_WIDTH - 2);
    w ← int_arith (f_w (w_frame v) + (BORDER_WIDTH + 2) * 2);
    h ← int_arith (f_h (w_frame v) + (BORDER_WIDTH + 2) * 2);
    Ok (mark s x y w h).

(** The bytes of a surface, as an [int] that becomes a size. *)
Definition surface_size (w h : Z) : outcome Z := a ← int_arith (w * h); b ← int_arith (a * 4); Ok (u64 b).

Definition gui_ensure_window_surface (s : state) (p : Z) : outcome (Z * state) :=
  if p =? 0 then Ok (-1, s)
  else
    v ← win s p;
    let '(sw, sh) := w_surface v in
    if negb (w_buffer v =? 0) && (sw =? f_w (w_frame v)) && (sh =? f_h (w_frame v)) then Ok (0, s)
    else
      size ← surface_size (f_w (w_frame v)) (f_h (w_frame v));
      r ← a_kmalloc (heap s) size 0;
      let '(b, h) := r in
      if b =? 0 then Ok (-1, with_heap s h)
      else
        h ← (if w_buffer v =? 0 then Ok h else a_kfree h (w_buffer v));
        Ok (0, set_win (with_heap s h) p (with_surface v b (f_w (w_frame v), f_h (w_frame v)) true)).

Fixpoint prefix_loop (prefix title : list Z) : bool :=
  match prefix with [] => true | c :: prefix => match title with t :: title => (t =? c) && prefix_loop prefix title | [] => false end end.
Definition window_title_starts_with (v : window) (prefix : list Z) : bool := prefix_loop prefix (w_title v).

(** At most 63 characters and a zero; nothing is stored for an empty title. *)
Definition store_title (old title : list Z) : list Z :=
  let t := take 63 title in if decide (t = []) then old else t ++ 0 :: drop (S (length t)) old.

Definition no_handlers : handlers := Handlers 0 0 0 0.

Definition gui_create_window (s : state) (title : list Z) (x y w h : Z) : outcome (Z * state) :=
  match find_index (fun v => w_id v =? 0) (windows s) with
  | None => Ok (0, s)
  | Some i =>
      let p := Z.of_nat i + 1 in
      v ← win s p;
      n ← int_arith (next_window_id s + 1);
      size ← surface_size w h;
      r ← a_kmalloc (heap s) size 0;
      let '(b, hp) := r in
      let v := Window (next_window_id s) (store_title (w_title v) title) (Frame x y w h) WINDOW_NORMAL true false true true b (w, h) true 0 (w_saved v) no_handlers (window_stack s) in
      Ok (p, with_stack (set_win (with_heap (with_next_id s n) hp) p v) p)
  end.

Definition gui_set_window_userdata (s : state) (p data : Z) : outcome state := if p =? 0 then Ok s else upd_win s p (fun v => with_userdata v data).

(** The window below which [p] is, 0 if none. *)
Fixpoint above_loop (fuel : nat) (s : state) (q p : Z) : outcome Z :=
  if q =? 0 then Ok 0
  else
    match fuel with
    | O => NoFuel
    | S fuel => v ← win s q; if w_next v =? p then Ok q else above_loop fuel s (w_next v) p
    end.
Definition above (s : state) (p : Z) : outcome Z := above_loop (S (length (windows s))) s (window_stack s) p.

(** The part of [gui_destroy_window] that takes the window out of the stack. *)
Definition unlink_window (s : state) (p : Z) (v : window) : outcome state :=
  if window_stack s =? p then Ok (with_stack s (w_next v)) else q ← above s p; if q =? 0 then Ok s else upd_win s q (fun u => with_next u (w_next v)).

Definition gui_destroy_window (s : state) (p : Z) : outcome state :=
  if p =? 0 then Ok s
  else
    v ← win s p;
    if w_id v =? 0 then Ok s
    else
      s ← (if on_close (w_handlers v) =? 0 then Ok s else run_close (on_close (w_handlers v)) s p);
      v ← win s p;
      s ← unlink_window s p v;
      h ← (if w_buffer v =? 0 then Ok (heap s) else a_kfree (heap s) (w_buffer v));
      upd_win (with_heap s h) p (fun v => with_id v 0).

(** The part of [gui_focus_window] that moves the window to the top. *)
Definition raise_window (s : state) (p : Z) : outcome state :=
  if window_stack s =? p then Ok s
  else
    q ← above s p;
    if q =? 0 then Ok s
    else v ← win s p; s ← upd_win s q (fun u => with_next u (w_next v)); s ← upd_win s p (fun v => with_next v (window_stack s)); Ok (with_stack s p).

Definition gui_focus_window (s : state) (p : Z) : outcome state :=
  if p =? 0 then Ok s
  else
    let previous_focus := focused_window s in
    s ← (if focused_window s =? 0 then Ok s else upd_win s (focused_window s) (fun v => with_focused v false));
    s ← raise_window s p;
    s ← upd_win s p (fun v => with_focused v true);
    s ← gui_mark_window_dirty (with_focus s p) previous_focus;
    gui_mark_window_dirty s p.

(** ** The mouse *)

Definition in_frame (f : frame) (x y : Z) : outcome bool :=
  if negb (f_x f <=? x) then Ok false
  else
    r ← int_arith (f_x f + f_w f);
    if negb (x <? r) then Ok false else if negb (f_y f <=? y) then Ok false else b ← int_arith (f_y f + f_h f); Ok (y <? b).

(** The first visible window of the stack that has the point, 0 if none. *)
Fixpoint window_at_loop (fuel : nat) (s : state) (p x y : Z) : outcome Z :=
  if p =? 0 then Ok 0
  else
    match fuel with
    | O => NoFuel
    | S fuel =>
        v ← win s p;
        i ← (if w_visible v then in_frame (w_frame v) x y else Ok false);
        if i : bool then Ok p else window_at_loop fuel s (w_next v) x y
    end.
Definition window_at (s : state) (x y : Z) : outcome Z := window_at_loop (S (length (windows s))) s (window_stack s) x y.

Definition RESIZE_NONE : Z := 0.
Definition RESIZE_RIGHT : Z := 1.
Definition RESIZE_BOTTOM : Z := 2.
Definition RESIZE_BOTTOM_RIGHT : Z := 3.
Definition RESIZE_LEFT : Z := 4.
Definition RESIZE_TOP : Z := 5.
Definition RESIZE_TOP_LEFT : Z := 6.
Definition RESIZE_TOP_RIGHT : Z := 7.
Definition RESIZE_BOTTOM_LEFT : Z := 8.
Definition RESIZE_BORDER : Z := 12.
Definition MIN_WINDOW_WIDTH : Z := 150.
Definition MIN_WINDOW_HEIGHT : Z := 100.

(** The place of the window that is dragged to (x, y), kept on the screen. *)
Definition drag_frame (s : state) (f : frame) (x y : Z) : outcome frame :=
  let d := disp (sg (comp s)) in
  wx ← int_arith (x - drag_x (grabbed s));
  wy ← int_arith (y - drag_y (grabbed s));
  let wy := if wy <? MENU_BAR_HEIGHT then MENU_BAR_HEIGHT else wy in
  b ← int_arith (i32 (d_height d) - DOCK_HEIGHT - TITLEBAR_HEIGHT);
  let wy := if b <? wy then i32 (u32 (d_height d - DOCK_HEIGHT - TITLEBAR_HEIGHT)) else wy in
  let wx := if wx <? 0 then 0 else wx in
  r ← int_arith (i32 (d_width d) - 100);
  let wx := if r <? wx then i32 (u32 (d_width d - 100)) else wx in
  Ok (Frame wx wy (f_w f) (f_h f)).

Definition drag_window (s : state) (x y : Z) : outcome state :=
  v ← win s (dragging_window s);
  f ← drag_frame s (w_frame v) x y;
  Ok (with_comp (set_win s (dragging_window s) (with_frame v f)) (compositor_mark_full_redraw (comp s))).

(** The edges are numbers that are also tested as bits. *)
Definition has_edge (edge bits : Z) : bool := negb (Z.land edge bits =? 0).
Definition is_one_of (edge : Z) (l : list Z) : bool := existsb (Z.eqb edge) l.

(** The place of the window that is resized, for the mouse at (x, y). *)
Definition resize_frame (g : grab) (x y : Z) : outcome frame :=
  let edge := resize_edge g in
  let start_w := f_w (start_frame g) in
  let start_h := f_h (start_frame g) in
  dx ← int_arith (x - start_x g);
  dy ← int_arith (y - start_y g);
  let nx := start_x g in
  let ny := start_y g in
  nw ← (if has_edge edge RESIZE_RIGHT then w ← int_arith (start_w + dx); Ok (if w <? 100 then 100 else w) else Ok start_w);
  nh ← (if has_edge edge RESIZE_BOTTOM then h ← int_arith (start_h + dy); Ok (if h <? 100 then 100 else h) else Ok start_h);
  r ← (if has_edge edge RESIZE_LEFT then
         delta ← int_arith (- dx);
         w ← int_arith (start_w + delta);
         delta ← (if w <? 100 then int_arith (- (start_w - 100)) else Ok delta);
         nx ← int_arith (start_x g + delta);
         nw ← int_arith (start_w - delta);
         Ok (nx, nw)
       else Ok (nx, nw));
  let '(nx, nw) := r in
  r ← (if has_edge edge RESIZE_TOP then
         delta ← int_arith (- dy);
         h ← int_arith (start_h + delta);
         delta ← (if h <? MIN_WINDOW_HEIGHT then int_arith (- (start_h - MIN_WINDOW_HEIGHT)) else Ok delta);
         ny ← int_arith (f_y (start_frame g) + delta);
         nh ← int_arith (start_h - delta);
         Ok (ny, nh)
       else Ok (ny, nh));
  let '(ny, nh) := r in
  r ← (if nw <? MIN_WINDOW_WIDTH then
         nx ← (if is_one_of edge [RESIZE_LEFT; RESIZE_TOP_LEFT; RESIZE_BOTTOM_LEFT] then int_arith (f_x (start_frame g) + start_w - MIN_WINDOW_WIDTH) else Ok nx);
         Ok (nx, MIN_WINDOW_WIDTH)
       else Ok (nx, nw));
  let '(nx, nw) := r in
  r ← (if nh <? MIN_WINDOW_HEIGHT then
         ny ← (if is_one_of edge [RESIZE_TOP; RESIZE_TOP_LEFT; RESIZE_TOP_RIGHT] then int_arith (f_y (start_frame g) + start_h - MIN_WINDOW_HEIGHT) else Ok ny);
         Ok (ny, MIN_WINDOW_HEIGHT)
       else Ok (ny, nh));
  let '(ny, nh) := r in
  Ok (Frame (if nx <? 0 then 0 else nx) (if ny <? MENU_BAR_HEIGHT then MENU_BAR_HEIGHT else ny) nw nh).

Definition resize_window (s : state) (x y : Z) : outcome state :=
  v ← win s (resizing_window s);
  f ← resize_frame (grabbed s) x y;
  mx ← int_arith (f_x f - 5);
  my ← int_arith (f_y f - 5);
  mw ← int_arith (f_w f + 10);
  mh ← int_arith (f_h f + 10);
  Ok (mark (set_win s (resizing_window s) (with_w_dirty (with_frame v f))) mx my mw mh).

(** A mouse event with the left button held. *)
Definition move_mouse (s : state) (x y : Z) : outcome state :=
  s ← (if dragging_window s =? 0 then Ok s else drag_window s x y);
  if resizing_window s =? 0 then Ok s else resize_window s x y.

Definition release_left (s : state) : outcome state :=
  let g := grabbed s in
  s ← (if resizing_window s =? 0 then Ok s
       else
         s ← upd_win s (resizing_window s) (fun v => with_w_dirty (with_state v WINDOW_NORMAL (w_visible v)));
         Ok (with_comp s (compositor_mark_full_redraw (comp s))));
  Ok (with_drag s 0 0 (Grab (drag_x g) (drag_y g) RESIZE_NONE (start_x g) (start_y g) (start_frame g))).

(** The edge of a window at a point in it. *)
Definition edge_at (v : window) (x y : Z) : outcome Z :=
  let f := w_frame v in
  at_left ← (if f_x f <=? x then l ← int_arith (f_x f + RESIZE_BORDER); Ok (x <? l) else Ok false);
  e ← int_arith (f_x f + f_w f);
  r ← int_arith (e - RESIZE_BORDER);
  let at_right := (r <=? x) && (x <? e) in
  at_top ← (if f_y f <=? y then t ← int_arith (f_y f + RESIZE_BORDER); Ok (y <? t) else Ok false);
  b ← int_arith (f_y f + f_h f);
  u ← int_arith (b - RESIZE_BORDER);
  let at_bottom := (u <=? y) && (y <? b) in
  Ok (if at_bottom && at_right then RESIZE_BOTTOM_RIGHT
      else if at_bottom && at_left then RESIZE_BOTTOM_LEFT
      else if at_top && at_right then RESIZE_TOP_RIGHT
      else if at_top && at_left then RESIZE_TOP_LEFT
      else if at_right then RESIZE_RIGHT
      else if at_bottom then RESIZE_BOTTOM
      else if at_left then RESIZE_LEFT
      else if at_top && negb (w_titlebar v) then RESIZE_TOP
      else RESIZE_NONE).

(** A button of the title bar, around (cx, cy). *)
Definition on_button (x y cx cy : Z) : outcome bool :=
  dx ← int_arith (x - cx); dy ← int_arith (y - cy); a ← int_arith (dx * dx); b ← int_arith (dy * dy); c ← int_arith (a + b); Ok (c <=? 8 * 8).

(** The title bar, right of its buttons. *)
Definition on_titlebar (f : frame) (x y : Z) : outcome bool :=
  t ← int_arith (f_y f + BORDER_WIDTH);
  if negb (t <=? y) then Ok false
  else
    b ← int_arith (t + TITLEBAR_HEIGHT);
    if negb (y <? b) then Ok false else l ← int_arith (f_x f + BORDER_WIDTH); l ← int_arith (l + 70); Ok (l <=? x).

Definition toggle_zoom (s : state) (v : window) : window :=
  if decide (w_state v = WINDOW_MAXIMIZED) then with_state (with_frame v (w_saved v)) WINDOW_NORMAL (w_visible v)
  else
    let d := disp (sg (comp s)) in
    with_state (with_frame (with_saved v (w_frame v)) (Frame 0 MENU_BAR_HEIGHT (i32 (d_width d)) (i32 (u32 (d_height d - MENU_BAR_HEIGHT - DOCK_HEIGHT))))) WINDOW_MAXIMIZED (w_visible v).


Definition press_window (s : state) (p x y : Z) : outcome (press * state) :=
  s ← gui_focus_window s p;
  v ← win s p;
  edge ← edge_at v x y;
  if negb (edge =? RESIZE_NONE) then
    Ok (Resizing, with_drag s (dragging_window s) p (Grab (drag_x (grabbed s)) (drag_y (grabbed s)) edge x y (w_frame v)))
  else if negb (w_titlebar v) then Ok (Inside, s)
  else
    let f := w_frame v in
    cy ← int_arith (f_y f + BORDER_WIDTH + TITLEBAR_HEIGHT / 2);
    cx ← int_arith (f_x f + BORDER_WIDTH + 18);
    c ← on_button x y cx cy;
    if c : bool then s ← gui_destroy_window s p; Ok (Closing, s)
    else
      mx ← int_arith (cx + 20);
      m ← on_button x y mx cy;
      if m : bool then s ← upd_win s p (fun v => with_state v WINDOW_MINIMIZED false); Ok (Minimizing, s)
      else
        zx ← int_arith (mx + 20);
        z ← on_button x y zx cy;
        if z : bool then s ← upd_win s p (toggle_zoom s); Ok (Zooming, s)
        else
          i ← on_titlebar f x y;
          if i : bool then
            let g := grabbed s in
            dx ← int_arith (x - f_x f);
            dy ← int_arith (y - f_y f);
            Ok (Dragging, with_drag s p (resizing_window s) (Grab dx dy (resize_edge g) (start_x g) (start_y g) (start_frame g)))
          else Ok (Inside, s).

(** A press of the left button below the menu bar. *)
Definition click_window (s : state) (x y : Z) : outcome (option (Z * press) * state) :=
  p ← window_at s x y;
  if p =? 0 then Ok (None, s) else r ← press_window s p x y; let '(k, s) := r in Ok (Some (p, k), s).

(** A mouse event; [reaches] says that the menu and the desktop leave a press to the windows. *)
Definition gui_handle_mouse_event (s : state) (prev_buttons x y buttons : Z) (reaches : bool) : outcome state :=
  let held := Z.testbit buttons 0 in
  let was_held := Z.testbit prev_buttons 0 in
  s ← (if held then move_mouse s x y else Ok s);
  s ← (if negb held && was_held then release_left s else Ok s);
  if held && negb was_held && reaches then r ← click_window s x y; Ok (snd r) else Ok s.
End windows.

(** ** The stack as a list *)

Definition get (ws : list window) (z : Z) : option window := if z <? 1 then None else ws !! Z.to_nat (z - 1).
Definition put (ws : list window) (z : Z) (v : window) : list window := <[Z.to_nat (z - 1) := v]> ws.

(** The slots [zs] are linked from [p] on. *)
Fixpoint linked (ws : list window) (p : Z) (zs : list Z) : Prop :=
  match zs with [] => p = 0 | z :: zs => p = z /\ exists v, get ws z = Some v /\ linked ws (w_next v) zs end.

Lemma get_put ws z v : is_Some (get ws z) -> get (put ws z v) z = Some v.
Proof. unfold get, put. intros [u E]. destruct (z <? 1); [done|]. apply list_lookup_insert_eq. by apply lookup_lt_Some in E. Qed.

Lemma get_put_ne ws z z' v : z' <> z -> 1 <= z -> get (put ws z v) z' = get ws z'.
Proof. unfold get, put. intros Hne Hz. destruct (Z.ltb_spec z' 1); [done|]. apply list_lookup_insert_ne. lia. Qed.

Lemma get_pos ws z v : get ws z = Some v -> 1 <= z <= Z.of_nat (length ws).
Proof. unfold get. destruct (Z.ltb_spec z 1); [done|]. intros E%lookup_lt_Some. lia. Qed.

Lemma linked_zero ws p zs : linked ws p zs -> (p = 0 <-> zs = []).
Proof. destruct zs as [|z zs]; cbn; [tauto|]. intros (-> & v & E & _). apply get_pos in E. split; [lia|done]. Qed.

Lemma linked_get ws zs z : forall p, linked ws p zs -> z ∈ zs -> is_Some (get ws z).
Proof. induction zs as [|y zs IH]; intros p; cbn; [by intros _ ?%elem_of_nil|]. intros (-> & v & E & Hl) [->|Hz]%elem_of_cons; [by exists v|by apply (IH _ Hl)]. Qed.

Lemma linked_frame ws ws' zs : forall p, linked ws p zs -> (forall z v, z ∈ zs -> get ws z = Some v -> exists v', get ws' z = Some v' /\ w_next v' = w_next v) -> linked ws' p zs.
Proof.
  induction zs as [|z zs IH]; intros p; cbn; [done|]. intros (-> & v & E & Hl) Hf. split; [done|]. destruct (Hf z v) as (v' & E' & En); [by left|done|]. exists v'. split; [done|]. rewrite En.
  apply IH; [done|]. intros y u Hy. apply Hf. by right.
Qed.

Lemma linked_app ws l z r : forall p, linked ws p (l ++ z :: r) -> exists v, get ws z = Some v /\ linked ws (w_next v) r.
Proof. induction l as [|y l IH]; intros p; cbn; intros (_ & v & E & Hl); [by exists v|by apply (IH _ Hl)]. Qed.

(** The window behind [q] is taken out. *)
Lemma linked_cut ws l q z r vq vz : forall p, linked ws p (l ++ q :: z :: r) -> NoDup (l ++ q :: z :: r) -> get ws q = Some vq -> get ws z = Some vz ->
  linked (put ws q (with_next vq (w_next vz))) p (l ++ q :: r).
Proof.
  induction l as [|y l IH]; intros p; cbn [app linked].
  - intros (-> & v & E & (Env & v' & E' & Hl)) Hn Eq Ez. apply NoDup_cons in Hn as [Hq Hn]. split; [done|]. exists (with_next vq (w_next vz)). split; [apply get_put; by exists vq|]. cbn. assert (v' = vz) as -> by congruence.
    apply (linked_frame ws); [done|]. intros x u Hx Eu. exists u. split; [|done]. rewrite get_put_ne; [done|intros ->; apply Hq; by right|]. apply get_pos in Eq; lia.
  - intros (-> & v & E & Hl) Hn Eq Ez. apply NoDup_cons in Hn as [Hy Hn]. split; [done|]. exists v. split; [|by apply IH]. rewrite get_put_ne; [done| |apply get_pos in Eq; lia]. intros ->. apply Hy. set_solver.
Qed.

Section stack.
Context {A : Type}.
Abbreviation state := (wm A).

Lemma win_get (s : state) p : win s p = of_option (get (windows s) p).
Proof. unfold win, get. by destruct (p <? 1). Qed.

Lemma upd_win_ok (s : state) z v f : get (windows s) z = Some v -> upd_win s z f = Ok (set_win s z (f v)).
Proof. intros E. unfold upd_win. by rewrite win_get, E. Qed.

Lemma above_ok (s : state) q z l r fuel : forall p, linked (windows s) p (l ++ q :: z :: r) -> NoDup (l ++ q :: z :: r) -> (length l + 1 <= fuel)%nat -> above_loop fuel s p z = Ok q.
Proof.
  revert fuel. induction l as [|y l IH]; intros fuel p Hl Hn Hf; destruct fuel as [|fuel]; cbn [length] in Hf; try lia; cbn [above_loop]; cbn [app linked] in Hl.
  - destruct Hl as (-> & v & E & (Env & v' & E' & Hl)). pose proof (get_pos _ _ _ E). rewrite (proj2 (Z.eqb_neq q 0)) by lia. rewrite win_get, E. cbn [of_option]. by rewrite bind_ok, Env, Z.eqb_refl.
  - destruct Hl as (-> & v & E & Hl). pose proof (get_pos _ _ _ E). rewrite (proj2 (Z.eqb_neq y 0)) by lia. rewrite win_get, E. cbn [of_option]. rewrite bind_ok.
    cbn [app] in Hn. apply NoDup_cons in Hn as [Hy Hn]. destruct (Z.eqb_spec (w_next v) z) as [Ez|Ez].
    + exfalso. destruct l as [|y' l]; cbn [app linked] in Hl; destruct Hl as (Ey & _); rewrite Ez in Ey; subst.
      * apply NoDup_cons in Hn as [Hq _]. apply Hq. by left.
      * apply NoDup_cons in Hn as [Hq _]. apply Hq. set_solver.
    + apply IH; [done|done|lia].
Qed.
End stack.

(** ** The invariant *)

Definition good_frame (f : frame) : Prop := near (f_x f) /\ near (f_y f) /\ 0 <= f_w f <= 2 ^ 14 /\ 0 <= f_h f <= 2 ^ 14.
(** Where the mouse can be, and what a press of it leaves behind. *)
Definition steady (v : Z) : Prop := - 2 ^ 20 <= v <= 2 ^ 20.
Definition good_grab (g : grab) : Prop :=
  near (drag_x g) /\ near (drag_y g) /\ steady (start_x g) /\ steady (start_y g) /\ - 2 ^ 21 <= f_x (start_frame g) <= 2 ^ 21 /\ - 2 ^ 21 <= f_y (start_frame g) <= 2 ^ 21 /\
  0 <= f_w (start_frame g) <= 2 ^ 14 /\ 0 <= f_h (start_frame g) <= 2 ^ 14.
Definition buffer_of (ws : list window) (z : Z) : Z := match get ws z with Some v => w_buffer v | None => 0 end.
Definition bufs (ws : list window) (zs : list Z) : list Z := filter (fun b => b <> 0) (map (buffer_of ws) zs).
(** What the allocations are, apart from those of [l]. *)
Definition caps_ok (cap0 cap : Z -> option Z) (l : list Z) : Prop := forall q, if decide (q ∈ l) then cap0 q = None /\ is_Some (cap q) else cap q = cap0 q.
(** The surface of [v] has room for its pixels. *)
Definition room_for (cap : Z -> option Z) (v : window) : Prop := w_buffer v = 0 \/ exists c, cap (w_buffer v) = Some c /\ (w_surface v).1 * (w_surface v).2 * 4 <= c.
Definition valid_ptr (ws : list window) (p : Z) : Prop := p = 0 \/ is_Some (get ws p).

Section laws.
Context {A : Type} `{AllocatorLaws A}.
Abbreviation state := (wm A).
Context (cap0 : Z -> option Z).

(** The stack [zs] holds exactly the windows in use; each owns its surface, and [cap0] is what else is allocated. *)
Record wm_inv (s : state) (zs : list Z) : Prop := {
  wi_len : length (windows s) = Z.to_nat MAX_WINDOWS;
  wi_heap : a_inv (heap s);
  wi_stack : linked (windows s) (window_stack s) zs;
  wi_nodup : NoDup zs;
  wi_live z v : get (windows s) z = Some v -> (w_id v <> 0 <-> z ∈ zs);
  wi_frames z v : get (windows s) z = Some v -> good_frame (w_frame v) /\ good_frame (w_saved v) /\ on_close (w_handlers v) = 0;
  wi_focus z v : get (windows s) z = Some v -> w_focused v = true -> focused_window s = z;
  wi_ptrs : valid_ptr (windows s) (focused_window s) /\ valid_ptr (windows s) (dragging_window s) /\ valid_ptr (windows s) (resizing_window s);
  wi_id : 0 < next_window_id s;
  wi_bufs : NoDup (bufs (windows s) zs);
  wi_caps : caps_ok cap0 (a_cap (heap s)) (bufs (windows s) zs);
  wi_room z v : z ∈ zs -> get (windows s) z = Some v -> room_for (a_cap (heap s)) v;
  wi_disp : 100 <= d_width (disp (sg (comp s))) <= 2 ^ 14 /\ 98 <= d_height (disp (sg (comp s))) <= 2 ^ 14;
  wi_grab : good_grab (grabbed s)
}.

Lemma caps_perm cap l l' : l ≡ₚ l' -> caps_ok cap0 cap l -> caps_ok cap0 cap l'.
Proof using Type. intros Hl Hc q. specialize (Hc q). destruct (decide (q ∈ l)) as [Hq|Hq]; destruct (decide (q ∈ l')) as [Hq'|Hq']; try done; rewrite Hl in Hq; done. Qed.

Lemma caps_free cap cap' l b : NoDup (b :: l) -> caps_ok cap0 cap (b :: l) -> cap_update cap cap' b None -> caps_ok cap0 cap' l.
Proof using Type.
  intros [Hb _]%NoDup_cons Hc Hu q. specialize (Hc q). rewrite (Hu q). destruct (decide (q = b)) as [->|Hne].
  - rewrite decide_False by done. rewrite decide_True in Hc by (by left). by destruct Hc as [-> _].
  - destruct (decide (q ∈ l)) as [Hq|Hq]; [rewrite decide_True in Hc by (by right); done|]. by rewrite decide_False in Hc by (by intros [->|?]%elem_of_cons).
Qed.

Lemma caps_alloc cap cap' l b c : caps_ok cap0 cap l -> cap b = None -> cap_update cap cap' b (Some c) -> (b ∉ l) /\ caps_ok cap0 cap' (b :: l).
Proof using Type.
  intros Hc Eb Hu. assert ((b ∉ l) /\ cap0 b = None) as [Hb E0].
  { specialize (Hc b). destruct (decide (b ∈ l)) as [Hb|Hb]; [destruct Hc as [_ [? E]]; congruence|]. split; [done|congruence]. }
  split; [done|]. intros q. specialize (Hc q). rewrite (Hu q). destruct (decide (q = b)) as [->|Hne]; [rewrite decide_True by (by left); by split|].
  destruct (decide (q ∈ l)) as [Hq|Hq]; [by rewrite decide_True by (by right)|]. by rewrite decide_False by (by intros [->|?]%elem_of_cons).
Qed.

Lemma caps_same cap cap' l : caps_ok cap0 cap l -> cap_same cap cap' -> caps_ok cap0 cap' l.
Proof using Type. intros Hc Hs q. rewrite (Hs q). apply Hc. Qed.

(** Nothing that the invariant is about but the flags changed. *)
Definition same_core (v v' : window) : Prop :=
  w_id v' = w_id v /\ w_next v' = w_next v /\ w_buffer v' = w_buffer v /\ w_handlers v' = w_handlers v /\ w_surface v' = w_surface v.

Lemma bufs_ext ws ws' zs : (forall z, z ∈ zs -> buffer_of ws' z = buffer_of ws z) -> bufs ws' zs = bufs ws zs.
Proof using Type. intros Hb. unfold bufs. f_equal. apply map_ext_in. intros z Hz. apply Hb. by apply list_elem_of_In. Qed.

Lemma inv_core s s' zs : wm_inv s zs -> length (windows s') = length (windows s) -> window_stack s' = window_stack s -> next_window_id s' = next_window_id s -> heap s' = heap s -> disp (sg (comp s')) = disp (sg (comp s)) -> grabbed s' = grabbed s ->
  (forall z v, get (windows s) z = Some v -> exists v', get (windows s') z = Some v' /\ same_core v v' /\ good_frame (w_frame v') /\ good_frame (w_saved v') /\ (w_focused v' = true -> focused_window s' = z)) ->
  valid_ptr (windows s') (focused_window s') -> valid_ptr (windows s') (dragging_window s') -> valid_ptr (windows s') (resizing_window s') -> wm_inv s' zs.
Proof using Type.
  intros [Hl Hh Hst Hn Hlive Hfr Hfo Hp Hid Hb Hc Hro Hd Hg] El Es Ei Eh Ed Eg Hw Hpf Hpd Hpr.
  assert (forall z v', get (windows s') z = Some v' -> exists v, get (windows s) z = Some v /\ same_core v v' /\ good_frame (w_frame v') /\ good_frame (w_saved v') /\ (w_focused v' = true -> focused_window s' = z)) as Hback.
  { intros z v' E. pose proof (get_pos _ _ _ E) as Hz. unfold get in E. destruct (get (windows s) z) as [v|] eqn:Ev.
    - destruct (Hw z v Ev) as (v2 & E2 & Hv). exists v. split; [done|]. unfold get in E2. by assert (v2 = v') as -> by congruence.
    - unfold get in Ev. destruct (Z.ltb_spec z 1); [lia|]. apply lookup_ge_None in Ev. apply lookup_lt_Some in E. lia. }
  assert (forall z, buffer_of (windows s') z = buffer_of (windows s) z) as Hbuf.
  { intros z. unfold buffer_of. destruct (get (windows s) z) as [v|] eqn:Ev; [destruct (Hw z v Ev) as (v' & -> & (_ & _ & -> & _ & _) & _); done|]. destruct (get (windows s') z) as [v'|] eqn:Ev'; [|done]. destruct (Hback z v' Ev') as (v & E & _). congruence. }
  assert (bufs (windows s') zs = bufs (windows s) zs) as Hbs by (by apply bufs_ext).
  split; rewrite ?Ei, ?Eh, ?Hbs, ?Es, ?Ed, ?Eg; try done; [congruence| | | | |].
  - apply (linked_frame (windows s)); [done|]. intros z v _ Ev. destruct (Hw z v Ev) as (v' & E' & (_ & En & _) & _). by exists v'.
  - intros z v' E'. destruct (Hback z v' E') as (v & E & (-> & _) & _). by apply Hlive.
  - intros z v' E'. destruct (Hback z v' E') as (v & E & (_ & _ & _ & -> & _) & Hf & Hs & _). split; [done|]. split; [done|]. by apply (Hfr z v).
  - intros z v' E' Ef. destruct (Hback z v' E') as (v & _ & _ & _ & _ & Hf). by apply Hf.
  - intros z v' Hz E'. destruct (Hback z v' E') as (v & E & (_ & _ & Eb & _ & Eq) & _). unfold room_for. rewrite Eb, Eq. by apply (Hro z v).
Qed.

Lemma valid_put ws z v p : is_Some (get ws z) -> valid_ptr ws p -> valid_ptr (put ws z v) p.
Proof using Type.
  intros Hz [->|Hp]; [by left|right]. destruct (decide (p = z)) as [->|Hne]; [exists v; by apply get_put|]. rewrite get_put_ne; [done|done|]. destruct Hz as [u Hz]. apply get_pos in Hz. lia.
Qed.

(** One window changes. *)
Lemma inv_one s zs z v v' : wm_inv s zs -> get (windows s) z = Some v -> same_core v v' -> good_frame (w_frame v') -> good_frame (w_saved v') -> (w_focused v' = true -> focused_window s = z) ->
  wm_inv (set_win s z v') zs.
Proof using Type.
  intros Hi Ev Hc Hf Hs Hfo. assert (is_Some (get (windows s) z)) as Hz by (by exists v). pose proof (wi_ptrs _ _ Hi) as (Hp1 & Hp2 & Hp3).
  apply (inv_core s); try done; cbn [windows set_win focused_window dragging_window resizing_window]; [apply length_insert| |by apply valid_put..].
  intros y u Eu. destruct (decide (y = z)) as [->|Hne].
  - exists v'. assert (u = v) as -> by congruence. split; [by apply get_put; exists v|]. done.
  - exists u. split; [rewrite <- Eu; apply get_put_ne; [done|apply get_pos in Ev; lia]|]. split; [done|]. destruct (wi_frames _ _ Hi y u Eu) as (? & ? & _). split; [done|]. split; [done|]. by apply (wi_focus _ _ Hi).
Qed.

(** Fields that the invariant does not mention. *)
Lemma inv_comp s zs c : wm_inv s zs -> disp (sg c) = disp (sg (comp s)) -> wm_inv (with_comp s c) zs.
Proof using Type. intros [? ? ? ? ? ? ? ? ? ? ? ? Hd ?] Ec. rewrite <- Ec in Hd. by split. Qed.
Lemma inv_drag s zs d r g : wm_inv s zs -> valid_ptr (windows s) d -> valid_ptr (windows s) r -> good_grab g -> wm_inv (with_drag s d r g) zs.
Proof using Type. intros [? ? ? ? ? ? ? [? _] ? ? ? ? ? _] Hd Hr Hg. by split. Qed.

Lemma win_ok s zs z : wm_inv s zs -> z ∈ zs -> exists v, get (windows s) z = Some v /\ w_id v <> 0 /\ win s z = Ok v.
Proof using Type.
  intros Hi Hz. destruct (linked_get _ _ z _ (wi_stack _ _ Hi) Hz) as [v Ev]. exists v. split; [done|]. split; [by apply (wi_live _ _ Hi z v Ev)|]. by rewrite win_get, Ev.
Qed.

(** Every window looks the same. *)
Definition look (v : window) : frame * frame * window_state * bool * list Z * bool := (w_frame v, w_saved v, w_state v, w_visible v, w_title v, w_titlebar v).
Definition alike (s s' : state) : Prop := forall z v, get (windows s) z = Some v -> exists v', get (windows s') z = Some v' /\ look v' = look v.

Lemma alike_refl s : alike s s.
Proof using Type. intros z v E. by exists v. Qed.
Lemma alike_trans s1 s2 s3 : alike s1 s2 -> alike s2 s3 -> alike s1 s3.
Proof using Type. intros H1 H2 z v E. destruct (H1 z v E) as (v2 & E2 & L2). destruct (H2 z v2 E2) as (v3 & E3 & L3). exists v3. split; [done|congruence]. Qed.
Lemma alike_put s z v v' : get (windows s) z = Some v -> look v' = look v -> alike s (set_win s z v').
Proof using Type.
  intros E L y u Eu. change (windows (set_win s z v')) with (put (windows s) z v'). destruct (decide (y = z)) as [->|Hne].
  - exists v'. split; [apply get_put; by exists v|]. congruence.
  - exists u. split; [|done]. rewrite <- Eu. apply get_put_ne; [done|]. apply get_pos in E. lia.
Qed.

Lemma mark_disp c x y w h : disp (sg (compositor_mark_dirty c x y w h)) = disp (sg c).
Proof using Type. unfold compositor_mark_dirty. by destruct (_ <? _)%nat. Qed.

Lemma mark_window_ok s zs p : wm_inv s zs -> valid_ptr (windows s) p ->
  exists s', gui_mark_window_dirty s p = Ok s' /\ wm_inv s' zs /\ alike s s' /\ focused_window s' = focused_window s /\
    (forall z v, get (windows s) z = Some v -> exists v', get (windows s') z = Some v' /\ w_focused v' = w_focused v).
Proof using Type*.
  intros Hi Hp. unfold gui_mark_window_dirty. destruct (Z.eqb_spec p 0) as [->|Hne].
  { exists s. split; [done|]. split; [done|]. split; [apply alike_refl|]. split; [done|]. intros z v E. by exists v. }
  destruct Hp as [Hp|[v Ev]]; [done|]. destruct (wi_frames _ _ Hi p v Ev) as ((Hx & Hy & Hw & Hh) & Hsv & _). unfold upd_win. rewrite win_get, Ev. cbn [of_option]. rewrite !bind_ok.
  assert (win (set_win s p (with_w_dirty v)) p = Ok (with_w_dirty v)) as -> by (rewrite win_get; change (windows (set_win s p (with_w_dirty v))) with (put (windows s) p (with_w_dirty v)); by rewrite get_put by (by exists v)).
  rewrite bind_ok. unfold near, BORDER_WIDTH in *. cbn [w_frame with_w_dirty with_surface].
  rewrite (int_arith_ok (f_x (w_frame v) - 2 - 2)) by lia. rewrite bind_ok, (int_arith_ok (f_y (w_frame v) - 2 - 2)) by lia. rewrite bind_ok, (int_arith_ok (f_w (w_frame v) + _)) by lia. rewrite bind_ok, (int_arith_ok (f_h (w_frame v) + _)) by lia. rewrite bind_ok.
  eexists. split; [done|]. split; [apply inv_comp; [|by apply mark_disp]; apply (inv_one s zs p v); [done|done|done|exact (proj1 (wi_frames _ _ Hi p v Ev))|exact Hsv|intros Hf; by apply (wi_focus _ _ Hi p v)]|]. split; [by apply (alike_put s p v)|]. split; [done|].
  intros z u Eu. change (windows (mark _ _ _ _ _)) with (put (windows s) p (with_w_dirty v)). destruct (decide (z = p)) as [->|Hz].
  - exists (with_w_dirty v). split; [apply get_put; by exists v|]. by assert (u = v) as -> by congruence.
  - exists u. split; [|done]. rewrite <- Eu. apply get_put_ne; [done|]. apply get_pos in Ev. lia.
Qed.

(** The stack with [p] taken out of the middle, or moved to the top. *)
Lemma inv_perm s zs zs' : wm_inv s zs -> zs ≡ₚ zs' -> linked (windows s) (window_stack s) zs' -> wm_inv s zs'.
Proof using Type.
  intros [Hl Hh Hst Hn Hlive Hfr Hfo Hp Hid Hb Hc Hro Hd Hg] Hz Hl'. assert (bufs (windows s) zs ≡ₚ bufs (windows s) zs') as Hbs by (unfold bufs; by rewrite Hz).
  split; try done; [by rewrite <- Hz|intros z v E; rewrite (Hlive z v E); by rewrite Hz|by rewrite <- Hbs|by apply (caps_perm _ (bufs (windows s) zs))|]. intros z v Hin. apply Hro. by rewrite Hz.
Qed.

(** Links may change as long as the stack stays linked. *)
Lemma inv_links s s' zs zs' : wm_inv s zs -> zs ≡ₚ zs' -> linked (windows s') (window_stack s') zs' -> length (windows s') = length (windows s) ->
  (forall z v, get (windows s) z = Some v -> exists n, get (windows s') z = Some (with_next v n)) ->
  focused_window s' = focused_window s -> dragging_window s' = dragging_window s -> resizing_window s' = resizing_window s -> next_window_id s' = next_window_id s -> heap s' = heap s -> comp s' = comp s -> grabbed s' = grabbed s -> wm_inv s' zs'.
Proof using Type.
  intros [Hl Hh Hst Hn Hlive Hfr Hfo (Hp1 & Hp2 & Hp3) Hid Hb Hc Hro Hd Hg] Hz Hl' El Hw Ef Ed Er Ei Eh Ec Eg.
  assert (forall z v', get (windows s') z = Some v' -> exists v n, get (windows s) z = Some v /\ v' = with_next v n) as Hback.
  { intros z v' E. destruct (get (windows s) z) as [v|] eqn:Ev; [destruct (Hw z v Ev) as [n En]; exists v, n; split; [done|congruence]|]. pose proof (get_pos _ _ _ E). unfold get in E, Ev. destruct (Z.ltb_spec z 1); [lia|]. apply lookup_ge_None in Ev. apply lookup_lt_Some in E. lia. }
  assert (forall z, buffer_of (windows s') z = buffer_of (windows s) z) as Hbuf.
  { intros z. unfold buffer_of. destruct (get (windows s) z) as [v|] eqn:Ev; [by destruct (Hw z v Ev) as [n ->]|]. destruct (get (windows s') z) as [v'|] eqn:Ev'; [|done]. destruct (Hback z v' Ev') as (v & n & E & _). congruence. }
  assert (bufs (windows s') zs' ≡ₚ bufs (windows s) zs) as Hbs by (rewrite (bufs_ext (windows s) (windows s') zs') by done; unfold bufs; by rewrite Hz).
  assert (forall p, valid_ptr (windows s) p -> valid_ptr (windows s') p) as Hval by (intros p [->|[v Ev]]; [by left|right; destruct (Hw p v Ev) as [n En]; by exists (with_next v n)]).
  split; rewrite ?Ef, ?Ed, ?Er, ?Ei, ?Eh, ?Ec, ?Eg; try done; [congruence|by rewrite <- Hz| | | |by split_and!; apply Hval|by rewrite Hbs|by apply (caps_perm _ (bufs (windows s) zs))|].
  - intros z v' E'. destruct (Hback z v' E') as (v & n & E & ->). rewrite <- Hz. exact (Hlive z v E).
  - intros z v' E'. destruct (Hback z v' E') as (v & n & E & ->). by apply (Hfr z v).
  - intros z v' E' Ev. destruct (Hback z v' E') as (v & n & E & ->). by apply (Hfo z v).
  - intros z v' Hin E'. destruct (Hback z v' E') as (v & n & E & ->). rewrite <- Hz in Hin. exact (Hro z v Hin E).
Qed.

(** ** Focus *)

Lemma get_links ws q v n : get ws q = Some v -> forall z u, get ws z = Some u -> exists m, get (put ws q (with_next v n)) z = Some (with_next u m).
Proof using Type.
  intros Eq z u Eu. destruct (decide (z = q)) as [->|Hne].
  - exists n. rewrite get_put by (by exists v). by assert (u = v) as -> by congruence.
  - exists (w_next u). rewrite get_put_ne; [rewrite Eu; by destruct u|done|]. apply get_pos in Eq. lia.
Qed.

(** A window below another one: where it is, and the stack without it. *)
Lemma below_ok (s : state) zs l q p r : wm_inv s zs -> zs = l ++ q :: p :: r -> exists vq vp, get (windows s) q = Some vq /\ get (windows s) p = Some vp /\
  q <> p /\ q <> 0 /\ (window_stack s =? p) = false /\ above s p = Ok q /\ linked (put (windows s) q (with_next vq (w_next vp))) (window_stack s) (l ++ q :: r).
Proof using Type*.
  intros Hi ->. pose proof (wi_stack _ _ Hi) as Hl. pose proof (wi_nodup _ _ Hi) as Hn.
  destruct (linked_get _ _ q _ Hl) as [vq Eq]; [set_solver|]. destruct (linked_get _ _ p _ Hl) as [vp Ep]; [set_solver|]. exists vq, vp. pose proof (get_pos _ _ _ Eq).
  assert ((p ∉ l) /\ q <> p) as [Hpl Hqp] by (apply NoDup_app in Hn as (_ & Hd & Hn); apply NoDup_cons in Hn as [Hq _]; split; [intros Hin; apply (Hd p Hin); set_solver|set_solver]).
  split; [done|]. split; [done|]. split; [done|]. split; [lia|]. split; [|split; [|by apply (linked_cut (windows s) l q p r vq vp)]].
  - apply Z.eqb_neq. intros E. rewrite E in Hl. destruct l as [|y l]; cbn in Hl; destruct Hl as [-> _]; [done|]. apply Hpl. by left.
  - unfold above. apply (above_ok s q p l r _ _ Hl Hn). pose proof (NoDup_submseteq (l ++ q :: p :: r) (seqZ 1 MAX_WINDOWS) Hn) as Hsub.
    assert (l ++ q :: p :: r ⊆+ seqZ 1 MAX_WINDOWS) as Hs. { apply Hsub. intros z Hz. destruct (linked_get _ _ z _ Hl Hz) as [v Ev]. apply get_pos in Ev. rewrite (wi_len _ _ Hi) in Ev. apply elem_of_seqZ. unfold MAX_WINDOWS in *. lia. }
    apply submseteq_length in Hs. rewrite length_app, length_seqZ in Hs. cbn [length] in Hs. rewrite (wi_len _ _ Hi). lia.
Qed.

Lemma split_at (zs : list Z) p : p ∈ zs -> (exists r, zs = p :: r) \/ exists l q r, zs = l ++ q :: p :: r.
Proof using Type.
  intros Hp. apply list_elem_of_split in Hp as (l & r & ->). destruct l as [|q l _] using rev_ind; [left; by exists r|right]. exists l, q, r. by rewrite <- app_assoc.
Qed.

Definition to_top (p : Z) (zs : list Z) : list Z := p :: filter (fun z => z <> p) zs.

Lemma filter_ne (l : list Z) p : p ∉ l -> filter (fun z => z <> p) l = l.
Proof using Type.
  induction l as [|x l IH]; [done|]. intros [Hne Hl]%not_elem_of_cons. rewrite filter_cons_True by (by intros ->). by rewrite IH.
Qed.

Lemma filter_out (l r : list Z) p : NoDup (l ++ p :: r) -> filter (fun z => z <> p) (l ++ p :: r) = l ++ r.
Proof using Type.
  intros Hn. apply NoDup_app in Hn as (_ & Hd & Hn). apply NoDup_cons in Hn as [Hr _]. rewrite filter_app, filter_cons_False by (intros Hc; by apply Hc). rewrite !filter_ne; [done|done|]. intros Hz. apply (Hd p Hz). by left.
Qed.

Lemma raise_ok s zs p : wm_inv s zs -> p ∈ zs -> exists s', raise_window s p = Ok s' /\ wm_inv s' (to_top p zs) /\ focused_window s' = focused_window s /\
  (forall z v, get (windows s) z = Some v -> exists n, get (windows s') z = Some (with_next v n)).
Proof using Type*.
  intros Hi Hp. pose proof (wi_nodup _ _ Hi) as Hn. unfold raise_window, to_top. destruct (split_at zs p Hp) as [(r & Ez)|(l & q & r & Ez)].
  - pose proof (wi_stack _ _ Hi) as Hl. rewrite Ez in Hl. cbn in Hl. destruct Hl as [Es _]. rewrite Es, Z.eqb_refl. exists s. split; [done|]. split; [|split; [done|]].
    + assert (p :: filter (fun z => z <> p) zs = zs) as ->; [|done]. rewrite Ez in Hn |- *. pose proof (filter_out [] r p Hn) as E0. cbn [app] in E0. by rewrite E0.
    + intros z v E. exists (w_next v). rewrite E. by destruct v.
  - destruct (below_ok s zs l q p r Hi Ez) as (vq & vp & Eq & Ep & Hqp & Hq0 & -> & -> & Hcut). rewrite bind_ok, (proj2 (Z.eqb_neq q 0)) by done. rewrite win_get, Ep. cbn [of_option]. rewrite bind_ok, (upd_win_ok s q vq) by done. rewrite bind_ok.
    set (ws1 := put (windows s) q (with_next vq (w_next vp))) in *. assert (get ws1 p = Some vp) as Ep1 by (unfold ws1; rewrite get_put_ne; [done|done|apply get_pos in Eq; lia]).
    rewrite (upd_win_ok _ p vp) by exact Ep1. rewrite bind_ok. eexists. split; [done|].
    assert (forall z v, get (windows s) z = Some v -> exists n, get (put ws1 p (with_next vp (window_stack s))) z = Some (with_next v n)) as Hw.
    { intros z v E. destruct (get_links (windows s) q vq (w_next vp) Eq z v E) as [m Em]. destruct (get_links ws1 p vp (window_stack s) Ep1 z _ Em) as [n En]. exists n. rewrite En. by destruct v. }
    split; [|split; [done|exact Hw]]. assert (filter (fun z => z <> p) zs = l ++ q :: r) as ->.
    { rewrite Ez in Hn |- *. replace (l ++ q :: p :: r) with ((l ++ [q]) ++ p :: r) in * by (by rewrite <- app_assoc). rewrite filter_out by done. by rewrite <- app_assoc. }
    apply (inv_links s _ zs); try done; [rewrite Ez; solve_Permutation| |unfold with_stack, set_win; cbn; by rewrite !length_insert].
    change (linked (put ws1 p (with_next vp (window_stack s))) p (p :: l ++ q :: r)). cbn [linked]. split; [done|]. exists (with_next vp (window_stack s)). split; [apply get_put; by exists vp|]. cbn [w_next with_next].
    apply (linked_frame ws1); [exact Hcut|]. intros z v Hz Ev. exists v. split; [|done]. rewrite get_put_ne; [done| |apply get_pos in Ep; lia]. intros ->. rewrite Ez in Hn.
    replace (l ++ q :: p :: r) with ((l ++ [q]) ++ p :: r) in Hn by (by rewrite <- app_assoc). apply NoDup_app in Hn as (_ & Hd & Hn). apply NoDup_cons in Hn as [Hr _]. apply elem_of_app in Hz as [Hz|Hz]; [apply (Hd p); set_solver|]. apply elem_of_cons in Hz as [Hz|Hz]; [by apply Hqp|done].
Qed.

(** Only the link of a window changed. *)
Lemma links_alike s s' : (forall z v, get (windows s) z = Some v -> exists n, get (windows s') z = Some (with_next v n)) -> alike s s'.
Proof using Type. intros Hw z v E. destruct (Hw z v E) as [n En]. by exists (with_next v n). Qed.

Lemma focus_ok s zs p : wm_inv s zs -> p ∈ zs ->
  exists s', gui_focus_window s p = Ok s' /\ wm_inv s' (to_top p zs) /\ alike s s' /\ focused_window s' = p /\ exists v, get (windows s') p = Some v /\ w_focused v = true.
Proof using Type*.
  intros Hi Hp. destruct (win_ok s zs p Hi Hp) as (v0 & E0 & _ & _). pose proof (get_pos _ _ _ E0). unfold gui_focus_window. rewrite (proj2 (Z.eqb_neq p 0)) by lia. cbv zeta.
  assert (exists s1, (if focused_window s =? 0 then Ok s else upd_win s (focused_window s) (fun v => with_focused v false)) = Ok s1 /\ wm_inv s1 zs /\ alike s s1 /\ focused_window s1 = focused_window s /\ (forall z v, get (windows s1) z = Some v -> w_focused v = false))
    as (s1 & E1 & Hi1 & Ha1 & Hf1 & Hno1).
  { destruct (Z.eqb_spec (focused_window s) 0) as [Ef|Ef].
    - exists s. split; [done|]. split; [done|]. split; [apply alike_refl|]. split; [done|]. intros z v E. destruct (w_focused v) eqn:Efl; [|done]. pose proof (wi_focus _ _ Hi z v E Efl). apply get_pos in E. lia.
    - destruct (wi_ptrs _ _ Hi) as ([Hf|[vf Evf]] & _ & _); [done|]. rewrite (upd_win_ok s _ vf) by done. eexists. split; [done|]. destruct (wi_frames _ _ Hi _ vf Evf) as (Hg1 & Hg2 & _).
      split; [apply (inv_one s zs _ vf); [done|done|done|exact Hg1|exact Hg2|done]|]. split; [by apply (alike_put s _ vf)|]. split; [done|]. intros z v E. change (windows (set_win s (focused_window s) (with_focused vf false))) with (put (windows s) (focused_window s) (with_focused vf false)) in E.
      destruct (decide (z = focused_window s)) as [->|Hne]; [rewrite get_put in E by (by exists vf); by injection E as <-|]. rewrite get_put_ne in E by (done || (apply get_pos in Evf; lia)).
      destruct (w_focused v) eqn:Efl; [|done]. by pose proof (wi_focus _ _ Hi z v E Efl). }
  rewrite E1, bind_ok. destruct (raise_ok s1 zs p Hi1 Hp) as (s2 & E2 & Hi2 & Hf2 & Hw2). rewrite E2, bind_ok.
  destruct (Ha1 p v0 E0) as (v1 & Ev1 & _). destruct (Hw2 p v1 Ev1) as [n2 Ev2]. rewrite (upd_win_ok s2 p _ _ Ev2), bind_ok.
  assert (forall z v, get (windows s2) z = Some v -> w_focused v = false) as Hno2.
  { intros z v E. destruct (get (windows s1) z) as [u|] eqn:Eu; [destruct (Hw2 z u Eu) as [m Em]; assert (v = with_next u m) as -> by congruence; exact (Hno1 z u Eu)|].
    pose proof (get_pos _ _ _ E) as Hz. rewrite (wi_len _ _ Hi2) in Hz. rewrite <- (wi_len _ _ Hi1) in Hz. unfold get in Eu. destruct (Z.ltb_spec z 1); [lia|]. apply lookup_ge_None in Eu. lia. }
  set (v2 := with_next v1 n2) in *. set (s3 := with_focus (set_win s2 p (with_focused v2 true)) p). change (windows s3) with (put (windows s2) p (with_focused v2 true)).
  assert (wm_inv s3 (to_top p zs)) as Hi3.
  { destruct (wi_frames _ _ Hi2 p v2 Ev2) as (Hg1 & Hg2 & _). destruct (wi_ptrs _ _ Hi2) as (Hp1 & Hp2 & Hp3). assert (is_Some (get (windows s2) p)) as Hsp by (by exists v2).
    apply (inv_core s2); try done; [apply length_insert| |right; exists (with_focused v2 true); by apply get_put|by apply valid_put|by apply valid_put].
    intros z v E. change (windows s3) with (put (windows s2) p (with_focused v2 true)). destruct (decide (z = p)) as [->|Hne].
    - exists (with_focused v2 true). split; [by apply get_put|]. by assert (v = v2) as -> by congruence.
    - exists v. split; [rewrite <- E; apply get_put_ne; [done|lia]|]. split; [done|]. destruct (wi_frames _ _ Hi2 z v E) as (? & ? & _). split; [done|]. split; [done|]. by rewrite (Hno2 z v E). }
  assert (alike s s3) as Ha3 by (apply (alike_trans _ s1); [done|]; apply (alike_trans _ s2); [by apply links_alike|]; by apply (alike_put s2 p v2)).
  assert (valid_ptr (windows s3) (focused_window s)) as Hv3.
  { destruct (wi_ptrs _ _ Hi) as ([Hf|[vf Evf]] & _ & _); [by left|right]. destruct (Ha3 _ _ Evf) as (u & Eu & _). by exists u. }
  destruct (mark_window_ok s3 _ _ Hi3 Hv3) as (s4 & E4 & Hi4 & Ha4 & Hf4 & Hk4). fold s3. rewrite E4, bind_ok.
  assert (get (windows s3) p = Some (with_focused v2 true)) as Ep3 by (apply get_put; by exists v2). destruct (Hk4 p _ Ep3) as (v4 & Ev4 & Efl4).
  destruct (mark_window_ok s4 _ p Hi4) as (s5 & E5 & Hi5 & Ha5 & Hf5 & Hk5); [right; by exists v4|]. rewrite E5. exists s5. split; [done|]. split; [done|].
  split; [apply (alike_trans _ s3); [done|]; by apply (alike_trans _ s4)|]. split; [by rewrite Hf5, Hf4|]. destruct (Hk5 p v4 Ev4) as (v5 & Ev5 & Efl5). exists v5. split; [done|]. by rewrite Efl5, Efl4.
Qed.
(** ** Destruction *)

Definition without (p : Z) (zs : list Z) : list Z := filter (fun z => z <> p) zs.

(** Only links and the top of the stack differ. *)
Definition relinked (s s' : state) : Prop :=
  length (windows s') = length (windows s) /\ (forall z v, get (windows s) z = Some v -> exists n, get (windows s') z = Some (with_next v n)) /\
  (focused_window s', dragging_window s', resizing_window s', next_window_id s', heap s', comp s', grabbed s') = (focused_window s, dragging_window s, resizing_window s, next_window_id s, heap s, comp s, grabbed s).

Lemma links_refl (s : state) : forall z v, get (windows s) z = Some v -> exists n, get (windows s) z = Some (with_next v n).
Proof using Type. intros z v E. exists (w_next v). rewrite E. by destruct v. Qed.

Lemma unlink_ok s zs p v : wm_inv s zs -> p ∈ zs -> get (windows s) p = Some v ->
  exists s', unlink_window s p v = Ok s' /\ relinked s s' /\ linked (windows s') (window_stack s') (without p zs).
Proof using Type*.
  intros Hi Hp Ep. pose proof (wi_nodup _ _ Hi) as Hn. unfold unlink_window, without. destruct (split_at zs p Hp) as [(r & Ez)|(l & q & r & Ez)].
  - pose proof (wi_stack _ _ Hi) as Hl. rewrite Ez in Hl. cbn in Hl. destruct Hl as (Es & v' & E' & Hl). rewrite Es, Z.eqb_refl. eexists. split; [done|]. split; [split; [done|split; [exact (links_refl s)|done]]|].
    rewrite Ez in Hn |- *. pose proof (filter_out [] r p Hn) as E0. cbn [app] in E0. rewrite E0. assert (v' = v) as -> by congruence. exact Hl.
  - destruct (below_ok s zs l q p r Hi Ez) as (vq & vp & Eq & Ep' & Hqp & Hq0 & -> & -> & Hcut). assert (vp = v) as -> by congruence. rewrite bind_ok, (proj2 (Z.eqb_neq q 0)) by done. rewrite (upd_win_ok s q vq) by done.
    eexists. split; [done|]. split; [split; [apply length_insert|split; [by apply get_links|done]]|]. rewrite Ez in Hn |- *. replace (l ++ q :: p :: r) with ((l ++ [q]) ++ p :: r) in * by (by rewrite <- app_assoc). rewrite filter_out by done. by rewrite <- app_assoc.
Qed.

Lemma without_split zs p : NoDup zs -> p ∈ zs -> zs ≡ₚ p :: without p zs.
Proof using Type.
  intros Hn Hp. apply list_elem_of_split in Hp as (l & r & ->). unfold without. rewrite filter_out by done. solve_Permutation.
Qed.

Lemma get_back (s s' : state) z v' : length (windows s') = length (windows s) -> get (windows s') z = Some v' -> exists v, get (windows s) z = Some v.
Proof using Type.
  intros El E. destruct (get (windows s) z) as [v|] eqn:Ev; [by exists v|]. pose proof (get_pos _ _ _ E). unfold get in Ev. destruct (Z.ltb_spec z 1); [lia|]. apply lookup_ge_None in Ev. lia.
Qed.

Lemma buffer_relinked s s' z : relinked s s' -> buffer_of (windows s') z = buffer_of (windows s) z.
Proof using Type.
  intros (El & Hw & _). unfold buffer_of. destruct (get (windows s) z) as [v|] eqn:Ev; [by destruct (Hw z v Ev) as [n ->]|]. destruct (get (windows s') z) as [v'|] eqn:E; [|done].
  destruct (get_back s s' z v' El E) as [v Ev']. congruence.
Qed.

(** The window leaves the table and its surface the heap. *)
Lemma inv_removed s s1 zs p v h : wm_inv s zs -> p ∈ zs -> relinked s s1 -> linked (windows s1) (window_stack s1) (without p zs) -> get (windows s1) p = Some v ->
  a_inv h -> caps_ok cap0 (a_cap h) (bufs (windows s) (without p zs)) -> (forall q, q ∈ bufs (windows s) (without p zs) -> a_cap h q = a_cap (heap s) q) ->
  wm_inv (set_win (with_heap s1 h) p (with_id v 0)) (without p zs).
Proof using Type.
  intros Hi Hp Hr Hl Ep Hh Hc Hsame. pose proof (without_split zs p (wi_nodup _ _ Hi) Hp) as Hz. pose proof (get_pos _ _ _ Ep) as Hpos. pose proof (wi_nodup _ _ Hi) as Hn. rewrite Hz in Hn. apply NoDup_cons in Hn as [Hpz Hn].
  pose proof Hr as (El & Hw & Er). injection Er as E1 E2 E3 E4 E5 E6 E7. destruct Hi as [Hlen _ _ _ Hlive Hfr Hfo (Hp1 & Hp2 & Hp3) Hid Hb _ Hro Hd Hg].
  set (s2 := set_win (with_heap s1 h) p (with_id v 0)). assert (forall z u, get (windows s2) z = Some u -> exists u0 n, get (windows s) z = Some u0 /\ u = if decide (z = p) then with_id (with_next u0 n) 0 else with_next u0 n) as Hback.
  { intros z u E. change (windows s2) with (put (windows s1) p (with_id v 0)) in E. destruct (decide (z = p)) as [->|Hne].
    - rewrite get_put in E by (by exists v). injection E as <-. destruct (get_back s s1 p v El Ep) as [u0 E0]. destruct (Hw p u0 E0) as [n En]. exists u0, n. split; [done|]. congruence.
    - rewrite get_put_ne in E by (done || lia). destruct (get_back s s1 z u El E) as [u0 E0]. destruct (Hw z u0 E0) as [n En]. exists u0, n. split; [done|]. congruence. }
  assert (forall z, valid_ptr (windows s) z -> valid_ptr (windows s2) z) as Hv.
  { intros z [->|[u E]]; [by left|]. apply (valid_put (windows s1) p); [by exists v|]. right. destruct (Hw z u E) as [n En]. by exists (with_next u n). }
  assert (forall z, z ∈ without p zs -> buffer_of (windows s2) z = buffer_of (windows s) z) as Hbf.
  { intros z Hin. rewrite <- (buffer_relinked s s1 z Hr). unfold buffer_of. change (windows s2) with (put (windows s1) p (with_id v 0)). rewrite get_put_ne; [done|by intros ->|lia]. }
  split; unfold s2; cbn [focused_window dragging_window resizing_window next_window_id comp grabbed heap set_win with_heap window_stack]; fold s2; rewrite ?E1, ?E2, ?E3, ?E4, ?E6, ?E7, ?(bufs_ext _ _ _ Hbf); try done.
  - unfold s2. cbn. by rewrite length_insert, El.
  - apply (linked_frame (windows s1)); [done|]. intros z u Hin E. exists u. split; [|done]. rewrite <- E. apply get_put_ne; [by intros ->|lia].
  - intros z u E. destruct (Hback z u E) as (u0 & n & E0 & ->). specialize (Hlive z u0 E0). rewrite Hz in Hlive. destruct (decide (z = p)) as [->|Hne]; [done|]. cbn. rewrite Hlive, elem_of_cons. tauto.
  - intros z u E. destruct (Hback z u E) as (u0 & n & E0 & ->). specialize (Hfr z u0 E0). by destruct (decide (z = p)).
  - intros z u E. destruct (Hback z u E) as (u0 & n & E0 & ->). specialize (Hfo z u0 E0). by destruct (decide (z = p)).
  - split_and!; by apply Hv.
  - assert (bufs (windows s) zs ≡ₚ bufs (windows s) (p :: without p zs)) as Hbs by (unfold bufs; by rewrite <- Hz). rewrite Hbs in Hb. unfold bufs in Hb |- *. cbn [map] in Hb. rewrite filter_cons in Hb. destruct (decide _); [by apply NoDup_cons in Hb as [_ Hb]|done].
  - intros z u Hin E. destruct (Hback z u E) as (u0 & n & E0 & ->). rewrite decide_False by (by intros ->). assert (z ∈ zs) as Hzz by (rewrite Hz; by right). destruct (Hro z u0 Hzz E0) as [Hb0|(c & Ec & Hc')]; [by left|]. destruct (decide (w_buffer u0 = 0)) as [?|Hb0]; [by left|]. right. exists c. split; [|done]. cbn. rewrite Hsame; [done|].
    apply list_elem_of_filter. split; [done|]. apply list_elem_of_fmap. exists z. split; [|done]. unfold buffer_of. by rewrite E0.
Qed.
Lemma bufs_cons ws p v zs : get ws p = Some v -> bufs ws (p :: zs) = if decide (w_buffer v = 0) then bufs ws zs else w_buffer v :: bufs ws zs.
Proof using Type.
  intros E. unfold bufs. cbn [map]. assert (buffer_of ws p = w_buffer v) as -> by (unfold buffer_of; by rewrite E). rewrite filter_cons. destruct (decide (w_buffer v = 0)) as [Hb|Hb]; [by rewrite decide_False by (intros Hc; by apply Hc)|by rewrite decide_True by done].
Qed.

Lemma caps_split s zs p v : wm_inv s zs -> p ∈ zs -> get (windows s) p = Some v ->
  let l := bufs (windows s) (without p zs) in let l' := if decide (w_buffer v = 0) then l else w_buffer v :: l in NoDup l' /\ caps_ok cap0 (a_cap (heap s)) l'.
Proof using Type.
  intros Hi Hp Ev. cbv zeta. rewrite <- (bufs_cons _ _ _ _ Ev). assert (bufs (windows s) (p :: without p zs) ≡ₚ bufs (windows s) zs) as Hb by (unfold bufs; by rewrite <- (without_split zs p (wi_nodup _ _ Hi) Hp)).
  split; [rewrite Hb; by apply wi_bufs|]. apply (caps_perm _ (bufs (windows s) zs)); [done|by apply wi_caps].
Qed.

(** The surface of a window is given back. *)
Lemma free_surface s zs p v : wm_inv s zs -> p ∈ zs -> get (windows s) p = Some v -> exists h, (if w_buffer v =? 0 then Ok (heap s) else a_kfree (heap s) (w_buffer v)) = Ok h /\ a_inv h /\
  caps_ok cap0 (a_cap h) (bufs (windows s) (without p zs)) /\ forall q, q ∈ bufs (windows s) (without p zs) -> a_cap h q = a_cap (heap s) q.
Proof using Type*.
  intros Hi Hp Ev. pose proof (wi_heap _ _ Hi) as Hh. destruct (caps_split s zs p v Hi Hp Ev) as [Hn Hc]. destruct (Z.eqb_spec (w_buffer v) 0) as [Hb|Hb].
  - rewrite decide_True in Hc by done. by exists (heap s).
  - rewrite decide_False in Hn, Hc by done. pose proof (Hc (w_buffer v)) as Hcb. rewrite decide_True in Hcb by (by left). destruct Hcb as [_ [c Ec]]. destruct (law_free (heap s) (w_buffer v) c Hh Ec) as (h & -> & Hh' & Hu).
    exists h. split; [done|]. split; [done|]. split; [by apply (caps_free _ _ _ _ Hn Hc)|]. intros q Hq. apply NoDup_cons in Hn as [Hn _]. rewrite (Hu q). by rewrite decide_False by (by intros ->).
Qed.

Lemma destroy_ok run_close s zs p : wm_inv s zs -> p ∈ zs -> exists s', gui_destroy_window run_close s p = Ok s' /\ wm_inv s' (without p zs).
Proof using Type*.
  intros Hi Hp. destruct (win_ok s zs p Hi Hp) as (v & Ev & Hv & Ew). pose proof (get_pos _ _ _ Ev). unfold gui_destroy_window. rewrite (proj2 (Z.eqb_neq p 0)) by lia. rewrite Ew, bind_ok, (proj2 (Z.eqb_neq _ 0)) by done.
  destruct (wi_frames _ _ Hi p v Ev) as (_ & _ & ->). cbn [Z.eqb]. rewrite bind_ok, Ew, bind_ok. destruct (unlink_ok s zs p v Hi Hp Ev) as (s1 & -> & Hr & Hl). rewrite bind_ok. pose proof Hr as (_ & Hw & Er). injection Er as _ _ _ _ Eh _ _. rewrite Eh.
  destruct (free_surface s zs p v Hi Hp Ev) as (h & -> & Hh & Hc & Hq). rewrite bind_ok. destruct (Hw p v Ev) as [n En]. rewrite (upd_win_ok (with_heap s1 h) p _ _ En). eexists. split; [done|]. by apply (inv_removed s s1 zs p).
Qed.

(** ** Surfaces *)

Lemma surface_size_ok w h : 0 <= w <= 2 ^ 14 -> 0 <= h <= 2 ^ 14 -> surface_size w h = Ok (w * h * 4).
Proof using Type.
  intros Hw Hh. unfold surface_size. assert (0 <= w * h <= 2 ^ 28) by nia. rewrite int_arith_ok by lia. rewrite bind_ok, int_arith_ok by lia. rewrite bind_ok. f_equal. unfold u64. rewrite Z.mod_small; [done|lia].
Qed.

(** A window of the stack gets another surface. *)
Lemma inv_surface s zs p v h b wh d : wm_inv s zs -> p ∈ zs -> get (windows s) p = Some v -> a_inv h -> b <> 0 -> NoDup (b :: bufs (windows s) (without p zs)) ->
  caps_ok cap0 (a_cap h) (b :: bufs (windows s) (without p zs)) -> (forall q, q ∈ bufs (windows s) (without p zs) -> a_cap h q = a_cap (heap s) q) -> room_for (a_cap h) (with_surface v b wh d) ->
  wm_inv (set_win (with_heap s h) p (with_surface v b wh d)) zs.
Proof using Type.
  intros Hi Hp Ep Hh Hb0 Hn Hc Hq Hro'. pose proof (without_split zs p (wi_nodup _ _ Hi) Hp) as Hz. pose proof (get_pos _ _ _ Ep) as Hpos. assert (is_Some (get (windows s) p)) as Hsp by (by exists v).
  assert (p ∉ without p zs) as Hpz by (pose proof (wi_nodup _ _ Hi) as Hnd; rewrite Hz in Hnd; by apply NoDup_cons in Hnd as [? _]).
  destruct Hi as [Hlen _ Hl Hnd Hlive Hfr Hfo (Hp1 & Hp2 & Hp3) Hid _ _ Hro Hd Hg]. set (v' := with_surface v b wh d) in *. set (ws := put (windows s) p v').
  assert (forall z u, get ws z = Some u -> (z = p /\ u = v') \/ (z <> p /\ get (windows s) z = Some u)) as Hback.
  { intros z u E. unfold ws in E. destruct (decide (z = p)) as [->|Hne]; [left; rewrite get_put in E by done; by injection E as <-|right]. by rewrite get_put_ne in E by (done || lia). }
  assert (bufs ws zs ≡ₚ b :: bufs (windows s) (without p zs)) as Hbs.
  { transitivity (bufs ws (p :: without p zs)); [unfold bufs; by rewrite <- Hz|]. rewrite (bufs_cons ws p v') by (by apply get_put). rewrite decide_False by done. rewrite (bufs_ext (windows s)); [done|]. intros z Hin. unfold buffer_of, ws. rewrite get_put_ne; [done|by intros ->|lia]. }
  split; cbn [windows focused_window dragging_window resizing_window next_window_id comp grabbed heap set_win with_heap window_stack]; fold (put (windows s) p v'); fold ws; try done.
  - unfold ws, put. by rewrite length_insert.
  - apply (linked_frame (windows s)); [done|]. intros z u _ E. destruct (decide (z = p)) as [->|Hne]; [exists v'; split; [by apply get_put|]; by assert (u = v) as -> by congruence|]. exists u. split; [|done]. rewrite <- E. apply get_put_ne; [done|lia].
  - intros z u E. destruct (Hback z u E) as [[-> ->]|[Hne E0]]; [by apply (Hlive p v)|by apply (Hlive z)].
  - intros z u E. destruct (Hback z u E) as [[-> ->]|[Hne E0]]; [by apply (Hfr p v)|by apply (Hfr z)].
  - intros z u E. destruct (Hback z u E) as [[-> ->]|[Hne E0]]; [by apply (Hfo p v)|by apply (Hfo z)].
  - split_and!; by apply valid_put.
  - by rewrite Hbs.
  - by apply (caps_perm _ _ _ (symmetry Hbs)).
  - intros z u Hin E. destruct (Hback z u E) as [[-> ->]|[Hne E0]]; [done|]. destruct (Hro z u Hin E0) as [Hb|(c & Ec & Hsz)]; [by left|]. destruct (decide (w_buffer u = 0)) as [?|Hb]; [by left|]. right. exists c. split; [|done]. rewrite Hq; [done|].
    apply list_elem_of_filter. split; [done|]. apply list_elem_of_fmap. exists z. rewrite Hz in Hin. apply elem_of_cons in Hin as [?|Hin]; [done|]. split; [|done]. unfold buffer_of. by rewrite E0.
Qed.
Lemma inv_heap_same s zs h : wm_inv s zs -> a_inv h -> cap_same (a_cap (heap s)) (a_cap h) -> wm_inv (with_heap s h) zs.
Proof using Type.
  intros [? ? ? ? ? ? ? ? ? ? Hc Hro ? ?] Hh Hs. split; try done; [by apply (caps_same (a_cap (heap s)))|]. intros z v Hz E. destruct (Hro z v Hz E) as [?|(c & Ec & ?)]; [by left|right]. exists c. cbn. by rewrite (Hs (w_buffer v)).
Qed.

(** The new surface takes the place of the old one in the heap. *)
Lemma swap_surface (h0 h1 : A) b0 b c l : let l' := if decide (b0 = 0) then l else b0 :: l in
  NoDup l' -> caps_ok cap0 (a_cap h0) l' -> a_inv h1 -> a_cap h0 b = None -> cap_update (a_cap h0) (a_cap h1) b (Some c) ->
  exists h, (if b0 =? 0 then Ok h1 else a_kfree h1 b0) = Ok h /\ a_inv h /\ NoDup (b :: l) /\ caps_ok cap0 (a_cap h) (b :: l) /\ a_cap h b = Some c /\ forall q, q ∈ l -> a_cap h q = a_cap h0 q.
Proof using Type*.
  cbv zeta. intros Hn Hc Hh Eb Hu. destruct (caps_alloc _ _ _ b c Hc Eb Hu) as [Hbl Hc1]. assert (a_cap h1 b = Some c) as Ec1 by (by rewrite (Hu b), decide_True). destruct (Z.eqb_spec b0 0) as [Hb0|Hb0].
  - rewrite decide_True in * by done. exists h1. split; [done|]. split; [done|]. split; [by apply NoDup_cons|]. split; [done|]. split; [done|]. intros q Hq. rewrite (Hu q). by rewrite decide_False by (by intros ->).
  - rewrite decide_False in * by done. apply not_elem_of_cons in Hbl as [Hne Hbl]. pose proof Hn as [Hb0l Hnl]%NoDup_cons.
    assert (caps_ok cap0 (a_cap h1) (b0 :: b :: l)) as Hc2 by (apply (caps_perm _ (b :: b0 :: l)); [constructor|done]). pose proof (Hc2 b0) as Hcb. rewrite decide_True in Hcb by (by left). destruct Hcb as [_ [c0 Ec0]].
    destruct (law_free h1 b0 c0 Hh Ec0) as (h & -> & Hh' & Hu'). exists h. split; [done|]. split; [done|]. split; [by apply NoDup_cons|]. split; [apply (caps_free (a_cap h1) _ _ b0); [|done|done]|].
    { apply NoDup_cons. split; [by intros [->|?]%elem_of_cons|by apply NoDup_cons]. }
    split; [by rewrite (Hu' b), decide_False|]. intros q Hq. rewrite (Hu' q), decide_False by (by intros ->). rewrite (Hu q). by rewrite decide_False by (by intros ->).
Qed.

Lemma ensure_ok s zs p : wm_inv s zs -> p ∈ zs -> exists r s', gui_ensure_window_surface s p = Ok (r, s') /\ wm_inv s' zs /\
  (r = -1 \/ r = 0 /\ exists v, get (windows s') p = Some v /\ w_buffer v <> 0 /\ w_surface v = (f_w (w_frame v), f_h (w_frame v))).
Proof using Type*.
  intros Hi Hp. destruct (win_ok s zs p Hi Hp) as (v & Ev & Hv & Ew). pose proof (get_pos _ _ _ Ev). unfold gui_ensure_window_surface. rewrite (proj2 (Z.eqb_neq p 0)) by lia. rewrite Ew, bind_ok. destruct (w_surface v) as [sw sh] eqn:Es.
  destruct (negb _ && _ && _) eqn:Eg.
  { apply andb_prop in Eg as [[Hb Hsw]%andb_prop Hsh]. apply negb_true_iff, Z.eqb_neq in Hb. apply Z.eqb_eq in Hsw, Hsh. exists 0, s. split; [done|]. split; [done|]. right. split; [done|]. exists v. split; [done|]. split; [done|]. by rewrite Es, Hsw, Hsh. }
  destruct (wi_frames _ _ Hi p v Ev) as ((_ & _ & Hw & Hh) & _). rewrite surface_size_ok by done. rewrite bind_ok.
  destruct (law_alloc (heap s) (f_w (w_frame v) * f_h (w_frame v) * 4) 0 (wi_heap _ _ Hi)) as (b & h1 & -> & Hh1 & Hres); [nia|]. rewrite bind_ok. destruct Hres as [[-> Hs]|(Hb & Eb & c & Hc & Hu)].
  { exists (-1), (with_heap s h1). split; [done|]. split; [by apply inv_heap_same|by left]. }
  rewrite (proj2 (Z.eqb_neq b 0)) by done. destruct (caps_split s zs p v Hi Hp Ev) as [Hn Hcs]. destruct (swap_surface (heap s) h1 (w_buffer v) b c _ Hn Hcs Hh1 Eb Hu) as (h & -> & Hh' & Hn' & Hc' & Ec & Hq). rewrite bind_ok.
  eexists 0, _. split; [done|]. split; [apply inv_surface; try done; right; exists c; by split|]. right. split; [done|]. eexists. split; [apply get_put; by exists v|]. by split.
Qed.

(** ** Creation *)

Lemma find_index_Some {B} (f : B -> bool) l i : find_index f l = Some i -> exists x, l !! i = Some x /\ f x = true.
Proof using Type.
  revert i. induction l as [|x l IH]; intros i; cbn; [done|]. destruct (f x) eqn:Ef; [intros [= <-]; by exists x|]. intros (j & Ej & ->)%fmap_Some. by apply IH.
Qed.
Lemma find_index_None {B} (f : B -> bool) l : find_index f l = None -> forall x, x ∈ l -> f x = false.
Proof using Type.
  induction l as [|x l IH]; cbn; [by intros _ x ?%elem_of_nil|]. destruct (f x) eqn:Ef; [done|]. intros E%fmap_None y [->|Hy]%elem_of_cons; [done|by apply IH].
Qed.

Lemma free_slot s zs i : wm_inv s zs -> find_index (fun v => w_id v =? 0) (windows s) = Some i -> exists v, get (windows s) (Z.of_nat i + 1) = Some v /\ w_id v = 0 /\ Z.of_nat i + 1 ∉ zs.
Proof using Type.
  intros Hi E. apply find_index_Some in E as (v & Ev & Hv). apply Z.eqb_eq in Hv. assert (get (windows s) (Z.of_nat i + 1) = Some v) as Eg.
  { unfold get. rewrite (proj2 (Z.ltb_ge _ _)) by lia. by replace (Z.to_nat (Z.of_nat i + 1 - 1)) with i by lia. }
  exists v. split; [done|]. split; [done|]. rewrite <- (wi_live _ _ Hi _ v Eg). by intros [].
Qed.

Lemma no_slot s zs : wm_inv s zs -> find_index (fun v => w_id v =? 0) (windows s) = None -> zs ≡ₚ seqZ 1 MAX_WINDOWS.
Proof using Type.
  intros Hi E. apply NoDup_Permutation; [exact (wi_nodup _ _ Hi)|apply NoDup_seqZ|]. intros z. rewrite elem_of_seqZ. split; intros Hz.
  - destruct (linked_get _ _ z _ (wi_stack _ _ Hi) Hz) as [v Ev]. apply get_pos in Ev. rewrite (wi_len _ _ Hi) in Ev. unfold MAX_WINDOWS in *. lia.
  - destruct (get (windows s) z) as [v|] eqn:Ev; unfold get in Ev; destruct (Z.ltb_spec z 1); try lia.
    + apply (wi_live _ _ Hi z v); [unfold get; by rewrite (proj2 (Z.ltb_ge z 1))|]. apply Z.eqb_neq. apply (find_index_None _ _ E). by apply list_elem_of_lookup_2 in Ev.
    + apply lookup_ge_None in Ev. rewrite (wi_len _ _ Hi) in Ev. unfold MAX_WINDOWS in *. lia.
Qed.

(** A free slot becomes the top of the stack. *)
Lemma inv_added s zs p v0 v h : wm_inv s zs -> get (windows s) p = Some v0 -> (p ∉ zs) -> w_id v <> 0 -> w_next v = window_stack s -> w_focused v = false -> good_frame (w_frame v) -> w_saved v = w_saved v0 ->
  on_close (w_handlers v) = 0 -> a_inv h -> let l := bufs (windows s) zs in let l' := if decide (w_buffer v = 0) then l else w_buffer v :: l in
  NoDup l' -> caps_ok cap0 (a_cap h) l' -> (forall q, q ∈ l -> a_cap h q = a_cap (heap s) q) -> room_for (a_cap h) v -> next_window_id s < 2 ^ 31 - 1 ->
  wm_inv (with_stack (set_win (with_heap (with_next_id s (next_window_id s + 1)) h) p v) p) (p :: zs).
Proof using Type.
  intros Hi Ep Hpz Hid0 Hnx Hf Hgf Hsv Hcl Hh. cbv zeta. intros Hn Hc Hq Hro' Hnid. pose proof (get_pos _ _ _ Ep) as Hpos. assert (is_Some (get (windows s) p)) as Hsp by (by exists v0).
  destruct Hi as [Hlen _ Hl Hnd Hlive Hfr Hfo (Hp1 & Hp2 & Hp3) Hid _ _ Hro Hd Hg]. set (ws := put (windows s) p v).
  assert (forall z u, get ws z = Some u -> (z = p /\ u = v) \/ (z <> p /\ get (windows s) z = Some u)) as Hback.
  { intros z u E. unfold ws in E. destruct (decide (z = p)) as [->|Hne]; [left; rewrite get_put in E by done; by injection E as <-|right]. by rewrite get_put_ne in E by (done || lia). }
  assert (bufs ws (p :: zs) = if decide (w_buffer v = 0) then bufs (windows s) zs else w_buffer v :: bufs (windows s) zs) as Hbs.
  { rewrite (bufs_cons ws p v) by (by apply get_put). rewrite (bufs_ext (windows s) ws); [done|]. intros z Hin. unfold buffer_of, ws. rewrite get_put_ne; [done|by intros ->|lia]. }
  split; cbn [windows focused_window dragging_window resizing_window next_window_id comp grabbed heap set_win with_heap window_stack with_stack with_next_id]; fold (put (windows s) p v); fold ws; try done.
  - unfold ws, put. by rewrite length_insert.
  - cbn [linked]. split; [done|]. exists v. split; [by apply get_put|]. rewrite Hnx. apply (linked_frame (windows s)); [done|]. intros z u Hin E. exists u. split; [|done]. rewrite <- E. apply get_put_ne; [by intros ->|lia].
  - by apply NoDup_cons.
  - intros z u E. rewrite elem_of_cons. destruct (Hback z u E) as [[-> ->]|[Hne E0]]; [tauto|]. rewrite (Hlive z u E0). tauto.
  - intros z u E. destruct (Hback z u E) as [[-> ->]|[Hne E0]]; [|by apply (Hfr z)]. rewrite Hsv. by destruct (Hfr p v0 Ep) as (_ & ? & _).
  - intros z u E. destruct (Hback z u E) as [[-> ->]|[Hne E0]]; [congruence|by apply (Hfo z)].
  - split_and!; by apply valid_put.
  - lia.
  - by rewrite Hbs.
  - by rewrite Hbs.
  - intros z u Hin E. destruct (Hback z u E) as [[-> ->]|[Hne E0]]; [done|]. apply elem_of_cons in Hin as [?|Hin]; [done|]. destruct (Hro z u Hin E0) as [Hb|(c & Ec & Hsz)]; [by left|]. destruct (decide (w_buffer u = 0)) as [?|Hb]; [by left|]. right. exists c. split; [|done]. rewrite Hq; [done|].
    apply list_elem_of_filter. split; [done|]. apply list_elem_of_fmap. exists z. split; [|done]. unfold buffer_of. by rewrite E0.
Qed.

Lemma create_window_ok s zs title x y w h : wm_inv s zs -> good_frame (Frame x y w h) -> next_window_id s < 2 ^ 31 - 1 -> exists r s', gui_create_window s title x y w h = Ok (r, s') /\
  (r = 0 /\ s' = s /\ zs ≡ₚ seqZ 1 MAX_WINDOWS \/ (r ∉ zs) /\ wm_inv s' (r :: zs) /\ exists v, get (windows s') r = Some v /\ w_frame v = Frame x y w h /\ w_visible v = true /\ w_id v = next_window_id s).
Proof using Type*.
  intros Hi Hf Hn. unfold gui_create_window. destruct (find_index _ _) as [i|] eqn:Ei; [|exists 0, s; split; [done|]; left; split; [done|split; [done|exact (no_slot s zs Hi Ei)]]].
  destruct (free_slot s zs i Hi Ei) as (v0 & Ev & _ & Hp). set (p := Z.of_nat i + 1) in *. cbv zeta. rewrite win_get, Ev. cbn [of_option]. pose proof (wi_id _ _ Hi) as Hid. rewrite bind_ok, (int_arith_ok (next_window_id s + 1)) by lia.
  pose proof Hf as (_ & _ & Hw & Hh). cbn in Hw, Hh. rewrite bind_ok, surface_size_ok by done. rewrite bind_ok. destruct (law_alloc (heap s) (w * h * 4) 0 (wi_heap _ _ Hi)) as (b & h1 & -> & Hh1 & Hres); [nia|]. rewrite bind_ok.
  eexists _, _. split; [done|]. right. split; [done|]. split; [|eexists; split; [apply get_put; by exists v0|done]].
  pose proof (wi_caps _ _ Hi) as Hc. pose proof (wi_bufs _ _ Hi) as Hb. apply (inv_added s zs p v0); try done; cbn [w_id w_buffer w_surface fst snd]; destruct Hres as [[-> Hs]|(Hb0 & Eb & c & Hcs & Hu)]; try lia.
  - by rewrite decide_True.
  - rewrite decide_False by done. apply NoDup_cons. split; [by apply (caps_alloc _ _ _ b c Hc Eb Hu)|done].
  - rewrite decide_True by done. by apply (caps_same (a_cap (heap s))).
  - rewrite decide_False by done. by apply (caps_alloc _ _ _ b c Hc Eb Hu).
  - intros q _. apply Hs.
  - intros q Hq. rewrite (Hu q), decide_False; [done|]. intros ->. by apply (caps_alloc _ _ _ b c Hc Eb Hu).
  - by left.
  - right. exists c. cbn. by rewrite (Hu b), decide_True.
Qed.
(** ** The mouse *)

Definition contains (f : frame) (x y : Z) : bool := (f_x f <=? x) && (x <? f_x f + f_w f) && (f_y f <=? y) && (y <? f_y f + f_h f).

(** The first window of the stack that is seen at the point. *)
Fixpoint topmost (ws : list window) (x y : Z) (zs : list Z) : Z :=
  match zs with
  | [] => 0
  | z :: zs => match get ws z with Some v => if w_visible v && contains (w_frame v) x y then z else topmost ws x y zs | None => 0 end
  end.

Lemma in_frame_ok f x y : good_frame f -> in_frame f x y = Ok (contains f x y).
Proof using Type.
  intros (Hx & Hy & Hw & Hh). unfold in_frame, contains, near in *. destruct (f_x f <=? x); [cbn [negb andb]|done]. rewrite (int_arith_ok (f_x f + f_w f)) by lia. rewrite bind_ok. destruct (x <? _); [cbn [negb andb]|done].
  destruct (f_y f <=? y); [cbn [negb andb]|done]. by rewrite int_arith_ok by lia.
Qed.

Lemma stack_length s zs : wm_inv s zs -> (length zs <= length (windows s))%nat.
Proof using Type.
  intros Hi. assert (zs ⊆+ seqZ 1 MAX_WINDOWS) as Hs.
  { apply NoDup_submseteq; [exact (wi_nodup _ _ Hi)|]. intros z Hz. destruct (linked_get _ _ z _ (wi_stack _ _ Hi) Hz) as [v Ev]. apply get_pos in Ev. rewrite (wi_len _ _ Hi) in Ev. apply elem_of_seqZ. unfold MAX_WINDOWS in *. lia. }
  apply submseteq_length in Hs. rewrite length_seqZ in Hs. by rewrite (wi_len _ _ Hi).
Qed.

Lemma window_at_loop_ok s zs x y l : wm_inv s zs -> forall p fuel, linked (windows s) p l -> (length l <= fuel)%nat -> window_at_loop fuel s p x y = Ok (topmost (windows s) x y l).
Proof using Type.
  intros Hi. induction l as [|z l IH]; intros p fuel Hl Hf; cbn [linked topmost] in *; [subst p; by destruct fuel|]. destruct Hl as (-> & v & Ev & Hl). pose proof (get_pos _ _ _ Ev). destruct fuel as [|fuel]; cbn in Hf; [lia|]. cbn [window_at_loop].
  rewrite (proj2 (Z.eqb_neq z 0)) by lia. rewrite win_get, Ev. cbn [of_option]. rewrite bind_ok. destruct (wi_frames _ _ Hi z v Ev) as (Hg & _). rewrite (in_frame_ok _ x y Hg). destruct (w_visible v); cbn [andb]; rewrite bind_ok; [destruct (contains _ x y); [done|]|]; apply IH; (done || lia).
Qed.

Lemma window_at_ok s zs x y : wm_inv s zs -> window_at s x y = Ok (topmost (windows s) x y zs).
Proof using Type. intros Hi. apply (window_at_loop_ok s zs); [done|by apply wi_stack|]. pose proof (stack_length s zs Hi). lia. Qed.

Lemma topmost_in ws x y zs : topmost ws x y zs <> 0 -> topmost ws x y zs ∈ zs /\ exists v, get ws (topmost ws x y zs) = Some v /\ w_visible v = true /\ contains (w_frame v) x y = true.
Proof using Type.
  induction zs as [|z zs IH]; cbn; [done|]. destruct (get ws z) as [v|] eqn:Ev; [|done]. destruct (w_visible v && _) eqn:Ec; [intros _; apply andb_prop in Ec; split; [by left|by exists v]|]. intros [Hin Hv]%IH. split; [by right|done].
Qed.

Lemma edge_ok v x y : good_frame (w_frame v) -> contains (w_frame v) x y = true -> exists e, edge_at v x y = Ok e.
Proof using Type.
  intros (Hx & Hy & Hw & Hh). unfold contains. intros [[[H1 H2]%andb_prop H3]%andb_prop H4]%andb_prop. unfold edge_at, RESIZE_BORDER, near in *. rewrite H1, H3. cbv zeta.
  rewrite (int_arith_ok (f_x (w_frame v) + 12)) by lia. rewrite !bind_ok. rewrite (int_arith_ok (f_x (w_frame v) + _)) by lia. rewrite bind_ok. rewrite (int_arith_ok (_ - 12)) by lia. rewrite bind_ok. rewrite (int_arith_ok (f_y (w_frame v) + 12)) by lia. rewrite !bind_ok.
  rewrite (int_arith_ok (f_y (w_frame v) + _)) by lia. rewrite bind_ok. rewrite (int_arith_ok (_ - 12)) by lia. rewrite bind_ok. by eexists.
Qed.

Lemma button_ok x y cx cy : - 2 ^ 15 + 1 <= x - cx <= 2 ^ 15 - 1 -> - 2 ^ 15 + 1 <= y - cy <= 2 ^ 15 - 1 -> exists b, on_button x y cx cy = Ok b.
Proof using Type.
  intros Hx Hy. unfold on_button. assert (forall d, - 2 ^ 15 + 1 <= d <= 2 ^ 15 - 1 -> 0 <= d * d <= 2 ^ 30 - 1) as Hsq by (intros d Hd; nia). pose proof (Hsq _ Hx). pose proof (Hsq _ Hy). rewrite (int_arith_ok (x - cx)) by lia. rewrite bind_ok, (int_arith_ok (y - cy)) by lia.
  rewrite bind_ok, (int_arith_ok ((x - cx) * _)) by lia. rewrite bind_ok, (int_arith_ok ((y - cy) * _)) by lia. rewrite bind_ok, (int_arith_ok (_ + _)) by lia. rewrite bind_ok. by eexists.
Qed.

Lemma titlebar_ok f x y : good_frame f -> exists b, on_titlebar f x y = Ok b.
Proof using Type.
  intros (Hx & Hy & _). unfold on_titlebar, BORDER_WIDTH, TITLEBAR_HEIGHT, near in *. rewrite (int_arith_ok (f_y f + 2)) by lia. rewrite bind_ok. destruct (negb _); [by eexists|]. rewrite (int_arith_ok (f_y f + 2 + 28)) by lia. rewrite bind_ok. destruct (negb _); [by eexists|].
  rewrite (int_arith_ok (f_x f + 2)) by lia. rewrite bind_ok, (int_arith_ok (f_x f + 2 + 70)) by lia. by eexists.
Qed.

Lemma without_top p zs : without p (to_top p zs) = without p zs.
Proof using Type.
  unfold to_top, without. rewrite filter_cons_False by (intros Hc; by apply Hc). apply list_filter_filter_r. done.
Qed.
(** One window of the stack changes its place or its state. *)
Lemma inv_change s zs p v f : wm_inv s zs -> get (windows s) p = Some v -> same_core v (f v) -> good_frame (w_frame (f v)) -> good_frame (w_saved (f v)) -> w_focused (f v) = w_focused v -> exists s', upd_win s p f = Ok s' /\ wm_inv s' zs.
Proof using Type*.
  intros Hi Ev Hc Hf Hs Hfo. rewrite (upd_win_ok s p v) by done. eexists. split; [done|]. apply (inv_one s zs p v); [done|done|done|done|done|]. rewrite Hfo. by apply (wi_focus _ _ Hi).
Qed.

Lemma zoom_good s zs p v : wm_inv s zs -> get (windows s) p = Some v -> good_frame (w_frame (toggle_zoom s v)) /\ good_frame (w_saved (toggle_zoom s v)).
Proof using Type.
  intros Hi Ev. destruct (wi_frames _ _ Hi p v Ev) as (Hf & Hs & _). destruct (wi_disp _ _ Hi) as [Hw Hh]. unfold toggle_zoom. destruct (decide _); [by split|]. cbv zeta. cbn [w_frame w_saved with_state with_frame with_saved]. split; [|done].
  unfold good_frame, near, MENU_BAR_HEIGHT, DOCK_HEIGHT. cbn [f_x f_y f_w f_h]. rewrite i32_u32, !i32_small by lia. lia.
Qed.

Lemma press_grab g v x y e : good_grab g -> good_frame (w_frame v) -> contains (w_frame v) x y = true -> steady x -> steady y -> good_grab (Grab (drag_x g) (drag_y g) e x y (w_frame v)).
Proof using Type.
  intros (Hdx & Hdy & _) (_ & _ & Hw & Hh) Hc Hx Hy. unfold contains in Hc. apply andb_prop in Hc as [[[H1 H2]%andb_prop H3]%andb_prop H4]. apply Z.leb_le in H1, H3. apply Z.ltb_lt in H2, H4. unfold good_grab, steady in *. cbn. split; [done|]. split; [done|]. lia.
Qed.

Lemma press_ok run_close s zs p v x y : wm_inv s zs -> p ∈ zs -> get (windows s) p = Some v -> contains (w_frame v) x y = true -> steady x -> steady y ->
  exists k s', press_window run_close s p x y = Ok (k, s') /\ wm_inv s' (if decide (k = Closing) then without p zs else to_top p zs).
Proof using Type*.
  intros Hi Hp Ev Hcon Hxs Hys. destruct (focus_ok s zs p Hi Hp) as (s1 & E1 & Hi1 & Ha1 & _). unfold press_window. rewrite E1, bind_ok. destruct (Ha1 p v Ev) as (v1 & Ev1 & Hl). unfold look in Hl. injection Hl as Hl _ _ _ _ _. rewrite <- Hl in Hcon.
  rewrite win_get, Ev1. cbn [of_option]. rewrite bind_ok. destruct (wi_frames _ _ Hi1 p v1 Ev1) as (Hg & Hgs & _). destruct (edge_ok v1 x y Hg Hcon) as [e ->]. rewrite bind_ok. destruct (wi_ptrs _ _ Hi1) as (Hp1 & Hp2 & Hp3). pose proof (wi_grab _ _ Hi1) as Hgg.
  assert (valid_ptr (windows s1) p) as Hvp by (right; by exists v1). assert (good_grab (Grab (drag_x (grabbed s1)) (drag_y (grabbed s1)) e x y (w_frame v1))) as Hgr by (by apply (press_grab (grabbed s1))).
  destruct (negb (e =? _)); [eexists Resizing, _; split; [done|]; by apply inv_drag|]. destruct (negb (w_titlebar v1)); [by exists Inside, s1|]. cbv zeta.
  unfold contains in Hcon. apply andb_prop in Hcon as [[[H1 H2]%andb_prop H3]%andb_prop H4]. pose proof Hg as (Hx & Hy & Hw & Hh). unfold BORDER_WIDTH, TITLEBAR_HEIGHT. change (28 / 2) with 14. unfold near in Hx, Hy. apply Z.leb_le in H1, H3. apply Z.ltb_lt in H2, H4.
  rewrite (int_arith_ok (f_y _ + 2 + 14)) by lia. rewrite bind_ok, (int_arith_ok (f_x _ + 2 + 18)) by lia. rewrite bind_ok. destruct (button_ok x y (f_x (w_frame v1) + 2 + 18) (f_y (w_frame v1) + 2 + 14)) as [c ->]; [lia|lia|]. rewrite bind_ok. destruct c.
  { assert (p ∈ to_top p zs) as Hpt by (by left). destruct (destroy_ok run_close s1 _ p Hi1 Hpt) as (s2 & -> & Hi2). exists Closing, s2. split; [done|]. rewrite decide_True by done. by rewrite without_top in Hi2. }
  rewrite (int_arith_ok (_ + 20)) by lia. rewrite bind_ok. destruct (button_ok x y (f_x (w_frame v1) + 2 + 18 + 20) (f_y (w_frame v1) + 2 + 14)) as [m ->]; [lia|lia|]. rewrite bind_ok. destruct m.
  { destruct (inv_change s1 _ p v1 (fun v => with_state v WINDOW_MINIMIZED false) Hi1 Ev1) as (s2 & -> & Hi2); try done. by exists Minimizing, s2. }
  rewrite (int_arith_ok (_ + 20)) by lia. rewrite bind_ok. destruct (button_ok x y (f_x (w_frame v1) + 2 + 18 + 20 + 20) (f_y (w_frame v1) + 2 + 14)) as [z ->]; [lia|lia|]. rewrite bind_ok. destruct z.
  { destruct (zoom_good s1 _ p v1 Hi1 Ev1) as [Hz1 Hz2]. destruct (inv_change s1 _ p v1 (toggle_zoom s1) Hi1 Ev1) as (s2 & -> & Hi2); [unfold toggle_zoom; by destruct (decide _)|done|done|unfold toggle_zoom; by destruct (decide _)|]. by exists Zooming, s2. }
  destruct (titlebar_ok (w_frame v1) x y Hg) as [i ->]. rewrite bind_ok. destruct i; [|by exists Inside, s1]. rewrite (int_arith_ok (x - _)) by lia. rewrite bind_ok, (int_arith_ok (y - _)) by lia. rewrite bind_ok. eexists Dragging, _. split; [done|]. apply inv_drag; try done. destruct Hgg as (_ & _ & Hgg). split; [unfold near; cbn; lia|]. split; [unfold near; cbn; lia|exact Hgg].
Qed.

Lemma click_ok run_close s zs x y : wm_inv s zs -> steady x -> steady y -> exists r s', click_window run_close s x y = Ok (r, s') /\
  match r with
  | None => s' = s /\ topmost (windows s) x y zs = 0
  | Some (p, k) => p = topmost (windows s) x y zs /\ p ∈ zs /\ wm_inv s' (if decide (k = Closing) then without p zs else to_top p zs)
  end.
Proof using Type*.
  intros Hi Hxs Hys. unfold click_window. rewrite (window_at_ok s zs x y Hi), bind_ok. destruct (Z.eqb_spec (topmost (windows s) x y zs) 0) as [Ez|Hz]; [by exists None, s|]. destruct (topmost_in _ _ _ _ Hz) as (Hin & v & Ev & _ & Hc).
  destruct (press_ok run_close s zs _ v x y Hi Hin Ev Hc Hxs Hys) as (k & s' & -> & Hi'). rewrite bind_ok. by eexists (Some (_, k)), s'.
Qed.

Lemma clamp_ok lo hi v : (if hi <? (if v <? lo then lo else v) then hi else if v <? lo then lo else v) = Z.min (Z.max v lo) hi.
Proof using Type. destruct (Z.ltb_spec v lo); [destruct (Z.ltb_spec hi lo)|destruct (Z.ltb_spec hi v)]; lia. Qed.

(** A dragged window stays on the screen, below the menu bar and above the dock. *)
Lemma drag_frame_ok s zs f x y : wm_inv s zs -> near x -> near y -> good_frame f ->
  let d := disp (sg (comp s)) in
  drag_frame s f x y = Ok (Frame (Z.min (Z.max (x - drag_x (grabbed s)) 0) (d_width d - 100)) (Z.min (Z.max (y - drag_y (grabbed s)) MENU_BAR_HEIGHT) (d_height d - DOCK_HEIGHT - TITLEBAR_HEIGHT)) (f_w f) (f_h f)).
Proof using Type.
  intros Hi Hx Hy Hf. destruct (wi_disp _ _ Hi) as [Hw Hh]. destruct (wi_grab _ _ Hi) as (Hgx & Hgy & _). cbv zeta. unfold drag_frame, MENU_BAR_HEIGHT, DOCK_HEIGHT, TITLEBAR_HEIGHT, near in *. cbv zeta. rewrite (int_arith_ok (x - _)) by lia. rewrite bind_ok, (int_arith_ok (y - _)) by lia. rewrite bind_ok.
  rewrite !i32_u32, !i32_small by lia. rewrite (int_arith_ok (_ - 70 - 28)) by lia. rewrite bind_ok, (int_arith_ok (_ - 100)) by lia. rewrite bind_ok. do 2 f_equal; apply clamp_ok.
Qed.

Lemma drag_ok s zs x y : wm_inv s zs -> near x -> near y -> dragging_window s <> 0 -> exists s', drag_window s x y = Ok s' /\ wm_inv s' zs /\ grabbed s' = grabbed s /\ resizing_window s' = resizing_window s.
Proof using Type*.
  intros Hi Hx Hy Hd. destruct (wi_ptrs _ _ Hi) as (_ & [?|[v Ev]] & _); [done|]. destruct (wi_frames _ _ Hi _ v Ev) as (Hg & Hgs & _). unfold drag_window. rewrite win_get, Ev. cbn [of_option]. rewrite bind_ok, (drag_frame_ok s zs) by done. rewrite bind_ok. eexists. split; [done|]. split; [|done].
  apply inv_comp; [|done]. apply (inv_one s zs _ v); try done; [|intros Hfo; by apply (wi_focus _ _ Hi _ v)]. destruct (wi_disp _ _ Hi) as [Hw Hh]. destruct Hg as (_ & _ & ? & ?). unfold good_frame, near, MENU_BAR_HEIGHT, DOCK_HEIGHT, TITLEBAR_HEIGHT. cbn. lia.
Qed.

(** The steps of [resize_frame] on one side: where the window goes and how wide it is. *)
Lemma least_ok (v : Z) : - 2 ^ 23 <= v <= 2 ^ 23 -> exists w, (w ← int_arith v; Ok (if w <? 100 then 100 else w)) = Ok w /\ - 2 ^ 23 <= w <= 2 ^ 23.
Proof using Type. intros Hv. rewrite int_arith_ok by lia. rewrite bind_ok. eexists. split; [done|]. destruct (Z.ltb_spec v 100); lia. Qed.

Lemma side_ok a b d m : - 2 ^ 22 <= a <= 2 ^ 22 -> 0 <= b <= 2 ^ 14 -> - 2 ^ 22 <= d <= 2 ^ 22 -> 0 <= m <= 200 ->
  exists p q, (delta ← int_arith (- d); w ← int_arith (b + delta); delta ← (if w <? m then int_arith (- (b - m)) else Ok delta); nx ← int_arith (a + delta); nw ← int_arith (b - delta); Ok (nx, nw)) = Ok (p, q) /\
    - 2 ^ 23 <= p <= 2 ^ 23 /\ - 2 ^ 23 <= q <= 2 ^ 23.
Proof using Type.
  intros Ha Hb Hd Hm. rewrite (int_arith_ok (- d)) by lia. rewrite bind_ok, (int_arith_ok (b + - d)) by lia. rewrite bind_ok. destruct (b + - d <? m); [rewrite (int_arith_ok (- (b - m))) by lia|]; rewrite bind_ok.
  - rewrite (int_arith_ok (a + _)) by lia. rewrite bind_ok, (int_arith_ok (b - _)) by lia. rewrite bind_ok. do 2 eexists. split; [done|]. lia.
  - rewrite (int_arith_ok (a + _)) by lia. rewrite bind_ok, (int_arith_ok (b - _)) by lia. rewrite bind_ok. do 2 eexists. split; [done|]. lia.
Qed.

Lemma floor_ok (c : bool) a b p q m : - 2 ^ 22 <= a <= 2 ^ 22 -> 0 <= b <= 2 ^ 14 -> 0 <= m <= 200 -> - 2 ^ 23 <= p <= 2 ^ 23 -> - 2 ^ 23 <= q <= 2 ^ 23 ->
  exists p' q', (if q <? m then nx ← (if c then int_arith (a + b - m) else Ok p); Ok (nx, m) else Ok (p, q)) = Ok (p', q') /\ - 2 ^ 23 <= p' <= 2 ^ 23 /\ m <= q' <= 2 ^ 23.
Proof using Type.
  intros Ha Hb Hm Hp Hq. destruct (Z.ltb_spec q m); [|do 2 eexists; split; [done|]; lia]. destruct c; [rewrite int_arith_ok by lia|]; rewrite bind_ok; do 2 eexists; (split; [done|]); lia.
Qed.

Lemma resize_frame_ok g x y : good_grab g -> steady x -> steady y -> exists f, resize_frame g x y = Ok f /\ near (f_x f) /\ near (f_y f) /\ 0 <= f_w f <= 2 ^ 23 /\ 0 <= f_h f <= 2 ^ 23.
Proof using Type.
  intros (_ & _ & Hsx & Hsy & Hfx & Hfy & Hw & Hh) Hx Hy. unfold resize_frame, steady in *. cbv zeta. rewrite (int_arith_ok (x - _)) by lia. rewrite bind_ok, (int_arith_ok (y - _)) by lia. rewrite bind_ok.
  assert (exists nw, (if has_edge (resize_edge g) RESIZE_RIGHT then w ← int_arith (f_w (start_frame g) + (x - start_x g)); Ok (if w <? 100 then 100 else w) else Ok (f_w (start_frame g))) = Ok nw /\ - 2 ^ 23 <= nw <= 2 ^ 23) as (nw & -> & Hnw) by (destruct (has_edge _ _); [apply least_ok; lia|eexists; split; [done|]; lia]).
  assert (exists nh, (if has_edge (resize_edge g) RESIZE_BOTTOM then h ← int_arith (f_h (start_frame g) + (y - start_y g)); Ok (if h <? 100 then 100 else h) else Ok (f_h (start_frame g))) = Ok nh /\ - 2 ^ 23 <= nh <= 2 ^ 23) as (nh & -> & Hnh) by (destruct (has_edge _ _); [apply least_ok; lia|eexists; split; [done|]; lia]).
  rewrite !bind_ok. destruct (side_ok (start_x g) (f_w (start_frame g)) (x - start_x g) 100) as (p1 & q1 & E1 & Hp1 & Hq1); [lia..|]. destruct (side_ok (f_y (start_frame g)) (f_h (start_frame g)) (y - start_y g) MIN_WINDOW_HEIGHT) as (p2 & q2 & E2 & Hp2 & Hq2); [unfold MIN_WINDOW_HEIGHT; lia..|].
  rewrite E1, E2. clear E1 E2.
  assert (exists p q, (if has_edge (resize_edge g) RESIZE_LEFT then Ok (p1, q1) else Ok (start_x g, nw)) = Ok (p, q) /\ - 2 ^ 23 <= p <= 2 ^ 23 /\ - 2 ^ 23 <= q <= 2 ^ 23) as (p3 & q3 & -> & Hp3 & Hq3) by (destruct (has_edge _ _); do 2 eexists; (split; [done|]); lia).
  rewrite bind_ok. cbv beta iota.
  assert (exists p q, (if has_edge (resize_edge g) RESIZE_TOP then Ok (p2, q2) else Ok (start_y g, nh)) = Ok (p, q) /\ - 2 ^ 23 <= p <= 2 ^ 23 /\ - 2 ^ 23 <= q <= 2 ^ 23) as (p4 & q4 & -> & Hp4 & Hq4) by (destruct (has_edge _ _); do 2 eexists; (split; [done|]); lia).
  rewrite bind_ok. cbv beta iota.
  destruct (floor_ok (is_one_of (resize_edge g) [RESIZE_LEFT; RESIZE_TOP_LEFT; RESIZE_BOTTOM_LEFT]) (f_x (start_frame g)) (f_w (start_frame g)) p3 q3 MIN_WINDOW_WIDTH) as (p5 & q5 & -> & Hp5 & Hq5); [unfold MIN_WINDOW_WIDTH; lia..|]. rewrite bind_ok. cbv beta iota.
  destruct (floor_ok (is_one_of (resize_edge g) [RESIZE_TOP; RESIZE_TOP_LEFT; RESIZE_TOP_RIGHT]) (f_y (start_frame g)) (f_h (start_frame g)) p4 q4 MIN_WINDOW_HEIGHT) as (p6 & q6 & -> & Hp6 & Hq6); [unfold MIN_WINDOW_HEIGHT; lia..|]. rewrite bind_ok. cbv beta iota.
  eexists. split; [done|]. cbn [f_x f_y f_w f_h]. unfold near, MENU_BAR_HEIGHT, MIN_WINDOW_WIDTH, MIN_WINDOW_HEIGHT in *. destruct (Z.ltb_spec p5 0), (Z.ltb_spec p6 28); lia.
Qed.

(** A window that is not pulled beyond all measure. *)
Definition measured (s : state) (x y : Z) : Prop := resizing_window s <> 0 -> forall f, resize_frame (grabbed s) x y = Ok f -> f_w f <= 2 ^ 14 /\ f_h f <= 2 ^ 14.

Lemma resize_ok s zs x y : wm_inv s zs -> steady x -> steady y -> resizing_window s <> 0 -> measured s x y -> exists s', resize_window s x y = Ok s' /\ wm_inv s' zs.
Proof using Type*.
  intros Hi Hx Hy Hr Hm. destruct (wi_ptrs _ _ Hi) as (_ & _ & [?|[v Ev]]); [done|]. destruct (wi_frames _ _ Hi _ v Ev) as (Hg & Hgs & _). destruct (resize_frame_ok _ x y (wi_grab _ _ Hi) Hx Hy) as (f & Ef & Hfx & Hfy & Hfw & Hfh). destruct (Hm Hr f Ef) as [Hmw Hmh].
  unfold resize_window. rewrite win_get, Ev. cbn [of_option]. rewrite bind_ok, Ef, bind_ok. unfold near in *. rewrite (int_arith_ok (f_x f - 5)) by lia. rewrite bind_ok, (int_arith_ok (f_y f - 5)) by lia. rewrite bind_ok, (int_arith_ok (f_w f + 10)) by lia. rewrite bind_ok, (int_arith_ok (f_h f + 10)) by lia. rewrite bind_ok.
  eexists. split; [done|]. apply inv_comp; [|by apply mark_disp]. apply (inv_one s zs _ v); try done; [|intros Hfo; by apply (wi_focus _ _ Hi _ v)]. unfold good_frame, near. cbn. lia.
Qed.

(** The mouse moves with the button held. *)
Lemma motion_ok s zs x y : wm_inv s zs -> steady x -> steady y -> measured s x y -> exists s', move_mouse s x y = Ok s' /\ wm_inv s' zs.
Proof using Type*.
  intros Hi Hx Hy Hm. unfold move_mouse. assert (near x /\ near y) as [Hnx Hny] by (unfold near, steady in *; lia).
  assert (exists s1, (if dragging_window s =? 0 then Ok s else drag_window s x y) = Ok s1 /\ wm_inv s1 zs /\ grabbed s1 = grabbed s /\ resizing_window s1 = resizing_window s) as (s1 & -> & Hi1 & Eg & Er).
  { destruct (Z.eqb_spec (dragging_window s) 0) as [E|E]; [by exists s|]. by apply (drag_ok s zs). }
  rewrite bind_ok. destruct (Z.eqb_spec (resizing_window s1) 0) as [E|E]; [by exists s1|]. apply (resize_ok s1 zs); try done. unfold measured. by rewrite Eg, Er.
Qed.

Lemma release_ok s zs : wm_inv s zs -> exists s', release_left s = Ok s' /\ wm_inv s' zs.
Proof using Type*.
  intros Hi. unfold release_left. cbv zeta. pose proof (wi_grab _ _ Hi) as Hgg. destruct (Z.eqb_spec (resizing_window s) 0) as [E|Hr]; [rewrite bind_ok; eexists; split; [done|]; apply inv_drag; try done; by left|].
  destruct (wi_ptrs _ _ Hi) as (_ & _ & [?|[v Ev]]); [done|]. destruct (wi_frames _ _ Hi _ v Ev) as (Hg & Hgs & _).
  destruct (inv_change s zs _ v (fun v => with_w_dirty (with_state v WINDOW_NORMAL (w_visible v))) Hi Ev) as (s1 & -> & Hi1); try done. rewrite !bind_ok. eexists. split; [done|]. apply inv_drag; try done; [by apply inv_comp|by left|by left].
Qed.
End laws.

(** ** What a session does *)

(** What the rest of the kernel asks of the table: of the functions, of the mouse frame handler, and of the redraw, which gets a surface first. *)
Inductive op := Create (title : list Z) (f : frame) | Destroy (p : Z) | Focus (p : Z) | Ensure (p : Z) | MarkDirty (p : Z) | Click (x y : Z) | Motion (x y : Z) | Release.

Definition blank_window : window := Window 0 [] (Frame 0 0 0 0) WINDOW_NORMAL false false false false 0 (0, 0) false 0 (Frame 0 0 0 0) no_handlers 0.
Definition boot_windows {A} (c : screen) (h : A) : wm A := Wm (replicate (Z.to_nat MAX_WINDOWS) blank_window) 0 0 1 0 0 (Grab 0 0 RESIZE_NONE 0 0 (Frame 0 0 0 0)) c h.

Section session.
Context {A : Type} `{AllocatorLaws A}.
Abbreviation state := (wm A).
Context (run_close : Z -> state -> Z -> outcome state).

Definition exec (s : state) (o : op) : outcome state :=
  match o with
  | Create title f => r ← gui_create_window s title (f_x f) (f_y f) (f_w f) (f_h f); Ok (snd r)
  | Destroy p => gui_destroy_window run_close s p
  | Focus p => gui_focus_window s p
  | Ensure p => r ← gui_ensure_window_surface s p; Ok (snd r)
  | MarkDirty p => gui_mark_window_dirty s p
  | Click x y => r ← click_window run_close s x y; Ok (snd r)
  | Motion x y => move_mouse s x y
  | Release => release_left s
  end.

(** A window that was created and not destroyed since. *)
Definition live (s : state) (p : Z) : Prop := exists v, get (windows s) p = Some v /\ w_id v <> 0.

Definition allowed (s : state) (o : op) : Prop :=
  match o with
  | Create _ f => good_frame f /\ next_window_id s < 2 ^ 31 - 1
  | Destroy p | Focus p | Ensure p => live s p
  | MarkDirty p => valid_ptr (windows s) p
  | Click x y => steady x /\ steady y
  | Motion x y => steady x /\ steady y /\ measured s x y
  | Release => True
  end.

(** How an operation changes the stack. *)
Definition moved (ws : list window) (zs : list Z) (o : op) (zs' : list Z) : Prop :=
  match o with
  | Create _ _ => zs' = zs /\ zs ≡ₚ seqZ 1 MAX_WINDOWS \/ exists p, (p ∉ zs) /\ zs' = p :: zs
  | Destroy p => zs' = without p zs
  | Focus p => zs' = to_top p zs
  | Click x y => let p := topmost ws x y zs in if p =? 0 then zs' = zs else zs' = to_top p zs \/ zs' = without p zs
  | Ensure _ | MarkDirty _ | Motion _ _ | Release => zs' = zs
  end.

Inductive reachable (s0 : state) : state -> Prop :=
  | reach_start : reachable s0 s0
  | reach_step s o s' : reachable s0 s -> allowed s o -> exec s o = Ok s' -> reachable s0 s'.

Lemma live_in cap0 s zs p : wm_inv cap0 s zs -> live s p -> p ∈ zs.
Proof using Type. intros Hi (v & Ev & Hv). by apply (wi_live _ _ _ Hi p v Ev). Qed.

Lemma exec_ok cap0 s zs o : wm_inv cap0 s zs -> allowed s o -> exists s' zs', exec s o = Ok s' /\ wm_inv cap0 s' zs' /\ moved (windows s) zs o zs'.
Proof using Type*.
  intros Hi. destruct o as [title f|p|p|p|p|x y|x y|]; cbn [allowed exec moved].
  - intros [Hf Hn]. destruct (create_window_ok cap0 s zs title (f_x f) (f_y f) (f_w f) (f_h f) Hi) as (r & s' & -> & Hc); [done|done|]. rewrite bind_ok. destruct Hc as [(-> & -> & Hz)|(Hr & Hi' & _)]; [exists s, zs|exists s', (r :: zs)]; (split; [done|]; split; [done|]).
    + by left.
    + right. by exists r.
  - intros Hp%(live_in _ _ _ _ Hi). destruct (destroy_ok cap0 run_close s zs p Hi Hp) as (s' & -> & Hi'). by exists s', (without p zs).
  - intros Hp%(live_in _ _ _ _ Hi). destruct (focus_ok cap0 s zs p Hi Hp) as (s' & -> & Hi' & _). by exists s', (to_top p zs).
  - intros Hp%(live_in _ _ _ _ Hi). destruct (ensure_ok cap0 s zs p Hi Hp) as (r & s' & -> & Hi' & _). rewrite bind_ok. by exists s', zs.
  - intros Hp. destruct (mark_window_ok cap0 s zs p Hi Hp) as (s' & -> & Hi' & _). by exists s', zs.
  - intros [Hx Hy]. destruct (click_ok cap0 run_close s zs x y Hi Hx Hy) as (r & s' & -> & Hr). rewrite bind_ok. cbv zeta. destruct r as [[p k]|].
    + destruct Hr as (-> & Hin & Hi'). destruct (linked_get _ _ _ _ (wi_stack _ _ _ Hi) Hin) as [v Ev]. apply get_pos in Ev. rewrite (proj2 (Z.eqb_neq _ 0)) by lia. eexists s', _. split; [done|]. split; [exact Hi'|]. destruct (decide _); [by right|by left].
    + destruct Hr as [-> ->]. by exists s, zs.
  - intros (Hx & Hy & Hm). destruct (motion_ok cap0 s zs x y Hi Hx Hy Hm) as (s' & -> & Hi'). by exists s', zs.
  - intros _. destruct (release_ok cap0 s zs Hi) as (s' & -> & Hi'). by exists s', zs.
Qed.

Lemma boot_windows_inv (c : screen) (h : A) : a_inv h -> 100 <= d_width (disp (sg c)) <= 2 ^ 14 -> 98 <= d_height (disp (sg c)) <= 2 ^ 14 -> wm_inv (a_cap h) (boot_windows c h) [].
Proof using Type.
  intros Hh Hw Hhh. assert (forall z v, get (windows (boot_windows c h)) z = Some v -> v = blank_window) as Hb.
  { intros z v. unfold get. destruct (z <? 1); [done|]. cbn [windows boot_windows]. by intros [? _]%lookup_replicate. }
  split; try done.
  - by constructor.
  - intros z v ->%Hb. cbn. split; [done|by intros ?%elem_of_nil].
  - intros z v ->%Hb. unfold good_frame, near. cbn. lia.
  - intros z v ->%Hb. done.
  - split_and!; by left.
  - by constructor.
  - by intros z v ?%elem_of_nil.
Qed.

Lemma reachable_inv cap0 s0 s zs0 : wm_inv cap0 s0 zs0 -> reachable s0 s -> exists zs, wm_inv cap0 s zs.
Proof using Type*.
  intros Hi. induction 1 as [|s o s' _ [zs Hzs] Ha E]; [by exists zs0|]. destruct (exec_ok cap0 s zs o Hzs Ha) as (s1 & zs1 & E1 & Hi1 & _). exists zs1. congruence.
Qed.

(** Without a window, nothing of the heap is held. *)
Lemma empty_stack_caps cap0 s zs : wm_inv cap0 s zs -> window_stack s = 0 -> cap_same cap0 (a_cap (heap s)).
Proof using Type.
  intros Hi Hs. pose proof (wi_stack _ _ _ Hi) as Hl. rewrite Hs in Hl. apply linked_zero in Hl as [Hz _]. rewrite (Hz eq_refl) in Hi. intros q. exact (wi_caps _ _ _ Hi q).
Qed.

(** Every mouse event is made of at most two of the operations. *)
Lemma mouse_event_ok cap0 s0 s zs prev x y buttons reaches : reachable s0 s -> wm_inv cap0 s zs -> steady x -> steady y -> measured s x y ->
  exists s', gui_handle_mouse_event run_close s prev x y buttons reaches = Ok s' /\ reachable s0 s'.
Proof using Type*.
  intros Hr Hi Hx Hy Hm. unfold gui_handle_mouse_event. destruct (Z.testbit buttons 0); cbn [negb andb].
  - destruct (motion_ok cap0 s zs x y Hi Hx Hy Hm) as (s1 & E1 & Hi1). rewrite E1, !bind_ok. assert (reachable s0 s1) as Hr1 by (by apply (reach_step s0 s (Motion x y))).
    destruct (negb _ && reaches); [|by exists s1]. destruct (click_ok cap0 run_close s1 zs x y Hi1 Hx Hy) as (r & s2 & E2 & _). exists s2. rewrite E2, bind_ok. split; [done|]. apply (reach_step s0 s1 (Click x y)); [done|done|]. cbn [exec]. by rewrite E2, bind_ok.
  - rewrite bind_ok. destruct (Z.testbit prev 0); [|by exists s]. destruct (release_ok cap0 s zs Hi) as (s1 & E1 & _). rewrite E1, bind_ok. exists s1. split; [done|]. by apply (reach_step s0 s Release).
Qed.

(** C33. The window table through any session from the boot: windows are created, destroyed, focused, clicked
    on (which may also close, minimise or zoom them), dragged, resized and given surfaces, in any order, by calls
    and by mouse events, as long as the mouse stays within a million points and no window is pulled to more than 16384.
    No operation on a live window fails, whatever stale pointers the focus, the drag and the resize keep; the stack stays
    a chain without repetition of exactly the live windows, in the order the operations say; a window has no
    surface, when its allocation failed, or one of its own with room for its pixels; and when the last window is gone, the
    heap has again what it had at boot. *)
Theorem session_safe (c : screen) (h : A) s : a_inv h -> 100 <= d_width (disp (sg c)) <= 2 ^ 14 -> 98 <= d_height (disp (sg c)) <= 2 ^ 14 -> reachable (boot_windows c h) s ->
  (window_stack s = 0 -> cap_same (a_cap h) (a_cap (heap s))) /\
  (exists zs, linked (windows s) (window_stack s) zs /\ NoDup zs /\ (forall p, p ∈ zs <-> live s p) /\
    NoDup (bufs (windows s) zs) /\ (forall p v, live s p -> get (windows s) p = Some v -> room_for (a_cap (heap s)) v) /\
    forall o, allowed s o -> exists s' zs', exec s o = Ok s' /\ moved (windows s) zs o zs' /\ linked (windows s') (window_stack s') zs') /\
  (forall prev x y buttons reaches, steady x -> steady y -> measured s x y ->
    exists s', gui_handle_mouse_event run_close s prev x y buttons reaches = Ok s' /\ reachable (boot_windows c h) s').
Proof using Type*.
  intros Hh Hw Hhh Hr. destruct (reachable_inv _ _ _ _ (boot_windows_inv c h Hh Hw Hhh) Hr) as [zs Hi]. split; [by apply (empty_stack_caps _ s zs)|]. split; [|intros; by apply (mouse_event_ok (a_cap h) _ s zs)].
  exists zs. split; [exact (wi_stack _ _ _ Hi)|]. split; [exact (wi_nodup _ _ _ Hi)|].
  split; [|split; [exact (wi_bufs _ _ _ Hi)|split]].
  - intros p. split; [|by apply (live_in (a_cap h))]. intros Hp. destruct (win_ok _ s zs p Hi Hp) as (v & Ev & Hv & _). by exists v.
  - intros p v Hp. exact (wi_room _ _ _ Hi p v (live_in _ s zs p Hi Hp)).
  - intros o Ho. destruct (exec_ok _ s zs o Hi Ho) as (s' & zs' & E & Hi' & Hm). exists s', zs'. split; [done|]. split; [done|exact (wi_stack _ _ _ Hi')].
Qed.
End session.

(** ** Resizing *)

(** Whatever the edge and the mouse, a window keeps its least size and stays off the menu bar. *)
Lemma resize_bounds g x y f : resize_frame g x y = Ok f -> MIN_WINDOW_WIDTH <= f_w f /\ MIN_WINDOW_HEIGHT <= f_h f /\ 0 <= f_x f /\ MENU_BAR_HEIGHT <= f_y f.
Proof.
  unfold resize_frame. cbv zeta. intros E. do 2 inv_bind E. do 2 inv_bind E. inv_bind E. destruct v3 as [nx nw]. inv_bind E. destruct v3 as [ny nh]. inv_bind E. destruct v3 as [nx' nw']. inv_bind E. destruct v3 as [ny' nh']. injection E as <-. cbn [f_x f_y f_w f_h].
  assert (MIN_WINDOW_WIDTH <= nw') as H1 by (destruct (Z.ltb_spec nw MIN_WINDOW_WIDTH); [inv_bind Hv5|]; simplify_eq; lia).
  assert (MIN_WINDOW_HEIGHT <= nh') as H2 by (destruct (Z.ltb_spec nh MIN_WINDOW_HEIGHT); [inv_bind Hv6|]; simplify_eq; lia).
  split; [done|]. split; [done|]. split; [destruct (Z.ltb_spec nx' 0)|destruct (Z.ltb_spec ny' MENU_BAR_HEIGHT)]; lia.
Qed.

Lemma at_least_if v m : (if v <? m then m else v) = Z.max v m.
Proof. destruct (Z.ltb_spec v m); lia. Qed.

(** Resizing by the right edge, from a press at [(start_x g, start_y g)], with the mouse now at [(x, y)].
    The width follows the mouse; but the window also jumps to the abscissa of the press, even if the mouse did
    not move, and as the number of the top edge shares a bit with that of the right edge, the top edge moves
    against the mouse: the window grows upwards as the mouse goes down. *)
Theorem resize_right_edge g x y : let f := start_frame g in let dx := x - start_x g in let dy := y - start_y g in
  resize_edge g = RESIZE_RIGHT -> near x -> near y -> near (start_x g) -> near (start_y g) -> good_frame f -> dy <= f_h f - MIN_WINDOW_HEIGHT ->
  resize_frame g x y = Ok (Frame (Z.max (start_x g) 0) (Z.max (f_y f - dy) MENU_BAR_HEIGHT) (Z.max (f_w f + dx) MIN_WINDOW_WIDTH) (Z.max (f_h f + dy) MIN_WINDOW_HEIGHT)).
Proof.
  cbv zeta. intros He Hx Hy Hsx Hsy (Hfx & Hfy & Hw & Hh) Hdy. unfold near, MIN_WINDOW_HEIGHT, MIN_WINDOW_WIDTH, MENU_BAR_HEIGHT in *. unfold resize_frame. cbv zeta. rewrite He.
  change (has_edge RESIZE_RIGHT RESIZE_RIGHT) with true. change (has_edge RESIZE_RIGHT RESIZE_BOTTOM) with false. change (has_edge RESIZE_RIGHT RESIZE_LEFT) with false. change (has_edge RESIZE_RIGHT RESIZE_TOP) with true.
  change (is_one_of RESIZE_RIGHT [RESIZE_LEFT; RESIZE_TOP_LEFT; RESIZE_BOTTOM_LEFT]) with false. change (is_one_of RESIZE_RIGHT [RESIZE_TOP; RESIZE_TOP_LEFT; RESIZE_TOP_RIGHT]) with false. cbv iota.
  rewrite (int_arith_ok (x - _)) by lia. rewrite bind_ok, (int_arith_ok (y - _)) by lia. rewrite bind_ok, (int_arith_ok (f_w _ + _)) by lia. rewrite !bind_ok. cbv beta iota. unfold MIN_WINDOW_HEIGHT, MIN_WINDOW_WIDTH, MENU_BAR_HEIGHT.
  rewrite (int_arith_ok (- (y - start_y g))) by lia. rewrite bind_ok, (int_arith_ok (f_h _ + - _)) by lia. rewrite bind_ok, (proj2 (Z.ltb_ge (f_h (start_frame g) + - (y - start_y g)) 100)) by lia.
  rewrite bind_ok, (int_arith_ok (f_y _ + _)) by lia. rewrite bind_ok, (int_arith_ok (f_h _ - _)) by lia. rewrite !bind_ok. cbv beta iota. replace (f_h (start_frame g) - - (y - start_y g)) with (f_h (start_frame g) + (y - start_y g)) by lia.
  replace (f_y (start_frame g) + - (y - start_y g)) with (f_y (start_frame g) - (y - start_y g)) by lia. rewrite !at_least_if.
  set (w := f_w (start_frame g) + (x - start_x g)). set (h := f_h (start_frame g) + (y - start_y g)). set (ny := f_y (start_frame g) - (y - start_y g)).
  destruct (Z.ltb_spec (Z.max w 100) 150), (Z.ltb_spec h 100); rewrite !bind_ok; cbv beta iota; rewrite ?bind_ok, !at_least_if; do 2 f_equal; lia.
Qed.

Lemma resize_right_edge_witness : exists g, start_frame g = Frame 200 150 400 300 /\ start_x g = 595 /\ start_y g = 300 /\
  resize_frame g 595 300 = Ok (Frame 595 150 400 300) /\ resize_frame g 605 340 = Ok (Frame 595 110 410 340).
Proof.
  exists (Grab 0 0 RESIZE_RIGHT 595 300 (Frame 200 150 400 300)). split; [done|]. split; [done|]. split; [done|]. split.
  - apply (resize_right_edge (Grab 0 0 RESIZE_RIGHT 595 300 (Frame 200 150 400 300)) 595 300); first reflexivity; vm_compute; repeat split; discriminate.
  - apply (resize_right_edge (Grab 0 0 RESIZE_RIGHT 595 300 (Frame 200 150 400 300)) 605 340); first reflexivity; vm_compute; repeat split; discriminate.
Defined.

(** ** Sessions on a booted kernel *)

#[export] Existing Instances KmallocSpec.kernel_heap KmallocSpec.kernel_heap_laws.
Definition demo_screen : screen := Screen (Gui (Display 1024 768 4096 1 2) 0 0 0 0 0 0 ∅) [] false [] 0 0 false 0 0.
Definition demo_wm : wm Kmalloc.heap := boot_windows demo_screen (KmallocSpec.boot_heap (2 ^ 30)).
Definition no_close (_ : Z) (s : wm Kmalloc.heap) (_ : Z) : outcome (wm Kmalloc.heap) := Ok s.
Fixpoint exec_all (s : wm Kmalloc.heap) (l : list op) : outcome (wm Kmalloc.heap) := match l with [] => Ok s | o :: l => s ← exec no_close s o; exec_all s l end.

(** The slots of the stack, from the top, with the place of each window. *)
Fixpoint stack_of (fuel : nat) (s : wm Kmalloc.heap) (p : Z) : list (Z * frame) :=
  match fuel with O => [] | S fuel => match get (windows s) p with Some v => (p, w_frame v) :: stack_of fuel s (w_next v) | None => [] end end.

(** Two windows; the lower one is pressed on its title bar, dragged off the screen and dropped; then the other one is closed by its button. *)
Example session_demo :
  match exec_all demo_wm [Create [65] (Frame 100 100 400 300); Create [66] (Frame 200 200 400 300); Click 190 110; Motion 2000 (-50); Release; Click 220 216] with
  | Ok s => (stack_of 64 s (window_stack s), focused_window s) = ([(1, Frame 924 28 400 300)], 2)
  | _ => False
  end.
Proof. vm_compute. reflexivity. Qed.

(** A press on the right edge, and the mouse ten points to the right and forty down. *)
Example session_resize :
  match exec_all demo_wm [Create [65] (Frame 200 150 400 300); Click 595 300; Motion 605 340; Release; Motion 300 300; Ensure 1] with
  | Ok s => (stack_of 64 s (window_stack s), option_map w_surface (get (windows s) 1)) = ([(1, Frame 595 110 410 340)], Some (410, 340))
  | _ => False
  end.
Proof. vm_compute. reflexivity. Qed.

Definition after (s : wm Kmalloc.heap) (o : op) : wm Kmalloc.heap := match exec no_close s o with Ok s' => s' | _ => s end.

Lemma reach_after s o : reachable no_close demo_wm s -> allowed s o -> reachable no_close demo_wm (after s o).
Proof.
  intros Hr Ha. assert (wm_inv (a_cap (heap demo_wm)) demo_wm []) as H0 by (apply boot_windows_inv; [apply KmallocSpec.boot_heap_inv|cbn; lia|cbn; lia]).
  destruct (reachable_inv _ _ demo_wm s [] H0 Hr) as [zs Hi]. destruct (exec_ok no_close _ s zs o Hi Ha) as (s' & zs' & E & _). unfold after. rewrite E. by apply (reach_step _ _ s o).
Qed.

Lemma session_safe_witness : exists s, reachable no_close demo_wm s /\ live s 2 /\ live s 1 /\ (window_stack s = 0 -> cap_same (a_cap (heap demo_wm)) (a_cap (heap s))) /\
  exists zs, linked (windows s) (window_stack s) zs /\ NoDup zs /\ forall p, p ∈ zs <-> live s p.
Proof.
  set (s1 := after demo_wm (Create [65] (Frame 100 100 400 300))). set (s2 := after s1 (Create [66] (Frame 200 200 400 300))). assert (reachable no_close demo_wm s2) as Hr.
  { apply reach_after; [apply reach_after; [apply reach_start|]|]; vm_compute; repeat split; discriminate. }
  exists s2. split; [exact Hr|]. split; [eexists; split; [vm_compute; reflexivity|discriminate]|]. split; [eexists; split; [vm_compute; reflexivity|discriminate]|].
  destruct (session_safe no_close demo_screen (KmallocSpec.boot_heap (2 ^ 30)) s2) as [H0 [(zs & Hl & Hn & Hz & _) _]]; [apply KmallocSpec.boot_heap_inv|cbn; lia|cbn; lia|exact Hr|]. split; [exact H0|]. by exists zs.
Defined.
