(* ===== verification/Socket.v ===== *)
(** * Sockets (src/kernel/net/socket.c)

    The table of sockets over any allocator.  The socket of a descriptor is the object that its
    entry points to; addresses are kept as bytes.  The byte order functions of the file are in [Packet]. *)
From S2P Require Import Prelude AllocSpec Buffer.
From S2P Require Kmalloc KmallocSpec.
#[local] Open Scope Z_scope.

Definition EMFILE : Z := 24.
Definition EAGAIN : Z := 11.
Definition EAFNOSUPPORT : Z := 97.
Definition ESOCKTNOSUPPORT : Z := 94.
Definition EOPNOTSUPP : Z := 95.
Definition ENOTCONN : Z := 107.
Definition MAX_SOCKETS : Z := 256.
Definition AF_INET : Z := 2.
Definition AF_INET6 : Z := 10.
Definition SOCK_STREAM : Z := 1.
Definition SOCK_DGRAM : Z := 2.
Definition SOCK_RAW : Z := 3.
Definition SS_UNCONNECTED : Z := 1.
Definition SS_CONNECTED : Z := 3.
Definition sizeof_sockaddr : Z := 16.
Definition sizeof_storage : Z := 128.
Definition sizeof_socket : Z := 280.

Record socket := Sock { so_type : Z; so_protocol : Z; so_state : Z; local_addr : list Z; remote_addr : list Z; so_sk : Z }.
Definition with_state (k : socket) (v : Z) : socket := Sock (so_type k) (so_protocol k) v (local_addr k) (remote_addr k) (so_sk k).
Definition with_local (k : socket) (l : list Z) : socket := Sock (so_type k) (so_protocol k) (so_state k) l (remote_addr k) (so_sk k).
Definition with_remote (k : socket) (l : list Z) : socket := Sock (so_type k) (so_protocol k) (so_state k) (local_addr k) l (so_sk k).

(** The table, the descriptor to try next, the objects and the heap. *)
Record st (A : Type) := Socks { socket_table : list Z; next_sockfd : Z; objects : gmap Z socket; heap : A }.
Arguments Socks {A}. Arguments socket_table {A}. Arguments next_sockfd {A}. Arguments objects {A}. Arguments heap {A}.

Definition ss_family : field := Field 0 2.
Definition in_table (fd : Z) : bool := (0 <=? fd) && (fd <? MAX_SOCKETS).

Section socket.
Context {A : Type} `{Allocator A}.
Abbreviation state := (st A).

Definition net_init (s : state) : state := Socks (replicate (Z.to_nat MAX_SOCKETS) 0) (next_sockfd s) (objects s) (heap s).

Definition slot (s : state) (fd : Z) : Z := default 0 (socket_table s !! Z.to_nat fd).
Definition set_slot (s : state) (fd p : Z) : state := Socks (<[Z.to_nat fd := p]> (socket_table s)) (next_sockfd s) (objects s) (heap s).
Definition set_object (s : state) (p : Z) (k : socket) : state := Socks (socket_table s) (next_sockfd s) (<[p := k]> (objects s)) (heap s).

(** The first free descriptor from [next_sockfd] on, around the table. *)
Fixpoint fd_scan (n : nat) (i next : Z) (free : Z -> bool) : option Z :=
  match n with
  | O => None
  | S n => let fd := (next + i) mod MAX_SOCKETS in if free fd then Some fd else fd_scan n (i + 1) next free
  end.

Definition alloc_sockfd (s : state) : Z * state :=
  match fd_scan (Z.to_nat MAX_SOCKETS) 0 (next_sockfd s) (fun fd => slot s fd =? 0) with
  | Some fd => (fd, Socks (socket_table s) (fd + 1) (objects s) (heap s))
  | None => (- EMFILE, s)
  end.

Definition good_family (family : Z) : bool := (family =? AF_INET) || (family =? AF_INET6).
Definition good_type (type : Z) : bool := (type =? SOCK_STREAM) || (type =? SOCK_DGRAM) || (type =? SOCK_RAW).
Definition family_addr (family : Z) : list Z := wr ss_family family (replicate (Z.to_nat sizeof_storage) 0).
Definition new_socket (family type protocol : Z) : socket :=
  Sock type protocol SS_UNCONNECTED (family_addr family) (family_addr family) 0.

Definition socket_create (s : state) (family type protocol : Z) : outcome (Z * state) :=
  if negb (good_family family) then Ok (- EAFNOSUPPORT, s)
  else if negb (good_type type) then Ok (- ESOCKTNOSUPPORT, s)
  else
    let '(fd, s) := alloc_sockfd s in
    if fd <? 0 then Ok (fd, s)
    else
      r ← a_kzalloc (heap s) sizeof_socket GFP_KERNEL;
      let '(p, h) := r in
      let s := Socks (socket_table s) (next_sockfd s) (objects s) h in
      if p =? 0 then Ok (- ENOMEM, s)
      else Ok (fd, set_slot (set_object s p (new_socket family type protocol)) fd p).

(** The socket of a descriptor, with its address; [None] for EBADF. *)
Definition find_socket (s : state) (fd : Z) : outcome (option (Z * socket)) :=
  if negb (in_table fd) then Ok None
  else let p := slot s fd in
    if p =? 0 then Ok None else k ← of_option (objects s !! p); Ok (Some (p, k)).

(** [addr] is what can be read at the address, [None] for null. *)
Definition copy_addr (dst addr : list Z) (addrlen : Z) : outcome (list Z) := src ← sub addr 0 (Z.min addrlen sizeof_storage); store dst 0 src.

Definition socket_bind (s : state) (fd : Z) (addr : option (list Z)) (addrlen : Z) : outcome (Z * state) :=
  r ← find_socket s fd;
  match r, addr with
  | None, _ => Ok (- EBADF, s)
  | Some _, None => Ok (- EINVAL, s)
  | Some (p, k), Some l =>
      if addrlen <? sizeof_sockaddr then Ok (- EINVAL, s) else a ← copy_addr (local_addr k) l addrlen; Ok (0, set_object s p (with_local k a))
  end.

Definition socket_listen (s : state) (fd : Z) : outcome (Z * state) :=
  r ← find_socket s fd;
  match r with
  | None => Ok (- EBADF, s)
  | Some (p, k) => if negb (so_type k =? SOCK_STREAM) then Ok (- EOPNOTSUPP, s) else Ok (0, set_object s p (with_state k SS_UNCONNECTED))
  end.

Definition socket_accept (s : state) (fd : Z) : outcome (Z * state) :=
  r ← find_socket s fd; Ok (match r with None => - EBADF | Some _ => - EAGAIN end, s).

Definition socket_connect (s : state) (fd : Z) (addr : option (list Z)) (addrlen : Z) : outcome (Z * state) :=
  r ← find_socket s fd;
  match r, addr with
  | None, _ => Ok (- EBADF, s)
  | Some _, None => Ok (- EINVAL, s)
  | Some (p, k), Some l =>
      if addrlen <? sizeof_sockaddr then Ok (- EINVAL, s)
      else a ← copy_addr (remote_addr k) l addrlen; Ok (0, set_object s p (with_state (with_remote k a) SS_CONNECTED))
  end.

Definition not_connected (k : socket) : bool := negb (so_state k =? SS_CONNECTED) && (so_type k =? SOCK_STREAM).

(** [buf] is null or not; the data are not looked at. *)
Definition socket_send (s : state) (fd : Z) (buf : bool) (len : Z) : outcome (Z * state) :=
  r ← find_socket s fd;
  Ok (match r with None => - EBADF | Some (_, k) => if negb buf then - EINVAL else if not_connected k then - ENOTCONN else i64 len end, s).
Definition socket_recv (s : state) (fd : Z) (buf : bool) (len : Z) : outcome (Z * state) :=
  r ← find_socket s fd;
  Ok (match r with None => - EBADF | Some (_, k) => if negb buf then - EINVAL else if not_connected k then - ENOTCONN else 0 end, s).

Definition socket_close (s : state) (fd : Z) : outcome (Z * state) :=
  r ← find_socket s fd;
  match r with
  | None => Ok (- EBADF, s)
  | Some (p, _) => h ← a_kfree (heap s) p; Ok (0, set_slot (Socks (socket_table s) (next_sockfd s) (delete p (objects s)) h) fd 0)
  end.

(** ** The calls *)

Inductive call :=
| Create (family type protocol : Z) | Bind (fd : Z) (addr : option (list Z)) (addrlen : Z) | Listen (fd : Z) | Accept (fd : Z)
| Connect (fd : Z) (addr : option (list Z)) (addrlen : Z) | Send (fd : Z) (buf : bool) (len : Z) | Recv (fd : Z) (buf : bool) (len : Z) | Close (fd : Z).

Definition do_call (s : state) (c : call) : outcome (Z * state) :=
  match c with
  | Create f t p => socket_create s f t p
  | Bind fd a n => socket_bind s fd a n
  | Listen fd => socket_listen s fd
  | Accept fd => socket_accept s fd
  | Connect fd a n => socket_connect s fd a n
  | Send fd b n => socket_send s fd b n
  | Recv fd b n => socket_recv s fd b n
  | Close fd => socket_close s fd
  end.
End socket.

(** ** The specification

    Sockets are a partial map from descriptors; the call that makes one may run out of memory ([oom]). *)

Definition free_in (v : Z -> option socket) (fd : Z) : bool := match v fd with None => true | Some _ => false end.
Definition over (dst addr : list Z) (addrlen : Z) : list Z := splice dst 0 (take (Z.to_nat (Z.min addrlen sizeof_storage)) addr).

Definition spec_call (oom : bool) (c : call) (v : Z -> option socket) (next : Z) : Z * (Z -> option socket) * Z :=
  let on fd (f : socket -> Z * option socket) :=
    match v fd with
    | None => (- EBADF, v, next)
    | Some k => let '(r, k') := f k in (r, match k' with Some k' => <[fd := Some k']> v | None => v end, next)
    end in
  let with_addr fd (addr : option (list Z)) addrlen (f : socket -> list Z -> socket) :=
    on fd (fun k => match addr with None => (- EINVAL, None) | Some l => if addrlen <? sizeof_sockaddr then (- EINVAL, None) else (0, Some (f k l)) end) in
  match c with
  | Create f t p =>
      if negb (good_family f) then (- EAFNOSUPPORT, v, next)
      else if negb (good_type t) then (- ESOCKTNOSUPPORT, v, next)
      else match fd_scan (Z.to_nat MAX_SOCKETS) 0 next (free_in v) with
           | None => (- EMFILE, v, next)
           | Some fd => if oom then (- ENOMEM, v, fd + 1) else (fd, <[fd := Some (new_socket f t p)]> v, fd + 1)
           end
  | Bind fd a n => with_addr fd a n (fun k l => with_local k (over (local_addr k) l n))
  | Listen fd => on fd (fun k => if negb (so_type k =? SOCK_STREAM) then (- EOPNOTSUPP, None) else (0, Some (with_state k SS_UNCONNECTED)))
  | Accept fd => on fd (fun _ => (- EAGAIN, None))
  | Connect fd a n => with_addr fd a n (fun k l => with_state (with_remote k (over (remote_addr k) l n)) SS_CONNECTED)
  | Send fd b n => on fd (fun k => (if negb b then - EINVAL else if not_connected k then - ENOTCONN else i64 n, None))
  | Recv fd b n => on fd (fun k => (if negb b then - EINVAL else if not_connected k then - ENOTCONN else 0, None))
  | Close fd => match v fd with None => (- EBADF, v, next) | Some _ => (0, <[fd := None]> v, next) end
  end.

(** As many bytes as the length says can be read at an address that is not null. *)
Definition readable (c : call) : Prop :=
  match c with Bind _ (Some l) n | Connect _ (Some l) n => 0 <= n /\ Z.min n sizeof_storage <= Z.of_nat (length l) | _ => True end.

Lemma fd_scan_ok next free n : forall i fd, fd_scan n i next free = Some fd -> 0 <= fd < MAX_SOCKETS /\ free fd = true.
Proof.
  induction n as [|n IH]; intros i fd; cbn [fd_scan]; [done|]. cbv zeta. destruct (free ((next + i) mod MAX_SOCKETS)) eqn:E; [|apply IH].
  intros [= <-]. split; [|done]. apply Z.mod_pos_bound. done.
Qed.

Lemma fd_scan_ext next (f g : Z -> bool) n : (forall fd, 0 <= fd < MAX_SOCKETS -> f fd = g fd) -> forall i, fd_scan n i next f = fd_scan n i next g.
Proof.
  intros Hfg. induction n as [|n IH]; intros i; cbn [fd_scan]; [done|]. cbv zeta. rewrite Hfg by (apply Z.mod_pos_bound; done). by rewrite IH.
Qed.

(** Only a full table has no free descriptor. *)
Lemma fd_scan_none next free n : forall i, fd_scan n i next free = None -> forall j, i <= j < i + Z.of_nat n -> free ((next + j) mod MAX_SOCKETS) = false.
Proof.
  induction n as [|n IH]; intros i; cbn [fd_scan]; [lia|]. cbv zeta. destruct (free _) eqn:E; [done|]. intros Hs j Hj.
  destruct (decide (j = i)) as [->|]; [done|]. apply (IH (i + 1)); [done|lia].
Qed.

Lemma fd_scan_full next free : fd_scan (Z.to_nat MAX_SOCKETS) 0 next free = None -> forall fd, 0 <= fd < MAX_SOCKETS -> free fd = false.
Proof.
  intros Hs fd Hfd. replace fd with ((next + (fd - next) mod MAX_SOCKETS) mod MAX_SOCKETS).
  - apply (fd_scan_none next free _ 0 Hs). pose proof (Z.mod_pos_bound (fd - next) MAX_SOCKETS). unfold MAX_SOCKETS in *. lia.
  - rewrite Zplus_mod_idemp_r. replace (next + (fd - next)) with fd by lia. by apply Z.mod_small.
Qed.

(** ** The refinement *)
Section laws.
Context {A : Type} `{AllocatorLaws A}.
Abbreviation state := (st A).

Definition view (s : state) (fd : Z) : option socket := if in_table fd then objects s !! slot s fd else None.
Definition good_socket (k : socket) : Prop := length (local_addr k) = Z.to_nat sizeof_storage /\ length (remote_addr k) = Z.to_nat sizeof_storage.

(** The entries own distinct live objects; [cap0] is what else is allocated. *)
Record sock_inv (cap0 : Z -> option Z) (s : state) : Prop := {
  si_heap : a_inv (heap s); si_table : length (socket_table s) = Z.to_nat MAX_SOCKETS; si_null : objects s !! 0 = None;
  si_live fd : 0 <= fd < MAX_SOCKETS -> slot s fd <> 0 -> exists k, objects s !! slot s fd = Some k;
  si_inj fd fd' : 0 <= fd < MAX_SOCKETS -> 0 <= fd' < MAX_SOCKETS -> slot s fd <> 0 -> slot s fd = slot s fd' -> fd = fd';
  si_owned p k : objects s !! p = Some k -> exists fd, 0 <= fd < MAX_SOCKETS /\ slot s fd = p;
  si_caps p : match objects s !! p with Some k => good_socket k /\ cap0 p = None /\ exists c, a_cap (heap s) p = Some c | None => a_cap (heap s) p = cap0 p end
}.

Lemma in_table_iff fd : in_table fd = true <-> 0 <= fd < MAX_SOCKETS.
Proof. unfold in_table. rewrite andb_true_iff, Z.leb_le, Z.ltb_lt. lia. Qed.

Lemma view_in (s : state) fd k : view s fd = Some k -> 0 <= fd < MAX_SOCKETS.
Proof. unfold view. destruct (in_table fd) eqn:E; [|done]. by apply in_table_iff in E. Qed.

Lemma view_slot cap0 s fd : sock_inv cap0 s -> 0 <= fd < MAX_SOCKETS -> free_in (view s) fd = (slot s fd =? 0).
Proof.
  intros Hi Hfd. unfold free_in, view. rewrite (proj2 (in_table_iff fd)) by done. destruct (Z.eqb_spec (slot s fd) 0) as [->|Hne]; [by rewrite (si_null _ _ Hi)|].
  by destruct (si_live _ _ Hi fd Hfd Hne) as [k ->].
Qed.

Lemma find_socket_ok cap0 s fd : sock_inv cap0 s -> find_socket s fd = Ok (match view s fd with Some k => Some (slot s fd, k) | None => None end).
Proof.
  intros Hi. unfold find_socket, view. destruct (in_table fd) eqn:E; [|done]. cbn [negb]. cbv zeta. apply in_table_iff in E.
  destruct (Z.eqb_spec (slot s fd) 0) as [->|Hne]; [by rewrite (si_null _ _ Hi)|]. by destruct (si_live _ _ Hi fd E Hne) as [k ->].
Qed.

Lemma slot_set (s : state) fd fd' p : length (socket_table s) = Z.to_nat MAX_SOCKETS -> 0 <= fd < MAX_SOCKETS -> 0 <= fd' < MAX_SOCKETS ->
  slot (set_slot s fd p) fd' = if decide (fd' = fd) then p else slot s fd'.
Proof.
  intros Hl Hfd Hfd'. unfold slot, set_slot. cbn [socket_table]. destruct (decide (fd' = fd)) as [->|Hne].
  - by rewrite list_lookup_insert_eq by lia. - by rewrite list_lookup_insert_ne by lia.
Qed.

(** A socket changes. *)
Lemma set_object_ok cap0 s fd k k' : sock_inv cap0 s -> view s fd = Some k -> good_socket k' ->
  sock_inv cap0 (set_object s (slot s fd) k') /\ forall x, view (set_object s (slot s fd) k') x = (<[fd := Some k']> (view s)) x.
Proof.
  intros Hi Hv Hg. pose proof (view_in _ _ _ Hv) as Hfd. unfold view in Hv. rewrite (proj2 (in_table_iff fd)) in Hv by done.
  assert (slot s fd <> 0) as Hne by (intros E; rewrite E, (si_null _ _ Hi) in Hv; done). destruct Hi as [Hh Ht Hn Hl Hj Ho Hc]. split.
  - split; cbn [heap socket_table objects set_object]; try done.
    + by rewrite lookup_insert_ne.
    + intros fd' Hfd' Hne'. change (slot (set_object s (slot s fd) k') fd') with (slot s fd') in *. destruct (decide (slot s fd' = slot s fd)) as [->|Hd]; [exists k'; by rewrite lookup_insert_eq|].
      rewrite lookup_insert_ne by congruence. by apply Hl.
    + intros p k0. destruct (decide (p = slot s fd)) as [->|Hd]; [by exists fd|]. rewrite lookup_insert_ne by congruence. by apply Ho.
    + intros p. specialize (Hc p). destruct (decide (p = slot s fd)) as [->|Hd]; [rewrite lookup_insert_eq; rewrite Hv in Hc; by destruct Hc as (_ & ? & ?)|by rewrite lookup_insert_ne by congruence].
  - intros x. unfold view. change (slot (set_object s (slot s fd) k') x) with (slot s x). cbn [objects set_object]. destruct (decide (x = fd)) as [->|Hx].
    + rewrite fn_lookup_insert, (proj2 (in_table_iff fd)), lookup_insert_eq by done. done.
    + rewrite fn_lookup_insert_ne by congruence. destruct (in_table x) eqn:E; [|done]. apply in_table_iff in E. destruct (decide (slot s x = slot s fd)) as [Es|Hd]; [|by rewrite lookup_insert_ne by congruence].
      destruct Hx. symmetry. apply Hj; try done.
Qed.

(** A descriptor gets a new object, or loses its own. *)
Lemma open_fd_ok cap0 (s : state) fd p k n h c : sock_inv cap0 s -> 0 <= fd < MAX_SOCKETS -> slot s fd = 0 -> good_socket k -> p <> 0 -> a_cap (heap s) p = None ->
  a_inv h -> cap_update (a_cap (heap s)) (a_cap h) p (Some c) ->
  let s' := set_slot (Socks (socket_table s) n (<[p := k]> (objects s)) h) fd p in
  sock_inv cap0 s' /\ forall x, view s' x = (<[fd := Some k]> (view s)) x.
Proof.
  intros Hi Hfd Hz Hg Hp Hfresh Hh Hu s'. pose proof Hi as [_ Ht Hn Hl Hj Ho Hc].
  assert (objects s !! p = None /\ cap0 p = None) as [Hnew Hc0]. { specialize (Hc p). destruct (objects s !! p) as [k0|]; [|by rewrite <- Hc]. destruct Hc as (_ & _ & c0 & E). congruence. }
  assert (forall x, 0 <= x < MAX_SOCKETS -> slot s' x = if decide (x = fd) then p else slot s x) as Hs by (intros x Hx; by apply (slot_set (Socks (socket_table s) n (<[p := k]> (objects s)) h))).
  assert (forall x, 0 <= x < MAX_SOCKETS -> slot s x <> p) as Hnp.
  { intros x Hx E. destruct (Hl x Hx) as [k0 E0]; [by rewrite E|]. by rewrite E, Hnew in E0. }
  split; [split|].
  - done. - cbn. by rewrite length_insert. - cbn. by rewrite lookup_insert_ne.
  - intros x Hx. rewrite Hs by done. cbn [objects set_slot s']. destruct (decide (x = fd)); [intros _; exists k; by rewrite lookup_insert_eq|]. rewrite lookup_insert_ne by (intros E; by apply (Hnp x Hx)). by apply Hl.
  - intros x y Hx Hy. rewrite !Hs by done. destruct (decide (x = fd)) as [->|], (decide (y = fd)) as [->|]; try done; [intros _ E; by destruct (Hnp y Hy)|intros _ E; by destruct (Hnp x Hx)|by apply Hj].
  - intros q k0. cbn [objects set_slot s']. destruct (decide (q = p)) as [->|]; [intros _; exists fd; split; [done|]; rewrite Hs by done; by rewrite decide_True|].
    rewrite lookup_insert_ne by congruence. intros E. destruct (Ho q k0 E) as (x & Hx & Ex). exists x. split; [done|]. rewrite Hs by done. rewrite decide_False; [done|]. intros ->. rewrite Hz in Ex. subst. congruence.
  - intros q. cbn [objects heap set_slot s']. rewrite Hu. destruct (decide (q = p)) as [->|]; [rewrite lookup_insert_eq; split; [done|]; split; [done|by exists c]|]. rewrite lookup_insert_ne by congruence. apply Hc.
  - intros x. unfold view. destruct (in_table x) eqn:E.
    + apply in_table_iff in E. rewrite Hs by done. cbn [objects set_slot s']. destruct (decide (x = fd)) as [->|Hx]; [by rewrite fn_lookup_insert, lookup_insert_eq|].
      rewrite fn_lookup_insert_ne by congruence. rewrite lookup_insert_ne by (intros E'; by apply (Hnp x E)). by rewrite (proj2 (in_table_iff x)).
    + rewrite fn_lookup_insert_ne by (intros ->; rewrite (proj2 (in_table_iff x)) in E; done). by rewrite E.
Qed.

Lemma close_ok cap0 (s : state) fd k : sock_inv cap0 s -> view s fd = Some k ->
  exists h, a_kfree (heap s) (slot s fd) = Ok h /\ let s' := set_slot (Socks (socket_table s) (next_sockfd s) (delete (slot s fd) (objects s)) h) fd 0 in
  sock_inv cap0 s' /\ forall x, view s' x = (<[fd := None]> (view s)) x.
Proof using Type*.
  intros Hi Hv. pose proof (view_in _ _ _ Hv) as Hfd. unfold view in Hv. rewrite (proj2 (in_table_iff fd)) in Hv by done. pose proof Hi as [Hh Ht Hn Hl Hj Ho Hc]. set (p := slot s fd) in *.
  assert (p <> 0) as Hp by (intros E; rewrite E, Hn in Hv; done). pose proof (Hc p) as Hcp. rewrite Hv in Hcp. destruct Hcp as (_ & Hc0 & c & Hcap).
  destruct (law_free (heap s) p c Hh Hcap) as (h & E & Hih & Hu). exists h. split; [done|]. intros s'.
  assert (forall x, 0 <= x < MAX_SOCKETS -> slot s' x = if decide (x = fd) then 0 else slot s x) as Hs by (intros x Hx; by apply (slot_set (Socks (socket_table s) (next_sockfd s) (delete p (objects s)) h))).
  assert (forall x, 0 <= x < MAX_SOCKETS -> x <> fd -> slot s x <> p) as Hnp by (intros x Hx Hne Ex; apply Hne; symmetry; apply Hj; done).
  split; [split|].
  - done. - cbn. by rewrite length_insert. - cbn. by rewrite lookup_delete_ne.
  - intros x Hx. rewrite Hs by done. cbn [objects set_slot s']. destruct (decide (x = fd)); [done|]. rewrite lookup_delete_ne by (intros E'; by apply (Hnp x)). by apply Hl.
  - intros x y Hx Hy. rewrite !Hs by done. destruct (decide (x = fd)) as [->|], (decide (y = fd)) as [->|]; try done. by apply Hj.
  - intros q k0. cbn [objects set_slot s']. intros Eq. apply lookup_delete_Some in Eq as [Hq Eq]. destruct (Ho q k0 Eq) as (x & Hx & Ex). exists x. split; [done|]. rewrite Hs by done. rewrite decide_False; [done|]. intros ->. by apply Hq.
  - intros q. cbn [objects heap set_slot s']. rewrite Hu. destruct (decide (q = p)) as [->|]; [by rewrite lookup_delete_eq|]. rewrite lookup_delete_ne by congruence. apply Hc.
  - intros x. unfold view. destruct (in_table x) eqn:Ex.
    + apply in_table_iff in Ex. rewrite Hs by done. cbn [objects set_slot s']. destruct (decide (x = fd)) as [->|Hx]; [rewrite fn_lookup_insert; by rewrite lookup_delete_ne|].
      rewrite fn_lookup_insert_ne by congruence. rewrite lookup_delete_ne by (intros E'; by apply (Hnp x)). by rewrite (proj2 (in_table_iff x)).
    + rewrite fn_lookup_insert_ne by (intros ->; rewrite (proj2 (in_table_iff x)) in Ex; done). by rewrite Ex.
Qed.

(** Copying an address. *)
Lemma copy_addr_ok dst l n : length dst = Z.to_nat sizeof_storage -> 0 <= n -> Z.min n sizeof_storage <= Z.of_nat (length l) ->
  copy_addr dst l n = Ok (over dst l n) /\ length (over dst l n) = Z.to_nat sizeof_storage.
Proof.
  intros Hd Hn Hl. assert (0 <= Z.min n sizeof_storage <= sizeof_storage) as Hm by (unfold sizeof_storage; lia).
  unfold copy_addr, over. rewrite sub_ok by lia. rewrite bind_ok. unfold slice. rewrite drop_0, store_ok; [|lia|rewrite length_take; lia].
  split; [done|]. rewrite splice_length; [done|]. rewrite length_take. lia.
Qed.

Lemma inv_next cap0 (s : state) n : sock_inv cap0 s -> sock_inv cap0 (Socks (socket_table s) n (objects s) (heap s)).
Proof. intros [Hh Ht Hn Hl Hj Ho Hc]. by split. Qed.

Lemma sock_inv_heap cap0 (s : state) n h : sock_inv cap0 s -> a_inv h -> cap_same (a_cap (heap s)) (a_cap h) -> sock_inv cap0 (Socks (socket_table s) n (objects s) h).
Proof. intros [Hh Ht Hn Hl Hj Ho Hc] Hi Hs. split; try done. intros p. cbn [objects heap]. rewrite Hs. apply Hc. Qed.

Lemma new_socket_good f t p : good_socket (new_socket f t p).
Proof. unfold good_socket, new_socket, family_addr. cbn [local_addr remote_addr]. rewrite wr_length by (rewrite length_replicate; unfold inside, sizeof_storage; cbn; lia). by rewrite length_replicate. Qed.

Definition agrees (cap0 : Z -> option Z) (s : state) (c : call) (o : outcome (Z * state)) : Prop :=
  exists oom r s', o = Ok (r, s') /\ sock_inv cap0 s' /\
    let '(r0, v, next) := spec_call oom c (view s) (next_sockfd s) in r = r0 /\ next_sockfd s' = next /\ forall fd, view s' fd = v fd.

Lemma create_ok cap0 (s : state) f t p : sock_inv cap0 s -> agrees cap0 s (Create f t p) (socket_create s f t p).
Proof using Type*.
  intros Hi. unfold agrees, socket_create. cbn [spec_call]. destruct (good_family f); cbn [negb]; [|by exists false, (- EAFNOSUPPORT), s].
  destruct (good_type t); cbn [negb]; [|by exists false, (- ESOCKTNOSUPPORT), s]. unfold alloc_sockfd.
  assert (fd_scan (Z.to_nat MAX_SOCKETS) 0 (next_sockfd s) (fun fd => slot s fd =? 0) = fd_scan (Z.to_nat MAX_SOCKETS) 0 (next_sockfd s) (free_in (view s))) as E
    by (apply fd_scan_ext; intros fd Hfd; symmetry; by apply (view_slot cap0)).
  rewrite E. destruct (fd_scan _ _ _ (free_in (view s))) as [fd|] eqn:Es; [|by exists false, (- EMFILE), s]. apply fd_scan_ok in Es as [Hfd Hfree]. rewrite (view_slot cap0) in Hfree by done. b2p.
  cbv beta iota. rewrite (proj2 (Z.ltb_ge _ _)) by lia. cbn [heap socket_table next_sockfd objects].
  destruct (law_alloc (heap s) sizeof_socket (Z.lor GFP_KERNEL GFP_ZERO) (si_heap _ _ Hi) ltac:(done)) as (q & h & Ea & Hh & Hr). unfold a_kzalloc. rewrite Ea, bind_ok.
  destruct Hr as [[-> Hc]|(Hq & Hn & c & _ & Hc)].
  - exists true, (- ENOMEM), (Socks (socket_table s) (fd + 1) (objects s) h). split; [done|]. split; [by apply sock_inv_heap|done].
  - rewrite (proj2 (Z.eqb_neq _ _)) by done. destruct (open_fd_ok cap0 s fd q (new_socket f t p) (fd + 1) h c Hi Hfd) as [Hi' Hv]; try done. by eexists false, fd, _.
Qed.

(** The calls that only change the socket of a descriptor. *)
Lemma update_ok cap0 (s : state) fd k k' : sock_inv cap0 s -> view s fd = Some k -> good_socket k' ->
  exists s', set_object s (slot s fd) k' = s' /\ sock_inv cap0 s' /\ next_sockfd s' = next_sockfd s /\ forall x, view s' x = (<[fd := Some k']> (view s)) x.
Proof. intros Hi Hv Hg. destruct (set_object_ok cap0 s fd k k' Hi Hv Hg) as [Hi' Hv']. by eexists. Qed.

Lemma view_good cap0 (s : state) fd k : sock_inv cap0 s -> view s fd = Some k -> good_socket k.
Proof. intros Hi. unfold view. destruct (in_table fd); [|done]. intros E. pose proof (si_caps _ _ Hi (slot s fd)) as Hc. rewrite E in Hc. apply Hc. Qed.

(** C38. Every call returns, does to the map of sockets what the specification says, and neither loses nor keeps memory. *)
Theorem socket_refines cap0 (s : state) c (Hi : sock_inv cap0 s) (Hr : readable c) : agrees cap0 s c (do_call s c).
Proof using Type*.
  destruct c as [f t p|fd a n|fd|fd|fd a n|fd b n|fd b n|fd]; [by apply create_ok|..]; unfold agrees; cbn [do_call spec_call];
    unfold socket_bind, socket_listen, socket_accept, socket_connect, socket_send, socket_recv, socket_close; rewrite (find_socket_ok cap0) by done; rewrite bind_ok;
    (destruct (view s fd) as [k|] eqn:Ev; [pose proof (view_good _ _ _ _ Hi Ev) as [Hg1 Hg2]|by eexists false, _, s]); try (by eexists false, _, s).
  - destruct a as [l|]; [|by eexists false, _, s]. destruct (n <? sizeof_sockaddr); [by eexists false, _, s|]. destruct Hr as [Hn Hl]. destruct (copy_addr_ok (local_addr k) l n Hg1 Hn Hl) as [E Hlen].
    rewrite E, bind_ok. destruct (update_ok cap0 s fd k (with_local k (over (local_addr k) l n)) Hi Ev) as (s' & -> & Hi' & Hv); [by split|]. by exists false, 0, s'.
  - destruct (so_type k =? SOCK_STREAM); cbn [negb]; [|by eexists false, _, s]. destruct (update_ok cap0 s fd k (with_state k SS_UNCONNECTED) Hi Ev) as (s' & -> & Hi' & Hv); [by split|]. by exists false, 0, s'.
  - destruct a as [l|]; [|by eexists false, _, s]. destruct (n <? sizeof_sockaddr); [by eexists false, _, s|]. destruct Hr as [Hn Hl]. destruct (copy_addr_ok (remote_addr k) l n Hg2 Hn Hl) as [E Hlen].
    rewrite E, bind_ok. destruct (update_ok cap0 s fd k (with_state (with_remote k (over (remote_addr k) l n)) SS_CONNECTED) Hi Ev) as (s' & -> & Hi' & Hv); [by split|]. by exists false, 0, s'.
  - destruct (close_ok cap0 s fd k Hi Ev) as (h & E & Hi' & Hv). rewrite E, bind_ok. by eexists false, 0, _.
Qed.
End laws.

(** The table after [net_init] on a booted kernel. *)
#[export] Existing Instances KmallocSpec.kernel_heap KmallocSpec.kernel_heap_laws.
Definition boot_sockets : st Kmalloc.heap := net_init (Socks [] 0 ∅ (KmallocSpec.boot_heap (2 ^ 30))).

Lemma boot_sockets_inv : sock_inv (a_cap (heap boot_sockets)) boot_sockets.
Proof.
  assert (forall fd, 0 <= fd < MAX_SOCKETS -> slot boot_sockets fd = 0) as Hz by (intros fd Hfd; unfold slot; cbn [socket_table boot_sockets net_init]; by rewrite lookup_replicate_2 by (unfold MAX_SOCKETS in *; lia)).
  split; try done.
  - apply KmallocSpec.boot_heap_inv.
  - intros fd Hfd. by rewrite Hz.
  - intros fd fd' Hfd _. by rewrite Hz.
Qed.

Lemma socket_refines_witness : exists oom r s', do_call boot_sockets (Create AF_INET SOCK_STREAM 0) = Ok (r, s') /\ r = fst (fst (spec_call oom (Create AF_INET SOCK_STREAM 0) (view boot_sockets) 0)).
Proof.
  destruct (socket_refines _ boot_sockets (Create AF_INET SOCK_STREAM 0) boot_sockets_inv I) as (oom & r & s' & E & _ & Hs).
  exists oom, r, s'. split; [exact E|]. change (next_sockfd boot_sockets) with 0 in Hs. destruct (spec_call _ _ _ _) as [[r0 v] next]. exact (proj1 Hs).
Defined.

(** A connection, and what its descriptor is used for afterwards. *)
Example sockets_in_use :
  match (r ← socket_create boot_sockets AF_INET SOCK_STREAM 0; r ← socket_send (snd r) 0 true 5; let '(a, s) := r in r ← socket_connect s 0 (Some (replicate 16 7)) 16;
         r ← socket_send (snd r) 0 true 5; let '(b, s) := r in r ← socket_close s 0; r ← socket_create (snd r) AF_INET SOCK_DGRAM 0; let '(c, s) := r in r ← socket_send s 0 true 5; Ok (a, b, c, fst r)) with
  | Ok x => x = (- ENOTCONN, 5, 1, - EBADF)
  | _ => False
  end.
Proof. vm_compute. reflexivity. Qed.
