(* ===== verification/KModule.v ===== *)
(** * Loadable modules (src/kernel/core/module.c)

    The modules are objects linked by their [m_next], over any allocator; the page allocation of a
    module is the heap's (mm/missing_symbols.c).  What a module's memory holds is left out; the calls of
    its functions are parameters, which are never used because [module_parse_elf] finds no function. *)
From S2P Require Import Prelude AllocSpec Buffer KString.
From S2P Require Kmalloc KmallocSpec.
#[local] Open Scope Z_scope.

Definition MODULE_FLAG_LOADED : Z := 1.
Definition MODULE_FLAG_INITIALIZED : Z := 2.
Definition MODULE_FLAG_EXITING : Z := 4.
Definition NAME_SIZE : nat := 64.
Definition sizeof_module : Z := 160.

(** Names are lists of bytes without the zero; a symbol is a name and an address. *)
Record module := Mod {
  m_name : list Z; m_init : Z; m_exit : Z; m_size : Z; m_base : Z; m_next : Z; m_flags : Z; m_refcount : Z; m_symbols : list (list Z * Z)
}.
Definition with_next (m : module) (n : Z) : module := Mod (m_name m) (m_init m) (m_exit m) (m_size m) (m_base m) n (m_flags m) (m_refcount m) (m_symbols m).
Definition with_flags (m : module) (f : Z) : module := Mod (m_name m) (m_init m) (m_exit m) (m_size m) (m_base m) (m_next m) f (m_refcount m) (m_symbols m).
Definition with_refcount (m : module) (r : Z) : module := Mod (m_name m) (m_init m) (m_exit m) (m_size m) (m_base m) (m_next m) (m_flags m) r (m_symbols m).

Record st (A : Type) := Mods { module_list_head : Z; modules : gmap Z module; module_count : Z; total_module_memory : Z; heap : A }.
Arguments Mods {A}. Arguments module_list_head {A}. Arguments modules {A}. Arguments module_count {A}. Arguments total_module_memory {A}. Arguments heap {A}.

Definition streq (a b : list Z) : bool := bool_decide (a = b).

Section modules.
Context {A : Type} `{Allocator A}.
Abbreviation state := (st A).
(** The functions of modules, and the addresses of three functions of the kernel. *)
Context (run_init : Z -> state -> outcome (Z * state)) (run_exit : Z -> state -> outcome state) (printk_addr kmalloc_addr kfree_addr : Z).

Definition set_module (s : state) (p : Z) (m : module) : state := Mods (module_list_head s) (<[p := m]> (modules s)) (module_count s) (total_module_memory s) (heap s).
Definition set_head (s : state) (p : Z) : state := Mods p (modules s) (module_count s) (total_module_memory s) (heap s).
Definition set_heap (s : state) (h : A) : state := Mods (module_list_head s) (modules s) (module_count s) (total_module_memory s) h.
(** [change] modules more, with [size] bytes. *)
Definition account (s : state) (change size : Z) : state :=
  Mods (module_list_head s) (modules s) (i32 (module_count s + change)) (u64 (total_module_memory s + size)) (heap s).
Definition get_module (s : state) (p : Z) : outcome module := of_option (modules s !! p).

Definition module_init (s : state) : state := Mods (module_list_head s) (modules s) 0 0 (heap s).

(** The module of the name from [p] on, with the one before it. *)
Fixpoint find_loop (fuel : nat) (s : state) (prev p : Z) (name : list Z) : outcome (Z * Z) :=
  if p =? 0 then Ok (prev, 0)
  else
    match fuel with
    | O => NoFuel
    | S fuel => m ← get_module s p; if streq (m_name m) name then Ok (prev, p) else find_loop fuel s p (m_next m) name
    end.
Definition find_name (s : state) (name : list Z) : outcome (Z * Z) := find_loop (S (size (modules s))) s 0 (module_list_head s) name.

Definition module_find (s : state) (name : option (list Z)) : outcome (Z * state) :=
  match name with
  | None => Ok (0, s)
  | Some name =>
      r ← find_name s name;
      let '(_, p) := r in
      if p =? 0 then Ok (0, s) else m ← get_module s p; Ok (p, set_module s p (with_refcount m (i32 (m_refcount m + 1))))
  end.

(** "TODO: Implement proper ELF parsing" *)
Definition module_parse_elf (m : module) : Z * module := (0, m).

(** The module before [p], 0 if none. *)
Fixpoint before_loop (fuel : nat) (s : state) (q p : Z) : outcome Z :=
  if q =? 0 then Ok 0
  else
    match fuel with
    | O => NoFuel
    | S fuel => m ← get_module s q; if m_next m =? p then Ok q else before_loop fuel s (m_next m) p
    end.

Definition unlink (s : state) (prev next : Z) : outcome state :=
  if prev =? 0 then Ok (set_head s next) else m ← get_module s prev; Ok (set_module s prev (with_next m next)).

Definition free_module (s : state) (p base : Z) : outcome state :=
  h ← (if base =? 0 then Ok (heap s) else a_kfree (heap s) base);
  h ← a_kfree h p;
  Ok (Mods (module_list_head s) (delete p (modules s)) (module_count s) (total_module_memory s) h).

(** [data] is null or not. *)
Definition module_load (s : state) (name : option (list Z)) (data : bool) (size : Z) : outcome (Z * state) :=
  match name with
  | None => Ok (- EINVAL, s)
  | Some name =>
      if negb data || (size =? 0) then Ok (- EINVAL, s)
      else
        r ← module_find s (Some name);
        let '(found, s) := r in
        if negb (found =? 0) then Ok (- EEXIST, s)
        else
          r ← a_kmalloc (heap s) sizeof_module GFP_KERNEL;
          let '(p, h) := r in
          if p =? 0 then Ok (- ENOMEM, set_heap s h)
          else
            r ← a_kmalloc h size 0;
            let '(base, h) := r in
            if base =? 0 then h ← a_kfree h p; Ok (- ENOMEM, set_heap s h)
            else
              let '(ret, m) := module_parse_elf (Mod (take (NAME_SIZE - 1) name) 0 0 size base 0 MODULE_FLAG_LOADED 1 []) in
              if ret <? 0 then h ← a_kfree h base; h ← a_kfree h p; Ok (ret, set_heap s h)
              else
                let s := account (set_head (set_module (set_heap s h) p (with_next m (module_list_head s))) p) 1 size in
                if m_init m =? 0 then Ok (0, s)
                else
                  r ← run_init (m_init m) s;
                  let '(ret, s) := r in
                  if ret <? 0 then
                    m ← get_module s p;
                    q ← (if module_list_head s =? p then Ok 0 else before_loop (S (base.size (modules s))) s (module_list_head s) p);
                    s ← (if (q =? 0) && negb (module_list_head s =? p) then Ok s else unlink s q (m_next m));
                    s ← free_module (account s (-1) (- size)) p base;
                    Ok (ret, s)
                  else m ← get_module s p; Ok (0, set_module s p (with_flags m (Z.lor (m_flags m) MODULE_FLAG_INITIALIZED)))
  end.

Definition has_flag (m : module) (f : Z) : bool := negb (Z.land (m_flags m) f =? 0).

Definition call_exit (s : state) (m : module) : outcome state :=
  if negb (m_exit m =? 0) && has_flag m MODULE_FLAG_INITIALIZED then run_exit (m_exit m) s else Ok s.

Definition module_unload (s : state) (name : option (list Z)) : outcome (Z * state) :=
  match name with
  | None => Ok (- EINVAL, s)
  | Some name =>
      r ← find_name s name;
      let '(prev, p) := r in
      if p =? 0 then Ok (- ENOENT, s)
      else
        m ← get_module s p;
        if 1 <? m_refcount m then Ok (- EBUSY, s)
        else
          let s := set_module s p (with_flags m (Z.lor (m_flags m) MODULE_FLAG_EXITING)) in
          s ← call_exit s m;
          m ← get_module s p;
          s ← unlink s prev (m_next m);
          s ← free_module (account s (-1) (- m_size m)) p (m_base m);
          Ok (0, s)
  end.

(** ** Symbols *)

Definition name_printk : list Z := [112; 114; 105; 110; 116; 107].
Definition name_kmalloc : list Z := [107; 109; 97; 108; 108; 111; 99].
Definition name_kfree : list Z := [107; 102; 114; 101; 101].

Definition kernel_get_symbol (name : list Z) : Z :=
  if streq name name_printk then printk_addr else if streq name name_kmalloc then kmalloc_addr else if streq name name_kfree then kfree_addr else 0.

Fixpoint symbol_loop (fuel : nat) (s : state) (p : Z) (name : list Z) : outcome Z :=
  if p =? 0 then Ok 0
  else
    match fuel with
    | O => NoFuel
    | S fuel =>
        m ← get_module s p;
        match head (filter (fun x => streq (fst x) name = true) (m_symbols m)) with
        | Some x => Ok (snd x)
        | None => symbol_loop fuel s (m_next m) name
        end
    end.

Definition module_get_symbol (s : state) (name : option (list Z)) : outcome Z :=
  match name with
  | None => Ok 0
  | Some name =>
      let addr := kernel_get_symbol name in
      if negb (addr =? 0) then Ok addr else symbol_loop (S (size (modules s))) s (module_list_head s) name
  end.

(** ** The list of modules as text *)

(** "%s: %s (refs: %d)\n" *)
Definition line_format : list Z := [37; 115; 58; 32; 37; 115; 32; 40; 114; 101; 102; 115; 58; 32; 37; 100; 41; 10].
Definition text_loaded : list Z := [108; 111; 97; 100; 101; 100].
Definition text_initialized : list Z := [105; 110; 105; 116; 105; 97; 108; 105; 122; 101; 100].
Definition line_args (m : module) : list arg :=
  [AStr (m_name m); AStr (if has_flag m MODULE_FLAG_INITIALIZED then text_initialized else text_loaded); AInt (m_refcount m)].

Fixpoint list_loop (fuel : nat) (s : state) (p : Z) (buf : list Z) (offset size : Z) : outcome (Z * list Z) :=
  if (p =? 0) || (size <=? offset) then Ok (offset, buf)
  else
    match fuel with
    | O => NoFuel
    | S fuel =>
        m ← get_module s p;
        r ← snprintf (Some (drop (Z.to_nat offset) buf)) (size - offset) line_format (line_args m);
        let '(len, b) := r in
        let buf := take (Z.to_nat offset) buf ++ default [] b in
        if (0 <? len) && (offset + len <? size) then list_loop fuel s (m_next m) buf (offset + len) size else Ok (offset, buf)
    end.

Definition module_list (s : state) (buf : option (list Z)) (len : Z) : outcome (Z * option (list Z)) :=
  match buf with
  | None => Ok (- EINVAL, None)
  | Some b => if len =? 0 then Ok (- EINVAL, Some b) else r ← list_loop (S (size (modules s))) s (module_list_head s) b 0 len; Ok (fst r, Some (snd r))
  end.

(** ** Shutdown *)

Fixpoint exit_loop (fuel : nat) (s : state) (p : Z) : outcome state :=
  if p =? 0 then Ok s
  else
    match fuel with
    | O => NoFuel
    | S fuel =>
        m ← get_module s p;
        s ← (if has_flag m MODULE_FLAG_LOADED then
               s ← call_exit s m;
               if m_base m =? 0 then Ok s else h ← a_kfree (heap s) (m_base m); Ok (account (set_heap s h) 0 (- m_size m))
             else Ok s);
        exit_loop fuel s (m_next m)
    end.
Definition module_exit (s : state) : outcome state := s ← exit_loop (S (size (modules s))) s (module_list_head s); Ok (set_head s 0).
End modules.

(** ** The specification

    The modules are a list of names with sizes and references, the newest first. *)

Record entry := Entry { en_name : list Z; en_size : Z; en_refs : Z }.
Definition named (name : list Z) (e : entry) : bool := streq (en_name e) name.

(** The first module of the name gets one more reference, or goes. *)
Fixpoint bump (name : list Z) (es : list entry) : list entry :=
  match es with [] => [] | e :: es => if named name e then Entry (en_name e) (en_size e) (i32 (en_refs e + 1)) :: es else e :: bump name es end.
Fixpoint remove (name : list Z) (es : list entry) : list entry := match es with [] => [] | e :: es => if named name e then es else e :: remove name es end.
Fixpoint refs_of (name : list Z) (es : list entry) : option Z := match es with [] => None | e :: es => if named name e then Some (en_refs e) else refs_of name es end.

Inductive call := Load (name : option (list Z)) (data : bool) (size : Z) | Unload (name : option (list Z)) | Find (name : option (list Z)).

(** [oom] says that memory ran out; a call of [module_find] answers whether there is one. *)
Definition spec_call (oom : bool) (c : call) (es : list entry) : Z * list entry :=
  match c with
  | Load None _ _ => (- EINVAL, es)
  | Load (Some n) data size =>
      if negb data || (size =? 0) then (- EINVAL, es)
      else match refs_of n es with
           | Some _ => (- EEXIST, bump n es)
           | None => if oom then (- ENOMEM, es) else (0, Entry (take (NAME_SIZE - 1) n) size 1 :: es)
           end
  | Unload None => (- EINVAL, es)
  | Unload (Some n) => match refs_of n es with None => (- ENOENT, es) | Some r => if 1 <? r then (- EBUSY, es) else (0, remove n es) end
  | Find None => (0, es)
  | Find (Some n) => match refs_of n es with None => (0, es) | Some _ => (1, bump n es) end
  end.

Definition entry_of (x : Z * module) : entry := Entry (m_name (snd x)) (m_size (snd x)) (m_refcount (snd x)).

(** The linked objects. *)
Fixpoint linked (p : Z) (ms : list (Z * module)) : Prop :=
  match ms with [] => p = 0 | (a, m) :: ms => p = a /\ a <> 0 /\ linked (m_next m) ms end.

(** What every module of the list has. *)
Definition plain (m : module) : Prop := m_init m = 0 /\ m_exit m = 0 /\ m_base m <> 0.
Definition blocks (ms : list (Z * module)) : list Z := map fst ms ++ map (fun x => m_base (snd x)) ms.

Definition bytes_of (ms : list (Z * module)) : Z := foldr (fun x n => m_size (snd x) + n) 0 ms.

(** ** Lists of modules *)

Lemma linked_tail l a m r : forall p, linked p (l ++ (a, m) :: r) -> linked (m_next m) r /\ a <> 0.
Proof. induction l as [|[b n] l IH]; intros p; cbn; [tauto|]. intros (_ & _ & Hl). by apply (IH (m_next n)). Qed.

Lemma linked_replace l a m r m' r' : forall p, linked p (l ++ (a, m) :: r) -> linked (m_next m') r' -> linked p (l ++ (a, m') :: r').
Proof. induction l as [|[b n] l IH]; intros p; cbn; [tauto|]. intros (-> & Hb & Hl) Hr. split; [done|]. split; [done|]. by apply IH. Qed.

Definition holds_list (M : gmap Z module) (ms : list (Z * module)) : Prop := forall a m, M !! a = Some m <-> (a, m) ∈ ms.

Lemma not_in_addr (l : list (Z * module)) a m : a ∉ map fst l -> (a, m) ∉ l.
Proof. intros Hn Hin. apply Hn. apply list_elem_of_fmap. by exists (a, m). Qed.

Lemma holds_split M l a m r : holds_list M (l ++ (a, m) :: r) -> NoDup (map fst (l ++ (a, m) :: r)) ->
  M !! a = Some m /\ (forall m', holds_list (<[a := m']> M) (l ++ (a, m') :: r)) /\ holds_list (delete a M) (l ++ r).
Proof.
  intros Hm Hd. rewrite map_app in Hd. cbn [map fst] in Hd. apply NoDup_app in Hd as (_ & Hx & Hd). apply NoDup_cons in Hd as [Hr _].
  assert (a ∉ map fst l) as Hl by (intros Hin; apply (Hx a Hin); set_solver). split; [apply Hm; set_solver|]. split.
  - intros m' x mx. rewrite elem_of_app, elem_of_cons. destruct (decide (x = a)) as [->|Hne].
    + rewrite lookup_insert_eq. split; [intros [= ->]; auto|]. intros [Hin|[[= ->]|Hin]]; [by destruct (not_in_addr _ _ mx Hl)|done|by destruct (not_in_addr _ _ mx Hr)].
    + rewrite lookup_insert_ne by congruence. rewrite (Hm x mx), elem_of_app, elem_of_cons. split; intros [?|[?|?]]; auto; simplify_eq.
  - intros x mx. rewrite elem_of_app. destruct (decide (x = a)) as [->|Hne].
    + rewrite lookup_delete_eq. split; [done|]. intros [Hin|Hin]; [by destruct (not_in_addr _ _ mx Hl)|by destruct (not_in_addr _ _ mx Hr)].
    + rewrite lookup_delete_ne by congruence. rewrite (Hm x mx), elem_of_app, elem_of_cons. split; [intros [?|[?|?]]; auto; simplify_eq|intros [?|?]; auto].
Qed.

Lemma blocks_split l a m r : blocks (l ++ (a, m) :: r) ≡ₚ a :: m_base m :: blocks (l ++ r).
Proof. unfold blocks. rewrite !map_app. cbn [map fst snd]. solve_Permutation. Qed.

Lemma blocks_app l r : blocks (l ++ r) ≡ₚ blocks l ++ blocks r.
Proof. unfold blocks. rewrite !map_app. solve_Permutation. Qed.

Lemma elem_of_blocks q l a m r : q ∈ blocks (l ++ (a, m) :: r) <-> q = a \/ q = m_base m \/ q ∈ blocks (l ++ r).
Proof. by rewrite blocks_split, !elem_of_cons. Qed.

Lemma bytes_split l a m r : bytes_of (l ++ (a, m) :: r) = m_size m + bytes_of (l ++ r).
Proof. unfold bytes_of. induction l as [|x l IH]; cbn in *; [done|]. lia. Qed.

Lemma i32_add a b : i32 (i32 a + b) = i32 (a + b).
Proof.
  unfold i32. f_equal. replace ((a + 2 ^ 31) mod 2 ^ 32 - 2 ^ 31 + b + 2 ^ 31) with ((a + 2 ^ 31) mod 2 ^ 32 + b) by lia. rewrite Zplus_mod_idemp_l. f_equal. lia.
Qed.

Lemma u64_add a b : u64 (u64 a + b) = u64 (a + b).
Proof. unfold u64. apply Zplus_mod_idemp_l. Qed.

Section laws.
Context {A : Type} `{AllocatorLaws A}.
Abbreviation state := (st A).

(** [ms] are the modules, in the order of the list; [cap0] is what else is allocated. *)
Record mod_inv (cap0 : Z -> option Z) (s : state) (ms : list (Z * module)) : Prop := {
  mi_heap : a_inv (heap s); mi_linked : linked (module_list_head s) ms;
  mi_map a m : modules s !! a = Some m <-> (a, m) ∈ ms;
  mi_plain : Forall (fun x => plain (snd x)) ms; mi_distinct : NoDup (blocks ms);
  mi_caps q : if decide (q ∈ blocks ms) then cap0 q = None /\ exists c, a_cap (heap s) q = Some c else a_cap (heap s) q = cap0 q;
  mi_count : module_count s = i32 (Z.of_nat (length ms)); mi_total : total_module_memory s = u64 (bytes_of ms)
}.

Lemma inv_nodup cap0 s ms : mod_inv cap0 s ms -> NoDup (map fst ms).
Proof using Type*. intros Hi. pose proof (mi_distinct _ _ _ Hi) as Hd. unfold blocks in Hd. by apply NoDup_app in Hd as (? & _ & _). Qed.

Lemma inv_size cap0 s ms : mod_inv cap0 s ms -> size (modules s) = length ms.
Proof using Type*.
  intros Hi. pose proof (inv_nodup _ _ _ Hi) as Hd. assert (modules s = list_to_map ms) as ->; [|by apply map_size_list_to_map].
  apply map_eq. intros a. apply option_eq. intros m. rewrite (mi_map _ _ _ Hi). by apply elem_of_list_to_map.
Qed.

(** The search, as a function of the list. *)
Fixpoint find_in (name : list Z) (prev : Z) (ms : list (Z * module)) : Z * Z :=
  match ms with [] => (prev, 0) | (a, m) :: ms => if streq (m_name m) name then (prev, a) else find_in name a ms end.

Lemma find_loop_ok name (s : state) ms : forall fuel prev p, (forall a m, (a, m) ∈ ms -> modules s !! a = Some m) -> linked p ms -> (length ms < fuel)%nat ->
  find_loop fuel s prev p name = Ok (find_in name prev ms).
Proof using Type*.
  induction ms as [|[a m] ms IH]; intros fuel prev p Hm Hl Hf; cbn in Hl.
  - subst. by destruct fuel.
  - destruct Hl as (-> & Ha & Hl). destruct fuel as [|fuel]; [cbn in Hf; lia|]. cbn [find_loop find_in]. rewrite (proj2 (Z.eqb_neq _ _)) by done.
    unfold get_module. rewrite (Hm a m) by set_solver. cbn [of_option mbind outcome_bind]. destruct (streq (m_name m) name); [done|]. apply IH; [set_solver|done|cbn in Hf; lia].
Qed.

Lemma find_name_ok cap0 (s : state) ms name : mod_inv cap0 s ms -> find_name s name = Ok (find_in name 0 ms).
Proof using Type*.
  intros Hi. unfold find_name. rewrite (inv_size _ _ _ Hi). apply find_loop_ok; [|apply Hi|lia]. intros a m. apply (mi_map _ _ _ Hi).
Qed.

(** Where the search ends. *)
Definition last_addr (prev : Z) (ms : list (Z * module)) : Z := match last ms with Some (a, _) => a | None => prev end.

Lemma find_in_ok name p0 ms : linked p0 ms -> forall prev,
  (snd (find_in name prev ms) = 0 /\ refs_of name (map entry_of ms) = None) \/
  exists l a m r, ms = l ++ (a, m) :: r /\ find_in name prev ms = (last_addr prev l, a) /\ a <> 0 /\ refs_of name (map entry_of ms) = Some (m_refcount m) /\
    bump name (map entry_of ms) = map entry_of l ++ Entry (m_name m) (m_size m) (i32 (m_refcount m + 1)) :: map entry_of r /\ remove name (map entry_of ms) = map entry_of l ++ map entry_of r.
Proof using Type*.
  revert p0. induction ms as [|[a m] ms IH]; intros p0 Hl prev; [by left|]. destruct Hl as (_ & Ha & Hl). cbn [find_in map refs_of bump remove]. unfold named. cbn [en_name entry_of snd].
  destruct (streq (m_name m) name) eqn:E.
  - right. by exists [], a, m, ms.
  - destruct (IH _ Hl a) as [[H1' H2']|(l & b & m' & r & -> & Hf & Hb & Hr & Hbu & Hre)]; [by left|right]. exists ((a, m) :: l), b, m', r. split; [done|]. split; [|split; [done|split; [done|]]].
    + rewrite Hf. unfold last_addr. destruct l as [|x l]; [done|]. change (last ((a, m) :: x :: l)) with (last (x :: l)). destruct (last (x :: l)) as [[? ?]|] eqn:El; [done|]. by apply last_None in El.
    + by rewrite Hbu, Hre.
Qed.

(** ** Changes of the list *)

(** A module changes, but for its links and its memory. *)
Definition same_frame (m m' : module) : Prop := m_next m' = m_next m /\ m_base m' = m_base m /\ m_size m' = m_size m /\ plain m'.

Lemma set_ok cap0 (s : state) l a m r m' : mod_inv cap0 s (l ++ (a, m) :: r) -> same_frame m m' -> mod_inv cap0 (set_module s a m') (l ++ (a, m') :: r).
Proof using Type*.
  intros Hi (Hn & Hb & Hs & Hp). pose proof (inv_nodup _ _ _ Hi) as Hd. destruct Hi as [Hh Hl Hm Hpl Hdi Hc Hco Ht]. destruct (holds_split _ _ _ _ _ Hm Hd) as (_ & Hm' & _).
  assert (blocks (l ++ (a, m') :: r) = blocks (l ++ (a, m) :: r)) as Eb by (unfold blocks; rewrite !map_app; cbn; by rewrite Hb). split; rewrite ?Eb; try done.
  - apply (linked_replace l a m r m' r _ Hl). rewrite Hn. exact (proj1 (linked_tail _ _ _ _ _ Hl)).
  - apply Hm'.
  - rewrite Forall_app, Forall_cons in *. tauto.
  - cbn. rewrite Hco. by rewrite !length_app.
  - cbn. rewrite Ht, !bytes_split. by rewrite Hs.
Qed.

(** A module comes. *)
Lemma push_ok cap0 (s : state) ms p base h h' m c c' : mod_inv cap0 s ms -> p <> 0 -> base <> 0 -> a_cap (heap s) p = None -> a_cap h base = None ->
  cap_update (a_cap (heap s)) (a_cap h) p (Some c) -> cap_update (a_cap h) (a_cap h') base (Some c') -> a_inv h' -> plain m -> m_base m = base ->
  mod_inv cap0 (account (set_head (set_module (set_heap s h') p (with_next m (module_list_head s))) p) 1 (m_size m)) ((p, with_next m (module_list_head s)) :: ms).
Proof using Type*.
  intros [Hh Hl Hm Hpl Hdi Hc Hco Ht] Hp Hb Hnp Hnb Hu Hu' Hih Hpm Eb. assert (base <> p) as Hne by (intros ->; rewrite Hu, decide_True in Hnb; done).
  assert (forall q, a_cap (heap s) q = None -> (q ∉ blocks ms) /\ cap0 q = None) as Hfree.
  { intros q Hq. specialize (Hc q). destruct (decide (q ∈ blocks ms)); [destruct Hc as (_ & x & E); congruence|]. by rewrite <- Hc. }
  destruct (Hfree p Hnp) as [Hpn Hp0]. destruct (Hfree base) as [Hbn Hb0]; [by rewrite Hu, decide_False in Hnb|].
  assert (blocks ((p, with_next m (module_list_head s)) :: ms) ≡ₚ p :: base :: blocks ms) as Ebl by (rewrite <- Eb; apply (blocks_split [] p (with_next m (module_list_head s)) ms)).
  split; try done.
  - intros a n. cbn [modules account set_head set_module set_heap]. rewrite elem_of_cons. destruct (decide (a = p)) as [->|Hap].
    + rewrite lookup_insert_eq. split; [intros [= <-]; by left|]. intros [[= ->]|Hin]; [done|]. destruct Hpn. unfold blocks. apply elem_of_app. left. apply list_elem_of_fmap. by exists (p, n).
    + rewrite lookup_insert_ne by congruence. rewrite (Hm a n). split; [by right|]. intros [?|?]; [simplify_eq|done].
  - constructor; [done|done].
  - rewrite Ebl. apply NoDup_cons. split; [|by apply NoDup_cons]. rewrite elem_of_cons. intros [?|?]; done.
  - intros q. cbn [heap account set_head set_module set_heap]. specialize (Hc q). rewrite Hu', Hu. assert (q ∈ blocks ((p, with_next m (module_list_head s)) :: ms) <-> q = p \/ q = base \/ q ∈ blocks ms) as Eq by (by rewrite Ebl, !elem_of_cons).
    destruct (decide (q = base)) as [->|Hqb]; [rewrite decide_True by tauto; split; [done|]; by exists c'|].
    destruct (decide (q = p)) as [->|Hqp]; [rewrite decide_True by tauto; split; [done|]; by exists c|].
    destruct (decide (q ∈ blocks ms)); [by rewrite decide_True by tauto|by rewrite decide_False by tauto].
  - cbn. rewrite Hco, i32_add. f_equal. lia. - cbn. rewrite Ht, u64_add. f_equal. unfold bytes_of. cbn. lia.
Qed.

Lemma same_heap_ok cap0 (s : state) ms h : mod_inv cap0 s ms -> a_inv h -> cap_same (a_cap (heap s)) (a_cap h) -> mod_inv cap0 (set_heap s h) ms.
Proof using Type*. intros [Hh Hl Hm Hpl Hdi Hc Hco Ht] Hi Hs. split; try done. intros q. cbn [heap set_heap]. rewrite Hs. apply Hc. Qed.

(** A module goes: its neighbours are linked already, its memory is freed. *)
Lemma free_module_ok cap0 (s : state) l a m r head' M l' : mod_inv cap0 s (l ++ (a, m) :: r) -> linked head' (l' ++ r) -> holds_list M (l' ++ (a, m) :: r) ->
  blocks l' = blocks l -> bytes_of l' = bytes_of l -> Forall (fun x => plain (snd x)) l' -> length l' = length l ->
  exists s', free_module (account (Mods head' M (module_count s) (total_module_memory s) (heap s)) (-1) (- m_size m)) a (m_base m) = Ok s' /\ mod_inv cap0 s' (l' ++ r).
Proof using Type*.
  intros [Hh Hl Hm Hpl Hdi Hc Hco Ht] Hl' HM Eb Es Hp' Elen.
  assert (forall ms, blocks (l' ++ ms) ≡ₚ blocks (l ++ ms)) as Eb'.
  { intros ms. by rewrite !blocks_app, Eb. }
  assert (plain m) as (_ & _ & Hb) by (rewrite Forall_app, Forall_cons in Hpl; tauto). rewrite blocks_split in Hdi. apply NoDup_cons in Hdi as [Ha Hdi]. apply NoDup_cons in Hdi as [Hbb Hdi].
  assert (m_base m <> a) as Hne by set_solver.
  assert (exists c, a_cap (heap s) (m_base m) = Some c) as [cb Hcb] by (specialize (Hc (m_base m)); rewrite decide_True in Hc by (rewrite blocks_split; set_solver); apply Hc).
  assert (exists c, a_cap (heap s) a = Some c) as [ca Hca] by (specialize (Hc a); rewrite decide_True in Hc by (rewrite blocks_split; set_solver); apply Hc).
  destruct (law_free (heap s) (m_base m) cb Hh Hcb) as (h1 & E1 & Hh1 & Hu1). destruct (law_free h1 a ca Hh1) as (h2 & E2 & Hh2 & Hu2); [by rewrite Hu1, decide_False|].
  unfold free_module. cbn [heap account]. rewrite (proj2 (Z.eqb_neq _ _)) by done. rewrite E1, bind_ok, E2, bind_ok. eexists. split; [done|].
  assert (NoDup (map fst (l' ++ (a, m) :: r))) as Hnd.
  { assert (NoDup (blocks (l' ++ (a, m) :: r))) as Hn; [|unfold blocks in Hn; by apply NoDup_app in Hn as (? & _ & _)]. rewrite Eb', blocks_split. apply NoDup_cons. split; [done|]. by apply NoDup_cons. }
  split; cbn [heap module_list_head modules module_count total_module_memory account]; try done.
  - by apply (holds_split M l' a m r).
  - rewrite Forall_app, Forall_cons in Hpl. apply Forall_app. split; [done|apply Hpl].
  - by rewrite Eb'.
  - apply not_elem_of_cons in Ha as [_ Ha]. intros q. rewrite Hu2, Hu1. assert (q ∈ blocks (l' ++ r) <-> q ∈ blocks (l ++ r)) as Eq by (by rewrite Eb'). pose proof (elem_of_blocks q l a m r) as Es'. specialize (Hc q).
    destruct (decide (q ∈ blocks (l ++ r))) as [Hin|Hout].
    + rewrite decide_True by tauto. rewrite decide_True in Hc by tauto. rewrite !decide_False by (intros ->; tauto). exact Hc.
    + rewrite decide_False by tauto. destruct (decide (q = a)); [rewrite decide_True in Hc by tauto; symmetry; apply Hc|].
      destruct (decide (q = m_base m)); [rewrite decide_True in Hc by tauto; symmetry; apply Hc|]. rewrite decide_False in Hc by tauto. exact Hc.
  - rewrite Hco, i32_add, !length_app, Elen. cbn [length]. f_equal. lia.
  - rewrite Ht, u64_add, bytes_split. f_equal. unfold bytes_of in *. rewrite !foldr_app. assert (forall n k, foldr (fun (x : Z * module) n => m_size (snd x) + n) n k = foldr (fun x n => m_size (snd x) + n) 0 k + n) as Ef by (intros n k; induction k as [|x k IH]; cbn; lia).
    rewrite !(Ef (foldr _ _ r)), Es. lia.
Qed.

Lemma drop_ok cap0 (s : state) l a m r : mod_inv cap0 s (l ++ (a, m) :: r) ->
  exists s1 s2 l', unlink s (last_addr 0 l) (m_next m) = Ok s1 /\ free_module (account s1 (-1) (- m_size m)) a (m_base m) = Ok s2 /\ map entry_of l' = map entry_of l /\ mod_inv cap0 s2 (l' ++ r).
Proof using Type*.
  intros Hi. pose proof (inv_nodup _ _ _ Hi) as Hd. pose proof (mi_linked _ _ _ Hi) as Hl. pose proof (mi_map _ _ _ Hi) as Hm. pose proof (mi_plain _ _ _ Hi) as Hpl.
  destruct l as [|[b mb] l _] using rev_ind.
  - cbn [app] in *. destruct Hl as (_ & _ & Hl). destruct (free_module_ok cap0 s [] a m r (m_next m) (modules s) []) as (s2 & E & Hi2); try done. by exists (set_head s (m_next m)), s2, [].
  - unfold last_addr, unlink. rewrite last_snoc. rewrite <- app_assoc in *. cbn [app] in *. destruct (linked_tail _ _ _ _ _ Hl) as [Hl2 Hb]. rewrite (proj2 (Z.eqb_neq _ _)) by done.
    destruct (holds_split _ _ _ _ _ Hm Hd) as (Eb & Hset & _). unfold get_module. rewrite Eb. cbn [of_option]. rewrite bind_ok. destruct Hl2 as (_ & _ & Hl2).
    destruct (free_module_ok cap0 s (l ++ [(b, mb)]) a m r (module_list_head s) (<[b := with_next mb (m_next m)]> (modules s)) (l ++ [(b, with_next mb (m_next m))])) as (s2 & E & Hi2).
    + by rewrite <- app_assoc. + rewrite <- app_assoc. by apply (linked_replace l b mb ((a, m) :: r)). + rewrite <- app_assoc. apply Hset.
    + unfold blocks. by rewrite !map_app. + unfold bytes_of. by rewrite !foldr_app. + rewrite Forall_app, Forall_cons in Hpl. apply Forall_app. split; [apply Hpl|]. constructor; [apply Hpl|done]. + by rewrite !length_app.
    + exists (set_module s b (with_next mb (m_next m))), s2, (l ++ [(b, with_next mb (m_next m))]). split; [reflexivity|]. split; [exact E|]. split; [by rewrite !map_app|done].
Qed.

(** ** The refinement *)

Context (run_init : Z -> state -> outcome (Z * state)) (run_exit : Z -> state -> outcome state).

Definition do_call (s : state) (c : call) : outcome (Z * state) :=
  match c with
  | Load n d z => module_load run_init s n d z
  | Unload n => module_unload run_exit s n
  | Find n => r ← module_find s n; Ok (if fst r =? 0 then 0 else 1, snd r)
  end.

Definition sized (c : call) : Prop := match c with Load _ _ z => 0 <= z | _ => True end.

(** The call returns, and does to the list of modules what the specification says. *)
Definition agrees (cap0 : Z -> option Z) (s : state) (ms : list (Z * module)) (c : call) : Prop :=
  exists oom r s' ms', do_call s c = Ok (r, s') /\ mod_inv cap0 s' ms' /\ (r, map entry_of ms') = spec_call oom c (map entry_of ms).

Lemma module_find_ok cap0 (s : state) ms name : mod_inv cap0 s ms ->
  match refs_of name (map entry_of ms) with
  | None => module_find s (Some name) = Ok (0, s)
  | Some _ => exists p s' ms', module_find s (Some name) = Ok (p, s') /\ p <> 0 /\ mod_inv cap0 s' ms' /\ map entry_of ms' = bump name (map entry_of ms)
  end.
Proof using Type*.
  intros Hi. unfold module_find. rewrite (find_name_ok _ _ _ _ Hi), bind_ok.
  destruct (find_in_ok name _ ms (mi_linked _ _ _ Hi) 0) as [[Hz ->]|(l & a & m & r & -> & -> & Ha & -> & -> & _)].
  - destruct (find_in name 0 ms) as [q p]. cbn in Hz. by subst.
  - rewrite (proj2 (Z.eqb_neq _ _)) by done. destruct (holds_split _ _ _ _ _ (mi_map _ _ _ Hi) (inv_nodup _ _ _ Hi)) as (Em & _ & _). unfold get_module. rewrite Em. cbn [of_option]. rewrite bind_ok.
    pose proof (mi_plain _ _ _ Hi) as Hp. rewrite Forall_app, Forall_cons in Hp. destruct Hp as (_ & Hp & _).
    eexists a, _, (l ++ (a, with_refcount m (i32 (m_refcount m + 1))) :: r). split; [done|]. split; [done|]. split; [by apply (set_ok cap0 s l a m r)|]. by rewrite map_app.
Qed.

Lemma load_ok cap0 (s : state) ms name data size : mod_inv cap0 s ms -> 0 <= size -> agrees cap0 s ms (Load name data size).
Proof using Type*.
  intros Hi Hz. unfold agrees. cbn [do_call spec_call]. unfold module_load. destruct name as [name|]; [|by exists false, (- EINVAL), s, ms].
  destruct (negb data || (size =? 0)); [by exists false, (- EINVAL), s, ms|]. pose proof (module_find_ok cap0 s ms name Hi) as Hf. destruct (refs_of name (map entry_of ms)) as [k|].
  { destruct Hf as (p & s1 & ms1 & -> & Hp & Hi1 & E1). rewrite bind_ok, (proj2 (Z.eqb_neq _ _)) by done. cbn [negb]. exists false, (- EEXIST), s1, ms1. by rewrite E1. }
  rewrite Hf, bind_ok. cbn [negb Z.eqb]. destruct (law_alloc (heap s) sizeof_module GFP_KERNEL (mi_heap _ _ _ Hi) ltac:(done)) as (p & h & E & Hh & Hr). rewrite E, bind_ok.
  destruct Hr as [[-> Hc]|(Hp & Hn & c & _ & Hc)].
  { exists true, (- ENOMEM), (set_heap s h), ms. split; [done|]. split; [by apply same_heap_ok|done]. }
  rewrite (proj2 (Z.eqb_neq _ _)) by done. destruct (law_alloc h size 0 Hh Hz) as (base & h' & E' & Hh' & Hr'). rewrite E', bind_ok. destruct Hr' as [[-> Hc']|(Hb & Hnb & c' & _ & Hc')].
  - destruct (law_free h' p c Hh') as (h2 & E2 & Hh2 & Hc2); [by rewrite Hc', Hc, decide_True|]. cbn [Z.eqb]. rewrite E2, bind_ok. exists true, (- ENOMEM), (set_heap s h2), ms. split; [done|]. split; [|done].
    apply same_heap_ok; try done. intros q. rewrite Hc2, Hc', Hc. destruct (decide (q = p)) as [->|]; [by rewrite Hn|done].
  - rewrite (proj2 (Z.eqb_neq _ _)) by done. cbn [module_parse_elf m_init Z.eqb Z.ltb Z.compare].
    set (m := Mod (take (NAME_SIZE - 1) name) 0 0 size base 0 MODULE_FLAG_LOADED 1 []).
    exists false, 0, (account (set_head (set_module (set_heap s h') p (with_next m (module_list_head s))) p) 1 size), ((p, with_next m (module_list_head s)) :: ms). split; [done|]. split; [|done].
    by apply (push_ok cap0 s ms p base h h' m c c').
Qed.

Lemma unload_ok cap0 (s : state) ms name : mod_inv cap0 s ms -> agrees cap0 s ms (Unload name).
Proof using Type*.
  intros Hi. unfold agrees. cbn [do_call spec_call]. unfold module_unload. destruct name as [name|]; [|by exists false, (- EINVAL), s, ms]. rewrite (find_name_ok _ _ _ _ Hi), bind_ok.
  destruct (find_in_ok name _ ms (mi_linked _ _ _ Hi) 0) as [[Hz ->]|(l & a & m & r & -> & -> & Ha & -> & _ & Er)].
  { destruct (find_in name 0 ms) as [q p]. cbn in Hz. subst. by exists false, (- ENOENT), s, ms. }
  rewrite (proj2 (Z.eqb_neq _ _)) by done. destruct (holds_split _ _ _ _ _ (mi_map _ _ _ Hi) (inv_nodup _ _ _ Hi)) as (Em & _ & _). assert (get_module s a = Ok m) as -> by (unfold get_module; by rewrite Em). rewrite bind_ok.
  destruct (1 <? m_refcount m); [by exists false, (- EBUSY), s, (l ++ (a, m) :: r)|]. set (m' := with_flags m (Z.lor (m_flags m) MODULE_FLAG_EXITING)).
  pose proof (mi_plain _ _ _ Hi) as Hp. rewrite Forall_app, Forall_cons in Hp. destruct Hp as (_ & Hp & _). pose proof Hp as (_ & Hexit & _). cbn [snd] in Hexit.
  unfold call_exit. rewrite Hexit. cbn [Z.eqb negb andb]. rewrite bind_ok. fold m'. assert (get_module (set_module s a m') a = Ok m') as -> by (unfold get_module; cbn [modules set_module]; by rewrite lookup_insert_eq). rewrite bind_ok.
  assert (mod_inv cap0 (set_module s a m') (l ++ (a, m') :: r)) as Hi' by (apply (set_ok cap0 s l a m r m' Hi); by repeat split; try apply Hp).
  destruct (drop_ok cap0 _ l a m' r Hi') as (s1 & s2 & l' & E1 & E2 & El & Hi2). change (m_next m) with (m_next m') in *. rewrite E1, bind_ok. change (m_size m) with (m_size m'). change (m_base m) with (m_base m').
  rewrite E2, bind_ok. exists false, 0, s2, (l' ++ r). split; [done|]. split; [done|]. by rewrite Er, map_app, El.
Qed.

Lemma module_calls_ok cap0 (s : state) ms c : mod_inv cap0 s ms -> sized c -> agrees cap0 s ms c.
Proof using Type*.
  intros Hi Hc. destruct c as [n d z|n|n]; [by apply load_ok|by apply unload_ok|]. unfold agrees. cbn [do_call spec_call]. destruct n as [n|]; [|by exists false, 0, s, ms].
  pose proof (module_find_ok cap0 s ms n Hi) as Hf. destruct (refs_of n (map entry_of ms)).
  - destruct Hf as (p & s1 & ms1 & -> & Hp & Hi1 & E1). rewrite bind_ok. cbn [fst snd]. rewrite (proj2 (Z.eqb_neq _ _)) by done. exists false, 1, s1, ms1. by rewrite E1.
  - rewrite Hf, bind_ok. by exists false, 0, s, ms.
Qed.

(** C39. Loading, unloading and finding modules returns and does to the list of names, sizes and references what the specification says; two allocations are live for each module, and every other one is untouched. *)
Theorem module_refines cap0 (s : state) ms c (Hi : mod_inv cap0 s ms) (Hc : sized c) : agrees cap0 s ms c.
Proof using Type*. by apply module_calls_ok. Qed.
End laws.

(** ** References are never given back *)

Definition short (c : call) : Prop := match c with Load (Some n) _ _ => (length n <= NAME_SIZE - 1)%nat | _ => True end.

(** More than one reference, and room for [k] more. *)
Definition pinned (name : list Z) (k : Z) (es : list entry) : Prop := exists r, refs_of name es = Some r /\ 1 < r /\ r + k < 2 ^ 31.

Lemma streq_eq a b : streq a b = true <-> a = b.
Proof. apply bool_decide_eq_true. Qed.

Lemma refs_bump n name es : refs_of name (bump n es) = match refs_of name es with Some r => Some (if streq n name then i32 (r + 1) else r) | None => None end.
Proof.
  induction es as [|e es IH]; [done|]. cbn [bump refs_of]. unfold named. destruct (streq (en_name e) n) eqn:En; cbn [refs_of]; unfold named; cbn [en_name en_refs].
  - apply streq_eq in En as ->. destruct (streq n name); [done|]. by destruct (refs_of name es).
  - destruct (streq (en_name e) name) eqn:Ee; [|done]. apply streq_eq in Ee as <-. destruct (streq n (en_name e)) eqn:E; [|done]. apply streq_eq in E as ->. by rewrite (proj2 (streq_eq _ _)) in En.
Qed.

Lemma refs_remove n name es : n <> name -> refs_of name (remove n es) = refs_of name es.
Proof.
  intros Hne. induction es as [|e es IH]; [done|]. cbn [remove refs_of]. unfold named. destruct (streq (en_name e) n) eqn:En; cbn [refs_of]; unfold named; [|by rewrite IH].
  apply streq_eq in En as ->. destruct (streq n name) eqn:E; [|done]. by apply streq_eq in E.
Qed.

Lemma pinned_bump n name k es : 0 <= k -> pinned name (k + 1) es -> pinned name k (bump n es).
Proof. intros Hk (r & E & Hr & Hm). unfold pinned. rewrite refs_bump, E. eexists. split; [done|]. destruct (streq n name); [rewrite i32_small by lia|]; lia. Qed.

Lemma pinned_call oom c name k es : 0 <= k -> short c -> pinned name (k + 1) es -> pinned name k (snd (spec_call oom c es)).
Proof.
  intros Hk Hs Hp. pose proof Hp as (r & E & Hr & Hm). assert (pinned name k es) as Hp' by (exists r; split; [done|lia]).
  destruct c as [[n|] d z|[n|]|[n|]]; cbn [spec_call]; try done.
  - destruct (negb d || (z =? 0)); [done|]. destruct (refs_of n es) as [q|] eqn:En; [by apply pinned_bump|]. destruct oom; [done|]. cbn [short] in Hs. rewrite take_ge by done.
    exists r. cbn [snd refs_of]. unfold named. cbn [en_name]. destruct (streq n name) eqn:Es; [apply streq_eq in Es as ->; congruence|]. split; [done|lia].
  - destruct (refs_of n es) as [q|] eqn:En; [|done]. destruct (Z.ltb_spec 1 q); [done|]. exists r. cbn [snd]. rewrite refs_remove; [split; [done|lia]|]. intros ->. rewrite E in En. injection En as ->. lia.
  - destruct (refs_of n es) as [q|]; [by apply pinned_bump|done].
Qed.

Section pinning.
Context {A : Type} `{AllocatorLaws A} (run_init : Z -> st A -> outcome (Z * st A)) (run_exit : Z -> st A -> outcome (st A)).

Fixpoint run (s : st A) (cs : list call) : outcome (st A) :=
  match cs with [] => Ok s | c :: cs => r ← do_call run_init run_exit s c; run (snd r) cs end.

Lemma run_pinned cap0 name cs : forall s ms k, mod_inv cap0 s ms -> Forall (fun c => sized c /\ short c) cs -> 0 <= k -> pinned name (k + Z.of_nat (length cs)) (map entry_of ms) ->
  exists s' ms', run s cs = Ok s' /\ mod_inv cap0 s' ms' /\ pinned name k (map entry_of ms').
Proof using Type*.
  induction cs as [|c cs IH]; intros s ms k Hi Hc Hk Hp; cbn [run]; [exists s, ms; by rewrite Z.add_0_r in Hp|]. apply Forall_cons in Hc as [[Hz Hs] Hc].
  destruct (module_calls_ok run_init run_exit cap0 s ms c Hi Hz) as (oom & r & s1 & ms1 & E & Hi1 & Es). rewrite E, bind_ok. cbn [snd]. apply (IH s1 ms1 k Hi1 Hc Hk).
  replace (map entry_of ms1) with (snd (spec_call oom c (map entry_of ms))) by (by rewrite <- Es). apply pinned_call; [lia|done|]. by replace (k + Z.of_nat (length cs) + 1) with (k + Z.of_nat (length (c :: cs))) by (cbn [length]; lia).
Qed.

(** Loading a module a second time fails, but counts as a use that no call gives back: after it no sequence of calls makes the module unloadable (names shorter than 64 bytes, before the count overflows). *)
Theorem failed_load_pins cap0 s ms name size r cs (Hi : mod_inv cap0 s ms) (Hr : refs_of name (map entry_of ms) = Some r) (Hz : 0 < size) (Hr1 : 1 <= r)
    (Hm : r + 2 + Z.of_nat (length cs) < 2 ^ 31) (Hc : Forall (fun c => sized c /\ short c) cs) :
  exists s1 s2 s3, do_call run_init run_exit s (Load (Some name) true size) = Ok (- EEXIST, s1) /\ run s1 cs = Ok s2 /\ do_call run_init run_exit s2 (Unload (Some name)) = Ok (- EBUSY, s3).
Proof using Type*.
  destruct (module_calls_ok run_init run_exit cap0 s ms (Load (Some name) true size) Hi) as (oom & r1 & s1 & ms1 & E1 & Hi1 & Es); [cbn; lia|]. cbn [spec_call] in Es.
  rewrite Hr, (proj2 (Z.eqb_neq _ _)) in Es by lia. cbn [negb orb] in Es. injection Es as -> Es. exists s1.
  destruct (run_pinned cap0 name cs s1 ms1 0 Hi1 Hc) as (s2 & ms2 & E2 & Hi2 & (k & Ek & Hk & _)); [lia|exists (r + 1); rewrite Es, refs_bump, Hr, (proj2 (streq_eq _ _)), i32_small by (done || lia); split; [done|lia]|].
  exists s2. destruct (module_calls_ok run_init run_exit cap0 s2 ms2 (Unload (Some name)) Hi2 I) as (o3 & r3 & s3 & ms3 & E3 & _ & Es3). exists s3. split; [done|]. split; [done|].
  cbn [spec_call] in Es3. rewrite Ek, (proj2 (Z.ltb_lt _ _)) in Es3 by done. injection Es3 as -> _. done.
Qed.
End pinning.

(** ** On the kernel heap *)

#[export] Existing Instances KmallocSpec.kernel_heap KmallocSpec.kernel_heap_laws.
Definition boot_modules : st Kmalloc.heap := module_init (Mods 0 ∅ 0 0 (KmallocSpec.boot_heap (2 ^ 30))).

Lemma boot_modules_inv : mod_inv (a_cap (heap boot_modules)) boot_modules [].
Proof.
  split; try done; [apply KmallocSpec.boot_heap_inv| |constructor].
  intros a m. cbn [modules boot_modules module_init]. rewrite lookup_empty. split; [done|]. by intros ?%elem_of_nil.
Qed.

Definition no_init (_ : Z) (s : st Kmalloc.heap) : outcome (Z * st Kmalloc.heap) := Ok (0, s).
Definition no_exit (_ : Z) (s : st Kmalloc.heap) : outcome (st Kmalloc.heap) := Ok s.

Lemma module_refines_witness : exists oom r s' ms', do_call no_init no_exit boot_modules (Load (Some [97]) true 100) = Ok (r, s') /\ (r, map entry_of ms') = spec_call oom (Load (Some [97]) true 100) [].
Proof.
  destruct (module_refines no_init no_exit _ boot_modules [] (Load (Some [97]) true 100) boot_modules_inv ltac:(vm_compute; discriminate)) as (oom & r & s' & ms' & E & _ & Hs).
  exists oom, r, s', ms'. split; [exact E|exact Hs].
Defined.

(** A booted kernel with one module. *)
Lemma one_module : exists s ms, mod_inv (a_cap (heap boot_modules)) s ms /\ refs_of [97] (map entry_of ms) = Some 1.
Proof.
  destruct (module_calls_ok no_init no_exit _ boot_modules [] (Load (Some [97]) true 100) boot_modules_inv ltac:(vm_compute; discriminate)) as (oom & r & s & ms & E & Hi & Hs).
  assert (match do_call no_init no_exit boot_modules (Load (Some [97]) true 100) with Ok (r, _) => r | _ => 1 end = 0) as Hr by (vm_compute; reflexivity). rewrite E in Hr. subst.
  exists s, ms. split; [done|]. destruct oom; cbn in Hs; [done|]. by injection Hs as ->.
Qed.

Lemma failed_load_pins_witness : exists s s1 s2 s3, do_call no_init no_exit s (Load (Some [97]) true 5) = Ok (- EEXIST, s1) /\
  run no_init no_exit s1 [Unload (Some [97]); Load (Some [98]) true 7; Find (Some [98])] = Ok s2 /\ do_call no_init no_exit s2 (Unload (Some [97])) = Ok (- EBUSY, s3).
Proof.
  destruct one_module as (s & ms & Hi & Hr). exists s.
  apply (failed_load_pins no_init no_exit _ s ms [97] 5 1 [Unload (Some [97]); Load (Some [98]) true 7; Find (Some [98])] Hi Hr ltac:(lia) ltac:(lia) ltac:(vm_compute; reflexivity)).
  repeat constructor; cbn; lia.
Defined.

(** The list as text: "a: loaded (refs: 1)" and a line feed. *)
Example module_list_demo :
  (r ← do_call no_init no_exit boot_modules (Load (Some [97]) true 100); r ← module_list (snd r) (Some (replicate 20 0)) 20; Ok (fst r)) = Ok 19.
Proof. vm_compute. reflexivity. Qed.
