(* ===== verification/Ext4.v ===== *)
(** * The ext4 driver (src/kernel/fs/ext4.c): structures and operations

    Structures on disk are packed and kept as their bytes ([Buffer]).  The block device
    is a parameter: [None] is a negative result of its functions, or a missing function; a
    read fills the whole buffer, and a non-negative result is taken as 0.  The array of group
    descriptors is an object of the size it was allocated with: an access outside it is
    a [Fault].  The other buffers are one block long and written as a whole before they are used; only
    their addresses matter to the heap. *)
From S2P Require Import Prelude AllocSpec Buffer.
#[local] Open Scope Z_scope.

Definition EXT4_SUPER_MAGIC : Z := 0xEF53.
Definition EXT4_DYNAMIC_REV : Z := 1.
Definition EXT4_FEATURE_INCOMPAT_64BIT : Z := 0x80.
Definition EXT4_S_IFDIR : Z := 0x4000.
Definition EXT4_NDIR_BLOCKS : Z := 12.
Definition EXT4_IND_BLOCK : Z := EXT4_NDIR_BLOCKS.
Definition EXT4_DIND_BLOCK : Z := EXT4_IND_BLOCK + 1.

(** ** Structures *)

Definition superblock_size : nat := 384.
Definition s_blocks_count_lo : field := Field 4 4.
Definition s_free_blocks_count_lo : field := Field 12 4.
Definition s_free_inodes_count : field := Field 16 4.
Definition s_first_data_block : field := Field 20 4.
Definition s_log_block_size : field := Field 24 4.
Definition s_blocks_per_group : field := Field 32 4.
Definition s_inodes_per_group : field := Field 40 4.
Definition s_magic : field := Field 56 2.
Definition s_rev_level : field := Field 76 4.
Definition s_inode_size : field := Field 88 2.
Definition s_feature_incompat : field := Field 96 4.
Definition s_desc_size : field := Field 254 2.
Definition s_blocks_count_hi : field := Field 336 4.

Definition group_desc_size : nat := 64.
Definition bg_block_bitmap_lo : field := Field 0 4.
Definition bg_inode_bitmap_lo : field := Field 4 4.
Definition bg_inode_table_lo : field := Field 8 4.
Definition bg_free_blocks_count_lo : field := Field 12 2.
Definition bg_free_inodes_count_lo : field := Field 14 2.
Definition bg_block_bitmap_hi : field := Field 32 4.
Definition bg_inode_bitmap_hi : field := Field 36 4.
Definition bg_inode_table_hi : field := Field 40 4.
Definition bg_free_blocks_count_hi : field := Field 44 2.
Definition bg_free_inodes_count_hi : field := Field 46 2.

Definition inode_bytes : nat := 116.
Definition i_mode : field := Field 0 2.
Definition i_size_lo : field := Field 4 4.
Definition i_mtime : field := Field 16 4.
Definition i_links_count : field := Field 26 2.
Definition i_blocks_lo : field := Field 28 4.
Definition i_block (n : Z) : field := Field (40 + 4 * Z.to_nat n) 4.
Definition i_size_hi : field := Field 108 4.

Definition de_inode : field := Field 0 4.
Definition de_rec_len : field := Field 4 2.
Definition de_name_len : field := Field 6 1.
Definition de_file_type : field := Field 7 1.

(** The number at index [k] of a block of numbers. *)
Definition entry : field := Field 0 4.

Record ext4_fs := Ext4 {
  sb : list Z; block_size : Z; blocks_per_group : Z; inodes_per_group : Z; inode_size : Z;
  group_count : Z; desc_size : Z; group_descs : list Z; fs_addr : Z; descs_addr : Z
}.

Definition with_sb (f : ext4_fs) (b : list Z) : ext4_fs :=
  Ext4 b (block_size f) (blocks_per_group f) (inodes_per_group f) (inode_size f) (group_count f) (desc_size f) (group_descs f) (fs_addr f) (descs_addr f).
Definition with_descs (f : ext4_fs) (d : list Z) : ext4_fs :=
  Ext4 (sb f) (block_size f) (blocks_per_group f) (inodes_per_group f) (inode_size f) (group_count f) (desc_size f) d (fs_addr f) (descs_addr f).

Class BlockDevice (D : Type) := {
  dv_read : D -> Z -> option (list Z);
  dv_write : D -> Z -> list Z -> option D
}.

Record st (A D : Type) := St { fs : ext4_fs; heap : A; disk : D }.
Arguments St {A D}. Arguments fs {A D}. Arguments heap {A D}. Arguments disk {A D}.

(** ** Group descriptors *)

Definition gd_get (f : ext4_fs) (group : Z) (x : field) : outcome Z := rd_at (group_descs f) (64 * group) x.
Definition gd_set (f : ext4_fs) (group : Z) (x : field) (v : Z) : outcome ext4_fs :=
  d ← wr_at (group_descs f) (64 * group) x v; Ok (with_descs f d).

(** A block number, or a count, in two halves; the high one exists in descriptors of 64 bytes. *)
Definition gd_wide (f : ext4_fs) (group : Z) (lo hi : field) (bits : Z) : outcome Z :=
  v ← gd_get f group lo;
  if 64 <=? desc_size f then h ← gd_get f group hi; Ok (Z.lor v (Z.shiftl h bits)) else Ok v.

(** What block and inode bitmaps differ in. *)
Record bitmap_kind := Kind {
  k_bitmap_lo : field; k_bitmap_hi : field; k_free_lo : field; k_free_hi : field; k_sb_free : field;
  k_bytes : ext4_fs -> Z; k_limit : ext4_fs -> Z; k_number : ext4_fs -> Z -> Z -> Z
}.
Definition block_bitmap : bitmap_kind :=
  Kind bg_block_bitmap_lo bg_block_bitmap_hi bg_free_blocks_count_lo bg_free_blocks_count_hi s_free_blocks_count_lo
    block_size blocks_per_group (fun f g i => u32 (rd s_first_data_block (sb f) + g * blocks_per_group f + i)).
Definition inode_bitmap : bitmap_kind :=
  Kind bg_inode_bitmap_lo bg_inode_bitmap_hi bg_free_inodes_count_lo bg_free_inodes_count_hi s_free_inodes_count
    (fun f => inodes_per_group f / 8) inodes_per_group (fun f g i => u32 (g * inodes_per_group f + i + 1)).

Definition get_bitmap (k : bitmap_kind) (f : ext4_fs) (group : Z) : outcome Z :=
  if group_count f <=? group then Ok 0 else gd_wide f group (k_bitmap_lo k) (k_bitmap_hi k) 32.

(** The first clear bit of a byte. *)
Fixpoint bit_scan (n : nat) (c bit : Z) : option Z :=
  match n with
  | O => None
  | S n => if Z.land c (Z.shiftl 1 bit) =? 0 then Some bit else bit_scan n c (bit + 1)
  end.

(** The first clear bit of a bitmap; one beyond [limit] ends the search in its byte. *)
Fixpoint byte_scan (n : nat) (bitmap : list Z) (byte limit : Z) : outcome (option Z) :=
  match n with
  | O => Ok None
  | S n =>
      c ← get bitmap byte;
      if c =? 0xFF then byte_scan n bitmap (byte + 1) limit
      else match bit_scan 8 c 0 with
           | Some bit => if limit <=? byte * 8 + bit then byte_scan n bitmap (byte + 1) limit else Ok (Some (byte * 8 + bit))
           | None => byte_scan n bitmap (byte + 1) limit
           end
  end.

Section ext4.
Context {A D : Type} `{Allocator A} `{BlockDevice D}.
Abbreviation state := (st A D).

Definition with_fs (s : state) (f : ext4_fs) : state := St f (heap s) (disk s).
Definition with_heap (s : state) (h : A) : state := St (fs s) h (disk s).
Definition with_disk (s : state) (d : D) : state := St (fs s) (heap s) d.

(** A buffer of one block. *)
Definition new_buf (s : state) : outcome (Z * state) :=
  r ← a_kmalloc (heap s) (block_size (fs s)) GFP_KERNEL; let '(p, h) := r in Ok (p, with_heap s h).
Definition free_buf (s : state) (p : Z) : outcome state := h ← a_kfree (heap s) p; Ok (with_heap s h).

(** [result], after the buffer was freed. *)
Definition done {R} (s : state) (p : Z) (result : R) : outcome (R * state) := s ← free_buf s p; Ok (result, s).

(** ** Blocks *)

Definition ext4_read_block (s : state) (block : Z) : outcome (option (list Z)) :=
  match dv_read (disk s) block with
  | None => Ok None
  | Some l => if Z.of_nat (length l) =? block_size (fs s) then Ok (Some l) else Fault
  end.

Definition ext4_write_block_raw (s : state) (block : Z) (l : list Z) : bool * state :=
  match dv_write (disk s) block l with None => (false, s) | Some d => (true, with_disk s d) end.

(** ** Bitmaps *)

Definition count_free (k : bitmap_kind) (s : state) (group change : Z) : outcome state :=
  let f := fs s in
  v ← gd_get f group (k_free_lo k);
  f ← gd_set f group (k_free_lo k) (v + change);
  Ok (with_fs s (with_sb f (wr (k_sb_free k) (rd (k_sb_free k) (sb f) + change) (sb f)))).

Fixpoint group_loop (k : bitmap_kind) (n : nat) (g preferred buf : Z) (s : state) : outcome (Z * state) :=
  match n with
  | O => done s buf (-1)
  | S n =>
      let f := fs s in
      let group := u32 (preferred + g) mod group_count f in
      free ← gd_wide f group (k_free_lo k) (k_free_hi k) 16;
      if free =? 0 then group_loop k n (g + 1) preferred buf s
      else
        bb ← get_bitmap k f group;
        r ← ext4_read_block s bb;
        match r with
        | None => group_loop k n (g + 1) preferred buf s
        | Some bitmap =>
            r ← byte_scan (Z.to_nat (k_bytes k f)) bitmap 0 (k_limit k f);
            match r with
            | None => group_loop k n (g + 1) preferred buf s
            | Some i =>
                c ← get bitmap (i / 8);
                bitmap ← put bitmap (i / 8) (Z.lor c (Z.shiftl 1 (i mod 8)));
                let '(ok, s) := ext4_write_block_raw s bb bitmap in
                if negb ok then done s buf (-1)
                else s ← count_free k s group (-1); done s buf (i32 (k_number k f group i))
            end
        end
  end.

Definition alloc_bit (k : bitmap_kind) (s : state) (preferred_group : Z) : outcome (Z * state) :=
  r ← new_buf s;
  let '(buf, s) := r in
  if buf =? 0 then Ok (-1, s) else group_loop k (Z.to_nat (group_count (fs s))) 0 preferred_group buf s.

Definition free_bit (k : bitmap_kind) (s : state) (group index : Z) : outcome (Z * state) :=
  if group_count (fs s) <=? group then Ok (-1, s)
  else
    r ← new_buf s;
    let '(buf, s) := r in
    if buf =? 0 then Ok (-1, s)
    else
      bb ← get_bitmap k (fs s) group;
      r ← ext4_read_block s bb;
      match r with
      | None => done s buf (-1)
      | Some bitmap =>
          c ← get bitmap (index / 8);
          bitmap ← put bitmap (index / 8) (Z.land c (Z.lnot (Z.shiftl 1 (index mod 8))));
          let '(ok, s) := ext4_write_block_raw s bb bitmap in
          if negb ok then done s buf (-1) else s ← count_free k s group 1; done s buf 0
      end.

Definition ext4_alloc_block := alloc_bit block_bitmap.
Definition ext4_alloc_inode := alloc_bit inode_bitmap.

Definition ext4_free_block (s : state) (block : Z) : outcome (Z * state) :=
  let f := fs s in
  let first := rd s_first_data_block (sb f) in
  if block <? first then Ok (-1, s)
  else if blocks_per_group f =? 0 then Fault
  else free_bit block_bitmap s (u32 ((block - first) / blocks_per_group f)) ((block - first) mod blocks_per_group f).

Definition ext4_free_inode (s : state) (ino : Z) : outcome (Z * state) :=
  let f := fs s in
  if ino =? 0 then Ok (-1, s)
  else if inodes_per_group f =? 0 then Fault
  else free_bit inode_bitmap s ((ino - 1) / inodes_per_group f) ((ino - 1) mod inodes_per_group f).

(** ** Inodes *)

(** The block that holds the inode, and where in it. *)
Definition inode_place (f : ext4_fs) (ino : Z) : outcome (option (Z * Z)) :=
  if ino =? 0 then Ok None
  else if inodes_per_group f =? 0 then Fault
  else
    let group := (ino - 1) / inodes_per_group f in
    let index := (ino - 1) mod inodes_per_group f in
    if group_count f <=? group then Ok None
    else
      inode_table ← gd_wide f group bg_inode_table_lo bg_inode_table_hi 32;
      if block_size f =? 0 then Fault
      else let o := u32 (index * inode_size f) in Ok (Some (u64 (inode_table + o / block_size f), o mod block_size f)).

Definition ext4_read_inode (s : state) (ino : Z) : outcome (option (list Z) * state) :=
  pl ← inode_place (fs s) ino;
  match pl with
  | None => Ok (None, s)
  | Some (block, off) =>
      r ← new_buf s;
      let '(buf, s) := r in
      if buf =? 0 then Ok (None, s)
      else
        r ← ext4_read_block s block;
        match r with
        | None => done s buf None
        | Some l => node ← sub l off (Z.of_nat inode_bytes); done s buf (Some node)
        end
  end.

Definition ext4_write_inode (s : state) (ino : Z) (node : list Z) : outcome (bool * state) :=
  pl ← inode_place (fs s) ino;
  match pl with
  | None => Ok (false, s)
  | Some (block, off) =>
      r ← new_buf s;
      let '(buf, s) := r in
      if buf =? 0 then Ok (false, s)
      else
        r ← ext4_read_block s block;
        match r with
        | None => done s buf false
        | Some l => l ← store l off node; let '(ok, s) := ext4_write_block_raw s block l in done s buf ok
        end
  end.

(** ** Block mapping *)

Definition ptrs_per_block (f : ext4_fs) : Z := block_size f / 4.

Definition ext4_get_file_block (s : state) (node : list Z) (file_block : Z) : outcome (Z * state) :=
  let ptrs := ptrs_per_block (fs s) in
  if file_block <? EXT4_NDIR_BLOCKS then Ok (rd (i_block file_block) node, s)
  else
    let file_block := file_block - EXT4_NDIR_BLOCKS in
    if file_block <? ptrs then
      let ind := rd (i_block EXT4_IND_BLOCK) node in
      if ind =? 0 then Ok (0, s)
      else
        r ← new_buf s;
        let '(buf, s) := r in
        if buf =? 0 then Ok (0, s)
        else
          r ← ext4_read_block s ind;
          match r with
          | None => done s buf 0
          | Some indirect => block ← rd_at indirect (4 * file_block) entry; done s buf block
          end
    else
      let file_block := file_block - ptrs in
      if file_block <? u32 (ptrs * ptrs) then
        let dind := rd (i_block EXT4_DIND_BLOCK) node in
        if dind =? 0 then Ok (0, s)
        else
          r ← new_buf s;
          let '(dbuf, s) := r in
          if dbuf =? 0 then Ok (0, s)
          else
            r ← ext4_read_block s dind;
            match r with
            | None => done s dbuf 0
            | Some dl =>
                q ← rd_at dl (4 * (file_block / ptrs)) entry;
                if q =? 0 then done s dbuf 0
                else
                  r ← new_buf s;
                  let '(ibuf, s) := r in
                  if ibuf =? 0 then done s dbuf 0
                  else
                    r ← ext4_read_block s q;
                    match r with
                    | None => s ← free_buf s dbuf; done s ibuf 0
                    | Some il => block ← rd_at il (4 * (file_block mod ptrs)) entry; s ← free_buf s dbuf; done s ibuf block
                    end
            end
      else Ok (0, s).

Definition zeros (n : Z) : list Z := replicate (Z.to_nat n) 0.

(** "Allocate indirect block if needed" *)
Definition need_indirect (s : state) (node : list Z) (group : Z) : outcome (bool * list Z * state) :=
  if rd (i_block EXT4_IND_BLOCK) node =? 0 then
    r ← ext4_alloc_block s group;
    let '(new_block, s) := r in
    if new_block <? 0 then Ok (false, node, s)
    else
      let node := wr (i_block EXT4_IND_BLOCK) new_block node in
      r ← new_buf s;
      let '(zero, s) := r in
      if zero =? 0 then Ok (true, node, s)
      else
        let s := snd (ext4_write_block_raw s new_block (zeros (block_size (fs s)))) in
        s ← free_buf s zero; Ok (true, node, s)
  else Ok (true, node, s).

(** The result, the inode and the state. *)
Definition ext4_set_file_block (s : state) (node : list Z) (file_block disk_block ino : Z) : outcome (bool * list Z * state) :=
  if inodes_per_group (fs s) =? 0 then Fault
  else
    let group := u32 (ino - 1) / inodes_per_group (fs s) in
    if file_block <? EXT4_NDIR_BLOCKS then Ok (true, wr (i_block file_block) disk_block node, s)
    else
      let file_block := file_block - EXT4_NDIR_BLOCKS in
      if file_block <? ptrs_per_block (fs s) then
        r ← need_indirect s node group;
        let '(ok, node, s) := r in
        if negb ok then Ok (false, node, s)
        else
          r ← new_buf s;
          let '(buf, s) := r in
          if buf =? 0 then Ok (false, node, s)
          else
            let ind := rd (i_block EXT4_IND_BLOCK) node in
            r ← ext4_read_block s ind;
            match r with
            | None => r ← done s buf false; let '(ok, s) := r in Ok (ok, node, s)
            | Some indirect =>
                indirect ← wr_at indirect (4 * file_block) entry disk_block;
                let '(ok, s) := ext4_write_block_raw s ind indirect in
                r ← done s buf ok; let '(ok, s) := r in Ok (ok, node, s)
            end
      else Ok (false, node, s).

(** ** Directories *)

(** The size of an entry with a name of [n] bytes. *)
Definition entry_size (n : Z) : Z := Z.land (u16 (8 + n) + 3) (Z.lnot 3).

(** The first entry of a block with [size] unused bytes behind it: its place, its own size, and the number of unused bytes. *)
Fixpoint slack_scan (fuel : nat) (buf : list Z) (block_size offset size : Z) : outcome (option (Z * Z * Z)) :=
  if block_size <=? offset then Ok None
  else
    match fuel with
    | O => NoFuel
    | S fuel =>
        rec_len ← rd_at buf offset de_rec_len;
        if rec_len =? 0 then Ok None
        else
          name_len ← rd_at buf offset de_name_len;
          let actual := entry_size name_len in
          if (actual <? rec_len) && (size <=? rec_len - actual) then Ok (Some (offset, actual, rec_len - actual))
          else slack_scan fuel buf block_size (offset + rec_len) size
    end.

Definition put_entry (buf : list Z) (offset ino rec_len file_type : Z) (name : list Z) : outcome (list Z) :=
  buf ← wr_at buf offset de_inode ino;
  buf ← wr_at buf offset de_rec_len rec_len;
  buf ← wr_at buf offset de_name_len (Z.of_nat (length name));
  buf ← wr_at buf offset de_file_type file_type;
  store buf (offset + 8) name.

(** The blocks [b] on: the result if the entry was added. *)
Fixpoint dir_loop (n : nat) (b : Z) (s : state) (dir : list Z) (size ino file_type : Z) (name : list Z) : outcome (option bool * state) :=
  match n with
  | O => Ok (None, s)
  | S n =>
      r ← ext4_get_file_block s dir b;
      let '(block, s) := r in
      if block =? 0 then dir_loop n (b + 1) s dir size ino file_type name
      else
        r ← ext4_read_block s block;
        match r with
        | None => dir_loop n (b + 1) s dir size ino file_type name
        | Some buf =>
            r ← slack_scan (Z.to_nat (block_size (fs s))) buf (block_size (fs s)) 0 size;
            match r with
            | None => dir_loop n (b + 1) s dir size ino file_type name
            | Some (offset, actual, slack) =>
                buf ← wr_at buf offset de_rec_len actual;
                buf ← put_entry buf (offset + actual) ino slack file_type name;
                let '(ok, s) := ext4_write_block_raw s block buf in
                Ok (Some ok, s)
            end
        end
  end.

(** "No space in existing blocks, allocate a new one": the entry takes all of block [n]. *)
Definition append_entry (s : state) (dir_ino : Z) (dir : list Z) (n ino file_type : Z) (name : list Z) : outcome (bool * state) :=
  let bs := block_size (fs s) in
  r ← ext4_alloc_block s (u32 (dir_ino - 1) / inodes_per_group (fs s));
  let '(new_block, s) := r in
  if new_block <? 0 then Ok (false, s)
  else
    l ← put_entry (zeros bs) 0 ino bs file_type name;
    let '(ok, s) := ext4_write_block_raw s new_block l in
    if negb ok then r ← ext4_free_block s new_block; Ok (false, snd r)
    else
      r ← ext4_set_file_block s dir n new_block dir_ino;
      let '(ok, dir, s) := r in
      if negb (ok : bool) then r ← ext4_free_block s new_block; Ok (false, snd r)
      else
        let dir := wr i_size_lo (rd i_size_lo dir + bs) dir in
        let dir := wr i_blocks_lo (rd i_blocks_lo dir + bs / 512) dir in
        ext4_write_inode s dir_ino dir.

(** [name] without its zero, cut to 255 bytes by the scan for its length. *)
Definition ext4_add_dir_entry (s : state) (dir_ino : Z) (name : list Z) (ino file_type : Z) : outcome (bool * state) :=
  r ← ext4_read_inode s dir_ino;
  let '(dir, s) := r in
  match dir with
  | None => Ok (false, s)
  | Some dir =>
      let bs := block_size (fs s) in
      let name := take 255 name in
      let size := entry_size (Z.of_nat (length name)) in
      r ← new_buf s;
      let '(buf, s) := r in
      if buf =? 0 then Ok (false, s)
      else if bs =? 0 then Fault
      else
        let num_blocks := (rd i_size_lo dir + bs - 1) / bs in
        r ← dir_loop (Z.to_nat num_blocks) 0 s dir size ino file_type name;
        let '(added, s) := r in
        match added with
        | Some ok => done s buf ok
        | None => r ← append_entry s dir_ino dir num_blocks ino file_type name; done (snd r) buf (fst r)
        end
  end.

(** ** Files *)

(** "Get or allocate disk block": the block and what is in the buffer; [None] ends the loop. *)
Definition ready_block (s : state) (ino : Z) (node : list Z) (file_block : Z) : outcome (option (Z * list Z) * list Z * state) :=
  r ← ext4_get_file_block s node file_block;
  let '(disk_block, s) := r in
  if disk_block =? 0 then
    r ← ext4_alloc_block s (u32 (ino - 1) / inodes_per_group (fs s));
    let '(new_block, s) := r in
    if new_block <? 0 then Ok (None, node, s)
    else
      r ← ext4_set_file_block s node file_block new_block ino;
      let '(ok, node, s) := r in
      if negb (ok : bool) then r ← ext4_free_block s new_block; Ok (None, node, snd r)
      else Ok (Some (new_block, zeros (block_size (fs s))), wr i_blocks_lo (rd i_blocks_lo node + block_size (fs s) / 512) node, s)
  else
    r ← ext4_read_block s disk_block;
    Ok (match r with None => None | Some l => Some (disk_block, l) end, node, s).

(** The number of bytes written, and the inode; [src] is what is left to write. *)
Fixpoint write_loop (fuel : nat) (s : state) (ino : Z) (node : list Z) (offset : Z) (src : list Z) (written : Z) : outcome (Z * list Z * state) :=
  match src with
  | [] => Ok (written, node, s)
  | _ :: _ =>
      match fuel with
      | O => NoFuel
      | S fuel =>
          let bs := block_size (fs s) in
          if bs =? 0 then Fault
          else
            let file_block := u64 (offset + written) / bs in
            let block_offset := u64 (offset + written) mod bs in
            r ← ready_block s ino node file_block;
            let '(ready, node, s) := r in
            match ready with
            | None => Ok (written, node, s)
            | Some (disk_block, l) =>
                let to_write := Z.min (bs - block_offset) (Z.of_nat (length src)) in
                l ← store l block_offset (take (Z.to_nat to_write) src);
                let '(ok, s) := ext4_write_block_raw s disk_block l in
                if negb ok then Ok (written, node, s)
                else write_loop fuel s ino node offset (drop (Z.to_nat to_write) src) (written + to_write)
            end
      end
  end.

Definition ext4_write_file (s : state) (ino : Z) (buf : list Z) (offset : Z) : outcome (Z * state) :=
  r ← ext4_read_inode s ino;
  let '(node, s) := r in
  match node with
  | None => Ok (-1, s)
  | Some node =>
      r ← new_buf s;
      let '(block_buf, s) := r in
      if block_buf =? 0 then Ok (-1, s)
      else
        r ← write_loop (length buf) s ino node offset buf 0;
        let '(written, node, s) := r in
        let node := if rd i_size_lo node <? u64 (offset + written) then wr i_size_lo (u64 (offset + written)) node else node in
        let node := wr i_mtime 0 node in
        r ← ext4_write_inode s ino node;
        done (snd r) block_buf (i32 written)
  end.

Fixpoint read_loop (fuel : nat) (s : state) (node : list Z) (offset len : Z) (out : list Z) : outcome (list Z * state) :=
  let bytes_read := Z.of_nat (length out) in
  if len <=? bytes_read then Ok (out, s)
  else
    match fuel with
    | O => NoFuel
    | S fuel =>
        let bs := block_size (fs s) in
        if bs =? 0 then Fault
        else
          let file_block := u64 (offset + bytes_read) / bs in
          let block_offset := u64 (offset + bytes_read) mod bs in
          r ← ext4_get_file_block s node file_block;
          let '(disk_block, s) := r in
          if disk_block =? 0 then Ok (out, s)
          else
            r ← ext4_read_block s disk_block;
            match r with
            | None => Ok (out, s)
            | Some l =>
                piece ← sub l block_offset (Z.min (bs - block_offset) (len - bytes_read));
                read_loop fuel s node offset len (out ++ piece)
            end
    end.

(** The result, and the bytes stored into the caller's buffer of [len] bytes. *)
Definition ext4_read_file (s : state) (ino offset len : Z) : outcome (Z * list Z * state) :=
  r ← ext4_read_inode s ino;
  let '(node, s) := r in
  match node with
  | None => Ok (-1, [], s)
  | Some node =>
      let file_size := rd i_size_lo node in
      if file_size <=? offset then Ok (0, [], s)
      else
        let len := if file_size <? u64 (offset + len) then file_size - offset else len in
        r ← new_buf s;
        let '(block_buf, s) := r in
        if block_buf =? 0 then Ok (-1, [], s)
        else
          r ← read_loop (Z.to_nat len) s node offset len [];
          let '(out, s) := r in
          r ← done s block_buf (i32 (Z.of_nat (length out)));
          let '(n, s) := r in Ok (n, out, s)
  end.

(** "If creating directory, add . and .. entries", and "Update parent link count". *)
Definition add_dots (s : state) (new_ino parent_ino : Z) : outcome state :=
  r ← ext4_add_dir_entry s new_ino [46] new_ino 2;
  r ← ext4_add_dir_entry (snd r) new_ino [46; 46] parent_ino 2;
  r ← ext4_read_inode (snd r) parent_ino;
  let '(parent, s) := r in
  match parent with
  | None => Ok s
  | Some parent => r ← ext4_write_inode s parent_ino (wr i_links_count (rd i_links_count parent + 1) parent); Ok (snd r)
  end.

Definition ext4_create_file (s : state) (parent_ino : Z) (name : list Z) (mode : Z) : outcome (Z * state) :=
  if inodes_per_group (fs s) =? 0 then Fault
  else
    r ← ext4_alloc_inode s (u32 (parent_ino - 1) / inodes_per_group (fs s));
    let '(new_ino, s) := r in
    if new_ino <? 0 then Ok (-1, s)
    else
      let node := wr i_links_count 1 (wr i_mode mode (replicate inode_bytes 0)) in
      r ← ext4_write_inode s new_ino node;
      let '(ok, s) := r in
      if negb (ok : bool) then r ← ext4_free_inode s new_ino; Ok (-1, snd r)
      else
        let is_dir := negb (Z.land mode EXT4_S_IFDIR =? 0) in
        r ← ext4_add_dir_entry s parent_ino name new_ino (if is_dir then 2 else 1);
        let '(ok, s) := r in
        if negb (ok : bool) then r ← ext4_free_inode s new_ino; Ok (-1, snd r)
        else if is_dir then s ← add_dots s new_ino parent_ino; Ok (new_ino, s)
        else Ok (new_ino, s).

Definition ext4_sync_superblock (s : state) : outcome (Z * state) :=
  let bs := block_size (fs s) in
  r ← new_buf s;
  let '(buf, s) := r in
  if buf =? 0 then Ok (-1, s)
  else
    let sb_block := if bs =? 1024 then 1 else 0 in
    r ← ext4_read_block s sb_block;
    match r with
    | None => done s buf (-1)
    | Some l =>
        l ← store l (if bs =? 1024 then 0 else 1024) (sb (fs s));
        let '(ok, s) := ext4_write_block_raw s sb_block l in
        done s buf (if ok then 0 else -1)
    end.

(** The excess blocks from [b] on. *)
Fixpoint truncate_loop (n : nat) (b : Z) (s : state) (node : list Z) : outcome state :=
  match n with
  | O => Ok s
  | S n =>
      r ← ext4_get_file_block s node b;
      let '(disk_block, s) := r in
      s ← (if disk_block =? 0 then Ok s else r ← ext4_free_block s disk_block; Ok (snd r));
      truncate_loop n (b + 1) s node
  end.

(** [ext4_vfs_truncate] of a mounted file system. *)
Definition ext4_truncate (s : state) (ino size : Z) : outcome (Z * state) :=
  r ← ext4_read_inode s ino;
  let '(node, s) := r in
  match node with
  | None => Ok (-1, s)
  | Some node =>
      let bs := block_size (fs s) in
      let old_size := rd i_size_lo node in
      s ← (if size <? old_size then
             if bs =? 0 then Fault
             else
               let new_blocks := u64 (size + bs - 1) / bs in
               truncate_loop (Z.to_nat ((old_size + bs - 1) / bs - new_blocks)) new_blocks s node
           else Ok s);
      r ← ext4_write_inode s ino (wr i_size_hi (Z.shiftr size 32) (wr i_size_lo size node));
      let '(ok, s) := r in Ok (if ok : bool then 0 else -1, s)
  end.

(** Size, mode and number of links. *)
Definition ext4_stat (s : state) (ino : Z) : outcome (option (Z * Z * Z) * state) :=
  r ← ext4_read_inode s ino;
  let '(node, s) := r in
  match node with
  | None => Ok (None, s)
  | Some node => Ok (Some (Z.lor (rd i_size_lo node) (Z.shiftl (rd i_size_hi node) 32), rd i_mode node, rd i_links_count node), s)
  end.
End ext4.

(** ** Mounting *)

Definition sizeof_ext4_fs : Z := 440.

(** [root_ext4], with the heap and the device. *)
Record mounted (A D : Type) := Mounted { root_ext4 : option ext4_fs; m_heap : A; m_disk : D }.
Arguments Mounted {A D}. Arguments root_ext4 {A D}. Arguments m_heap {A D}. Arguments m_disk {A D}.

Section mount.
Context {A D : Type} `{Allocator A} `{BlockDevice D}.
Abbreviation state := (st A D).

(** The descriptors [g] on of a block, copied to the array. *)
Fixpoint copy_descs (n : nat) (g first desc_size : Z) (l descs : list Z) : outcome (list Z) :=
  match n with
  | O => Ok descs
  | S n =>
      src ← sub l (g * desc_size) (Z.min desc_size 64);
      descs ← store descs (64 * u32 (first + g)) src;
      copy_descs n (g + 1) first desc_size l descs
  end.

(** The blocks [b] on; [None] when one cannot be read. *)
Fixpoint descs_loop (n : nat) (b needed gd_block gd_per_block : Z) (s : state) : outcome (option state) :=
  match n with
  | O => Ok (Some s)
  | S n =>
      r ← ext4_read_block s (gd_block + b);
      match r with
      | None => Ok None
      | Some l =>
          let f := fs s in
          let in_block := if b =? needed - 1 then u32 (group_count f - b * gd_per_block) else gd_per_block in
          descs ← copy_descs (Z.to_nat in_block) 0 (b * gd_per_block) (desc_size f) l (group_descs f);
          descs_loop n (b + 1) needed gd_block gd_per_block (with_fs s (with_descs f descs))
      end
  end.

(** What the superblock says; the descriptors at [q] are not read yet. *)
Definition read_geometry (b : list Z) (p : Z) : outcome ext4_fs :=
  let log := rd s_log_block_size b in
  if 21 <=? log then Fault
  else
    let wide := negb (Z.land (rd s_feature_incompat b) EXT4_FEATURE_INCOMPAT_64BIT =? 0) in
    let total := if wide then Z.lor (rd s_blocks_count_lo b) (Z.shiftl (rd s_blocks_count_hi b) 32) else rd s_blocks_count_lo b in
    let bpg := rd s_blocks_per_group b in
    if bpg =? 0 then Fault
    else
      Ok (Ext4 b (Z.shiftl 1024 log) bpg (rd s_inodes_per_group b)
        (if EXT4_DYNAMIC_REV <=? rd s_rev_level b then rd s_inode_size b else 128)
        (u32 (u64 (total + bpg - 1) / bpg)) (if wide then rd s_desc_size b else 32) [] p 0).

Definition free2 (h : A) (p q : Z) : outcome A := h ← a_kfree h p; a_kfree h q.

(** [junk] is what the array of descriptors holds before it is filled. *)
Definition ext4_mount (junk : nat -> list Z) (m : mounted A D) : outcome (Z * mounted A D) :=
  r ← a_kmalloc (m_heap m) sizeof_ext4_fs GFP_KERNEL;
  let '(p, h) := r in
  let m := Mounted (root_ext4 m) h (m_disk m) in
  if p =? 0 then Ok (-1, m)
  else
    let fail h := Ok (-1, Mounted (root_ext4 m) h (m_disk m)) in
    match dv_read (m_disk m) 1 with
    | None => h ← a_kfree h p; fail h
    | Some sb_buf =>
        if negb (Z.of_nat (length sb_buf) =? 1024) then Fault
        else
          let b := take superblock_size sb_buf in
          if negb (rd s_magic b =? EXT4_SUPER_MAGIC) then h ← a_kfree h p; fail h
          else
            f ← read_geometry b p;
            let gd_size := u32 (group_count f * desc_size f) in
            r ← a_kmalloc h gd_size GFP_KERNEL;
            let '(q, h) := r in
            if q =? 0 then h ← a_kfree h p; fail h
            else
              let f := Ext4 (sb f) (block_size f) (blocks_per_group f) (inodes_per_group f) (inode_size f) (group_count f) (desc_size f)
                         (junk (Z.to_nat gd_size)) p q in
              r ← a_kmalloc h (block_size f) GFP_KERNEL;
              let '(gd_buf, h) := r in
              if gd_buf =? 0 then h ← free2 h q p; fail h
              else if desc_size f =? 0 then Fault
              else
                let gd_per_block := block_size f / desc_size f in
                if gd_per_block =? 0 then Fault
                else
                  let needed := u32 (group_count f + gd_per_block - 1) / gd_per_block in
                  r ← descs_loop (Z.to_nat needed) 0 needed (if block_size f =? 1024 then 2 else 1) gd_per_block (St f h (m_disk m));
                  h ← a_kfree h gd_buf;
                  match r with
                  | None => h ← free2 h q p; fail h
                  | Some s => Ok (0, Mounted (Some (fs s)) h (m_disk m))
                  end
    end.

(** An operation of the mounted file system. *)
Definition on_root {R} (m : mounted A D) (none : R) (op : state -> outcome (R * state)) : outcome (R * mounted A D) :=
  match root_ext4 m with
  | None => Ok (none, m)
  | Some f => r ← op (St f (m_heap m) (m_disk m)); let '(v, s) := r in Ok (v, Mounted (Some (fs s)) (heap s) (disk s))
  end.

Definition ext4_unmount (m : mounted A D) : outcome (Z * mounted A D) :=
  match root_ext4 m with
  | None => Ok (0, m)
  | Some f =>
      r ← ext4_sync_superblock (St f (m_heap m) (m_disk m));
      let '(_, s) := r in
      h ← (if descs_addr (fs s) =? 0 then Ok (heap s) else a_kfree (heap s) (descs_addr (fs s)));
      h ← a_kfree h (fs_addr (fs s));
      Ok (0, Mounted None h (disk s))
  end.

Definition ext4_vfs_read (m : mounted A D) (ino offset len : Z) : outcome (Z * list Z * mounted A D) :=
  on_root m (-1, []) (fun s => ext4_read_file s ino offset len).
Definition ext4_vfs_write (m : mounted A D) (ino : Z) (buf : list Z) (offset : Z) : outcome (Z * mounted A D) :=
  on_root m (-1) (fun s => ext4_write_file s ino buf offset).
Definition ext4_vfs_create (m : mounted A D) (parent_ino : Z) (name : list Z) (mode : Z) : outcome (Z * mounted A D) :=
  on_root m (-1) (fun s => ext4_create_file s parent_ino name mode).
Definition ext4_vfs_mkdir (m : mounted A D) (parent_ino : Z) (name : list Z) (mode : Z) : outcome (Z * mounted A D) :=
  on_root m (-1) (fun s => ext4_create_file s parent_ino name (Z.lor mode EXT4_S_IFDIR)).
Definition ext4_vfs_unlink (m : mounted A D) (parent_ino : Z) (name : list Z) : Z := -1.
Definition ext4_vfs_truncate (m : mounted A D) (ino size : Z) : outcome (Z * mounted A D) :=
  on_root m (-1) (fun s => ext4_truncate s ino size).
Definition ext4_vfs_sync (m : mounted A D) : outcome (Z * mounted A D) := on_root m (-1) ext4_sync_superblock.
Definition ext4_vfs_stat (m : mounted A D) (ino : Z) : outcome (option (Z * Z * Z) * mounted A D) :=
  on_root m None (fun s => ext4_stat s ino).
End mount.
