(* ===== verification/Ext4Total.v ===== *)
(** * The ext4 driver: termination, and the memory it takes

    Whatever is on the disk, an operation of the driver ends, and when it does not fault it gave back
    every buffer it allocated, on each of its paths.  Nothing is assumed of the file system here. *)
From S2P Require Import Prelude AllocSpec Buffer Ext4.
#[local] Open Scope Z_scope.

(** The outcome is not that of a loop that goes on; a result has [P]. *)
Definition safe {X} (P : X -> Prop) (o : outcome X) : Prop := match o with Ok x => P x | Fault => True | NoFuel => False end.
Abbreviation total := (safe (fun _ => True)).

Lemma safe_bind {X Y} (P : X -> Prop) (Q : Y -> Prop) (o : outcome X) (f : X -> outcome Y) : safe P o -> (forall x, P x -> safe Q (f x)) -> safe Q (o ≫= f).
Proof. destruct o; cbn; auto. Qed.

Lemma safe_mono {X} (P Q : X -> Prop) (o : outcome X) : safe P o -> (forall x, P x -> Q x) -> safe Q o.
Proof. destruct o; cbn; auto. Qed.

(** The accesses to memory. *)
Create HintDb total.
Lemma get_total buf p : total (get buf p).
Proof. unfold get. destruct (p <? 0); [done|]. by destruct (buf !! _). Qed.
Lemma put_total buf p c : total (put buf p c).
Proof. unfold put. by destruct (_ && _). Qed.
Lemma sub_total buf p n : total (sub buf p n).
Proof. unfold sub. by destruct (_ && _). Qed.
Lemma store_total buf p l : total (store buf p l).
Proof. unfold store. by destruct (_ && _). Qed.
Lemma rd_at_total buf p f : total (rd_at buf p f).
Proof. unfold rd_at. by destruct (_ && _). Qed.
Lemma wr_at_total buf p f v : total (wr_at buf p f v).
Proof. unfold wr_at. by destruct (_ && _). Qed.
#[export] Hint Resolve get_total put_total sub_total store_total rd_at_total wr_at_total : total.

Lemma gd_wide_total f g lo hi bits : total (gd_wide f g lo hi bits).
Proof. unfold gd_wide, gd_get. apply (safe_bind (fun _ => True)); auto with total. intros v _. destruct (_ <=? _); [|done]. apply (safe_bind (fun _ => True)); auto with total. Qed.
Lemma get_bitmap_total k f g : total (get_bitmap k f g).
Proof. unfold get_bitmap. destruct (_ <=? _); [done|apply gd_wide_total]. Qed.
Lemma inode_place_total f ino : total (inode_place f ino).
Proof. unfold inode_place. repeat (destruct (_ =? _); [done|]). cbv zeta. destruct (_ <=? _); [done|]. apply (safe_bind (fun _ => True)); [apply gd_wide_total|]. intros v _. by destruct (_ =? _). Qed.
Lemma byte_scan_total n : forall bitmap byte limit, total (byte_scan n bitmap byte limit).
Proof.
  induction n as [|n IH]; intros; cbn [byte_scan]; [done|]. apply (safe_bind (fun _ => True)); auto with total. intros c _. destruct (_ =? _); [apply IH|].
  destruct (bit_scan 8 c 0); [|apply IH]. destruct (_ <=? _); [apply IH|done].
Qed.
Lemma put_entry_total buf o ino len type name : total (put_entry buf o ino len type name).
Proof. unfold put_entry. repeat (apply (safe_bind (fun _ => True)); [auto with total|intros ? _]). apply store_total. Qed.
#[export] Hint Resolve gd_wide_total get_bitmap_total inode_place_total byte_scan_total put_entry_total : total.

(** The scan of a block of entries moves on by the length of an entry, which is not 0. *)
Lemma slack_scan_total fuel : forall buf n o size, Forall byte buf -> 0 <= o -> n - o <= Z.of_nat fuel -> total (slack_scan fuel buf n o size).
Proof.
  induction fuel as [|fuel IH]; intros buf n o size Hb Ho Hf; cbn [slack_scan]; (destruct (Z.leb_spec n o); [done|]); [lia|].
  apply (safe_bind (fun len => 0 <= len)).
  - unfold rd_at. destruct (_ && _) eqn:Hin; cbn [safe]; [|done]. apply (rd_range (shift o de_rec_len)); [|done]. apply andb_prop in Hin as [? Hl]. b2p. unfold inside, shift. cbn in *. lia.
  - intros len Hlen. destruct (Z.eqb_spec len 0); [done|]. apply (safe_bind (fun _ => True)); auto with total. intros m _. cbv zeta. destruct (_ && _); [done|]. apply IH; [done|lia|lia].
Qed.

Section ends.
Context {A D : Type} `{AllocatorLaws A} `{BlockDevice D}.
Hypothesis device_bytes : forall (d : D) b l, dv_read d b = Some l -> Forall byte l.
Abbreviation state := (st A D).

(** From [s] to [s'] the heap lost and kept nothing. *)
Definition tidy (s s' : state) : Prop := a_inv (heap s') /\ cap_same (a_cap (heap s)) (a_cap (heap s')) /\ block_size (fs s') = block_size (fs s).
Definition fit (s : state) : Prop := a_inv (heap s) /\ 0 <= block_size (fs s).
(** One more allocation is live, at [p]. *)
Definition holding (s : state) (p : Z) (s' : state) : Prop :=
  a_inv (heap s') /\ a_cap (heap s) p = None /\ (exists c, cap_update (a_cap (heap s)) (a_cap (heap s')) p (Some c)) /\ block_size (fs s') = block_size (fs s).
(** The operation ends, and leaves the heap as it was. *)
Definition ends {R} (s : state) (o : outcome (R * state)) : Prop := safe (fun x => tidy s (snd x)) o.

Lemma tidy_refl s : fit s -> tidy s s.
Proof using Type. intros [Hi _]. by split. Qed.
Lemma tidy_trans s1 s2 s3 : tidy s1 s2 -> tidy s2 s3 -> tidy s1 s3.
Proof using Type. intros (_ & C1 & B1) (I2 & C2 & B2). split; [done|]. split; [|congruence]. intros q. by rewrite C2. Qed.
Lemma tidy_fit s s' : fit s -> tidy s s' -> fit s'.
Proof using Type. intros [_ Hb] (Hi & _ & E). split; [done|]. by rewrite E. Qed.
Lemma holding_tidy s p s1 s2 : holding s p s1 -> tidy s1 s2 -> holding s p s2.
Proof using Type. intros (_ & Hn & (c & Hc) & B) (Hi & C & B'). split; [done|]. split; [done|]. split; [|congruence]. exists c. intros q. by rewrite C, Hc. Qed.
Lemma holding_fit s p s' : fit s -> holding s p s' -> fit s'.
Proof using Type. intros [_ Hb] (Hi & _ & _ & E). split; [done|]. by rewrite E. Qed.
Lemma ends_from {R} s s1 (o : outcome (R * state)) : tidy s s1 -> ends s1 o -> ends s o.
Proof using Type. intros Ht Ho. eapply safe_mono; [exact Ho|]. intros x Hx. by eapply tidy_trans. Qed.

(** ** Binds *)

Lemma bind_total {X Y} (P : Y -> Prop) (o : outcome X) (f : X -> outcome Y) : total o -> (forall x, safe P (f x)) -> safe P (o ≫= f).
Proof using Type. intros Ho Hf. eapply safe_bind; [exact Ho|auto]. Qed.

Lemma bind_ends {X Y} (P : Y -> Prop) s1 (o : outcome (X * state)) (f : X * state -> outcome Y) : ends s1 o -> (forall x s2, tidy s1 s2 -> safe P (f (x, s2))) -> safe P (o ≫= f).
Proof using Type. intros Ho Hf. eapply safe_bind; [exact Ho|]. intros [x s2] Ht. by apply Hf. Qed.

Lemma bind_new_buf {Y} (P : Y -> Prop) s1 (f : Z * state -> outcome Y) : fit s1 -> (forall s2, tidy s1 s2 -> safe P (f (0, s2))) ->
  (forall p s2, (p =? 0) = false -> holding s1 p s2 -> safe P (f (p, s2))) -> safe P (new_buf s1 ≫= f).
Proof using Type*.
  intros [Hi Hb] Hz Hp. unfold new_buf. destruct (law_alloc (heap s1) (block_size (fs s1)) GFP_KERNEL Hi Hb) as (p & h & E & Hih & Hr). rewrite E. cbn [mbind outcome_bind].
  destruct Hr as [[-> Hc]|(Hne & Hn & c & _ & Hc)]; [by apply Hz|]. apply Hp; [by apply Z.eqb_neq|]. split; [done|]. split; [done|]. split; [by exists c|done].
Qed.

Lemma free_buf_tidy s p s1 : holding s p s1 -> exists s2, free_buf s1 p = Ok s2 /\ tidy s s2.
Proof using Type*.
  intros (Hi & Hn & (c & Hc) & B). destruct (law_free (heap s1) p c Hi) as (h & E & Hih & Hu); [by rewrite Hc, decide_True|].
  exists (with_heap s1 h). unfold free_buf. rewrite E. split; [done|]. split; [done|]. split; [|done]. by apply (cap_update_undo _ (a_cap (heap s1)) _ p c).
Qed.

Lemma done_ends {R} s p s1 (r : R) : holding s p s1 -> ends s (done s1 p r).
Proof using Type*. intros Hh. destruct (free_buf_tidy s p s1 Hh) as (s2 & E & Ht). unfold done. by rewrite E. Qed.

(** The first of two buffers is freed. *)
Lemma free_first s p s1 q s2 : holding s p s1 -> holding s1 q s2 -> exists s3, free_buf s2 p = Ok s3 /\ holding s q s3.
Proof using Type*.
  intros (_ & Hn & (c & Hc) & B) (Hi & Hn' & (c' & Hc') & B'). assert (p <> q) as Hne by (intros ->; by rewrite Hc, decide_True in Hn').
  destruct (law_free (heap s2) p c Hi) as (h & E & Hih & Hu); [by rewrite Hc', decide_False, Hc, decide_True|]. exists (with_heap s2 h). unfold free_buf. rewrite E. split; [done|].
  split; [done|]. split; [by rewrite Hc, decide_False in Hn'|]. split; [|cbn; congruence]. exists c'. intros x. cbn [heap with_heap]. rewrite Hu, Hc', Hc.
  destruct (decide (x = p)) as [->|]; [by rewrite decide_False, Hn|done].
Qed.

Lemma write_tidy (s : state) b l : fit s -> tidy s (snd (ext4_write_block_raw s b l)).
Proof using Type. intros Hf. unfold ext4_write_block_raw. destruct (dv_write _ _ _); by apply tidy_refl in Hf. Qed.

Lemma read_block_safe (s : state) b : safe (fun r => match r with Some l => Forall byte l /\ Z.of_nat (length l) = block_size (fs s) | None => True end) (ext4_read_block s b).
Proof using device_bytes.
  unfold ext4_read_block. destruct (dv_read (disk s) b) as [l|] eqn:E; [|done]. destruct (Z.eqb_spec (Z.of_nat (length l)) (block_size (fs s))); [|done]. split; [by apply (device_bytes (disk s) b)|done].
Qed.

Lemma read_block_total (s : state) b : total (ext4_read_block s b).
Proof using device_bytes. eapply safe_mono; [apply read_block_safe|done]. Qed.

(** ** Bitmaps *)

Lemma count_free_safe k (s : state) g c : fit s -> safe (fun s' => tidy s s') (count_free k s g c).
Proof using Type.
  intros Hf. unfold count_free, gd_get, gd_set. apply bind_total; [auto with total|]. intros v. apply (safe_bind (fun f => block_size f = block_size (fs s))).
  - apply bind_total; [auto with total|]. by intros d.
  - intros f Hb. split; [apply Hf|]. by split.
Qed.

(** Reading a block into a buffer, and what follows. *)
Lemma bind_read {Y} (P : Y -> Prop) (s : state) b (f : option (list Z) -> outcome Y) : safe P (f None) ->
  (forall l, Forall byte l -> Z.of_nat (length l) = block_size (fs s) -> safe P (f (Some l))) -> safe P (ext4_read_block s b ≫= f).
Proof using device_bytes. intros Hn Hs. eapply safe_bind; [apply read_block_safe|]. intros [l|]; [|done]. intros [Hb Hl]. by apply Hs. Qed.

Lemma group_loop_ends k n : forall g pref buf s0 (s : state), fit s -> holding s0 buf s -> ends s0 (group_loop k n g pref buf s).
Proof using Type*.
  induction n as [|n IH]; intros g pref buf s0 s Hf Hh; cbn [group_loop]; [by apply done_ends|]. cbv zeta. apply bind_total; [auto with total|]. intros free. destruct (free =? 0); [by apply IH|].
  apply bind_total; [auto with total|]. intros bb. apply bind_read; [by apply IH|]. intros l _ _. apply bind_total; [auto with total|]. intros [i|]; [|by apply IH].
  apply bind_total; [auto with total|]. intros c. apply bind_total; [auto with total|]. intros m. pose proof (write_tidy s bb m Hf) as Ht. destruct (ext4_write_block_raw s bb m) as [ok s1]. cbn [snd] in Ht.
  pose proof (holding_tidy _ _ _ _ Hh Ht) as Hh1. destruct ok; cbn [negb]; [|by apply done_ends]. eapply safe_bind; [apply count_free_safe; by eapply tidy_fit|].
  intros s2 Ht2. apply done_ends. by eapply holding_tidy.
Qed.

Lemma alloc_bit_ends k (s : state) pref : fit s -> ends s (alloc_bit k s pref).
Proof using Type*.
  intros Hf. unfold alloc_bit. apply bind_new_buf; [done|by intros s2 Ht|]. intros p s2 Hp Hh. rewrite Hp. apply group_loop_ends; [|done]. by eapply holding_fit.
Qed.

Lemma free_bit_ends k (s : state) g i : fit s -> ends s (free_bit k s g i).
Proof using Type*.
  intros Hf. unfold free_bit. destruct (_ <=? g); [by apply tidy_refl|]. apply bind_new_buf; [done|by intros s2 Ht|]. intros p s2 Hp Hh. rewrite Hp. pose proof (holding_fit _ _ _ Hf Hh) as Hf2.
  apply bind_total; [auto with total|]. intros bb. apply bind_read; [by apply done_ends|]. intros l _ _. apply bind_total; [auto with total|]. intros c. apply bind_total; [auto with total|]. intros m.
  pose proof (write_tidy s2 bb m Hf2) as Ht. destruct (ext4_write_block_raw s2 bb m) as [ok s3]. cbn [snd] in Ht. pose proof (holding_tidy _ _ _ _ Hh Ht) as Hh1.
  destruct ok; cbn [negb]; [|by apply done_ends]. eapply safe_bind; [apply count_free_safe; by eapply tidy_fit|]. intros s4 Ht4. apply done_ends. by eapply holding_tidy.
Qed.

Lemma free_block_ends (s : state) b : fit s -> ends s (ext4_free_block s b).
Proof using Type*. intros Hf. unfold ext4_free_block. cbv zeta. destruct (_ <? _); [by apply tidy_refl|]. destruct (_ =? 0); [done|by apply free_bit_ends]. Qed.

Lemma free_inode_ends (s : state) i : fit s -> ends s (ext4_free_inode s i).
Proof using Type*. intros Hf. unfold ext4_free_inode. cbv zeta. destruct (_ =? _); [by apply tidy_refl|]. destruct (_ =? 0); [done|by apply free_bit_ends]. Qed.

(** ** Inodes *)

Lemma read_inode_ends (s : state) ino : fit s -> ends s (ext4_read_inode s ino).
Proof using Type*.
  intros Hf. unfold ext4_read_inode. apply bind_total; [auto with total|]. intros [[b off]|]; [|by apply tidy_refl]. apply bind_new_buf; [done|by intros s2 Ht|]. intros p s2 Hp Hh. rewrite Hp.
  apply bind_read; [by apply done_ends|]. intros l _ _. apply bind_total; [auto with total|]. intros nd. by apply done_ends.
Qed.

(** A write, and the end of an operation that holds a buffer. *)
Lemma write_done {R} s p (s1 : state) b l (r : bool -> R) : fit s1 -> holding s p s1 -> ends s (let '(ok, s2) := ext4_write_block_raw s1 b l in done s2 p (r ok)).
Proof using Type*.
  intros Hf Hh. pose proof (write_tidy s1 b l Hf) as Ht. destruct (ext4_write_block_raw s1 b l) as [ok s2]. apply done_ends. by eapply holding_tidy.
Qed.

Lemma write_inode_ends (s : state) ino nd : fit s -> ends s (ext4_write_inode s ino nd).
Proof using Type*.
  intros Hf. unfold ext4_write_inode. apply bind_total; [auto with total|]. intros [[b off]|]; [|by apply tidy_refl]. apply bind_new_buf; [done|by intros s2 Ht|]. intros p s2 Hp Hh. rewrite Hp.
  apply bind_read; [by apply done_ends|]. intros l _ _. apply bind_total; [auto with total|]. intros l'. apply write_done; [by eapply holding_fit|done].
Qed.

(** ** Block maps *)

Lemma get_file_block_ends (s : state) nd n : fit s -> ends s (ext4_get_file_block s nd n).
Proof using Type*.
  intros Hf. unfold ext4_get_file_block. cbv zeta. destruct (_ <? _); [by apply tidy_refl|]. destruct (_ <? _).
  - destruct (_ =? 0); [by apply tidy_refl|]. apply bind_new_buf; [done|by intros s2 Ht|]. intros p s2 Hp Hh. rewrite Hp. apply bind_read; [by apply done_ends|].
    intros l _ _. apply bind_total; [auto with total|]. intros b. by apply done_ends.
  - destruct (_ <? _); [|by apply tidy_refl]. destruct (_ =? 0); [by apply tidy_refl|]. apply bind_new_buf; [done|by intros s2 Ht|]. intros p s2 Hp Hh. rewrite Hp.
    apply bind_read; [by apply done_ends|]. intros l _ _. apply bind_total; [auto with total|]. intros q. destruct (q =? 0); [by apply done_ends|]. pose proof (holding_fit _ _ _ Hf Hh) as Hf2.
    apply bind_new_buf; [done|intros s3 Ht; apply done_ends; by eapply holding_tidy|]. intros p' s3 Hp' Hh'. rewrite Hp'. destruct (free_first s p s2 p' s3 Hh Hh') as (s4 & E & Hh4).
    apply bind_read; [rewrite E; by apply done_ends|]. intros il _ _. apply bind_total; [auto with total|]. intros b. rewrite E. by apply done_ends.
Qed.

Lemma need_indirect_ends (s : state) nd g : fit s -> ends s (need_indirect s nd g).
Proof using Type*.
  intros Hf. unfold need_indirect. destruct (_ =? 0); [|by apply tidy_refl]. eapply bind_ends; [by apply alloc_bit_ends|]. intros b s1 Ht1. destruct (b <? 0); [done|]. cbv zeta.
  pose proof (tidy_fit _ _ Hf Ht1) as Hf1. apply bind_new_buf; [done|intros s2 Ht; by eapply tidy_trans|]. intros p s2 Hp Hh. rewrite Hp. pose proof (holding_fit _ _ _ Hf1 Hh) as Hf2.
  pose proof (holding_tidy _ _ _ _ Hh (write_tidy s2 b (zeros (block_size (fs s2))) Hf2)) as Hh3. destruct (free_buf_tidy _ _ _ Hh3) as (s4 & E & Ht4). rewrite E. by eapply tidy_trans.
Qed.

Lemma set_file_block_ends (s : state) nd n b ino : fit s -> ends s (ext4_set_file_block s nd n b ino).
Proof using Type*.
  intros Hf. unfold ext4_set_file_block. destruct (_ =? 0); [done|]. cbv zeta. destruct (_ <? _); [by apply tidy_refl|]. destruct (_ <? _); [|by apply tidy_refl].
  eapply bind_ends; [by apply need_indirect_ends|]. intros [ok nd'] s1 Ht1. destruct ok; cbn [negb]; [|done]. pose proof (tidy_fit _ _ Hf Ht1) as Hf1.
  apply bind_new_buf; [done|intros s2 Ht; by eapply tidy_trans|]. intros p s2 Hp Hh. rewrite Hp. pose proof (holding_fit _ _ _ Hf1 Hh) as Hf2. apply bind_read.
  - eapply bind_ends; [by apply done_ends|]. intros r s3 Ht3. by eapply tidy_trans.
  - intros l _ _. apply bind_total; [auto with total|]. intros l'. pose proof (write_tidy s2 (rd (i_block EXT4_IND_BLOCK) nd') l' Hf2) as Ht. destruct (ext4_write_block_raw s2 _ l') as [ok s3].
    eapply bind_ends; [apply done_ends; by eapply holding_tidy|]. intros r s4 Ht4. by eapply tidy_trans.
Qed.

(** ** Directories *)

Lemma dir_loop_ends n : forall b (s : state) dir size ino type name, fit s -> ends s (dir_loop n b s dir size ino type name).
Proof using Type*.
  induction n as [|n IH]; intros b s dir size ino type name Hf; cbn [dir_loop]; [by apply tidy_refl|]. eapply bind_ends; [by apply get_file_block_ends|]. intros block s1 Ht1.
  pose proof (tidy_fit _ _ Hf Ht1) as Hf1. assert (ends s (dir_loop n (b + 1) s1 dir size ino type name)) as Hnext by (eapply ends_from; [done|by apply IH]).
  destruct (block =? 0); [done|]. apply bind_read; [done|]. intros buf Hb Hl. eapply safe_bind; [apply slack_scan_total; [done|lia|destruct Hf1; lia]|]. intros [[[o a] sl]|] _; [|done].
  apply bind_total; [auto with total|]. intros b1. apply bind_total; [auto with total|]. intros b2. pose proof (write_tidy s1 block b2 Hf1) as Ht. destruct (ext4_write_block_raw s1 block b2) as [ok s2].
  by eapply tidy_trans.
Qed.

Lemma append_entry_ends (s : state) dir_ino dir n ino type name : fit s -> ends s (append_entry s dir_ino dir n ino type name).
Proof using Type*.
  intros Hf. unfold append_entry. cbv zeta. eapply bind_ends; [by apply alloc_bit_ends|]. intros b s1 Ht1. destruct (b <? 0); [done|]. pose proof (tidy_fit _ _ Hf Ht1) as Hf1.
  apply bind_total; [auto with total|]. intros l. pose proof (write_tidy s1 b l Hf1) as Ht. destruct (ext4_write_block_raw s1 b l) as [ok s2]. cbn [snd] in Ht. pose proof (tidy_trans _ _ _ Ht1 Ht) as Ht2.
  pose proof (tidy_fit _ _ Hf Ht2) as Hf2. destruct ok; cbn [negb].
  - eapply bind_ends; [by apply set_file_block_ends|]. intros [ok nd] s3 Ht3. pose proof (tidy_trans _ _ _ Ht2 Ht3) as Ht03. pose proof (tidy_fit _ _ Hf Ht03) as Hf3. destruct ok; cbn [negb].
    + eapply ends_from; [exact Ht03|by apply write_inode_ends].
    + eapply bind_ends; [by apply free_block_ends|]. intros r s4 Ht4. by eapply tidy_trans.
  - eapply bind_ends; [by apply free_block_ends|]. intros r s4 Ht4. by eapply tidy_trans.
Qed.

Lemma add_dir_entry_ends (s : state) dir name ino type : fit s -> ends s (ext4_add_dir_entry s dir name ino type).
Proof using Type*.
  intros Hf. unfold ext4_add_dir_entry. eapply bind_ends; [by apply read_inode_ends|]. intros [nd|] s1 Ht1; [|done]. cbv zeta. pose proof (tidy_fit _ _ Hf Ht1) as Hf1.
  apply bind_new_buf; [done|intros s2 Ht; by eapply tidy_trans|]. intros p s2 Hp Hh. rewrite Hp. cbv iota. destruct (block_size (fs s1) =? 0); [done|]. pose proof (holding_fit _ _ _ Hf1 Hh) as Hf2.
  eapply bind_ends; [by apply dir_loop_ends|]. intros r s3 Ht3. pose proof (holding_tidy _ _ _ _ Hh Ht3) as Hh3. destruct r as [ok|]; [eapply ends_from; [exact Ht1|by apply done_ends]|].
  eapply bind_ends; [apply append_entry_ends; by eapply tidy_fit|]. intros ok s4 Ht4. eapply ends_from; [exact Ht1|]. apply done_ends. by eapply holding_tidy.
Qed.

(** ** Files *)

Lemma ready_block_ends (s : state) ino nd n : fit s -> ends s (ready_block s ino nd n).
Proof using Type*.
  intros Hf. unfold ready_block. eapply bind_ends; [by apply get_file_block_ends|]. intros b s1 Ht1. pose proof (tidy_fit _ _ Hf Ht1) as Hf1. destruct (b =? 0); [|apply bind_read; [done|by intros]].
  eapply bind_ends; [by apply alloc_bit_ends|]. intros b' s2 Ht2. pose proof (tidy_trans _ _ _ Ht1 Ht2) as Ht02. pose proof (tidy_fit _ _ Hf1 Ht2) as Hf2. destruct (b' <? 0); [done|].
  eapply bind_ends; [by apply set_file_block_ends|]. intros [ok nd'] s3 Ht3. pose proof (tidy_trans _ _ _ Ht02 Ht3) as Ht03. destruct ok; cbn [negb]; [done|].
  eapply bind_ends; [apply free_block_ends; by eapply tidy_fit|]. intros r s4 Ht4. by eapply tidy_trans.
Qed.

(** Each round stores a byte at least. *)
Lemma write_loop_ends fuel : forall (s : state) ino nd offset src written, fit s -> (length src <= fuel)%nat -> ends s (write_loop fuel s ino nd offset src written).
Proof using Type*.
  induction fuel as [|fuel IH]; intros s ino nd offset src written Hf Hl; (destruct src as [|c src]; [by apply tidy_refl|]); [cbn in Hl; lia|]. cbn [write_loop]. cbv zeta.
  destruct (Z.eqb_spec (block_size (fs s)) 0); [done|]. eapply bind_ends; [by apply ready_block_ends|]. intros [r nd'] s1 Ht1. pose proof (tidy_fit _ _ Hf Ht1) as Hf1. destruct r as [[b l]|]; [|done].
  apply bind_total; [auto with total|]. intros l'. pose proof (write_tidy s1 b l' Hf1) as Ht. destruct (ext4_write_block_raw s1 b l') as [ok s2]. cbn [snd] in Ht. pose proof (tidy_trans _ _ _ Ht1 Ht) as Ht2.
  destruct ok; cbn [negb]; [|done]. eapply ends_from; [exact Ht2|]. apply IH; [by eapply tidy_fit|]. rewrite length_drop. destruct Hf as [_ Hb].
  pose proof (Z.mod_pos_bound (u64 (offset + written)) (block_size (fs s))). cbn [length] in *. lia.
Qed.

Lemma write_file_ends (s : state) ino src offset : fit s -> ends s (ext4_write_file s ino src offset).
Proof using Type*.
  intros Hf. unfold ext4_write_file. eapply bind_ends; [by apply read_inode_ends|]. intros [nd|] s1 Ht1; [|done]. pose proof (tidy_fit _ _ Hf Ht1) as Hf1.
  apply bind_new_buf; [done|intros s2 Ht; by eapply tidy_trans|]. intros p s2 Hp Hh. rewrite Hp. pose proof (holding_fit _ _ _ Hf1 Hh) as Hf2.
  eapply bind_ends; [by apply write_loop_ends|]. intros [k nd'] s3 Ht3. cbv zeta. eapply bind_ends; [apply write_inode_ends; by eapply tidy_fit|]. intros ok s4 Ht4.
  eapply ends_from; [exact Ht1|]. apply done_ends. eapply holding_tidy; [exact Hh|]. by eapply tidy_trans.
Qed.

Lemma read_loop_ends fuel : forall (s : state) nd offset len out, fit s -> len - Z.of_nat (length out) <= Z.of_nat fuel -> ends s (read_loop fuel s nd offset len out).
Proof using Type*.
  induction fuel as [|fuel IH]; intros s nd offset len out Hf Hl; cbn [read_loop]; cbv zeta; (destruct (Z.leb_spec len (Z.of_nat (length out))); [by apply tidy_refl|]); [lia|].
  destruct (Z.eqb_spec (block_size (fs s)) 0); [done|]. eapply bind_ends; [by apply get_file_block_ends|]. intros b s1 Ht1. pose proof (tidy_fit _ _ Hf Ht1) as Hf1. destruct (b =? 0); [done|].
  apply bind_read; [done|]. intros l _ _. destruct Hf as [_ Hb]. pose proof (Z.mod_pos_bound (u64 (offset + Z.of_nat (length out))) (block_size (fs s))).
  set (k := Z.min _ _). apply (safe_bind (fun piece => Z.of_nat (length piece) = k)).
  - unfold sub. destruct (_ && _) eqn:E; [|done]. apply andb_prop in E as [E1 E3]. apply andb_prop in E1 as [E1 E2]. b2p. cbn [safe]. rewrite slice_length by lia. lia.
  - intros piece Hp. eapply ends_from; [exact Ht1|]. apply IH; [done|]. rewrite length_app. lia.
Qed.

Lemma read_file_ends (s : state) ino offset len : fit s -> ends s (ext4_read_file s ino offset len).
Proof using Type*.
  intros Hf. unfold ext4_read_file. eapply bind_ends; [by apply read_inode_ends|]. intros [nd|] s1 Ht1; [|done]. pose proof (tidy_fit _ _ Hf Ht1) as Hf1. cbv zeta. destruct (_ <=? _); [done|].
  apply bind_new_buf; [done|intros s2 Ht; by eapply tidy_trans|]. intros p s2 Hp Hh. rewrite Hp. pose proof (holding_fit _ _ _ Hf1 Hh) as Hf2. set (n := if _ <? _ then _ else _).
  eapply bind_ends; [apply read_loop_ends; [done|cbn; lia]|]. intros out s3 Ht3. eapply bind_ends; [apply done_ends; by eapply holding_tidy|]. intros k s4 Ht4. by eapply tidy_trans.
Qed.

Lemma add_dots_ends (s : state) r parent : fit s -> safe (tidy s) (add_dots s r parent).
Proof using Type*.
  intros Hf. unfold add_dots. eapply bind_ends; [by apply add_dir_entry_ends|]. intros b1 s1 Ht1. pose proof (tidy_fit _ _ Hf Ht1) as Hf1. cbn [snd].
  eapply bind_ends; [by apply add_dir_entry_ends|]. intros b2 s2 Ht2. pose proof (tidy_fit _ _ Hf1 Ht2) as Hf2. cbn [snd]. pose proof (tidy_trans _ _ _ Ht1 Ht2) as Ht02.
  eapply bind_ends; [by apply read_inode_ends|]. intros nd s3 Ht3. pose proof (tidy_trans _ _ _ Ht02 Ht3) as Ht03. destruct nd as [nd|]; [|done].
  eapply bind_ends; [apply write_inode_ends; by eapply tidy_fit|]. intros ok s4 Ht4. by eapply tidy_trans.
Qed.

Lemma create_file_ends (s : state) parent name mode : fit s -> ends s (ext4_create_file s parent name mode).
Proof using Type*.
  intros Hf. unfold ext4_create_file. destruct (_ =? 0); [done|]. eapply bind_ends; [by apply alloc_bit_ends|]. intros r s1 Ht1. destruct (r <? 0); [done|]. pose proof (tidy_fit _ _ Hf Ht1) as Hf1. cbv zeta.
  eapply bind_ends; [by apply write_inode_ends|]. intros ok s2 Ht2. pose proof (tidy_trans _ _ _ Ht1 Ht2) as Ht02. pose proof (tidy_fit _ _ Hf1 Ht2) as Hf2. destruct ok; cbn [negb].
  2:{ eapply bind_ends; [by apply free_inode_ends|]. intros z s3 Ht3. by eapply tidy_trans. }
  eapply bind_ends; [by apply add_dir_entry_ends|]. intros ok s3 Ht3. pose proof (tidy_trans _ _ _ Ht02 Ht3) as Ht03. pose proof (tidy_fit _ _ Hf2 Ht3) as Hf3. destruct ok; cbn [negb].
  - destruct (negb _); [|done]. eapply safe_bind; [by apply add_dots_ends|]. intros s4 Ht4. by eapply tidy_trans.
  - eapply bind_ends; [by apply free_inode_ends|]. intros z s4 Ht4. by eapply tidy_trans.
Qed.

Lemma truncate_loop_ends n : forall b (s : state) nd, fit s -> safe (tidy s) (truncate_loop n b s nd).
Proof using Type*.
  induction n as [|n IH]; intros b s nd Hf; cbn [truncate_loop]; [by apply tidy_refl|]. eapply bind_ends; [by apply get_file_block_ends|]. intros block s1 Ht1. pose proof (tidy_fit _ _ Hf Ht1) as Hf1.
  apply (safe_bind (tidy s1)).
  - destruct (block =? 0); [by apply tidy_refl|]. eapply bind_ends; [by apply free_block_ends|]. by intros r s2 Ht2.
  - intros s2 Ht2. eapply safe_mono; [apply IH; by eapply tidy_fit|]. intros s3 Ht3. eapply tidy_trans; [exact Ht1|]. by eapply tidy_trans.
Qed.

Lemma truncate_ends (s : state) ino size : fit s -> ends s (ext4_truncate s ino size).
Proof using Type*.
  intros Hf. unfold ext4_truncate. eapply bind_ends; [by apply read_inode_ends|]. intros [nd|] s1 Ht1; [|done]. pose proof (tidy_fit _ _ Hf Ht1) as Hf1. cbv zeta. apply (safe_bind (tidy s1)).
  - destruct (_ <? _); [|by apply tidy_refl]. destruct (_ =? 0); [done|]. by apply truncate_loop_ends.
  - intros s2 Ht2. eapply bind_ends; [apply write_inode_ends; by eapply tidy_fit|]. intros ok s3 Ht3. eapply tidy_trans; [exact Ht1|]. by eapply tidy_trans.
Qed.

Lemma stat_ends (s : state) ino : fit s -> ends s (ext4_stat s ino).
Proof using Type*. intros Hf. unfold ext4_stat. eapply bind_ends; [by apply read_inode_ends|]. by intros [nd|] s1 Ht1. Qed.

Lemma sync_superblock_ends (s : state) : fit s -> ends s (ext4_sync_superblock s).
Proof using Type*.
  intros Hf. unfold ext4_sync_superblock. cbv zeta. apply bind_new_buf; [done|by intros s2 Ht|]. intros p s2 Hp Hh. rewrite Hp. apply bind_read; [by apply done_ends|].
  intros l _ _. apply bind_total; [auto with total|]. intros l'. apply write_done; [by eapply holding_fit|done].
Qed.
End ends.
