(* ===== verification/Ext4Spec.v ===== *)
(** * The ext4 driver: bitmaps and the layout of a file system

    [DeviceLaws] and [BufferPool] are what the driver relies on: a device whose blocks keep what is
    written to them, and a heap with room for a few buffers.  A [layout] says where the bitmaps
    and the inode tables are; the theorems are about states that follow a fixed layout. *)
From S2P Require Import Prelude AllocSpec Buffer Ext4.
#[local] Open Scope Z_scope.

(** ** Bits of a bitmap *)

Definition bit_at (l : list Z) (i : Z) : bool := match l !! Z.to_nat (i / 8) with Some c => Z.testbit c (i mod 8) | None => true end.

Definition set_bit (l : list Z) (i : Z) (b : bool) : list Z :=
  match l !! Z.to_nat (i / 8) with
  | Some c => <[Z.to_nat (i / 8) := if b then Z.lor c (Z.shiftl 1 (i mod 8)) else Z.land c (Z.lnot (Z.shiftl 1 (i mod 8)))]> l
  | None => l
  end.

Lemma index_split i j : 0 <= i -> 0 <= j -> i / 8 = j / 8 -> i mod 8 = j mod 8 -> i = j.
Proof. intros. rewrite (Z.div_mod i 8), (Z.div_mod j 8) by done. congruence. Qed.

Lemma bit_at_set l i b j : 0 <= i < 8 * Z.of_nat (length l) -> 0 <= j -> bit_at (set_bit l i b) j = if decide (j = i) then b else bit_at l j.
Proof.
  intros Hi Hj. unfold set_bit, bit_at. assert (0 <= i / 8 < Z.of_nat (length l)) as Hl by lia_mod.
  destruct (lookup_lt_is_Some_2 l (Z.to_nat (i / 8))) as [c Hc]; [lia|]. rewrite Hc.
  assert (0 <= i mod 8 < 8) by (apply Z.mod_pos_bound; done). assert (0 <= j mod 8 < 8) by (apply Z.mod_pos_bound; done).
  destruct (decide (j / 8 = i / 8)) as [Eb|Hb].
  - rewrite Eb, Hc, list_lookup_insert_eq by lia. assert (forall x, Z.testbit (if b then Z.lor x (Z.shiftl 1 (i mod 8)) else Z.land x (Z.lnot (Z.shiftl 1 (i mod 8)))) (j mod 8)
      = if j mod 8 =? i mod 8 then b else Z.testbit x (j mod 8)) as ->.
    { intros x. destruct b; [rewrite testbit_set by lia|rewrite testbit_clear by lia]; by destruct (_ =? _). }
    destruct (Z.eqb_spec (j mod 8) (i mod 8)) as [Em|Hm].
    + rewrite decide_True; [done|]. apply index_split; lia.
    + rewrite decide_False; [done|congruence].
  - rewrite decide_False by congruence. assert (0 <= j / 8) by (apply Z.div_pos; lia).
    rewrite list_lookup_insert_ne by lia. done.
Qed.

Lemma set_bit_length l i b : length (set_bit l i b) = length l.
Proof. unfold set_bit. destruct (l !! _); [apply length_insert|done]. Qed.

Lemma byte_bits c : 0 <= c -> (forall n, 8 <= n -> Z.testbit c n = false) -> byte c.
Proof.
  intros Hc Hn. split; [done|]. destruct (decide (c = 0)) as [->|]; [done|]. change 256 with (2 ^ 8). apply Z.log2_lt_pow2; [lia|].
  destruct (Z.lt_ge_cases (Z.log2 c) 8) as [|Hge]; [done|]. pose proof (Z.bit_log2 c ltac:(lia)) as Hb. by rewrite Hn in Hb.
Qed.

Lemma byte_high c n : byte c -> 8 <= n -> Z.testbit c n = false.
Proof.
  intros [H0 H1] Hn. destruct (decide (c = 0)) as [->|]; [apply Z.testbit_0_l|]. apply Z.bits_above_log2; [done|].
  apply Z.lt_le_trans with 8; [|done]. apply Z.log2_lt_pow2; [lia|exact H1].
Qed.

Lemma set_bit_byte_value c i (b : bool) : byte c -> 0 <= i < 8 ->
  byte (if b then Z.lor c (Z.shiftl 1 i) else Z.land c (Z.lnot (Z.shiftl 1 i))).
Proof.
  intros Hc Hi. destruct b; apply byte_bits.
  - apply Z.lor_nonneg. split; [apply Hc|]. rewrite Z.shiftl_1_l. apply Z.pow_nonneg. done.
  - intros n Hn. rewrite testbit_set by lia. rewrite byte_high by done. destruct (Z.eqb_spec n i); [lia|done].
  - apply Z.land_nonneg. left. apply Hc.
  - intros n Hn. rewrite testbit_clear by lia. rewrite byte_high by done. apply andb_false_r.
Qed.

Lemma set_bit_byte l i b : Forall byte l -> Forall byte (set_bit l i b).
Proof.
  intros Hl. unfold set_bit. destruct (l !! _) eqn:E; [|done]. apply Forall_insert; [done|]. apply set_bit_byte_value.
  - by eapply Forall_lookup_1 in E.
  - apply Z.mod_pos_bound. done.
Qed.

(** The two statements of the driver that change a bit. *)
Lemma put_bit l i b c : Forall byte l -> 0 <= i < 8 * Z.of_nat (length l) -> get l (i / 8) = Ok c ->
  put l (i / 8) (if b : bool then Z.lor c (Z.shiftl 1 (i mod 8)) else Z.land c (Z.lnot (Z.shiftl 1 (i mod 8)))) = Ok (set_bit l i b).
Proof.
  intros Hl Hi Hc. assert (0 <= i / 8 < Z.of_nat (length l)) by lia_mod. unfold get in Hc. rewrite (proj2 (Z.ltb_ge _ _)) in Hc by lia. apply of_option_ok in Hc.
  unfold put. rewrite (proj2 (Z.leb_le _ _)), (proj2 (Z.ltb_lt _ _)) by lia. cbn [andb]. unfold set_bit. rewrite Hc. do 2 f_equal.
  apply u8_small, set_bit_byte_value; [by eapply Forall_lookup_1 in Hc|apply Z.mod_pos_bound; done].
Qed.

Lemma get_byte l i : 0 <= i < 8 * Z.of_nat (length l) -> exists c, get l (i / 8) = Ok c.
Proof.
  intros Hi. assert (0 <= i / 8 < Z.of_nat (length l)) by lia_mod. unfold get. rewrite (proj2 (Z.ltb_ge _ _)) by lia.
  destruct (lookup_lt_is_Some_2 l (Z.to_nat (i / 8))) as [c Hc]; [lia|]. rewrite Hc. by eexists.
Qed.

(** ** The search for a clear bit *)

Lemma bit_scan_spec n c bit : 0 <= bit ->
  match bit_scan n c bit with
  | Some i => bit <= i < bit + Z.of_nat n /\ Z.testbit c i = false /\ forall j, bit <= j < i -> Z.testbit c j = true
  | None => forall j, bit <= j < bit + Z.of_nat n -> Z.testbit c j = true
  end.
Proof.
  revert bit. induction n as [|n IH]; intros bit Hb; cbn [bit_scan]; [intros; lia|]. rewrite land_bit by done.
  destruct (Z.testbit c bit) eqn:E; cbn [negb]; [|split; [lia|]; split; [done|intros; lia]].
  specialize (IH (bit + 1) ltac:(lia)). destruct (bit_scan n c (bit + 1)) as [i|].
  - destruct IH as (Hi & Hc & Hj). split; [lia|]. split; [done|]. intros j Hj'. destruct (decide (j = bit)) as [->|]; [done|]. apply Hj. lia.
  - intros j Hj'. destruct (decide (j = bit)) as [->|]; [done|]. apply IH. lia.
Qed.

Lemma bit_at_byte l k j : 0 <= k -> 0 <= j < 8 -> bit_at l (k * 8 + j) = match l !! Z.to_nat k with Some c => Z.testbit c j | None => true end.
Proof.
  intros Hk Hj. unfold bit_at. rewrite Z.div_add_l by done. rewrite (Z.div_small j 8), Z.add_0_r by done.
  rewrite Z.add_comm, Z.mod_add, Z.mod_small by done. done.
Qed.

Definition scan_result (l : list Z) (from limit : Z) (r : option Z) : Prop :=
  match r with
  | Some i => from <= i < limit /\ bit_at l i = false /\ forall j, from <= j < i -> bit_at l j = true
  | None => forall j, from <= j < limit -> bit_at l j = true
  end.

Lemma byte_scan_spec l limit n : forall k, Forall byte l -> 0 <= k -> k + Z.of_nat n <= Z.of_nat (length l) -> limit <= (k + Z.of_nat n) * 8 ->
  exists r, byte_scan n l k limit = Ok r /\ scan_result l (k * 8) limit r.
Proof.
  induction n as [|n IH]; intros k Hl Hk Hn Hlim; cbn [byte_scan].
  { exists None. split; [done|]. intros j Hj. lia. }
  destruct (lookup_lt_is_Some_2 l (Z.to_nat k)) as [c Hc]; [lia|].
  assert (byte c) as Hb by (by eapply Forall_lookup_1 in Hc). unfold get. rewrite (proj2 (Z.ltb_ge _ _)), Hc by lia. cbn [of_option]. rewrite bind_ok.
  destruct (IH (k + 1)) as (r & Er & Hr); [done|lia..|].
  assert ((forall j, 0 <= j < 8 -> k * 8 + j < limit -> Z.testbit c j = true) -> exists r, byte_scan n l (k + 1) limit = Ok r /\ scan_result l (k * 8) limit r) as Hskip.
  { intros Hall. exists r. split; [exact Er|].
    assert (forall j, k * 8 <= j < (k + 1) * 8 -> j < limit -> bit_at l j = true) as Hlow.
    { intros j Hj Hlt. replace j with (k * 8 + (j - k * 8)) by lia. rewrite bit_at_byte, Hc by lia. apply Hall; lia. }
    destruct r as [i|]; cbn [scan_result] in *.
    - destruct Hr as (Hi & Hci & Hj). split; [lia|]. split; [done|]. intros j Hj'. destruct (Z.lt_ge_cases j ((k + 1) * 8)); [apply Hlow; lia|apply Hj; lia].
    - intros j Hj'. destruct (Z.lt_ge_cases j ((k + 1) * 8)); [apply Hlow; lia|apply Hr; lia]. }
  destruct (Z.eqb_spec c 0xFF) as [->|_].
  { apply Hskip. intros j Hj _. change 0xFF with (Z.ones 8). by apply Z.ones_spec_low. }
  pose proof (bit_scan_spec 8 c 0 ltac:(done)) as Hs. destruct (bit_scan 8 c 0) as [bit|].
  - destruct Hs as (Hbit & Hclear & Hset). destruct (Z.leb_spec limit (k * 8 + bit)) as [Hge|Hlt].
    + apply Hskip. intros j Hj Hlt. apply Hset. lia.
    + eexists. split; [done|]. cbn [scan_result]. split; [lia|]. split; [by rewrite bit_at_byte, Hc by lia|].
      intros j Hj. replace j with (k * 8 + (j - k * 8)) by lia. rewrite bit_at_byte, Hc by lia. apply Hset. lia.
  - apply Hskip. intros j Hj _. apply Hs. lia.
Qed.

(** ** Counting clear bits *)

Definition clear_bits (l : list Z) (n : Z) : Z := Z.of_nat (length (filter (fun i => bit_at l i = false) (seqZ 0 n))).

Lemma count_same (f g : Z -> bool) xs : (forall j, j ∈ xs -> f j = g j) ->
  length (filter (fun j => f j = false) xs) = length (filter (fun j => g j = false) xs).
Proof.
  intros Hj. induction xs as [|x xs IH]; [done|]. rewrite !filter_cons, (Hj x) by apply list_elem_of_here.
  assert (length (filter (fun j => f j = false) xs) = length (filter (fun j => g j = false) xs)) as E by (apply IH; intros j Hin; apply Hj; by right).
  destruct (decide (g x = false)); cbn; by rewrite E.
Qed.

Lemma count_flip (f g : Z -> bool) i xs : NoDup xs -> i ∈ xs -> f i = false -> g i = true -> (forall j, j ∈ xs -> j <> i -> f j = g j) ->
  length (filter (fun j => f j = false) xs) = S (length (filter (fun j => g j = false) xs)).
Proof.
  intros Hnd Hin Hf Hg Hj. induction xs as [|x xs IH]; [by apply elem_of_nil in Hin|]. apply NoDup_cons in Hnd as [Hx Hnd].
  rewrite !filter_cons. destruct (decide (x = i)) as [->|Hne].
  - rewrite decide_True, decide_False by congruence. cbn. f_equal. apply count_same. intros j Hjx. apply Hj; [by right|by intros ->].
  - rewrite (Hj x) by (done || apply list_elem_of_here). apply elem_of_cons in Hin as [->|Hin]; [done|].
    assert (length (filter (fun j => f j = false) xs) = S (length (filter (fun j => g j = false) xs))) as E.
    { apply IH; try done. intros j Hjx. apply Hj. by right. }
    destruct (decide (g x = false)); cbn; by rewrite E.
Qed.

Lemma clear_bits_set l n i : 0 <= i < n -> n <= 8 * Z.of_nat (length l) -> bit_at l i = false -> clear_bits l n = clear_bits (set_bit l i true) n + 1.
Proof.
  intros Hi Hn Hb. unfold clear_bits. rewrite (count_flip _ (bit_at (set_bit l i true)) i); [lia|apply NoDup_seqZ|apply elem_of_seqZ; lia|done|..].
  - rewrite bit_at_set, decide_True by lia. done.
  - intros j [Hj _]%elem_of_seqZ Hne. by rewrite bit_at_set, decide_False by lia.
Qed.

Lemma clear_bits_clear l n i : 0 <= i < n -> n <= 8 * Z.of_nat (length l) -> bit_at l i = true -> clear_bits (set_bit l i false) n = clear_bits l n + 1.
Proof.
  intros Hi Hn Hb. unfold clear_bits. rewrite (count_flip _ (bit_at l) i); [lia|apply NoDup_seqZ|apply elem_of_seqZ; lia|..|done|].
  - rewrite bit_at_set, decide_True by lia. done.
  - intros j [Hj _]%elem_of_seqZ Hne. by rewrite bit_at_set, decide_False by lia.
Qed.

Lemma clear_bits_range l n : 0 <= n -> 0 <= clear_bits l n <= n.
Proof.
  intros Hn. unfold clear_bits. pose proof (length_filter (fun i => bit_at l i = false) (seqZ 0 n)) as Hl. rewrite length_seqZ in Hl. lia.
Qed.

Lemma clear_bits_none l n i : 0 <= i < n -> clear_bits l n = 0 -> bit_at l i = true.
Proof.
  intros Hi Hc. unfold clear_bits in Hc. destruct (bit_at l i) eqn:E; [done|]. exfalso.
  assert (i ∈ filter (fun i => bit_at l i = false) (seqZ 0 n)) as Hin by (apply list_elem_of_filter; split; [done|apply elem_of_seqZ; lia]).
  destruct (filter _ _); [by apply elem_of_nil in Hin|simpl in Hc; lia].
Qed.

(** ** What the driver relies on *)

(** A device of [n] blocks of [size] bytes that works. *)
Class DeviceLaws (D : Type) `{BlockDevice D} (size n : Z) := {
  dv_ok : D -> Prop;
  law_read (d : D) b : dv_ok d -> 0 <= b < n -> exists l, dv_read d b = Some l /\ Z.of_nat (length l) = size /\ Forall byte l;
  law_write (d : D) b l : dv_ok d -> 0 <= b < n -> Z.of_nat (length l) = size -> Forall byte l ->
    exists d', dv_write d b l = Some d' /\ dv_ok d' /\ forall c, dv_read d' c = if decide (c = b) then Some l else dv_read d c
}.

(** A heap that counts how many buffers of [size] bytes it can surely hand out: freeing one gives one back. *)
Class BufferPool (A : Type) `{Allocator A} (size : Z) := {
  spare : A -> nat;
  law_spare_alloc (a : A) p a' : a_inv a -> (0 < spare a)%nat -> a_kmalloc a size GFP_KERNEL = Ok (p, a') -> p <> 0 /\ (spare a <= S (spare a'))%nat;
  law_spare_free (a : A) p c a' : a_inv a -> a_cap a p = Some c -> size <= c -> a_kfree a p = Ok a' -> (S (spare a) <= spare a')%nat
}.

(** Where the file system keeps its bitmaps and inode tables. *)
Record layout := Layout {
  l_first : Z; l_bpg : Z; l_ipg : Z; l_isz : Z; l_count : Z;
  l_blocks : Z -> Z; l_inodes : Z -> Z; l_table : Z -> Z
}.

Inductive role := BlockBitmap (g : Z) | InodeBitmap (g : Z) | Table (g j : Z).

(** One of the two bitmaps. *)
Inductive which := Blocks | Inodes.
#[export] Instance which_eq : EqDecision which.
Proof. solve_decision. Defined.
Definition kind (w : which) : bitmap_kind := match w with Blocks => block_bitmap | Inodes => inode_bitmap end.

(** The value of a field of a descriptor. *)
Definition desc (f : ext4_fs) (g : Z) (x : field) : Z := rd (shift (64 * g) x) (group_descs f).
Definition desc_wide (f : ext4_fs) (g : Z) (lo hi : field) (bits : Z) : Z :=
  if 64 <=? desc_size f then Z.lor (desc f g lo) (Z.shiftl (desc f g hi) bits) else desc f g lo.

Section layout.
Context (bs nblocks : Z) (L : layout).

Definition table_len : Z := (l_ipg L * l_isz L + bs - 1) / bs.
Definition in_group (g : Z) : Prop := 0 <= g < l_count L.
Definition valid_role (r : role) : Prop :=
  match r with BlockBitmap g | InodeBitmap g => in_group g | Table g j => in_group g /\ 0 <= j < table_len end.
Definition place (r : role) : Z := match r with BlockBitmap g => l_blocks L g | InodeBitmap g => l_inodes L g | Table g j => l_table L g + j end.
Definition meta (b : Z) : Prop := exists r, valid_role r /\ place r = b.

Class good_layout : Prop := {
  gl_bs : 1024 <= bs <= 65536; gl_words : bs mod 4 = 0; gl_blocks : nblocks <= 2 ^ 48;
  gl_bpg : 0 < l_bpg L < 65536; gl_bpg_fits : l_bpg L <= 8 * bs;
  gl_ipg : 0 < l_ipg L < 65536; gl_ipg_fits : l_ipg L <= 8 * bs; gl_ipg_bytes : l_ipg L mod 8 = 0;
  gl_isz : 116 <= l_isz L; gl_isz_fits : bs mod l_isz L = 0;
  gl_count : 0 < l_count L; gl_first : 0 <= l_first L;
  gl_numbers : l_first L + l_count L * l_bpg L <= 2 ^ 31; gl_inodes : l_count L * l_ipg L < 2 ^ 31;
  gl_place r : valid_role r -> 0 <= place r < nblocks;
  gl_inj r r' : valid_role r -> valid_role r' -> place r = place r' -> r = r'
}.

(** The mounted file system has this layout. *)
Record follows (f : ext4_fs) : Prop := {
  fo_bs : block_size f = bs; fo_bpg : blocks_per_group f = l_bpg L; fo_ipg : inodes_per_group f = l_ipg L;
  fo_isz : inode_size f = l_isz L; fo_count : group_count f = l_count L;
  fo_sb : length (sb f) = superblock_size; fo_sb_bytes : Forall byte (sb f); fo_first : rd s_first_data_block (sb f) = l_first L;
  fo_descs : 64 * l_count L <= Z.of_nat (length (group_descs f)); fo_descs_bytes : Forall byte (group_descs f);
  fo_blocks g : in_group g -> desc_wide f g bg_block_bitmap_lo bg_block_bitmap_hi 32 = l_blocks L g;
  fo_inodes g : in_group g -> desc_wide f g bg_inode_bitmap_lo bg_inode_bitmap_hi 32 = l_inodes L g;
  fo_table g : in_group g -> desc_wide f g bg_inode_table_lo bg_inode_table_hi 32 = l_table L g
}.

Definition map_of (w : which) (g : Z) : Z := match w with Blocks => l_blocks L g | Inodes => l_inodes L g end.
Definition limit_of (w : which) : Z := match w with Blocks => l_bpg L | Inodes => l_ipg L end.
Definition number_of (w : which) (g i : Z) : Z := match w with Blocks => l_first L + g * l_bpg L + i | Inodes => g * l_ipg L + i + 1 end.

(** ** Access to the descriptors *)

Lemma shift_inside f g x : follows f -> in_group g -> inside x 64 -> inside (shift (64 * g) x) (length (group_descs f)).
Proof using Type. intros Hf [Hg Hg'] Hx. pose proof (fo_descs _ Hf). unfold inside, shift in *. cbn. lia. Qed.

Lemma shift_apart g g' x y : 0 <= g -> 0 <= g' -> inside x 64 -> inside y 64 -> (g = g' -> apart x y) -> apart (shift (64 * g) x) (shift (64 * g') y).
Proof using Type.
  unfold inside, apart, shift. cbn. intros. destruct (decide (g = g')) as [->|]; [specialize (H3 eq_refl); lia|]. lia.
Qed.

Lemma gd_get_ok f g x : follows f -> in_group g -> inside x 64 -> gd_get f g x = Ok (desc f g x).
Proof using Type.
  intros Hf Hg Hx. pose proof (fo_descs _ Hf). unfold in_group, inside in *. unfold gd_get. rewrite rd_at_ok by lia. done.
Qed.

Lemma gd_wide_ok f g lo hi bits : follows f -> in_group g -> inside lo 64 -> inside hi 64 -> gd_wide f g lo hi bits = Ok (desc_wide f g lo hi bits).
Proof using Type.
  intros Hf Hg Hlo Hhi. unfold gd_wide, desc_wide. rewrite !gd_get_ok by done. by case_match.
Qed.

Lemma gd_set_ok f g x v : follows f -> in_group g -> inside x 64 ->
  gd_set f g x v = Ok (with_descs f (wr (shift (64 * g) x) v (group_descs f))).
Proof using Type.
  intros Hf Hg Hx. pose proof (fo_descs _ Hf). unfold in_group, inside in *. unfold gd_set. rewrite wr_at_ok by lia. done.
Qed.

Lemma desc_set f g x v g' y : follows f -> in_group g -> inside x 64 -> in_group g' -> inside y 64 -> (g = g' -> apart y x) ->
  desc (with_descs f (wr (shift (64 * g) x) v (group_descs f))) g' y = desc f g' y.
Proof using Type.
  intros Hf Hg Hx Hg' Hy Ha. unfold desc. cbn [group_descs with_descs]. apply rd_wr_ne; [by apply shift_inside|].
  apply shift_apart; try done; [apply Hg'|apply Hg|]. intros ->. by apply Ha.
Qed.

Lemma get_bitmap_ok w f g : follows f -> in_group g -> get_bitmap (kind w) f g = Ok (map_of w g).
Proof using Type.
  intros Hf Hg. unfold get_bitmap. rewrite (fo_count _ Hf). rewrite (proj2 (Z.leb_gt _ _)) by apply Hg.
  destruct w; cbn; rewrite gd_wide_ok by (done || (unfold inside; cbn; lia)); f_equal; [by apply fo_blocks|by apply fo_inodes].
Qed.
End layout.

Arguments gl_bs {bs nblocks L _}.
Arguments gl_words {bs nblocks L _}.
Arguments gl_blocks {bs nblocks L _}.
Arguments gl_bpg {bs nblocks L _}.
Arguments gl_bpg_fits {bs nblocks L _}.
Arguments gl_ipg {bs nblocks L _}.
Arguments gl_ipg_fits {bs nblocks L _}.
Arguments gl_ipg_bytes {bs nblocks L _}.
Arguments gl_isz {bs nblocks L _}.
Arguments gl_isz_fits {bs nblocks L _}.
Arguments gl_count {bs nblocks L _}.
Arguments gl_first {bs nblocks L _}.
Arguments gl_numbers {bs nblocks L _}.
Arguments gl_inodes {bs nblocks L _}.
Arguments gl_place {bs nblocks L _}.
Arguments gl_inj {bs nblocks L _}.
