(* ===== verification/HeapPool.v ===== *)
(** * The kernel heap as a pool of buffers of one size

    A free block of [n] bytes can serve [n / chunk] requests for buffers that need [chunk] bytes with
    their header; splitting a block loses nothing of this, and merging blocks loses nothing. *)
From S2P Require Import Prelude DList AllocSpec Ext4 Ext4Spec Kmalloc KmallocInv KmallocSpec.
#[local] Open Scope Z_scope.

(** The free list. *)
Fixpoint walk (fuel : nat) (hs : gmap Z block_header) (p : Z) : list Z :=
  match fuel with
  | O => []
  | S fuel => if p =? NULL then [] else match hs !! p with Some b => p :: walk fuel hs (bh_next b) | None => [] end
  end.

Definition free_blocks (H : heap) : list Z := walk (base.size (hdrs H)) (hdrs H) (free_list H).

Lemma walk_chain hs fuel p fl : chain bh_next hs p fl -> (length fl <= fuel)%nat -> walk fuel hs p = fl.
Proof.
  revert p fl. induction fuel as [|fuel IH]; intros p fl Hc Hl.
  { destruct fl; [done|simpl in Hl; lia]. }
  destruct fl as [|x fl]; cbn [walk].
  - cbn in Hc. by subst.
  - destruct Hc as (-> & Hne & b & Hb & Hc). rewrite (proj2 (Z.eqb_neq _ _)) by done. rewrite Hb. f_equal. apply IH; [done|]. simpl in Hl. lia.
Qed.

Lemma free_blocks_rep H bl fl : heap_rep H bl fl -> free_blocks H = fl.
Proof.
  intros Hr. pose proof (hr_core _ _ _ Hr) as Hc. destruct (core_list _ _ _ _ _ _ Hc) as [q Hq].
  apply walk_chain; [eapply dseg_chain, Hq|]. apply keys_length; [eapply core_NoDup, Hc|]. intros x Hx. by eapply dseg_lookup.
Qed.

Section pool.
Context (size : Z) (Hsize : 0 < size <= MAX_ALLOC) (Hdiv : (32 | size)).

Definition chunk : Z := size + HDR.
Definition buffers (H : heap) : nat := Z.to_nat (weigh (fun n => n / chunk) (hdrs H) (free_blocks H)).

Lemma chunk_align : align_up (u64 (size + HDR)) MIN_ALLOC = chunk /\ 64 <= chunk.
Proof using Hsize Hdiv.
  destruct (align_up_spec size Hsize) as (H1 & H2 & H3). destruct Hdiv as [k ->]. destruct H3 as [j Hj]. unfold chunk, HDR, MIN_ALLOC in *. lia.
Qed.

Lemma weigh_nonneg hs l : (forall x b, x ∈ l -> hs !! x = Some b -> 0 <= bh_size b) -> 0 <= weigh (fun n => n / chunk) hs l.
Proof using Hsize Hdiv.
  pose proof chunk_align as [_ Hc]. induction l as [|x l IH]; intros Hl; cbn [weigh]; [done|].
  assert (0 <= from_option bh_size 0 (hs !! x) / chunk).
  { apply Z.div_pos; [|lia]. destruct (hs !! x) as [b|] eqn:E; cbn; [|done]. by eapply Hl; [left|]. }
  enough (0 <= weigh (fun n => n / chunk) hs l) by lia. apply IH. intros y b Hy. apply Hl. by right.
Qed.

Lemma buffers_rep H bl fl : heap_rep H bl fl -> Z.of_nat (buffers H) = weigh (fun n => n / chunk) (hdrs H) fl.
Proof using Hsize Hdiv.
  intros Hr. unfold buffers. rewrite (free_blocks_rep H bl fl Hr). apply Z2Nat.id, weigh_nonneg. intros x b Hx Hb.
  pose proof (hr_core _ _ _ Hr) as Hc. destruct (core_block _ _ _ _ _ _ x Hc) as (b' & Hb' & Hs & _); [by apply (core_sub _ _ _ _ _ _ Hc)|].
  unfold HDR, MIN_ALLOC in Hs. simplify_eq. lia.
Qed.

Lemma weigh_none hs l : (forall x b, x ∈ l -> hs !! x = Some b -> 0 <= bh_size b < chunk) -> weigh (fun n => n / chunk) hs l = 0.
Proof using Type.
  induction l as [|x l IH]; intros Hl; cbn [weigh]; [done|]. rewrite IH by (intros y b Hy; apply Hl; by right). rewrite Z.add_0_r.
  destruct (hs !! x) as [b|] eqn:E; cbn; [|done]. apply Z.div_small. by apply (Hl x); [left|].
Qed.

Definition heap_pool : BufferPool heap size.
Proof using Hsize Hdiv.
  exists buffers; pose proof chunk_align as [Ha Hc64].
  - intros H p H' (bl & fl & Hr) Hpos E. pose proof (buffers_rep H bl fl Hr) as Hb. cbn [a_kmalloc kernel_heap heap_allocator] in E.
    destruct (kmalloc_cases (2 ^ 30) H size GFP_KERNEL bl fl Hr Hsize) as [[Hall Ek]|
      (a & b & bl' & fl' & hs' & Hua & Hb' & Hsz & (a0 & b0 & Ha0 & Hb0 & Hle & Hw) & Hus & hd' & Ek & Hr')].
    { exfalso. rewrite weigh_none in Hb; [lia|]. intros x c Hx Hxc. rewrite Ha in Hall. split; [|by apply (Hall x)].
      pose proof (hr_core _ _ _ Hr) as Hcr. destruct (core_block _ _ _ _ _ _ x Hcr) as (b' & Hb' & Hs & _); [by apply (core_sub _ _ _ _ _ _ Hcr)|].
      unfold HDR, MIN_ALLOC in Hs. simplify_eq. lia. }
    rewrite Ha in Hsz, Hle, Hw. change (negb (Z.land GFP_KERNEL GFP_ZERO =? 0)) with false in Hr', Ek. cbn iota in Hr', Ek. rewrite E in Ek. injection Ek as -> EH. rewrite <- EH in Hr'. assert (hdrs H' = hs') as Eh by (by rewrite EH).
    pose proof (buffers_rep _ bl' fl' Hr') as Hbf. rewrite Eh in Hbf. split.
    + pose proof (hr_core _ _ _ Hr) as Hcr. assert (used_size hs' a = Some (bh_size b)) as Hua' by (by rewrite Hus, decide_True).
      rewrite <- Eh, (used_size_core _ _ _ _ _ _ _ (hr_core _ _ _ Hr')) in Hua'. case_decide as Hin; [|done].
      destruct (core_block _ _ _ _ _ _ a (hr_core _ _ _ Hr')) as (b1 & _ & _ & Hst & _); [apply Hin|]. rewrite EH in Hst. cbn [heap_start] in Hst.
      pose proof (core_start _ _ _ _ _ _ Hcr). unfold HDR. lia.
    + destruct Hw as [[Es Hw]|[Es Hw]]; specialize (Hw (fun n => n / chunk)); cbn beta in Hw.
      * assert (bh_size b0 / chunk = 1) by (symmetry; apply Z.div_unique with (bh_size b0 - chunk); unfold HDR, MIN_ALLOC in *; lia). lia.
      * assert (bh_size b0 / chunk = (bh_size b0 - chunk) / chunk + 1) by (rewrite <- Z.div_add by lia; f_equal; lia). lia.
  - intros H p c H' (bl & fl & Hr) Hcap Hle E. destruct (kfree_cases H p c bl fl Hr Hcap) as (H1 & bl' & fl' & Ek & Hr' & Hw & _).
    cbn [a_kfree kernel_heap heap_allocator] in E. rewrite E in Ek. injection Ek as <-.
    pose proof (buffers_rep H bl fl Hr) as Hb. pose proof (buffers_rep H' bl' fl' Hr') as Hb'. specialize (Hw (fun n => n / chunk)). cbn beta in Hw.
    assert (1 <= (c + HDR) / chunk) by (apply Z.div_le_lower_bound; unfold chunk, HDR; lia).
    enough ((c + HDR) / chunk + weigh (fun n => n / chunk) (hdrs H) fl <= weigh (fun n => n / chunk) (hdrs H') fl') by lia. apply Hw.
    intros x y Hx Hy. apply Z.div_le_lower_bound; [lia|]. pose proof (Z.mul_div_le x chunk). pose proof (Z.mul_div_le y chunk). lia.
Defined.
End pool.
