(* ===== verification/Ext4Alloc.v ===== *)
(** * The ext4 driver: states, buffers, and the allocation of blocks and inodes *)
From S2P Require Import Prelude AllocSpec Buffer Ext4 Ext4Spec.
#[local] Open Scope Z_scope.

Section alloc.
Context {A D : Type} `{AllocatorLaws A} `{BlockDevice D} {bs nblocks : Z} {L : layout}.
Context `{!DeviceLaws D bs nblocks} `{!BufferPool A bs} {GL : good_layout bs nblocks L}.
Abbreviation state := (st A D).
Abbreviation map_of := (map_of L). Abbreviation limit_of := (limit_of L). Abbreviation number_of := (number_of L).
Abbreviation in_group := (in_group L). Abbreviation follows := (follows bs L). Abbreviation meta := (meta bs L).

(** ** Buffers *)

(** [h'] has the live blocks of [h], and room for as many buffers. *)
Definition like (h h' : A) : Prop := a_inv h' /\ cap_same (a_cap h) (a_cap h') /\ (spare h <= spare h')%nat.

Lemma like_refl h : a_inv h -> like h h.
Proof using Type*. done. Qed.

Lemma like_trans h1 h2 h3 : like h1 h2 -> like h2 h3 -> like h1 h3.
Proof using Type*. intros (_ & Hc & Hs) (Hi & Hc' & Hs'). split; [done|]. split; [intros q; by rewrite Hc', Hc|lia]. Qed.

(** Freeing [p] in a heap like [h] gives a heap like [h0]. *)
Definition holds (h0 : A) (p : Z) (h : A) : Prop := forall h', like h h' -> exists h'', a_kfree h' p = Ok h'' /\ like h0 h''.

Lemma holds_like h0 p h h' : holds h0 p h -> like h h' -> holds h0 p h'.
Proof using Type*. intros Hh Hl h'' Hl'. apply Hh. by eapply like_trans. Qed.

Lemma new_buf_caps (s : state) : a_inv (heap s) -> block_size (fs s) = bs -> (0 < spare (heap s))%nat ->
  exists p h c, new_buf s = Ok (p, with_heap s h) /\ (p =? 0) = false /\ a_inv h /\ (spare (heap s) <= S (spare h))%nat /\
    a_cap (heap s) p = None /\ bs <= c /\ cap_update (a_cap (heap s)) (a_cap h) p (Some c).
Proof using Type*.
  intros Hi Hb Hs. unfold new_buf. pose proof gl_bs. rewrite Hb.
  destruct (law_alloc (heap s) bs GFP_KERNEL Hi) as (p & h & E & Hi' & Ha); [lia|]. rewrite E, bind_ok.
  destruct (law_spare_alloc (heap s) p h Hi Hs E) as [Hp Hsp]. destruct Ha as [[? _]|(_ & Hnone & c & Hc & Hu)]; [done|].
  exists p, h, c. split; [done|]. split; [by apply Z.eqb_neq|]. done.
Qed.

Lemma kfree_caps (h : A) p c : a_inv h -> a_cap h p = Some c -> bs <= c ->
  exists h', a_kfree h p = Ok h' /\ a_inv h' /\ (S (spare h) <= spare h')%nat /\ cap_update (a_cap h) (a_cap h') p None.
Proof using Type*.
  intros Hi Hc Hle. destruct (law_free h p c Hi Hc) as (h' & E & Hi' & Hu). exists h'. split; [done|]. split; [done|]. split; [|done].
  by apply (law_spare_free h p c h').
Qed.

Lemma new_buf_ok (s : state) : a_inv (heap s) -> block_size (fs s) = bs -> (0 < spare (heap s))%nat ->
  exists p h, new_buf s = Ok (p, with_heap s h) /\ (p =? 0) = false /\ a_inv h /\ (spare (heap s) <= S (spare h))%nat /\ holds (heap s) p h.
Proof using Type*.
  intros Hi Hb Hs. destruct (new_buf_caps s Hi Hb Hs) as (p & h & c & E & Hp & Hih & Hsp & Hnone & Hc & Hu).
  exists p, h. split; [done|]. split; [done|]. split; [done|]. split; [done|]. intros h' (Hi'' & Hsame & Hle).
  destruct (kfree_caps h' p c) as (h'' & Ef & Hif & Hs' & Huf); [done|by rewrite Hsame, Hu, decide_True|done|]. exists h''. split; [done|]. split; [done|]. split; [|lia].
  intros q. rewrite Huf. case_decide as Hq; [subst; by rewrite Hnone|]. by rewrite Hsame, Hu, decide_False.
Qed.

(** Two buffers, freed in the order they were allocated. *)
Lemma two_bufs_ok (s : state) : a_inv (heap s) -> block_size (fs s) = bs -> (2 <= spare (heap s))%nat ->
  exists p h p2 h2 h3 h4, new_buf s = Ok (p, with_heap s h) /\ (p =? 0) = false /\ a_inv h /\ holds (heap s) p h /\
    new_buf (with_heap s h) = Ok (p2, with_heap s h2) /\ (p2 =? 0) = false /\ a_kfree h2 p = Ok h3 /\ a_kfree h3 p2 = Ok h4 /\ like (heap s) h4.
Proof using Type*.
  intros Hi Hb Hs. destruct (new_buf_caps s Hi Hb) as (p & h & c & E & Hp & Hih & Hsp & Hnone & Hc & Hu); [lia|].
  destruct (new_buf_ok s Hi Hb) as (p' & h' & E' & _ & _ & _ & Hho); [lia|]. rewrite E in E'. injection E' as <- <-.
  destruct (new_buf_caps (with_heap s h) Hih Hb) as (p2 & h2 & c2 & E2 & Hp2 & Hih2 & Hsp2 & Hnone2 & Hc2 & Hu2); [cbn; lia|]. cbn [heap with_heap] in *.
  assert (p2 <> p) as Hne by (intros ->; by rewrite Hu, decide_True in Hnone2).
  destruct (kfree_caps h2 p c Hih2) as (h3 & E3 & Hih3 & Hs3 & Hu3); [by rewrite Hu2, decide_False, Hu, decide_True by done|done|].
  destruct (kfree_caps h3 p2 c2 Hih3) as (h4 & E4 & Hih4 & Hs4 & Hu4); [by rewrite Hu3, decide_False, Hu2, decide_True by done|done|].
  exists p, h, p2, h2, h3, h4. split_and!; try done. split; [done|]. split; [|lia].
  intros q. rewrite Hu4. case_decide as Hq; [subst; rewrite Hu, decide_False in Hnone2 by done; by rewrite Hnone2|].
  rewrite Hu3. case_decide as Hq2; [by subst|]. by rewrite Hu2, decide_False, Hu, decide_False by done.
Qed.

Lemma done_ok {R} h0 p h (s : state) (r : R) : holds h0 p h -> like h (heap s) -> exists h', done s p r = Ok (r, with_heap s h') /\ like h0 h'.
Proof using Type*.
  intros Hh Hl. destruct (Hh _ Hl) as (h' & E & Hl'). exists h'. unfold done, free_buf. by rewrite E.
Qed.

Lemma free_ok h0 p h (s : state) : holds h0 p h -> like h (heap s) -> exists h', free_buf s p = Ok (with_heap s h') /\ like h0 h'.
Proof using Type*. intros Hh Hl. destruct (Hh _ Hl) as (h' & E & Hl'). exists h'. unfold free_buf. by rewrite E. Qed.

(** ** Blocks *)

Definition blk (d : D) (b : Z) : list Z := default [] (dv_read d b).

Lemma blk_length d b : dv_ok d -> 0 <= b < nblocks -> Z.of_nat (length (blk d b)) = bs.
Proof using Type*. intros Hd Hb. destruct (law_read d b Hd Hb) as (l & E & Hl & _). unfold blk. by rewrite E. Qed.

Lemma blk_byte d b : dv_ok d -> 0 <= b < nblocks -> Forall byte (blk d b).
Proof using Type*. intros Hd Hb. destruct (law_read d b Hd Hb) as (l & E & _ & Hl). unfold blk. by rewrite E. Qed.

Lemma read_ok (s : state) b : block_size (fs s) = bs -> dv_ok (disk s) -> 0 <= b < nblocks -> ext4_read_block s b = Ok (Some (blk (disk s) b)).
Proof using Type*.
  intros Hbs Hd Hb. destruct (law_read (disk s) b Hd Hb) as (l & E & Hl & _). unfold ext4_read_block, blk. rewrite E, Hbs, Hl, Z.eqb_refl. done.
Qed.

Lemma write_ok (s : state) b l : dv_ok (disk s) -> 0 <= b < nblocks -> Z.of_nat (length l) = bs -> Forall byte l ->
  exists d, ext4_write_block_raw s b l = (true, with_disk s d) /\ dv_ok d /\ forall c, blk d c = if decide (c = b) then l else blk (disk s) c.
Proof using Type*.
  intros Hd Hb Hl Hby. destruct (law_write (disk s) b l Hd Hb Hl Hby) as (d & E & Hd' & Hr). exists d. unfold ext4_write_block_raw. rewrite E.
  split; [done|]. split; [done|]. intros c. unfold blk. rewrite Hr. by case_decide.
Qed.

(** ** States *)

(** The counter of every group is the number of its clear bits. *)
Definition counted (w : which) (f : ext4_fs) (d : D) : Prop :=
  forall g, in_group g -> desc_wide f g (k_free_lo (kind w)) (k_free_hi (kind w)) 16 = clear_bits (blk d (map_of w g)) (limit_of w).

Record ok (s : state) : Prop := {
  ok_follows : follows (fs s); ok_device : dv_ok (disk s); ok_heap : a_inv (heap s); ok_counted w : counted w (fs s) (disk s)
}.

Lemma ok_heap_any s h : ok s -> a_inv h -> ok (with_heap s h).
Proof using Type*. intros [? ? _ ?] Hi. by split. Qed.

Lemma map_range w g : in_group g -> 0 <= map_of w g < nblocks.
Proof using Type*. intros Hg. destruct w; [apply (gl_place (BlockBitmap g) Hg)|apply (gl_place (InodeBitmap g) Hg)]. Qed.

Lemma map_inj w g w' g' : in_group g -> in_group g' -> map_of w g = map_of w' g' -> w = w' /\ g = g'.
Proof using Type*.
  intros Hg Hg' E. destruct w, w'.
  - pose proof (gl_inj (BlockBitmap g) (BlockBitmap g') Hg Hg' E) as Er. by injection Er.
  - by pose proof (gl_inj (BlockBitmap g) (InodeBitmap g') Hg Hg' E).
  - by pose proof (gl_inj (InodeBitmap g) (BlockBitmap g') Hg Hg' E).
  - pose proof (gl_inj (InodeBitmap g) (InodeBitmap g') Hg Hg' E) as Er. by injection Er.
Qed.

Lemma map_meta w g : in_group g -> meta (map_of w g).
Proof using Type*. intros Hg. destruct w; [exists (BlockBitmap g)|exists (InodeBitmap g)]; done. Qed.

Lemma limit_bits w g d : in_group g -> dv_ok d -> 0 < limit_of w < 65536 /\ limit_of w <= 8 * Z.of_nat (length (blk d (map_of w g))).
Proof using Type*.
  intros Hg Hd. rewrite blk_length by (done || by apply map_range). destruct GL, w; cbn [Ext4Spec.limit_of]; lia.
Qed.

(** ** Counters *)

(** The change of the counter of a group. *)
Lemma count_free_ok w (s : state) g c : follows (fs s) -> in_group g ->
  let n := desc_wide (fs s) g (k_free_lo (kind w)) (k_free_hi (kind w)) 16 in 0 <= n < 65536 -> 0 <= n + c < 65536 ->
  exists f, count_free (kind w) s g c = Ok (with_fs s f) /\ follows f /\
    (forall w' g', in_group g' -> desc_wide f g' (k_free_lo (kind w')) (k_free_hi (kind w')) 16 =
      if decide (w' = w /\ g' = g) then n + c else desc_wide (fs s) g' (k_free_lo (kind w')) (k_free_hi (kind w')) 16).
Proof using Type*.
  intros Hf Hg n Hn Hc. pose proof Hf as [? ? ? ? ? Hsb Hsbb Hfirst Hdl Hdb Hbb Hib Hit].
  set (x := k_free_lo (kind w)) in *. set (y := k_free_hi (kind w)) in *.
  assert (inside x 64) as Hx by (destruct w; unfold inside; cbn; lia). assert (inside y 64) as Hy by (destruct w; unfold inside; cbn; lia).
  assert (f_len x = 2%nat) as Hlx by (by destruct w).
  unfold count_free. fold x. rewrite (gd_get_ok bs L) by done. rewrite bind_ok, (gd_set_ok bs L) by done. rewrite bind_ok. cbn [sb with_descs].
  set (f1 := with_descs _ _). set (b := wr _ _ _). exists (with_sb f1 b). split; [done|].
  assert (inside (k_sb_free (kind w)) (length (sb (fs s)))) as Hks by (rewrite Hsb; destruct w; unfold inside; cbn; unfold superblock_size; lia).
  assert (forall g' z, in_group g' -> inside z 64 -> (g = g' -> apart z x) -> desc (with_sb f1 b) g' z = desc (fs s) g' z) as Hd.
  { intros g' z Hg' Hz Ha. apply (desc_set bs L); done. }
  assert (forall g' lo hi k, in_group g' -> inside lo 64 -> inside hi 64 -> (g = g' -> apart lo x) -> (g = g' -> apart hi x) ->
    desc_wide (with_sb f1 b) g' lo hi k = desc_wide (fs s) g' lo hi k) as Hw.
  { intros. unfold desc_wide. cbn [desc_size with_sb with_descs f1]. by rewrite !Hd. }
  split; [split; cbn [sb with_sb with_descs f1 block_size blocks_per_group inodes_per_group inode_size group_count group_descs]; try done|].
  - unfold b. by rewrite wr_length.
  - by apply wr_byte.
  - rewrite <- Hfirst. apply rd_wr_ne; [done|]. destruct w; unfold apart; cbn; lia.
  - rewrite wr_length by (by apply (shift_inside bs L)). done.
  - by apply wr_byte.
  - intros g' Hg'. rewrite <- Hbb by done. apply Hw; try done; try (unfold inside; cbn; lia); intros _; destruct w; unfold apart; cbn; lia.
  - intros g' Hg'. rewrite <- Hib by done. apply Hw; try done; try (unfold inside; cbn; lia); intros _; destruct w; unfold apart; cbn; lia.
  - intros g' Hg'. rewrite <- Hit by done. apply Hw; try done; try (unfold inside; cbn; lia); intros _; destruct w; unfold apart; cbn; lia.
  - intros w' g' Hg'. case_decide as Hwg.
    + destruct Hwg as [-> ->]. fold x y. unfold desc_wide in n |- *. cbn [desc_size with_sb with_descs f1].
      assert (desc (with_sb f1 b) g x = (desc (fs s) g x + c) mod 65536) as Ex.
      { unfold desc. cbn [group_descs with_sb with_descs f1]. rewrite rd_wr by (by apply (shift_inside bs L)). unfold shift at 1. cbn [f_len]. by rewrite Hlx. }
      rewrite Ex, Hd by (done || (intros _; destruct w; unfold apart; cbn; lia)).
      assert (0 <= desc (fs s) g x < 65536) as Hrx.
      { unfold desc. pose proof (rd_range (shift (64 * g) x) (group_descs (fs s)) (shift_inside bs L _ _ _ Hf Hg Hx) Hdb) as Hr.
        unfold shift in Hr at 3. cbn [f_len] in Hr. rewrite Hlx in Hr. exact Hr. }
      assert (0 <= desc (fs s) g y) as Hry.
      by apply (rd_range _ _ (shift_inside bs L _ _ _ Hf Hg Hy) Hdb).
      subst n. destruct (64 <=? desc_size (fs s)); [|by rewrite Z.mod_small].
      rewrite (Z.lor_comm (desc _ _ x)), lor_low in Hn, Hc |- * by (done || lia). rewrite Z.lor_comm, lor_low by (done || (apply Z.mod_pos_bound; done)).
      rewrite Z.mod_small by lia. lia.
    + apply Hw; try done; try (destruct w'; unfold inside; cbn; lia); intros <-; destruct w, w'; first [by destruct Hwg|unfold apart, x; cbn; lia].
Qed.
(** ** Allocation *)

(** The states agree but for bit [i] of a bitmap, which is now [b]. *)
Definition flipped (w : which) (g i : Z) (b : bool) (s s' : state) : Prop :=
  forall c, blk (disk s') c = if decide (c = map_of w g) then set_bit (blk (disk s) c) i b else blk (disk s) c.

Definition full (w : which) (d : D) (g : Z) : Prop := forall i, 0 <= i < limit_of w -> bit_at (blk d (map_of w g)) i = true.

Lemma flip_ok w (s : state) g i b : ok s -> in_group g -> 0 <= i < limit_of w -> bit_at (blk (disk s) (map_of w g)) i = negb b ->
  exists s1 s2, ext4_write_block_raw s (map_of w g) (set_bit (blk (disk s) (map_of w g)) i b) = (true, s1) /\
    count_free (kind w) s1 g (if b then -1 else 1) = Ok s2 /\ ok s2 /\ heap s2 = heap s /\ flipped w g i b s s2.
Proof using Type*.
  intros [Hf Hd Hh Hc] Hg Hi Hb. pose proof (map_range w g Hg) as Hr. destruct (limit_bits w g (disk s) Hg Hd) as [Hlim Hfit].
  destruct (write_ok s (map_of w g) (set_bit (blk (disk s) (map_of w g)) i b)) as (d & Ew & Hd' & Hblk).
  { done. } { done. } { rewrite set_bit_length. by apply blk_length. } { by apply set_bit_byte, blk_byte. }
  assert (clear_bits (set_bit (blk (disk s) (map_of w g)) i b) (limit_of w) = clear_bits (blk (disk s) (map_of w g)) (limit_of w) + (if b then -1 else 1)) as En.
  { destruct b; [pose proof (clear_bits_set _ (limit_of w) i Hi Hfit Hb); lia|by apply clear_bits_clear]. }
  pose proof (clear_bits_range (blk (disk s) (map_of w g)) (limit_of w)). pose proof (clear_bits_range (set_bit (blk (disk s) (map_of w g)) i b) (limit_of w)).
  destruct (count_free_ok w (with_disk s d) g (if b then -1 else 1) Hf Hg) as (f & Ef & Hff & Hcnt); cbn [fs with_disk];
    [rewrite (Hc w g Hg); lia|rewrite (Hc w g Hg), <- En; lia|].
  exists (with_disk s d), (with_fs (with_disk s d) f). split; [done|]. split; [done|].
  assert (flipped w g i b s (with_fs (with_disk s d) f)) as Hflip by (intros c; cbn [disk with_fs with_disk]; rewrite Hblk; by case_decide; subst).
  split; [split; cbn [fs disk heap with_fs with_disk]; try done|done].
  intros w' g' Hg'. cbn [with_disk fs] in Hcnt. rewrite Hcnt, Hblk by done. destruct (decide (w' = w /\ g' = g)) as [[-> ->]|Hne].
  - rewrite decide_True, (Hc w g Hg) by done. by rewrite En.
  - rewrite decide_False; [by apply Hc|]. intros E. by apply map_inj in E.
Qed.

Lemma number_ok w (s : state) g i : follows (fs s) -> in_group g -> 0 <= i < limit_of w -> i32 (k_number (kind w) (fs s) g i) = number_of w g i.
Proof using Type*.
  intros Hf Hg Hi. pose proof (fo_bpg _ _ _ Hf) as Eb. pose proof (fo_ipg _ _ _ Hf) as Ei. pose proof (fo_first _ _ _ Hf) as E1.
  pose proof gl_numbers. pose proof gl_inodes. pose proof gl_first. pose proof gl_bpg. pose proof gl_ipg.
  unfold Ext4Spec.in_group in Hg. assert ((g + 1) * limit_of w <= l_count L * limit_of w) by (apply Z.mul_le_mono_nonneg_r; destruct w; cbn; lia).
  destruct w; cbn [kind k_number block_bitmap inode_bitmap Ext4Spec.limit_of Ext4Spec.number_of] in *; rewrite ?E1, ?Eb, ?Ei;
    (rewrite u32_small, i32_small; [done|lia..]).
Qed.

Lemma group_loop_ok w pref n : forall k (s : state) h0 p, ok s -> holds h0 p (heap s) -> 0 <= k -> k + Z.of_nat n = l_count L -> 0 <= pref < 2 ^ 31 ->
  exists r s', group_loop (kind w) n k pref p s = Ok (r, s') /\ ok s' /\ like h0 (heap s') /\
  ((r = -1 /\ fs s' = fs s /\ disk s' = disk s /\ forall j, k <= j < l_count L -> full w (disk s) ((pref + j) mod l_count L)) \/
   exists j i, k <= j < l_count L /\ (forall j', k <= j' < j -> full w (disk s) ((pref + j') mod l_count L)) /\
     scan_result (blk (disk s) (map_of w ((pref + j) mod l_count L))) 0 (limit_of w) (Some i) /\
     r = number_of w ((pref + j) mod l_count L) i /\ flipped w ((pref + j) mod l_count L) i true s s').
Proof using Type*.
  pose proof gl_count as Hc0. assert (l_count L <= 2 ^ 31) as Hcm by (pose proof gl_numbers; pose proof gl_first; pose proof gl_bpg; nia).
  induction n as [|n IH]; intros k s h0 p Hok Hh Hk Hn Hp; cbn [group_loop]; pose proof Hok as [Hf Hd Hi Hcnt].
  { destruct (done_ok h0 p (heap s) s (-1) Hh (like_refl _ Hi)) as (h' & E & Hl). exists (-1), (with_heap s h').
    rewrite E. split; [done|]. split; [split; try done; apply Hl|]. split; [done|]. left. split; [done|]. split; [done|]. split; [done|]. intros; lia. }
  set (g := (pref + k) mod l_count L). assert (in_group g) as Hg by (apply Z.mod_pos_bound; done).
  rewrite (fo_count _ _ _ Hf), u32_small by lia. fold g.
  rewrite (gd_wide_ok bs L) by (done || (destruct w; unfold inside; cbn; lia)). rewrite bind_ok, (Hcnt w g Hg).
  assert (full w (disk s) g -> exists r s', group_loop (kind w) n (k + 1) pref p s = Ok (r, s') /\ ok s' /\ like h0 (heap s') /\
    ((r = -1 /\ fs s' = fs s /\ disk s' = disk s /\ forall j, k <= j < l_count L -> full w (disk s) ((pref + j) mod l_count L)) \/
     exists j i, k <= j < l_count L /\ (forall j', k <= j' < j -> full w (disk s) ((pref + j') mod l_count L)) /\
       scan_result (blk (disk s) (map_of w ((pref + j) mod l_count L))) 0 (limit_of w) (Some i) /\
       r = number_of w ((pref + j) mod l_count L) i /\ flipped w ((pref + j) mod l_count L) i true s s')) as Hskip.
  { intros Hfull. destruct (IH (k + 1) s h0 p) as (r & s' & E & Hok' & Hl & Hr); try done; try lia. exists r, s'. split; [done|]. split; [done|]. split; [done|].
    destruct Hr as [(? & ? & ? & Hall)|(j & i & Hj & Hall & ?)]; [left|right].
    - split; [done|]. split; [done|]. split; [done|]. intros j Hj. destruct (decide (j = k)) as [->|]; [done|]. apply Hall. lia.
    - exists j, i. split; [lia|]. split; [|done]. intros j' Hj'. destruct (decide (j' = k)) as [->|]; [done|]. apply Hall. lia. }
  destruct (Z.eqb_spec (clear_bits (blk (disk s) (map_of w g)) (limit_of w)) 0) as [E0|_].
  { apply Hskip. intros i Hi'. by eapply clear_bits_none. }
  rewrite (get_bitmap_ok bs L) by done. rewrite bind_ok, read_ok by (done || apply Hf || by apply map_range). rewrite bind_ok.
  destruct (limit_bits w g (disk s) Hg Hd) as [Hlim Hfit].
  assert (Z.of_nat (Z.to_nat (k_bytes (kind w) (fs s))) <= Z.of_nat (length (blk (disk s) (map_of w g))) /\
    limit_of w <= Z.of_nat (Z.to_nat (k_bytes (kind w) (fs s))) * 8 /\ k_limit (kind w) (fs s) = limit_of w) as (Hb1 & Hb2 & ->).
  { pose proof gl_bpg_fits. pose proof gl_ipg_fits. pose proof gl_ipg_bytes. pose proof gl_ipg.
    rewrite blk_length by (done || by apply map_range).
    destruct w; cbn; rewrite ?(fo_bs _ _ _ Hf), ?(fo_ipg _ _ _ Hf), ?(fo_bpg _ _ _ Hf); (split; [|split; [|done]]); lia_mod. }
  destruct (byte_scan_spec (blk (disk s) (map_of w g)) (limit_of w) (Z.to_nat (k_bytes (kind w) (fs s))) 0 (blk_byte _ _ Hd (map_range _ _ Hg)) ltac:(done) ltac:(lia) ltac:(lia)) as (r & Er & Hr).
  rewrite Er, bind_ok. rewrite Z.mul_0_l in Hr. destruct r as [i|]; [|by apply Hskip].
  pose proof Hr as (Hil & Hbit & _). destruct (get_byte (blk (disk s) (map_of w g)) i) as [c Ec]; [lia|]. rewrite Ec, bind_ok.
  rewrite (put_bit _ _ true) by (done || lia || by apply blk_byte, map_range). rewrite bind_ok.
  destruct (flip_ok w s g i true) as (s1 & s2 & E1 & E2 & Hok2 & Eh & Hfl); try done. rewrite E1. cbn [negb]. rewrite E2, bind_ok.
  destruct (done_ok h0 p (heap s) s2 (i32 (k_number (kind w) (fs s) g i)) Hh) as (h' & E & Hl); [rewrite Eh; by apply like_refl|].
  rewrite E, number_ok by done. exists (number_of w g i), (with_heap s2 h'). split; [done|]. split; [apply ok_heap_any; [done|apply Hl]|].
  split; [done|]. right. exists k, i. split; [lia|]. split; [intros; lia|]. done.
Qed.

End alloc.
