(* ===== verification/Ext4Nodes.v ===== *)
(** * The ext4 driver: blocks in use and inodes

    What allocation and the inode functions do to the sets of used blocks and live inodes
    and to the inodes. *)
From S2P Require Import Prelude AllocSpec Buffer Ext4 Ext4Spec Ext4Alloc.
#[local] Open Scope Z_scope.

Section nodes.
Context {A D : Type} `{AllocatorLaws A} `{BlockDevice D} {bs nblocks : Z} {L : layout}.
Context `{!DeviceLaws D bs nblocks} `{!BufferPool A bs} {GL : good_layout bs nblocks L}.
Abbreviation state := (st A D).
Abbreviation map_of := (map_of L). Abbreviation limit_of := (limit_of L). Abbreviation number_of := (number_of L).
Abbreviation in_group := (in_group L). Abbreviation follows := (follows bs L). Abbreviation meta := (meta bs L).
Abbreviation ok := (ok (L := L)). Abbreviation full := (full (L := L)). Abbreviation flipped := (flipped (L := L)).

(** The states differ at most in the heap. *)
Definition quiet (s s' : state) : Prop := fs s' = fs s /\ disk s' = disk s /\ like (heap s) (heap s').

Lemma ext4_quiet_refl (s : state) : ok s -> quiet s s.
Proof using Type*. intros Hs. split; [done|]. split; [done|]. apply like_refl, Hs. Qed.

Lemma ext4_quiet_trans (s1 s2 s3 : state) : quiet s1 s2 -> quiet s2 s3 -> quiet s1 s3.
Proof using Type*. intros (E1 & E2 & E3) (E4 & E5 & E6). split_and!; [congruence..|]. by eapply like_trans. Qed.

Lemma quiet_ok (s s' : state) : ok s -> quiet s s' -> ok s'.
Proof using Type*.
  intros [Hf Hd Hh Hc] (Ef & Ed & Hl). split; rewrite ?Ef, ?Ed; try done. apply Hl.
Qed.

(** ** Allocation and release *)

Lemma alloc_bit_ok w (s : state) pref : ok s -> (0 < spare (heap s))%nat -> 0 <= pref < 2 ^ 31 ->
  exists r s', alloc_bit (kind w) s pref = Ok (r, s') /\ ok s' /\ like (heap s) (heap s') /\
  ((r = -1 /\ fs s' = fs s /\ disk s' = disk s /\ forall g, in_group g -> full w (disk s) g) \/
   exists j i, 0 <= j < l_count L /\ (forall j', 0 <= j' < j -> full w (disk s) ((pref + j') mod l_count L)) /\
     scan_result (blk (disk s) (map_of w ((pref + j) mod l_count L))) 0 (limit_of w) (Some i) /\
     r = number_of w ((pref + j) mod l_count L) i /\ flipped w ((pref + j) mod l_count L) i true s s').
Proof using Type*.
  intros Hok Hs Hp. pose proof Hok as [Hf Hd Hi Hc]. pose proof gl_count as Hc0.
  destruct (new_buf_ok s Hi (fo_bs _ _ _ Hf) Hs) as (p & h & E & Hp0 & Hih & _ & Hh). unfold alloc_bit. rewrite E, bind_ok, Hp0.
  cbn [fs with_heap]. rewrite (fo_count _ _ _ Hf).
  destruct (group_loop_ok w pref (Z.to_nat (l_count L)) 0 (with_heap s h) (heap s) p) as (r & s' & Er & Hok' & Hl & Hr); try done; try lia.
  exists r, s'. split; [done|]. split; [done|]. split; [done|]. destruct Hr as [(? & ? & ? & Hall)|Hr]; [left|by right].
  split; [done|]. split; [done|]. split; [done|]. intros g Hg. unfold Ext4Spec.in_group in Hg.
  specialize (Hall ((g - pref) mod l_count L) (Z.mod_pos_bound _ _ Hc0)). rewrite Zplus_mod_idemp_r in Hall.
  replace (pref + (g - pref)) with g in Hall by lia. by rewrite Z.mod_small in Hall by lia.
Qed.

Lemma free_bit_ok w (s : state) g i : ok s -> (0 < spare (heap s))%nat -> in_group g -> 0 <= i < limit_of w ->
  bit_at (blk (disk s) (map_of w g)) i = true ->
  exists s', free_bit (kind w) s g i = Ok (0, s') /\ ok s' /\ like (heap s) (heap s') /\ flipped w g i false s s'.
Proof using Type*.
  intros Hok Hs Hg Hil Hb. pose proof Hok as [Hf Hd Hi Hc]. destruct (new_buf_ok s Hi (fo_bs _ _ _ Hf) Hs) as (p & h & E & Hp0 & Hih & _ & Hh).
  unfold free_bit. rewrite (fo_count _ _ _ Hf), (proj2 (Z.leb_gt _ _)) by apply Hg. rewrite E, bind_ok, Hp0. cbn [fs with_heap].
  rewrite (get_bitmap_ok bs L) by done. rewrite bind_ok, read_ok by (done || apply Hf || by apply map_range). rewrite bind_ok. cbn [disk with_heap].
  destruct (limit_bits w g (disk s) Hg Hd) as [Hlim Hfit].
  destruct (get_byte (blk (disk s) (map_of w g)) i) as [c Ec]; [lia|]. rewrite Ec, bind_ok.
  rewrite (put_bit _ _ false) by (done || lia || by apply blk_byte, map_range). rewrite bind_ok.
  destruct (flip_ok w (with_heap s h) g i false) as (s1 & s2 & E1 & E2 & Hok2 & Eh & Hfl); try done.
  cbn [disk with_heap] in E1. rewrite E1. cbn [negb]. rewrite E2, bind_ok. destruct (done_ok (heap s) p h s2 0 Hh) as (h' & Ed & Hl); [rewrite Eh; by apply like_refl|].
  rewrite Ed. exists (with_heap s2 h'). split; [done|]. split; [apply ok_heap_any; [done|apply Hl]|]. done.
Qed.

(** ** Blocks in use, inodes *)

Definition area (b : Z) : Prop := l_first L <= b < l_first L + l_count L * l_bpg L.
Definition group_of (b : Z) : Z := (b - l_first L) / l_bpg L.
Definition used (d : D) (b : Z) : bool := bit_at (blk d (l_blocks L (group_of b))) ((b - l_first L) mod l_bpg L).

Definition inode_ok (ino : Z) : Prop := 1 <= ino <= l_count L * l_ipg L.
Definition live (d : D) (ino : Z) : bool := bit_at (blk d (l_inodes L ((ino - 1) / l_ipg L))) ((ino - 1) mod l_ipg L).
Definition node_block (ino : Z) : Z := l_table L ((ino - 1) / l_ipg L) + ((ino - 1) mod l_ipg L * l_isz L) / bs.
Definition node_off (ino : Z) : nat := Z.to_nat (((ino - 1) mod l_ipg L * l_isz L) mod bs).
Definition node (d : D) (ino : Z) : list Z := slice (blk d (node_block ino)) (node_off ino) inode_bytes.

Lemma area_group b : area b -> in_group (group_of b) /\ 0 <= (b - l_first L) mod l_bpg L < l_bpg L.
Proof using Type*.
  intros Hb. unfold area in Hb. pose proof gl_bpg. split; [|apply Z.mod_pos_bound; lia]. unfold Ext4Spec.in_group, group_of.
  split; [apply Z.div_pos; lia|apply Z.div_lt_upper_bound; lia].
Qed.

Lemma inode_group ino : inode_ok ino -> in_group ((ino - 1) / l_ipg L) /\ 0 <= (ino - 1) mod l_ipg L < l_ipg L.
Proof using Type*.
  intros Hb. unfold inode_ok in Hb. pose proof gl_ipg. split; [|apply Z.mod_pos_bound; lia]. unfold Ext4Spec.in_group.
  split; [apply Z.div_pos; lia|apply Z.div_lt_upper_bound; lia].
Qed.

Lemma number_area g i : in_group g -> 0 <= i < l_bpg L ->
  area (number_of Blocks g i) /\ group_of (number_of Blocks g i) = g /\ (number_of Blocks g i - l_first L) mod l_bpg L = i.
Proof using Type*.
  intros Hg Hi. unfold Ext4Spec.in_group in Hg. cbn [Ext4Spec.number_of]. pose proof gl_bpg. unfold group_of.
  replace (l_first L + g * l_bpg L + i - l_first L) with (g * l_bpg L + i) by lia.
  split; [unfold area; nia|]. split; [symmetry; apply Z.div_unique with i; lia|symmetry; apply Z.mod_unique with g; lia].
Qed.

Lemma number_inode g i : in_group g -> 0 <= i < l_ipg L ->
  inode_ok (number_of Inodes g i) /\ (number_of Inodes g i - 1) / l_ipg L = g /\ (number_of Inodes g i - 1) mod l_ipg L = i.
Proof using Type*.
  intros Hg Hi. unfold Ext4Spec.in_group in Hg. cbn [Ext4Spec.number_of]. pose proof gl_ipg.
  replace (g * l_ipg L + i + 1 - 1) with (g * l_ipg L + i) by lia.
  split; [unfold inode_ok; nia|]. split; [symmetry; apply Z.div_unique with i; lia|symmetry; apply Z.mod_unique with g; lia].
Qed.

(** An inode lies inside one block of the table of its group. *)
Lemma node_place ino : inode_ok ino -> exists j, valid_role bs L (Table ((ino - 1) / l_ipg L) j) /\ node_block ino = place L (Table ((ino - 1) / l_ipg L) j) /\
  (node_off ino + inode_bytes <= Z.to_nat bs)%nat.
Proof using Type*.
  intros Hi. destruct (inode_group ino Hi) as [Hg Hidx]. set (idx := (ino - 1) mod l_ipg L) in *. pose proof gl_bs. pose proof gl_isz. pose proof gl_ipg.
  exists (idx * l_isz L / bs). split; [split; [done|]|split; [done|]].
  - split; [apply Z.div_pos; nia|]. unfold table_len. apply Z.div_lt_upper_bound; [lia|].
    pose proof (Z.mul_succ_div_gt (l_ipg L * l_isz L + bs - 1) bs). nia.
  - unfold node_off. fold idx. pose proof gl_isz_fits as Hfit. apply Z.mod_divide in Hfit as [k Hk]; [|lia].
    assert (0 < k) by nia. assert (idx * l_isz L mod bs = (idx mod k) * l_isz L) as E.
    { rewrite Hk, Z.mul_mod_distr_r by lia. done. }
    rewrite E. pose proof (Z.mod_pos_bound idx k). unfold inode_bytes. nia.
Qed.

Lemma node_range ino : inode_ok ino -> 0 <= node_block ino < nblocks.
Proof using Type*. intros Hi. destruct (node_place ino Hi) as (j & Hv & -> & _). by apply gl_place. Qed.

Lemma node_length d ino : dv_ok d -> inode_ok ino -> length (node d ino) = inode_bytes.
Proof using Type*.
  intros Hd Hi. unfold node. apply slice_length. destruct (node_place ino Hi) as (j & _ & _ & Hfit).
  pose proof (blk_length d (node_block ino) Hd (node_range ino Hi)). lia.
Qed.

Lemma node_byte d ino : dv_ok d -> inode_ok ino -> Forall byte (node d ino).
Proof using Type*. intros Hd Hi. by apply slice_byte, blk_byte, node_range. Qed.
Lemma node_apart i j : inode_ok i -> inode_ok j -> i <> j -> node_block i = node_block j ->
  (node_off i + inode_bytes <= node_off j \/ node_off j + inode_bytes <= node_off i)%nat.
Proof using Type*.
  intros Hi Hj Hne E. destruct (node_place i Hi) as (a & Ha & Ea & _), (node_place j Hj) as (b & Hb & Eb & _).
  assert (Table ((i - 1) / l_ipg L) a = Table ((j - 1) / l_ipg L) b) as Er by (apply gl_inj; [done|done|congruence]). injection Er as Eg _.
  unfold node_block in E. rewrite Eg in E. pose proof gl_ipg. pose proof gl_isz. pose proof gl_bs.
  set (x := (i - 1) mod l_ipg L) in *. set (y := (j - 1) mod l_ipg L) in *.
  assert (x <> y) as Hxy by (intros Exy; apply Hne; pose proof (Z.div_mod (i - 1) (l_ipg L)); pose proof (Z.div_mod (j - 1) (l_ipg L)); unfold x, y in *; lia).
  assert (x * l_isz L / bs = y * l_isz L / bs) as Eq by lia. unfold node_off. fold x y.
  pose proof (Z.div_mod (x * l_isz L) bs). pose proof (Z.div_mod (y * l_isz L) bs).
  pose proof (Z.mod_pos_bound (x * l_isz L) bs). pose proof (Z.mod_pos_bound (y * l_isz L) bs). rewrite Eq in *. unfold inode_bytes.
  destruct (Z.lt_ge_cases x y); [assert ((x + 1) * l_isz L <= y * l_isz L) by nia|assert ((y + 1) * l_isz L <= x * l_isz L) by nia]; lia.
Qed.

(** ** What the views depend on *)

Lemma view_frame (d d' : D) : (forall c, meta c -> blk d' c = blk d c) ->
  (forall b, area b -> used d' b = used d b) /\ (forall i, inode_ok i -> live d' i = live d i) /\ (forall i, inode_ok i -> node d' i = node d i).
Proof using Type*.
  intros Hm. split_and!.
  - intros b Hb. unfold used. rewrite Hm; [done|]. exists (BlockBitmap (group_of b)). split; [apply area_group, Hb|done].
  - intros i Hi. unfold live. rewrite Hm; [done|]. exists (InodeBitmap ((i - 1) / l_ipg L)). split; [apply inode_group, Hi|done].
  - intros i Hi. unfold node. rewrite Hm; [done|]. destruct (node_place i Hi) as (j & Hv & E & _). by exists (Table ((i - 1) / l_ipg L) j).
Qed.

Lemma node_frame (d d' : D) w g : in_group g -> (forall c, c <> map_of w g -> blk d' c = blk d c) -> forall i, inode_ok i -> node d' i = node d i.
Proof using Type*.
  intros Hg Hd i Hi. unfold node. rewrite Hd; [done|]. destruct (node_place i Hi) as (j & Hv & -> & _). intros E.
  destruct w; [by pose proof (gl_inj (Table ((i - 1) / l_ipg L) j) (BlockBitmap g) Hv Hg E)|by pose proof (gl_inj (Table ((i - 1) / l_ipg L) j) (InodeBitmap g) Hv Hg E)].
Qed.

(** The views after one bit of a bitmap changed. *)
Record bit_views (w : which) (n : Z) (b : bool) (d d' : D) : Prop := {
  bv_used c : area c -> used d' c = if decide (w = Blocks /\ c = n) then b else used d c;
  bv_live i : inode_ok i -> live d' i = if decide (w = Inodes /\ i = n) then b else live d i;
  bv_node i : inode_ok i -> node d' i = node d i;
  bv_blk c : ~ meta c -> blk d' c = blk d c
}.

Lemma flipped_views w g i b (s s' : state) : ok s -> in_group g -> 0 <= i < limit_of w -> flipped w g i b s s' ->
  bit_views w (number_of w g i) b (disk s) (disk s').
Proof using Type*.
  intros Hok Hg Hi Hfl. destruct (limit_bits w g (disk s) Hg (ok_device _ Hok)) as [_ Hfit]. split.
  - intros c Hc. destruct (area_group c Hc) as [Hgc Hic]. unfold used. rewrite (Hfl (l_blocks L (group_of c))).
    change (l_blocks L (group_of c)) with (map_of Blocks (group_of c)). destruct (decide (map_of Blocks (group_of c) = map_of w g)) as [E|E].
    + apply map_inj in E as [<- E]; [|done..]. rewrite E. rewrite bit_at_set by (cbn in *; lia).
      destruct (decide ((c - l_first L) mod l_bpg L = i)) as [Ei|Ei]; case_decide as Hd; try done.
      * destruct Hd. split; [done|]. cbn [Ext4Spec.number_of]. rewrite <- E, <- Ei. unfold group_of. pose proof gl_bpg.
        pose proof (Z.div_mod (c - l_first L) (l_bpg L)). lia.
      * destruct Hd as [_ ->]. destruct (number_area g i Hg Hi) as (_ & _ & E'). done.
    + rewrite decide_False; [done|]. intros [-> ->]. destruct (number_area g i Hg Hi) as (_ & E' & _). by rewrite E' in E.
  - intros j Hj. destruct (inode_group j Hj) as [Hgj Hij]. unfold live. rewrite (Hfl (l_inodes L ((j - 1) / l_ipg L))).
    change (l_inodes L ((j - 1) / l_ipg L)) with (map_of Inodes ((j - 1) / l_ipg L)). destruct (decide (map_of Inodes ((j - 1) / l_ipg L) = map_of w g)) as [E|E].
    + apply map_inj in E as [<- E]; [|done..]. rewrite E. rewrite bit_at_set by (cbn in *; lia).
      destruct (decide ((j - 1) mod l_ipg L = i)) as [Ei|Ei]; case_decide as Hd; try done.
      * destruct Hd. split; [done|]. cbn [Ext4Spec.number_of]. rewrite <- E, <- Ei. pose proof gl_ipg. pose proof (Z.div_mod (j - 1) (l_ipg L)). lia.
      * destruct Hd as [_ ->]. destruct (number_inode g i Hg Hi) as (_ & _ & E'). done.
    + rewrite decide_False; [done|]. intros [-> ->]. destruct (number_inode g i Hg Hi) as (_ & E' & _). by rewrite E' in E.
  - apply (node_frame _ _ w g Hg). intros c Hc. by rewrite Hfl, decide_False.
  - intros c Hc. rewrite Hfl, decide_False; [done|]. intros ->. by apply Hc, map_meta.
Qed.
(** ** Blocks *)

Lemma alloc_block_ok (s : state) pref : ok s -> (0 < spare (heap s))%nat -> 0 <= pref < 2 ^ 31 ->
  exists r s', ext4_alloc_block s pref = Ok (r, s') /\ ok s' /\ like (heap s) (heap s') /\
  ((r = -1 /\ fs s' = fs s /\ disk s' = disk s /\ forall b, area b -> used (disk s) b = true) \/
   (area r /\ used (disk s) r = false /\ bit_views Blocks r true (disk s) (disk s') /\
    (forall c, area c -> group_of c = group_of r -> c < r -> used (disk s) c = true) /\
    (forall c, area c -> (group_of c - pref) mod l_count L < (group_of r - pref) mod l_count L -> used (disk s) c = true))).
Proof using Type*.
  intros Hok Hs Hp. destruct (alloc_bit_ok Blocks s pref Hok Hs Hp) as (r & s' & E & Hok' & Hl & Hr). exists r, s'.
  split; [exact E|]. split; [done|]. split; [done|]. destruct Hr as [(-> & ? & ? & Hall)|(j & i & Hj & Hall & (Hi & Hb & Hlow) & -> & Hfl)]; [left|right].
  { split; [done|]. split; [done|]. split; [done|]. intros b Hb. destruct (area_group b Hb) as [Hg Hi]. by apply (Hall _ Hg). }
  set (g := (pref + j) mod l_count L) in *. pose proof gl_count. assert (in_group g) as Hg by (apply Z.mod_pos_bound; done).
  destruct (number_area g i Hg Hi) as (Ha & Eg & Ei). assert (forall c, used (disk s) c = bit_at (blk (disk s) (map_of Blocks (group_of c))) ((c - l_first L) mod l_bpg L)) as Hu by done.
  split; [done|]. split; [by rewrite Hu, Eg, Ei|]. split; [by apply flipped_views|]. split.
  - intros c Hc Egc Hlt. rewrite Hu, Egc, Eg. apply Hlow. destruct (area_group c Hc) as [_ Hic]. split; [apply Hic|].
    rewrite Eg in Egc. unfold group_of in Egc, Eg. pose proof gl_bpg. pose proof (Z.div_mod (c - l_first L) (l_bpg L)) as Ec.
    pose proof (Z.div_mod (number_of Blocks g i - l_first L) (l_bpg L)) as En. rewrite Egc in Ec. rewrite Eg, Ei in En. lia.
  - intros c Hc Hlt. rewrite Eg in Hlt. destruct (area_group c Hc) as [Hgc Hic]. rewrite Hu. unfold Ext4Spec.in_group in Hgc.
    set (k := (group_of c - pref) mod l_count L) in *. assert ((g - pref) mod l_count L = j) as Ej.
    { unfold g. rewrite Zminus_mod_idemp_l. replace (pref + j - pref) with j by lia. by apply Z.mod_small. }
    rewrite Ej in Hlt. assert ((pref + k) mod l_count L = group_of c) as Ek.
    { unfold k. rewrite Zplus_mod_idemp_r. replace (pref + (group_of c - pref)) with (group_of c) by lia. by apply Z.mod_small. }
    rewrite <- Ek. apply Hall; [|done]. pose proof (Z.mod_pos_bound (group_of c - pref) (l_count L)). lia.
Qed.

Lemma free_block_ok (s : state) b : ok s -> (0 < spare (heap s))%nat -> area b -> used (disk s) b = true ->
  exists s', ext4_free_block s b = Ok (0, s') /\ ok s' /\ like (heap s) (heap s') /\ bit_views Blocks b false (disk s) (disk s').
Proof using Type*.
  intros Hok Hs Hb Hu. pose proof (ok_follows _ Hok) as Hf. destruct (area_group b Hb) as [Hg Hi].
  destruct (free_bit_ok Blocks s (group_of b) ((b - l_first L) mod l_bpg L) Hok Hs Hg Hi Hu) as (s' & E & Hok' & Hl & Hfl).
  exists s'. split; [|split; [done|]; split; [done|]].
  - unfold ext4_free_block. rewrite (fo_first _ _ _ Hf), (fo_bpg _ _ _ Hf). pose proof gl_bpg. unfold area in Hb.
    rewrite (proj2 (Z.ltb_ge _ _)), (proj2 (Z.eqb_neq _ _)) by lia. fold (group_of b).
    rewrite u32_small; [exact E|]. unfold Ext4Spec.in_group in Hg. pose proof gl_numbers. pose proof gl_first. nia.
  - pose proof (flipped_views Blocks _ _ _ _ _ Hok Hg Hi Hfl) as Hv. cbn [Ext4Spec.number_of] in Hv. pose proof gl_bpg.
    pose proof (Z.div_mod (b - l_first L) (l_bpg L)). unfold group_of in Hv.
    replace (l_first L + (b - l_first L) / l_bpg L * l_bpg L + (b - l_first L) mod l_bpg L) with b in Hv by lia. done.
Qed.

(** ** Numbers of inodes *)

Lemma alloc_inode_ok (s : state) pref : ok s -> (0 < spare (heap s))%nat -> 0 <= pref < 2 ^ 31 ->
  exists r s', ext4_alloc_inode s pref = Ok (r, s') /\ ok s' /\ like (heap s) (heap s') /\
  ((r = -1 /\ fs s' = fs s /\ disk s' = disk s /\ forall i, inode_ok i -> live (disk s) i = true) \/
   (inode_ok r /\ live (disk s) r = false /\ bit_views Inodes r true (disk s) (disk s'))).
Proof using Type*.
  intros Hok Hs Hp. destruct (alloc_bit_ok Inodes s pref Hok Hs Hp) as (r & s' & E & Hok' & Hl & Hr). exists r, s'.
  split; [exact E|]. split; [done|]. split; [done|]. destruct Hr as [(-> & ? & ? & Hall)|(j & i & Hj & Hall & (Hi & Hb & Hlow) & -> & Hfl)]; [left|right].
  { split; [done|]. split; [done|]. split; [done|]. intros i Hi. destruct (inode_group i Hi) as [Hg Hi']. by apply (Hall _ Hg). }
  set (g := (pref + j) mod l_count L) in *. pose proof gl_count. assert (in_group g) as Hg by (apply Z.mod_pos_bound; done).
  destruct (number_inode g i Hg Hi) as (Ha & Eg & Ei). split; [done|]. split; [unfold live; by rewrite Eg, Ei|]. by apply flipped_views.
Qed.

Lemma free_inode_ok (s : state) ino : ok s -> (0 < spare (heap s))%nat -> inode_ok ino -> live (disk s) ino = true ->
  exists s', ext4_free_inode s ino = Ok (0, s') /\ ok s' /\ like (heap s) (heap s') /\ bit_views Inodes ino false (disk s) (disk s').
Proof using Type*.
  intros Hok Hs Hb Hu. pose proof (ok_follows _ Hok) as Hf. destruct (inode_group ino Hb) as [Hg Hi]. pose proof gl_ipg. pose proof gl_numbers. unfold inode_ok in Hb.
  destruct (free_bit_ok Inodes s ((ino - 1) / l_ipg L) ((ino - 1) mod l_ipg L) Hok Hs Hg Hi Hu) as (s' & E & Hok' & Hl & Hfl).
  exists s'. split; [|split; [done|]; split; [done|]].
  - unfold ext4_free_inode. rewrite (fo_ipg _ _ _ Hf). rewrite (proj2 (Z.eqb_neq _ _)) by lia. destruct (Z.eqb_spec (l_ipg L) 0); [lia|]. exact E.
  - pose proof (flipped_views Inodes _ _ _ _ _ Hok Hg Hi Hfl) as Hv. cbn [Ext4Spec.number_of] in Hv.
    pose proof (Z.div_mod (ino - 1) (l_ipg L)). replace ((ino - 1) / l_ipg L * l_ipg L + (ino - 1) mod l_ipg L + 1) with ino in Hv by lia. done.
Qed.

(** A write to a block of data. *)
Lemma write_data_ok (s : state) b l : ok s -> 0 <= b < nblocks -> ~ meta b -> Z.of_nat (length l) = bs -> Forall byte l ->
  exists s', ext4_write_block_raw s b l = (true, s') /\ ok s' /\ fs s' = fs s /\ heap s' = heap s /\
    forall c, blk (disk s') c = if decide (c = b) then l else blk (disk s) c.
Proof using Type*.
  intros [Hf Hd Hh Hc] Hb Hm Hl Hby. destruct (write_ok s b l Hd Hb Hl Hby) as (d & E & Hd' & Hblk). exists (with_disk s d). split; [done|].
  split; [|done]. split; try done. intros w g Hg. cbn [fs disk with_disk]. rewrite Hblk, decide_False; [by apply Hc|]. intros <-. by apply Hm, map_meta.
Qed.

(** ** Inodes *)

Lemma inode_place_ok f ino : follows f -> inode_ok ino -> inode_place f ino = Ok (Some (node_block ino, Z.of_nat (node_off ino))).
Proof using Type*.
  intros Hf Hi. destruct (inode_group ino Hi) as [Hg Hidx]. pose proof (node_range ino Hi) as Hr. pose proof gl_bs. pose proof gl_ipg. pose proof gl_isz. pose proof gl_blocks.
  unfold inode_place. rewrite (fo_ipg _ _ _ Hf), (fo_count _ _ _ Hf), (fo_bs _ _ _ Hf), (fo_isz _ _ _ Hf).
  unfold inode_ok in Hi. rewrite !(proj2 (Z.eqb_neq _ _)), (proj2 (Z.leb_gt _ _)) by (lia || apply Hg).
  rewrite (gd_wide_ok bs L) by (done || (unfold inside; cbn; lia)). rewrite bind_ok, (fo_table _ _ _ Hf) by done.
  assert (l_isz L <= bs) as Hsz by (pose proof gl_isz_fits as Hfit; apply Z.mod_divide in Hfit as [k Hk]; [|lia]; assert (0 < k) by nia; nia).
  unfold node_block in *. rewrite u32_small by nia. rewrite u64_small by lia. unfold node_off. rewrite Z2Nat.id; [done|]. apply Z.mod_pos_bound. lia.
Qed.

Lemma read_inode_ok (s : state) ino : ok s -> (0 < spare (heap s))%nat -> inode_ok ino ->
  exists s', ext4_read_inode s ino = Ok (Some (node (disk s) ino), s') /\ quiet s s'.
Proof using Type*.
  intros Hok Hs Hi. pose proof Hok as [Hf Hd Hh _]. destruct (node_place ino Hi) as (j & _ & _ & Hfit). pose proof (node_range ino Hi) as Hr.
  destruct (new_buf_ok s Hh (fo_bs _ _ _ Hf) Hs) as (p & h & E & Hp & Hih & _ & Hho).
  unfold ext4_read_inode. rewrite inode_place_ok by done. rewrite bind_ok, E, bind_ok, Hp. rewrite read_ok by (done || apply Hf). rewrite bind_ok. cbn [disk with_heap].
  pose proof (blk_length (disk s) (node_block ino) Hd Hr). rewrite sub_ok by lia. rewrite bind_ok, !Nat2Z.id.
  destruct (done_ok (heap s) p h (with_heap s h) (Some (node (disk s) ino)) Hho (like_refl _ Hih)) as (h' & Ed & Hl). fold (node (disk s) ino). rewrite Ed.
  by eexists.
Qed.

Lemma write_inode_ok (s : state) ino l : ok s -> (0 < spare (heap s))%nat -> inode_ok ino -> length l = inode_bytes -> Forall byte l ->
  exists s', ext4_write_inode s ino l = Ok (true, s') /\ ok s' /\ fs s' = fs s /\ like (heap s) (heap s') /\
    (forall i, inode_ok i -> node (disk s') i = if decide (i = ino) then l else node (disk s) i) /\
    (forall b, area b -> used (disk s') b = used (disk s) b) /\ (forall i, inode_ok i -> live (disk s') i = live (disk s) i) /\
    (forall c, ~ meta c -> blk (disk s') c = blk (disk s) c).
Proof using Type*.
  intros Hok Hs Hi Hl Hby. pose proof Hok as [Hf Hd Hh Hc]. destruct (node_place ino Hi) as (j & Hv & Epl & Hfit). pose proof (node_range ino Hi) as Hr.
  destruct (new_buf_ok s Hh (fo_bs _ _ _ Hf) Hs) as (p & h & E & Hp & Hih & _ & Hho).
  unfold ext4_write_inode. rewrite inode_place_ok by done. rewrite bind_ok, E, bind_ok, Hp. rewrite read_ok by (done || apply Hf). rewrite bind_ok. cbn [disk with_heap].
  pose proof (blk_length (disk s) (node_block ino) Hd Hr) as Hlen. rewrite store_ok by lia. rewrite bind_ok, Nat2Z.id.
  destruct (write_ok (with_heap s h) (node_block ino) (splice (blk (disk s) (node_block ino)) (node_off ino) l)) as (d & Ew & Hd' & Hblk); try done.
  { rewrite splice_length by lia. done. } { apply splice_byte; [by apply blk_byte|done]. }
  rewrite Ew. destruct (done_ok (heap s) p h (with_disk (with_heap s h) d) true Hho (like_refl _ Hih)) as (h' & Ed & Hlk). rewrite Ed.
  cbn [disk with_heap] in Hblk. assert (forall r, valid_role bs L r -> (forall i, r <> Table ((ino - 1) / l_ipg L) i) -> blk d (place L r) = blk (disk s) (place L r)) as Hother.
  { intros r Hvr Hne. rewrite Hblk, decide_False; [done|]. rewrite Epl. intros Er. apply gl_inj in Er; [|done..]. by eapply Hne. }
  eexists. split; [done|]. cbn [fs disk heap with_heap with_disk]. split; [split; cbn; try done; [apply Hlk|]|]. 
  { intros w g Hg. transitivity (clear_bits (blk (disk s) (map_of w g)) (limit_of w)); [apply (Hc w g Hg)|]. f_equal. symmetry.
    destruct w; [apply (Hother (BlockBitmap g))|apply (Hother (InodeBitmap g))]; done. }
  split; [done|]. split; [done|]. split_and!.
  - intros i Hii. unfold node. rewrite Hblk. destruct (decide (node_block i = node_block ino)) as [Eb|Eb].
    + case_decide as Hd0; [subst; rewrite <- Hl; apply slice_splice; lia|]. rewrite Eb. apply slice_splice_ne; [lia|]. rewrite Hl. apply node_apart; done.
    + rewrite decide_False by congruence. done.
  - intros b Hb. unfold used. f_equal. apply (Hother (BlockBitmap (group_of b))); [apply area_group, Hb|done].
  - intros i Hii. unfold live. f_equal. apply (Hother (InodeBitmap ((i - 1) / l_ipg L))); [apply inode_group, Hii|done].
  - intros c Hcm. rewrite Hblk, decide_False; [done|]. intros ->. apply Hcm. rewrite Epl. by eexists.
Qed.
End nodes.
