(* ===== verification/Ext4Map.v ===== *)
(** * The ext4 driver: block mapping

    [ref] follows the pointers of an inode.  [trees] is the invariant of the block maps: what
    live inodes refer to are used blocks, each referred to once.  It speaks of a function
    [N] from numbers to inodes, because an operation works on a copy of an inode that it
    writes back at the end. *)
From S2P Require Import Prelude AllocSpec Buffer Ext4 Ext4Spec Ext4Alloc Ext4Nodes.
#[local] Open Scope Z_scope.

(** What a block is for: data, a block of pointers, the block of pointers to those, and one of these. *)
Inductive use := Data (n : Z) | Ind | Dind | Ind2 (k : Z).
#[export] Instance use_eq : EqDecision use.
Proof. solve_decision. Defined.

Definition ptr (l : list Z) (k : Z) : Z := rd (shift (4 * k) entry) l.
Definition via (B : Z -> list Z) (q k : Z) : Z := if q =? 0 then 0 else ptr (B q) k.

Lemma block_field_inside n (l : list Z) : 0 <= n < 15 -> length l = inode_bytes -> inside (i_block n) (length l).
Proof using Type. intros Hn Hl. unfold inside, i_block. rewrite Hl. unfold inode_bytes. cbn. lia. Qed.

Lemma rd_block_wr m n v l : 0 <= m < 15 -> 0 <= n < 15 -> length l = inode_bytes -> 0 <= v < 2 ^ 32 ->
  rd (i_block m) (wr (i_block n) v l) = if decide (m = n) then v else rd (i_block m) l.
Proof using Type.
  intros Hm Hn Hl Hv. pose proof (block_field_inside n l Hn Hl). case_decide as E; [subst; apply rd_wr_small; done|].
  apply rd_wr_ne; [done|]. unfold apart, i_block. cbn. lia.
Qed.

Section map.
Context {A D : Type} `{AllocatorLaws A} `{BlockDevice D} {bs nblocks : Z} {L : layout}.
Context `{!DeviceLaws D bs nblocks} `{!BufferPool A bs} {GL : good_layout bs nblocks L}.
Abbreviation state := (st A D).
Abbreviation meta := (meta bs L). Abbreviation ok := (ok (L := L)). Abbreviation area := (area (L := L)).
Abbreviation used := (used (L := L)). Abbreviation live := (live (L := L)). Abbreviation inode_ok := (inode_ok (L := L)). Abbreviation node := (node (bs := bs) (L := L)).
Abbreviation bit_views := (bit_views (bs := bs) (L := L)).

Definition ptrs : Z := bs / 4.
Definition valid_use (u : use) : Prop := match u with Data n => 0 <= n | Ind2 k => 0 <= k < ptrs | _ => True end.

(** The block that an inode uses so, 0 if none. *)
Definition ref (B : Z -> list Z) (nd : list Z) (u : use) : Z :=
  match u with
  | Ind => rd (i_block 12) nd
  | Dind => rd (i_block 13) nd
  | Ind2 k => via B (rd (i_block 13) nd) k
  | Data n =>
      if n <? 12 then rd (i_block n) nd
      else if n - 12 <? ptrs then via B (rd (i_block 12) nd) (n - 12)
      else if n - 12 - ptrs <? ptrs * ptrs then via B (via B (rd (i_block 13) nd) ((n - 12 - ptrs) / ptrs)) ((n - 12 - ptrs) mod ptrs)
      else 0
  end.

Definition pointers (u : use) : Prop := match u with Data _ => False | _ => True end.

Lemma ptrs_range : 256 <= ptrs <= 16384 /\ 4 * ptrs = bs.
Proof using Type*. pose proof gl_bs. pose proof gl_words. unfold ptrs. lia_mod. Qed.

(** Only the pointers of an inode count. *)
Lemma ref_pointers B nd nd' u : valid_use u -> (forall k, 0 <= k < 15 -> rd (i_block k) nd' = rd (i_block k) nd) -> ref B nd' u = ref B nd u.
Proof using Type.
  intros Hu Hk. destruct u as [k| | |k]; cbn [ref]; rewrite ?(Hk 12), ?(Hk 13) by lia; try done. cbn in Hu. destruct (Z.ltb_spec k 12); [apply Hk; lia|done].
Qed.

Lemma ref_frame (B B' : Z -> list Z) nd u : valid_use u ->
  (forall v, valid_use v -> pointers v -> ref B nd v <> 0 -> B' (ref B nd v) = B (ref B nd v)) -> ref B' nd u = ref B nd u.
Proof using Type*.
  intros Hu Hp. assert (forall v k, v = Ind \/ v = Dind -> via B' (ref B nd v) k = via B (ref B nd v) k) as Hvia.
  { intros v k Hv. unfold via. destruct (Z.eqb_spec (ref B nd v) 0); [done|]. rewrite Hp; [done|by destruct Hv as [-> | ->]..|done]. }
  pose proof ptrs_range. destruct u as [n| | |k]; cbn [ref]; [|done|done|apply (Hvia Dind); auto].
  repeat (case_match; [try done|]); [apply (Hvia Ind); auto| |done]. b2p. cbn [valid_use] in Hu.
  change (rd (i_block 13) nd) with (ref B nd Dind). rewrite Hvia by auto. unfold via at 1 3.
  set (k := (n - 12 - ptrs) / ptrs). change (via B (ref B nd Dind) k) with (ref B nd (Ind2 k)).
  destruct (Z.eqb_spec (ref B nd (Ind2 k)) 0); [done|]. rewrite Hp; try done. unfold k. cbn. split; [apply Z.div_pos; lia|apply Z.div_lt_upper_bound; lia].
Qed.

(** ** The invariant *)

(** A block that can hold data. *)
Definition data_block (b : Z) : Prop := area b /\ 0 <= b < nblocks /\ ~ meta b /\ b <> 0.

Record trees (d : D) (N : Z -> list Z) : Prop := {
  tr_size i : inode_ok i -> length (N i) = inode_bytes; tr_byte i : inode_ok i -> Forall byte (N i);
  tr_good i u : inode_ok i -> live d i = true -> valid_use u -> ref (blk d) (N i) u <> 0 ->
    data_block (ref (blk d) (N i) u) /\ used d (ref (blk d) (N i) u) = true;
  tr_inj i u j v : inode_ok i -> live d i = true -> valid_use u -> inode_ok j -> live d j = true -> valid_use v ->
    ref (blk d) (N i) u <> 0 -> ref (blk d) (N i) u = ref (blk d) (N j) v -> i = j /\ u = v;
  tr_free b : area b -> used d b = false -> data_block b
}.

(** A used block that no live inode refers to. *)
Definition fresh (d : D) (N : Z -> list Z) (b : Z) : Prop :=
  data_block b /\ used d b = true /\ forall i u, inode_ok i -> live d i = true -> valid_use u -> ref (blk d) (N i) u <> b.

(** The references of live inodes are those of before, but for one, which is [b] now. *)
Definition rerefs (d : D) (N : Z -> list Z) (d' : D) (N' : Z -> list Z) (ino : Z) (x : use) (b : Z) : Prop :=
  forall i u, inode_ok i -> live d i = true -> valid_use u ->
    ref (blk d') (N' i) u = if decide (i = ino /\ u = x) then b else ref (blk d) (N i) u.

Definition same_refs (d : D) (N : Z -> list Z) (d' : D) (N' : Z -> list Z) : Prop :=
  forall i u, inode_ok i -> live d i = true -> valid_use u -> ref (blk d') (N' i) u = ref (blk d) (N i) u.

Definition well_sized (N : Z -> list Z) : Prop := forall i, inode_ok i -> length (N i) = inode_bytes /\ Forall byte (N i).

Lemma trees_same (d d' : D) N N' : trees d N -> well_sized N' -> same_refs d N d' N' ->
  (forall b, area b -> used d' b = used d b) -> (forall i, inode_ok i -> live d' i = live d i) -> trees d' N'.
Proof using Type*.
  intros HT Hw Hr Hu Hl. split.
  - apply Hw. - apply Hw.
  - intros i u Hi Hli Hv. rewrite Hl in Hli by done. rewrite Hr by done. intros Hne. destruct (tr_good _ _ HT i u) as [Hd Hus]; try done. split; [done|]. by rewrite Hu by apply Hd.
  - intros i u j v Hi Hli Hv Hj Hlj Hv'. rewrite Hl in Hli, Hlj by done. rewrite !Hr by done. apply (tr_inj _ _ HT); done.
  - intros b Hb. rewrite Hu by done. by apply (tr_free _ _ HT).
Qed.

Lemma trees_reref (d d' : D) N N' ino x b : trees d N -> well_sized N' -> rerefs d N d' N' ino x b -> fresh d N b ->
  (forall c, area c -> used d' c = used d c) -> (forall i, inode_ok i -> live d' i = live d i) -> trees d' N'.
Proof using Type*.
  intros HT Hw Hr (Hd & Hub & Hf) Hu Hl. split.
  - apply Hw. - apply Hw.
  - intros i u Hi Hli Hv. rewrite Hl in Hli by done. rewrite Hr by done. case_decide; [intros _; split; [done|by rewrite Hu by apply Hd]|].
    intros Hne. destruct (tr_good _ _ HT i u) as [Hdi Hus]; try done. split; [done|]. by rewrite Hu by apply Hdi.
  - intros i u j v Hi Hli Hv Hj Hlj Hv'. rewrite Hl in Hli, Hlj by done. rewrite !Hr by done. case_decide as H1'; case_decide as H2'.
    + destruct H1', H2'. intros _ _. split; congruence.
    + intros _ E. by destruct (Hf j v).
    + intros _ E. by destruct (Hf i u).
    + apply (tr_inj _ _ HT); done.
  - intros c Hc. rewrite Hu by done. by apply (tr_free _ _ HT).
Qed.

(** ** Effects on the invariant *)

Lemma trees_alloc (d d' : D) N b : trees d N -> area b -> used d b = false -> bit_views Blocks b true d d' ->
  trees d' N /\ fresh d' N b /\ same_refs d N d' N.
Proof using Type*.
  intros HT Hb Hub [Hu Hl _ Hblk]. assert (forall i, inode_ok i -> live d' i = live d i) as Hl' by (intros i Hi; rewrite Hl by done; by rewrite decide_False by (by intros [? _])).
  assert (same_refs d N d' N) as Hr.
  { intros i u Hi Hli Hv. apply ref_frame; [done|]. intros v Hv' _ Hne. apply Hblk. by destruct (tr_good _ _ HT i v) as [(_ & _ & Hm & _) _]. }
  assert (forall c, area c -> used d c = true -> used d' c = true) as Hmono by (intros c Hc Huc; rewrite Hu by done; by destruct (decide _)).
  split; [|split; [|done]].
  - split; [apply HT|apply HT|..].
    + intros i u Hi Hli Hv. rewrite Hl' in Hli by done. rewrite Hr by done. intros Hne. destruct (tr_good _ _ HT i u) as [Hd Hus]; try done. split; [done|]. apply Hmono; [apply Hd|done].
    + intros i u j v Hi Hli Hv Hj Hlj Hv'. rewrite Hl' in Hli, Hlj by done. rewrite !Hr by done. apply (tr_inj _ _ HT); done.
    + intros c Hc. rewrite Hu by done. destruct (decide _); [done|]. by apply (tr_free _ _ HT).
  - split; [by apply (tr_free _ _ HT)|]. split; [rewrite Hu by done; by rewrite decide_True|].
    intros i u Hi Hli Hv. rewrite Hl' in Hli by done. rewrite Hr by done. intros E.
    destruct (decide (ref (blk d) (N i) u = 0)) as [E0|Hne]; [|destruct (tr_good _ _ HT i u) as [_ Hus]; congruence].
    destruct (tr_free _ _ HT b Hb Hub) as (_ & _ & _ & Hb0). congruence.
Qed.

Lemma fresh_alloc (d d' : D) N b c : trees d N -> fresh d N c -> used d b = false -> bit_views Blocks b true d d' -> fresh d' N c.
Proof using Type*.
  intros HT (Hc & Huc & Hf) Hub [Hu Hl _ Hblk]. split; [done|]. split; [rewrite Hu by apply Hc; by destruct (decide _)|].
  intros i u Hi Hli Hv. rewrite Hl, decide_False in Hli by (done || by intros [? _]). rewrite (ref_frame (blk d)); [by apply Hf|done|].
  intros v Hv' _ Hne. apply Hblk. by destruct (tr_good _ _ HT i v) as [(_ & _ & Hm & _) _].
Qed.

Lemma trees_release (d d' : D) N b : trees d N -> fresh d N b -> bit_views Blocks b false d d' -> trees d' N /\ same_refs d N d' N.
Proof using Type*.
  intros HT (Hb & Hub & Hf) [Hu Hl _ Hblk]. assert (forall i, inode_ok i -> live d' i = live d i) as Hl' by (intros i Hi; rewrite Hl by done; by rewrite decide_False by (by intros [? _])).
  assert (same_refs d N d' N) as Hr.
  { intros i u Hi Hli Hv. apply ref_frame; [done|]. intros v Hv' _ Hne. apply Hblk. by destruct (tr_good _ _ HT i v) as [(_ & _ & Hm & _) _]. }
  split; [|done]. split; [apply HT|apply HT|..].
  - intros i u Hi Hli Hv. rewrite Hl' in Hli by done. rewrite Hr by done. intros Hne. destruct (tr_good _ _ HT i u) as [Hd Hus]; try done. split; [done|].
    rewrite Hu by apply Hd. rewrite decide_False; [done|]. intros [_ E]. by apply (Hf i u).
  - intros i u j v Hi Hli Hv Hj Hlj Hv'. rewrite Hl' in Hli, Hlj by done. rewrite !Hr by done. apply (tr_inj _ _ HT); done.
  - intros c Hc. rewrite Hu by done. destruct (decide _) as [[_ ->]|]; [intros _; exact Hb|]. by apply (tr_free _ _ HT).
Qed.
(** ** Reading the map *)

Lemma entry_at l k : Z.of_nat (length l) = bs -> 0 <= k < ptrs -> rd_at l (4 * k) entry = Ok (ptr l k).
Proof using Type*. intros Hl Hk. pose proof ptrs_range. rewrite rd_at_ok; [done|lia|cbn; lia]. Qed.

Lemma get_file_block_range (s : state) nd n : ok s -> (2 <= spare (heap s))%nat ->
  (forall v, valid_use v -> ref (blk (disk s)) nd v <> 0 -> 0 <= ref (blk (disk s)) nd v < nblocks) -> 0 <= n ->
  exists s', ext4_get_file_block s nd n = Ok (ref (blk (disk s)) nd (Data n), s') /\ quiet s s'.
Proof using Type*.
  intros Hok Hs Hrange Hn. pose proof Hok as [Hf Hd Hh _]. pose proof ptrs_range. unfold ext4_get_file_block, ptrs_per_block. cbv zeta. rewrite (fo_bs _ _ _ Hf). fold ptrs.
  cbn [ref]. change EXT4_DIND_BLOCK with 13. change EXT4_IND_BLOCK with 12. change EXT4_NDIR_BLOCKS with 12.
  destruct (Z.ltb_spec n 12); [exists s; split; [done|by apply ext4_quiet_refl]|].
  destruct (Z.ltb_spec (n - 12) ptrs).
  - unfold via. pose proof (Hrange Ind I) as Hq. cbn [ref] in Hq. destruct (Z.eqb_spec (rd (i_block 12) nd) 0); [exists s; split; [reflexivity|by apply ext4_quiet_refl]|].
    destruct (new_buf_ok s Hh (fo_bs _ _ _ Hf)) as (p & h & E & Hp & Hih & _ & Hho); [lia|]. rewrite E, bind_ok, Hp.
    rewrite read_ok by (done || apply Hf || by apply Hq). rewrite bind_ok. cbn [disk with_heap]. rewrite entry_at by (lia || by apply blk_length, Hq). rewrite bind_ok.
    destruct (done_ok (heap s) p h (with_heap s h) (ptr (blk (disk s) (rd (i_block 12) nd)) (n - 12)) Hho (like_refl _ Hih)) as (h' & Ed & Hl).
    rewrite Ed. eexists. split; [done|]. by split_and!.
  - rewrite u32_small by nia. destruct (Z.ltb_spec (n - 12 - ptrs) (ptrs * ptrs)); [|exists s; split; [done|by apply ext4_quiet_refl]].
    set (k := (n - 12 - ptrs) / ptrs). assert (0 <= k < ptrs) as Hk by (unfold k; split; [apply Z.div_pos; lia|apply Z.div_lt_upper_bound; lia]).
    assert (0 <= (n - 12 - ptrs) mod ptrs < ptrs) by (apply Z.mod_pos_bound; lia).
    pose proof (Hrange Dind I) as Hq. pose proof (Hrange (Ind2 k) Hk) as Hq2. cbn [ref] in Hq, Hq2. unfold via in *.
    destruct (Z.eqb_spec (rd (i_block 13) nd) 0); [exists s; split; [done|by apply ext4_quiet_refl]|].
    destruct (two_bufs_ok s Hh (fo_bs _ _ _ Hf) Hs) as (p & h & p2 & h2 & h3 & h4 & E & Hp & Hih & Hho & E2 & Hp2 & E3 & E4 & Hl). rewrite E, bind_ok, Hp.
    rewrite read_ok by (done || apply Hf || by apply Hq). rewrite bind_ok. cbn [disk with_heap]. rewrite entry_at by (lia || by apply blk_length, Hq). rewrite bind_ok.
    set (q2 := ptr (blk (disk s) (rd (i_block 13) nd)) k) in *. destruct (Z.eqb_spec q2 0).
    { destruct (done_ok (heap s) p h (with_heap s h) 0 Hho (like_refl _ Hih)) as (h' & Ed & Hl'). rewrite Ed. eexists. split; [done|]. by split_and!. }
    rewrite E2, bind_ok, Hp2. rewrite read_ok by (done || apply Hf || by apply Hq2). rewrite bind_ok. cbn [disk with_heap].
    rewrite entry_at by (lia || by apply blk_length, Hq2). rewrite bind_ok. unfold done, free_buf. cbn [heap with_heap]. rewrite E3, !bind_ok. cbn [heap with_heap]. rewrite E4, !bind_ok.
    eexists. split; [done|]. by split_and!.
Qed.

Lemma get_file_block_ok (s : state) N ino n : ok s -> (2 <= spare (heap s))%nat -> trees (disk s) N -> inode_ok ino -> live (disk s) ino = true -> 0 <= n ->
  exists s', ext4_get_file_block s (N ino) n = Ok (ref (blk (disk s)) (N ino) (Data n), s') /\ quiet s s'.
Proof using Type*.
  intros Hok Hs HT Hi Hli Hn. apply get_file_block_range; try done. intros v Hv Hne. by apply (tr_good _ _ HT ino v).
Qed.
(** ** Changing a pointer *)

Lemma ref_wr_direct B nd n b u : length nd = inode_bytes -> 0 <= n < 12 -> 0 <= b < 2 ^ 32 -> valid_use u ->
  ref B (wr (i_block n) b nd) u = if decide (u = Data n) then b else ref B nd u.
Proof using Type*.
  intros Hl Hn Hb Hu. assert (forall m, 0 <= m < 15 -> m <> n -> rd (i_block m) (wr (i_block n) b nd) = rd (i_block m) nd) as Hne.
  { intros m Hm Hmn. rewrite rd_block_wr by lia. by rewrite decide_False. }
  destruct u as [m| | |k]; cbn [ref]; rewrite ?(Hne 12), ?(Hne 13) by lia; [|by rewrite decide_False..]. cbn in Hu.
  destruct (Z.ltb_spec m 12); [|by rewrite decide_False by (intros [=]; lia)].
  rewrite rd_block_wr by lia. destruct (decide (m = n)) as [->|]; [by rewrite decide_True|by rewrite decide_False by congruence].
Qed.

Lemma ref_wr_ind B nd q u : length nd = inode_bytes -> 0 < q < 2 ^ 32 -> valid_use u -> rd (i_block 12) nd = 0 ->
  (forall k, 0 <= k < ptrs -> ptr (B q) k = 0) -> ref B (wr (i_block 12) q nd) u = if decide (u = Ind) then q else ref B nd u.
Proof using Type*.
  intros Hl Hq Hu H0' Hz. assert (forall m, 0 <= m < 15 -> m <> 12 -> rd (i_block m) (wr (i_block 12) q nd) = rd (i_block m) nd) as Hne.
  { intros m Hm Hmn. rewrite rd_block_wr by lia. by rewrite decide_False. }
  assert (rd (i_block 12) (wr (i_block 12) q nd) = q) as Heq by (rewrite rd_block_wr by lia; by rewrite decide_True).
  destruct u as [m| | |k]; cbn [ref]; rewrite ?Heq, ?(Hne 13) by lia; [|by rewrite decide_True|by rewrite decide_False..]. cbn in Hu.
  rewrite decide_False by done. destruct (Z.ltb_spec m 12); [apply Hne; lia|]. destruct (Z.ltb_spec (m - 12) ptrs); [|done].
  rewrite H0'. unfold via. rewrite (proj2 (Z.eqb_neq q 0)) by lia. cbn. apply Hz. lia.
Qed.

Lemma ptr_set l k b j : Z.of_nat (length l) = bs -> 0 <= k < ptrs -> 0 <= j < ptrs -> 0 <= b < 2 ^ 32 ->
  ptr (wr (shift (4 * k) entry) b l) j = if decide (j = k) then b else ptr l j.
Proof using Type*.
  intros Hl Hk Hj Hb. pose proof ptrs_range. assert (inside (shift (4 * k) entry) (length l)) by (unfold inside, shift; cbn; lia). unfold ptr.
  case_decide as E; [subst; by apply rd_wr_small|]. apply rd_wr_ne; [done|]. unfold apart, shift. cbn. lia.
Qed.

Lemma ref_set_entry (B B' : Z -> list Z) nd k b u : 0 <= k < ptrs -> 0 <= b < 2 ^ 32 -> valid_use u -> rd (i_block 12) nd <> 0 ->
  Z.of_nat (length (B (rd (i_block 12) nd))) = bs -> B' (rd (i_block 12) nd) = wr (shift (4 * k) entry) b (B (rd (i_block 12) nd)) ->
  (forall v, valid_use v -> pointers v -> v <> Ind -> ref B nd v <> 0 -> B' (ref B nd v) = B (ref B nd v)) ->
  ref B' nd u = if decide (u = Data (12 + k)) then b else ref B nd u.
Proof using Type*.
  intros Hk Hb Hu Hq Hl HB Hother. assert (forall j, via B' (rd (i_block 13) nd) j = via B (rd (i_block 13) nd) j) as Hd.
  { intros j. unfold via. destruct (Z.eqb_spec (rd (i_block 13) nd) 0); [done|]. f_equal. by apply (Hother Dind). }
  destruct u as [m| | |j]; cbn [ref]; [|by rewrite decide_False..|by rewrite Hd, decide_False]. cbn in Hu.
  destruct (Z.ltb_spec m 12); [by rewrite decide_False by (intros [=]; lia)|]. destruct (Z.ltb_spec (m - 12) ptrs).
  - unfold via. rewrite (proj2 (Z.eqb_neq _ _)) by done.
    rewrite HB, ptr_set by (done || lia). destruct (decide (m - 12 = k)); [rewrite decide_True by (f_equal; lia); done|].
    rewrite decide_False by (intros [=]; lia). done.
  - rewrite decide_False by (intros [=]; lia). destruct (Z.ltb_spec (m - 12 - ptrs) (ptrs * ptrs)); [|done].
    rewrite Hd. set (j := (m - 12 - ptrs) / ptrs). unfold via at 1 3. destruct (Z.eqb_spec (via B (rd (i_block 13) nd) j) 0); [done|].
    f_equal. apply (Hother (Ind2 j)); try done. unfold j. pose proof ptrs_range. cbn. split; [apply Z.div_pos; lia|apply Z.div_lt_upper_bound; lia].
Qed.

Lemma ptr_zeros k : 0 <= k < ptrs -> ptr (zeros bs) k = 0.
Proof using Type*.
  intros Hk. pose proof ptrs_range. unfold ptr, rd, shift, zeros. cbn [f_off f_len entry]. rewrite Nat.add_0_r.
  assert (slice (replicate (Z.to_nat bs) 0) (Z.to_nat (4 * k)) 4 = replicate 4 0) as ->; [|done].
  unfold slice. rewrite drop_replicate, take_replicate. f_equal. lia.
Qed.
(** ** Writing blocks and pointers *)

(** Block [q] was written. *)
Definition wrote (d : D) (q : Z) (l : list Z) (d' : D) : Prop := forall c, blk d' c = if decide (c = q) then l else blk d c.

Definition same_views (d d' : D) : Prop :=
  (forall b, area b -> used d' b = used d b) /\ (forall i, inode_ok i -> live d' i = live d i) /\ (forall i, inode_ok i -> node d' i = node d i).

Lemma wrote_views d q l d' : ~ meta q -> wrote d q l d' -> same_views d d'.
Proof using Type*. intros Hq Hw. apply view_frame. intros c Hc. rewrite Hw, decide_False; [done|]. by intros ->. Qed.

Lemma tree_sizes d N : trees d N -> well_sized N.
Proof using Type*. intros HT i Hi. split; [by apply (tr_size _ _ HT)|by apply (tr_byte _ _ HT)]. Qed.

(** A block that no inode uses for pointers is written. *)
Lemma trees_write d N q l d' : trees d N -> data_block q -> wrote d q l d' ->
  (forall i v, inode_ok i -> live d i = true -> valid_use v -> pointers v -> ref (blk d) (N i) v <> q) ->
  trees d' N /\ same_refs d N d' N.
Proof using Type*.
  intros HT (_ & _ & Hm & _) Hw Hq. destruct (wrote_views d q l d' Hm Hw) as (Hu & Hl & _).
  assert (same_refs d N d' N) as Hr.
  { intros i u Hi Hli Hv. apply ref_frame; [done|]. intros v Hv' Hp _. rewrite Hw, decide_False; [done|]. by apply Hq. }
  split; [|done]. apply (trees_same d _ N); try done. by eapply tree_sizes.
Qed.

Lemma fresh_frame d N d' N' b : fresh d N b -> same_refs d N d' N' -> same_views d d' -> fresh d' N' b.
Proof using Type*.
  intros (Hb & Hu & Hf) Hr (Hu' & Hl' & _). split; [done|]. split; [rewrite Hu'; [done|apply Hb]|].
  intros i u Hi Hli Hv. rewrite Hl' in Hli by done. rewrite Hr by done. by apply Hf.
Qed.

Lemma data_word b : data_block b -> 0 < b < 2 ^ 31.
Proof using Type*. intros (Ha & _ & _ & Hne). pose proof gl_numbers. pose proof gl_first. unfold Ext4Nodes.area in Ha. lia. Qed.

Lemma rerefs_trees d N d' N' ino x b : trees d N -> well_sized N' -> rerefs d N d' N' ino x b -> fresh d N b -> same_views d d' -> trees d' N'.
Proof using Type*. intros HT Hw Hr Hf (Hu & Hl & _). by apply (trees_reref d d' N N' ino x b). Qed.

Lemma sized_update N ino nd : well_sized N -> length nd = inode_bytes -> Forall byte nd -> well_sized (<[ino := nd]> N).
Proof using Type*.
  intros Hw Hl Hb i Hi. destruct (decide (i = ino)) as [->|]; [by rewrite fn_lookup_insert|]. rewrite fn_lookup_insert_ne by congruence. by apply Hw.
Qed.

(** The pointer of a direct block. *)
Lemma rerefs_direct d N ino n b : trees d N -> inode_ok ino -> 0 <= n < 12 -> data_block b ->
  rerefs d N d (<[ino := wr (i_block n) b (N ino)]> N) ino (Data n) b.
Proof using Type*.
  intros HT Hi Hn Hb%data_word i u Hii _ Hv. destruct (decide (i = ino)) as [->|Hne].
  - pose proof (tr_size _ _ HT ino Hi). rewrite fn_lookup_insert, ref_wr_direct by (done || lia).
    destruct (decide (u = Data n)); [by rewrite decide_True|by rewrite decide_False by tauto].
  - rewrite fn_lookup_insert_ne by congruence. by rewrite decide_False by tauto.
Qed.

(** A new block of pointers. *)
Lemma rerefs_indirect d N ino q d' : trees d N -> inode_ok ino -> live d ino = true -> fresh d N q -> ref (blk d) (N ino) Ind = 0 -> wrote d q (zeros bs) d' ->
  rerefs d N d' (<[ino := wr (i_block 12) q (N ino)]> N) ino Ind q.
Proof using Type*.
  intros HT Hi Hli (Hb & Hu & Hf) H0' Hw i u Hii Hlii Hv. pose proof (data_word q Hb).
  destruct (trees_write d N q (zeros bs) d' HT Hb Hw) as [_ Hr]; [intros; by apply Hf|]. destruct (decide (i = ino)) as [->|Hne].
  - pose proof (tr_size _ _ HT ino Hi). rewrite fn_lookup_insert, ref_wr_ind; try done; [|lia|intros k Hk; rewrite Hw, decide_True by done; by apply ptr_zeros].
    destruct (decide (u = Ind)); [by rewrite decide_True|rewrite decide_False by tauto]. by apply Hr.
  - rewrite fn_lookup_insert_ne by congruence. rewrite decide_False by tauto. by apply Hr.
Qed.

(** A pointer in a block of pointers. *)
Lemma rerefs_entry d N ino k b d' : trees d N -> dv_ok d -> inode_ok ino -> live d ino = true -> 0 <= k < ptrs -> data_block b ->
  let q := ref (blk d) (N ino) Ind in q <> 0 -> wrote d q (wr (shift (4 * k) entry) b (blk d q)) d' -> rerefs d N d' N ino (Data (12 + k)) b.
Proof using Type*.
  intros HT Hd Hi Hli Hk Hb q Hq Hw i u Hii Hlii Hv. pose proof (data_word b Hb).
  assert (forall j v, inode_ok j -> live d j = true -> valid_use v -> ref (blk d) (N j) v <> 0 -> j <> ino \/ v <> Ind -> ref (blk d) (N j) v <> q) as Hother.
  { intros j v Hj Hlj Hv' Hne' Hor E. destruct (tr_inj _ _ HT j v ino Ind) as [-> ->]; try done. by destruct Hor. }
  destruct (decide (i = ino)) as [->|Hne].
  - rewrite (ref_set_entry (blk d) (blk d') (N ino) k b u); try done; [|lia|..].
    + destruct (decide (u = Data (12 + k))); [by rewrite decide_True|by rewrite decide_False by tauto].
    + apply blk_length; [done|]. by apply (tr_good _ _ HT ino Ind).
    + change (rd (i_block 12) (N ino)) with q. by rewrite Hw, decide_True.
    + intros v Hv' _ HvI Hne'. rewrite Hw, decide_False; [done|]. apply Hother; auto.
  - rewrite decide_False by tauto. apply ref_frame; [done|]. intros v Hv' _ Hne'. rewrite Hw, decide_False; [done|]. apply Hother; auto.
Qed.
End map.
