(* ===== verification/Ext4File.v ===== *)
(** * The ext4 driver: the blocks of a file

    [ext4_set_file_block] enters a block into the map of an inode, with a new block of pointers when
    it needs one, and changes the data of no file; the second part writes to a file block by block. *)
From S2P Require Import Prelude AllocSpec Buffer Ext4 Ext4Spec Ext4Alloc Ext4Nodes Ext4Map.
#[local] Open Scope Z_scope.

Section file.
Context {A D : Type} `{AllocatorLaws A} `{BlockDevice D} {bs nblocks : Z} {L : layout}.
Context `{!DeviceLaws D bs nblocks} `{!BufferPool A bs} {GL : good_layout bs nblocks L}.
Abbreviation state := (st A D).
Abbreviation meta := (meta bs L). Abbreviation ok := (ok (L := L)). Abbreviation area := (area (L := L)).
Abbreviation used := (used (L := L)). Abbreviation live := (live (L := L)). Abbreviation inode_ok := (inode_ok (L := L)). Abbreviation node := (node (bs := bs) (L := L)).
Abbreviation ref := (ref (bs := bs)). Abbreviation ptrs := (ptrs (bs := bs)). Abbreviation trees := (trees (bs := bs) (nblocks := nblocks) (L := L)).
Abbreviation fresh := (fresh (bs := bs) (nblocks := nblocks) (L := L)). Abbreviation data_block := (data_block (bs := bs) (nblocks := nblocks) (L := L)).
Abbreviation wrote := (@wrote D _). Abbreviation valid_use := (valid_use (bs := bs)).
Abbreviation rerefs := (rerefs (bs := bs) (L := L)). Abbreviation same_refs := (same_refs (bs := bs) (L := L)).

(** Every file has the blocks it had, with what they held; nothing was released. *)
Record kept (d : D) (N : Z -> list Z) (d' : D) (N' : Z -> list Z) : Prop := {
  kp_refs i m : inode_ok i -> live d i = true -> 0 <= m -> ref (blk d') (N' i) (Data m) = ref (blk d) (N i) (Data m);
  kp_data i m : inode_ok i -> live d i = true -> 0 <= m -> ref (blk d) (N i) (Data m) <> 0 ->
    blk d' (ref (blk d) (N i) (Data m)) = blk d (ref (blk d) (N i) (Data m));
  kp_live i : inode_ok i -> live d' i = live d i; kp_node i : inode_ok i -> node d' i = node d i;
  kp_used c : area c -> used d c = true -> used d' c = true
}.

Lemma kept_trans d1 N1 d2 N2 d3 N3 : kept d1 N1 d2 N2 -> kept d2 N2 d3 N3 -> kept d1 N1 d3 N3.
Proof using Type*.
  intros [R1 C1 L1 M1 U1] [R2 C2 L2 M2 U2]. split.
  - intros i m Hi Hl Hm. rewrite R2; [by apply R1|done|by rewrite L1|done].
  - intros i m Hi Hl Hm Hne. rewrite <- (R1 i m) at 1 by done. rewrite C2; try done; [|by rewrite L1|by rewrite R1]. rewrite R1 by done. by apply C1.
  - intros i Hi. by rewrite L2, L1. - intros i Hi. by rewrite M2, M1. - intros c Hc Hu. apply U2, U1; done.
Qed.

Lemma kept_refl d N : kept d N d N.
Proof using Type*. by split. Qed.

(** The fields of an inode outside of its block map. *)
Definition other_field (f : field) : Prop := (f_off f + f_len f <= 40 \/ 100 <= f_off f)%nat /\ inside f inode_bytes.

Lemma other_field_wr f n v nd : length nd = inode_bytes -> 0 <= n < 15 -> other_field f -> rd f (wr (i_block n) v nd) = rd f nd.
Proof using Type*.
  intros Hl Hn [Hf _]. apply rd_wr_ne; [by apply block_field_inside|]. unfold apart, i_block. cbn. lia.
Qed.
(** A block of pointers that a fresh block becomes changes no file. *)
Lemma kept_write d N d' N' q l : trees d N -> fresh d N q -> wrote d q l d' ->
  (forall i m, inode_ok i -> live d i = true -> 0 <= m -> ref (blk d') (N' i) (Data m) = ref (blk d) (N i) (Data m)) -> kept d N d' N'.
Proof using Type*.
  intros HT (Hq & _ & Hf) Hw Hr. pose proof Hq as (_ & _ & Hm & _). destruct (wrote_views d q l d' Hm Hw) as (Hu & Hl & Hn). split; try done.
  - intros i m Hi Hli Hm' _. rewrite Hw, decide_False; [done|]. by apply Hf.
  - intros c Hc Huc. by rewrite Hu.
Qed.

Lemma kept_bits d N d' N' b v : trees d N -> bit_views (bs := bs) (L := L) Blocks b v d d' ->
  (v = true \/ fresh d N b) -> same_refs d N d' N' -> (v = true -> kept d N d' N').
Proof using Type*.
  intros HT [Hu Hl Hn Hb] _ Hr ->. split.
  - intros i m Hi Hli Hm. by apply Hr.
  - intros i m Hi Hli Hm Hne. apply Hb. by destruct (tr_good _ _ HT i (Data m)) as [(_ & _ & Hmt & _) _].
  - intros i Hi. rewrite Hl by done. by rewrite decide_False by (by intros [? _]).
  - done.
  - intros c Hc Huc. rewrite Hu by done. by destruct (decide _).
Qed.

Lemma group_number ino : inode_ok ino -> 0 <= u32 (ino - 1) / l_ipg L < 2 ^ 31.
Proof using Type*.
  intros Hi. unfold Ext4Nodes.inode_ok in Hi. pose proof gl_ipg. pose proof gl_inodes. rewrite u32_small by lia.
  split; [apply Z.div_pos; lia|]. apply Z.div_lt_upper_bound; nia.
Qed.

Lemma need_indirect_ok (s : state) N ino b : ok s -> (0 < spare (heap s))%nat -> trees (disk s) N -> inode_ok ino -> live (disk s) ino = true -> fresh (disk s) N b ->
  exists r nd s', need_indirect s (N ino) (u32 (ino - 1) / l_ipg L) = Ok (r, nd, s') /\ ok s' /\ like (heap s) (heap s') /\
    (r = false -> nd = N ino /\ fs s' = fs s /\ disk s' = disk s /\ forall c, area c -> used (disk s) c = true) /\
    (r = true -> trees (disk s') (<[ino := nd]> N) /\ fresh (disk s') (<[ino := nd]> N) b /\ rd (i_block 12) nd <> 0 /\
      kept (disk s) N (disk s') (<[ino := nd]> N) /\ (forall f, other_field f -> rd f nd = rd f (N ino)) /\ blk (disk s') b = blk (disk s) b).
Proof using Type*.
  intros Hok Hs HT Hi Hli Hfr. pose proof (group_number ino Hi) as Hgr. unfold need_indirect. change EXT4_IND_BLOCK with 12.
  assert (same_refs (disk s) N (disk s) (<[ino := N ino]> N)) as Hid.
  { intros i u Hii _ _. destruct (decide (i = ino)) as [->|]; [by rewrite fn_lookup_insert|by rewrite fn_lookup_insert_ne by congruence]. }
  destruct (Z.eqb_spec (rd (i_block 12) (N ino)) 0) as [E0|Hne].
  2:{ exists true, (N ino), s. split; [done|]. split; [done|]. split; [apply like_refl, Hok|]. split; [done|]. intros _.
    assert (well_sized (L := L) (<[ino := N ino]> N)) as Hws by (apply sized_update; [by eapply tree_sizes|by apply (tr_size _ _ HT)|by apply (tr_byte _ _ HT)]).
    split; [by apply (trees_same (disk s) _ N)|]. split; [by apply (fresh_frame (disk s) N)|]. split; [done|]. split; [|done].
    split; try done. intros i m Hii Hlii Hm. by apply Hid. }
  destruct (alloc_block_ok s _ Hok Hs Hgr) as (q & s1 & E & Hok1 & Hl1 & Hq). rewrite E, bind_ok.
  destruct Hq as [(-> & Ef & Ed & Hall)|(Ha & Huq & Hbv & _)].
  { exists false, (N ino), s1. by split_and!. }
  destruct (trees_alloc (disk s) (disk s1) N q HT Ha Huq Hbv) as (HT1 & Hfq & Hr1).
  pose proof (fresh_alloc (disk s) (disk s1) N q b HT Hfr Huq Hbv) as Hfb. pose proof Hfq as (Hdq & Hu1 & Hrq). pose proof (data_word q Hdq).
  assert (b <> q) as Hbq by (intros ->; destruct Hfr as (_ & ? & _); congruence).
  assert (live (disk s1) ino = true) as Hli1 by (rewrite (bv_live _ _ _ _ _ Hbv) by done; by rewrite decide_False by (by intros [? _])).
  rewrite (proj2 (Z.ltb_ge _ _)) by lia. destruct (new_buf_ok s1 (ok_heap _ Hok1) (fo_bs _ _ _ (ok_follows _ Hok1))) as (p & h & Eb & Hp & Hih & _ & Hho); [destruct Hl1 as (_ & _ & ?); lia|].
  rewrite Eb, bind_ok, Hp. cbn [fs with_heap]. rewrite (fo_bs _ _ _ (ok_follows _ Hok1)).
  destruct (write_data_ok (with_heap s1 h) q (zeros bs)) as (s2 & Ew & Hok2 & Ef2 & Eh2 & Hw); [by apply ok_heap_any|apply Hdq..| | |].
  { unfold zeros. rewrite length_replicate. pose proof gl_bs. lia. } { by apply Forall_replicate. }
  rewrite Ew. cbn [snd]. cbn [heap disk with_heap] in *. destruct (free_ok (heap s1) p h s2 Hho) as (h2 & Efr & Hl2); [rewrite Eh2; by apply like_refl|].
  rewrite Efr, bind_ok. exists true, (wr (i_block 12) q (N ino)), (with_heap s2 h2). split; [done|]. split; [apply ok_heap_any; [done|apply Hl2]|].
  split; [by eapply like_trans|]. split; [done|]. intros _. cbn [disk with_heap].
  assert (ref (blk (disk s1)) (N ino) Ind = 0) as E01 by done.
  pose proof (rerefs_indirect (disk s1) N ino q (disk s2) HT1 Hi Hli1 Hfq E01 Hw) as Hre. destruct Hdq as (Haq & Hqr & Hmq & Hq0).
  pose proof (wrote_views (disk s1) q (zeros bs) (disk s2) Hmq Hw) as Hv2.
  assert (well_sized (L := L) (<[ino := wr (i_block 12) q (N ino)]> N)) as Hws.
  { pose proof (tr_size _ _ HT ino Hi). apply sized_update; [by eapply tree_sizes|rewrite wr_length; [done|by apply block_field_inside]|by apply wr_byte, (tr_byte _ _ HT)]. }
  split; [by apply (rerefs_trees (disk s1) N _ _ ino Ind q)|]. split; [|split; [|split; [|split]]].
  - destruct Hfb as (Hdb & Hub & Hrb). destruct Hv2 as (Huv & Hlv & _). split; [done|]. split; [by rewrite Huv by apply Hdb|].
    intros i u Hii Hlii Hvu. rewrite Hlv in Hlii by done. rewrite Hre by done. case_decide; [done|]. by apply Hrb.
  - rewrite rd_block_wr by (lia || by apply (tr_size _ _ HT)). rewrite decide_True by done. lia.
  - eapply kept_trans; [apply (kept_bits (disk s) N (disk s1) N q true); auto|]. apply (kept_write (disk s1) N _ _ q (zeros bs)); try done.
    intros i m Hii Hlii Hm. rewrite Hre by done. by rewrite decide_False by (by intros [_ ?]).
  - intros f Hf. apply other_field_wr; [by apply (tr_size _ _ HT)|lia|done].
  - rewrite Hw, decide_False by done. apply Hbv. by destruct Hfr as ((_ & _ & ? & _) & _).
Qed.
(** The outcome of entering block [b] at place [n] of a file. *)
Record mapped (d : D) (N : Z -> list Z) (ino n b : Z) (r : bool) (d' : D) (N' : Z -> list Z) : Prop := {
  mp_trees : trees d' N';
  mp_nodes i : i <> ino -> N' i = N i;
  mp_refs i m : inode_ok i -> live d i = true -> 0 <= m ->
    ref (blk d') (N' i) (Data m) = if decide (r = true /\ i = ino /\ m = n) then b else ref (blk d) (N i) (Data m);
  mp_data i m : inode_ok i -> live d i = true -> 0 <= m -> ref (blk d) (N i) (Data m) <> 0 ->
    blk d' (ref (blk d) (N i) (Data m)) = blk d (ref (blk d) (N i) (Data m));
  mp_live i : inode_ok i -> live d' i = live d i; mp_node i : inode_ok i -> node d' i = node d i;
  mp_used c : area c -> used d c = true -> used d' c = true;
  mp_field f : other_field f -> rd f (N' ino) = rd f (N ino);
  mp_same : r = false -> N' ino = N ino;
  mp_fail : r = false -> fresh d' N' b /\ (12 + ptrs <= n \/ forall c, area c -> used d c = true) /\ (forall c, area c -> used d' c = used d c)
}.

Lemma trees_id d N ino : trees d N -> same_refs d N d (<[ino := N ino]> N) /\ (inode_ok ino -> trees d (<[ino := N ino]> N)).
Proof using Type*.
  intros HT. assert (same_refs d N d (<[ino := N ino]> N)) as Hid.
  { intros i u Hii _ _. destruct (decide (i = ino)) as [->|]; [by rewrite fn_lookup_insert|by rewrite fn_lookup_insert_ne by congruence]. }
  split; [done|]. intros Hi. apply (trees_same d _ N); try done. apply sized_update; [by eapply tree_sizes|by apply (tr_size _ _ HT)|by apply (tr_byte _ _ HT)].
Qed.

Lemma mapped_none d N ino n b : trees d N -> inode_ok ino -> fresh d N b -> (12 + ptrs <= n \/ forall c, area c -> used d c = true) ->
  mapped d N ino n b false d (<[ino := N ino]> N).
Proof using Type*.
  intros HT Hi Hf Hw. destruct (trees_id d N ino HT) as [Hr HT']. split; [by apply HT'|..|]; try (intros; done).
  - intros i Hne. by rewrite fn_lookup_insert_ne by congruence.
  - intros i m Hii Hl Hm. rewrite decide_False by (by intros [? _]). by apply Hr.
  - intros f _. by rewrite fn_lookup_insert.
  - intros _. apply fn_lookup_insert.
  - intros _. split; [by apply (fresh_frame d N)|by split].
Qed.

(** Entering the block itself, after [kept] changes. *)
Lemma mapped_reref d N d1 N1 d2 N2 ino n b : 0 <= n -> kept d N d1 N1 -> trees d1 N1 -> fresh d1 N1 b -> rerefs d1 N1 d2 N2 ino (Data n) b -> well_sized (L := L) N2 ->
  same_views (bs := bs) (L := L) d1 d2 -> (forall i, i <> ino -> N2 i = N i) -> (forall f, other_field f -> rd f (N2 ino) = rd f (N ino)) ->
  (forall i m, inode_ok i -> live d1 i = true -> 0 <= m -> ref (blk d1) (N1 i) (Data m) <> 0 -> blk d2 (ref (blk d1) (N1 i) (Data m)) = blk d1 (ref (blk d1) (N1 i) (Data m))) ->
  mapped d N ino n b true d2 N2.
Proof using Type*.
  intros Hn [R C Lv M U] HT Hf Hre Hws Hv HN Hfl Hdata. pose proof Hv as (Hu & Hl & Hnd). split.
  - by apply (rerefs_trees d1 N1 d2 N2 ino (Data n) b).
  - done.
  - intros i m Hi Hli Hm. rewrite Hre by (done || by rewrite Lv). rewrite R by done.
    destruct (decide (i = ino /\ Data m = Data n)) as [[-> [= ->]]|Hne]; [by rewrite decide_True|rewrite decide_False; [done|]]. intros (_ & -> & ->). by apply Hne.
  - intros i m Hi Hli Hm Hne. rewrite <- (R i m) at 1 by done. rewrite Hdata; [|done|by rewrite Lv|done|by rewrite R]. rewrite R by done. by apply C.
  - intros i Hi. by rewrite Hl, Lv. - intros i Hi. by rewrite Hnd, M. - intros c Hc Huc. rewrite Hu by done. by apply U.
  - done. - done. - done.
Qed.

Lemma set_file_block_ok (s : state) N ino n b : ok s -> (0 < spare (heap s))%nat -> trees (disk s) N -> inode_ok ino -> live (disk s) ino = true -> 0 <= n ->
  fresh (disk s) N b -> exists r nd s', ext4_set_file_block s (N ino) n b ino = Ok (r, nd, s') /\ ok s' /\ like (heap s) (heap s') /\
    mapped (disk s) N ino n b r (disk s') (<[ino := nd]> N) /\ blk (disk s') b = blk (disk s) b.
Proof using Type*.
  intros Hok Hs HT Hi Hli Hn Hfr. pose proof (ok_follows _ Hok) as Hf. pose proof ptrs_range. pose proof gl_ipg. pose proof Hfr as (Hdb & _ & _). pose proof (data_word b Hdb).
  pose proof (tr_size _ _ HT ino Hi) as Hsz. unfold ext4_set_file_block, ptrs_per_block. rewrite (fo_ipg _ _ _ Hf), (fo_bs _ _ _ Hf).
  rewrite (proj2 (Z.eqb_neq _ _)) by lia. change EXT4_NDIR_BLOCKS with 12. destruct (Z.ltb_spec n 12).
  { exists true, (wr (i_block n) b (N ino)), s. split; [done|]. split; [done|]. split; [apply like_refl, Hok|]. split; [|done].
    apply (mapped_reref (disk s) N (disk s) N); try done; [by apply rerefs_direct|..].
    - apply sized_update; [by eapply tree_sizes|rewrite wr_length; [done|apply block_field_inside; [lia|done]]|by apply wr_byte, (tr_byte _ _ HT)].
    - intros i Hne. by rewrite fn_lookup_insert_ne by congruence.
    - intros f Hof. rewrite fn_lookup_insert. apply other_field_wr; [done|lia|done]. }
  fold ptrs. destruct (Z.ltb_spec (n - 12) ptrs) as [Hlt|Hge].
  2:{ exists false, (N ino), s. split; [done|]. split; [done|]. split; [apply like_refl, Hok|]. split; [|done]. apply mapped_none; try done. left. lia. }
  destruct (need_indirect_ok s N ino b) as (r & nd & s1 & E & Hok1 & Hl1 & Hno & Hyes); try done. rewrite E, bind_ok. destruct r; cbn [negb].
  2:{ destruct (Hno eq_refl) as (-> & Ef & Ed & Hall). exists false, (N ino), s1. split; [done|]. split; [done|]. split; [done|]. rewrite Ed. split; [|done]. apply mapped_none; auto. }
  destruct (Hyes eq_refl) as (HT1 & Hfr1 & Hq & Hk & Hfl & Hb1). clear Hno Hyes. set (N1 := <[ino := nd]> N) in *. assert (N1 ino = nd) as EN1 by apply fn_lookup_insert.
  assert (live (disk s1) ino = true) as Hli1 by (by rewrite (kp_live _ _ _ _ Hk)).
  destruct (new_buf_ok s1 (ok_heap _ Hok1) (fo_bs _ _ _ (ok_follows _ Hok1))) as (p & h & Eb & Hp & Hih & _ & Hho); [destruct Hl1 as (_ & _ & ?); lia|].
  rewrite Eb, bind_ok, Hp. change EXT4_IND_BLOCK with 12. set (q := rd (i_block 12) nd) in *.
  assert (ref (blk (disk s1)) (N1 ino) Ind = q) as Eq by (by rewrite EN1). assert (data_block q) as Hdq by (rewrite <- Eq; apply (tr_good _ _ HT1 ino Ind); try done; by rewrite Eq).
  pose proof Hdq as (_ & Hqr & Hqm & _). pose proof (blk_length (disk s1) q (ok_device _ Hok1) Hqr) as Hql.
  rewrite read_ok by (apply Hok1 || apply (ok_follows _ Hok1) || done). rewrite bind_ok. cbn [disk with_heap].
  rewrite wr_at_ok by (unfold entry; cbn [f_off f_len]; lia). rewrite bind_ok. set (l := wr (shift (4 * (n - 12)) entry) b (blk (disk s1) q)).
  assert (inside (shift (4 * (n - 12)) entry) (length (blk (disk s1) q))) as Hins by (unfold inside, shift, entry; cbn [f_off f_len]; lia).
  destruct (write_data_ok (with_heap s1 h) q l) as (s2 & Ew & Hok2 & Ef2 & Eh2 & Hw); [by apply ok_heap_any|done|done|unfold l; by rewrite wr_length|by apply wr_byte, blk_byte, Hqr; apply Hok1|].
  rewrite Ew. cbn [heap disk with_heap] in *. destruct (done_ok (heap s1) p h s2 true Hho) as (h2 & Ed & Hl2); [rewrite Eh2; by apply like_refl|].
  rewrite Ed, bind_ok. exists true, nd, (with_heap s2 h2). split; [done|]. split; [apply ok_heap_any; [done|apply Hl2]|]. split; [by eapply like_trans|].
  cbn [disk with_heap]. fold N1. split; [|rewrite Hw, decide_False, Hb1; [done|]; intros ->; by destruct Hfr1 as (_ & _ & Hno); destruct (Hno ino Ind)].
  apply (mapped_reref (disk s) N (disk s1) N1); try done.
  - replace n with (12 + (n - 12)) by lia. apply rerefs_entry; try done; [apply Hok1|lia|by rewrite Eq|by rewrite Eq].
  - by eapply tree_sizes.
  - by apply (wrote_views (disk s1) q l).
  - intros i Hne. apply fn_lookup_insert_ne. congruence.
  - intros f Hof. rewrite EN1. by apply Hfl.
  - intros i m Hii Hlii Hm Hne. rewrite Hw, decide_False; [done|]. rewrite <- Eq. intros E'.
    destruct (tr_inj _ _ HT1 i (Data m) ino Ind) as [_ ?]; done.
Qed.
End file.

(** * Reading and writing files

    [content] is what block [m] of a file holds, zeros where it has a hole.  A write changes the
    content of one file at one place, and nothing else. *)

Section write.
Context {A D : Type} `{AllocatorLaws A} `{BlockDevice D} {bs nblocks : Z} {L : layout}.
Context `{!DeviceLaws D bs nblocks} `{!BufferPool A bs} {GL : good_layout bs nblocks L}.
Abbreviation state := (st A D).
Abbreviation meta := (meta bs L). Abbreviation ok := (ok (L := L)). Abbreviation area := (area (L := L)).
Abbreviation used := (used (L := L)). Abbreviation live := (live (L := L)). Abbreviation inode_ok := (inode_ok (L := L)). Abbreviation node := (node (bs := bs) (L := L)).
Abbreviation ref := (ref (bs := bs)). Abbreviation ptrs := (ptrs (bs := bs)). Abbreviation trees := (trees (bs := bs) (nblocks := nblocks) (L := L)).
Abbreviation fresh := (fresh (bs := bs) (nblocks := nblocks) (L := L)). Abbreviation data_block := (data_block (bs := bs) (nblocks := nblocks) (L := L)).
Abbreviation wrote := (@wrote D _). Abbreviation same_refs := (same_refs (bs := bs) (L := L)).

Definition content (d : D) (N : Z -> list Z) (i m : Z) : list Z :=
  let b := ref (blk d) (N i) (Data m) in if b =? 0 then zeros bs else blk d b.

Lemma content_ok d N i m : trees d N -> dv_ok d -> inode_ok i -> live d i = true -> 0 <= m ->
  Z.of_nat (length (content d N i m)) = bs /\ Forall byte (content d N i m).
Proof using Type*.
  intros HT Hd Hi Hl Hm. pose proof gl_bs. unfold content. destruct (Z.eqb_spec (ref (blk d) (N i) (Data m)) 0).
  - unfold zeros. rewrite length_replicate. split; [lia|by apply Forall_replicate].
  - destruct (tr_good _ _ HT i (Data m)) as [(_ & Hr & _) _]; try done. split; [by apply blk_length|by apply blk_byte].
Qed.

Lemma content_same d N d' N' i m : ref (blk d') (N' i) (Data m) = ref (blk d) (N i) (Data m) ->
  (ref (blk d) (N i) (Data m) <> 0 -> blk d' (ref (blk d) (N i) (Data m)) = blk d (ref (blk d) (N i) (Data m))) -> content d' N' i m = content d N i m.
Proof using Type*.
  intros Hr Hc. unfold content. cbv zeta. rewrite Hr. destruct (Z.eqb_spec (ref (blk d) (N i) (Data m)) 0); [done|by apply Hc].
Qed.

Lemma content_bits d N d' b v : trees d N -> bit_views (bs := bs) (L := L) Blocks b v d d' -> same_refs d N d' N ->
  forall i m, inode_ok i -> live d i = true -> 0 <= m -> content d' N i m = content d N i m.
Proof using Type*.
  intros HT [_ _ _ Hb] Hr i m Hi Hl Hm. apply content_same; [by apply Hr|]. intros Hne. apply Hb.
  by destruct (tr_good _ _ HT i (Data m)) as [(_ & _ & Hmt & _) _].
Qed.

(** The files have the blocks they had, and maybe more. *)
Definition grows (d : D) (N : Z -> list Z) (d' : D) (N' : Z -> list Z) : Prop :=
  forall i m, inode_ok i -> live d i = true -> 0 <= m -> ref (blk d) (N i) (Data m) <> 0 -> ref (blk d') (N' i) (Data m) <> 0.

Lemma same_grows d N d' N' : same_refs d N d' N' -> grows d N d' N'.
Proof using Type*. intros Hr i m Hi Hl Hm Hne. by rewrite Hr. Qed.

Lemma grows_trans d1 N1 d2 N2 d3 N3 : (forall i, inode_ok i -> live d2 i = live d1 i) -> grows d1 N1 d2 N2 -> grows d2 N2 d3 N3 -> grows d1 N1 d3 N3.
Proof using Type*. intros Hl H1' H2' i m Hi Hli Hm Hne. apply H2'; try done; [by rewrite Hl|by apply H1']. Qed.

(** At most one block is free. *)
Definition nearly_full (d : D) : Prop := exists b, forall c, area c -> c <> b -> used d c = true.

(** The fields that a write keeps until it is done. *)
Definition kept_field (f : field) : Prop := other_field f /\ apart f i_blocks_lo.

Lemma ready_block_ok (s : state) N ino m : ok s -> (2 <= spare (heap s))%nat -> trees (disk s) N -> inode_ok ino -> live (disk s) ino = true -> 0 <= m ->
  exists r nd s', ready_block s ino (N ino) m = Ok (r, nd, s') /\ ok s' /\ like (heap s) (heap s') /\
    trees (disk s') (<[ino := nd]> N) /\ (forall i, inode_ok i -> live (disk s') i = live (disk s) i) /\ (forall i, inode_ok i -> node (disk s') i = node (disk s) i) /\
    (forall f, kept_field f -> rd f nd = rd f (N ino)) /\
    (forall i k, inode_ok i -> live (disk s) i = true -> 0 <= k -> (i, k) <> (ino, m) -> content (disk s') (<[ino := nd]> N) i k = content (disk s) N i k) /\
    grows (disk s) N (disk s') (<[ino := nd]> N) /\
    match r with
    | None => content (disk s') (<[ino := nd]> N) ino m = content (disk s) N ino m /\ (12 + ptrs <= m \/ nearly_full (disk s'))
    | Some (b, l) => b <> 0 /\ ref (blk (disk s')) nd (Data m) = b /\ l = content (disk s) N ino m
    end.
Proof using Type*.
  intros Hok Hs HT Hi Hli Hm. pose proof gl_bs as Hbs. pose proof gl_ipg. unfold ready_block.
  destruct (get_file_block_ok s N ino m) as (s1 & E & Hq); try done. rewrite E, bind_ok. pose proof (quiet_ok _ _ Hok Hq) as Hok1. destruct Hq as (Ef1 & Ed1 & Hl1).
  pose proof (ok_follows _ Hok1) as Hf1. assert (spare (heap s) <= spare (heap s1))%nat as Hs1 by apply Hl1.
  destruct (trees_id (disk s) N ino HT) as [Hid HTid].
  destruct (Z.eqb_spec (ref (blk (disk s)) (N ino) (Data m)) 0) as [E0|Hne].
  2:{ destruct (tr_good _ _ HT ino (Data m)) as [(_ & Hr & _) _]; try done. rewrite read_ok by (done || apply Hf1 || apply Hok1). rewrite bind_ok, Ed1.
    eexists _, _, _. split; [done|]. rewrite Ed1. split; [done|]. split; [done|]. split; [by apply HTid|]. split; [done|]. split; [done|]. split; [done|]. split.
    - intros i k Hii Hlii Hk _. apply content_same; [by apply Hid|done].
    - split; [by apply same_grows|]. split; [done|]. split; [done|]. unfold content. by rewrite (proj2 (Z.eqb_neq _ _)). }
  rewrite (fo_ipg _ _ _ Hf1). destruct (alloc_block_ok s1 _ Hok1 ltac:(lia) (group_number ino Hi)) as (b & s2 & Ea & Hok2 & Hl2 & Hb). rewrite Ea, bind_ok.
  pose proof (like_trans _ _ _ Hl1 Hl2) as Hl12. assert (spare (heap s) <= spare (heap s2))%nat as Hs2 by apply Hl12. rewrite Ed1 in Hb.
  destruct Hb as [(-> & Ef2 & Ed2 & Hall)|(Hab & Hub & Hbv & _)].
  { cbn. exists None, (N ino), s2. rewrite Ed2. split; [done|]. split; [done|]. split; [done|]. split; [by apply HTid|]. split; [done|]. split; [done|]. split; [done|].
    assert (forall i k, inode_ok i -> live (disk s) i = true -> 0 <= k -> content (disk s) (<[ino := N ino]> N) i k = content (disk s) N i k) as Hc
      by (intros; apply content_same; [by apply Hid|done]).
    split; [intros; by apply Hc|]. split; [by apply same_grows|]. split; [by apply Hc|]. right. exists 0. intros c Hca _. by apply Hall. }
  destruct (trees_alloc (disk s) (disk s2) N b HT Hab Hub Hbv) as (HT2 & Hfb & Hr2). pose proof Hfb as (Hdb & Hub2 & _). pose proof (data_word b Hdb).
  assert (forall i, inode_ok i -> live (disk s2) i = live (disk s) i) as Hlv2 by (intros i Hii; rewrite (bv_live _ _ _ _ _ Hbv) by done; by rewrite decide_False by (by intros [? _])).
  pose proof (content_bits _ _ _ _ _ HT Hbv Hr2) as Hc2.
  rewrite (proj2 (Z.ltb_ge _ _)) by lia.
  destruct (set_file_block_ok s2 N ino m b) as (r & nd & s3 & Es & Hok3 & Hl3 & Hmp & _); try done; [lia|by rewrite Hlv2|]. rewrite Es, bind_ok.
  pose proof (like_trans _ _ _ Hl12 Hl3) as Hl13. destruct Hmp as [HT3 _ Hrf Hdt Hlv Hnd Hus Hfld _ Hfail]. rewrite fn_lookup_insert in Hfld. destruct r; cbn [negb].
  - rewrite (fo_bs _ _ _ (ok_follows _ Hok3)). set (nd' := wr i_blocks_lo _ nd). exists (Some (b, zeros bs)), nd', s3. split; [done|]. split; [done|]. split; [done|].
    pose proof (tr_size _ _ HT3 ino Hi) as Hsz. rewrite fn_lookup_insert in Hsz.
    assert (inside i_blocks_lo (length nd)) as Hin by (rewrite Hsz; unfold inside, inode_bytes; cbn; lia).
    assert (forall k, 0 <= k < 15 -> rd (i_block k) nd' = rd (i_block k) nd) as Hblk by (intros k Hk; apply rd_wr_ne; [done|]; unfold apart, i_block; cbn; lia).
    assert (forall B u, valid_use (bs := bs) u -> ref B nd' u = ref B nd u) as Href by (intros; by apply ref_pointers).
    assert (same_refs (disk s3) (<[ino := nd]> N) (disk s3) (<[ino := nd']> N)) as Hr3.
    { intros i u Hii _ Hu. destruct (decide (i = ino)) as [->|]; [rewrite !fn_lookup_insert; by apply Href|by rewrite !fn_lookup_insert_ne by congruence]. }
    split; [|split; [|split; [|split; [|split; [|split]]]]].
    + apply (trees_same (disk s3) _ (<[ino := nd]> N)); try done. apply sized_update; [by eapply tree_sizes| |].
      * unfold nd'. by rewrite wr_length. * apply wr_byte. pose proof (tr_byte _ _ HT3 ino Hi) as Hby. by rewrite fn_lookup_insert in Hby.
    + intros i Hii. by rewrite Hlv, Hlv2.
    + intros i Hii. rewrite Hnd by done. by apply Hbv.
    + intros f [Hof Hap]. unfold nd'. rewrite rd_wr_ne by done. by apply Hfld.
    + intros i k Hii Hlii Hk Hne. rewrite <- Hc2 by done. assert (live (disk s2) i = true) as Hl2i by (by rewrite Hlv2). apply content_same; [|by apply Hdt].
      rewrite Hr3 by (done || by rewrite Hlv). rewrite Hrf by done. apply decide_False. intros (_ & -> & ->). done.
    + intros i k Hii Hlii Hk Hne0. assert (live (disk s2) i = true) as Hl2i by (by rewrite Hlv2). rewrite Hr3 by (done || by rewrite Hlv).
      rewrite Hrf by done. destruct (decide _); [lia|]. by rewrite Hr2.
    + split; [lia|]. split.
      * rewrite Href by done. pose proof (Hrf ino m Hi) as Hx. rewrite fn_lookup_insert, decide_True in Hx by done. apply Hx; [by rewrite Hlv2|done].
      * unfold content. by rewrite E0.
  - destruct (Hfail eq_refl) as (Hfr & Hwhy & _). pose proof Hfr as (_ & Hub3 & _).
    destruct (free_block_ok s3 b Hok3) as (s4 & Efr & Hok4 & Hl4 & Hbv4); [destruct Hl13 as (_ & _ & ?); lia|apply Hdb|done|]. rewrite Efr, bind_ok. cbn [snd].
    destruct (trees_release (disk s3) (disk s4) (<[ino := nd]> N) b HT3 Hfr Hbv4) as [HT4 Hr4]. pose proof (content_bits _ _ _ _ _ HT3 Hbv4 Hr4) as Hc4.
    assert (forall i k, inode_ok i -> live (disk s) i = true -> 0 <= k -> content (disk s4) (<[ino := nd]> N) i k = content (disk s) N i k) as Hc.
    { intros i k Hii Hlii Hk. rewrite Hc4 by (done || (rewrite Hlv, Hlv2; done)). rewrite <- Hc2 by done.
      assert (live (disk s2) i = true) as Hl2i by (by rewrite Hlv2). apply content_same; [|by apply Hdt]. rewrite Hrf by done. apply decide_False. by intros [? _]. }
    exists None, nd, s4. split; [done|]. split; [done|]. split; [by eapply like_trans|]. split; [done|]. split; [|split; [|split; [|split; [|split]]]].
    + intros i Hii. rewrite (bv_live _ _ _ _ _ Hbv4) by done. rewrite decide_False by (by intros [? _]). by rewrite Hlv, Hlv2.
    + intros i Hii. rewrite (bv_node _ _ _ _ _ Hbv4) by done. rewrite Hnd by done. by apply Hbv.
    + intros f [Hof _]. by apply Hfld.
    + intros i k Hii Hlii Hk _. by apply Hc.
    + intros i k Hii Hlii Hk Hne0. assert (live (disk s2) i = true) as Hl2i by (by rewrite Hlv2). rewrite Hr4 by (done || by rewrite Hlv).
      rewrite Hrf by done. rewrite decide_False by (by intros [? _]). by rewrite Hr2.
    + split; [by apply Hc|]. destruct Hwhy as [?|Hall]; [by left|right]. exists b. intros c Hca Hcb. rewrite (bv_used _ _ _ _ _ Hbv4) by done.
      rewrite decide_False by (by intros [_ ?]). by apply Hus, Hall.
Qed.
(** ** The bytes of a file *)

Definition fbyte (d : D) (N : Z -> list Z) (i pos : Z) : Z := default 0 (content d N i (pos / bs) !! Z.to_nat (pos mod bs)).

(** The first [k] bytes of [src] were stored at [P] of a file; nothing else changed. *)
Record stored_at (s : state) (N : Z -> list Z) (ino P k : Z) (src : list Z) (s' : state) (N' : Z -> list Z) : Prop := {
  sa_ok : ok s'; sa_like : like (heap s) (heap s'); sa_trees : trees (disk s') N'; sa_nodes i : i <> ino -> N' i = N i;
  sa_live i : inode_ok i -> live (disk s') i = live (disk s) i; sa_node i : inode_ok i -> node (disk s') i = node (disk s) i;
  sa_field f : kept_field f -> rd f (N' ino) = rd f (N ino);
  sa_bytes i pos : inode_ok i -> live (disk s) i = true -> 0 <= pos ->
    fbyte (disk s') N' i pos = if decide (i = ino /\ P <= pos < P + k) then default 0 (src !! Z.to_nat (pos - P)) else fbyte (disk s) N i pos;
  sa_grows : grows (disk s) N (disk s') N'; sa_blocks pos : P <= pos < P + k -> ref (blk (disk s')) (N' ino) (Data (pos / bs)) <> 0
}.

Lemma stored_trans s N ino P k src s1 N1 k' s2 N2 : inode_ok ino -> live (disk s) ino = true -> 0 <= P -> 0 <= k -> 0 <= k' -> stored_at s N ino P k src s1 N1 -> stored_at s1 N1 ino (P + k) k' (drop (Z.to_nat k) src) s2 N2 ->
  stored_at s N ino P (k + k') src s2 N2.
Proof using Type*.
  intros Hino Hlino HP Hk Hk' [O1 K1 T1 N1' L1 M1 F1 B1 G1 R1] [O2 K2 T2 N2' L2 M2 F2 B2 G2 R2]. split; try done.
  - by eapply like_trans. - intros i Hi. by rewrite N2', N1'. - intros i Hi. by rewrite L2, L1. - intros i Hi. by rewrite M2, M1. - intros f Hf. by rewrite F2, F1.
  - intros i pos Hi Hl Hp. rewrite B2 by (done || by rewrite L1). destruct (decide (i = ino /\ P + k <= pos < P + k + k')) as [[-> Hr]|Hr].
    + rewrite decide_True by lia. rewrite lookup_drop. do 2 f_equal. lia.
    + rewrite B1 by done. destruct (decide (i = ino /\ P <= pos < P + k)); [rewrite decide_True by lia|rewrite decide_False by lia]; done.
  - by eapply grows_trans.
  - intros pos Hpos. pose proof gl_bs. destruct (Z.lt_ge_cases pos (P + k)); [|apply R2; lia].
    apply G2; [done|by rewrite L1|apply Z.div_pos; lia|apply R1; lia].
Qed.

(** A block of a file is overwritten in part. *)
Lemma write_block_stored (s : state) N ino b l P src : ok s -> trees (disk s) N -> inode_ok ino -> live (disk s) ino = true -> 0 <= P ->
  b <> 0 -> ref (blk (disk s)) (N ino) (Data (P / bs)) = b -> Z.of_nat (length l) = bs -> Forall byte l -> Forall byte src ->
  P mod bs + Z.of_nat (length src) <= bs ->
  exists s', ext4_write_block_raw s b (splice l (Z.to_nat (P mod bs)) src) = (true, s') /\ ok s' /\ heap s' = heap s /\ trees (disk s') N /\
    (forall i, inode_ok i -> live (disk s') i = live (disk s) i) /\ (forall i, inode_ok i -> node (disk s') i = node (disk s) i) /\
    (forall i m, inode_ok i -> live (disk s) i = true -> 0 <= m ->
      content (disk s') N i m = if decide (i = ino /\ m = P / bs) then splice l (Z.to_nat (P mod bs)) src else content (disk s) N i m) /\
    same_refs (disk s) N (disk s') N /\ (forall c, area c -> used (disk s') c = used (disk s) c).
Proof using Type*.
  intros Hok HT Hi Hli HP Hb Href Hl Hlb Hsb Hfit. pose proof gl_bs. assert (0 <= P / bs) as Hm by (apply Z.div_pos; lia). pose proof (Z.mod_pos_bound P bs).
  assert (data_block b) as Hdb by (rewrite <- Href; apply (tr_good _ _ HT ino (Data (P / bs))); try done; by rewrite Href). pose proof Hdb as (_ & Hr & Hmt & _).
  destruct (write_data_ok s b (splice l (Z.to_nat (P mod bs)) src)) as (s' & E & Hok' & Ef & Eh & Hw); try done; [by rewrite splice_length by lia|by apply splice_byte|].
  assert (forall i v, inode_ok i -> live (disk s) i = true -> valid_use (bs := bs) v -> pointers v -> ref (blk (disk s)) (N i) v <> b) as Hptr.
  { intros i v Hii Hlii Hv Hp E'. destruct (tr_inj _ _ HT i v ino (Data (P / bs))) as [_ ->]; try done; congruence. }
  destruct (trees_write (disk s) N b _ (disk s') HT Hdb Hw Hptr) as [HT' Hr']. destruct (wrote_views (disk s) b _ (disk s') Hmt Hw) as (Hus & Hlv & Hnd).
  exists s'. split; [done|]. split; [done|]. split; [done|]. split; [done|]. split; [done|]. split; [done|]. split; [|split; [exact Hr'|exact Hus]]. intros i m Hii Hlii Hm'. unfold content. cbv zeta. rewrite !(Hr' i (Data m)) by done.
  destruct (decide (i = ino /\ m = P / bs)) as [[-> ->]|Hne].
  - rewrite Href, (proj2 (Z.eqb_neq _ _)) by done. by rewrite Hw, decide_True.
  - destruct (Z.eqb_spec (ref (blk (disk s)) (N i) (Data m)) 0); [done|]. rewrite Hw, decide_False; [done|]. rewrite <- Href. intros E'.
    destruct (tr_inj _ _ HT i (Data m) ino (Data (P / bs))) as [? [= ?]]; try done. by apply Hne.
Qed.
Lemma fbyte_splice d N d' N' ino P src : 0 <= P -> dv_ok d -> trees d N -> inode_ok ino -> live d ino = true -> P mod bs + Z.of_nat (length src) <= bs ->
  (forall i m, inode_ok i -> live d i = true -> 0 <= m ->
    content d' N' i m = if decide (i = ino /\ m = P / bs) then splice (content d N ino (P / bs)) (Z.to_nat (P mod bs)) src else content d N i m) ->
  forall i pos, inode_ok i -> live d i = true -> 0 <= pos ->
    fbyte d' N' i pos = if decide (i = ino /\ P <= pos < P + Z.of_nat (length src)) then default 0 (src !! Z.to_nat (pos - P)) else fbyte d N i pos.
Proof using Type*.
  intros HP Hd HT Hi Hli Hfit Hc i pos Hii Hlii Hpos. pose proof gl_bs. pose proof (Z.mod_pos_bound P bs). pose proof (Z.mod_pos_bound pos bs).
  pose proof (Z.div_mod P bs). pose proof (Z.div_mod pos bs). assert (0 <= P / bs) by (apply Z.div_pos; lia). assert (0 <= pos / bs) by (apply Z.div_pos; lia).
  destruct (content_ok d N ino (P / bs) HT Hd Hi Hli) as [Hlen _]; [done|]. unfold fbyte. rewrite Hc by done.
  destruct (decide (i = ino /\ pos / bs = P / bs)) as [[-> Em]|Hne].
  - rewrite Em in *. rewrite splice_lookup by lia. destruct (decide (ino = ino /\ P <= pos < P + Z.of_nat (length src))).
    + rewrite decide_True by lia. do 2 f_equal. lia.
    + rewrite decide_False by lia. done.
  - rewrite decide_False; [done|]. intros [-> Hr]. apply Hne. split; [done|]. nia.
Qed.

Lemma stored_none s N ino P src s' N' : ok s' -> like (heap s) (heap s') -> trees (disk s') N' -> (forall i, i <> ino -> N' i = N i) ->
  (forall i, inode_ok i -> live (disk s') i = live (disk s) i) -> (forall i, inode_ok i -> node (disk s') i = node (disk s) i) ->
  (forall f, kept_field f -> rd f (N' ino) = rd f (N ino)) ->
  (forall i m, inode_ok i -> live (disk s) i = true -> 0 <= m -> content (disk s') N' i m = content (disk s) N i m) ->
  grows (disk s) N (disk s') N' -> stored_at s N ino P 0 src s' N'.
Proof using Type*.
  intros. split; try done; [|lia]. intros i pos Hi Hl Hp. rewrite decide_False by lia. unfold fbyte. pose proof gl_bs. by rewrite H9 by (done || apply Z.div_pos; lia).
Qed.

Lemma write_loop_ok fuel : forall s N ino nd offset src written, ok s -> (2 <= spare (heap s))%nat -> trees (disk s) N -> N ino = nd -> inode_ok ino ->
  live (disk s) ino = true -> (length src <= fuel)%nat -> 0 <= offset -> 0 <= written -> offset + written + Z.of_nat (length src) < 2 ^ 63 -> Forall byte src ->
  exists k s' N', write_loop fuel s ino nd offset src written = Ok (written + k, N' ino, s') /\ 0 <= k <= Z.of_nat (length src) /\
    stored_at s N ino (offset + written) k src s' N' /\
    (k < Z.of_nat (length src) -> (12 + ptrs) * bs <= offset + written + k \/ nearly_full (disk s')).
Proof using Type*.
  pose proof gl_bs. induction fuel as [|fuel IH]; intros s N ino nd offset src written Hok Hs HT HN Hi Hli Hf Ho Hw Hmax Hsrc.
  { destruct src; [|simpl in Hf; lia]. exists 0, s, N. cbn. rewrite HN, Z.add_0_r. split; [done|]. split; [lia|]. split; [|lia].
    apply stored_none; try done. apply like_refl, Hok. by apply same_grows. }
  destruct src as [|c src0].
  { exists 0, s, N. cbn. rewrite HN, Z.add_0_r. split; [done|]. split; [lia|]. split; [|lia]. apply stored_none; try done. apply like_refl, Hok. by apply same_grows. }
  set (src := c :: src0) in *. assert (0 < Z.of_nat (length src)) as Hpos by (unfold src; simpl; lia). cbn [write_loop]. fold src. change (c :: src0) with src.
  rewrite (fo_bs _ _ _ (ok_follows _ Hok)), (proj2 (Z.eqb_neq _ _)) by lia. rewrite u64_small by lia. set (P := offset + written) in *.
  pose proof (Z.mod_pos_bound P bs). pose proof (Z.div_mod P bs). assert (0 <= P / bs) as Hm by (apply Z.div_pos; lia).
  subst nd. destruct (ready_block_ok s N ino (P / bs)) as (r & nd & s1 & E & Hok1 & Hl1 & HT1 & Hlv1 & Hnd1 & Hfl1 & Hc1 & Hg1 & Hr); try done.
  rewrite E, bind_ok. set (N1 := <[ino := nd]> N) in *. assert (N1 ino = nd) as EN1 by apply fn_lookup_insert.
  assert (forall i, i <> ino -> N1 i = N i) as HN1 by (intros i Hne; apply fn_lookup_insert_ne; congruence).
  destruct r as [[b l]|].
  2:{ destruct Hr as [Hc0 Hwhy]. exists 0, s1, N1. rewrite EN1, Z.add_0_r. split; [done|]. split; [lia|]. split.
    - apply stored_none; try done; [by rewrite EN1|]. intros i m Hii Hlii Hm'. destruct (decide ((i, m) = (ino, P / bs))) as [[= -> ->]|]; [done|by apply Hc1].
    - intros _. destruct Hwhy; [left; nia|by right]. }
  destruct Hr as (Hb & Href & ->). destruct (content_ok (disk s) N ino (P / bs)) as [Hcl Hcb]; try done; [apply Hok|].
  set (tw := Z.min (bs - P mod bs) (Z.of_nat (length src))). assert (0 < tw <= Z.of_nat (length src)) as Htw by lia.
  set (piece := take (Z.to_nat tw) src). assert (Z.of_nat (length piece) = tw) as Hpl by (unfold piece; rewrite length_take; lia).
  assert (Forall byte piece) by (by apply Forall_take). rewrite store_ok by lia. rewrite bind_ok.
  destruct (write_block_stored s1 N1 ino b (content (disk s) N ino (P / bs)) P piece) as (s2 & Ew & Hok2 & Eh2 & HT2 & Hlv2 & Hnd2 & Hc2 & Hr2 & _);
    try done; [by rewrite Hlv1|lia|by rewrite EN1|lia|]. rewrite Ew. cbn [negb].
  assert (stored_at s N ino P tw src s2 N1) as Hst.
  { split; try done; [by rewrite Eh2|intros i Hii; by rewrite Hlv2, Hlv1|intros i Hii; by rewrite Hnd2, Hnd1|intros f Hff; by rewrite EN1, Hfl1| | |].
    2: by eapply grows_trans; [|done|by apply same_grows].
    2:{ intros pos Hps. assert (pos / bs = P / bs) as -> by (symmetry; apply Z.div_unique with (pos - P + P mod bs); lia). rewrite Hr2 by (done || by rewrite Hlv1). by rewrite EN1, Href. }
    intros i pos Hii Hlii Hp. rewrite (fbyte_splice (disk s) N (disk s2) N1 ino P piece); try done; [|lia|apply Hok|lia|].
    - rewrite Hpl. destruct (decide _) as [[_ Hr]|]; [|done]. unfold piece. rewrite lookup_take_lt by lia. done.
    - intros j m Hj Hlj Hmm. rewrite Hc2 by (done || by rewrite Hlv1). destruct (decide (j = ino /\ m = P / bs)) as [|Hne]; [done|]. apply Hc1; try done. intros [= -> ->]. by apply Hne. }
  destruct (IH s2 N1 ino nd offset (drop (Z.to_nat tw) src) (written + tw)) as (k & s3 & N3 & E3 & Hk & Hst3 & Hwhy); try done.
  { destruct Hl1 as (_ & _ & ?). rewrite Eh2. lia. } { by rewrite Hlv2, Hlv1. } { rewrite length_drop. lia. } { lia. } { rewrite length_drop. lia. } { by apply Forall_drop. }
  rewrite length_drop in Hk, Hwhy. exists (tw + k), s3, N3. rewrite E3. split; [do 3 f_equal; lia|]. split; [lia|].
  replace (offset + (written + tw)) with (P + tw) in * by lia. split; [apply (stored_trans s N ino P tw src s2 N1); done || lia|].
  intros Hlt. destruct Hwhy; [lia|left; lia|by right].
Qed.
End write.
