(* ===== verification/Ext4Rw.v ===== *)
(** * The ext4 driver: [ext4_write_file], [ext4_read_file] and [ext4_vfs_truncate]

    The operations on files by number, as changes of the bytes of files ([file_byte]) and of
    the inodes on the disk. *)
From S2P Require Import Prelude AllocSpec Buffer Ext4 Ext4Spec Ext4Alloc Ext4Nodes Ext4Map Ext4File.
#[local] Open Scope Z_scope.

Section rw.
Context {A D : Type} `{AllocatorLaws A} `{BlockDevice D} {bs nblocks : Z} {L : layout}.
Context `{!DeviceLaws D bs nblocks} `{!BufferPool A bs} {GL : good_layout bs nblocks L}.
Abbreviation state := (st A D).
Abbreviation meta := (meta bs L). Abbreviation ok := (ok (L := L)). Abbreviation area := (area (L := L)).
Abbreviation used := (used (L := L)). Abbreviation live := (live (L := L)). Abbreviation inode_ok := (inode_ok (L := L)). Abbreviation node := (node (bs := bs) (L := L)).
Abbreviation ref := (ref (bs := bs)). Abbreviation ptrs := (ptrs (bs := bs)). Abbreviation trees := (trees (bs := bs) (nblocks := nblocks) (L := L)).
Abbreviation content := (content (bs := bs)). Abbreviation fbyte := (fbyte (bs := bs)). Abbreviation same_refs := (same_refs (bs := bs) (L := L)).

(** The block maps of the inodes on the disk are sound. *)
Definition sound (d : D) : Prop := trees d (node d).
Definition file_byte (d : D) (ino pos : Z) : Z := fbyte d (node d) ino pos.
Definition file_size (d : D) (ino : Z) : Z := rd i_size_lo (node d ino).
(** The file has a block for this byte. *)
Definition has_byte (d : D) (ino pos : Z) : Prop := ref (blk d) (node d ino) (Data (pos / bs)) <> 0.

(** An operation that keeps its inodes in [N] ends by writing that of [ino]. *)
Lemma settle (d d' : D) N ino : trees d N -> dv_ok d' -> (forall c, ~ meta c -> blk d' c = blk d c) ->
  (forall i, inode_ok i -> i <> ino -> node d' i = N i) -> (forall k, 0 <= k < 15 -> rd (i_block k) (node d' ino) = rd (i_block k) (N ino)) ->
  (forall b, area b -> used d' b = used d b) -> (forall i, inode_ok i -> live d' i = live d i) ->
  sound d' /\ same_refs d N d' (node d') /\ (forall i m, inode_ok i -> live d i = true -> 0 <= m -> content d' (node d') i m = content d N i m) /\ forall i pos, inode_ok i -> live d i = true -> 0 <= pos -> file_byte d' i pos = fbyte d N i pos.
Proof using Type*.
  intros HT Hd Hb Hn Hp Hu Hl.
  assert (same_refs d N d' (node d')) as Hr.
  { intros i u Hi Hli Hv. transitivity (ref (blk d') (N i) u).
    - destruct (decide (i = ino)) as [->|Hne]; [by apply ref_pointers|by rewrite Hn].
    - apply ref_frame; [done|]. intros v Hv' _ Hne. apply Hb. by destruct (tr_good _ _ HT i v) as [(_ & _ & Hm & _) _]. }
  assert (forall i m, inode_ok i -> live d i = true -> 0 <= m -> content d' (node d') i m = content d N i m) as Hc.
  { intros i m Hi Hli Hm. apply content_same; [by apply Hr|]. intros Hne. apply Hb. by destruct (tr_good _ _ HT i (Data m)) as [(_ & _ & Hmt & _) _]. }
  split; [|split; [done|split; [done|]]].
  - apply (trees_same d d' N); try done. intros i Hi. split; [by apply node_length|by apply node_byte].
  - intros i pos Hi Hli Hpos. unfold file_byte, Ext4File.fbyte. pose proof gl_bs. by rewrite Hc by (done || apply Z.div_pos; lia).
Qed.

(** The fields that a write may change, besides the block map. *)
Definition untouched (f : field) : Prop := kept_field f /\ apart f i_size_lo /\ apart f i_mtime.

(** The first [k] bytes of [src] were written to a file at [P]. *)
Record written_at (s : state) (ino P k : Z) (src : list Z) (s' : state) : Prop := {
  wa_ok : ok s'; wa_like : like (heap s) (heap s'); wa_sound : sound (disk s');
  wa_live i : inode_ok i -> live (disk s') i = live (disk s) i;
  wa_others i : inode_ok i -> i <> ino -> node (disk s') i = node (disk s) i;
  wa_size : file_size (disk s') ino = if file_size (disk s) ino <? P + k then u32 (P + k) else file_size (disk s) ino;
  wa_fields f : untouched f -> rd f (node (disk s') ino) = rd f (node (disk s) ino);
  wa_bytes i pos : inode_ok i -> live (disk s) i = true -> 0 <= pos ->
    file_byte (disk s') i pos = if decide (i = ino /\ P <= pos < P + k) then default 0 (src !! Z.to_nat (pos - P)) else file_byte (disk s) i pos;
  wa_grows i pos : inode_ok i -> live (disk s) i = true -> 0 <= pos -> has_byte (disk s) i pos -> has_byte (disk s') i pos;
  wa_blocks pos : P <= pos < P + k -> has_byte (disk s') ino pos
}.

Lemma write_file_ok (s : state) ino src offset : ok s -> (3 <= spare (heap s))%nat -> sound (disk s) -> inode_ok ino -> live (disk s) ino = true ->
  0 <= offset -> Z.of_nat (length src) < 2 ^ 31 -> offset + Z.of_nat (length src) < 2 ^ 63 -> Forall byte src ->
  exists k s', ext4_write_file s ino src offset = Ok (k, s') /\ 0 <= k <= Z.of_nat (length src) /\ written_at s ino offset k src s' /\
    (k < Z.of_nat (length src) -> (12 + ptrs) * bs <= offset + k \/ nearly_full (L := L) (disk s')).
Proof using Type*.
  intros Hok Hs HT Hi Hli Ho Hn Hmax Hsrc. unfold ext4_write_file.
  destruct (read_inode_ok s ino Hok) as (s1 & E1 & Hq1); [lia|done|]. rewrite E1, bind_ok. pose proof (quiet_ok _ _ Hok Hq1) as Hok1. destruct Hq1 as (Ef1 & Ed1 & Hl1).
  destruct (new_buf_ok s1 (ok_heap _ Hok1) (fo_bs _ _ _ (ok_follows _ Hok1))) as (p & h & E & Hp & Hih & Hsp & Hh); [destruct Hl1 as (_ & _ & ?); lia|]. rewrite E, bind_ok, Hp.
  destruct (write_loop_ok (length src) (with_heap s1 h) (node (disk s)) ino (node (disk s) ino) offset src 0) as (k & s2 & N2 & E2 & Hk & Hst & Hwhy);
    try done; try lia; [by apply ok_heap_any|destruct Hl1 as (_ & _ & ?); cbn; lia|cbn; by rewrite Ed1..|]. rewrite Z.add_0_r in *. rewrite Z.add_0_l in E2. rewrite E2, bind_ok.
  destruct Hst as [Hok2 Hl2 HT2 Hn2 Hlv2 Hnd2 Hf2 Hb2 Hg2 Hr2]. cbn [disk heap with_heap] in *. rewrite Ed1 in *.
  rewrite u64_small by lia. pose proof (tr_size _ _ HT2 ino Hi) as Hsz. pose proof (tr_byte _ _ HT2 ino Hi) as Hby.
  set (nd := if rd i_size_lo (N2 ino) <? offset + k then wr i_size_lo (offset + k) (N2 ino) else N2 ino).
  assert (forall f, inside f inode_bytes -> inside f (length (N2 ino))) as Hin by (by rewrite Hsz).
  assert (length nd = inode_bytes /\ Forall byte nd) as [Hlnd Hbnd].
  { unfold nd. destruct (_ <? _); [|done]. split; [rewrite wr_length; [done|apply Hin; unfold inside, inode_bytes; cbn; lia]|by apply wr_byte]. }
  assert (forall f, inside f inode_bytes -> apart f i_size_lo -> apart f i_mtime -> rd f (wr i_mtime 0 nd) = rd f (N2 ino)) as Hkeep.
  { intros f _ Ha Hb. rewrite rd_wr_ne by (done || (rewrite Hlnd; unfold inside, inode_bytes; cbn; lia)).
    unfold nd. destruct (_ <? _); [|done]. apply rd_wr_ne; [apply Hin; unfold inside, inode_bytes; cbn; lia|done]. }
  destruct (write_inode_ok s2 ino (wr i_mtime 0 nd) Hok2) as (s3 & E3 & Hok3 & Ef3 & Hl3 & Hnd3 & Hus3 & Hlv3 & Hblk3);
    [destruct Hl1 as (_ & _ & ?), Hl2 as (_ & _ & ?); lia|done|rewrite wr_length; [done|rewrite Hlnd; unfold inside, inode_bytes; cbn; lia]|by apply wr_byte|].
  rewrite E3, bind_ok. cbn [snd]. rewrite i32_small by lia.
  destruct (done_ok (heap s1) p h s3 k Hh) as (h' & Edn & Hld); [by eapply like_trans|]. rewrite Edn.
  destruct (settle (disk s2) (disk s3) N2 ino HT2) as (HT3 & Hr3 & _ & Hby3); try done; [apply Hok3| | |].
  { intros i Hii Hne. rewrite Hnd3, decide_False by done. rewrite Hnd2, Hn2 by done. done. }
  { intros j Hj. rewrite Hnd3, decide_True by done. apply Hkeep; unfold inside, apart, inode_bytes; cbn; lia. }
  exists k, (with_heap s3 h'). split; [done|]. split; [done|]. split; [|intros Hlt; destruct (Hwhy Hlt) as [?|[b Hall]]; [by left|right; exists b; intros c Hc Hcb; cbn; rewrite Hus3 by done; by apply Hall]].
  split; cbn [disk heap with_heap]; try done.
  - apply ok_heap_any; [done|apply Hld]. - by eapply like_trans. - intros i Hii. by rewrite Hlv3, Hlv2.
  - intros i Hii Hne. rewrite Hnd3, decide_False by done. by apply Hnd2.
  - assert (rd i_size_lo (N2 ino) = file_size (disk s) ino) as Eo.
    { apply Hf2. split; [split; [cbn; lia|unfold inside, inode_bytes; cbn; lia]|unfold apart; cbn; lia]. }
    unfold file_size at 1. rewrite Hnd3, decide_True by done.
    rewrite rd_wr_ne by ((unfold apart; cbn; lia) || (rewrite Hlnd; unfold inside, inode_bytes; cbn; lia)). unfold nd. rewrite Eo. destruct (file_size (disk s) ino <? offset + k); [|exact Eo].
    rewrite rd_wr; [done|]. apply Hin. unfold inside, inode_bytes. cbn. lia.
  - intros f (Hkf & Ha1 & Ha2). rewrite Hnd3, decide_True by done. rewrite Hkeep by (done || apply Hkf). by apply Hf2.
  - intros i pos Hii Hlii Hpos. rewrite Hby3 by (done || by rewrite Hlv2). by apply Hb2.
  - intros i pos Hii Hlii Hpos Hhas. unfold has_byte. pose proof gl_bs. assert (0 <= pos / bs) by (apply Z.div_pos; lia). rewrite Hr3 by (done || by rewrite Hlv2). by apply Hg2.
  - intros pos Hpos. unfold has_byte. pose proof gl_bs. assert (0 <= pos / bs) by (apply Z.div_pos; lia). rewrite Hr3 by (done || by rewrite Hlv2). by apply Hr2.
Qed.

(** ** Reading *)

Lemma content_slice d N i P n : trees d N -> dv_ok d -> inode_ok i -> live d i = true -> 0 <= P -> 0 <= n -> P mod bs + n <= bs ->
  slice (content d N i (P / bs)) (Z.to_nat (P mod bs)) (Z.to_nat n) = map (fbyte d N i) (seqZ P n).
Proof using Type*.
  intros HT Hd Hi Hl HP Hn Hfit. pose proof gl_bs. assert (0 <= P / bs) by (apply Z.div_pos; lia). pose proof (Z.mod_pos_bound P bs). pose proof (Z.div_mod P bs).
  destruct (content_ok d N i (P / bs) HT Hd Hi Hl) as [Hlen _]; [done|].
  apply list_eq_same_length with (Z.to_nat n); [rewrite length_map, length_seqZ; done|rewrite slice_length; lia|].
  intros j x y Hj Hx Hy. rewrite slice_lookup in Hx by lia. rewrite list_lookup_fmap, lookup_seqZ_lt in Hy by lia. injection Hy as <-.
  unfold Ext4File.fbyte. replace ((P + Z.of_nat j) / bs) with (P / bs) by (apply Z.div_unique with (P mod bs + Z.of_nat j); lia).
  replace ((P + Z.of_nat j) mod bs) with (P mod bs + Z.of_nat j) by (apply Z.mod_unique with (P / bs); lia).
  replace (Z.to_nat (P mod bs + Z.of_nat j)) with (Z.to_nat (P mod bs) + j)%nat by lia. by rewrite Hx.
Qed.

Lemma read_loop_ok fuel : forall s N ino offset len out, ok s -> (2 <= spare (heap s))%nat -> trees (disk s) N -> inode_ok ino -> live (disk s) ino = true ->
  0 <= offset -> offset + len < 2 ^ 63 -> Z.of_nat (length out) <= len -> (Z.to_nat (len - Z.of_nat (length out)) <= fuel)%nat ->
  let P := offset + Z.of_nat (length out) in
  exists k s', read_loop fuel s (N ino) offset len out = Ok (out ++ map (fbyte (disk s) N ino) (seqZ P k), s') /\ quiet s s' /\ 0 <= k <= len - Z.of_nat (length out) /\
    (forall pos, P <= pos < P + k -> ref (blk (disk s)) (N ino) (Data (pos / bs)) <> 0) /\
    (k < len - Z.of_nat (length out) -> ref (blk (disk s)) (N ino) (Data ((P + k) / bs)) = 0).
Proof using Type*.
  pose proof gl_bs as Hbs. induction fuel as [|fuel IH]; intros s N ino offset len out Hok Hs HT Hi Hli Ho Hmax Hle Hf P; cbn [read_loop]; cbv zeta.
  { rewrite (proj2 (Z.leb_le _ _)) by lia. exists 0, s. rewrite app_nil_r. split; [done|]. split; [by apply ext4_quiet_refl|]. split; [lia|]. split; [lia|lia]. }
  destruct (Z.leb_spec len (Z.of_nat (length out))).
  { exists 0, s. rewrite app_nil_r. split; [done|]. split; [by apply ext4_quiet_refl|]. split; [lia|]. split; [lia|lia]. }
  rewrite (fo_bs _ _ _ (ok_follows _ Hok)), (proj2 (Z.eqb_neq _ _)) by lia. rewrite u64_small by lia. fold P.
  assert (0 <= P / bs) by (apply Z.div_pos; lia). pose proof (Z.mod_pos_bound P bs). pose proof (Z.div_mod P bs).
  destruct (get_file_block_ok s N ino (P / bs)) as (s1 & E & Hq); try done. rewrite E, bind_ok. pose proof (quiet_ok _ _ Hok Hq) as Hok1. pose proof Hq as (Ef1 & Ed1 & Hl1).
  destruct (Z.eqb_spec (ref (blk (disk s)) (N ino) (Data (P / bs))) 0) as [E0|Hne].
  { exists 0, s1. rewrite app_nil_r, Z.add_0_r. split; [done|]. split; [done|]. split; [lia|]. split; [lia|done]. }
  destruct (tr_good _ _ HT ino (Data (P / bs))) as [(_ & Hr & _) _]; try done. rewrite read_ok by (done || apply (ok_follows _ Hok1) || apply Hok1). rewrite bind_ok, Ed1.
  set (n := Z.min (bs - P mod bs) (len - Z.of_nat (length out))). assert (0 < n) by lia.
  pose proof (blk_length (disk s) _ (ok_device _ Hok) Hr) as Hlen. rewrite sub_ok by lia. rewrite bind_ok.
  assert (blk (disk s) (ref (blk (disk s)) (N ino) (Data (P / bs))) = content (disk s) N ino (P / bs)) as -> by (unfold Ext4File.content; by rewrite (proj2 (Z.eqb_neq _ _))).
  rewrite content_slice by (done || lia || apply Hok). set (piece := map _ _). assert (Z.of_nat (length piece) = n) as Hpl by (unfold piece; rewrite length_map, length_seqZ; lia).
  destruct (IH s1 N ino offset len (out ++ piece)) as (k & s2 & E2 & Hq2 & Hk & Hb & Hh); try done; try (rewrite length_app; lia); [destruct Hl1 as (_ & _ & ?); lia|by rewrite Ed1..|].
  rewrite length_app in *. replace (offset + Z.of_nat (length out + length piece)) with (P + n) in * by lia. rewrite Ed1 in *.
  exists (n + k), s2. rewrite E2. split; [|split; [|split; [lia|split]]].
  - rewrite seqZ_app by lia. rewrite map_app. by rewrite <- app_assoc.
  - by eapply ext4_quiet_trans.
  - intros pos Hpos. destruct (Z.lt_ge_cases pos (P + n)); [|apply Hb; lia]. assert (pos / bs = P / bs) as -> by (symmetry; apply Z.div_unique with (pos - P + P mod bs); lia). done.
  - intros Hlt. replace (P + (n + k)) with (P + n + k) by lia. apply Hh. lia.
Qed.

(** The bytes of the file from [P] on. *)
Definition bytes_from (d : D) (ino P k : Z) : list Z := map (file_byte d ino) (seqZ P k).

Lemma read_file_ok (s : state) ino offset len : ok s -> (3 <= spare (heap s))%nat -> sound (disk s) -> inode_ok ino -> live (disk s) ino = true ->
  0 <= offset -> 0 <= len < 2 ^ 31 -> offset + len < 2 ^ 63 -> let avail := Z.max 0 (Z.min len (file_size (disk s) ino - offset)) in
  exists k s', ext4_read_file s ino offset len = Ok (k, bytes_from (disk s) ino offset k, s') /\ quiet s s' /\ 0 <= k <= avail /\
    (forall pos, offset <= pos < offset + k -> has_byte (disk s) ino pos) /\ (k < avail -> ~ has_byte (disk s) ino (offset + k)).
Proof using Type*.
  intros Hok Hs HT Hi Hli Ho Hn Hmax avail. unfold ext4_read_file.
  destruct (read_inode_ok s ino Hok) as (s1 & E1 & Hq1); [lia|done|]. rewrite E1, bind_ok. pose proof (quiet_ok _ _ Hok Hq1) as Hok1. pose proof Hq1 as (Ef1 & Ed1 & Hl1).
  cbv zeta. fold (file_size (disk s) ino). set (size := file_size (disk s) ino) in *. destruct (Z.leb_spec size offset).
  { exists 0, s1. split; [done|]. split; [done|]. split; [lia|]. split; [lia|lia]. }
  rewrite u64_small by lia. set (n := if size <? offset + len then size - offset else len). assert (n = avail) as En by (unfold n; destruct (Z.ltb_spec size (offset + len)); lia).
  destruct (new_buf_ok s1 (ok_heap _ Hok1) (fo_bs _ _ _ (ok_follows _ Hok1))) as (p & h & E & Hp & Hih & Hsp & Hh); [destruct Hl1 as (_ & _ & ?); lia|]. rewrite E, bind_ok, Hp.
  destruct (read_loop_ok (Z.to_nat n) (with_heap s1 h) (node (disk s)) ino offset n []) as (k & s2 & E2 & Hq2 & Hk & Hb & Hho); try done;
    [by apply ok_heap_any|destruct Hl1 as (_ & _ & ?); cbn; lia|cbn; by rewrite Ed1..|lia|cbn; lia|cbn; lia|].
  cbn [length disk with_heap app] in *. rewrite Z.add_0_r, Z.sub_0_r, Ed1 in *. rewrite E2, bind_ok. rewrite length_map, length_seqZ, Z2Nat.id, i32_small by lia.
  pose proof Hq2 as (Ef2 & Ed2 & Hl2). cbn [disk fs heap with_heap] in *. destruct (done_ok (heap s1) p h s2 k Hh Hl2) as (h' & Edn & Hld). rewrite Edn, bind_ok.
  exists k, (with_heap s2 h'). split; [done|]. split; [|split; [lia|split; [done|]]].
  - split; [cbn; congruence|]. split; [cbn; congruence|]. by eapply like_trans.
  - intros Hlt Hhas. apply Hhas, Hho. lia.
Qed.
End rw.

(** * Truncation

    Shrinking a file releases its last blocks and leaves the pointers to them where they are. *)

Section truncate.
Context {A D : Type} `{AllocatorLaws A} `{BlockDevice D} {bs nblocks : Z} {L : layout}.
Context `{!DeviceLaws D bs nblocks} `{!BufferPool A bs} {GL : good_layout bs nblocks L}.
Abbreviation state := (st A D).
Abbreviation meta := (meta bs L). Abbreviation ok := (ok (L := L)). Abbreviation area := (area (L := L)).
Abbreviation used := (used (L := L)). Abbreviation live := (live (L := L)). Abbreviation inode_ok := (inode_ok (L := L)). Abbreviation node := (node (bs := bs) (L := L)).
Abbreviation ref := (ref (bs := bs)). Abbreviation valid_use := (valid_use (bs := bs)). Abbreviation trees := (trees (bs := bs) (nblocks := nblocks) (L := L)).
Abbreviation sound := (sound (bs := bs) (nblocks := nblocks) (L := L)). Abbreviation file_size := (file_size (bs := bs) (L := L)).

(** The block that a file has at place [m], 0 if none. *)
Definition file_block (d : D) (ino m : Z) : Z := ref (blk d) (node d ino) (Data m).
Definition cut_off (d : D) (ino lo hi c : Z) : Prop := exists m, lo <= m < hi /\ file_block d ino m = c /\ c <> 0.

(** The blocks from [lo] to [hi] of a file were released. *)
Record released (s : state) (ino lo hi : Z) (s' : state) : Prop := {
  rl_ok : ok s'; rl_like : like (heap s) (heap s'); rl_blk c : ~ meta c -> blk (disk s') c = blk (disk s) c;
  rl_live i : inode_ok i -> live (disk s') i = live (disk s) i; rl_node i : inode_ok i -> node (disk s') i = node (disk s) i;
  rl_used c : area c -> used (disk s') c = true <-> used (disk s) c = true /\ ~ cut_off (disk s) ino lo hi c
}.

Lemma released_none (s : state) ino lo : ok s -> released s ino lo lo s.
Proof using Type*. intros Hok. split; try done; [apply like_refl, Hok|]. intros c _. split; [|tauto]. intros Hu. split; [done|]. intros (m & Hm & _). lia. Qed.

(** Releasing blocks changes no pointer. *)
Lemma released_refs (s s' : state) ino lo hi i u : sound (disk s) -> released s ino lo hi s' -> inode_ok i -> live (disk s) i = true -> valid_use u ->
  ref (blk (disk s')) (node (disk s) i) u = ref (blk (disk s)) (node (disk s) i) u.
Proof using Type*.
  intros HT Hr Hi Hl Hu. apply ref_frame; [done|]. intros v Hv _ Hne. apply (rl_blk _ _ _ _ _ Hr). by destruct (tr_good _ _ HT i v) as [(_ & _ & Hm & _) _].
Qed.

Lemma truncate_loop_ok n : forall (s0 s : state) ino lo b, (2 <= spare (heap s0))%nat -> sound (disk s0) -> inode_ok ino -> live (disk s0) ino = true ->
  0 <= lo <= b -> released s0 ino lo b s -> exists s', truncate_loop n b s (node (disk s0) ino) = Ok s' /\ released s0 ino lo (b + Z.of_nat n) s'.
Proof using Type*.
  induction n as [|n IH]; intros s0 s ino lo b Hs HT Hi Hli Hb Hr; cbn [truncate_loop].
  { exists s. split; [done|]. by rewrite Z.add_0_r. }
  pose proof Hr as [Hok Hlk Hblk Hlv Hnd Hus]. set (nd := node (disk s0) ino) in *.
  assert (forall v, valid_use v -> ref (blk (disk s)) nd v = ref (blk (disk s0)) nd v) as Href by (intros v Hv; by apply (released_refs s0 s ino lo b)).
  assert (forall v, valid_use v -> ref (blk (disk s)) nd v <> 0 -> 0 <= ref (blk (disk s)) nd v < nblocks) as Hrange.
  { intros v Hv. rewrite Href by done. intros Hne. by destruct (tr_good _ _ HT ino v) as [(_ & ? & _) _]. }
  assert (2 <= spare (heap s))%nat as Hs1 by (destruct Hlk as (_ & _ & ?); lia).
  destruct (get_file_block_range s nd b Hok Hs1 Hrange) as (s1 & E & Hq); [lia|]. rewrite E, bind_ok. pose proof (quiet_ok _ _ Hok Hq) as Hok1. destruct Hq as (Ef1 & Ed1 & Hl1).
  rewrite Href by (cbn; lia). change (ref (blk (disk s0)) nd (Data b)) with (file_block (disk s0) ino b). replace (b + Z.of_nat (S n)) with (b + 1 + Z.of_nat n) by lia.
  assert (forall c, cut_off (disk s0) ino lo (b + 1) c <-> cut_off (disk s0) ino lo b c \/ (c = file_block (disk s0) ino b /\ c <> 0)) as Hcut.
  { intros c. split.
    - intros (m & Hm & Em & Hne). destruct (decide (m = b)) as [->|]; [by right|left]. exists m. split; [lia|done].
    - intros [(m & Hm & Em)|[-> Hne]]; [exists m; split; [lia|done]|exists b; split; [lia|done]]. }
  destruct (Z.eqb_spec (file_block (disk s0) ino b) 0) as [E0|Hne].
  - rewrite bind_ok. apply IH; try done; [lia|]. split; rewrite ?Ed1; try done; [by eapply like_trans|].
    intros c Hc. rewrite Hus by done. rewrite Hcut. split; intros [Hu Hn]; (split; [done|]); [|tauto]. intros [?|[-> ?]]; [by apply Hn|done].
  - assert (area (file_block (disk s0) ino b) /\ used (disk s0) (file_block (disk s0) ino b) = true) as [Ha Hu].
    { destruct (tr_good _ _ HT ino (Data b)) as [[? _] ?]; try done. cbn. lia. }
    assert (used (disk s1) (file_block (disk s0) ino b) = true) as Hu1.
    { rewrite Ed1. apply Hus; [done|]. split; [done|]. intros (m & Hm & Em & _).
      destruct (tr_inj _ _ HT ino (Data m) ino (Data b)) as [_ [= ->]]; try done; [cbn; lia|cbn; lia|unfold file_block in Em; rewrite Em; done|lia]. }
    destruct (free_block_ok s1 _ Hok1 ltac:(destruct Hl1 as (_ & _ & ?); lia) Ha Hu1) as (s2 & E2 & Hok2 & Hl2 & [Hbu Hbl Hbn Hbb]). rewrite E2, !bind_ok. cbn [snd].
    apply IH; try done; [lia|]. rewrite Ed1 in *. split; try done.
    + eapply like_trans; [exact Hlk|]. by eapply like_trans. + intros c Hc. rewrite Hbb by done. by apply Hblk.
    + intros i Hii. rewrite Hbl by done. rewrite decide_False by (by intros [? _]). by apply Hlv. + intros i Hii. rewrite Hbn by done. by apply Hnd.
    + intros c Hc. rewrite Hbu, Hcut by done. destruct (decide (Blocks = Blocks /\ c = file_block (disk s0) ino b)) as [[_ ->]|Hnc].
      * split; [done|]. intros [_ []]. by right.
      * rewrite Hus by done. split; intros [? Hn]; (split; [done|]); [|tauto]. intros [?|[-> _]]; [by apply Hn|by apply Hnc].
Qed.

(** The number of blocks that so many bytes take. *)
Definition blocks_of (n : Z) : Z := (n + bs - 1) / bs.
Definition sizes_apart (f : field) : Prop := apart f i_size_lo /\ apart f i_size_hi.

Lemma truncate_ok (s : state) ino size : ok s -> (2 <= spare (heap s))%nat -> sound (disk s) -> inode_ok ino -> live (disk s) ino = true -> 0 <= size < 2 ^ 63 ->
  let old := file_size (disk s) ino in let cut := cut_off (disk s) ino (blocks_of size) (if size <? old then blocks_of old else blocks_of size) in
  exists s', ext4_truncate s ino size = Ok (0, s') /\ ok s' /\ like (heap s) (heap s') /\
    (forall i, inode_ok i -> live (disk s') i = live (disk s) i) /\ (forall i, inode_ok i -> i <> ino -> node (disk s') i = node (disk s) i) /\
    rd i_size_lo (node (disk s') ino) = u32 size /\ rd i_size_hi (node (disk s') ino) = u32 (size / 2 ^ 32) /\
    (forall f, sizes_apart f -> rd f (node (disk s') ino) = rd f (node (disk s) ino)) /\
    (forall c, ~ meta c -> blk (disk s') c = blk (disk s) c) /\ (forall c, area c -> used (disk s') c = true <-> used (disk s) c = true /\ ~ cut c) /\
    (forall i m, inode_ok i -> live (disk s) i = true -> 0 <= m -> file_block (disk s') i m = file_block (disk s) i m).
Proof using Type*.
  intros Hok Hs HT Hi Hli Hsz old cut. pose proof gl_bs as Hbs. unfold ext4_truncate.
  destruct (read_inode_ok s ino Hok) as (s1 & E1 & Hq1); [lia|done|]. rewrite E1, bind_ok. pose proof (quiet_ok _ _ Hok Hq1) as Hok1. pose proof Hq1 as (Ef1 & Ed1 & Hl1).
  cbv zeta. change (rd i_size_lo (node (disk s) ino)) with old. rewrite (fo_bs _ _ _ (ok_follows _ Hok1)), (proj2 (Z.eqb_neq _ _)) by lia.
  assert (length (node (disk s) ino) = inode_bytes /\ Forall byte (node (disk s) ino)) as [Hnl Hnb] by (split; [apply (tr_size _ _ HT ino Hi)|apply (tr_byte _ _ HT ino Hi)]).
  set (hi := if size <? old then blocks_of old else blocks_of size) in *. assert (0 <= blocks_of size) by (apply Z.div_pos; lia).
  assert (0 <= old < 2 ^ 32) as Hold by (apply (rd_range i_size_lo); [rewrite Hnl; unfold inside, inode_bytes; cbn; lia|done]).
  assert (exists s2, (if size <? old then truncate_loop (Z.to_nat ((old + bs - 1) / bs - u64 (size + bs - 1) / bs)) (u64 (size + bs - 1) / bs) s1 (node (disk s) ino) else Ok s1) = Ok s2 /\
    released s ino (blocks_of size) hi s2) as (s2 & E2 & Hr).
  { assert (released s ino (blocks_of size) (blocks_of size) s1) as Hr0.
    { destruct (released_none s ino (blocks_of size) Hok) as [_ _ Hblk Hlv Hnd Hus]. split; rewrite ?Ed1; done. }
    unfold hi. destruct (Z.ltb_spec size old); [|by exists s1]. rewrite u64_small by lia. fold (blocks_of size). fold (blocks_of old).
    destruct (truncate_loop_ok (Z.to_nat (blocks_of old - blocks_of size)) s s1 ino (blocks_of size) (blocks_of size) Hs HT Hi Hli) as (s2 & E & Hr); [lia|done|].
    assert (blocks_of size <= blocks_of old) by (apply Z.div_le_mono; lia). exists s2. split; [done|]. by replace (blocks_of old) with (blocks_of size + Z.of_nat (Z.to_nat (blocks_of old - blocks_of size))) by lia. }
  rewrite E2, bind_ok. pose proof Hr as [Hok2 Hlk2 Hblk2 Hlv2 Hnd2 Hus2].
  assert (forall f, inside f inode_bytes -> inside f (length (wr i_size_lo size (node (disk s) ino)))) as Hin by (intros f Hf; rewrite wr_length, Hnl by (rewrite Hnl; unfold inside, inode_bytes; cbn; lia); done).
  destruct (write_inode_ok s2 ino (wr i_size_hi (Z.shiftr size 32) (wr i_size_lo size (node (disk s) ino))) Hok2) as (s3 & E3 & Hok3 & Ef3 & Hl3 & Hnd3 & Hus3 & Hlv3 & Hblk3);
    [destruct Hlk2 as (_ & _ & ?); lia|done|rewrite !wr_length; [done|rewrite Hnl|apply Hin]; unfold inside, inode_bytes; cbn; lia|by apply wr_byte, wr_byte|]. rewrite E3, bind_ok.
  assert (forall f, sizes_apart f -> rd f (node (disk s3) ino) = rd f (node (disk s) ino)) as Hfld.
  { intros f [Ha1 Ha2]. rewrite Hnd3, decide_True by done. rewrite !rd_wr_ne; try done; [rewrite Hnl|apply Hin]; unfold inside, inode_bytes; cbn; lia. }
  exists s3. split; [done|]. split; [done|]. split; [by eapply like_trans|]. split; [intros i Hii; by rewrite Hlv3, Hlv2|]. split; [intros i Hii Hne; rewrite Hnd3, decide_False by done; by apply Hnd2|].
  split; [|split; [|split; [done|split; [|split]]]].
  - rewrite Hnd3, decide_True by done. rewrite rd_wr_ne by ((unfold apart; cbn; lia) || (apply Hin; unfold inside, inode_bytes; cbn; lia)).
    rewrite rd_wr; [done|rewrite Hnl; unfold inside, inode_bytes; cbn; lia].
  - rewrite Hnd3, decide_True by done. rewrite rd_wr by (apply Hin; unfold inside, inode_bytes; cbn; lia). rewrite Z.shiftr_div_pow2 by done. done.
  - intros c Hc. rewrite Hblk3 by done. by apply Hblk2.
  - intros c Hc. rewrite Hus3 by done. by apply Hus2.
  - intros i m Hii Hlii Hm. unfold file_block. transitivity (ref (blk (disk s3)) (node (disk s) i) (Data m)).
    + destruct (decide (i = ino)) as [->|Hne]; [|rewrite Hnd3, decide_False by done; by rewrite Hnd2]. apply ref_pointers; [done|]. intros k Hk. apply Hfld. split; unfold apart, i_block; cbn; lia.
    + rewrite <- (released_refs s s2 ino (blocks_of size) hi i (Data m)) by done. apply ref_frame; [done|]. intros v Hv _ Hne. apply Hblk3.
      rewrite (released_refs s s2 ino (blocks_of size) hi) in * by done. by destruct (tr_good _ _ HT i v) as [(_ & _ & Hmt & _) _].
Qed.
End truncate.
