(* ===== verification/Ext4Dir.v ===== *)
(** * The ext4 driver: directories

    A block of a directory is a list of entries that follow each other to its end.  A new entry goes into
    the unused bytes behind the first entry that has enough of them. *)
From S2P Require Import Prelude AllocSpec Buffer Ext4 Ext4Spec Ext4Alloc Ext4Nodes Ext4Map Ext4File Ext4Rw.
#[local] Open Scope Z_scope.

Record dirent := Dirent { e_ino : Z; e_type : Z; e_name : list Z; e_len : Z }.
Definition need (e : dirent) : Z := entry_size (Z.of_nat (length (e_name e))).

Lemma entry_size_eq n : 0 <= n <= 255 -> entry_size n = 4 * ((n + 11) / 4).
Proof.
  intros Hn. unfold entry_size, u16. rewrite Z.mod_small by lia. replace (8 + n + 3) with (n + 11) by lia.
  change 3 with (Z.ones 2). rewrite <- Z.ldiff_land, Z.ldiff_ones_r, Z.shiftl_mul_pow2, Z.shiftr_div_pow2 by done. change (2 ^ 2) with 4. lia.
Qed.

Lemma entry_size_bounds n : 0 <= n <= 255 -> 8 + n <= entry_size n <= n + 11.
Proof. intros Hn. rewrite entry_size_eq by done. lia_mod. Qed.

(** Entry [e] is at [o]. *)
Record entry_here (buf : list Z) (o : Z) (e : dirent) : Prop := {
  ea_ino : rd (shift o de_inode) buf = e_ino e; ea_len : rd (shift o de_rec_len) buf = e_len e;
  ea_name_len : rd (shift o de_name_len) buf = Z.of_nat (length (e_name e)); ea_type : rd (shift o de_file_type) buf = e_type e;
  ea_name : slice buf (Z.to_nat o + 8) (length (e_name e)) = e_name e; ea_short : Z.of_nat (length (e_name e)) <= 255; ea_need : need e <= e_len e
}.

(** The entries from [a] to [b]. *)
Fixpoint listing (buf : list Z) (a b : Z) (es : list dirent) : Prop :=
  match es with
  | [] => a = b
  | e :: es => entry_here buf a e /\ a + e_len e <= b /\ listing buf (a + e_len e) b es
  end.

Lemma need_bounds buf o e : entry_here buf o e -> 8 + Z.of_nat (length (e_name e)) <= need e <= e_len e.
Proof. intros H. pose proof (entry_size_bounds (Z.of_nat (length (e_name e)))). pose proof (ea_short _ _ _ H). pose proof (ea_need _ _ _ H). unfold need in *. lia. Qed.

Lemma listing_le buf a b es : listing buf a b es -> a <= b.
Proof. destruct es as [|e es]; cbn; [lia|]. intros (He & Hl & _). pose proof (need_bounds _ _ _ He). lia. Qed.

Lemma listing_app buf a c es fs : listing buf a c (es ++ fs) <-> exists b, listing buf a b es /\ listing buf b c fs.
Proof.
  revert a. induction es as [|e es IH]; intros a; cbn.
  - split; [by exists a|by intros (b & -> & ?)].
  - rewrite IH. split.
    + intros (He & Hl & b & Hb & Hc). exists b. pose proof (listing_le _ _ _ _ Hb). done.
    + intros (b & (He & Hl & Hb) & Hc). split; [done|]. pose proof (listing_le _ _ _ _ Hc). split; [lia|]. by exists b.
Qed.

(** Only the bytes of an entry matter. *)
Lemma slice_agree buf buf' p n : (forall i, (p <= i < p + n)%nat -> buf' !! i = buf !! i) -> slice buf' p n = slice buf p n.
Proof.
  intros Hag. apply list_eq. intros i. destruct (decide (i < n)%nat).
  - rewrite !slice_lookup by lia. apply Hag. lia.
  - rewrite !lookup_ge_None_2; [done|unfold slice; rewrite length_take; lia..].
Qed.

Lemma entry_frame buf buf' o e : 0 <= o -> (forall i, (Z.to_nat o <= i < Z.to_nat (o + e_len e))%nat -> buf' !! i = buf !! i) -> entry_here buf o e -> entry_here buf' o e.
Proof.
  intros Ho Hag He. pose proof (need_bounds _ _ _ He) as Hn. destruct He as [H1 H2 H3 H4 H5 H6 H7].
  assert (forall p n, (Z.to_nat o <= p)%nat -> (p + n <= Z.to_nat (o + e_len e))%nat -> slice buf' p n = slice buf p n) as Hs by (intros p n Hp Hn'; apply slice_agree; intros i Hi; apply Hag; lia).
  split; try done; unfold rd in *; rewrite Hs; try done; cbn; lia.
Qed.

Lemma listing_frame buf buf' a b es : 0 <= a -> (forall i, (Z.to_nat a <= i < Z.to_nat b)%nat -> buf' !! i = buf !! i) -> listing buf a b es -> listing buf' a b es.
Proof.
  revert a. induction es as [|e es IH]; intros a Ha Hag; cbn; [done|]. intros (He & Hl & Hes). pose proof (need_bounds _ _ _ He). split; [|split; [done|]].
  - apply (entry_frame buf); [done| |done]. intros i Hi. apply Hag. lia.
  - apply IH; [lia| |done]. intros i Hi. apply Hag. lia.
Qed.

(** ** The abstract insertion *)

Definition fits (size : Z) (e : dirent) : bool := (need e <? e_len e) && (size <=? e_len e - need e).

Fixpoint insert_entry (ino type : Z) (name : list Z) (es : list dirent) : option (list dirent) :=
  match es with
  | [] => None
  | e :: es =>
      if fits (entry_size (Z.of_nat (length name))) e
      then Some (Dirent (e_ino e) (e_type e) (e_name e) (need e) :: Dirent ino type name (e_len e - need e) :: es)
      else match insert_entry ino type name es with Some es => Some (e :: es) | None => None end
  end.

Lemma insert_entry_split ino type name es es' : insert_entry ino type name es = Some es' ->
  exists l e r, es = l ++ e :: r /\ Forall (fun e => fits (entry_size (Z.of_nat (length name))) e = false) l /\ fits (entry_size (Z.of_nat (length name))) e = true /\
    es' = l ++ Dirent (e_ino e) (e_type e) (e_name e) (need e) :: Dirent ino type name (e_len e - need e) :: r.
Proof.
  revert es'. induction es as [|e es IH]; intros es'; cbn; [done|]. destruct (fits _ e) eqn:Hf.
  - intros [= <-]. by exists [], e, es.
  - destruct (insert_entry ino type name es) as [es1|]; [|done]. intros [= <-]. destruct (IH es1 eq_refl) as (l & e0 & r & -> & Hl & He & ->).
    exists (e :: l), e0, r. split; [done|]. split; [by constructor|done].
Qed.

(** Apart from the lengths, an insertion adds the new entry and nothing else. *)
Definition entry_of_name (e : dirent) : Z * Z * list Z := (e_ino e, e_type e, e_name e).
Lemma insert_entry_names ino type name es es' : insert_entry ino type name es = Some es' -> map entry_of_name es' ≡ₚ (ino, type, name) :: map entry_of_name es.
Proof.
  intros (l & e & r & -> & _ & _ & ->)%insert_entry_split. rewrite !map_app. cbn [map entry_of_name e_ino e_type e_name].
  change (e_ino e, e_type e, e_name e) with (entry_of_name e). rewrite <- !Permutation_middle. apply Permutation_swap.
Qed.

(** ** The scan *)

Definition found (o : Z) (e : dirent) : Z * Z * Z := (o, need e, e_len e - need e).

Lemma slack_scan_ok buf size es : forall fuel o, 0 < size -> 0 <= o -> listing buf o (Z.of_nat (length buf)) es -> Z.of_nat (length buf) - o <= Z.of_nat fuel ->
  match slack_scan fuel buf (Z.of_nat (length buf)) o size with
  | Ok (Some r) => exists l e k, es = l ++ e :: k /\ Forall (fun e => fits size e = false) l /\ fits size e = true /\ exists p, listing buf o p l /\ listing buf p (Z.of_nat (length buf)) (e :: k) /\ r = found p e
  | Ok None => Forall (fun e => fits size e = false) es
  | _ => False
  end.
Proof.
  induction es as [|e es IH]; intros fuel o Hs Ho Hl Hf.
  { cbn in Hl. unfold slack_scan. destruct fuel; by rewrite (proj2 (Z.leb_le _ _)) by lia. }
  pose proof Hl as (He & Hle & Hes). pose proof (need_bounds _ _ _ He) as Hn. destruct fuel as [|fuel]; [lia|]. cbn [slack_scan].
  rewrite (proj2 (Z.leb_gt _ _)) by lia. rewrite (rd_at_ok buf o de_rec_len) by (cbn; lia). rewrite bind_ok, (ea_len _ _ _ He), (proj2 (Z.eqb_neq _ _)) by lia.
  rewrite rd_at_ok by (cbn; lia). rewrite bind_ok, (ea_name_len _ _ _ He). cbv zeta. change (entry_size (Z.of_nat (length (e_name e)))) with (need e).
  change ((need e <? e_len e) && (size <=? e_len e - need e)) with (fits size e). destruct (fits size e) eqn:Hfit.
  - exists [], e, es. split; [done|]. split; [done|]. split; [done|]. exists o. split; [done|]. split; [exact Hl|done].
  - specialize (IH fuel (o + e_len e) Hs ltac:(lia) Hes ltac:(lia)). destruct (slack_scan fuel _ _ _ _) as [[r|]| |]; try done.
    + destruct IH as (l & e0 & k & -> & Hl0 & Hf0 & p & Hp & Hk & ->). exists (e :: l), e0, k. split; [done|]. split; [by constructor|]. split; [done|]. exists p. split; [|done].
      cbn. split; [done|]. split; [|done]. by apply listing_le in Hp.
    + by constructor.
Qed.

(** ** Storing an entry *)

(** [buf'] is [buf] outside of [a] to [b]. *)
Definition same_outside (buf buf' : list Z) (a b : Z) : Prop := length buf' = length buf /\ forall i, (i < Z.to_nat a \/ Z.to_nat b <= i)%nat -> buf' !! i = buf !! i.

Lemma splice_outside buf pos l a b : 0 <= a <= pos -> pos + Z.of_nat (length l) <= b -> b <= Z.of_nat (length buf) -> same_outside buf (splice buf (Z.to_nat pos) l) a b.
Proof.
  intros Ha Hb Hl. split; [apply splice_length; lia|]. intros i Hi. rewrite splice_lookup by lia. by rewrite decide_False by lia.
Qed.

Lemma same_outside_trans b1 b2 b3 a b : same_outside b1 b2 a b -> same_outside b2 b3 a b -> same_outside b1 b3 a b.
Proof. intros [L1 H1] [L2 H2]. split; [congruence|]. intros i Hi. by rewrite H2, H1. Qed.

Lemma put_entry_ok buf o ino len type name : 0 <= o -> Z.of_nat (length name) <= 255 -> o + 8 + Z.of_nat (length name) <= Z.of_nat (length buf) ->
  0 <= ino < 2 ^ 32 -> entry_size (Z.of_nat (length name)) <= len < 65536 -> 0 <= type < 256 -> Forall byte buf -> Forall byte name ->
  exists buf', put_entry buf o ino len type name = Ok buf' /\ entry_here buf' o (Dirent ino type name len) /\ Forall byte buf' /\
    same_outside buf buf' o (o + 8 + Z.of_nat (length name)).
Proof.
  intros Ho Hn Hfit Hi Hlen Ht Hb Hnb. unfold put_entry. pose proof (entry_size_bounds (Z.of_nat (length name))) as Hes.
  rewrite wr_at_ok by (cbn; lia). rewrite bind_ok. set (b1 := wr _ ino buf).
  assert (forall f (b : list Z), f ∈ [de_inode; de_rec_len; de_name_len; de_file_type] -> length b = length buf -> inside (shift o f) (length b)) as Hin.
  { intros f b Hf ->. unfold inside, shift. cbn. repeat (apply elem_of_cons in Hf as [->|Hf]; [cbn; lia|]). by apply elem_of_nil in Hf. }
  assert (length b1 = length buf) as L1 by (apply wr_length, Hin; [set_solver|done]).
  rewrite wr_at_ok by (rewrite ?L1; cbn; lia). rewrite bind_ok. set (b2 := wr _ len b1). assert (length b2 = length buf) as L2 by (rewrite <- L1; apply wr_length, Hin; [set_solver|done]).
  rewrite wr_at_ok by (rewrite ?L2; cbn; lia). rewrite bind_ok. set (b3 := wr _ _ b2). assert (length b3 = length buf) as L3 by (rewrite <- L2; apply wr_length, Hin; [set_solver|done]).
  rewrite wr_at_ok by (rewrite ?L3; cbn; lia). rewrite bind_ok. set (b4 := wr _ type b3). assert (length b4 = length buf) as L4 by (rewrite <- L3; apply wr_length, Hin; [set_solver|done]).
  rewrite store_ok by lia. set (b5 := splice _ _ _). exists b5. split; [done|].
  assert (forall f, f ∈ [de_inode; de_rec_len; de_name_len; de_file_type] -> rd (shift o f) b5 = rd (shift o f) b4) as H5.
  { intros f Hf. unfold rd. f_equal. apply slice_splice_ne; [lia|]. cbn. left. repeat (apply elem_of_cons in Hf as [->|Hf]; [cbn; lia|]). by apply elem_of_nil in Hf. }
  split; [|split].
  - split; cbn [e_ino e_len e_name e_type]; try (unfold need; cbn [e_name]; lia).
    + rewrite H5 by set_solver. unfold b4, b3, b2, b1. rewrite !rd_wr_ne by ((apply Hin; [set_solver|done]) || (unfold apart; cbn; lia)). apply rd_wr_small; [apply Hin; [set_solver|done]|exact Hi].
    + rewrite H5 by set_solver. unfold b4, b3, b2. rewrite !rd_wr_ne by ((apply Hin; [set_solver|done]) || (unfold apart; cbn; lia)). apply rd_wr_small; [apply Hin; [set_solver|done]|cbn; lia].
    + rewrite H5 by set_solver. unfold b4, b3. rewrite !rd_wr_ne by ((apply Hin; [set_solver|done]) || (unfold apart; cbn; lia)). apply rd_wr_small; [apply Hin; [set_solver|done]|cbn; lia].
    + rewrite H5 by set_solver. unfold b4. apply rd_wr_small; [apply Hin; [set_solver|done]|exact Ht].
    + unfold b5. replace (Z.to_nat o + 8)%nat with (Z.to_nat (o + 8)) by lia. apply slice_splice. lia.
  - unfold b5, b4, b3, b2, b1. apply splice_byte; [|done]. by repeat apply wr_byte.
  - assert (forall f v (b : list Z), f ∈ [de_inode; de_rec_len; de_name_len; de_file_type] -> length b = length buf -> same_outside b (wr (shift o f) v b) o (o + 8 + Z.of_nat (length name))) as Hw.
    { intros f v b Hf Hlb. unfold wr. cbn [f_off f_len shift]. replace (Z.to_nat o + f_off f)%nat with (Z.to_nat (o + Z.of_nat (f_off f))) by lia.
      apply splice_outside; rewrite ?le_bytes_length, ?Hlb; try lia. repeat (apply elem_of_cons in Hf as [->|Hf]; [cbn; lia|]). by apply elem_of_nil in Hf. }
    apply (same_outside_trans buf b1); [apply Hw; [set_solver|done]|]. apply (same_outside_trans b1 b2); [apply Hw; [set_solver|done]|].
    apply (same_outside_trans b2 b3); [apply Hw; [set_solver|done]|]. apply (same_outside_trans b3 b4); [apply Hw; [set_solver|done]|]. apply splice_outside; lia.
Qed.

(** ** Insertion into a block *)

Lemma insert_entry_none ino type name es : Forall (fun e => fits (entry_size (Z.of_nat (length name))) e = false) es -> insert_entry ino type name es = None.
Proof. induction 1 as [|e es He _ IH]; cbn; [done|]. by rewrite He, IH. Qed.

Lemma insert_entry_at ino type name l e k : Forall (fun e => fits (entry_size (Z.of_nat (length name))) e = false) l -> fits (entry_size (Z.of_nat (length name))) e = true ->
  insert_entry ino type name (l ++ e :: k) = Some (l ++ Dirent (e_ino e) (e_type e) (e_name e) (need e) :: Dirent ino type name (e_len e - need e) :: k).
Proof. induction 1 as [|x l Hx _ IH]; cbn; intros He; [by rewrite He|]. by rewrite Hx, IH. Qed.

(** What the driver does to a block that it has read. *)
Definition add_in_block (buf : list Z) (ino type : Z) (name : list Z) : outcome (option (list Z)) :=
  r ← slack_scan (length buf) buf (Z.of_nat (length buf)) 0 (entry_size (Z.of_nat (length name)));
  match r with
  | None => Ok None
  | Some (offset, actual, slack) => b ← wr_at buf offset de_rec_len actual; b ← put_entry b (offset + actual) ino slack type name; Ok (Some b)
  end.

Lemma shrink_entry buf p e : 0 <= p -> entry_here buf p e -> p + e_len e <= Z.of_nat (length buf) -> need e < 65536 ->
  exists b, wr_at buf p de_rec_len (need e) = Ok b /\ entry_here b p (Dirent (e_ino e) (e_type e) (e_name e) (need e)) /\ same_outside buf b p (p + need e) /\ (Forall byte buf -> Forall byte b).
Proof.
  intros Hp He Hl Hs. pose proof (need_bounds _ _ _ He) as Hn. pose proof He as [H1 H2 H3 H4 H5 H6 H7]. rewrite wr_at_ok by (cbn; lia). eexists. split; [done|].
  assert (inside (shift p de_rec_len) (length buf)) as Hin by (unfold inside, shift; cbn; lia). split; [|split; [|apply wr_byte]].
  - split; cbn [e_ino e_len e_name e_type]; try done; try (rewrite rd_wr_ne by (done || (unfold apart; cbn; lia)); done).
    + apply rd_wr_small; [done|cbn; lia].
    + rewrite <- H5 at 2. apply slice_splice_ne; [rewrite le_bytes_length; cbn; lia|]. right. rewrite le_bytes_length. cbn. lia.
  - unfold wr. cbn [f_off f_len shift de_rec_len]. replace (Z.to_nat p + 4)%nat with (Z.to_nat (p + 4)) by lia. apply splice_outside; rewrite ?le_bytes_length; lia.
Qed.

Lemma add_in_block_ok buf es ino type name : listing buf 0 (Z.of_nat (length buf)) es -> Forall byte buf -> 0 <= ino < 2 ^ 32 -> 0 <= type < 256 ->
  Z.of_nat (length name) <= 255 -> Forall byte name ->
  match insert_entry ino type name es with
  | None => add_in_block buf ino type name = Ok None
  | Some es' => exists b, add_in_block buf ino type name = Ok (Some b) /\ length b = length buf /\ Forall byte b /\ listing b 0 (Z.of_nat (length buf)) es'
  end.
Proof.
  intros Hl Hb Hi Ht Hn Hnb. set (size := entry_size (Z.of_nat (length name))). pose proof (entry_size_bounds (Z.of_nat (length name)) ltac:(lia)) as Hes.
  pose proof (slack_scan_ok buf size es (length buf) 0 ltac:(unfold size; lia) ltac:(lia) Hl ltac:(lia)) as Hscan. unfold add_in_block. fold size.
  destruct (slack_scan _ _ _ _ _) as [[r|]| |]; [|by rewrite insert_entry_none|done|done].
  destruct Hscan as (l & e & k & -> & Hnl & Hfe & p & Hlp & Hpe & ->). rewrite insert_entry_at by done. rewrite bind_ok. unfold found.
  destruct Hpe as (He & Hle & Hk). pose proof (need_bounds _ _ _ He) as Hne. pose proof (listing_le _ _ _ _ Hlp). apply andb_prop in Hfe as [Hf1 Hf2]. fold size in Hf2. b2p.
  assert (0 <= e_len e < 65536) as Hlen by (rewrite <- (ea_len _ _ _ He); apply (rd_range (shift p de_rec_len)); [unfold inside, shift; cbn; lia|done]).
  destruct (shrink_entry buf p e) as (b1 & E1 & He1 & [L1 S1] & B1); try done; [lia|]. rewrite E1, bind_ok.
  destruct (put_entry_ok b1 (p + need e) ino (e_len e - need e) type name) as (b2 & E2 & He2 & B2 & [L2 S2]); try done; try lia; [by apply B1|]. rewrite E2, bind_ok.
  assert (length b2 = length buf) as L by congruence. exists b2. split; [done|]. split; [done|]. split; [done|]. apply listing_app. exists p. split.
  { apply (listing_frame buf); [lia| |done]. intros i Hi'. rewrite S2, S1 by lia. done. }
  cbn [listing]. cbn [e_len]. split; [|split; [lia|]].
  { apply (entry_frame b1); [lia| |done]. cbn [e_len]. intros i Hi'. apply S2. lia. }
  split; [done|]. split; [lia|]. replace (p + need e + (e_len e - need e)) with (p + e_len e) by lia.
  apply (listing_frame buf); [lia| |done]. intros i Hi'. rewrite S2, S1 by lia. done.
Qed.

(** * Directories

    A directory is the list of the entries in each of its blocks, [None] where it has a hole.
    [ext4_add_dir_entry] is an insertion into that list. *)

Fixpoint insert_in (ino type : Z) (name : list Z) (bl : list (option (list dirent))) : option (list (option (list dirent))) :=
  match bl with
  | [] => None
  | o :: bl =>
      match match o with Some es => insert_entry ino type name es | None => None end with
      | Some es => Some (Some es :: bl)
      | None => match insert_in ino type name bl with Some bl => Some (o :: bl) | None => None end
      end
  end.

Lemma insert_in_length ino type name bl bl' : insert_in ino type name bl = Some bl' -> length bl' = length bl.
Proof.
  revert bl'. induction bl as [|o bl IH]; intros bl'; cbn; [done|]. destruct (match o with Some es => insert_entry ino type name es | None => None end); [by intros [= <-]|].
  destruct (insert_in ino type name bl); [|done]. intros [= <-]. cbn. by rewrite (IH _ eq_refl).
Qed.

Section entries.
Context {A D : Type} `{AllocatorLaws A} `{BlockDevice D} {bs nblocks : Z} {L : layout}.
Context `{!DeviceLaws D bs nblocks} `{!BufferPool A bs} {GL : good_layout bs nblocks L}.
Abbreviation state := (st A D).
Abbreviation meta := (meta bs L). Abbreviation ok := (ok (L := L)). Abbreviation area := (area (L := L)).
Abbreviation used := (used (L := L)). Abbreviation live := (live (L := L)). Abbreviation inode_ok := (inode_ok (L := L)). Abbreviation node := (node (bs := bs) (L := L)).
Abbreviation ref := (ref (bs := bs)). Abbreviation ptrs := (ptrs (bs := bs)). Abbreviation trees := (trees (bs := bs) (nblocks := nblocks) (L := L)).
Abbreviation sound := (sound (bs := bs) (nblocks := nblocks) (L := L)). Abbreviation file_size := (file_size (bs := bs) (L := L)).
Abbreviation file_block := (file_block (bs := bs) (L := L)). Abbreviation fresh := (fresh (bs := bs) (nblocks := nblocks) (L := L)).
Abbreviation nearly_full := (nearly_full (L := L)). Abbreviation kept := (kept (bs := bs) (L := L)). Abbreviation mapped := (mapped (bs := bs) (nblocks := nblocks) (L := L)).
Abbreviation content := (content (bs := bs)). Abbreviation same_refs := (same_refs (bs := bs) (L := L)).

(** The blocks of a directory from [k] on. *)
Definition directory (d : D) (N : Z -> list Z) (dir k : Z) (bl : list (option (list dirent))) : Prop :=
  forall j o, bl !! j = Some o ->
    match o with
    | None => ref (blk d) (N dir) (Data (k + Z.of_nat j)) = 0
    | Some es => ref (blk d) (N dir) (Data (k + Z.of_nat j)) <> 0 /\ listing (content d N dir (k + Z.of_nat j)) 0 bs es
    end.

Lemma directory_cons d N dir k o bl : directory d N dir k (o :: bl) <->
  match o with
  | None => ref (blk d) (N dir) (Data k) = 0
  | Some es => ref (blk d) (N dir) (Data k) <> 0 /\ listing (content d N dir k) 0 bs es
  end /\ directory d N dir (k + 1) bl.
Proof using Type.
  split.
  - intros Hd. split; [specialize (Hd 0%nat o eq_refl); by rewrite Z.add_0_r in Hd|]. intros j p Hp. specialize (Hd (S j) p Hp).
    by replace (k + Z.of_nat (S j)) with (k + 1 + Z.of_nat j) in Hd by lia.
  - intros [Ho Hd] [|j] p Hp; [injection Hp as <-; by rewrite Z.add_0_r|]. specialize (Hd j p Hp). by replace (k + Z.of_nat (S j)) with (k + 1 + Z.of_nat j) by lia.
Qed.

Lemma directory_frame d N d' N' dir k bl : (forall m, k <= m < k + Z.of_nat (length bl) -> ref (blk d') (N' dir) (Data m) = ref (blk d) (N dir) (Data m) /\ content d' N' dir m = content d N dir m) ->
  directory d N dir k bl -> directory d' N' dir k bl.
Proof using Type. intros Hs Hd j o Hj. specialize (Hd j o Hj). apply lookup_lt_Some in Hj. destruct (Hs (k + Z.of_nat j)) as [-> ->]; [lia|done]. Qed.

Lemma directory_app d N dir k bl bl' : directory d N dir k (bl ++ bl') <-> directory d N dir k bl /\ directory d N dir (k + Z.of_nat (length bl)) bl'.
Proof using Type.
  revert k. induction bl as [|o bl IH]; intros k; cbn [app length].
  - rewrite Z.add_0_r. split; [intros ?; split; [|done]|by intros [_ ?]]. intros j p Hp. by rewrite lookup_nil in Hp.
  - rewrite !directory_cons, IH. replace (k + 1 + Z.of_nat (length bl)) with (k + Z.of_nat (S (length bl))) by lia. tauto.
Qed.

(** A whole block of a file is replaced. *)
Lemma overwrite_ok (s : state) N ino b l m : ok s -> trees (disk s) N -> inode_ok ino -> live (disk s) ino = true -> 0 <= m ->
  b <> 0 -> ref (blk (disk s)) (N ino) (Data m) = b -> Z.of_nat (length l) = bs -> Forall byte l ->
  exists s', ext4_write_block_raw s b l = (true, s') /\ ok s' /\ heap s' = heap s /\ trees (disk s') N /\
    (forall i, inode_ok i -> live (disk s') i = live (disk s) i) /\ (forall i, inode_ok i -> node (disk s') i = node (disk s) i) /\
    (forall i k, inode_ok i -> live (disk s) i = true -> 0 <= k -> content (disk s') N i k = if decide (i = ino /\ k = m) then l else content (disk s) N i k) /\
    same_refs (disk s) N (disk s') N /\ (forall c, area c -> used (disk s') c = used (disk s) c).
Proof using Type*.
  intros Hok HT Hi Hl Hm Hb Hr Hlen Hby. pose proof gl_bs. assert (m * bs / bs = m) as Ediv by (apply Z.div_mul; lia). assert ((m * bs) mod bs = 0) as Emod by (apply Z.mod_mul; lia).
  destruct (write_block_stored s N ino b l (m * bs) l) as (s' & E & Hs); try done; rewrite ?Ediv, ?Emod; try done; try lia.
  rewrite Emod, Ediv in *. assert (splice l (Z.to_nat 0) l = l) as Es by (unfold splice; cbn [Z.to_nat take app]; rewrite Nat.add_0_l, drop_all; apply app_nil_r). rewrite Es in *. by exists s'.
Qed.

(** The parameters of a new entry. *)
Definition good_entry (ino type : Z) (name : list Z) : Prop := 0 <= ino < 2 ^ 32 /\ 0 <= type < 256 /\ Z.of_nat (length name) <= 255 /\ Forall byte name.

Lemma dir_loop_ok ino type name (Hg : good_entry ino type name) bl : forall b (s : state) N dir, ok s -> (2 <= spare (heap s))%nat -> trees (disk s) N -> inode_ok dir -> live (disk s) dir = true -> 0 <= b ->
  directory (disk s) N dir b bl ->
  exists r s', dir_loop (length bl) b s (N dir) (entry_size (Z.of_nat (length name))) ino type name = Ok (r, s') /\ ok s' /\ like (heap s) (heap s') /\ trees (disk s') N /\
    (forall i, inode_ok i -> live (disk s') i = live (disk s) i) /\ (forall i, inode_ok i -> node (disk s') i = node (disk s) i) /\ same_refs (disk s) N (disk s') N /\ (forall c, area c -> used (disk s') c = used (disk s) c) /\
    (forall i m, inode_ok i -> live (disk s) i = true -> 0 <= m -> i <> dir \/ m < b -> content (disk s') N i m = content (disk s) N i m) /\
    match insert_in ino type name bl with Some bl' => r = Some true /\ directory (disk s') N dir b bl' | None => r = None /\ quiet s s' end.
Proof using Type*.
  destruct Hg as (Hino & Hty & Hn & Hnb). pose proof gl_bs as Hbs.
  induction bl as [|o bl IH]; intros b s N dir Hok Hs HT Hi Hl Hb Hd; cbn [length dir_loop insert_in].
  { exists None, s. split; [done|]. split; [done|]. split; [apply like_refl, Hok|]. do 6 (split; [done|]). split; [done|by apply ext4_quiet_refl]. }
  apply directory_cons in Hd as [Ho Hd]. destruct (get_file_block_ok s N dir b) as (s1 & E & Hq); try done. rewrite E, bind_ok. pose proof (quiet_ok _ _ Hok Hq) as Hok1. pose proof Hq as (Ef1 & Ed1 & Hl1).
  assert (2 <= spare (heap s1))%nat as Hs1 by (destruct Hl1 as (_ & _ & ?); lia).
  destruct (IH (b + 1) s1 N dir) as (r0 & s0 & E0 & Hok0 & Hl0 & HT0 & Hlv0 & Hnd0 & Hr0 & Hu0 & Hc0 & Hm0); try done; try (by rewrite Ed1); [lia|]. rewrite Ed1 in *.
  (* what the rest of the loop does, when it is reached *)
  assert (match o with Some es => insert_entry ino type name es | None => None end = None ->
    exists r s', dir_loop (length bl) (b + 1) s1 (N dir) (entry_size (Z.of_nat (length name))) ino type name = Ok (r, s') /\ ok s' /\ like (heap s) (heap s') /\ trees (disk s') N /\
    (forall i, inode_ok i -> live (disk s') i = live (disk s) i) /\ (forall i, inode_ok i -> node (disk s') i = node (disk s) i) /\ same_refs (disk s) N (disk s') N /\ (forall c, area c -> used (disk s') c = used (disk s) c) /\
    (forall i m, inode_ok i -> live (disk s) i = true -> 0 <= m -> i <> dir \/ m < b -> content (disk s') N i m = content (disk s) N i m) /\
    match match insert_in ino type name bl with Some bl => Some (o :: bl) | None => None end with
    | Some bl' => r = Some true /\ directory (disk s') N dir b bl' | None => r = None /\ quiet s s' end) as Hskip.
  { intros _. exists r0, s0. split; [done|]. split; [done|]. split; [by eapply like_trans|]. do 5 (split; [done|]). split.
    { intros i m Hii Hli Hm Hor. apply Hc0; try done. destruct Hor; [by left|right; lia]. }
    destruct (insert_in ino type name bl) as [bl'|]; [|destruct Hm0 as [-> Hq0]; split; [done|by eapply ext4_quiet_trans]].
    destruct Hm0 as [-> Hd0]. split; [done|]. apply directory_cons. split; [|done]. rewrite Hr0, Hc0 by (done || (right; lia)). exact Ho. }
  destruct o as [es|]; [|by rewrite Ho, Z.eqb_refl; apply Hskip]. destruct Ho as [Hne Hes]. rewrite (proj2 (Z.eqb_neq _ _)) by done.
  destruct (tr_good _ _ HT dir (Data b)) as [(_ & Hrange & _) _]; try done. rewrite read_ok by (done || apply Hok1 || apply (ok_follows _ Hok1)). rewrite bind_ok, Ed1.
  set (buf := blk (disk s) (ref (blk (disk s)) (N dir) (Data b))) in *. assert (content (disk s) N dir b = buf) as Ec by (unfold Ext4File.content; by rewrite (proj2 (Z.eqb_neq _ _))).
  assert (Z.of_nat (length buf) = bs /\ Forall byte buf) as [Hlen Hby] by (split; [by apply blk_length; [apply Hok|]|by apply blk_byte; [apply Hok|]]).
  rewrite Ec, <- Hlen in Hes. pose proof (add_in_block_ok buf es ino type name Hes Hby Hino Hty Hn Hnb) as Hadd.
  rewrite (fo_bs _ _ _ (ok_follows _ Hok1)). replace (Z.to_nat bs) with (length buf) by lia. replace (slack_scan (length buf) buf bs 0) with (slack_scan (length buf) buf (Z.of_nat (length buf)) 0) by (by rewrite Hlen).
  unfold add_in_block in Hadd. destruct (slack_scan _ _ _ _ _) as [[[[off act] slack]|]| |]; cbn [mbind outcome_bind] in Hadd |- *; destruct (insert_entry ino type name es) as [es'|]; try (by destruct Hadd as (? & ? & _)); try done.
  2:{ destruct (wr_at buf off de_rec_len act) as [b1| |]; cbn in Hadd; try done. destruct (put_entry _ _ _ _ _ _) as [b2| |]; done. }
  2:{ by apply Hskip. }
  destruct Hadd as (b' & Eb & Lb & Bb & Lst). destruct (wr_at buf off de_rec_len act) as [b1| |]; cbn [mbind outcome_bind] in Eb |- *; [|done..]. destruct (put_entry b1 _ _ _ _ _) as [b2| |]; cbn [mbind outcome_bind] in Eb |- *; [|done..].
  injection Eb as ->. destruct (overwrite_ok s1 N dir (ref (blk (disk s)) (N dir) (Data b)) b' b) as (s2 & Ew & Hok2 & Eh2 & HT2 & Hlv2 & Hnd2 & Hc2 & Hr2 & Hu2); try done; [by rewrite Ed1..|lia|].
  rewrite Ew, Ed1 in *. exists (Some true), s2. split; [done|]. split; [done|]. rewrite Eh2. split; [done|]. do 5 (split; [done|]). split.
  { intros i m Hii Hli Hm Hor. rewrite Hc2 by done. rewrite decide_False; [done|]. intros [-> ->]. destruct Hor; [done|lia]. }
  split; [done|]. apply directory_cons. rewrite Hr2, Hc2 by done. rewrite decide_True by done. split; [split; [done|by rewrite Hlen in Lst]|].
  apply (directory_frame (disk s) N); [|done]. intros m Hm. rewrite Hr2, Hc2 by (done || cbn; lia). by rewrite decide_False by lia.
Qed.

(** ** A new block *)

Lemma kept_content d N d' N' i m : kept d N d' N' -> inode_ok i -> live d i = true -> 0 <= m -> content d' N' i m = content d N i m.
Proof using Type*. intros Hk Hi Hl Hm. apply content_same; [by apply Hk|]. by apply Hk. Qed.

Lemma mapped_others d N ino n b r d' N' i m : mapped d N ino n b r d' N' -> inode_ok i -> live d i = true -> 0 <= m -> ~ (r = true /\ i = ino /\ m = n) ->
  ref (blk d') (N' i) (Data m) = ref (blk d) (N i) (Data m) /\ content d' N' i m = content d N i m.
Proof using Type*.
  intros Hmp Hi Hl Hm Hne. pose proof (mp_refs _ _ _ _ _ _ _ _ Hmp i m Hi Hl Hm) as Hr. rewrite decide_False in Hr by done. split; [done|].
  apply content_same; [done|]. by apply (mp_data _ _ _ _ _ _ _ _ Hmp).
Qed.

(** A block that nothing uses yet gets the contents [l]. *)
Lemma fill_block_ok (s : state) N b l : ok s -> trees (disk s) N -> fresh (disk s) N b -> Z.of_nat (length l) = bs -> Forall byte l ->
  exists s', ext4_write_block_raw s b l = (true, s') /\ ok s' /\ fs s' = fs s /\ heap s' = heap s /\ trees (disk s') N /\ fresh (disk s') N b /\
    kept (disk s) N (disk s') N /\ (forall c, area c -> used (disk s') c = used (disk s) c) /\ blk (disk s') b = l.
Proof using Type*.
  intros Hok HT Hfr Hl Hby. pose proof Hfr as (Hdb & _ & Hno). pose proof Hdb as (_ & Hr & Hm & _). destruct (write_data_ok s b l) as (s' & E & Hok' & Ef & Eh & Hw); try done.
  destruct (trees_write (disk s) N b l (disk s')) as [HT' Hr']; try done; [by intros; apply Hno|]. pose proof (wrote_views (disk s) b l (disk s') Hm Hw) as Hv.
  exists s'. split; [done|]. split; [done|]. split; [done|]. split; [done|]. split; [done|]. split; [by apply (fresh_frame (disk s) N)|]. split; [|split; [apply Hv|by rewrite Hw, decide_True]].
  apply (kept_write (disk s) N (disk s') N b l); try done. intros i m Hi Hli Hm'. by apply Hr'.
Qed.

(** The block with one entry. *)
Lemma single_entry_ok ino type name : good_entry ino type name -> bs < 65536 ->
  exists l, put_entry (zeros bs) 0 ino bs type name = Ok l /\ Z.of_nat (length l) = bs /\ Forall byte l /\ listing l 0 bs [Dirent ino type name bs].
Proof using Type*.
  intros (Hi & Ht & Hn & Hb) Hbs. pose proof gl_bs. pose proof (entry_size_bounds (Z.of_nat (length name)) ltac:(lia)).
  assert (Z.of_nat (length (zeros bs)) = bs) as Hz by (unfold zeros; rewrite length_replicate; lia).
  destruct (put_entry_ok (zeros bs) 0 ino bs type name) as (l & E & He & Hby & [Hl _]); try done; try lia; [by apply Forall_replicate|].
  exists l. split; [done|]. split; [by rewrite Hl|]. split; [done|]. cbn. split; [done|]. split; [lia|done].
Qed.

(** The blocks of files that are not block [n] of [ino] are as they were. *)
Definition blocks_kept (d d' : D) (P : Z -> Z -> Prop) : Prop := forall i m, inode_ok i -> live d i = true -> 0 <= m -> P i m ->
  file_block d' i m = file_block d i m /\ content d' (node d') i m = content d (node d) i m.

(** The fields of a directory that an entry leaves alone. *)
Definition dir_field (f : field) : Prop := kept_field f /\ apart f i_size_lo.

(** A directory got one more block. *)
Record appended (s : state) (dir n ino type : Z) (name : list Z) (r : bool) (s' : state) : Prop := {
  ap_ok : ok s'; ap_like : like (heap s) (heap s'); ap_sound : sound (disk s');
  ap_live i : inode_ok i -> live (disk s') i = live (disk s) i;
  ap_others i : inode_ok i -> i <> dir -> node (disk s') i = node (disk s) i;
  ap_blocks : blocks_kept (disk s) (disk s') (fun i m => ~ (r = true /\ i = dir /\ m = n));
  ap_size : file_size (disk s') dir = if r then u32 (file_size (disk s) dir + bs) else file_size (disk s) dir;
  ap_entry : r = true -> file_block (disk s') dir n <> 0 /\ listing (content (disk s') (node (disk s')) dir n) 0 bs [Dirent ino type name bs];
  ap_fields f : dir_field f -> rd f (node (disk s') dir) = rd f (node (disk s) dir);
  ap_used c : area c -> used (disk s) c = true -> used (disk s') c = true;
  ap_fail : r = false -> (12 + ptrs <= n \/ nearly_full (disk s')) /\ node (disk s') dir = node (disk s) dir /\ (forall c, area c -> used (disk s') c = used (disk s) c)
}.

Lemma append_entry_ok (s : state) dir n ino type name : ok s -> (2 <= spare (heap s))%nat -> sound (disk s) -> inode_ok dir -> live (disk s) dir = true -> 0 <= n ->
  good_entry ino type name -> bs < 65536 ->
  exists r s', append_entry s dir (node (disk s) dir) n ino type name = Ok (r, s') /\ appended s dir n ino type name r s'.
Proof using Type*.
  intros Hok Hs HT Hi Hli Hn Hg Hbs. pose proof gl_ipg. pose proof (ok_follows _ Hok) as Hf. unfold append_entry. rewrite (fo_ipg _ _ _ Hf), (fo_bs _ _ _ Hf).
  destruct (alloc_block_ok s _ Hok ltac:(lia) (group_number dir Hi)) as (b & s2 & Ea & Hok2 & Hl2 & Hb). rewrite Ea, bind_ok. assert (spare (heap s) <= spare (heap s2))%nat as Hs2 by apply Hl2.
  destruct Hb as [(-> & Ef2 & Ed2 & Hall)|(Hab & Hub & Hbv & _)].
  { exists false, s2. split; [done|]. split; rewrite ?Ed2; try done. intros _. split; [|done]. right. exists 0. intros c Hc _. by apply Hall. }
  set (N := node (disk s)) in *. destruct (trees_alloc (disk s) (disk s2) N b HT Hab Hub Hbv) as (HT2 & Hfb & Hr2). pose proof Hfb as (Hdb & _). pose proof (data_word b Hdb).
  pose proof (kept_bits (disk s) N (disk s2) N b true HT Hbv (or_introl eq_refl) Hr2 eq_refl) as Hk2. rewrite (proj2 (Z.ltb_ge _ _)) by lia.
  destruct (single_entry_ok ino type name Hg Hbs) as (l & El & Hll & Hlb & Hlist). rewrite El, bind_ok.
  destruct (fill_block_ok s2 N b l) as (s3 & Ew & Hok3 & Ef3 & Eh3 & HT3 & Hf3 & Hk3 & Hu3 & Hb3); try done. rewrite Ew. cbn [negb].
  pose proof (kept_trans _ _ _ _ _ _ Hk2 Hk3) as Hk. assert (live (disk s3) dir = true) as Hli3 by (by rewrite (kp_live _ _ _ _ Hk)).
  destruct (set_file_block_ok s3 N dir n b) as (r & nd & s4 & Es & Hok4 & Hl4 & Hmp & Hb4); try done; [rewrite Eh3; lia|]. rewrite Es, bind_ok.
  set (N4 := <[dir := nd]> N) in *. assert (N4 dir = nd) as EN4 by apply fn_lookup_insert. pose proof Hmp as [HT4 Hno4 Hrf4 _ Hlv4 Hnd4 Hus4 Hfl4 Hsm4 Hfail].
  assert (like (heap s) (heap s4)) as Hl by (rewrite Eh3 in Hl4; by eapply like_trans). assert (spare (heap s) <= spare (heap s4))%nat as Hs4 by apply Hl.
  assert (forall i, inode_ok i -> live (disk s4) i = live (disk s) i) as Hlv by (intros i Hii; by rewrite Hlv4, (kp_live _ _ _ _ Hk)).
  assert (forall i, inode_ok i -> node (disk s4) i = N i) as Hnd by (intros i Hii; by rewrite Hnd4, (kp_node _ _ _ _ Hk)).
  assert (forall i m, inode_ok i -> live (disk s) i = true -> 0 <= m -> ~ (r = true /\ i = dir /\ m = n) ->
    ref (blk (disk s4)) (N4 i) (Data m) = file_block (disk s) i m /\ content (disk s4) N4 i m = content (disk s) N i m) as Hothers.
  { intros i m Hii Hlii Hm Hne. assert (live (disk s3) i = true) as Hl3i by (by rewrite (kp_live _ _ _ _ Hk)).
    destruct (mapped_others _ _ _ _ _ _ _ _ i m Hmp) as [-> ->]; try done. split; [by apply Hk|by apply kept_content]. }
  pose proof (tr_size _ _ HT4 dir Hi) as Hsz. pose proof (tr_byte _ _ HT4 dir Hi) as Hby. rewrite EN4 in Hsz, Hby. destruct r; cbn [negb].
  - rewrite (fo_bs _ _ _ (ok_follows _ Hok4)) || idtac. set (nd' := wr i_blocks_lo _ _).
    assert (forall v f, f = i_size_lo \/ f = i_blocks_lo -> forall l, length l = inode_bytes -> inside f (length l) /\ length (wr f v l) = inode_bytes) as Hin.
    { intros v f Hff l0 E. assert (inside f (length l0)) by (rewrite E; destruct Hff as [-> | ->]; unfold inside, inode_bytes; cbn; lia). split; [done|by rewrite wr_length]. }
    destruct (write_inode_ok s4 dir nd') as (s5 & E5 & Hok5 & _ & Hl5 & Hnd5 & Hus5 & Hlv5 & Hblk5); try done; [lia|apply Hin; [by right|]; apply Hin; [by left|done]|by apply wr_byte, wr_byte|]. rewrite E5.
    assert (forall k, 0 <= k < 15 -> rd (i_block k) nd' = rd (i_block k) nd) as Hptr.
    { intros k Hk15. unfold nd'. rewrite !rd_wr_ne; [done|apply (Hin 0); [by left|done]|unfold apart, i_block; cbn; lia|apply (Hin 0); [by right|]; apply Hin; [by left|done]|unfold apart, i_block; cbn; lia]. }
    destruct (settle (disk s4) (disk s5) N4 dir HT4) as (HT5 & Hr5 & Hc5 & _); try done; [apply Hok5| | |].
    { intros i Hii Hne. rewrite Hnd5, decide_False by done. rewrite Hnd, Hno4 by done. done. }
    { intros k Hk15. rewrite Hnd5, decide_True by done. rewrite EN4. by apply Hptr. }
    exists true, s5. split; [done|]. split; try done.
    + by eapply like_trans. + intros i Hii. by rewrite Hlv5, Hlv. + intros i Hii Hne. rewrite Hnd5, decide_False by done. by apply Hnd.
    + intros i m Hii Hlii Hm Hne. destruct (Hothers i m) as [Hr Hc]; try done. change (node (disk s)) with N. rewrite <- Hc, <- Hr. unfold Ext4Rw.file_block. rewrite Hr5, Hc5 by (done || by rewrite Hlv). done.
    + unfold Ext4Rw.file_size. rewrite Hnd5, decide_True by done. unfold nd'.
      rewrite rd_wr_ne; [|apply (Hin 0); [by right|]; apply Hin; [by left|done]|unfold apart; cbn; lia]. rewrite rd_wr by (apply (Hin 0); [by left|done]). rewrite <- EN4, Hfl4; [done|].
      split; [cbn; lia|unfold inside, inode_bytes; cbn; lia].
    + intros _. assert (ref (blk (disk s4)) (N4 dir) (Data n) = b) as Hrb by (rewrite Hrf4 by done; by rewrite decide_True).
      unfold Ext4Rw.file_block. rewrite Hr5, Hrb by (done || by rewrite Hlv). split; [lia|]. rewrite Hc5 by (done || by rewrite Hlv).
      unfold Ext4File.content. cbv zeta. rewrite Hrb, (proj2 (Z.eqb_neq _ _)) by lia. by rewrite Hb4, Hb3.
    + intros f [[Hof Hbl] Hsl]. rewrite Hnd5, decide_True by done. unfold nd'. rewrite !rd_wr_ne by (done || (apply (Hin 0); [by left|done]) || (apply (Hin 0); [by right|]; apply Hin; [by left|done])). rewrite <- EN4. by apply Hfl4.
    + intros c Hc Hu. rewrite Hus5 by done. by apply Hus4, Hk.
  - destruct (Hfail eq_refl) as (Hfr & Hwhy & Hus4'). pose proof Hfr as (_ & Hub4 & _).
    destruct (free_block_ok s4 b Hok4) as (s5 & E5 & Hok5 & Hl5 & Hbv5); [lia|apply Hdb|done|]. rewrite E5, bind_ok. cbn [snd].
    destruct (trees_release (disk s4) (disk s5) N4 b HT4 Hfr Hbv5) as [HT5 Hr5]. pose proof (content_bits _ _ _ _ _ HT4 Hbv5 Hr5) as Hc5.
    assert (forall i, inode_ok i -> live (disk s5) i = live (disk s) i) as Hlv'.
    { intros i Hii. rewrite (bv_live _ _ _ _ _ Hbv5) by done. rewrite decide_False by (by intros [? _]). by apply Hlv. }
    assert (forall i, inode_ok i -> node (disk s5) i = N i) as Hnd' by (intros i Hii; rewrite (bv_node _ _ _ _ _ Hbv5) by done; by apply Hnd).
    assert (forall i, inode_ok i -> N4 i = N i) as HN4 by (intros i Hii; destruct (decide (i = dir)) as [->|]; [by apply Hsm4|by apply Hno4]).
    destruct (settle (disk s5) (disk s5) N4 dir HT5) as (HTn & Hrn & Hcn & _); try done; [apply Hok5|by intros; rewrite Hnd', HN4|by intros; rewrite Hnd', HN4|].
    exists false, s5. split; [done|]. split; try done.
    + by eapply like_trans. + intros i Hii _. by apply Hnd'.
    + intros i m Hii Hlii Hm Hne. destruct (Hothers i m) as [Hr Hc]; try done. unfold Ext4Rw.file_block. assert (live (disk s5) i = true) as Hl5i by (by rewrite Hlv').
      assert (live (disk s4) i = true) as Hl4i by (by rewrite Hlv). rewrite Hrn, Hcn by done. rewrite Hr5, Hc5 by done. done.
    + unfold Ext4Rw.file_size. by rewrite Hnd'.
    + intros f _. by rewrite Hnd'.
    + intros c Hc Hu. rewrite (bv_used _ _ _ _ _ Hbv5) by done. rewrite decide_False; [by apply Hus4, Hk|]. intros [_ ->]. congruence.
    + intros _. split; [|split; [by apply Hnd'|]].
      * destruct Hwhy as [?|Hall]; [by left|right]. exists b. intros c Hca Hcb. rewrite (bv_used _ _ _ _ _ Hbv5) by done.
        rewrite decide_False by (by intros [_ ?]). apply Hus4; [done|]. by apply Hall.
      * intros c Hc. rewrite (bv_used _ _ _ _ _ Hbv5) by done. destruct (decide (Blocks = Blocks /\ c = b)) as [[_ ->]|Hne]; [done|].
        rewrite Hus4', Hu3, (bv_used _ _ _ _ _ Hbv) by done. by rewrite decide_False.
Qed.

(** ** [ext4_add_dir_entry] *)

(** The directory [dir] consists of the blocks [bl]. *)
Definition is_directory (d : D) (dir : Z) (bl : list (option (list dirent))) : Prop :=
  file_size d dir = Z.of_nat (length bl) * bs /\ directory d (node d) dir 0 bl.

(** An entry was added to a directory, or was not for want of space. *)
Record entry_added (s : state) (dir ino type : Z) (name : list Z) (bl : list (option (list dirent))) (r : bool) (s' : state) : Prop := {
  ea_ok : ok s'; ea_like : like (heap s) (heap s'); ea_sound : sound (disk s');
  ea_live i : inode_ok i -> live (disk s') i = live (disk s) i;
  ea_others i : inode_ok i -> i <> dir -> node (disk s') i = node (disk s) i;
  ea_blocks : blocks_kept (disk s) (disk s') (fun i _ => i <> dir);
  ea_fields f : dir_field f -> rd f (node (disk s') dir) = rd f (node (disk s) dir);
  ea_used c : area c -> used (disk s) c = true -> used (disk s') c = true;
  ea_fail : r = false -> node (disk s') dir = node (disk s) dir /\ (forall c, area c -> used (disk s') c = used (disk s) c);
  ea_entries : match insert_in ino type name bl with
               | Some bl' => r = true /\ is_directory (disk s') dir bl'
               | None => if r then is_directory (disk s') dir (bl ++ [Some [Dirent ino type name bs]])
                         else is_directory (disk s') dir bl /\ (12 + ptrs <= Z.of_nat (length bl) \/ nearly_full (disk s'))
               end
}.

Lemma blocks_of_whole k : 0 <= k -> (k * bs + bs - 1) / bs = k.
Proof using GL. intros Hk. pose proof gl_bs. symmetry. apply Z.div_unique with (bs - 1); lia. Qed.

Lemma is_directory_frame d d' dir bl : (forall m, 0 <= m < Z.of_nat (length bl) -> file_block d' dir m = file_block d dir m /\ content d' (node d') dir m = content d (node d) dir m) ->
  directory d (node d) dir 0 bl -> directory d' (node d') dir 0 bl.
Proof using Type. intros Hs. apply directory_frame. intros m Hm. apply Hs. lia. Qed.

Lemma appended_entries (s : state) dir ino type name bl r s' : inode_ok dir -> live (disk s) dir = true -> is_directory (disk s) dir bl -> (Z.of_nat (length bl) + 1) * bs < 2 ^ 32 ->
  appended s dir (Z.of_nat (length bl)) ino type name r s' ->
  if r then is_directory (disk s') dir (bl ++ [Some [Dirent ino type name bs]])
  else is_directory (disk s') dir bl /\ (12 + ptrs <= Z.of_nat (length bl) \/ nearly_full (disk s')).
Proof using Type*.
  intros Hi Hli [Hsz Hd] Hmax Hap. pose proof gl_bs.
  assert (directory (disk s') (node (disk s')) dir 0 bl) as Hd'.
  { apply (is_directory_frame (disk s)); [|done]. intros m Hm. apply (ap_blocks _ _ _ _ _ _ _ _ Hap); try done; [lia|]. intros (_ & _ & ->). lia. }
  pose proof (ap_size _ _ _ _ _ _ _ _ Hap) as Hs'. rewrite Hsz in Hs'. destruct r.
  - destruct (ap_entry _ _ _ _ _ _ _ _ Hap eq_refl) as [Hne Hl]. split.
    + rewrite Hs', length_app, u32_small by lia. cbn. lia.
    + apply directory_app. split; [done|]. apply directory_cons. rewrite Z.add_0_l. split; [by split|]. intros j o Hj. by rewrite lookup_nil in Hj.
  - split; [by split|]. by apply (ap_fail _ _ _ _ _ _ _ _ Hap).
Qed.

Lemma add_dir_entry_ok (s : state) dir name ino type bl : ok s -> (3 <= spare (heap s))%nat -> sound (disk s) -> inode_ok dir -> live (disk s) dir = true ->
  is_directory (disk s) dir bl -> (Z.of_nat (length bl) + 1) * bs < 2 ^ 32 -> bs < 65536 -> good_entry ino type (take 255 name) ->
  exists r s', ext4_add_dir_entry s dir name ino type = Ok (r, s') /\ entry_added s dir ino type (take 255 name) bl r s'.
Proof using Type*.
  intros Hok Hs HT Hi Hli Hdir Hmax Hbs Hg. pose proof Hdir as [Hsz Hd]. pose proof gl_bs. unfold ext4_add_dir_entry. set (nm := take 255 name) in *. cbv zeta.
  destruct (read_inode_ok s dir Hok) as (s1 & E1 & Hq1); [lia|done|]. rewrite E1, bind_ok. pose proof (quiet_ok _ _ Hok Hq1) as Hok1. destruct Hq1 as (Ef1 & Ed1 & Hl1).
  destruct (new_buf_ok s1 (ok_heap _ Hok1) (fo_bs _ _ _ (ok_follows _ Hok1))) as (p & h & E & Hp & Hih & Hsp & Hh); [destruct Hl1 as (_ & _ & ?); lia|]. rewrite E, bind_ok, Hp.
  rewrite (fo_bs _ _ _ (ok_follows _ Hok1)), (proj2 (Z.eqb_neq _ _)) by lia. fold (file_size (disk s) dir). rewrite Hsz, blocks_of_whole, Nat2Z.id by lia.
  assert (2 <= spare h)%nat as Hs1 by (destruct Hl1 as (_ & _ & ?); lia).
  destruct (dir_loop_ok ino type nm Hg bl 0 (with_heap s1 h) (node (disk s)) dir) as (r & s2 & E2 & Hok2 & Hl2 & HT2 & Hlv2 & Hnd2 & Hr2 & Hu2 & Hc2 & Hm); try done;
    [by apply ok_heap_any|cbn; by rewrite Ed1..|]. rewrite E2, bind_ok. cbn [disk heap with_heap] in *. rewrite Ed1 in *.
  destruct (insert_in ino type nm bl) as [bl'|] eqn:Hins.
  - destruct Hm as [-> Hd2]. destruct (done_ok (heap s1) p h s2 true Hh Hl2) as (h' & Edn & Hld). rewrite Edn. exists true, (with_heap s2 h'). split; [done|].
    destruct (settle (disk s2) (disk s2) (node (disk s)) dir HT2) as (HTn & Hrn & Hcn & _); try done; [apply Hok2|intros; by rewrite Hnd2..|].
    assert (forall i m, inode_ok i -> live (disk s) i = true -> 0 <= m -> i <> dir -> file_block (disk s2) i m = file_block (disk s) i m /\ content (disk s2) (node (disk s2)) i m = content (disk s) (node (disk s)) i m) as Hbk.
    { intros i m Hii Hlii Hm Hne. assert (live (disk s2) i = true) by (by rewrite Hlv2). unfold Ext4Rw.file_block. rewrite Hrn, Hcn by done. rewrite Hr2, Hc2 by (done || by left). done. }
    split; cbn [disk heap with_heap]; try done; [apply ok_heap_any; [done|apply Hld]|by eapply like_trans|intros i Hii _; by apply Hnd2|intros f _; by rewrite Hnd2|intros c Hc; by rewrite Hu2|]. rewrite Hins. split; [done|]. split.
    + unfold Ext4Rw.file_size. rewrite Hnd2 by done. change (rd i_size_lo (node (disk s) dir)) with (file_size (disk s) dir). rewrite Hsz. by rewrite (insert_in_length _ _ _ _ _ Hins).
    + apply (directory_frame (disk s2) (node (disk s))); [|done]. intros m Hm. assert (live (disk s2) dir = true) by (by rewrite Hlv2). by rewrite Hrn, Hcn by (done || cbn; lia).
  - destruct Hm as [-> Hq2]. pose proof Hq2 as (Ef2 & Ed2 & _). cbn [disk with_heap] in Ed2. rewrite Ed1 in Ed2.
    destruct (append_entry_ok s2 dir (Z.of_nat (length bl)) ino type nm) as (r & s3 & E3 & Hap); try done; [destruct Hl2 as (_ & _ & ?); lia|by rewrite Ed2..|lia|]. rewrite Ed2 in E3. rewrite E3, bind_ok.
    pose proof (appended_entries s2 dir ino type nm bl r s3 Hi) as Hent. rewrite Ed2 in Hent. specialize (Hent Hli Hdir Hmax Hap).
    destruct Hap as [Hok3 Hl3 HT3 Hlv3 Hot3 Hbk3 _ _ Hfd3 Hus3 Hfl3]. rewrite Ed2 in *. cbn [fst snd].
    destruct (done_ok (heap s1) p h s3 r Hh) as (h' & Edn & Hld); [by eapply like_trans|]. rewrite Edn. exists r, (with_heap s3 h'). split; [done|].
    split; cbn [disk heap with_heap]; try done; [apply ok_heap_any; [done|apply Hld]|by eapply like_trans| |by intros ->; apply Hfl3|by rewrite Hins].
    intros i m Hii Hlii Hm Hne. apply Hbk3; try done. by intros (_ & ? & _).
Qed.
End entries.
