(* ===== verification/Ext4Create.v ===== *)
(** * The ext4 driver: new files and directories

    [ext4_create_file] takes a free inode, enters it in its directory, and gives a new directory
    its entries for itself and for its parent. *)
From S2P Require Import Prelude AllocSpec Buffer Ext4 Ext4Spec Ext4Alloc Ext4Nodes Ext4Map Ext4File Ext4Rw Ext4Dir.
#[local] Open Scope Z_scope.

Section create.
Context {A D : Type} `{AllocatorLaws A} `{BlockDevice D} {bs nblocks : Z} {L : layout}.
Context `{!DeviceLaws D bs nblocks} `{!BufferPool A bs} {GL : good_layout bs nblocks L}.
Abbreviation state := (st A D).
Abbreviation meta := (meta bs L). Abbreviation ok := (ok (L := L)). Abbreviation area := (area (L := L)).
Abbreviation used := (used (L := L)). Abbreviation live := (live (L := L)). Abbreviation inode_ok := (inode_ok (L := L)). Abbreviation node := (node (bs := bs) (L := L)).
Abbreviation ref := (ref (bs := bs)). Abbreviation ptrs := (ptrs (bs := bs)). Abbreviation trees := (trees (bs := bs) (nblocks := nblocks) (L := L)).
Abbreviation sound := (sound (bs := bs) (nblocks := nblocks) (L := L)). Abbreviation file_size := (file_size (bs := bs) (L := L)).
Abbreviation file_block := (file_block (bs := bs) (L := L)). Abbreviation nearly_full := (nearly_full (L := L)). Abbreviation content := (content (bs := bs)).
Abbreviation valid_use := (valid_use (bs := bs)). Abbreviation blocks_kept := (blocks_kept (bs := bs) (L := L)). Abbreviation is_directory := (is_directory (bs := bs) (L := L)).

(** ** Inodes without blocks *)

Definition no_blocks (nd : list Z) : Prop := forall k, 0 <= k < 15 -> rd (i_block k) nd = 0.

Lemma no_blocks_ref B nd u : no_blocks nd -> valid_use u -> ref B nd u = 0.
Proof using Type.
  intros Hz Hu. unfold no_blocks in Hz. destruct u as [n| | |k]; cbn [Ext4Map.ref]; rewrite ?(Hz 12), ?(Hz 13) by lia; try done.
  cbn in Hu. destruct (Z.ltb_spec n 12); [apply Hz; lia|]. by repeat case_match.
Qed.

(** The inode of a new file. *)
Definition new_node (mode : Z) : list Z := wr i_links_count 1 (wr i_mode mode (replicate inode_bytes 0)).

Lemma new_node_length mode : length (new_node mode) = inode_bytes /\ Forall byte (new_node mode).
Proof using Type.
  unfold new_node. split; [|by apply wr_byte, wr_byte, Forall_replicate].
  rewrite !wr_length, ?length_replicate; [done|unfold inside, inode_bytes; cbn; lia|rewrite wr_length, length_replicate; unfold inside; rewrite ?length_replicate; unfold inode_bytes; cbn; lia].
Qed.

Lemma new_node_field mode f : inside f inode_bytes -> apart f i_mode -> apart f i_links_count -> rd f (new_node mode) = rd f (replicate inode_bytes 0).
Proof using Type.
  intros Hf Hm Hl. assert (inside i_mode (length (replicate inode_bytes 0))) by (rewrite length_replicate; unfold inside, inode_bytes; cbn; lia).
  unfold new_node. rewrite !rd_wr_ne; try done. rewrite wr_length, length_replicate by done. unfold inside, inode_bytes. cbn. lia.
Qed.

Lemma new_node_blocks mode : no_blocks (new_node mode).
Proof using Type.
  intros k Hk. rewrite new_node_field by (unfold inside, apart, inode_bytes, i_block; cbn; lia).
  assert (forallb (fun k => rd (i_block k) (replicate inode_bytes 0) =? 0) (seqZ 0 15) = true) as Hall by (vm_compute; reflexivity).
  rewrite forallb_forall in Hall. apply Z.eqb_eq, Hall, list_elem_of_In, elem_of_seqZ. lia.
Qed.

(** ** Changes of inodes that move no block *)

Lemma sound_frame (d d' : D) : sound d -> dv_ok d' -> (forall c, ~ meta c -> blk d' c = blk d c) -> (forall c, area c -> used d' c = used d c) ->
  (forall i, inode_ok i -> live d' i = true -> (live d i = true /\ forall k, 0 <= k < 15 -> rd (i_block k) (node d' i) = rd (i_block k) (node d i)) \/ no_blocks (node d' i)) -> sound d'.
Proof using Type*.
  intros HT Hd Hb Hu Hn.
  assert (forall i u, inode_ok i -> live d' i = true -> valid_use u -> ref (blk d') (node d' i) u <> 0 ->
    live d i = true /\ ref (blk d') (node d' i) u = ref (blk d) (node d i) u) as Hr.
  { intros i u Hi Hl Hv Hne. destruct (Hn i Hi Hl) as [[Hli Hk]|Hz]; [|by rewrite no_blocks_ref in Hne]. split; [done|]. rewrite (ref_pointers _ (node d i) (node d' i)) by done.
    apply ref_frame; [done|]. intros v Hv' _ Hnz. apply Hb. by destruct (tr_good _ _ HT i v) as [(_ & _ & ? & _) _]. }
  split.
  - intros i Hi. by apply node_length. - intros i Hi. by apply node_byte.
  - intros i u Hi Hl Hv Hne. destruct (Hr i u Hi Hl Hv Hne) as [Hli E]. rewrite E in *. destruct (tr_good _ _ HT i u) as [Hdb Hus]; try done. split; [done|]. by rewrite Hu by apply Hdb.
  - intros i u j v Hi Hl Hv Hj Hlj Hv' Hne E. destruct (Hr i u Hi Hl Hv Hne) as [Hli Ei]. destruct (Hr j v Hj Hlj Hv') as [Hlj' Ej]; [by rewrite <- E|].
    apply (tr_inj _ _ HT); try done; [by rewrite <- Ei|by rewrite <- Ei, <- Ej].
  - intros b Hb' Hf. apply (tr_free _ _ HT); [done|]. by rewrite <- Hu.
Qed.

Lemma blocks_frame (d d' : D) (P : Z -> Z -> Prop) : sound d -> (forall c, ~ meta c -> blk d' c = blk d c) ->
  (forall i m, inode_ok i -> live d i = true -> P i m -> forall k, 0 <= k < 15 -> rd (i_block k) (node d' i) = rd (i_block k) (node d i)) -> blocks_kept d d' P.
Proof using Type*.
  intros HT Hb Hn i m Hi Hl Hm HP. assert (valid_use (Data m)) as Hv by done.
  assert (forall v, valid_use v -> ref (blk d) (node d i) v <> 0 -> blk d' (ref (blk d) (node d i) v) = blk d (ref (blk d) (node d i) v)) as Hsame.
  { intros v Hv' Hnz. apply Hb. by destruct (tr_good _ _ HT i v) as [(_ & _ & ? & _) _]. }
  assert (file_block d' i m = file_block d i m) as E.
  { unfold Ext4Rw.file_block. rewrite (ref_pointers _ (node d i) (node d' i)) by (done || by apply (Hn i m)). apply ref_frame; [done|]. intros v Hv' _. by apply Hsame. }
  split; [exact E|]. apply content_same; [exact E|]. by apply Hsame.
Qed.

Lemma blocks_kept_trans d1 d2 d3 (P : Z -> Z -> Prop) : (forall i, inode_ok i -> live d1 i = true -> live d2 i = true) -> blocks_kept d1 d2 P -> blocks_kept d2 d3 P -> blocks_kept d1 d3 P.
Proof using Type.
  intros Hl H1' H2' i m Hi Hli Hm HP. destruct (H1' i m Hi Hli Hm HP) as [<- <-]. apply H2'; try done. by apply Hl.
Qed.

Lemma directory_kept d d' (P : Z -> Z -> Prop) dir bl : blocks_kept d d' P -> inode_ok dir -> live d dir = true -> (forall m, P dir m) -> file_size d' dir = file_size d dir ->
  is_directory d dir bl -> is_directory d' dir bl.
Proof using Type.
  intros Hk Hi Hl HP Hs [Hsz Hd]. split; [by rewrite Hs|]. apply (is_directory_frame d); [|done]. intros m Hm. apply Hk; try done. lia.
Qed.

(** ** A new inode *)

Lemma enter_inode_ok (s : state) r mode d0 : ok s -> (0 < spare (heap s))%nat -> sound d0 -> inode_ok r -> live d0 r = false -> bit_views (bs := bs) (L := L) Inodes r true d0 (disk s) ->
  exists s', ext4_write_inode s r (new_node mode) = Ok (true, s') /\ ok s' /\ like (heap s) (heap s') /\ sound (disk s') /\ blocks_kept d0 (disk s') (fun _ _ => True) /\
    (forall i, inode_ok i -> live (disk s') i = if decide (i = r) then true else live d0 i) /\
    (forall i, inode_ok i -> node (disk s') i = if decide (i = r) then new_node mode else node d0 i) /\ (forall c, area c -> used (disk s') c = used d0 c).
Proof using Type*.
  intros Hok Hs HT Hr Hfree [Hu Hl Hn Hb]. destruct (new_node_length mode) as [Hlen Hby].
  destruct (write_inode_ok s r (new_node mode) Hok Hs Hr Hlen Hby) as (s' & E & Hok' & _ & Hl' & Hnd & Hus & Hlv & Hblk).
  assert (forall i, inode_ok i -> live (disk s') i = if decide (i = r) then true else live d0 i) as Elv.
  { intros i Hi. rewrite Hlv, Hl by done. destruct (decide (i = r)) as [->|]; [by rewrite decide_True|]. by rewrite decide_False by (by intros [_ ?]). }
  assert (forall i, inode_ok i -> node (disk s') i = if decide (i = r) then new_node mode else node d0 i) as End by (intros i Hi; rewrite Hnd, Hn by done; done).
  assert (forall c, ~ meta c -> blk (disk s') c = blk d0 c) as Ebl by (intros c Hc; by rewrite Hblk, Hb).
  assert (forall c, area c -> used (disk s') c = used d0 c) as Eus by (intros c Hc; rewrite Hus, Hu by done; by rewrite decide_False by (by intros [? _])).
  exists s'. split; [done|]. split; [done|]. split; [done|]. split; [|split; [|done]].
  - apply (sound_frame d0); [done|apply Hok'|done|done|].
    intros i Hi. rewrite Elv, End by done. destruct (decide (i = r)); [right; apply new_node_blocks|left; done].
  - apply (blocks_frame d0); try done. intros i m Hi Hli _ k Hk. rewrite End by done. destruct (decide (i = r)) as [->|]; [by rewrite Hfree in Hli|done].
Qed.

Lemma release_inode_ok (s : state) r : ok s -> (0 < spare (heap s))%nat -> sound (disk s) -> inode_ok r -> live (disk s) r = true ->
  exists s', ext4_free_inode s r = Ok (0, s') /\ ok s' /\ like (heap s) (heap s') /\ sound (disk s') /\ blocks_kept (disk s) (disk s') (fun _ _ => True) /\
    (forall i, inode_ok i -> live (disk s') i = if decide (i = r) then false else live (disk s) i) /\ (forall i, inode_ok i -> node (disk s') i = node (disk s) i) /\
    (forall c, area c -> used (disk s') c = used (disk s) c).
Proof using Type*.
  intros Hok Hs HT Hr Hl. destruct (free_inode_ok s r Hok Hs Hr Hl) as (s' & E & Hok' & Hl' & [Hu Hlv Hn Hb]).
  assert (forall i, inode_ok i -> live (disk s') i = if decide (i = r) then false else live (disk s) i) as Elv.
  { intros i Hi. rewrite Hlv by done. destruct (decide (i = r)) as [->|]; [by rewrite decide_True|]. by rewrite decide_False by (by intros [_ ?]). }
  assert (forall c, area c -> used (disk s') c = used (disk s) c) as Eus by (intros c Hc; rewrite Hu by done; by rewrite decide_False by (by intros [? _])).
  exists s'. split; [done|]. split; [done|]. split; [done|]. split; [|split; [|done]].
  - apply (sound_frame (disk s)); [done|apply Hok'|done|done|].
    intros i Hi. rewrite Elv by done. destruct (decide (i = r)); [done|]. intros Hli. left. split; [done|]. intros k _. by rewrite Hn.
  - apply (blocks_frame (disk s)); try done. intros i m Hi Hli _ k Hk. by rewrite Hn.
Qed.

(** ** The entries of a new directory *)

Definition dots (r parent : Z) : list (option (list dirent)) := [Some [Dirent r 2 [46] 12; Dirent parent 2 [46; 46] (bs - 12)]].

Lemma insert_dots r parent : insert_in parent 2 [46; 46] [Some [Dirent r 2 [46] bs]] = Some (dots r parent).
Proof using GL.
  pose proof gl_bs. unfold dots. cbn [insert_in insert_entry e_ino e_type e_name e_len]. unfold fits, need. cbn [e_name e_len length].
  change (entry_size (Z.of_nat 1)) with 12. change (entry_size (Z.of_nat 2)) with 12. rewrite (proj2 (Z.ltb_lt _ _)), (proj2 (Z.leb_le _ _)) by lia. done.
Qed.

Lemma dot_entry ino name : inode_ok ino -> Forall byte name -> (length name <= 255)%nat -> good_entry ino 2 (take 255 name) /\ take 255 name = name.
Proof using GL.
  intros Hi Hb Hl. rewrite take_ge by lia. split; [|done]. pose proof gl_inodes. unfold Ext4Nodes.inode_ok in Hi. split; [lia|]. split; [lia|]. split; [lia|done].
Qed.

Lemma fuller (d d' : D) : (forall c, area c -> used d c = true -> used d' c = true) -> nearly_full d -> nearly_full d'.
Proof using Type. intros Hu [b Hb]. exists b. intros c Hc Hne. by apply Hu, Hb. Qed.

(** One field of an inode is rewritten, outside of its block map. *)
Lemma set_links_ok (s : state) i v : ok s -> (0 < spare (heap s))%nat -> sound (disk s) -> inode_ok i ->
  exists s', ext4_write_inode s i (wr i_links_count v (node (disk s) i)) = Ok (true, s') /\ ok s' /\ like (heap s) (heap s') /\ sound (disk s') /\ blocks_kept (disk s) (disk s') (fun _ _ => True) /\
    (forall j, inode_ok j -> live (disk s') j = live (disk s) j) /\ (forall j, inode_ok j -> node (disk s') j = if decide (j = i) then wr i_links_count v (node (disk s) i) else node (disk s) j) /\
    (forall c, area c -> used (disk s') c = used (disk s) c).
Proof using Type*.
  intros Hok Hs HT Hi. pose proof (tr_size _ _ HT i Hi) as Hlen. assert (inside i_links_count (length (node (disk s) i))) as Hin by (rewrite Hlen; unfold inside, inode_bytes; cbn; lia).
  destruct (write_inode_ok s i (wr i_links_count v (node (disk s) i)) Hok Hs Hi) as (s' & E & Hok' & _ & Hl & Hnd & Hus & Hlv & Hblk); [by rewrite wr_length|by apply wr_byte, (tr_byte _ _ HT)|].
  assert (forall j, inode_ok j -> forall k, 0 <= k < 15 -> rd (i_block k) (node (disk s') j) = rd (i_block k) (node (disk s) j)) as Hk.
  { intros j Hj k Hk. rewrite Hnd by done. destruct (decide (j = i)) as [->|]; [|done]. apply rd_wr_ne; [done|]. unfold apart, i_block. cbn. lia. }
  exists s'. split; [done|]. split; [done|]. split; [done|]. split; [|split; [|done]].
  - apply (sound_frame (disk s)); [done|apply Hok'|done|done|]. intros j Hj. rewrite Hlv by done. intros Hlj. left. split; [done|by apply Hk].
  - apply (blocks_frame (disk s)); try done. intros j m Hj _ _. by apply Hk.
Qed.

(** The two entries of a new directory, or what is left of them on a full device. *)
Definition has_dots (d : D) (r parent : Z) : Prop :=
  is_directory d r (dots r parent) \/ (nearly_full d /\ (is_directory d r [] \/ is_directory d r [Some [Dirent parent 2 [46; 46] bs]])).

(** A new directory got its first two entries and its parent one more link. *)
Record dotted (s : state) (r parent : Z) (s' : state) : Prop := {
  dt_ok : ok s'; dt_like : like (heap s) (heap s'); dt_sound : sound (disk s');
  dt_live i : inode_ok i -> live (disk s') i = live (disk s) i;
  dt_others i : inode_ok i -> i <> r -> node (disk s') i = if decide (i = parent) then wr i_links_count (rd i_links_count (node (disk s) i) + 1) (node (disk s) i) else node (disk s) i;
  dt_fields f : dir_field f -> rd f (node (disk s') r) = rd f (node (disk s) r);
  dt_blocks : blocks_kept (disk s) (disk s') (fun i _ => i <> r);
  dt_dots : has_dots (disk s') r parent
}.

(** The two entries, with the blocks before the second. *)
Lemma two_dots_ok (s : state) r parent : ok s -> (3 <= spare (heap s))%nat -> sound (disk s) -> inode_ok r -> live (disk s) r = true -> inode_ok parent -> bs < 65536 ->
  is_directory (disk s) r [] ->
  exists b1 s1 b2 s2, ext4_add_dir_entry s r [46] r 2 = Ok (b1, s1) /\ ext4_add_dir_entry s1 r [46; 46] parent 2 = Ok (b2, s2) /\ ok s2 /\ like (heap s) (heap s2) /\ sound (disk s2) /\
    (forall i, inode_ok i -> live (disk s2) i = live (disk s) i) /\ (forall i, inode_ok i -> i <> r -> node (disk s2) i = node (disk s) i) /\
    (forall f, dir_field f -> rd f (node (disk s2) r) = rd f (node (disk s) r)) /\ blocks_kept (disk s) (disk s2) (fun i _ => i <> r) /\
    has_dots (disk s2) r parent.
Proof using Type*.
  intros Hok Hs HT Hr Hli Hp Hbs Hd. pose proof gl_bs. pose proof ptrs_range.
  destruct (dot_entry r [46] Hr) as [Hg1 Et1]; [by repeat constructor|cbn; lia|]. destruct (dot_entry parent [46; 46] Hp) as [Hg2 Et2]; [by repeat constructor|cbn; lia|].
  destruct (add_dir_entry_ok s r [46] r 2 [] Hok Hs HT Hr Hli Hd) as (b1 & s1 & E1 & Ha1); [cbn; lia|done|done|]. rewrite Et1 in Ha1. destruct Ha1 as [Hok1 Hl1 HT1 Hlv1 Ho1 Hk1 Hf1 Hu1 _ He1]. cbn [insert_in] in He1.
  set (bl1 := if b1 then [Some [Dirent r 2 [46] bs]] else []). assert (is_directory (disk s1) r bl1) as Hd1 by (unfold bl1; destruct b1; [done|apply He1]).
  destruct (add_dir_entry_ok s1 r [46; 46] parent 2 bl1) as (b2 & s2 & E2 & Ha2); try done; [destruct Hl1 as (_ & _ & ?); lia|by rewrite Hlv1|unfold bl1; destruct b1; cbn; lia|].
  rewrite Et2 in Ha2. destruct Ha2 as [Hok2 Hl2 HT2 Hlv2 Ho2 Hk2 Hf2 Hu2 _ He2].
  exists b1, s1, b2, s2. split; [done|]. split; [done|]. split; [done|]. split; [by eapply like_trans|]. split; [done|]. split; [intros i Hi; by rewrite Hlv2, Hlv1|].
  split; [intros i Hi Hne; by rewrite Ho2, Ho1|]. split; [intros f Hf; by rewrite Hf2, Hf1|]. split; [apply (blocks_kept_trans _ (disk s1)); try done; intros i Hi; by rewrite Hlv1|].
  destruct b1; unfold bl1 in He2.
  - left. rewrite insert_dots in He2. apply He2.
  - right. split; [|destruct b2; [by right|by left; apply He2]].
    apply (fuller (disk s1)); [done|]. destruct He1 as [_ [Hx|?]]; [cbn in Hx; lia|done].
Qed.

Lemma add_dots_ok (s : state) r parent : ok s -> (3 <= spare (heap s))%nat -> sound (disk s) -> inode_ok r -> live (disk s) r = true -> inode_ok parent -> parent <> r -> bs < 65536 ->
  is_directory (disk s) r [] -> exists s', add_dots s r parent = Ok s' /\ dotted s r parent s'.
Proof using Type*.
  intros Hok Hs HT Hr Hli Hp Hpr Hbs Hd.
  destruct (two_dots_ok s r parent) as (b1 & s1 & b2 & s2 & E1 & E2 & Hok2 & Hl2 & HT2 & Hlv2 & Ho2 & Hf2 & Hk2 & Hd2); try done.
  unfold add_dots. rewrite E1, bind_ok. cbn [snd]. rewrite E2, bind_ok. cbn [snd]. assert (2 <= spare (heap s2))%nat by (destruct Hl2 as (_ & _ & ?); lia).
  destruct (read_inode_ok s2 parent Hok2) as (s3 & E3 & Hq3); [lia|done|]. rewrite E3, bind_ok. pose proof (quiet_ok _ _ Hok2 Hq3) as Hok3. destruct Hq3 as (Ef3 & Ed3 & Hl3).
  destruct (set_links_ok s3 parent (rd i_links_count (node (disk s2) parent) + 1) Hok3) as (s4 & E4 & Hok4 & Hl4 & HT4 & Hk4 & Hlv4 & Hn4 & Hu4); [destruct Hl3 as (_ & _ & ?); lia|by rewrite Ed3|done|].
  rewrite Ed3 in *. rewrite E4, bind_ok. cbn [snd]. exists s4. split; [done|]. split; try done.
  - eapply like_trans; [exact Hl2|]. by eapply like_trans.
  - intros i Hi. by rewrite Hlv4, Hlv2.
  - intros i Hi Hne. rewrite Hn4 by done. destruct (decide (i = parent)) as [->|]; by rewrite Ho2.
  - intros f Hf. rewrite Hn4, decide_False by done. by apply Hf2.
  - apply (blocks_kept_trans _ (disk s2)); [intros i Hi; by rewrite Hlv2|done|]. intros i m Hi Hl Hm _. by apply Hk4.
  - assert (forall bl, is_directory (disk s2) r bl -> is_directory (disk s4) r bl) as Hkeep.
    { intros bl Hbl. apply (directory_kept (disk s2) (disk s4) (fun _ _ => True)); try done; [by rewrite Hlv2|]. unfold Ext4Rw.file_size. by rewrite Hn4, decide_False. }
    destruct Hd2 as [Hd2|[Hn2 Hd2]]; [left; by apply Hkeep|right]. split; [|by destruct Hd2; [left|right]; apply Hkeep].
    apply (fuller (disk s2)); [|done]. intros c Hc. by rewrite Hu4.
Qed.

(** ** [ext4_create_file] *)

Definition is_dir (mode : Z) : bool := negb (Z.land mode EXT4_S_IFDIR =? 0).
Definition type_of (mode : Z) : Z := if is_dir mode then 2 else 1.

(** The blocks of a directory with a new entry: in the first gap, or else in a block of its own. *)
Definition entered (ino type : Z) (name : list Z) (bl : list (option (list dirent))) : list (option (list dirent)) :=
  default (bl ++ [Some [Dirent ino type name bs]]) (insert_in ino type name bl).

(** The call failed: the same inodes and blocks are in use, the inodes are what they were, and no file or directory changed. *)
Record not_created (s : state) (parent : Z) (bl : list (option (list dirent))) (s' : state) : Prop := {
  nc_live i : inode_ok i -> live (disk s') i = live (disk s) i;
  nc_used c : area c -> used (disk s') c = used (disk s) c;
  nc_node i : inode_ok i -> live (disk s) i = true -> node (disk s') i = node (disk s) i;
  nc_blocks : blocks_kept (disk s) (disk s') (fun i _ => i <> parent);
  nc_parent : is_directory (disk s') parent bl
}.

(** Inode [r] is the new file, and an entry of its directory. *)
Record created (s : state) (parent : Z) (name : list Z) (mode : Z) (bl : list (option (list dirent))) (r : Z) (s' : state) : Prop := {
  cr_inode : inode_ok r; cr_free : live (disk s) r = false;
  cr_live i : inode_ok i -> live (disk s') i = if decide (i = r) then true else live (disk s) i;
  cr_node i : inode_ok i -> i <> r -> i <> parent -> node (disk s') i = node (disk s) i;
  cr_blocks : blocks_kept (disk s) (disk s') (fun i _ => i <> parent);
  cr_parent : is_directory (disk s') parent (entered r (type_of mode) name bl);
  cr_links : rd i_links_count (node (disk s') parent) = if is_dir mode then u16 (rd i_links_count (node (disk s) parent) + 1) else rd i_links_count (node (disk s) parent);
  cr_new f : dir_field f -> rd f (node (disk s') r) = rd f (new_node mode);
  cr_body : if is_dir mode then has_dots (disk s') r parent else node (disk s') r = new_node mode
}.

Lemma links_field : dir_field i_links_count.
Proof using Type. repeat split; unfold inside, apart, inode_bytes; cbn; lia. Qed.

Lemma new_directory d r mode : node d r = new_node mode -> is_directory d r [].
Proof using Type.
  intros E. split; [|intros j o Hj; by rewrite lookup_nil in Hj]. unfold Ext4Rw.file_size. rewrite E, new_node_field by (unfold inside, apart, inode_bytes; cbn; lia). by vm_compute.
Qed.

(** After the inode is there: the entry of the directory. *)
Lemma enter_file_ok (s s2 : state) parent name mode bl r : inode_ok parent -> live (disk s) parent = true -> inode_ok r -> live (disk s) r = false -> bs < 65536 ->
  ok s2 -> (3 <= spare (heap s2))%nat -> sound (disk s2) -> is_directory (disk s2) parent bl -> (Z.of_nat (length bl) + 1) * bs < 2 ^ 32 -> Forall byte (take 255 name) ->
  blocks_kept (disk s) (disk s2) (fun _ _ => True) -> (forall i, inode_ok i -> live (disk s2) i = if decide (i = r) then true else live (disk s) i) ->
  (forall i, inode_ok i -> node (disk s2) i = if decide (i = r) then new_node mode else node (disk s) i) -> (forall c, area c -> used (disk s2) c = used (disk s) c) ->
  exists b s3, ext4_add_dir_entry s2 parent name r (type_of mode) = Ok (b, s3) /\ ok s3 /\ like (heap s2) (heap s3) /\ sound (disk s3) /\ node (disk s3) r = new_node mode /\
    (forall i, inode_ok i -> live (disk s3) i = if decide (i = r) then true else live (disk s) i) /\
    (forall i, inode_ok i -> i <> r -> i <> parent -> node (disk s3) i = node (disk s) i) /\ rd i_links_count (node (disk s3) parent) = rd i_links_count (node (disk s) parent) /\
    blocks_kept (disk s) (disk s3) (fun i _ => i <> parent) /\ is_directory (disk s3) parent (if b then entered r (type_of mode) (take 255 name) bl else bl) /\
    (b = false -> node (disk s3) parent = node (disk s) parent /\ forall c, area c -> used (disk s3) c = used (disk s) c).
Proof using Type*.
  intros Hi Hli Hr Hfree Hbs Hok Hs HT Hd Hmax Hnb Hk Hlv Hnd Hus. assert (parent <> r) as Hpr by (intros ->; by rewrite Hli in Hfree).
  assert (good_entry r (type_of mode) (take 255 name)) as Hg.
  { pose proof gl_inodes. unfold Ext4Nodes.inode_ok in Hr. split; [lia|]. split; [unfold type_of; destruct (is_dir mode); lia|]. split; [rewrite length_take; lia|done]. }
  destruct (add_dir_entry_ok s2 parent name r (type_of mode) bl Hok Hs HT Hi) as (b & s3 & E & [Hok3 Hl3 HT3 Hlv3 Ho3 Hk3 Hf3 _ Hfl3 He3]); try done; [by rewrite Hlv, decide_False|].
  exists b, s3. split; [done|]. split; [done|]. split; [done|]. split; [done|]. split; [by rewrite Ho3, Hnd, decide_True by done|]. split; [intros i Hii; by rewrite Hlv3, Hlv|].
  split; [intros i Hii Hne Hnp; rewrite Ho3, Hnd by done; by rewrite decide_False|]. split; [rewrite Hf3, Hnd by (done || apply links_field); by rewrite decide_False|]. split; [|split].
  - apply (blocks_kept_trans _ (disk s2)); [intros i Hii Hl; rewrite Hlv by done; by destruct (decide _)| |done]. intros i m Hii Hl Hm _. by apply Hk.
  - unfold entered. destruct (insert_in _ _ _ bl) as [bl'|]; cbn [default]; [by destruct He3 as [-> ?]|]. destruct b; [done|apply He3].
  - intros Eb. destruct (Hfl3 Eb) as [En Eu]. split; [rewrite En, Hnd by done; by rewrite decide_False|]. intros c Hc. by rewrite Eu, Hus.
Qed.

Lemma create_file_ok (s : state) parent name mode bl : ok s -> (3 <= spare (heap s))%nat -> sound (disk s) -> inode_ok parent -> live (disk s) parent = true ->
  is_directory (disk s) parent bl -> (Z.of_nat (length bl) + 1) * bs < 2 ^ 32 -> bs < 65536 -> Forall byte (take 255 name) ->
  exists r s', ext4_create_file s parent name mode = Ok (r, s') /\ ok s' /\ like (heap s) (heap s') /\ sound (disk s') /\
    ((r = -1 /\ not_created s parent bl s') \/ created s parent (take 255 name) mode bl r s').
Proof using Type*.
  intros Hok Hs HT Hi Hli Hd Hmax Hbs Hnb. pose proof gl_ipg. pose proof (ok_follows _ Hok) as Hf. unfold ext4_create_file. rewrite (fo_ipg _ _ _ Hf), (proj2 (Z.eqb_neq _ _)) by lia.
  destruct (alloc_inode_ok s _ Hok ltac:(lia) (group_number parent Hi)) as (r & s1 & Ea & Hok1 & Hl1 & Hr). rewrite Ea, bind_ok. assert (spare (heap s) <= spare (heap s1))%nat as Hs1 by apply Hl1.
  destruct Hr as [(-> & _ & Ed1 & _)|(Hr & Hfree & Hbv)].
  { exists (-1), s1. rewrite Ed1. split; [done|]. split; [done|]. split; [done|]. split; [done|]. left. split; [done|]. by split; rewrite ?Ed1. }
  assert (1 <= r) as Hr1 by apply Hr. rewrite (proj2 (Z.ltb_ge _ _)) by lia. fold (new_node mode). fold (is_dir mode). fold (type_of mode).
  destruct (enter_inode_ok s1 r mode (disk s) Hok1 ltac:(lia) HT Hr Hfree Hbv) as (s2 & E2 & Hok2 & Hl2 & HT2 & Hk2 & Hlv2 & Hnd2 & Hus2). rewrite E2, bind_ok. cbn [negb].
  assert (parent <> r) as Hpr by (intros ->; by rewrite Hli in Hfree). pose proof (like_trans _ _ _ Hl1 Hl2) as Hl12. assert (spare (heap s) <= spare (heap s2))%nat as Hs2 by apply Hl12.
  assert (is_directory (disk s2) parent bl) as Hd2 by (apply (directory_kept (disk s) (disk s2) (fun _ _ => True)); try done; unfold Ext4Rw.file_size; by rewrite Hnd2, decide_False).
  destruct (enter_file_ok s s2 parent name mode bl r) as (b & s3 & E3 & Hok3 & Hl3 & HT3 & Hr3 & Hlv3 & Ho3 & Hln3 & Hk3 & Hd3 & Hfl3); try done; [lia|]. rewrite E3, bind_ok.
  pose proof (like_trans _ _ _ Hl12 Hl3) as Hl13. assert (spare (heap s) <= spare (heap s3))%nat as Hs3 by apply Hl13. assert (live (disk s3) r = true) as Hlr by (by rewrite Hlv3, decide_True).
  assert (live (disk s3) parent = true) as Hlp by (by rewrite Hlv3, decide_False). destruct b; cbn [negb].
  - destruct (is_dir mode) eqn:Hdir.
    + destruct (add_dots_ok s3 r parent) as (s4 & E4 & [Hok4 Hl4 HT4 Hlv4 Ho4 Hf4 Hk4 Hd4]); try done; [lia|by apply new_directory with mode|]. rewrite E4, bind_ok.
      pose proof (Ho4 parent Hi Hpr) as Hpn. rewrite decide_True in Hpn by done. assert (inside i_links_count (length (node (disk s3) parent))) as Hin by (rewrite (tr_size _ _ HT3 parent Hi); unfold inside, inode_bytes; cbn; lia).
      exists r, s4. split; [done|]. split; [done|]. split; [by eapply like_trans|]. split; [done|]. right. split; rewrite ?Hdir; try done.
      * intros i Hii. by rewrite Hlv4, Hlv3.
      * intros i Hii Hne Hnp. rewrite Ho4, decide_False by done. by apply Ho3.
      * intros i m Hii Hl Hm Hne. destruct (Hk3 i m Hii Hl Hm Hne) as [<- <-]. apply Hk4; try done; [rewrite Hlv3 by done; by destruct (decide _)|]. intros ->. by rewrite Hl in Hfree.
      * apply (directory_kept (disk s3) (disk s4) (fun i _ => i <> r)); try done. unfold Ext4Rw.file_size. rewrite Hpn. apply rd_wr_ne; [done|]. unfold apart. cbn. lia.
      * rewrite Hpn, rd_wr by done. by rewrite Hln3.
      * intros f Hff. rewrite Hf4 by done. by rewrite Hr3.
    + exists r, s3. split; [done|]. split; [done|]. split; [done|]. split; [done|]. right. split; rewrite ?Hdir; try done. intros f _. by rewrite Hr3.
  - destruct (release_inode_ok s3 r Hok3 ltac:(lia) HT3 Hr Hlr) as (s4 & E4 & Hok4 & Hl4 & HT4 & Hk4 & Hlv4 & Hn4 & Hus4). destruct (Hfl3 eq_refl) as [Hpn Hpu]. rewrite E4, bind_ok. cbn [snd].
    exists (-1), s4. split; [done|]. split; [done|]. split; [by eapply like_trans|]. split; [done|]. left. split; [done|]. split.
    + intros i Hii. rewrite Hlv4, Hlv3 by done. destruct (decide (i = r)) as [->|]; [by rewrite Hfree|done].
    + intros c Hc. by rewrite Hus4, Hpu.
    + intros i Hii Hl. rewrite Hn4 by done. destruct (decide (i = parent)) as [->|Hne]; [done|]. apply Ho3; try done. intros ->. by rewrite Hl in Hfree.
    + intros i m Hii Hl Hm Hne. destruct (Hk3 i m Hii Hl Hm Hne) as [<- <-]. apply Hk4; try done. rewrite Hlv3 by done. by destruct (decide _).
    + apply (directory_kept (disk s3) (disk s4) (fun _ _ => True)); try done. unfold Ext4Rw.file_size. by rewrite Hn4.
Qed.
End create.
