(* ===== verification/Ext4Mount.v ===== *)
(** * The ext4 driver: mounting

    [formatted] is a disk that holds a file system of a given layout, with blocks of 1024 bytes: for
    other sizes the driver reads the superblock and the descriptors with two different ideas of
    what a block is.  [ext4_mount] of such a disk gives a state that the other theorems are about. *)
From S2P Require Import Prelude AllocSpec Buffer Ext4 Ext4Spec Ext4Alloc.
#[local] Open Scope Z_scope.

(** ** Tables of descriptors *)

Lemma slice_slice l p n o k : (o + k <= n)%nat -> (p + n <= length l)%nat -> slice (slice l p n) o k = slice l (p + o) k.
Proof.
  intros Hk Hn. apply list_eq. intros i. destruct (decide (i < k)%nat).
  - rewrite !slice_lookup by lia. f_equal. lia.
  - rewrite !lookup_ge_None_2; [done|unfold slice; rewrite ?length_take, ?length_drop; lia..].
Qed.

Definition entry_of (descs : list Z) (g : Z) : list Z := slice descs (Z.to_nat (64 * g)) 64.

Lemma rd_entry descs g x : inside x 64 -> 0 <= g -> 64 * (g + 1) <= Z.of_nat (length descs) -> rd (shift (64 * g) x) descs = rd x (entry_of descs g).
Proof. intros Hx Hg Hl. unfold inside in Hx. unfold rd, entry_of. by rewrite slice_slice by lia. Qed.

Lemma copy_descs_ok n : forall g first l descs, 0 <= g -> 0 <= first -> 64 * (g + Z.of_nat n) <= Z.of_nat (length l) ->
  64 * (first + g + Z.of_nat n) <= Z.of_nat (length descs) -> first + g + Z.of_nat n < 2 ^ 32 -> Forall byte l -> Forall byte descs ->
  exists descs', copy_descs n g first 64 l descs = Ok descs' /\ length descs' = length descs /\ Forall byte descs' /\
    forall g', 0 <= g' -> 64 * (g' + 1) <= Z.of_nat (length descs) ->
      entry_of descs' g' = if decide (first + g <= g' < first + g + Z.of_nat n) then entry_of l (g' - first) else entry_of descs g'.
Proof.
  induction n as [|n IH]; intros g first l descs Hg Hf Hl Hd Hmax Hbl Hbd; cbn [copy_descs].
  { exists descs. split; [done|]. split; [done|]. split; [done|]. intros g' Hg' _. by rewrite decide_False by lia. }
  rewrite Z.min_id, sub_ok by lia. rewrite bind_ok, u32_small by lia. pose proof (slice_length l (Z.to_nat (g * 64)) (Z.to_nat 64)) as Hsl.
  rewrite store_ok by lia. rewrite bind_ok. set (d1 := splice _ _ _).
  assert (length d1 = length descs) as Hd1 by (unfold d1; apply splice_length; lia).
  destruct (IH (g + 1) first l d1) as (d2 & E & Hl2 & Hb2 & He); try done; try lia; [apply splice_byte; [done|by apply slice_byte]|].
  exists d2. split; [done|]. split; [lia|]. split; [done|]. intros g' Hg' Hlen. rewrite He by lia. destruct (decide (g' = first + g)) as [->|Hne].
  - rewrite decide_False, decide_True by lia. unfold entry_of, d1. replace (first + g - first) with g by lia.
    replace 64%nat with (length (slice l (Z.to_nat (g * 64)) (Z.to_nat 64))) at 1 by lia. rewrite slice_splice by lia. f_equal. lia.
  - assert (entry_of d1 g' = entry_of descs g') as -> by (apply slice_splice_ne; lia).
    destruct (decide (first + (g + 1) <= g' < first + (g + 1) + Z.of_nat n)); [by rewrite decide_True by lia|by rewrite decide_False by lia].
Qed.

Section mount.
Context {A D : Type} `{AllocatorLaws A} `{BlockDevice D} {nblocks : Z} {L : layout}.
Context `{!DeviceLaws D 1024 nblocks} `{!BufferPool A 1024} {GL : good_layout 1024 nblocks L}.
Abbreviation state := (st A D).
Abbreviation in_group := (in_group L).

(** The superblock and the descriptors on the disk. *)
Definition disk_sb (d : D) : list Z := take superblock_size (blk d 1).
Definition disk_desc (d : D) (g : Z) (x : field) : Z := rd x (entry_of (blk d (2 + g / 16)) (g mod 16)).
Definition disk_wide (d : D) (g : Z) (lo hi : field) (bits : Z) : Z := Z.lor (disk_desc d g lo) (Z.shiftl (disk_desc d g hi) bits).
Definition disk_total (d : D) : Z := Z.lor (rd s_blocks_count_lo (disk_sb d)) (Z.shiftl (rd s_blocks_count_hi (disk_sb d)) 32).

Record formatted (d : D) : Prop := {
  fm_device : dv_ok d; fm_magic : rd s_magic (disk_sb d) = EXT4_SUPER_MAGIC; fm_log : rd s_log_block_size (disk_sb d) = 0;
  fm_bpg : rd s_blocks_per_group (disk_sb d) = l_bpg L; fm_ipg : rd s_inodes_per_group (disk_sb d) = l_ipg L;
  fm_rev : EXT4_DYNAMIC_REV <= rd s_rev_level (disk_sb d); fm_isz : rd s_inode_size (disk_sb d) = l_isz L;
  fm_64bit : Z.land (rd s_feature_incompat (disk_sb d)) EXT4_FEATURE_INCOMPAT_64BIT <> 0; fm_desc_size : rd s_desc_size (disk_sb d) = 64;
  fm_first : rd s_first_data_block (disk_sb d) = l_first L;
  fm_total : (l_count L - 1) * l_bpg L < disk_total d <= l_count L * l_bpg L; fm_groups : 64 * l_count L < 2 ^ 32;
  fm_room : 2 + (l_count L + 15) / 16 <= nblocks;
  fm_blocks g : in_group g -> disk_wide d g bg_block_bitmap_lo bg_block_bitmap_hi 32 = l_blocks L g;
  fm_inodes g : in_group g -> disk_wide d g bg_inode_bitmap_lo bg_inode_bitmap_hi 32 = l_inodes L g;
  fm_table g : in_group g -> disk_wide d g bg_inode_table_lo bg_inode_table_hi 32 = l_table L g;
  fm_counts w g : in_group g -> disk_wide d g (k_free_lo (kind w)) (k_free_hi (kind w)) 16 = clear_bits (blk d (map_of L w g)) (limit_of L w)
}.

Lemma descs_loop_ok n : forall b (s : state), let c := l_count L in let needed := (c + 15) / 16 in
  block_size (fs s) = 1024 -> desc_size (fs s) = 64 -> group_count (fs s) = c -> dv_ok (disk s) -> 64 * c < 2 ^ 32 -> 2 + needed <= nblocks ->
  0 <= b -> b + Z.of_nat n = needed -> Z.of_nat (length (group_descs (fs s))) = 64 * c -> Forall byte (group_descs (fs s)) ->
  exists descs, descs_loop n b needed 2 16 s = Ok (Some (with_fs s (with_descs (fs s) descs))) /\ Z.of_nat (length descs) = 64 * c /\ Forall byte descs /\
    forall g, 0 <= g < c -> entry_of descs g = if decide (16 * b <= g) then entry_of (blk (disk s) (2 + g / 16)) (g mod 16) else entry_of (group_descs (fs s)) g.
Proof using Type*.
  pose proof gl_count as Hc0. induction n as [|n IH]; intros b s c needed Hbs Hds Hgc Hdv Hmax Hroom Hb Hn Hlen Hby; cbn [descs_loop].
  { exists (group_descs (fs s)). split; [by destruct s as [[]]|]. split; [done|]. split; [done|]. intros g Hg.
    rewrite decide_False; [done|]. assert (c <= 16 * needed) by (unfold needed; lia_mod). lia. }
  assert (c <= 16 * needed < c + 16) as Hnd by (unfold needed; lia_mod). assert (0 < c) by exact Hc0.
  rewrite (read_ok s (2 + b)) by (done || lia). rewrite bind_ok. set (cnt := if b =? needed - 1 then _ else 16).
  assert (cnt = Z.min 16 (c - 16 * b) /\ 0 < cnt) as [Ecnt Hcnt].
  { unfold cnt. rewrite Hgc. destruct (Z.eqb_spec b (needed - 1)); [rewrite u32_small by lia; lia|lia]. }
  clearbody cnt. pose proof (blk_length (disk s) (2 + b) Hdv) as Hbl. pose proof (blk_byte (disk s) (2 + b) Hdv) as Hbb.
  rewrite Hds. destruct (copy_descs_ok (Z.to_nat cnt) 0 (b * 16) (blk (disk s) (2 + b)) (group_descs (fs s))) as (d1 & E & Hl1 & Hb1 & He1); try lia; [apply Hbb; lia|done|].
  rewrite E, bind_ok. set (s1 := with_fs s (with_descs (fs s) d1)).
  destruct (IH (b + 1) s1) as (d2 & E2 & Hl2 & Hb2 & He2); try done; try lia; [fold c needed; lia|change (group_descs (fs s1)) with d1; fold c; lia|].
  fold c needed in E2. rewrite E2. exists d2. split; [done|]. split; [done|]. split; [done|].
  intros g Hg. rewrite He2 by done. cbn [s1 fs with_fs with_descs group_descs disk]. destruct (decide (16 * (b + 1) <= g)); [by rewrite decide_True by lia|].
  rewrite He1 by lia. destruct (decide (16 * b <= g)); [|by rewrite decide_False by lia].
  rewrite decide_True by lia. assert (g / 16 = b) as -> by (symmetry; apply Z.div_unique with (g - 16 * b); lia). f_equal.
  apply Z.mod_unique with b; lia.
Qed.

Lemma disk_sb_ok d : dv_ok d -> 1 < nblocks -> length (disk_sb d) = superblock_size /\ Forall byte (disk_sb d).
Proof using Type*.
  intros Hd Hn. destruct (law_read d 1 Hd) as (l & E & Hl & Hb); [lia|]. unfold disk_sb, blk. rewrite E. change (default [] (Some l)) with l.
  split; [rewrite length_take; unfold superblock_size; lia|by apply Forall_take].
Qed.

Lemma geometry_ok d p : formatted d ->
  read_geometry (disk_sb d) p = Ok (Ext4 (disk_sb d) 1024 (l_bpg L) (l_ipg L) (l_isz L) (l_count L) 64 [] p 0).
Proof using Type*.
  intros [Hdv Hmg Hlog Hbpg Hipg Hrev Hisz H64 Hds Hfi Htot Hgr Hroom _ _ _ _]. pose proof gl_bpg. pose proof gl_count. pose proof gl_numbers. pose proof gl_first.
  unfold read_geometry. rewrite Hlog, Hbpg, Hipg, Hisz, Hds, (proj2 (Z.eqb_neq _ _) H64). cbn [negb]. fold (disk_total d).
  change (21 <=? 0) with false. change (Z.shiftl 1024 0) with 1024. cbv zeta iota. rewrite (proj2 (Z.eqb_neq _ _)) by lia. rewrite (proj2 (Z.leb_le _ _)) by done.
  do 2 f_equal. rewrite u64_small by nia. assert ((disk_total d + l_bpg L - 1) / l_bpg L = l_count L) as ->.
  { symmetry. apply Z.div_unique with (disk_total d - 1 - (l_count L - 1) * l_bpg L); lia. }
  apply u32_small. lia.
Qed.

(** What is allocated while the file system is mounted. *)
Definition mount_caps (h h' : A) (p q : Z) : Prop :=
  p <> q /\ a_cap h p = None /\ a_cap h q = None /\ exists c1 c2, forall x, a_cap h' x = if decide (x = q) then Some c2 else if decide (x = p) then Some c1 else a_cap h x.

(** The state that a mount leads to. *)
Definition fresh_mount (d : D) (descs : list Z) (p q : Z) : ext4_fs := Ext4 (disk_sb d) 1024 (l_bpg L) (l_ipg L) (l_isz L) (l_count L) 64 descs p q.

Lemma fresh_mount_ok d h descs p q : formatted d -> a_inv h -> Z.of_nat (length descs) = 64 * l_count L -> Forall byte descs ->
  (forall g, in_group g -> entry_of descs g = entry_of (blk d (2 + g / 16)) (g mod 16)) -> ok (bs := 1024) (L := L) (St (fresh_mount d descs p q) h d).
Proof using Type*.
  intros Hfm Hh Hl Hb He. assert (1 < nblocks) as Hn by (pose proof (fm_room _ Hfm); pose proof gl_count; assert (0 <= (l_count L + 15) / 16) by (apply Z.div_pos; lia); lia).
  destruct (disk_sb_ok d (fm_device _ Hfm) Hn) as [Hsl Hsb]. pose proof Hfm as [Hdv Hmg Hlog Hbpg Hipg Hrev Hisz H64 Hds Hfi Htot Hgr Hroom Hbb Hib Hit Hcn].
  assert (forall g x, in_group g -> inside x 64 -> desc (fresh_mount d descs p q) g x = disk_desc d g x) as Hd.
  { intros g x Hg Hx. unfold desc, disk_desc. cbn [group_descs fresh_mount]. unfold Ext4Spec.in_group in Hg. rewrite rd_entry by (done || lia). by rewrite He. }
  assert (forall g lo hi k, in_group g -> inside lo 64 -> inside hi 64 -> desc_wide (fresh_mount d descs p q) g lo hi k = disk_wide d g lo hi k) as Hw.
  { intros g lo hi k Hg Hlo Hhi. unfold desc_wide, disk_wide. cbn [desc_size fresh_mount]. change (64 <=? 64) with true. cbv iota. by rewrite !Hd. }
  split; cbn [fs heap disk]; try done.
  - split; cbn [fresh_mount block_size blocks_per_group inodes_per_group inode_size group_count sb group_descs]; try done; [lia|..];
      intros g Hg; rewrite Hw by (done || (unfold inside; cbn; lia)); auto.
  - intros w g Hg. rewrite Hw by (done || (destruct w; unfold inside; cbn; lia)). auto.
Qed.

Lemma ext4_mount_ok junk (m : mounted A D) : formatted (m_disk m) -> a_inv (m_heap m) -> (forall n, length (junk n) = n /\ Forall byte (junk n)) ->
  exists r m', ext4_mount junk m = Ok (r, m') /\ m_disk m' = m_disk m /\ a_inv (m_heap m') /\
    ((r = -1 /\ root_ext4 m' = root_ext4 m /\ cap_same (a_cap (m_heap m)) (a_cap (m_heap m'))) \/
     (r = 0 /\ exists f, root_ext4 m' = Some f /\ ok (bs := 1024) (L := L) (St f (m_heap m') (m_disk m')) /\ mount_caps (m_heap m) (m_heap m') (fs_addr f) (descs_addr f))).
Proof using Type*.
  intros Hfm Hh Hjunk. set (d := m_disk m) in *. pose proof (fm_device _ Hfm) as Hdv. pose proof gl_count. pose proof (fm_groups _ Hfm) as Hgr. pose proof (fm_room _ Hfm) as Hroom.
  assert (0 <= (l_count L + 15) / 16) by (apply Z.div_pos; lia). unfold ext4_mount. fold d.
  destruct (law_alloc (m_heap m) sizeof_ext4_fs GFP_KERNEL Hh) as (p & h1 & E1 & Hi1 & Hp); [done|]. rewrite E1, bind_ok.
  destruct (Z.eqb_spec p 0) as [->|Hp0].
  { destruct Hp as [[_ Hc]|[? _]]; [|done]. eexists _, _. split; [done|]. split; [done|]. split; [done|]. left. done. }
  destruct Hp as [[? _]|(_ & Hpn & c1 & _ & Hc1)]; [done|].
  destruct (law_read d 1 Hdv) as (l & El & Hl & _); [lia|]. cbn [m_disk root_ext4 m_heap]. rewrite El, Hl. change (negb (1024 =? 1024)) with false. cbv iota zeta.
  assert (take superblock_size l = disk_sb d) as -> by (unfold disk_sb, blk; by rewrite El). rewrite (fm_magic _ Hfm). change (negb _) with false. cbv iota.
  rewrite (geometry_ok d p Hfm), bind_ok. cbn [group_count desc_size sb block_size blocks_per_group inodes_per_group inode_size].
  rewrite (u32_small (l_count L * 64)) by lia. destruct (law_alloc h1 (l_count L * 64) GFP_KERNEL Hi1) as (q & h2 & E2 & Hi2 & Hq); [lia|]. rewrite E2, bind_ok.
  destruct (Z.eqb_spec q 0) as [->|Hq0].
  { destruct Hq as [[_ Hc]|[? _]]; [|done]. destruct (law_free h2 p c1 Hi2) as (h3 & E3 & Hi3 & Hc3); [by rewrite Hc, Hc1, decide_True|]. rewrite E3, bind_ok.
    eexists _, _. split; [done|]. split; [done|]. split; [done|]. left. split; [done|]. split; [done|]. cbn [m_heap].
    eapply cap_update_undo; [exact Hpn|exact Hc1|]. intros x. rewrite Hc3. by rewrite Hc. }
  destruct Hq as [[? _]|(_ & Hqn & c2 & _ & Hc2)]; [done|]. assert (p <> q) as Hpq by (intros ->; by rewrite Hc1, decide_True in Hqn).
  rewrite Hc1, decide_False in Hqn by congruence.
  destruct (law_alloc h2 1024 GFP_KERNEL Hi2) as (b & h3 & E3 & Hi3 & Hb); [done|]. rewrite E3, bind_ok. destruct (Z.eqb_spec b 0) as [->|Hb0].
  { destruct Hb as [[_ Hc]|[? _]]; [|done]. unfold free2. destruct (law_free h3 q c2 Hi3) as (h4 & E4 & Hi4 & Hc4); [by rewrite Hc, Hc2, decide_True|]. rewrite E4, bind_ok.
    destruct (law_free h4 p c1 Hi4) as (h5 & E5 & Hi5 & Hc5); [by rewrite Hc4, decide_False, Hc, Hc2, decide_False, Hc1, decide_True by done|]. rewrite E5, bind_ok.
    eexists _, _. split; [done|]. split; [done|]. split; [done|]. left. split; [done|]. split; [done|]. cbn [m_heap].
    intros x. rewrite Hc5. destruct (decide (x = p)) as [->|Hxp]; [done|]. rewrite Hc4. destruct (decide (x = q)) as [->|Hxq]; [done|]. by rewrite Hc, Hc2, decide_False, Hc1, decide_False. }
  destruct Hb as [[? _]|(_ & Hbn & c3 & _ & Hc3)]; [done|]. change (64 =? 0) with false. change (1024 / 64) with 16. change (16 =? 0) with false. change (1024 =? 1024) with true. cbv iota zeta.
  replace (l_count L + 16 - 1) with (l_count L + 15) by lia. rewrite (u32_small (l_count L + 15)) by lia.
  destruct (Hjunk (Z.to_nat (l_count L * 64))) as [Hjl Hjb].
  destruct (descs_loop_ok (Z.to_nat ((l_count L + 15) / 16)) 0 (St (fresh_mount d (junk (Z.to_nat (l_count L * 64))) p q) h3 d)) as (descs & Ed & Hdl & Hdb & He); try done; try lia;
    [cbn [fs fresh_mount group_descs]; lia|]. unfold fresh_mount in Ed at 1. cbn [fs fresh_mount] in Ed. rewrite Ed, bind_ok.
  destruct (law_free h3 b c3 Hi3) as (h4 & E4 & Hi4 & Hc4); [by rewrite Hc3, decide_True|]. rewrite E4, bind_ok.
  eexists _, _. split; [done|]. split; [done|]. split; [done|]. right. split; [done|]. eexists. split; [done|]. cbn [m_heap m_disk fs with_fs with_descs fs_addr descs_addr]. split.
  - apply (fresh_mount_ok d h4 descs p q); try done. intros g Hg. rewrite He by done. rewrite decide_True; [done|]. destruct Hg. lia.
  - split; [done|]. split; [done|]. split; [done|]. exists c1, c2. intros x. rewrite Hc4. destruct (decide (x = b)) as [->|Hxb].
    + rewrite Hc2, Hc1 in Hbn. symmetry. exact Hbn.
    + by rewrite Hc3, decide_False, Hc2, Hc1.
Qed.

(** ** Unmounting *)

Lemma sync_ok (s : state) : ok (bs := 1024) (L := L) s -> (0 < spare (heap s))%nat -> 1 < nblocks ->
  exists s', ext4_sync_superblock s = Ok (0, s') /\ fs s' = fs s /\ like (heap s) (heap s') /\ dv_ok (disk s') /\
    forall c, blk (disk s') c = if decide (c = 1) then splice (blk (disk s) 1) 0 (sb (fs s)) else blk (disk s) c.
Proof using Type*.
  intros [Hf Hd Hh _] Hs Hn. destruct (new_buf_ok s Hh (fo_bs _ _ _ Hf) Hs) as (p & h & E & Hp & Hih & _ & Hho). unfold ext4_sync_superblock. cbv zeta.
  rewrite E, bind_ok, Hp. rewrite (fo_bs _ _ _ Hf). change (1024 =? 1024) with true. cbv iota. rewrite read_ok by (done || apply Hf || lia). rewrite bind_ok. cbn [disk fs with_heap].
  pose proof (blk_length (disk s) 1 Hd ltac:(lia)) as Hlen. pose proof (fo_sb _ _ _ Hf) as Hsb. unfold superblock_size in Hsb. rewrite store_ok by lia. rewrite bind_ok. change (Z.to_nat 0) with 0%nat.
  destruct (write_ok (with_heap s h) 1 (splice (blk (disk s) 1) 0 (sb (fs s)))) as (d & Ew & Hd' & Hblk); try done; [rewrite splice_length by lia; done|apply splice_byte; [apply blk_byte; [done|lia]|apply Hf]|].
  rewrite Ew. destruct (done_ok (heap s) p h (with_disk (with_heap s h) d) 0 Hho (like_refl _ Hih)) as (h' & Ed & Hl). rewrite Ed.
  eexists. split; [done|]. done.
Qed.

Lemma ext4_unmount_ok (m : mounted A D) f c1 c2 : root_ext4 m = Some f -> ok (bs := 1024) (L := L) (St f (m_heap m) (m_disk m)) -> (0 < spare (m_heap m))%nat -> 1 < nblocks ->
  a_cap (m_heap m) (fs_addr f) = Some c1 -> a_cap (m_heap m) (descs_addr f) = Some c2 -> fs_addr f <> descs_addr f ->
  exists m', ext4_unmount m = Ok (0, m') /\ root_ext4 m' = None /\ a_inv (m_heap m') /\
    (forall x, a_cap (m_heap m') x = if decide (x = fs_addr f \/ x = descs_addr f) then None else a_cap (m_heap m) x) /\
    (forall c, blk (m_disk m') c = if decide (c = 1) then splice (blk (m_disk m) 1) 0 (sb f) else blk (m_disk m) c).
Proof using Type*.
  intros Er Hok Hs Hn H1' H2' Hne. unfold ext4_unmount. rewrite Er. destruct (sync_ok _ Hok Hs Hn) as (s & E & Ef & (Hi & Hc & _) & Hd & Hblk). rewrite E, bind_ok. cbn [fs heap disk] in *. rewrite Ef.
  assert (descs_addr f <> 0) as H0' by (intros E0; rewrite E0, law_null in H2'; [done|apply (ok_heap _ Hok)]). rewrite (proj2 (Z.eqb_neq _ _)) by done.
  destruct (law_free (heap s) (descs_addr f) c2 Hi) as (h1 & E1 & Hi1 & Hc1); [by rewrite Hc|]. rewrite E1, bind_ok.
  destruct (law_free h1 (fs_addr f) c1 Hi1) as (h2 & E2 & Hi2 & Hc2); [by rewrite Hc1, decide_False, Hc|]. rewrite E2, bind_ok.
  eexists. split; [done|]. split; [done|]. split; [done|]. split; [|done]. intros x. cbn [m_heap]. rewrite Hc2, Hc1, Hc.
  destruct (decide (x = fs_addr f)); [by rewrite decide_True by auto|]. destruct (decide (x = descs_addr f)); [by rewrite decide_True by auto|]. by rewrite decide_False by tauto.
Qed.
End mount.
