(* ===== verification/Ext4Demo.v ===== *)
(** * The ext4 driver: a small disk

    A device in memory, and on it an empty file system of 64 blocks with one group and 16 inodes,
    on which the witnesses run. *)
From S2P Require Import Prelude AllocSpec Buffer Ext4 Ext4Spec HeapPool Ext4Alloc Ext4Nodes Ext4Map Ext4Rw Ext4Dir Ext4Mount.
From S2P Require Kmalloc KmallocInv KmallocSpec.
#[local] Open Scope Z_scope.

(** ** A device *)

Record ram_disk := RamDisk { blocks : list (list Z) }.

#[export] Instance ram_device : BlockDevice ram_disk := {
  dv_read d b := if 0 <=? b then blocks d !! Z.to_nat b else None;
  dv_write d b l := if (0 <=? b) && (b <? Z.of_nat (length (blocks d))) then Some (RamDisk (<[Z.to_nat b := l]> (blocks d))) else None
}.

Definition good_block (size : Z) (l : list Z) : bool := (Z.of_nat (length l) =? size) && forallb (fun c => (0 <=? c) && (c <? 256)) l.

Lemma good_block_ok size l : good_block size l = true <-> Z.of_nat (length l) = size /\ Forall byte l.
Proof.
  unfold good_block. rewrite andb_true_iff, Z.eqb_eq, forallb_forall. split; (intros [Hl Hb]; split; [done|]).
  - apply Forall_forall. intros c Hc. apply list_elem_of_In, Hb in Hc. unfold byte. lia.
  - intros c Hc. apply list_elem_of_In in Hc. rewrite Forall_forall in Hb. specialize (Hb c Hc). unfold byte in Hb. lia.
Qed.

#[export] Instance ram_laws size n : DeviceLaws ram_disk size n.
Proof.
  exists (fun d => Z.of_nat (length (blocks d)) = n /\ Forall (fun l => good_block size l = true) (blocks d)).
  - intros d b [Hn Hd] Hb. cbn [dv_read ram_device]. rewrite (proj2 (Z.leb_le _ _)) by lia. destruct (lookup_lt_is_Some_2 (blocks d) (Z.to_nat b)) as [l Hl]; [lia|].
    exists l. split; [done|]. apply good_block_ok. exact (Forall_lookup_1 _ _ _ _ Hd Hl).
  - intros d b l [Hn Hd] Hb Hl Hby. cbn [dv_write dv_read ram_device]. rewrite (proj2 (Z.leb_le _ _)), (proj2 (Z.ltb_lt _ _)) by lia. cbn [andb]. eexists. split; [done|]. split.
    + cbn. rewrite length_insert. split; [done|]. apply Forall_insert; [done|]. by apply good_block_ok.
    + intros c. cbn [blocks]. case_decide as Hc.
      * subst. rewrite (proj2 (Z.leb_le _ _)) by lia. apply list_lookup_insert_eq. lia.
      * destruct (Z.leb_spec 0 c); [|done]. apply list_lookup_insert_ne. lia.
Defined.

(** ** A file system *)

Definition demo_layout : layout := Layout 1 64 16 128 1 (fun _ => 3) (fun _ => 4) (fun _ => 5).

Definition demo_sb : list Z :=
  wr s_blocks_count_lo 64 (wr s_free_blocks_count_lo 57 (wr s_free_inodes_count 5 (wr s_first_data_block 1 (wr s_blocks_per_group 64 (wr s_inodes_per_group 16
  (wr s_magic EXT4_SUPER_MAGIC (wr s_rev_level 1 (wr s_inode_size 128 (wr s_feature_incompat 0x80 (wr s_desc_size 64 (replicate 1024 0))))))))))).

Definition demo_descs : list Z :=
  wr bg_block_bitmap_lo 3 (wr bg_inode_bitmap_lo 4 (wr bg_inode_table_lo 5 (wr bg_free_blocks_count_lo 57 (wr bg_free_inodes_count_lo 5 (replicate 64 0))))).

Definition demo_disk : ram_disk := RamDisk (
  [replicate 1024 0; demo_sb; demo_descs ++ replicate 960 0; [0x3F; 0; 0; 0; 0; 0; 0; 0x80] ++ replicate 1016 0; 0xFF :: 0x07 :: replicate 1022 0] ++ replicate 59 (replicate 1024 0)).

#[export] Instance demo_good : good_layout 1024 64 demo_layout.
Proof.
  split; cbn; try lia; try done.
  - intros [g|g|g j]; cbn; [lia..|]. change (table_len 1024 demo_layout) with 2. lia.
  - intros [g|g|g j] [g'|g'|g' j']; cbn; unfold in_group; cbn; change (table_len 1024 demo_layout) with 2; intros; try lia; f_equal; lia.
Qed.

Lemma demo_device : dv_ok (DeviceLaws := ram_laws 1024 64) demo_disk.
Proof. split; [vm_compute; reflexivity|]. apply Forall_forall. intros l Hl. apply list_elem_of_In in Hl. revert l Hl. apply forallb_forall. vm_compute. reflexivity. Qed.

Lemma demo_formatted : formatted (nblocks := 64) (L := demo_layout) demo_disk.
Proof.
  split; [apply demo_device|vm_compute; reflexivity|vm_compute; reflexivity|vm_compute; reflexivity|vm_compute; reflexivity|vm_compute; discriminate|vm_compute; reflexivity|vm_compute; discriminate|vm_compute; reflexivity|vm_compute; reflexivity|vm_compute; split; [reflexivity|discriminate]|vm_compute; reflexivity|vm_compute; discriminate|..].
  - intros g [H0 H1]. cbn in H1. assert (g = 0) as -> by lia. vm_compute. reflexivity.
  - intros g [H0 H1]. cbn in H1. assert (g = 0) as -> by lia. vm_compute. reflexivity.
  - intros g [H0 H1]. cbn in H1. assert (g = 0) as -> by lia. vm_compute. reflexivity.
  - intros w g [H0 H1]. cbn in H1. assert (g = 0) as -> by lia. destruct w; vm_compute; reflexivity.
Qed.

(** ** The mounted file system *)

#[export] Existing Instances KmallocSpec.kernel_heap KmallocSpec.kernel_heap_laws.
#[export] Instance demo_pool : BufferPool Kmalloc.heap 1024.
Proof. apply heap_pool; [done|by exists 32]. Defined.

Definition demo_heap : Kmalloc.heap := KmallocSpec.boot_heap (2 ^ 30).

Lemma demo_heap_ok : a_inv demo_heap.
Proof. apply KmallocSpec.boot_heap_inv. Qed.

Lemma demo_spare : (3 <= spare demo_heap)%nat.
Proof.
  change (spare demo_heap) with (Z.to_nat (KmallocInv.weigh (fun n => n / chunk 1024) (Kmalloc.hdrs demo_heap) (free_blocks demo_heap))).
  assert (KmallocInv.weigh (fun n => n / chunk 1024) (Kmalloc.hdrs demo_heap) (free_blocks demo_heap) = 508400) as -> by (vm_compute; reflexivity). lia.
Qed.

Definition demo : st Kmalloc.heap ram_disk := St (fresh_mount (L := demo_layout) demo_disk demo_descs 0x50000000 0x50001000) demo_heap demo_disk.

Lemma demo_ok : ok (bs := 1024) (nblocks := 64) (L := demo_layout) demo.
Proof.
  apply fresh_mount_ok; [apply demo_formatted|apply demo_heap_ok|by vm_compute|..].
  - apply (good_block_ok 64). by vm_compute.
  - intros g [H0 H1]. cbn in H1. assert (g = 0) as -> by lia. by vm_compute.
Qed.

(** Inodes 1 to 11 are in use, and have no blocks. *)
Lemma demo_node i : inode_ok (L := demo_layout) i -> node (bs := 1024) (L := demo_layout) demo_disk i = replicate inode_bytes 0.
Proof.
  intros Hi. unfold inode_ok in Hi. cbn in Hi. revert i Hi.
  assert (forallb (fun i => bool_decide (node (bs := 1024) (L := demo_layout) demo_disk i = replicate inode_bytes 0)) (seqZ 1 16) = true) as Hall by (vm_compute; reflexivity).
  intros i Hi. rewrite forallb_forall in Hall. eapply bool_decide_eq_true_1, Hall, list_elem_of_In, elem_of_seqZ. lia.
Qed.

Lemma zero_ref B u : valid_use (bs := 1024) u -> ref (bs := 1024) B (replicate inode_bytes 0) u = 0.
Proof.
  intros Hu. assert (forall k, 0 <= k < 15 -> rd (i_block k) (replicate inode_bytes 0) = 0) as Hz.
  { assert (forallb (fun k => rd (i_block k) (replicate inode_bytes 0) =? 0) (seqZ 0 15) = true) as Hall by (vm_compute; reflexivity).
    intros k Hk. rewrite forallb_forall in Hall. apply Z.eqb_eq, Hall, list_elem_of_In, elem_of_seqZ. lia. }
  destruct u as [n| | |k]; cbn [ref]; rewrite ?(Hz 12), ?(Hz 13) by lia; try done. cbn in Hu. destruct (Z.ltb_spec n 12); [apply Hz; lia|]. by repeat case_match.
Qed.

Lemma demo_sound : sound (bs := 1024) (nblocks := 64) (L := demo_layout) demo_disk.
Proof.
  split.
  - intros i Hi. by rewrite demo_node. - intros i Hi. rewrite demo_node by done. by apply Forall_replicate.
  - intros i u Hi _ Hu. by rewrite demo_node, zero_ref. - intros i u j v Hi _ Hu Hj _ Hv. by rewrite demo_node, zero_ref.
  - intros b Hb Hfree. unfold area in Hb. cbn in Hb. assert (forallb (fun b => used (L := demo_layout) demo_disk b || (7 <=? b) && (b <? 64)) (seqZ 1 64) = true) as Hall by (vm_compute; reflexivity).
    rewrite forallb_forall in Hall. specialize (Hall b). rewrite Hfree in Hall. cbn [orb] in Hall.
    assert ((7 <=? b) && (b <? 64) = true) as Hr by (apply Hall, list_elem_of_In, elem_of_seqZ; lia).
    split; [done|]. split; [lia|]. split; [|lia]. intros ([g|g|g j] & Hv & E); cbn in Hv, E; [lia..|]. change (table_len 1024 demo_layout) with 2 in Hv. lia.
Qed.

Lemma demo_some : (0 < spare (heap demo))%nat.
Proof. change (heap demo) with demo_heap. pose proof demo_spare. lia. Qed.

(** Inode 11 is a directory without blocks. *)
Lemma demo_directory : is_directory (bs := 1024) (L := demo_layout) (disk demo) 11 [].
Proof. split; [vm_compute; reflexivity|]. intros j o Hj. by rewrite lookup_nil in Hj. Qed.

(** ** A device of bytes, whatever they are *)

Record byte_disk := ByteDisk { sectors : list (list Byte.byte) }.

Definition to_byte (c : Z) : Byte.byte := default Byte.x00 (Byte.of_N (Z.to_N (u8 c))).

#[export] Instance byte_device : BlockDevice byte_disk := {
  dv_read d b := if 0 <=? b then map (fun c => Z.of_N (Byte.to_N c)) <$> sectors d !! Z.to_nat b else None;
  dv_write d b l := if (0 <=? b) && (b <? Z.of_nat (length (sectors d))) then Some (ByteDisk (<[Z.to_nat b := map to_byte l]> (sectors d))) else None
}.

Lemma byte_device_bytes (d : byte_disk) b l : dv_read d b = Some l -> Forall byte l.
Proof.
  cbn [dv_read byte_device]. destruct (0 <=? b); [|done]. intros (bl & _ & ->)%fmap_Some. apply Forall_map, Forall_true. intros c.
  pose proof (Byte.to_N_bounded c). unfold byte. lia.
Qed.

(** A file system on a disk full of zeros. *)
Definition wild : st Kmalloc.heap byte_disk := St (fs demo) demo_heap (ByteDisk (replicate 64 (replicate 1024 Byte.x00))).
