(* ===== verification/Ext4Theorems.v ===== *)
(** * The ext4 driver: theorems and witnesses *)
From S2P Require Import Prelude AllocSpec Buffer Ext4 Ext4Spec Ext4Alloc Ext4Nodes Ext4Map Ext4File Ext4Rw Ext4Dir Ext4Create Ext4Mount Ext4Demo Ext4Total.
#[local] Open Scope Z_scope.

Section ext4.
Context {A D : Type} `{AllocatorLaws A} `{BlockDevice D} {bs nblocks : Z} {L : layout}.
Context `{!DeviceLaws D bs nblocks} `{!BufferPool A bs} {GL : good_layout bs nblocks L}.
Abbreviation state := (st A D).
Abbreviation ok := (ok (bs := bs) (nblocks := nblocks) (L := L)). Abbreviation area := (area (L := L)). Abbreviation used := (used (L := L)).
Abbreviation live := (live (L := L)). Abbreviation inode_ok := (inode_ok (L := L)). Abbreviation sound := (sound (bs := bs) (nblocks := nblocks) (L := L)).
Abbreviation written_at := (written_at (bs := bs) (nblocks := nblocks) (L := L)). Abbreviation file_size := (file_size (bs := bs) (L := L)).
Abbreviation bytes_from := (bytes_from (bs := bs) (L := L)). Abbreviation has_byte := (has_byte (bs := bs) (L := L)).

(** C15. A write to a file in use stores a prefix of the bytes at the offset and changes no byte of another file; the size grows to the end of what was written (in 32 bits), the block
    maps stay sound, and the prefix is short only beyond the mapped blocks or on a device with at most one free block. *)
Theorem ext4_write_file_correct (s : state) ino src offset (Hok : ok s) (Hs : (3 <= spare (heap s))%nat) (Hm : sound (disk s)) (Hi : inode_ok ino)
    (Hl : live (disk s) ino = true) (Ho : 0 <= offset) (Hn : Z.of_nat (length src) < 2 ^ 31) (Hmax : offset + Z.of_nat (length src) < 2 ^ 63) (Hb : Forall byte src) :
  exists k s', ext4_write_file s ino src offset = Ok (k, s') /\ 0 <= k <= Z.of_nat (length src) /\ written_at s ino offset k src s' /\
    (k < Z.of_nat (length src) -> (12 + bs / 4) * bs <= offset + k \/ nearly_full (L := L) (disk s')).
Proof using Type*. by apply write_file_ok. Qed.

(** A read of a file in use returns its bytes from the offset on, up to the size, the length asked for or the first hole, and changes nothing. *)
Theorem ext4_read_file_correct (s : state) ino offset len (Hok : ok s) (Hs : (3 <= spare (heap s))%nat) (Hm : sound (disk s)) (Hi : inode_ok ino)
    (Hl : live (disk s) ino = true) (Ho : 0 <= offset) (Hn : 0 <= len < 2 ^ 31) (Hmax : offset + len < 2 ^ 63) :
  let avail := Z.max 0 (Z.min len (file_size (disk s) ino - offset)) in
  exists k s', ext4_read_file s ino offset len = Ok (k, bytes_from (disk s) ino offset k, s') /\ quiet s s' /\ 0 <= k <= avail /\
    (forall pos, offset <= pos < offset + k -> has_byte (disk s) ino pos) /\ (k < avail -> ~ has_byte (disk s) ino (offset + k)).
Proof using Type*. by apply read_file_ok. Qed.

(** C16. What a write stored is what a read at the same place returns. *)
Theorem ext4_write_read (s : state) ino src offset (Hok : ok s) (Hs : (3 <= spare (heap s))%nat) (Hm : sound (disk s)) (Hi : inode_ok ino)
    (Hl : live (disk s) ino = true) (Ho : 0 <= offset) (Hn : Z.of_nat (length src) < 2 ^ 31) (Hmax : offset + Z.of_nat (length src) < 2 ^ 32) (Hb : Forall byte src) :
  exists k s1 s2, ext4_write_file s ino src offset = Ok (k, s1) /\ ext4_read_file s1 ino offset k = Ok (k, take (Z.to_nat k) src, s2).
Proof using Type*.
  destruct (write_file_ok s ino src offset) as (k & s1 & E1 & Hk & [Hok1 Hl1 Hm1 Hlv _ Hsz _ Hby _ Hbl] & _); try done; [lia|].
  destruct (read_file_ok s1 ino offset k) as (j & s2 & E2 & _ & Hj & _ & Hhole); try done; try lia; [destruct Hl1 as (_ & _ & ?); lia|by rewrite Hlv|].
  assert (offset + k <= file_size (disk s1) ino) as Hge by (rewrite Hsz, u32_small by lia; destruct (Z.ltb_spec (file_size (disk s) ino) (offset + k)); lia).
  assert (j = k) as ->. { destruct (Z.eq_dec j k); [done|]. exfalso. apply Hhole; [lia|]. apply Hbl. lia. }
  exists k, s1, s2. split; [done|]. rewrite E2. do 3 f_equal. unfold Ext4Rw.bytes_from.
  apply list_eq_same_length with (Z.to_nat k); [rewrite length_take; lia|by rewrite length_map, length_seqZ|]. intros i x y Hlt Hx Hy.
  rewrite list_lookup_fmap, lookup_seqZ_lt in Hx by lia. injection Hx as <-. rewrite lookup_take_lt in Hy by lia.
  rewrite Hby by (done || lia). rewrite decide_True by lia. replace (Z.to_nat (offset + Z.of_nat i - offset)) with i by lia. by rewrite Hy.
Qed.

(** An allocation takes the first free block of the first group with one, counted from the preferred group, and marks it used; it fails only when every block is used. *)
Theorem ext4_alloc_block_correct (s : state) pref (Hok : ok s) (Hs : (0 < spare (heap s))%nat) (Hp : 0 <= pref < 2 ^ 31) :
  exists r s', ext4_alloc_block s pref = Ok (r, s') /\ ok s' /\ like (heap s) (heap s') /\
  ((r = -1 /\ fs s' = fs s /\ disk s' = disk s /\ forall b, area b -> used (disk s) b = true) \/
   (area r /\ used (disk s) r = false /\ bit_views (bs := bs) (L := L) Blocks r true (disk s) (disk s') /\
    (forall c, area c -> group_of (L := L) c = group_of (L := L) r -> c < r -> used (disk s) c = true) /\
    (forall c, area c -> (group_of (L := L) c - pref) mod l_count L < (group_of (L := L) r - pref) mod l_count L -> used (disk s) c = true))).
Proof using Type*. by apply alloc_block_ok. Qed.

(** C20. Truncation sets the size, releases exactly the blocks of the file behind it and changes no byte of any block - but it leaves
    the pointers to the released blocks in the inode, so each of them is free and still a block of the file. *)
Theorem ext4_truncate_correct (s : state) ino size (Hok : ok s) (Hs : (2 <= spare (heap s))%nat) (Hm : sound (disk s)) (Hi : inode_ok ino)
    (Hl : live (disk s) ino = true) (Hsz : 0 <= size < 2 ^ 63) :
  let old := file_size (disk s) ino in let block := file_block (bs := bs) (L := L) in let node := node (bs := bs) (L := L) in
  let cut := cut_off (bs := bs) (L := L) (disk s) ino (blocks_of (bs := bs) size) (if size <? old then blocks_of (bs := bs) old else blocks_of (bs := bs) size) in
  exists s', ext4_truncate s ino size = Ok (0, s') /\ ok s' /\ like (heap s) (heap s') /\
    (forall i, inode_ok i -> live (disk s') i = live (disk s) i) /\ (forall i, inode_ok i -> i <> ino -> node (disk s') i = node (disk s) i) /\
    rd i_size_lo (node (disk s') ino) = u32 size /\ rd i_size_hi (node (disk s') ino) = u32 (size / 2 ^ 32) /\
    (forall f, sizes_apart f -> rd f (node (disk s') ino) = rd f (node (disk s) ino)) /\
    (forall c, ~ meta bs L c -> blk (disk s') c = blk (disk s) c) /\ (forall c, area c -> used (disk s') c = true <-> used (disk s) c = true /\ ~ cut c) /\
    (forall i m, inode_ok i -> live (disk s) i = true -> 0 <= m -> block (disk s') i m = block (disk s) i m) /\
    (forall c, cut c -> used (disk s') c = false /\ exists m, 0 <= m /\ block (disk s') ino m = c).
Proof using Type*.
  intros old block nd cut. destruct (truncate_ok s ino size Hok Hs Hm Hi Hl Hsz) as (s' & E & H1' & H2' & H3' & H4' & H5' & H6' & H7' & H8' & Hu & Hb).
  exists s'. do 11 (split; [done|]). intros c Hc. pose proof Hc as (m & Hm' & Em & Hne). pose proof gl_bs.
  assert (0 <= blocks_of (bs := bs) size) by (apply Z.div_pos; lia). split.
  - apply not_true_iff_false. intros Hus. apply Hu in Hus; [by destruct Hus|]. rewrite <- Em. destruct (tr_good _ _ Hm ino (Data m)) as [[? _] _]; try done; [cbn; lia|]. unfold file_block in Em. by rewrite Em.
  - exists m. split; [lia|]. unfold block. rewrite Hb by (done || lia). exact Em.
Qed.

(** C18. An entry for a directory goes behind the first entry with enough unused bytes, and else into a block of its own at the end of the directory; the call fails, and changes no entry,
    only beyond the mapped blocks or on a device with at most one free block.  Every other file and directory is as it was. *)
Theorem ext4_add_dir_entry_correct (s : state) dir name ino type bl (Hok : ok s) (Hs : (3 <= spare (heap s))%nat) (Hm : sound (disk s)) (Hi : inode_ok dir)
    (Hl : live (disk s) dir = true) (Hd : is_directory (bs := bs) (L := L) (disk s) dir bl) (Hmax : (Z.of_nat (length bl) + 1) * bs < 2 ^ 32) (Hbs : bs < 65536)
    (Hg : good_entry ino type (take 255 name)) :
  exists r s', ext4_add_dir_entry s dir name ino type = Ok (r, s') /\ entry_added (bs := bs) (nblocks := nblocks) (L := L) s dir ino type (take 255 name) bl r s'.
Proof using Type*. by apply add_dir_entry_ok. Qed.

(** C19. Creating a file either fails, and then the same blocks and inodes are in use as before, with the free counts that go with them, every inode in use is unchanged and so are all
    files and the directory; or it takes a free inode, gives it the mode and one link, and enters it in the directory, while no other file changes.  A new directory then
    has the entries for itself and its parent, and its parent has one more link.  The code ignores whether the two entries could be added: when at most one block is
    left free, the new directory may instead be empty or have only the second one, and the call still reports success. *)
Theorem ext4_create_file_correct (s : state) parent name mode bl (Hok : ok s) (Hs : (3 <= spare (heap s))%nat) (Hm : sound (disk s)) (Hi : inode_ok parent)
    (Hl : live (disk s) parent = true) (Hd : is_directory (bs := bs) (L := L) (disk s) parent bl) (Hmax : (Z.of_nat (length bl) + 1) * bs < 2 ^ 32) (Hbs : bs < 65536)
    (Hb : Forall byte (take 255 name)) :
  exists r s', ext4_create_file s parent name mode = Ok (r, s') /\ ok s' /\ like (heap s) (heap s') /\ sound (disk s') /\
    ((r = -1 /\ not_created (bs := bs) (L := L) s parent bl s') \/ created (bs := bs) (L := L) s parent (take 255 name) mode bl r s').
Proof using Type*. by apply create_file_ok. Qed.
End ext4.

Section total.
Context {A D : Type} `{AllocatorLaws A} `{BlockDevice D}.
Hypothesis device_bytes : forall (d : D) b l, dv_read d b = Some l -> Forall byte l.

(** C21. On a disk with any contents, every operation on files ends, in a result or a fault, and with a result every buffer that it allocated was freed. *)
Theorem ext4_terminates (s : st A D) ino offset len src parent name mode size (Hi : a_inv (heap s)) (Hb : 0 <= block_size (fs s)) :
  ends s (ext4_read_file s ino offset len) /\ ends s (ext4_write_file s ino src offset) /\ ends s (ext4_create_file s parent name mode) /\
  ends s (ext4_truncate s ino size) /\ ends s (ext4_stat s ino) /\ ends s (ext4_sync_superblock s).
Proof using Type*.
  assert (fit s) by done.
  split; [by apply read_file_ends|]. split; [by apply write_file_ends|]. split; [by apply create_file_ends|]. split; [by apply truncate_ends|]. split; [by apply stat_ends|by apply sync_superblock_ends].
Qed.
End total.

Section mount.
Context {A D : Type} `{AllocatorLaws A} `{BlockDevice D} {nblocks : Z} {L : layout}.
Context `{!DeviceLaws D 1024 nblocks} `{!BufferPool A 1024} {GL : good_layout 1024 nblocks L}.

(** C17. Mounting a disk with 1024-byte blocks and 64-byte descriptors either fails and gives back all memory, or gives the state that the
    superblock and the descriptors describe, holding two allocations; unmounting writes the superblock back and frees both. *)
Theorem ext4_mount_unmount junk (m : mounted A D) (Hf : formatted (nblocks := nblocks) (L := L) (m_disk m)) (Hh : a_inv (m_heap m)) (Hj : forall n, length (junk n) = n /\ Forall byte (junk n)) :
  exists r m', ext4_mount junk m = Ok (r, m') /\ m_disk m' = m_disk m /\ a_inv (m_heap m') /\
    ((r = -1 /\ root_ext4 m' = root_ext4 m /\ cap_same (a_cap (m_heap m)) (a_cap (m_heap m'))) \/
     (r = 0 /\ exists f, root_ext4 m' = Some f /\ Ext4Alloc.ok (bs := 1024) (nblocks := nblocks) (L := L) (St f (m_heap m') (m_disk m')) /\
        mount_caps (m_heap m) (m_heap m') (fs_addr f) (descs_addr f) /\
        ((0 < spare (m_heap m'))%nat -> exists m2, ext4_unmount m' = Ok (0, m2) /\ root_ext4 m2 = None /\ cap_same (a_cap (m_heap m)) (a_cap (m_heap m2)) /\
           forall c, blk (m_disk m2) c = if decide (c = 1) then splice (blk (m_disk m) 1) 0 (sb f) else blk (m_disk m) c))).
Proof using Type*.
  destruct (ext4_mount_ok junk m Hf Hh Hj) as (r & m' & E & Ed & Hi & Hr). exists r, m'. split; [done|]. split; [done|]. split; [done|].
  destruct Hr as [?|(-> & f & Ef & Hok & Hc)]; [by left|right]. split; [done|]. exists f. split; [done|]. split; [done|]. split; [done|]. intros Hs.
  destruct Hc as (Hne & Hp & Hq & c1 & c2 & Hc). assert (1 < nblocks) as Hn1 by (pose proof (fm_room _ Hf); pose proof gl_count; assert (0 <= (l_count L + 15) / 16) by (apply Z.div_pos; lia); lia).
  destruct (ext4_unmount_ok m' f c1 c2 Ef Hok Hs Hn1) as (m2 & E2 & Er2 & _ & Hc2 & Hb2); [by rewrite Hc, decide_False, decide_True|by rewrite Hc, decide_True|done|].
  exists m2. split; [done|]. split; [done|]. rewrite Ed in Hb2. split; [|done]. intros x. rewrite Hc2, Hc.
  destruct (decide (x = descs_addr f)) as [->|]; [by rewrite decide_True by auto|]. destruct (decide (x = fs_addr f)) as [->|]; [by rewrite decide_True by auto|]. by rewrite decide_False by tauto.
Qed.
End mount.

(** ** Witnesses *)

Lemma ext4_write_file_correct_witness : exists k s', ext4_write_file demo 11 [104; 105] 1023 = Ok (k, s') /\ 0 <= k <= 2.
Proof.
  destruct (ext4_write_file_correct demo 11 [104; 105] 1023 demo_ok demo_spare demo_sound ltac:(unfold inode_ok; cbn; lia) ltac:(vm_compute; reflexivity)
    ltac:(lia) ltac:(reflexivity) ltac:(reflexivity) ltac:(apply (good_block_ok 2); vm_compute; reflexivity)) as (k & s' & E & Hk & _).
  exists k, s'. split; [exact E|exact Hk].
Defined.

Lemma ext4_read_file_correct_witness : exists s', ext4_read_file demo 11 0 100 = Ok (0, [], s').
Proof.
  destruct (ext4_read_file_correct demo 11 0 100 demo_ok demo_spare demo_sound ltac:(unfold inode_ok; cbn; lia) ltac:(vm_compute; reflexivity)
    ltac:(lia) ltac:(lia) ltac:(reflexivity)) as (k & s' & E & _ & Hk & _).
  assert (Ext4Rw.file_size (bs := 1024) (L := demo_layout) (disk demo) 11 = 0) as E0 by (vm_compute; reflexivity). cbv zeta in Hk. rewrite E0 in Hk. assert (k = 0) as -> by lia. exists s'. exact E.
Defined.

Lemma ext4_write_read_witness : exists k s1 s2, ext4_write_file demo 11 [104; 105] 1023 = Ok (k, s1) /\ ext4_read_file s1 11 1023 k = Ok (k, take (Z.to_nat k) [104; 105], s2).
Proof.
  exact (ext4_write_read demo 11 [104; 105] 1023 demo_ok demo_spare demo_sound ltac:(unfold inode_ok; cbn; lia) ltac:(vm_compute; reflexivity)
    ltac:(lia) ltac:(reflexivity) ltac:(reflexivity) ltac:(apply (good_block_ok 2); vm_compute; reflexivity)).
Defined.

Lemma ext4_alloc_block_correct_witness : exists r s', ext4_alloc_block demo 0 = Ok (r, s') /\ (r = -1 \/ used (L := demo_layout) demo_disk r = false).
Proof.
  destruct (ext4_alloc_block_correct demo 0 demo_ok demo_some ltac:(lia)) as (r & s' & E & _ & _ & Hr).
  exists r, s'. split; [exact E|]. destruct Hr as [[Hr _]|(_ & Hr & _)]; [by left|by right].
Defined.

Lemma ext4_mount_unmount_witness : exists r m', ext4_mount (fun n => replicate n 0) (Mounted None demo_heap demo_disk) = Ok (r, m') /\ m_disk m' = demo_disk.
Proof.
  destruct (ext4_mount_unmount (fun n => replicate n 0) (Mounted None demo_heap demo_disk) demo_formatted demo_heap_ok) as (r & m' & E & Ed & _).
  { intros n. split; [apply length_replicate|by apply Forall_replicate]. }
  exists r, m'. split; [exact E|exact Ed].
Defined.

Lemma ext4_truncate_correct_witness : exists s', ext4_truncate demo 11 0 = Ok (0, s') /\ rd i_size_lo (node (bs := 1024) (L := demo_layout) (disk s') 11) = 0.
Proof.
  destruct (ext4_truncate_correct demo 11 0 demo_ok ltac:(transitivity 3%nat; [lia|apply demo_spare]) demo_sound ltac:(unfold inode_ok; cbn; lia) ltac:(vm_compute; reflexivity) ltac:(lia))
    as (s' & E & _ & _ & _ & _ & Hlo & _).
  exists s'. split; [exact E|exact Hlo].
Defined.

(** After a truncation another file is given a block that the truncated file still points to: what is then written to the one is read from the other. *)
Theorem ext4_truncate_aliases :
  (r ← ext4_write_file demo 11 [104; 105] 0; r ← ext4_truncate (snd r) 11 0; r ← ext4_write_file (snd r) 10 [97; 98] 0; r ← ext4_write_file (snd r) 11 [88; 89] 0;
   r ← ext4_read_file (snd r) 10 0 2; Ok (fst r)) = Ok (2, [88; 89]).
Proof. vm_compute. reflexivity. Qed.

Lemma ext4_add_dir_entry_correct_witness : exists r s', ext4_add_dir_entry demo 11 [97] 5 1 = Ok (r, s') /\ Ext4Alloc.ok (bs := 1024) (nblocks := 64) (L := demo_layout) s'.
Proof.
  destruct (ext4_add_dir_entry_correct demo 11 [97] 5 1 [] demo_ok demo_spare demo_sound ltac:(unfold inode_ok; cbn; lia) ltac:(vm_compute; reflexivity) demo_directory ltac:(reflexivity) ltac:(reflexivity)
    ltac:(split; [lia|]; split; [lia|]; split; [vm_compute; discriminate|]; apply (good_block_ok 1); vm_compute; reflexivity)) as (r & s' & E & Ha).
  exists r, s'. split; [exact E|]. exact (ea_ok _ _ _ _ _ _ _ _ Ha).
Defined.

Lemma ext4_create_file_correct_witness : exists r s', ext4_create_file demo 11 [97] 0x41ED = Ok (r, s') /\ Ext4Alloc.ok (bs := 1024) (nblocks := 64) (L := demo_layout) s'.
Proof.
  destruct (ext4_create_file_correct demo 11 [97] 0x41ED [] demo_ok demo_spare demo_sound ltac:(unfold inode_ok; cbn; lia) ltac:(vm_compute; reflexivity) demo_directory ltac:(reflexivity) ltac:(reflexivity)
    ltac:(apply (good_block_ok 1); vm_compute; reflexivity)) as (r & s' & E & Hok & _).
  exists r, s'. split; [exact E|exact Hok].
Defined.

Lemma ext4_terminates_witness : ext4_read_file wild 11 0 100 <> NoFuel /\ ext4_create_file wild 2 [97] 0 <> NoFuel.
Proof.
  destruct (ext4_terminates byte_device_bytes wild 11 0 100 [] 2 [97] 0 0 demo_heap_ok ltac:(vm_compute; discriminate)) as (Hr & _ & Hc & _).
  split; intros E; [rewrite E in Hr; exact Hr|rewrite E in Hc; exact Hc].
Defined.

(** On the demonstration disk a directory is created in directory 11: it is inode 12, with its two entries in block 8; the entry of directory 11 is in block 7. *)
Example ext4_create_demo :
  match ext4_create_file demo 11 [97] 0x41ED with
  | Ok (r, s) => r = 12 /\ slice (blk (disk s) 7) 0 12 = [12; 0; 0; 0; 0; 4; 1; 2; 97; 0; 0; 0] /\
      slice (blk (disk s) 8) 0 24 = [12; 0; 0; 0; 12; 0; 1; 2; 46; 0; 0; 0; 11; 0; 0; 0; 244; 3; 2; 2; 46; 46; 0; 0]
  | _ => False
  end.
Proof. vm_compute. done. Qed.
